(* ===== verification/_CoqProject ===== *)
-Q . S2P
Prelude.v
Tasks.v
RustStr.v
External.v
Instances.v
Database.v
Samples.v
Permissions.v
Policies.v
AuthTypes.v
Signer.v
SignerSafety.v
SignerTasks.v
Ucan.v
HttpRpc.v
HttpRpcSafety.v
HashRing.v
ClusterSigner.v
Tokens.v
OAuthRepo.v
Users.v
UsersSafety.v
OAuth.v
OAuthSafety.v
Authorize.v
WorkQueue.v
Queues.v
RelaySafety.v
RateLimit.v
Tenant.v
Nip98.v
Accounts.v
AccountKeys.v
AccountsSafety.v
AccountKeysSafety.v
TeamRepo.v
TeamViews.v
Teams.v
TeamsSafety.v
TeamSigning.v
CustomerRepo.v
CustomerNotices.v
Customers.v
CustomerLimits.v
CustomersSafety.v
Claims.v
Headless.v
HeadlessSafety.v
OAuthPages.v
OAuthPagesSafety.v
AdminRepo.v
Admin.v
AdminTeams.v
AdminSafety.v
SupportAccess.v
Preloads.v
Atproto.v
AtprotoProofs.v
AtprotoOAuth.v
AtprotoSafety.v
KeyManagers.v
Server.v
Scopes.v
Names.v
Emails.v
EmailsSafety.v
Membership.v
Valkey.v
KeyMaterial.v
PgConnect.v
Metrics.v
Routes.v
Pages.v
PagesSafety.v
Lifecycle.v
TenantQuery.v
LoadTest.v
