(* ===== verification/Prelude.v ===== *)
(** * Keycast verification library

    Keycast keeps its users' Nostr secret keys and signs for them.  An
    application reaches a key in one of two ways: it sends NIP-46 requests over
    Nostr relays to a "bunker" key, or it calls an HTTP endpoint with a bearer
    token (a UCAN).  Both are governed by an authorization, a row that names the
    user or the team key, the policy whose permissions restrict what may be signed
    or encrypted, an expiry and a revocation.  Applications obtain authorizations
    through an OAuth flow.  Several instances share one database; a consistent
    hash ring decides which of them answers for a bunker key.

    ** Parts and files

    - [Prelude]: results, the state-and-error monad, reachability, SQL statements
      on lists of rows, the tactics and lemmas the components share.
    - [Tasks]: programs that run one statement at a time, with the reasoning by
      which an invariant of all interleavings is checked statement by statement.
    - [RustStr]: the string operations of the Rust standard library on byte
      strings; [External]: the third-party code as parameters (serde_json,
      nostr-sdk, bcrypt, HKDF, the key-encryption service, digests, base58, the
      ucan crate) with the laws used of it; [Instances]: a small executable
      instance of each, so that every model runs and every law is satisfiable.
    - [Database]: the PostgreSQL tables (core/src/types, database/migrations);
      [Samples]: small databases for the examples.
    - [Permissions]: core/src/traits.rs, core/src/custom_permissions/ and
      core/src/types/permission.rs.  The trait CustomPermission is a class, a boxed
      permission an existential package, [to_custom_permission] the factory.
    - [Policies]: core/src/types/policy.rs, core/src/repositories/policy.rs.
    - [AuthTypes]: core/src/types/authorization.rs, oauth_authorization.rs,
      core/src/bunker_key.rs, core/src/authorization_channel.rs.
    - [Signer]: signer/src/signer_daemon.rs, core/src/signing_session.rs: the cache
      of handlers and its tombstones, loading on demand, connect, the client check,
      the request methods, commands of the API process.  [SignerSafety] has what one
      request does; [SignerTasks] splits requests and commands into their statements,
      and proves that run without interruption they are the functions of [Signer].
    - [Ucan]: api/src/ucan_auth/did.rs and validation.rs; [KeyMaterial]: key_material.rs.
    - [HttpRpc]: api/src/handlers/http_rpc_handler.rs and
      api/src/api/http/nostr_rpc.rs: handlers, their cache, authentication, the
      endpoint.  [HttpRpcSafety] has its properties.
    - [HashRing]: cluster-hashring/src/ring.rs, registry.rs and coordinator.rs.
      [Membership]: the instances of a cluster together, as a step relation with
      lost messages and connections, starts, leaves and crashes, in which the
      listener and the heartbeat of an instance load and store its ring in separate
      steps.
    - [ClusterSigner]: the ring as the cluster interface of the signer.
    - [Valkey]: cluster-hashring/src/valkey_auth.rs and the renewal of the connections
      to Redis; [PgConnect]: core/src/database.rs, the connection to PostgreSQL.
    - [Tokens]: the repositories of refresh tokens, sign-in links, claim tokens and
      team invitations.
    - [OAuthRepo]: core/src/repositories/oauth_code.rs, oauth_authorization.rs,
      personal_keys.rs and the user queries of the token endpoint.
    - [OAuth]: the token endpoint of api/src/api/http/oauth.rs and the access tokens
      of api/src/api/http/auth.rs; [OAuthSafety] has its properties.
    - [Authorize]: core/src/repositories/registered_client.rs and the approval POST
      /oauth/authorize.
    - [Users]: core/src/repositories/user.rs and personal_keys.rs, the table of
      accounts; [UsersSafety] has the integrity of the tables and what deleting an
      account and changing its key do.
    - [WorkQueue], [Queues]: the bounded queues of api/src/ and signer/src/ (relay
      requests, bcrypt jobs, the pool of derived secrets, the cleanup of
      unverified accounts), as step relations; the workers run their items statement
      by statement.  [RelaySafety]: what the signer promises while they do.
    - [RateLimit]: the rate limits of api/src/; [Tenant]: tenant resolution and
      provisioning (api/src/api/tenant.rs); [Nip98]: the NIP-98 authentication of
      requests and its replay check.
    - [Accounts], [AccountKeys]: api/src/api/http/auth.rs: registration, login,
      verification and reset of the password; then the endpoints of a signed-in
      user (key export, key change, deletion, sessions, signing with a session).
      [AccountsSafety] and [AccountKeysSafety] have their properties.
    - [TeamRepo]: core/src/repositories/team.rs, stored_key.rs, authorization.rs and
      core/src/types/team.rs, user.rs; [TeamViews]: the two ways a team is read;
      [Teams]: api/src/api/http/teams.rs, policies.rs and api/src/api/error.rs;
      [TeamsSafety]: what the endpoints change and for whom; [TeamSigning]: the
      endpoints composed with the signer.
    - [CustomerRepo], [CustomerNotices], [Customers]: api/src/api/http/magic_link.rs,
      api/src/customer_deletion.rs and the repositories under them: the customers of
      a merchant, their sign-in and deletion links and the notices of a deletion;
      [CustomerLimits] and [CustomersSafety] have their properties.
    - [Claims]: api/src/api/http/claim.rs, preloaded accounts taken over by their
      owner; [Headless]: api/src/api/http/headless.rs, sign-up and sign-in without
      pages, with [HeadlessSafety].
    - [OAuthPages]: GET /oauth/authorize, the login, registration and nostrconnect
      pages of api/src/api/http/oauth.rs; [OAuthPagesSafety].
    - [AdminRepo], [Admin], [AdminTeams]: api/src/api/http/admin.rs and the queries
      it adds; [AdminSafety], [SupportAccess] (authorizations a support agent takes
      and gives back) and [Preloads] (preloaded accounts and their tokens).
    - [Atproto], [AtprotoProofs], [AtprotoOAuth]: the link of an account to an
      ATProto repository, DPoP proofs and client assertions, and the OAuth server
      for ATProto clients (api/src/api/http/atproto.rs, atproto_oauth.rs and the
      repositories under them); [AtprotoSafety].
    - [KeyManagers]: core/src/encryption/: the file, KMS and caching key managers.
    - [Server]: the parts of keycast/src/main.rs that decide something: allowed
      origins, the configuration put into the page, the panic hook; [Metrics]:
      core/src/metrics.rs, the counters and their text.
    - [Routes]: api/src/api/http/routes.rs, the table of the API as axum builds it,
      the policies for other origins and the discovery document; [Lifecycle]: the
      modes, the start, the pages outside the API and the shutdown of
      keycast/src/main.rs, with the relays of signer_daemon.rs.
    - [Pages]: the HTML of the pages of oauth.rs and claim.rs, as text with the
      places of the values; [PagesSafety]: what values do to their tags.
    - [TenantQuery]: core/src/tenant_query.rs; [LoadTest]: tools/loadtest/src/, the
      load test tool, with the reading of the server's metrics.
    - [Scopes]: core/src/oauth_scopes.rs; [Names]: api/src/divine_names.rs and
      nostr_profile.rs; [Emails]: api/src/email_service.rs, with [EmailsSafety].

    ** How the code is modelled

    A handler that changes state is a function of the state that returns the
    new state and a result ([SE]); changes made before an error stay, as they do
    without a transaction, and a transaction that fails changes nothing.  One SQL
    statement is one function on tables.  The clock is an argument in seconds, and
    so is what a handler draws at random.  A panic is a value of the error type
    (or [None]) where the source can reach one.  Concurrency is a step
    relation: the workers and the listener of the signer interleave statement by
    statement ([relay_step]), so do the listener and the heartbeat of an instance
    where they load and store the ring ([cluster_step]); elsewhere whole requests
    interleave ([rpc_step] and the runs of the API handlers), and where a race
    inside a handler matters ([code_redeemed_twice]) the handler is split between
    its statements.  64-bit and 16-bit integers are Z with their
    wrap-around written out (event kinds, the ring's hash, cache keys, token
    lifetimes).  The only loop without a structural bound is the retry loop of the
    bunker key derivation, run for DERIVE_FUEL = 64 rounds instead of the source's
    2^32: a round fails with probability about 2^-128, and
    [derive_bunker_keys_first] says what the loop finds and that it finds it.

    ** What is proved

    - Signing and encryption happen only when every permission of the policy
      allows them, under the user's key, over both transports; the two transports
      agree on signing ([sign_event_only_if_allowed], [crypt_only_if_allowed],
      [transports_agree]); the commerce permission confines its holder to its
      merchant ([commerce_envelope_confined]); a policy that was created loads back
      ([create_with_permissions_loads]) and the policy comparison is sound.
    - With the workers of the signer interleaved statement by statement: every
      response answers an accepted request, none is answered twice
      ([each_response_answers_a_request]); from a moment with no request in hand,
      revocation is final for OAuth authorizations ([revoked_stays_refused]) and an
      authorization keeps its client ([client_binding_stable]); what a request in
      hand at that moment can do is shown too ([revocation_overtaken],
      [racing_connects]).  A revoked token is refused by the HTTP endpoint
      ([revoked_token_rejected]).  The owner instance processes a request and no
      other does ([one_instance_answers]).
    - A bearer token is accepted only when it is signed, unexpired, of the tenant
      and of the user, and a token that is not cached is authenticated against its
      authorization ([validate_ucan_token_sound], [authenticate_sound]); the cache
      never serves a token or tenant another one's handler
      ([cache_hit_was_authenticated], [token_cache_key_injective]).
    - The ring after any sequence of joins and leaves is the rebuilt one
      ([incremental_equals_rebuild]), every key has exactly one owner
      ([exactly_one_owner]), and the registry's liveness window is as documented;
      after any run of a cluster, instances that Redis answers with the same members
      agree on one owner of each key once each has finished its sync undisturbed
      ([synced_instances_agree]).
    - A connection to Redis whose token ran out is replaced and the command
      repeated ([expired_token_renewed]); the database is asked five times
      ([database_connects]); what is signed for a token verifies
      ([signed_token_verifies]); the metrics read back as what was counted
      ([scrape_counts]), also by the load test tool ([tool_reads_server_metrics]),
      which passes its limit of requests by less than its workers ([request_limit]).
    - One-time tokens are used at most once in any interleaving, by a law proved
      once for the class [OneTimeTokens] and discharged by each repository
      ([tokens_used_at_most_once]).
    - The token endpoint: what a redeemed code and a refresh imply
      ([code_grant_sound], [refresh_rotates]), and that the access token it issues
      is one the signing endpoint accepts, as the authorization just created and
      with the granted policy ([issued_token_authenticates]); an approved code passes
      its checks ([approved_code_is_exchangeable]), and which redirect URIs a
      registered pattern accepts ([redirect_pattern_spec]).
    - Accounts: the tables keep the uniqueness and references their constraints
      ask for ([accounts_keep_integrity]); a login, a registration, a reset link, a key
      export, a deletion and a session do what they say and ask what they must
      ([login_sound], [registration_all_or_nothing], [reset_link_works_once],
      [password_asked_again], [account_deletion_authorized],
      [session_signs_only_if_allowed]), and who registers can log in
      ([register_then_login]).
    - Queues, limits and tenants: the relay queue loses nothing and drains in a
      bounded number of statements ([relay_queue_conserves], [relay_queue_drains]),
      the limits hold ([email_limit_holds]),
      a NIP-98 event is accepted once ([nip98_accepted_once]), one tenant exists per
      domain ([tenant_per_domain]).
    - Teams: an operation changes only the team it is about, and only for who is
      entitled to it ([team_changes_confined]); requests of the teams API handled one
      after the other leave a team an administrator ([team_keeps_admin]), deleting
      an account does not ([account_deletion_leaves_no_admin]); the bunker URL of a new team authorization connects
      ([team_bunker_url_connects]) and a deleted one is refused at once
      ([deleted_team_authorization_refused]).
    - Customers: what a customer's grant can reach, how many links the table holds
      when requests come one after the other, and that a deletion forgets them, that
      revoking an app stops it, that deletion notices are delivered
      ([customer_grant_confined], [sign_in_links_limited], [deletion_resets_limit],
      [revoked_app_stops], [deletion_notices_delivered]); a claimed account signs in
      ([claimed_account_signs_in]).
    - The pages approve silently only what was approved before
      ([silent_approval_sound]) and a nostrconnect URI reads back
      ([nostrconnect_round_trip]).
    - Administration: support agents change only what is theirs
      ([support_agents_confined]), and what they take they give back
      ([support_access_given_back]).
    - ATProto: what an exchanged code implies, an unlinked account gets no
      tokens, a client assertion is accepted once ([atproto_code_grant_sound],
      [disabled_link_gets_no_tokens], [client_assertion_accepted_once]).
    - A stored key decrypts to itself through the cache, and a cached key is not
      served past its time ([stored_keys_come_back], [withdrawn_keys_expire]);
      which origins are allowed ([cors_origin_spec]); no value put into a mail adds
      markup and a reset link stays on an allowed host ([mail_markup_fixed],
      [reset_link_confined]); what kinds a scope string stands for
      ([scope_string_kinds]).
    - A request reaches exactly the endpoint of the table that matches it
      ([dispatch_exact]), on the host of the customer tenant only the six handlers
      for customers ([customer_host_reaches]), and the answer of every endpoint of the
      API has the cross-origin headers of its policy ([cross_origin_headers]); the pages of the
      account claim keep their tags whatever they show ([claim_pages_markup_fixed]);
      when a start serves ([start_serves]) and which page stays without the web
      interface ([disabled_ui_hidden]).
    - Behaviour that departs from what comments or users expect is stated as
      theorems too: a revoked team authorization revives, a team upsert never
      loads, the HTTP transport drops permissions that do not parse, a preloaded
      account's token outlives its expiry in the cache, a sync keeps a vanished
      member, an expired invitation blocks a new one, one authorization code
      redeems twice under a race, two clients that connect at once are both accepted,
      a request that overtakes a revocation revives the key, a short PKCE challenge panics, a subdomain
      wildcard accepts other hosts, a team key signs for a client that never
      connected, a resent verification strands a registration, an unknown policy
      name gives full access, any session reaches any policy, the connect page
      grants everything, an ATProto refresh follows a later approval, a DPoP proof
      is accepted again after its window, a short reset token ends the server
      process ([short_reset_token_ends_server]), the scope that signs everything
      stops at kind 40000, a sync that overlaps a leave message is undone
      ([overlapping_updates_lose_member]), a refused token of Redis is kept
      ([rejected_token_kept]), a graceful shutdown leaves the instance's keys to
      nobody ([shutdown_orphans_keys]), a server without BUNKER_RELAYS starts,
      registers and ends ([start_serves]), the login page takes over the tags of a
      link's client_id ([link_writes_login_page]).

    ** Not modelled

    Log lines; the connections to relays, SMTP and KMS, which are arguments; the
    page of technical documentation, which is one fixed text
    (api/src/technical_docs.rs); the example programs, and of the load test tool the
    command line, the printed report and the setup over the database;
    signer/src/signer_manager.rs, which is not a module of its crate.  The cryptography, serde_json, axum's router, tower-http and the other
    libraries are parameters.  The scripts of the pages are text: what a browser does
    with them is not modelled.  The tests of the repository are not modelled. *)
From stdpp Require Export gmap strings list fin_maps sorting.
From Stdlib Require Export ZArith Lia Ascii.

#[global] Open Scope Z_scope.
#[global] Open Scope stdpp_scope.

(** ** Results

    Rust's [Result<T, E>].  [?] is [let?]; [ok_or] turns an option into a
    result. *)
Inductive result (A E : Type) : Type :=
| Ok (a : A)
| Err (e : E).
Arguments Ok {A E} a.
Arguments Err {A E} e.

Definition rbind {A B E} (r : result A E) (k : A -> result B E) : result B E :=
  match r with Ok a => k a | Err e => Err e end.

Definition map_err {A E F} (f : E -> F) (r : result A E) : result A F :=
  match r with Ok a => Ok a | Err e => Err (f e) end.

Definition ok_or {A E} (o : option A) (e : E) : result A E :=
  match o with Some a => Ok a | None => Err e end.

Definition ok {A E} (r : result A E) : option A :=
  match r with Ok a => Some a | Err _ => None end.

Definition is_ok {A E} (r : result A E) : bool :=
  match r with Ok _ => true | Err _ => false end.

Declare Scope keycast_scope.
Delimit Scope keycast_scope with keycast.
#[global] Open Scope keycast_scope.
Notation "'let?' x ':=' c 'in' k" := (rbind c (fun x => k))
  (at level 10, x name, c at level 100, k at level 200) : keycast_scope.
Notation "'let?' ' p ':=' c 'in' k" := (rbind c (fun x => match x with p => k end))
  (at level 10, p strict pattern, c at level 100, k at level 200)
  : keycast_scope.

(** [iter().map(f).collect::<Result<Vec<_>, _>>()]: the first error wins. *)
Fixpoint collect {A B E} (f : A -> result B E) (l : list A) : result (list B) E :=
  match l with
  | [] => Ok []
  | a :: l' => let? b := f a in let? bs := collect f l' in Ok (b :: bs)
  end.

(** [iter().find_map(f)] *)
Fixpoint find_map {A B} (f : A -> option B) (l : list A) : option B :=
  match l with
  | [] => None
  | a :: l' => match f a with Some b => Some b | None => find_map f l' end
  end.

(** [iter().find(p)]; also SELECT .. LIMIT 1 and [fetch_optional]: the first
    row of the table that satisfies the WHERE clause. *)
Fixpoint find_first {A} (p : A -> bool) (l : list A) : option A :=
  match l with
  | [] => None
  | a :: l' => if p a then Some a else find_first p l'
  end.

(** UPDATE .. SET f WHERE p: every matching row changes. *)
Definition update_where {A} (p : A -> bool) (f : A -> A) (l : list A) : list A :=
  map (fun a => if p a then f a else a) l.

(** The rows an UPDATE .. RETURNING gives back, as updated. *)
Definition returning {A} (p : A -> bool) (f : A -> A) (l : list A) : list A :=
  map f (List.filter p l).

(** DELETE .. WHERE p. *)
Definition delete_where {A} (p : A -> bool) (l : list A) : list A :=
  List.filter (fun a => negb (p a)) l.

(** SQL's [c IS NULL], [c > now] and [c IS NULL OR c > now] on a nullable
    column. *)
Definition is_null {A} (o : option A) : bool :=
  match o with None => true | Some _ => false end.
Definition null_or_after (o : option Z) (now : Z) : bool :=
  match o with None => true | Some t => now <? t end.

(** ** State and errors

    A handler that changes a state and may fail at any point: the changes made
    before a failure stay. *)
Definition SE (S E A : Type) : Type := S -> S * result A E.

Definition se_ret {S E A} (a : A) : SE S E A := fun s => (s, Ok a).
Definition se_fail {S E A} (e : E) : SE S E A := fun s => (s, Err e).
Definition se_lift {S E A} (r : result A E) : SE S E A := fun s => (s, r).
Definition se_gets {S E A} (f : S -> A) : SE S E A := fun s => (s, Ok (f s)).
Definition se_modify {S E} (f : S -> S) : SE S E unit := fun s => (f s, Ok tt).
Definition se_bind {S E A B} (c : SE S E A) (k : A -> SE S E B) : SE S E B :=
  fun s => match c s with (s', Ok a) => k a s' | (s', Err e) => (s', Err e) end.

Notation "'let!' x ':=' c 'in' k" := (se_bind c (fun x => k))
  (at level 10, x name, c at level 100, k at level 200) : keycast_scope.
Notation "'let!' ' p ':=' c 'in' k" := (se_bind c (fun x => match x with p => k end))
  (at level 10, p strict pattern, c at level 100, k at level 200)
  : keycast_scope.

(** ** Reachability

    Reflexive transitive closure of a step relation. *)
Section reach.
Context {S : Type} (step : S -> S -> Prop).

Inductive steps : S -> S -> Prop :=
| steps_refl s : steps s s
| steps_cons s1 s2 s3 : step s1 s2 -> steps s2 s3 -> steps s1 s3.

Lemma steps_one s1 s2 : step s1 s2 -> steps s1 s2.
Proof. eauto using steps. Qed.

Lemma steps_app s1 s2 s3 : steps s1 s2 -> steps s2 s3 -> steps s1 s3.
Proof. induction 1; eauto using steps. Qed.

(** An invariant of every step is an invariant of every run. *)
Lemma steps_invariant (P : S -> Prop) :
  (forall s s', step s s' -> P s -> P s') -> forall s s', steps s s' -> P s -> P s'.
Proof. intros Hstep s s'. induction 1; eauto. Qed.
End reach.

(** ** Automation

    [keycast] holds the inversion lemmas of the shared operations; the
    tactics below case on the conditionals a handler is made of. *)
Create HintDb keycast.
Create Rewrite HintDb keycast_rw.

(** Case on the scrutinee of the first [if] or [match] found, in the goal or
    in a hypothesis, and simplify. *)
Ltac case_if :=
  match goal with
  | |- context [if ?b then _ else _] => let E := fresh "E" in destruct b eqn:E
  | H : context [if ?b then _ else _] |- _ => let E := fresh "E" in destruct b eqn:E
  end.
Ltac case_match_in H :=
  match type of H with
  | context [match ?x with _ => _ end] => let E := fresh "E" in destruct x eqn:E
  end.

(** Turn boolean tests into propositions. *)
Ltac bool_to_prop :=
  repeat match goal with
  | H : _ && _ = true |- _ => apply andb_true_iff in H as [? ?]
  | H : _ || _ = false |- _ => apply orb_false_iff in H as [? ?]
  | H : negb _ = true |- _ => apply negb_true_iff in H
  | H : negb _ = false |- _ => apply negb_false_iff in H
  | H : bool_decide _ = true |- _ => apply bool_decide_eq_true in H
  | H : bool_decide _ = false |- _ => apply bool_decide_eq_false in H
  | H : (_ =? _) = true |- _ => apply Z.eqb_eq in H
  | H : (_ =? _) = false |- _ => apply Z.eqb_neq in H
  | H : (_ <? _) = true |- _ => apply Z.ltb_lt in H
  | H : (_ <? _) = false |- _ => apply Z.ltb_ge in H
  | H : (_ <=? _) = true |- _ => apply Z.leb_le in H
  | H : (_ <=? _) = false |- _ => apply Z.leb_gt in H
  end.

(** ** Shared lemmas *)
Lemma rbind_ok {A B E} (r : result A E) (k : A -> result B E) b :
  rbind r k = Ok b -> exists a, r = Ok a /\ k a = Ok b.
Proof. destruct r; simpl; [eauto | discriminate]. Qed.

Lemma map_err_ok {A E F} (f : E -> F) (r : result A E) a :
  map_err f r = Ok a <-> r = Ok a.
Proof. destruct r; simpl; split; congruence. Qed.

Lemma ok_or_ok {A E} (o : option A) (e : E) a : ok_or o e = Ok a <-> o = Some a.
Proof. destruct o; simpl; split; congruence. Qed.

Ltac inv_ok :=
  repeat match goal with
  | H : rbind _ _ = Ok _ |- _ => apply rbind_ok in H as (? & ? & ?)
  | H : map_err _ _ = Ok _ |- _ => apply map_err_ok in H
  | H : ok_or _ _ = Ok _ |- _ => apply ok_or_ok in H
  | H : Ok _ = Ok _ |- _ => injection H as H
  | H : Err _ = Ok _ |- _ => discriminate H
  | H : Ok _ = Err _ |- _ => discriminate H
  end; simplify_eq.

Lemma se_bind_ok {S E A B} (c : SE S E A) (k : A -> SE S E B) s s' b :
  se_bind c k s = (s', Ok b) -> exists s1 a, c s = (s1, Ok a) /\ k a s1 = (s', Ok b).
Proof. unfold se_bind. destruct (c s) as [s1 [a|e]]; [eauto | discriminate]. Qed.

(** A first step that only reads: it refuses and nothing changed, or the rest runs
    from the same state. *)
Lemma se_read_first {S E A B} (c : SE S E A) (k : A -> SE S E B) s s' r :
  fst (c s) = s -> se_bind c k s = (s', r) ->
  (is_ok r = false /\ s' = s) \/ exists a, c s = (s, Ok a) /\ k a s = (s', r).
Proof.
  intros Hc. unfold se_bind. destruct (c s) as [s1 [a|e]] eqn:Hr; simpl in Hc; subst s1; [eauto|]. intros [= <- <-]. by left.
Qed.

Lemma se_ret_ok {S E A} (a b : A) (s s' : S) : @se_ret S E A a s = (s', Ok b) -> s' = s /\ b = a.
Proof. by intros [= <- <-]. Qed.
Lemma se_gets_ok {S E A} (f : S -> A) b s s' : @se_gets S E A f s = (s', Ok b) -> s' = s /\ b = f s.
Proof. by intros [= <- <-]. Qed.
Lemma se_lift_ok {S E A} (r : result A E) b (s s' : S) : se_lift r s = (s', Ok b) -> s' = s /\ r = Ok b.
Proof. by intros [= <- <-]. Qed.

(** A relation between states that is reflexive and transitive holds of a
    sequence when it holds of its parts: how frame properties are proved. *)
Lemma se_bind_rel {S E A B} (R : S -> S -> Prop) (c : SE S E A) (k : A -> SE S E B) s :
  (forall x y z, R x y -> R y z -> R x z) ->
  R s (fst (c s)) -> (forall a s1, c s = (s1, Ok a) -> R s1 (fst (k a s1))) -> R s (fst (se_bind c k s)).
Proof.
  intros Htrans Hc Hk. unfold se_bind. destruct (c s) as [s1 [a|e]] eqn:E'; simpl in *; [|done].
  eapply Htrans; [done|]. by apply Hk.
Qed.

(** A result that evaluates to a success. *)
Lemma is_ok_Ok {A E} (r : result A E) : is_ok r = true -> exists a, r = Ok a.
Proof. destruct r; [eauto | discriminate]. Qed.

Lemma run_ok {S A E} (r : S * result A E) : is_ok (snd r) = true -> exists s a, r = (s, Ok a).
Proof. destruct r as [s [a|e]]; [eauto | discriminate]. Qed.

(** Invert a successful run into the runs of its parts. *)
Ltac se_inv :=
  repeat match goal with
  | H : se_bind _ _ _ = (_, Ok _) |- _ => apply se_bind_ok in H as (? & ? & ? & ?)
  | H : se_lift _ _ = (_, Ok _) |- _ => unfold se_lift in H; injection H as ? ?
  | H : se_gets _ _ = (_, Ok _) |- _ => unfold se_gets in H; injection H as ? ?
  | H : se_ret _ _ = (_, Ok _) |- _ => unfold se_ret in H; injection H as ? ?
  | H : se_modify _ _ = (_, Ok _) |- _ => unfold se_modify in H; injection H as ? ?
  | H : se_fail _ _ = (_, Ok _) |- _ => discriminate H
  end; subst.

Lemma collect_ok {A B E} (f : A -> result B E) l bs :
  collect f l = Ok bs <-> Forall2 (fun a b => f a = Ok b) l bs.
Proof.
  revert bs; induction l as [|a l IH]; intros bs; simpl; split.
  - intros [= <-]. constructor.
  - inversion_clear 1. done.
  - intros H. inv_ok. constructor; [done | by apply IH].
  - inversion_clear 1 as [|? b ? bs' Hf Hl]. rewrite Hf; simpl.
    apply IH in Hl. by rewrite Hl.
Qed.

Lemma collect_err {A B E} (f : A -> result B E) l e :
  collect f l = Err e -> exists a, a ∈ l /\ f a = Err e.
Proof.
  induction l as [|a l IH]; simpl; [discriminate|].
  destruct (f a) eqn:Hf; simpl.
  - destruct (collect f l) eqn:Hc; simpl; [discriminate|]. intros [= ->].
    destruct (IH eq_refl) as (a' & ? & ?). exists a'. split; [by constructor | done].
  - intros [= ->]. exists a. split; [constructor | done].
Qed.

Lemma find_first_Some {A} (p : A -> bool) l a :
  find_first p l = Some a -> a ∈ l /\ p a = true.
Proof.
  induction l as [|b l IH]; simpl; [discriminate|].
  destruct (p b) eqn:Hp; [intros [= ->]; split; [constructor | done]|].
  intros H. destruct (IH H). split; [by constructor | done].
Qed.

Lemma find_first_None {A} (p : A -> bool) l :
  find_first p l = None <-> forall a, a ∈ l -> p a = false.
Proof.
  induction l as [|b l IH]; simpl.
  - split; [intros _ a Ha; by apply not_elem_of_nil in Ha | done].
  - destruct (p b) eqn:Hp; split.
    + discriminate.
    + intros H. rewrite (H b) in Hp; [done | constructor].
    + intros H a [-> | Ha]%elem_of_cons; [done | by apply IH].
    + intros H. apply IH. intros a Ha. apply H. by constructor.
Qed.

Lemma find_first_is_Some {A} (p : A -> bool) l a :
  a ∈ l -> p a = true -> is_Some (find_first p l).
Proof.
  intros Ha Hp. destruct (find_first p l) eqn:E; [eauto|].
  rewrite (proj1 (find_first_None p l) E a Ha) in Hp. discriminate.
Qed.

(** A row that is the only match is the one a query finds. *)
Lemma find_first_unique {A} (p : A -> bool) l a :
  a ∈ l -> p a = true -> (forall b, b ∈ l -> p b = true -> b = a) ->
  find_first p l = Some a.
Proof.
  intros Ha Hp Huniq. destruct (find_first_is_Some p l a Ha Hp) as [b Hb].
  pose proof (find_first_Some _ _ _ Hb) as [Hb1 Hb2].
  by rewrite Hb, (Huniq b Hb1 Hb2).
Qed.

Lemma find_map_Some {A B} (f : A -> option B) l b :
  find_map f l = Some b -> exists a, a ∈ l /\ f a = Some b.
Proof.
  induction l as [|a l IH]; simpl; [discriminate|].
  destruct (f a) eqn:Hf; [intros [= ->]; exists a; split; [constructor | done]|].
  intros H. destruct (IH H) as (a' & ? & ?). exists a'. split; [by constructor | done].
Qed.

Lemma find_map_None {A B} (f : A -> option B) l : (forall a, a ∈ l -> f a = None) -> find_map f l = None.
Proof.
  induction l as [|a l IH]; intros H; simpl; [done|]. rewrite H by constructor. apply IH. intros b Hb. apply H. by constructor.
Qed.

Lemma find_map_ext {A B} (f g : A -> option B) l : (forall a, f a = g a) -> find_map f l = find_map g l.
Proof. intros H. induction l as [|a l IH]; simpl; [done|]. by rewrite H, IH. Qed.

Lemma find_first_ext {A} (p q : A -> bool) l :
  (forall a, a ∈ l -> p a = q a) -> find_first p l = find_first q l.
Proof.
  induction l as [|a l IH]; intros H; simpl; [done|].
  rewrite (H a) by constructor. destruct (q a); [done|].
  apply IH. intros b Hb. apply H. by constructor.
Qed.

Lemma update_where_elem {A} (p : A -> bool) f l b :
  b ∈ update_where p f l <->
  (exists a, a ∈ l /\ p a = true /\ b = f a) \/ (b ∈ l /\ p b = false).
Proof.
  unfold update_where. rewrite list_elem_of_fmap. split.
  - intros (a & Hb & Ha). destruct (p a) eqn:Hp; subst; [left; eauto | right; done].
  - intros [(a & Ha & Hp & ->) | [Hb Hp]]; eexists; (split; [|done]); by rewrite Hp.
Qed.

Lemma update_where_none {A} (p : A -> bool) f l : (forall a, a ∈ l -> p a = false) -> update_where p f l = l.
Proof.
  induction l as [|a l IH]; intros H; simpl; [done|]. rewrite H by constructor. f_equal. apply IH.
  intros b Hb. apply H. by constructor.
Qed.

(** A query whose condition an update falsifies finds no row afterwards. *)
Lemma find_first_update_none {A} (p q : A -> bool) f l :
  (forall a, a ∈ l -> p a = true -> q (f a) = false) ->
  (forall a, a ∈ l -> p a = false -> q a = false) ->
  find_first q (update_where p f l) = None.
Proof.
  intros Hf Hk. apply find_first_None. intros b.
  rewrite update_where_elem. intros [(a & Ha & Hp & ->) | [Hb Hp]]; eauto.
Qed.

(** A query no row of which an update touches or creates is unchanged. *)
Lemma find_first_update_frame {A} (p q : A -> bool) f l :
  (forall a, a ∈ l -> p a = true -> q a = false /\ q (f a) = false) ->
  find_first q (update_where p f l) = find_first q l.
Proof.
  induction l as [|a l IH]; intros H; simpl; [done|].
  assert (IH' : find_first q (update_where p f l) = find_first q l).
  { apply IH. intros b Hb. apply H. by constructor. }
  unfold update_where in *. rewrite IH'.
  destruct (p a) eqn:Hp; [|done].
  destruct (H a ltac:(constructor) Hp) as [-> ->]. done.
Qed.

Lemma delete_where_elem {A} (p : A -> bool) l a :
  a ∈ delete_where p l <-> a ∈ l /\ p a = false.
Proof.
  unfold delete_where. rewrite !list_elem_of_In, List.filter_In, negb_true_iff. done.
Qed.

Lemma find_first_delete_none {A} (p q : A -> bool) l :
  (forall a, a ∈ l -> q a = true -> p a = true) ->
  find_first q (delete_where p l) = None.
Proof.
  intros H. apply find_first_None. intros a [Ha Hp]%delete_where_elem.
  destruct (q a) eqn:Hq; [|done]. by rewrite (H a Ha Hq) in Hp.
Qed.

Lemma filter_length_le {A} (p : A -> bool) l : (length (List.filter p l) <= length l)%nat.
Proof. induction l as [|a l IH]; simpl; [lia|]. destruct (p a); simpl; lia. Qed.

Lemma existsb_false {A} (p : A -> bool) l :
  (forall a, a ∈ l -> p a = false) -> existsb p l = false.
Proof.
  intros H. apply not_true_is_false. intros (a & Ha & Hp)%existsb_exists.
  rewrite H in Hp; [done | by apply list_elem_of_In].
Qed.

Lemma filter_nil {A} (p : A -> bool) l :
  (forall a, a ∈ l -> p a = false) -> List.filter p l = [].
Proof.
  induction l as [|a l IH]; intros H; simpl; [done|].
  rewrite (H a) by constructor. apply IH. intros; apply H; by constructor.
Qed.

Lemma forallb_elem {A} (p : A -> bool) l :
  forallb p l = true <-> forall a, a ∈ l -> p a = true.
Proof. rewrite forallb_forall. setoid_rewrite list_elem_of_In. done. Qed.

Lemma existsb_elem {A} (p : A -> bool) l :
  existsb p l = true <-> exists a, a ∈ l /\ p a = true.
Proof. rewrite existsb_exists. setoid_rewrite list_elem_of_In. done. Qed.

#[export] Hint Resolve find_first_is_Some find_first_unique steps_one : keycast.
#[export] Hint Rewrite @update_where_elem @delete_where_elem @forallb_elem @existsb_elem : keycast_rw.

(** ** Distinct keys *)
Lemma NoDup_map_inj {A B} (f : A -> B) l a b : NoDup (map f l) -> a ∈ l -> b ∈ l -> f a = f b -> a = b.
Proof.
  induction l as [|x l IH]; simpl; [by intros _ ?%not_elem_of_nil|]. intros [Hx Hnd]%NoDup_cons.
  intros [->|Ha]%elem_of_cons [->|Hb]%elem_of_cons E; [done| | |by apply IH].
  - destruct Hx. rewrite E. by apply list_elem_of_fmap_2.
  - destruct Hx. rewrite <- E. by apply list_elem_of_fmap_2.
Qed.

Lemma NoDup_map_filter {A B} (f : A -> B) (p : A -> bool) l : NoDup (map f l) -> NoDup (map f (List.filter p l)).
Proof.
  induction l as [|x l IH]; simpl; [done|]. rewrite NoDup_cons. intros [Hx Hnd].
  destruct (p x); simpl; [|by auto]. apply NoDup_cons. split; [|by auto].
  intros (y & E & Hy)%list_elem_of_fmap. apply Hx, list_elem_of_fmap. exists y. split; [done|].
  apply list_elem_of_In, filter_In in Hy as [Hy _]. by apply list_elem_of_In.
Qed.

(** ** Frames: what a computation leaves of a part of the state *)
Section keeps.
Context {S T : Type} (part : S -> T) (R : T -> T -> Prop) `{!PreOrder R}.
Definition keeps {E A} (s : S) (c : SE S E A) : Prop := R (part s) (part (fst (c s))).

Lemma keeping_bind {E A B} s (c : SE S E A) (k : A -> SE S E B) :
  keeps s c -> (forall a s1, c s = (s1, Ok a) -> keeps s1 (k a)) -> keeps s (se_bind c k).
Proof. intros Hc Hk. apply (se_bind_rel (fun x y => R (part x) (part y))); [|done..]. intros x y z. apply transitivity. Qed.
Lemma keeping_same {E A} s (c : SE S E A) : part (fst (c s)) = part s -> keeps s c.
Proof. unfold keeps. by intros ->. Qed.
Lemma keeping_if {E A} s (b : bool) (c k : SE S E A) : keeps s c -> keeps s k -> keeps s (if b then c else k).
Proof. by destruct b. Qed.
End keeps.

(** The shape of a handler: sequences, tests and lookups. *)
Ltac keep :=
  repeat match goal with
  | |- keeps _ _ _ (se_bind _ _) => apply keeping_bind; [apply _| |intros ? ? _]
  | |- keeps _ _ _ (if _ then _ else _) => apply keeping_if
  | |- keeps _ _ _ (match ?x with _ => _ end) => destruct x
  | |- keeps _ _ _ (se_lift _) => apply keeping_same; [apply _|done]
  | |- keeps _ _ _ (se_ret _) => apply keeping_same; [apply _|done]
  | |- keeps _ _ _ (se_gets _) => apply keeping_same; [apply _|done]
  | |- keeps _ _ _ (se_fail _) => apply keeping_same; [apply _|done]
  end.
