(* ===== verification/Tasks.v ===== *)
(** * Tasks that interleave

    An async function of the source gives way to other tasks wherever it awaits
    a query, a cache operation or a channel.  A [task] is such a function cut at
    those points: a tree of statements, each of which reads and changes the
    shared state in one step, at the time and with the random choices it finds
    when it runs, and then says how the task goes on.  Tasks of one process
    interleave at statements; [run] is the task that runs without interference.
    [safe] is the rely/guarantee judgement of a task: every statement keeps the
    shared invariant, whatever the other tasks did in between as long as they
    kept it too. *)
From S2P Require Import Prelude.

Inductive task (Oracle St A : Type) : Type :=
| Done (a : A)
| Stmt (change : Z -> Oracle -> St -> St) (next : Z -> Oracle -> St -> task Oracle St A).
Arguments Done {Oracle St A} a.
Arguments Stmt {Oracle St A} change next.

Fixpoint task_bind {O St A B} (t : task O St A) (k : A -> task O St B) : task O St B :=
  match t with
  | Done a => k a
  | Stmt change next => Stmt change (fun now o s => task_bind (next now o s) k)
  end.

(** Without interference, at one time. *)
Fixpoint run {O St A} (now : Z) (o : O) (t : task O St A) (s : St) : St * A :=
  match t with
  | Done a => (s, a)
  | Stmt change next => run now o (next now o s) (change now o s)
  end.

Lemma run_bind {O St A B} now (o : O) (t : task O St A) (k : A -> task O St B) s :
  run now o (task_bind t k) s = let '(s', a) := run now o t s in run now o (k a) s'.
Proof. revert s. induction t as [a|change next IH]; intros s; simpl; [done | apply IH]. Qed.

(** At most [n] statements, whatever happens in between. *)
Fixpoint lasts {O St A} (n : nat) (t : task O St A) {struct t} : Prop :=
  match t with
  | Done _ => True
  | Stmt _ next => match n with O => False | S m => forall now o s, lasts m (next now o s) end
  end.

Lemma lasts_more {O St A} i j (t : task O St A) : (i <= j)%nat -> lasts i t -> lasts j t.
Proof.
  revert i j. induction t as [b|change next IH]; [simpl; done|].
  intros [|i] [|j] Hle Hu; simpl in *; try done; try lia.
  intros now o s. apply (IH now o s i j); [lia | apply Hu].
Qed.

Lemma lasts_bind {O St A B} n m (t : task O St A) (k : A -> task O St B) :
  lasts n t -> (forall a, lasts m (k a)) -> lasts (n + m) (task_bind t k).
Proof.
  intros Ht Hk. revert n Ht.
  induction t as [a|change next IH]; intros n Ht; simpl in *; [apply (lasts_more m); [lia | apply Hk]|].
  destruct n as [|n]; [done|]. simpl. intros now o s. by apply IH.
Qed.

(** What is left of [t] after [n] statements. *)
Inductive residual {O St A} (t : task O St A) : nat -> task O St A -> Prop :=
| residual_start : residual t 0 t
| residual_stmt n change next now o s : residual t n (Stmt change next) -> residual t (S n) (next now o s).

Lemma residual_lasts {O St A} limit (t : task O St A) n t' :
  residual t n t' -> lasts limit t -> exists m, limit = (n + m)%nat /\ lasts m t'.
Proof.
  intros Hr Hl. induction Hr as [|n change next now o s _ (m & -> & Hm)]; [by exists limit|].
  destruct m as [|m]; [done|]. exists m. split; [lia | apply Hm].
Qed.

(** ** Rely and guarantee *)
Section safe.
Context {O St E : Type} (I : Z -> St -> Prop) (out : St -> list E) (R : E -> Prop).

(** From time [t] on, every statement keeps [I] and either leaves the output as
    it is or adds one element that satisfies [R], [n] times at most; the result
    satisfies [Q], which may speak of the time at which the task ended. *)
Fixpoint safe {A} (Q : Z -> A -> Prop) (n : nat) (t : Z) (p : task O St A) : Prop :=
  match p with
  | Done a => Q t a
  | Stmt change next => forall now o s, t <= now -> I now s ->
      I now (change now o s) /\
      exists m, (m = n /\ out (change now o s) = out s \/
                 exists e, n = S m /\ R e /\ out (change now o s) = out s ++ [e]) /\
                safe Q m now (next now o s)
  end.

Lemma safe_more {A} (Q : Z -> A -> Prop) n n' t (p : task O St A) : (n <= n')%nat -> safe Q n t p -> safe Q n' t p.
Proof.
  revert n n' t. induction p as [a|change next IH]; simpl; [done|]. intros n n' t Hle Hp now o s Ht Hi.
  destruct (Hp now o s Ht Hi) as (Hi' & m & Hm & Hnext). split; [done|].
  destruct Hm as [[-> Hsame] | (e & -> & He & Hout)].
  - exists n'. split; [by left|]. by eapply IH.
  - destruct n' as [|m']; [lia|]. exists m'. split; [by right; exists e|]. eapply IH; [|done]. lia.
Qed.

Lemma safe_later {A} (Q : Z -> A -> Prop) n t t' (p : task O St A) :
  (forall u u' a, u <= u' -> Q u a -> Q u' a) -> t <= t' -> safe Q n t p -> safe Q n t' p.
Proof.
  intros HQ Hle. destruct p as [a|change next]; simpl; [by apply HQ|].
  intros Hp now o s Hn. apply Hp. lia.
Qed.

Lemma safe_bind {A B} (Q : Z -> A -> Prop) (Q' : Z -> B -> Prop) n m t (p : task O St A) k :
  safe Q n t p -> (forall u a, t <= u -> Q u a -> safe Q' m u (k a)) -> safe Q' (n + m) t (task_bind p k).
Proof.
  revert n t. induction p as [a|change next IH]; intros n t Hp Hk; simpl in *.
  - eapply safe_more; [|by apply Hk; [lia|]]. lia.
  - intros now o s Hn Hi. destruct (Hp now o s Hn Hi) as (Hi' & j & Hj & Hs). split; [done|].
    exists (j + m)%nat. split.
    + destruct Hj as [[-> Hsame] | (e & -> & He & Hout)]; [by left | right; by exists e].
    + apply IH; [done|]. intros u a Hu. apply Hk. lia.
Qed.
End safe.

(** ** Tasks that can fail

    The error monad over tasks, with the computations of [SE] as statements. *)
Definition ptask (O St E A : Type) : Type := task O St (result A E).
Definition pt_ret {O St E A} (a : A) : ptask O St E A := Done (Ok a).
Definition pt_lift {O St E A} (r : result A E) : ptask O St E A := Done r.
Definition pt_bind {O St E A B} (c : ptask O St E A) (k : A -> ptask O St E B) : ptask O St E B :=
  task_bind c (fun r => match r with Ok a => k a | Err e => Done (Err e) end).
(** One statement. *)
Definition pt_stmt {O St E A} (m : Z -> SE St E A) : ptask O St E A :=
  Stmt (fun now _ s => fst (m now s)) (fun now _ s => Done (snd (m now s))).

Notation "'let*' x ':=' c 'in' k" := (pt_bind c (fun x => k))
  (at level 10, x name, c at level 100, k at level 200) : keycast_scope.
Notation "'let*' ' p ':=' c 'in' k" := (pt_bind c (fun x => match x with p => k end))
  (at level 10, p strict pattern, c at level 100, k at level 200) : keycast_scope.

Section run_laws.
Context {O St E : Type}.

(** [p] runs as the computation [m]. *)
Definition runs_as {A} (now : Z) (p : ptask O St E A) (m : SE St E A) : Prop := forall o s, run now o p s = m s.

Lemma runs_ret {A} now (a : A) : runs_as now (pt_ret a) (se_ret a).
Proof. done. Qed.
Lemma runs_lift {A} now (r : result A E) : runs_as now (pt_lift r) (se_lift r).
Proof. done. Qed.
Lemma runs_fail {A} now (e : E) : runs_as now (pt_lift (@Err A E e)) (se_fail e).
Proof. done. Qed.
Lemma runs_stmt {A} now (m : Z -> SE St E A) : runs_as now (pt_stmt m) (m now).
Proof. intros o s. simpl. by destruct (m now s). Qed.
Lemma runs_bind {A B} now (p : ptask O St E A) m (k : A -> ptask O St E B) n :
  runs_as now p m -> (forall a, runs_as now (k a) (n a)) -> runs_as now (pt_bind p k) (se_bind m n).
Proof.
  intros Hp Hk o s. unfold pt_bind, se_bind. rewrite run_bind, Hp.
  destruct (m s) as [s1 [a|e]]; [apply Hk | done].
Qed.

Lemma lasts_stmt {A} (m : Z -> SE St E A) : lasts 1 (pt_stmt (O := O) m).
Proof. simpl. done. Qed.
Lemma lasts_pbind {A B} n m (p : ptask O St E A) (k : A -> ptask O St E B) :
  lasts n p -> (forall a, lasts m (k a)) -> lasts (n + m) (pt_bind p k).
Proof. intros Hp Hk. apply lasts_bind; [done|]. intros [a|e]; [apply Hk | done]. Qed.
End run_laws.

(** The judgement for tasks that can fail: [Q] of the value, when there is one. *)
Definition ok_with {E A} (Q : Z -> A -> Prop) (t : Z) (r : result A E) : Prop :=
  match r with Ok a => Q t a | Err _ => True end.

Section safe_laws.
Context {O St Ev E : Type} (I : Z -> St -> Prop) (out : St -> list Ev) (R : Ev -> Prop).
Notation psafe Q := (safe (O := O) I out R (ok_with (E := E) Q)).

Lemma psafe_bind {A B} (Q : Z -> A -> Prop) (Q' : Z -> B -> Prop) n m t (p : ptask O St E A) k :
  psafe Q n t p -> (forall u a, t <= u -> Q u a -> psafe Q' m u (k a)) -> psafe Q' (n + m) t (pt_bind p k).
Proof. intros Hp Hk. apply (safe_bind _ _ _ _ _ _ _ _ _ _ Hp). intros u [a|e] Hu Ha; [by apply Hk | done]. Qed.

(** A statement that only reads. *)
Lemma psafe_read {A} (Q : Z -> A -> Prop) n t (m : Z -> SE St E A) :
  (forall now s, fst (m now s) = s) ->
  (forall now s, t <= now -> I now s -> ok_with Q now (snd (m now s))) -> psafe Q n t (pt_stmt m).
Proof.
  intros Hsame HQ now o s Ht Hi. rewrite Hsame. split; [done|]. exists n. split; [by left|]. by apply HQ.
Qed.

(** A statement that writes. *)
Lemma psafe_write n t (f : Z -> St -> St) :
  (forall now s, t <= now -> I now s -> I now (f now s) /\ out (f now s) = out s) ->
  psafe (fun _ _ => True) n t (pt_stmt (fun now => se_modify (f now))).
Proof.
  intros Hf now o s Ht Hi. destruct (Hf now s Ht Hi) as [Hi' Ho]. split; [done|]. exists n. split; [by left | done].
Qed.
End safe_laws.
