(* ===== verification/RustStr.v ===== *)
(** * Rust strings

    A Rust [str] is a sequence of UTF-8 bytes; here it is a [string], one
    [ascii] per byte.  Searching, prefixes and suffixes are byte-wise in Rust
    too.  [chars] groups the bytes into UTF-8 encoded characters, which is what
    [char::is_whitespace], [trim] and [split_whitespace] look at. *)
From S2P Require Import Prelude.

(** ** Prefixes, suffixes, search *)
Fixpoint strip_prefix (p s : string) : option string :=
  match p, s with
  | EmptyString, _ => Some s
  | String a p', String b s' => if bool_decide (a = b) then strip_prefix p' s' else None
  | String _ _, EmptyString => None
  end.

Definition starts_with (p s : string) : bool :=
  match strip_prefix p s with Some _ => true | None => false end.

Fixpoint ends_with (p s : string) : bool :=
  bool_decide (s = p) || match s with EmptyString => false | String _ s' => ends_with p s' end.

Fixpoint contains (p s : string) : bool :=
  starts_with p s || match s with EmptyString => false | String _ s' => contains p s' end.

Definition contains_char (c : ascii) (s : string) : bool := contains (String c EmptyString) s.

(** [split_once(c)]: the parts before and after the first [c]. *)
Fixpoint split_once (c : ascii) (s : string) : option (string * string) :=
  match s with
  | EmptyString => None
  | String a s' =>
      if bool_decide (a = c) then Some (EmptyString, s')
      else match split_once c s' with
           | Some (x, y) => Some (String a x, y)
           | None => None
           end
  end.

(** [split(c)]: always at least one part. *)
Fixpoint split (c : ascii) (s : string) : list string :=
  match s with
  | EmptyString => [EmptyString]
  | String a s' =>
      if bool_decide (a = c) then EmptyString :: split c s'
      else match split c s' with
           | x :: l => String a x :: l
           | [] => [String a EmptyString]
           end
  end.

(** [join(sep)] *)
Fixpoint join (sep : string) (l : list string) : string :=
  match l with
  | [] => ""
  | [x] => x
  | x :: l' => x +:+ sep +:+ join sep l'
  end.

(** [&s[i..j]] by bytes; [None] is the panic of an out-of-range or reversed
    range.  (On an in-range index that is not a character boundary Rust panics
    as well; the uses of [slice] are at the ends of a matched substring or in
    ASCII data, the others are [prefix_str].) *)
Definition slice (s : string) (i j : Z) : option string :=
  if (0 <=? i) && (i <=? j) && (j <=? Z.of_nat (String.length s))
  then Some (String.substring (Z.to_nat i) (Z.to_nat (j - i)) s)
  else None.

Definition len (s : string) : Z := Z.of_nat (String.length s).

(** ** Characters *)
Definition byte_val (c : ascii) : Z := Z.of_N (N_of_ascii c).

Definition is_continuation (c : ascii) : bool :=
  (128 <=? byte_val c) && (byte_val c <? 192).

(** [&s[..n]]: [None] is the panic of an index past the end or inside a
    character. *)
Definition is_char_boundary (s : string) (n : Z) : bool :=
  (n =? 0) || (n =? len s)
  || match String.get (Z.to_nat n) s with Some c => negb (is_continuation c) | None => false end.
Definition prefix_str (s : string) (n : Z) : option string :=
  if (n <=? len s) && is_char_boundary s n then Some (String.substring 0 (Z.to_nat n) s) else None.

(** Leading continuation bytes, then the characters. *)
Fixpoint chars_aux (s : string) : string * list string :=
  match s with
  | EmptyString => (EmptyString, [])
  | String a s' =>
      let '(pre, cs) := chars_aux s' in
      if is_continuation a then (String a pre, cs)
      else (EmptyString, String a pre :: cs)
  end.

Definition chars (s : string) : list string := snd (chars_aux s).

Definition bytes_of (s : string) : list Z := map byte_val (String.list_ascii_of_string s).

(** [char::is_whitespace]: the Unicode White_Space property, by encoding. *)
Definition is_whitespace (ch : string) : bool :=
  match bytes_of ch with
  | [b] => ((9 <=? b) && (b <=? 13)) || (b =? 32)
  | [194; b] => (b =? 133) || (b =? 160)
  | [225; 154; 128] => true
  | [226; 128; b] => ((128 <=? b) && (b <=? 138)) || (b =? 168) || (b =? 169) || (b =? 175)
  | [226; 129; 159] => true
  | [227; 128; 128] => true
  | _ => false
  end.

Definition concat_str (l : list string) : string := foldr String.app "" l.

Fixpoint drop_while {A} (p : A -> bool) (l : list A) : list A :=
  match l with
  | [] => []
  | a :: l' => if p a then drop_while p l' else l
  end.

(** [trim()] *)
Definition trim (s : string) : string :=
  concat_str (reverse (drop_while is_whitespace (reverse (drop_while is_whitespace (chars s))))).

(** [split_whitespace()]: maximal runs of non-whitespace characters. *)
Fixpoint words_aux (cs : list string) : string * list string :=
  match cs with
  | [] => (EmptyString, [])
  | c :: cs' =>
      let '(cur, ws) := words_aux cs' in
      if is_whitespace c
      then (EmptyString, if bool_decide (cur = EmptyString) then ws else cur :: ws)
      else (c +:+ cur, ws)
  end.

Definition split_whitespace (s : string) : list string :=
  let '(cur, ws) := words_aux (chars s) in
  if bool_decide (cur = EmptyString) then ws else cur :: ws.

Definition is_ascii_hexdigit (c : ascii) : bool :=
  let b := byte_val c in
  ((48 <=? b) && (b <=? 57)) || ((65 <=? b) && (b <=? 70)) || ((97 <=? b) && (b <=? 102)).

Definition all_bytes (p : ascii -> bool) (s : string) : bool :=
  forallb p (String.list_ascii_of_string s).

(** [is_ascii], [to_ascii_lowercase], and the Unicode versions: outside ASCII
    they follow the Unicode tables of the standard library, which are a
    parameter. *)
Definition is_ascii (s : string) : bool := all_bytes (fun c => byte_val c <? 128) s.
Definition ascii_lower (c : ascii) : ascii :=
  if (65 <=? byte_val c) && (byte_val c <=? 90) then ascii_of_N (N_of_ascii c + 32) else c.
Fixpoint to_ascii_lowercase (s : string) : string :=
  match s with EmptyString => EmptyString | String c s' => String (ascii_lower c) (to_ascii_lowercase s') end.
Definition is_ascii_alphanumeric (c : ascii) : bool :=
  let b := byte_val c in
  ((48 <=? b) && (b <=? 57)) || ((65 <=? b) && (b <=? 90)) || ((97 <=? b) && (b <=? 122)).

Class Unicode := {
  unicode_lowercase : string -> string;
  unicode_uppercase : string -> string;
  unicode_alphanumeric : string -> bool;
}.
Definition to_lowercase `{Unicode} (s : string) : string :=
  if is_ascii s then to_ascii_lowercase s else unicode_lowercase s.
Definition is_alphanumeric `{Unicode} (ch : string) : bool :=
  if is_ascii ch then all_bytes is_ascii_alphanumeric ch else unicode_alphanumeric ch.

(** [char::to_uppercase] *)
Definition ascii_upper (c : ascii) : ascii :=
  if (97 <=? byte_val c) && (byte_val c <=? 122) then ascii_of_N (N_of_ascii c - 32) else c.
Definition char_to_uppercase `{Unicode} (ch : string) : string :=
  match ch with
  | String c EmptyString => if byte_val c <? 128 then String (ascii_upper c) EmptyString else unicode_uppercase ch
  | _ => unicode_uppercase ch
  end.
(** [str::to_uppercase] *)
Fixpoint to_ascii_uppercase (s : string) : string :=
  match s with EmptyString => EmptyString | String c s' => String (ascii_upper c) (to_ascii_uppercase s') end.
Definition to_uppercase `{Unicode} (s : string) : string :=
  if is_ascii s then to_ascii_uppercase s else unicode_uppercase s.

(** [String::from_utf8]: the byte sequences of the UTF-8 encoding. *)
Definition in_range (lo hi b : Z) : bool := (lo <=? b) && (b <=? hi).
Fixpoint utf8_valid (l : list Z) : bool :=
  match l with
  | [] => true
  | b :: l1 =>
      if b <? 128 then utf8_valid l1
      else
        match l1 with
        | [] => false
        | b1 :: l2 =>
            if in_range 194 223 b then in_range 128 191 b1 && utf8_valid l2
            else
              match l2 with
              | [] => false
              | b2 :: l3 =>
                  if in_range 224 239 b then
                    in_range (if b =? 224 then 160 else 128) (if b =? 237 then 159 else 191) b1
                    && in_range 128 191 b2 && utf8_valid l3
                  else
                    match l3 with
                    | [] => false
                    | b3 :: l4 =>
                        in_range 240 244 b
                        && in_range (if b =? 240 then 144 else 128) (if b =? 244 then 143 else 191) b1
                        && in_range 128 191 b2 && in_range 128 191 b3 && utf8_valid l4
                    end
              end
        end
  end.
Definition from_utf8 (bytes : string) : result string string :=
  if utf8_valid (bytes_of bytes) then Ok bytes else Err "invalid utf-8 sequence".

Definition eq_ignore_ascii_case (a b : string) : bool := bool_decide (to_ascii_lowercase a = to_ascii_lowercase b).

(** 64-bit signed arithmetic of a release build, which wraps. *)
Definition wrap_i64 (z : Z) : Z := (z + 2 ^ 63) mod 2 ^ 64 - 2 ^ 63.
Definition abs_i64 (z : Z) : Z := wrap_i64 (Z.abs z).

(** [trim_end_matches(c)] *)
Fixpoint trim_end_char (c : ascii) (s : string) : string :=
  match s with
  | EmptyString => EmptyString
  | String d s' => match trim_end_char c s' with
                   | EmptyString => if Ascii.eqb d c then EmptyString else String d EmptyString
                   | t => String d t
                   end
  end.

(** ** Decimal printing ([to_string()] of an integer) *)
Definition digit (n : Z) : ascii := ascii_of_N (Z.to_N (48 + n)).

Fixpoint print_pos (fuel : nat) (n : Z) (acc : string) : string :=
  match fuel with
  | O => acc
  | S f => let acc' := String (digit (n mod 10)) acc in
           if n / 10 =? 0 then acc' else print_pos f (n / 10) acc'
  end.

(** Sixty-four digits cover every machine-width integer. *)
Definition print_Z (n : Z) : string :=
  if n <? 0 then "-" +:+ print_pos 64 (- n) "" else print_pos 64 n "".

(** ** Lemmas *)
Lemma app_empty_r s : s +:+ "" = s.
Proof. induction s as [|c s IH]; [done|]. change (String c (s +:+ "") = String c s). by rewrite IH. Qed.

Lemma app_assoc_str (a b c : string) : (a +:+ b) +:+ c = a +:+ (b +:+ c).
Proof.
  induction a as [|x a IH]; [done|].
  change (String x ((a +:+ b) +:+ c) = String x (a +:+ (b +:+ c))). by rewrite IH.
Qed.

Lemma app_length_str (a b : string) :
  String.length (a +:+ b) = (String.length a + String.length b)%nat.
Proof. induction a as [|x a IH]; [done|]. change (S (String.length (a +:+ b)) = S (String.length a + String.length b))%nat. by rewrite IH. Qed.

Lemma strip_prefix_Some p s r : strip_prefix p s = Some r <-> s = p +:+ r.
Proof.
  revert s; induction p as [|a p IH]; intros s.
  - simpl. split; [intros [= ->]; done | intros ->; done].
  - change (String a p +:+ r) with (String a (p +:+ r)).
    destruct s as [|b s]; simpl; [split; discriminate|].
    case_bool_decide as Hab.
    + rewrite IH. split; [intros ->; by subst | intros [= _ ->]; done].
    + split; [discriminate | intros [= -> _]; done].
Qed.

Lemma starts_with_spec p s : starts_with p s = true <-> exists r, s = p +:+ r.
Proof.
  unfold starts_with. destruct (strip_prefix p s) as [r|] eqn:E.
  - apply strip_prefix_Some in E. split; eauto.
  - split; [discriminate|]. intros [r Hr%strip_prefix_Some]. congruence.
Qed.

Lemma ends_with_spec p s : ends_with p s = true <-> exists r, s = r +:+ p.
Proof.
  induction s as [|c s IH]; simpl; rewrite orb_true_iff, bool_decide_eq_true.
  - split; [intros [<-|[=]]; by exists "" |].
    intros [r Hr]. left. destruct r; [done | discriminate].
  - rewrite IH. split.
    + intros [<- | [r ->]]; [by exists "" | by exists (String c r)].
    + intros [[|c' r] Hr]; [left; by rewrite Hr|]. injection Hr as -> ->. right. eauto.
Qed.

Lemma contains_spec p s : contains p s = true <-> exists a b, s = a +:+ p +:+ b.
Proof.
  induction s as [|c s IH]; simpl; rewrite orb_true_iff, starts_with_spec.
  - split.
    + intros [[r Hr] | [=]]. by exists "", r.
    + intros (a & b & Hab). left. destruct a; [eauto | discriminate].
  - rewrite IH. split.
    + intros [[r Hr] | (a & b & ->)]; [by exists "", r | by exists (String c a), b].
    + intros ([|c' a] & b & Hab); [left; eauto|]. injection Hab as -> ->. right. eauto.
Qed.

Lemma split_once_Some c s x y :
  split_once c s = Some (x, y) ->
  s = x +:+ String c y /\ contains_char c x = false.
Proof.
  revert x y; induction s as [|a s IH]; intros x y; simpl; [discriminate|].
  case_bool_decide as Hac; [intros [= <- <-]; subst; done|].
  destruct (split_once c s) as [[x' y']|]; [|discriminate].
  intros [= <- <-]. destruct (IH _ _ eq_refl) as [-> Hx]. split; [done|].
  unfold contains_char in *. simpl. unfold starts_with at 1. simpl.
  by rewrite bool_decide_eq_false_2.
Qed.

Lemma split_once_None c s : split_once c s = None <-> contains_char c s = false.
Proof.
  induction s as [|a s IH]; simpl; [done|].
  unfold contains_char in *. simpl. unfold starts_with at 1. simpl.
  case_bool_decide as Hac.
  - rewrite bool_decide_eq_true_2 by congruence. by destruct s.
  - rewrite bool_decide_eq_false_2 by congruence. simpl.
    rewrite <- IH. destruct (split_once c s) as [[x y]|]; split; congruence.
Qed.

Lemma split_once_app c x y : contains_char c x = false -> split_once c (x +:+ String c y) = Some (x, y).
Proof.
  induction x as [|a x IH]; simpl; [by rewrite bool_decide_true|].
  unfold contains_char. simpl. unfold starts_with at 1. simpl. intros [Ha Hx]%orb_false_iff.
  rewrite IH by exact Hx. rewrite bool_decide_false; [done|]. intros ->. by rewrite bool_decide_true in Ha.
Qed.

Lemma contains_char_app c a b : contains_char c (a +:+ b) = contains_char c a || contains_char c b.
Proof.
  induction a as [|x a IH]; [done|]. unfold contains_char in *.
  change (starts_with (String c "") (String x (a +:+ b)) || contains (String c "") (a +:+ b) =
    (starts_with (String c "") (String x a) || contains (String c "") a) || contains (String c "") b).
  rewrite IH. unfold starts_with. simpl. by case_bool_decide.
Qed.

Lemma split_nonempty c s : split c s <> [].
Proof. destruct s as [|a s]; simpl; [done|]. case_bool_decide; [done|]. by destruct (split c s). Qed.

(** Splitting loses nothing: joining the parts gives the string back. *)
Lemma join_split c s : join (String c "") (split c s) = s.
Proof.
  induction s as [|a s IH]; [done|]. simpl. case_bool_decide as Hac.
  - subst a. pose proof (split_nonempty c s) as Hne.
    destruct (split c s) as [|x l] eqn:E; [done|].
    change (String c (join (String c "") (x :: l)) = String c s). by rewrite IH.
  - pose proof (split_nonempty c s) as Hne. destruct (split c s) as [|x l] eqn:E; [done|].
    rewrite <- IH. by destruct l.
Qed.

Lemma substring_middle a m b :
  String.substring (String.length a) (String.length m) (a +:+ m +:+ b) = m.
Proof.
  induction a as [|c a IH]; [|exact IH].
  change ("" +:+ m +:+ b) with (m +:+ b). simpl.
  induction m as [|c m IH]; [by destruct b|].
  change (String c m +:+ b) with (String c (m +:+ b)). simpl. by rewrite IH.
Qed.

#[export] Hint Rewrite starts_with_spec ends_with_spec contains_spec strip_prefix_Some : keycast_rw.

Lemma bytes_of_inj s t : bytes_of s = bytes_of t -> s = t.
Proof.
  revert t; induction s as [|a s IH]; intros [|b t]; simpl; try discriminate; [done|].
  intros [= Hab Hst]. f_equal; [|by apply IH].
  unfold byte_val in Hab. apply N2Z.inj in Hab.
  by rewrite <- (ascii_N_embedding a), <- (ascii_N_embedding b), Hab.
Qed.
