(* ===== verification/External.v ===== *)
(** * The code Keycast calls

    serde_json values, and the interfaces of nostr-sdk, serde, bcrypt, the KMS
    and the hash functions.  Their implementations are not part of the
    repository, so each is a class of operations; the laws the code relies on
    are separate classes, which the theorems that need them take as named
    hypotheses.  Errors of these libraries are only ever printed, so they are
    strings. *)
From S2P Require Import Prelude RustStr.

(** ** serde_json::Value *)
Inductive json : Type :=
| JNull
| JBool (b : bool)
| JInt (z : Z)
| JFloat (repr : string)
| JString (s : string)
| JArray (l : list json)
| JObject (m : list (string * json)).

(** [value["key"]]: null when the value is not an object or has no such key. *)
Definition json_get (j : json) (k : string) : json :=
  match j with
  | JObject m => match find_first (fun kv => bool_decide (fst kv = k)) m with
                 | Some kv => snd kv
                 | None => JNull
                 end
  | _ => JNull
  end.

(** [value.get("key")] *)
Definition json_lookup (j : json) (k : string) : option json :=
  match j with
  | JObject m => snd <$> find_first (fun kv => bool_decide (fst kv = k)) m
  | _ => None
  end.

(** [value[i]]: null when the value is not an array or is too short. *)
Definition json_nth (j : json) (i : nat) : json :=
  match j with JArray l => default JNull (l !! i) | _ => JNull end.

Definition as_str (j : json) : option string :=
  match j with JString s => Some s | _ => None end.
Definition as_u64 (j : json) : option Z :=
  match j with JInt z => if (0 <=? z) && (z <? 2 ^ 64) then Some z else None | _ => None end.
Definition as_i64 (j : json) : option Z :=
  match j with
  | JInt z => if (- 2 ^ 63 <=? z) && (z <? 2 ^ 63) then Some z else None
  | _ => None
  end.
Definition as_array (j : json) : option (list json) :=
  match j with JArray l => Some l | _ => None end.

(** ** nostr-sdk: keys, tags and events *)
Class Nostr := {
  PublicKey : Set;
  PublicKey_eq_dec :: EqDecision PublicKey;
  SecretKey : Set;
  Tag : Set;
  (** [PublicKey::from_hex], [to_hex], [SecretKey::from_slice] and
      [Keys::new(sk).public_key()] *)
  pk_from_hex : string -> result PublicKey string;
  pk_to_hex : PublicKey -> string;
  sk_from_slice : list Z -> result SecretKey string;
  sk_to_bytes : SecretKey -> list Z;
  pk_of : SecretKey -> PublicKey;
  (** [Keys::parse] of an nsec or hex secret *)
  keys_parse : string -> result SecretKey string;
  (** [Tag::parse], [tag.kind() == TagKind::p()], [tag.content()],
      [Tag::public_key] and [Tags::public_keys()] *)
  tag_parse : list string -> result Tag string;
  tag_is_p : Tag -> bool;
  tag_content : Tag -> option string;
  tag_public_key : PublicKey -> Tag;
  tags_public_keys : list Tag -> list PublicKey;
}.

(** [nostr_sdk::UnsignedEvent]; a kind is a [u16]. *)
Record UnsignedEvent `{Nostr} := {
  ue_pubkey : PublicKey;
  ue_created_at : Z;
  ue_kind : Z;
  ue_tags : list Tag;
  ue_content : string;
}.

(** [nostr_sdk::Event], the fields the signer reads. *)
Record Event `{Nostr} := {
  ev_id : string;
  ev_pubkey : PublicKey;
  ev_created_at : Z;
  ev_kind : Z;
  ev_tags : list Tag;
  ev_content : string;
  ev_sig : string;
}.

(** Signing and message encryption. *)
Class NostrCrypto `{Nostr} := {
  (** [UnsignedEvent::sign] *)
  sign_unsigned : SecretKey -> UnsignedEvent -> result Event string;
  (** [EventBuilder::new(kind, content).tags(..).custom_created_at(..)
      .sign_with_keys(..)] *)
  builder_sign : SecretKey -> Z -> string -> list Tag -> Z -> result Event string;
  nip44_encrypt : SecretKey -> PublicKey -> string -> result string string;
  nip44_decrypt : SecretKey -> PublicKey -> string -> result string string;
  nip04_encrypt : SecretKey -> PublicKey -> string -> result string string;
  nip04_decrypt : SecretKey -> PublicKey -> string -> result string string;
  (** [serde_json::to_string(&event)] and [serde_json::to_value(&event)] *)
  event_to_json : Event -> string;
  event_to_value : Event -> result json string;
}.

(** Signing keeps what is signed: kind, content and time come from the unsigned
    event, the author from the key.  The event builder may drop tags (it drops
    tags of the author itself by default) but adds none. *)
Class SignLaws `{NostrCrypto} : Prop := {
  sign_unsigned_faithful sk ue ev :
    sign_unsigned sk ue = Ok ev ->
    ev_pubkey ev = pk_of sk /\ ev_kind ev = ue_kind ue /\ ev_tags ev = ue_tags ue /\
    ev_content ev = ue_content ue /\ ev_created_at ev = ue_created_at ue;
  builder_sign_faithful sk kind content tags created_at ev :
    builder_sign sk kind content tags created_at = Ok ev ->
    ev_pubkey ev = pk_of sk /\ ev_kind ev = kind /\ ev_tags ev ⊆ tags /\
    ev_content ev = content /\ ev_created_at ev = created_at;
}.

(** ** serde: the configuration structs and events the code deserializes *)
Class Serde `{Nostr} := {
  json_from_str : string -> result json string;
  json_to_string : json -> string;
  de_AllowedKindsConfig : json -> result (option (list Z)) string;
  de_ContentFilterConfig : json -> result (option (list string)) string;
  de_CommerceEnvelopeConfig : json -> result string string;
  de_DecryptOnlyConfig : json -> result unit string;
  de_UnsignedEvent_str : string -> result UnsignedEvent string;
  de_UnsignedEvent_value : json -> result UnsignedEvent string;
}.

(** ** Secrets: bcrypt, HKDF and the key-encryption service *)
Class Secrets `{Nostr} := {
  (** [bcrypt::verify(..).unwrap_or(false)] *)
  bcrypt_verify : string -> string -> bool;
  (** HKDF-SHA256 keyed by the user's secret, expanded to 32 bytes *)
  hkdf_expand : SecretKey -> string -> list Z;
  (** [KeyManager::encrypt] / [decrypt] *)
  km_encrypt : list Z -> result (list Z) string;
  km_decrypt : list Z -> result (list Z) string;
}.

(** The service decrypts what it encrypted, and a key is read from its bytes. *)
Class KeyLaws `{Secrets} : Prop := {
  km_round_trip bytes encrypted : km_encrypt bytes = Ok encrypted -> km_decrypt encrypted = Ok bytes;
  sk_bytes_round_trip sk : sk_from_slice (sk_to_bytes sk) = Ok sk;
}.

(** [bcrypt::hash(password, cost)]: the salt it draws is an argument. *)
Class Bcrypt := {
  bcrypt_hash : Z -> string -> string -> result string string;
  (** [bcrypt::verify(password, hash)], an error when the hash does not parse *)
  bcrypt_check : string -> string -> result bool string;
}.

(** A hash verifies the password it was made from; the two readings of verify
    agree. *)
Class BcryptLaws `{Secrets, !Bcrypt} : Prop := {
  bcrypt_hash_verifies cost salt password h :
    bcrypt_hash cost salt password = Ok h -> bcrypt_verify password h = true;
  bcrypt_check_verify password h : bcrypt_check password h = Ok true <-> bcrypt_verify password h = true;
}.

(** ** Digests *)
Class Digests := {
  sha256_hex : string -> string;
  (** base64url, no padding, of the SHA-256 of a string *)
  sha256_b64url : string -> string;
  (** BLAKE3 of bytes *)
  blake3 : list Z -> list Z;
}.

(** ** Tokens: the ucan crate, base58 and hex *)
Class Encodings `{Nostr} := {
  b58_encode : list Z -> string;
  b58_decode : string -> result (list Z) string;
  hex_decode : string -> result (list Z) string;
  (** [PublicKey::from_slice] and [to_bytes] *)
  pk_from_slice : list Z -> result PublicKey string;
  pk_to_bytes : PublicKey -> list Z;
  (** [PublicKey::parse]: hex, npub or a nostr: URI *)
  pk_parse : string -> result PublicKey string;
}.

Definition is_byte (b : Z) : Prop := 0 <= b < 256.

(** base58 and key bytes read back what they wrote. *)
Class EncodingLaws `{Encodings} : Prop := {
  b58_round_trip l : Forall is_byte l -> b58_decode (b58_encode l) = Ok l;
  pk_bytes_are_bytes pk : Forall is_byte (pk_to_bytes pk);
  pk_bytes_round_trip pk : pk_from_slice (pk_to_bytes pk) = Ok pk;
}.

Class UcanLib := {
  Ucan : Type;
  (** [Ucan::try_from_token_string], [check_signature], [is_expired], [facts],
      [issuer] and [audience] *)
  ucan_parse : string -> result Ucan string;
  ucan_check_signature : Ucan -> result unit string;
  ucan_is_expired : Z -> Ucan -> bool;
  ucan_facts : Ucan -> list json;
  ucan_issuer : Ucan -> string;
  ucan_audience : Ucan -> string;
}.
