(* ===== verification/Instances.v ===== *)
(** * A concrete instance of the external interfaces

    Small executable stand-ins for nostr-sdk, serde, bcrypt and the KMS, on
    which the models run: the witnesses of the theorems evaluate on them.  Keys
    are strings, a secret [s] has the public key ["P" ++ s], encryption wraps
    the text with its recipient, requests are written ["method|param|param"]
    and events ["E1:content"] or ["E4:content"]. *)
From S2P Require Import Prelude RustStr External.

Definition toy_string_of_bytes (l : list Z) : string :=
  String.string_of_list_ascii (map (fun b => ascii_of_N (Z.to_N b)) l).

Definition toy_p_tag (t : list string) : option string :=
  match t with ["p"; x] => Some x | _ => None end.

#[export] Instance toy_nostr : Nostr := {
  PublicKey := string;
  SecretKey := string;
  Tag := list string;
  pk_from_hex s := if bool_decide (s = "") then Err "empty key" else Ok s;
  pk_to_hex p := p;
  sk_from_slice l := Ok (toy_string_of_bytes l);
  sk_to_bytes := bytes_of;
  pk_of s := "P" +:+ s;
  keys_parse s := if bool_decide (s = "") then Err "empty nsec" else Ok s;
  tag_parse l := match l with [] => Err "empty tag" | _ => Ok l end;
  tag_is_p t := match t with "p" :: _ => true | _ => false end;
  tag_content t := t !! 1%nat;
  tag_public_key p := ["p"; p];
  tags_public_keys := omap toy_p_tag;
}.

Definition toy_wrap (v : string) (sk : @SecretKey toy_nostr) (pk : @PublicKey toy_nostr) (s : string)
  : result string string := Ok (v +:+ s).

Definition toy_unwrap (v : string) (sk : @SecretKey toy_nostr) (pk : @PublicKey toy_nostr) (s : string)
  : result string string :=
  match strip_prefix v s with Some r => Ok r | None => Err "bad payload" end.

#[export] Instance toy_crypto : NostrCrypto := {
  sign_unsigned sk ue := Ok {| ev_id := "id"; ev_pubkey := pk_of sk;
    ev_created_at := ue_created_at ue; ev_kind := ue_kind ue; ev_tags := ue_tags ue;
    ev_content := ue_content ue; ev_sig := "sig" |};
  builder_sign sk kind content tags created_at := Ok {| ev_id := "id"; ev_pubkey := pk_of sk;
    ev_created_at := created_at; ev_kind := kind; ev_tags := tags;
    ev_content := content; ev_sig := "sig" |};
  nip44_encrypt := toy_wrap "44:";
  nip44_decrypt := toy_unwrap "44:";
  nip04_encrypt := toy_wrap "04:";
  nip04_decrypt := toy_unwrap "04:";
  event_to_json ev := "event " +:+ print_Z (ev_kind ev) +:+ " by " +:+ ev_pubkey ev
                      +:+ ": " +:+ ev_content ev;
  event_to_value ev := Ok (JObject [("kind", JInt (ev_kind ev)); ("pubkey", JString (ev_pubkey ev));
                                    ("content", JString (ev_content ev))]);
}.

#[export] Instance toy_sign_laws : SignLaws.
Proof. split; [intros sk ue ev [= <-] | intros sk k c t a ev [= <-]]; done. Qed.

Definition toy_event_json (kind : Z) (content : string) : json :=
  JObject [("kind", JInt kind); ("content", JString content); ("created_at", JInt 100);
           ("tags", JArray [])].

(** ["E1:x"] and ["E4:x"] are events, ["M" ++ k] a merchant config, ["K"], ["W"]
    and ["A"] (every kind) permission configs, ["[r]x"] an array of one string,
    ["a|b|c"] a request. *)
Definition toy_from_str (s : string) : result json string :=
  if bool_decide (s = "[]") then Ok (JArray []) else
  if bool_decide (s = "A") then Ok (JObject [("allowed_kinds", JNull)]) else
  if starts_with "[r]" s then Ok (JArray [JString (default "" (strip_prefix "[r]" s))]) else
  match strip_prefix "E1:" s, strip_prefix "E4:" s, strip_prefix "M" s with
  | Some r, _, _ => Ok (toy_event_json 1 r)
  | _, Some r, _ => Ok (toy_event_json 4 r)
  | _, _, Some r => Ok (JObject [("merchant_pubkey", JString r)])
  | None, None, None =>
      match split "|" s with
      | m :: (_ :: _) as params =>
          Ok (JObject [("id", JString "7"); ("method", JString m);
                       ("params", JArray (map JString params))])
      | _ => Ok (JString s)
      end
  end.

Definition toy_to_string (j : json) : string :=
  match j with
  | JString s => s
  | JArray [] => "[]"
  | JArray [JString r] => "[r]" +:+ r
  | JObject [("allowed_kinds", JNull)] => "A"
  | JObject [("merchant_pubkey", JString k)] => "M" +:+ k
  | JObject [("id", JString i); (f, JString r)] => i +:+ " " +:+ f +:+ " " +:+ r
  | _ => "?"
  end.

Definition toy_event_of_json (j : json) : result (@UnsignedEvent toy_nostr) string :=
  match as_u64 (json_get j "kind"), as_str (json_get j "content") with
  | Some k, Some c => Ok {| ue_pubkey := ""; ue_created_at := 0; ue_kind := k; ue_tags := [];
                            ue_content := c |}
  | _, _ => Err "not an event"
  end.

(** ["K"] allows kinds 1 and 7, ["K4"] kind 4; ["W"] blocks "spam". *)
#[export] Instance toy_serde : Serde := {
  json_from_str := toy_from_str;
  json_to_string := toy_to_string;
  de_AllowedKindsConfig j := match j with
    | JString "K" => Ok (Some [1; 7])
    | JString "K4" => Ok (Some [4])
    | JNull | JObject [("allowed_kinds", JNull)] => Ok None
    | _ => Err "bad allowed_kinds" end;
  de_ContentFilterConfig j := match j with
    | JString "W" => Ok (Some ["spam"])
    | JNull => Ok None
    | _ => Err "bad content_filter" end;
  de_CommerceEnvelopeConfig j := ok_or (as_str (json_get j "merchant_pubkey")) "missing field";
  de_DecryptOnlyConfig j := Ok tt;
  de_UnsignedEvent_str s := match strip_prefix "O" s with
    | Some r => Ok {| ue_pubkey := ""; ue_created_at := 0; ue_kind := 1327;
                      ue_tags := [["p"; r]]; ue_content := "order" |}
    | None => let? j := toy_from_str s in toy_event_of_json j end;
  de_UnsignedEvent_value := toy_event_of_json;
}.

#[export] Instance toy_secrets : Secrets := {
  bcrypt_verify secret hash := bool_decide (hash = "H" +:+ secret);
  hkdf_expand sk info := bytes_of (sk +:+ info);
  km_encrypt l := Ok l;
  km_decrypt l := Ok l;
}.

#[export] Instance toy_bcrypt : Bcrypt := {
  bcrypt_hash _ _ password := Ok ("H" +:+ password);
  bcrypt_check secret hash := Ok (bool_decide (hash = "H" +:+ secret));
}.
#[export] Instance toy_bcrypt_laws : BcryptLaws.
Proof.
  split.
  - intros cost salt password h [= <-]. simpl. by rewrite bool_decide_true.
  - intros password h. simpl. split; [by intros [= ->] | by intros ->].
Qed.

(** Letters outside ASCII have no case. *)
#[export] Instance toy_unicode : Unicode := {
  unicode_lowercase s := s; unicode_uppercase s := s; unicode_alphanumeric _ := true }.

#[export] Instance toy_digests : Digests := {
  sha256_hex s := "sha:" +:+ s;
  sha256_b64url s := "b64-sha256-digest:" +:+ s;
  blake3 l := l;
}.

(** Base58 is the identity on bytes, hex pads or cuts to 32; a token is its text, signed by
    the server for user "Pu" with the facts below, and expires at 1000. *)
#[export] Instance toy_encodings : Encodings := {
  b58_encode := toy_string_of_bytes;
  b58_decode s := Ok (bytes_of s);
  hex_decode s := Ok (take 32 (bytes_of s ++ replicate 32 0));
  pk_from_slice l := Ok (toy_string_of_bytes l);
  pk_to_bytes := bytes_of;
  pk_parse := Ok;
}.

Lemma toy_bytes_round_trip l : Forall is_byte l -> bytes_of (toy_string_of_bytes l) = l.
Proof.
  intros Hl. unfold bytes_of, toy_string_of_bytes. rewrite String.list_ascii_of_string_of_list_ascii, map_map.
  induction Hl as [|b l Hb _ IH]; simpl; [done|]. rewrite IH. f_equal.
  unfold byte_val. rewrite N_ascii_embedding; [unfold is_byte in Hb; lia|].
  unfold is_byte in Hb. lia.
Qed.

Lemma toy_string_round_trip s : toy_string_of_bytes (bytes_of s) = s.
Proof.
  unfold toy_string_of_bytes, bytes_of. rewrite map_map.
  rewrite (map_ext _ id), map_id; [apply String.string_of_list_ascii_of_string|].
  intros c. unfold byte_val, id. rewrite N2Z.id. apply ascii_N_embedding.
Qed.

#[export] Instance toy_key_laws : KeyLaws.
Proof. split; [by intros l e [= <-] | intros sk; simpl; by rewrite toy_string_round_trip]. Qed.

#[export] Instance toy_encoding_laws : EncodingLaws.
Proof.
  split.
  - intros l Hl. simpl. by rewrite toy_bytes_round_trip.
  - intros pk. apply Forall_map, Forall_forall. intros c _. unfold is_byte, byte_val.
    pose proof (N_ascii_bounded c). lia.
  - intros pk. simpl. by rewrite toy_string_round_trip.
Qed.

Definition toy_did (pk : string) : string :=
  "did:key:z" +:+ toy_string_of_bytes (231 :: 1 :: bytes_of pk).

#[export] Instance toy_ucan : UcanLib := {
  Ucan := string;
  ucan_parse s := Ok s;
  ucan_check_signature _ := Ok tt;
  ucan_is_expired now _ := 1000 <=? now;
  ucan_facts t := JObject [("redirect_origin", JString "app"); ("tenant_id", JInt 1)] ::
    match strip_prefix "bunker " t with
    | Some b => [JObject [("bunker_pubkey", JString b)]]
    | None => []
    end;
  ucan_issuer _ := toy_did "Pserver";
  ucan_audience _ := toy_did "Pu";
}.

Lemma toy_request :
  json_from_str "sign_event|E1:hello" =
  Ok (JObject [("id", JString "7"); ("method", JString "sign_event");
               ("params", JArray [JString "E1:hello"])]).
Proof. reflexivity. Qed.
