(* ===== verification/Database.v ===== *)
(** * The database

    The PostgreSQL tables the modelled code reads and writes, one row record
    per table (database/migrations and the FromRow structs of core/src/types).
    A table is the list of its rows with its id sequence.  One SQL statement is
    one function on tables: SELECT is [find_first] or a filter, UPDATE is
    [update_where], DELETE is [delete_where], INSERT is [insert_row].  Rows keep
    insertion order, which stands for the unspecified order of a SELECT without
    ORDER BY.  NOW() and Utc::now() are the argument [now] of an operation, in
    seconds.  A statement that cannot fail on a constraint or a missing row does
    not fail here: lost connections are not modelled. *)
From S2P Require Import Prelude RustStr.

(** core/src/repositories/error.rs *)
Inductive RepositoryError : Type :=
| RE_NotFound (msg : string)
| RE_Duplicate
| RE_Integrity (msg : string)
| RE_Database (msg : string).

Definition repository_error_str (e : RepositoryError) : string :=
  match e with
  | RE_NotFound m => "Not found: " +:+ m
  | RE_Duplicate => "Already exists"
  | RE_Integrity m => "Integrity violation: " +:+ m
  | RE_Database m => "Database error: " +:+ m
  end.

(** What sqlx reports: no row where [fetch_one] needs one, a database error
    with its SQLSTATE and message, or anything else. *)
Inductive sqlx_error : Type :=
| RowNotFound
| SqlxDatabase (code : option string) (message : string)
| SqlxOther (message : string).

Definition repository_error_from_sqlx (err : sqlx_error) : RepositoryError :=
  match err with
  | RowNotFound => RE_NotFound "record not found"
  | SqlxDatabase code message =>
      match code with
      | Some "23505" => RE_Duplicate
      | Some "23503" => RE_Integrity message
      | Some "23514" => RE_Integrity message
      | _ => RE_Database message
      end
  | SqlxOther message => RE_Database message
  end.

(** ** Tables *)
Record table (A : Type) : Type := { rows : list A; next_id : Z }.
Arguments Build_table {A} _ _.
Arguments rows {A} _.
Arguments next_id {A} _.

Definition empty_table {A} : table A := {| rows := []; next_id := 1 |}.

Definition insert_row {A} (mk : Z -> A) (t : table A) : table A * A :=
  let row := mk (next_id t) in
  ({| rows := rows t ++ [row]; next_id := next_id t + 1 |}, row).

Definition with_rows {A} (f : list A -> list A) (t : table A) : table A :=
  {| rows := f (rows t); next_id := next_id t |}.

(** ** Rows *)
Record permission_row : Type := {
  pr_id : Z; pr_identifier : string; pr_config : string;
  pr_created_at : Z; pr_updated_at : Z;
}.

Record policy_permission_row : Type := {
  pp_id : Z; pp_policy_id : Z; pp_permission_id : Z;
}.

Record Policy : Type := {
  pol_id : Z; pol_name : string; pol_team_id : option Z;
  pol_created_at : Z; pol_updated_at : Z;
  pol_slug : option string; pol_display_name : option string;
  pol_description : option string;
}.

(** core/src/types/authorization.rs: team authorizations *)
Record Authorization : Type := {
  au_id : Z; au_tenant_id : Z; au_stored_key_id : Z;
  au_secret_hash : string; au_bunker_public_key : string; au_relays : string;
  au_policy_id : Z; au_max_uses : option Z; au_expires_at : option Z;
  au_connected_client_pubkey : option string; au_connected_at : option Z;
  au_label : option string; au_created_at : Z; au_updated_at : Z;
  au_revoked_at : option Z; au_revoked_reason : option string;
}.

(** core/src/types/oauth_authorization.rs, with the activity columns *)
Record OAuthAuthorization : Type := {
  oa_id : Z; oa_user_pubkey : string; oa_redirect_origin : string;
  oa_client_id : option string; oa_bunker_public_key : string;
  oa_secret_hash : string; oa_relays : string; oa_policy_id : option Z;
  oa_tenant_id : Z; oa_client_pubkey : option string;
  oa_connected_client_pubkey : option string; oa_connected_at : option Z;
  oa_created_at : Z; oa_updated_at : Z; oa_revoked_at : option Z;
  oa_expires_at : option Z; oa_handle_expires_at : Z;
  oa_authorization_handle : option string;
  oa_last_activity : option Z; oa_activity_count : Z;
}.

Record personal_key_row : Type := {
  pk_user_pubkey : string; pk_encrypted_secret_key : list Z; pk_tenant_id : Z;
}.

(** core/src/types/stored_key.rs *)
Record StoredKey : Type := {
  sk_id : Z; sk_team_id : Z; sk_name : string; sk_pubkey : string;
  sk_secret_key : list Z; sk_tenant_id : Z; sk_created_at : Z; sk_updated_at : Z;
}.

(** The columns of [users]. *)
Record user_row : Type := {
  us_pubkey : string; us_tenant_id : Z; us_email : option string; us_email_verified : bool;
  us_password_hash : option string; us_email_verification_token : option string;
  us_email_verification_expires_at : option Z; us_email_verification_sent_at : option Z;
  us_password_reset_token : option string; us_password_reset_expires_at : option Z;
  us_username : option string; us_display_name : option string; us_vine_id : option string;
  us_redirect_uri : option string; us_atproto_enabled : bool; us_atproto_state : option string;
  us_atproto_did : option string; us_atproto_error : option string; us_atproto_updated_at : option Z;
  us_created_at : Z; us_updated_at : Z;
}.

(** INSERT INTO users with only the key and the tenant: every other column has
    its default. *)
Definition new_user (now : Z) (pubkey : string) (tenant_id : Z) : user_row := {|
  us_pubkey := pubkey; us_tenant_id := tenant_id; us_email := None; us_email_verified := false;
  us_password_hash := None; us_email_verification_token := None; us_email_verification_expires_at := None;
  us_email_verification_sent_at := None; us_password_reset_token := None;
  us_password_reset_expires_at := None; us_username := None; us_display_name := None; us_vine_id := None;
  us_redirect_uri := None; us_atproto_enabled := false; us_atproto_state := None; us_atproto_did := None;
  us_atproto_error := None; us_atproto_updated_at := None; us_created_at := now; us_updated_at := now |}.

(** Setting columns of a user; every UPDATE also runs the trigger that sets
    updated_at. *)
Definition us_set_email (email : option string) (u : user_row) : user_row := {|
  us_pubkey := us_pubkey u; us_tenant_id := us_tenant_id u; us_email := email;
  us_email_verified := us_email_verified u; us_password_hash := us_password_hash u;
  us_email_verification_token := us_email_verification_token u;
  us_email_verification_expires_at := us_email_verification_expires_at u;
  us_email_verification_sent_at := us_email_verification_sent_at u;
  us_password_reset_token := us_password_reset_token u;
  us_password_reset_expires_at := us_password_reset_expires_at u; us_username := us_username u;
  us_display_name := us_display_name u; us_vine_id := us_vine_id u; us_redirect_uri := us_redirect_uri u;
  us_atproto_enabled := us_atproto_enabled u; us_atproto_state := us_atproto_state u;
  us_atproto_did := us_atproto_did u; us_atproto_error := us_atproto_error u;
  us_atproto_updated_at := us_atproto_updated_at u; us_created_at := us_created_at u;
  us_updated_at := us_updated_at u |}.
Definition us_set_password_hash (hash : option string) (u : user_row) : user_row := {|
  us_pubkey := us_pubkey u; us_tenant_id := us_tenant_id u; us_email := us_email u;
  us_email_verified := us_email_verified u; us_password_hash := hash;
  us_email_verification_token := us_email_verification_token u;
  us_email_verification_expires_at := us_email_verification_expires_at u;
  us_email_verification_sent_at := us_email_verification_sent_at u;
  us_password_reset_token := us_password_reset_token u;
  us_password_reset_expires_at := us_password_reset_expires_at u; us_username := us_username u;
  us_display_name := us_display_name u; us_vine_id := us_vine_id u; us_redirect_uri := us_redirect_uri u;
  us_atproto_enabled := us_atproto_enabled u; us_atproto_state := us_atproto_state u;
  us_atproto_did := us_atproto_did u; us_atproto_error := us_atproto_error u;
  us_atproto_updated_at := us_atproto_updated_at u; us_created_at := us_created_at u;
  us_updated_at := us_updated_at u |}.
Definition us_set_email_verified (verified : bool) (u : user_row) : user_row := {|
  us_pubkey := us_pubkey u; us_tenant_id := us_tenant_id u; us_email := us_email u;
  us_email_verified := verified; us_password_hash := us_password_hash u;
  us_email_verification_token := us_email_verification_token u;
  us_email_verification_expires_at := us_email_verification_expires_at u;
  us_email_verification_sent_at := us_email_verification_sent_at u;
  us_password_reset_token := us_password_reset_token u;
  us_password_reset_expires_at := us_password_reset_expires_at u; us_username := us_username u;
  us_display_name := us_display_name u; us_vine_id := us_vine_id u; us_redirect_uri := us_redirect_uri u;
  us_atproto_enabled := us_atproto_enabled u; us_atproto_state := us_atproto_state u;
  us_atproto_did := us_atproto_did u; us_atproto_error := us_atproto_error u;
  us_atproto_updated_at := us_atproto_updated_at u; us_created_at := us_created_at u;
  us_updated_at := us_updated_at u |}.
Definition us_set_verification (token : option string) (expires_at : option Z) (u : user_row) : user_row := {|
  us_pubkey := us_pubkey u; us_tenant_id := us_tenant_id u; us_email := us_email u;
  us_email_verified := us_email_verified u; us_password_hash := us_password_hash u;
  us_email_verification_token := token; us_email_verification_expires_at := expires_at;
  us_email_verification_sent_at := us_email_verification_sent_at u;
  us_password_reset_token := us_password_reset_token u;
  us_password_reset_expires_at := us_password_reset_expires_at u; us_username := us_username u;
  us_display_name := us_display_name u; us_vine_id := us_vine_id u; us_redirect_uri := us_redirect_uri u;
  us_atproto_enabled := us_atproto_enabled u; us_atproto_state := us_atproto_state u;
  us_atproto_did := us_atproto_did u; us_atproto_error := us_atproto_error u;
  us_atproto_updated_at := us_atproto_updated_at u; us_created_at := us_created_at u;
  us_updated_at := us_updated_at u |}.
Definition us_set_verification_sent (sent_at : Z) (u : user_row) : user_row := {|
  us_pubkey := us_pubkey u; us_tenant_id := us_tenant_id u; us_email := us_email u;
  us_email_verified := us_email_verified u; us_password_hash := us_password_hash u;
  us_email_verification_token := us_email_verification_token u;
  us_email_verification_expires_at := us_email_verification_expires_at u;
  us_email_verification_sent_at := Some sent_at; us_password_reset_token := us_password_reset_token u;
  us_password_reset_expires_at := us_password_reset_expires_at u; us_username := us_username u;
  us_display_name := us_display_name u; us_vine_id := us_vine_id u; us_redirect_uri := us_redirect_uri u;
  us_atproto_enabled := us_atproto_enabled u; us_atproto_state := us_atproto_state u;
  us_atproto_did := us_atproto_did u; us_atproto_error := us_atproto_error u;
  us_atproto_updated_at := us_atproto_updated_at u; us_created_at := us_created_at u;
  us_updated_at := us_updated_at u |}.
Definition us_set_reset (token : option string) (expires_at : option Z) (u : user_row) : user_row := {|
  us_pubkey := us_pubkey u; us_tenant_id := us_tenant_id u; us_email := us_email u;
  us_email_verified := us_email_verified u; us_password_hash := us_password_hash u;
  us_email_verification_token := us_email_verification_token u;
  us_email_verification_expires_at := us_email_verification_expires_at u;
  us_email_verification_sent_at := us_email_verification_sent_at u; us_password_reset_token := token;
  us_password_reset_expires_at := expires_at; us_username := us_username u;
  us_display_name := us_display_name u; us_vine_id := us_vine_id u; us_redirect_uri := us_redirect_uri u;
  us_atproto_enabled := us_atproto_enabled u; us_atproto_state := us_atproto_state u;
  us_atproto_did := us_atproto_did u; us_atproto_error := us_atproto_error u;
  us_atproto_updated_at := us_atproto_updated_at u; us_created_at := us_created_at u;
  us_updated_at := us_updated_at u |}.
Definition us_set_username (username : option string) (u : user_row) : user_row := {|
  us_pubkey := us_pubkey u; us_tenant_id := us_tenant_id u; us_email := us_email u;
  us_email_verified := us_email_verified u; us_password_hash := us_password_hash u;
  us_email_verification_token := us_email_verification_token u;
  us_email_verification_expires_at := us_email_verification_expires_at u;
  us_email_verification_sent_at := us_email_verification_sent_at u;
  us_password_reset_token := us_password_reset_token u;
  us_password_reset_expires_at := us_password_reset_expires_at u; us_username := username;
  us_display_name := us_display_name u; us_vine_id := us_vine_id u; us_redirect_uri := us_redirect_uri u;
  us_atproto_enabled := us_atproto_enabled u; us_atproto_state := us_atproto_state u;
  us_atproto_did := us_atproto_did u; us_atproto_error := us_atproto_error u;
  us_atproto_updated_at := us_atproto_updated_at u; us_created_at := us_created_at u;
  us_updated_at := us_updated_at u |}.
Definition us_set_profile (vine_id display_name : option string) (u : user_row) : user_row := {|
  us_pubkey := us_pubkey u; us_tenant_id := us_tenant_id u; us_email := us_email u;
  us_email_verified := us_email_verified u; us_password_hash := us_password_hash u;
  us_email_verification_token := us_email_verification_token u;
  us_email_verification_expires_at := us_email_verification_expires_at u;
  us_email_verification_sent_at := us_email_verification_sent_at u;
  us_password_reset_token := us_password_reset_token u;
  us_password_reset_expires_at := us_password_reset_expires_at u; us_username := us_username u;
  us_display_name := display_name; us_vine_id := vine_id; us_redirect_uri := us_redirect_uri u;
  us_atproto_enabled := us_atproto_enabled u; us_atproto_state := us_atproto_state u;
  us_atproto_did := us_atproto_did u; us_atproto_error := us_atproto_error u;
  us_atproto_updated_at := us_atproto_updated_at u; us_created_at := us_created_at u;
  us_updated_at := us_updated_at u |}.
Definition us_set_redirect_uri (redirect_uri : option string) (u : user_row) : user_row := {|
  us_pubkey := us_pubkey u; us_tenant_id := us_tenant_id u; us_email := us_email u;
  us_email_verified := us_email_verified u; us_password_hash := us_password_hash u;
  us_email_verification_token := us_email_verification_token u;
  us_email_verification_expires_at := us_email_verification_expires_at u;
  us_email_verification_sent_at := us_email_verification_sent_at u;
  us_password_reset_token := us_password_reset_token u;
  us_password_reset_expires_at := us_password_reset_expires_at u; us_username := us_username u;
  us_display_name := us_display_name u; us_vine_id := us_vine_id u; us_redirect_uri := redirect_uri;
  us_atproto_enabled := us_atproto_enabled u; us_atproto_state := us_atproto_state u;
  us_atproto_did := us_atproto_did u; us_atproto_error := us_atproto_error u;
  us_atproto_updated_at := us_atproto_updated_at u; us_created_at := us_created_at u;
  us_updated_at := us_updated_at u |}.
Definition us_set_atproto (enabled : bool) (state did error : option string) (updated_at : Z) (u : user_row) : user_row := {|
  us_pubkey := us_pubkey u; us_tenant_id := us_tenant_id u; us_email := us_email u;
  us_email_verified := us_email_verified u; us_password_hash := us_password_hash u;
  us_email_verification_token := us_email_verification_token u;
  us_email_verification_expires_at := us_email_verification_expires_at u;
  us_email_verification_sent_at := us_email_verification_sent_at u;
  us_password_reset_token := us_password_reset_token u;
  us_password_reset_expires_at := us_password_reset_expires_at u; us_username := us_username u;
  us_display_name := us_display_name u; us_vine_id := us_vine_id u; us_redirect_uri := us_redirect_uri u;
  us_atproto_enabled := enabled; us_atproto_state := state; us_atproto_did := did;
  us_atproto_error := error; us_atproto_updated_at := Some updated_at; us_created_at := us_created_at u;
  us_updated_at := us_updated_at u |}.
Definition us_touch (now : Z) (u : user_row) : user_row := {|
  us_pubkey := us_pubkey u; us_tenant_id := us_tenant_id u; us_email := us_email u;
  us_email_verified := us_email_verified u; us_password_hash := us_password_hash u;
  us_email_verification_token := us_email_verification_token u;
  us_email_verification_expires_at := us_email_verification_expires_at u;
  us_email_verification_sent_at := us_email_verification_sent_at u;
  us_password_reset_token := us_password_reset_token u;
  us_password_reset_expires_at := us_password_reset_expires_at u; us_username := us_username u;
  us_display_name := us_display_name u; us_vine_id := us_vine_id u; us_redirect_uri := us_redirect_uri u;
  us_atproto_enabled := us_atproto_enabled u; us_atproto_state := us_atproto_state u;
  us_atproto_did := us_atproto_did u; us_atproto_error := us_atproto_error u;
  us_atproto_updated_at := us_atproto_updated_at u; us_created_at := us_created_at u; us_updated_at := now |}.

Record oauth_code_row : Type := {
  oc_tenant_id : Z; oc_code : string; oc_user_pubkey : string;
  oc_client_id : string; oc_redirect_uri : string; oc_scope : string;
  oc_code_challenge : option string; oc_code_challenge_method : option string;
  oc_expires_at : Z; oc_created_at : Z; oc_previous_auth_id : option Z;
  oc_state : option string; oc_is_headless : bool;
  oc_pending_email : option string; oc_pending_password_hash : option string;
  oc_pending_email_verification_token : option string;
  oc_pending_encrypted_secret : option (list Z);
  oc_device_code : option string;
}.

(** core/src/types/refresh_token.rs *)
Record RefreshToken : Type := {
  rt_id : Z; rt_token_hash : string; rt_authorization_id : Z; rt_tenant_id : Z;
  rt_created_at : Z; rt_expires_at : Z; rt_consumed_at : option Z;
}.

(** core/src/repositories/magic_link_token.rs *)
Record magic_link_row : Type := {
  ml_id : Z; ml_tenant_id : Z; ml_email : string; ml_token_hash : string; ml_purpose : string;
  ml_app_origin : string; ml_expires_at : Z; ml_consumed_at : option Z;
  ml_request_ip : option string; ml_created_at : Z;
}.

(** core/src/types/claim_token.rs *)
Record ClaimToken : Type := {
  ct_id : Z; ct_token : string; ct_user_pubkey : string; ct_expires_at : Z; ct_used_at : option Z;
  ct_created_at : Z; ct_created_by_pubkey : option string; ct_tenant_id : Z;
}.

(** core/src/repositories/team_invitation.rs *)
Record TeamInvitation : Type := {
  ti_id : Z; ti_team_id : Z; ti_tenant_id : Z; ti_email : string; ti_role : string; ti_token : string;
  ti_invited_by : string; ti_expires_at : Z; ti_accepted_at : option Z; ti_accepted_by : option string;
  ti_revoked_at : option Z; ti_created_at : Z;
}.

(** core/src/types/user.rs: the role of a user in a team *)
Inductive TeamUserRole : Type := Admin | Member.
#[export] Instance TeamUserRole_eq_dec : EqDecision TeamUserRole.
Proof. solve_decision. Defined.

(** core/src/types/team.rs and the join table team_users *)
Record Team : Type := {
  tm_id : Z; tm_name : string; tm_created_at : Z; tm_updated_at : Z; tm_tenant_id : Z;
}.
Record team_user_row : Type := {
  tu_id : Z; tu_team_id : Z; tu_user_pubkey : string; tu_role : TeamUserRole;
  tu_created_at : Z; tu_updated_at : Z;
}.

(** customer_deletion_notices *)
Record deletion_notice : Type := {
  dn_id : Z; dn_tenant_id : Z; dn_pubkey : string; dn_deleted_at : Z; dn_attempts : Z;
  dn_next_attempt_at : Z;
}.

(** customer_app_origins *)
Record customer_app_origin : Type := {
  co_id : Z; co_tenant_id : Z; co_origin : string; co_merchant_name : string; co_merchant_pubkey : string;
  co_created_at : Z;
}.

(** ** The whole database *)
Record Db : Type := {
  db_permissions : table permission_row;
  db_policy_permissions : table policy_permission_row;
  db_policies : table Policy;
  db_authorizations : table Authorization;
  db_oauth_authorizations : table OAuthAuthorization;
  db_personal_keys : list personal_key_row;
  db_stored_keys : table StoredKey;
  db_users : list user_row;
  db_oauth_codes : list oauth_code_row;
  db_refresh_tokens : table RefreshToken;
  db_magic_link_tokens : table magic_link_row;
  db_claim_tokens : table ClaimToken;
  db_team_invitations : table TeamInvitation;
  db_teams : table Team;
  db_team_users : table team_user_row;
  db_deletion_notices : table deletion_notice;
  db_customer_app_origins : table customer_app_origin;
}.

Definition empty_db : Db := {|
  db_permissions := empty_table; db_policy_permissions := empty_table; db_policies := empty_table;
  db_authorizations := empty_table; db_oauth_authorizations := empty_table; db_personal_keys := [];
  db_stored_keys := empty_table; db_users := []; db_oauth_codes := []; db_refresh_tokens := empty_table;
  db_magic_link_tokens := empty_table; db_claim_tokens := empty_table; db_team_invitations := empty_table;
  db_teams := empty_table; db_team_users := empty_table; db_deletion_notices := empty_table;
  db_customer_app_origins := empty_table |}.

(** Replacing one table. *)
Definition set_permissions (t : table permission_row) (d : Db) : Db := {|
  db_permissions := t; db_policy_permissions := db_policy_permissions d; db_policies := db_policies d;
  db_authorizations := db_authorizations d; db_oauth_authorizations := db_oauth_authorizations d;
  db_personal_keys := db_personal_keys d; db_stored_keys := db_stored_keys d; db_users := db_users d;
  db_oauth_codes := db_oauth_codes d; db_refresh_tokens := db_refresh_tokens d;
  db_magic_link_tokens := db_magic_link_tokens d; db_claim_tokens := db_claim_tokens d;
  db_team_invitations := db_team_invitations d; db_teams := db_teams d; db_team_users := db_team_users d;
  db_deletion_notices := db_deletion_notices d;
  db_customer_app_origins := db_customer_app_origins d |}.
Definition set_policy_permissions (t : table policy_permission_row) (d : Db) : Db := {|
  db_permissions := db_permissions d; db_policy_permissions := t; db_policies := db_policies d;
  db_authorizations := db_authorizations d; db_oauth_authorizations := db_oauth_authorizations d;
  db_personal_keys := db_personal_keys d; db_stored_keys := db_stored_keys d; db_users := db_users d;
  db_oauth_codes := db_oauth_codes d; db_refresh_tokens := db_refresh_tokens d;
  db_magic_link_tokens := db_magic_link_tokens d; db_claim_tokens := db_claim_tokens d;
  db_team_invitations := db_team_invitations d; db_teams := db_teams d; db_team_users := db_team_users d;
  db_deletion_notices := db_deletion_notices d;
  db_customer_app_origins := db_customer_app_origins d |}.
Definition set_policies (t : table Policy) (d : Db) : Db := {|
  db_permissions := db_permissions d; db_policy_permissions := db_policy_permissions d; db_policies := t;
  db_authorizations := db_authorizations d; db_oauth_authorizations := db_oauth_authorizations d;
  db_personal_keys := db_personal_keys d; db_stored_keys := db_stored_keys d; db_users := db_users d;
  db_oauth_codes := db_oauth_codes d; db_refresh_tokens := db_refresh_tokens d;
  db_magic_link_tokens := db_magic_link_tokens d; db_claim_tokens := db_claim_tokens d;
  db_team_invitations := db_team_invitations d; db_teams := db_teams d; db_team_users := db_team_users d;
  db_deletion_notices := db_deletion_notices d;
  db_customer_app_origins := db_customer_app_origins d |}.
Definition set_authorizations (t : table Authorization) (d : Db) : Db := {|
  db_permissions := db_permissions d; db_policy_permissions := db_policy_permissions d;
  db_policies := db_policies d; db_authorizations := t;
  db_oauth_authorizations := db_oauth_authorizations d; db_personal_keys := db_personal_keys d;
  db_stored_keys := db_stored_keys d; db_users := db_users d; db_oauth_codes := db_oauth_codes d;
  db_refresh_tokens := db_refresh_tokens d; db_magic_link_tokens := db_magic_link_tokens d;
  db_claim_tokens := db_claim_tokens d; db_team_invitations := db_team_invitations d;
  db_teams := db_teams d; db_team_users := db_team_users d; db_deletion_notices := db_deletion_notices d;
  db_customer_app_origins := db_customer_app_origins d |}.
Definition set_oauth_authorizations (t : table OAuthAuthorization) (d : Db) : Db := {|
  db_permissions := db_permissions d; db_policy_permissions := db_policy_permissions d;
  db_policies := db_policies d; db_authorizations := db_authorizations d; db_oauth_authorizations := t;
  db_personal_keys := db_personal_keys d; db_stored_keys := db_stored_keys d; db_users := db_users d;
  db_oauth_codes := db_oauth_codes d; db_refresh_tokens := db_refresh_tokens d;
  db_magic_link_tokens := db_magic_link_tokens d; db_claim_tokens := db_claim_tokens d;
  db_team_invitations := db_team_invitations d; db_teams := db_teams d; db_team_users := db_team_users d;
  db_deletion_notices := db_deletion_notices d;
  db_customer_app_origins := db_customer_app_origins d |}.
Definition set_personal_keys (t : list personal_key_row) (d : Db) : Db := {|
  db_permissions := db_permissions d; db_policy_permissions := db_policy_permissions d;
  db_policies := db_policies d; db_authorizations := db_authorizations d;
  db_oauth_authorizations := db_oauth_authorizations d; db_personal_keys := t;
  db_stored_keys := db_stored_keys d; db_users := db_users d; db_oauth_codes := db_oauth_codes d;
  db_refresh_tokens := db_refresh_tokens d; db_magic_link_tokens := db_magic_link_tokens d;
  db_claim_tokens := db_claim_tokens d; db_team_invitations := db_team_invitations d;
  db_teams := db_teams d; db_team_users := db_team_users d; db_deletion_notices := db_deletion_notices d;
  db_customer_app_origins := db_customer_app_origins d |}.
Definition set_stored_keys (t : table StoredKey) (d : Db) : Db := {|
  db_permissions := db_permissions d; db_policy_permissions := db_policy_permissions d;
  db_policies := db_policies d; db_authorizations := db_authorizations d;
  db_oauth_authorizations := db_oauth_authorizations d; db_personal_keys := db_personal_keys d;
  db_stored_keys := t; db_users := db_users d; db_oauth_codes := db_oauth_codes d;
  db_refresh_tokens := db_refresh_tokens d; db_magic_link_tokens := db_magic_link_tokens d;
  db_claim_tokens := db_claim_tokens d; db_team_invitations := db_team_invitations d;
  db_teams := db_teams d; db_team_users := db_team_users d; db_deletion_notices := db_deletion_notices d;
  db_customer_app_origins := db_customer_app_origins d |}.
Definition set_users (t : list user_row) (d : Db) : Db := {|
  db_permissions := db_permissions d; db_policy_permissions := db_policy_permissions d;
  db_policies := db_policies d; db_authorizations := db_authorizations d;
  db_oauth_authorizations := db_oauth_authorizations d; db_personal_keys := db_personal_keys d;
  db_stored_keys := db_stored_keys d; db_users := t; db_oauth_codes := db_oauth_codes d;
  db_refresh_tokens := db_refresh_tokens d; db_magic_link_tokens := db_magic_link_tokens d;
  db_claim_tokens := db_claim_tokens d; db_team_invitations := db_team_invitations d;
  db_teams := db_teams d; db_team_users := db_team_users d; db_deletion_notices := db_deletion_notices d;
  db_customer_app_origins := db_customer_app_origins d |}.
Definition set_oauth_codes (t : list oauth_code_row) (d : Db) : Db := {|
  db_permissions := db_permissions d; db_policy_permissions := db_policy_permissions d;
  db_policies := db_policies d; db_authorizations := db_authorizations d;
  db_oauth_authorizations := db_oauth_authorizations d; db_personal_keys := db_personal_keys d;
  db_stored_keys := db_stored_keys d; db_users := db_users d; db_oauth_codes := t;
  db_refresh_tokens := db_refresh_tokens d; db_magic_link_tokens := db_magic_link_tokens d;
  db_claim_tokens := db_claim_tokens d; db_team_invitations := db_team_invitations d;
  db_teams := db_teams d; db_team_users := db_team_users d; db_deletion_notices := db_deletion_notices d;
  db_customer_app_origins := db_customer_app_origins d |}.
Definition set_refresh_tokens (t : table RefreshToken) (d : Db) : Db := {|
  db_permissions := db_permissions d; db_policy_permissions := db_policy_permissions d;
  db_policies := db_policies d; db_authorizations := db_authorizations d;
  db_oauth_authorizations := db_oauth_authorizations d; db_personal_keys := db_personal_keys d;
  db_stored_keys := db_stored_keys d; db_users := db_users d; db_oauth_codes := db_oauth_codes d;
  db_refresh_tokens := t; db_magic_link_tokens := db_magic_link_tokens d;
  db_claim_tokens := db_claim_tokens d; db_team_invitations := db_team_invitations d;
  db_teams := db_teams d; db_team_users := db_team_users d; db_deletion_notices := db_deletion_notices d;
  db_customer_app_origins := db_customer_app_origins d |}.
Definition set_magic_link_tokens (t : table magic_link_row) (d : Db) : Db := {|
  db_permissions := db_permissions d; db_policy_permissions := db_policy_permissions d;
  db_policies := db_policies d; db_authorizations := db_authorizations d;
  db_oauth_authorizations := db_oauth_authorizations d; db_personal_keys := db_personal_keys d;
  db_stored_keys := db_stored_keys d; db_users := db_users d; db_oauth_codes := db_oauth_codes d;
  db_refresh_tokens := db_refresh_tokens d; db_magic_link_tokens := t;
  db_claim_tokens := db_claim_tokens d; db_team_invitations := db_team_invitations d;
  db_teams := db_teams d; db_team_users := db_team_users d; db_deletion_notices := db_deletion_notices d;
  db_customer_app_origins := db_customer_app_origins d |}.
Definition set_claim_tokens (t : table ClaimToken) (d : Db) : Db := {|
  db_permissions := db_permissions d; db_policy_permissions := db_policy_permissions d;
  db_policies := db_policies d; db_authorizations := db_authorizations d;
  db_oauth_authorizations := db_oauth_authorizations d; db_personal_keys := db_personal_keys d;
  db_stored_keys := db_stored_keys d; db_users := db_users d; db_oauth_codes := db_oauth_codes d;
  db_refresh_tokens := db_refresh_tokens d; db_magic_link_tokens := db_magic_link_tokens d;
  db_claim_tokens := t; db_team_invitations := db_team_invitations d; db_teams := db_teams d;
  db_team_users := db_team_users d; db_deletion_notices := db_deletion_notices d;
  db_customer_app_origins := db_customer_app_origins d |}.
Definition set_team_invitations (t : table TeamInvitation) (d : Db) : Db := {|
  db_permissions := db_permissions d; db_policy_permissions := db_policy_permissions d;
  db_policies := db_policies d; db_authorizations := db_authorizations d;
  db_oauth_authorizations := db_oauth_authorizations d; db_personal_keys := db_personal_keys d;
  db_stored_keys := db_stored_keys d; db_users := db_users d; db_oauth_codes := db_oauth_codes d;
  db_refresh_tokens := db_refresh_tokens d; db_magic_link_tokens := db_magic_link_tokens d;
  db_claim_tokens := db_claim_tokens d; db_team_invitations := t; db_teams := db_teams d;
  db_team_users := db_team_users d; db_deletion_notices := db_deletion_notices d;
  db_customer_app_origins := db_customer_app_origins d |}.
Definition set_teams (t : table Team) (d : Db) : Db := {|
  db_permissions := db_permissions d; db_policy_permissions := db_policy_permissions d;
  db_policies := db_policies d; db_authorizations := db_authorizations d;
  db_oauth_authorizations := db_oauth_authorizations d; db_personal_keys := db_personal_keys d;
  db_stored_keys := db_stored_keys d; db_users := db_users d; db_oauth_codes := db_oauth_codes d;
  db_refresh_tokens := db_refresh_tokens d; db_magic_link_tokens := db_magic_link_tokens d;
  db_claim_tokens := db_claim_tokens d; db_team_invitations := db_team_invitations d; db_teams := t;
  db_team_users := db_team_users d; db_deletion_notices := db_deletion_notices d;
  db_customer_app_origins := db_customer_app_origins d |}.
Definition set_team_users (t : table team_user_row) (d : Db) : Db := {|
  db_permissions := db_permissions d; db_policy_permissions := db_policy_permissions d;
  db_policies := db_policies d; db_authorizations := db_authorizations d;
  db_oauth_authorizations := db_oauth_authorizations d; db_personal_keys := db_personal_keys d;
  db_stored_keys := db_stored_keys d; db_users := db_users d; db_oauth_codes := db_oauth_codes d;
  db_refresh_tokens := db_refresh_tokens d; db_magic_link_tokens := db_magic_link_tokens d;
  db_claim_tokens := db_claim_tokens d; db_team_invitations := db_team_invitations d;
  db_teams := db_teams d; db_team_users := t; db_deletion_notices := db_deletion_notices d;
  db_customer_app_origins := db_customer_app_origins d |}.
Definition set_deletion_notices (t : table deletion_notice) (d : Db) : Db := {|
  db_permissions := db_permissions d; db_policy_permissions := db_policy_permissions d;
  db_policies := db_policies d; db_authorizations := db_authorizations d;
  db_oauth_authorizations := db_oauth_authorizations d; db_personal_keys := db_personal_keys d;
  db_stored_keys := db_stored_keys d; db_users := db_users d; db_oauth_codes := db_oauth_codes d;
  db_refresh_tokens := db_refresh_tokens d; db_magic_link_tokens := db_magic_link_tokens d;
  db_claim_tokens := db_claim_tokens d; db_team_invitations := db_team_invitations d;
  db_teams := db_teams d; db_team_users := db_team_users d; db_deletion_notices := t;
  db_customer_app_origins := db_customer_app_origins d |}.
Definition set_customer_app_origins (t : table customer_app_origin) (d : Db) : Db := {|
  db_permissions := db_permissions d; db_policy_permissions := db_policy_permissions d;
  db_policies := db_policies d; db_authorizations := db_authorizations d;
  db_oauth_authorizations := db_oauth_authorizations d; db_personal_keys := db_personal_keys d;
  db_stored_keys := db_stored_keys d; db_users := db_users d; db_oauth_codes := db_oauth_codes d;
  db_refresh_tokens := db_refresh_tokens d; db_magic_link_tokens := db_magic_link_tokens d;
  db_claim_tokens := db_claim_tokens d; db_team_invitations := db_team_invitations d;
  db_teams := db_teams d; db_team_users := db_team_users d; db_deletion_notices := db_deletion_notices d;
  db_customer_app_origins := t |}.

(** A table whose ids are distinct and below its sequence. *)
Definition ids_fresh {A} (key : A -> Z) (t : table A) : Prop :=
  NoDup (map key (rows t)) /\ Forall (fun r => key r < next_id t) (rows t).

Lemma insert_row_fresh {A} (key : A -> Z) (mk : Z -> A) t :
  (forall i, key (mk i) = i) -> ids_fresh key t -> ids_fresh key (fst (insert_row mk t)).
Proof.
  intros Hkey [Hnd Hlt]. unfold insert_row, ids_fresh; simpl.
  rewrite map_app, Forall_app, Forall_singleton; simpl. rewrite Hkey. split.
  - apply NoDup_app. split; [done|]. split; [|apply NoDup_singleton].
    intros x Hx ->%list_elem_of_singleton.
    apply list_elem_of_fmap in Hx as (r & Hr & Hin).
    rewrite Forall_forall in Hlt. specialize (Hlt r Hin). lia.
  - split; [|lia]. eapply Forall_impl; [done|]. simpl; intros; lia.
Qed.

Lemma update_where_fresh {A} (key : A -> Z) (p : A -> bool) f t :
  (forall r, key (f r) = key r) -> ids_fresh key t ->
  ids_fresh key (with_rows (update_where p f) t).
Proof.
  intros Hkey [Hnd Hlt]. unfold ids_fresh, with_rows, update_where; simpl. split.
  - replace (map key (map (fun a => if p a then f a else a) (rows t)))
      with (map key (rows t)); [done|].
    rewrite map_map. apply map_ext. intros r. by destruct (p r).
  - apply Forall_map. eapply Forall_impl; [done|]. simpl. intros r. destruct (p r); by rewrite ?Hkey.
Qed.
#[export] Hint Resolve insert_row_fresh update_where_fresh : keycast.
