(* ===== verification/Samples.v ===== *)
(** * Sample rows

    Small databases on which the witnesses evaluate the models: one user "Pu"
    of tenant 1 with secret "u", her OAuth authorization 1, and a team
    authorization 2 under the stored key 5 with secret "k".  Connection secrets
    hash to "H" and the secret, bunker keys follow from the toy key derivation. *)
From S2P Require Import Prelude RustStr External Instances Database.

Definition user_bunker : string := "Pukeycast-bunker-nip46-v1-Hs".
Definition team_bunker : string := "Pkkeycast-bunker-nip46-v1-Ht".

Definition sample_oauth (client : option string) (revoked expires : option Z) : OAuthAuthorization := {|
  oa_id := 1; oa_user_pubkey := "Pu"; oa_redirect_origin := "https://app.example";
  oa_client_id := Some "app"; oa_bunker_public_key := user_bunker; oa_secret_hash := "Hs";
  oa_relays := "[]"; oa_policy_id := None; oa_tenant_id := 1; oa_client_pubkey := None;
  oa_connected_client_pubkey := client; oa_connected_at := None; oa_created_at := 0;
  oa_updated_at := 0; oa_revoked_at := revoked; oa_expires_at := expires;
  oa_handle_expires_at := 1000; oa_authorization_handle := Some "handle";
  oa_last_activity := None; oa_activity_count := 0 |}.

Definition sample_team (revoked : option Z) : Authorization := {|
  au_id := 2; au_tenant_id := 1; au_stored_key_id := 5; au_secret_hash := "Ht";
  au_bunker_public_key := team_bunker; au_relays := "[]"; au_policy_id := 1; au_max_uses := None;
  au_expires_at := None; au_connected_client_pubkey := None; au_connected_at := None;
  au_label := None; au_created_at := 0; au_updated_at := 0; au_revoked_at := revoked;
  au_revoked_reason := None |}.

Definition sample_db (oauth : list OAuthAuthorization) (team : list Authorization) : Db := {|
  db_permissions := empty_table; db_policy_permissions := empty_table;
  db_policies := {| rows := [{| pol_id := 1; pol_name := "p"; pol_team_id := Some 1; pol_created_at := 0;
    pol_updated_at := 0; pol_slug := None; pol_display_name := None; pol_description := None |}];
    next_id := 2 |};
  db_authorizations := {| rows := team; next_id := 10 |};
  db_oauth_authorizations := {| rows := oauth; next_id := 10 |};
  db_personal_keys := [{| pk_user_pubkey := "Pu"; pk_encrypted_secret_key := bytes_of "u"; pk_tenant_id := 1 |}];
  db_stored_keys := {| rows := [{| sk_id := 5; sk_team_id := 1; sk_name := "key"; sk_pubkey := "Pk";
    sk_secret_key := bytes_of "k"; sk_tenant_id := 1; sk_created_at := 0; sk_updated_at := 0 |}]; next_id := 6 |};
  db_users := []; db_oauth_codes := []; db_refresh_tokens := empty_table;
  db_magic_link_tokens := empty_table; db_claim_tokens := empty_table; db_team_invitations := empty_table;
  db_teams := empty_table; db_team_users := empty_table; db_deletion_notices := empty_table;
  db_customer_app_origins := empty_table |}.

(** A request event from a client to a bunker key. *)
Definition sample_request (client bunker text : string) : @Event toy_nostr := {|
  ev_id := "req"; ev_pubkey := client; ev_created_at := 5; ev_kind := 24133;
  ev_tags := [["p"; bunker]]; ev_content := "44:" +:+ text; ev_sig := "sig" |}.
