(* ===== verification/Permissions.v ===== *)
(** * Permissions and policies

    core/src/custom_permissions, core/src/traits.rs, core/src/types/permission.rs
    and the permission side of core/src/types/policy.rs.  A [CustomPermission]
    trait object is a value boxed with its implementation. *)
From S2P Require Import Prelude RustStr External Instances.

(** ** Data *)
Inductive PermissionError : Type :=
| PE_Database (msg : string)
| PE_UnknownPermission (id : string)
| PE_InvalidConfig (msg : string).

Definition permission_error_str (e : PermissionError) : string :=
  match e with
  | PE_Database m => "Database error: " +:+ m
  | PE_UnknownPermission m => "Unknown permission type: " +:+ m
  | PE_InvalidConfig m => "Invalid permission configuration: " +:+ m
  end.

Record Permission : Type := {
  perm_id : Z;
  perm_identifier : string;
  perm_config : json;
  perm_created_at : Z;
  perm_updated_at : Z;
}.

Record PermissionDisplay : Type := {
  pd_icon : string;
  pd_title : string;
  pd_description : string;
}.

Definition AVAILABLE_PERMISSIONS : list string :=
  ["allowed_kinds"; "commerce_envelope"; "content_filter"; "decrypt_only";
   "encrypt_to_self"; "full_access"].

(** ** The trait *)
Class CustomPermission `{Nostr} (T : Set) : Type := {
  identifier : T -> string;
  can_sign : T -> UnsignedEvent -> bool;
  (** plaintext, sender, recipient *)
  can_encrypt : T -> string -> PublicKey -> PublicKey -> bool;
  (** ciphertext, sender, recipient *)
  can_decrypt : T -> string -> PublicKey -> PublicKey -> bool;
  display : T -> PermissionDisplay;
}.

(** [Box<dyn CustomPermission>] *)
Record BoxedPermission `{Nostr} : Type := Box {
  boxed_type : Set;
  boxed_impl : CustomPermission boxed_type;
  boxed : boxed_type;
}.
Arguments Box {_ T _} _ : rename.

Section boxed_methods.
Context `{Nostr}.
Definition dyn_identifier (b : BoxedPermission) : string :=
    @identifier _ _ (boxed_impl b) (boxed b).
Definition dyn_can_sign (b : BoxedPermission) : UnsignedEvent -> bool :=
    @can_sign _ _ (boxed_impl b) (boxed b).
Definition dyn_can_encrypt (b : BoxedPermission) : string -> PublicKey -> PublicKey -> bool :=
    @can_encrypt _ _ (boxed_impl b) (boxed b).
Definition dyn_can_decrypt (b : BoxedPermission) : string -> PublicKey -> PublicKey -> bool :=
    @can_decrypt _ _ (boxed_impl b) (boxed b).
Definition dyn_display (b : BoxedPermission) : PermissionDisplay :=
    @display _ _ (boxed_impl b) (boxed b).
End boxed_methods.

(** ** allowed_kinds *)
Record AllowedKinds : Set := { allowed_kinds : option (list Z) }.

Definition DM_KINDS : list Z := [4; 44; 1059].

Definition kind_to_friendly_name (kind : Z) : string :=
  match kind with
  | 0 => "Update your profile"
  | 1 => "Post notes"
  | 3 => "Manage your contact list"
  | 4 => "Send and read private messages"
  | 7 => "React to posts"
  | 22 => "Upload videos"
  | 44 => "Send and read private messages"
  | 1059 => "Send and read private messages"
  | 9735 => "Send zaps"
  | 10002 => "Set your relay list"
  | 30023 => "Write long-form articles"
  | _ => "Other actions"
  end.

Definition contains_kind (kinds : list Z) (k : Z) : bool := existsb (Z.eqb k) kinds.

Definition allowed_kinds_can_sign `{Nostr} (p : AllowedKinds) (event : UnsignedEvent) : bool :=
  match allowed_kinds p with
  | None => true
  | Some kinds => contains_kind kinds (ue_kind event)
  end.

(** The loop over the kinds: [seen] is the HashSet, [abilities] the Vec. *)
Fixpoint abilities_loop (kinds : list Z) (seen : gset string) (abilities : list string)
  : list string :=
  match kinds with
  | [] => abilities
  | kind :: kinds' =>
      if contains_kind DM_KINDS kind then abilities_loop kinds' seen abilities
      else
        let desc := kind_to_friendly_name kind in
        if decide (desc ∈ seen) then abilities_loop kinds' seen abilities
        else abilities_loop kinds' ({[desc]} ∪ seen) (abilities ++ [desc])
  end.

Definition abilities_of (kinds : list Z) : list string :=
  let can_dm := existsb (contains_kind DM_KINDS) kinds in
  let desc := "Send and read private messages" in
  let abilities := if can_dm then abilities_loop kinds {[desc]} [desc]
                   else abilities_loop kinds ∅ [] in
  match abilities with [] => ["Limited actions"] | _ => abilities end.

Definition allowed_kinds_display (p : AllowedKinds) : PermissionDisplay :=
  match allowed_kinds p with
  | None => {| pd_icon := "✏️"; pd_title := "Full access";
               pd_description := "Can perform all actions on your behalf" |}
  | Some kinds => {| pd_icon := "✏️"; pd_title := "What this app can do";
                     pd_description := join ", " (abilities_of kinds) |}
  end.

#[export] Instance AllowedKinds_permission `{Nostr} : CustomPermission AllowedKinds := {
  identifier _ := "allowed_kinds";
  can_sign := allowed_kinds_can_sign;
  can_encrypt _ _ _ _ := true;
  can_decrypt _ _ _ _ := true;
  display := allowed_kinds_display;
}.

Definition AllowedKinds_from_permission `{Serde} (permission : Permission)
  : result BoxedPermission PermissionError :=
  let? config := map_err PE_InvalidConfig (de_AllowedKindsConfig (perm_config permission)) in
  Ok (Box {| allowed_kinds := config |}).

(** ** commerce_envelope *)
Definition COMMERCE_ENVELOPE_KIND : Z := 1327.
Definition SEAL_KIND : Z := 13.

Record CommerceEnvelope `{Nostr} : Set := { merchant_pubkey : PublicKey }.

Definition is_envelope_for_merchant `{Serde} (p : CommerceEnvelope) (plaintext : string) : bool :=
  match de_UnsignedEvent_str plaintext with
  | Ok event =>
      (ue_kind event =? COMMERCE_ENVELOPE_KIND) &&
      existsb (fun pubkey => bool_decide (pubkey = merchant_pubkey p))
        (tags_public_keys (ue_tags event))
  | Err _ => false
  end.

Definition commerce_can_encrypt `{Serde} (p : CommerceEnvelope)
    (plaintext : string) (sender recipient : PublicKey) : bool :=
  (bool_decide (recipient = merchant_pubkey p) || bool_decide (recipient = sender))
  && is_envelope_for_merchant p plaintext.

#[export] Instance CommerceEnvelope_permission `{Serde} : CustomPermission CommerceEnvelope := {
  identifier _ := "commerce_envelope";
  can_sign _ event := ue_kind event =? SEAL_KIND;
  can_encrypt := commerce_can_encrypt;
  can_decrypt _ _ _ _ := true;
  display _ := {| pd_icon := "🛒"; pd_title := "Place orders";
    pd_description := "Can place orders with this merchant and read the replies" |};
}.

Definition CommerceEnvelope_from_permission `{Serde} (permission : Permission)
  : result BoxedPermission PermissionError :=
  let? config := map_err PE_InvalidConfig (de_CommerceEnvelopeConfig (perm_config permission)) in
  let? pk := map_err (fun e => PE_InvalidConfig ("Invalid merchant_pubkey: " +:+ e))
               (pk_from_hex config) in
  Ok (Box {| merchant_pubkey := pk |}).

(** ** content_filter *)
Record ContentFilter : Set := { blocked_words : option (list string) }.

Definition content_allowed (p : ContentFilter) (content : string) : bool :=
  match blocked_words p with
  | None => true
  | Some words => negb (existsb (fun word => contains word content) words)
  end.

Definition content_filter_display (p : ContentFilter) : PermissionDisplay :=
  match blocked_words p with
  | None | Some [] =>
      {| pd_icon := "✅"; pd_title := "No content restrictions";
         pd_description := "No blocked words or phrases" |}
  | Some words =>
      {| pd_icon := "🛡️"; pd_title := "Content restrictions";
         pd_description := "Cannot post content containing: " +:+ join ", " words |}
  end.

#[export] Instance ContentFilter_permission `{Nostr} : CustomPermission ContentFilter := {
  identifier _ := "content_filter";
  can_sign p event := content_allowed p (ue_content event);
  can_encrypt p plaintext _ _ := content_allowed p plaintext;
  can_decrypt _ _ _ _ := true;
  display := content_filter_display;
}.

Definition ContentFilter_from_permission `{Serde} (permission : Permission)
  : result BoxedPermission PermissionError :=
  let? config := map_err PE_InvalidConfig (de_ContentFilterConfig (perm_config permission)) in
  Ok (Box {| blocked_words := config |}).

(** ** decrypt_only *)
Definition NIP42_AUTH_KIND : Z := 22242.

Record DecryptOnly : Set := { decrypt_only_config : unit }.

#[export] Instance DecryptOnly_permission `{Nostr} : CustomPermission DecryptOnly := {
  identifier _ := "decrypt_only";
  can_sign _ event := ue_kind event =? NIP42_AUTH_KIND;
  can_encrypt _ _ _ _ := false;
  can_decrypt _ _ _ _ := true;
  display _ := {| pd_icon := "👁️"; pd_title := "Read only";
    pd_description := "Can only read encrypted messages, cannot post or send messages" |};
}.

Definition DecryptOnly_from_permission `{Serde} (permission : Permission)
  : result BoxedPermission PermissionError :=
  let? config := map_err PE_InvalidConfig (de_DecryptOnlyConfig (perm_config permission)) in
  Ok (Box {| decrypt_only_config := config |}).

(** ** encrypt_to_self *)
Record EncryptToSelf : Set := { }.

#[export] Instance EncryptToSelf_permission `{Nostr} : CustomPermission EncryptToSelf := {
  identifier _ := "encrypt_to_self";
  can_sign _ _ := true;
  can_encrypt _ _ sender recipient := bool_decide (sender = recipient);
  can_decrypt _ _ sender recipient := bool_decide (sender = recipient);
  display _ := {| pd_icon := "🔒"; pd_title := "Private message restriction";
    pd_description := "Can only send messages to yourself (for backups or notes)" |};
}.

Definition EncryptToSelf_from_permission `{Nostr} (_ : Permission)
  : result BoxedPermission PermissionError := Ok (Box (Build_EncryptToSelf)).

(** ** full_access *)
Record FullAccess : Set := { }.

#[export] Instance FullAccess_permission `{Nostr} : CustomPermission FullAccess := {
  identifier _ := "full_access";
  can_sign _ _ := true;
  can_encrypt _ _ _ _ := true;
  can_decrypt _ _ _ _ := true;
  display _ := {| pd_icon := "🔓"; pd_title := "Full access";
    pd_description := "Sign, encrypt, and decrypt anything without restrictions" |};
}.

Definition FullAccess_from_permission `{Nostr} (_ : Permission)
  : result BoxedPermission PermissionError := Ok (Box (Build_FullAccess)).

(** ** Permission::to_custom_permission *)
Definition to_custom_permission `{Serde} (p : Permission)
  : result BoxedPermission PermissionError :=
  let id := perm_identifier p in
  if starts_with "allowed_kinds" id then AllowedKinds_from_permission p
  else if bool_decide (id = "commerce_envelope") then CommerceEnvelope_from_permission p
  else if bool_decide (id = "content_filter") then ContentFilter_from_permission p
  else if bool_decide (id = "decrypt_only") then DecryptOnly_from_permission p
  else if bool_decide (id = "encrypt_to_self") then EncryptToSelf_from_permission p
  else if bool_decide (id = "full_access") then FullAccess_from_permission p
  else Err (PE_UnknownPermission id).

(** ** Properties *)

(** A stored permission loads only as the implementation its identifier
    names: the loaded implementation is one of AVAILABLE_PERMISSIONS and its own
    identifier is a prefix of the stored one (every "allowed_kinds..." variant
    loads as allowed_kinds). *)
Theorem to_custom_permission_identifier `{Serde} p b :
  to_custom_permission p = Ok b ->
  dyn_identifier b ∈ AVAILABLE_PERMISSIONS /\
  starts_with (dyn_identifier b) (perm_identifier p) = true.
Proof.
  unfold to_custom_permission. intros Hp.
  repeat case_if; bool_to_prop;
    unfold AllowedKinds_from_permission, CommerceEnvelope_from_permission,
      ContentFilter_from_permission, DecryptOnly_from_permission,
      EncryptToSelf_from_permission, FullAccess_from_permission in Hp;
    inv_ok; cbn [dyn_identifier boxed_impl boxed identifier AllowedKinds_permission
      CommerceEnvelope_permission ContentFilter_permission DecryptOnly_permission
      EncryptToSelf_permission FullAccess_permission];
    (split; [unfold AVAILABLE_PERMISSIONS; set_solver|]);
    try match goal with E : perm_identifier _ = _ |- _ => rewrite E end; done.
Qed.

(** What a loaded commerce permission allows. *)
Lemma commerce_confines `{Serde} p b :
  CommerceEnvelope_from_permission p = Ok b ->
  exists hex merchant,
    de_CommerceEnvelopeConfig (perm_config p) = Ok hex /\ pk_from_hex hex = Ok merchant /\
    (forall e, dyn_can_sign b e = true <-> ue_kind e = 13) /\
    (forall text sender recipient,
       dyn_can_encrypt b text sender recipient = true <->
       (recipient = merchant \/ recipient = sender) /\
       exists e, de_UnsignedEvent_str text = Ok e /\ ue_kind e = 1327 /\
                 merchant ∈ tags_public_keys (ue_tags e)).
Proof.
  unfold CommerceEnvelope_from_permission. intros Hp. inv_ok.
  match goal with H1 : de_CommerceEnvelopeConfig _ = Ok ?h, H2 : pk_from_hex _ = Ok ?m |- _ =>
    exists h, m; split; [done|]; split; [done|]; split end.
  { intros e. apply Z.eqb_eq. }
  intros text sender recipient. cbn. unfold commerce_can_encrypt, is_envelope_for_merchant.
  rewrite andb_true_iff, orb_true_iff, !bool_decide_eq_true. cbn.
  apply and_iff_compat_l. destruct (de_UnsignedEvent_str text) as [e|err].
  - rewrite andb_true_iff, Z.eqb_eq, existsb_elem. setoid_rewrite bool_decide_eq_true. split.
    + intros [Hk (m & Hm & ->)]. eauto.
    + intros (e' & [= <-] & Hk & Hm). split; [done|]. eauto.
  - split; [discriminate | by intros (e & [=] & _)].
Qed.

(** A customer's orders app is confined: a loaded commerce_envelope
    permission signs exactly seals (kind 13) and encrypts exactly the plaintexts
    that parse as a kind-1327 event with the configured merchant among its
    p-tags, to that merchant or to the customer's own key. *)
Theorem commerce_envelope_confined `{Serde} p b :
  CommerceEnvelope_from_permission p = Ok b ->
  exists hex merchant,
    de_CommerceEnvelopeConfig (perm_config p) = Ok hex /\ pk_from_hex hex = Ok merchant /\
    (forall e, dyn_can_sign b e = true <-> ue_kind e = 13) /\
    (forall text sender recipient,
       dyn_can_encrypt b text sender recipient = true <->
       (recipient = merchant \/ recipient = sender) /\
       exists e, de_UnsignedEvent_str text = Ok e /\ ue_kind e = 1327 /\
                 merchant ∈ tags_public_keys (ue_tags e)).
Proof. apply commerce_confines. Qed.

(** The descriptions the loop contributes for a list of kinds. *)
Definition described (kinds : list Z) (d : string) : Prop :=
  exists k, k ∈ kinds /\ k ∉ DM_KINDS /\ d = kind_to_friendly_name k.

Lemma contains_kind_spec kinds k : reflect (k ∈ kinds) (contains_kind kinds k).
Proof.
  apply iff_reflect. unfold contains_kind. rewrite existsb_elem. setoid_rewrite Z.eqb_eq.
  split; [eauto | by intros (? & ? & ->)].
Qed.

Lemma described_nil d : ~ described [] d.
Proof. intros (k & Hk & _). by apply not_elem_of_nil in Hk. Qed.

Lemma described_cons k kinds d :
  described (k :: kinds) d <->
  (k ∉ DM_KINDS /\ d = kind_to_friendly_name k) \/ described kinds d.
Proof.
  unfold described. split.
  - intros (k' & [-> | Hk]%elem_of_cons & H1 & H2); eauto 6.
  - intros [[H1 H2] | (k' & Hk & H1 & H2)]; [exists k | exists k']; rewrite elem_of_cons; eauto.
Qed.

(** The loop adds each non-DM description once, in order, and nothing else. *)
Lemma abilities_loop_spec kinds (seen : gset string) abilities :
  NoDup abilities -> (forall d, d ∈ seen <-> d ∈ abilities) ->
  NoDup (abilities_loop kinds seen abilities) /\
  forall d, d ∈ abilities_loop kinds seen abilities <-> d ∈ abilities \/ described kinds d.
Proof.
  revert seen abilities; induction kinds as [|k kinds IH]; intros seen abilities Hnd Hseen;
    cbn [abilities_loop].
  { split; [done|]. intros d. split; [by left|].
    intros [|H%described_nil]; done. }
  destruct (contains_kind_spec DM_KINDS k) as [Hdm|Hdm]; [|case_decide as Hs].
  - destruct (IH seen abilities Hnd Hseen) as [Hnd' Hin]. split; [done|]. intros d.
    rewrite Hin, described_cons. tauto.
  - destruct (IH seen abilities Hnd Hseen) as [Hnd' Hin]. split; [done|]. intros d.
    rewrite Hin, described_cons. rewrite Hseen in Hs.
    split; [tauto|]. intros [? | [[_ ->] | ?]]; tauto.
  - destruct (IH ({[kind_to_friendly_name k]} ∪ seen) (abilities ++ [kind_to_friendly_name k]))
      as [Hnd' Hin].
    + apply NoDup_app. split; [done|]. split; [|apply NoDup_singleton].
      intros x Hx ->%list_elem_of_singleton. by apply Hs, Hseen.
    + intros d. rewrite elem_of_union, elem_of_singleton, elem_of_app, list_elem_of_singleton, Hseen.
      tauto.
    + split; [done|]. intros d.
      rewrite Hin, described_cons, elem_of_app, list_elem_of_singleton. tauto.
Qed.

(** The list of abilities shown for an allowed_kinds permission is never
    empty, names each ability once, and names exactly the abilities the kinds
    give: private messages when any DM kind is allowed, the friendly name of
    every other kind, and "Limited actions" only for an empty list of kinds. *)
Theorem abilities_of_spec kinds :
  abilities_of kinds <> [] /\ NoDup (abilities_of kinds) /\
  forall d, d ∈ abilities_of kinds <->
    (d = "Send and read private messages" /\ exists k, k ∈ kinds /\ k ∈ DM_KINDS) \/
    (exists k, k ∈ kinds /\ k ∉ DM_KINDS /\ d = kind_to_friendly_name k) \/
    (kinds = [] /\ d = "Limited actions").
Proof.
  unfold abilities_of. set (dm := "Send and read private messages").
  fold (described kinds).
  destruct (existsb (contains_kind DM_KINDS) kinds) eqn:E.
  - apply existsb_elem in E as (k0 & Hk0 & Hk0dm).
    destruct (contains_kind_spec DM_KINDS k0) as [Hk|]; [|done].
    destruct (abilities_loop_spec kinds {[dm]} [dm]) as [H1 H2];
      [apply NoDup_singleton | intros; by rewrite elem_of_singleton, list_elem_of_singleton |].
    setoid_rewrite list_elem_of_singleton in H2.
    destruct (abilities_loop kinds {[dm]} [dm]) as [|a l] eqn:El.
    { exfalso. apply (not_elem_of_nil dm). rewrite H2. by left. }
    split; [done|]. split; [done|]. intros d. rewrite H2.
    fold (described kinds d). split; [|by intros [[-> _] | [? | [-> _]]]; [left | right | apply not_elem_of_nil in Hk0]].
    intros [-> | H]; [left; eauto | by right; left].
  - assert (Hno : forall k, k ∈ kinds -> k ∉ DM_KINDS).
    { intros k Hk Hin. rewrite <- not_true_iff_false, existsb_elem in E. apply E.
      exists k. by destruct (contains_kind_spec DM_KINDS k). }
    destruct (abilities_loop_spec kinds ∅ []) as [H1 H2];
      [constructor | intros; by rewrite elem_of_empty, elem_of_nil |].
    destruct (abilities_loop kinds ∅ []) as [|a l] eqn:El.
    + destruct kinds as [|k kinds].
      2:{ exfalso. apply (not_elem_of_nil (kind_to_friendly_name k)), H2. right.
          apply described_cons. left. split; [apply Hno; constructor | done]. }
      split; [done|]. split; [apply NoDup_singleton|]. intros d. rewrite list_elem_of_singleton.
      split; [by right; right|].
      by intros [[_ (k & Hk%not_elem_of_nil & _)] | [(k & Hk%not_elem_of_nil & _) | [_ ->]]].
    + split; [done|]. split; [done|]. intros d. rewrite H2, elem_of_nil.
      fold (described kinds d). split; [by intros [|]; [| right; left]|].
      intros [[_ (k & Hk & Hdm)] | [? | [-> _]]]; [by apply Hno in Hk | by right | discriminate El].
Qed.

(** ** Witnesses *)
Definition shop_permission : Permission := {|
  perm_id := 1; perm_identifier := "commerce_envelope";
  perm_config := JObject [("merchant_pubkey", JString "shop")];
  perm_created_at := 0; perm_updated_at := 0 |}.

Definition shop_box : BoxedPermission := Box (T := CommerceEnvelope) {| merchant_pubkey := "shop" |}.

Lemma to_custom_permission_identifier_witness :
  to_custom_permission shop_permission = Ok shop_box /\
  dyn_identifier shop_box ∈ AVAILABLE_PERMISSIONS.
Proof.
  split; [reflexivity|].
  apply (to_custom_permission_identifier shop_permission). reflexivity.
Defined.

Lemma commerce_envelope_confined_witness :
  dyn_can_encrypt shop_box "Oshop" "me" "shop" = true /\
  exists hex merchant,
    de_CommerceEnvelopeConfig (perm_config shop_permission) = Ok hex /\ pk_from_hex hex = Ok merchant.
Proof.
  split; [reflexivity|].
  destruct (commerce_envelope_confined shop_permission shop_box)
    as (hex & merchant & H1 & H2 & _); [reflexivity|].
  exists hex, merchant. split; [exact H1 | exact H2].
Defined.
