(* ===== verification/Policies.v ===== *)
(** * Policies

    core/src/types/policy.rs and core/src/repositories/policy.rs: the policies
    an authorization names, the permissions linked to them, the comparison of
    two policies, and the per-merchant policies of customer sign-in. *)
From S2P Require Import Prelude RustStr External Instances Database Permissions.

Section policies.
Context `{Serde}.

(** A row becomes a [Permission] when its config text parses. *)
Definition permission_from_row (r : permission_row) : result Permission sqlx_error :=
  let? config := map_err SqlxOther (json_from_str (pr_config r)) in
  Ok {| perm_id := pr_id r; perm_identifier := pr_identifier r; perm_config := config;
        perm_created_at := pr_created_at r; perm_updated_at := pr_updated_at r |}.

(** permissions JOIN policy_permissions .. WHERE policy_id = $1 *)
Definition links (policy_id : Z) (p : permission_row) (pp : policy_permission_row) : bool :=
  (pp_permission_id pp =? pr_id p) && (pp_policy_id pp =? policy_id).

Definition join_rows (perms : list permission_row) (lks : list policy_permission_row)
    (policy_id : Z) : list permission_row :=
  flat_map (fun p => map (fun _ => p) (List.filter (links policy_id p) lks)) perms.

Definition permission_rows_of (d : Db) (policy_id : Z) : list permission_row :=
  join_rows (rows (db_permissions d)) (rows (db_policy_permissions d)) policy_id.

(** PolicyRepository::get_permissions *)
Definition get_permissions (d : Db) (policy_id : Z) : result (list Permission) RepositoryError :=
  map_err repository_error_from_sqlx (collect permission_from_row (permission_rows_of d policy_id)).

(** Policy::permissions: the same query, reported as a PolicyError. *)
Inductive PolicyError : Type :=
| PolE_Database (e : sqlx_error)
| PolE_NotFound
| PolE_Permission (msg : string).

Definition Policy_permissions (d : Db) (p : Policy) : result (list Permission) PolicyError :=
  map_err PolE_Database (collect permission_from_row (permission_rows_of d (pol_id p))).

(** Policy::permission_displays: permissions that do not load are left out. *)
Definition permission_displays (d : Db) (p : Policy)
  : result (list PermissionDisplay) PolicyError :=
  let? permissions := Policy_permissions d p in
  Ok (omap (fun perm => dyn_display <$> ok (to_custom_permission perm)) permissions).

Record PolicyInfo : Type := { pi_slug : string; pi_display_name : string; pi_description : string }.

Definition to_info (p : Policy) : PolicyInfo := {|
  pi_slug := default (print_Z (pol_id p)) (pol_slug p);
  pi_display_name := default (pol_name p) (pol_display_name p);
  pi_description := default "" (pol_description p) |}.

(** ** is_more_restrictive

    [serde_json::from_value(..).unwrap_or_default()] of the two configs. *)
Definition kinds_config (p : Permission) : option (list Z) :=
  match de_AllowedKindsConfig (perm_config p) with Ok c => c | Err _ => None end.
Definition words_config (p : Permission) : option (list string) :=
  match de_ContentFilterConfig (perm_config p) with Ok c => c | Err _ => None end.

Definition subset_b {A} `{EqDecision A} (l k : list A) : bool :=
  forallb (fun x => existsb (fun y => bool_decide (x = y)) k) l.

Definition compare_words (a b : option (list string)) : bool :=
  match a, b with
  | Some a_words, Some b_words => subset_b b_words a_words
  | None, Some _ => false
  | Some _, None => true
  | None, None => true
  end.

(** The body of the inner loop: [false] is [return Ok(false)]. *)
Definition compare_permission (a_perm b_perm : Permission) : bool :=
  if bool_decide (perm_identifier a_perm = perm_identifier b_perm) then
    if bool_decide (perm_identifier a_perm = "allowed_kinds") then
      match kinds_config a_perm, kinds_config b_perm with
      | Some a_kinds, Some b_kinds => subset_b a_kinds b_kinds
      | Some _, None => true
      | None, Some _ => false
      | None, None => true
      end
    else if bool_decide (perm_identifier a_perm = "content_filter") then
      compare_words (words_config a_perm) (words_config b_perm)
    else true
  else true.

Definition is_more_restrictive_perms (a_perms b_perms : list Permission) : bool :=
  forallb (fun a_perm => forallb (compare_permission a_perm) b_perms) a_perms &&
  forallb (fun b_perm =>
    let has_matching :=
      existsb (fun a_perm => bool_decide (perm_identifier a_perm = perm_identifier b_perm)) a_perms in
    negb (negb has_matching && bool_decide (perm_identifier b_perm = "encrypt_to_self"))) b_perms.

Definition is_more_restrictive (d : Db) (a b : Policy) : result bool PolicyError :=
  let? a_perms := Policy_permissions d a in
  let? b_perms := Policy_permissions d b in
  Ok (is_more_restrictive_perms a_perms b_perms).

(** ** PolicyRepository *)
Definition policy_find (d : Db) (policy_id : Z) : result Policy RepositoryError :=
  ok_or (find_first (fun p => pol_id p =? policy_id) (rows (db_policies d)))
    (repository_error_from_sqlx RowNotFound).

Definition policy_find_by_slug (d : Db) (slug : string) : result Policy RepositoryError :=
  ok_or (find_first (fun p => bool_decide (pol_slug p = Some slug)) (rows (db_policies d)))
    (repository_error_from_sqlx RowNotFound).

Definition policy_find_id_by_slug (d : Db) (slug : string) : option Z :=
  pol_id <$> find_first (fun p => bool_decide (pol_slug p = Some slug)) (rows (db_policies d)).

(** ORDER BY name: an insertion sort stands for the database's. *)
Fixpoint insert_by_name (p : Policy) (l : list Policy) : list Policy :=
  match l with
  | [] => [p]
  | q :: l' => match String.compare (pol_name q) (pol_name p) with
               | Gt => p :: l
               | _ => q :: insert_by_name p l'
               end
  end.

Definition policy_list_public (d : Db) : list Policy :=
  foldl (fun acc p => insert_by_name p acc) []
    (List.filter (fun p => negb (is_null (pol_slug p)) && is_null (pol_team_id p))
       (rows (db_policies d))).

Definition policy_list_by_team (d : Db) (team_id : Z) : list Policy :=
  List.filter (fun p => bool_decide (pol_team_id p = Some team_id)) (rows (db_policies d)).

Definition policy_exists_for_team (d : Db) (team_id policy_id : Z) : bool :=
  existsb (fun p => bool_decide (pol_team_id p = Some team_id) && (pol_id p =? policy_id))
    (rows (db_policies d)).

Definition insert_policy (now : Z) (team_id : option Z) (name : string) (d : Db) : Db * Policy :=
  let '(t, p) := insert_row (fun i => {| pol_id := i; pol_name := name; pol_team_id := team_id;
      pol_created_at := now; pol_updated_at := now; pol_slug := None;
      pol_display_name := None; pol_description := None |}) (db_policies d) in
  (set_policies t d, p).

(** policies.team_id is a foreign key. *)
Definition team_exists (d : Db) (team_id : Z) : bool := existsb (fun t => tm_id t =? team_id) (rows (db_teams d)).
Definition no_team : RepositoryError := RE_Integrity "policies_team_id_fkey".

Definition policy_create (now : Z) (d : Db) (team_id : Z) (name : string) : Db * result Policy RepositoryError :=
  if negb (team_exists d team_id) then (d, Err no_team)
  else let '(d', p) := insert_policy now (Some team_id) name d in (d', Ok p).

Definition insert_permission (now : Z) (identifier : string) (config : json) (d : Db)
  : Db * permission_row :=
  let '(t, p) := insert_row (fun i => {| pr_id := i; pr_identifier := identifier;
      pr_config := json_to_string config; pr_created_at := now; pr_updated_at := now |})
      (db_permissions d) in
  (set_permissions t d, p).

(** PolicyRepository::create_permission: RETURNING decodes the stored row. *)
Definition create_permission (now : Z) (d : Db) (identifier : string) (config : json)
  : Db * result Permission RepositoryError :=
  let '(d', p) := insert_permission now identifier config d in
  (d', map_err repository_error_from_sqlx (permission_from_row p)).

(** PolicyRepository::link_permission: both ids are foreign keys and the pair is
    unique. *)
Definition link_permission (d : Db) (policy_id permission_id : Z) : Db * result unit RepositoryError :=
  if negb (existsb (fun p => pol_id p =? policy_id) (rows (db_policies d))) then
    (d, Err (RE_Integrity "policy_permissions_policy_id_fkey"))
  else if negb (existsb (fun p => pr_id p =? permission_id) (rows (db_permissions d))) then
    (d, Err (RE_Integrity "policy_permissions_permission_id_fkey"))
  else if existsb (fun pp => (pp_policy_id pp =? policy_id) && (pp_permission_id pp =? permission_id))
       (rows (db_policy_permissions d))
  then (d, Err RE_Duplicate)
  else
    let '(t, _) := insert_row (fun i => {| pp_id := i; pp_policy_id := policy_id;
        pp_permission_id := permission_id |}) (db_policy_permissions d) in
    (set_policy_permissions t d, Ok tt).

(** PolicyRepository::delete, one transaction: the foreign key of
    [authorizations] refuses a policy still in use. *)
Definition policy_delete (d : Db) (policy_id : Z) : Db * result unit RepositoryError :=
  if existsb (fun a => au_policy_id a =? policy_id) (rows (db_authorizations d)) then
    (d, Err (RE_Integrity "authorizations_policy_id_fkey"))
  else
    let d1 := set_policy_permissions
      (with_rows (delete_where (fun pp => pp_policy_id pp =? policy_id)) (db_policy_permissions d)) d in
    (set_policies (with_rows (delete_where (fun p => pol_id p =? policy_id)) (db_policies d1)) d1, Ok tt).

Definition get_allowed_kinds_config (d : Db) (policy_id : Z) : option string :=
  pr_config <$> find_first (fun p => bool_decide (pr_identifier p = "allowed_kinds"))
    (permission_rows_of d policy_id).

Definition commerce_policy_name (merchant : string) : string := "commerce_envelope:" +:+ merchant.
Definition commerce_config (merchant : string) : json :=
  JObject [("merchant_pubkey", JString merchant)].

(** ORDER BY id LIMIT 1: the smallest id among the matches. *)
Definition min_policy_id (l : list Policy) : option Z :=
  foldr (fun p acc => Some (match acc with None => pol_id p | Some i => Z.min (pol_id p) i end))
    None l.

(** PolicyRepository::find_or_create_commerce_envelope *)
Definition find_or_create_commerce_envelope (now : Z) (d : Db) (merchant : string)
  : Db * result Z RepositoryError :=
  let name := commerce_policy_name merchant in
  let existing := min_policy_id
    (List.filter (fun p => bool_decide (pol_name p = name) && is_null (pol_team_id p))
       (rows (db_policies d))) in
  match existing with
  | Some policy_id => (d, Ok policy_id)
  | None =>
      let '(d1, pol) := insert_policy now None name d in
      let '(d2, perm) := insert_permission now "commerce_envelope" (commerce_config merchant) d1 in
      match link_permission d2 (pol_id pol) (pr_id perm) with
      | (d3, Ok _) => (d3, Ok (pol_id pol))
      | (_, Err e) => (d, Err e)
      end
  end.

Record PolicyWithPermissions : Type := {
  pwp_policy : Policy; pwp_permissions : list Permission;
}.

Definition find_with_permissions (d : Db) (policy_id : Z)
  : result PolicyWithPermissions RepositoryError :=
  let? policy := policy_find d policy_id in
  let? permissions := get_permissions d policy_id in
  Ok {| pwp_policy := policy; pwp_permissions := permissions |}.

(** PolicyRepository::create_with_permissions: the loops over the permissions
    to create and over the links, and the transaction around them. *)
Fixpoint create_permissions (now : Z) (d : Db) (configs : list (string * json))
  : Db * result (list Permission) RepositoryError :=
  match configs with
  | [] => (d, Ok [])
  | (identifier, config) :: configs' =>
      match create_permission now d identifier config with
      | (d1, Err e) => (d1, Err e)
      | (d1, Ok p) =>
          let '(d2, ps) := create_permissions now d1 configs' in
          (d2, let? ps' := ps in Ok (p :: ps'))
      end
  end.

Fixpoint link_permissions (d : Db) (policy_id : Z) (ps : list Permission)
  : Db * result unit RepositoryError :=
  match ps with
  | [] => (d, Ok tt)
  | p :: ps' =>
      match link_permission d policy_id (perm_id p) with
      | (d1, Err e) => (d1, Err e)
      | (d1, Ok _) => link_permissions d1 policy_id ps'
      end
  end.

Definition create_with_permissions (now : Z) (d : Db) (team_id : Z) (name : string)
    (configs : list (string * json)) : Db * result PolicyWithPermissions RepositoryError :=
  match create_permissions now d configs with
  | (_, Err e) => (d, Err e)
  | (d1, Ok ps) =>
      if negb (team_exists d team_id) then (d, Err no_team) else
      let '(d2, pol) := insert_policy now (Some team_id) name d1 in
      match link_permissions d2 (pol_id pol) ps with
      | (_, Err e) => (d, Err e)
      | (d3, Ok _) => (d3, Ok {| pwp_policy := pol; pwp_permissions := ps |})
      end
  end.

End policies.

(** ** The join of permissions and links *)
Lemma join_rows_none P L pid :
  (forall p l, p ∈ P -> l ∈ L -> links pid p l = false) -> join_rows P L pid = [].
Proof.
  unfold join_rows. induction P as [|p P IH]; intros H; simpl; [done|].
  rewrite IH by (intros; apply H; [by constructor | done]).
  rewrite filter_nil; [done|]. intros. apply H; [constructor | done].
Qed.

Lemma join_rows_perms_app P Q L pid :
  join_rows (P ++ Q) L pid = join_rows P L pid ++ join_rows Q L pid.
Proof. apply flat_map_app. Qed.

(** Links that match no permission of the list do not change the join. *)
Lemma join_rows_links_app P L M pid :
  (forall p l, p ∈ P -> l ∈ M -> links pid p l = false) ->
  join_rows P (L ++ M) pid = join_rows P L pid /\ join_rows P (M ++ L) pid = join_rows P L pid.
Proof.
  unfold join_rows. induction P as [|p P IH]; intros HM; simpl; [done|].
  destruct IH as [IH1 IH2]; [intros; apply HM; [by constructor | done]|].
  rewrite IH1, IH2, !List.filter_app, (filter_nil (links pid p) M), app_nil_r; [done|].
  intros. apply HM; [constructor | done].
Qed.

(** Fresh permissions each with its own link join to themselves. *)
Lemma join_rows_fresh P M pid :
  Forall2 (fun p l => pp_policy_id l = pid /\ pp_permission_id l = pr_id p) P M ->
  NoDup (map pr_id P) -> join_rows P M pid = P.
Proof.
  induction 1 as [|p l P M [Hpid Hid] HF IH]; [done|].
  intros [Hnot Hnd]%NoDup_cons.
  assert (Hl : forall q, q ∈ P -> links pid q l = false).
  { intros q Hq. apply andb_false_iff. left. apply Z.eqb_neq. rewrite Hid. intros Heq.
    apply Hnot. rewrite Heq. by apply list_elem_of_fmap_2. }
  assert (HM : forall m, m ∈ M -> links pid p m = false).
  { intros m Hm. apply andb_false_iff. left. apply Z.eqb_neq. intros Heq. apply Hnot.
    apply list_elem_of_lookup in Hm as [i Hi].
    destruct (Forall2_lookup_r _ _ _ _ _ HF Hi) as (q & Hq & _ & Hqid).
    rewrite <- Heq, Hqid. apply list_elem_of_fmap_2. by eapply list_elem_of_lookup_2. }
  assert (Hpl : links pid p l = true) by (unfold links; rewrite Hid, Hpid, !Z.eqb_refl; done).
  change (map (fun _ => p) (List.filter (links pid p) (l :: M)) ++ join_rows P ([l] ++ M) pid = p :: P).
  cbn [List.filter]. rewrite Hpl, (filter_nil _ _ HM); cbn [map app]. f_equal.
  change (join_rows P ([l] ++ M) pid = P).
  rewrite (proj2 (join_rows_links_app P M [l] pid ltac:(intros q m Hq ->%list_elem_of_singleton; by apply Hl))).
  by apply IH.
Qed.

Section policy_lemmas.
Context `{Serde}.

(** Ids are fresh and every link names a policy and a permission that were
    created. *)
Definition policies_wf (d : Db) : Prop :=
  ids_fresh pr_id (db_permissions d) /\ ids_fresh pol_id (db_policies d) /\
  Forall (fun l => pp_policy_id l < next_id (db_policies d) /\
                   pp_permission_id l < next_id (db_permissions d))
    (rows (db_policy_permissions d)).

(** A config the JSON library prints and reads back. *)
Definition config_round_trips (c : string * json) : Prop :=
  json_from_str (json_to_string (snd c)) = Ok (snd c).

(** The rows a list of permission configs becomes. *)
Fixpoint config_rows (now first : Z) (configs : list (string * json)) : list permission_row :=
  match configs with
  | [] => []
  | (i, c) :: configs' =>
      {| pr_id := first; pr_identifier := i; pr_config := json_to_string c;
         pr_created_at := now; pr_updated_at := now |} :: config_rows now (first + 1) configs'
  end.

Lemma config_rows_ids now first configs p :
  p ∈ config_rows now first configs -> first <= pr_id p < first + Z.of_nat (length configs).
Proof.
  revert first; induction configs as [|[i c] configs IH]; intros first; simpl.
  - by intros ?%not_elem_of_nil.
  - intros [-> | Hp]%elem_of_cons; simpl; [lia|]. specialize (IH _ Hp). lia.
Qed.

Lemma config_rows_nodup now first configs : NoDup (map pr_id (config_rows now first configs)).
Proof.
  revert first; induction configs as [|[i c] configs IH]; intros first; simpl; constructor; [|done].
  intros (p & -> & Hp)%list_elem_of_fmap. apply config_rows_ids in Hp. lia.
Qed.

Lemma create_permissions_ok now d configs :
  Forall config_round_trips configs ->
  exists ps,
    create_permissions now d configs =
      (set_permissions {| rows := rows (db_permissions d) ++ config_rows now (next_id (db_permissions d)) configs;
                          next_id := next_id (db_permissions d) + Z.of_nat (length configs) |} d, Ok ps) /\
    Forall2 (fun r p => permission_from_row r = Ok p) (config_rows now (next_id (db_permissions d)) configs) ps /\
    map (fun p => (perm_identifier p, perm_config p)) ps = configs.
Proof.
  revert d; induction configs as [|[i c] configs IH]; intros d Hrt; simpl.
  - exists []. rewrite app_nil_r, Z.add_0_r. destruct d as [[] ? ? ? ? ? ? ? ? ?]. repeat constructor.
  - apply Forall_cons in Hrt as [Hc Hrt].
    unfold config_round_trips in Hc; simpl in Hc.
    unfold create_permission, insert_permission, insert_row, permission_from_row; simpl.
    rewrite Hc; simpl.
    destruct (IH (set_permissions
      {| rows := rows (db_permissions d) ++ [{| pr_id := next_id (db_permissions d); pr_identifier := i;
           pr_config := json_to_string c; pr_created_at := now; pr_updated_at := now |}];
         next_id := next_id (db_permissions d) + 1 |} d) Hrt) as (ps & Hps & HF & Hmap).
    rewrite Hps. simpl in HF |- *. eexists (_ :: ps). split; [|split].
    + f_equal. unfold set_permissions; simpl. do 2 f_equal; [by rewrite <- app_assoc | lia].
    + constructor; [|done]. unfold permission_from_row; simpl. by rewrite Hc.
    + simpl. by rewrite Hmap.
Qed.

Lemma link_permissions_ok d pid ps :
  (exists q, q ∈ rows (db_policies d) /\ pol_id q = pid) ->
  Forall (fun p => exists q, q ∈ rows (db_permissions d) /\ pr_id q = perm_id p) ps ->
  Forall (fun l => pp_policy_id l = pid -> pp_permission_id l ∉ map perm_id ps)
    (rows (db_policy_permissions d)) ->
  NoDup (map perm_id ps) ->
  exists M n, link_permissions d pid ps =
      (set_policy_permissions {| rows := rows (db_policy_permissions d) ++ M; next_id := n |} d, Ok tt) /\
    Forall2 (fun p l => pp_policy_id l = pid /\ pp_permission_id l = perm_id p) ps M.
Proof.
  revert d; induction ps as [|p ps IH]; intros d Hpol Hps Hl Hnd; simpl.
  - exists [], (next_id (db_policy_permissions d)). rewrite app_nil_r.
    destruct d as [? [] ? ? ? ? ? ? ? ?]. repeat constructor.
  - apply Forall_cons in Hps as [(q & Hq & Hqid) Hps]. simpl in Hnd. apply NoDup_cons in Hnd as [Hnin Hnd].
    unfold link_permission.
    assert (E1 : existsb (fun p => pol_id p =? pid) (rows (db_policies d)) = true).
    { apply existsb_elem. destruct Hpol as (x & ? & <-). exists x. by rewrite Z.eqb_refl. }
    assert (E2 : existsb (fun p0 => pr_id p0 =? perm_id p) (rows (db_permissions d)) = true).
    { apply existsb_elem. exists q. by rewrite Hqid, Z.eqb_refl. }
    assert (E3 : existsb (fun pp => (pp_policy_id pp =? pid) && (pp_permission_id pp =? perm_id p))
       (rows (db_policy_permissions d)) = false).
    { apply not_true_iff_false. rewrite existsb_elem. intros (l & Hin & E). bool_to_prop.
      rewrite Forall_forall in Hl. apply (Hl l Hin); [done|]. apply elem_of_cons. left. congruence. }
    rewrite E1, E2, E3; simpl.
    match goal with |- context [link_permissions ?x pid ps] => set (d1 := x) end.
    destruct (IH d1) as (M & n & Hlk & HF); [done | done | | done |].
    + subst d1; simpl. apply Forall_app. split.
      * eapply Forall_impl; [exact Hl|]. simpl. intros l Hx Hy Hz. apply (Hx Hy), elem_of_cons. by right.
      * constructor; [|constructor]. by simpl.
    + rewrite Hlk. subst d1; simpl. eexists (_ :: M), n. split.
      * unfold set_policy_permissions; simpl. by rewrite <- app_assoc.
      * by constructor.
Qed.

End policy_lemmas.

Section policy_theorems.
Context `{Serde}.

Lemma permission_from_row_id r p : permission_from_row r = Ok p -> perm_id p = pr_id r.
Proof. unfold permission_from_row. intros Hr. by inv_ok. Qed.

Lemma loaded_ids rs ps :
  Forall2 (fun r p => permission_from_row r = Ok p) rs ps -> map perm_id ps = map pr_id rs.
Proof.
  induction 1 as [|r p rs ps Hr _ IH]; simpl; [done|]. by rewrite IH, (permission_from_row_id _ _ Hr).
Qed.

(** Appending fresh permissions with their links under a fresh policy: that
    policy joins to exactly them, every other policy to what it joined before. *)
Lemma join_rows_grow d new M pid :
  policies_wf d ->
  (forall p, p ∈ new -> next_id (db_permissions d) <= pr_id p) ->
  NoDup (map pr_id new) -> pid = next_id (db_policies d) ->
  Forall2 (fun p l => pp_policy_id l = pid /\ pp_permission_id l = pr_id p) new M ->
  let P := rows (db_permissions d) ++ new in
  let L := rows (db_policy_permissions d) ++ M in
  join_rows P L pid = new /\
  forall other, other <> pid -> join_rows P L other = permission_rows_of d other.
Proof.
  intros (Hperm & _ & Hlinks) Hnew Hnd Hpid HF P L. rewrite Forall_forall in Hlinks.
  assert (Hold : forall other p l, p ∈ new -> l ∈ rows (db_policy_permissions d) -> links other p l = false).
  { intros other p l Hp Hl. apply andb_false_iff. left. apply Z.eqb_neq.
    specialize (Hnew p Hp). apply Hlinks in Hl. lia. }
  assert (HM : forall l, l ∈ M -> pp_policy_id l = pid /\ exists p, p ∈ new /\ pp_permission_id l = pr_id p).
  { intros l [i Hi]%list_elem_of_lookup. destruct (Forall2_lookup_r _ _ _ _ _ HF Hi) as (p & Hp & ? & ?).
    split; [done|]. exists p. split; [by eapply list_elem_of_lookup_2 | done]. }
  subst P L. split.
  - rewrite join_rows_perms_app.
    rewrite (join_rows_none (rows (db_permissions d))), (proj2 (join_rows_links_app new M _ pid (Hold pid)));
      [by apply join_rows_fresh|].
    intros p l Hp [Hl | Hl]%elem_of_app; apply andb_false_iff.
    + right. apply Z.eqb_neq. apply Hlinks in Hl. lia.
    + left. apply Z.eqb_neq. destruct (HM l Hl) as [_ (q & Hq & ->)].
      destruct Hperm as [_ Hlt]. rewrite Forall_forall in Hlt. specialize (Hlt p Hp). apply Hnew in Hq. lia.
  - intros other Hother. assert (Hno : forall p l, l ∈ M -> links other p l = false).
    { intros p l Hl. apply andb_false_iff. right. apply Z.eqb_neq. destruct (HM l Hl). lia. }
    rewrite (proj1 (join_rows_links_app _ _ M other ltac:(intros p l _ Hl; by apply Hno))).
    rewrite join_rows_perms_app, (join_rows_none new), app_nil_r; [done|]. intros p l; apply Hold.
Qed.

(** Creating a team policy with a list of permissions succeeds, and the
    policy then loads with exactly those permissions, in order, while every
    other policy keeps the permissions it had. *)
Theorem create_with_permissions_loads now d team_id name configs :
  policies_wf d -> team_exists d team_id = true -> Forall config_round_trips configs ->
  exists d' pwp,
    create_with_permissions now d team_id name configs = (d', Ok pwp) /\
    map (fun p => (perm_identifier p, perm_config p)) (pwp_permissions pwp) = configs /\
    get_permissions d' (pol_id (pwp_policy pwp)) = Ok (pwp_permissions pwp) /\
    (forall other, other <> pol_id (pwp_policy pwp) ->
       get_permissions d' other = get_permissions d other).
Proof.
  intros Hwf Hteam Hrt. unfold create_with_permissions.
  destruct (create_permissions_ok now d configs Hrt) as (ps & -> & HF & Hmap). rewrite Hteam. cbn [negb].
  set (new := config_rows now (next_id (db_permissions d)) configs) in *.
  unfold insert_policy, insert_row; simpl. set (pid := next_id (db_policies d)).
  pose proof (loaded_ids _ _ HF) as Hids.
  assert (Hnew : forall p, p ∈ new -> next_id (db_permissions d) <= pr_id p)
    by (intros p Hp%config_rows_ids; lia).
  assert (Hnd : NoDup (map pr_id new)) by apply config_rows_nodup.
  match goal with |- context [link_permissions ?x _ _] => set (d2 := x) end.
  destruct (link_permissions_ok d2 pid ps) as (M & n & -> & HFM).
  - subst d2; simpl. eexists. rewrite elem_of_app, list_elem_of_singleton. split; [by right | done].
  - rewrite Forall_forall. intros p Hp. subst d2; simpl.
    apply (list_elem_of_fmap_2 perm_id) in Hp. change (perm_id p ∈ map perm_id ps) in Hp.
    rewrite Hids in Hp. apply list_elem_of_fmap in Hp as (r & -> & Hr).
    exists r. rewrite elem_of_app. auto.
  - subst d2; simpl. eapply Forall_impl; [apply Hwf|]. simpl. intros l [? _] E. lia.
  - by rewrite Hids.
  - destruct (join_rows_grow d new M pid Hwf Hnew Hnd eq_refl) as [Hmine Hothers].
    { apply Forall2_fmap_l with (f := pr_id) (P := fun i l => pp_policy_id l = pid /\ pp_permission_id l = i).
      change (Forall2 (fun i l => pp_policy_id l = pid /\ pp_permission_id l = i) (map pr_id new) M).
      rewrite <- Hids. by apply Forall2_fmap_l. }
    eexists _, _. split; [done|]. split; [done|].
    unfold get_permissions, permission_rows_of; simpl. rewrite Hmine. split.
    + by rewrite (proj2 (collect_ok _ _ _) HF).
    + intros other Hother. by rewrite (Hothers other Hother).
Qed.

Lemma min_policy_id_none l : min_policy_id l = None -> l = [].
Proof. by destruct l. Qed.

(** The lookup of a merchant's policy, by name among the global policies. *)
Definition is_commerce_policy (merchant : string) (p : Policy) : bool :=
  bool_decide (pol_name p = commerce_policy_name merchant) && is_null (pol_team_id p).

Definition commerce_policy_row (now pid : Z) (merchant : string) : Policy := {|
  pol_id := pid; pol_name := commerce_policy_name merchant; pol_team_id := None;
  pol_created_at := now; pol_updated_at := now; pol_slug := None; pol_display_name := None;
  pol_description := None |}.

Lemma commerce_policy_row_found now pid merchant :
  is_commerce_policy merchant (commerce_policy_row now pid merchant) = true.
Proof. unfold is_commerce_policy. by rewrite bool_decide_true by done. Qed.

(** The first call inserts the policy, its permission and their link. *)
Lemma commerce_envelope_created now d merchant :
  policies_wf d -> List.filter (is_commerce_policy merchant) (rows (db_policies d)) = [] ->
  let pid := next_id (db_policies d) in
  let new := config_rows now (next_id (db_permissions d)) [("commerce_envelope", commerce_config merchant)] in
  exists M n d', find_or_create_commerce_envelope now d merchant = (d', Ok pid) /\
    rows (db_policies d') = rows (db_policies d) ++ [commerce_policy_row now pid merchant] /\
    rows (db_permissions d') = rows (db_permissions d) ++ new /\
    rows (db_policy_permissions d') = rows (db_policy_permissions d) ++ M /\
    d' = set_policy_permissions {| rows := rows (db_policy_permissions d) ++ M; next_id := n |} d' /\
    Forall2 (fun p l => pp_policy_id l = pid /\ pp_permission_id l = pr_id p) new M.
Proof.
  intros Hwf Hf pid new. unfold find_or_create_commerce_envelope.
  fold (is_commerce_policy merchant). rewrite Hf. simpl.
  match goal with |- context [link_permission ?x ?y ?z] =>
    destruct (link_permissions_ok x pid [{| perm_id := z; perm_identifier := ""; perm_config := JNull;
      perm_created_at := 0; perm_updated_at := 0 |}]) as (M & n & Hlk & HFM) end.
  - simpl. eexists. rewrite elem_of_app, list_elem_of_singleton. split; [by right | done].
  - repeat constructor. simpl. eexists. rewrite elem_of_app, list_elem_of_singleton. split; [by right | done].
  - simpl. eapply Forall_impl; [apply Hwf|]. simpl. intros l [? _] E. subst pid. lia.
  - apply NoDup_singleton.
  - simpl in Hlk. fold pid. destruct (link_permission _ pid _) as [d3 [[]|e]]; [|discriminate].
    injection Hlk as ->. exists M, n. eexists. split; [done|]. simpl. repeat (split; [done|]).
    inversion HFM as [|? l ? M' Hl HM']; subst. inversion HM'; subst.
    constructor; [exact Hl | constructor].
Qed.

(** What the first call leaves: the policy, with exactly its permission, and
    every other policy as it was. *)
Lemma commerce_envelope_loads now d merchant :
  policies_wf d -> config_round_trips ("", commerce_config merchant) ->
  List.filter (is_commerce_policy merchant) (rows (db_policies d)) = [] ->
  let pid := next_id (db_policies d) in
  exists d' p,
    find_or_create_commerce_envelope now d merchant = (d', Ok pid) /\
    rows (db_policies d') = rows (db_policies d) ++ [commerce_policy_row now pid merchant] /\
    get_permissions d' pid = Ok [p] /\
    perm_identifier p = "commerce_envelope" /\ perm_config p = commerce_config merchant /\
    (forall other, other <> pid -> get_permissions d' other = get_permissions d other).
Proof.
  intros Hwf Hrt Hf. unfold config_round_trips in Hrt; simpl in Hrt.
  destruct (commerce_envelope_created now d merchant Hwf Hf)
    as (M & n & d' & Hcall & Hpol & Hperm & Hlk & _ & HFM).
  edestruct join_rows_grow as [Hmine Hothers];
    [exact Hwf | | | reflexivity | exact HFM |].
  { intros p Hp%config_rows_ids. lia. }
  { apply config_rows_nodup. }
  eexists d', _. split; [done|]. split; [done|].
  unfold get_permissions, permission_rows_of. rewrite Hperm, Hlk, Hmine. simpl.
  unfold permission_from_row at 1; simpl. rewrite Hrt; simpl.
  split; [done|]. split; [done|]. split; [done|].
  intros other Hother. simpl in Hothers. by rewrite (Hothers other Hother).
Qed.

(** The first order a customer places with a merchant creates one global
    policy holding exactly one commerce_envelope permission, whose config names
    that merchant; asking again finds the same policy and changes nothing. *)
Theorem find_or_create_commerce_envelope_correct now now' d merchant :
  policies_wf d -> config_round_trips ("", commerce_config merchant) ->
  (forall p, p ∈ rows (db_policies d) -> pol_name p = commerce_policy_name merchant ->
     pol_team_id p <> None) ->
  exists d' pid p,
    find_or_create_commerce_envelope now d merchant = (d', Ok pid) /\
    get_permissions d' pid = Ok [p] /\
    perm_identifier p = "commerce_envelope" /\ perm_config p = commerce_config merchant /\
    (forall other, other <> pid -> get_permissions d' other = get_permissions d other) /\
    find_or_create_commerce_envelope now' d' merchant = (d', Ok pid).
Proof.
  intros Hwf Hrt Hnone.
  assert (Hf : List.filter (is_commerce_policy merchant) (rows (db_policies d)) = []).
  { apply filter_nil. intros p Hp. unfold is_commerce_policy. specialize (Hnone p Hp).
    case_bool_decide as Hn; [|done]. specialize (Hnone Hn). by destruct (pol_team_id p). }
  destruct (commerce_envelope_loads now d merchant Hwf Hrt Hf) as (d' & p & Hcall & Hpol & H1 & H2 & H3 & H4).
  exists d', (next_id (db_policies d)), p. repeat (split; [done|]).
  unfold find_or_create_commerce_envelope. fold (is_commerce_policy merchant).
  rewrite Hpol, List.filter_app, Hf. cbn [app List.filter]. by rewrite commerce_policy_row_found.
Qed.

(** ** is_more_restrictive *)
Lemma subset_b_spec {A} `{EqDecision A} (l k : list A) : subset_b l k = true <-> l ⊆ k.
Proof.
  unfold subset_b. rewrite forallb_elem. setoid_rewrite existsb_elem. setoid_rewrite bool_decide_eq_true.
  split.
  - intros Hs x Hx. destruct (Hs x Hx) as (y & Hy & ->). done.
  - intros Hs x Hx. exists x. split; [by apply Hs | done].
Qed.

(** The three permission types whose configs is_more_restrictive compares. *)
Definition compared_identifiers : list string := ["allowed_kinds"; "content_filter"; "encrypt_to_self"].

(** What the weaker permission refuses, the stronger one refuses. *)
Definition implies_permission (pa pb : BoxedPermission) : Prop :=
  (forall e, dyn_can_sign pa e = true -> dyn_can_sign pb e = true) /\
  (forall t s r, dyn_can_encrypt pa t s r = true -> dyn_can_encrypt pb t s r = true) /\
  (forall t s r, dyn_can_decrypt pa t s r = true -> dyn_can_decrypt pb t s r = true).

Lemma content_allowed_mono a b text :
  compare_words a b = true ->
  content_allowed {| blocked_words := a |} text = true -> content_allowed {| blocked_words := b |} text = true.
Proof.
  unfold content_allowed; simpl. destruct a as [wa|], b as [wb|]; simpl; try done.
  rewrite subset_b_spec, !negb_true_iff, <- !not_true_iff_false, !existsb_elem.
  intros Hsub Hno (w & Hw & Hc). apply Hno. eauto.
Qed.

(** The comparison and the loading of each of the three types. *)
Lemma compare_permission_by_id a b :
  perm_identifier a = perm_identifier b ->
  (perm_identifier b = "allowed_kinds" ->
     compare_permission a b =
       match kinds_config a, kinds_config b with
       | Some a_kinds, Some b_kinds => subset_b a_kinds b_kinds
       | None, Some _ => false
       | _, None => true
       end) /\
  (perm_identifier b = "content_filter" ->
     compare_permission a b = compare_words (words_config a) (words_config b)).
Proof.
  intros Hid. unfold compare_permission. rewrite Hid, bool_decide_true by done. split; intros ->.
  - change (bool_decide ("allowed_kinds" = "allowed_kinds")) with true.
    by destruct (kinds_config a), (kinds_config b).
  - change (bool_decide ("content_filter" = "allowed_kinds")) with false.
    change (bool_decide ("content_filter" = "content_filter")) with true. done.
Qed.

Lemma to_custom_permission_by_id p :
  (perm_identifier p = "allowed_kinds" -> to_custom_permission p = AllowedKinds_from_permission p) /\
  (perm_identifier p = "content_filter" -> to_custom_permission p = ContentFilter_from_permission p) /\
  (perm_identifier p = "encrypt_to_self" -> to_custom_permission p = EncryptToSelf_from_permission p).
Proof. unfold to_custom_permission. split; [|split]; intros ->; reflexivity. Qed.

Lemma compare_permission_sound a b pa pb :
  perm_identifier a = perm_identifier b -> perm_identifier b ∈ compared_identifiers ->
  compare_permission a b = true ->
  to_custom_permission a = Ok pa -> to_custom_permission b = Ok pb -> implies_permission pa pb.
Proof.
  intros Hid Hin. destruct (compare_permission_by_id a b Hid) as [Hk Hw].
  destruct (to_custom_permission_by_id a) as (A1 & A2 & A3), (to_custom_permission_by_id b) as (B1 & B2 & B3).
  rewrite Hid in A1, A2, A3.
  unfold compared_identifiers in Hin. rewrite !elem_of_cons, elem_of_nil in Hin.
  destruct Hin as [E | [E | [E | []]]].
  - rewrite (Hk E), (A1 E), (B1 E). unfold AllowedKinds_from_permission, kinds_config.
    intros Hc Ha Hb. inv_ok.
    match goal with E1 : de_AllowedKindsConfig (perm_config a) = Ok ?x,
                    E2 : de_AllowedKindsConfig (perm_config b) = Ok ?y |- _ =>
      rewrite E1, E2 in Hc; destruct x as [ka|], y as [kb|]; try done end.
    apply subset_b_spec in Hc. split; [|done]. intros e. cbn. unfold allowed_kinds_can_sign; simpl.
    destruct (contains_kind_spec ka (ue_kind e)), (contains_kind_spec kb (ue_kind e)) as [Hk'|Hk']; try done.
    intros _. destruct Hk'. by apply Hc.
  - rewrite (Hw E), (A2 E), (B2 E). unfold ContentFilter_from_permission, words_config.
    intros Hc Ha Hb. inv_ok.
    match goal with E1 : de_ContentFilterConfig (perm_config a) = Ok _,
                    E2 : de_ContentFilterConfig (perm_config b) = Ok _ |- _ => rewrite E1, E2 in Hc end.
    split; [intros e | split; [intros t s r | done]]; by apply content_allowed_mono.
  - rewrite (A3 E), (B3 E). intros _ Ha Hb. unfold EncryptToSelf_from_permission in *. by inv_ok.
Qed.

(** Where is_more_restrictive answers "yes" for a policy B made only of
    the permission types it compares, each of which A has too, the answer is
    sound: whatever A's permissions together allow to sign, encrypt or decrypt,
    B's together allow. *)
Theorem is_more_restrictive_sound a_perms b_perms pas pbs :
  collect to_custom_permission a_perms = Ok pas -> collect to_custom_permission b_perms = Ok pbs ->
  Forall (fun b => perm_identifier b ∈ compared_identifiers /\
                   exists a, a ∈ a_perms /\ perm_identifier a = perm_identifier b) b_perms ->
  is_more_restrictive_perms a_perms b_perms = true ->
  (forall e, forallb (fun p => dyn_can_sign p e) pas = true -> forallb (fun p => dyn_can_sign p e) pbs = true) /\
  (forall t s r, forallb (fun p => dyn_can_encrypt p t s r) pas = true ->
                 forallb (fun p => dyn_can_encrypt p t s r) pbs = true) /\
  (forall t s r, forallb (fun p => dyn_can_decrypt p t s r) pas = true ->
                 forallb (fun p => dyn_can_decrypt p t s r) pbs = true).
Proof.
  rewrite !collect_ok, Forall_forall. intros Ha Hb Hmatch Hres.
  unfold is_more_restrictive_perms in Hres. apply andb_true_iff in Hres as [Hcmp _].
  rewrite forallb_elem in Hcmp.
  assert (Hk : forall pb, pb ∈ pbs -> exists pa, pa ∈ pas /\ implies_permission pa pb).
  { intros pb [i Hi]%list_elem_of_lookup.
    destruct (Forall2_lookup_r _ _ _ _ _ Hb Hi) as (b & Hbi & Hconv).
    apply list_elem_of_lookup_2 in Hbi as Hbin. destruct (Hmatch b Hbin) as [Hc (a & Hain & Hid)].
    apply list_elem_of_lookup in Hain as [j Hj] . destruct (Forall2_lookup_l _ _ _ _ _ Ha Hj) as (pa & Hpa & Hconva).
    exists pa. split; [by eapply list_elem_of_lookup_2|].
    eapply compare_permission_sound; try done. apply list_elem_of_lookup_2 in Hj.
    specialize (Hcmp a Hj). rewrite forallb_elem in Hcmp. by apply Hcmp. }
  split; [|split]; intros *; rewrite !forallb_elem; intros Hall pb Hpb;
    destruct (Hk pb Hpb) as (pa & Hpa & Hs & He & Hd); auto.
Qed.

(** Outside that fragment the answer is wrong: a policy with no permission
    at all, which allows everything, counts as more restrictive than every
    policy that lacks encrypt_to_self, an allowed_kinds whitelist included. *)
Theorem is_more_restrictive_ignores_missing b_perms :
  (forall b, b ∈ b_perms -> perm_identifier b <> "encrypt_to_self") ->
  is_more_restrictive_perms [] b_perms = true.
Proof.
  intros Hno. unfold is_more_restrictive_perms; simpl. apply forallb_elem. intros b Hb.
  by rewrite bool_decide_false by (by apply Hno).
Qed.

End policy_theorems.

(** ** Witnesses *)
Lemma empty_policies_wf : policies_wf empty_db.
Proof. repeat constructor. Qed.

Definition kinds_permission (config : string) : Permission := {|
  perm_id := 1; perm_identifier := "allowed_kinds"; perm_config := JString config;
  perm_created_at := 0; perm_updated_at := 0 |}.

Definition team_db : Db :=
  set_teams {| rows := [{| tm_id := 3; tm_name := "t"; tm_created_at := 0; tm_updated_at := 0; tm_tenant_id := 1 |}];
               next_id := 4 |} empty_db.

Lemma create_with_permissions_loads_witness :
  exists d' pwp,
    create_with_permissions 10 team_db 3 "posting" [("allowed_kinds", JString "K")] = (d', Ok pwp) /\
    get_permissions d' (pol_id (pwp_policy pwp)) = Ok (pwp_permissions pwp).
Proof.
  destruct (create_with_permissions_loads 10 team_db 3 "posting" [("allowed_kinds", JString "K")])
    as (d' & pwp & H1 & _ & H2 & _).
  - exact empty_policies_wf.
  - reflexivity.
  - repeat constructor.
  - exists d', pwp. split; [exact H1 | exact H2].
Defined.

Lemma find_or_create_commerce_envelope_witness :
  exists d' pid p,
    find_or_create_commerce_envelope 10 empty_db "shop" = (d', Ok pid) /\
    get_permissions d' pid = Ok [p] /\
    find_or_create_commerce_envelope 11 d' "shop" = (d', Ok pid).
Proof.
  destruct (find_or_create_commerce_envelope_correct 10 11 empty_db "shop") as (d' & pid & p & H1 & H2 & _ & _ & _ & H3).
  - exact empty_policies_wf.
  - reflexivity.
  - intros p Hp. inversion Hp.
  - exists d', pid, p. split; [exact H1 | split; [exact H2 | exact H3]].
Defined.

Lemma is_more_restrictive_sound_witness :
  is_more_restrictive_perms [kinds_permission "K"] [kinds_permission "K"] = true /\
  forall e, forallb (fun p => dyn_can_sign p e) [Box {| allowed_kinds := Some [1; 7] |}] = true ->
            forallb (fun p => dyn_can_sign p e) [Box {| allowed_kinds := Some [1; 7] |}] = true.
Proof.
  split; [reflexivity|].
  apply (is_more_restrictive_sound [kinds_permission "K"] [kinds_permission "K"]).
  - reflexivity.
  - reflexivity.
  - constructor; [|constructor]. split; [constructor|]. eexists. split; [constructor | reflexivity].
  - reflexivity.
Defined.

Lemma is_more_restrictive_ignores_missing_witness :
  is_more_restrictive_perms [] [kinds_permission "K"] = true.
Proof.
  apply is_more_restrictive_ignores_missing. intros b Hb. inversion Hb as [|? ? ? Hb']; subst; [discriminate | inversion Hb'].
Defined.
