(* ===== verification/AuthTypes.v ===== *)
(** * Authorization records and bunker keys

    core/src/types/authorization.rs, core/src/types/oauth_authorization.rs,
    core/src/bunker_key.rs and core/src/authorization_channel.rs: loading an
    authorization and its permissions, the relay list, the bunker URL and the
    key an authorization answers under. *)
From S2P Require Import Prelude RustStr External Instances Database Permissions Policies.

(** ** Conditions the queries share

    [revoked_at IS NULL AND (expires_at IS NULL OR expires_at > NOW())] on OAuth
    authorizations, and the expiry part alone on team authorizations. *)
Definition oauth_active (now : Z) (r : OAuthAuthorization) : bool :=
  is_null (oa_revoked_at r) && null_or_after (oa_expires_at r) now.
Definition team_unexpired (now : Z) (r : Authorization) : bool := null_or_after (au_expires_at r) now.

Inductive AuthorizationError : Type :=
| AE_Database (e : sqlx_error)
| AE_Encryption (msg : string)
| AE_InvalidBunkerSecretKey
| AE_Expired
| AE_FullyRedeemed
| AE_InvalidSecret
| AE_Unauthorized
| AE_UnsupportedRequest.

(** The Display texts. *)
Definition sqlx_error_str (e : sqlx_error) : string :=
  match e with
  | RowNotFound => "no rows returned by a query that expected to return at least one row"
  | SqlxDatabase _ m => "error returned from database: " +:+ m
  | SqlxOther m => m
  end.

Definition authorization_error_str (e : AuthorizationError) : string :=
  match e with
  | AE_Database e => "Database error: " +:+ sqlx_error_str e
  | AE_Encryption m => "Encryption error: " +:+ m
  | AE_InvalidBunkerSecretKey => "Invalid bunker secret key"
  | AE_Expired => "Authorization is expired"
  | AE_FullyRedeemed => "Authorization is fully redeemed"
  | AE_InvalidSecret => "Invalid secret"
  | AE_Unauthorized => "Unauthorized by permission"
  | AE_UnsupportedRequest => "Unsupported request"
  end.

(** ** Reading rows

    sqlx decodes an integer column only into the Rust type of its width. *)
Inductive int_type : Set := INT4 | INT8.
#[export] Instance int_type_eq_dec : EqDecision int_type.
Proof. solve_decision. Defined.

Definition decode_int (wanted column : int_type) (v : Z) : result Z sqlx_error :=
  if decide (wanted = column) then Ok v else Err (SqlxOther "mismatched types").

Section auth_types.
Context `{Serde}.

(** Relays::try_from: the column is a JSON array of strings. *)
Definition decode_relays (s : string) : result (list string) sqlx_error :=
  match json_from_str s with
  | Ok (JArray l) => ok_or (mapM as_str l) (SqlxOther "invalid type")
  | Ok _ => Err (SqlxOther "invalid type")
  | Err e => Err (SqlxOther e)
  end.

Definition decode_oauth (r : OAuthAuthorization) : result OAuthAuthorization sqlx_error :=
  let? _ := decode_relays (oa_relays r) in Ok r.
Definition decode_authorization (r : Authorization) : result Authorization sqlx_error :=
  let? _ := decode_relays (au_relays r) in Ok r.

(** [fetch_one] of a query: no row is an error. *)
Definition fetch_one {A} (o : option A) : result A sqlx_error := ok_or o RowNotFound.

(** ** Authorization *)
Definition authorization_find (d : Db) (tenant_id id : Z) : result Authorization AuthorizationError :=
  map_err AE_Database
    (let? r := fetch_one (find_first (fun a => (au_tenant_id a =? tenant_id) && (au_id a =? id))
                            (rows (db_authorizations d))) in
     decode_authorization r).

Definition authorization_all_ids (d : Db) (tenant_id : Z) : list Z :=
  map au_id (List.filter (fun a => (au_tenant_id a =? tenant_id) && is_null (au_revoked_at a))
               (rows (db_authorizations d))).

Definition authorization_all_ids_for_all_tenants (d : Db) : list (Z * Z) :=
  map (fun a => (au_tenant_id a, au_id a))
    (List.filter (fun a => is_null (au_revoked_at a)) (rows (db_authorizations d))).

Definition authorization_stored_key (d : Db) (tenant_id : Z) (a : Authorization)
  : result StoredKey AuthorizationError :=
  map_err AE_Database
    (fetch_one (find_first (fun k => (sk_tenant_id k =? tenant_id) && (sk_id k =? au_stored_key_id a))
                  (rows (db_stored_keys d)))).

(** The join with [policies] keeps links whose policy exists. *)
Definition authorization_permissions (d : Db) (a : Authorization)
  : result (list Permission) AuthorizationError :=
  let joined := flat_map (fun pol => permission_rows_of d (pol_id pol))
                  (List.filter (fun pol => pol_id pol =? au_policy_id a) (rows (db_policies d))) in
  map_err AE_Database (collect permission_from_row joined).

(** ** OAuthAuthorization *)
Definition oauth_permissions (d : Db) (a : OAuthAuthorization)
  : result (list Permission) AuthorizationError :=
  match oa_policy_id a with
  | None => Ok []
  | Some policy_id => map_err AE_Database (collect permission_from_row (permission_rows_of d policy_id))
  end.

Definition oauth_find (d : Db) (tenant_id id : Z) : result OAuthAuthorization AuthorizationError :=
  map_err AE_Database
    (let? r := fetch_one (find_first (fun a => (oa_tenant_id a =? tenant_id) && (oa_id a =? id))
                            (rows (db_oauth_authorizations d))) in
     decode_oauth r).

Definition oauth_usable (now : Z) (a : OAuthAuthorization) : bool :=
  oauth_active now a && (now <? oa_handle_expires_at a).

Definition oauth_all_ids (now : Z) (d : Db) : list Z :=
  map oa_id (List.filter (oauth_usable now) (rows (db_oauth_authorizations d))).

Definition oauth_all_ids_for_all_tenants (now : Z) (d : Db) : list (Z * Z) :=
  map (fun a => (oa_tenant_id a, oa_id a))
    (List.filter (oauth_usable now) (rows (db_oauth_authorizations d))).

End auth_types.

(** ** Bunker relays and the bunker URL

    [env] is the BUNKER_RELAYS variable; [None] as a result is a panic. *)
Definition get_bunker_relays (env : option string) : option (list string) :=
  match env with
  | None => None
  | Some relays_str =>
      match List.filter (fun s => negb (bool_decide (s = ""))) (map trim (split "," relays_str)) with
      | [] => None
      | relays => Some relays
      end
  end.

(** [urlencode] is the urlencoding crate's [encode]. *)
Definition generate_bunker_url (urlencode : string -> string) (env : option string)
    (bunker_public_key secret : string) : option string :=
  match get_bunker_relays env with
  | None => None
  | Some relays =>
      let relay_params := join "&" (map (fun r => "relay=" +:+ urlencode r) relays) in
      Some ("bunker://" +:+ bunker_public_key +:+ "?" +:+ relay_params +:+ "&secret=" +:+ urlencode secret)
  end.

(** ** Bunker keys *)
Definition HKDF_INFO_PREFIX : string := "keycast-bunker-nip46-v1-".

Section bunker_keys.
Context `{Secrets}.

Definition derived_info (info : string) (counter : Z) : string :=
  if counter =? 0 then info else info +:+ "-retry" +:+ print_Z counter.

Definition bunker_candidate (user_secret : SecretKey) (info : string) (counter : Z)
  : result SecretKey string :=
  sk_from_slice (hkdf_expand user_secret (derived_info info counter)).

(** The retry loop, [fuel] rounds of it; [None] is running out. *)
Fixpoint derive_loop (fuel : nat) (user_secret : SecretKey) (info : string) (counter : Z)
  : option SecretKey :=
  match fuel with
  | O => None
  | S fuel' =>
      match bunker_candidate user_secret info counter with
      | Ok secret => Some secret
      | Err _ => derive_loop fuel' user_secret info (counter + 1)
      end
  end.

(** One round fails with probability about 2^-128, so 64 rounds stand for the
    2^32 of the source. *)
Definition DERIVE_FUEL : nat := 64.

Definition derive_bunker_keys (user_secret : SecretKey) (connection_secret : string) : option SecretKey :=
  derive_loop DERIVE_FUEL user_secret (HKDF_INFO_PREFIX +:+ connection_secret) 0.

(** The loop finds the first counter whose bytes are a key, and finds one
    whenever there is one within its rounds. *)
Lemma derive_loop_first fuel us info start sk :
  derive_loop fuel us info start = Some sk <->
  exists k, (k < fuel)%nat /\ bunker_candidate us info (start + Z.of_nat k) = Ok sk /\
    forall j, (j < k)%nat -> is_ok (bunker_candidate us info (start + Z.of_nat j)) = false.
Proof.
  revert start; induction fuel as [|fuel IH]; intros start; simpl.
  { split; [discriminate | intros (k & Hk & _); lia]. }
  destruct (bunker_candidate us info start) as [s|e] eqn:E.
  - split.
    + intros [= <-]. exists 0%nat. rewrite Z.add_0_r. split; [lia|]. split; [done | intros; lia].
    + intros ([|k] & Hk & Hc & Hno); [rewrite Z.add_0_r in Hc; congruence|].
      specialize (Hno 0%nat ltac:(lia)). rewrite Z.add_0_r, E in Hno. discriminate.
  - rewrite IH. split.
    + intros (k & Hk & Hc & Hno). exists (S k). split; [lia|].
      replace (start + Z.of_nat (S k)) with (start + 1 + Z.of_nat k) by lia. split; [done|].
      intros [|j] Hj; [by rewrite Z.add_0_r, E|].
      replace (start + Z.of_nat (S j)) with (start + 1 + Z.of_nat j) by lia. apply Hno. lia.
    + intros ([|k] & Hk & Hc & Hno); [rewrite Z.add_0_r in Hc; congruence|].
      exists k. replace (start + 1 + Z.of_nat k) with (start + Z.of_nat (S k)) by lia.
      split; [lia|]. split; [done|]. intros j Hj.
      replace (start + 1 + Z.of_nat j) with (start + Z.of_nat (S j)) by lia. apply Hno. lia.
Qed.

(** Bunker key derivation returns a key as soon as one of its candidate
    scalars is valid, and the key is the first valid candidate of the counter
    sequence: it depends only on the user's secret and the connection secret. *)
Theorem derive_bunker_keys_first user_secret connection_secret :
  let info := HKDF_INFO_PREFIX +:+ connection_secret in
  (forall k, 0 <= k < Z.of_nat DERIVE_FUEL -> is_ok (bunker_candidate user_secret info k) = true ->
     is_Some (derive_bunker_keys user_secret connection_secret)) /\
  (forall sk, derive_bunker_keys user_secret connection_secret = Some sk ->
     exists k, 0 <= k < Z.of_nat DERIVE_FUEL /\
       sk_from_slice (hkdf_expand user_secret (derived_info info k)) = Ok sk /\
       forall j, 0 <= j < k -> is_ok (bunker_candidate user_secret info j) = false).
Proof.
  intros info. unfold derive_bunker_keys. fold info. split.
  - intros k Hk Hok. destruct (derive_loop DERIVE_FUEL user_secret info 0) as [sk|] eqn:E; [eauto|].
    assert (Hgen : forall fuel start, derive_loop fuel user_secret info start = None ->
      forall j, (j < fuel)%nat -> is_ok (bunker_candidate user_secret info (start + Z.of_nat j)) = false).
    { clear. induction fuel as [|fuel IH]; intros start Hn j Hj; [lia|]. simpl in Hn.
      destruct (bunker_candidate user_secret info start) eqn:E; [discriminate|].
      destruct j as [|j]; [by rewrite Z.add_0_r, E|].
      replace (start + Z.of_nat (S j)) with (start + 1 + Z.of_nat j) by lia. apply IH; [done | lia]. }
    specialize (Hgen _ _ E (Z.to_nat k) ltac:(lia)).
    rewrite Z.add_0_l, Z2Nat.id in Hgen by lia. congruence.
  - intros sk (k & Hk & Hc & Hno)%derive_loop_first. exists (Z.of_nat k). split; [lia|].
    split; [by rewrite Z.add_0_l in Hc|]. intros j Hj.
    specialize (Hno (Z.to_nat j) ltac:(lia)). by rewrite Z.add_0_l, Z2Nat.id in Hno by lia.
Qed.

End bunker_keys.

(** ** Authorization commands (core/src/authorization_channel.rs) *)
Definition CHANNEL_BUFFER_SIZE : nat := 100.

Inductive AuthorizationCommand : Type :=
| Upsert (bunker_pubkey : string) (tenant_id : Z) (is_oauth : bool)
| Remove (bunker_pubkey : string)
| ReloadAll.
