(* ===== verification/Signer.v ===== *)
(** * The NIP-46 signer

    signer/src/signer_daemon.rs and signer/src/error.rs: the handler of one
    authorization, the cache of handlers, and the processing of one encrypted
    request from its relay event to the response event.  The state is the
    database, the handler cache and the events sent; a request handler is a
    computation in [SE], so database writes made before an error stay.  The
    activity statement that the source spawns in the background runs where it is
    spawned.  Metrics and logging are left out. *)
From S2P Require Import Prelude RustStr External Instances Database Permissions Policies AuthTypes.

(** ** Errors *)
Inductive SignerError : Type :=
| SE_Database (e : sqlx_error)
| SE_Authorization (e : AuthorizationError)
| SE_Encryption (msg : string)
| SE_InvalidKey (msg : string)
| SE_PermissionDenied (msg : string)
| SE_InvalidPermission (msg : string)
| SE_Nip04 (msg : string)
| SE_Nip44 (msg : string)
| SE_Signing (msg : string)
| SE_EventBuilder (msg : string)
| SE_Client (msg : string)
| SE_Json (msg : string)
| SE_TagParse (msg : string)
| SE_MissingParameter (name : string)
| SE_InvalidRequest (msg : string)
| SE_DataCorruption (msg : string)
| SE_Relay (msg : string)
| SE_Internal (msg : string)
(** not an error of the source: the task panics *)
| SE_Panic (msg : string).

(** The Display text of the errors that reach a client. *)
Definition signer_error_str (e : SignerError) : string :=
  match e with
  | SE_Database e => "Database error: " +:+ sqlx_error_str e
  | SE_Authorization e => "Authorization error: " +:+ authorization_error_str e
  | SE_Encryption m => "Encryption error: " +:+ m
  | SE_InvalidKey m => "Invalid key: " +:+ m
  | SE_PermissionDenied m => "Permission denied: " +:+ m
  | SE_InvalidPermission m => "Invalid permission config: " +:+ m
  | SE_Nip04 m => "NIP-04 error: " +:+ m
  | SE_Nip44 m => "NIP-44 error: " +:+ m
  | SE_Signing m => "Signing error: " +:+ m
  | SE_EventBuilder m => "Event builder error: " +:+ m
  | SE_Client m => "Client error: " +:+ m
  | SE_Json m => "JSON error: " +:+ m
  | SE_TagParse m => "Tag parse error: " +:+ m
  | SE_MissingParameter m => "Missing parameter: " +:+ m
  | SE_InvalidRequest m => "Invalid request: " +:+ m
  | SE_DataCorruption m => "Data corruption: " +:+ m
  | SE_Relay m => "Relay error: " +:+ m
  | SE_Internal m => "Internal error: " +:+ m
  | SE_Panic m => m
  end.

(** ** Handlers *)
Inductive HandlerStatus : Set := Active | Revoked | Expired.
#[export] Instance HandlerStatus_eq_dec : EqDecision HandlerStatus.
Proof. solve_decision. Defined.

(** [Keys] is its secret key; the public key is [pk_of] of it. *)
Record Nip46Handler `{Nostr} : Type := {
  h_bunker_keys : SecretKey;
  h_user_keys : SecretKey;
  h_secret_hash : string;
  h_authorization_id : Z;
  h_tenant_id : Z;
  h_is_oauth : bool;
  h_status : HandlerStatus;
  h_tombstone_at : option Z;
}.

Definition is_tombstone `{Nostr} (h : Nip46Handler) : bool := negb (bool_decide (h_status h = Active)).

Definition tombstone_error_message `{Nostr} (h : Nip46Handler) : option string :=
  match h_status h with
  | Active => None
  | Revoked => Some "Authorization has been revoked"
  | Expired => Some "Authorization has expired"
  end.

Definition compute_status_from_oauth (now : Z) (auth : OAuthAuthorization) : HandlerStatus * option Z :=
  match oa_revoked_at auth with
  | Some _ => (Revoked, oa_revoked_at auth)
  | None =>
      match oa_expires_at auth with
      | Some expires_at => if expires_at <=? now then (Expired, Some expires_at) else (Active, None)
      | None => (Active, None)
      end
  end.

(** ** What the signer calls

    The cluster decides which instance answers for a bunker key; the relay
    client publishes a response. *)
Class Cluster := { should_handle : string -> bool }.
Class Relay `{Nostr} := { send_event : Event -> result unit string }.

Section signer.
Context `{HN : Nostr, HC : !NostrCrypto, HS : !Serde, HX : !Secrets}.

Record signer : Type := {
  sg_db : Db;
  sg_handlers : gmap string Nip46Handler;
  sg_sent : list Event;
}.

Definition set_db (f : Db -> Db) (s : signer) : signer :=
  {| sg_db := f (sg_db s); sg_handlers := sg_handlers s; sg_sent := sg_sent s |}.
Definition set_handlers (f : gmap string Nip46Handler -> gmap string Nip46Handler) (s : signer) : signer :=
  {| sg_db := sg_db s; sg_handlers := f (sg_handlers s); sg_sent := sg_sent s |}.
Definition record_sent (e : Event) (s : signer) : signer :=
  {| sg_db := sg_db s; sg_handlers := sg_handlers s; sg_sent := sg_sent s ++ [e] |}.

Definition M : Type -> Type := SE signer SignerError.

(** ** Permission checks *)
Definition load_permissions (d : Db) (h : Nip46Handler) : result (list BoxedPermission) SignerError :=
  let? permissions :=
    map_err SE_Authorization
      (if h_is_oauth h
       then let? a := oauth_find d (h_tenant_id h) (h_authorization_id h) in oauth_permissions d a
       else let? a := authorization_find d (h_tenant_id h) (h_authorization_id h) in
            authorization_permissions d a) in
  collect (fun p =>
    map_err (fun e => SE_InvalidPermission ("Failed to convert permission '" +:+ perm_identifier p +:+ "': "
                        +:+ permission_error_str e))
      (to_custom_permission p)) permissions.

(** The loop of the three validations: the first permission that refuses. *)
Fixpoint check_all (allows : BoxedPermission -> bool) (ps : list BoxedPermission)
  : result unit SignerError :=
  match ps with
  | [] => Ok tt
  | p :: ps' =>
      if negb (allows p)
      then Err (SE_PermissionDenied ("Blocked by '" +:+ dyn_identifier p +:+ "' policy"))
      else check_all allows ps'
  end.

Definition validate_permissions_for_sign (d : Db) (h : Nip46Handler) (e : UnsignedEvent)
  : result unit SignerError :=
  let? ps := load_permissions d h in check_all (fun p => dyn_can_sign p e) ps.

Definition validate_permissions_for_encrypt (d : Db) (h : Nip46Handler) (plaintext : string)
    (recipient : PublicKey) : result unit SignerError :=
  let sender := pk_of (h_user_keys h) in
  let? ps := load_permissions d h in check_all (fun p => dyn_can_encrypt p plaintext sender recipient) ps.

Definition validate_permissions_for_decrypt (d : Db) (h : Nip46Handler) (ciphertext : string)
    (sender : PublicKey) : result unit SignerError :=
  let recipient := pk_of (h_user_keys h) in
  let? ps := load_permissions d h in check_all (fun p => dyn_can_decrypt p ciphertext sender recipient) ps.

(** ** Clients *)
Definition connect_oauth_client (now : Z) (client : string) (id : Z) (d : Db) : Db :=
  set_oauth_authorizations (with_rows (update_where (fun a => oa_id a =? id) (fun a => {|
    oa_id := oa_id a; oa_user_pubkey := oa_user_pubkey a; oa_redirect_origin := oa_redirect_origin a;
    oa_client_id := oa_client_id a; oa_bunker_public_key := oa_bunker_public_key a;
    oa_secret_hash := oa_secret_hash a; oa_relays := oa_relays a; oa_policy_id := oa_policy_id a;
    oa_tenant_id := oa_tenant_id a; oa_client_pubkey := oa_client_pubkey a;
    oa_connected_client_pubkey := Some client; oa_connected_at := Some now;
    oa_created_at := oa_created_at a; oa_updated_at := now; oa_revoked_at := oa_revoked_at a;
    oa_expires_at := oa_expires_at a; oa_handle_expires_at := oa_handle_expires_at a;
    oa_authorization_handle := oa_authorization_handle a; oa_last_activity := oa_last_activity a;
    oa_activity_count := oa_activity_count a |})) (db_oauth_authorizations d)) d.

Definition connect_team_client (now : Z) (client : string) (id : Z) (d : Db) : Db :=
  set_authorizations (with_rows (update_where (fun a => au_id a =? id) (fun a => {|
    au_id := au_id a; au_tenant_id := au_tenant_id a; au_stored_key_id := au_stored_key_id a;
    au_secret_hash := au_secret_hash a; au_bunker_public_key := au_bunker_public_key a;
    au_relays := au_relays a; au_policy_id := au_policy_id a; au_max_uses := au_max_uses a;
    au_expires_at := au_expires_at a; au_connected_client_pubkey := Some client;
    au_connected_at := Some now; au_label := au_label a; au_created_at := au_created_at a;
    au_updated_at := now; au_revoked_at := au_revoked_at a; au_revoked_reason := au_revoked_reason a |}))
    (db_authorizations d)) d.

Definition connect_client (now : Z) (h : Nip46Handler) (client : string) (id : Z) (d : Db) : Db :=
  if h_is_oauth h then connect_oauth_client now client id d else connect_team_client now client id d.

(** The connected client of the handler's authorization, when it is live. *)
Definition existing_client (now : Z) (d : Db) (h : Nip46Handler) : option string :=
  if h_is_oauth h then
    mjoin (oa_connected_client_pubkey <$>
      find_first (fun a => (oa_id a =? h_authorization_id h) && (oa_tenant_id a =? h_tenant_id h)
                           && oauth_active now a) (rows (db_oauth_authorizations d)))
  else
    mjoin (au_connected_client_pubkey <$>
      find_first (fun a => (au_id a =? h_authorization_id h) && (au_tenant_id a =? h_tenant_id h)
                           && team_unexpired now a) (rows (db_authorizations d))).

(** The decision of [process_connect] once the SELECT has answered. *)
Definition connect_decision (now : Z) (h : Nip46Handler) (client : string) (existing : option string)
  : M string :=
  match existing with
  | Some e =>
      if bool_decide (e = client) then se_ret "ack"
      else se_fail (SE_PermissionDenied "Secret already used by another client")
  | None =>
      let! _ := se_modify (set_db (connect_client now h client (h_authorization_id h))) in
      se_ret "ack"
  end.

Definition process_connect (now : Z) (h : Nip46Handler) (client provided_secret : string) : M string :=
  if negb (bcrypt_verify provided_secret (h_secret_hash h)) then
    se_fail (SE_PermissionDenied "Invalid secret")
  else
    let! existing := se_gets (fun s => existing_client now (sg_db s) h) in
    connect_decision now h client existing.

(** EXISTS(.. bunker_public_key = $1 AND connected_client_pubkey = $2 ..) *)
Definition client_is_connected (now : Z) (d : Db) (h : Nip46Handler) (client : string) : bool :=
  let bunker_pubkey := pk_to_hex (pk_of (h_bunker_keys h)) in
  if h_is_oauth h then
    existsb (fun a => bool_decide (oa_bunker_public_key a = bunker_pubkey)
                      && bool_decide (oa_connected_client_pubkey a = Some client) && oauth_active now a)
      (rows (db_oauth_authorizations d))
  else
    existsb (fun a => bool_decide (au_bunker_public_key a = bunker_pubkey)
                      && bool_decide (au_connected_client_pubkey a = Some client) && team_unexpired now a)
      (rows (db_authorizations d)).

(** SELECT id .. connected_client_pubkey IS NULL .. LIMIT 1 *)
Definition unconnected_id (now : Z) (d : Db) (h : Nip46Handler) : option Z :=
  let bunker_pubkey := pk_to_hex (pk_of (h_bunker_keys h)) in
  if h_is_oauth h then
    oa_id <$> find_first (fun a => bool_decide (oa_bunker_public_key a = bunker_pubkey)
                      && is_null (oa_connected_client_pubkey a) && oauth_active now a)
      (rows (db_oauth_authorizations d))
  else
    au_id <$> find_first (fun a => bool_decide (au_bunker_public_key a = bunker_pubkey)
                      && is_null (au_connected_client_pubkey a) && team_unexpired now a)
      (rows (db_authorizations d)).

Definition validate_client (now : Z) (d : Db) (h : Nip46Handler) (client : string) : result unit SignerError :=
  if client_is_connected now d h client then Ok tt
  else match unconnected_id now d h with
       | Some _ => Err (SE_PermissionDenied "Unknown client - must connect first")
       | None => Err (SE_PermissionDenied "Unknown client - not connected to any authorization")
       end.

Definition validate_and_store_client (now : Z) (h : Nip46Handler) (client : string) : M unit :=
  let! d := se_gets sg_db in
  if client_is_connected now d h client then se_ret tt
  else match unconnected_id now d h with
       | Some auth_id => se_modify (set_db (connect_client now h client auth_id))
       | None => se_fail (SE_PermissionDenied "Unknown client - not connected to any authorization")
       end.

(** UPDATE oauth_authorizations SET last_activity, activity_count + 1 *)
Definition bump_activity (now : Z) (h : Nip46Handler) (d : Db) : Db :=
  set_oauth_authorizations (with_rows (update_where
    (fun a => (oa_id a =? h_authorization_id h) && (oa_tenant_id a =? h_tenant_id h)) (fun a => {|
    oa_id := oa_id a; oa_user_pubkey := oa_user_pubkey a; oa_redirect_origin := oa_redirect_origin a;
    oa_client_id := oa_client_id a; oa_bunker_public_key := oa_bunker_public_key a;
    oa_secret_hash := oa_secret_hash a; oa_relays := oa_relays a; oa_policy_id := oa_policy_id a;
    oa_tenant_id := oa_tenant_id a; oa_client_pubkey := oa_client_pubkey a;
    oa_connected_client_pubkey := oa_connected_client_pubkey a; oa_connected_at := oa_connected_at a;
    oa_created_at := oa_created_at a; oa_updated_at := now; oa_revoked_at := oa_revoked_at a;
    oa_expires_at := oa_expires_at a; oa_handle_expires_at := oa_handle_expires_at a;
    oa_authorization_handle := oa_authorization_handle a; oa_last_activity := Some now;
    oa_activity_count := oa_activity_count a + 1 |})) (db_oauth_authorizations d)) d.

Definition spawn_update_activity (now : Z) (h : Nip46Handler) : M unit :=
  if negb (h_is_oauth h) then se_ret tt else se_modify (set_db (bump_activity now h)).

(** ** Signing *)
Definition sign_event_direct (now : Z) (h : Nip46Handler) (ue : UnsignedEvent) : M Event :=
  let! d := se_gets sg_db in
  let! _ := se_lift (validate_permissions_for_sign d h ue) in
  let! signed_event := se_lift (map_err SE_Signing (sign_unsigned (h_user_keys h) ue)) in
  let! _ := spawn_update_activity now h in
  se_ret signed_event.

(** A JSON tag: its strings; entries that are not strings are skipped. *)
Definition tag_strings (j : json) : option (list string) :=
  match as_array j with Some arr => Some (omap as_str arr) | None => None end.

Fixpoint parse_tags (l : list json) : result (list Tag) SignerError :=
  match l with
  | [] => Ok []
  | tag_arr :: l' =>
      match tag_strings tag_arr with
      | Some ((_ :: _) as strs) =>
          let? t := map_err SE_TagParse (tag_parse strs) in
          let? ts := parse_tags l' in Ok (t :: ts)
      | _ => parse_tags l'
      end
  end.

(** The event a sign_event request asks for. *)
Definition request_event (h : Nip46Handler) (request : json) : result UnsignedEvent SignerError :=
  let? event_json := ok_or (as_str (json_nth (json_get request "params") 0)) (SE_MissingParameter "event") in
  let? ue := map_err SE_Json (json_from_str event_json) in
  let? kind := ok_or (as_u64 (json_get ue "kind")) (SE_MissingParameter "kind") in
  let? content := ok_or (as_str (json_get ue "content")) (SE_MissingParameter "content") in
  let? created_at := ok_or (as_u64 (json_get ue "created_at")) (SE_MissingParameter "created_at") in
  let? tags_json := ok_or (as_array (json_get ue "tags")) (SE_MissingParameter "tags") in
  let? tags := parse_tags tags_json in
  Ok {| ue_pubkey := pk_of (h_user_keys h); ue_created_at := created_at;
        ue_kind := kind mod 2 ^ 16; ue_tags := tags; ue_content := content |}.

Definition response_of (request_id : json) (field text : string) : json :=
  JObject [("id", request_id); (field, JString text)].

Definition handle_sign_event (now : Z) (h : Nip46Handler) (request : json) : M json :=
  let! ue := se_lift (request_event h request) in
  let! d := se_gets sg_db in
  let! _ := se_lift (validate_permissions_for_sign d h ue) in
  let! signed_event := se_lift (map_err SE_EventBuilder
    (builder_sign (h_user_keys h) (ue_kind ue) (ue_content ue) (ue_tags ue) (ue_created_at ue))) in
  let! _ := spawn_update_activity now h in
  se_ret (response_of (json_get request "id") "result" (event_to_json signed_event)).

(** ** Loading a handler

    The keys of an authorization: the user's secret decrypted, the bunker key
    derived from it. *)
Definition unlock_keys (what : string) (encrypted : list Z) (secret_hash : string)
  : result (SecretKey * SecretKey) SignerError :=
  let? decrypted := map_err SE_Encryption (km_decrypt encrypted) in
  let? user_secret := map_err (fun e => SE_InvalidKey (what +:+ e)) (sk_from_slice decrypted) in
  let? bunker := ok_or (derive_bunker_keys user_secret secret_hash) (SE_Panic "unreachable") in
  Ok (bunker, user_secret).

Definition personal_key (d : Db) (user_pubkey : string) (tenant_id : Z) : result (list Z) SignerError :=
  map_err SE_Database (fetch_one (pk_encrypted_secret_key <$>
    find_first (fun k => bool_decide (pk_user_pubkey k = user_pubkey) && (pk_tenant_id k =? tenant_id))
      (db_personal_keys d))).

Definition stored_key_secret (d : Db) (stored_key_id tenant_id : Z) : result (list Z) SignerError :=
  map_err SE_Database (fetch_one (sk_secret_key <$>
    find_first (fun k => (sk_id k =? stored_key_id) && (sk_tenant_id k =? tenant_id))
      (rows (db_stored_keys d)))).

Definition mk_handler (keys : SecretKey * SecretKey) (secret_hash : string) (id tenant : Z)
    (is_oauth : bool) (st : HandlerStatus * option Z) : Nip46Handler := {|
  h_bunker_keys := fst keys; h_user_keys := snd keys; h_secret_hash := secret_hash;
  h_authorization_id := id; h_tenant_id := tenant; h_is_oauth := is_oauth;
  h_status := fst st; h_tombstone_at := snd st |}.

Definition status_from_expiry (now : Z) (expires_at : option Z) : HandlerStatus * option Z :=
  match expires_at with
  | Some exp => if exp <=? now then (Expired, Some exp) else (Active, None)
  | None => (Active, None)
  end.

(** On-demand loading: OAuth authorizations first, then team authorizations,
    revoked and expired ones included; [None] is "not our bunker". *)
Definition load_on_demand (now : Z) (d : Db) (bunker_pubkey : string)
  : result (option Nip46Handler) SignerError :=
  match find_first (fun a => bool_decide (oa_bunker_public_key a = bunker_pubkey))
          (rows (db_oauth_authorizations d)) with
  | Some row =>
      let? auth := map_err SE_Database (decode_oauth row) in
      let? encrypted := personal_key d (oa_user_pubkey auth) (oa_tenant_id auth) in
      let? keys := unlock_keys "Invalid user key: " encrypted (oa_secret_hash auth) in
      Ok (Some (mk_handler keys (oa_secret_hash auth) (oa_id auth) (oa_tenant_id auth) true
                  (compute_status_from_oauth now auth)))
  | None =>
      match find_first (fun a => bool_decide (au_bunker_public_key a = bunker_pubkey))
              (rows (db_authorizations d)) with
      | Some auth =>
          let? stored_key_id := map_err SE_Database (decode_int INT4 INT4 (au_stored_key_id auth)) in
          let? encrypted := stored_key_secret d stored_key_id (au_tenant_id auth) in
          let? keys := unlock_keys "Invalid user secret key: " encrypted (au_secret_hash auth) in
          Ok (Some (mk_handler keys (au_secret_hash auth) (au_id auth) (au_tenant_id auth) false
                      (status_from_expiry now (au_expires_at auth))))
      | None => Ok None
      end
  end.

(** The cache first, then the database; a loaded handler is cached. *)
Definition get_handler (now : Z) (bunker_pubkey : string) : M (option Nip46Handler) :=
  let! handlers := se_gets sg_handlers in
  match handlers !! bunker_pubkey with
  | Some h => se_ret (Some h)
  | None =>
      let! d := se_gets sg_db in
      let! loaded := se_lift (load_on_demand now d bunker_pubkey) in
      match loaded with
      | Some h =>
          let! _ := se_modify (set_handlers <[bunker_pubkey := h]>) in
          se_ret (Some h)
      | None => se_ret None
      end
  end.

(** [load_single_authorization]: the Upsert command.  The team query reads the
    INT4 column [stored_key_id] into an [i64]. *)
Definition load_single_authorization (now : Z) (bunker_pubkey : string) (tenant_id : Z) (is_oauth : bool)
  : M unit :=
  let! d := se_gets sg_db in
  if is_oauth then
    match find_first (fun a => bool_decide (oa_bunker_public_key a = bunker_pubkey)
                       && (oa_tenant_id a =? tenant_id) && oauth_active now a)
            (rows (db_oauth_authorizations d)) with
    | Some row =>
        let! auth := se_lift (map_err SE_Database (decode_oauth row)) in
        let! encrypted := se_lift (personal_key d (oa_user_pubkey auth) tenant_id) in
        let! keys := se_lift (unlock_keys "Invalid user secret key: " encrypted (oa_secret_hash auth)) in
        se_modify (set_handlers <[bunker_pubkey :=
          mk_handler keys (oa_secret_hash auth) (oa_id auth) tenant_id true (Active, None)]>)
    | None => se_ret tt
    end
  else
    match find_first (fun a => (au_tenant_id a =? tenant_id)
                       && bool_decide (au_bunker_public_key a = bunker_pubkey) && is_null (au_revoked_at a))
            (rows (db_authorizations d)) with
    | Some auth =>
        let! stored_key_id := se_lift (map_err SE_Database (decode_int INT8 INT4 (au_stored_key_id auth))) in
        let! encrypted := se_lift (stored_key_secret d stored_key_id tenant_id) in
        let! keys := se_lift (unlock_keys "Invalid user secret key: " encrypted (au_secret_hash auth)) in
        se_modify (set_handlers <[bunker_pubkey :=
          mk_handler keys (au_secret_hash auth) (au_id auth) tenant_id false (Active, None)]>)
    | None => se_ret tt
    end.

Definition mark_revoked (now : Z) (h : Nip46Handler) : Nip46Handler :=
  mk_handler (h_bunker_keys h, h_user_keys h) (h_secret_hash h) (h_authorization_id h) (h_tenant_id h)
    (h_is_oauth h) (Revoked, Some now).

(** One command of the authorization channel; an error is only logged. *)
Definition handle_command (now : Z) (c : AuthorizationCommand) (s : signer) : signer :=
  match c with
  | Upsert bunker_pubkey tenant_id is_oauth =>
      fst (load_single_authorization now bunker_pubkey tenant_id is_oauth s)
  | Remove bunker_pubkey =>
      match sg_handlers s !! bunker_pubkey with
      | Some h => set_handlers <[bunker_pubkey := mark_revoked now h]> s
      | None => s
      end
  | ReloadAll => s
  end.

(** Tombstones older than 24 hours leave the cache. *)
Definition is_old_tombstone (now : Z) (h : Nip46Handler) : bool :=
  match h_tombstone_at h with Some t => t <? now - 24 * 3600 | None => false end.
Definition cleanup_tombstones (now : Z) (s : signer) : signer :=
  set_handlers (filter (fun kh => is_old_tombstone now (snd kh) = false)) s.

(** ** Responses *)
Definition NostrConnect_kind : Z := 24133.

Definition decrypt_request (h : Nip46Handler) (event : Event) : result (string * bool) SignerError :=
  match nip44_decrypt (h_bunker_keys h) (ev_pubkey event) (ev_content event) with
  | Ok d => Ok (d, true)
  | Err _ =>
      match nip04_decrypt (h_bunker_keys h) (ev_pubkey event) (ev_content event) with
      | Ok d => Ok (d, false)
      | Err e => Err (SE_Nip04 e)
      end
  end.

(** Encrypt a response the way the request was, sign it with the bunker key,
    publish it.  [with_e_tag] adds the request's id as an e-tag. *)
Definition send_response `{!Relay} (now : Z) (h : Nip46Handler) (event : Event) (use_nip44 with_e_tag : bool)
    (response : json) : M unit :=
  let text := json_to_string response in
  let! encrypted := se_lift
    (if use_nip44 then map_err SE_Nip44 (nip44_encrypt (h_bunker_keys h) (ev_pubkey event) text)
     else map_err SE_Nip04 (nip04_encrypt (h_bunker_keys h) (ev_pubkey event) text)) in
  let! tags := se_lift
    (if with_e_tag then
       let? e_tag := map_err SE_Panic (tag_parse ["e"; ev_id event]) in
       Ok [tag_public_key (ev_pubkey event); e_tag]
     else Ok [tag_public_key (ev_pubkey event)]) in
  let! response_event := se_lift (map_err SE_EventBuilder
    (builder_sign (h_bunker_keys h) NostrConnect_kind encrypted tags now)) in
  let! _ := se_lift (map_err SE_Client (send_event response_event)) in
  se_modify (record_sent response_event).

(** ** Methods *)
Definition requires_validation (method : string) : bool :=
  bool_decide (method ∈ ["sign_event"; "nip44_encrypt"; "nip44_decrypt"; "nip04_encrypt"; "nip04_decrypt"]).

(** nip44_encrypt, nip44_decrypt, nip04_encrypt and nip04_decrypt differ in the
    name of the second parameter, the check and the operation. *)
Definition crypt_method (now : Z) (h : Nip46Handler) (request : json) (param : string)
    (validate : Db -> Nip46Handler -> string -> PublicKey -> result unit SignerError)
    (op : SecretKey -> PublicKey -> string -> result string string) (op_error : string -> SignerError)
  : M json :=
  let params := json_get request "params" in
  let! third_party_hex := se_lift (ok_or (as_str (json_nth params 0)) (SE_MissingParameter "pubkey")) in
  let! text := se_lift (ok_or (as_str (json_nth params 1)) (SE_MissingParameter param)) in
  let! third_party := se_lift (map_err SE_InvalidKey (pk_from_hex third_party_hex)) in
  let! d := se_gets sg_db in
  let! _ := se_lift (validate d h text third_party) in
  let! out := se_lift (map_err op_error (op (h_user_keys h) third_party text)) in
  let! _ := spawn_update_activity now h in
  se_ret (response_of (json_get request "id") "result" out).

Definition dispatch (now : Z) (h : Nip46Handler) (client_pubkey method : string) (request : json) : M json :=
  let request_id := json_get request "id" in
  if bool_decide (method = "sign_event") then handle_sign_event now h request
  else if bool_decide (method = "get_public_key") then
    se_ret (response_of request_id "result" (pk_to_hex (pk_of (h_user_keys h))))
  else if bool_decide (method = "connect") then
    match as_str (json_nth (json_get request "params") 1) with
    | Some provided_secret => fun s =>
        match process_connect now h client_pubkey provided_secret s with
        | (s', Ok result) => (s', Ok (response_of request_id "result" result))
        | (s', Err e) => (s', Ok (response_of request_id "error" (signer_error_str e)))
        end
    | None => se_ret (response_of request_id "result" "ack")
    end
  else if bool_decide (method = "nip44_encrypt") then
    crypt_method now h request "plaintext" validate_permissions_for_encrypt nip44_encrypt SE_Nip44
  else if bool_decide (method = "nip44_decrypt") then
    crypt_method now h request "ciphertext" validate_permissions_for_decrypt nip44_decrypt SE_Nip44
  else if bool_decide (method = "nip04_encrypt") then
    crypt_method now h request "plaintext" validate_permissions_for_encrypt nip04_encrypt SE_Nip04
  else if bool_decide (method = "nip04_decrypt") then
    crypt_method now h request "ciphertext" validate_permissions_for_decrypt nip04_decrypt SE_Nip04
  else se_ret (response_of request_id "error" ("Unsupported method: " +:+ method)).

(** A decrypted request to a live handler: client validation for OAuth, the
    method, the response. *)
Definition process_active `{!Relay} (now : Z) (h : Nip46Handler) (event : Event) (use_nip44 : bool)
    (method : string) (request : json) : M unit :=
  let client_pubkey := pk_to_hex (ev_pubkey event) in
  let answer :=
    let! response := dispatch now h client_pubkey method request in
    send_response now h event use_nip44 true response in
  if h_is_oauth h && requires_validation method then fun s =>
    match validate_and_store_client now h client_pubkey s with
    | (s', Ok _) => answer s'
    | (s', Err e) =>
        send_response now h event use_nip44 true
          (response_of (json_get request "id") "error" ("Client not authorized: " +:+ signer_error_str e)) s'
    end
  else answer.

Definition bunker_of_event (event : Event) : option string :=
  mjoin (tag_content <$> find_first tag_is_p (ev_tags event)).

Definition process_request `{!Relay} (now : Z) (h : Nip46Handler) (event : Event) : M unit :=
  let! '(decrypted, use_nip44) := se_lift (decrypt_request h event) in
  let! request := se_lift (map_err SE_Json (json_from_str decrypted)) in
  let! method := se_lift (ok_or (as_str (json_get request "method")) (SE_MissingParameter "method")) in
  match tombstone_error_message h with
  | Some msg =>
      send_response now h event use_nip44 false (response_of (json_get request "id") "error" msg)
  | None => process_active now h event use_nip44 method request
  end.

Definition handle_nip46_request `{Cluster, !Relay} (now : Z) (event : Event) : M unit :=
  let! bunker_pubkey := se_lift (ok_or (bunker_of_event event) (SE_MissingParameter "p-tag")) in
  if negb (should_handle bunker_pubkey) then se_ret tt
  else
    let! handler := get_handler now bunker_pubkey in
    match handler with
    | None => se_ret tt
    | Some h => process_request now h event
    end.

(** UnifiedSigner::get_handler_for_user: the newest live OAuth authorization. *)
Definition newest (a b : OAuthAuthorization) : OAuthAuthorization :=
  if oa_created_at a <=? oa_created_at b then b else a.
Definition get_handler_for_user (now : Z) (s : signer) (user_pubkey : string) : option Nip46Handler :=
  match List.filter (fun a => bool_decide (oa_user_pubkey a = user_pubkey) && oauth_active now a)
          (rows (db_oauth_authorizations (sg_db s))) with
  | [] => None
  | a :: l => sg_handlers s !! oa_bunker_public_key (foldl newest a l)
  end.

End signer.
