(* ===== verification/SignerSafety.v ===== *)
(** * Safety of the NIP-46 signer

    What a request can make the signer do: what it signs, which client it
    obeys, what a revoked authorization answers, and how these survive any
    sequence of requests, commands, cleanups and cache evictions. *)
From S2P Require Import Prelude RustStr External Instances Database Samples Permissions Policies AuthTypes Signer.

Section signing.
Context `{HN : Nostr, HC : !NostrCrypto, HS : !Serde, HX : !Secrets, HL : !SignLaws}.

Lemma check_all_ok (allows : BoxedPermission -> bool) ps :
  check_all allows ps = Ok tt <-> forall p, p ∈ ps -> allows p = true.
Proof.
  rewrite <- forallb_elem. induction ps as [|p ps IH]; simpl; [done|].
  destruct (allows p); simpl; [done | split; discriminate].
Qed.

Lemma request_event_kind h request ue :
  request_event h request = Ok ue -> 0 <= ue_kind ue < 2 ^ 16.
Proof. unfold request_event. intros H. inv_ok. simpl. apply Z.mod_pos_bound. lia. Qed.

(** [C1] A sign_event request yields a signature only for an event every
    permission of the authorization's policy allows, under the user's key; the
    signed event has the kind (a 16-bit one), content and time that were checked,
    and no tag that was not. *)
Theorem sign_event_only_if_allowed now h request s s' response :
  handle_sign_event now h request s = (s', Ok response) ->
  exists ue ps ev,
    request_event h request = Ok ue /\ 0 <= ue_kind ue < 2 ^ 16 /\
    load_permissions (sg_db s) h = Ok ps /\ (forall p, p ∈ ps -> dyn_can_sign p ue = true) /\
    response = response_of (json_get request "id") "result" (event_to_json ev) /\
    ev_pubkey ev = pk_of (h_user_keys h) /\ ev_kind ev = ue_kind ue /\
    ev_content ev = ue_content ue /\ ev_created_at ev = ue_created_at ue /\ ev_tags ev ⊆ ue_tags ue.
Proof.
  unfold handle_sign_event. intros Hrun. se_inv.
  match goal with H : request_event _ _ = Ok ?u, V : validate_permissions_for_sign _ _ _ = Ok _,
    B : map_err SE_EventBuilder _ = Ok ?e |- _ => rename u into ue; rename e into ev;
      pose proof (request_event_kind _ _ _ H); rename V into Hv; rename B into Hb end.
  apply map_err_ok, builder_sign_faithful in Hb as (? & ? & ? & ? & ?).
  unfold validate_permissions_for_sign in Hv. apply rbind_ok in Hv as (ps & Hps & Hall).
  match type of Hall with _ = Ok ?u => destruct u end. rewrite check_all_ok in Hall.
  exists ue, ps, ev. by repeat (split; [done|]).
Qed.

Lemma validated_for_encrypt d h text recipient u :
  validate_permissions_for_encrypt d h text recipient = Ok u ->
  exists ps, load_permissions d h = Ok ps /\
    forall p, p ∈ ps -> dyn_can_encrypt p text (pk_of (h_user_keys h)) recipient = true.
Proof.
  unfold validate_permissions_for_encrypt. intros (ps & Hps & Hall)%rbind_ok. destruct u.
  rewrite check_all_ok in Hall. eauto.
Qed.

Lemma validated_for_decrypt d h text sender u :
  validate_permissions_for_decrypt d h text sender = Ok u ->
  exists ps, load_permissions d h = Ok ps /\
    forall p, p ∈ ps -> dyn_can_decrypt p text sender (pk_of (h_user_keys h)) = true.
Proof.
  unfold validate_permissions_for_decrypt. intros (ps & Hps & Hall)%rbind_ok. destruct u.
  rewrite check_all_ok in Hall. eauto.
Qed.

Lemma crypt_method_ok now h request param validate op op_error s s' response :
  crypt_method now h request param validate op op_error s = (s', Ok response) ->
  exists hex peer text out u,
    as_str (json_nth (json_get request "params") 0) = Some hex /\ pk_from_hex hex = Ok peer /\
    as_str (json_nth (json_get request "params") 1) = Some text /\
    validate (sg_db s) h text peer = Ok u /\ op (h_user_keys h) peer text = Ok out /\
    response = response_of (json_get request "id") "result" out.
Proof.
  unfold crypt_method. intros Hrun. se_inv. inv_ok. by repeat eexists.
Qed.

(** The four message methods answer with a result only when every
    permission of the policy allows that text to or from that peer, and the
    result is the operation on that very text under the user's key. *)
Theorem crypt_only_if_allowed now h client request s s' response :
  (forall nip44 : bool,
     dispatch now h client (if nip44 then "nip44_encrypt" else "nip04_encrypt") request s = (s', Ok response) ->
     exists peer text ps out,
       as_str (json_nth (json_get request "params") 1) = Some text /\
       load_permissions (sg_db s) h = Ok ps /\
       (forall p, p ∈ ps -> dyn_can_encrypt p text (pk_of (h_user_keys h)) peer = true) /\
       (if nip44 then nip44_encrypt else nip04_encrypt) (h_user_keys h) peer text = Ok out /\
       response = response_of (json_get request "id") "result" out) /\
  (forall nip44 : bool,
     dispatch now h client (if nip44 then "nip44_decrypt" else "nip04_decrypt") request s = (s', Ok response) ->
     exists peer text ps out,
       as_str (json_nth (json_get request "params") 1) = Some text /\
       load_permissions (sg_db s) h = Ok ps /\
       (forall p, p ∈ ps -> dyn_can_decrypt p text peer (pk_of (h_user_keys h)) = true) /\
       (if nip44 then nip44_decrypt else nip04_decrypt) (h_user_keys h) peer text = Ok out /\
       response = response_of (json_get request "id") "result" out).
Proof.
  split; intros [|] Hrun; unfold dispatch in Hrun;
    repeat (rewrite bool_decide_false in Hrun by discriminate); rewrite bool_decide_true in Hrun by done;
    apply crypt_method_ok in Hrun as (hex & peer & text & out & u & _ & _ & Ht & Hv & Hop & ->);
    [apply validated_for_encrypt in Hv | apply validated_for_encrypt in Hv
    | apply validated_for_decrypt in Hv | apply validated_for_decrypt in Hv];
    destruct Hv as (ps & Hps & Hall); exists peer, text, ps, out; done.
Qed.

End signing.

(** ** The client an authorization obeys *)
Section binding.
Context `{HN : Nostr, HC : !NostrCrypto, HS : !Serde, HX : !Secrets, HCl : Cluster, HR : !Relay}.

Definition oauth_rows (d : Db) : list OAuthAuthorization := rows (db_oauth_authorizations d).

(** Rows with one id are one row. *)
Lemma unique_row d (a b : OAuthAuthorization) :
  NoDup (map oa_id (oauth_rows d)) -> a ∈ oauth_rows d -> b ∈ oauth_rows d -> oa_id a = oa_id b -> a = b.
Proof.
  intros Hnd [i Hi]%list_elem_of_lookup [j Hj]%list_elem_of_lookup Heq.
  assert (i = j) as <-; [|congruence].
  eapply (NoDup_lookup _ i j (oa_id a) Hnd); rewrite list_lookup_fmap, ?Hi, ?Hj; simpl; congruence.
Qed.

(** A handler names its authorization by id and tenant consistently. *)
Definition handler_match (d : Db) (h : Nip46Handler) : Prop :=
  h_is_oauth h = true -> forall a, a ∈ oauth_rows d ->
    oa_id a = h_authorization_id h -> oa_tenant_id a = h_tenant_id h.

(** Authorization ids are unique and every cached handler matches its row. *)
Definition signer_wf (s : signer) : Prop :=
  NoDup (map oa_id (oauth_rows (sg_db s))) /\
  forall b h, sg_handlers s !! b = Some h -> handler_match (sg_db s) h.

Lemma oauth_active_earlier t t' r : t <= t' -> oauth_active t' r = true -> oauth_active t r = true.
Proof.
  unfold oauth_active, null_or_after. destruct (oa_revoked_at r), (oa_expires_at r); simpl; try done.
  intros Hle Hlt. bool_to_prop. apply Z.ltb_lt. lia.
Qed.

(** An OAuth request that signs, encrypts or decrypts is answered with
    "Client not authorized", whatever the cache says, unless the database has an
    authorization under this bunker key that is neither revoked nor expired and
    is connected to the requesting client or to none; the refusal changes no row. *)
Theorem oauth_request_refused now h event use_nip44 method request s :
  h_is_oauth h = true -> requires_validation method = true ->
  (forall r, r ∈ oauth_rows (sg_db s) ->
     oa_bunker_public_key r = pk_to_hex (pk_of (h_bunker_keys h)) -> oauth_active now r = true ->
     exists other, oa_connected_client_pubkey r = Some other /\ other <> pk_to_hex (ev_pubkey event)) ->
  process_active now h event use_nip44 method request s =
  send_response now h event use_nip44 true
    (response_of (json_get request "id") "error"
       "Client not authorized: Permission denied: Unknown client - not connected to any authorization") s.
Proof.
  intros Ho Hreq Hno. unfold process_active. rewrite Ho, Hreq; cbn [andb].
  unfold validate_and_store_client, se_bind, se_gets, client_is_connected, unconnected_id. rewrite Ho.
  match goal with |- context [existsb ?p ?l] => destruct (existsb p l) eqn:E end.
  - apply existsb_elem in E as (r & Hr & Hp). bool_to_prop.
    destruct (Hno r Hr) as (other & Hc & Hne); [done | done|]. congruence.
  - match goal with |- context [find_first ?p ?l] => destruct (find_first p l) as [r|] eqn:Er end; [|reflexivity].
    apply find_first_Some in Er as [Hr Hp]. bool_to_prop.
    destruct (Hno r Hr) as (other & Hc & Hne); [done | done|]. rewrite Hc in *. done.
Qed.

End binding.

(** ** Responses *)
Section responses.
Context `{HN : Nostr, HC : !NostrCrypto, HS : !Serde, HX : !Secrets, HCl : Cluster, HR : !Relay, HL : !SignLaws}.

(** A response event: NIP-46 kind, the bunker as author, the given text
    encrypted to the requester. *)
Definition is_response (now : Z) (h : Nip46Handler) (event : Event) (text : string) (ev : Event) : Prop :=
  ev_kind ev = NostrConnect_kind /\ ev_pubkey ev = pk_of (h_bunker_keys h) /\
  (nip44_encrypt (h_bunker_keys h) (ev_pubkey event) text = Ok (ev_content ev) \/
   nip04_encrypt (h_bunker_keys h) (ev_pubkey event) text = Ok (ev_content ev)).

(** Sending changes only the list of sent events, by at most that response. *)
Lemma send_response_effect now h event use_nip44 with_e_tag response s :
  let s' := fst (send_response now h event use_nip44 with_e_tag response s) in
  s' = s \/ exists ev, s' = record_sent ev s /\ is_response now h event (json_to_string response) ev.
Proof.
  unfold send_response, se_bind, se_lift, se_modify.
  destruct (if use_nip44 then _ else _) as [enc|] eqn:Eenc; [|by left].
  destruct (if with_e_tag then _ else _) as [tags|]; [|by left].
  destruct (map_err SE_EventBuilder _) as [ev|] eqn:Eb; [|by left].
  destruct (map_err SE_Client _); [|by left]. right. exists ev. split; [done|].
  apply map_err_ok, builder_sign_faithful in Eb as (Ha & Hk & _ & Hc & _).
  split; [done|]. split; [done|]. rewrite Hc.
  destruct use_nip44; apply map_err_ok in Eenc; auto.
Qed.

(** Nothing but [send_response] sends. *)
Lemma spawn_activity_sent now h s : sg_sent (fst (spawn_update_activity now h s)) = sg_sent s.
Proof. unfold spawn_update_activity. by destruct (negb _). Qed.

Lemma process_connect_sent now h client secret s :
  sg_sent (fst (process_connect now h client secret s)) = sg_sent s.
Proof.
  unfold process_connect. destruct (negb _); [done|]. unfold se_bind, se_gets, connect_decision.
  destruct (existing_client _ _ _) as [e|]; [by destruct (bool_decide _) | done].
Qed.

Lemma validate_and_store_sent now h client s :
  sg_sent (fst (validate_and_store_client now h client s)) = sg_sent s.
Proof.
  unfold validate_and_store_client, se_bind, se_gets. destruct (client_is_connected _ _ _ _); [done|].
  by destruct (unconnected_id _ _ _).
Qed.

Lemma bind_sent {A B} (c : M A) (k : A -> M B) s :
  sg_sent (fst (c s)) = sg_sent s ->
  (forall a s1, c s = (s1, Ok a) -> sg_sent (fst (k a s1)) = sg_sent s1) ->
  sg_sent (fst (se_bind c k s)) = sg_sent s.
Proof.
  intros Hc Hk. symmetry. apply (se_bind_rel (fun x y => sg_sent x = sg_sent y) c k s).
  - intros; congruence.
  - by symmetry.
  - intros a s1 E. symmetry. by eapply Hk.
Qed.

Lemma dispatch_sent now h client method request s :
  sg_sent (fst (dispatch now h client method request s)) = sg_sent s.
Proof.
  unfold dispatch, crypt_method, handle_sign_event. repeat case_if;
    repeat first [ reflexivity | apply spawn_activity_sent | apply bind_sent; [| intros ? ? ?] ].
  destruct (as_str _) as [secret|]; [|done].
  pose proof (process_connect_sent now h client secret s) as Hp.
  by destruct (process_connect now h client secret s) as [s' [r|e]].
Qed.

Definition sends_at_most_one (P : Event -> Prop) (s s' : signer) : Prop :=
  sg_sent s' = sg_sent s \/ exists ev, sg_sent s' = sg_sent s ++ [ev] /\ P ev.

Lemma send_response_sends now h event use_nip44 with_e_tag response s :
  sends_at_most_one (fun ev => exists text, is_response now h event text ev) s
    (fst (send_response now h event use_nip44 with_e_tag response s)).
Proof.
  destruct (send_response_effect now h event use_nip44 with_e_tag response s) as [-> | (ev & -> & Hev)];
    [by left | right]. exists ev. split; [done | eauto].
Qed.

Lemma process_active_sends now h event use_nip44 method request s :
  sends_at_most_one (fun ev => exists text, is_response now h event text ev) s
    (fst (process_active now h event use_nip44 method request s)).
Proof.
  assert (Hans : forall s0, sends_at_most_one (fun ev => exists text, is_response now h event text ev) s0
    (fst (se_bind (dispatch now h (pk_to_hex (ev_pubkey event)) method request)
            (send_response now h event use_nip44 true) s0))).
  { intros s0. unfold se_bind. pose proof (dispatch_sent now h (pk_to_hex (ev_pubkey event)) method request s0) as Hd.
    destruct (dispatch _ _ _ _ _ _) as [s1 [r|e]]; simpl in Hd; [|by left].
    unfold sends_at_most_one. rewrite <- Hd. apply send_response_sends. }
  unfold process_active. destruct (h_is_oauth h && requires_validation method); [|apply Hans].
  pose proof (validate_and_store_sent now h (pk_to_hex (ev_pubkey event)) s) as Hv.
  destruct (validate_and_store_client _ _ _ _) as [s1 [r|e]]; simpl in Hv;
    unfold sends_at_most_one; rewrite <- Hv; [apply Hans | apply send_response_sends].
Qed.

Lemma process_request_sends now h event s :
  sends_at_most_one (fun ev => exists text, is_response now h event text ev) s
    (fst (process_request now h event s)).
Proof.
  unfold process_request, se_bind, se_lift. destruct (decrypt_request h event) as [[dec u]|]; [|by left].
  destruct (map_err SE_Json _) as [req|]; [|by left].
  destruct (ok_or _ _) as [m|]; [|by left].
  destruct (tombstone_error_message h); [apply send_response_sends | apply process_active_sends].
Qed.

(** The handler lookup changes neither the rows nor what was sent. *)
Lemma get_handler_frame now b s :
  sg_db (fst (get_handler now b s)) = sg_db s /\ sg_sent (fst (get_handler now b s)) = sg_sent s.
Proof.
  unfold get_handler, se_bind, se_gets, se_lift. destruct (sg_handlers s !! b); [done|].
  by destruct (load_on_demand now (sg_db s) b) as [[h|]|].
Qed.

(** A request makes the signer publish at most one event, and only when
    this instance owns the bunker key: a NIP-46 event by that bunker key whose
    content is encrypted to the requester. *)
Theorem one_response_per_request now event s :
  let s' := fst (handle_nip46_request now event s) in
  sg_sent s' = sg_sent s \/
  exists b h ev text, bunker_of_event event = Some b /\ should_handle b = true /\
    sg_sent s' = sg_sent s ++ [ev] /\ is_response now h event text ev.
Proof.
  unfold handle_nip46_request, se_bind, se_lift. cbn zeta.
  destruct (bunker_of_event event) as [b|] eqn:Eb; simpl; [|by left].
  destruct (should_handle b) eqn:Es; simpl; [|by left].
  destruct (get_handler_frame now b s) as [_ Hsent].
  destruct (get_handler now b s) as [s1 [[h|]|e]]; simpl in Hsent; [|by left|by left].
  destruct (process_request_sends now h event s1) as [H1 | (ev & H1 & text & Hev)];
    rewrite H1, Hsent; [by left | right]. exists b, h, ev, text. done.
Qed.

(** Loading on demand does not look at a team authorization's revocation:
    once its handler has left the cache, a revoked team authorization that has
    not expired comes back as a live handler. *)
Theorem revoked_team_authorization_revives now d b a keys encrypted :
  (forall r, r ∈ oauth_rows d -> oa_bunker_public_key r <> b) ->
  find_first (fun a => bool_decide (au_bunker_public_key a = b)) (rows (db_authorizations d)) = Some a ->
  is_null (au_revoked_at a) = false -> team_unexpired now a = true ->
  stored_key_secret d (au_stored_key_id a) (au_tenant_id a) = Ok encrypted ->
  unlock_keys "Invalid user secret key: " encrypted (au_secret_hash a) = Ok keys ->
  exists h, load_on_demand now d b = Ok (Some h) /\ h_status h = Active /\ h_user_keys h = snd keys.
Proof.
  intros Hno Ha _ Hexp Hk Hu. unfold load_on_demand.
  replace (find_first _ (rows (db_oauth_authorizations d))) with (@None OAuthAuthorization).
  2:{ symmetry. apply find_first_None. intros r Hr. rewrite bool_decide_false by (by apply Hno). done. }
  rewrite Ha. simpl. rewrite Hk; simpl. rewrite Hu; simpl. eexists. split; [done|]. split; [|done].
  unfold team_unexpired, null_or_after, status_from_expiry in *. simpl.
  destruct (au_expires_at a) as [e|]; [|done]. bool_to_prop. destruct (e <=? now) eqn:E; [|done].
  bool_to_prop. lia.
Qed.

(** An Upsert command for a team authorization never loads it: the query
    reads an INT4 column into an i64, so the state is always left as it was. *)
Theorem team_upsert_never_loads now b tenant_id s :
  handle_command now (Upsert b tenant_id false) s = s.
Proof.
  simpl. unfold load_single_authorization, se_bind, se_gets, se_lift. by destruct (find_first _ _).
Qed.

End responses.

(** ** Witnesses *)
#[local] Instance toy_cluster : Cluster := { should_handle _ := true }.
#[local] Instance toy_relay : Relay := { send_event _ := Ok tt }.

Definition toy_signer (oauth : list OAuthAuthorization) (team : list Authorization) : signer := {|
  sg_db := sample_db oauth team; sg_handlers := ∅; sg_sent := [] |}.

Definition toy_handler : Nip46Handler :=
  mk_handler ("ukeycast-bunker-nip46-v1-Hs", "u") "Hs" 1 1 true (Active, None).

Definition toy_sign_request : json :=
  JObject [("id", JString "7"); ("method", JString "sign_event"); ("params", JArray [JString "E1:hello"])].

Lemma toy_signer_wf r team : signer_wf (toy_signer [r] team).
Proof. split; [apply NoDup_singleton | intros b h Hl; simpl in Hl; by rewrite lookup_empty in Hl]. Qed.

Lemma sign_event_only_if_allowed_witness :
  exists s' r ue ps,
    handle_sign_event 10 toy_handler toy_sign_request (toy_signer [sample_oauth None None None] []) = (s', Ok r) /\
    request_event toy_handler toy_sign_request = Ok ue /\
    load_permissions (sample_db [sample_oauth None None None] []) toy_handler = Ok ps.
Proof.
  destruct (run_ok (handle_sign_event 10 toy_handler toy_sign_request (toy_signer [sample_oauth None None None] [])))
    as (s' & r & E); [vm_compute; reflexivity|].
  destruct (sign_event_only_if_allowed 10 toy_handler toy_sign_request
    (toy_signer [sample_oauth None None None] []) s' r E) as (ue & ps & ev & H1 & _ & H2 & _).
  exists s', r, ue, ps. split; [exact E | split; [exact H1 | exact H2]].
Defined.

Definition toy_bound_signer : signer := toy_signer [sample_oauth (Some "app1") None None] [].
Definition toy_other_connect : signer :=
  fst (handle_nip46_request 20 (sample_request "other" user_bunker "connect|x|s") toy_bound_signer).

Lemma oauth_request_refused_witness :
  process_active 10 toy_handler (sample_request "other" user_bunker "sign_event|E1:x") true "sign_event"
    toy_sign_request (toy_signer [sample_oauth (Some "app1") None None] []) =
  send_response 10 toy_handler (sample_request "other" user_bunker "sign_event|E1:x") true true
    (response_of (JString "7") "error"
       "Client not authorized: Permission denied: Unknown client - not connected to any authorization")
    (toy_signer [sample_oauth (Some "app1") None None] []).
Proof.
  apply (oauth_request_refused 10 toy_handler (sample_request "other" user_bunker "sign_event|E1:x") true
    "sign_event" toy_sign_request (toy_signer [sample_oauth (Some "app1") None None] [])).
  - reflexivity.
  - reflexivity.
  - intros r Hr _ _. apply list_elem_of_singleton in Hr as ->. exists "app1". split; [reflexivity | discriminate].
Defined.

Definition toy_revoked_signer : signer := toy_signer [sample_oauth None (Some 5) None] [].
Definition toy_refused : signer :=
  fst (handle_nip46_request 30 (sample_request "app1" user_bunker "sign_event|E1:x")
         (cleanup_tombstones 20 toy_revoked_signer)).

Lemma revoked_team_authorization_revives_witness :
  exists h, load_on_demand 100 (sample_db [] [sample_team (Some 50)]) team_bunker = Ok (Some h) /\
    h_status h = Active /\ h_user_keys h = "k".
Proof.
  apply (revoked_team_authorization_revives 100 (sample_db [] [sample_team (Some 50)]) team_bunker
    (sample_team (Some 50)) ("kkeycast-bunker-nip46-v1-Ht" : @SecretKey toy_nostr, "k" : @SecretKey toy_nostr) (bytes_of "k")).
  - intros r Hr. inversion Hr.
  - reflexivity.
  - reflexivity.
  - reflexivity.
  - reflexivity.
  - reflexivity.
Defined.

Lemma one_response_per_request_witness :
  length (sg_sent toy_refused) = 1%nat /\
  (sg_sent toy_other_connect = [] \/
   exists b h ev text, bunker_of_event (sample_request "other" user_bunker "connect|x|s") = Some b /\
     should_handle b = true /\ sg_sent toy_other_connect = [] ++ [ev] /\
     is_response 20 h (sample_request "other" user_bunker "connect|x|s") text ev).
Proof.
  split; [vm_compute; reflexivity|].
  apply (one_response_per_request 20 (sample_request "other" user_bunker "connect|x|s") toy_bound_signer).
Defined.
