(* ===== verification/SignerTasks.v ===== *)
(** * The signer, statement by statement

    signer/src/signer_daemon.rs once more, cut where the source awaits: a request
    and a command of the authorization channel as [task]s over the signer's
    state, one statement per cache operation, per query, per reading of the clock
    that decides a status, and per event sent.  The permissions of a policy are
    read in one statement; the activity statement that the source spawns runs
    where it is spawned.  Each task without interference is the function of
    [Signer] ([request_runs], [command_runs]), so what is proved of those
    functions holds of a request that nothing else overlaps. *)
From S2P Require Import Prelude RustStr External Instances Database Permissions Policies AuthTypes Tasks Signer SignerSafety.

Section signer_tasks.
Context `{HN : Nostr, HC : !NostrCrypto, HS : !Serde, HX : !Secrets}.

Definition T (A : Type) : Type := ptask unit signer SignerError A.

(** A query: what it answers depends on the time and the database. *)
Definition query {A} (q : Z -> Db -> A) : T A := pt_stmt (fun now => se_gets (fun s => q now (sg_db s))).
Definition query_ok {A} (q : Db -> result A SignerError) : T A := pt_stmt (fun _ s => (s, q (sg_db s))).

(** ** Clients *)
Definition connect_task (h : Nip46Handler) (client provided_secret : string) : T string :=
  if negb (bcrypt_verify provided_secret (h_secret_hash h)) then
    pt_lift (Err (SE_PermissionDenied "Invalid secret"))
  else
    let* existing := query (fun now d => existing_client now d h) in
    match existing with
    | Some e =>
        if bool_decide (e = client) then pt_ret "ack"
        else pt_lift (Err (SE_PermissionDenied "Secret already used by another client"))
    | None =>
        let* _ := pt_stmt (fun now => se_modify (set_db (connect_client now h client (h_authorization_id h)))) in
        pt_ret "ack"
    end.

Definition validate_and_store_task (h : Nip46Handler) (client : string) : T unit :=
  let* connected := query (fun now d => client_is_connected now d h client) in
  if connected : bool then pt_ret tt
  else
    let* unconnected := query (fun now d => unconnected_id now d h) in
    match unconnected with
    | Some auth_id => pt_stmt (fun now => se_modify (set_db (connect_client now h client auth_id)))
    | None => pt_lift (Err (SE_PermissionDenied "Unknown client - not connected to any authorization"))
    end.

Definition activity_task (h : Nip46Handler) : T unit :=
  if negb (h_is_oauth h) then pt_ret tt else pt_stmt (fun now => spawn_update_activity now h).

(** ** Methods *)
Definition sign_event_task (h : Nip46Handler) (request : json) : T json :=
  let* ue := pt_lift (request_event h request) in
  let* _ := query_ok (fun d => validate_permissions_for_sign d h ue) in
  let* signed_event := pt_lift (map_err SE_EventBuilder
    (builder_sign (h_user_keys h) (ue_kind ue) (ue_content ue) (ue_tags ue) (ue_created_at ue))) in
  let* _ := activity_task h in
  pt_ret (response_of (json_get request "id") "result" (event_to_json signed_event)).

Definition crypt_task (h : Nip46Handler) (request : json) (param : string)
    (validate : Db -> Nip46Handler -> string -> PublicKey -> result unit SignerError)
    (op : SecretKey -> PublicKey -> string -> result string string) (op_error : string -> SignerError) : T json :=
  let params := json_get request "params" in
  let* third_party_hex := pt_lift (ok_or (as_str (json_nth params 0)) (SE_MissingParameter "pubkey")) in
  let* text := pt_lift (ok_or (as_str (json_nth params 1)) (SE_MissingParameter param)) in
  let* third_party := pt_lift (map_err SE_InvalidKey (pk_from_hex third_party_hex)) in
  let* _ := query_ok (fun d => validate d h text third_party) in
  let* out := pt_lift (map_err op_error (op (h_user_keys h) third_party text)) in
  let* _ := activity_task h in
  pt_ret (response_of (json_get request "id") "result" out).

Definition dispatch_task (h : Nip46Handler) (client_pubkey method : string) (request : json) : T json :=
  let request_id := json_get request "id" in
  if bool_decide (method = "sign_event") then sign_event_task h request
  else if bool_decide (method = "get_public_key") then
    pt_ret (response_of request_id "result" (pk_to_hex (pk_of (h_user_keys h))))
  else if bool_decide (method = "connect") then
    match as_str (json_nth (json_get request "params") 1) with
    | Some provided_secret =>
        task_bind (connect_task h client_pubkey provided_secret) (fun r =>
          pt_ret (match r with
                  | Ok result => response_of request_id "result" result
                  | Err e => response_of request_id "error" (signer_error_str e)
                  end))
    | None => pt_ret (response_of request_id "result" "ack")
    end
  else if bool_decide (method = "nip44_encrypt") then
    crypt_task h request "plaintext" validate_permissions_for_encrypt nip44_encrypt SE_Nip44
  else if bool_decide (method = "nip44_decrypt") then
    crypt_task h request "ciphertext" validate_permissions_for_decrypt nip44_decrypt SE_Nip44
  else if bool_decide (method = "nip04_encrypt") then
    crypt_task h request "plaintext" validate_permissions_for_encrypt nip04_encrypt SE_Nip04
  else if bool_decide (method = "nip04_decrypt") then
    crypt_task h request "ciphertext" validate_permissions_for_decrypt nip04_decrypt SE_Nip04
  else pt_ret (response_of request_id "error" ("Unsupported method: " +:+ method)).

(** ** Loading a handler *)
Definition status_task (st : Z -> HandlerStatus * option Z) : T (HandlerStatus * option Z) :=
  pt_stmt (fun now => se_ret (st now)).

Definition load_on_demand_task (bunker_pubkey : string) : T (option Nip46Handler) :=
  let* oauth := query (fun _ d => find_first (fun a => bool_decide (oa_bunker_public_key a = bunker_pubkey))
                                   (rows (db_oauth_authorizations d))) in
  match oauth with
  | Some row =>
      let* auth := pt_lift (map_err SE_Database (decode_oauth row)) in
      let* status := status_task (fun now => compute_status_from_oauth now auth) in
      let* encrypted := query_ok (fun d => personal_key d (oa_user_pubkey auth) (oa_tenant_id auth)) in
      let* keys := pt_lift (unlock_keys "Invalid user key: " encrypted (oa_secret_hash auth)) in
      pt_ret (Some (mk_handler keys (oa_secret_hash auth) (oa_id auth) (oa_tenant_id auth) true status))
  | None =>
      let* team := query (fun _ d => find_first (fun a => bool_decide (au_bunker_public_key a = bunker_pubkey))
                                      (rows (db_authorizations d))) in
      match team with
      | Some auth =>
          let* stored_key_id := pt_lift (map_err SE_Database (decode_int INT4 INT4 (au_stored_key_id auth))) in
          let* status := status_task (fun now => status_from_expiry now (au_expires_at auth)) in
          let* encrypted := query_ok (fun d => stored_key_secret d stored_key_id (au_tenant_id auth)) in
          let* keys := pt_lift (unlock_keys "Invalid user secret key: " encrypted (au_secret_hash auth)) in
          pt_ret (Some (mk_handler keys (au_secret_hash auth) (au_id auth) (au_tenant_id auth) false status))
      | None => pt_ret None
      end
  end.

Definition get_handler_task (bunker_pubkey : string) : T (option Nip46Handler) :=
  let* cached := pt_stmt (fun _ => se_gets (fun s => sg_handlers s !! bunker_pubkey)) in
  match cached with
  | Some h => pt_ret (Some h)
  | None =>
      let* loaded := load_on_demand_task bunker_pubkey in
      match loaded with
      | Some h =>
          let* _ := pt_stmt (fun _ => se_modify (set_handlers <[bunker_pubkey := h]>)) in
          pt_ret (Some h)
      | None => pt_ret None
      end
  end.

(** ** Requests *)
Definition send_task `{!Relay} (h : Nip46Handler) (event : Event) (use_nip44 with_e_tag : bool)
    (response : json) : T unit :=
  pt_stmt (fun now => send_response now h event use_nip44 with_e_tag response).

Definition active_task `{!Relay} (h : Nip46Handler) (event : Event) (use_nip44 : bool) (method : string)
    (request : json) : T unit :=
  let client_pubkey := pk_to_hex (ev_pubkey event) in
  let answer :=
    let* response := dispatch_task h client_pubkey method request in
    send_task h event use_nip44 true response in
  if h_is_oauth h && requires_validation method then
    task_bind (validate_and_store_task h client_pubkey) (fun r =>
      match r with
      | Ok _ => answer
      | Err e => send_task h event use_nip44 true
          (response_of (json_get request "id") "error" ("Client not authorized: " +:+ signer_error_str e))
      end)
  else answer.

Definition process_task `{!Relay} (h : Nip46Handler) (event : Event) : T unit :=
  let* '(decrypted, use_nip44) := pt_lift (decrypt_request h event) in
  let* request := pt_lift (map_err SE_Json (json_from_str decrypted)) in
  let* method := pt_lift (ok_or (as_str (json_get request "method")) (SE_MissingParameter "method")) in
  match tombstone_error_message h with
  | Some msg => send_task h event use_nip44 false (response_of (json_get request "id") "error" msg)
  | None => active_task h event use_nip44 method request
  end.

Definition request_task `{Cluster, !Relay} (event : Event) : T unit :=
  let* bunker_pubkey := pt_lift (ok_or (bunker_of_event event) (SE_MissingParameter "p-tag")) in
  if negb (should_handle bunker_pubkey) then pt_ret tt
  else
    let* handler := get_handler_task bunker_pubkey in
    match handler with
    | None => pt_ret tt
    | Some h => process_task h event
    end.

(** ** Commands of the authorization channel *)
Definition load_single_task (bunker_pubkey : string) (tenant_id : Z) (is_oauth : bool) : T unit :=
  if is_oauth then
    let* found := query (fun now d => find_first (fun a => bool_decide (oa_bunker_public_key a = bunker_pubkey)
                       && (oa_tenant_id a =? tenant_id) && oauth_active now a)
                       (rows (db_oauth_authorizations d))) in
    match found with
    | Some row =>
        let* auth := pt_lift (map_err SE_Database (decode_oauth row)) in
        let* encrypted := query_ok (fun d => personal_key d (oa_user_pubkey auth) tenant_id) in
        let* keys := pt_lift (unlock_keys "Invalid user secret key: " encrypted (oa_secret_hash auth)) in
        pt_stmt (fun _ => se_modify (set_handlers <[bunker_pubkey :=
          mk_handler keys (oa_secret_hash auth) (oa_id auth) tenant_id true (Active, None)]>))
    | None => pt_ret tt
    end
  else
    let* found := query (fun now d => find_first (fun a => (au_tenant_id a =? tenant_id)
                       && bool_decide (au_bunker_public_key a = bunker_pubkey) && is_null (au_revoked_at a))
                       (rows (db_authorizations d))) in
    match found with
    | Some auth =>
        let* stored_key_id := pt_lift (map_err SE_Database (decode_int INT8 INT4 (au_stored_key_id auth))) in
        let* encrypted := query_ok (fun d => stored_key_secret d stored_key_id tenant_id) in
        let* keys := pt_lift (unlock_keys "Invalid user secret key: " encrypted (au_secret_hash auth)) in
        pt_stmt (fun _ => se_modify (set_handlers <[bunker_pubkey :=
          mk_handler keys (au_secret_hash auth) (au_id auth) tenant_id false (Active, None)]>))
    | None => pt_ret tt
    end.

Definition command_task (c : AuthorizationCommand) : T unit :=
  match c with
  | Upsert bunker_pubkey tenant_id is_oauth => load_single_task bunker_pubkey tenant_id is_oauth
  | Remove bunker_pubkey =>
      let* cached := pt_stmt (fun _ => se_gets (fun s => sg_handlers s !! bunker_pubkey)) in
      match cached with
      | Some h => pt_stmt (fun now => se_modify (set_handlers <[bunker_pubkey := mark_revoked now h]>))
      | None => pt_ret tt
      end
  | ReloadAll => pt_ret tt
  end.

(** ** How many statements a request takes *)
Ltac lasting := repeat case_match; simpl; done.

Lemma connect_lasts h client secret : lasts 2 (connect_task h client secret).
Proof. unfold connect_task. case_match; simpl; [done|]. intros. lasting. Qed.
Lemma validate_and_store_lasts h client : lasts 3 (validate_and_store_task h client).
Proof. simpl. intros. case_match; simpl; [done|]. intros. lasting. Qed.
Lemma activity_lasts h : lasts 1 (activity_task h).
Proof. unfold activity_task. lasting. Qed.
Lemma lift_lasts {A} (r : result A SignerError) : lasts 0 (pt_lift (O := unit) (St := signer) r).
Proof. done. Qed.
Lemma query_lasts {A} (q : Z -> Db -> A) : lasts 1 (query q).
Proof. done. Qed.
Lemma query_ok_lasts {A} (q : Db -> result A SignerError) : lasts 1 (query_ok q).
Proof. done. Qed.

Lemma sign_event_lasts h request : lasts 2 (sign_event_task h request).
Proof.
  apply (lasts_pbind 0 2); [apply lift_lasts|]. intros ue. apply (lasts_pbind 1 1); [apply query_ok_lasts|].
  intros _. apply (lasts_pbind 0 1); [apply lift_lasts|]. intros e.
  apply (lasts_pbind 1 0); [apply activity_lasts | done].
Qed.
Lemma crypt_lasts h request param validate op op_error : lasts 2 (crypt_task h request param validate op op_error).
Proof.
  do 3 (apply (lasts_pbind 0 2); [apply lift_lasts|]; intros ?). apply (lasts_pbind 1 1); [apply query_ok_lasts|].
  intros _. apply (lasts_pbind 0 1); [apply lift_lasts|]. intros e.
  apply (lasts_pbind 1 0); [apply activity_lasts | done].
Qed.
Lemma dispatch_lasts h client method request : lasts 2 (dispatch_task h client method request).
Proof.
  unfold dispatch_task. repeat case_if; try apply crypt_lasts; try done; [apply sign_event_lasts|].
  destruct (as_str _); [|done]. apply (lasts_bind 2 0); [apply connect_lasts | done].
Qed.

Lemma load_on_demand_lasts b : lasts 4 (load_on_demand_task b).
Proof.
  apply (lasts_pbind 1 3); [apply query_lasts|]. intros [row|].
  - apply (lasts_pbind 0 3); [apply lift_lasts|]. intros auth. apply (lasts_pbind 1 2); [done|]. intros st.
    apply (lasts_pbind 1 1); [apply query_ok_lasts|]. intros k. apply (lasts_pbind 0 1); [apply lift_lasts | done].
  - apply (lasts_pbind 1 2); [apply query_lasts|]. intros [auth|]; [|done].
    apply (lasts_pbind 0 2); [apply lift_lasts|]. intros id. apply (lasts_pbind 1 1); [done|]. intros st.
    apply (lasts_pbind 1 0); [apply query_ok_lasts|]. intros k. apply (lasts_pbind 0 0); [apply lift_lasts | done].
Qed.

Lemma process_lasts `{!Relay} h event : lasts 6 (process_task h event).
Proof.
  apply (lasts_pbind 0 6); [apply lift_lasts|]. intros [decrypted use_nip44].
  do 2 (apply (lasts_pbind 0 6); [apply lift_lasts|]; intros ?). destruct (tombstone_error_message h); [done|].
  assert (Ha : forall c b r m, lasts 3 (let* response := dispatch_task h c m r in send_task h event b true response))
    by (intros; apply (lasts_pbind 2 1); [apply dispatch_lasts | done]).
  unfold active_task. destruct (h_is_oauth h && _); [|apply (lasts_more 3); [lia | apply Ha]].
  apply (lasts_bind 3 3); [apply validate_and_store_lasts|]. intros [u|e]; [apply Ha | done].
Qed.

(** The cache, four statements to load, the cache again; three for the client;
    two for the method; the response. *)
Definition request_statements : nat := 12.

Lemma request_lasts `{Cluster, !Relay} event : lasts request_statements (request_task event).
Proof.
  apply (lasts_pbind 0 12); [apply lift_lasts|]. intros b. destruct (negb (should_handle b)); [done|].
  apply (lasts_pbind 6 6); [|intros [h|]; [apply process_lasts | done]].
  apply (lasts_pbind 1 5); [done|]. intros [h|]; [done|].
  apply (lasts_pbind 4 1); [apply load_on_demand_lasts|]. intros [h|]; done.
Qed.

(** ** A task without interference is the function *)
Context `{HCl : Cluster, HR : !Relay}.

Lemma query_runs {A} now (q : Z -> Db -> A) : runs_as now (query q) (se_gets (fun s => q now (sg_db s))).
Proof. by intros o s. Qed.
Lemma query_ok_runs {A} now (q : Db -> result A SignerError) : runs_as now (query_ok q) (fun s => (s, q (sg_db s))).
Proof. by intros o s. Qed.

(** Both sides statement by statement. *)
Ltac stmt_runs :=
  unfold send_task, status_task;
  match goal with |- runs_as _ (pt_stmt ?m) _ => exact (runs_stmt _ m) end.
Ltac runs :=
  repeat first
    [ apply runs_ret | apply runs_lift | apply runs_fail | stmt_runs | apply query_runs
    | apply query_ok_runs | apply runs_bind; [|intros ?]
    | match goal with |- runs_as _ (match ?x with _ => _ end) _ => destruct x end ].

Lemma connect_task_runs now h client secret :
  runs_as now (connect_task h client secret) (process_connect now h client secret).
Proof. unfold connect_task, process_connect, connect_decision. runs. Qed.

Lemma validate_and_store_runs now h client :
  runs_as now (validate_and_store_task h client) (validate_and_store_client now h client).
Proof.
  intros o s. unfold validate_and_store_task, validate_and_store_client, se_bind, se_gets. simpl.
  destruct (client_is_connected now (sg_db s) h client); simpl; [done|].
  by destruct (unconnected_id now (sg_db s) h).
Qed.

Lemma activity_runs now h : runs_as now (activity_task h) (spawn_update_activity now h).
Proof. unfold activity_task. destruct (negb _) eqn:E; [|runs]. unfold spawn_update_activity. by rewrite E. Qed.

(** A read that can fail, in one statement or as a read of the database and a
    check of what it holds. *)
Lemma read_runs {A B} now (q : Db -> result A SignerError) (k : A -> T B) (m : A -> M B) :
  (forall a, runs_as now (k a) (m a)) ->
  runs_as now (pt_bind (query_ok q) k) (let! d := se_gets sg_db in let! a := se_lift (q d) in m a).
Proof.
  intros Hk o s. unfold se_bind, se_gets, se_lift. simpl. destruct (q (sg_db s)) as [a|e]; [apply Hk | done].
Qed.
#[local] Hint Resolve activity_runs connect_task_runs : keycast.

Lemma sign_event_runs now h request :
  runs_as now (sign_event_task h request) (handle_sign_event now h request).
Proof.
  unfold sign_event_task, handle_sign_event. apply runs_bind; [runs|]. intros ue. apply read_runs. intros _.
  apply runs_bind; [runs|]. intros e. apply runs_bind; [apply activity_runs|]. intros _. runs.
Qed.

Lemma crypt_runs now h request param validate op op_error :
  runs_as now (crypt_task h request param validate op op_error)
    (crypt_method now h request param validate op op_error).
Proof.
  unfold crypt_task, crypt_method. do 3 (apply runs_bind; [runs|]; intros ?). apply read_runs. intros _.
  apply runs_bind; [runs|]. intros e. apply runs_bind; [apply activity_runs|]. intros _. runs.
Qed.

Lemma dispatch_runs now h client method request :
  runs_as now (dispatch_task h client method request) (dispatch now h client method request).
Proof.
  unfold dispatch_task, dispatch. repeat case_if; try apply crypt_runs; try apply runs_ret.
  - apply sign_event_runs.
  - destruct (as_str _) as [secret|]; [|runs]. intros o s. rewrite run_bind, connect_task_runs.
    by destruct (process_connect now h client secret s) as [s' [r|e]].
Qed.

Lemma load_on_demand_runs now b :
  runs_as now (load_on_demand_task b) (let! d := se_gets sg_db in se_lift (load_on_demand now d b)).
Proof.
  intros o s. unfold load_on_demand_task, load_on_demand, se_bind, se_gets, se_lift, rbind. simpl.
  destruct (find_first _ _) as [row|]; simpl.
  - destruct (map_err SE_Database (decode_oauth row)) as [auth|]; simpl; [|done].
    destruct (personal_key _ _ _) as [k|]; simpl; [|done]. by destruct (unlock_keys _ _ _).
  - destruct (find_first _ _) as [auth|]; simpl; [|done].
    destruct (stored_key_secret _ _ _) as [k|]; simpl; [|done]. by destruct (unlock_keys _ _ _).
Qed.

Lemma get_handler_runs now b : runs_as now (get_handler_task b) (get_handler now b).
Proof.
  unfold get_handler_task, get_handler. intros o s.
  unfold pt_bind at 1. rewrite run_bind. unfold se_bind at 1, se_gets at 1. cbn [run pt_stmt fst snd se_gets].
  destruct (sg_handlers s !! b) as [h|]; [done|]. unfold pt_bind at 1. rewrite run_bind, load_on_demand_runs.
  unfold se_bind, se_gets, se_lift. by destruct (load_on_demand now (sg_db s) b) as [[h|]|].
Qed.

Lemma process_runs now h event : runs_as now (process_task h event) (process_request now h event).
Proof.
  unfold process_task, process_request. apply runs_bind; [runs|]. intros [decrypted use_nip44].
  do 2 (apply runs_bind; [runs|]; intros ?). destruct (tombstone_error_message h); [stmt_runs|].
  assert (Ha : forall e b r m, runs_as now
    (let* response := dispatch_task h e m r in send_task h event b true response)
    (let! response := dispatch now h e m r in send_response now h event b true response)).
  { intros. apply runs_bind; [apply dispatch_runs|]. intros. stmt_runs. }
  unfold active_task, process_active. destruct (h_is_oauth h && _); [|apply Ha].
  intros o s. rewrite run_bind, validate_and_store_runs.
  destruct (validate_and_store_client _ _ _ s) as [s' [u|e]]; [apply Ha |]. exact (runs_stmt now _ o s').
Qed.

(** A request whose statements nothing interrupts is [handle_nip46_request]. *)
Theorem request_runs now event : runs_as now (request_task event) (handle_nip46_request now event).
Proof.
  unfold request_task, handle_nip46_request. apply runs_bind; [runs|]. intros b.
  destruct (negb (should_handle b)); [runs|]. apply runs_bind; [apply get_handler_runs|].
  intros [h|]; [apply process_runs | runs].
Qed.

(** A command whose statements nothing interrupts is [handle_command]. *)
Theorem command_runs now c s o : fst (run now o (command_task c) s) = handle_command now c s.
Proof.
  destruct c as [b tenant is_oauth|b|]; simpl; [|by destruct (sg_handlers s !! b)|done].
  unfold load_single_task, load_single_authorization, se_bind, se_gets, se_lift. destruct is_oauth; simpl.
  - destruct (find_first _ _) as [row|]; simpl; [|done].
    destruct (map_err SE_Database (decode_oauth row)) as [auth|]; simpl; [|done].
    destruct (personal_key _ _ _) as [k|]; simpl; [|done]. by destruct (unlock_keys _ _ _).
  - by destruct (find_first _ _).
Qed.

End signer_tasks.
