(* ===== verification/Ucan.v ===== *)
(** * UCAN tokens

    api/src/ucan_auth/did.rs and api/src/ucan_auth/validation.rs: DIDs of Nostr
    keys and the validation of a bearer token.  Parsing, signature and expiry are
    the ucan crate's. *)
From S2P Require Import Prelude RustStr External Instances.

Section ucan.
Context `{HN : Nostr, HE : !Encodings, HU : UcanLib}.

(** ** DIDs *)
Definition SECP256K1_MULTICODEC : list Z := [231; 1].

Definition nostr_pubkey_to_did (pubkey : PublicKey) : string :=
  "did:key:z" +:+ b58_encode (SECP256K1_MULTICODEC ++ pk_to_bytes pubkey).

Definition did_to_nostr_pubkey (did : string) : result PublicKey string :=
  let? encoded := ok_or (strip_prefix "did:key:z" did) "Invalid DID format" in
  let? decoded := b58_decode encoded in
  match decoded with
  | 231 :: 1 :: pubkey_bytes =>
      map_err (fun e => "Invalid public key: " +:+ e) (pk_from_slice pubkey_bytes)
  | _ => Err "Not a secp256k1 key"
  end.

(** ** Validation

    [nsec] is the SERVER_NSEC variable. *)
Definition server_pubkey (nsec : option string) : result string string :=
  let? server_nsec := ok_or nsec "SERVER_NSEC must be set and valid" in
  match keys_parse server_nsec with
  | Ok keys => Ok (pk_to_hex (pk_of keys))
  | Err _ => Err "SERVER_NSEC must be set and valid"
  end.

(** [facts.iter().find_map(|fact| fact.get(name).and_then(read))] *)
Definition fact {A} (read : json -> option A) (name : string) (facts : list json) : option A :=
  find_map (fun f => match json_lookup f name with Some v => read v | None => None end) facts.

Record validated_token : Type := {
  vt_user_pubkey : string;
  vt_redirect_origin : string;
  vt_bunker_pubkey : option string;
  vt_ucan : Ucan;
}.

(** The tenant of the session, unless any tenant will do. *)
Definition check_tenant (expected_tenant_id : Z) (facts : list json) : result unit string :=
  if negb (expected_tenant_id =? 0) then
    match fact as_i64 "tenant_id" facts with
    | Some tenant_id => if tenant_id =? expected_tenant_id then Ok tt else Err "Tenant mismatch"
    | None => Err "UCAN missing tenant_id fact"
    end
  else Ok tt.

(** The issuer is the user or the server. *)
Definition check_issuer (nsec : option string) (user_pubkey_hex issuer_pubkey_hex : string)
  : result unit string :=
  if bool_decide (issuer_pubkey_hex = user_pubkey_hex) then Ok tt
  else
    let? server := server_pubkey nsec in
    if bool_decide (issuer_pubkey_hex = server) then Ok tt
    else Err ("Invalid UCAN issuer: must be signed by user (" +:+ String.substring 0 8 user_pubkey_hex
              +:+ ") or server (" +:+ String.substring 0 8 server +:+ "), got "
              +:+ String.substring 0 8 issuer_pubkey_hex).

Definition validate_ucan_token (now : Z) (nsec : option string) (auth_header : string)
    (expected_tenant_id : Z) : result validated_token string :=
  let? token := ok_or (strip_prefix "Bearer " auth_header) "Invalid Authorization header format" in
  let? ucan := ucan_parse token in
  let? _ := map_err (fun e => "UCAN signature verification failed: " +:+ e) (ucan_check_signature ucan) in
  if ucan_is_expired now ucan then Err "Token expired"
  else
    let facts := ucan_facts ucan in
    let? redirect_origin := ok_or (fact as_str "redirect_origin" facts)
                              "UCAN missing required redirect_origin fact" in
    let bunker_pubkey := fact as_str "bunker_pubkey" facts in
    let? _ := check_tenant expected_tenant_id facts in
    let? user_pubkey := did_to_nostr_pubkey (ucan_audience ucan) in
    let? issuer_pubkey := did_to_nostr_pubkey (ucan_issuer ucan) in
    let? _ := check_issuer nsec (pk_to_hex user_pubkey) (pk_to_hex issuer_pubkey) in
    Ok {| vt_user_pubkey := pk_to_hex user_pubkey; vt_redirect_origin := redirect_origin;
          vt_bunker_pubkey := bunker_pubkey; vt_ucan := ucan |}.

Definition extract_user_from_ucan (now : Z) (nsec : option string) (auth_header : option string)
    (expected_tenant_id : Z) : result (string * string * option string) string :=
  let? header := ok_or auth_header "Missing Authorization header" in
  let? t := validate_ucan_token now nsec header expected_tenant_id in
  Ok (vt_user_pubkey t, vt_redirect_origin t, vt_bunker_pubkey t).

Definition is_server_signed (nsec : option string) (ucan : Ucan) : bool :=
  match did_to_nostr_pubkey (ucan_issuer ucan), server_pubkey nsec with
  | Ok issuer_pubkey, Ok server => bool_decide (pk_to_hex issuer_pubkey = server)
  | _, _ => false
  end.

Lemma did_to_did `{!EncodingLaws} pubkey :
  did_to_nostr_pubkey (nostr_pubkey_to_did pubkey) = Ok pubkey.
Proof.
  unfold did_to_nostr_pubkey, nostr_pubkey_to_did.
  rewrite (proj2 (strip_prefix_Some _ _ _) eq_refl); simpl.
  rewrite b58_round_trip; simpl; [by rewrite pk_bytes_round_trip|].
  repeat (constructor; [unfold is_byte; lia|]). apply pk_bytes_are_bytes.
Qed.

(** The DID of a Nostr key decodes to that key. *)
Theorem did_round_trip `{!EncodingLaws} pubkey :
  did_to_nostr_pubkey (nostr_pubkey_to_did pubkey) = Ok pubkey.
Proof. apply did_to_did. Qed.

(** What a token that validates satisfies. *)
Lemma validate_inv now nsec auth_header tenant_id t :
  validate_ucan_token now nsec auth_header tenant_id = Ok t ->
  exists token user issuer,
    auth_header = "Bearer " +:+ token /\ ucan_parse token = Ok (vt_ucan t) /\
    is_ok (ucan_check_signature (vt_ucan t)) = true /\ ucan_is_expired now (vt_ucan t) = false /\
    (tenant_id <> 0 -> fact as_i64 "tenant_id" (ucan_facts (vt_ucan t)) = Some tenant_id) /\
    did_to_nostr_pubkey (ucan_audience (vt_ucan t)) = Ok user /\ vt_user_pubkey t = pk_to_hex user /\
    did_to_nostr_pubkey (ucan_issuer (vt_ucan t)) = Ok issuer /\
    (pk_to_hex issuer = pk_to_hex user \/ is_server_signed nsec (vt_ucan t) = true).
Proof.
  unfold validate_ucan_token. intros H.
  apply rbind_ok in H as (token & Htok & H). apply ok_or_ok, strip_prefix_Some in Htok.
  apply rbind_ok in H as (ucan & Hparse & H). apply rbind_ok in H as (u & Hsig & H).
  apply map_err_ok in Hsig. destruct (ucan_is_expired now ucan) eqn:Hexp; [discriminate|].
  apply rbind_ok in H as (origin & _ & H). apply rbind_ok in H as (u1 & Hten & H).
  apply rbind_ok in H as (user & Huser & H). apply rbind_ok in H as (issuer & Hiss & H).
  apply rbind_ok in H as (u2 & Hcheck & H). injection H as <-. simpl.
  exists token, user, issuer. repeat (split; [first [done | by rewrite Hsig]|]). split.
  - intros Hne. unfold check_tenant in Hten. destruct (tenant_id =? 0) eqn:E0; [bool_to_prop; lia|]. simpl in Hten.
    destruct (fact as_i64 "tenant_id" (ucan_facts ucan)) as [x|]; [|discriminate].
    destruct (x =? tenant_id) eqn:Ex; [bool_to_prop; congruence | discriminate].
  - repeat (split; [done|]). unfold check_issuer in Hcheck. case_bool_decide; [by left|]. right.
    apply rbind_ok in Hcheck as (server & Hserver & Hcheck).
    unfold is_server_signed. rewrite Hiss, Hserver. by destruct (bool_decide _).
Qed.

(** A bearer token is accepted for a tenant only when its signature
    verifies, it has not expired, it names that tenant, and it was issued by its
    own audience or by the server; the user it stands for is its audience. *)
Theorem validate_ucan_token_sound now nsec auth_header tenant_id t :
  validate_ucan_token now nsec auth_header tenant_id = Ok t ->
  exists token user issuer,
    auth_header = "Bearer " +:+ token /\ ucan_parse token = Ok (vt_ucan t) /\
    is_ok (ucan_check_signature (vt_ucan t)) = true /\ ucan_is_expired now (vt_ucan t) = false /\
    (tenant_id <> 0 -> fact as_i64 "tenant_id" (ucan_facts (vt_ucan t)) = Some tenant_id) /\
    did_to_nostr_pubkey (ucan_audience (vt_ucan t)) = Ok user /\ vt_user_pubkey t = pk_to_hex user /\
    did_to_nostr_pubkey (ucan_issuer (vt_ucan t)) = Ok issuer /\
    (pk_to_hex issuer = pk_to_hex user \/ is_server_signed nsec (vt_ucan t) = true).
Proof. apply validate_inv. Qed.

End ucan.

(** ** Witnesses *)
Lemma did_round_trip_witness : did_to_nostr_pubkey (nostr_pubkey_to_did "Pu") = Ok "Pu".
Proof. apply (did_round_trip (HN := toy_nostr) "Pu"). Defined.

Lemma validate_ucan_token_sound_witness :
  exists t, validate_ucan_token 10 (Some "server") "Bearer bunker B" 1 = Ok t /\
    ucan_is_expired 10 (vt_ucan t) = false.
Proof.
  destruct (is_ok_Ok (validate_ucan_token 10 (Some "server") "Bearer bunker B" 1)) as (t & E);
    [vm_compute; reflexivity|].
  destruct (validate_ucan_token_sound 10 (Some "server") "Bearer bunker B" 1 t E)
    as (token & user & issuer & _ & _ & _ & H & _).
  exists t. split; [exact E | exact H].
Defined.
