(* ===== verification/HttpRpc.v ===== *)
(** * Signing over HTTP

    api/src/handlers/http_rpc_handler.rs, api/src/api/http/nostr_rpc.rs and
    core/src/signing_session.rs: the cached handler of an authorization, the
    cache keyed by token, and the JSON-RPC endpoint.  The state is the database
    and the handler cache. *)
From S2P Require Import Prelude RustStr External Instances Database Samples Permissions Policies AuthTypes Signer Ucan.

(** A cache key is 32 bytes. *)
Notation CacheKey := (list Z).

Inductive HandlerError : Type :=
| HE_AuthorizationInvalid
| HE_PermissionDenied
| HE_Signing (msg : string)
| HE_Encryption (msg : string).

(** The authentication errors this endpoint gives. *)
Inductive AuthError : Type :=
| AuthE_MissingToken
| AuthE_InvalidToken
| AuthE_Forbidden (msg : string).

Inductive RpcError : Type :=
| Rpc_Auth (e : AuthError)
| Rpc_InvalidParams (msg : string)
| Rpc_UnsupportedMethod (method : string)
| Rpc_SigningFailed (msg : string)
| Rpc_EncryptionFailed (msg : string)
| Rpc_DecryptionFailed (msg : string)
| Rpc_Internal (msg : string).

Definition rpc_error_of_handler (e : HandlerError) : RpcError :=
  match e with
  | HE_AuthorizationInvalid => Rpc_Auth AuthE_InvalidToken
  | HE_PermissionDenied => Rpc_Auth (AuthE_Forbidden "Operation denied by policy")
  | HE_Signing msg => Rpc_SigningFailed msg
  | HE_Encryption msg => Rpc_EncryptionFailed msg
  end.

(** The HTTP status of an error that is not an authentication error. *)
Definition rpc_error_response (e : RpcError) : option (Z * string) :=
  match e with
  | Rpc_Auth _ => None
  | Rpc_InvalidParams msg => Some (400, msg)
  | Rpc_UnsupportedMethod method => Some (400, "Unsupported method: " +:+ method)
  | Rpc_SigningFailed msg => Some (400, msg)
  | Rpc_EncryptionFailed msg => Some (400, msg)
  | Rpc_DecryptionFailed msg => Some (400, msg)
  | Rpc_Internal msg => Some (500, msg)
  end.

(** [i64::to_le_bytes] *)
Definition le_bytes (v : Z) : list Z :=
  map (fun i => Z.land (Z.shiftr (v mod 2 ^ 64) (8 * i)) 255) [0; 1; 2; 3; 4; 5; 6; 7].

Definition compute_token_cache_key `{Digests} (auth_header : string) (tenant_id : Z) : option CacheKey :=
  match strip_prefix "Bearer " auth_header with
  | Some token => Some (blake3 (le_bytes tenant_id ++ bytes_of token))
  | None => None
  end.

Section http_rpc.
Context `{HN : Nostr, HC : !NostrCrypto, HS : !Serde, HX : !Secrets, HD : Digests,
          HE : !Encodings, HU : UcanLib}.

(** ** Sessions

    core/src/signing_session.rs: the key of a handler, and the operations with it,
    which run on a pool of threads; the tasks do not panic. *)
Inductive SessionError : Type :=
| Session_InvalidKeyLength
| Session_HexDecode (e : string)
| Session_Signing (e : string)
| Session_Encryption (e : string)
| Session_BlockingTask (e : string).
Definition session_error_str (e : SessionError) : string :=
  match e with
  | Session_InvalidKeyLength => "invalid key length (expected 32 bytes)"
  | Session_HexDecode e => "hex decode error: " +:+ e
  | Session_Signing e => "signing error: " +:+ e
  | Session_Encryption e => "encryption error: " +:+ e
  | Session_BlockingTask e => "blocking task failed: " +:+ e
  end.
Definition session_sign_event (keys : SecretKey) (unsigned : UnsignedEvent) : result Event SessionError :=
  map_err Session_Signing (sign_unsigned keys unsigned).
Definition session_nip44_encrypt (keys : SecretKey) (recipient : PublicKey) (plaintext : string) : result string SessionError :=
  map_err Session_Encryption (nip44_encrypt keys recipient plaintext).
Definition session_nip44_decrypt (keys : SecretKey) (sender : PublicKey) (ciphertext : string) : result string SessionError :=
  map_err Session_Encryption (nip44_decrypt keys sender ciphertext).

(** ** Handlers *)
Record HttpRpcHandler : Type := {
  rh_signing : SecretKey;
  rh_authorization_id : Z;
  rh_user_pubkey : PublicKey;
  rh_expires_at : option Z;
  rh_revoked_at : option Z;
  rh_permissions : list BoxedPermission;
  rh_is_oauth : bool;
  rh_bunker_pubkey : CacheKey;
  rh_authorization_handle : CacheKey;
}.

Definition new_handler (signing : SecretKey) (authorization_id : Z) (expires_at revoked_at : option Z)
    (permissions : list BoxedPermission) (is_oauth : bool) (bunker_pubkey authorization_handle : CacheKey)
  : HttpRpcHandler := {|
  rh_signing := signing; rh_authorization_id := authorization_id; rh_user_pubkey := pk_of signing;
  rh_expires_at := expires_at; rh_revoked_at := revoked_at; rh_permissions := permissions;
  rh_is_oauth := is_oauth; rh_bunker_pubkey := bunker_pubkey;
  rh_authorization_handle := authorization_handle |}.

Definition is_valid (now : Z) (h : HttpRpcHandler) : bool :=
  if negb (is_null (rh_revoked_at h)) then false
  else match rh_expires_at h with
       | Some expires => if expires <? now then false else true
       | None => true
       end.

Definition validate_with (allows : BoxedPermission -> bool) (h : HttpRpcHandler) : result unit HandlerError :=
  match rh_permissions h with
  | [] => Ok tt
  | ps => if forallb allows ps then Ok tt else Err HE_PermissionDenied
  end.

Definition validate_sign_permission (h : HttpRpcHandler) (event : UnsignedEvent) : result unit HandlerError :=
  validate_with (fun p => dyn_can_sign p event) h.
Definition validate_encrypt_permission (h : HttpRpcHandler) (plaintext : string) (recipient : PublicKey)
  : result unit HandlerError :=
  validate_with (fun p => dyn_can_encrypt p plaintext (rh_user_pubkey h) recipient) h.
Definition validate_decrypt_permission (h : HttpRpcHandler) (ciphertext : string) (sender : PublicKey)
  : result unit HandlerError :=
  validate_with (fun p => dyn_can_decrypt p ciphertext sender (rh_user_pubkey h)) h.

Definition handler_sign_event (now : Z) (h : HttpRpcHandler) (unsigned : UnsignedEvent)
  : result Event HandlerError :=
  if negb (is_valid now h) then Err HE_AuthorizationInvalid
  else
    let? _ := validate_sign_permission h unsigned in
    map_err (fun e => HE_Signing (session_error_str e)) (session_sign_event (rh_signing h) unsigned).

(** The four message operations: validity, permission, the operation. *)
Definition handler_nip44_encrypt (now : Z) (h : HttpRpcHandler) (recipient : PublicKey) (plaintext : string)
  : result string HandlerError :=
  if negb (is_valid now h) then Err HE_AuthorizationInvalid
  else
    let? _ := validate_encrypt_permission h plaintext recipient in
    map_err (fun e => HE_Encryption (session_error_str e)) (session_nip44_encrypt (rh_signing h) recipient plaintext).

Definition handler_nip44_decrypt (now : Z) (h : HttpRpcHandler) (sender : PublicKey) (ciphertext : string)
  : result string HandlerError :=
  if negb (is_valid now h) then Err HE_AuthorizationInvalid
  else
    let? _ := validate_decrypt_permission h ciphertext sender in
    map_err (fun e => HE_Encryption (session_error_str e)) (session_nip44_decrypt (rh_signing h) sender ciphertext).

Definition handler_nip04_encrypt (now : Z) (h : HttpRpcHandler) (recipient : PublicKey) (plaintext : string)
  : result string HandlerError :=
  if negb (is_valid now h) then Err HE_AuthorizationInvalid
  else
    let? _ := validate_encrypt_permission h plaintext recipient in
    map_err HE_Encryption (nip04_encrypt (rh_signing h) recipient plaintext).

Definition handler_nip04_decrypt (now : Z) (h : HttpRpcHandler) (sender : PublicKey) (ciphertext : string)
  : result string HandlerError :=
  if negb (is_valid now h) then Err HE_AuthorizationInvalid
  else
    let? _ := validate_decrypt_permission h ciphertext sender in
    map_err HE_Encryption (nip04_decrypt (rh_signing h) sender ciphertext).

(** ** The cache *)
Notation HttpHandlerCache := (gmap CacheKey HttpRpcHandler).

(** parse_cache_key *)
Definition parse_cache_key (hex_str : string) : result CacheKey string :=
  let? bytes := map_err (fun e => "hex decode error: " +:+ e) (hex_decode hex_str) in
  if bool_decide (length bytes = 32%nat) then Ok bytes
  else Err "invalid key length (expected 32 bytes)".

Definition invalidate_handlers (matches : HttpRpcHandler -> bool) (cache : HttpHandlerCache)
  : HttpHandlerCache := filter (fun kh => matches (snd kh) = false) cache.

Definition invalidate_handlers_for_bunker (bunker_pubkey_hex : string) (cache : HttpHandlerCache)
  : HttpHandlerCache :=
  match parse_cache_key bunker_pubkey_hex with
  | Ok bunker_key => invalidate_handlers (fun h => bool_decide (rh_bunker_pubkey h = bunker_key)) cache
  | Err _ => ∅
  end.

Definition invalidate_handlers_for_authorization (authorization_id : Z) (cache : HttpHandlerCache)
  : HttpHandlerCache :=
  invalidate_handlers (fun h => rh_is_oauth h && (rh_authorization_id h =? authorization_id)) cache.

Definition invalidate_handlers_for_user (user_pubkey_hex : string) (cache : HttpHandlerCache)
  : HttpHandlerCache :=
  invalidate_handlers (fun h => bool_decide (pk_to_hex (rh_user_pubkey h) = user_pubkey_hex)) cache.

Definition insert_handler_dual_key (h : HttpRpcHandler) (cache : HttpHandlerCache) : HttpHandlerCache :=
  <[rh_bunker_pubkey h := h]> (<[rh_authorization_handle h := h]> cache).

(** ** Loading *)

(** PersonalKeysRepository::find_encrypted_key_for_tenant: the join with users
    gives the tenant. *)
Definition find_encrypted_key_for_tenant (d : Db) (user_pubkey : string) (tenant_id : Z) : option (list Z) :=
  find_map (fun k =>
    if bool_decide (pk_user_pubkey k = user_pubkey)
       && existsb (fun u => bool_decide (us_pubkey u = pk_user_pubkey k) && (us_tenant_id u =? tenant_id))
            (db_users d)
    then Some (pk_encrypted_secret_key k) else None) (db_personal_keys d).

(** OAuthAuthorizationRepository::find_by_bunker_pubkey *)
Definition find_by_bunker_pubkey (d : Db) (bunker_pubkey : string) : option OAuthAuthorization :=
  find_first (fun a => bool_decide (oa_bunker_public_key a = bunker_pubkey)) (rows (db_oauth_authorizations d)).

(** UserRepository::is_unclaimed *)
Definition is_unclaimed (d : Db) (pubkey : string) (tenant_id : Z) : option bool :=
  (fun u => is_null (us_email u)) <$>
    find_first (fun u => bool_decide (us_pubkey u = pubkey) && (us_tenant_id u =? tenant_id)) (db_users d).

(** The user's key: found, decrypted, parsed. *)
Definition load_user_keys (d : Db) (missing : string) (user_pubkey : string) (tenant_id : Z)
  : result SecretKey RpcError :=
  let? encrypted_secret := ok_or (find_encrypted_key_for_tenant d user_pubkey tenant_id) (Rpc_Internal missing) in
  let? decrypted_secret := map_err (fun e => Rpc_Internal ("Decryption failed: " +:+ e))
                             (km_decrypt encrypted_secret) in
  map_err (fun e => Rpc_Internal ("Invalid secret key bytes: " +:+ e)) (sk_from_slice decrypted_secret).

(** Permissions that do not convert are dropped. *)
Definition load_policy_permissions (d : Db) (policy_id : option Z) : result (list BoxedPermission) RpcError :=
  match policy_id with
  | Some pid =>
      let? db_permissions := map_err (fun e => Rpc_Internal ("Database error loading permissions: "
                                                  +:+ repository_error_str e)) (get_permissions d pid) in
      Ok (omap (fun p => ok (to_custom_permission p)) db_permissions)
  | None => Ok []
  end.

Definition load_handler_on_demand (d : Db) (bunker_pubkey_hex token_user_pubkey : string) (tenant_id : Z)
  : result HttpRpcHandler RpcError :=
  let? auth := ok_or (find_by_bunker_pubkey d bunker_pubkey_hex) (Rpc_Auth AuthE_InvalidToken) in
  if negb (bool_decide (oa_user_pubkey auth = token_user_pubkey)) then Err (Rpc_Auth AuthE_InvalidToken)
  else
    let? permissions := load_policy_permissions d (oa_policy_id auth) in
    let? user_keys := load_user_keys d "Personal keys not found" (oa_user_pubkey auth) tenant_id in
    let? bunker_key := map_err (fun e => Rpc_Internal ("Invalid bunker_pubkey: " +:+ e))
                         (parse_cache_key bunker_pubkey_hex) in
    let? auth_handle :=
      match oa_authorization_handle auth with
      | Some handle => map_err (fun e => Rpc_Internal ("Invalid authorization_handle: " +:+ e))
                         (parse_cache_key handle)
      | None => Ok bunker_key
      end in
    Ok (new_handler user_keys (oa_id auth) (oa_expires_at auth) (oa_revoked_at auth) permissions true
          bunker_key auth_handle).

Definition load_preloaded_user_handler (d : Db) (user_pubkey_hex : string) (tenant_id : Z)
  : result HttpRpcHandler RpcError :=
  if negb (bool_decide (is_unclaimed d user_pubkey_hex tenant_id = Some true)) then
    Err (Rpc_Auth AuthE_InvalidToken)
  else
    let? user_keys := load_user_keys d "Personal keys not found for preloaded user" user_pubkey_hex tenant_id in
    let? cache_key := map_err (fun e => Rpc_Internal ("Invalid user_pubkey: " +:+ e))
                        (parse_cache_key user_pubkey_hex) in
    Ok (new_handler user_keys 0 None None [] false cache_key cache_key).

(** The slow path: token, mode, handler. *)
Definition authenticate (now : Z) (nsec : option string) (d : Db) (auth_header : string) (tenant_id : Z)
  : result HttpRpcHandler RpcError :=
  let? t := map_err (fun _ => Rpc_Auth AuthE_InvalidToken)
              (validate_ucan_token now nsec auth_header tenant_id) in
  let? handler :=
    match vt_bunker_pubkey t with
    | Some bunker_key_hex => load_handler_on_demand d bunker_key_hex (vt_user_pubkey t) tenant_id
    | None =>
        if is_server_signed nsec (vt_ucan t)
        then load_preloaded_user_handler d (vt_user_pubkey t) tenant_id
        else Err (Rpc_Auth AuthE_InvalidToken)
    end in
  if negb (is_valid now handler) then Err (Rpc_Auth AuthE_InvalidToken) else Ok handler.

(** ** The endpoint *)
Record rpc_state : Type := { rs_db : Db; rs_cache : HttpHandlerCache }.

Definition with_cache (f : HttpHandlerCache -> HttpHandlerCache) (s : rpc_state) : rpc_state :=
  {| rs_db := rs_db s; rs_cache := f (rs_cache s) |}.

Definition get_handler (now : Z) (nsec : option string) (auth_header : string) (tenant_id : Z)
  : SE rpc_state RpcError HttpRpcHandler := fun s =>
  match compute_token_cache_key auth_header tenant_id with
  | None => (s, Err (Rpc_Auth AuthE_InvalidToken))
  | Some key =>
      match rs_cache s !! key with
      | Some handler =>
          if negb (is_valid now handler)
          then (with_cache (delete key) s, Err (Rpc_Auth AuthE_InvalidToken))
          else (s, Ok handler)
      | None =>
          match authenticate now nsec (rs_db s) auth_header tenant_id with
          | Ok handler => (with_cache <[key := handler]> s, Ok handler)
          | Err e => (s, Err e)
          end
      end
  end.

Definition parse_unsigned_event (params : list json) : result UnsignedEvent RpcError :=
  let? event_value := ok_or (head params) (Rpc_InvalidParams "Missing event parameter") in
  match as_str event_value with
  | Some event_str => map_err (fun e => Rpc_InvalidParams ("Invalid event JSON: " +:+ e))
                        (de_UnsignedEvent_str event_str)
  | None => map_err (fun e => Rpc_InvalidParams ("Invalid event format: " +:+ e))
              (de_UnsignedEvent_value event_value)
  end.

(** parse_encrypt_params and parse_decrypt_params differ in two messages. *)
Definition param_str (params : list json) (i : nat) : option string :=
  match params !! i with Some v => as_str v | None => None end.
Definition parse_peer_params (missing_peer missing_text : string) (params : list json)
  : result (PublicKey * string) RpcError :=
  let? pubkey_hex := ok_or (param_str params 0) (Rpc_InvalidParams missing_peer) in
  let? text := ok_or (param_str params 1) (Rpc_InvalidParams missing_text) in
  let? pubkey := map_err (fun e => Rpc_InvalidParams ("Invalid pubkey: " +:+ e)) (pk_from_hex pubkey_hex) in
  Ok (pubkey, text).
Definition parse_encrypt_params : list json -> result (PublicKey * string) RpcError :=
  parse_peer_params "Missing recipient pubkey parameter" "Missing plaintext parameter".
Definition parse_decrypt_params : list json -> result (PublicKey * string) RpcError :=
  parse_peer_params "Missing sender pubkey parameter" "Missing ciphertext parameter".

(** UPDATE oauth_authorizations SET last_activity, activity_count WHERE id *)
Definition log_activity (now : Z) (h : HttpRpcHandler) (s : rpc_state) : rpc_state :=
  if negb (rh_is_oauth h) then s
  else {| rs_db := set_oauth_authorizations (with_rows (update_where
            (fun a => oa_id a =? rh_authorization_id h) (fun a => {|
            oa_id := oa_id a; oa_user_pubkey := oa_user_pubkey a; oa_redirect_origin := oa_redirect_origin a;
            oa_client_id := oa_client_id a; oa_bunker_public_key := oa_bunker_public_key a;
            oa_secret_hash := oa_secret_hash a; oa_relays := oa_relays a; oa_policy_id := oa_policy_id a;
            oa_tenant_id := oa_tenant_id a; oa_client_pubkey := oa_client_pubkey a;
            oa_connected_client_pubkey := oa_connected_client_pubkey a; oa_connected_at := oa_connected_at a;
            oa_created_at := oa_created_at a; oa_updated_at := now; oa_revoked_at := oa_revoked_at a;
            oa_expires_at := oa_expires_at a; oa_handle_expires_at := oa_handle_expires_at a;
            oa_authorization_handle := oa_authorization_handle a; oa_last_activity := Some now;
            oa_activity_count := oa_activity_count a + 1 |})) (db_oauth_authorizations (rs_db s))) (rs_db s);
          rs_cache := rs_cache s |}.

Definition peer_method (now : Z) (h : HttpRpcHandler)
    (parse : list json -> result (PublicKey * string) RpcError)
    (op : Z -> HttpRpcHandler -> PublicKey -> string -> result string HandlerError) (params : list json)
  : SE rpc_state RpcError json :=
  let! '(peer, text) := se_lift (parse params) in
  let! out := se_lift (map_err rpc_error_of_handler (op now h peer text)) in
  let! _ := se_modify (log_activity now h) in
  se_ret (JString out).

Definition rpc_dispatch (now : Z) (h : HttpRpcHandler) (method : string) (params : list json)
  : SE rpc_state RpcError json :=
  if bool_decide (method = "get_public_key") then se_ret (JString (pk_to_hex (rh_user_pubkey h)))
  else if bool_decide (method = "sign_event") then
    let! unsigned_event := se_lift (parse_unsigned_event params) in
    let! signed := se_lift (map_err rpc_error_of_handler (handler_sign_event now h unsigned_event)) in
    let! _ := se_modify (log_activity now h) in
    se_lift (map_err (fun e => Rpc_Internal ("JSON serialization failed: " +:+ e)) (event_to_value signed))
  else if bool_decide (method = "nip44_encrypt") then
    peer_method now h parse_encrypt_params handler_nip44_encrypt params
  else if bool_decide (method = "nip44_decrypt") then
    peer_method now h parse_decrypt_params handler_nip44_decrypt params
  else if bool_decide (method = "nip04_encrypt") then
    peer_method now h parse_encrypt_params handler_nip04_encrypt params
  else if bool_decide (method = "nip04_decrypt") then
    peer_method now h parse_decrypt_params handler_nip04_decrypt params
  else se_fail (Rpc_UnsupportedMethod method).

(** POST /api/nostr *)
Definition nostr_rpc (now : Z) (nsec : option string) (tenant_id : Z) (auth_header : option string)
    (method : string) (params : list json) : SE rpc_state RpcError json :=
  let! header := se_lift (ok_or auth_header (Rpc_Auth AuthE_MissingToken)) in
  let! handler := get_handler now nsec header tenant_id in
  rpc_dispatch now handler method params.

End http_rpc.
