(* ===== verification/HttpRpcSafety.v ===== *)
(** * Safety of signing over HTTP

    Tokens of different tenants never share a cache entry, a cached handler was
    authorized for the very token that finds it, HTTP and NIP-46 enforce the same
    permissions when those all load, and where the two differ. *)
From S2P Require Import Prelude RustStr External Instances Database Samples Permissions Policies AuthTypes Signer SignerSafety Ucan HttpRpc.

(** ** Cache keys *)
Lemma le_byte_div u i : 0 <= i -> Z.land (Z.shiftr u (8 * i)) 255 = u / 2 ^ (8 * i) mod 256.
Proof. intros Hi. rewrite Z.shiftr_div_pow2 by lia. change 255 with (Z.ones 8). by rewrite Z.land_ones by lia. Qed.

(** Two numbers with the same byte at a position and the same higher bytes
    have the same bytes from that position on. *)
Lemma byte_step a b i :
  0 <= i -> Z.land (Z.shiftr a (8 * i)) 255 = Z.land (Z.shiftr b (8 * i)) 255 ->
  a / 2 ^ (8 * (i + 1)) = b / 2 ^ (8 * (i + 1)) -> a / 2 ^ (8 * i) = b / 2 ^ (8 * i).
Proof.
  intros Hi. rewrite !le_byte_div by done.
  replace (2 ^ (8 * (i + 1))) with (2 ^ (8 * i) * 256)
    by (rewrite Z.mul_add_distr_l, Z.pow_add_r by lia; done).
  rewrite <- !Z.div_div by lia. intros Hm Hd.
  rewrite (Z.div_mod (a / 2 ^ (8 * i)) 256), (Z.div_mod (b / 2 ^ (8 * i)) 256) by lia. lia.
Qed.

Lemma le_bytes_inj v w :
  - 2 ^ 63 <= v < 2 ^ 63 -> - 2 ^ 63 <= w < 2 ^ 63 -> le_bytes v = le_bytes w -> v = w.
Proof.
  intros Hv Hw. unfold le_bytes. cbn [map]. intros Heq.
  assert (Hab : v mod 2 ^ 64 = w mod 2 ^ 64).
  { pose proof (Z.mod_pos_bound v (2 ^ 64) ltac:(lia)) as Ha.
    pose proof (Z.mod_pos_bound w (2 ^ 64) ltac:(lia)) as Hb.
    generalize dependent (v mod 2 ^ 64). generalize dependent (w mod 2 ^ 64). intros b Hb a [= E0 E1 E2 E3 E4 E5 E6 E7] Ha.
    rewrite <- (Z.div_1_r a), <- (Z.div_1_r b).
    apply (byte_step a b 0); [lia | done|]. apply (byte_step a b 1); [lia | done|].
    apply (byte_step a b 2); [lia | done|]. apply (byte_step a b 3); [lia | done|].
    apply (byte_step a b 4); [lia | done|]. apply (byte_step a b 5); [lia | done|].
    apply (byte_step a b 6); [lia | done|]. apply (byte_step a b 7); [lia | done|].
    simpl Z.mul. by rewrite !Z.div_small by done. }
  change (2 ^ 64) with 18446744073709551616 in *. change (2 ^ 63) with 9223372036854775808 in *.
  Z.div_mod_to_equations. lia.
Qed.

Lemma le_bytes_length v : length (le_bytes v) = 8%nat.
Proof. done. Qed.

Lemma token_cache_keys `{Digests} h1 h2 t1 t2 k :
  (forall x y, blake3 x = blake3 y -> x = y) ->
  - 2 ^ 63 <= t1 < 2 ^ 63 -> - 2 ^ 63 <= t2 < 2 ^ 63 ->
  compute_token_cache_key h1 t1 = Some k -> compute_token_cache_key h2 t2 = Some k ->
  h1 = h2 /\ t1 = t2.
Proof.
  intros Hinj Ht1 Ht2. unfold compute_token_cache_key.
  destruct (strip_prefix "Bearer " h1) as [x|] eqn:E1; [|done].
  destruct (strip_prefix "Bearer " h2) as [y|] eqn:E2; [|done].
  intros Hk1 Hk2. assert (Heq : le_bytes t1 ++ bytes_of x = le_bytes t2 ++ bytes_of y) by (apply Hinj; congruence).
  apply app_inj_1 in Heq as [Ht Hxy]; [|done].
  apply bytes_of_inj in Hxy as ->. apply le_bytes_inj in Ht as ->; [|done|done].
  apply strip_prefix_Some in E1 as ->, E2 as ->. done.
Qed.

(** The token cache separates tenants and tokens: with a collision-free
    hash, two requests use the same cache entry only if they carry the same
    token to the same tenant. *)
Theorem token_cache_key_injective `{Digests} h1 h2 t1 t2 k :
  (forall x y, blake3 x = blake3 y -> x = y) ->
  - 2 ^ 63 <= t1 < 2 ^ 63 -> - 2 ^ 63 <= t2 < 2 ^ 63 ->
  compute_token_cache_key h1 t1 = Some k -> compute_token_cache_key h2 t2 = Some k ->
  h1 = h2 /\ t1 = t2.
Proof. apply token_cache_keys. Qed.

Section rpc_safety.
Context `{HN : Nostr, HC : !NostrCrypto, HS : !Serde, HX : !Secrets, HD : Digests,
          HE : !Encodings, HU : UcanLib}.

(** ** Authentication *)

(** What an authorization must be for its token to be served. *)
Lemma load_handler_on_demand_ok d bunker user tenant_id h :
  load_handler_on_demand d bunker user tenant_id = Ok h ->
  exists a ps, find_by_bunker_pubkey d bunker = Some a /\ oa_user_pubkey a = user /\
    load_policy_permissions d (oa_policy_id a) = Ok ps /\
    rh_authorization_id h = oa_id a /\ rh_expires_at h = oa_expires_at a /\
    rh_revoked_at h = oa_revoked_at a /\ rh_permissions h = ps /\ rh_is_oauth h = true /\
    rh_user_pubkey h = pk_of (rh_signing h) /\ parse_cache_key bunker = Ok (rh_bunker_pubkey h).
Proof.
  unfold load_handler_on_demand. intros H.
  apply rbind_ok in H as (a & Ha & H). apply ok_or_ok in Ha.
  destruct (bool_decide (oa_user_pubkey a = user)) eqn:Eu; simpl in H; [|discriminate].
  inv_ok. bool_to_prop. exists a, x. by repeat (split; [done|]).
Qed.

(** [C7] A token is served with an authorization's key only if the token is
    valid for the tenant and the authorization it names belongs to the token's
    user and is neither revoked nor expired; a token that names no authorization
    is served only if the server signed it and its user has not claimed the
    account. *)
Theorem authenticate_sound now nsec d auth_header tenant_id h :
  authenticate now nsec d auth_header tenant_id = Ok h ->
  exists t, validate_ucan_token now nsec auth_header tenant_id = Ok t /\
    ((exists bunker a, vt_bunker_pubkey t = Some bunker /\ find_by_bunker_pubkey d bunker = Some a /\
        oa_user_pubkey a = vt_user_pubkey t /\ rh_authorization_id h = oa_id a /\
        oa_revoked_at a = None /\ (forall e, oa_expires_at a = Some e -> now <= e)) \/
     (vt_bunker_pubkey t = None /\ is_server_signed nsec (vt_ucan t) = true /\
        is_unclaimed d (vt_user_pubkey t) tenant_id = Some true /\ rh_permissions h = [])).
Proof.
  unfold authenticate. intros H. apply rbind_ok in H as (t & Ht & H). apply map_err_ok in Ht.
  apply rbind_ok in H as (h' & Hh & H). destruct (is_valid now h') eqn:Ev; simpl in H; [|discriminate].
  injection H as <-. exists t. split; [done|]. destruct (vt_bunker_pubkey t) as [bunker|].
  - left. apply load_handler_on_demand_ok in Hh as (a & ps & Ha & Hu & _ & Hid & He & Hr & _).
    exists bunker, a. repeat (split; [done|]). unfold is_valid in Ev. rewrite Hr, He in Ev.
    destruct (oa_revoked_at a); [done|]. simpl in Ev. split; [done|]. intros e Hee. rewrite Hee in Ev.
    destruct (e <? now) eqn:El; [done|]. bool_to_prop. lia.
  - destruct (is_server_signed nsec (vt_ucan t)) eqn:Es; [|discriminate]. right. split; [done|]. split; [done|].
    unfold load_preloaded_user_handler in Hh. case_bool_decide as Hun; simpl in Hh; [|discriminate].
    inv_ok. done.
Qed.

(** ** The cache over time

    Requests at times that do not go back, entries invalidated or evicted, and
    a database that others change at will. *)
Inductive rpc_step (nsec : option string) : Z * rpc_state -> Z * rpc_state -> Prop :=
| rpc_request t s now tenant_id header method params :
    t <= now -> - 2 ^ 63 <= tenant_id < 2 ^ 63 ->
    rpc_step nsec (t, s) (now, fst (nostr_rpc now nsec tenant_id header method params s))
| rpc_invalidate t s (cache : gmap CacheKey HttpRpcHandler) :
    (forall k h, cache !! k = Some h -> rs_cache s !! k = Some h) ->
    rpc_step nsec (t, s) (t, with_cache (fun _ => cache) s)
| rpc_database t s d : rpc_step nsec (t, s) (t, {| rs_db := d; rs_cache := rs_cache s |}).

(** Every entry was put there for a token that authenticated on a tenant. *)
Definition cache_sound (nsec : option string) (ts : Z * rpc_state) : Prop :=
  forall k h, rs_cache (snd ts) !! k = Some h ->
    exists header tenant_id now d, compute_token_cache_key header tenant_id = Some k /\
      - 2 ^ 63 <= tenant_id < 2 ^ 63 /\ now <= fst ts /\ authenticate now nsec d header tenant_id = Ok h.

Lemma rpc_dispatch_cache now h method params s :
  rs_cache (fst (rpc_dispatch now h method params s)) = rs_cache s.
Proof.
  assert (Hlog : forall s0, rs_cache (log_activity now h s0) = rs_cache s0).
  { intros s0. unfold log_activity. by destruct (negb _). }
  assert (Hpeer : forall parse op, rs_cache (fst (peer_method now h parse op params s)) = rs_cache s).
  { intros parse op. unfold peer_method, se_bind, se_lift, se_modify. destruct (parse params) as [[p x]|]; [|done].
    destruct (map_err _ _); [apply Hlog | done]. }
  unfold rpc_dispatch. repeat case_if; try apply Hpeer; try done.
  unfold se_bind, se_lift, se_modify. destruct (parse_unsigned_event params); [|done].
  destruct (map_err _ _); [|done]. apply Hlog.
Qed.

Lemma get_handler_cache now nsec header tenant_id s k h :
  rs_cache (fst (get_handler now nsec header tenant_id s)) !! k = Some h ->
  rs_cache s !! k = Some h \/
  (compute_token_cache_key header tenant_id = Some k /\ authenticate now nsec (rs_db s) header tenant_id = Ok h).
Proof.
  unfold get_handler. destruct (compute_token_cache_key header tenant_id) as [key|]; [|by left].
  destruct (rs_cache s !! key) as [h'|] eqn:Ec.
  - destruct (negb _); [|by left]. simpl. intros [_ Hl]%lookup_delete_Some. by left.
  - destruct (authenticate _ _ _ _ _) as [h'|] eqn:Ea; [|by left]. simpl.
    intros [[<- <-] | [_ Hl]]%lookup_insert_Some; [by right | by left].
Qed.

Lemma rpc_step_sound nsec ts ts' : rpc_step nsec ts ts' -> cache_sound nsec ts -> cache_sound nsec ts'.
Proof.
  intros Hstep Hs. destruct Hstep as [t s now tenant_id header method params Hle Ht | t s cache Hsub | t s d];
    intros k h Hl; simpl in *.
  - assert (Hold : forall k h, rs_cache s !! k = Some h -> exists header tenant_id now0 d,
      compute_token_cache_key header tenant_id = Some k /\ - 2 ^ 63 <= tenant_id < 2 ^ 63 /\ now0 <= now /\
      authenticate now0 nsec d header tenant_id = Ok h).
    { intros k0 h0 Hl0. destruct (Hs k0 h0 Hl0) as (hd & tn & n0 & d0 & ? & ? & ? & ?). simpl in *.
      exists hd, tn, n0, d0. repeat (split; [done|]). split; [lia | done]. }
    unfold nostr_rpc, se_bind, se_lift in Hl. destruct (ok_or header _) as [hd|]; [|by apply Hold].
    pose proof (get_handler_cache now nsec hd tenant_id s k h) as Hg.
    destruct (get_handler now nsec hd tenant_id s) as [s1 [h1|e]]; simpl in *.
    + rewrite rpc_dispatch_cache in Hl. destruct (Hg Hl) as [Hl0 | [Hk Ha]]; [by apply Hold|].
      exists hd, tenant_id, now, (rs_db s). split; [done|]. split; [done|]. split; [lia | done].
    + destruct (Hg Hl) as [Hl0 | [Hk Ha]]; [by apply Hold|].
      exists hd, tenant_id, now, (rs_db s). split; [done|]. split; [done|]. split; [lia | done].
  - apply (Hs k h), Hsub, Hl.
  - by apply (Hs k h).
Qed.

(** [C4] A cache hit is never somebody else's: in every state reached from an
    empty cache, the handler a request is served with was authenticated, now or
    at an earlier time, for exactly the token and tenant of that request. *)
Theorem cache_hit_was_authenticated nsec d0 t t' s now header tenant_id s' h :
  (forall x y, blake3 x = blake3 y -> x = y) ->
  steps (rpc_step nsec) (t, {| rs_db := d0; rs_cache := ∅ |}) (t', s) ->
  t' <= now -> - 2 ^ 63 <= tenant_id < 2 ^ 63 ->
  get_handler now nsec header tenant_id s = (s', Ok h) ->
  is_valid now h = true /\
  exists now0 d, now0 <= now /\ authenticate now0 nsec d header tenant_id = Ok h.
Proof.
  intros Hinj Hsteps Hle Ht Hg.
  assert (Hs : cache_sound nsec (t', s)).
  { refine (steps_invariant _ _ (rpc_step_sound nsec) _ _ Hsteps _).
    intros k h0 Hl. simpl in Hl. by rewrite lookup_empty in Hl. }
  unfold get_handler in Hg. destruct (compute_token_cache_key header tenant_id) as [key|] eqn:Ek; [|done].
  destruct (rs_cache s !! key) as [h'|] eqn:Ec.
  - destruct (is_valid now h') eqn:Ev; simpl in Hg; simplify_eq. split; [done|].
    destruct (Hs key h Ec) as (hd & tn & n0 & d & Hk & Htn & Hn & Ha).
    destruct (token_cache_keys header hd tenant_id tn key Hinj Ht Htn Ek Hk) as [-> ->].
    exists n0, d. simpl in Hn. split; [lia | done].
  - destruct (authenticate now nsec (rs_db s) header tenant_id) as [h'|] eqn:Ea; simplify_eq.
    split; [|exists now, (rs_db s); split; [lia | done]].
    unfold authenticate in Ea. apply rbind_ok in Ea as (t0 & _ & Ea). apply rbind_ok in Ea as (h' & _ & Ea).
    destruct (is_valid now h') eqn:Ev; simpl in Ea; [by injection Ea as <- | discriminate].
Qed.

(** ** Revocation *)
Lemma validate_bunker now nsec header tenant_id t token u :
  validate_ucan_token now nsec header tenant_id = Ok t ->
  header = "Bearer " +:+ token -> ucan_parse token = Ok u ->
  vt_bunker_pubkey t = fact as_str "bunker_pubkey" (ucan_facts u).
Proof.
  unfold validate_ucan_token. intros H -> Hu.
  rewrite (proj2 (strip_prefix_Some _ _ _) eq_refl) in H; simpl in H. rewrite Hu in H; simpl in H.
  apply rbind_ok in H as (x & _ & H). destruct (ucan_is_expired now u); [discriminate|]. inv_ok. done.
Qed.

(** Revoking takes effect at once on this instance: after an authorization
    is revoked in the database and the handlers of its bunker key are
    invalidated, no request with a token that names it is served, whatever was
    served before. *)
Theorem revoked_token_rejected nsec d0 t t' s d b a now header token u tenant_id :
  (forall x y, blake3 x = blake3 y -> x = y) ->
  steps (rpc_step nsec) (t, {| rs_db := d0; rs_cache := ∅ |}) (t', s) ->
  - 2 ^ 63 <= tenant_id < 2 ^ 63 ->
  header = "Bearer " +:+ token -> ucan_parse token = Ok u ->
  fact as_str "bunker_pubkey" (ucan_facts u) = Some b ->
  find_by_bunker_pubkey d b = Some a -> is_null (oa_revoked_at a) = false ->
  is_ok (snd (get_handler now nsec header tenant_id
                {| rs_db := d; rs_cache := invalidate_handlers_for_bunker b (rs_cache s) |})) = false.
Proof.
  intros Hinj Hsteps Ht Hh Hu Hb Ha Hrev.
  assert (Hs : cache_sound nsec (t', s)).
  { refine (steps_invariant _ _ (rpc_step_sound nsec) _ _ Hsteps _).
    intros k h0 Hl. simpl in Hl. by rewrite lookup_empty in Hl. }
  unfold get_handler. destruct (compute_token_cache_key header tenant_id) as [key|] eqn:Ek; [|done]. simpl.
  destruct (invalidate_handlers_for_bunker b (rs_cache s) !! key) as [h|] eqn:Ec.
  - exfalso. unfold invalidate_handlers_for_bunker in Ec.
    destruct (parse_cache_key b) as [bk|] eqn:Eb; [|by rewrite lookup_empty in Ec].
    apply map_lookup_filter_Some in Ec as [Ec Hne]. simpl in Hne.
    destruct (Hs key h Ec) as (hd & tn & n0 & d1 & Hk & Htn & _ & Hauth).
    destruct (token_cache_keys header hd tenant_id tn key Hinj Ht Htn Ek Hk) as [<- <-].
    unfold authenticate in Hauth. apply rbind_ok in Hauth as (vt & Hvt & Hauth). apply map_err_ok in Hvt.
    rewrite (validate_bunker _ _ _ _ _ _ _ Hvt Hh Hu), Hb in Hauth.
    apply rbind_ok in Hauth as (h' & Hl & Hauth). destruct (is_valid n0 h'); simpl in Hauth; simplify_eq.
    apply load_handler_on_demand_ok in Hl as (? & ? & _ & _ & _ & _ & _ & _ & _ & _ & _ & Hp).
    rewrite Eb in Hp. injection Hp as ->. by rewrite bool_decide_true in Hne.
  - destruct (authenticate now nsec d header tenant_id) as [h|] eqn:Eauth; [|done]. exfalso.
    unfold authenticate in Eauth. apply rbind_ok in Eauth as (vt & Hvt & Eauth). apply map_err_ok in Hvt.
    rewrite (validate_bunker _ _ _ _ _ _ _ Hvt Hh Hu), Hb in Eauth.
    apply rbind_ok in Eauth as (h' & Hl & Eauth).
    apply load_handler_on_demand_ok in Hl as (a' & ? & Ha' & _ & _ & _ & _ & Hr & _).
    rewrite Ha in Ha'. injection Ha' as <-. unfold is_valid in Eauth. rewrite Hr, Hrev in Eauth. done.
Qed.

(** A token without an authorization (a preloaded account's) keeps working
    after it has expired once a handler for it is cached: a cache hit does not
    look at the token, and such a handler has no expiry of its own. *)
Theorem preloaded_token_outlives_expiry nsec s header tenant_id key h now0 now1 :
  compute_token_cache_key header tenant_id = Some key -> rs_cache s !! key = None ->
  authenticate now0 nsec (rs_db s) header tenant_id = Ok h -> rh_is_oauth h = false ->
  snd (get_handler now1 nsec header tenant_id (fst (get_handler now0 nsec header tenant_id s))) = Ok h.
Proof.
  intros Hk Hnone Hauth Ho. unfold get_handler at 2. rewrite Hk, Hnone, Hauth; simpl.
  unfold get_handler. rewrite Hk; simpl. rewrite lookup_insert_eq.
  assert (Hv : is_valid now1 h = true); [|by rewrite Hv].
  unfold authenticate in Hauth. apply rbind_ok in Hauth as (vt & _ & Hauth).
  apply rbind_ok in Hauth as (h' & Hl & Hauth). destruct (negb _); simplify_eq.
  destruct (vt_bunker_pubkey vt) as [b|].
  - apply load_handler_on_demand_ok in Hl as (? & ? & _ & _ & _ & _ & _ & _ & _ & Hx & _). congruence.
  - destruct (is_server_signed _ _); [|discriminate]. unfold load_preloaded_user_handler in Hl.
    destruct (negb _); [discriminate|]. inv_ok. done.
Qed.

(** ** HTTP and NIP-46 *)
Lemma validate_with_ok allows h :
  is_ok (validate_with allows h) = forallb allows (rh_permissions h).
Proof. unfold validate_with. destruct (rh_permissions h) as [|p ps]; [done|]. by destruct (forallb _ _). Qed.

Lemma check_all_is_ok allows ps : is_ok (check_all allows ps) = forallb allows ps.
Proof. induction ps as [|p ps IH]; simpl; [done|]. by destruct (allows p). Qed.

Lemma converted_all l (bs : list BoxedPermission) :
  Forall2 (fun p b => to_custom_permission p = Ok b) l bs ->
  omap (fun p => ok (to_custom_permission p)) l = bs.
Proof. induction 1 as [|p b l bs Hp _ IH]; [done|]. cbn. rewrite Hp; cbn. f_equal. exact IH. Qed.

(** The row a handler is loaded from over NIP-46 is the one HTTP loads. *)
Lemma nip46_permissions d b a h ps :
  NoDup (map oa_id (oauth_rows d)) -> find_by_bunker_pubkey d b = Some a ->
  h_is_oauth h = true -> h_authorization_id h = oa_id a -> load_permissions d h = Ok ps ->
  exists perms, oauth_permissions d a = Ok perms /\
    Forall2 (fun p b => to_custom_permission p = Ok b) perms ps.
Proof.
  intros Hnd Ha Ho Hid. unfold load_permissions. rewrite Ho. intros H.
  apply rbind_ok in H as (perms & Hperms & Hconv). apply map_err_ok, rbind_ok in Hperms as (a' & Ha' & Hp).
  unfold oauth_find in Ha'. apply map_err_ok, rbind_ok in Ha' as (r & Hr & Hdec).
  unfold fetch_one in Hr. apply ok_or_ok, find_first_Some in Hr as [Hr Hq].
  unfold decode_oauth in Hdec. inv_ok. bool_to_prop. apply find_first_Some in Ha as [Ha _].
  assert (a' = a) as -> by (eapply unique_row; [exact Hnd | done | done | congruence]).
  exists perms. split; [done|]. apply collect_ok in Hconv. eapply Forall2_impl; [exact Hconv|].
  intros p bx Hx. by apply map_err_ok in Hx.
Qed.

Lemma same_policy d b a h ps :
  NoDup (map oa_id (oauth_rows d)) -> find_by_bunker_pubkey d b = Some a ->
  h_is_oauth h = true -> h_authorization_id h = oa_id a ->
  load_permissions d h = Ok ps -> load_policy_permissions d (oa_policy_id a) = Ok ps.
Proof.
  intros Hnd Ha Ho Hid Hps. destruct (nip46_permissions d b a h ps Hnd Ha Ho Hid Hps) as (perms & Hp & Hconv).
  apply converted_all in Hconv. unfold load_policy_permissions, oauth_permissions in *.
  destruct (oa_policy_id a) as [pid|]; [|by injection Hp as <-; rewrite <- Hconv].
  apply map_err_ok in Hp. unfold get_permissions. rewrite Hp; simpl. by rewrite Hconv.
Qed.

(** [C17] Both transports enforce the same policy: for the same OAuth
    authorization and user key, when all its permissions load, an event,
    encryption or decryption is allowed over HTTP exactly when it is allowed over
    NIP-46. *)
Theorem transports_agree d b user tenant_id hh h ps :
  NoDup (map oa_id (oauth_rows d)) ->
  load_handler_on_demand d b user tenant_id = Ok hh ->
  h_is_oauth h = true -> h_authorization_id h = rh_authorization_id hh -> h_user_keys h = rh_signing hh ->
  load_permissions d h = Ok ps ->
  (forall e, is_ok (validate_sign_permission hh e) = is_ok (validate_permissions_for_sign d h e)) /\
  (forall text peer, is_ok (validate_encrypt_permission hh text peer)
                     = is_ok (validate_permissions_for_encrypt d h text peer)) /\
  (forall text peer, is_ok (validate_decrypt_permission hh text peer)
                     = is_ok (validate_permissions_for_decrypt d h text peer)).
Proof.
  intros Hnd Hload Ho Hid Hkeys Hps.
  apply load_handler_on_demand_ok in Hload as (a & ps' & Ha & _ & Hpol & Hida & _ & _ & Hperms & _ & Hpk & _).
  rewrite Hida in Hid. rewrite (same_policy d b a h ps Hnd Ha Ho Hid Hps) in Hpol. injection Hpol as <-.
  unfold validate_sign_permission, validate_encrypt_permission, validate_decrypt_permission,
    validate_permissions_for_sign, validate_permissions_for_encrypt, validate_permissions_for_decrypt.
  rewrite Hps; simpl. setoid_rewrite validate_with_ok. setoid_rewrite check_all_is_ok.
  rewrite Hperms, Hpk, Hkeys. done.
Qed.

(** A policy none of whose permissions loads (an unknown identifier, a
    config that does not parse) restricts nothing over HTTP, while NIP-46 refuses
    every request under it. *)
Theorem http_fails_open d b user tenant_id hh a pid perms :
  NoDup (map oa_id (oauth_rows d)) ->
  load_handler_on_demand d b user tenant_id = Ok hh ->
  find_by_bunker_pubkey d b = Some a -> oa_policy_id a = Some pid ->
  get_permissions d pid = Ok perms -> perms <> [] ->
  (forall p, p ∈ perms -> is_ok (to_custom_permission p) = false) ->
  (forall e, validate_sign_permission hh e = Ok tt) /\
  (forall text peer, validate_encrypt_permission hh text peer = Ok tt) /\
  (forall h, h_is_oauth h = true -> h_authorization_id h = oa_id a -> is_ok (load_permissions d h) = false).
Proof.
  intros Hnd Hload Ha Hpid Hperms Hne Hbad.
  apply load_handler_on_demand_ok in Hload as (a' & ps & Ha' & _ & Hpol & _ & _ & _ & Hh & _).
  rewrite Ha in Ha'. injection Ha' as <-.
  assert (Hnil : omap (fun p => ok (to_custom_permission p)) perms = []).
  { clear - Hbad. induction perms as [|p l IH]; [done|]. simpl.
    pose proof (Hbad p ltac:(constructor)) as Hp. destruct (to_custom_permission p); [done|]. simpl.
    apply IH. intros q Hq. apply Hbad. by constructor. }
  unfold load_policy_permissions in Hpol. rewrite Hpid, Hperms in Hpol; simpl in Hpol. rewrite Hnil in Hpol.
  injection Hpol as <-. unfold validate_sign_permission, validate_encrypt_permission, validate_with. rewrite Hh.
  split; [done|]. split; [done|]. intros h Ho Hid.
  destruct (load_permissions d h) as [ps|] eqn:El; [|done]. exfalso.
  destruct (nip46_permissions d b a h ps Hnd Ha Ho Hid El) as (perms' & Hp & Hconv).
  unfold oauth_permissions in Hp. rewrite Hpid in Hp. apply map_err_ok in Hp.
  unfold get_permissions in Hperms. rewrite Hp in Hperms. simpl in Hperms. injection Hperms as ->.
  destruct Hconv as [|p bx l bs Hx _]; [done|]. specialize (Hbad p ltac:(constructor)). by rewrite Hx in Hbad.
Qed.

End rpc_safety.

(** ** Witnesses *)
Definition rpc_users : list user_row := [us_set_profile (Some "v") None (new_user 0 "Pu" 1)].

(** A 32-byte bunker key and an authorization under it. *)
Definition rpc_bunker : string := "0123456789abcdef0123456789abcdef".
Definition rpc_auth (policy revoked : option Z) : OAuthAuthorization := {|
  oa_id := 1; oa_user_pubkey := "Pu"; oa_redirect_origin := "https://app.example";
  oa_client_id := Some "app"; oa_bunker_public_key := rpc_bunker; oa_secret_hash := "Hs";
  oa_relays := "[]"; oa_policy_id := policy; oa_tenant_id := 1; oa_client_pubkey := None;
  oa_connected_client_pubkey := None; oa_connected_at := None; oa_created_at := 0;
  oa_updated_at := 0; oa_revoked_at := revoked; oa_expires_at := None;
  oa_handle_expires_at := 1000; oa_authorization_handle := None;
  oa_last_activity := None; oa_activity_count := 0 |}.

(** Policy 1 allows kinds 1 and 7; policy 2 has a permission that does not load. *)
Definition rpc_db (policy revoked : option Z) : Db :=
  let row i ident cfg := {| pr_id := i; pr_identifier := ident; pr_config := cfg; pr_created_at := 0;
                            pr_updated_at := 0 |} in
  let lk i pol perm := {| pp_id := i; pp_policy_id := pol; pp_permission_id := perm |} in
  set_permissions {| rows := [row 1 "allowed_kinds" "K"; row 2 "unknown" "K"]; next_id := 3 |}
    (set_policy_permissions {| rows := [lk 1 1 1; lk 2 2 2]; next_id := 3 |}
       (set_users rpc_users (sample_db [rpc_auth policy revoked] []))).

Definition rpc_handler46 : Nip46Handler := mk_handler ("b", "u") "Hs" 1 1 true (Active, None).

Lemma token_cache_key_injective_witness :
  compute_token_cache_key "Bearer a" 1 = Some (le_bytes 1 ++ bytes_of "a") /\ "Bearer a" = "Bearer a".
Proof.
  split; [reflexivity|].
  apply (token_cache_key_injective "Bearer a" "Bearer a" 1 1 (le_bytes 1 ++ bytes_of "a")).
  - intros x y E. exact E.
  - lia.
  - lia.
  - reflexivity.
  - reflexivity.
Defined.

Lemma authenticate_sound_witness :
  exists h t, authenticate 10 (Some "server") (rpc_db None None) ("Bearer bunker " +:+ rpc_bunker) 1 = Ok h /\
    validate_ucan_token 10 (Some "server") ("Bearer bunker " +:+ rpc_bunker) 1 = Ok t.
Proof.
  destruct (is_ok_Ok (authenticate 10 (Some "server") (rpc_db None None) ("Bearer bunker " +:+ rpc_bunker) 1))
    as (h & E); [vm_compute; reflexivity|].
  destruct (authenticate_sound 10 (Some "server") (rpc_db None None) ("Bearer bunker " +:+ rpc_bunker) 1 h E)
    as (t & Ht & _).
  exists h, t. split; [exact E | exact Ht].
Defined.

Lemma cache_hit_was_authenticated_witness :
  exists s' h, get_handler 10 (Some "server") ("Bearer bunker " +:+ rpc_bunker) 1
                   {| rs_db := rpc_db None None; rs_cache := ∅ |} = (s', Ok h) /\ is_valid 10 h = true.
Proof.
  destruct (run_ok (get_handler 10 (Some "server") ("Bearer bunker " +:+ rpc_bunker) 1
              {| rs_db := rpc_db None None; rs_cache := ∅ |})) as (s' & h & E); [vm_compute; reflexivity|].
  exists s', h. split; [exact E|].
  apply (cache_hit_was_authenticated (Some "server") (rpc_db None None) 5 5
           {| rs_db := rpc_db None None; rs_cache := ∅ |} 10 ("Bearer bunker " +:+ rpc_bunker) 1 s' h).
  - intros x y Hxy. exact Hxy.
  - apply steps_refl.
  - lia.
  - lia.
  - exact E.
Defined.

Lemma revoked_token_rejected_witness :
  is_ok (snd (get_handler 10 (Some "server") ("Bearer " +:+ ("bunker " +:+ rpc_bunker)) 1
    {| rs_db := rpc_db None (Some 5); rs_cache := invalidate_handlers_for_bunker rpc_bunker ∅ |})) = false.
Proof.
  apply (revoked_token_rejected (Some "server") (rpc_db None None) 1 1
    {| rs_db := rpc_db None None; rs_cache := ∅ |} (rpc_db None (Some 5)) rpc_bunker (rpc_auth None (Some 5)) 10
    _ ("bunker " +:+ rpc_bunker) ("bunker " +:+ rpc_bunker : @Ucan toy_ucan) 1).
  - intros x y Hxy. exact Hxy.
  - apply steps_refl.
  - lia.
  - reflexivity.
  - reflexivity.
  - vm_compute. reflexivity.
  - vm_compute. reflexivity.
  - reflexivity.
Defined.

(** Her token names no authorization, and at 2000 it has expired. *)
Lemma preloaded_token_outlives_expiry_witness :
  exists h, ucan_is_expired 2000 "x" = true /\
    snd (get_handler 2000 (Some "server") "Bearer x" 1
           (fst (get_handler 10 (Some "server") "Bearer x" 1 {| rs_db := rpc_db None None; rs_cache := ∅ |}))) = Ok h.
Proof.
  destruct (is_ok_Ok (authenticate 10 (Some "server") (rpc_db None None) "Bearer x" 1)) as (h & E);
    [vm_compute; reflexivity|].
  exists h. split; [reflexivity|].
  apply (preloaded_token_outlives_expiry (Some "server") {| rs_db := rpc_db None None; rs_cache := ∅ |}
           "Bearer x" 1 (le_bytes 1 ++ bytes_of "x") h 10 2000).
  - reflexivity.
  - reflexivity.
  - exact E.
  - vm_compute in E. injection E as <-. reflexivity.
Defined.

Lemma transports_agree_witness :
  exists hh ps, load_handler_on_demand (rpc_db (Some 1) None) rpc_bunker "Pu" 1 = Ok hh /\
    load_permissions (rpc_db (Some 1) None) rpc_handler46 = Ok ps /\
    forall e, is_ok (validate_sign_permission hh e)
              = is_ok (validate_permissions_for_sign (rpc_db (Some 1) None) rpc_handler46 e).
Proof.
  eexists _, _. split; [reflexivity|]. split; [reflexivity|].
  eapply (transports_agree (rpc_db (Some 1) None) rpc_bunker "Pu" 1 _ rpc_handler46).
  - apply NoDup_singleton.
  - reflexivity.
  - reflexivity.
  - reflexivity.
  - reflexivity.
  - reflexivity.
Defined.

Lemma http_fails_open_witness :
  exists hh, load_handler_on_demand (rpc_db (Some 2) None) rpc_bunker "Pu" 1 = Ok hh /\
    forall e, validate_sign_permission hh e = Ok tt.
Proof.
  eexists. split; [reflexivity|].
  eapply (http_fails_open (rpc_db (Some 2) None) rpc_bunker "Pu" 1).
  - apply NoDup_singleton.
  - reflexivity.
  - reflexivity.
  - reflexivity.
  - reflexivity.
  - discriminate.
  - intros p Hp. apply list_elem_of_singleton in Hp as ->. reflexivity.
Defined.
