(* ===== verification/HashRing.v ===== *)
(** * The hash ring and the cluster

    cluster-hashring/src/ring.rs, registry.rs and coordinator.rs: which instance
    answers for a key, the instances registered in Redis, and how a coordinator
    follows membership through Pub/Sub messages, periodic syncs and refreshes.
    The anchorhash crate is a parameter: a table built from a list of resources
    and its lookup.  Redis's sorted set is a map from instance to score; whether
    a Redis command succeeds is an argument of the step that issues it. *)
From S2P Require Import Prelude RustStr External.

Class AnchorHash := {
  Anchor : Type;
  (** [Builder::with_resources(..).build(capacity)] *)
  anchor_build : list string -> Z -> Anchor;
  anchor_get_resource : Anchor -> Z -> option string;
}.

(** A lookup in a table that holds its resources gives one of them. *)
Class AnchorHashLaws `{AnchorHash} : Prop := {
  anchor_get_member resources capacity key :
    resources <> [] -> Z.of_nat (length resources) <= capacity ->
    exists r, r ∈ resources /\ anchor_get_resource (anchor_build resources capacity) key = Some r;
}.

(** The order in which a [HashSet] iterates over its elements: any order, which
    may differ between two sets with the same elements, here with anything that
    the ring holds. *)
Class HashSetIter `{AnchorHash} := {
  iter_instances : option Anchor -> string -> gset string -> list string;
  iter_elements anchor id s : iter_instances anchor id s ≡ₚ elements s;
}.

(** ** ring.rs *)
Definition FNV_OFFSET : Z := 0xcbf29ce484222325.
Definition FNV_PRIME : Z := 0x100000001b3.

(** One round: xor the byte, multiply modulo 2^64. *)
Definition fnv_round (hash byte : Z) : Z := (Z.lxor hash byte * FNV_PRIME) mod 2 ^ 64.
Definition hash_key (key : string) : Z := foldl fnv_round FNV_OFFSET (bytes_of key).

Section ring.
Context `{HA : AnchorHash, HI : !HashSetIter}.

Record HashRing : Type := {
  ring_anchor : option Anchor;
  my_instance_id : string;
  current_instances : gset string;
}.

Definition ring_new (my_id : string) : HashRing :=
  {| ring_anchor := None; my_instance_id := my_id; current_instances := ∅ |}.

Definition u16_MAX : Z := 65535.

(** The members, sorted for an order that every instance computes. *)
Definition sorted_instances (r : HashRing) : list string :=
  merge_sort String.le (iter_instances (ring_anchor r) (my_instance_id r) (current_instances r)).

Definition rebuild_anchor (r : HashRing) : HashRing :=
  let instance_ids := sorted_instances r in
  {| ring_anchor :=
       if decide (current_instances r = ∅) then None
       else Some (anchor_build instance_ids
                    (Z.min (Z.max (Z.of_nat (length instance_ids)) 16) u16_MAX));
     my_instance_id := my_instance_id r; current_instances := current_instances r |}.

Definition with_instances (s : gset string) (r : HashRing) : HashRing :=
  {| ring_anchor := ring_anchor r; my_instance_id := my_instance_id r; current_instances := s |}.

Definition rebuild (instance_ids : list string) (r : HashRing) : HashRing :=
  let new_instances := list_to_set instance_ids in
  if decide (new_instances = current_instances r) then r
  else rebuild_anchor (with_instances new_instances r).

Definition add_instance (instance_id : string) (r : HashRing) : HashRing :=
  if decide (instance_id ∈ current_instances r) then r
  else rebuild_anchor (with_instances ({[instance_id]} ∪ current_instances r) r).

Definition remove_instance (instance_id : string) (r : HashRing) : HashRing :=
  if decide (instance_id ∈ current_instances r)
  then rebuild_anchor (with_instances (current_instances r ∖ {[instance_id]}) r)
  else r.

Definition instance_count (r : HashRing) : nat := size (current_instances r).

Definition ring_should_handle (r : HashRing) (key : string) : bool :=
  if decide (current_instances r = ∅) then true
  else match ring_anchor r with
       | Some anchor =>
           match anchor_get_resource anchor (hash_key key) with
           | Some owner => bool_decide (owner = my_instance_id r)
           | None => true
           end
       | None => true
       end.

(** ** registry.rs

    The sorted set [signer_instances]: instance id to heartbeat time in
    milliseconds. *)
Definition registry : Type := gmap string Z.
Definition STALE_THRESHOLD_SECS : Z := 30.

Definition registry_register (now : Z) (id : string) (redis : gmap string Z) : gmap string Z := <[id := now]> redis.
Definition registry_deregister (id : string) (redis : gmap string Z) : gmap string Z := delete id redis.
Definition registry_heartbeat (now : Z) (id : string) (redis : gmap string Z) : gmap string Z := <[id := now]> redis.

Definition cutoff (now : Z) : Z := now - STALE_THRESHOLD_SECS * 1000.

(** ZRANGEBYSCORE cutoff +inf *)
Definition get_active_instances (now : Z) (redis : gmap string Z) : list string :=
  map fst (map_to_list (filter (fun kv => cutoff now <= snd kv) redis)).

(** ZREMRANGEBYSCORE -inf cutoff *)
Definition cleanup_stale (now : Z) (redis : gmap string Z) : gmap string Z :=
  filter (fun kv => cutoff now < snd kv) redis.

(** ** coordinator.rs *)
Inductive MembershipEvent : Type :=
| Joined (id : string)
| Left (id : string).

(** A coordinator: its ring, the heartbeat task's previous members and failure
    count, and the events sent to subscribers, each with the ring's members at
    the time of sending. *)
Record coordinator : Type := {
  co_ring : HashRing;
  co_previous : gset string;
  co_failures : Z;
  co_events : list (MembershipEvent * gset string);
}.

Definition set_ring (r : HashRing) (c : coordinator) : coordinator :=
  {| co_ring := r; co_previous := co_previous c; co_failures := co_failures c; co_events := co_events c |}.
Definition set_previous (p : gset string) (c : coordinator) : coordinator :=
  {| co_ring := co_ring c; co_previous := p; co_failures := co_failures c; co_events := co_events c |}.
Definition set_failures (n : Z) (c : coordinator) : coordinator :=
  {| co_ring := co_ring c; co_previous := co_previous c; co_failures := n; co_events := co_events c |}.
Definition send_membership (e : MembershipEvent) (c : coordinator) : coordinator :=
  {| co_ring := co_ring c; co_previous := co_previous c; co_failures := co_failures c;
     co_events := co_events c ++ [(e, current_instances (co_ring c))] |}.

(** start_with_config: register, build the ring from the active instances. *)
Definition coordinator_start (now : Z) (instance_id : string) (redis : gmap string Z)
  : gmap string Z * coordinator :=
  let redis' := registry_register now instance_id redis in
  let ring := rebuild (get_active_instances now redis') (ring_new instance_id) in
  (redis', {| co_ring := ring; co_previous := current_instances ring; co_failures := 0; co_events := [] |}).

(** The heartbeat branch: [ok] is whether ZADD succeeded, [roll] the random
    number.  The second result is the backoff in milliseconds. *)
Definition backoff_ms (consecutive_failures : Z) : Z := 100 * 2 ^ Z.min consecutive_failures 6.
Definition CLEANUP_PROBABILITY_PERCENT : Z := 10.

Definition heartbeat_tick (now : Z) (ok : bool) (roll : Z) (c : coordinator) (redis : gmap string Z)
  : gmap string Z * coordinator * option Z :=
  if negb ok then
    let failures := co_failures c + 1 in
    (redis, set_failures failures c, Some (backoff_ms failures))
  else
    let redis' := registry_heartbeat now (my_instance_id (co_ring c)) redis in
    let redis'' := if roll mod 100 <? CLEANUP_PROBABILITY_PERCENT then cleanup_stale now redis' else redis' in
    (redis'', set_failures 0 c, None).

(** The sync branch, with Redis's answer: events for what changed since the last
    sync; then, if anything did, the ring is loaded and a rebuilt copy stored. *)
Definition sync_events (instances : list string) (c : coordinator) : coordinator :=
  let current_members := list_to_set instances in
  let c1 := foldl (fun c id => send_membership (Joined id) c) c (elements (current_members ∖ co_previous c)) in
  foldl (fun c id => send_membership (Left id) c) c1 (elements (co_previous c ∖ current_members)).
Definition sync_store (instances : list string) (loaded : HashRing) (c : coordinator) : coordinator :=
  set_previous (list_to_set instances) (set_ring (rebuild instances loaded) c).
Definition sync_tick (instances : list string) (c : coordinator) : coordinator :=
  let c2 := sync_events instances c in
  if decide (list_to_set instances = co_previous c) then c2 else sync_store instances (co_ring c2) c2.

(** One Pub/Sub message; a coordinator ignores its own.  The ring is loaded and
    a changed copy stored. *)
Definition pubsub_store (event instance_id : string) (loaded : HashRing) (c : coordinator) : coordinator :=
  match event with
  | "join" => send_membership (Joined instance_id) (set_ring (add_instance instance_id loaded) c)
  | "leave" => send_membership (Left instance_id) (set_ring (remove_instance instance_id loaded) c)
  | _ => c
  end.
Definition pubsub_message (event instance_id : string) (c : coordinator) : coordinator :=
  if bool_decide (instance_id = my_instance_id (co_ring c)) then c
  else pubsub_store event instance_id (co_ring c) c.

Definition refresh (now : Z) (c : coordinator) (redis : gmap string Z) : gmap string Z * coordinator :=
  let redis' := cleanup_stale now redis in
  (redis', set_ring (rebuild (get_active_instances now redis') (co_ring c)) c).

(** Leaving publishes a "leave" message and removes the registration. *)
Definition force_deregister (c : coordinator) (redis : gmap string Z) : gmap string Z * (string * string) :=
  (registry_deregister (my_instance_id (co_ring c)) redis, ("leave", my_instance_id (co_ring c))).

Definition drain_ms (c : coordinator) : nat := Nat.min (100 * Nat.max (instance_count (co_ring c)) 1) 2000.

(** ** Lemmas *)

(** The table is the one its members determine. *)
Definition ring_wf (r : HashRing) : Prop := r = rebuild_anchor r.

(** Sorting forgets the order of iteration. *)
Lemma sorted_canonical r : sorted_instances r = merge_sort String.le (elements (current_instances r)).
Proof.
  apply (Sorted_unique String.le); try apply Sorted_merge_sort; try apply _.
  unfold sorted_instances. rewrite !merge_sort_Permutation. apply iter_elements.
Qed.

Lemma rebuild_anchor_wf r : ring_wf (rebuild_anchor r).
Proof. unfold ring_wf, rebuild_anchor. cbn zeta. by rewrite !sorted_canonical. Qed.
#[local] Hint Resolve rebuild_anchor_wf : core.

Lemma ring_new_wf id : ring_wf (ring_new id).
Proof. unfold ring_wf, rebuild_anchor, ring_new; simpl. by rewrite decide_True by done. Qed.

(** A well-formed ring is determined by its owner and its members. *)
Lemma ring_wf_eq r1 r2 :
  ring_wf r1 -> ring_wf r2 -> my_instance_id r1 = my_instance_id r2 ->
  current_instances r1 = current_instances r2 -> r1 = r2.
Proof.
  intros H1 H2 Hid Hset. rewrite H1, H2. unfold rebuild_anchor. by rewrite !sorted_canonical, Hid, Hset.
Qed.

Lemma rebuild_spec l r :
  ring_wf r -> ring_wf (rebuild l r) /\ my_instance_id (rebuild l r) = my_instance_id r /\
               current_instances (rebuild l r) = list_to_set l.
Proof. intros Hwf. unfold rebuild. case_decide as E; [by rewrite E | done]. Qed.

Lemma add_instance_spec i r :
  ring_wf r -> ring_wf (add_instance i r) /\ my_instance_id (add_instance i r) = my_instance_id r /\
               current_instances (add_instance i r) = {[i]} ∪ current_instances r.
Proof.
  intros Hwf. unfold add_instance. case_decide as E; [|done].
  split; [done|]. split; [done|]. apply leibniz_equiv. set_solver.
Qed.

Lemma remove_instance_spec i r :
  ring_wf r -> ring_wf (remove_instance i r) /\ my_instance_id (remove_instance i r) = my_instance_id r /\
               current_instances (remove_instance i r) = current_instances r ∖ {[i]}.
Proof.
  intros Hwf. unfold remove_instance. case_decide as E; [done|].
  split; [done|]. split; [done|]. apply leibniz_equiv. set_solver.
Qed.

(** ** Properties *)

(** The members after a sequence of joins ([true]) and leaves. *)
Definition apply_change (r : HashRing) (ch : bool * string) : HashRing :=
  if ch.1 then add_instance ch.2 r else remove_instance ch.2 r.
Definition apply_members (s : gset string) (ch : bool * string) : gset string :=
  if ch.1 then {[ch.2]} ∪ s else s ∖ {[ch.2]}.

Lemma changes_spec changes r :
  ring_wf r -> ring_wf (foldl apply_change r changes) /\
    my_instance_id (foldl apply_change r changes) = my_instance_id r /\
    current_instances (foldl apply_change r changes) = foldl apply_members (current_instances r) changes.
Proof.
  revert r; induction changes as [|[join i] changes IH]; intros r Hwf; simpl; [done|].
  assert (Hstep : ring_wf (apply_change r (join, i)) /\ my_instance_id (apply_change r (join, i)) = my_instance_id r /\
    current_instances (apply_change r (join, i)) = apply_members (current_instances r) (join, i)).
  { destruct join; [by apply add_instance_spec | by apply remove_instance_spec]. }
  destruct Hstep as (Hwf' & Hid & Hset). destruct (IH _ Hwf') as (? & ? & ?).
  split; [done|]. split; [congruence|]. by rewrite <- Hset.
Qed.

(** [C38] Following membership one change at a time gives the same ring as
    building it from scratch: after any sequence of joins and leaves the ring
    equals the one [rebuild] makes of the remaining members, whatever order they
    are listed in. *)
Theorem incremental_equals_rebuild my_id changes members :
  list_to_set members = foldl apply_members ∅ changes ->
  foldl apply_change (ring_new my_id) changes = rebuild members (ring_new my_id).
Proof.
  intros Hm. destruct (changes_spec changes (ring_new my_id) (ring_new_wf my_id)) as (H1 & H2 & H3).
  destruct (rebuild_spec members (ring_new my_id) (ring_new_wf my_id)) as (H4 & H5 & H6).
  apply ring_wf_eq; [done | done | congruence | by rewrite H3, H6].
Qed.

Lemma unique_owner `{!AnchorHashLaws} (members : gset string) (ring_of : string -> HashRing) key :
  members <> ∅ -> Z.of_nat (size members) <= u16_MAX ->
  (forall i, i ∈ members -> ring_wf (ring_of i) /\ my_instance_id (ring_of i) = i /\
                            current_instances (ring_of i) = members) ->
  exists owner, owner ∈ members /\
    forall i, i ∈ members -> ring_should_handle (ring_of i) key = bool_decide (i = owner).
Proof.
  intros Hne Hsize Hrings. unfold u16_MAX in Hsize.
  set (ids := merge_sort String.le (elements members)).
  assert (Hperm : ids ≡ₚ elements members) by apply merge_sort_Permutation.
  assert (Hlen : length ids = size members).
  { unfold size, set_size. simpl. by rewrite (Permutation_length Hperm). }
  destruct (anchor_get_member ids
    (Z.min (Z.max (Z.of_nat (length ids)) 16) u16_MAX) (hash_key key)) as (owner & Ho & Hget).
  { intros E. apply Hne. apply leibniz_equiv. apply size_empty_inv. rewrite <- Hlen, E. done. }
  { rewrite Hlen. unfold u16_MAX. lia. }
  exists owner. split; [by rewrite Hperm, elem_of_elements in Ho|].
  intros i Hi. destruct (Hrings i Hi) as (Hwf & Hid & Hset).
  unfold ring_should_handle. rewrite Hset, decide_False by done. rewrite Hwf; simpl.
  rewrite sorted_canonical, Hset, decide_False by done. fold ids. rewrite Hget, Hid. apply bool_decide_ext. naive_solver.
Qed.

(** Exactly one owner: when the instances of a cluster (at most 65535) all
    see the same members, every key is handled by exactly one of them. *)
Theorem exactly_one_owner `{!AnchorHashLaws} (members : gset string) (ring_of : string -> HashRing) key :
  members <> ∅ -> Z.of_nat (size members) <= u16_MAX ->
  (forall i, i ∈ members -> ring_wf (ring_of i) /\ my_instance_id (ring_of i) = i /\
                            current_instances (ring_of i) = members) ->
  exists owner, owner ∈ members /\
    forall i, i ∈ members -> ring_should_handle (ring_of i) key = bool_decide (i = owner).
Proof. apply unique_owner. Qed.

(** The key hash stays in 64 bits and is FNV-1a: it agrees with the
    published values of the empty string, "a" and "foobar". *)
Theorem hash_key_fnv1a :
  (forall key, 0 <= hash_key key < 2 ^ 64) /\
  hash_key "" = 0xcbf29ce484222325 /\ hash_key "a" = 0xaf63dc4c8601ec8c /\
  hash_key "foobar" = 0x85944171f73967e8.
Proof.
  split; [|by vm_compute]. intros key. unfold hash_key.
  assert (Hgen : forall l h, 0 <= h < 2 ^ 64 -> 0 <= foldl fnv_round h l < 2 ^ 64).
  { induction l as [|b l IH]; intros h Hh; [done|]. apply IH. apply Z.mod_pos_bound. lia. }
  apply Hgen. unfold FNV_OFFSET. lia.
Qed.

(** ** Following membership *)
Lemma foldl_send_ring (f : string -> MembershipEvent) l c :
  co_ring (foldl (fun c id => send_membership (f id) c) c l) = co_ring c /\
  co_previous (foldl (fun c id => send_membership (f id) c) c l) = co_previous c.
Proof.
  revert c; induction l as [|i l IH]; intros c; [done|]. simpl.
  destruct (IH (send_membership (f i) c)) as [-> ->]. done.
Qed.

Lemma sync_events_ring instances c :
  co_ring (sync_events instances c) = co_ring c /\ co_previous (sync_events instances c) = co_previous c.
Proof.
  unfold sync_events. destruct (foldl_send_ring Left (elements (co_previous c ∖ list_to_set instances))
    (foldl (fun c id => send_membership (Joined id) c) c (elements (list_to_set instances ∖ co_previous c)))) as [-> ->].
  apply foldl_send_ring.
Qed.

Lemma sync_tick_spec instances c :
  ring_wf (co_ring c) ->
  ring_wf (co_ring (sync_tick instances c)) /\
  co_previous (sync_tick instances c) = list_to_set instances /\
  current_instances (co_ring (sync_tick instances c)) =
    if decide (list_to_set instances = co_previous c) then current_instances (co_ring c)
    else list_to_set instances.
Proof.
  intros Hwf. unfold sync_tick, sync_store, sync_events.
  set (l1 := elements (list_to_set instances ∖ co_previous c)).
  set (l2 := elements (co_previous c ∖ list_to_set instances)).
  destruct (foldl_send_ring Joined l1 c) as [R1 P1].
  destruct (foldl_send_ring Left l2 (foldl (fun c id => send_membership (Joined id) c) c l1)) as [R2 P2].
  case_decide as E; [by rewrite R2, P2, R1, P1|]. simpl. rewrite R2, R1.
  destruct (rebuild_spec instances (co_ring c) Hwf) as (? & ? & ?). done.
Qed.

(** A sync that sees a membership different from the last sync's makes the
    ring exactly the active instances, and so does every refresh; the ring's table
    is then the one those instances determine. *)
Theorem sync_and_refresh_converge now instances c redis :
  ring_wf (co_ring c) -> list_to_set instances <> co_previous c ->
  current_instances (co_ring (sync_tick instances c)) = list_to_set instances /\
  ring_wf (co_ring (sync_tick instances c)) /\
  current_instances (co_ring (snd (refresh now c redis))) =
    list_to_set (get_active_instances now (cleanup_stale now redis)) /\
  ring_wf (co_ring (snd (refresh now c redis))).
Proof.
  intros Hwf Hne. destruct (sync_tick_spec instances c Hwf) as (H1 & _ & H3).
  rewrite decide_False in H3 by done.
  destruct (rebuild_spec (get_active_instances now (cleanup_stale now redis)) (co_ring c) Hwf) as (H4 & _ & H6).
  done.
Qed.

Lemma get_active_elem now redis i :
  i ∈ get_active_instances now redis <-> exists t, redis !! i = Some t /\ cutoff now <= t.
Proof.
  unfold get_active_instances. rewrite list_elem_of_fmap. split.
  - intros ([k t] & -> & Hin). apply elem_of_map_to_list, map_lookup_filter_Some in Hin as [H1 H2]. eauto.
  - intros (t & Hl & Ht). exists (i, t). split; [done|].
    apply elem_of_map_to_list, map_lookup_filter_Some. done.
Qed.

(** Registration and liveness: an instance is active exactly when it
    registered or sent a heartbeat within the last 30 seconds and has not
    deregistered since; heartbeats and cleanups by others do not change that,
    and a cleanup removes only instances whose last heartbeat is at least 30
    seconds old. *)
Theorem registry_liveness now t id other redis :
  (id ∈ get_active_instances now (registry_register t id redis) <-> now - 30000 <= t) /\
  id ∉ get_active_instances now (registry_deregister id redis) /\
  (other <> id -> (id ∈ get_active_instances now (registry_heartbeat t other redis) <->
                   id ∈ get_active_instances now redis)) /\
  (forall ts, redis !! id = Some ts -> now - 30000 < ts -> cleanup_stale now redis !! id = Some ts).
Proof.
  unfold registry_register, registry_heartbeat, registry_deregister. rewrite !get_active_elem.
  change (cutoff now) with (now - 30000). repeat split.
  - intros (ts & Hl & Ht). rewrite lookup_insert_eq in Hl. by simplify_eq.
  - intros Ht. exists t. by rewrite lookup_insert_eq.
  - intros (ts & Hl & Ht). by rewrite lookup_delete_eq in Hl.
  - intros (ts & Hl & Ht). rewrite lookup_insert_ne in Hl by done. eauto.
  - intros (ts & Hl & Ht). exists ts. by rewrite lookup_insert_ne by done.
  - intros ts Hl Ht. unfold cleanup_stale. rewrite map_lookup_filter_Some. done.
Qed.

(** A member that joined through Pub/Sub and vanished before the next sync
    stays in the ring: the sync compares Redis with the previous sync, not with
    the ring, so its keys are handled by no live instance. *)
Theorem sync_keeps_vanished_member instances c ghost :
  ring_wf (co_ring c) -> list_to_set instances = co_previous c ->
  ghost <> my_instance_id (co_ring c) -> ghost ∉ instances ->
  let c' := sync_tick instances (pubsub_message "join" ghost c) in
  ghost ∈ current_instances (co_ring c').
Proof.
  intros Hwf Heq Hne Hno c'. subst c'. unfold pubsub_message, pubsub_store. rewrite bool_decide_false by done.
  destruct (add_instance_spec ghost (co_ring c) Hwf) as (Hwf' & _ & Hset).
  destruct (sync_tick_spec instances (send_membership (Joined ghost) (set_ring (add_instance ghost (co_ring c)) c)))
    as (_ & _ & H3); [done|]. rewrite H3. simpl. rewrite decide_True by done. rewrite Hset. set_solver.
Qed.

(** Subscribers of Pub/Sub changes see the updated ring, subscribers of
    changes found by a sync do not: a Joined event of a sync is sent while the
    ring still lacks the instance. *)
Theorem sync_events_precede_update instances c id :
  co_events c = [] -> current_instances (co_ring c) = co_previous c ->
  id ∈ instances -> id ∉ co_previous c ->
  exists members, (Joined id, members) ∈ co_events (sync_tick instances c) /\ id ∉ members.
Proof.
  intros Hev Hring Hin Hnew. exists (current_instances (co_ring c)). split; [|by rewrite Hring].
  assert (Hsends : forall (f : string -> MembershipEvent) l c0 e, e ∈ co_events c0 ->
    e ∈ co_events (foldl (fun c i => send_membership (f i) c) c0 l)).
  { intros f l. induction l as [|i l IH]; intros c0 e He; [done|]. simpl. apply IH. simpl.
    rewrite elem_of_app. by left. }
  assert (Hjoin : forall l c0, id ∈ l ->
    (Joined id, current_instances (co_ring c0)) ∈ co_events (foldl (fun c i => send_membership (Joined i) c) c0 l)).
  { induction l as [|i l IH]; intros c0 Hl; [by apply not_elem_of_nil in Hl|]. simpl.
    apply elem_of_cons in Hl as [<- | Hl]; [|by apply (IH (send_membership (Joined i) c0))].
    apply Hsends. simpl. rewrite elem_of_app, list_elem_of_singleton. by right. }
  unfold sync_tick, sync_store, sync_events. case_decide; simpl; apply Hsends, Hjoin; rewrite elem_of_elements; set_solver.
Qed.

End ring.

(** ** Witnesses

    A toy table that sends a key to the resource at its hash modulo their number. *)
#[export] Instance toy_anchor : AnchorHash := {
  Anchor := list string;
  anchor_build resources _ := resources;
  anchor_get_resource a key := a !! Z.to_nat (key mod Z.of_nat (length a));
}.
(** Every second instance iterates backwards. *)
#[export] Program Instance toy_iter : HashSetIter := {
  iter_instances _ id s := if Nat.even (String.length id) then elements s else reverse (elements s);
}.
Next Obligation. intros anchor id s. simpl. case_match; [done | apply reverse_Permutation]. Qed.

#[export] Instance toy_anchor_laws : AnchorHashLaws.
Proof.
  split. intros resources capacity key Hne _. simpl.
  assert (Hlt : (Z.to_nat (key mod Z.of_nat (length resources)) < length resources)%nat).
  { destruct resources as [|r l]; [done|].
    pose proof (Z.mod_pos_bound key (Z.of_nat (length (r :: l))) ltac:(simpl; lia)). lia. }
  destruct (lookup_lt_is_Some_2 _ _ Hlt) as [r Hr]. exists r. split; [by eapply list_elem_of_lookup_2 | done].
Qed.

Lemma incremental_equals_rebuild_witness :
  foldl apply_change (ring_new "a") [(true, "a"); (true, "b"); (false, "a")] = rebuild ["b"] (ring_new "a").
Proof.
  apply (incremental_equals_rebuild "a" [(true, "a"); (true, "b"); (false, "a")] ["b"]).
  vm_compute. reflexivity.
Defined.

Lemma exactly_one_owner_witness :
  exists owner, owner ∈ ({["a"; "b"]} : gset string) /\
    forall i, i ∈ ({["a"; "b"]} : gset string) ->
      ring_should_handle (rebuild ["a"; "b"] (ring_new i)) "key" = bool_decide (i = owner).
Proof.
  apply (exactly_one_owner {["a"; "b"]} (fun i => rebuild ["a"; "b"] (ring_new i)) "key").
  - vm_compute. discriminate.
  - vm_compute. discriminate.
  - intros i _. destruct (rebuild_spec ["a"; "b"] (ring_new i) (ring_new_wf i)) as (H1 & H2 & H3).
    split; [exact H1|]. split; [exact H2|]. rewrite H3. vm_compute. reflexivity.
Defined.

Definition toy_coordinator : coordinator := snd (coordinator_start 100000 "a" ∅).

Lemma toy_coordinator_wf : ring_wf (co_ring toy_coordinator).
Proof. apply rebuild_spec, ring_new_wf. Qed.

Lemma sync_and_refresh_converge_witness :
  current_instances (co_ring (sync_tick ["a"; "b"] toy_coordinator)) = list_to_set ["a"; "b"].
Proof.
  apply (sync_and_refresh_converge 100000 ["a"; "b"] toy_coordinator ∅).
  - apply toy_coordinator_wf.
  - vm_compute. discriminate.
Defined.

Lemma sync_keeps_vanished_member_witness :
  "b" ∈ current_instances (co_ring (sync_tick ["a"] (pubsub_message "join" "b" toy_coordinator))).
Proof.
  apply (sync_keeps_vanished_member ["a"] toy_coordinator "b").
  - apply toy_coordinator_wf.
  - vm_compute. reflexivity.
  - vm_compute. discriminate.
  - intros H%list_elem_of_singleton. discriminate H.
Defined.

Lemma sync_events_precede_update_witness :
  exists members, (Joined "b", members) ∈ co_events (sync_tick ["a"; "b"] toy_coordinator) /\ "b" ∉ members.
Proof.
  apply (sync_events_precede_update ["a"; "b"] toy_coordinator "b").
  - reflexivity.
  - reflexivity.
  - right. left.
  - vm_compute. intros H. discriminate H.
Defined.
