(* ===== verification/ClusterSigner.v ===== *)
(** * Signers in a cluster

    The ring of cluster-hashring as the signer's Cluster interface
    (signer/src/signer_daemon.rs asks [coordinator.should_handle]): every
    instance receives every relay event, one of them answers. *)
From S2P Require Import Prelude RustStr External Instances Database Samples Permissions Policies AuthTypes Signer HashRing.

(** ClusterCoordinator::should_handle reads the coordinator's current ring. *)
Definition coordinator_should_handle `{AnchorHash} (c : coordinator) (key : string) : bool :=
  ring_should_handle (co_ring c) key.

Definition coordinator_cluster `{AnchorHash} (c : coordinator) : Cluster :=
  {| should_handle := coordinator_should_handle c |}.

Section cluster_signer.
Context `{HN : Nostr, HC : !NostrCrypto, HS : !Serde, HX : !Secrets, HR : !Relay, HA : AnchorHash, HI : !HashSetIter, HL : !AnchorHashLaws}.

(** The instances of a cluster, each with a coordinator that sees all of them. *)
Definition agreeing (members : gset string) (coord : string -> coordinator) : Prop :=
  forall i, i ∈ members -> ring_wf (co_ring (coord i)) /\ my_instance_id (co_ring (coord i)) = i /\
                           current_instances (co_ring (coord i)) = members.

(** [C40] One answer per request: when the instances of a cluster agree on its
    members, exactly one of them, the owner of the bunker key, processes a relay
    event for it: it looks the key up in its cache and database and lets the
    handler it finds process the request, whatever its own state; every other
    instance drops the event without touching the database, its cache or the
    relay. *)
Theorem one_instance_answers (members : gset string) (coord : string -> coordinator) now event b :
  members <> ∅ -> Z.of_nat (size members) <= u16_MAX -> agreeing members coord ->
  bunker_of_event event = Some b ->
  exists owner, owner ∈ members /\
    (forall s, handle_nip46_request (H := coordinator_cluster (coord owner)) now event s =
       (let! handler := get_handler now b in
        match handler with Some h => process_request now h event | None => se_ret tt end) s) /\
    forall i s, i ∈ members -> i <> owner ->
      handle_nip46_request (H := coordinator_cluster (coord i)) now event s = (s, Ok tt).
Proof.
  intros Hne Hsize Hagree Hb.
  destruct (unique_owner members (fun i => co_ring (coord i)) b Hne Hsize Hagree) as (owner & Ho & Hall).
  exists owner. split; [done|]. split.
  - intros s. unfold handle_nip46_request, se_bind at 1, se_lift. rewrite Hb; simpl.
    unfold coordinator_should_handle. rewrite Hall, bool_decide_true by done. simpl.
    unfold se_bind. by destruct (get_handler now b s) as [s1 [[h|]|e]].
  - intros i s Hi Hneq. unfold handle_nip46_request, se_bind, se_lift. rewrite Hb; simpl.
    unfold coordinator_should_handle. rewrite Hall by done. by rewrite bool_decide_false by done.
Qed.

End cluster_signer.

#[local] Instance toy_relay : Relay := { send_event _ := Ok tt }.

Definition toy_pair (i : string) : coordinator := {|
  co_ring := rebuild ["a"; "b"] (ring_new i); co_previous := {["a"; "b"]}; co_failures := 0; co_events := [] |}.

(** Of two instances that are asked for the key of a user, one answers. *)
Definition toy_asked (i : string) : signer := fst (handle_nip46_request (H := coordinator_cluster (toy_pair i)) 10
  (sample_request "app" user_bunker "get_public_key|x")
  {| sg_db := sample_db [sample_oauth None None None] []; sg_handlers := ∅; sg_sent := [] |}).

Lemma one_instance_answers_witness :
  length (sg_sent (toy_asked "a") ++ sg_sent (toy_asked "b")) = 1%nat /\
  exists owner, owner ∈ ({["a"; "b"]} : gset string) /\
    forall i s, i ∈ ({["a"; "b"]} : gset string) -> i <> owner ->
      handle_nip46_request (H := coordinator_cluster (toy_pair i)) 10
        (sample_request "app" user_bunker "get_public_key|x") s = (s, Ok tt).
Proof.
  split; [vm_compute; reflexivity|].
  destruct (one_instance_answers {["a"; "b"]} toy_pair 10
              (sample_request "app" user_bunker "get_public_key|x") user_bunker) as (owner & H1 & _ & H2).
  - vm_compute. discriminate.
  - vm_compute. discriminate.
  - intros i _. destruct (rebuild_spec ["a"; "b"] (ring_new i) (ring_new_wf i)) as (H1 & H2 & H3).
    split; [exact H1|]. split; [exact H2|]. simpl. rewrite H3. vm_compute. reflexivity.
  - reflexivity.
  - exists owner. split; [exact H1 | exact H2].
Defined.
