(* ===== verification/Tokens.v ===== *)
(** * One-time tokens

    core/src/repositories/refresh_token.rs, magic_link_token.rs,
    claim_token.rs and team_invitation.rs with their row types: tokens that are
    created once and consumed by a single UPDATE.  What they promise, that a token
    is consumed at most once in any interleaving of operations, is the class
    [OneTimeTokens], proved once and discharged by each repository.  Times are in
    seconds; foreign keys to tables outside this model are not checked. *)
From S2P Require Import Prelude RustStr External Instances Database.

Definition days (n : Z) : Z := n * 86400.

(** ** Refresh tokens *)
Section refresh_tokens.
Context `{Digests}.

Definition REFRESH_TOKEN_EXPIRY_DAYS : Z := 30.
Definition hash_refresh_token (token : string) : string := sha256_hex token.

(** RefreshTokenRepository::create: the hash is unique. *)
Definition refresh_create (now : Z) (token : string) (authorization_id tenant_id : Z)
    (t : table RefreshToken) : table RefreshToken * result RefreshToken RepositoryError :=
  let token_hash := hash_refresh_token token in
  if existsb (fun r => bool_decide (rt_token_hash r = token_hash)) (rows t) then (t, Err RE_Duplicate)
  else
    let '(t', r) := insert_row (fun i => {| rt_id := i; rt_token_hash := token_hash;
        rt_authorization_id := authorization_id; rt_tenant_id := tenant_id; rt_created_at := now;
        rt_expires_at := now + days REFRESH_TOKEN_EXPIRY_DAYS; rt_consumed_at := None |}) t in
    (t', Ok r).

Definition rt_consume_at (now : Z) (r : RefreshToken) : RefreshToken :=
  {| rt_id := rt_id r; rt_token_hash := rt_token_hash r; rt_authorization_id := rt_authorization_id r;
     rt_tenant_id := rt_tenant_id r; rt_created_at := rt_created_at r; rt_expires_at := rt_expires_at r;
     rt_consumed_at := Some now |}.

(** RefreshTokenRepository::consume *)
Definition refresh_live (now : Z) (token_hash : string) (r : RefreshToken) : bool :=
  bool_decide (rt_token_hash r = token_hash) && is_null (rt_consumed_at r) && (now <? rt_expires_at r).
Definition refresh_consume (now : Z) (token : string) (t : table RefreshToken)
  : table RefreshToken * option RefreshToken :=
  let live := refresh_live now (hash_refresh_token token) in
  (with_rows (update_where live (rt_consume_at now)) t,
   head (returning live (rt_consume_at now) (rows t))).

(** RefreshTokenRepository::revoke_for_authorization; the count is returned. *)
Definition refresh_of_authorization (authorization_id : Z) (r : RefreshToken) : bool :=
  (rt_authorization_id r =? authorization_id) && is_null (rt_consumed_at r).
Definition refresh_revoke_for_authorization (now authorization_id : Z) (t : table RefreshToken)
  : table RefreshToken * nat :=
  (with_rows (update_where (refresh_of_authorization authorization_id) (rt_consume_at now)) t,
   length (List.filter (refresh_of_authorization authorization_id) (rows t))).

Definition refresh_is_old (cutoff : Z) (r : RefreshToken) : bool :=
  match rt_consumed_at r with Some c => c <? cutoff | None => false end || (rt_expires_at r <? cutoff).
Definition refresh_cleanup_old_tokens (now days_old : Z) (t : table RefreshToken) : table RefreshToken * nat :=
  let old := refresh_is_old (now - days days_old) in
  (with_rows (delete_where old) t, length (List.filter old (rows t))).

End refresh_tokens.

(** ** Sign-in links *)

Record ConsumedMagicLink : Type := { cml_email : string; cml_purpose : string; cml_app_origin : string }.

Definition PURPOSE_SIGN_IN : string := "sign_in".
Definition PURPOSE_DELETE_ACCOUNT : string := "delete_account".

Section magic_links.
Context `{Digests}.

Definition hash_magic_link_token (token : string) : string := sha256_hex token.

(** MagicLinkTokenRepository::create: the purpose is checked, the hash unique. *)
Definition magic_create (now : Z) (tenant_id : Z) (email token purpose app_origin : string)
    (expires_at : Z) (request_ip : option string) (t : table magic_link_row)
  : table magic_link_row * result unit RepositoryError :=
  let token_hash := hash_magic_link_token token in
  if negb (bool_decide (purpose ∈ [PURPOSE_SIGN_IN; PURPOSE_DELETE_ACCOUNT])) then
    (t, Err (RE_Integrity "chk_magic_link_purpose"))
  else if existsb (fun r => bool_decide (ml_token_hash r = token_hash)) (rows t) then (t, Err RE_Duplicate)
  else
    let '(t', _) := insert_row (fun i => {| ml_id := i; ml_tenant_id := tenant_id; ml_email := email;
        ml_token_hash := token_hash; ml_purpose := purpose; ml_app_origin := app_origin;
        ml_expires_at := expires_at; ml_consumed_at := None; ml_request_ip := request_ip;
        ml_created_at := now |}) t in
    (t', Ok tt).

Definition ml_consume_at (now : Z) (r : magic_link_row) : magic_link_row :=
  {| ml_id := ml_id r; ml_tenant_id := ml_tenant_id r; ml_email := ml_email r;
     ml_token_hash := ml_token_hash r; ml_purpose := ml_purpose r; ml_app_origin := ml_app_origin r;
     ml_expires_at := ml_expires_at r; ml_consumed_at := Some now; ml_request_ip := ml_request_ip r;
     ml_created_at := ml_created_at r |}.

Definition magic_live (now : Z) (token_hash : string) (tenant_id : Z) (r : magic_link_row) : bool :=
  bool_decide (ml_token_hash r = token_hash) && (ml_tenant_id r =? tenant_id)
  && is_null (ml_consumed_at r) && (now <? ml_expires_at r).
Definition magic_consume (now : Z) (token : string) (tenant_id : Z) (t : table magic_link_row)
  : table magic_link_row * option ConsumedMagicLink :=
  let live := magic_live now (hash_magic_link_token token) tenant_id in
  (with_rows (update_where live (ml_consume_at now)) t,
   (fun r => {| cml_email := ml_email r; cml_purpose := ml_purpose r; cml_app_origin := ml_app_origin r |}) <$>
     head (returning live (ml_consume_at now) (rows t))).

Definition magic_count_recent (tenant_id : Z) (email : string) (since : Z) (t : table magic_link_row) : nat :=
  length (List.filter (fun r => (ml_tenant_id r =? tenant_id) && bool_decide (ml_email r = email)
                                && (since <=? ml_created_at r)) (rows t)).

Definition magic_purge_expired (now : Z) (t : table magic_link_row) : table magic_link_row * nat :=
  let old r := ml_created_at r <? now - days 1 in
  (with_rows (delete_where old) t, length (List.filter old (rows t))).

End magic_links.

(** ** Account claim tokens *)

Definition CLAIM_TOKEN_EXPIRY_DAYS : Z := 7.

Definition claim_create (now : Z) (token user_pubkey : string) (created_by : option string) (tenant_id : Z)
    (t : table ClaimToken) : table ClaimToken * result ClaimToken RepositoryError :=
  if existsb (fun r => bool_decide (ct_token r = token)) (rows t) then (t, Err RE_Duplicate)
  else
    let '(t', r) := insert_row (fun i => {| ct_id := i; ct_token := token; ct_user_pubkey := user_pubkey;
        ct_expires_at := now + days CLAIM_TOKEN_EXPIRY_DAYS; ct_used_at := None; ct_created_at := now;
        ct_created_by_pubkey := created_by; ct_tenant_id := tenant_id |}) t in
    (t', Ok r).

Definition claim_valid (now : Z) (r : ClaimToken) : bool := (now <? ct_expires_at r) && is_null (ct_used_at r).

Definition claim_find_valid (now : Z) (token : string) (t : table ClaimToken) : option ClaimToken :=
  find_first (fun r => bool_decide (ct_token r = token) && claim_valid now r) (rows t).

Definition ct_use_at (now : Z) (r : ClaimToken) : ClaimToken :=
  {| ct_id := ct_id r; ct_token := ct_token r; ct_user_pubkey := ct_user_pubkey r;
     ct_expires_at := ct_expires_at r; ct_used_at := Some now; ct_created_at := ct_created_at r;
     ct_created_by_pubkey := ct_created_by_pubkey r; ct_tenant_id := ct_tenant_id r |}.

Definition claim_unused (token : string) (r : ClaimToken) : bool :=
  bool_decide (ct_token r = token) && is_null (ct_used_at r).
Definition claim_mark_used (now : Z) (token : string) (t : table ClaimToken)
  : table ClaimToken * option ClaimToken :=
  (with_rows (update_where (claim_unused token) (ct_use_at now)) t,
   head (returning (claim_unused token) (ct_use_at now) (rows t))).

(** ORDER BY created_at DESC: newest first, by insertion. *)
Fixpoint insert_newest {A} (created : A -> Z) (x : A) (l : list A) : list A :=
  match l with
  | [] => [x]
  | y :: l' => if created y <? created x then x :: l else y :: insert_newest created x l'
  end.
Definition order_newest {A} (created : A -> Z) (l : list A) : list A :=
  foldl (fun acc x => insert_newest created x acc) [] l.

Definition claim_find_valid_by_user_pubkey (now : Z) (user_pubkey : string) (tenant_id : Z)
    (t : table ClaimToken) : option ClaimToken :=
  head (order_newest ct_created_at
    (List.filter (fun r => bool_decide (ct_user_pubkey r = user_pubkey) && (ct_tenant_id r =? tenant_id)
                           && claim_valid now r) (rows t))).

Definition claim_find_by_user_pubkey (user_pubkey : string) (tenant_id : Z) (t : table ClaimToken)
  : list ClaimToken :=
  order_newest ct_created_at
    (List.filter (fun r => bool_decide (ct_user_pubkey r = user_pubkey) && (ct_tenant_id r =? tenant_id)) (rows t)).

Record ClaimTokenStats : Type := {
  total_generated : nat; total_claimed : nat; total_expired : nat; total_pending : nat;
}.

Definition claim_get_stats (now tenant_id : Z) (t : table ClaimToken) : ClaimTokenStats :=
  let mine := List.filter (fun r => ct_tenant_id r =? tenant_id) (rows t) in
  let count p := length (List.filter p mine) in
  {| total_generated := length mine;
     total_claimed := count (fun r => negb (is_null (ct_used_at r)));
     total_expired := count (fun r => (ct_expires_at r <? now) && is_null (ct_used_at r));
     total_pending := count (fun r => (now <=? ct_expires_at r) && is_null (ct_used_at r)) |}.

Definition claim_is_old (cutoff : Z) (r : ClaimToken) : bool :=
  match ct_used_at r with Some u => u <? cutoff | None => false end || (ct_expires_at r <? cutoff).
Definition claim_cleanup_old_tokens (now days_old : Z) (t : table ClaimToken) : table ClaimToken * nat :=
  let old := claim_is_old (now - days days_old) in
  (with_rows (delete_where old) t, length (List.filter old (rows t))).

(** ** Team invitations *)

Definition INVITATION_EXPIRY_DAYS : Z := 7.

(** accepted_at IS NULL AND revoked_at IS NULL *)
Definition ti_open (r : TeamInvitation) : bool := is_null (ti_accepted_at r) && is_null (ti_revoked_at r).

Definition is_pending (now : Z) (r : TeamInvitation) : bool := ti_open r && (now <? ti_expires_at r).

(** create: the role is checked, the token unique, and at most one open
    invitation per team and email (index uq_pending_invite). *)
Definition invitation_create (now : Z) (team_id tenant_id : Z) (email role token invited_by : string)
    (t : table TeamInvitation) : table TeamInvitation * result TeamInvitation RepositoryError :=
  if negb (bool_decide (role ∈ ["admin"; "member"])) then (t, Err (RE_Integrity "chk_invitation_role"))
  else if existsb (fun r => bool_decide (ti_token r = token)) (rows t) then (t, Err RE_Duplicate)
  else if existsb (fun r => (ti_team_id r =? team_id) && bool_decide (ti_email r = email) && ti_open r) (rows t)
  then (t, Err RE_Duplicate)
  else
    let '(t', r) := insert_row (fun i => {| ti_id := i; ti_team_id := team_id; ti_tenant_id := tenant_id;
        ti_email := email; ti_role := role; ti_token := token; ti_invited_by := invited_by;
        ti_expires_at := now + days INVITATION_EXPIRY_DAYS; ti_accepted_at := None; ti_accepted_by := None;
        ti_revoked_at := None; ti_created_at := now |}) t in
    (t', Ok r).

Definition invitation_find_valid_by_token (now : Z) (token : string) (t : table TeamInvitation)
  : option TeamInvitation :=
  find_first (fun r => bool_decide (ti_token r = token) && is_pending now r) (rows t).

Definition invitation_find_by_token (token : string) (t : table TeamInvitation) : option TeamInvitation :=
  find_first (fun r => bool_decide (ti_token r = token)) (rows t).

Definition invitation_list_by_team (team_id tenant_id : Z) (t : table TeamInvitation) : list TeamInvitation :=
  order_newest ti_created_at
    (List.filter (fun r => (ti_team_id r =? team_id) && (ti_tenant_id r =? tenant_id)) (rows t)).

Definition invitation_find_pending_by_email (now team_id : Z) (email : string) (t : table TeamInvitation)
  : option TeamInvitation :=
  find_first (fun r => (ti_team_id r =? team_id) && bool_decide (ti_email r = email) && is_pending now r) (rows t).

Definition ti_accept (now : Z) (accepted_by : string) (r : TeamInvitation) : TeamInvitation :=
  {| ti_id := ti_id r; ti_team_id := ti_team_id r; ti_tenant_id := ti_tenant_id r; ti_email := ti_email r;
     ti_role := ti_role r; ti_token := ti_token r; ti_invited_by := ti_invited_by r;
     ti_expires_at := ti_expires_at r; ti_accepted_at := Some now; ti_accepted_by := Some accepted_by;
     ti_revoked_at := ti_revoked_at r; ti_created_at := ti_created_at r |}.
Definition ti_revoke (now : Z) (r : TeamInvitation) : TeamInvitation :=
  {| ti_id := ti_id r; ti_team_id := ti_team_id r; ti_tenant_id := ti_tenant_id r; ti_email := ti_email r;
     ti_role := ti_role r; ti_token := ti_token r; ti_invited_by := ti_invited_by r;
     ti_expires_at := ti_expires_at r; ti_accepted_at := ti_accepted_at r; ti_accepted_by := ti_accepted_by r;
     ti_revoked_at := Some now; ti_created_at := ti_created_at r |}.

Definition invitation_acceptable (now : Z) (token : string) (r : TeamInvitation) : bool :=
  bool_decide (ti_token r = token) && is_pending now r.
Definition invitation_accept (now : Z) (token accepted_by : string) (t : table TeamInvitation)
  : table TeamInvitation * result TeamInvitation RepositoryError :=
  (with_rows (update_where (invitation_acceptable now token) (ti_accept now accepted_by)) t,
   ok_or (head (returning (invitation_acceptable now token) (ti_accept now accepted_by) (rows t)))
     (repository_error_from_sqlx RowNotFound)).

Definition invitation_revocable (id team_id tenant_id : Z) (r : TeamInvitation) : bool :=
  (ti_id r =? id) && (ti_team_id r =? team_id) && (ti_tenant_id r =? tenant_id) && ti_open r.
Definition invitation_revoke (now : Z) (id team_id tenant_id : Z) (t : table TeamInvitation)
  : table TeamInvitation * result unit RepositoryError :=
  let p := invitation_revocable id team_id tenant_id in
  (with_rows (update_where p (ti_revoke now)) t,
   match List.filter p (rows t) with
   | [] => Err (RE_NotFound "Invitation not found or already resolved")
   | _ => Ok tt
   end).

(** ** At most one use

    What a repository of one-time tokens promises.  An operation reports the
    token it created or consumed; the unspent rows of a token bound how often
    it can still be consumed. *)
Inductive token_event : Type :=
| TokenCreated (k : string)
| TokenConsumed (k : string)
| TokenQuiet.

#[export] Instance token_event_eq_dec : EqDecision token_event.
Proof. solve_decision. Defined.

Class OneTimeTokens (Row Op : Type) := {
  token_key : Row -> string;
  token_unspent : Row -> bool;
  token_step : Op -> table Row -> table Row * token_event;
}.

(** The unspent rows of a token, and how often an event occurs in a run. *)
Definition unspent_of {Row Op} `{OneTimeTokens Row Op} (k : string) (l : list Row) : nat :=
  length (List.filter (fun r => bool_decide (token_key r = k) && token_unspent r) l).
Definition occurs (e : token_event) (es : list token_event) : nat :=
  length (List.filter (fun e' => bool_decide (e' = e)) es).

Fixpoint token_run {Row Op} `{OneTimeTokens Row Op} (ops : list Op) (t : table Row)
  : table Row * list token_event :=
  match ops with
  | [] => (t, [])
  | o :: ops' => let '(t1, e) := token_step o t in
                 let '(t2, es) := token_run ops' t1 in (t2, e :: es)
  end.

Class OneTimeLaws (Row Op : Type) `{OneTimeTokens Row Op} : Prop := {
  token_step_spends : forall o (t : table Row) k,
    (occurs (TokenConsumed k) [snd (token_step o t)] + unspent_of k (rows (fst (token_step o t))) <=
     unspent_of k (rows t) + occurs (TokenCreated k) [snd (token_step o t)])%nat;
}.

Section at_most_once.
Context {Row Op : Type} `{OneTimeLaws Row Op}.

Lemma occurs_cons e e' es : occurs e (e' :: es) = (occurs e [e'] + occurs e es)%nat.
Proof. unfold occurs. simpl. destruct (bool_decide (e' = e)); reflexivity. Qed.

(** In any sequence of operations a token is consumed no more often than it
    was unspent at first or created. *)
Lemma token_run_spends (ops : list Op) (t : table Row) k :
  (occurs (TokenConsumed k) (snd (token_run ops t)) + unspent_of k (rows (fst (token_run ops t))) <=
   unspent_of k (rows t) + occurs (TokenCreated k) (snd (token_run ops t)))%nat.
Proof.
  revert t; induction ops as [|o ops IH]; intros t; simpl; [unfold occurs; simpl; lia|].
  pose proof (token_step_spends o t k) as Hs. specialize (IH (fst (token_step o t))).
  destruct (token_step o t) as [t1 e]; simpl in *.
  destruct (token_run ops t1) as [t2 es]; simpl in *.
  rewrite (occurs_cons _ e es), (occurs_cons (TokenCreated k) e es). lia.
Qed.
End at_most_once.

(** *** The statements of a repository

    How the unspent rows of a token change under INSERT, under an UPDATE that
    spends what it matches, and under DELETE. *)
Section statements.
Context {Row Op : Type} `{OneTimeTokens Row Op}.

Lemma filter_update_spent (p q : Row -> bool) f l :
  (forall r, p r = true -> q (f r) = false) ->
  (length (List.filter q (update_where p f l)) + length (List.filter (fun r => p r && q r) l) =
   length (List.filter q l))%nat.
Proof.
  intros Hf. induction l as [|r l IH]; simpl; [done|].
  destruct (p r) eqn:Hp; [rewrite (Hf r Hp)|]; destruct (q r); simpl in *; lia.
Qed.

Lemma unspent_update_le k p f (t : table Row) :
  (forall r, p r = true -> token_unspent (f r) = false) ->
  (unspent_of k (rows (with_rows (update_where p f) t)) <= unspent_of k (rows t))%nat.
Proof.
  intros Hf. unfold unspent_of, with_rows; simpl. erewrite <- (filter_update_spent p _ f (rows t)); [lia|].
  intros r Hr. simpl. by rewrite (Hf r Hr), andb_false_r.
Qed.

(** The consuming UPDATE: a row it gives back was unspent and is spent now. *)
Lemma unspent_consume k k' p f (t : table Row) :
  (forall r, p r = true -> token_unspent (f r) = false) ->
  (forall r, p r = true -> token_key r = k /\ token_unspent r = true) ->
  (occurs (TokenConsumed k') [if head (returning p f (rows t)) then TokenConsumed k else TokenQuiet]
   + unspent_of k' (rows (with_rows (update_where p f) t)) <= unspent_of k' (rows t))%nat.
Proof.
  intros Hf Hp. unfold occurs. simpl. unfold returning.
  destruct (List.filter p (rows t)) as [|r l] eqn:E; simpl; [by apply unspent_update_le|].
  case_bool_decide as Hk; [|by apply unspent_update_le]. injection Hk as ->.
  unfold unspent_of, with_rows; simpl. erewrite <- (filter_update_spent p _ f (rows t)).
  2:{ intros x Hx. simpl. by rewrite (Hf x Hx), andb_false_r. }
  replace (List.filter _ (rows t)) with (List.filter p (rows t)); [rewrite E; simpl; lia|].
  apply List.filter_ext. intros x. destruct (p x) eqn:Ex; [|done].
  destruct (Hp x Ex) as [-> ->]. by rewrite bool_decide_true.
Qed.

Lemma unspent_delete_le k p (t : table Row) :
  (unspent_of k (rows (with_rows (delete_where p) t)) <= unspent_of k (rows t))%nat.
Proof.
  unfold unspent_of, with_rows, delete_where; simpl. induction (rows t) as [|r l IH]; simpl; [done|].
  destruct (p r); simpl; destruct (bool_decide (token_key r = k) && token_unspent r); simpl; lia.
Qed.

Lemma unspent_insert k k' (r : Row) l :
  token_key r = k ->
  (unspent_of k' (l ++ [r]) <= unspent_of k' l + occurs (TokenCreated k') [TokenCreated k])%nat.
Proof.
  intros Hk. unfold unspent_of, occurs; simpl.
  rewrite List.filter_app, length_app; simpl. rewrite Hk.
  do 2 case_bool_decide; simplify_eq; simpl; try congruence; try case_if; simpl; lia.
Qed.

Lemma occurs_quiet k : occurs (TokenConsumed k) [TokenQuiet] = 0%nat /\ occurs (TokenCreated k) [TokenQuiet] = 0%nat.
Proof. done. Qed.
Lemma occurs_other k k' : occurs (TokenConsumed k) [TokenCreated k'] = 0%nat /\ occurs (TokenCreated k) [TokenConsumed k'] = 0%nat.
Proof. done. Qed.
End statements.

(** *** The repositories *)
Section repositories.
Context `{Digests}.

Inductive refresh_op : Type :=
| RefreshCreate (now : Z) (token : string) (authorization_id tenant_id : Z)
| RefreshConsume (now : Z) (token : string)
| RefreshRevoke (now authorization_id : Z)
| RefreshCleanup (now days_old : Z).

#[export] Instance refresh_tokens_once : OneTimeTokens RefreshToken refresh_op := {
  token_key := rt_token_hash;
  token_unspent r := is_null (rt_consumed_at r);
  token_step o t :=
    match o with
    | RefreshCreate now token a ten =>
        let '(t', r) := refresh_create now token a ten t in
        (t', if is_ok r then TokenCreated (hash_refresh_token token) else TokenQuiet)
    | RefreshConsume now token =>
        let '(t', r) := refresh_consume now token t in
        (t', if r then TokenConsumed (hash_refresh_token token) else TokenQuiet)
    | RefreshRevoke now a => (fst (refresh_revoke_for_authorization now a t), TokenQuiet)
    | RefreshCleanup now d => (fst (refresh_cleanup_old_tokens now d t), TokenQuiet)
    end }.

Inductive magic_op : Type :=
| MagicCreate (now tenant_id : Z) (email token purpose app_origin : string) (expires_at : Z) (ip : option string)
| MagicConsume (now : Z) (token : string) (tenant_id : Z)
| MagicPurge (now : Z).

#[export] Instance magic_links_once : OneTimeTokens magic_link_row magic_op := {
  token_key := ml_token_hash;
  token_unspent r := is_null (ml_consumed_at r);
  token_step o t :=
    match o with
    | MagicCreate now ten email token purpose origin exp ip =>
        let '(t', r) := magic_create now ten email token purpose origin exp ip t in
        (t', if is_ok r then TokenCreated (hash_magic_link_token token) else TokenQuiet)
    | MagicConsume now token ten =>
        let '(t', r) := magic_consume now token ten t in
        (t', if r then TokenConsumed (hash_magic_link_token token) else TokenQuiet)
    | MagicPurge now => (fst (magic_purge_expired now t), TokenQuiet)
    end }.

Inductive claim_op : Type :=
| ClaimCreate (now : Z) (token user_pubkey : string) (created_by : option string) (tenant_id : Z)
| ClaimMarkUsed (now : Z) (token : string)
| ClaimCleanup (now days_old : Z).

#[export] Instance claim_tokens_once : OneTimeTokens ClaimToken claim_op := {
  token_key := ct_token;
  token_unspent r := is_null (ct_used_at r);
  token_step o t :=
    match o with
    | ClaimCreate now token user by_ ten =>
        let '(t', r) := claim_create now token user by_ ten t in
        (t', if is_ok r then TokenCreated token else TokenQuiet)
    | ClaimMarkUsed now token =>
        let '(t', r) := claim_mark_used now token t in
        (t', if r then TokenConsumed token else TokenQuiet)
    | ClaimCleanup now d => (fst (claim_cleanup_old_tokens now d t), TokenQuiet)
    end }.

Inductive invitation_op : Type :=
| InvitationCreate (now team_id tenant_id : Z) (email role token invited_by : string)
| InvitationAccept (now : Z) (token accepted_by : string)
| InvitationRevoke (now id team_id tenant_id : Z).

#[export] Instance invitations_once : OneTimeTokens TeamInvitation invitation_op := {
  token_key := ti_token;
  token_unspent := ti_open;
  token_step o t :=
    match o with
    | InvitationCreate now team ten email role token by_ =>
        let '(t', r) := invitation_create now team ten email role token by_ t in
        (t', if is_ok r then TokenCreated token else TokenQuiet)
    | InvitationAccept now token by_ =>
        let '(t', r) := invitation_accept now token by_ t in
        (t', if is_ok r then TokenConsumed token else TokenQuiet)
    | InvitationRevoke now i team ten => (fst (invitation_revoke now i team ten t), TokenQuiet)
    end }.
End repositories.

(** *** The laws hold *)
Lemma if_fmap {A B C} (f : A -> B) (o : option A) (x y : C) :
  (if (f <$> o : option B) then x else y) = if o then x else y.
Proof. by destruct o. Qed.
Lemma if_ok_or {A B E} (o : option A) (e : E) (x y : B) :
  (if is_ok (ok_or o e) then x else y) = if o then x else y.
Proof. by destruct o. Qed.

Section laws.
Context `{Digests}.

Local Ltac spend_cases :=
  rewrite ?(proj1 (occurs_quiet _)), ?(proj2 (occurs_quiet _)), ?(proj1 (occurs_other _ _)),
    ?(proj2 (occurs_other _ _)), ?Nat.add_0_r, ?Nat.add_0_l.
(** The consuming UPDATE of a repository matches unspent rows of its token. *)
Local Ltac consumes := intros ? ?; simpl in *; bool_to_prop; auto.

#[export] Instance refresh_tokens_laws : OneTimeLaws RefreshToken refresh_op.
Proof.
  constructor. intros [now token a ten|now token|now a|now d] t k; simpl.
  - unfold refresh_create. case_if; simpl; spend_cases; [done|]. by apply unspent_insert.
  - unfold refresh_consume, refresh_live. simpl. etransitivity; [apply unspent_consume; consumes|lia].
  - spend_cases. by apply unspent_update_le.
  - spend_cases. apply unspent_delete_le.
Qed.

#[export] Instance magic_links_laws : OneTimeLaws magic_link_row magic_op.
Proof.
  constructor. intros [now ten email token pu o x ip|now token ten|now] t k; simpl.
  - unfold magic_create. do 2 (case_if; simpl; spend_cases; [done|]). by apply unspent_insert.
  - unfold magic_consume, magic_live. simpl.
    rewrite if_fmap. etransitivity; [apply unspent_consume; consumes|lia].
  - spend_cases. apply unspent_delete_le.
Qed.

#[export] Instance claim_tokens_laws : OneTimeLaws ClaimToken claim_op.
Proof.
  constructor. intros [now token u b ten|now token|now d] t k; simpl.
  - unfold claim_create. case_if; simpl; spend_cases; [done|]. by apply unspent_insert.
  - unfold claim_mark_used, claim_unused. simpl. etransitivity; [apply unspent_consume; consumes|lia].
  - spend_cases. apply unspent_delete_le.
Qed.

#[export] Instance invitations_laws : OneTimeLaws TeamInvitation invitation_op.
Proof.
  constructor. intros [now team ten e r token b|now token b|now i team ten] t k; simpl.
  - unfold invitation_create. do 3 (case_if; simpl; spend_cases; [done|]). by apply unspent_insert.
  - unfold invitation_accept, invitation_acceptable. simpl.
    rewrite if_ok_or. etransitivity; [apply unspent_consume|lia].
    + intros r _. done.
    + intros r Hr. unfold is_pending in Hr. simpl in *. bool_to_prop. auto.
  - spend_cases. apply unspent_update_le. intros r _. simpl. unfold ti_open; simpl. apply andb_false_r.
Qed.
End laws.

(** ** Theorems *)
Section theorems.
Context `{Digests}.

(** No interleaving of the operations of a repository uses a token more
    often than it was unspent at the start or created since: refresh tokens,
    sign-in links, claim tokens and team invitations are one-time.  A token
    is created only when no row has it, so it is used at most once between
    two cleanups of its row. *)
Theorem tokens_used_at_most_once :
  (forall (ops : list refresh_op) t token,
     let es := snd (token_run ops t) in let k := hash_refresh_token token in
     (occurs (TokenConsumed k) es <=
      unspent_of (Op := refresh_op) k (rows t) + occurs (TokenCreated k) es)%nat) /\
  (forall (ops : list magic_op) t token,
     let es := snd (token_run ops t) in let k := hash_magic_link_token token in
     (occurs (TokenConsumed k) es <=
      unspent_of (Op := magic_op) k (rows t) + occurs (TokenCreated k) es)%nat) /\
  (forall (ops : list claim_op) t k,
     let es := snd (token_run ops t) in
     (occurs (TokenConsumed k) es <=
      unspent_of (Op := claim_op) k (rows t) + occurs (TokenCreated k) es)%nat) /\
  (forall (ops : list invitation_op) t k,
     let es := snd (token_run ops t) in
     (occurs (TokenConsumed k) es <=
      unspent_of (Op := invitation_op) k (rows t) + occurs (TokenCreated k) es)%nat).
Proof.
  repeat split; intros ops t k; simpl.
  - pose proof (token_run_spends ops t (hash_refresh_token k)). lia.
  - pose proof (token_run_spends ops t (hash_magic_link_token k)). lia.
  - pose proof (token_run_spends ops t k). lia.
  - pose proof (token_run_spends ops t k). lia.
Qed.

(** The only match of a query is the row just inserted. *)
Lemma filter_snoc_fresh {A} (p c : A -> bool) l r :
  existsb c l = false -> (forall x, p x = true -> c x = true) -> p r = true ->
  List.filter p (l ++ [r]) = [r].
Proof.
  intros Hl Hpc Hr. rewrite List.filter_app. simpl. rewrite Hr, filter_nil; [done|].
  intros a Ha. destruct (p a) eqn:E; [|done].
  rewrite <- Hl. symmetry. apply existsb_exists. exists a. split; [by apply list_elem_of_In | auto].
Qed.

Local Ltac fresh_row H :=
  erewrite filter_snoc_fresh;
  [ reflexivity | exact H | simpl; intros ? ?; bool_to_prop; by rewrite bool_decide_true
  | simpl; rewrite ?bool_decide_true, ?Z.eqb_refl by done; simpl; apply Z.ltb_lt; lia ].

(** A token that was just created is consumed by its first use before its
    expiry, which gives back its own row: the refresh token its
    authorization and tenant, the sign-in link its email, purpose and origin
    (for its tenant), the invitation its team, email and role. *)
Theorem fresh_token_is_accepted now now' token :
  (forall a ten t t' r, refresh_create now token a ten t = (t', Ok r) ->
     now' < now + days REFRESH_TOKEN_EXPIRY_DAYS ->
     snd (refresh_consume now' token t') = Some (rt_consume_at now' r) /\
     rt_authorization_id r = a /\ rt_tenant_id r = ten) /\
  (forall ten email purpose origin expires ip t t',
     magic_create now ten email token purpose origin expires ip t = (t', Ok tt) -> now' < expires ->
     snd (magic_consume now' token ten t') =
     Some {| cml_email := email; cml_purpose := purpose; cml_app_origin := origin |}) /\
  (forall team ten email role by_ t t' r accepted_by,
     invitation_create now team ten email role token by_ t = (t', Ok r) ->
     now' < now + days INVITATION_EXPIRY_DAYS ->
     snd (invitation_accept now' token accepted_by t') = Ok (ti_accept now' accepted_by r) /\
     ti_team_id r = team /\ ti_tenant_id r = ten /\ ti_email r = email /\ ti_role r = role).
Proof.
  split; [|split].
  - intros a ten t t' r. unfold refresh_create. case_if; [done|]. simpl. intros [= <- <-] Hn.
    repeat split. unfold refresh_consume, refresh_live, returning. simpl. fresh_row E.
  - intros ten email pu o x ip t t'. unfold magic_create. do 2 (case_if; [done|]). simpl. intros [= <-] Hn.
    unfold magic_consume, magic_live, returning. simpl. fresh_row E0.
  - intros team ten email role b t t' r acc. unfold invitation_create. do 3 (case_if; [done|]). simpl.
    intros [= <- <-] Hn. repeat split.
    unfold invitation_accept, invitation_acceptable, is_pending, ti_open, returning. simpl. fresh_row E0.
Qed.

(** An open invitation that has expired is no pending invitation, so the
    invite endpoint goes on to create one, and the index uq_pending_invite,
    which ignores expiry, refuses the row with Duplicate: an email whose
    invitation expired cannot be invited again until the old one is revoked,
    and revoking it makes room. *)
Theorem expired_invitation_blocks now t r role token invited_by :
  r ∈ rows t -> ti_open r = true -> ti_expires_at r <= now -> role ∈ ["admin"; "member"] ->
  (forall r', r' ∈ rows t -> ti_token r' <> token) ->
  (forall r', r' ∈ rows t -> ti_team_id r' = ti_team_id r -> ti_email r' = ti_email r ->
     ti_open r' = true -> r' = r) ->
  invitation_find_pending_by_email now (ti_team_id r) (ti_email r) t = None /\
  (forall ten, invitation_create now (ti_team_id r) ten (ti_email r) role token invited_by t =
     (t, Err RE_Duplicate)) /\
  (forall ten, is_ok (snd (invitation_create now (ti_team_id r) ten (ti_email r) role token invited_by
     (fst (invitation_revoke now (ti_id r) (ti_team_id r) (ti_tenant_id r) t)))) = true).
Proof.
  intros Hr Hopen Hexp Hrole Htok Huniq.
  assert (Htok' : forall l, (forall r', r' ∈ l -> ti_token r' <> token) ->
    existsb (fun r => bool_decide (ti_token r = token)) l = false).
  { intros l Hl. apply existsb_false. intros x Hx. apply bool_decide_eq_false. auto. }
  split; [|split].
  - apply find_first_None. intros x Hx. apply not_true_is_false. intros E. unfold is_pending in E.
    bool_to_prop. rewrite (Huniq x) in * by done. lia.
  - intros ten. unfold invitation_create. rewrite bool_decide_true, Htok' by done. simpl.
    rewrite (proj2 (existsb_exists _ _)); [done|]. exists r. split; [by apply list_elem_of_In|].
    by rewrite Z.eqb_refl, bool_decide_true, Hopen.
  - intros ten. unfold invitation_create. rewrite bool_decide_true by done. simpl.
    rewrite Htok'.
    2:{ intros x [(y & Hy & _ & ->) | [Hx _]]%update_where_elem; simpl; auto. }
    rewrite (existsb_false _ (update_where _ _ _)); [done|].
    intros x Hx. apply not_true_is_false. intros E. bool_to_prop.
    apply update_where_elem in Hx as [(y & Hy & Hp & ->) | [Hx Hp]].
    + unfold ti_open in *. simpl in *. rewrite andb_false_r in *. done.
    + rewrite (Huniq x) in Hp by done. unfold invitation_revocable in Hp.
      rewrite !Z.eqb_refl, Hopen in Hp. done.
Qed.

(** A tenant's claim tokens are the claimed, the expired and the pending ones. *)
Lemma claim_stats_partition now ten t :
  let s := claim_get_stats now ten t in
  total_generated s = (total_claimed s + total_expired s + total_pending s)%nat.
Proof.
  simpl. induction (List.filter _ (rows t)) as [|r l IH]; simpl; [done|].
  rewrite Z.leb_antisym. destruct (ct_expires_at r <? now), (is_null (ct_used_at r)); simpl; lia.
Qed.

End theorems.

(** ** Witnesses *)
Definition sample_invitation : TeamInvitation :=
  {| ti_id := 1; ti_team_id := 5; ti_tenant_id := 1; ti_email := "a@b"; ti_role := "member";
     ti_token := "old"; ti_invited_by := "admin"; ti_expires_at := 100; ti_accepted_at := None;
     ti_accepted_by := None; ti_revoked_at := None; ti_created_at := 0 |}.
Definition sample_invitations : table TeamInvitation := {| rows := [sample_invitation]; next_id := 2 |}.

Lemma expired_invitation_blocks_witness :
  invitation_find_pending_by_email 200 5 "a@b" sample_invitations = None /\
  invitation_create 200 5 1 "a@b" "member" "new" "admin" sample_invitations =
    (sample_invitations, Err RE_Duplicate).
Proof.
  destruct (expired_invitation_blocks 200 sample_invitations sample_invitation "member" "new" "admin")
    as (H1 & H2 & _).
  - constructor.
  - reflexivity.
  - vm_compute. discriminate.
  - right. constructor.
  - intros r' ->%list_elem_of_singleton. discriminate.
  - by intros r' ->%list_elem_of_singleton.
  - exact (conj H1 (H2 1)).
Defined.

Lemma fresh_token_is_accepted_witness :
  exists t' r, refresh_create (H := toy_digests) 0 "tok" 7 1 empty_table = (t', Ok r) /\
    snd (refresh_consume (H := toy_digests) 10 "tok" t') = Some (rt_consume_at 10 r).
Proof.
  destruct (run_ok (refresh_create (H := toy_digests) 0 "tok" 7 1 empty_table)) as (t' & r & E);
    [vm_compute; reflexivity|].
  exists t', r. split; [exact E|].
  apply (proj1 (fresh_token_is_accepted (H := toy_digests) 0 10 "tok") _ _ _ _ _ E). reflexivity.
Defined.
