(* ===== verification/OAuthRepo.v ===== *)
(** * OAuth repositories

    core/src/repositories/oauth_code.rs, oauth_authorization.rs,
    personal_keys.rs and the queries of user.rs that the token endpoint uses.
    Uniqueness constraints and the foreign keys to users are checked; those to
    tables outside this model are not. *)
From S2P Require Import Prelude RustStr Database Tokens AuthTypes External.

(** ** Authorization codes *)
Record OAuthCodeData : Type := {
  cd_user_pubkey : string; cd_client_id : string; cd_redirect_uri : string; cd_scope : string;
  cd_code_challenge : option string; cd_code_challenge_method : option string;
  cd_pending_email : option string; cd_pending_password_hash : option string;
  cd_pending_email_verification_token : option string; cd_pending_encrypted_secret : option (list Z);
  cd_previous_auth_id : option Z; cd_state : option string; cd_device_code : option string;
  cd_is_headless : bool;
}.

Record StoreOAuthCodeParams : Type := {
  sp_tenant_id : Z; sp_code : string; sp_user_pubkey : string; sp_client_id : string;
  sp_redirect_uri : string; sp_scope : string; sp_code_challenge : option string;
  sp_code_challenge_method : option string; sp_expires_at : Z; sp_previous_auth_id : option Z;
  sp_state : option string; sp_is_headless : bool;
}.

Record StoreOAuthCodeWithRegistrationParams : Type := {
  rp_tenant_id : Z; rp_code : string; rp_user_pubkey : string; rp_client_id : string;
  rp_redirect_uri : string; rp_scope : string; rp_code_challenge : option string;
  rp_code_challenge_method : option string; rp_expires_at : Z; rp_pending_email : string;
  rp_pending_password_hash : string; rp_pending_email_verification_token : string;
  rp_pending_encrypted_secret : option (list Z); rp_state : option string;
  rp_device_code : option string; rp_is_headless : bool;
}.

(** INSERT INTO oauth_codes: the code is the primary key. *)
Definition insert_code (row : oauth_code_row) (d : Db) : Db * result unit RepositoryError :=
  if existsb (fun r => bool_decide (oc_code r = oc_code row)) (db_oauth_codes d) then (d, Err RE_Duplicate)
  else (set_oauth_codes (db_oauth_codes d ++ [row]) d, Ok tt).

Definition oauth_code_store (now : Z) (p : StoreOAuthCodeParams) (d : Db) : Db * result unit RepositoryError :=
  insert_code {| oc_tenant_id := sp_tenant_id p; oc_code := sp_code p; oc_user_pubkey := sp_user_pubkey p;
    oc_client_id := sp_client_id p; oc_redirect_uri := sp_redirect_uri p; oc_scope := sp_scope p;
    oc_code_challenge := sp_code_challenge p; oc_code_challenge_method := sp_code_challenge_method p;
    oc_expires_at := sp_expires_at p; oc_created_at := now; oc_previous_auth_id := sp_previous_auth_id p;
    oc_state := sp_state p; oc_is_headless := sp_is_headless p; oc_pending_email := None;
    oc_pending_password_hash := None; oc_pending_email_verification_token := None;
    oc_pending_encrypted_secret := None; oc_device_code := None |} d.

Definition store_with_pending_registration (now : Z) (p : StoreOAuthCodeWithRegistrationParams) (d : Db)
  : Db * result unit RepositoryError :=
  insert_code {| oc_tenant_id := rp_tenant_id p; oc_code := rp_code p; oc_user_pubkey := rp_user_pubkey p;
    oc_client_id := rp_client_id p; oc_redirect_uri := rp_redirect_uri p; oc_scope := rp_scope p;
    oc_code_challenge := rp_code_challenge p; oc_code_challenge_method := rp_code_challenge_method p;
    oc_expires_at := rp_expires_at p; oc_created_at := now; oc_previous_auth_id := None;
    oc_state := rp_state p; oc_is_headless := rp_is_headless p;
    oc_pending_email := Some (rp_pending_email p);
    oc_pending_password_hash := Some (rp_pending_password_hash p);
    oc_pending_email_verification_token := Some (rp_pending_email_verification_token p);
    oc_pending_encrypted_secret := rp_pending_encrypted_secret p; oc_device_code := rp_device_code p |} d.

Definition code_data (r : oauth_code_row) : OAuthCodeData := {|
  cd_user_pubkey := oc_user_pubkey r; cd_client_id := oc_client_id r; cd_redirect_uri := oc_redirect_uri r;
  cd_scope := oc_scope r; cd_code_challenge := oc_code_challenge r;
  cd_code_challenge_method := oc_code_challenge_method r; cd_pending_email := oc_pending_email r;
  cd_pending_password_hash := oc_pending_password_hash r;
  cd_pending_email_verification_token := oc_pending_email_verification_token r;
  cd_pending_encrypted_secret := oc_pending_encrypted_secret r; cd_previous_auth_id := oc_previous_auth_id r;
  cd_state := oc_state r; cd_device_code := oc_device_code r; cd_is_headless := oc_is_headless r |}.

Definition oauth_code_find_valid (now tenant_id : Z) (code : string) (d : Db) : option OAuthCodeData :=
  code_data <$> find_first (fun r => (oc_tenant_id r =? tenant_id) && bool_decide (oc_code r = code)
                                     && (now <? oc_expires_at r)) (db_oauth_codes d).

Definition find_by_verification_token (now : Z) (token : string) (tenant_id : Z) (d : Db)
  : option OAuthCodeData :=
  code_data <$> find_first (fun r => bool_decide (oc_pending_email_verification_token r = Some token)
                                     && (oc_tenant_id r =? tenant_id) && (now <? oc_expires_at r))
                  (db_oauth_codes d).

Definition delete_by_verification_token (token : string) (tenant_id : Z) (d : Db) : Db :=
  set_oauth_codes (delete_where (fun r => bool_decide (oc_pending_email_verification_token r = Some token)
                                          && (oc_tenant_id r =? tenant_id)) (db_oauth_codes d)) d.

Definition oauth_code_delete (tenant_id : Z) (code : string) (d : Db) : Db :=
  set_oauth_codes (delete_where (fun r => (oc_tenant_id r =? tenant_id) && bool_decide (oc_code r = code))
                     (db_oauth_codes d)) d.

(** ** Users *)
Definition user_in (pubkey : string) (tenant_id : Z) (u : user_row) : bool :=
  bool_decide (us_pubkey u = pubkey) && (us_tenant_id u =? tenant_id).

Definition user_exists (pubkey : string) (tenant_id : Z) (d : Db) : bool :=
  existsb (user_in pubkey tenant_id) (db_users d).

Definition find_pubkey_by_email (email : string) (tenant_id : Z) (d : Db) : option string :=
  us_pubkey <$> find_first (fun u => bool_decide (us_email u = Some email) && (us_tenant_id u =? tenant_id))
                  (db_users d).

(** The column is read as a String: a null email does not decode. *)
Definition get_email (pubkey : string) (tenant_id : Z) (d : Db) : result string RepositoryError :=
  map_err repository_error_from_sqlx
    (let? u := fetch_one (find_first (user_in pubkey tenant_id) (db_users d)) in
     ok_or (us_email u) (SqlxOther "unexpected null; try decoding as an `Option`")).

(** INSERT INTO users: the primary key, and the unique indexes on the email,
    the username and the vine id of a tenant. *)
Definition same_in_tenant {A} `{EqDecision A} (column : user_row -> option A) (u v : user_row) : bool :=
  (us_tenant_id u =? us_tenant_id v) && negb (is_null (column u)) && bool_decide (column u = column v).
Definition conflicts (u v : user_row) : bool :=
  bool_decide (us_pubkey u = us_pubkey v) || same_in_tenant us_email u v
  || same_in_tenant us_username u v || same_in_tenant us_vine_id u v.
Definition insert_user (u : user_row) (d : Db) : Db * result unit RepositoryError :=
  if existsb (conflicts u) (db_users d) then (d, Err RE_Duplicate)
  else (set_users (db_users d ++ [u]) d, Ok tt).

Definition insert_personal_key (pubkey : string) (encrypted_secret : list Z) (tenant_id : Z) (d : Db) : Db :=
  set_personal_keys (db_personal_keys d ++ [{| pk_user_pubkey := pubkey;
    pk_encrypted_secret_key := encrypted_secret; pk_tenant_id := tenant_id |}]) d.

(** One transaction: user, personal key, code; nothing changes on an error. *)
Definition finalize_oauth_registration (now : Z) (pubkey : string) (tenant_id : Z)
    (email password_hash verification_token : string) (verification_expires_at : Z)
    (encrypted_secret : list Z) (oauth_code : string) (d : Db) : Db * result unit RepositoryError :=
  match insert_user (us_set_verification (Some verification_token) (Some verification_expires_at)
                      (us_set_password_hash (Some password_hash)
                        (us_set_email (Some email) (new_user now pubkey tenant_id)))) d with
  | (d1, Ok _) => (oauth_code_delete tenant_id oauth_code (insert_personal_key pubkey encrypted_secret tenant_id d1), Ok tt)
  | (_, Err e) => (d, Err e)
  end.

(** ** Personal keys *)
Definition find_encrypted_key_by_tenant (tenant_id : Z) (user_pubkey : string) (d : Db) : option (list Z) :=
  pk_encrypted_secret_key <$>
    find_first (fun k => (pk_tenant_id k =? tenant_id) && bool_decide (pk_user_pubkey k = user_pubkey))
      (db_personal_keys d).

Definition fk_user (user_pubkey : string) (d : Db) : bool :=
  existsb (fun u => bool_decide (us_pubkey u = user_pubkey)) (db_users d).

Definition personal_keys_create (user_pubkey : string) (encrypted_secret_key : list Z) (tenant_id : Z)
    (d : Db) : Db * result unit RepositoryError :=
  if negb (fk_user user_pubkey d) then (d, Err (RE_Integrity "personal_keys_user_pubkey_fkey"))
  else (insert_personal_key user_pubkey encrypted_secret_key tenant_id d, Ok tt).

Definition personal_keys_delete_by_user (user_pubkey : string) (d : Db) : Db :=
  set_personal_keys (delete_where (fun k => bool_decide (pk_user_pubkey k = user_pubkey)) (db_personal_keys d)) d.

(** ** OAuth authorizations *)
Record CreateOAuthAuthorizationParams : Type := {
  cp_tenant_id : Z; cp_user_pubkey : string; cp_redirect_origin : string; cp_client_id : string;
  cp_bunker_public_key : string; cp_secret_hash : string; cp_relays : string; cp_policy_id : option Z;
  cp_client_pubkey : option string; cp_authorization_handle : option string; cp_handle_expires_at : Z;
}.

Definition oauth_row (now : Z) (p : CreateOAuthAuthorizationParams) (id : Z) : OAuthAuthorization := {|
  oa_id := id; oa_user_pubkey := cp_user_pubkey p; oa_redirect_origin := cp_redirect_origin p;
  oa_client_id := Some (cp_client_id p); oa_bunker_public_key := cp_bunker_public_key p;
  oa_secret_hash := cp_secret_hash p; oa_relays := cp_relays p; oa_policy_id := cp_policy_id p;
  oa_tenant_id := cp_tenant_id p; oa_client_pubkey := cp_client_pubkey p;
  oa_connected_client_pubkey := None; oa_connected_at := None; oa_created_at := now; oa_updated_at := now;
  oa_revoked_at := None; oa_expires_at := None; oa_handle_expires_at := cp_handle_expires_at p;
  oa_authorization_handle := cp_authorization_handle p; oa_last_activity := None; oa_activity_count := 0 |}.

(** A handle is unique among the authorizations that are not revoked. *)
Definition handle_taken (handle : option string) (a : OAuthAuthorization) : bool :=
  negb (is_null handle) && bool_decide (oa_authorization_handle a = handle) && is_null (oa_revoked_at a).

Definition oauth_authorization_create (now : Z) (p : CreateOAuthAuthorizationParams) (d : Db)
  : Db * result Z RepositoryError :=
  let auths := db_oauth_authorizations d in
  if existsb (handle_taken (cp_authorization_handle p)) (rows auths) then (d, Err RE_Duplicate)
  else if negb (fk_user (cp_user_pubkey p) d) then
    (d, Err (RE_Integrity "oauth_authorizations_user_pubkey_fkey"))
  else
    let '(t, r) := insert_row (oauth_row now p) auths in
    (set_oauth_authorizations t d, Ok (oa_id r)).

(** SET revoked_at, and SET revoked_at, updated_at *)
Definition oa_revoke (now : Z) (touch : bool) (a : OAuthAuthorization) : OAuthAuthorization := {|
  oa_id := oa_id a; oa_user_pubkey := oa_user_pubkey a; oa_redirect_origin := oa_redirect_origin a;
  oa_client_id := oa_client_id a; oa_bunker_public_key := oa_bunker_public_key a;
  oa_secret_hash := oa_secret_hash a; oa_relays := oa_relays a; oa_policy_id := oa_policy_id a;
  oa_tenant_id := oa_tenant_id a; oa_client_pubkey := oa_client_pubkey a;
  oa_connected_client_pubkey := oa_connected_client_pubkey a; oa_connected_at := oa_connected_at a;
  oa_created_at := oa_created_at a; oa_updated_at := (if touch then now else oa_updated_at a);
  oa_revoked_at := Some now; oa_expires_at := oa_expires_at a;
  oa_handle_expires_at := oa_handle_expires_at a; oa_authorization_handle := oa_authorization_handle a;
  oa_last_activity := oa_last_activity a; oa_activity_count := oa_activity_count a |}.

Definition update_oauth (p : OAuthAuthorization -> bool) (f : OAuthAuthorization -> OAuthAuthorization)
    (d : Db) : Db :=
  set_oauth_authorizations (with_rows (update_where p f) (db_oauth_authorizations d)) d.

Definition oauth_authorization_revoke (now id : Z) (d : Db) : Db :=
  update_oauth (fun a => oa_id a =? id) (oa_revoke now false) d.

Definition find_id_by_handle (now : Z) (authorization_handle user_pubkey : string) (d : Db) : option Z :=
  oa_id <$> find_first (fun a => bool_decide (oa_authorization_handle a = Some authorization_handle)
                                 && bool_decide (oa_user_pubkey a = user_pubkey) && oauth_usable now a)
              (rows (db_oauth_authorizations d)).

(** The repository's own queries of one authorization and of the live ones. *)
Definition repo_oauth_find `{HN : Nostr, HS : !Serde} (tenant_id authorization_id : Z) (d : Db)
  : result OAuthAuthorization RepositoryError :=
  map_err repository_error_from_sqlx
    (let? r := fetch_one (find_first (fun a => (oa_tenant_id a =? tenant_id) && (oa_id a =? authorization_id))
                            (rows (db_oauth_authorizations d))) in
     decode_oauth r).
Definition repo_oauth_all_ids (now : Z) (d : Db) : list Z :=
  map oa_id (List.filter (oauth_usable now) (rows (db_oauth_authorizations d))).
Definition repo_oauth_all_ids_for_all_tenants (now : Z) (d : Db) : list (Z * Z) :=
  map (fun a => (oa_tenant_id a, oa_id a)) (List.filter (oauth_usable now) (rows (db_oauth_authorizations d))).

(** The rows of a user's bunker in a tenant that are not revoked; the tenant is
    that of the user. *)
Definition of_bunker (bunker_pubkey user_pubkey : string) (tenant_id : Z) (d : Db) (a : OAuthAuthorization)
  : bool :=
  bool_decide (oa_bunker_public_key a = bunker_pubkey) && bool_decide (oa_user_pubkey a = user_pubkey)
  && is_null (oa_revoked_at a) && existsb (user_in (oa_user_pubkey a) tenant_id) (db_users d).

Definition exists_active_for_bunker (bunker_pubkey user_pubkey : string) (tenant_id : Z) (d : Db) : bool :=
  existsb (of_bunker bunker_pubkey user_pubkey tenant_id d) (rows (db_oauth_authorizations d)).

Definition revoke_by_bunker_pubkey (now : Z) (bunker_pubkey user_pubkey : string) (tenant_id : Z) (d : Db) : Db :=
  update_oauth (of_bunker bunker_pubkey user_pubkey tenant_id d) (oa_revoke now true) d.

Definition oa_disconnect (now : Z) (a : OAuthAuthorization) : OAuthAuthorization := {|
  oa_id := oa_id a; oa_user_pubkey := oa_user_pubkey a; oa_redirect_origin := oa_redirect_origin a;
  oa_client_id := oa_client_id a; oa_bunker_public_key := oa_bunker_public_key a;
  oa_secret_hash := oa_secret_hash a; oa_relays := oa_relays a; oa_policy_id := oa_policy_id a;
  oa_tenant_id := oa_tenant_id a; oa_client_pubkey := oa_client_pubkey a;
  oa_connected_client_pubkey := None; oa_connected_at := None;
  oa_created_at := oa_created_at a; oa_updated_at := now; oa_revoked_at := oa_revoked_at a;
  oa_expires_at := oa_expires_at a; oa_handle_expires_at := oa_handle_expires_at a;
  oa_authorization_handle := oa_authorization_handle a;
  oa_last_activity := oa_last_activity a; oa_activity_count := oa_activity_count a |}.

Definition disconnect_client (now : Z) (bunker_pubkey user_pubkey : string) (tenant_id : Z) (d : Db) : Db * nat :=
  let p := of_bunker bunker_pubkey user_pubkey tenant_id d in
  (update_oauth p (oa_disconnect now) d, length (List.filter p (rows (db_oauth_authorizations d)))).

Definition of_origin (user_pubkey redirect_origin : string) (tenant_id : Z) (a : OAuthAuthorization) : bool :=
  bool_decide (oa_user_pubkey a = user_pubkey) && bool_decide (oa_redirect_origin a = redirect_origin)
  && (oa_tenant_id a =? tenant_id).

Definition find_bunker_pubkey_by_redirect_origin (user_pubkey redirect_origin : string) (tenant_id : Z)
    (d : Db) : option string :=
  oa_bunker_public_key <$> find_first (of_origin user_pubkey redirect_origin tenant_id)
                             (rows (db_oauth_authorizations d)).

Definition find_policy_id_by_origin (now : Z) (user_pubkey redirect_origin : string) (tenant_id : Z) (d : Db)
  : option (option Z) :=
  oa_policy_id <$> find_first (fun a => of_origin user_pubkey redirect_origin tenant_id a && oauth_active now a)
                     (rows (db_oauth_authorizations d)).

Definition has_active_for_origin (user_pubkey redirect_origin : string) (tenant_id : Z) (d : Db) : bool :=
  existsb (fun a => of_origin user_pubkey redirect_origin tenant_id a && is_null (oa_revoked_at a))
    (rows (db_oauth_authorizations d)).

Definition revoke_by_origin (now : Z) (user_pubkey redirect_origin : string) (tenant_id : Z) (d : Db)
  : Db * list (Z * string) :=
  let p a := of_origin user_pubkey redirect_origin tenant_id a && is_null (oa_revoked_at a) in
  (update_oauth p (oa_revoke now true) d,
   map (fun a => (oa_id a, oa_bunker_public_key a)) (returning p (oa_revoke now true) (rows (db_oauth_authorizations d)))).

Definition verify_session_ownership (bunker_pubkey : string) (tenant_id : Z) (d : Db) : option string :=
  oa_user_pubkey <$> find_first (fun a => bool_decide (oa_bunker_public_key a = bunker_pubkey)
                                          && existsb (user_in (oa_user_pubkey a) tenant_id) (db_users d))
                       (rows (db_oauth_authorizations d)).

Definition find_latest_bunker_pubkey (user_pubkey : string) (tenant_id : Z) (d : Db) : option string :=
  oa_bunker_public_key <$> head (order_newest oa_created_at
    (List.filter (fun a => bool_decide (oa_user_pubkey a = user_pubkey) && is_null (oa_revoked_at a)
                           && existsb (user_in (oa_user_pubkey a) tenant_id) (db_users d))
       (rows (db_oauth_authorizations d)))).
