(* ===== verification/Users.v ===== *)
(** * The user repository

    core/src/repositories/user.rs.  users has four unique columns (the key, and
    within a tenant the email, the username and the vine id), and rows of other
    tables refer to it: deleting a user takes the keys, authorizations and
    refresh tokens with it, and is refused while a team membership or a claim
    token names the user.  A transaction that fails changes nothing. *)
From S2P Require Import Prelude RustStr External Database Tokens AuthTypes OAuthRepo.

Notation DbM A := (SE Db RepositoryError A).

(** [pool.begin() .. tx.commit()]: an error rolls everything back. *)
Definition atomically {A} (c : DbM A) : DbM A := fun d =>
  match c d with
  | (d', Ok a) => (d', Ok a)
  | (_, Err e) => (d, Err e)
  end.

(** ** Statements on users *)
Fixpoint users_distinct (l : list user_row) : bool :=
  match l with
  | [] => true
  | u :: l' => negb (existsb (conflicts u) l') && users_distinct l'
  end.

(** UPDATE users: the matching rows, their updated_at set by the trigger; the
    unique indexes are checked. *)
Definition update_users (now : Z) (p : user_row -> bool) (f : user_row -> user_row) : DbM nat := fun d =>
  let l := update_where p (fun u => us_touch now (f u)) (db_users d) in
  if users_distinct l then (set_users l d, Ok (length (List.filter p (db_users d)))) else (d, Err RE_Duplicate).

Definition refers_to_user (pubkeys : list string) (pubkey : string) : bool := bool_decide (pubkey ∈ pubkeys).

(** DELETE FROM users, with what the foreign keys do: personal_keys and
    oauth_authorizations (and through them oauth_refresh_tokens) cascade;
    team_users and account_claim_tokens do not. *)
Definition delete_users (p : user_row -> bool) : DbM nat := fun d =>
  let gone := map us_pubkey (List.filter p (db_users d)) in
  if existsb (fun t => refers_to_user gone (tu_user_pubkey t)) (rows (db_team_users d)) then
    (d, Err (RE_Integrity "team_users_user_pubkey_fkey"))
  else if existsb (fun t => refers_to_user gone (ct_user_pubkey t)) (rows (db_claim_tokens d)) then
    (d, Err (RE_Integrity "account_claim_tokens_user_pubkey_fkey"))
  else
    let auths := map oa_id (List.filter (fun a => refers_to_user gone (oa_user_pubkey a))
                              (rows (db_oauth_authorizations d))) in
    let d1 := set_users (delete_where p (db_users d)) d in
    let d2 := set_personal_keys (delete_where (fun k => refers_to_user gone (pk_user_pubkey k))
                (db_personal_keys d1)) d1 in
    let d3 := set_oauth_authorizations (with_rows (delete_where (fun a => refers_to_user gone (oa_user_pubkey a)))
                (db_oauth_authorizations d2)) d2 in
    (set_refresh_tokens (with_rows (delete_where (fun r => bool_decide (rt_authorization_id r ∈ auths)))
       (db_refresh_tokens d3)) d3,
     Ok (length gone)).

Definition insert_user_row (u : user_row) : DbM unit := insert_user u.
Definition insert_key_row (pubkey : string) (encrypted_secret : list Z) (tenant_id : Z) : DbM unit :=
  personal_keys_create pubkey encrypted_secret tenant_id.

(** The first row of a user or of an email in a tenant. *)
Definition find_user (pubkey : string) (tenant_id : Z) (d : Db) : option user_row :=
  find_first (user_in pubkey tenant_id) (db_users d).
Definition email_in (email : string) (tenant_id : Z) (u : user_row) : bool :=
  bool_decide (us_email u = Some email) && (us_tenant_id u =? tenant_id).
Definition find_user_by_email (email : string) (tenant_id : Z) (d : Db) : option user_row :=
  find_first (email_in email tenant_id) (db_users d).

(** A NOT NULL column of a row type read from a nullable column. *)
Definition not_null {A} (o : option A) : result A RepositoryError :=
  ok_or o (repository_error_from_sqlx (SqlxOther "unexpected null; try decoding as an `Option`")).

(** ** Lookups *)
Record User : Type := { u_pubkey : string; u_created_at : Z; u_updated_at : Z }.
Definition user_of (u : user_row) : User :=
  {| u_pubkey := us_pubkey u; u_created_at := us_created_at u; u_updated_at := us_updated_at u |}.

Definition user_find_by_pubkey (tenant_id : Z) (pubkey : string) (d : Db) : result User RepositoryError :=
  map_err repository_error_from_sqlx (fetch_one (user_of <$> find_user pubkey tenant_id d)).

(** INSERT .. ON CONFLICT (pubkey) DO UPDATE .. RETURNING: the key is unique over
    all tenants, and the update runs the trigger. *)
Definition find_or_create (now tenant_id : Z) (pubkey : string) : DbM User := fun d =>
  match find_first (fun u => bool_decide (us_pubkey u = pubkey)) (db_users d) with
  | Some u => (set_users (update_where (fun u => bool_decide (us_pubkey u = pubkey)) (us_touch now) (db_users d)) d,
               Ok (user_of (us_touch now u)))
  | None => let u := new_user now pubkey tenant_id in (set_users (db_users d ++ [u]) d, Ok (user_of u))
  end.

Definition in_team (pubkey : string) (team_id : Z) (t : team_user_row) : bool :=
  bool_decide (tu_user_pubkey t = pubkey) && (tu_team_id t =? team_id).
Definition is_team_admin (pubkey : string) (team_id : Z) (d : Db) : bool :=
  existsb (fun t => in_team pubkey team_id t && bool_decide (tu_role t = Admin)) (rows (db_team_users d)).
Definition is_team_member (pubkey : string) (team_id : Z) (d : Db) : bool :=
  existsb (fun t => in_team pubkey team_id t && bool_decide (tu_role t = Member)) (rows (db_team_users d)).
Definition is_team_teammate (pubkey : string) (team_id : Z) (d : Db) : bool :=
  existsb (in_team pubkey team_id) (rows (db_team_users d)).
Definition count_team_memberships (tenant_id : Z) (pubkey : string) (d : Db) : nat :=
  length (flat_map (fun t => List.filter (fun m => (tm_id m =? tu_team_id t) && (tm_tenant_id m =? tenant_id))
                               (rows (db_teams d)))
            (List.filter (fun t => bool_decide (tu_user_pubkey t = pubkey)) (rows (db_team_users d)))).

Definition find_pubkey_by_username (username : string) (tenant_id : Z) (d : Db) : option string :=
  us_pubkey <$> find_first (fun u => bool_decide (us_username u = Some username) && (us_tenant_id u =? tenant_id))
                  (db_users d).

Definition find_with_password (email : string) (tenant_id : Z) (d : Db) : option (string * string * bool) :=
  find_map (fun u => if email_in email tenant_id u then
                       (fun h => (us_pubkey u, h, us_email_verified u)) <$> us_password_hash u
                     else None) (db_users d).

(** ** Creation *)
Definition create_with_credentials (now : Z) (pubkey : string) (tenant_id : Z) (email password_hash : string)
    (email_verified : bool) (verification_token : string) (verification_expires_at : Z) : DbM unit :=
  insert_user_row (us_set_verification (Some verification_token) (Some verification_expires_at)
    (us_set_email_verified email_verified (us_set_password_hash (Some password_hash)
      (us_set_email (Some email) (new_user now pubkey tenant_id))))).

Definition create_with_password_verified (now : Z) (pubkey : string) (tenant_id : Z) (email password_hash : string)
    (email_verified : bool) (email_verification_token : option string) : DbM unit :=
  insert_user_row (us_set_verification email_verification_token None
    (us_set_email_verified email_verified (us_set_password_hash (Some password_hash)
      (us_set_email (Some email) (new_user now pubkey tenant_id))))).

Definition ensure_exists (now : Z) (pubkey : string) (tenant_id : Z) : DbM unit := fun d =>
  if fk_user pubkey d then (d, Ok tt)
  else (set_users (db_users d ++ [new_user now pubkey tenant_id]) d, Ok tt).

Definition register_with_personal_key (now : Z) (pubkey : string) (tenant_id : Z) (email : string)
    (password_hash : option string) (verification_token : string) (verification_expires_at : Z)
    (encrypted_secret : list Z) (redirect_uri : option string) : DbM unit :=
  atomically
    (let! _ := insert_user_row (us_set_redirect_uri redirect_uri
                 (us_set_verification (Some verification_token) (Some verification_expires_at)
                   (us_set_password_hash password_hash
                     (us_set_email (Some email) (new_user now pubkey tenant_id))))) in
     insert_key_row pubkey encrypted_secret tenant_id).

(** ON CONFLICT (tenant_id, email) DO NOTHING: an email that is taken gives no
    row; a key that is taken is still an error. *)
Definition find_or_create_passwordless (now : Z) (pubkey : string) (tenant_id : Z) (email : string)
    (encrypted_secret : list Z) : DbM string :=
  atomically
    (let! taken := se_gets (find_user_by_email email tenant_id) in
     match taken with
     | None =>
         let! _ := insert_user_row (us_set_email_verified true
                     (us_set_email (Some email) (new_user now pubkey tenant_id))) in
         let! _ := insert_key_row pubkey encrypted_secret tenant_id in
         se_ret pubkey
     | Some u => se_ret (us_pubkey u)
     end).

(** ** Email verification *)
Record VerificationTokenData : Type := {
  vt_pubkey : string; vt_email_verification_expires_at : option Z; vt_password_hash : option string;
  vt_created_at : Z; vt_email_verified : bool; vt_redirect_uri : option string;
}.
Definition user_find_by_verification_token (token : string) (tenant_id : Z) (d : Db)
  : option VerificationTokenData :=
  (fun u => {| vt_pubkey := us_pubkey u; vt_email_verification_expires_at := us_email_verification_expires_at u;
               vt_password_hash := us_password_hash u; vt_created_at := us_created_at u;
               vt_email_verified := us_email_verified u; vt_redirect_uri := us_redirect_uri u |}) <$>
    find_first (fun u => bool_decide (us_email_verification_token u = Some token) && (us_tenant_id u =? tenant_id))
      (db_users d).

Definition repo_verify_email (now : Z) (pubkey : string) (tenant_id : Z) : DbM unit :=
  let! _ := update_users now (user_in pubkey tenant_id) (us_set_email_verified true) in se_ret tt.

Definition get_verification_status (pubkey : string) (tenant_id : Z) (d : Db)
  : result (option (string * bool * option Z)) RepositoryError :=
  match find_user pubkey tenant_id d with
  | None => Ok None
  | Some u => let? email := not_null (us_email u) in
              Ok (Some (email, us_email_verified u, us_email_verification_sent_at u))
  end.

Definition set_verification_token (now : Z) (pubkey : string) (tenant_id : Z) (token : string) (expires_at : Z)
  : DbM unit :=
  let! _ := update_users now (user_in pubkey tenant_id)
              (fun u => us_set_verification_sent now (us_set_verification (Some token) (Some expires_at) u)) in
  se_ret tt.

Definition get_email_verified (pubkey : string) (tenant_id : Z) (d : Db) : option bool :=
  us_email_verified <$> find_user pubkey tenant_id d.

Definition get_verification_status_by_email (email : string) (tenant_id : Z) (d : Db)
  : option (string * bool * option Z) :=
  (fun u => (us_pubkey u, us_email_verified u, us_email_verification_sent_at u)) <$>
    find_user_by_email email tenant_id d.

Definition set_verification_token_by_email (now : Z) (email : string) (tenant_id : Z) (token : string)
    (expires_at : Z) : DbM unit :=
  let! _ := update_users now (email_in email tenant_id)
              (fun u => us_set_verification_sent now (us_set_verification (Some token) (Some expires_at) u)) in
  se_ret tt.

(** ** Passwords *)
Definition set_password_reset_token (now : Z) (pubkey : string) (tenant_id : Z) (token : string) (expires_at : Z)
  : DbM unit :=
  let! _ := update_users now (user_in pubkey tenant_id) (us_set_reset (Some token) (Some expires_at)) in se_ret tt.

Definition find_by_reset_token (token : string) (tenant_id : Z) (d : Db) : option (string * option Z) :=
  (fun u => (us_pubkey u, us_password_reset_expires_at u)) <$>
    find_first (fun u => bool_decide (us_password_reset_token u = Some token) && (us_tenant_id u =? tenant_id))
      (db_users d).

Definition repo_reset_password (now : Z) (pubkey : string) (tenant_id : Z) (password_hash : string) : DbM unit :=
  let! _ := update_users now (user_in pubkey tenant_id)
              (fun u => us_set_verification None None (us_set_email_verified true
                          (us_set_reset None None (us_set_password_hash (Some password_hash) u)))) in
  se_ret tt.

Definition update_password (now : Z) (pubkey : string) (tenant_id : Z) (password_hash : string) : DbM unit :=
  let! _ := update_users now (user_in pubkey tenant_id) (us_set_password_hash (Some password_hash)) in se_ret tt.

(** SELECT email, password_hash (, email_verified): both are read as Strings. *)
Definition get_credentials_with_verified (pubkey : string) (tenant_id : Z) (d : Db)
  : result (option (string * string * bool)) RepositoryError :=
  match find_user pubkey tenant_id d with
  | None => Ok None
  | Some u => let? email := not_null (us_email u) in
              let? hash := not_null (us_password_hash u) in
              Ok (Some (email, hash, us_email_verified u))
  end.
Definition find_with_password_and_verified (pubkey : string) (tenant_id : Z) (d : Db)
  : result (option (string * string * bool)) RepositoryError :=
  get_credentials_with_verified pubkey tenant_id d.
Definition get_credentials (pubkey : string) (tenant_id : Z) (d : Db)
  : result (option (string * string)) RepositoryError :=
  let? c := get_credentials_with_verified pubkey tenant_id d in Ok (fst <$> c).

(** ** Profile *)
Definition get_username (pubkey : string) (tenant_id : Z) (d : Db) : option (option string) :=
  us_username <$> find_user pubkey tenant_id d.
Definition get_username_by_pubkey (pubkey : string) (d : Db) : option (option string) :=
  us_username <$> find_first (fun u => bool_decide (us_pubkey u = pubkey)) (db_users d).
Definition get_account_status (pubkey : string) (tenant_id : Z) (d : Db) : option (option string * bool) :=
  (fun u => (us_email u, us_email_verified u)) <$> find_user pubkey tenant_id d.

Definition check_username_available (username exclude_pubkey : string) (tenant_id : Z) (d : Db) : bool :=
  negb (existsb (fun u => bool_decide (us_username u = Some username) && negb (bool_decide (us_pubkey u = exclude_pubkey))
                          && (us_tenant_id u =? tenant_id)) (db_users d)).

Definition update_username (now : Z) (pubkey username : string) (tenant_id : Z) : DbM unit :=
  let! _ := update_users now (user_in pubkey tenant_id) (us_set_username (Some username)) in se_ret tt.

(** ** ATProto state *)
Record UserAtprotoState : Type := {
  as_enabled : bool; as_state : option string; as_did : option string; as_error : option string;
  as_updated_at : option Z;
}.
Definition atproto_state_of (u : user_row) : UserAtprotoState := {|
  as_enabled := us_atproto_enabled u; as_state := us_atproto_state u; as_did := us_atproto_did u;
  as_error := us_atproto_error u; as_updated_at := us_atproto_updated_at u |}.

Definition set_atproto_state (now : Z) (pubkey : string) (tenant_id : Z) (enabled : bool)
    (state did error : option string) : DbM unit :=
  let! n := update_users now (user_in pubkey tenant_id) (us_set_atproto enabled state did error now) in
  if (n =? 0)%nat then se_fail (RE_NotFound "user not found") else se_ret tt.
Definition set_atproto_state_by_pubkey (now : Z) (pubkey : string) (enabled : bool)
    (state did error : option string) : DbM unit :=
  let! n := update_users now (fun u => bool_decide (us_pubkey u = pubkey))
              (us_set_atproto enabled state did error now) in
  if (n =? 0)%nat then se_fail (RE_NotFound "user not found") else se_ret tt.
Definition get_atproto_state (pubkey : string) (tenant_id : Z) (d : Db) : option UserAtprotoState :=
  atproto_state_of <$> find_user pubkey tenant_id d.
Definition get_atproto_state_by_pubkey (pubkey : string) (d : Db) : option UserAtprotoState :=
  atproto_state_of <$> find_first (fun u => bool_decide (us_pubkey u = pubkey)) (db_users d).

(** ** Key change *)
Definition orphan (u : user_row) : user_row := us_set_password_hash None (us_set_email None u).
Definition orphan_identity (now : Z) (pubkey : string) (tenant_id : Z) : DbM unit :=
  let! _ := update_users now (user_in pubkey tenant_id) orphan in se_ret tt.

(** DELETE FROM oauth_authorizations WHERE user_pubkey: the refresh tokens go
    with them. *)
Definition delete_user_authorizations (user_pubkey : string) (d : Db) : Db :=
  let mine a := bool_decide (oa_user_pubkey a = user_pubkey) in
  let ids := map oa_id (List.filter mine (rows (db_oauth_authorizations d))) in
  let d1 := set_oauth_authorizations (with_rows (delete_where mine) (db_oauth_authorizations d)) d in
  set_refresh_tokens (with_rows (delete_where (fun r => bool_decide (rt_authorization_id r ∈ ids)))
    (db_refresh_tokens d1)) d1.

Definition change_key_transaction (now : Z) (old_pubkey new_pubkey : string) (tenant_id : Z)
    (email password_hash : string) (encrypted_secret : list Z) : DbM nat :=
  atomically
    (let! oauth_count := se_gets (fun d => length (List.filter (fun a => bool_decide (oa_user_pubkey a = old_pubkey))
                                                    (rows (db_oauth_authorizations d)))) in
     let! _ := se_modify (delete_user_authorizations old_pubkey) in
     let! _ := se_modify (personal_keys_delete_by_user old_pubkey) in
     let! _ := orphan_identity now old_pubkey tenant_id in
     let! _ := insert_user_row (us_set_email_verified true (us_set_password_hash (Some password_hash)
                 (us_set_email (Some email) (new_user now new_pubkey tenant_id)))) in
     let! _ := insert_key_row new_pubkey encrypted_secret tenant_id in
     se_ret oauth_count).

(** ** Preloaded accounts *)
Definition create_preloaded_user (now : Z) (pubkey : string) (tenant_id : Z) (vine_id username : string)
    (display_name : option string) (encrypted_secret : list Z) : DbM unit :=
  atomically
    (let! _ := insert_user_row (us_set_profile (Some vine_id) display_name
                 (us_set_username (Some username) (new_user now pubkey tenant_id))) in
     insert_key_row pubkey encrypted_secret tenant_id).

Definition find_pubkey_by_vine_id (vine_id : string) (tenant_id : Z) (d : Db) : option string :=
  us_pubkey <$> find_first (fun u => bool_decide (us_vine_id u = Some vine_id) && (us_tenant_id u =? tenant_id))
                  (db_users d).

Definition get_claim_info (pubkey : string) (tenant_id : Z) (d : Db) : option (option string * option string) :=
  (fun u => (us_username u, us_display_name u)) <$> find_user pubkey tenant_id d.

Definition claim_account (now : Z) (pubkey : string) (tenant_id : Z) (email password_hash : string) : DbM unit :=
  let! n := update_users now (fun u => user_in pubkey tenant_id u && is_null (us_email u))
              (fun u => us_set_email_verified true (us_set_password_hash (Some password_hash)
                          (us_set_email (Some email) u))) in
  if (n =? 0)%nat then se_fail (RE_NotFound "User not found or already claimed") else se_ret tt.

Definition email_exists (email : string) (tenant_id : Z) (d : Db) : bool :=
  existsb (email_in email tenant_id) (db_users d).

(** ** Deletion *)
Record DeleteAccountResult : Type := {
  teams_removed : nat; oauth_authorizations_deleted : nat; bunker_pubkeys : list string;
}.

Definition delete_account_in (pubkey : string) (tenant_id : Z) : DbM DeleteAccountResult :=
  let! mine := se_gets (fun d => List.filter (fun a => bool_decide (oa_user_pubkey a = pubkey))
                                   (rows (db_oauth_authorizations d))) in
  let! teams := se_gets (fun d => length (List.filter (fun t => bool_decide (tu_user_pubkey t = pubkey))
                                            (rows (db_team_users d)))) in
  let! _ := se_modify (fun d => set_team_users (with_rows (delete_where (fun t => bool_decide (tu_user_pubkey t = pubkey)))
                                                  (db_team_users d)) d) in
  let! _ := se_modify (fun d => set_oauth_codes (delete_where (fun r => bool_decide (oc_user_pubkey r = pubkey)
                                                                 && (oc_tenant_id r =? tenant_id)) (db_oauth_codes d)) d) in
  let! n := delete_users (user_in pubkey tenant_id) in
  if (n =? 0)%nat then se_fail (RE_NotFound "User not found")
  else se_ret {| teams_removed := teams; oauth_authorizations_deleted := length mine;
                 bunker_pubkeys := map oa_bunker_public_key mine |}.

Definition repo_delete_account (pubkey : string) (tenant_id : Z) : DbM DeleteAccountResult :=
  atomically (delete_account_in pubkey tenant_id).

(** The notice and the deletion commit together; open sign-in links go too. *)
Definition delete_customer_account (now : Z) (pubkey : string) (tenant_id : Z) : DbM DeleteAccountResult :=
  atomically
    (let! _ := se_modify (fun d => set_deletion_notices (fst (insert_row (fun i => {| dn_id := i;
                 dn_tenant_id := tenant_id; dn_pubkey := pubkey; dn_deleted_at := now; dn_attempts := 0;
                 dn_next_attempt_at := now |}) (db_deletion_notices d))) d) in
     let! email := se_gets (fun d => u ← find_user pubkey tenant_id d; us_email u) in
     let! _ := se_modify (fun d => set_magic_link_tokens (with_rows (delete_where (fun r =>
                 (ml_tenant_id r =? tenant_id) && bool_decide (Some (ml_email r) = email))) (db_magic_link_tokens d)) d) in
     delete_account_in pubkey tenant_id).
