(* ===== verification/UsersSafety.v ===== *)
(** * Integrity of accounts

    What every operation of the user repository keeps: unique users and no
    dangling references; and what deleting an account or changing its key
    leaves behind. *)
From S2P Require Import Prelude RustStr External Instances Database Tokens AuthTypes OAuthRepo Users.

Definition user_keys (d : Db) : list string := map us_pubkey (db_users d).

(** Unique users; keys, authorizations, memberships and claim tokens belong to
    a user, refresh tokens to an authorization. *)
Record integrity (d : Db) : Prop := {
  int_users : users_distinct (db_users d) = true;
  int_keys : map pk_user_pubkey (db_personal_keys d) ⊆ user_keys d;
  int_auths : map oa_user_pubkey (rows (db_oauth_authorizations d)) ⊆ user_keys d;
  int_refresh : map rt_authorization_id (rows (db_refresh_tokens d)) ⊆ map oa_id (rows (db_oauth_authorizations d));
  int_teams : map tu_user_pubkey (rows (db_team_users d)) ⊆ user_keys d;
  int_claims : map ct_user_pubkey (rows (db_claim_tokens d)) ⊆ user_keys d;
}.

(** ** Uniqueness *)
Lemma same_in_tenant_sym {A} `{EqDecision A} (column : user_row -> option A) u v :
  same_in_tenant column u v = same_in_tenant column v u.
Proof.
  unfold same_in_tenant. rewrite (Z.eqb_sym (us_tenant_id u)).
  destruct (us_tenant_id v =? us_tenant_id u); simpl; [|done].
  destruct (decide (column u = column v)) as [E|E].
  - by rewrite E.
  - rewrite !bool_decide_false by congruence. by rewrite !andb_false_r.
Qed.

Lemma conflicts_sym u v : conflicts u v = conflicts v u.
Proof.
  unfold conflicts. rewrite !(same_in_tenant_sym _ u v). do 3 f_equal. apply bool_decide_ext. split; congruence.
Qed.

Lemma users_distinct_app l u :
  users_distinct (l ++ [u]) = users_distinct l && negb (existsb (conflicts u) l).
Proof.
  induction l as [|v l IH]; simpl; [done|]. rewrite existsb_app, IH. simpl.
  rewrite (conflicts_sym v u). destruct (conflicts u v), (existsb (conflicts v) l), (users_distinct l); done.
Qed.

Lemma users_distinct_delete p l : users_distinct l = true -> users_distinct (delete_where p l) = true.
Proof.
  induction l as [|u l IH]; simpl; [done|]. intros [Hn Hd]%andb_true_iff. destruct (p u); simpl; [by apply IH|].
  rewrite IH by done. rewrite andb_true_r. apply negb_true_iff in Hn. apply negb_true_iff.
  destruct (existsb (conflicts u) (delete_where p l)) eqn:E; [|done].
  apply existsb_elem in E as (v & Hv & Hc). apply delete_where_elem in Hv as [Hv _].
  rewrite <- Hn. symmetry. apply existsb_elem. eauto.
Qed.

(** A change that keeps the unique columns keeps uniqueness. *)
Lemma users_distinct_map g l :
  (forall u v, conflicts (g u) (g v) = conflicts u v) -> users_distinct (map g l) = users_distinct l.
Proof.
  intros Hg. induction l as [|u l IH]; simpl; [done|]. rewrite IH. do 2 f_equal.
  clear IH. induction l as [|v l IH]; simpl; [done|]. by rewrite Hg, IH.
Qed.

Lemma conflicts_new now pubkey tenant_id u :
  conflicts (new_user now pubkey tenant_id) u = bool_decide (pubkey = us_pubkey u).
Proof. unfold conflicts, same_in_tenant. simpl. by rewrite !andb_false_r, !orb_false_r. Qed.

(** Two rows of one table that conflict are the same row. *)
Lemma users_distinct_same l u v :
  users_distinct l = true -> u ∈ l -> v ∈ l -> conflicts u v = true -> u = v.
Proof.
  induction l as [|w l IH]; simpl; [by intros _ ?%not_elem_of_nil|].
  intros [Hn Hd]%andb_true_iff Hu Hv Hc. apply negb_true_iff in Hn.
  apply elem_of_cons in Hu as [->|Hu]; apply elem_of_cons in Hv as [->|Hv]; [done| | |by apply IH].
  - rewrite <- not_true_iff_false, existsb_elem in Hn. destruct Hn. eauto.
  - rewrite <- not_true_iff_false, existsb_elem in Hn. destruct Hn. exists u. by rewrite conflicts_sym.
Qed.

Lemma fk_user_spec pubkey d : fk_user pubkey d = true <-> pubkey ∈ user_keys d.
Proof.
  unfold fk_user, user_keys. rewrite existsb_elem, list_elem_of_fmap. split.
  - intros (u & Hu & E%bool_decide_eq_true). eauto.
  - intros (u & -> & Hu). exists u. split; [done|]. by rewrite bool_decide_true.
Qed.

(** ** Statements that keep integrity *)
Definition keeps {A} (c : DbM A) : Prop := forall d, integrity d -> integrity (fst (c d)).

Lemma keeps_bind {A B} (c : DbM A) (k : A -> DbM B) : keeps c -> (forall a, keeps (k a)) -> keeps (se_bind c k).
Proof.
  intros Hc Hk d Hd. unfold se_bind. specialize (Hc d Hd). destruct (c d) as [d' [a|e]]; [by apply Hk | done].
Qed.
Lemma keeps_pure {A} (f : Db -> result A RepositoryError) : keeps (fun d => (d, f d)).
Proof. by intros d Hd. Qed.
Lemma keeps_ret {A} (a : A) : keeps (se_ret a).
Proof. by intros d Hd. Qed.
Lemma keeps_fail {A} e : keeps (se_fail (A := A) e).
Proof. by intros d Hd. Qed.
Lemma keeps_gets {A} (f : Db -> A) : keeps (se_gets f).
Proof. by intros d Hd. Qed.
Lemma keeps_modify f : (forall d, integrity d -> integrity (f d)) -> keeps (se_modify f).
Proof. intros Hf d Hd. by apply Hf. Qed.
Lemma keeps_atomically {A} (c : DbM A) : keeps c -> keeps (atomically c).
Proof. intros Hc d Hd. unfold atomically. specialize (Hc d Hd). by destruct (c d) as [d' [a|e]]. Qed.

Lemma user_keys_update p f d :
  (forall u, us_pubkey (f u) = us_pubkey u) -> map us_pubkey (update_where p f (db_users d)) = user_keys d.
Proof.
  intros Hf. unfold update_where, user_keys. rewrite map_map. apply map_ext. intros u. by destruct (p u).
Qed.

Lemma integrity_users l d :
  users_distinct l = true -> user_keys d ⊆ map us_pubkey l -> integrity d -> integrity (set_users l d).
Proof.
  intros Hl Hk [? ? ? ? ? ?]. split; simpl; try done; unfold user_keys; simpl; by etrans.
Qed.

Lemma keeps_update_users now p f : (forall u, us_pubkey (f u) = us_pubkey u) -> keeps (update_users now p f).
Proof.
  intros Hf d Hd. unfold update_users. destruct (users_distinct _) eqn:E; [|done].
  apply integrity_users; [done| |done]. rewrite user_keys_update; done.
Qed.

Lemma integrity_add_user u d :
  existsb (conflicts u) (db_users d) = false -> integrity d -> integrity (set_users (db_users d ++ [u]) d).
Proof.
  intros Hu Hd. apply integrity_users; [| |done].
  - by rewrite users_distinct_app, (int_users d Hd), Hu.
  - rewrite map_app. set_solver.
Qed.

Lemma keeps_insert_user u : keeps (insert_user u).
Proof.
  intros d Hd. unfold insert_user. destruct (existsb _ _) eqn:E; [done|]. by apply integrity_add_user.
Qed.

Lemma keeps_personal_keys_create pubkey secret tenant_id : keeps (personal_keys_create pubkey secret tenant_id).
Proof.
  intros d Hd. unfold personal_keys_create. destruct (fk_user pubkey d) eqn:E; simpl; [|done].
  apply fk_user_spec in E. destruct Hd. split; try done. simpl. rewrite map_app. simpl.
  apply list_subseteq_app_iff_l. split; [done|]. intros k ->%list_elem_of_singleton. done.
Qed.

Lemma map_delete_sub {A B} (f : A -> B) p l : map f (delete_where p l) ⊆ map f l.
Proof. intros x. rewrite !list_elem_of_fmap. intros (a & -> & [Ha _]%delete_where_elem). eauto. Qed.

(** Deleting authorizations by user takes their refresh tokens along. *)
Lemma refresh_cascade (mine : OAuthAuthorization -> bool) (auths : list OAuthAuthorization) (refresh : list RefreshToken) :
  map rt_authorization_id refresh ⊆ map oa_id auths ->
  map rt_authorization_id (delete_where (fun r => bool_decide (rt_authorization_id r ∈ map oa_id (List.filter mine auths))) refresh)
    ⊆ map oa_id (delete_where mine auths).
Proof.
  intros Hsub i. rewrite !list_elem_of_fmap. intros (r & -> & [Hr Hb%bool_decide_eq_false]%delete_where_elem).
  assert (Hi : rt_authorization_id r ∈ map oa_id auths) by (apply Hsub, list_elem_of_fmap; eauto).
  apply list_elem_of_fmap in Hi as (a & Ha & Hin). exists a. split; [done|]. apply delete_where_elem. split; [done|].
  destruct (mine a) eqn:E; [|done]. destruct Hb. apply list_elem_of_fmap. exists a. split; [done|].
  apply list_elem_of_In, List.filter_In. split; [by apply list_elem_of_In | done].
Qed.

Lemma keeps_team_users f d :
  (forall l, map tu_user_pubkey (f l) ⊆ map tu_user_pubkey l) -> integrity d ->
  integrity (set_team_users (with_rows f (db_team_users d)) d).
Proof. intros Hf []. split; try done. simpl. etrans; [apply Hf | done]. Qed.

Lemma keeps_untouched d d' :
  db_users d' = db_users d -> db_personal_keys d' = db_personal_keys d ->
  db_oauth_authorizations d' = db_oauth_authorizations d -> db_refresh_tokens d' = db_refresh_tokens d ->
  db_team_users d' = db_team_users d -> db_claim_tokens d' = db_claim_tokens d -> integrity d -> integrity d'.
Proof. intros E1 E2 E3 E4 E5 E6 []. split; unfold user_keys in *; rewrite ?E1, ?E2, ?E3, ?E4, ?E5, ?E6; done. Qed.

Lemma gone_elem p d k :
  refers_to_user (map us_pubkey (List.filter p (db_users d))) k = true <->
  exists u, u ∈ db_users d /\ p u = true /\ us_pubkey u = k.
Proof.
  unfold refers_to_user. rewrite bool_decide_eq_true, list_elem_of_fmap. split.
  - intros (u & -> & Hu). apply list_elem_of_In, List.filter_In in Hu as [Hu Hp]. exists u. by rewrite list_elem_of_In.
  - intros (u & Hu & Hp & <-). exists u. split; [done|]. apply list_elem_of_In, List.filter_In. by rewrite <- list_elem_of_In.
Qed.

(** A user key that survives a deletion. *)
Lemma kept_key p d k :
  k ∈ user_keys d -> refers_to_user (map us_pubkey (List.filter p (db_users d))) k = false ->
  k ∈ map us_pubkey (delete_where p (db_users d)).
Proof.
  unfold user_keys. rewrite !list_elem_of_fmap. intros (u & -> & Hu) Hn. exists u. split; [done|].
  apply delete_where_elem. split; [done|]. destruct (p u) eqn:E; [|done].
  rewrite (proj2 (gone_elem p d (us_pubkey u))) in Hn; [done | eauto].
Qed.

Lemma kept_refs {A} (key : A -> string) p d (l : list A) :
  map key l ⊆ user_keys d ->
  map key (delete_where (fun a => refers_to_user (map us_pubkey (List.filter p (db_users d))) (key a)) l)
    ⊆ map us_pubkey (delete_where p (db_users d)).
Proof.
  intros Hsub k. rewrite list_elem_of_fmap. intros (a & -> & [Ha Hn]%delete_where_elem).
  apply kept_key; [|done]. apply Hsub, list_elem_of_fmap. eauto.
Qed.

Lemma unreferenced {A} (key : A -> string) p d (l : list A) :
  existsb (fun a => refers_to_user (map us_pubkey (List.filter p (db_users d))) (key a)) l = false ->
  map key l ⊆ user_keys d -> map key l ⊆ map us_pubkey (delete_where p (db_users d)).
Proof.
  intros He Hsub k. rewrite list_elem_of_fmap. intros (a & -> & Ha). apply kept_key.
  - apply Hsub, list_elem_of_fmap. eauto.
  - rewrite <- not_true_iff_false, existsb_elem in He. apply not_true_iff_false. intros Hr. apply He. eauto.
Qed.

Lemma keeps_delete_users p : keeps (delete_users p).
Proof.
  intros d Hd. unfold delete_users. destruct (existsb _ (rows (db_team_users d))) eqn:Et; [done|].
  destruct (existsb _ (rows (db_claim_tokens d))) eqn:Ec; [done|]. destruct Hd. split; unfold user_keys; simpl.
  - by apply users_distinct_delete.
  - by apply kept_refs.
  - by apply kept_refs.
  - by apply refresh_cascade.
  - by apply unreferenced.
  - by apply unreferenced.
Qed.

Lemma keeps_delete_authorizations pubkey d : integrity d -> integrity (delete_user_authorizations pubkey d).
Proof.
  intros []. split; try done; simpl.
  - etrans; [apply map_delete_sub | done].
  - by apply refresh_cascade.
Qed.

Lemma keeps_delete_keys pubkey d : integrity d -> integrity (personal_keys_delete_by_user pubkey d).
Proof. intros []. split; try done; simpl. etrans; [apply map_delete_sub | done]. Qed.

Create HintDb keeps.
#[export] Hint Resolve keeps_bind keeps_pure keeps_ret keeps_fail keeps_gets keeps_modify keeps_atomically
  keeps_update_users keeps_insert_user keeps_personal_keys_create keeps_delete_users keeps_delete_authorizations
  keeps_delete_keys map_delete_sub : keeps.

(** ** The operations of the repository *)
Inductive user_op : Type :=
| OpCreateWithCredentials (pubkey : string) (tenant_id : Z) (email hash : string) (verified : bool) (token : string) (expires_at : Z)
| OpCreatePasswordVerified (pubkey : string) (tenant_id : Z) (email hash : string) (verified : bool) (token : option string)
| OpEnsureExists (pubkey : string) (tenant_id : Z)
| OpFindOrCreate (tenant_id : Z) (pubkey : string)
| OpRegister (pubkey : string) (tenant_id : Z) (email : string) (hash : option string) (token : string) (expires_at : Z)
    (secret : list Z) (redirect_uri : option string)
| OpPasswordless (pubkey : string) (tenant_id : Z) (email : string) (secret : list Z)
| OpFinalizeOAuth (pubkey : string) (tenant_id : Z) (email hash token : string) (expires_at : Z) (secret : list Z) (code : string)
| OpPreload (pubkey : string) (tenant_id : Z) (vine_id username : string) (display_name : option string) (secret : list Z)
| OpVerifyEmail (pubkey : string) (tenant_id : Z)
| OpSetVerificationToken (pubkey : string) (tenant_id : Z) (token : string) (expires_at : Z)
| OpSetVerificationTokenByEmail (email : string) (tenant_id : Z) (token : string) (expires_at : Z)
| OpSetResetToken (pubkey : string) (tenant_id : Z) (token : string) (expires_at : Z)
| OpResetPassword (pubkey : string) (tenant_id : Z) (hash : string)
| OpUpdatePassword (pubkey : string) (tenant_id : Z) (hash : string)
| OpUpdateUsername (pubkey username : string) (tenant_id : Z)
| OpSetAtproto (pubkey : string) (tenant_id : Z) (enabled : bool) (state did error : option string)
| OpSetAtprotoByPubkey (pubkey : string) (enabled : bool) (state did error : option string)
| OpOrphan (pubkey : string) (tenant_id : Z)
| OpChangeKey (old_pubkey new_pubkey : string) (tenant_id : Z) (email hash : string) (secret : list Z)
| OpClaim (pubkey : string) (tenant_id : Z) (email hash : string)
| OpDeleteAccount (pubkey : string) (tenant_id : Z)
| OpDeleteCustomer (pubkey : string) (tenant_id : Z)
| OpCreateKey (pubkey : string) (secret : list Z) (tenant_id : Z)
| OpCreateAuthorization (p : CreateOAuthAuthorizationParams).

Definition quiet {A} (c : DbM A) : DbM unit := let! _ := c in se_ret tt.

Definition run_user_op (now : Z) (op : user_op) : DbM unit :=
  match op with
  | OpCreateWithCredentials p t e h v k x => create_with_credentials now p t e h v k x
  | OpCreatePasswordVerified p t e h v k => create_with_password_verified now p t e h v k
  | OpEnsureExists p t => ensure_exists now p t
  | OpFindOrCreate t p => quiet (find_or_create now t p)
  | OpRegister p t e h k x s r => register_with_personal_key now p t e h k x s r
  | OpPasswordless p t e s => quiet (find_or_create_passwordless now p t e s)
  | OpFinalizeOAuth p t e h k x s c => finalize_oauth_registration now p t e h k x s c
  | OpPreload p t v u d s => create_preloaded_user now p t v u d s
  | OpVerifyEmail p t => repo_verify_email now p t
  | OpSetVerificationToken p t k x => set_verification_token now p t k x
  | OpSetVerificationTokenByEmail e t k x => set_verification_token_by_email now e t k x
  | OpSetResetToken p t k x => set_password_reset_token now p t k x
  | OpResetPassword p t h => repo_reset_password now p t h
  | OpUpdatePassword p t h => update_password now p t h
  | OpUpdateUsername p u t => update_username now p u t
  | OpSetAtproto p t e s d r => set_atproto_state now p t e s d r
  | OpSetAtprotoByPubkey p e s d r => set_atproto_state_by_pubkey now p e s d r
  | OpOrphan p t => orphan_identity now p t
  | OpChangeKey o n t e h s => quiet (change_key_transaction now o n t e h s)
  | OpClaim p t e h => claim_account now p t e h
  | OpDeleteAccount p t => quiet (repo_delete_account p t)
  | OpDeleteCustomer p t => quiet (delete_customer_account now p t)
  | OpCreateKey p s t => personal_keys_create p s t
  | OpCreateAuthorization p => quiet (oauth_authorization_create now p)
  end.

Definition run_user_ops (ops : list (Z * user_op)) (d : Db) : Db :=
  foldl (fun d '(now, op) => fst (run_user_op now op d)) d ops.

Lemma conflicts_touch now u v : conflicts (us_touch now u) (us_touch now v) = conflicts u v.
Proof. done. Qed.

Lemma users_distinct_touch now p l : users_distinct (update_where p (us_touch now) l) = users_distinct l.
Proof.
  apply users_distinct_map. intros u v. by destruct (p u), (p v).
Qed.

Lemma keeps_find_or_create now tenant_id pubkey : keeps (find_or_create now tenant_id pubkey).
Proof.
  intros d Hd. unfold find_or_create. destruct (find_first _ _) as [u|] eqn:E; simpl.
  - apply integrity_users; [| |done].
    + rewrite users_distinct_touch. apply Hd.
    + by rewrite user_keys_update.
  - apply integrity_add_user; [|done]. apply not_true_iff_false. rewrite existsb_elem.
    intros (v & Hv & Hc). rewrite conflicts_new in Hc. apply bool_decide_eq_true in Hc.
    rewrite find_first_None in E. specialize (E v Hv). apply bool_decide_eq_false in E. congruence.
Qed.

Lemma keeps_ensure_exists now pubkey tenant_id : keeps (ensure_exists now pubkey tenant_id).
Proof.
  intros d Hd. unfold ensure_exists. destruct (fk_user pubkey d) eqn:E; [done|]. simpl.
  apply integrity_add_user; [|done]. apply not_true_iff_false. rewrite existsb_elem.
  intros (v & Hv & Hc). rewrite conflicts_new in Hc. apply bool_decide_eq_true in Hc. subst.
  apply not_true_iff_false in E. apply E, fk_user_spec, list_elem_of_fmap. eauto.
Qed.

Lemma keeps_finalize now p t e h k x s c : keeps (finalize_oauth_registration now p t e h k x s c).
Proof.
  intros d Hd. unfold finalize_oauth_registration.
  pose proof (keeps_insert_user (us_set_verification (Some k) (Some x) (us_set_password_hash (Some h)
    (us_set_email (Some e) (new_user now p t)))) d Hd) as Hi.
  unfold insert_user in *. destruct (existsb _ _) eqn:E; [done|]. simpl in *. destruct Hi.
  split; try done. simpl. rewrite map_app. simpl. apply list_subseteq_app_iff_l. split; [done|].
  intros q ->%list_elem_of_singleton. unfold user_keys. simpl. rewrite map_app. simpl. set_solver.
Qed.

Lemma keeps_authorization_create now p : keeps (oauth_authorization_create now p).
Proof.
  intros d Hd. unfold oauth_authorization_create. destruct (existsb _ _); [done|].
  destruct (fk_user _ d) eqn:E; simpl; [|done]. apply fk_user_spec in E. destruct Hd. split; try done; simpl.
  - rewrite map_app. simpl. apply list_subseteq_app_iff_l. split; [done|]. by intros q ->%list_elem_of_singleton.
  - rewrite map_app. set_solver.
Qed.

Lemma keeps_delete_account_in pubkey tenant_id : keeps (delete_account_in pubkey tenant_id).
Proof.
  unfold delete_account_in. repeat (apply keeps_bind; [|intros ?]); auto with keeps.
  - apply keeps_modify. intros d Hd. apply keeps_team_users; [|done]. intros l. apply map_delete_sub.
  - apply keeps_modify. intros d. by apply keeps_untouched.
  - destruct (_ =? 0)%nat; auto with keeps.
Qed.

Lemma keeps_delete_customer now pubkey tenant_id : keeps (delete_customer_account now pubkey tenant_id).
Proof.
  unfold delete_customer_account. apply keeps_atomically.
  apply keeps_bind; [|intros _; apply keeps_bind; [|intros email; apply keeps_bind; [|intros _]]]; auto using keeps_delete_account_in with keeps;
    apply keeps_modify; intros d Hd; apply (keeps_untouched d); done.
Qed.
#[export] Hint Resolve keeps_find_or_create keeps_ensure_exists keeps_finalize keeps_authorization_create
  keeps_delete_account_in keeps_delete_customer : keeps.

Lemma keeps_op now op : keeps (run_user_op now op).
Proof.
  destruct op; simpl; unfold quiet, create_with_credentials, create_with_password_verified, register_with_personal_key,
    find_or_create_passwordless, create_preloaded_user, repo_verify_email, set_verification_token,
    set_verification_token_by_email, set_password_reset_token, repo_reset_password, update_password, update_username,
    set_atproto_state, set_atproto_state_by_pubkey, orphan_identity, change_key_transaction, claim_account,
    repo_delete_account, insert_user_row, insert_key_row;
  repeat first [ solve [auto with keeps] | apply keeps_bind; [|intros ?] | apply keeps_atomically | apply keeps_update_users; done
               | case_match ].
Qed.

(** Whatever sequence of operations runs on the user repository, users stay
    unique (by key, and within a tenant by email, username and vine id), and no
    personal key, authorization, refresh token, membership or claim token is
    left without the row it belongs to. *)
Theorem accounts_keep_integrity ops d : integrity d -> integrity (run_user_ops ops d).
Proof.
  revert d. induction ops as [|[now op] ops IH]; intros d Hd; simpl; [done|]. by apply IH, keeps_op.
Qed.

(** ** Deleting an account *)
Lemma atomically_err {A} (c : DbM A) d d' e : atomically c d = (d', Err e) -> d' = d.
Proof. unfold atomically. destruct (c d) as [d1 [a|x]]; congruence. Qed.
Lemma atomically_ok {A} (c : DbM A) d d' a : atomically c d = (d', Ok a) -> c d = (d', Ok a).
Proof. unfold atomically. destruct (c d) as [d1 [b|e]]; congruence. Qed.

Lemma user_in_spec pubkey tenant_id u :
  user_in pubkey tenant_id u = true <-> us_pubkey u = pubkey /\ us_tenant_id u = tenant_id.
Proof. unfold user_in. rewrite andb_true_iff, bool_decide_eq_true, Z.eqb_eq. done. Qed.

Lemma conflicts_pubkey u v : us_pubkey u = us_pubkey v -> conflicts u v = true.
Proof. intros E. unfold conflicts. by rewrite bool_decide_true. Qed.

(** A user row that is deleted by key and tenant. *)
Lemma filter_user pubkey tenant_id l :
  length (List.filter (user_in pubkey tenant_id) l) <> 0%nat -> exists v, v ∈ l /\ user_in pubkey tenant_id v = true.
Proof.
  destruct (List.filter _ l) as [|v f] eqn:E; [done|]. intros _. exists v.
  assert (Hv : In v (List.filter (user_in pubkey tenant_id) l)) by (rewrite E; by left).
  apply List.filter_In in Hv as [Hv ?]. by rewrite list_elem_of_In.
Qed.

(** The keys such a deletion takes: that key. *)
Lemma gone_user pubkey tenant_id d v :
  v ∈ db_users d -> user_in pubkey tenant_id v = true ->
  forall k, refers_to_user (map us_pubkey (List.filter (user_in pubkey tenant_id) (db_users d))) k = bool_decide (k = pubkey).
Proof.
  intros Hv Hin k. apply eq_iff_eq_true. rewrite gone_elem, bool_decide_eq_true. split.
  - intros (u & _ & [? _]%user_in_spec & <-). done.
  - intros ->. exists v. by apply user_in_spec in Hin as Hin'; destruct Hin'.
Qed.

Lemma delete_where_ext {A} (p q : A -> bool) l : (forall a, p a = q a) -> delete_where p l = delete_where q l.
Proof. intros E. unfold delete_where. apply List.filter_ext. intros a. by rewrite E. Qed.

(** What a successful deletion leaves: every table without the user's rows. *)
Lemma delete_account_run pubkey tenant_id d d' r :
  integrity d -> repo_delete_account pubkey tenant_id d = (d', Ok r) ->
  (exists v, v ∈ db_users d /\ user_in pubkey tenant_id v = true) /\
  db_users d' = delete_where (user_in pubkey tenant_id) (db_users d) /\
  db_personal_keys d' = delete_where (fun k => bool_decide (pk_user_pubkey k = pubkey)) (db_personal_keys d) /\
  rows (db_oauth_authorizations d') =
    delete_where (fun a => bool_decide (oa_user_pubkey a = pubkey)) (rows (db_oauth_authorizations d)) /\
  rows (db_team_users d') = delete_where (fun t => bool_decide (tu_user_pubkey t = pubkey)) (rows (db_team_users d)) /\
  db_oauth_codes d' = delete_where (fun c => bool_decide (oc_user_pubkey c = pubkey) && (oc_tenant_id c =? tenant_id))
                        (db_oauth_codes d) /\
  bunker_pubkeys r = map oa_bunker_public_key
    (List.filter (fun a => bool_decide (oa_user_pubkey a = pubkey)) (rows (db_oauth_authorizations d))).
Proof.
  intros Hd Hrun. unfold repo_delete_account in Hrun. apply atomically_ok in Hrun.
  unfold delete_account_in in Hrun. se_inv.
  match goal with H : delete_users _ _ = (_, Ok ?m) |- _ => rename H into Hdel; rename m into n end.
  match goal with H : (if _ then _ else _) _ = _ |- _ => rename H into Hif end.
  destruct (n =? 0)%nat eqn:En; [done|]. injection Hif as <- <-. apply Nat.eqb_neq in En.
  unfold delete_users in Hdel. simpl in Hdel.
  destruct (existsb _ _); [done|]. destruct (existsb _ _); [done|]. injection Hdel as <- <-.
  rewrite length_map in En. apply filter_user in En as (v & Hv & Hin).
  pose proof (gone_user _ _ _ v Hv Hin) as Hgone. split; [eauto|].
  simpl. repeat split; try done; apply delete_where_ext; intros; apply Hgone.
Qed.

Lemma keys_deleted {A} (key : A -> string) pubkey l :
  Forall (fun x => key x <> pubkey) (delete_where (fun x => bool_decide (key x = pubkey)) l).
Proof. apply Forall_forall. intros x [_ Hx%bool_decide_eq_false]%delete_where_elem. done. Qed.

(** The account's own rows, and the bunkers the caller has to unload. *)
Lemma delete_account_facts pubkey tenant_id d d' r :
  integrity d -> repo_delete_account pubkey tenant_id d = (d', Ok r) ->
  pubkey ∉ user_keys d' /\
  Forall (fun k => pk_user_pubkey k <> pubkey) (db_personal_keys d') /\
  Forall (fun a => oa_user_pubkey a <> pubkey) (rows (db_oauth_authorizations d')) /\
  (forall a, a ∈ rows (db_oauth_authorizations d) -> oa_user_pubkey a = pubkey ->
     oa_bunker_public_key a ∈ bunker_pubkeys r).
Proof.
  intros Hd Hrun. pose proof (delete_account_run _ _ _ _ _ Hd Hrun) as ((v & Hv & Hin') & Hu & Hk & Ha & _ & _ & Hb).
  split; [|split; [rewrite Hk; apply keys_deleted|split; [rewrite Ha; apply keys_deleted|]]].
  - intros Hin. apply (fk_user_spec pubkey) in Hin. apply existsb_elem in Hin as (u & Hin & E%bool_decide_eq_true).
    rewrite Hu in Hin. apply delete_where_elem in Hin as [Hin Hnot].
    assert (u = v) as ->; [|by rewrite Hin' in Hnot].
    apply (users_distinct_same _ _ _ (int_users d Hd) Hin Hv), conflicts_pubkey.
    apply user_in_spec in Hin' as [-> _]. done.
  - intros a Hin E. rewrite Hb. apply list_elem_of_fmap. exists a. split; [done|].
    apply list_elem_of_In, List.filter_In. split; [by apply list_elem_of_In | by rewrite bool_decide_true].
Qed.

(** A deleted account is gone: neither a user row, a personal key, an
    authorization nor a membership carries its key, no refresh token is left
    without its authorization, and the caller gets the bunker key of every
    authorization that went, to tell the signer.  Other users keep their rows. *)
Theorem deleted_account_is_gone pubkey tenant_id d d' r :
  integrity d -> repo_delete_account pubkey tenant_id d = (d', Ok r) ->
  integrity d' /\ pubkey ∉ user_keys d' /\
  Forall (fun k => pk_user_pubkey k <> pubkey) (db_personal_keys d') /\
  Forall (fun a => oa_user_pubkey a <> pubkey) (rows (db_oauth_authorizations d')) /\
  Forall (fun t => tu_user_pubkey t <> pubkey) (rows (db_team_users d')) /\
  (forall a, a ∈ rows (db_oauth_authorizations d) -> oa_user_pubkey a = pubkey ->
     oa_bunker_public_key a ∈ bunker_pubkeys r) /\
  (forall u, u ∈ db_users d -> us_pubkey u <> pubkey -> u ∈ db_users d') /\
  (forall a, a ∈ rows (db_oauth_authorizations d) -> oa_user_pubkey a <> pubkey ->
     a ∈ rows (db_oauth_authorizations d')).
Proof.
  intros Hd Hrun. pose proof (delete_account_run _ _ _ _ _ Hd Hrun) as (_ & Hu & _ & Ha & Ht & _).
  destruct (delete_account_facts _ _ _ _ _ Hd Hrun) as (Hgone & Hk & Hauth & Hb).
  assert (Hd' : integrity d').
  { pose proof (keeps_atomically _ (keeps_delete_account_in pubkey tenant_id) d Hd) as H.
    unfold repo_delete_account in Hrun. by rewrite Hrun in H. }
  do 4 (split; [done|]). split; [rewrite Ht; apply keys_deleted|]. split; [done|]. split.
  - intros u Hin E. rewrite Hu. apply delete_where_elem. split; [done|]. apply not_true_iff_false.
    rewrite user_in_spec. naive_solver.
  - intros a Hin E. rewrite Ha. apply delete_where_elem. split; [done|]. by rewrite bool_decide_false.
Qed.

(** An account a claim link was ever made for cannot be deleted: the row of
    the claim token, used or not, refers to the user and does not cascade, so the
    whole transaction is rolled back. *)
Theorem claim_token_blocks_deletion pubkey tenant_id d u ct :
  u ∈ db_users d -> user_in pubkey tenant_id u = true ->
  ct ∈ rows (db_claim_tokens d) -> ct_user_pubkey ct = pubkey ->
  repo_delete_account pubkey tenant_id d = (d, Err (RE_Integrity "account_claim_tokens_user_pubkey_fkey")).
Proof.
  intros Hu Hin Hct Hpk. pose proof (gone_user _ _ _ u Hu Hin) as Hgone.
  unfold repo_delete_account, atomically, delete_account_in, se_bind, se_gets, se_modify, delete_users. simpl.
  replace (existsb _ (delete_where _ _)) with false.
  - replace (existsb _ (rows (db_claim_tokens d))) with true; [done|].
    symmetry. apply existsb_elem. exists ct. split; [done|]. rewrite Hgone, Hpk. by apply bool_decide_eq_true.
  - symmetry. apply not_true_iff_false. rewrite existsb_elem. intros (t & [_ Ht]%delete_where_elem & Hr).
    rewrite Hgone in Hr. congruence.
Qed.

(** ** Changing the key of an account *)
Lemma find_map_first {A B} (f : A -> option B) l a b :
  a ∈ l -> f a = Some b -> (forall a' b', a' ∈ l -> f a' = Some b' -> a' = a) -> find_map f l = Some b.
Proof.
  intros Ha Hf Hu. induction l as [|x l IH]; simpl; [by apply not_elem_of_nil in Ha|].
  destruct (f x) as [c|] eqn:E.
  - assert (x = a) as -> by (eapply Hu; [constructor | done]). congruence.
  - apply IH; [|intros; eapply Hu; [by constructor | done]].
    apply elem_of_cons in Ha as [->|Ha]; [congruence | done].
Qed.

Lemma email_in_spec email tenant_id u :
  email_in email tenant_id u = true <-> us_email u = Some email /\ us_tenant_id u = tenant_id.
Proof. unfold email_in. rewrite andb_true_iff, bool_decide_eq_true, Z.eqb_eq. done. Qed.

Lemma conflicts_email email tenant_id u v :
  email_in email tenant_id u = true -> email_in email tenant_id v = true -> conflicts u v = true.
Proof.
  intros [Hu1 Hu2]%email_in_spec [Hv1 Hv2]%email_in_spec. unfold conflicts.
  replace (same_in_tenant us_email u v) with true; [by rewrite orb_true_r|].
  unfold same_in_tenant. rewrite Hu1, Hu2, Hv1, Hv2, Z.eqb_refl. by rewrite bool_decide_true.
Qed.

(** In a table of distinct users, the row with an email is the one found. *)
Lemma find_with_password_unique email tenant_id d u h :
  users_distinct (db_users d) = true -> u ∈ db_users d -> email_in email tenant_id u = true ->
  us_password_hash u = Some h ->
  find_with_password email tenant_id d = Some (us_pubkey u, h, us_email_verified u).
Proof.
  intros Hd Hu He Hh. unfold find_with_password. apply (find_map_first _ _ u); [done| |].
  - by rewrite He, Hh.
  - intros v b Hv. destruct (email_in email tenant_id v) eqn:Ev; [|done]. intros _.
    apply (users_distinct_same (db_users d)); [done..|]. by eapply conflicts_email.
Qed.

Lemma insert_user_ok u d d' x : insert_user u d = (d', Ok x) ->
  d' = set_users (db_users d ++ [u]) d /\ us_pubkey u ∉ user_keys d.
Proof.
  unfold insert_user. destruct (existsb _ _) eqn:E; [done|]. intros [= <- _]. split; [done|].
  unfold user_keys. rewrite list_elem_of_fmap. intros (v & Hv & Hin).
  rewrite <- not_true_iff_false, existsb_elem in E. apply E. exists v. split; [done|]. by apply conflicts_pubkey.
Qed.

Lemma personal_keys_create_ok p s t d d' x :
  personal_keys_create p s t d = (d', Ok x) -> d' = insert_personal_key p s t d.
Proof. unfold personal_keys_create. destruct (negb _); [done|]. by intros [= <- _]. Qed.

Lemma update_users_ok now p f d d' n :
  update_users now p f d = (d', Ok n) ->
  d' = set_users (update_where p (fun u => us_touch now (f u)) (db_users d)) d /\
  n = length (List.filter p (db_users d)).
Proof. unfold update_users. destruct (users_distinct _); [|done]. by intros [= <- <-]. Qed.

(** Changing the key moves the account: the email then logs in to the new
    key with the same password hash, verified; the old key keeps no
    authorization, no personal key, no email and no password; and the new key
    has exactly the secret that was given. *)
Theorem change_key_moves_account now old_pubkey new_pubkey tenant_id email hash secret d d' n :
  integrity d -> old_pubkey <> new_pubkey ->
  change_key_transaction now old_pubkey new_pubkey tenant_id email hash secret d = (d', Ok n) ->
  integrity d' /\
  find_with_password email tenant_id d' = Some (new_pubkey, hash, true) /\
  Forall (fun a => oa_user_pubkey a <> old_pubkey) (rows (db_oauth_authorizations d')) /\
  n = length (List.filter (fun a => bool_decide (oa_user_pubkey a = old_pubkey)) (rows (db_oauth_authorizations d))) /\
  Forall (fun k => pk_user_pubkey k <> old_pubkey) (db_personal_keys d') /\
  Forall (fun u => user_in old_pubkey tenant_id u = true -> us_email u = None /\ us_password_hash u = None)
    (db_users d') /\
  find_encrypted_key_by_tenant tenant_id new_pubkey d' = Some secret.
Proof.
  intros Hd Hne Hrun.
  assert (Hd' : integrity d').
  { pose proof (keeps_op now (OpChangeKey old_pubkey new_pubkey tenant_id email hash secret) d Hd) as H.
    simpl in H. unfold quiet, se_bind in H. by rewrite Hrun in H. }
  unfold change_key_transaction in Hrun. apply atomically_ok in Hrun. unfold orphan_identity, insert_key_row in Hrun.
  se_inv. repeat match goal with
  | H : update_users _ _ _ _ = _ |- _ => apply update_users_ok in H as [-> _]
  | H : personal_keys_create _ _ _ _ = _ |- _ => apply personal_keys_create_ok in H as ->
  end.
  match goal with H : insert_user_row _ _ = _ |- _ => apply insert_user_ok in H as [-> Hnew] end. simpl in Hnew.
  unfold user_keys in Hnew. simpl in Hnew. rewrite user_keys_update in Hnew by done.
  split; [done|]. split; [|split; [|split; [done|split; [|split]]]]; simpl.
  - refine (find_with_password_unique _ _ _ (us_set_email_verified true (us_set_password_hash (Some hash)
      (us_set_email (Some email) (new_user now new_pubkey tenant_id)))) hash (int_users _ Hd') _ _ eq_refl).
    + apply elem_of_app. right. constructor.
    + by apply email_in_spec.
  - apply Forall_forall. by intros a [_ ?%bool_decide_eq_false]%delete_where_elem.
  - apply Forall_app. split; [|by apply Forall_singleton].
    apply Forall_forall. by intros k [_ ?%bool_decide_eq_false]%delete_where_elem.
  - apply Forall_app. split.
    + apply Forall_forall. intros u Hu. apply update_where_elem in Hu as [(v & _ & _ & ->) | [_ Hf]]; [done|congruence].
    + apply Forall_singleton. intros [E _]%user_in_spec. simpl in E. congruence.
  - unfold find_encrypted_key_by_tenant. simpl.
    rewrite (find_first_unique _ _ {| pk_user_pubkey := new_pubkey; pk_encrypted_secret_key := secret;
      pk_tenant_id := tenant_id |}); [done| | |].
    + apply elem_of_app. right. constructor.
    + simpl. by rewrite Z.eqb_refl, bool_decide_true.
    + intros k [Hk|Hk%list_elem_of_singleton]%elem_of_app Hp; [|done].
      apply delete_where_elem in Hk as [Hk _]. apply andb_true_iff in Hp as [_ Hp%bool_decide_eq_true].
      destruct Hnew. rewrite <- Hp. apply (int_keys _ Hd). apply list_elem_of_fmap. eauto.
Qed.

(** ** Witnesses *)
Definition account_db : Db :=
  set_personal_keys [{| pk_user_pubkey := "Pu"; pk_encrypted_secret_key := [1]; pk_tenant_id := 1 |}]
    (set_users [us_set_password_hash (Some "Hpw") (us_set_email (Some "u@b") (new_user 0 "Pu" 1));
                us_set_username (Some "ann") (new_user 0 "Pv" 1)] empty_db).

Lemma account_db_integrity : integrity account_db.
Proof. split; vm_compute; [reflexivity| set_solver..]. Qed.

Lemma accounts_keep_integrity_witness :
  integrity (run_user_ops [(1, OpRegister "Pw" 1 "w@b" None "t" 9 [2] None); (2, OpUpdateUsername "Pu" "ann" 1);
                           (3, OpDeleteAccount "Pv" 1)] account_db).
Proof. apply accounts_keep_integrity. apply account_db_integrity. Defined.

Lemma deleted_account_is_gone_witness :
  exists d' r, repo_delete_account "Pu" 1 account_db = (d', Ok r) /\ integrity d'.
Proof.
  destruct (run_ok (repo_delete_account "Pu" 1 account_db)) as (d' & r & E); [vm_compute; reflexivity|].
  exists d', r. split; [exact E|].
  exact (proj1 (deleted_account_is_gone _ _ _ _ _ account_db_integrity E)).
Defined.

Definition claimed_db : Db :=
  set_claim_tokens (fst (claim_create 0 "tok" "Pu" None 1 empty_table)) account_db.

Lemma claim_token_blocks_deletion_witness :
  repo_delete_account "Pu" 1 claimed_db = (claimed_db, Err (RE_Integrity "account_claim_tokens_user_pubkey_fkey")).
Proof.
  apply (claim_token_blocks_deletion "Pu" 1 claimed_db
    (us_set_password_hash (Some "Hpw") (us_set_email (Some "u@b") (new_user 0 "Pu" 1)))
    {| ct_id := 1; ct_token := "tok"; ct_user_pubkey := "Pu"; ct_expires_at := 604800; ct_used_at := None;
       ct_created_at := 0; ct_created_by_pubkey := None; ct_tenant_id := 1 |});
    [constructor | vm_compute; reflexivity | constructor | reflexivity].
Defined.

Lemma change_key_moves_account_witness :
  exists d' n, change_key_transaction 5 "Pu" "Pn" 1 "u@b" "Hpw" [3] account_db = (d', Ok n) /\
    find_with_password "u@b" 1 d' = Some ("Pn", "Hpw", true).
Proof.
  destruct (run_ok (change_key_transaction 5 "Pu" "Pn" 1 "u@b" "Hpw" [3] account_db)) as (d' & n & E);
    [vm_compute; reflexivity|].
  exists d', n. split; [exact E|].
  refine (proj1 (proj2 (change_key_moves_account _ _ _ _ _ _ _ _ _ _ account_db_integrity _ E))). discriminate.
Defined.
