(* ===== verification/OAuth.v ===== *)
(** * The OAuth token endpoint

    api/src/api/http/oauth.rs, POST /oauth/token: PKCE, the authorization code
    grant with its deferred registration, the creation of an authorization, and
    the refresh grant; with the access token of api/src/api/http/auth.rs.  The
    randomness an issue consumes (connection secret, handle, refresh token) is an
    argument.  Verification emails, metrics and debug log lines are not modelled. *)
From S2P Require Import Prelude RustStr External Instances Database Samples Permissions Policies AuthTypes Ucan HttpRpc Tokens OAuthRepo.

(** ** Parameters: the url crate and the ucan builder *)
Record Url : Type := { url_scheme : string; url_host_str : option string; url_port : option Z }.
Class UrlLib := { url_parse : string -> option Url; urlencode : string -> string }.

(** [UcanBuilder] with an issuer key, an audience, a lifetime and one fact,
    built at a time, signed and encoded; the error is the Debug text of the
    AuthError it becomes. *)
Class UcanMint `{Nostr} := {
  ucan_mint : Z -> SecretKey -> string -> Z -> json -> result string string;
}.

(** ** Errors *)
Inductive OAuthError : Type :=
| OE_TooManyRequests
| OE_Unauthorized
| OE_InvalidRequest (msg : string)
| OE_InvalidGrant (msg : string)
| OE_Database (e : sqlx_error)
| OE_Encryption (msg : string)
| OE_ServerError (msg : string).

(** A handler returns an error or panics. *)
Inductive oauth_abort : Type := Returned (e : OAuthError) | Panicked.

Definition oauth_error_of_repository (e : RepositoryError) : OAuthError :=
  OE_InvalidRequest (repository_error_str e).

Definition oauth_status (e : OAuthError) : Z :=
  match e with
  | OE_TooManyRequests => 429
  | OE_Unauthorized => 401
  | OE_InvalidRequest _ => 400
  | OE_InvalidGrant _ => 400
  | OE_Database _ => 503
  | OE_Encryption _ => 503
  | OE_ServerError _ => 500
  end.

Definition invalid {A} (msg : string) : result A oauth_abort := Err (Returned (OE_InvalidRequest msg)).

(** ** Scopes, verifiers, origins *)
Definition parse_policy_scope (scope : string) : result string oauth_abort :=
  match strip_prefix "policy:" scope with
  | Some policy_slug =>
      if bool_decide (policy_slug = "") then
        invalid "Policy scope cannot be empty. Use 'policy:social', 'policy:readonly', etc."
      else Ok policy_slug
  | None => invalid ("Invalid scope '" +:+ scope +:+ "'. Use 'policy:social', 'policy:readonly', etc. See GET /api/policies for available options.")
  end.

Definition resolve_policy_from_scope (d : Db) (scope : string) : result Z oauth_abort :=
  let? policy_slug := parse_policy_scope scope in
  match policy_find_by_slug d policy_slug with
  | Ok p => Ok (pol_id p)
  | Err (RE_NotFound _) =>
      invalid ("Unknown policy '" +:+ policy_slug +:+ "'. See GET /api/policies for available options.")
  | Err e => Err (Returned (OE_Database (SqlxOther ("encountered unexpected or invalid data: " +:+ repository_error_str e))))
  end.

Definition extract_nsec_from_verifier_public (verifier : string) : option string :=
  match split_once "." verifier with
  | Some (_, nsec) =>
      if starts_with "nsec1" nsec || ((len nsec =? 64) && all_bytes is_ascii_hexdigit nsec)
      then Some nsec else None
  | None => None
  end.

(** The log line of a failed S256 check slices the stored challenge. *)
Definition validate_pkce `{Digests} (code_verifier code_challenge code_challenge_method : string)
  : result unit oauth_abort :=
  if bool_decide (code_challenge_method = "S256") then
    let computed_challenge := sha256_b64url code_verifier in
    if negb (bool_decide (computed_challenge = code_challenge)) then
      match prefix_str computed_challenge 16, prefix_str code_challenge 16 with
      | Some _, Some _ => invalid "Invalid code_verifier: PKCE validation failed"
      | _, _ => Err Panicked
      end
    else Ok tt
  else if bool_decide (code_challenge_method = "plain") then
    if negb (bool_decide (code_verifier = code_challenge)) then
      invalid "Invalid code_verifier: plain PKCE validation failed"
    else Ok tt
  else invalid ("Unsupported code_challenge_method: " +:+ code_challenge_method).

Definition extract_origin `{UrlLib} (redirect_uri : string) : result string oauth_abort :=
  let? url := ok_or (url_parse redirect_uri) (Returned (OE_InvalidRequest "Invalid redirect_uri")) in
  let scheme := url_scheme url in
  let? host := ok_or (url_host_str url) (Returned (OE_InvalidRequest "redirect_uri missing host")) in
  if bool_decide (scheme = "http") || bool_decide (scheme = "https") then
    let is_localhost := bool_decide (host ∈ ["localhost"; "127.0.0.1"; "[::1]"; "::1"]) in
    if bool_decide (scheme = "http") && negb is_localhost then
      invalid "HTTPS required for non-localhost redirect_uri"
    else Ok (match url_port url with
             | Some port => scheme +:+ "://" +:+ host +:+ ":" +:+ print_Z port
             | None => scheme +:+ "://" +:+ host
             end)
  else invalid ("Invalid redirect_uri scheme '" +:+ scheme +:+ "'. Only https:// URLs are allowed (http:// for localhost only).").

(** ** Requests and responses *)
Record TokenRequest : Type := {
  rq_grant_type : option string; rq_code : option string; rq_client_id : string;
  rq_redirect_uri : option string; rq_code_verifier : option string; rq_refresh_token : option string;
}.

Record TokenPolicyInfo : Type := { tp_info : PolicyInfo; tp_permissions : list PermissionDisplay }.

Record TokenResponse : Type := {
  tr_bunker_url : string; tr_access_token : option string; tr_token_type : string; tr_expires_in : Z;
  tr_scope : option string; tr_policy : option TokenPolicyInfo;
  tr_authorization_handle : option string; tr_refresh_token : option string;
}.

Section oauth.
Context `{HN : Nostr, HC : !NostrCrypto, HS : !Serde, HX : !Secrets, HD : Digests,
          HE : !Encodings, HU : UcanLib, HM : !UcanMint, HL : UrlLib}.

(** What the endpoint is configured with: the server's keys, BUNKER_RELAYS,
    TOKEN_EXPIRY_SECONDS when it parses, and whether a signer daemon listens. *)
Record oauth_config : Type := {
  cfg_server_keys : SecretKey; cfg_bunker_relays : option string;
  cfg_token_expiry : option Z; cfg_auth_tx : bool;
}.

Definition DEFAULT_TOKEN_EXPIRY_HOURS : Z := 24.
Definition EMAIL_VERIFICATION_EXPIRY_HOURS : Z := 24.
Definition token_expiry_seconds (cfg : oauth_config) : Z :=
  default (DEFAULT_TOKEN_EXPIRY_HOURS * 3600) (cfg_token_expiry cfg).

(** The database and handler cache, and the commands sent to the signer. *)
Record oauth_state : Type := { os_rpc : rpc_state; os_sent : list AuthorizationCommand }.
Definition os_db (s : oauth_state) : Db := rs_db (os_rpc s).
Definition set_os_db (d : Db) (s : oauth_state) : oauth_state :=
  {| os_rpc := {| rs_db := d; rs_cache := rs_cache (os_rpc s) |}; os_sent := os_sent s |}.

(** A statement of a repository run by a handler. *)
Definition on_db {A} (f : Db -> Db * result A RepositoryError) : SE oauth_state oauth_abort A := fun s =>
  let '(d, r) := f (os_db s) in (set_os_db d s, map_err (fun e => Returned (oauth_error_of_repository e)) r).
Definition exec_db (f : Db -> Db) : SE oauth_state oauth_abort unit := se_modify (fun s => set_os_db (f (os_db s)) s).

(** The randomness of one issue: the pair drawn from the secret pool, the
    authorization handle and the refresh token. *)
Record draw : Type := {
  dr_secret_pair : option (string * string); dr_handle : string; dr_refresh_token : string;
}.

(** ** Access tokens *)
Definition ucan_facts_of (tenant_id : Z) (email redirect_origin : string) (bunker_pubkey : option string)
    (is_first_party : bool) (admin_role : option string) : json :=
  JObject ([("tenant_id", JInt tenant_id); ("email", JString email); ("redirect_origin", JString redirect_origin)]
    ++ match bunker_pubkey with Some b => [("bunker_pubkey", JString b)] | None => [] end
    ++ (if is_first_party then [("first_party", JBool true)] else [])
    ++ match admin_role with Some r => [("admin_role", JString r)] | None => [] end).

Definition generate_server_signed_ucan (now : Z) (cfg : oauth_config) (user_pubkey : PublicKey) (tenant_id : Z)
    (email redirect_origin : string) (bunker_pubkey : option string) (is_first_party : bool)
    (admin_role : option string) : result string string :=
  ucan_mint now (cfg_server_keys cfg) (nostr_pubkey_to_did user_pubkey)
    (token_expiry_seconds cfg mod 2 ^ 64)
    (ucan_facts_of tenant_id email redirect_origin bunker_pubkey is_first_party admin_role).

(** [PublicKey::from_hex] of the user, then the token. *)
Definition access_token_for (now : Z) (cfg : oauth_config) (user_pubkey : string) (tenant_id : Z)
    (email redirect_origin bunker_pubkey : string) (is_headless : bool) : result string oauth_abort :=
  let? pk := map_err (fun e => Returned (OE_InvalidRequest ("Invalid public key: " +:+ e)))
               (pk_from_hex user_pubkey) in
  map_err (fun e => Returned (OE_InvalidRequest ("UCAN generation failed: " +:+ e)))
    (generate_server_signed_ucan now cfg pk tenant_id email redirect_origin (Some bunker_pubkey) is_headless None).

(** Decrypting the user's key and deriving the bunker key from it. *)
Definition bunker_keys_of (encrypted_user_key : list Z) (secret_hash : string) : result SecretKey oauth_abort :=
  let? decrypted := map_err (fun e => Returned (OE_Encryption ("Failed to decrypt user key: " +:+ e)))
                      (km_decrypt encrypted_user_key) in
  let? user_secret_key := map_err (fun e => Returned (OE_InvalidRequest ("Invalid secret key: " +:+ e)))
                            (sk_from_slice decrypted) in
  ok_or (derive_bunker_keys user_secret_key secret_hash) Panicked.

Definition relay_params (cfg : oauth_config) : result string oauth_abort :=
  let? relays := ok_or (get_bunker_relays (cfg_bunker_relays cfg)) Panicked in
  Ok (join "&" (map (fun r => "relay=" +:+ urlencode r) relays)).

Definition token_policy_info (d : Db) (p : Policy) : TokenPolicyInfo :=
  {| tp_info := to_info p;
     tp_permissions := match permission_displays d p with Ok l => l | Err _ => [] end |}.

(** ** Creating an authorization *)
Record CreateAuthorizationParams : Type := {
  ca_tenant_id : Z; ca_user_pubkey : string; ca_email : string; ca_client_id : string; ca_scope : string;
  ca_redirect_uri : string; ca_nsec_from_verifier : option string; ca_previous_auth_id : option Z;
  ca_is_headless : bool; ca_policy_id : option Z;
}.

(** The user's encrypted key, created from the nsec of the verifier when there
    is none. *)
Definition keys_for_authorization (p : CreateAuthorizationParams) : SE oauth_state oauth_abort (list Z) :=
  let! existing := se_gets (fun s => find_encrypted_key_for_tenant (os_db s) (ca_user_pubkey p) (ca_tenant_id p)) in
  match existing with
  | Some existing_key => se_ret existing_key
  | None =>
      match ca_nsec_from_verifier p with
      | Some nsec_str =>
          let! keys := se_lift (map_err (fun e => Returned (OE_InvalidRequest
                         ("Invalid nsec in code_verifier: " +:+ e))) (keys_parse nsec_str)) in
          let got := pk_to_hex (pk_of keys) in
          if negb (bool_decide (got = ca_user_pubkey p)) then
            se_lift (invalid ("nsec in code_verifier doesn't match registered pubkey. Expected: "
                              +:+ ca_user_pubkey p +:+ ", got: " +:+ got))
          else
            let! encrypted_secret := se_lift (map_err (fun e => Returned (OE_Encryption e))
                                       (km_encrypt (sk_to_bytes keys))) in
            let! _ := on_db (personal_keys_create (ca_user_pubkey p) encrypted_secret (ca_tenant_id p)) in
            se_ret encrypted_secret
      | None => se_lift (invalid "Missing nsec in code_verifier. BYOK flow requires nsec to be embedded.")
      end
  end.

(** Re-authentication replaces an older authorization. *)
Definition replace_previous (now : Z) (previous_auth_id : option Z) : SE oauth_state oauth_abort unit :=
  match previous_auth_id with
  | Some old_auth_id =>
      let! _ := exec_db (fun d => set_refresh_tokens
                  (fst (refresh_revoke_for_authorization now old_auth_id (db_refresh_tokens d))) d) in
      let! _ := exec_db (oauth_authorization_revoke now old_auth_id) in
      se_modify (fun s => {| os_rpc := with_cache (invalidate_handlers_for_authorization old_auth_id) (os_rpc s);
                             os_sent := os_sent s |})
  | None => se_ret tt
  end.

Definition send_command (cfg : oauth_config) (c : AuthorizationCommand) : SE oauth_state oauth_abort unit :=
  se_modify (fun s => if cfg_auth_tx cfg then {| os_rpc := os_rpc s; os_sent := os_sent s ++ [c] |} else s).

Definition refresh_tokens_create (now : Z) (token : string) (authorization_id tenant_id : Z) (d : Db)
  : Db * result RefreshToken RepositoryError :=
  let '(t, r) := refresh_create now token authorization_id tenant_id (db_refresh_tokens d) in
  (set_refresh_tokens t d, r).

Definition authorization_params (now : Z) (p : CreateAuthorizationParams) (dr : draw) (redirect_origin : string)
    (bunker_public_key secret_hash : string) (policy_id : Z) : CreateOAuthAuthorizationParams := {|
  cp_tenant_id := ca_tenant_id p; cp_user_pubkey := ca_user_pubkey p; cp_redirect_origin := redirect_origin;
  cp_client_id := ca_client_id p; cp_bunker_public_key := bunker_public_key; cp_secret_hash := secret_hash;
  cp_relays := json_to_string (JArray [JString "wss://relay.damus.io"]); cp_policy_id := Some policy_id;
  cp_client_pubkey := None; cp_authorization_handle := Some (dr_handle dr);
  cp_handle_expires_at := now + days 30 |}.

Definition create_oauth_authorization (now : Z) (cfg : oauth_config) (dr : draw) (p : CreateAuthorizationParams)
  : SE oauth_state oauth_abort TokenResponse :=
  let! encrypted_user_key := keys_for_authorization p in
  let! redirect_origin := se_lift (extract_origin (ca_redirect_uri p)) in
  let! '(connection_secret, secret_hash) :=
    se_lift (ok_or (dr_secret_pair dr) (Returned (OE_ServerError "Secret pool exhausted"))) in
  let! bunker_keys := se_lift (bunker_keys_of encrypted_user_key secret_hash) in
  let bunker_hex := pk_to_hex (pk_of bunker_keys) in
  let! access_token := se_lift (access_token_for now cfg (ca_user_pubkey p) (ca_tenant_id p) (ca_email p)
                                  redirect_origin bunker_hex (ca_is_headless p)) in
  let! policy_id := (match ca_policy_id p with
                     | Some policy_id => se_ret policy_id
                     | None => fun s => (s, resolve_policy_from_scope (os_db s) (ca_scope p))
                     end) in
  let! auth_id := on_db (oauth_authorization_create now
                    (authorization_params now p dr redirect_origin bunker_hex secret_hash policy_id)) in
  let! _ := on_db (refresh_tokens_create now (dr_refresh_token dr) auth_id (ca_tenant_id p)) in
  let! _ := replace_previous now (ca_previous_auth_id p) in
  let! _ := send_command cfg (Upsert bunker_hex (ca_tenant_id p) true) in
  let! relays := se_lift (relay_params cfg) in
  let! policy_info := se_gets (fun s =>
    let policy_slug := match parse_policy_scope (ca_scope p) with Ok slug => slug | Err _ => "social" end in
    token_policy_info (os_db s) <$> ok (policy_find_by_slug (os_db s) policy_slug)) in
  se_ret {| tr_bunker_url := "bunker://" +:+ bunker_hex +:+ "?" +:+ relays +:+ "&secret=" +:+ connection_secret;
            tr_access_token := Some access_token; tr_token_type := "Bearer";
            tr_expires_in := token_expiry_seconds cfg; tr_scope := Some (ca_scope p);
            tr_policy := policy_info; tr_authorization_handle := Some (dr_handle dr);
            tr_refresh_token := Some (dr_refresh_token dr) |}.

(** ** Authorization code grant *)

(** The lookup and the checks, which only read. *)
Definition code_grant_check (now tenant_id : Z) (req : TokenRequest) (d : Db)
  : result (string * OAuthCodeData) oauth_abort :=
  let? code := ok_or (rq_code req) (Returned (OE_InvalidRequest
                 "Missing 'code' parameter for authorization_code grant")) in
  let? redirect_uri := ok_or (rq_redirect_uri req) (Returned (OE_InvalidRequest
                         "Missing 'redirect_uri' parameter for authorization_code grant")) in
  let? auth_code := ok_or (oauth_code_find_valid now tenant_id code d) (Returned OE_Unauthorized) in
  if negb (bool_decide (cd_redirect_uri auth_code = redirect_uri)) then invalid "redirect_uri mismatch"
  else
    let? _ :=
      match cd_code_challenge auth_code with
      | Some challenge =>
          let method := default "plain" (cd_code_challenge_method auth_code) in
          let? verifier := ok_or (rq_code_verifier req) (Returned (OE_InvalidRequest
                             "code_verifier required for PKCE flow")) in
          validate_pkce verifier challenge method
      | None => Ok tt
      end in
    Ok (code, auth_code).

(** The key of a registration: stored with the code, or the verifier's nsec. *)
Definition registration_secret (auth_code : OAuthCodeData) (nsec_from_verifier : option string)
  : result (list Z) oauth_abort :=
  match cd_pending_encrypted_secret auth_code with
  | Some stored_secret => Ok stored_secret
  | None =>
      let? nsec_str := ok_or nsec_from_verifier (Returned (OE_InvalidRequest
                         "Missing nsec in code_verifier for BYOK flow")) in
      let? keys := map_err (fun e => Returned (OE_InvalidRequest ("Invalid nsec in code_verifier: " +:+ e)))
                     (keys_parse nsec_str) in
      if negb (bool_decide (pk_to_hex (pk_of keys) = cd_user_pubkey auth_code)) then
        invalid "nsec doesn't match pubkey from registration"
      else map_err (fun e => Returned (OE_Encryption e)) (km_encrypt (sk_to_bytes keys))
  end.

Definition complete_registration (now tenant_id : Z) (code : string) (auth_code : OAuthCodeData)
    (nsec_from_verifier : option string) (pending_email : string) : SE oauth_state oauth_abort string :=
  let! taken := se_gets (fun s => find_pubkey_by_email pending_email tenant_id (os_db s)) in
  if negb (is_null taken) then
    se_lift (invalid "This email is already registered. Please sign in instead.")
  else
    let! known := se_gets (fun s => user_exists (cd_user_pubkey auth_code) tenant_id (os_db s)) in
    if known : bool then se_lift (invalid "This Nostr key is already registered.")
    else
      let! encrypted_secret := se_lift (registration_secret auth_code nsec_from_verifier) in
      let! password_hash := se_lift (ok_or (cd_pending_password_hash auth_code) (Returned (OE_InvalidRequest
                              "Missing password hash in pending registration"))) in
      let! verification_token := se_lift (ok_or (cd_pending_email_verification_token auth_code)
                                   (Returned (OE_InvalidRequest "Missing verification token in pending registration"))) in
      let! _ := (fun s =>
        let '(d, r) := finalize_oauth_registration now (cd_user_pubkey auth_code) tenant_id pending_email
                         password_hash verification_token (now + EMAIL_VERIFICATION_EXPIRY_HOURS * 3600)
                         encrypted_secret code (os_db s) in
        (set_os_db d s, map_err (fun e => Returned (OE_Database (SqlxOther ("encountered unexpected or invalid data: " +:+ repository_error_str e)))) r)) in
      se_ret pending_email.

(** What follows the checks: the code is deleted, the authorization created. *)
Definition code_grant_redeem (now : Z) (cfg : oauth_config) (dr : draw) (tenant_id : Z) (req : TokenRequest)
    (code : string) (auth_code : OAuthCodeData) : SE oauth_state oauth_abort TokenResponse :=
  let nsec_from_verifier :=
    match rq_code_verifier req with Some v => extract_nsec_from_verifier_public v | None => None end in
  let! email :=
    (match cd_pending_email auth_code with
     | Some pending_email => complete_registration now tenant_id code auth_code nsec_from_verifier pending_email
     | None =>
         let! _ := exec_db (oauth_code_delete tenant_id code) in
         on_db (fun d => (d, get_email (cd_user_pubkey auth_code) tenant_id d))
     end) in
  create_oauth_authorization now cfg dr {|
    ca_tenant_id := tenant_id; ca_user_pubkey := cd_user_pubkey auth_code; ca_email := email;
    ca_client_id := cd_client_id auth_code; ca_scope := cd_scope auth_code;
    ca_redirect_uri := cd_redirect_uri auth_code; ca_nsec_from_verifier := nsec_from_verifier;
    ca_previous_auth_id := cd_previous_auth_id auth_code; ca_is_headless := cd_is_headless auth_code;
    ca_policy_id := None |}.

Definition handle_authorization_code_grant (now : Z) (cfg : oauth_config) (dr : draw) (tenant_id : Z)
    (req : TokenRequest) : SE oauth_state oauth_abort TokenResponse :=
  let! '(code, auth_code) := (fun s => (s, code_grant_check now tenant_id req (os_db s))) in
  code_grant_redeem now cfg dr tenant_id req code auth_code.

(** ** Refresh grant *)
Definition refresh_tokens_consume (now : Z) (token : string) (d : Db)
  : Db * result (option RefreshToken) RepositoryError :=
  let '(t, r) := refresh_consume now token (db_refresh_tokens d) in (set_refresh_tokens t d, Ok r).

Definition handle_refresh_token_grant (now : Z) (cfg : oauth_config) (dr : draw) (tenant_id : Z)
    (req : TokenRequest) : SE oauth_state oauth_abort TokenResponse :=
  let! refresh_token := se_lift (ok_or (rq_refresh_token req) (Returned (OE_InvalidRequest
                          "Missing 'refresh_token' parameter for refresh_token grant"))) in
  let! consumed := on_db (refresh_tokens_consume now refresh_token) in
  let! token_record := se_lift (ok_or consumed (Returned (OE_InvalidGrant "Invalid or expired refresh token"))) in
  let! oauth_auth := (fun s => (s, map_err (fun e => Returned (OE_InvalidGrant
                       ("Authorization not found: " +:+ authorization_error_str e)))
                       (oauth_find (os_db s) tenant_id (rt_authorization_id token_record)))) in
  if negb (is_null (oa_revoked_at oauth_auth)) then
    se_fail (Returned (OE_InvalidGrant "Authorization has been revoked"))
  else
    let! email := se_gets (fun s => match get_email (oa_user_pubkey oauth_auth) tenant_id (os_db s) with
                                    | Ok e => e | Err _ => "" end) in
    let! encrypted_user_key := (fun s => (s, ok_or
      (find_encrypted_key_for_tenant (os_db s) (oa_user_pubkey oauth_auth) tenant_id)
      (Returned (OE_InvalidGrant "User keys not found")))) in
    let! bunker_keys := se_lift (bunker_keys_of encrypted_user_key (oa_secret_hash oauth_auth)) in
    let bunker_hex := pk_to_hex (pk_of bunker_keys) in
    let! access_token := se_lift (access_token_for now cfg (oa_user_pubkey oauth_auth) tenant_id email
                                    (oa_redirect_origin oauth_auth) bunker_hex false) in
    let! _ := on_db (refresh_tokens_create now (dr_refresh_token dr) (oa_id oauth_auth) tenant_id) in
    let! relays := se_lift (relay_params cfg) in
    let! policy_info := se_gets (fun s =>
      match oa_policy_id oauth_auth with
      | Some policy_id => token_policy_info (os_db s) <$> ok (policy_find (os_db s) policy_id)
      | None => None
      end) in
    let scope := match policy_info with
                 | Some info => "policy:" +:+ pi_slug (tp_info info)
                 | None => "policy:full"
                 end in
    se_ret {| tr_bunker_url := "bunker://" +:+ bunker_hex +:+ "?" +:+ relays;
              tr_access_token := Some access_token; tr_token_type := "Bearer";
              tr_expires_in := token_expiry_seconds cfg; tr_scope := Some scope; tr_policy := policy_info;
              tr_authorization_handle := oa_authorization_handle oauth_auth;
              tr_refresh_token := Some (dr_refresh_token dr) |}.

(** POST /oauth/token *)
Definition token (now : Z) (cfg : oauth_config) (dr : draw) (tenant_id : Z) (req : TokenRequest)
  : SE oauth_state oauth_abort TokenResponse :=
  let grant_type := default "authorization_code" (rq_grant_type req) in
  if bool_decide (grant_type = "authorization_code") then handle_authorization_code_grant now cfg dr tenant_id req
  else if bool_decide (grant_type = "refresh_token") then handle_refresh_token_grant now cfg dr tenant_id req
  else se_lift (invalid ("Invalid grant_type '" +:+ grant_type +:+ "'. Supported: authorization_code, refresh_token.")).

End oauth.
