(* ===== verification/OAuthSafety.v ===== *)
(** * Properties of the token endpoint

    What a granted authorization code and a rotated refresh token imply, that
    an access token the endpoint issues is the one the signing endpoint accepts,
    and what two concurrent exchanges of one code do. *)
From S2P Require Import Prelude RustStr External Instances Database Samples Permissions Policies AuthTypes Ucan HttpRpc Tokens OAuthRepo OAuth.

Section oauth_safety.
Context `{HN : Nostr, HC : !NostrCrypto, HS : !Serde, HX : !Secrets, HD : Digests,
          HE : !Encodings, HU : UcanLib, HM : !UcanMint, HL : UrlLib}.

(** ** Inverting a successful issue *)
Lemma on_db_ok {A} (f : Db -> Db * result A RepositoryError) s s' a :
  on_db f s = (s', Ok a) -> exists d, f (os_db s) = (d, Ok a) /\ s' = set_os_db d s.
Proof.
  unfold on_db. destruct (f (os_db s)) as [d r]. intros [= <- Hr]. apply map_err_ok in Hr as ->. eauto.
Qed.

(** The database after the older authorization was replaced. *)
Definition after_replace (now : Z) (previous_auth_id : option Z) (d : Db) : Db :=
  match previous_auth_id with
  | Some old => oauth_authorization_revoke now old
      (set_refresh_tokens (fst (refresh_revoke_for_authorization now old (db_refresh_tokens d))) d)
  | None => d
  end.

Lemma replace_previous_db now prev s s' u :
  replace_previous now prev s = (s', Ok u) -> os_db s' = after_replace now prev (os_db s).
Proof. destruct prev; simpl; [|by intros [= <- _]]. intros H. unfold exec_db in H. se_inv. done. Qed.

Lemma send_command_db cfg c s s' u : send_command cfg c s = (s', Ok u) -> os_db s' = os_db s.
Proof. intros H. unfold send_command in H. se_inv. by destruct (cfg_auth_tx cfg). Qed.

(** Everything a successful issue did. *)
Lemma create_ok now cfg dr p s s' resp :
  create_oauth_authorization now cfg dr p s = (s', Ok resp) ->
  exists s1 enc origin secret hash bk token pid d2 id d3 rt,
    keys_for_authorization p s = (s1, Ok enc) /\
    extract_origin (ca_redirect_uri p) = Ok origin /\
    dr_secret_pair dr = Some (secret, hash) /\
    bunker_keys_of enc hash = Ok bk /\
    access_token_for now cfg (ca_user_pubkey p) (ca_tenant_id p) (ca_email p) origin
      (pk_to_hex (pk_of bk)) (ca_is_headless p) = Ok token /\
    match ca_policy_id p with
    | Some q => pid = q
    | None => resolve_policy_from_scope (os_db s1) (ca_scope p) = Ok pid
    end /\
    oauth_authorization_create now (authorization_params now p dr origin (pk_to_hex (pk_of bk)) hash pid)
      (os_db s1) = (d2, Ok id) /\
    refresh_tokens_create now (dr_refresh_token dr) id (ca_tenant_id p) d2 = (d3, Ok rt) /\
    os_db s' = after_replace now (ca_previous_auth_id p) d3 /\
    tr_access_token resp = Some token /\ tr_refresh_token resp = Some (dr_refresh_token dr).
Proof.
  unfold create_oauth_authorization. intros H.
  apply se_bind_ok in H as (s1 & enc & Hkeys & H).
  apply se_bind_ok in H as (? & origin & Ho & H). unfold se_lift in Ho; injection Ho as <- Ho.
  apply se_bind_ok in H as (? & [secret hash] & Hp & H). unfold se_lift in Hp; injection Hp as <- Hp.
  apply ok_or_ok in Hp.
  apply se_bind_ok in H as (? & bk & Hb & H). unfold se_lift in Hb; injection Hb as <- Hb.
  apply se_bind_ok in H as (? & token & Ht & H). unfold se_lift in Ht; injection Ht as <- Ht.
  apply se_bind_ok in H as (s2 & pid & Hpid & H).
  apply se_bind_ok in H as (s3 & id & Hc & H). apply on_db_ok in Hc as (d2 & Hc & ->).
  apply se_bind_ok in H as (s4 & rt & Hr & H). apply on_db_ok in Hr as (d3 & Hr & ->).
  apply se_bind_ok in H as (s5 & [] & Hprev & H). apply replace_previous_db in Hprev.
  apply se_bind_ok in H as (s6 & [] & Hsend & H). apply send_command_db in Hsend. se_inv.
  assert (s2 = s1 /\ match ca_policy_id p with
    | Some q => pid = q | None => resolve_policy_from_scope (os_db s1) (ca_scope p) = Ok pid end) as [-> Hpid'].
  { destruct (ca_policy_id p); [unfold se_ret in Hpid|]; by injection Hpid as <- ?. }
  do 12 eexists. repeat (split; [eassumption|]). split; [by rewrite Hsend, Hprev|]. done.
Qed.

Lemma create_inserts now q d d2 id :
  oauth_authorization_create now q d = (d2, Ok id) ->
  id = next_id (db_oauth_authorizations d) /\
  existsb (handle_taken (cp_authorization_handle q)) (rows (db_oauth_authorizations d)) = false /\
  d2 = set_oauth_authorizations (fst (insert_row (oauth_row now q) (db_oauth_authorizations d))) d.
Proof.
  unfold oauth_authorization_create. destruct (existsb _ _) eqn:E; [discriminate|].
  destruct (negb _); [discriminate|]. simpl. by intros [= <- <-].
Qed.

Lemma refresh_inserts now tok id ten d d' rt :
  refresh_tokens_create now tok id ten d = (d', Ok rt) ->
  existsb (fun r => bool_decide (rt_token_hash r = hash_refresh_token tok)) (rows (db_refresh_tokens d)) = false /\
  d' = set_refresh_tokens {| rows := rows (db_refresh_tokens d) ++ [rt];
                             next_id := next_id (db_refresh_tokens d) + 1 |} d /\
  rt_token_hash rt = hash_refresh_token tok /\ rt_authorization_id rt = id /\ rt_tenant_id rt = ten /\
  rt_consumed_at rt = None /\ rt_expires_at rt = now + days REFRESH_TOKEN_EXPIRY_DAYS.
Proof.
  unfold refresh_tokens_create, refresh_create. destruct (existsb _ _) eqn:E; [discriminate|].
  simpl. by intros [= <- <-].
Qed.

(** Preparing the key touches only the personal keys. *)
Lemma keys_frame p s s1 enc :
  keys_for_authorization p s = (s1, Ok enc) ->
  exists l, os_db s1 = set_personal_keys l (os_db s) /\
    (forall k, find_encrypted_key_for_tenant (os_db s) (ca_user_pubkey p) (ca_tenant_id p) = Some k ->
       enc = k /\ os_db s1 = os_db s).
Proof.
  unfold keys_for_authorization. intros H. apply se_bind_ok in H as (? & o & Ho & H).
  unfold se_gets in Ho. injection Ho as <- Ho. destruct o as [k|].
  - unfold se_ret in H. injection H as <- <-. exists (db_personal_keys (os_db s)).
    split; [by destruct (os_db s)|]. intros k'. rewrite Ho. by intros [= ->].
  - destruct (ca_nsec_from_verifier p); [|done].
    apply se_bind_ok in H as (? & keys & Hk & H). unfold se_lift in Hk. injection Hk as <- _.
    destruct (negb _); [done|].
    apply se_bind_ok in H as (? & e & He & H). unfold se_lift in He. injection He as <- _.
    apply se_bind_ok in H as (? & u & Hc & H). apply on_db_ok in Hc as (d & Hc & ->).
    unfold se_ret in H. injection H as <- <-. unfold personal_keys_create in Hc.
    destruct (negb _); [done|]. injection Hc as <- _. eexists. split; [reflexivity|]. intros k'. by rewrite Ho.
Qed.

(** ** The authorization code grant *)
Definition pkce_matches (verifier challenge method : string) : Prop :=
  (method = "S256" /\ sha256_b64url verifier = challenge) \/ (method = "plain" /\ verifier = challenge).

Lemma validate_pkce_ok v c m : validate_pkce v c m = Ok tt -> pkce_matches v c m.
Proof.
  unfold validate_pkce, pkce_matches. repeat case_bool_decide; simpl; try discriminate; auto.
  repeat match goal with |- context [prefix_str ?x ?i] => destruct (prefix_str x i) end; discriminate.
Qed.

(** A wrong verifier for a stored S256 challenge of fewer than 16 bytes does not
    get the PKCE error: the log line's slice panics. *)
Lemma short_challenge_panics v c :
  sha256_b64url v <> c -> len c < 16 -> validate_pkce v c "S256" = Err Panicked.
Proof.
  intros Hne Hlen. unfold validate_pkce. rewrite bool_decide_true, bool_decide_false by done. simpl.
  assert (prefix_str c 16 = None) as ->; [|by destruct (prefix_str _ _)].
  unfold prefix_str. by rewrite (proj2 (Z.leb_gt _ _)) by lia.
Qed.

Lemma code_grant_check_ok now ten req d code data :
  code_grant_check now ten req d = Ok (code, data) ->
  exists row, row ∈ db_oauth_codes d /\ data = code_data row /\ rq_code req = Some code /\
    oc_code row = code /\ oc_tenant_id row = ten /\ now < oc_expires_at row /\
    rq_redirect_uri req = Some (oc_redirect_uri row) /\
    (forall c, oc_code_challenge row = Some c -> exists v, rq_code_verifier req = Some v /\
       pkce_matches v c (default "plain" (oc_code_challenge_method row))).
Proof.
  unfold code_grant_check. intros H.
  apply rbind_ok in H as (code' & Hcode & H). apply ok_or_ok in Hcode.
  apply rbind_ok in H as (uri & Huri & H). apply ok_or_ok in Huri.
  apply rbind_ok in H as (data' & Hfind & H). apply ok_or_ok in Hfind.
  unfold oauth_code_find_valid in Hfind. apply fmap_Some in Hfind as (row & Hfind & ->).
  apply find_first_Some in Hfind as [Hin Hrow]. bool_to_prop.
  destruct (bool_decide _) eqn:Euri; [|discriminate]. bool_to_prop. simpl in *.
  apply rbind_ok in H as ([] & Hpkce & [= <- <-]).
  exists row. repeat (split; [first [done | congruence]|]).
  intros c Hc. rewrite Hc in Hpkce. apply rbind_ok in Hpkce as (v & Hv & Hpkce). apply ok_or_ok in Hv.
  exists v. split; [done|]. by apply validate_pkce_ok.
Qed.

(** What precedes the issue: the code is gone, authorizations and policies are
    as they were. *)
Lemma email_step_frame now ten code data nsec s s0 email :
  (match cd_pending_email data with
   | Some pending_email => complete_registration now ten code data nsec pending_email
   | None => let! _ := exec_db (oauth_code_delete ten code) in
             on_db (fun d => (d, get_email (cd_user_pubkey data) ten d))
   end) s = (s0, Ok email) ->
  db_oauth_authorizations (os_db s0) = db_oauth_authorizations (os_db s) /\
  db_policies (os_db s0) = db_policies (os_db s) /\
  db_oauth_codes (os_db s0) = db_oauth_codes (oauth_code_delete ten code (os_db s)).
Proof.
  destruct (cd_pending_email data) as [pe|].
  - unfold complete_registration. intros H.
    apply se_bind_ok in H as (? & tk & Htk & H). unfold se_gets in Htk. injection Htk as <- _.
    destruct (negb _); [done|].
    apply se_bind_ok in H as (? & kn & Hkn & H). unfold se_gets in Hkn. injection Hkn as <- _.
    destruct kn; [done|]. se_inv.
    match goal with Hf : _ = (_, Ok _) |- _ =>
      destruct (finalize_oauth_registration _ _ _ _ _ _ _ _ _ _) as [d r] eqn:E in Hf;
      injection Hf as <- Hr; apply map_err_ok in Hr as -> end.
    unfold finalize_oauth_registration, insert_user in E. destruct (existsb _ _); [done|]. by injection E as <-.
  - intros H. apply se_bind_ok in H as (? & [] & Hd & H). injection Hd as <-.
    apply on_db_ok in H as (d & [= <- _] & ->). done.
Qed.

Lemma resolve_policy_ext d d' scope :
  db_policies d = db_policies d' -> resolve_policy_from_scope d scope = resolve_policy_from_scope d' scope.
Proof. intros E. unfold resolve_policy_from_scope, policy_find_by_slug. by rewrite E. Qed.

Lemma after_replace_frame now prev d :
  db_oauth_codes (after_replace now prev d) = db_oauth_codes d /\
  length (rows (db_oauth_authorizations (after_replace now prev d))) = length (rows (db_oauth_authorizations d)).
Proof. destruct prev; simpl; [|done]. split; [done|]. unfold update_where. by rewrite length_map. Qed.

(** Replacing an older authorization keeps what an authorization grants. *)
Lemma after_replace_elem now prev d a :
  a ∈ rows (db_oauth_authorizations d) ->
  exists a', a' ∈ rows (db_oauth_authorizations (after_replace now prev d)) /\
    oa_id a' = oa_id a /\ oa_user_pubkey a' = oa_user_pubkey a /\ oa_tenant_id a' = oa_tenant_id a /\
    oa_redirect_origin a' = oa_redirect_origin a /\ oa_client_id a' = oa_client_id a /\
    oa_policy_id a' = oa_policy_id a /\ (prev <> Some (oa_id a) -> a' = a).
Proof.
  intros Ha. destruct prev as [old|]; [|exists a; by repeat split].
  destruct (oa_id a =? old) eqn:E.
  - exists (oa_revoke now false a). split.
    + apply update_where_elem. left. eauto.
    + repeat split. intros Hne. bool_to_prop. by subst.
  - exists a. split; [|by repeat split]. apply update_where_elem. right. done.
Qed.

Lemma code_grant_ok now cfg dr ten req s s' resp :
  handle_authorization_code_grant now cfg dr ten req s = (s', Ok resp) ->
  exists code row origin pid,
    rq_code req = Some code /\ row ∈ db_oauth_codes (os_db s) /\ oc_code row = code /\
    oc_tenant_id row = ten /\ now < oc_expires_at row /\ rq_redirect_uri req = Some (oc_redirect_uri row) /\
    (forall c, oc_code_challenge row = Some c -> exists v, rq_code_verifier req = Some v /\
       pkce_matches v c (default "plain" (oc_code_challenge_method row))) /\
    extract_origin (oc_redirect_uri row) = Ok origin /\
    resolve_policy_from_scope (os_db s) (oc_scope row) = Ok pid /\
    (exists a, a ∈ rows (db_oauth_authorizations (os_db s')) /\
       oa_id a = next_id (db_oauth_authorizations (os_db s)) /\ oa_user_pubkey a = oc_user_pubkey row /\
       oa_tenant_id a = ten /\ oa_redirect_origin a = origin /\ oa_client_id a = Some (oc_client_id row) /\
       oa_policy_id a = Some pid) /\
    length (rows (db_oauth_authorizations (os_db s'))) = S (length (rows (db_oauth_authorizations (os_db s)))) /\
    (forall now', oauth_code_find_valid now' ten code (os_db s') = None).
Proof.
  unfold handle_authorization_code_grant. intros H.
  apply se_bind_ok in H as (? & [code data] & Hchk & H). injection Hchk as <- Hchk.
  apply code_grant_check_ok in Hchk as (row & Hin & -> & Hcode & Hrow & Hten & Hexp & Huri & Hpkce).
  unfold code_grant_redeem in H. apply se_bind_ok in H as (s0 & email & Hemail & H).
  apply email_step_frame in Hemail as (Hauths & Hpols & Hcodes).
  apply create_ok in H as (s1 & enc & origin & secret & hash & bk & token & pid & d2 & id & d3 & rt & Hkeys
    & Ho & _ & _ & _ & Hpid & Hc & Hr & Hdb & _). simpl in *.
  apply keys_frame in Hkeys as (l & Hs1 & _).
  apply create_inserts in Hc as (-> & _ & ->). apply refresh_inserts in Hr as (_ & -> & _).
  rewrite Hs1 in Hdb, Hpid. exists code, row, origin, pid. repeat (split; [done|]). split.
  { rewrite <- Hpid. by apply resolve_policy_ext. }
  rewrite Hdb. split; [|split].
  - edestruct (after_replace_elem now (oc_previous_auth_id row)) as (a' & Ha' & Hs); [|exists a'; split; [exact Ha'|]].
    + simpl. apply elem_of_app. right. apply list_elem_of_singleton. reflexivity.
    + simpl in Hs. destruct Hs as (-> & -> & -> & -> & -> & -> & _). by rewrite Hauths.
  - rewrite (proj2 (after_replace_frame _ _ _)). simpl. rewrite length_app. simpl. rewrite Hauths. lia.
  - intros now'. unfold oauth_code_find_valid. rewrite (proj1 (after_replace_frame _ _ _)). simpl. rewrite Hcodes.
    simpl. rewrite find_first_delete_none; [done|]. intros a _ Ha. by apply andb_true_iff in Ha as [-> _].
Qed.


(** [C3] A token request that redeems a code presented a code of its tenant that
    had not expired, with the redirect URI it was issued for and, when the code
    carries a challenge, a verifier that matches it.  Exactly one authorization
    is created: for the code's user and client, the origin of that redirect URI
    and the policy the code's scope names.  The code is gone: it is never found
    again. *)
Theorem code_grant_sound now cfg dr ten req s s' resp :
  handle_authorization_code_grant now cfg dr ten req s = (s', Ok resp) ->
  exists code row origin pid,
    rq_code req = Some code /\ row ∈ db_oauth_codes (os_db s) /\ oc_code row = code /\
    oc_tenant_id row = ten /\ now < oc_expires_at row /\ rq_redirect_uri req = Some (oc_redirect_uri row) /\
    (forall c, oc_code_challenge row = Some c -> exists v, rq_code_verifier req = Some v /\
       pkce_matches v c (default "plain" (oc_code_challenge_method row))) /\
    extract_origin (oc_redirect_uri row) = Ok origin /\
    resolve_policy_from_scope (os_db s) (oc_scope row) = Ok pid /\
    (exists a, a ∈ rows (db_oauth_authorizations (os_db s')) /\
       oa_id a = next_id (db_oauth_authorizations (os_db s)) /\ oa_user_pubkey a = oc_user_pubkey row /\
       oa_tenant_id a = ten /\ oa_redirect_origin a = origin /\ oa_client_id a = Some (oc_client_id row) /\
       oa_policy_id a = Some pid) /\
    length (rows (db_oauth_authorizations (os_db s'))) = S (length (rows (db_oauth_authorizations (os_db s)))) /\
    (forall now', oauth_code_find_valid now' ten code (os_db s') = None).
Proof. apply code_grant_ok. Qed.

(** ** The refresh grant *)

(** A consumed token is not consumed again later, whatever is added. *)
Lemma consumed_stays_consumed now now' tok l rt :
  now <= now' -> rt_token_hash rt <> hash_refresh_token tok ->
  List.filter (refresh_live now' (hash_refresh_token tok))
    (update_where (refresh_live now (hash_refresh_token tok)) (rt_consume_at now) l ++ [rt]) = [].
Proof.
  intros Hle Hne. apply filter_nil. intros x [Hx | ->%list_elem_of_singleton]%elem_of_app.
  - apply update_where_elem in Hx as [(y & _ & _ & ->) | [_ Hx]]; unfold refresh_live in *; simpl.
    + by rewrite andb_false_r.
    + destruct (bool_decide _ && _) eqn:E; [|done]. simpl in *. bool_to_prop. apply Z.ltb_ge. lia.
  - unfold refresh_live. by rewrite bool_decide_false.
Qed.

Lemma oauth_find_ok d ten id a :
  oauth_find d ten id = Ok a ->
  a ∈ rows (db_oauth_authorizations d) /\ oa_tenant_id a = ten /\ oa_id a = id.
Proof.
  unfold oauth_find. intros H. apply map_err_ok, rbind_ok in H as (r & Hr & H).
  unfold decode_oauth in H. apply rbind_ok in H as (? & _ & [= ->]). unfold fetch_one in Hr.
  apply ok_or_ok, find_first_Some in Hr as [Hin Hr]. bool_to_prop. done.
Qed.

(** [C15] A refresh that succeeds presented a token that was neither used nor
    expired, of an authorization of its tenant that is not revoked.  It changes
    no authorization; the token is never accepted again, and the new one is
    accepted for 30 days and stands for the same authorization. *)
Theorem refresh_rotates now cfg dr ten req s s' resp :
  handle_refresh_token_grant now cfg dr ten req s = (s', Ok resp) ->
  exists tok rt a,
    rq_refresh_token req = Some tok /\ rt ∈ rows (db_refresh_tokens (os_db s)) /\
    rt_token_hash rt = hash_refresh_token tok /\ rt_consumed_at rt = None /\ now < rt_expires_at rt /\
    a ∈ rows (db_oauth_authorizations (os_db s)) /\ oa_id a = rt_authorization_id rt /\
    oa_tenant_id a = ten /\ oa_revoked_at a = None /\
    db_oauth_authorizations (os_db s') = db_oauth_authorizations (os_db s) /\
    (forall now', now <= now' -> snd (refresh_consume now' tok (db_refresh_tokens (os_db s'))) = None) /\
    tr_refresh_token resp = Some (dr_refresh_token dr) /\
    (forall now', now' < now + days REFRESH_TOKEN_EXPIRY_DAYS -> exists rt',
       snd (refresh_consume now' (dr_refresh_token dr) (db_refresh_tokens (os_db s'))) = Some rt' /\
       rt_authorization_id rt' = oa_id a /\ rt_tenant_id rt' = ten).
Proof.
  unfold handle_refresh_token_grant. intros H.
  apply se_bind_ok in H as (? & tok & Ht & H). unfold se_lift in Ht. injection Ht as <- Ht. apply ok_or_ok in Ht.
  apply se_bind_ok in H as (? & o & Hcons & H). apply on_db_ok in Hcons as (d & [= <- Ho] & ->).
  apply se_bind_ok in H as (? & upd & Hu & H). unfold se_lift in Hu. injection Hu as <- Hu. apply ok_or_ok in Hu.
  apply se_bind_ok in H as (? & a & Ha & H). injection Ha as <- Ha.
  apply map_err_ok, oauth_find_ok in Ha as (Hin & Hten & Hid).
  destruct (oa_revoked_at a) eqn:Erev; [done|]. simpl in H. se_inv.
  match goal with Hk : (_, ok_or _ _) = _ |- _ => injection Hk as <- _ end.
  match goal with Hc : on_db _ _ = _ |- _ => apply on_db_ok in Hc as (d3 & Hr & ->) end.
  apply refresh_inserts in Hr as (Hfresh & -> & Hh & Haid & Hat & Hnull & Hexp). simpl in *.
  unfold returning in Hu.
  destruct (List.filter _ _) as [|rt l] eqn:Ef in Hu; [done|]. injection Hu as <-. simpl in Hid.
  assert (Hrt : rt ∈ rt :: l) by constructor. rewrite <- Ef, list_elem_of_In, List.filter_In in Hrt.
  destruct Hrt as [Hrt Hlive]. pose proof Hlive as Hl0. unfold refresh_live in Hl0. bool_to_prop.
  assert (Hhash : hash_refresh_token (dr_refresh_token dr) <> hash_refresh_token tok).
  { intros E. apply not_true_iff_false in Hfresh. apply Hfresh, existsb_exists.
    exists (rt_consume_at now rt). split; [|apply bool_decide_true; simpl; congruence].
    apply list_elem_of_In, update_where_elem. left. exists rt. split; [by apply list_elem_of_In|done]. }
  exists tok, rt, a. repeat (split; [first [done | by apply list_elem_of_In
    | by destruct (rt_consumed_at rt)]|]). split; [|split; [done|]].
  - intros now' Hle. unfold refresh_consume. simpl. unfold returning.
    rewrite consumed_stays_consumed; [done | done | congruence].
  - intros now' Hn. eexists. unfold refresh_consume. simpl. unfold returning.
    erewrite filter_snoc_fresh; [simpl; split; [reflexivity|]; done | exact Hfresh | |].
    + intros x Hx. unfold refresh_live in Hx. by bool_to_prop; rewrite bool_decide_true.
    + unfold refresh_live. rewrite bool_decide_true, Hnull, Hexp by done. by apply Z.ltb_lt.
Qed.

(** ** Issued tokens

    What the ucan crate, hex and nostr-sdk guarantee: an encoded token parses to
    what was built, and a public key prints as the hex of its 32 bytes. *)
Class MintLaws : Prop := {
  mint_parses now sk aud life facts token :
    ucan_mint now sk aud life facts = Ok token ->
    exists u, ucan_parse token = Ok u /\ ucan_check_signature u = Ok tt /\ ucan_facts u = [facts] /\
      ucan_issuer u = nostr_pubkey_to_did (pk_of sk) /\ ucan_audience u = aud /\
      forall now', ucan_is_expired now' u = (now + life <? now');
  pk_hex_round_trip sk : pk_from_hex (pk_to_hex (pk_of sk)) = Ok (pk_of sk);
  pk_hex_bytes sk : exists bytes, hex_decode (pk_to_hex (pk_of sk)) = Ok bytes /\ length bytes = 32%nat;
}.

Definition expiry_fits (cfg : oauth_config) : Prop := 0 <= token_expiry_seconds cfg < 2 ^ 64.

(** The facts of an issued token read back. *)
Lemma issued_facts ten email origin bunker first :
  - 2 ^ 63 <= ten < 2 ^ 63 ->
  let facts := [ucan_facts_of ten email origin (Some bunker) first None] in
  fact as_str "redirect_origin" facts = Some origin /\ fact as_str "bunker_pubkey" facts = Some bunker /\
  fact as_i64 "tenant_id" facts = Some ten.
Proof.
  intros Hten. split; [reflexivity|]. split; [reflexivity|].
  unfold fact, find_map, ucan_facts_of, json_lookup. simpl.
  rewrite (proj2 (Z.leb_le _ _)), (proj2 (Z.ltb_lt _ _)) by lia. done.
Qed.

(** A token the server signs for a user, with the facts every session has,
    validates as that user until it expires. *)
Lemma server_token_validates `{HEL : !EncodingLaws, HML : !MintLaws} now now' sk nsec pk ten origin facts life token :
  ucan_mint now sk (nostr_pubkey_to_did pk) life facts = Ok token ->
  fact as_str "redirect_origin" [facts] = Some origin -> fact as_i64 "tenant_id" [facts] = Some ten ->
  keys_parse nsec = Ok sk -> now' <= now + life ->
  exists u, ucan_facts u = [facts] /\ ucan_issuer u = nostr_pubkey_to_did (pk_of sk) /\
    validate_ucan_token now' (Some nsec) ("Bearer " +:+ token) ten =
    Ok {| vt_user_pubkey := pk_to_hex pk; vt_redirect_origin := origin;
          vt_bunker_pubkey := fact as_str "bunker_pubkey" [facts]; vt_ucan := u |}.
Proof.
  intros (u & Hparse & Hsig & Hfacts & Hiss & Haud & Hlife)%mint_parses Fo Ft Hnsec Hn.
  exists u. split; [done|]. split; [done|]. unfold validate_ucan_token. rewrite (proj2 (strip_prefix_Some _ _ _) eq_refl). simpl.
  rewrite Hparse. simpl. rewrite Hsig, Hlife. simpl. rewrite (proj2 (Z.ltb_ge _ _)) by lia. rewrite Hfacts, Fo. simpl.
  unfold check_tenant. rewrite Ft, Z.eqb_refl.
  replace (if negb (ten =? 0) then Ok tt else Ok tt) with (@Ok unit string tt) by by destruct (ten =? 0).
  simpl. rewrite Haud, Hiss, !did_to_did. simpl. unfold check_issuer, server_pubkey. simpl. rewrite Hnsec. simpl.
  rewrite (bool_decide_true (pk_to_hex (pk_of sk) = pk_to_hex (pk_of sk))) by done.
  by destruct (bool_decide (pk_to_hex (pk_of sk) = pk_to_hex pk)).
Qed.

(** A token issued for a user validates, as that user, until it expires. *)
Lemma issued_token_validates `{HEL : !EncodingLaws, HML : !MintLaws} now now' cfg nsec usk ten email origin bunker first token :
  access_token_for now cfg (pk_to_hex (pk_of usk)) ten email origin bunker first = Ok token ->
  keys_parse nsec = Ok (cfg_server_keys cfg) -> - 2 ^ 63 <= ten < 2 ^ 63 -> expiry_fits cfg ->
  now' <= now + token_expiry_seconds cfg ->
  exists u, validate_ucan_token now' (Some nsec) ("Bearer " +:+ token) ten =
    Ok {| vt_user_pubkey := pk_to_hex (pk_of usk); vt_redirect_origin := origin;
          vt_bunker_pubkey := Some bunker; vt_ucan := u |}.
Proof.
  unfold access_token_for. rewrite pk_hex_round_trip. simpl. intros Hmint%map_err_ok Hnsec Hten Hexp Hn.
  pose proof (issued_facts ten email origin bunker first Hten) as (Fo & Fb & Ft). unfold expiry_fits in Hexp.
  destruct (server_token_validates now now' _ nsec _ ten origin _ _ _ Hmint Fo Ft Hnsec) as (u & _ & _ & Hv);
    [by rewrite Z.mod_small|]. exists u. by rewrite Hv, Fb.
Qed.

(** The new row is the one its bunker key finds. *)
Lemma find_new_bunker now prev l row b :
  (forall a, a ∈ l -> oa_bunker_public_key a <> b) -> oa_bunker_public_key row = b ->
  prev <> Some (oa_id row) ->
  find_first (fun a => bool_decide (oa_bunker_public_key a = b))
    (match prev with Some old => update_where (fun a => oa_id a =? old) (oa_revoke now false) (l ++ [row])
     | None => l ++ [row] end) = Some row.
Proof.
  intros Hl Hb Hp. assert (Hplain : find_first (fun a => bool_decide (oa_bunker_public_key a = b)) (l ++ [row]) = Some row).
  { apply find_first_unique; [apply elem_of_app; right; by apply list_elem_of_singleton | by apply bool_decide_true|].
    intros x [Hx | ->%list_elem_of_singleton]%elem_of_app Hxb; [|done]. bool_to_prop. by destruct (Hl x Hx). }
  destruct prev as [old|]; [|done]. rewrite find_first_update_frame; [done|].
  intros a [Ha | ->%list_elem_of_singleton]%elem_of_app Hid; bool_to_prop; [|congruence].
  simpl. by rewrite !bool_decide_false by auto.
Qed.

(** The policy an issue grants. *)
Definition grants_policy (p : CreateAuthorizationParams) (d : Db) (pid : Z) : Prop :=
  match ca_policy_id p with
  | Some q => pid = q
  | None => resolve_policy_from_scope d (ca_scope p) = Ok pid
  end.

(** [C8] The access token of a token response is one the signing endpoint
    accepts until it expires: it authenticates as the authorization just created,
    with the user's own key and the permissions of the granted policy. *)
Theorem issued_token_authenticates `{HEL : !EncodingLaws, HML : !MintLaws} now now' cfg nsec dr p usk enc bytes hk s s' resp :
  create_oauth_authorization now cfg dr p s = (s', Ok resp) ->
  keys_parse nsec = Ok (cfg_server_keys cfg) -> - 2 ^ 63 <= ca_tenant_id p < 2 ^ 63 -> expiry_fits cfg ->
  now' <= now + token_expiry_seconds cfg ->
  find_encrypted_key_for_tenant (os_db s) (ca_user_pubkey p) (ca_tenant_id p) = Some enc ->
  km_decrypt enc = Ok bytes -> sk_from_slice bytes = Ok usk -> ca_user_pubkey p = pk_to_hex (pk_of usk) ->
  parse_cache_key (dr_handle dr) = Ok hk ->
  ca_previous_auth_id p <> Some (next_id (db_oauth_authorizations (os_db s))) ->
  (forall a secret hash bk, a ∈ rows (db_oauth_authorizations (os_db s)) ->
     dr_secret_pair dr = Some (secret, hash) -> bunker_keys_of enc hash = Ok bk ->
     oa_bunker_public_key a <> pk_to_hex (pk_of bk)) ->
  (forall pid, grants_policy p (os_db s) pid -> is_ok (get_permissions (os_db s) pid) = true) ->
  exists token h pid, tr_access_token resp = Some token /\
    authenticate now' (Some nsec) (os_db s') ("Bearer " +:+ token) (ca_tenant_id p) = Ok h /\
    rh_authorization_id h = next_id (db_oauth_authorizations (os_db s)) /\ rh_signing h = usk /\
    grants_policy p (os_db s) pid /\ load_policy_permissions (os_db s) (Some pid) = Ok (rh_permissions h).
Proof.
  intros H Hnsec Hten Hexp Hn Henc Hdec Hsk Huser Hhk Hprev Hfresh Hperm.
  apply create_ok in H as (s1 & enc' & origin & secret & hash & bk & token & pid & d2 & id & d3 & rt & Hkeys
    & Ho & Hpair & Hbk & Htok & Hpid & Hc & Hr & Hdb & Hresp & _).
  apply keys_frame in Hkeys as (_ & _ & Hsame). apply Hsame in Henc as Hd. destruct Hd as [-> Hs1].
  rewrite Hs1 in *. apply create_inserts in Hc as (-> & _ & ->). apply refresh_inserts in Hr as (_ & -> & _).
  rewrite Huser in Htok.
  eapply (issued_token_validates now now') in Htok as (u & Hval); [|done..].
  destruct (is_ok_Ok (get_permissions (os_db s) pid)) as (perms & Hperms); [by apply Hperm|].
  destruct (pk_hex_bytes bk) as (bb & Hbb & Hlen).
  assert (Hrow : find_by_bunker_pubkey (os_db s') (pk_to_hex (pk_of bk)) =
    Some (oauth_row now (authorization_params now p dr origin (pk_to_hex (pk_of bk)) hash pid)
            (next_id (db_oauth_authorizations (os_db s))))).
  { rewrite Hdb, <- (find_new_bunker now (ca_previous_auth_id p) (rows (db_oauth_authorizations (os_db s))) _
      (pk_to_hex (pk_of bk))); [by destruct (ca_previous_auth_id p)|by eauto|done|done]. }
  assert (Hp' : get_permissions (os_db s') pid = Ok perms)
    by (rewrite Hdb, <- Hperms; by destruct (ca_previous_auth_id p)).
  assert (Hk' : find_encrypted_key_for_tenant (os_db s') (ca_user_pubkey p) (ca_tenant_id p) = Some enc)
    by (rewrite Hdb, <- Henc; by destruct (ca_previous_auth_id p)).
  exists token. eexists. exists pid. split; [done|]. unfold authenticate. rewrite Hval. simpl.
  unfold load_handler_on_demand. rewrite Hrow. simpl. rewrite bool_decide_true by done. simpl.
  rewrite Hp'. simpl. unfold load_user_keys. rewrite Hk'. simpl. rewrite Hdec. simpl. rewrite Hsk. simpl.
  unfold parse_cache_key at 1. rewrite Hbb. simpl. rewrite bool_decide_true by done. simpl. rewrite Hhk. simpl.
  split; [reflexivity|]. simpl. repeat (split; [done|]). by rewrite Hperms.
Qed.

End oauth_safety.

(** ** A concrete endpoint

    Tokens are their fields joined by bars, valid until 1000; URLs are https
    hosts. *)
Record minted_ucan : Type := { mu_facts : json; mu_issuer : string; mu_audience : string }.

#[local] Instance minted_ucan_lib : UcanLib := {
  Ucan := minted_ucan;
  ucan_parse s := match split "|" s with
    | [e; o; b; aud; iss] => Ok {| mu_facts := ucan_facts_of 1 e o (Some b) false None;
                                   mu_issuer := iss; mu_audience := aud |}
    | _ => Err "not a token" end;
  ucan_check_signature _ := Ok tt;
  ucan_is_expired now _ := 1000 <? now;
  ucan_facts u := [mu_facts u];
  ucan_issuer := mu_issuer;
  ucan_audience := mu_audience;
}.

#[local] Instance toy_mint : UcanMint := {
  ucan_mint now sk aud life facts := match facts with
    | JObject [(k1, JInt t); (k2, JString e); (k3, JString o); (k4, JString b)] =>
        let fields := [e; o; b; aud; nostr_pubkey_to_did (pk_of sk)] in
        if bool_decide ([k1; k2; k3; k4] = ["tenant_id"; "email"; "redirect_origin"; "bunker_pubkey"])
           && (t =? 1) && (now + life =? 1000) && bool_decide (split "|" (join "|" fields) = fields)
        then Ok (join "|" fields) else Err "unsupported"
    | _ => Err "unsupported" end;
}.

#[local] Instance toy_url : UrlLib := {
  url_parse s := (fun h => {| url_scheme := "https"; url_host_str := Some h; url_port := None |}) <$>
                   strip_prefix "https://" s;
  urlencode s := s;
}.

#[local] Instance toy_mint_laws : MintLaws.
Proof.
  split.
  - intros now sk aud life facts token. simpl.
    destruct facts as [| | | | | |m]; try discriminate.
    destruct m as [|[k1 [| |t| | | |]] m]; try discriminate.
    destruct m as [|[k2 [| | | |e| |]] m]; try discriminate.
    destruct m as [|[k3 [| | | |o| |]] m]; try discriminate.
    destruct m as [|[k4 [| | | |b| |]] m]; try discriminate.
    destruct m; try discriminate.
    destruct (_ && _) eqn:E; [|discriminate]. intros [= <-]. bool_to_prop. simplify_eq.
    match goal with Hs : split _ _ = _ |- _ => setoid_rewrite Hs end.
    eexists. split; [reflexivity|]. repeat (split; [reflexivity|]).
    intros now'. match goal with Hl : _ + _ = 1000 |- _ => by rewrite Hl end.
  - intros sk. reflexivity.
  - intros sk. eexists. split; [reflexivity|]. rewrite length_take, length_app, length_replicate. lia.
Qed.

Definition sample_config : oauth_config :=
  {| cfg_server_keys := "server"; cfg_bunker_relays := Some "wss://r"; cfg_token_expiry := Some 990;
     cfg_auth_tx := true |}.

Definition sample_code : oauth_code_row := {|
  oc_tenant_id := 1; oc_code := "c0de"; oc_user_pubkey := "Pu"; oc_client_id := "app";
  oc_redirect_uri := "https://app.example"; oc_scope := "policy:social";
  oc_code_challenge := Some "b64-sha256-digest:v"; oc_code_challenge_method := Some "S256";
  oc_expires_at := 100; oc_created_at := 0; oc_previous_auth_id := Some 1; oc_state := None;
  oc_is_headless := false; oc_pending_email := None; oc_pending_password_hash := None;
  oc_pending_email_verification_token := None; oc_pending_encrypted_secret := None; oc_device_code := None |}.

Definition sample_oauth_state : oauth_state := {|
  os_rpc := {| rs_db :=
    set_oauth_codes [sample_code]
    (set_users [us_set_email (Some "u@b") (us_set_email_verified true (new_user 0 "Pu" 1))]
    (set_policies {| rows := [{| pol_id := 3; pol_name := "social"; pol_team_id := None; pol_created_at := 0;
       pol_updated_at := 0; pol_slug := Some "social"; pol_display_name := None; pol_description := None |}];
       next_id := 4 |}
    (set_refresh_tokens {| rows := [{| rt_id := 1; rt_token_hash := "sha:r0"; rt_authorization_id := 1;
       rt_tenant_id := 1; rt_created_at := 0; rt_expires_at := 100; rt_consumed_at := None |}]; next_id := 2 |}
      (sample_db [sample_oauth None None None] []))));
    rs_cache := ∅ |};
  os_sent := [] |}.

Definition sample_draw (n : string) : draw :=
  {| dr_secret_pair := Some ("s" +:+ n, "H" +:+ n); dr_handle := "handle" +:+ n; dr_refresh_token := "r" +:+ n |}.

Definition code_request : TokenRequest := {|
  rq_grant_type := None; rq_code := Some "c0de"; rq_client_id := "app";
  rq_redirect_uri := Some "https://app.example"; rq_code_verifier := Some "v"; rq_refresh_token := None |}.
Definition refresh_request : TokenRequest := {|
  rq_grant_type := Some "refresh_token"; rq_code := None; rq_client_id := "app"; rq_redirect_uri := None;
  rq_code_verifier := None; rq_refresh_token := Some "r0" |}.

(** Two requests that both looked the code up before either deleted it. *)
Definition first_redeem : oauth_state * result TokenResponse oauth_abort :=
  code_grant_redeem 10 sample_config (sample_draw "1") 1 code_request "c0de" (code_data sample_code)
    sample_oauth_state.
Definition second_redeem : oauth_state * result TokenResponse oauth_abort :=
  code_grant_redeem 10 sample_config (sample_draw "2") 1 code_request "c0de" (code_data sample_code)
    (fst first_redeem).

(** An authorization code is not redeemed atomically: it is looked up by
    one statement and deleted by another, so two concurrent requests with the
    same code both receive tokens and create an authorization each, although the
    code is gone when the second one continues. *)
Theorem code_redeemed_twice :
  code_grant_check 10 1 code_request (os_db sample_oauth_state) = Ok ("c0de", code_data sample_code) /\
  is_ok (snd first_redeem) = true /\
  oauth_code_find_valid 10 1 "c0de" (os_db (fst first_redeem)) = None /\
  is_ok (snd second_redeem) = true /\
  length (rows (db_oauth_authorizations (os_db (fst second_redeem)))) = 3%nat.
Proof. vm_compute. repeat split. Qed.

(** ** Witnesses *)
Lemma code_grant_sound_witness :
  exists s' resp,
    handle_authorization_code_grant 10 sample_config (sample_draw "1") 1 code_request sample_oauth_state
      = (s', Ok resp) /\
    oauth_code_find_valid 10 1 "c0de" (os_db s') = None.
Proof.
  destruct (run_ok (handle_authorization_code_grant 10 sample_config (sample_draw "1") 1 code_request
    sample_oauth_state)) as (s' & resp & E); [vm_compute; reflexivity|].
  destruct (code_grant_sound 10 sample_config (sample_draw "1") 1 code_request sample_oauth_state s' resp E)
    as (code & row & origin & pid & Hc & _ & _ & _ & _ & _ & _ & _ & _ & _ & _ & Hgone).
  injection Hc as <-. exists s', resp. split; [exact E | exact (Hgone 10)].
Defined.

Lemma refresh_rotates_witness :
  exists s' resp,
    handle_refresh_token_grant 10 sample_config (sample_draw "1") 1 refresh_request sample_oauth_state
      = (s', Ok resp) /\
    snd (refresh_consume 20 "r0" (db_refresh_tokens (os_db s'))) = None.
Proof.
  destruct (run_ok (handle_refresh_token_grant 10 sample_config (sample_draw "1") 1 refresh_request
    sample_oauth_state)) as (s' & resp & E); [vm_compute; reflexivity|].
  destruct (refresh_rotates 10 sample_config (sample_draw "1") 1 refresh_request sample_oauth_state s' resp E)
    as (tok & rt & a & Ht & _ & _ & _ & _ & _ & _ & _ & _ & _ & Hused & _).
  injection Ht as <-. exists s', resp. split; [exact E | apply Hused; lia].
Defined.

Definition sample_params : CreateAuthorizationParams := {|
  ca_tenant_id := 1; ca_user_pubkey := "Pu"; ca_email := "u@b"; ca_client_id := "app";
  ca_scope := "policy:social"; ca_redirect_uri := "https://app.example"; ca_nsec_from_verifier := None;
  ca_previous_auth_id := Some 1; ca_is_headless := false; ca_policy_id := None |}.

Lemma issued_token_authenticates_witness :
  exists s' resp token h,
    create_oauth_authorization 10 sample_config (sample_draw "1") sample_params sample_oauth_state
      = (s', Ok resp) /\
    authenticate 500 (Some "server") (os_db s') ("Bearer " +:+ token) 1 = Ok h /\ rh_signing h = "u".
Proof.
  destruct (run_ok (create_oauth_authorization 10 sample_config (sample_draw "1") sample_params
    sample_oauth_state)) as (s' & resp & E); [vm_compute; reflexivity|].
  destruct (is_ok_Ok (parse_cache_key (dr_handle (sample_draw "1")))) as (hk & Hhk); [vm_compute; reflexivity|].
  destruct (issued_token_authenticates 10 500 sample_config "server" (sample_draw "1") sample_params "u"
    (bytes_of "u") (bytes_of "u") hk sample_oauth_state s' resp E) as (token & h & pid & _ & Hauth & _ & Hsk & _).
  - reflexivity.
  - vm_compute. split; [discriminate | reflexivity].
  - vm_compute. split; [discriminate | reflexivity].
  - vm_compute. discriminate.
  - reflexivity.
  - reflexivity.
  - reflexivity.
  - reflexivity.
  - exact Hhk.
  - discriminate.
  - intros a secret hash bk ->%list_elem_of_singleton [= <- <-] Hbk.
    vm_compute in Hbk. injection Hbk as <-. vm_compute. discriminate.
  - intros pid _. vm_compute. reflexivity.
  - exists s', resp, token, h. exact (conj E (conj Hauth Hsk)).
Defined.
