(* ===== verification/Authorize.v ===== *)
(** * Redirect URIs and approval

    core/src/repositories/registered_client.rs: the redirect URI patterns of
    registered clients; and POST /oauth/authorize of api/src/api/http/oauth.rs, which
    stores the authorization code of a signed-in user.  GET /oauth/authorize is in
    [OAuthPages]. *)
From S2P Require Import Prelude RustStr External Instances Database Ucan HttpRpc Tokens OAuthRepo OAuth OAuthSafety.

(** ** Registered clients *)
Record registered_client_row : Type := {
  rc_tenant_id : Z; rc_client_id : string; rc_allowed_redirect_uris : list string;
}.

Definition get_allowed_redirect_uris (client_id : string) (tenant_id : Z) (t : list registered_client_row)
  : option (list string) :=
  rc_allowed_redirect_uris <$>
    find_first (fun r => bool_decide (rc_client_id r = client_id) && (rc_tenant_id r =? tenant_id)) t.

(** [None] is the panic of a reversed slice.  [splitn(2, '*')] of a pattern with a
    wildcard has two parts. *)
Definition matches_redirect_pattern (pattern uri : string) : option bool :=
  if bool_decide (pattern = uri) then Some true
  else match split_once "*" pattern with
       | None => Some false
       | Some (prefix, suffix) =>
           if negb (starts_with prefix uri) || negb (ends_with suffix uri) then Some false
           else
             (fun matched_segment => negb (contains_char "/" matched_segment)) <$>
               slice uri (len prefix) (len uri - len suffix)
       end.

Fixpoint any_pattern (patterns : list string) (uri : string) : option bool :=
  match patterns with
  | [] => Some false
  | pattern :: rest =>
      match matches_redirect_pattern pattern uri with
      | None => None
      | Some true => Some true
      | Some false => any_pattern rest uri
      end
  end.

Definition validate_redirect_uri (client_id redirect_uri : string) (tenant_id : Z)
    (t : list registered_client_row) : option (result unit RepositoryError) :=
  match get_allowed_redirect_uris client_id tenant_id t with
  | None => Some (Ok tt)
  | Some [] => Some (Err (RE_NotFound ("Client '" +:+ client_id +:+ "' has no allowed redirect URIs")))
  | Some patterns =>
      match any_pattern patterns redirect_uri with
      | None => None
      | Some true => Some (Ok tt)
      | Some false => Some (Err (RE_NotFound ("redirect_uri '" +:+ redirect_uri
                        +:+ "' is not allowed for client '" +:+ client_id +:+ "'")))
      end
  end.

(** A URI an allowed pattern stands for: the pattern itself, or the pattern with
    its first wildcard replaced by a segment without a slash. *)
Definition pattern_allows (pattern uri : string) : Prop :=
  uri = pattern \/
  exists prefix segment suffix, pattern = prefix +:+ String "*" suffix /\ contains_char "*" prefix = false /\
    uri = prefix +:+ segment +:+ suffix /\ contains_char "/" segment = false.

(** The slice between a prefix and a suffix that do not overlap. *)
Lemma slice_middle a m b : slice (a +:+ m +:+ b) (len a) (len (a +:+ m +:+ b) - len b) = Some m.
Proof.
  unfold slice, len. rewrite !app_length_str.
  rewrite !(proj2 (Z.leb_le _ _)) by lia. simpl. f_equal.
  rewrite Nat2Z.id. replace (Z.to_nat _) with (String.length m) by lia. apply substring_middle.
Qed.

(** A string that starts with [p], ends with [q] and is long enough for both. *)
Lemma both_ends p q u :
  starts_with p u = true -> ends_with q u = true -> len p + len q <= len u -> exists m, u = p +:+ m +:+ q.
Proof.
  rewrite starts_with_spec, ends_with_spec. intros [r ->] [r' E]. unfold len. rewrite app_length_str. intros Hl.
  assert (Hq : exists m, r = m +:+ q); [|destruct Hq as [m ->]; by exists m].
  revert r' E. induction p as [|a p IH]; intros r' E; [by exists r'|].
  destruct r' as [|b r'].
  - exfalso. assert (Hlen : String.length (String a p +:+ r) = String.length q) by by rewrite E.
    rewrite app_length_str in Hlen. simpl in Hlen, Hl. lia.
  - injection E as _ E. apply (IH ltac:(simpl in Hl; lia) r' E).
Qed.

Lemma starts_with_app a b : starts_with a (a +:+ b) = true.
Proof. apply starts_with_spec. by exists b. Qed.
Lemma ends_with_app a m b : ends_with b (a +:+ m +:+ b) = true.
Proof. apply ends_with_spec. exists (a +:+ m). by rewrite app_assoc_str. Qed.

Lemma matches_panics pattern uri :
  matches_redirect_pattern pattern uri = None <->
  pattern <> uri /\ exists prefix suffix, split_once "*" pattern = Some (prefix, suffix) /\
    starts_with prefix uri = true /\ ends_with suffix uri = true /\ len uri < len prefix + len suffix.
Proof.
  unfold matches_redirect_pattern. case_bool_decide as Heq.
  { split; [done | by intros [? _]]. }
  destruct (split_once "*" pattern) as [[prefix suffix]|]; [|split; [done | by intros (_ & ? & ? & ? & _)]].
  destruct (starts_with prefix uri) eqn:Ep; simpl; [|split; [done | intros (_ & ? & ? & [= <- <-] & ? & _); congruence]].
  destruct (ends_with suffix uri) eqn:Es; simpl; [|split; [done | intros (_ & ? & ? & [= <- <-] & _ & ? & _); congruence]].
  rewrite fmap_None. split.
  - intros H. split; [done|]. exists prefix, suffix. repeat (split; [done|]).
    destruct (Z_lt_le_dec (len uri) (len prefix + len suffix)) as [|Hle]; [done|].
    destruct (both_ends prefix suffix uri Ep Es Hle) as [m ->]. by rewrite slice_middle in H.
  - intros (_ & ? & ? & [= <- <-] & _ & _ & Hlt). unfold slice.
    rewrite (proj2 (Z.leb_gt (len prefix) _)) by lia. by rewrite andb_false_r.
Qed.

Lemma matches_allows pattern uri :
  matches_redirect_pattern pattern uri = Some true <-> pattern_allows pattern uri.
Proof.
  split.
  - intros H. unfold pattern_allows. unfold matches_redirect_pattern in H. case_bool_decide as Heq; [by left|]. right.
    destruct (split_once "*" pattern) as [[prefix suffix]|] eqn:E; [|done]. apply split_once_Some in E as [-> Hp].
    destruct (negb _ || negb _) eqn:Ew; [done|]. bool_to_prop.
    apply fmap_Some in H as (seg & Hseg & Hno). apply negb_sym in Hno.
    destruct (Z_lt_le_dec (len uri) (len prefix + len suffix)) as [Hlt|Hle].
    { unfold slice in Hseg. rewrite (proj2 (Z.leb_gt (len prefix) _)), andb_false_r in Hseg by lia. done. }
    destruct (both_ends prefix suffix uri) as [m ->]; [done..|]. rewrite slice_middle in Hseg.
    injection Hseg as <-. by exists prefix, m, suffix.
  - intros [-> | (prefix & seg & suffix & -> & Hp & -> & Hno)]; unfold matches_redirect_pattern.
    { by rewrite bool_decide_true. }
    case_bool_decide; [done|]. rewrite split_once_app by done.
    rewrite starts_with_app, ends_with_app. simpl. rewrite slice_middle. simpl. by rewrite Hno.
Qed.

(** A redirect URI is accepted by a pattern exactly when it is the pattern or
    the pattern with its first wildcard replaced by a segment without a slash;
    the check panics exactly when the parts around the wildcard overlap in the
    URI. *)
Theorem redirect_pattern_spec pattern uri :
  (matches_redirect_pattern pattern uri = Some true <-> pattern_allows pattern uri) /\
  (matches_redirect_pattern pattern uri = None <->
   pattern <> uri /\ exists prefix suffix, split_once "*" pattern = Some (prefix, suffix) /\
     starts_with prefix uri = true /\ ends_with suffix uri = true /\ len uri < len prefix + len suffix).
Proof.
  split; [apply matches_allows | apply matches_panics].
Qed.

(** A wildcard in place of a subdomain does not keep the redirect on the
    domain: its segment may end the host with a question mark.  A client
    registered with "https://*" and a domain suffix accepts the URI of any other
    host that carries the suffix as its query, and the origin of that URI is that
    host ([url_parse] ends the authority at the question mark). *)
Theorem wildcard_leaves_domain `{UrlLib} host suffix :
  contains_char "/" host = false ->
  url_parse ("https://" +:+ host +:+ "?" +:+ suffix) =
    Some {| url_scheme := "https"; url_host_str := Some host; url_port := None |} ->
  let uri := "https://" +:+ host +:+ "?" +:+ suffix in
  matches_redirect_pattern ("https://*" +:+ suffix) uri = Some true /\
  extract_origin uri = Ok ("https://" +:+ host).
Proof.
  intros Hh Hurl uri. split.
  - apply matches_allows. right. exists "https://", (host +:+ "?"), suffix.
    repeat (split; [reflexivity|]). split; [unfold uri; by rewrite !app_assoc_str|].
    by rewrite contains_char_app, Hh.
  - unfold extract_origin, uri. rewrite Hurl. reflexivity.
Qed.

(** ** Approval *)
Definition extract_ucan_from_cookie (cookie_header : option string) : option string :=
  match cookie_header with
  | Some h => find_map (fun cookie => strip_prefix "keycast_session=" (trim cookie)) (split ";" h)
  | None => None
  end.

Record ApproveRequest : Type := {
  ar_client_id : string; ar_redirect_uri : string; ar_scope : string; ar_state : option string;
  ar_approved : bool; ar_code_challenge : option string; ar_code_challenge_method : option string;
}.

Inductive approve_response : Type :=
| RedirectTo (location : string)
| CodeJson (code redirect_uri : string) (state : option string).

Section approve.
Context `{HN : Nostr, HC : !NostrCrypto, HS : !Serde, HX : !Secrets, HD : Digests,
          HE : !Encodings, HU : UcanLib, HM : !UcanMint, HL : UrlLib}.

Definition store_oauth_code (now tenant_id : Z) (code user_pubkey client_id redirect_uri scope : string)
    (code_challenge code_challenge_method : option string) (expires_at : Z) (previous_auth_id : option Z)
    (state : option string) : SE oauth_state oauth_abort unit :=
  on_db (oauth_code_store now {| sp_tenant_id := tenant_id; sp_code := code; sp_user_pubkey := user_pubkey;
    sp_client_id := client_id; sp_redirect_uri := redirect_uri; sp_scope := scope;
    sp_code_challenge := code_challenge; sp_code_challenge_method := code_challenge_method;
    sp_expires_at := expires_at; sp_previous_auth_id := previous_auth_id; sp_state := state;
    sp_is_headless := false |}).

(** [code] is the random code. *)
Definition authorize_post (now : Z) (nsec : option string) (code : string) (tenant_id : Z)
    (cookie_header : option string) (req : ApproveRequest) : SE oauth_state oauth_abort approve_response :=
  if negb (ar_approved req) then se_ret (RedirectTo (ar_redirect_uri req +:+ "?error=access_denied"))
  else
    let user :=
      match extract_ucan_from_cookie cookie_header with
      | Some token => vt_user_pubkey <$> ok (validate_ucan_token now nsec ("Bearer " +:+ token) tenant_id)
      | None => None
      end in
    let! user_pubkey := se_lift (ok_or user (Returned OE_Unauthorized)) in
    let! _ := store_oauth_code now tenant_id code user_pubkey (ar_client_id req) (ar_redirect_uri req)
                (ar_scope req) (ar_code_challenge req) (ar_code_challenge_method req) (now + 10 * 60) None
                (ar_state req) in
    se_ret (CodeJson code (ar_redirect_uri req) (ar_state req)).

(** What an approval stored. *)
Lemma authorize_post_ok now nsec code ten cookie req s s' c uri state :
  authorize_post now nsec code ten cookie req s = (s', Ok (CodeJson c uri state)) ->
  exists token t, extract_ucan_from_cookie cookie = Some token /\
    validate_ucan_token now nsec ("Bearer " +:+ token) ten = Ok t /\ c = code /\ uri = ar_redirect_uri req /\
    oauth_code_store now {| sp_tenant_id := ten; sp_code := code; sp_user_pubkey := vt_user_pubkey t;
      sp_client_id := ar_client_id req; sp_redirect_uri := ar_redirect_uri req; sp_scope := ar_scope req;
      sp_code_challenge := ar_code_challenge req; sp_code_challenge_method := ar_code_challenge_method req;
      sp_expires_at := now + 10 * 60; sp_previous_auth_id := None; sp_state := ar_state req;
      sp_is_headless := false |} (os_db s) = (os_db s', Ok tt).
Proof.
  unfold authorize_post. destruct (negb _); [done|]. intros H.
  apply se_bind_ok in H as (? & u & Hu & H). unfold se_lift in Hu. injection Hu as <- Hu. apply ok_or_ok in Hu.
  apply se_bind_ok in H as (? & [] & Hs & H). apply on_db_ok in Hs as (d & Hs & ->).
  unfold se_ret in H. injection H as <- <- <- <-.
  destruct (extract_ucan_from_cookie cookie) as [token|] eqn:Ec; [|done].
  destruct (validate_ucan_token _ _ _ _) as [t|] eqn:Et; [|done]. injection Hu as <-.
  exists token, t. by repeat (split; [done|]).
Qed.

(** A stored code passes the token endpoint's checks until it expires, with the
    redirect URI it was stored for and a verifier of its challenge. *)
Lemma stored_code_exchangeable now now' p d d' v client :
  oauth_code_store now p d = (d', Ok tt) -> now' < sp_expires_at p ->
  (forall ch, sp_code_challenge p = Some ch ->
     validate_pkce v ch (default "plain" (sp_code_challenge_method p)) = Ok tt) ->
  exists data,
    code_grant_check now' (sp_tenant_id p) {| rq_grant_type := None; rq_code := Some (sp_code p); rq_client_id := client;
      rq_redirect_uri := Some (sp_redirect_uri p); rq_code_verifier := Some v; rq_refresh_token := None |} d'
      = Ok (sp_code p, data) /\
    cd_user_pubkey data = sp_user_pubkey p /\ cd_client_id data = sp_client_id p /\ cd_scope data = sp_scope p /\
    cd_is_headless data = sp_is_headless p /\ cd_pending_email data = None.
Proof.
  intros Hs Hn Hv. unfold oauth_code_store, insert_code in Hs. destruct (existsb _ _) eqn:E; [done|].
  match type of Hs with (set_oauth_codes (_ ++ [?r]) _, _) = _ => set (row := r) in * end.
  injection Hs as <-.
  assert (Hpkce : match sp_code_challenge p with
    | Some ch => validate_pkce v ch (default "plain" (sp_code_challenge_method p)) | None => Ok tt end = Ok tt).
  { destruct (sp_code_challenge p); [by apply Hv | done]. }
  exists (code_data row). unfold code_grant_check, oauth_code_find_valid. cbn [rq_code rq_redirect_uri rq_code_verifier ok_or rbind].
  rewrite (find_first_unique _ _ row).
  - simpl. rewrite bool_decide_true by done. simpl. rewrite Hpkce. by split_and!.
  - apply elem_of_app. right. by apply list_elem_of_singleton.
  - simpl. rewrite Z.eqb_refl, bool_decide_true by done. by apply Z.ltb_lt.
  - intros b [Hb | ->%list_elem_of_singleton]%elem_of_app Hm; [|done]. exfalso. bool_to_prop.
    apply not_true_iff_false in E. apply E, existsb_exists. exists b.
    split; [by apply list_elem_of_In | simpl; by apply bool_decide_true].
Qed.

(** The authorization a stored code is exchanged for: the code's user and the
    policy its scope names. *)
Lemma stored_code_grants now now' p cfg dr treq o o' o2 tresp :
  oauth_code_store now p (os_db o) = (os_db o', Ok tt) -> rq_code treq = Some (sp_code p) ->
  handle_authorization_code_grant now' cfg dr (sp_tenant_id p) treq o' = (o2, Ok tresp) ->
  exists a pid,
    resolve_policy_from_scope (os_db o) (sp_scope p) = Ok pid /\
    a ∈ rows (db_oauth_authorizations (os_db o2)) /\ oa_id a = next_id (db_oauth_authorizations (os_db o)) /\
    oa_user_pubkey a = sp_user_pubkey p /\ oa_tenant_id a = sp_tenant_id p /\ oa_policy_id a = Some pid.
Proof.
  intros Hs Hcode Hg. unfold oauth_code_store, insert_code in Hs. destruct (existsb _ _) eqn:E; [done|].
  match type of Hs with (set_oauth_codes (_ ++ [?r]) _, _) = _ => set (new := r) in * end. injection Hs as Hs.
  apply code_grant_ok in Hg as (code & row & origin & pid & Hc & Hin & Hoc & _ & _ & _ & _ & _ & Hpid & (a & Ha & Hid & Hu & Ht & _ & _ & Hp) & _).
  rewrite <- Hs in Hin, Hid, Hpid. simpl in Hin, Hid.
  apply elem_of_app in Hin as [Hin | ->%list_elem_of_singleton].
  - exfalso. rewrite <- not_true_iff_false, existsb_elem in E. apply E. exists row. split; [done|]. apply bool_decide_true.
    simpl. congruence.
  - exists a, pid. by split_and!.
Qed.

(** Approval and exchange fit: an approved request of a signed-in user yields
    a code that, for ten minutes, passes the token endpoint's checks with the same
    redirect URI and a verifier of its challenge, and stands for the user of the
    session. *)
Theorem approved_code_is_exchangeable now now' nsec code ten cookie req s s' c uri state v :
  authorize_post now nsec code ten cookie req s = (s', Ok (CodeJson c uri state)) ->
  now' < now + 10 * 60 ->
  (forall ch, ar_code_challenge req = Some ch ->
     validate_pkce v ch (default "plain" (ar_code_challenge_method req)) = Ok tt) ->
  exists token t data,
    extract_ucan_from_cookie cookie = Some token /\
    validate_ucan_token now nsec ("Bearer " +:+ token) ten = Ok t /\
    code_grant_check now' ten {| rq_grant_type := None; rq_code := Some c; rq_client_id := ar_client_id req;
      rq_redirect_uri := Some uri; rq_code_verifier := Some v; rq_refresh_token := None |} (os_db s')
      = Ok (c, data) /\
    cd_user_pubkey data = vt_user_pubkey t /\ cd_client_id data = ar_client_id req /\
    cd_scope data = ar_scope req /\ cd_pending_email data = None.
Proof.
  intros (token & t & Hc & Ht & -> & -> & Hs)%authorize_post_ok Hn Hv.
  destruct (stored_code_exchangeable now now' _ _ _ v (ar_client_id req) Hs Hn Hv) as (data & ?). exists token, t, data. naive_solver.
Qed.

End approve.

(** ** Witnesses

    A URL parser that ends the host at the first question mark. *)
#[local] Instance authority_url : UrlLib := {
  url_parse s := (fun rest => {| url_scheme := "https";
      url_host_str := Some (match split_once "?" rest with Some (h, _) => h | None => rest end);
      url_port := None |}) <$> strip_prefix "https://" s;
  urlencode s := s;
}.

Lemma wildcard_leaves_domain_witness :
  matches_redirect_pattern "https://*.openvine-app.pages.dev/callback"
    "https://evil.example?.openvine-app.pages.dev/callback" = Some true /\
  extract_origin "https://evil.example?.openvine-app.pages.dev/callback" = Ok "https://evil.example".
Proof. apply (wildcard_leaves_domain "evil.example" ".openvine-app.pages.dev/callback"); reflexivity. Defined.

Definition approval : ApproveRequest := {|
  ar_client_id := "app"; ar_redirect_uri := "https://app.example"; ar_scope := "policy:social";
  ar_state := Some "st"; ar_approved := true; ar_code_challenge := Some "v";
  ar_code_challenge_method := None |}.
Definition empty_oauth_state : oauth_state :=
  {| os_rpc := {| rs_db := empty_db; rs_cache := ∅ |}; os_sent := [] |}.

Lemma approved_code_is_exchangeable_witness :
  exists s' data,
    authorize_post 10 (Some "server") "c0de" 1 (Some "a=b; keycast_session=x") approval empty_oauth_state
      = (s', Ok (CodeJson "c0de" "https://app.example" (Some "st"))) /\
    code_grant_check 600 1 {| rq_grant_type := None; rq_code := Some "c0de"; rq_client_id := "app";
      rq_redirect_uri := Some "https://app.example"; rq_code_verifier := Some "v"; rq_refresh_token := None |}
      (os_db s') = Ok ("c0de", data).
Proof.
  assert (E : exists s', authorize_post 10 (Some "server") "c0de" 1 (Some "a=b; keycast_session=x") approval
    empty_oauth_state = (s', Ok (CodeJson "c0de" "https://app.example" (Some "st")))).
  { eexists. vm_compute. reflexivity. }
  destruct E as (s' & E).
  destruct (approved_code_is_exchangeable 10 600 (Some "server") "c0de" 1 (Some "a=b; keycast_session=x")
    approval empty_oauth_state s' "c0de" "https://app.example" (Some "st") "v" E)
    as (token & t & data & _ & _ & Hcheck & _).
  - reflexivity.
  - intros ch [= <-]. reflexivity.
  - exists s', data. exact (conj E Hcheck).
Defined.
