(* ===== verification/WorkQueue.v ===== *)
(** * Bounded queues served by workers

    The shape shared by signer/src/work_queue.rs and api/src/bcrypt_queue.rs: a
    crossbeam channel of bounded capacity, senders that never wait, and workers
    that take one item, process it statement by statement and take the next.  The channel is a class of
    operations with the laws its documentation states; the pool of workers is a
    step relation over the state the items act on.  What a client needs is
    proved once here: nothing accepted is lost or done twice, items are taken in
    the order they were accepted, and the workers alone empty the queue. *)
From stdpp Require Import relations.
From S2P Require Import Prelude Tasks.

(** ** crossbeam_channel *)
Inductive TrySendError : Type := TS_Full | TS_Disconnected.
Inductive TryRecvError : Type := TR_Empty | TR_Disconnected.

Class Channel := {
  chan : Type -> Type;
  (** [bounded(cap)] *)
  bounded : forall A, nat -> chan A;
  chan_try_send : forall A, A -> chan A -> chan A * result unit TrySendError;
  (** [send] and [recv]: [None] is a call that blocks. *)
  chan_send : forall A, A -> chan A -> option (chan A * result unit unit);
  chan_recv : forall A, chan A -> option (chan A * result A unit);
  chan_try_recv : forall A, chan A -> chan A * result A TryRecvError;
  chan_len : forall A, chan A -> nat;
  (** What is waiting, the capacity, and whether a sender and a receiver are
      left. *)
  queued : forall A, chan A -> list A;
  capacity : forall A, chan A -> nat;
  has_sender : forall A, chan A -> bool;
  has_receiver : forall A, chan A -> bool;
}.
Arguments bounded {_} A _.
Arguments chan_try_send {_ A} _ _.
Arguments chan_send {_ A} _ _.
Arguments chan_recv {_ A} _.
Arguments chan_try_recv {_ A} _.
Arguments chan_len {_ A} _.
Arguments queued {_ A} _.
Arguments capacity {_ A} _.
Arguments has_sender {_ A} _.
Arguments has_receiver {_ A} _.

(** [c'] is [c] with other contents. *)
Definition same_ends `{Channel} {A} (c c' : chan A) : Prop :=
  capacity c' = capacity c /\ has_sender c' = has_sender c /\ has_receiver c' = has_receiver c.

Class ChannelLaws `{Channel} : Prop := {
  bounded_spec A n : queued (bounded A n) = [] /\ capacity (bounded A n) = n /\
    has_sender (bounded A n) = true /\ has_receiver (bounded A n) = true;
  within_capacity A (c : chan A) : (length (queued c) <= capacity c)%nat;
  len_spec A (c : chan A) : chan_len c = length (queued c);
  try_send_disconnected A (a : A) c : has_receiver c = false -> chan_try_send a c = (c, Err TS_Disconnected);
  try_send_full A (a : A) c : has_receiver c = true -> length (queued c) = capacity c ->
    chan_try_send a c = (c, Err TS_Full);
  try_send_room A (a : A) c : has_receiver c = true -> (length (queued c) < capacity c)%nat ->
    exists c', chan_try_send a c = (c', Ok tt) /\ queued c' = queued c ++ [a] /\ same_ends c c';
  send_disconnected A (a : A) c : has_receiver c = false -> chan_send a c = Some (c, Err tt);
  send_full A (a : A) c : has_receiver c = true -> length (queued c) = capacity c -> chan_send a c = None;
  send_room A (a : A) c : has_receiver c = true -> (length (queued c) < capacity c)%nat ->
    exists c', chan_send a c = Some (c', Ok tt) /\ queued c' = queued c ++ [a] /\ same_ends c c';
  recv_item A (a : A) q c : queued c = a :: q ->
    exists c', chan_recv c = Some (c', Ok a) /\ queued c' = q /\ same_ends c c';
  recv_empty A (c : chan A) : queued c = [] -> has_sender c = true -> chan_recv c = None;
  recv_closed A (c : chan A) : queued c = [] -> has_sender c = false -> chan_recv c = Some (c, Err tt);
  try_recv_item A (a : A) q c : queued c = a :: q ->
    exists c', chan_try_recv c = (c', Ok a) /\ queued c' = q /\ same_ends c c';
  try_recv_empty A (c : chan A) : queued c = [] ->
    chan_try_recv c = (c, Err (if has_sender c then TR_Empty else TR_Disconnected));
}.

Section channels.
Context `{HCh : Channel, HChL : !ChannelLaws} {A : Type}.
Implicit Types c : chan A.

Lemma room_or_full c : length (queued c) = capacity c \/ (length (queued c) < capacity c)%nat.
Proof. pose proof (within_capacity A c). lia. Qed.

Lemma try_send_ok a c c' :
  chan_try_send a c = (c', Ok tt) -> queued c' = queued c ++ [a] /\ same_ends c c'.
Proof.
  destruct (has_receiver c) eqn:Hr; [|by rewrite try_send_disconnected].
  destruct (room_or_full c) as [Hf|Hl]; [by rewrite try_send_full|].
  destruct (try_send_room A a c Hr Hl) as (c1 & -> & Hq & He). by intros [= <-].
Qed.

Lemma try_send_err a c c' e :
  chan_try_send a c = (c', Err e) ->
  c' = c /\ ((e = TS_Full /\ length (queued c) = capacity c) \/ (e = TS_Disconnected /\ has_receiver c = false)).
Proof.
  destruct (has_receiver c) eqn:Hr; [|rewrite try_send_disconnected by done; intros [= <- <-]; auto].
  destruct (room_or_full c) as [Hf|Hl]; [rewrite try_send_full by done; intros [= <- <-]; auto|].
  by destruct (try_send_room A a c Hr Hl) as (c1 & -> & _).
Qed.

Lemma recv_ok c c' a :
  chan_recv c = Some (c', Ok a) -> queued c = a :: queued c' /\ same_ends c c'.
Proof.
  destruct (queued c) as [|b q] eqn:Hq.
  - destruct (has_sender c) eqn:Hs; [by rewrite recv_empty | by rewrite recv_closed].
  - destruct (recv_item A b q c Hq) as (c1 & -> & <- & He). by intros [= <- <-].
Qed.

Lemma try_recv_ok c c' a :
  chan_try_recv c = (c', Ok a) -> queued c = a :: queued c' /\ same_ends c c'.
Proof.
  destruct (queued c) as [|b q] eqn:Hq; [by rewrite try_recv_empty|].
  destruct (try_recv_item A b q c Hq) as (c1 & -> & <- & He). by intros [= <- <-].
Qed.

Lemma try_recv_err c c' e : chan_try_recv c = (c', Err e) -> c' = c /\ queued c = [].
Proof.
  destruct (queued c) as [|b q] eqn:Hq; [rewrite try_recv_empty by done; by intros [= <- _]|].
  by destruct (try_recv_item A b q c Hq) as (c1 & -> & _).
Qed.

Lemma recv_err c c' u : chan_recv c = Some (c', Err u) -> c' = c /\ queued c = [].
Proof.
  destruct (queued c) as [|b q] eqn:Hq.
  - destruct (has_sender c) eqn:Hs; [by rewrite recv_empty | rewrite recv_closed by done; by intros [= <- _]].
  - by destruct (recv_item A b q c Hq) as (c1 & -> & _).
Qed.

Lemma send_ok a c c' : chan_send a c = Some (c', Ok tt) -> queued c' = queued c ++ [a] /\ same_ends c c'.
Proof.
  destruct (has_receiver c) eqn:Hr; [|by rewrite send_disconnected].
  destruct (room_or_full c) as [Hf|Hl]; [by rewrite send_full|].
  destruct (send_room A a c Hr Hl) as (c1 & -> & Hq & He). by intros [= <-].
Qed.

Lemma send_err a c c' u : chan_send a c = Some (c', Err u) -> c' = c.
Proof.
  destruct (has_receiver c) eqn:Hr; [|rewrite send_disconnected by done; by intros [= <- _]].
  destruct (room_or_full c) as [Hf|Hl]; [by rewrite send_full|].
  by destruct (send_room A a c Hr Hl) as (c1 & -> & _).
Qed.
End channels.

(** ** A pool of workers *)
Inductive worker (Item Task : Type) : Type :=
| Idle
| Busy (item : Item) (ran : nat) (rest : Task)
| Exited.
Arguments Idle {Item Task}.
Arguments Busy {Item Task} item ran rest.
Arguments Exited {Item Task}.

Definition busy_items {Item Task} (ws : list (worker Item Task)) : list Item :=
  flat_map (fun w => match w with Busy x _ _ => [x] | _ => [] end) ws.

Definition working {Item Task} (w : worker Item Task) : bool := match w with Exited => false | _ => true end.

(** The queue, the workers, the clock and the state the items act on; the last
    three fields record history: what was accepted, taken and done. *)
Record pool `{Channel} (Item Task St : Type) : Type := {
  p_chan : chan Item; p_workers : list (worker Item Task); p_clock : Z; p_state : St;
  p_accepted : list Item; p_taken : list Item; p_done : list Item;
}.
Arguments p_chan {_ Item Task St} _.
Arguments p_workers {_ Item Task St} _.
Arguments p_clock {_ Item Task St} _.
Arguments p_state {_ Item Task St} _.
Arguments p_accepted {_ Item Task St} _.
Arguments p_taken {_ Item Task St} _.
Arguments p_done {_ Item Task St} _.

Section pool.
Context `{HCh : Channel} {Item St Oracle R : Type}.
Notation itask := (task Oracle St R).
Notation ipool := (pool Item itask St).

(** What a worker does with an item, statement by statement; a bound on the
    number of statements; and what else changes the state. *)
Variable process : Item -> itask.
Variable limit : nat.
Variable external : Z * St -> Z * St -> Prop.

Definition start_pool (cap num_workers : nat) (now : Z) (s : St) : ipool := {|
  p_chan := bounded Item cap; p_workers := replicate num_workers Idle; p_clock := now; p_state := s;
  p_accepted := []; p_taken := []; p_done := [] |}.

Definition set_state (now : Z) (s : St) (p : ipool) : ipool := {|
  p_chan := p_chan p; p_workers := p_workers p; p_clock := now; p_state := s;
  p_accepted := p_accepted p; p_taken := p_taken p; p_done := p_done p |}.

(** A sender offers an item: it is accepted or the caller learns why not. *)
Definition offer (x : Item) (p : ipool) : ipool * result unit TrySendError :=
  let '(c, r) := chan_try_send x (p_chan p) in
  ({| p_chan := c; p_workers := p_workers p; p_clock := p_clock p; p_state := p_state p;
      p_accepted := (if is_ok r then p_accepted p ++ [x] else p_accepted p);
      p_taken := p_taken p; p_done := p_done p |}, r).

(** Worker [i] in its loop: [recv], which may block, and the end of the loop
    when the channel is closed. *)
Definition worker_recv (i : nat) (p : ipool) : option ipool :=
  match p_workers p !! i, chan_recv (p_chan p) with
  | Some Idle, Some (c, Ok x) => Some {| p_chan := c; p_workers := <[i := Busy x 0 (process x)]> (p_workers p);
      p_clock := p_clock p; p_state := p_state p; p_accepted := p_accepted p;
      p_taken := p_taken p ++ [x]; p_done := p_done p |}
  | Some Idle, Some (c, Err _) => Some {| p_chan := c; p_workers := <[i := Exited]> (p_workers p);
      p_clock := p_clock p; p_state := p_state p; p_accepted := p_accepted p;
      p_taken := p_taken p; p_done := p_done p |}
  | _, _ => None
  end.

(** The next statement of the item worker [i] has in hand, or the end of it:
    between two statements of one worker the others run theirs. *)
Definition worker_process (i : nat) (now : Z) (o : Oracle) (p : ipool) : option ipool :=
  match p_workers p !! i with
  | Some (Busy x ran (Stmt change next)) => Some {| p_chan := p_chan p;
      p_workers := <[i := Busy x (S ran) (next now o (p_state p))]> (p_workers p); p_clock := now;
      p_state := change now o (p_state p); p_accepted := p_accepted p; p_taken := p_taken p;
      p_done := p_done p |}
  | Some (Busy x _ (Done _)) => Some {| p_chan := p_chan p; p_workers := <[i := Idle]> (p_workers p);
      p_clock := now; p_state := p_state p; p_accepted := p_accepted p; p_taken := p_taken p;
      p_done := p_done p ++ [x] |}
  | _ => None
  end.

(** The workers' own steps, and all steps. *)
Inductive work_step : ipool -> ipool -> Prop :=
| work_recv i p p' : worker_recv i p = Some p' -> work_step p p'
| work_process i now o p p' : p_clock p <= now -> worker_process i now o p = Some p' -> work_step p p'.

Inductive pool_step : ipool -> ipool -> Prop :=
| pool_work p p' : work_step p p' -> pool_step p p'
| pool_offer x p : pool_step p (fst (offer x p))
| pool_external now s p : external (p_clock p, p_state p) (now, s) -> pool_step p (set_state now s p).

(** *** The invariant: accepted items are taken in order, every taken item is in
    a worker's hands or done, and a worker has what is left of its item. *)
Definition on_task (w : worker Item itask) : Prop :=
  match w with Busy x ran rest => residual (process x) ran rest | _ => True end.
Definition pool_ok (p : ipool) : Prop :=
  p_accepted p = p_taken p ++ queued (p_chan p) /\ p_taken p ≡ₚ p_done p ++ busy_items (p_workers p) /\
  Forall on_task (p_workers p).

(** Work left: the statements of a queued item and two steps more, the
    statements left of an item in hand and one step more, and one for a worker
    that may still exit. *)
Definition left_of (w : worker Item itask) : nat :=
  match w with Busy _ ran _ => limit - ran + 2 | Idle => 1 | Exited => 0 end.
Definition work_left (p : ipool) : nat :=
  ((limit + 2) * length (queued (p_chan p)) + sum_list_with left_of (p_workers p))%nat.

Definition drained (p : ipool) : Prop := queued (p_chan p) = [] /\ busy_items (p_workers p) = [].

Section laws.
Context `{HChL : !ChannelLaws}.

Lemma busy_insert (ws : list (worker Item itask)) i w v :
  ws !! i = Some w -> busy_items [w] ++ busy_items (<[i := v]> ws) ≡ₚ busy_items [v] ++ busy_items ws.
Proof.
  intros Hi. unfold busy_items. rewrite insert_take_drop by (by eapply lookup_lt_Some).
  rewrite <- (take_drop_middle ws i w Hi) at 3. rewrite !flat_map_app. simpl.
  rewrite !app_nil_r. solve_Permutation.
Qed.

Lemma left_insert (ws : list (worker Item itask)) i w v :
  ws !! i = Some w ->
  (sum_list_with left_of (<[i := v]> ws) + left_of w = sum_list_with left_of ws + left_of v)%nat.
Proof.
  intros Hi. rewrite insert_take_drop by (by eapply lookup_lt_Some).
  rewrite <- (take_drop_middle ws i w Hi) at 3. rewrite !sum_list_with_app. simpl. lia.
Qed.

Lemma busy_replicate n : busy_items (replicate n (@Idle Item itask)) = [].
Proof. by induction n. Qed.

Lemma start_ok cap n now s : pool_ok (start_pool cap n now s).
Proof.
  unfold pool_ok, start_pool; simpl. destruct (bounded_spec Item cap) as [-> _]. split; [done|]. split.
  - induction n as [|n IH]; simpl; [done|]. exact IH.
  - by apply Forall_replicate.
Qed.

Lemma offer_ok x p : pool_ok p -> pool_ok (fst (offer x p)).
Proof.
  intros (Ha & Ht & Hw). unfold offer. destruct (chan_try_send x (p_chan p)) as [c [[]|e]] eqn:E; simpl.
  - apply try_send_ok in E as [Hq _]. split; simpl; [|done]. by rewrite Hq, Ha, app_assoc.
  - apply try_send_err in E as [-> _]. by split.
Qed.

Lemma worker_recv_ok i p p' : worker_recv i p = Some p' -> pool_ok p -> pool_ok p'.
Proof.
  unfold worker_recv. destruct (p_workers p !! i) as [[|x r t|]|] eqn:Hi; try done.
  destruct (chan_recv (p_chan p)) as [[c [x|u]]|] eqn:E; [| |done]; intros [= <-] (Ha & Ht & Hw);
    pose proof (busy_insert _ i Idle (Busy x 0 (process x)) Hi) as Hb
      || pose proof (busy_insert _ i Idle Exited Hi) as Hb;
    simpl in Hb; (split; [|split]); simpl.
  - apply recv_ok in E as [Hq _]. by rewrite Ha, Hq, <- app_assoc.
  - rewrite Hb, Ht. solve_Permutation.
  - apply Forall_insert; [done | constructor].
  - by apply recv_err in E as [-> _].
  - by rewrite Hb.
  - by apply Forall_insert.
Qed.

Lemma worker_process_ok i now o p p' : worker_process i now o p = Some p' -> pool_ok p -> pool_ok p'.
Proof.
  unfold worker_process. destruct (p_workers p !! i) as [[|x r t|]|] eqn:Hi; try done.
  intros Hp (Ha & Ht & Hw). pose proof (Forall_lookup_1 _ _ _ _ Hw Hi) as Hr. simpl in Hr.
  destruct t as [res|change next]; injection Hp as <-; (split; [|split]); simpl; try done.
  - pose proof (busy_insert _ i (Busy x r (Done res)) Idle Hi) as Hb. simpl in Hb.
    rewrite Ht, <- Hb. solve_Permutation.
  - by apply Forall_insert.
  - pose proof (busy_insert _ i _ (Busy x (S r) (next now o (p_state p))) Hi) as Hb. simpl in Hb.
    apply Permutation_cons_inv in Hb. by rewrite Hb.
  - apply Forall_insert; [done | by econstructor].
Qed.

Lemma work_step_ok p p' : work_step p p' -> pool_ok p -> pool_ok p'.
Proof. destruct 1; eauto using worker_recv_ok, worker_process_ok. Qed.

Lemma pool_step_ok p p' : pool_step p p' -> pool_ok p -> pool_ok p'.
Proof. destruct 1; eauto using work_step_ok, offer_ok. Qed.

Lemma pool_ok_reachable cap n now s p : steps pool_step (start_pool cap n now s) p -> pool_ok p.
Proof.
  intros Hs. apply (steps_invariant pool_step pool_ok pool_step_ok _ _ Hs), start_ok.
Qed.

(** Nothing accepted is lost or done twice. *)
Lemma pool_conserves p :
  pool_ok p -> p_accepted p ≡ₚ p_done p ++ busy_items (p_workers p) ++ queued (p_chan p).
Proof. intros (-> & -> & _). by rewrite app_assoc. Qed.

(** *** Liveness: the workers alone finish what is queued. *)
Hypothesis process_lasts : forall x, lasts limit (process x).

Lemma ran_within p i x r change next :
  pool_ok p -> p_workers p !! i = Some (Busy x r (Stmt change next)) -> (r < limit)%nat.
Proof.
  intros (_ & _ & Hw) Hi. pose proof (Forall_lookup_1 _ _ _ _ Hw Hi) as Hr.
  destruct (residual_lasts limit _ _ _ Hr (process_lasts x)) as ([|m] & -> & Hm); [done | lia].
Qed.

Lemma work_step_decreases p p' : pool_ok p -> work_step p p' -> (work_left p' < work_left p)%nat.
Proof.
  intros Hok. unfold work_left. destruct 1 as [i p p' E | i now o p p' _ E].
  - unfold worker_recv in E. destruct (p_workers p !! i) as [[|x r t|]|] eqn:Hi; try done.
    destruct (chan_recv (p_chan p)) as [[c [x|u]]|] eqn:Ec; [| |done]; injection E as <-; simpl.
    + apply recv_ok in Ec as [Hq _]. rewrite Hq.
      pose proof (left_insert _ i Idle (Busy x 0 (process x)) Hi). simpl in *. lia.
    + apply recv_err in Ec as [-> _]. pose proof (left_insert _ i Idle Exited Hi). simpl in *. lia.
  - unfold worker_process in E. destruct (p_workers p !! i) as [[|x r t|]|] eqn:Hi; try done.
    destruct t as [res|change next]; injection E as <-; simpl.
    + pose proof (left_insert _ i _ Idle Hi). simpl in *. lia.
    + pose proof (ran_within _ _ _ _ _ _ Hok Hi).
      pose proof (left_insert _ i _ (Busy x (S r) (next now o (p_state p))) Hi). simpl in *. lia.
Qed.

Lemma work_run_bounded n p p' : pool_ok p -> nsteps work_step n p p' -> (n + work_left p' <= work_left p)%nat.
Proof.
  intros Hok Hrun. induction Hrun as [|n p q r Hs _ IH]; [lia|].
  pose proof (work_step_decreases _ _ Hok Hs). pose proof (IH (work_step_ok _ _ Hs Hok)). lia.
Qed.

(** A pool that is not drained can go on while a worker is left. *)
Lemma worker_progress p i w `{Hi : Inhabited Oracle} :
  p_workers p !! i = Some w -> w <> Exited -> (w = Idle -> queued (p_chan p) <> []) ->
  exists p', work_step p p'.
Proof.
  intros Hl Hw Hq. destruct w as [|x r t|]; [| |done].
  - destruct (queued (p_chan p)) as [|x q] eqn:E; [by specialize (Hq eq_refl)|].
    destruct (recv_item Item x q _ E) as (c & Hc & _). eexists. eapply (work_recv i).
    unfold worker_recv. rewrite Hl, Hc. reflexivity.
  - destruct t; eexists; (eapply (work_process i (p_clock p) inhabitant); [done|]);
      unfold worker_process; rewrite Hl; reflexivity.
Qed.

Lemma undrained_progress p `{Hi : Inhabited Oracle} :
  (exists i w, p_workers p !! i = Some w /\ w <> Exited) -> (forall p', ~ work_step p p') -> drained p.
Proof.
  intros (i & w & Hl & Hw) Hstuck.
  assert (Hidle : forall j v, p_workers p !! j = Some v -> v <> Exited -> v = Idle /\ queued (p_chan p) = []).
  { intros j v Hj Hv. destruct (queued (p_chan p)) eqn:E, v; try done; exfalso;
      (destruct (worker_progress p j _ Hj Hv) as [p' Hp']; [by rewrite E | by apply (Hstuck p')]). }
  split; [by apply (Hidle i w)|]. unfold busy_items.
  assert (Hall : forall v, In v (p_workers p) -> match v with Busy x _ _ => [x] | _ => [] end = []).
  { intros v Hv%list_elem_of_In. apply list_elem_of_lookup in Hv as [j Hj].
    destruct v as [|x r t|]; [done| |done]. by destruct (Hidle j _ Hj). }
  revert Hall. generalize (p_workers p). clear. induction l as [|v ws IH]; simpl; intros Hall; [done|].
  rewrite (Hall v) by auto. apply IH; auto.
Qed.

(** Workers do not exit while a sender is left. *)
Definition staffed (p : ipool) : Prop :=
  has_sender (p_chan p) = true /\ exists i w, p_workers p !! i = Some w /\ w <> Exited.

Lemma staffed_lookup (ws : list (worker Item itask)) i v w j :
  ws !! i = Some w -> w <> Exited -> v <> Exited ->
  exists j' w', <[j := v]> ws !! j' = Some w' /\ w' <> Exited.
Proof.
  intros Hi Hw Hv. destruct (decide (j = i)) as [->|Hne].
  - exists i, v. split; [|done]. apply list_lookup_insert_eq. by eapply lookup_lt_Some.
  - exists i, w. split; [|done]. by rewrite list_lookup_insert_ne.
Qed.

Lemma work_step_staffed p p' : work_step p p' -> staffed p -> staffed p'.
Proof.
  intros Hstep [Hs (i & w & Hl & Hw)]. destruct Hstep as [j p p' E | j now o p p' _ E].
  - unfold worker_recv in E. destruct (p_workers p !! j) as [[|x r t|]|] eqn:Hj; try done.
    destruct (chan_recv (p_chan p)) as [[c [x|u]]|] eqn:Ec; [| |done]; injection E as <-.
    + apply recv_ok in Ec as [_ (_ & Hc & _)]. split; simpl; [congruence|]. by eapply staffed_lookup.
    + destruct (queued (p_chan p)) eqn:Eq.
      * by rewrite recv_empty in Ec.
      * by apply recv_err in Ec as [_ ?]; congruence.
  - unfold worker_process in E. destruct (p_workers p !! j) as [[|x r t|]|]; try done.
    destruct t; injection E as <-; (split; simpl; [done|]); by eapply staffed_lookup.
Qed.

Lemma work_step_accepted p p' : work_step p p' -> p_accepted p' = p_accepted p.
Proof.
  destruct 1 as [j p p' E | j now o p p' _ E].
  - unfold worker_recv in E. destruct (p_workers p !! j) as [[]|]; try done.
    destruct (chan_recv _) as [[c [|]]|]; [| |done]; by injection E as <-.
  - unfold worker_process in E. destruct (p_workers p !! j) as [[|x r [res|change next]|]|]; try done;
      by injection E as <-.
Qed.

Lemma work_step_clock p p' : work_step p p' -> p_clock p <= p_clock p'.
Proof.
  destruct 1 as [j p p' E | j now o p p' Hle E].
  - unfold worker_recv in E. destruct (p_workers p !! j) as [[]|]; try done.
    destruct (chan_recv _) as [[c [|]]|]; [| |done]; by injection E as <-.
  - unfold worker_process in E. destruct (p_workers p !! j) as [[|x r [res|change next]|]|]; try done;
      by injection E as <-.
Qed.

Lemma work_run_frame n p p' :
  nsteps work_step n p p' -> staffed p -> pool_ok p ->
  staffed p' /\ pool_ok p' /\ p_accepted p' = p_accepted p.
Proof.
  induction 1 as [|n p q r Hs _ IH]; [done|]. intros Hst Hok.
  rewrite <- (work_step_accepted _ _ Hs). apply IH; [by eapply work_step_staffed | by eapply work_step_ok].
Qed.

Lemma drained_done p : pool_ok p -> drained p -> p_done p ≡ₚ p_accepted p.
Proof. intros Hok [Hq Hb]. rewrite (pool_conserves p Hok), Hq, Hb. by rewrite app_nil_r. Qed.

(** Under any schedule the workers stop after at most [work_left] steps, and
    when no worker can go on everything accepted is done. *)
Lemma workers_drain n p p' `{Hi : Inhabited Oracle} :
  staffed p -> pool_ok p -> nsteps work_step n p p' ->
  (n <= work_left p)%nat /\ ((forall q, ~ work_step p' q) -> p_done p' ≡ₚ p_accepted p).
Proof.
  intros Hst Hok Hrun. pose proof (work_run_bounded _ _ _ Hok Hrun). split; [lia|]. intros Hstuck.
  destruct (work_run_frame _ _ _ Hrun Hst Hok) as ([_ Hw] & Hok' & <-).
  apply drained_done; [done|]. by apply undrained_progress.
Qed.

(** *** Outputs: what the items produce

    Every task produces at most one output, of its own item's kind, and keeps an
    invariant that time and the rest of the program keep too. *)
Section outputs.
Context {E : Type} (I : Z -> St -> Prop) (out : St -> list E) (Rel : Item -> E -> Prop).
Hypothesis I_later : forall t t' s, t <= t' -> I t s -> I t' s.
Hypothesis process_safe : forall x t, safe I out (Rel x) (fun _ _ => True) 1 t (process x).

(** The item a worker may still produce an output for. *)
Definition owes (t : Z) (w : worker Item itask) (l : list Item) : Prop :=
  match w with
  | Busy x _ rest => exists n, safe I out (Rel x) (fun _ _ => True) n t rest /\ l = repeat x n /\ (n <= 1)%nat
  | _ => l = []
  end.

(** Since [p0]: each output belongs to another of the items taken. *)
Definition answering (p0 p : ipool) : Prop :=
  I (p_clock p) (p_state p) /\
  exists new ans outs owed, p_taken p = p_taken p0 ++ new /\ out (p_state p) = out (p_state p0) ++ outs /\
    Forall2 Rel ans outs /\ Forall2 (owes (p_clock p)) (p_workers p) owed /\ ans ++ concat owed ⊆+ new.

Lemma owes_later t t' w l : t <= t' -> owes t w l -> owes t' w l.
Proof.
  intros Hle. destruct w as [|x r rest|]; [done| |done]. intros (n & Hs & Hn). exists n. split; [|done].
  by eapply safe_later.
Qed.

Lemma answering_start p : I (p_clock p) (p_state p) -> busy_items (p_workers p) = [] -> answering p p.
Proof.
  intros Hi Hidle. split; [done|]. exists [], [], [], (map (fun _ => []) (p_workers p)).
  rewrite !app_nil_r. split; [done|]. split; [done|]. split; [constructor|].
  assert (Hws : Forall2 (owes (p_clock p)) (p_workers p) (map (fun _ => []) (p_workers p)) /\
    concat (map (fun _ => []) (p_workers p)) = @nil Item).
  { revert Hidle. generalize (p_workers p). induction l as [|w ws IH]; simpl; [by repeat constructor|].
    intros Hb. apply app_eq_nil in Hb as [Hw Hb]. destruct (IH Hb) as [H1 H2].
    split; [|done]. constructor; [|done]. by destruct w. }
  destruct Hws as [H1 H2]. split; [done|]. by rewrite H2.
Qed.

Lemma answering_external p0 p now s :
  p_clock p <= now -> I now s -> out s = out (p_state p) -> answering p0 p -> answering p0 (set_state now s p).
Proof.
  intros Hle Hi Hout (_ & new & ans & outs & owed & Hn & Ho & HF & Hw & Hsub). split; [done|].
  exists new, ans, outs, owed. simpl. split; [done|]. split; [congruence|]. split; [done|]. split; [|done].
  eapply Forall2_impl; [done|]. intros w l. by apply owes_later.
Qed.

Lemma answering_offer p0 p x : answering p0 p -> answering p0 (fst (offer x p)).
Proof. unfold offer. by destruct (chan_try_send x (p_chan p)) as [c r]. Qed.

Lemma owed_insert (ws : list (worker Item itask)) (owed : list (list Item)) t i w l v k :
  Forall2 (owes t) ws owed -> ws !! i = Some w -> owed !! i = Some l -> owes t v k ->
  Forall2 (owes t) (<[i := v]> ws) (<[i := k]> owed) /\ l ++ concat (<[i := k]> owed) ≡ₚ k ++ concat owed.
Proof.
  intros HF Hi Ho Hv. split; [by apply Forall2_insert|].
  rewrite insert_take_drop by (by eapply lookup_lt_Some).
  rewrite <- (take_drop_middle owed i l Ho) at 3. rewrite !concat_app. simpl. solve_Permutation.
Qed.
Lemma answering_recv p0 p p' i : worker_recv i p = Some p' -> answering p0 p -> answering p0 p'.
Proof.
  intros Ep (Hi & new & ans & outs & owed & Hn & Ho & HF & Hw & Hsub). unfold worker_recv in Ep.
  destruct (p_workers p !! i) as [[|x r t|]|] eqn:Hl; try done.
  destruct (Forall2_lookup_l _ _ _ _ _ Hw Hl) as (l & Hol & ->).
  destruct (chan_recv (p_chan p)) as [[c [x|u]]|]; [| |done]; injection Ep as <-; (split; [done|]); simpl.
  - destruct (owed_insert _ _ (p_clock p) i Idle [] (Busy x 0 (process x)) [x] Hw Hl Hol) as [Hw' Hp].
    { exists 1%nat. split; [apply process_safe | done]. }
    exists (new ++ [x]), ans, outs, (<[i := [x]]> owed). split; [by rewrite Hn, app_assoc|].
    split; [done|]. split; [done|]. split; [done|]. simpl in Hp. rewrite Hp.
    transitivity ((ans ++ concat owed) ++ [x]); [|by apply submseteq_app].
    apply Permutation_submseteq. solve_Permutation.
  - destruct (owed_insert _ _ (p_clock p) i Idle [] Exited [] Hw Hl Hol eq_refl) as [Hw' Hp].
    exists new, ans, outs, (<[i := []]> owed). split; [done|]. split; [done|]. split; [done|]. split; [done|].
    simpl in Hp. by rewrite Hp.
Qed.

Lemma answering_process p0 p p' i now o :
  p_clock p <= now -> worker_process i now o p = Some p' -> answering p0 p -> answering p0 p'.
Proof.
  intros Hle Ep (Hi & new & ans & outs & owed & Hn & Ho & HF & Hw & Hsub). unfold worker_process in Ep.
  apply (I_later _ now) in Hi; [|done].
  assert (Hw2 : Forall2 (owes now) (p_workers p) owed)
    by (eapply Forall2_impl; [done|]; intros w l; by apply owes_later).
  destruct (p_workers p !! i) as [[|x r t|]|] eqn:Hl; try done.
  destruct (Forall2_lookup_l _ _ _ _ _ Hw2 Hl) as (l & Hol & n & Hsafe & -> & Hn1).
  destruct t as [res|change next]; injection Ep as <-.
  - destruct (owed_insert _ _ now i _ _ Idle [] Hw2 Hl Hol eq_refl) as [Hw' Hp]. split; [done|].
    exists new, ans, outs, (<[i := []]> owed). do 4 (split; [done|]). etransitivity; [|exact Hsub].
    simpl in Hp. rewrite <- Hp. apply submseteq_app; [done|]. by apply submseteq_inserts_l.
  - destruct (Hsafe now o (p_state p) ltac:(lia) Hi) as (Hi' & m & [[-> Hsame] | (e & -> & He & Hout)] & Hnext);
      (split; [exact Hi'|]); simpl.
    + destruct (owed_insert _ _ now i _ _ (Busy x (S r) (next now o (p_state p))) (repeat x n) Hw2 Hl Hol)
        as [Hw' Hp]; [by exists n|].
      exists new, ans, outs, (<[i := repeat x n]> owed). split; [done|]. split; [congruence|]. split; [done|].
      split; [done|]. apply Permutation_app_inv_l in Hp. by rewrite Hp.
    + assert (m = 0%nat) as -> by lia.
      destruct (owed_insert _ _ now i _ _ (Busy x (S r) (next now o (p_state p))) [] Hw2 Hl Hol)
        as [Hw' Hp]; [exists 0%nat; split; [done|]; split; [done | lia]|].
      exists new, (ans ++ [x]), (outs ++ [e]), (<[i := []]> owed). split; [done|].
      split; [by rewrite Hout, Ho, app_assoc|]. split; [by apply Forall2_app; [|repeat constructor]|].
      split; [done|]. etransitivity; [|exact Hsub]. rewrite <- app_assoc. simpl in Hp |- *. by rewrite Hp.
Qed.

Lemma answering_work p0 p p' : work_step p p' -> answering p0 p -> answering p0 p'.
Proof. destruct 1; eauto using answering_recv, answering_process. Qed.

(** Each output since [p0] answers an item taken since, and no item twice. *)
Lemma answering_outputs p0 p :
  answering p0 p ->
  exists new ans outs, p_taken p = p_taken p0 ++ new /\ out (p_state p) = out (p_state p0) ++ outs /\
    Forall2 Rel ans outs /\ ans ⊆+ new.
Proof.
  intros (_ & new & ans & outs & owed & Hn & Ho & HF & _ & Hsub). exists new, ans, outs.
  split; [done|]. split; [done|]. split; [done|]. etransitivity; [|exact Hsub]. by apply submseteq_inserts_r.
Qed.
End outputs.
End laws.
End pool.

(** ** A channel

    A list with its capacity satisfies the laws. *)
Record list_chan (A : Type) : Type := {
  lc_items : list A; lc_cap : nat; lc_fits : (length lc_items <= lc_cap)%nat; lc_sender : bool; lc_receiver : bool;
}.
Arguments lc_items {A} _.
Arguments lc_cap {A} _.
Arguments lc_fits {A} _.
Arguments lc_sender {A} _.
Arguments lc_receiver {A} _.

Definition lc_make {A} (l : list A) (n : nat) (s r : bool) (H : (length l <=? n)%nat = true) : list_chan A :=
  {| lc_items := l; lc_cap := n; lc_fits := proj1 (Nat.leb_le _ _) H; lc_sender := s; lc_receiver := r |}.
Definition lc_bounded A (n : nat) : list_chan A := lc_make [] n true true eq_refl.

Definition lc_push {A} (a : A) (c : list_chan A) : option (list_chan A) :=
  match Bool.bool_dec (length (lc_items c ++ [a]) <=? lc_cap c)%nat true with
  | left H => Some (lc_make _ _ (lc_sender c) (lc_receiver c) H)
  | right _ => None
  end.
Lemma lc_pop_fits {A} (a : A) q n : (length (a :: q) <= n)%nat -> (length q <=? n)%nat = true.
Proof. simpl. intros H. apply Nat.leb_le. lia. Qed.
Definition lc_pop {A} (c : list_chan A) : option (A * list_chan A) :=
  match lc_items c as l return (length l <= lc_cap c)%nat -> option (A * list_chan A) with
  | [] => fun _ => None
  | a :: q => fun H => Some (a, lc_make q (lc_cap c) (lc_sender c) (lc_receiver c) (lc_pop_fits a q _ H))
  end (lc_fits c).

#[export] Instance list_channel : Channel := {
  chan := list_chan;
  bounded := lc_bounded;
  chan_try_send A a c :=
    if negb (lc_receiver c) then (c, Err TS_Disconnected)
    else match lc_push a c with Some c' => (c', Ok tt) | None => (c, Err TS_Full) end;
  chan_send A a c :=
    if negb (lc_receiver c) then Some (c, Err tt)
    else match lc_push a c with Some c' => Some (c', Ok tt) | None => None end;
  chan_recv A c :=
    match lc_pop c with
    | Some (a, c') => Some (c', Ok a)
    | None => if lc_sender c then None else Some (c, Err tt)
    end;
  chan_try_recv A c :=
    match lc_pop c with
    | Some (a, c') => (c', Ok a)
    | None => (c, Err (if lc_sender c then TR_Empty else TR_Disconnected))
    end;
  chan_len A c := length (lc_items c);
  queued := @lc_items;
  capacity := @lc_cap;
  has_sender := @lc_sender;
  has_receiver := @lc_receiver;
}.

Lemma lc_push_room {A} (a : A) c : (length (lc_items c) < lc_cap c)%nat ->
  exists c', lc_push a c = Some c' /\ lc_items c' = lc_items c ++ [a] /\ same_ends c c'.
Proof.
  intros H. unfold lc_push. destruct (Bool.bool_dec _ _) as [Hb|Hb].
  - eexists. split; [done|]. split; [done|]. by split.
  - apply not_true_is_false in Hb. apply Nat.leb_gt in Hb. rewrite length_app in Hb. simpl in Hb. lia.
Qed.

Lemma lc_push_full {A} (a : A) c : length (lc_items c) = lc_cap c -> lc_push a c = None.
Proof.
  intros H. unfold lc_push. destruct (Bool.bool_dec _ _) as [Hb|Hb]; [|done].
  pose proof (proj1 (Nat.leb_le _ _) Hb) as Hl. rewrite length_app in Hl. simpl in Hl. lia.
Qed.

Lemma lc_pop_spec {A} (c : list_chan A) :
  match lc_items c with
  | [] => lc_pop c = None
  | a :: q => exists c', lc_pop c = Some (a, c') /\ lc_items c' = q /\ same_ends c c'
  end.
Proof.
  destruct c as [[|a q] n Hf s r]; unfold lc_pop; simpl; [done|].
  eexists. split; [done|]. split; [done|]. by split.
Qed.

#[export] Instance list_channel_laws : ChannelLaws.
Proof.
  split; simpl; intros A; intros.
  - done.
  - apply lc_fits.
  - done.
  - by rewrite H.
  - rewrite H; simpl. by rewrite lc_push_full.
  - rewrite H; simpl. destruct (lc_push_room a c H0) as (c' & -> & ? & ?). eauto.
  - by rewrite H.
  - rewrite H; simpl. by rewrite lc_push_full.
  - rewrite H; simpl. destruct (lc_push_room a c H0) as (c' & -> & ? & ?). eauto.
  - pose proof (lc_pop_spec c) as Hp. rewrite H in Hp. destruct Hp as (c' & -> & ? & ?). eauto.
  - pose proof (lc_pop_spec c) as Hp. rewrite H in Hp. by rewrite Hp, H0.
  - pose proof (lc_pop_spec c) as Hp. rewrite H in Hp. by rewrite Hp, H0.
  - pose proof (lc_pop_spec c) as Hp. rewrite H in Hp. destruct Hp as (c' & -> & ? & ?). eauto.
  - pose proof (lc_pop_spec c) as Hp. rewrite H in Hp. by rewrite Hp.
Qed.
