(* ===== verification/Queues.v ===== *)
(** * The work queues and the secret pool

    signer/src/work_queue.rs (with the event loop of signer_daemon.rs that feeds
    it), api/src/bcrypt_queue.rs and core/src/secret_pool.rs, as instances of the
    bounded queue with workers.  A panic inside a blocking task is not
    modelled. *)
From stdpp Require Import relations.
From S2P Require Import Prelude RustStr External Instances Database Samples Tokens AuthTypes Tasks Signer SignerSafety SignerTasks OAuthRepo Users UsersSafety WorkQueue.

(** ** The relay queue *)
Section relay.
Context `{HN : Nostr, HC : !NostrCrypto, HS : !Serde, HX : !Secrets, HCl : Cluster, HR : !Relay, HCh : Channel}.

Definition QUEUE_CAPACITY : nat := Z.to_nat 4096.

Record Nip46RpcItem : Type := { ni_event : Event; ni_bunker_pubkey : string }.

Inductive RelayQueueError : Type := QueueFull | RQ_Disconnected.

Notation relay_pool := (pool Nip46RpcItem (task unit signer (result unit SignerError)) signer).

(** RelaySender::try_send *)
Definition relay_queue_error (e : TrySendError) : RelayQueueError :=
  match e with TS_Full => QueueFull | TS_Disconnected => RQ_Disconnected end.
Definition relay_try_send (item : Nip46RpcItem) (p : relay_pool) : relay_pool * result unit RelayQueueError :=
  let '(p', r) := offer item p in (p', map_err relay_queue_error r).

(** process_nip46_item, which the worker's loop runs statement by statement; its
    errors are logged. *)
Definition process_nip46_item (item : Nip46RpcItem) : T unit := request_task (ni_event item).

(** The event loop of UnifiedSigner::run: requests go to the queue when there is
    one, and to a task of their own otherwise. *)
Inductive notification : Type :=
| RelayEvent (event : Event)
| RelayOther.
Inductive delivery : Type :=
| Ignored
| Enqueue (item : Nip46RpcItem)
| Spawn (event : Event).
Definition on_notification (has_relay_sender : bool) (n : notification) : delivery :=
  match n with
  | RelayOther => Ignored
  | RelayEvent event =>
      if negb (ev_kind event =? 24133) then Ignored
      else if has_relay_sender then
        match bunker_of_event event with
        | Some bunker_pubkey => Enqueue {| ni_event := event; ni_bunker_pubkey := bunker_pubkey |}
        | None => Ignored
        end
      else Spawn event
  end.

(** The signer with its relay queue and the listener of the authorization
    channel, which has one command in hand at a time. *)
Definition deliver (n : notification) (p : relay_pool) : relay_pool :=
  match on_notification true n with
  | Enqueue item => fst (relay_try_send item p)
  | _ => p
  end.

Record relay : Type := { rl_pool : relay_pool; rl_listener : T unit }.

(** Notifications; a statement of a worker; the listener's next command and its
    statements; an eviction from the cache, by its capacity, its time to live or
    the cleanup of old tombstones; and the activity statement of a signature made
    for the HTTP endpoint. *)
Inductive relay_step : relay -> relay -> Prop :=
| relay_notify n r : relay_step r {| rl_pool := deliver n (rl_pool r); rl_listener := rl_listener r |}
| relay_work r p : work_step process_nip46_item (rl_pool r) p ->
    relay_step r {| rl_pool := p; rl_listener := rl_listener r |}
| relay_command c res r : rl_listener r = Done res ->
    relay_step r {| rl_pool := rl_pool r; rl_listener := command_task c |}
| relay_listen now change next r : p_clock (rl_pool r) <= now -> rl_listener r = Stmt change next ->
    relay_step r {| rl_pool := set_state now (change now tt (p_state (rl_pool r))) (rl_pool r);
                    rl_listener := next now tt (p_state (rl_pool r)) |}
| relay_evict now key r : p_clock (rl_pool r) <= now ->
    relay_step r {| rl_pool := set_state now (set_handlers (delete key) (p_state (rl_pool r))) (rl_pool r);
                    rl_listener := rl_listener r |}
| relay_direct now h r : p_clock (rl_pool r) <= now ->
    relay_step r {| rl_pool := set_state now (fst (spawn_update_activity now h (p_state (rl_pool r)))) (rl_pool r);
                    rl_listener := rl_listener r |}.

Definition relay_start (num_workers : nat) (now : Z) (s : signer) : relay :=
  {| rl_pool := start_pool QUEUE_CAPACITY num_workers now s; rl_listener := pt_ret tt |}.

Notation queue_step := (pool_step process_nip46_item (fun _ _ => True)).

Lemma relay_step_pool r r' : relay_step r r' -> rl_pool r' = rl_pool r \/ queue_step (rl_pool r) (rl_pool r').
Proof.
  destruct 1 as [n r | r p Hw | | | |]; [|right; by repeat constructor|by left|right; by constructor..].
  simpl. unfold deliver. destruct (on_notification true n) as [|item|]; [by left| |by left]. right.
  unfold relay_try_send. rewrite (surjective_pairing (offer item (rl_pool r))). simpl. apply pool_offer.
Qed.

Lemma relay_steps_pool r r' : steps relay_step r r' -> steps queue_step (rl_pool r) (rl_pool r').
Proof.
  induction 1 as [|p q r Hpq _ IH]; [constructor|].
  destruct (relay_step_pool _ _ Hpq) as [<-|?]; [done | by econstructor].
Qed.

Section relay_laws.
Context `{HChL : !ChannelLaws}.

Definition is_request (item : Nip46RpcItem) : Prop :=
  ev_kind (ni_event item) = 24133 /\ bunker_of_event (ni_event item) = Some (ni_bunker_pubkey item).

Lemma on_notification_request n item : on_notification true n = Enqueue item -> is_request item.
Proof.
  destruct n as [e|]; [|done]. unfold on_notification. destruct (ev_kind e =? 24133) eqn:Ek; [|done]. simpl.
  destruct (bunker_of_event e) eqn:Eb; [|done]. intros [= <-]. split; [by apply Z.eqb_eq | done].
Qed.

(** Requests only, and a queue of fixed capacity. *)
Definition relay_inv (p : relay_pool) : Prop :=
  Forall is_request (p_accepted p) /\ capacity (p_chan p) = QUEUE_CAPACITY.

Lemma work_step_capacity p p' :
  work_step process_nip46_item p p' -> capacity (p_chan p') = capacity (p_chan p).
Proof.
  destruct 1 as [j p p' E | j now o p p' _ E].
  - unfold worker_recv in E. destruct (p_workers p !! j) as [[]|]; try done.
    destruct (chan_recv _) as [[c [|]]|] eqn:Ec; [| |done]; injection E as <-.
    + by apply recv_ok in Ec as [_ (? & _)].
    + by apply recv_err in Ec as [-> _].
  - unfold worker_process in E. destruct (p_workers p !! j) as [[|x i [res|change next]|]|]; try done;
      by injection E as <-.
Qed.

Lemma offer_inv item p : is_request item -> relay_inv p -> relay_inv (fst (offer item p)).
Proof.
  intros Hi [Ha Hc]. unfold offer. destruct (chan_try_send item (p_chan p)) as [c [[]|e]] eqn:E; simpl.
  - apply try_send_ok in E as [_ (Hcap & _)]. split; simpl; [|exact (eq_trans Hcap Hc)]. by apply Forall_app_2, Forall_singleton.
  - by apply try_send_err in E as [-> _].
Qed.

Lemma relay_step_inv r r' : relay_step r r' -> relay_inv (rl_pool r) -> relay_inv (rl_pool r').
Proof.
  destruct 1 as [n r | r p Hw | | | |]; [|intros [Ha Hc]|done..]; simpl.
  - unfold deliver. destruct (on_notification true n) as [|item|] eqn:E; try done.
    apply on_notification_request in E. unfold relay_try_send. rewrite (surjective_pairing (offer item (rl_pool r))).
    by apply offer_inv.
  - split; [by rewrite (work_step_accepted _ _ _ Hw) | by rewrite (work_step_capacity _ _ Hw)].
Qed.

Lemma relay_start_inv n now s : relay_inv (rl_pool (relay_start n now s)).
Proof. split; [constructor|]. apply (bounded_spec Nip46RpcItem QUEUE_CAPACITY). Qed.

(** What is accepted are NIP-46 requests with a bunker key, in a queue of at
    most 4096. *)
Theorem relay_queue_bounded num_workers now s r :
  steps relay_step (relay_start num_workers now s) r ->
  Forall is_request (p_accepted (rl_pool r)) /\ (length (queued (p_chan (rl_pool r))) <= QUEUE_CAPACITY)%nat.
Proof.
  intros Hrun. pose proof (steps_invariant relay_step (fun r => relay_inv (rl_pool r)) relay_step_inv _ _ Hrun
    (relay_start_inv _ _ _)) as [Ha Hc].
  split; [done|]. rewrite <- Hc. apply within_capacity.
Qed.

Lemma relay_pool_ok num_workers now s r :
  steps relay_step (relay_start num_workers now s) r -> pool_ok process_nip46_item (rl_pool r).
Proof. intros Hrun. exact (pool_ok_reachable _ _ _ _ _ _ _ (relay_steps_pool _ _ Hrun)). Qed.

(** No accepted request is lost, handled twice or reordered: requests are
    taken in the order they were accepted, and each is waiting, in one worker's
    hands, or done, exactly once. *)
Theorem relay_queue_conserves num_workers now s r :
  steps relay_step (relay_start num_workers now s) r ->
  p_accepted (rl_pool r) = p_taken (rl_pool r) ++ queued (p_chan (rl_pool r)) /\
  p_taken (rl_pool r) ≡ₚ p_done (rl_pool r) ++ busy_items (p_workers (rl_pool r)).
Proof. intros Hrun. by destruct (relay_pool_ok _ _ _ _ Hrun) as (Ha & Ht & _). Qed.

(** Neither notifications nor other changes dismiss workers. *)
Lemma relay_step_staffed r r' : relay_step r r' -> staffed (rl_pool r) -> staffed (rl_pool r').
Proof.
  destruct 1 as [n r | r p Hw | | | |]; [|by eapply work_step_staffed|done..]. simpl.
  unfold deliver. destruct (on_notification true n) as [|item|]; try done. intros [Hs Hw].
  unfold relay_try_send, offer. destruct (chan_try_send item (p_chan (rl_pool r))) as [c [[]|e]] eqn:E;
    split; simpl; try done.
  - apply try_send_ok in E as [_ (_ & -> & _)]. done.
  - by apply try_send_err in E as [-> _].
Qed.

(** [C37] The queue empties: once requests stop coming, however the statements of
    the workers interleave they stop after finitely many steps, at most fourteen
    for each request that waits or is in hand and one for each idle worker, and
    then every request that was ever accepted has been handled. *)
Theorem relay_queue_drains num_workers now s r n p' :
  (num_workers > 0)%nat -> steps relay_step (relay_start num_workers now s) r ->
  nsteps (work_step process_nip46_item) n (rl_pool r) p' ->
  (n <= work_left request_statements (rl_pool r))%nat /\
  ((forall q, ~ work_step process_nip46_item p' q) -> p_done p' ≡ₚ p_accepted (rl_pool r)).
Proof.
  intros Hn Hrun Hwork. refine (workers_drain _ _ _ n (rl_pool r) p' _ _ Hwork).
  - intros x. apply request_lasts.
  - eapply (steps_invariant relay_step (fun r => staffed (rl_pool r)) relay_step_staffed); [done|]. split.
    + apply (bounded_spec Nip46RpcItem QUEUE_CAPACITY).
    + exists 0%nat, Idle. split; [|done]. simpl. apply lookup_replicate. split; [done | lia].
  - by eapply relay_pool_ok.
Qed.

(** Backpressure: a request is refused as "queue full" exactly when 4096
    are waiting (while a worker can receive), and a refusal changes nothing. *)
Theorem relay_queue_full_iff item p :
  relay_inv p -> has_receiver (p_chan p) = true ->
  (snd (relay_try_send item p) = Err QueueFull <-> length (queued (p_chan p)) = QUEUE_CAPACITY) /\
  (snd (relay_try_send item p) <> Ok tt -> p_accepted (fst (relay_try_send item p)) = p_accepted p /\
     p_chan (fst (relay_try_send item p)) = p_chan p).
Proof.
  intros [_ Hcap] Hr. unfold relay_try_send, offer. rewrite <- Hcap.
  destruct (chan_try_send item (p_chan p)) as [c [[]|e]] eqn:E; simpl.
  - split; [|done]. split; [done|]. intros Hf. by rewrite (try_send_full _ _ _ Hr Hf) in E.
  - apply try_send_err in E as [-> [[-> Hf] | [-> Hf]]]; [|congruence]. done.
Qed.
End relay_laws.
End relay.

(** ** The secret pool *)
Section secret_pool.
Context `{HN : Nostr, HX : !Secrets, HB : Bcrypt, HCh : Channel}.

Definition DEFAULT_POOL_CAPACITY : nat := 100.
Definition BCRYPT_COST : Z := 10.
Definition SECRET_LENGTH : Z := 48.

Record SecretPair : Type := { pair_secret : string; pair_hash : string }.

(** What [sample_iter(&Alphanumeric).take(SECRET_LENGTH)] can draw. *)
Definition is_secret (secret : string) : bool :=
  (len secret =? SECRET_LENGTH) && all_bytes is_ascii_alphanumeric secret.

(** The producer draws and hashes a secret, or holds a pair the full pool does
    not take yet, or has stopped; the history records what was made and what
    callers got. *)
Inductive producer : Type :=
| Generating
| Sending (made : SecretPair)
| ProducerStopped.
Record secret_pool : Type := {
  sp_chan : chan SecretPair; sp_producer : producer;
  sp_produced : list SecretPair; sp_handed : list SecretPair;
}.

Definition SecretPool_new (capacity : nat) : secret_pool :=
  {| sp_chan := bounded SecretPair capacity; sp_producer := Generating; sp_produced := []; sp_handed := [] |}.
Definition secret_pool_len (p : secret_pool) : nat := chan_len (sp_chan p).

(** spawn_producer, one round of the loop: hashing, where an error starts over,
    and sending, which blocks while the pool is full. *)
Definition produce (secret salt : string) (p : secret_pool) : option secret_pool :=
  match sp_producer p with
  | Generating =>
      match bcrypt_hash BCRYPT_COST salt secret with
      | Ok h => let made := {| pair_secret := secret; pair_hash := h |} in
                Some {| sp_chan := sp_chan p; sp_producer := Sending made;
                        sp_produced := sp_produced p ++ [made]; sp_handed := sp_handed p |}
      | Err _ => Some p
      end
  | _ => None
  end.
Definition producer_send (p : secret_pool) : option secret_pool :=
  match sp_producer p with
  | Sending made =>
      match chan_send made (sp_chan p) with
      | Some (c, r) => Some {| sp_chan := c; sp_producer := (if is_ok r then Generating else ProducerStopped);
                               sp_produced := (if is_ok r then sp_produced p else removelast (sp_produced p));
                               sp_handed := sp_handed p |}
      | None => None
      end
  | _ => None
  end.

(** SecretPoolReceiver::get, where [None] waits for the producer, and try_get. *)
Definition hand_over (c : chan SecretPair) (made : option SecretPair) (p : secret_pool)
  : secret_pool * option SecretPair :=
  ({| sp_chan := c; sp_producer := sp_producer p; sp_produced := sp_produced p;
      sp_handed := sp_handed p ++ match made with Some x => [x] | None => [] end |}, made).
Definition pool_get (p : secret_pool) : option (secret_pool * option SecretPair) :=
  match chan_recv (sp_chan p) with
  | Some (c, r) => Some (hand_over c (ok r) p)
  | None => None
  end.
Definition pool_try_get (p : secret_pool) : secret_pool * option SecretPair :=
  let '(c, r) := chan_try_recv (sp_chan p) in hand_over c (ok r) p.

(** The fallback without a pool, and the check of a presented secret. *)
Definition generate_secret_hash_inline (secret salt : string) : result SecretPair string :=
  let? h := bcrypt_hash BCRYPT_COST salt secret in Ok {| pair_secret := secret; pair_hash := h |}.
Definition verify_secret (provided_secret stored_hash : string) : bool := bcrypt_verify provided_secret stored_hash.

Inductive secret_pool_step : secret_pool -> secret_pool -> Prop :=
| sp_step_produce secret salt p p' :
    is_secret secret = true -> produce secret salt p = Some p' -> secret_pool_step p p'
| sp_step_send p p' : producer_send p = Some p' -> secret_pool_step p p'
| sp_step_get p p' r : pool_get p = Some (p', r) -> secret_pool_step p p'
| sp_step_try_get p : secret_pool_step p (fst (pool_try_get p)).

Section secret_pool_laws.
Context `{HBL : !BcryptLaws, HChL : !ChannelLaws}.

Definition in_flight (w : producer) : list SecretPair := match w with Sending made => [made] | _ => [] end.
Definition good_pair (made : SecretPair) : Prop :=
  is_secret (pair_secret made) = true /\ verify_secret (pair_secret made) (pair_hash made) = true.
Definition secret_pool_ok (cap : nat) (p : secret_pool) : Prop :=
  sp_produced p = sp_handed p ++ queued (sp_chan p) ++ in_flight (sp_producer p) /\
  Forall good_pair (sp_produced p) /\ capacity (sp_chan p) = cap.

Lemma inline_good secret salt made :
  is_secret secret = true -> generate_secret_hash_inline secret salt = Ok made -> good_pair made.
Proof.
  intros Hs Hg. unfold generate_secret_hash_inline in Hg. inv_ok. split; [done|]. by eapply bcrypt_hash_verifies.
Qed.

Lemma produce_ok cap secret salt p p' :
  is_secret secret = true -> produce secret salt p = Some p' -> secret_pool_ok cap p -> secret_pool_ok cap p'.
Proof.
  intros Hs. unfold produce. destruct (sp_producer p) eqn:Ep; try done.
  destruct (bcrypt_hash _ _ _) as [h|] eqn:Eh; [|by intros [= <-]]. intros [= <-] (Hpr & Hg & Hc).
  rewrite Ep in Hpr. simpl in Hpr. rewrite app_nil_r in Hpr. split; simpl; [by rewrite Hpr, app_assoc|].
  split; [|done]. apply Forall_app_2; [done|]. apply Forall_singleton. split; [done|]. by eapply bcrypt_hash_verifies.
Qed.

Lemma producer_send_ok cap p p' : producer_send p = Some p' -> secret_pool_ok cap p -> secret_pool_ok cap p'.
Proof.
  unfold producer_send. destruct (sp_producer p) as [|made|] eqn:Ep; try done.
  destruct (chan_send made (sp_chan p)) as [[c [[]|u]]|] eqn:Ec; [| |done]; intros [= <-] (Hpr & Hg & Hc);
    rewrite Ep in Hpr; simpl in Hpr.
  - apply send_ok in Ec as [Hq (Hcap & _)]. split; simpl; [by rewrite Hpr, Hq, app_nil_r|]. by rewrite Hcap.
  - apply send_err in Ec as ->. rewrite app_assoc in Hpr. split; simpl.
    + by rewrite Hpr, removelast_last, app_nil_r.
    + split; [|done]. rewrite Hpr in Hg |- *. rewrite removelast_last. by apply Forall_app in Hg as [? _].
Qed.

Lemma hand_over_ok cap c r p :
  match r with
  | Some x => queued (sp_chan p) = x :: queued c /\ same_ends (sp_chan p) c
  | None => c = sp_chan p
  end -> secret_pool_ok cap p -> secret_pool_ok cap (fst (hand_over c r p)).
Proof.
  intros Hc (Hpr & Hg & Hcap). destruct r as [x|].
  - destruct Hc as [Hq (Hcap' & _)]. split; simpl; [by rewrite Hpr, Hq, <- app_assoc|]. by rewrite Hcap'.
  - subst c. split; simpl; [by rewrite app_nil_r | done].
Qed.

Lemma secret_pool_step_ok cap p p' : secret_pool_step p p' -> secret_pool_ok cap p -> secret_pool_ok cap p'.
Proof.
  destruct 1 as [secret salt p p' Hs Hp | p p' Hp | p p' r Hp | p].
  - by eapply produce_ok.
  - by eapply producer_send_ok.
  - unfold pool_get in Hp. destruct (chan_recv (sp_chan p)) as [[c r']|] eqn:Ec; [|done]. injection Hp as <- <-.
    apply (hand_over_ok cap c (ok r')). destruct r' as [x|u]; simpl; [by apply recv_ok | by apply recv_err in Ec as [-> _]].
  - unfold pool_try_get. destruct (chan_try_recv (sp_chan p)) as [c r'] eqn:Ec.
    apply hand_over_ok. destruct r' as [x|u]; simpl; [by apply try_recv_ok | by apply try_recv_err in Ec as [-> _]].
Qed.

(** The secret pool hands every pair it makes to exactly one caller, in the
    order they were made: what callers got is a prefix of what was produced, the
    rest is waiting; every pair is a 48-character secret with a hash that
    verifies it; and no more than the capacity and one pair are made ahead. *)
Theorem secret_pool_hands_out_once cap p :
  steps secret_pool_step (SecretPool_new cap) p ->
  sp_produced p = sp_handed p ++ queued (sp_chan p) ++ in_flight (sp_producer p) /\
  Forall good_pair (sp_handed p) /\ (length (sp_produced p) <= length (sp_handed p) + cap + 1)%nat.
Proof.
  intros Hrun. assert (Hok : secret_pool_ok cap p).
  { apply (steps_invariant secret_pool_step (secret_pool_ok cap) (secret_pool_step_ok cap) _ _ Hrun).
    destruct (bounded_spec SecretPair cap) as (Hq & Hc & _). split; simpl; [by rewrite Hq|]. by split. }
  destruct Hok as (Hpr & Hg & Hc). split; [done|]. rewrite Hpr in Hg. split; [by apply Forall_app in Hg as [? _]|].
  rewrite Hpr, !length_app. pose proof (within_capacity _ (sp_chan p)).
  assert (length (in_flight (sp_producer p)) <= 1)%nat by (destruct (sp_producer p); simpl; lia). lia.
Qed.
End secret_pool_laws.
End secret_pool.

(** ** The bcrypt queue *)
Section bcrypt_queue.
Context `{HN : Nostr, HX : !Secrets, HB : Bcrypt, HCh : Channel}.

Definition BCRYPT_QUEUE_CAPACITY : nat := 350.
Definition DEFAULT_COST : Z := 12.

Record BcryptJob : Type := { job_token : string; job_password : string }.
#[export] Instance BcryptJob_eq_dec : EqDecision BcryptJob.
Proof. solve_decision. Defined.

Inductive BcryptQueueError : Type := AtCapacity | ShuttingDown.

Notation bcrypt_pool := (pool BcryptJob (task string Db unit) Db).

Definition bcrypt_queue_error (e : TrySendError) : BcryptQueueError :=
  match e with TS_Full => AtCapacity | TS_Disconnected => ShuttingDown end.
Definition bcrypt_try_send (job : BcryptJob) (p : bcrypt_pool) : bcrypt_pool * result unit BcryptQueueError :=
  let '(p', r) := offer job p in (p', map_err bcrypt_queue_error r).

(** bcrypt_worker_loop, one job: the hash goes to the rows that carry the
    verification token; a failure to hash is logged. *)
Definition carries (token : string) (u : user_row) : bool :=
  bool_decide (us_email_verification_token u = Some token).
Definition bcrypt_worker (now : Z) (salt : string) (job : BcryptJob) (d : Db) : Db :=
  match bcrypt_hash DEFAULT_COST salt (job_password job) with
  | Ok h => fst (update_users now (carries (job_token job)) (us_set_password_hash (Some h)) d)
  | Err _ => d
  end.

(** The hash is computed before the only statement. *)
Definition bcrypt_task (job : BcryptJob) : task string Db unit :=
  Stmt (fun now salt d => bcrypt_worker now salt job d) (fun _ _ _ => Done tt).

(** STALE_SIGNUP_CONDITION and one tick of the cleanup task. *)
Definition stale_signup (now : Z) (u : user_row) : bool :=
  is_null (us_password_hash u) && is_null (us_vine_id u) && negb (is_null (us_email u))
  && negb (is_null (us_email_verification_token u)) && (us_created_at u <? now - 600).
Definition cleanup_tick (now : Z) (d : Db) : Db :=
  let d1 := fst (delete_users (stale_signup now) d) in
  set_magic_link_tokens (fst (magic_purge_expired now (db_magic_link_tokens d1))) d1.

Lemma bcrypt_worker_users now salt job d :
  users_distinct (db_users d) = true ->
  users_distinct (db_users (bcrypt_worker now salt job d)) = true /\
  db_users (bcrypt_worker now salt job d) =
    match bcrypt_hash DEFAULT_COST salt (job_password job) with
    | Ok h => update_where (carries (job_token job)) (fun u => us_touch now (us_set_password_hash (Some h) u)) (db_users d)
    | Err _ => db_users d
    end.
Proof.
  intros Hd. unfold bcrypt_worker. destruct (bcrypt_hash _ _ _) as [h|]; [|done]. unfold update_users.
  assert (E : users_distinct (update_where (carries (job_token job))
    (fun u => us_touch now (us_set_password_hash (Some h) u)) (db_users d)) = true).
  { rewrite <- Hd. apply users_distinct_map. intros u v. by destruct (carries _ u), (carries _ v). }
  by rewrite E.
Qed.

(** The cleanup only removes password signups that were never finished: a
    row goes only if it has an email, an open verification token and no password
    hash after ten minutes; preloaded, passwordless and finished accounts stay,
    and what refers to users stays consistent. *)
Theorem cleanup_spares_accounts now d :
  integrity d ->
  integrity (cleanup_tick now d) /\
  (forall u, u ∈ db_users d -> u ∉ db_users (cleanup_tick now d) ->
     us_password_hash u = None /\ us_vine_id u = None /\ us_email u <> None /\
     us_email_verification_token u <> None /\ us_created_at u < now - 600).
Proof.
  intros Hd. unfold cleanup_tick. pose proof (keeps_delete_users (stale_signup now) d Hd) as Hk.
  split; [by apply (keeps_untouched (fst (delete_users (stale_signup now) d)))|]. intros u Hu Hgone. simpl in Hgone.
  assert (Hs : stale_signup now u = true).
  { destruct (stale_signup now u) eqn:E; [done|]. destruct Hgone. unfold delete_users.
    destruct (existsb _ _); [done|]. destruct (existsb _ _); [done|]. simpl. by apply delete_where_elem. }
  unfold stale_signup in Hs. bool_to_prop.
  by destruct (us_password_hash u), (us_vine_id u), (us_email u), (us_email_verification_token u).
Qed.

Section bcrypt_laws.
Context `{HBL : !BcryptLaws, HChL : !ChannelLaws}.

(** A user's row while its job is pending, and once its statement has run. *)
Definition hash_pending (job : BcryptJob) (k : string) (p : bcrypt_pool) : Prop :=
  users_distinct (db_users (p_state p)) = true /\
  exists u, u ∈ db_users (p_state p) /\ us_pubkey u = k /\ us_email_verification_token u = Some (job_token job) /\
    (job ∈ p_done p \/ (exists i r, p_workers p !! i = Some (Busy job r (Done tt))) ->
     exists h, us_password_hash u = Some h /\ bcrypt_verify (job_password job) h = true).

Lemma taken_accepted (p : bcrypt_pool) i job r t :
  pool_ok bcrypt_task p -> p_workers p !! i = Some (Busy job r t) -> job ∈ p_accepted p.
Proof.
  intros Hok Hi. rewrite (pool_conserves _ p Hok). apply elem_of_app. right. apply elem_of_app. left.
  unfold busy_items. apply list_elem_of_In, in_flat_map. exists (Busy job r t). split; [|by left].
  apply list_elem_of_In. by eapply list_elem_of_lookup_2.
Qed.

(** A worker in the middle of a job has its statement before it or behind it. *)
Lemma bcrypt_residual job n t : residual (bcrypt_task job) n t -> t = bcrypt_task job \/ t = Done tt.
Proof.
  induction 1 as [|n change next now o s _ [E|E]]; [by left| |done].
  injection E as -> ->. by right.
Qed.

Lemma same_token_same_job (jobs : list BcryptJob) x y :
  NoDup (map job_token jobs) -> x ∈ jobs -> y ∈ jobs -> job_token x = job_token y -> x = y.
Proof.
  intros Hnd [i Hi]%list_elem_of_lookup [j Hj]%list_elem_of_lookup E.
  assert (i = j) as ->; [|congruence]. eapply (NoDup_lookup _ _ _ _ Hnd); rewrite list_lookup_fmap.
  - by rewrite Hi.
  - rewrite Hj. simpl. by rewrite E.
Qed.

Lemma process_hash job k i now salt p p' :
  (forall salt, is_ok (bcrypt_hash DEFAULT_COST salt (job_password job)) = true) ->
  worker_process i now salt p = Some p' -> pool_ok bcrypt_task p -> NoDup (map job_token (p_accepted p)) ->
  job ∈ p_accepted p -> hash_pending job k p -> hash_pending job k p'.
Proof.
  intros Hhash E Hok Hnd Hjob [Hdis (u & Hu & Hk & Htok & Hdone)].
  unfold worker_process in E. destruct (p_workers p !! i) as [[|x r t|]|] eqn:Ei; try done.
  pose proof (Forall_lookup_1 _ _ _ _ (proj2 (proj2 Hok)) Ei) as Hr. simpl in Hr.
  destruct (bcrypt_residual _ _ _ Hr) as [-> | ->]; injection E as <-.
  - destruct (bcrypt_worker_users now salt x (p_state p) Hdis) as [Hdis' Hus]. split; simpl; [done|]. rewrite Hus.
    destruct (decide (x = job)) as [->|Hne].
    + destruct (is_ok_Ok _ (Hhash salt)) as [h Hh]. rewrite Hh.
      exists (us_touch now (us_set_password_hash (Some h) u)). split.
      * apply update_where_elem. left. exists u. split; [done|]. split; [|done]. unfold carries. by rewrite bool_decide_true.
      * split; [done|]. split; [done|]. intros _. exists h. split; [done|]. by eapply bcrypt_hash_verifies.
    + exists u. split; [|split; [done|split; [done|]]].
      * destruct (bcrypt_hash _ _ _); [|done]. apply update_where_elem. right. split; [done|].
        unfold carries. apply bool_decide_eq_false. rewrite Htok. intros [= Heq]. apply Hne.
        by apply (same_token_same_job (p_accepted p)); [|eapply taken_accepted| |].
      * intros [Hd | (j & r' & Hj)]; apply Hdone; [by left|]. right. exists j, r'.
        apply list_lookup_insert_Some in Hj as [(_ & Hx & _) | [_ Hj]]; [congruence | done].
  - split; simpl; [done|]. exists u. split; [done|]. split; [done|]. split; [done|].
    intros [[Hd | ->%list_elem_of_singleton]%elem_of_app | (j & r' & Hj)]; apply Hdone;
      [by left | right; by eauto|]. right. exists j, r'.
    apply list_lookup_insert_Some in Hj as [(_ & Hx & _) | [_ Hj]]; [congruence | done].
Qed.

Lemma work_step_hash job k p p' :
  (forall salt, is_ok (bcrypt_hash DEFAULT_COST salt (job_password job)) = true) ->
  work_step bcrypt_task p p' -> pool_ok bcrypt_task p -> NoDup (map job_token (p_accepted p)) -> job ∈ p_accepted p ->
  hash_pending job k p -> hash_pending job k p'.
Proof.
  intros Hhash Hstep Hok Hnd Hjob Hpend. destruct Hstep as [i p p' E | i now salt p p' _ E];
    [|by eapply process_hash].
  destruct Hpend as [Hdis (u & Hu & Hk & Htok & Hdone)].
  unfold worker_recv in E. destruct (p_workers p !! i) as [[]|]; try done.
  destruct (chan_recv _) as [[c [|]]|]; [| |done]; injection E as <-; (split; [done|]); exists u;
    (split; [done|]); (split; [done|]); (split; [done|]);
    (intros [Hd | (j & r & Hj)]; apply Hdone; [by left | right; exists j, r]);
    simpl in Hj; apply list_lookup_insert_Some in Hj as [(_ & Hx & _) | [_ Hj]]; done.
Qed.

(** A queued signup gets its password: if the queue accepted a job for the
    verification token a user's row carries, and hashing succeeds, then once the
    workers have nothing left to do the row has a hash that verifies the job's
    password, however the workers were scheduled. *)
Theorem bcrypt_queue_stores_hash job k n p p' :
  staffed p -> pool_ok bcrypt_task p -> NoDup (map job_token (p_accepted p)) -> job ∈ p_accepted p ->
  busy_items (p_workers p) = [] -> job ∉ p_done p ->
  users_distinct (db_users (p_state p)) = true ->
  (exists u, u ∈ db_users (p_state p) /\ us_pubkey u = k /\ us_email_verification_token u = Some (job_token job)) ->
  (forall salt, is_ok (bcrypt_hash DEFAULT_COST salt (job_password job)) = true) ->
  nsteps (work_step bcrypt_task) n p p' -> (forall q, ~ work_step bcrypt_task p' q) ->
  exists u h, u ∈ db_users (p_state p') /\ us_pubkey u = k /\ us_password_hash u = Some h /\
    bcrypt_verify (job_password job) h = true.
Proof.
  intros Hst Hok Hnd Hjob Hidle Hnew Hdis (u & Hu & Hk & Htok) Hhash Hrun Hstuck.
  assert (Hp : hash_pending job k p') .
  { assert (hash_pending job k p) as Hpend.
    { split; [done|]. exists u. do 3 (split; [done|]). intros [? | (i & r & Hi)]; [done|].
      assert (Hin : job ∈ busy_items (p_workers p)); [|rewrite Hidle in Hin; by apply not_elem_of_nil in Hin].
      apply list_elem_of_In, in_flat_map. exists (Busy job r (Done tt)). split; [|by left].
      apply list_elem_of_In. by eapply list_elem_of_lookup_2. }
    clear u Hu Hk Htok Hnew Hdis Hst Hstuck Hidle. induction Hrun as [|n p q r Hs Hrun IH]; [done|].
    apply IH; [by eapply work_step_ok | by rewrite (work_step_accepted _ _ _ Hs)
              | by rewrite (work_step_accepted _ _ _ Hs) | by eapply work_step_hash]. }
  destruct (workers_drain bcrypt_task 1 (fun _ => ltac:(done)) _ _ _ Hst Hok Hrun) as [_ Hdone]. specialize (Hdone Hstuck).
  destruct Hp as [_ (v & Hv & Hvk & _ & Hvd)].
  destruct Hvd as (h & Hh & Hver); [left; by rewrite Hdone|]. exists v, h. by repeat split.
Qed.
End bcrypt_laws.
End bcrypt_queue.

(** ** Witnesses *)
#[local] Existing Instance toy_cluster.
#[local] Existing Instance toy_relay.

Lemma some_default {A} (o : option A) x : negb (is_null o) = true -> o = Some (default x o).
Proof. by destruct o. Qed.

(** Worker [i] runs [n] statements in a row. *)
Fixpoint work_on `{Channel} {Item O St R} (i : nat) (now : Z) (o : O) (n : nat) (p : pool Item (task O St R) St)
  : option (pool Item (task O St R) St) :=
  match n with
  | 0%nat => Some p
  | S m => match worker_process i now o p with Some p' => work_on i now o m p' | None => None end
  end.

Lemma work_on_steps `{Channel} {Item O St R} (process : Item -> task O St R) i now o n p p' :
  p_clock p <= now -> work_on i now o n p = Some p' -> nsteps (work_step process) n p p'.
Proof.
  revert p. induction n as [|n IH]; simpl; intros p Hle; [intros [= <-]; constructor|].
  destruct (worker_process i now o p) as [q|] eqn:E; [|done]. intros Hq. eapply nsteps_l; [by eapply work_process|].
  apply IH; [|done]. unfold worker_process in E.
  destruct (p_workers p !! i) as [[|x r [res|change next]|]|]; try done; injection E as <-; done.
Qed.

Lemma relay_works n r p :
  nsteps (work_step process_nip46_item) n (rl_pool r) p ->
  steps relay_step r {| rl_pool := p; rl_listener := rl_listener r |}.
Proof.
  destruct r as [q l]. simpl. intros Hn.
  induction Hn as [|n q q1 q2 Hs _ IH]; [constructor|]. eapply steps_cons; [|exact IH].
  exact (relay_work {| rl_pool := q; rl_listener := l |} q1 Hs).
Qed.

(** A request comes in, the first of two workers takes it and answers. *)
Definition relay_run0 : relay := relay_start 2 10 toy_bound_signer.
Definition relay_run1 : relay :=
  {| rl_pool := deliver (RelayEvent (sample_request "other" user_bunker "connect|x|s")) (rl_pool relay_run0);
     rl_listener := rl_listener relay_run0 |}.
Definition relay_run2 := default (rl_pool relay_run1) (worker_recv process_nip46_item 0 (rl_pool relay_run1)).
Definition relay_run3 := default relay_run2 (work_on 0 20 tt 8 relay_run2).

Lemma relay_run_taken : worker_recv process_nip46_item 0 (rl_pool relay_run1) = Some relay_run2.
Proof. apply some_default. vm_compute. reflexivity. Qed.
Lemma relay_run_done : work_on 0 20 tt 8 relay_run2 = Some relay_run3.
Proof. apply some_default. vm_compute. reflexivity. Qed.

Lemma relay_run1_reached : steps relay_step relay_run0 relay_run1.
Proof. apply steps_one. constructor. Qed.
Lemma relay_run_work : nsteps (work_step process_nip46_item) 9 (rl_pool relay_run1) relay_run3.
Proof.
  eapply nsteps_l; [eapply work_recv, relay_run_taken|].
  eapply work_on_steps, relay_run_done. vm_compute. discriminate.
Qed.
Lemma relay_run3_reached :
  steps relay_step relay_run0 {| rl_pool := relay_run3; rl_listener := rl_listener relay_run1 |}.
Proof. eapply steps_app; [apply relay_run1_reached|]. eapply relay_works, relay_run_work. Qed.

Lemma relay_queue_bounded_witness :
  length (p_accepted relay_run3) = 1%nat /\ Forall is_request (p_accepted relay_run3).
Proof.
  split; [vm_compute; reflexivity|].
  exact (proj1 (relay_queue_bounded 2 10 toy_bound_signer _ relay_run3_reached)).
Defined.

Lemma relay_queue_conserves_witness :
  p_accepted relay_run3 = p_taken relay_run3 ++ queued (p_chan relay_run3) /\
  p_taken relay_run3 ≡ₚ p_done relay_run3 ++ busy_items (p_workers relay_run3).
Proof. apply (relay_queue_conserves 2 10 toy_bound_signer _ relay_run3_reached). Defined.

Lemma relay_queue_drains_witness :
  length (p_done relay_run3) = 1%nat /\ (9 <= work_left request_statements (rl_pool relay_run1))%nat /\
  ((forall q, ~ work_step process_nip46_item relay_run3 q) -> p_done relay_run3 ≡ₚ p_accepted (rl_pool relay_run1)).
Proof.
  split; [vm_compute; reflexivity|].
  refine (relay_queue_drains 2 10 toy_bound_signer relay_run1 9 relay_run3 _ relay_run1_reached relay_run_work). lia.
Defined.

Lemma relay_queue_full_iff_witness :
  snd (relay_try_send {| ni_event := sample_request "other" user_bunker "x"; ni_bunker_pubkey := user_bunker |}
    (rl_pool relay_run0))
    = Err QueueFull <-> length (queued (p_chan (rl_pool relay_run0))) = QUEUE_CAPACITY.
Proof.
  refine (proj1 (relay_queue_full_iff _ (rl_pool relay_run0) (relay_start_inv 2 10 toy_bound_signer) _)). reflexivity.
Defined.

(** A pair is made, sent and handed to a caller. *)
Definition toy_secret : string := "abcdefghijklmnopqrstuvwxyzabcdefghijklmnopqrstuv".
Definition secrets_run1 : secret_pool := default (SecretPool_new 2) (produce toy_secret "" (SecretPool_new 2)).
Definition secrets_run2 : secret_pool := default secrets_run1 (producer_send secrets_run1).
Definition secrets_run3 : secret_pool := fst (pool_try_get secrets_run2).

Lemma secret_pool_hands_out_once_witness :
  length (sp_handed secrets_run3) = 1%nat /\ Forall good_pair (sp_handed secrets_run3).
Proof.
  split; [vm_compute; reflexivity|].
  refine (proj1 (proj2 (secret_pool_hands_out_once 2 secrets_run3 _))).
  eapply steps_cons; [eapply (sp_step_produce toy_secret ""); [vm_compute; reflexivity|apply (some_default _ (SecretPool_new 2)); vm_compute; reflexivity]|].
  eapply steps_cons; [eapply sp_step_send; apply (some_default _ secrets_run1); vm_compute; reflexivity|].
  apply steps_one, sp_step_try_get.
Defined.

(** A signup whose job waits, then is hashed by the only worker. *)
Definition signup_job : BcryptJob := {| job_token := "tk"; job_password := "pw" |}.
Definition signup_db : Db :=
  fst (register_with_personal_key 0 "Pn" 1 "n@b" None "tk" 100 [1] None empty_db).
Definition bcrypt_run1 : pool BcryptJob (task string Db unit) Db :=
  fst (offer signup_job (start_pool BCRYPT_QUEUE_CAPACITY 1 0 signup_db)).
Definition bcrypt_run2 := default bcrypt_run1 (worker_recv bcrypt_task 0 bcrypt_run1).
Definition bcrypt_run3 := default bcrypt_run2 (work_on 0 5 "salt" 2 bcrypt_run2).

Lemma bcrypt_run_stuck q : ~ work_step bcrypt_task bcrypt_run3 q.
Proof.
  assert (Hw : p_workers bcrypt_run3 = [Idle]) by (vm_compute; reflexivity).
  assert (Hr : chan_recv (p_chan bcrypt_run3) = None) by (vm_compute; reflexivity).
  intros Hs. inversion Hs as [i p p' E | i now o p p' _ E]; subst.
  - unfold worker_recv in E. rewrite Hw, Hr in E. by destruct i.
  - unfold worker_process in E. rewrite Hw in E. by destruct i as [|[|i]].
Qed.

Lemma bcrypt_queue_stores_hash_witness :
  exists u h, u ∈ db_users (p_state bcrypt_run3) /\ us_pubkey u = "Pn" /\ us_password_hash u = Some h /\
    bcrypt_verify "pw" h = true.
Proof.
  apply (bcrypt_queue_stores_hash signup_job "Pn" 3 bcrypt_run1 bcrypt_run3).
  - split; [vm_compute; reflexivity|]. exists 0%nat, Idle. split; [reflexivity | discriminate].
  - apply (offer_ok bcrypt_task signup_job), (start_ok bcrypt_task).
  - vm_compute. apply NoDup_singleton.
  - vm_compute. constructor.
  - vm_compute. reflexivity.
  - vm_compute. apply not_elem_of_nil.
  - vm_compute. reflexivity.
  - eexists. split; [|split; [|]]; [apply list_elem_of_lookup; exists 0%nat; vm_compute; reflexivity | reflexivity..].
  - reflexivity.
  - eapply nsteps_l; [eapply (work_recv _ 0); apply (some_default _ bcrypt_run1); vm_compute; reflexivity|].
    eapply (work_on_steps _ 0 5 "salt"); [vm_compute; discriminate|].
    apply (some_default _ bcrypt_run2). vm_compute. reflexivity.
  - exact bcrypt_run_stuck.
Defined.

Lemma cleanup_spares_accounts_witness :
  db_users (cleanup_tick 1000 signup_db) = [] /\ integrity (cleanup_tick 1000 signup_db).
Proof.
  split; [vm_compute; reflexivity|]. refine (proj1 (cleanup_spares_accounts 1000 signup_db _)).
  split; vm_compute; [reflexivity | set_solver..].
Defined.
