(* ===== verification/RelaySafety.v ===== *)
(** * What the signer promises while its workers interleave

    The relay queue, its workers and the listener of the authorization channel
    ([relay_step] of [Queues]) run statement by statement, so that a request can
    be overtaken between two of its statements by any other request, command or
    eviction.  [relay_keeps] reduces an invariant of such runs to its
    statements; three invariants follow: every response answers one request,
    a connected client stays connected, and a revoked key stays refused.  The
    last two need a moment at which no request is in hand; [racing_connects] and
    [revocation_overtaken] are the runs that show why. *)
From stdpp Require Import relations.
From S2P Require Import Prelude RustStr External Instances Database Samples Permissions Policies AuthTypes Tasks Signer SignerSafety SignerTasks WorkQueue Queues.

Section relay_keeps.
Context `{HN : Nostr, HC : !NostrCrypto, HS : !Serde, HX : !Secrets, HCl : Cluster, HR : !Relay, HCh : Channel, HChL : !ChannelLaws, HL : !SignLaws}.

(** ** An invariant of the signer, statement by statement

    [good b h]: what is known of a handler under the key [b]; [answer event ev]:
    what is known of a response [ev] to the request [event]. *)
Context (I : Z -> signer -> Prop) (good : string -> Nip46Handler -> Prop) (answer : Event -> Event -> Prop).

Notation sg_safe R := (safe I sg_sent R).
Notation any := (fun _ _ => True).

Lemma lift_safe {A} R (Q : Z -> A -> Prop) n t (r : result A SignerError) :
  (forall a, r = Ok a -> Q t a) -> sg_safe R (ok_with Q) n t (pt_lift (O := unit) r).
Proof. destruct r as [a|e]; simpl; [by auto | done]. Qed.

Lemma query_safe {A} R (Q : Z -> A -> Prop) t (q : Z -> Db -> A) :
  (forall now s, t <= now -> I now s -> Q now (q now (sg_db s))) -> sg_safe R (ok_with Q) 0 t (query q).
Proof. intros Hq. apply psafe_read; [done|]. intros now s Ht Hi. by apply Hq. Qed.

(** Clients, when the invariant does not depend on who is connected. *)
Lemma connect_any R h client secret t :
  (forall now s id, I now s -> I now (set_db (connect_client now h client id) s)) ->
  sg_safe R (ok_with any) 0 t (connect_task h client secret).
Proof.
  intros Hc. unfold connect_task. destruct (negb _); [done|].
  apply (psafe_bind _ _ _ any any 0 0); [by apply query_safe|]. intros u [e|] _ _; [by case_match|].
  apply (psafe_bind _ _ _ any any 0 0); [|done]. apply psafe_write. intros now s _ Hi. split; [by apply Hc | done].
Qed.
Lemma validate_any R h client t :
  (forall now s id, I now s -> I now (set_db (connect_client now h client id) s)) ->
  sg_safe R (ok_with any) 0 t (validate_and_store_task h client).
Proof.
  intros Hc. unfold validate_and_store_task.
  apply (psafe_bind _ _ _ any any 0 0); [by apply query_safe|]. intros u [] _ _; [done|].
  apply (psafe_bind _ _ _ any any 0 0); [by apply query_safe|]. intros u1 [id|] _ _; [|done].
  apply psafe_write. intros now s _ Hi. split; [by apply Hc | done].
Qed.

(** A tombstone is answered with its error, a live handler with anything. *)
Definition text_for (h : Nip46Handler) (text : string) : Prop :=
  match tombstone_error_message h with
  | Some msg => exists id, text = json_to_string (response_of id "error" msg)
  | None => True
  end.

Class Kept : Prop := {
  k_later t t' s : t <= t' -> I t s -> I t' s;
  k_cached now s b h : I now s -> sg_handlers s !! b = Some h -> good b h;
  k_oauth_row now s b row auth keys now' : I now s ->
    find_first (fun a => bool_decide (oa_bunker_public_key a = b)) (oauth_rows (sg_db s)) = Some row ->
    map_err SE_Database (decode_oauth row) = Ok auth ->
    good b (mk_handler keys (oa_secret_hash auth) (oa_id auth) (oa_tenant_id auth) true
              (compute_status_from_oauth now' auth));
  k_team_row now s b auth keys now' : I now s ->
    find_first (fun a => bool_decide (oa_bunker_public_key a = b)) (oauth_rows (sg_db s)) = None ->
    good b (mk_handler keys (au_secret_hash auth) (au_id auth) (au_tenant_id auth) false
              (status_from_expiry now' (au_expires_at auth)));
  k_upsert now s b tenant row auth keys : I now s ->
    find_first (fun a => bool_decide (oa_bunker_public_key a = b) && (oa_tenant_id a =? tenant)
      && oauth_active now a) (oauth_rows (sg_db s)) = Some row ->
    map_err SE_Database (decode_oauth row) = Ok auth ->
    good b (mk_handler keys (oa_secret_hash auth) (oa_id auth) tenant true (Active, None));
  k_mark now b h : good b h -> good b (mark_revoked now h);
  k_insert now s b h : I now s -> good b h -> I now (set_handlers <[b := h]> s);
  k_evict now s b : I now s -> I now (set_handlers (delete b) s);
  k_activity now s h : I now s -> I now (fst (spawn_update_activity now h s));
  k_sent now s e : I now s -> I now (record_sent e s);
  k_connect R t b h client secret : good b h -> is_tombstone h = false ->
    sg_safe R (ok_with any) 0 t (connect_task h client secret);
  k_validate R t b h client : good b h -> is_tombstone h = false ->
    sg_safe R (ok_with any) 0 t (validate_and_store_task h client);
  k_answer now b h event text ev : bunker_of_event event = Some b -> good b h -> text_for h text ->
    is_response now h event text ev -> answer event ev;
}.
Context `{K : Kept}.

Lemma query_ok_safe {A} R (q : Db -> result A SignerError) t : sg_safe R (ok_with any) 0 t (query_ok q).
Proof. apply psafe_read; [done|]. intros now s _ _. by destruct (q (sg_db s)). Qed.

Lemma activity_safe R h t : sg_safe R (ok_with any) 0 t (activity_task h).
Proof.
  unfold activity_task. destruct (negb (h_is_oauth h)); [done|]. intros now o s Ht Hi.
  split; [by apply k_activity|]. exists 0%nat.
  unfold spawn_update_activity. destruct (negb (h_is_oauth h)); (split; [by left | done]).
Qed.

(** Sequences of statements that produce no response. *)
Ltac quiet :=
  repeat first
    [ apply query_ok_safe | apply activity_safe | done | by apply lift_safe
    | apply (psafe_bind _ _ _ any any 0 0); [|intros ? ? _ _] ].

Lemma dispatch_safe R b h client method request t :
  good b h -> is_tombstone h = false -> sg_safe R (ok_with any) 0 t (dispatch_task h client method request).
Proof.
  intros Hg Ht. unfold dispatch_task. repeat case_if; try done; try (unfold crypt_task, sign_event_task; by quiet).
  destruct (as_str _) as [secret|]; [|done].
  apply (safe_bind _ _ _ (ok_with any) (ok_with any) 0 0); [by eapply k_connect|]. intros u r _ _. by destruct r.
Qed.

Lemma send_safe event b h use_nip44 with_e_tag response t :
  bunker_of_event event = Some b -> good b h -> text_for h (json_to_string response) ->
  sg_safe (answer event) any 1 t (send_task h event use_nip44 with_e_tag response).
Proof.
  intros Hb Hg Htext now o s Ht Hi.
  pose proof (send_response_effect now h event use_nip44 with_e_tag response s) as Hs. cbn zeta in Hs.
  destruct Hs as [-> | (ev & -> & Hev)].
  - split; [done|]. exists 1%nat. split; [by left | done].
  - split; [by apply k_sent|]. exists 0%nat. split; [|done]. right. exists ev.
    split; [done|]. split; [by eapply k_answer | done].
Qed.

Lemma ok_any {A} t (r : result A SignerError) : ok_with any t r.
Proof. by destruct r. Qed.

Lemma safe_weaken {A} R (Q Q' : Z -> A -> Prop) n t (p : task unit signer A) :
  (forall u a, Q u a -> Q' u a) -> sg_safe R Q n t p -> sg_safe R Q' n t p.
Proof.
  intros HQ. revert n t. induction p as [a|change next IH]; simpl; [by auto|]. intros n t Hp now o s Ht Hi.
  destruct (Hp now o s Ht Hi) as (Hi' & m & Hm & Hn). split; [done|]. exists m. split; [done | by apply IH].
Qed.

Lemma process_safe event b h t :
  bunker_of_event event = Some b -> good b h ->
  sg_safe (answer event) any 1 t (process_task h event).
Proof.
  intros Hb Hg. unfold process_task.
  apply (safe_weaken _ (ok_with any)); [done|].
  apply (psafe_bind _ _ _ any any 0 1); [by apply lift_safe|]. intros u [decrypted use_nip44] _ _.
  do 2 (apply (psafe_bind _ _ _ any any 0 1); [by apply lift_safe|]; intros ? ? _ _).
  assert (Hsend : forall u e r, text_for h (json_to_string r) ->
    sg_safe (answer event) (ok_with any) 1 u (send_task h event use_nip44 e r)).
  { intros. eapply safe_weaken; [|by eapply send_safe]. intros. apply ok_any. }
  destruct (tombstone_error_message h) as [msg|] eqn:Em.
  { apply Hsend. unfold text_for. rewrite Em. by eexists. }
  assert (Htomb : is_tombstone h = false)
    by (unfold tombstone_error_message, is_tombstone in *; by destruct (h_status h)).
  assert (Hany : forall r, text_for h (json_to_string r)) by (intros; unfold text_for; by rewrite Em).
  assert (Ha : forall u m r, sg_safe (answer event) (ok_with any) 1 u
    (let* response := dispatch_task h (pk_to_hex (ev_pubkey event)) m r in send_task h event use_nip44 true response)).
  { intros. apply (psafe_bind _ _ _ any any 0 1); [by eapply dispatch_safe|]. intros ? r' _ _. by apply Hsend. }
  unfold active_task. destruct (h_is_oauth h && _); [|apply Ha].
  apply (safe_bind _ _ _ (ok_with any) (ok_with any) 0 1); [by eapply k_validate|].
  intros ? [r|e] _ _; [apply Ha | by apply Hsend].
Qed.

(** What loading a handler for [b] finds. *)
Definition maybe_good (b : string) : Z -> option Nip46Handler -> Prop :=
  fun _ o => match o with Some h => good b h | None => True end.

Lemma status_safe R (st : Z -> HandlerStatus * option Z) t :
  sg_safe R (ok_with (fun _ x => exists now, x = st now)) 0 t (status_task st).
Proof. apply psafe_read; [done|]. intros now s _ _. by exists now. Qed.

Lemma load_on_demand_safe R b t : sg_safe R (ok_with (maybe_good b)) 0 t (load_on_demand_task b).
Proof.
  eapply (psafe_bind _ _ _ (fun _ o => exists now s, I now s /\ o = _) _ 0 0).
  { apply query_safe. intros now s _ Hi. exists now, s. split; [exact Hi | reflexivity]. }
  intros u o _ (now & s & Hi & Ho). destruct o as [row|].
  - apply (psafe_bind _ _ _ (fun _ auth => map_err SE_Database (decode_oauth row) = Ok auth) _ 0 0);
      [by apply lift_safe|]. intros u1 auth _ Hd.
    eapply (psafe_bind _ _ _ _ _ 0 0); [apply status_safe|]. intros u2 st _ (now' & ->).
    apply (psafe_bind _ _ _ any _ 0 0); [apply query_ok_safe|]. intros u3 k _ _.
    apply (psafe_bind _ _ _ any _ 0 0); [by apply lift_safe|]. intros u4 keys _ _. simpl.
    by eapply k_oauth_row.
  - apply (psafe_bind _ _ _ any _ 0 0); [by apply query_safe|]. intros u1 [auth|] _ _; [|done].
    apply (psafe_bind _ _ _ any _ 0 0); [by apply lift_safe|]. intros u2 id _ _.
    eapply (psafe_bind _ _ _ _ _ 0 0); [apply status_safe|]. intros u3 st _ (now' & ->).
    apply (psafe_bind _ _ _ any _ 0 0); [apply query_ok_safe|]. intros u4 k _ _.
    apply (psafe_bind _ _ _ any _ 0 0); [by apply lift_safe|]. intros u5 keys _ _. simpl.
    by eapply k_team_row.
Qed.

Lemma insert_safe R b h t :
  good b h -> sg_safe R (ok_with any) 0 t (pt_stmt (fun _ => se_modify (set_handlers <[b := h]>)) : T unit).
Proof. intros Hg. apply psafe_write. intros now s _ Hi. split; [by apply k_insert | done]. Qed.

Lemma get_handler_safe R b t : sg_safe R (ok_with (maybe_good b)) 0 t (get_handler_task b).
Proof.
  apply (psafe_bind _ _ _ (maybe_good b) _ 0 0).
  { apply psafe_read; [done|]. intros now s _ Hi. simpl. destruct (sg_handlers s !! b) as [h|] eqn:E; simpl; [|done].
    by eapply k_cached. }
  intros u [h|] _ Hh; [done|]. apply (psafe_bind _ _ _ (maybe_good b) _ 0 0); [apply load_on_demand_safe|].
  intros u1 [h|] _ Hg; [|done]. by apply (psafe_bind _ _ _ any _ 0 0); [apply insert_safe|].
Qed.

Lemma request_safe event t : sg_safe (answer event) any 1 t (request_task event).
Proof.
  unfold request_task. apply (safe_weaken _ (ok_with any)); [done|].
  apply (psafe_bind _ _ _ (fun _ b => bunker_of_event event = Some b) any 0 1).
  { apply lift_safe. intros b. by destruct (bunker_of_event event); [intros [= <-]|]. }
  intros u b _ Hb. destruct (negb (should_handle b)); [done|].
  apply (psafe_bind _ _ _ (maybe_good b) any 0 1); [apply get_handler_safe|].
  intros u1 [h|] _ Hg; [|done]. eapply safe_weaken; [|by eapply process_safe]. intros. apply ok_any.
Qed.

(** Commands produce no response. *)
Lemma command_safe c t : sg_safe (fun _ => False) any 0 t (command_task c).
Proof.
  apply (safe_weaken _ (ok_with any)); [done|]. destruct c as [b tenant is_oauth|b|]; [|unfold command_task|done].
  - unfold command_task, load_single_task. destruct is_oauth.
    + eapply (psafe_bind _ _ _ (fun _ o => exists now s, I now s /\ o = find_first (fun a =>
        bool_decide (oa_bunker_public_key a = b) && (oa_tenant_id a =? tenant) && oauth_active now a)
        (oauth_rows (sg_db s))) _ 0 0).
      { apply query_safe. intros now s _ Hi. by exists now, s. }
      intros u [row|] _ (now & s & Hi & Ho); [|done].
      apply (psafe_bind _ _ _ (fun _ auth => map_err SE_Database (decode_oauth row) = Ok auth) _ 0 0);
        [by apply lift_safe|]. intros u1 auth _ Hd.
      apply (psafe_bind _ _ _ any _ 0 0); [apply query_ok_safe|]. intros u2 k _ _.
      apply (psafe_bind _ _ _ any _ 0 0); [by apply lift_safe|]. intros u3 keys _ _.
      apply insert_safe. by eapply k_upsert.
    + apply (psafe_bind _ _ _ any _ 0 0); [by apply query_safe|]. intros u [auth|] _ _; done.
  - apply (psafe_bind _ _ _ (maybe_good b) _ 0 0).
    { apply psafe_read; [done|]. intros now s _ Hi. simpl. destruct (sg_handlers s !! b) as [h|] eqn:E; simpl; [|done].
      by eapply k_cached. }
    intros u [h|] _ Hg; [|done]. apply psafe_write. intros now s _ Hi. split; [|done].
    apply k_insert; [done | by apply k_mark].
Qed.

(** ** Runs of the relay *)
Definition relay_ok (r0 r : relay) : Prop :=
  answering I sg_sent (fun item => answer (ni_event item)) (rl_pool r0) (rl_pool r) /\
  safe I sg_sent (fun _ => False) any 0 (p_clock (rl_pool r)) (rl_listener r).

Lemma relay_ok_state r0 p l now s :
  relay_ok r0 {| rl_pool := p; rl_listener := l |} -> p_clock p <= now -> I now s -> sg_sent s = sg_sent (p_state p) ->
  relay_ok r0 {| rl_pool := set_state now s p; rl_listener := l |}.
Proof.
  intros [Ha Hs] Hle Hi Hsent. split; simpl in *; [by apply answering_external|].
  by eapply safe_later.
Qed.

Lemma relay_step_ok r0 r r' : relay_step r r' -> relay_ok r0 r -> relay_ok r0 r'.
Proof.
  intros Hstep [Ha Hs]. pose proof Ha as [Hi _]. destruct Hstep as
    [n r | r p Hw | c res r Hl | now change next r Hle Hl | now key r Hle | now h r Hle].
  - split; simpl.
    + unfold deliver. destruct (on_notification true n); try done. unfold relay_try_send.
      rewrite (surjective_pairing (offer item (rl_pool r))). by apply answering_offer.
    + unfold deliver. destruct (on_notification true n); try done. unfold relay_try_send, offer.
      by destruct (chan_try_send item (p_chan (rl_pool r))).
  - split; simpl.
    + eapply answering_work; [apply k_later | intros x t; apply request_safe | done | done].
    + eapply safe_later; [done | by eapply work_step_clock | done].
  - split; simpl; [done | apply command_safe].
  - rewrite Hl in Hs. apply k_later with (t' := now) in Hi; [|done].
    destruct (Hs now tt (p_state (rl_pool r)) Hle Hi) as (Hi' & m & [[-> Hout] | (e & ? & ? & _)] & Hnext); [|done].
    split; simpl; [by apply answering_external | done].
  - destruct r as [p l]. apply relay_ok_state; [done | done | | done]. eapply k_evict, k_later; done.
  - destruct r as [p l]. apply relay_ok_state; [done | done | |]; [eapply k_activity, k_later; done|].
    unfold spawn_update_activity. by destruct (negb (h_is_oauth h)).
Qed.

(** From a moment at which no request and no command is in hand: the invariant
    stays, and the responses sent since then answer requests taken since then,
    each another one. *)
Lemma relay_keeps r r' res :
  I (p_clock (rl_pool r)) (p_state (rl_pool r)) -> busy_items (p_workers (rl_pool r)) = [] ->
  rl_listener r = Done res -> steps relay_step r r' ->
  I (p_clock (rl_pool r')) (p_state (rl_pool r')) /\
  exists new ans outs, p_taken (rl_pool r') = p_taken (rl_pool r) ++ new /\
    sg_sent (p_state (rl_pool r')) = sg_sent (p_state (rl_pool r)) ++ outs /\
    Forall2 (fun item => answer (ni_event item)) ans outs /\ ans ⊆+ new.
Proof.
  intros Hi Hb Hl Hrun. assert (Hok : relay_ok r r').
  { apply (steps_invariant relay_step (relay_ok r) (relay_step_ok r) _ _ Hrun).
    split; [by apply answering_start | by rewrite Hl]. }
  destruct Hok as [Ha _]. split; [by destruct Ha | by apply (answering_outputs I)].
Qed.
End relay_keeps.

(** ** Every response answers one request *)
Section promises.
Context `{HN : Nostr, HC : !NostrCrypto, HS : !Serde, HX : !Secrets, HCl : Cluster, HR : !Relay, HCh : Channel, HChL : !ChannelLaws, HL : !SignLaws}.

(** [ev] is a NIP-46 event by the bunker key of a handler, encrypted to the
    author of [event]. *)
Definition responds (event ev : Event) : Prop := exists now h text, is_response now h event text ev.

#[local] Instance responds_kept : Kept (fun _ _ => True) (fun _ _ => True) responds.
Proof.
  split; try done.
  - intros. by apply connect_any.
  - intros. by apply validate_any.
  - intros now b h event text ev _ _ _ Hev. by exists now, h, text.
Qed.


(** ** The client an authorization obeys *)

(** The handler names the authorization of [r0] with its tenant. *)
Definition names (r0 : OAuthAuthorization) (h : Nip46Handler) : Prop :=
  h_is_oauth h = true -> h_authorization_id h = oa_id r0 -> h_tenant_id h = oa_tenant_id r0.

(** The row of [r0] has its terms, and while it is live its client. *)
Definition holds_client (r0 : OAuthAuthorization) (c : string) (now : Z) (r : OAuthAuthorization) : Prop :=
  oa_id r = oa_id r0 -> oa_tenant_id r = oa_tenant_id r0 /\ oa_revoked_at r = oa_revoked_at r0 /\
    oa_expires_at r = oa_expires_at r0 /\ (oauth_active now r0 = true -> oa_connected_client_pubkey r = Some c).
Definition bound (r0 : OAuthAuthorization) (c : string) (now : Z) (s : signer) : Prop :=
  (exists r, r ∈ oauth_rows (sg_db s) /\ oa_id r = oa_id r0) /\
  (forall r, r ∈ oauth_rows (sg_db s) -> holds_client r0 c now r) /\
  (forall b h, sg_handlers s !! b = Some h -> names r0 h).

Lemma active_terms now r r0 :
  oa_revoked_at r = oa_revoked_at r0 -> oa_expires_at r = oa_expires_at r0 -> oauth_active now r = oauth_active now r0.
Proof. intros Hr He. unfold oauth_active. by rewrite Hr, He. Qed.

(** An update of the rows that keeps what [bound] speaks of. *)
Lemma bound_update r0 c now s d' p f :
  bound r0 c now s -> oauth_rows d' = update_where p f (oauth_rows (sg_db s)) ->
  (forall r, oa_id (f r) = oa_id r) ->
  (forall r, r ∈ oauth_rows (sg_db s) -> p r = true -> holds_client r0 c now r -> holds_client r0 c now (f r)) ->
  bound r0 c now (set_db (fun _ => d') s).
Proof.
  intros ((r & Hr & Hid) & Hrows & Hcache) Hd Hfid Hf. split; [|split; [|done]]; simpl; rewrite Hd.
  - exists (if p r then f r else r). split; [|destruct (p r); congruence].
    apply update_where_elem. destruct (p r) eqn:E; [left; by exists r | by right].
  - intros r' [(a & Ha & Hp & ->) | [Ha _]]%update_where_elem; [|by apply Hrows]. apply Hf; auto.
Qed.

(** Connecting a client to an authorization: another one, or one that has ended. *)
Lemma bound_connect r0 c now s h client id :
  bound r0 c now s -> (h_is_oauth h = true -> id = oa_id r0 -> oauth_active now r0 = false) ->
  bound r0 c now (set_db (connect_client now h client id) s).
Proof.
  intros Hb Hid. unfold connect_client. destruct (h_is_oauth h).
  - refine (bound_update r0 c now s (connect_oauth_client now client id (sg_db s)) _ _ Hb eq_refl _ _); [done|].
    intros r Hr Hp Hh Hr0. simpl in Hr0. destruct (Hh Hr0) as (H1 & H2 & H3 & _). simpl. repeat split; try done.
    intros Hact. apply Z.eqb_eq in Hp. rewrite Hid in Hact; [done | done | congruence].
  - by destruct Hb as (H1 & H2 & H3).
Qed.

Lemma bound_activity r0 c now s h : bound r0 c now s -> bound r0 c now (fst (spawn_update_activity now h s)).
Proof.
  intros Hb. unfold spawn_update_activity. destruct (negb (h_is_oauth h)); [done|].
  refine (bound_update r0 c now s (bump_activity now h (sg_db s)) _ _ Hb eq_refl _ _); done.
Qed.

(** Once the SELECT of a connect to [r0] finds nobody, the authorization has
    ended. *)
Lemma nobody_connected r0 c now s h :
  bound r0 c now s -> names r0 h -> h_is_oauth h = true -> h_authorization_id h = oa_id r0 ->
  existing_client now (sg_db s) h = None -> oauth_active now r0 = false.
Proof.
  intros ((r & Hr & Hid) & Hrows & _) Hn Ho Hh He. destruct (oauth_active now r0) eqn:Hact; [|done].
  unfold existing_client in He. rewrite Ho in He.
  destruct (find_first _ _) as [r1|] eqn:E in He.
  - apply find_first_Some in E as [Hr1 Hq]. bool_to_prop.
    destruct (Hrows r1 Hr1) as (_ & _ & _ & Hc); [congruence|]. simpl in He. by rewrite Hc in He.
  - rewrite find_first_None in E. specialize (E r Hr). destruct (Hrows r Hr Hid) as (Ht & Hrev & Hexp & _).
    simpl in E. rewrite Hid, Hh, Z.eqb_refl, Ht, (Hn Ho Hh), Z.eqb_refl, (active_terms now r r0), Hact in E; done.
Qed.

Lemma free_row_other r0 c now s h id :
  bound r0 c now s -> h_is_oauth h = true -> unconnected_id now (sg_db s) h = Some id -> id = oa_id r0 ->
  oauth_active now r0 = false.
Proof.
  intros (_ & Hrows & _) Ho Hu Hid. unfold unconnected_id in Hu. rewrite Ho in Hu.
  destruct (find_first _ _) as [r1|] eqn:E in Hu; [|done]. injection Hu as <-.
  apply find_first_Some in E as [Hr1 Hq]. bool_to_prop.
  destruct (Hrows r1 Hr1 Hid) as (_ & Hrev & Hexp & Hc). destruct (oauth_active now r0) eqn:Hact; [|done].
  rewrite Hc in *; done.
Qed.

Lemma ended_later r0 t t' : t <= t' -> oauth_active t r0 = false -> oauth_active t' r0 = false.
Proof.
  intros Hle Ht. destruct (oauth_active t' r0) eqn:E; [|done]. by rewrite (oauth_active_earlier t t' r0 Hle E) in Ht.
Qed.

Lemma bound_later r0 c t t' s : t <= t' -> bound r0 c t s -> bound r0 c t' s.
Proof.
  intros Hle (H1 & H2 & H3). split; [done|]. split; [|done]. intros r Hr Hid.
  destruct (H2 r Hr Hid) as (? & ? & ? & Hc). repeat split; try done.
  intros Hact. by apply Hc, (oauth_active_earlier t t').
Qed.

#[local] Instance bound_kept r0 c : Kept (bound r0 c) (fun _ => names r0) (fun _ _ => True).
Proof.
  split; try done.
  - intros t t' s. apply bound_later.
  - intros now s b h (_ & _ & Hc). apply Hc.
  - intros now s b row auth keys now' (_ & Hrows & _) [Hr _]%find_first_Some Hd. unfold decode_oauth in Hd. inv_ok.
    intros _ Hid. simpl in *. by destruct (Hrows _ Hr Hid) as [? _].
  - intros now s b tenant row auth keys (_ & Hrows & _) [Hr Hq]%find_first_Some Hd. unfold decode_oauth in Hd. inv_ok.
    bool_to_prop. intros _ Hid. simpl in *. destruct (Hrows _ Hr Hid) as [? _]. congruence.
  - intros now s b h (H1 & H2 & H3) Hn. split; [done|]. split; [done|]. intros b' h'. simpl.
    rewrite lookup_insert_Some. intros [[_ <-] | [_ Hl]]; [done | by eapply H3].
  - intros now s b (H1 & H2 & H3). split; [done|]. split; [done|]. intros b' h'. simpl.
    rewrite lookup_delete_Some. intros [_ Hl]. by eapply H3.
  - intros now s h. apply bound_activity.
  - intros R t b h client secret Hn _. unfold connect_task. destruct (negb _); [done|].
    apply (psafe_bind _ _ _ (fun u e => e = None -> h_is_oauth h = true -> h_authorization_id h = oa_id r0 ->
      oauth_active u r0 = false) (fun _ _ => True) 0 0).
    { apply query_safe. intros now s _ Hb He Ho Hid. by eapply nobody_connected. }
    intros u [e|] _ He; [by case_match|]. apply (psafe_bind _ _ _ (fun _ _ => True) _ 0 0); [|done].
    apply psafe_write. intros now s Hu Hb. split; [|done]. apply bound_connect; [done|].
    intros Ho Hid. by apply (ended_later r0 u now Hu), He.
  - intros R t b h client Hn _. unfold validate_and_store_task.
    apply (psafe_bind _ _ _ (fun _ _ => True) _ 0 0); [by apply query_safe|]. intros u [] _ _; [done|].
    apply (psafe_bind _ _ _ (fun u o => forall id, o = Some id -> h_is_oauth h = true -> id = oa_id r0 ->
      oauth_active u r0 = false) (fun _ _ => True) 0 0).
    { apply query_safe. intros now s _ Hb id Hu Ho Hid. by eapply free_row_other. }
    intros u1 [id|] _ Hid; [|done]. apply psafe_write. intros now s Hu Hb. split; [|done].
    apply bound_connect; [done|]. intros Ho Hi. eapply (ended_later r0 u1 now Hu), Hid; done.
Qed.


(** ** Revocation *)

(** The database has authorizations under the key, all of them revoked. *)
Definition rows_revoked (b : string) (d : Db) : Prop :=
  (exists r, r ∈ oauth_rows d /\ oa_bunker_public_key r = b) /\
  (forall r, r ∈ oauth_rows d -> oa_bunker_public_key r = b -> is_null (oa_revoked_at r) = false).
Definition key_revoked (b : string) (_ : Z) (s : signer) : Prop :=
  rows_revoked b (sg_db s) /\ (forall h, sg_handlers s !! b = Some h -> h_status h = Revoked).

(** The answer to a request for the key. *)
Definition refused (b : string) (event ev : Event) : Prop :=
  bunker_of_event event = Some b -> exists now h id,
    is_response now h event (json_to_string (response_of id "error" "Authorization has been revoked")) ev.

Lemma rows_revoked_update b d d' p f :
  rows_revoked b d -> oauth_rows d' = update_where p f (oauth_rows d) ->
  (forall r, oa_bunker_public_key (f r) = oa_bunker_public_key r /\ oa_revoked_at (f r) = oa_revoked_at r) ->
  rows_revoked b d'.
Proof.
  intros [(r & Hr & Hb) Hall] Hd Hf. split; rewrite Hd.
  - exists (if p r then f r else r). split; [|destruct (p r); [rewrite (proj1 (Hf r))|]; done].
    apply update_where_elem. destruct (p r) eqn:E; [left; by exists r | by right].
  - intros r' [(a & Ha & _ & ->) | [Ha _]]%update_where_elem; [|by apply Hall].
    destruct (Hf a) as [-> ->]. by apply Hall.
Qed.

Lemma revoked_connect b now now' s h client id :
  key_revoked b now s -> key_revoked b now (set_db (connect_client now' h client id) s).
Proof.
  intros [Hd Hc]. split; [|done]. simpl. unfold connect_client. destruct (h_is_oauth h); [|done].
  by eapply (rows_revoked_update b (sg_db s)).
Qed.

#[local] Instance revoked_kept b0 :
  Kept (key_revoked b0) (fun b h => b = b0 -> h_status h = Revoked) (refused b0).
Proof.
  split; try done.
  - intros now s b h [_ Hc] Hh ->. by apply Hc.
  - intros now s b row auth keys now' [[_ Hall] _] [Hr Hb]%find_first_Some Hd ->. unfold decode_oauth in Hd. inv_ok.
    bool_to_prop. specialize (Hall _ Hr ltac:(done)). simpl. unfold compute_status_from_oauth.
    by destruct (oa_revoked_at _).
  - intros now s b auth keys now' [[(r & Hr & Hb) _] _] Hnone ->. rewrite find_first_None in Hnone.
    specialize (Hnone r Hr). simpl in Hnone. by rewrite bool_decide_true in Hnone.
  - intros now s b tenant row auth keys [[_ Hall] _] [Hr Hq]%find_first_Some Hd ->. bool_to_prop.
    specialize (Hall _ Hr ltac:(done)). unfold oauth_active in *. rewrite Hall in *. done.
  - intros now s b h [Hd Hc] Hg. split; [done|]. intros h'. simpl. rewrite lookup_insert_Some.
    intros [[-> <-] | [_ Hl]]; [by apply Hg | by apply Hc].
  - intros now s b [Hd Hc]. split; [done|]. intros h'. simpl. rewrite lookup_delete_Some. intros [_ Hl]. by apply Hc.
  - intros now s h [Hd Hc]. unfold spawn_update_activity. destruct (negb (h_is_oauth h)); [done|]. split; [|done].
    by eapply (rows_revoked_update b0 (sg_db s)).
  - intros. apply connect_any. intros. by apply revoked_connect.
  - intros. apply validate_any. intros. by apply revoked_connect.
  - intros now b h event text ev Hb Hg Htext Hev Hb0. rewrite Hb in Hb0. injection Hb0 as ->. specialize (Hg eq_refl).
    unfold text_for, tombstone_error_message in Htext. rewrite Hg in Htext. destruct Htext as (id & ->).
    by exists now, h, id.
Qed.

(** [C2] Revocation is final: once every OAuth authorization under a bunker key
    is revoked in the database and the listener has handled the [Remove] of the
    key, at a moment at which no request is in hand, then however the later
    requests, commands and evictions interleave, no live handler for the key is
    cached again and every response to a request for it is the error
    "Authorization has been revoked". *)
Theorem revoked_stays_refused b now s r r' res :
  rows_revoked b (sg_db s) -> p_state (rl_pool r) = handle_command now (Remove b) s ->
  busy_items (p_workers (rl_pool r)) = [] -> rl_listener r = Done res -> steps relay_step r r' ->
  (forall h, sg_handlers (p_state (rl_pool r')) !! b = Some h -> h_status h = Revoked) /\
  exists new ans outs, p_taken (rl_pool r') = p_taken (rl_pool r) ++ new /\
    sg_sent (p_state (rl_pool r')) = sg_sent (p_state (rl_pool r)) ++ outs /\
    Forall2 (fun item => refused b (ni_event item)) ans outs /\ ans ⊆+ new.
Proof.
  intros Hd Hs Hidle Hl Hrun.
  destruct (relay_keeps (key_revoked b) (fun b' h => b' = b -> h_status h = Revoked) (refused b) r r' res)
    as [[_ Hc] Houts]; try done.
  rewrite Hs. simpl. destruct (sg_handlers s !! b) as [h|] eqn:E; (split; [done|]); intros h'; simpl.
  - rewrite lookup_insert_eq. by intros [= <-].
  - by rewrite E.
Qed.
End promises.

(** ** Witnesses *)
#[local] Existing Instance toy_cluster.
#[local] Existing Instance toy_relay.

Notation request_pool := (pool Nip46RpcItem (task unit signer (result unit SignerError)) signer).
Definition notify (e : Event) (r : relay) : relay :=
  {| rl_pool := deliver (RelayEvent e) (rl_pool r); rl_listener := rl_listener r |}.
Definition takes (i : nat) (p : request_pool) : option request_pool := worker_recv process_nip46_item i p.

Lemma takes_step i p p' : takes i p = Some p' -> nsteps (work_step process_nip46_item) 1 p p'.
Proof. intros H. eapply nsteps_l; [by eapply work_recv | constructor]. Qed.

(** Programs of worker steps: which worker takes a request or runs how many
    statements. *)
Inductive move : Type := Take (i : nat) | Run (i n : nat).
Definition make (m : move) (p : request_pool) : option request_pool :=
  match m with Take i => takes i p | Run i n => work_on i 20 tt n p end.
Fixpoint make_all (ms : list move) (p : request_pool) : option request_pool :=
  match ms with [] => Some p | m :: ms' => match make m p with Some p' => make_all ms' p' | None => None end end.

Lemma work_on_clock i n (p p' : request_pool) : p_clock p <= 20 -> work_on i 20 tt n p = Some p' -> p_clock p' <= 20.
Proof.
  revert p. induction n as [|n IH]; simpl; intros p Hle; [by intros [= <-]|].
  destruct (worker_process i 20 tt p) as [q|] eqn:E; [|done]. apply IH. unfold worker_process in E.
  destruct (p_workers p !! i) as [[|x r [res|change next]|]|]; try done; injection E as <-; done.
Qed.

Lemma make_all_steps ms p p' l :
  p_clock p <= 20 -> make_all ms p = Some p' ->
  steps relay_step {| rl_pool := p; rl_listener := l |} {| rl_pool := p'; rl_listener := l |}.
Proof.
  revert p. induction ms as [|m ms IH]; simpl; intros p Hle; [intros [= <-]; constructor|].
  destruct (make m p) as [q|] eqn:E; [|done]. intros Hq. destruct m as [i|i n]; simpl in E.
  - eapply steps_app; [apply (relay_works 1 {| rl_pool := p; rl_listener := l |}), (takes_step i), E|].
    apply IH; [|done]. revert E Hle. clear.
    unfold takes, worker_recv. destruct (p_workers p !! i) as [[]|]; try done.
    destruct (chan_recv _) as [[c [|]]|]; [| |done]; by intros [= <-].
  - eapply steps_app; [eapply (relay_works n {| rl_pool := p; rl_listener := l |}), work_on_steps; [done | exact E]|].
    apply IH; [by eapply work_on_clock | done].
Qed.

Definition after (ms : list move) (r : relay) : relay :=
  {| rl_pool := default (rl_pool r) (make_all ms (rl_pool r)); rl_listener := rl_listener r |}.

Lemma after_steps ms r :
  p_clock (rl_pool r) <= 20 -> negb (is_null (make_all ms (rl_pool r))) = true -> steps relay_step r (after ms r).
Proof.
  destruct r as [p l]. simpl. intros Hle Hm. eapply make_all_steps; [done|]. simpl in *. by apply some_default.
Qed.

Lemma notify_step e r : steps relay_step r (notify e r).
Proof. apply steps_one. constructor. Qed.

(** Another client tries to connect and is refused. *)
Definition other_connects : relay :=
  after [Take 0; Run 0 8] (notify (sample_request "other" user_bunker "connect|x|s") (relay_start 2 10 toy_bound_signer)).

Lemma other_connects_reached : steps relay_step (relay_start 2 10 toy_bound_signer) other_connects.
Proof.
  eapply steps_app; [apply notify_step|]. apply after_steps; [vm_compute; discriminate | vm_compute; reflexivity].
Qed.



(** A request to a revoked key. *)
Definition asks_revoked : relay :=
  after [Take 0; Run 0 6] (notify (sample_request "app1" user_bunker "get_public_key|x")
    (relay_start 2 10 (handle_command 10 (Remove user_bunker) toy_revoked_signer))).

Lemma revoked_stays_refused_witness :
  map ev_content (sg_sent (p_state (rl_pool asks_revoked))) = ["44:7 error Authorization has been revoked"] /\
  forall h, sg_handlers (p_state (rl_pool asks_revoked)) !! user_bunker = Some h -> h_status h = Revoked.
Proof.
  split; [vm_compute; reflexivity|].
  refine (proj1 (revoked_stays_refused user_bunker 10 toy_revoked_signer
    (relay_start 2 10 (handle_command 10 (Remove user_bunker) toy_revoked_signer)) asks_revoked (Ok tt) _ _ _ _ _)).
  - split.
    + eexists. split; [constructor | reflexivity].
    + intros r Hr _. apply list_elem_of_singleton in Hr as ->. reflexivity.
  - reflexivity.
  - reflexivity.
  - reflexivity.
  - eapply steps_app; [apply notify_step|]. apply after_steps; [vm_compute; discriminate | vm_compute; reflexivity].
Defined.

(** ** Why no request may be in hand *)
Definition toy_free_signer : signer := toy_signer [sample_oauth None None None] [].

(** Two clients present the same secret at once: both read that nobody is
    connected, the first connects, the second takes its place, and both are
    told "ack". *)
Definition both_read : relay :=
  after [Take 0; Take 1; Run 0 6; Run 1 2]
    (notify (sample_request "other" user_bunker "connect|x|s")
      (notify (sample_request "app1" user_bunker "connect|x|s") (relay_start 2 10 toy_free_signer))).
Theorem racing_connects :
  steps relay_step (relay_start 2 10 toy_free_signer) (after [Run 0 3] both_read) /\
  steps relay_step (after [Run 0 3] both_read) (after [Run 1 3] (after [Run 0 3] both_read)) /\
  map oa_connected_client_pubkey (oauth_rows (sg_db (p_state (rl_pool (after [Run 0 3] both_read))))) = [Some "app1"] /\
  map oa_connected_client_pubkey
    (oauth_rows (sg_db (p_state (rl_pool (after [Run 1 3] (after [Run 0 3] both_read)))))) = [Some "other"] /\
  map ev_content (sg_sent (p_state (rl_pool (after [Run 1 3] (after [Run 0 3] both_read))))) =
    ["44:7 result ack"; "44:7 result ack"].
Proof.
  split; [|split; [|split; [|split]]]; [| |vm_compute; reflexivity..].
  - apply (steps_app _ _ both_read).
    + unfold both_read. eapply steps_app; [apply notify_step|]. eapply steps_app; [apply notify_step|].
      apply after_steps; [vm_compute; discriminate | vm_compute; reflexivity].
    + apply after_steps; [vm_compute; discriminate | vm_compute; reflexivity].
  - apply after_steps; [vm_compute; discriminate | vm_compute; reflexivity].
Qed.

(** A worker has read the row of a key; the key is then revoked and its [Remove]
    handled; the worker caches the handler it built from the old row, and from
    then on the signer answers for the revoked key. *)
Definition overtaken : relay :=
  let r := after [Take 0; Run 0 2] (notify (sample_request "app1" user_bunker "get_public_key|x")
    (relay_start 2 10 toy_free_signer)) in
  {| rl_pool := set_state 20 (handle_command 20 (Remove user_bunker)
       {| sg_db := sg_db toy_revoked_signer; sg_handlers := sg_handlers (p_state (rl_pool r)); sg_sent := [] |})
       (rl_pool r);
     rl_listener := rl_listener r |}.
Theorem revocation_overtaken :
  rows_revoked user_bunker (sg_db (p_state (rl_pool overtaken))) /\
  steps relay_step overtaken (after [Run 0 5] overtaken) /\
  (h_status <$> sg_handlers (p_state (rl_pool (after [Run 0 5] overtaken))) !! user_bunker) = Some Active /\
  map ev_content (sg_sent (p_state (rl_pool (after [Run 0 5] overtaken)))) = ["44:7 result Pu"].
Proof.
  split; [|split; [|split; vm_compute; reflexivity]].
  - split.
    + eexists. split; [constructor | reflexivity].
    + intros r Hr _. apply list_elem_of_singleton in Hr as ->. reflexivity.
  - apply after_steps; [vm_compute; discriminate | vm_compute; reflexivity].
Qed.
