(* ===== verification/RateLimit.v ===== *)
(** * Redis commands and rate limits

    api/src/redis.rs and api/src/rate_limit.rs.  The store is a map from keys to
    strings, counters or sets with an expiry; a command answers at a time and may fail, for
    which the connection carries an oracle.  A key that has expired is absent. *)
From S2P Require Import Prelude RustStr External Instances.

(** ** The store *)
Inductive redis_value : Type :=
| RString (s : string)
| RInt (n : Z)
| RSet (members : gset string).
Record redis_entry : Type := { e_value : redis_value; e_expires : option Z }.
Notation redis_store := (gmap string redis_entry).

Inductive RedisError : Type := {
  err_auth_kind : bool; err_code : option string; err_message : string;
}.

Definition entry_live (now : Z) (e : redis_entry) : bool := null_or_after (e_expires e) now.
Definition live_entry (now : Z) (key : string) (s : redis_store) : option redis_entry :=
  match s !! key with Some e => if entry_live now e then Some e else None | None => None end.

(** ** PrefixedRedis *)
Record PrefixedRedis : Type := {
  (** the live connection, whether a factory can make a new one, and the prefix *)
  pr_conn : nat; pr_factory : bool; pr_prefix : option string;
}.
Definition prefixed_key (r : PrefixedRedis) (key : string) : string :=
  match pr_prefix r with Some prefix => prefix +:+ ":" +:+ key | None => key end.

Section connection.
Context `{HU : Unicode}.

Definition is_auth_error (e : RedisError) : bool :=
  err_auth_kind e
  || match err_code e with
     | Some code => let c := to_uppercase code in bool_decide (c = "NOAUTH") || bool_decide (c = "WRONGPASS")
     | None => false
     end
  || (let msg := to_lowercase (err_message e) in contains "noauth" msg || contains "wrongpass" msg).

(** with_refresh: one retry, on a new connection, after an authentication
    error.  [refresh] is what the factory answers. *)
Definition with_refresh {S T} (refresh : result nat RedisError) (op : nat -> S -> S * result T RedisError)
    (r : PrefixedRedis) (s : S) : PrefixedRedis * S * result T RedisError :=
  match op (pr_conn r) s with
  | (s1, Ok t) => (r, s1, Ok t)
  | (s1, Err e) =>
      if is_auth_error e && pr_factory r then
        match refresh with
        | Ok c => let '(s2, t) := op c s1 in
                  ({| pr_conn := c; pr_factory := pr_factory r; pr_prefix := pr_prefix r |}, s2, t)
        | Err _ => (r, s1, Err e)
        end
      else (r, s1, Err e)
  end.

(** A command whose failure changes nothing takes effect at most once. *)
Lemma with_refresh_once {S T} refresh (op : nat -> S -> S * result T RedisError) r s :
  (forall c s' e, snd (op c s') = Err e -> fst (op c s') = s') ->
  let '(_, s', t) := with_refresh refresh op r s in
  (s' = s /\ is_ok t = false) \/ exists c, (s', t) = op c s.
Proof.
  intros Hfail. unfold with_refresh. destruct (op (pr_conn r) s) as [s1 [t|e]] eqn:E; [right; eauto|].
  assert (s1 = s) as -> by (specialize (Hfail (pr_conn r) s e); by rewrite E in Hfail; apply Hfail).
  destruct (is_auth_error e && pr_factory r); [|by left]. destruct refresh as [c|]; [|by left].
  destruct (op c s) as [s2 t] eqn:E2. right. eauto.
Qed.
End connection.

(** ** Commands: the key is already prefixed. *)
Definition redis_setex (now : Z) (key : string) (seconds : Z) (value : string) (s : redis_store) : redis_store :=
  <[key := {| e_value := RString value; e_expires := Some (now + seconds) |}]> s.
Definition redis_get (now : Z) (key : string) (s : redis_store) : option string :=
  match live_entry now key s with
  | Some {| e_value := RString v |} => Some v
  | Some {| e_value := RInt n |} => Some (print_Z n)
  | _ => None
  end.
Definition redis_del (key : string) (s : redis_store) : redis_store := delete key s.
Definition redis_smembers (now : Z) (key : string) (s : redis_store) : gset string :=
  match live_entry now key s with Some {| e_value := RSet m |} => m | _ => ∅ end.
Definition redis_sismember (now : Z) (key member : string) (s : redis_store) : bool :=
  bool_decide (member ∈ redis_smembers now key s).
Definition redis_sadd (now : Z) (key member : string) (s : redis_store) : redis_store * Z :=
  let m := redis_smembers now key s in
  (<[key := {| e_value := RSet ({[member]} ∪ m);
               e_expires := match live_entry now key s with Some e => e_expires e | None => None end |}]> s,
   if bool_decide (member ∈ m) then 0 else 1).
Definition redis_srem (now : Z) (key member : string) (s : redis_store) : redis_store * Z :=
  let m := redis_smembers now key s in
  if bool_decide (member ∈ m) then
    (if bool_decide (m ∖ {[member]} = ∅) then delete key s
     else <[key := {| e_value := RSet (m ∖ {[member]});
                      e_expires := match live_entry now key s with Some e => e_expires e | None => None end |}]> s, 1)
  else (s, 0).

(** SET key value NX EX ttl *)
Definition redis_set_nx_ex (now : Z) (key value : string) (ttl_seconds : Z) (s : redis_store) : redis_store * bool :=
  match live_entry now key s with
  | Some _ => (s, false)
  | None => (redis_setex now key ttl_seconds value s, true)
  end.

(** INCR counts in 64 bits and keeps the expiry; the script sets the expiry with
    the first event of a window. *)
Fixpoint parse_digits (s : string) (acc : Z) : option Z :=
  match s with
  | EmptyString => Some acc
  | String c s' => if (48 <=? byte_val c) && (byte_val c <=? 57) then parse_digits s' (10 * acc + (byte_val c - 48)) else None
  end.
Definition counter_value (v : redis_value) : option Z :=
  match v with RInt n => Some n | RString d => parse_digits d 0 | RSet _ => None end.
Definition redis_incr (now : Z) (key : string) (s : redis_store) : redis_store * result Z RedisError :=
  match live_entry now key s with
  | None => (<[key := {| e_value := RInt 1; e_expires := None |}]> s, Ok 1)
  | Some e =>
      match counter_value (e_value e) with
      | Some n =>
          if n + 1 <? 2 ^ 63 then (<[key := {| e_value := RInt (n + 1); e_expires := e_expires e |}]> s, Ok (n + 1))
          else (s, Err {| err_auth_kind := false; err_code := Some "ERR"; err_message := "increment or decrement would overflow" |})
      | None => (s, Err {| err_auth_kind := false; err_code := Some "ERR"; err_message := "value is not an integer or out of range" |})
      end
  end.
Definition redis_expire (now : Z) (key : string) (ttl : Z) (s : redis_store) : redis_store :=
  match live_entry now key s with
  | Some e => <[key := {| e_value := e_value e; e_expires := Some (now + ttl) |}]> s
  | None => s
  end.
Definition incr_with_ttl (now : Z) (key : string) (ttl_seconds : Z) (s : redis_store)
  : redis_store * result Z RedisError :=
  match redis_incr now key s with
  | (s1, Ok count) => (if count =? 1 then redis_expire now key ttl_seconds s1 else s1, Ok count)
  | (s1, Err e) => (s1, Err e)
  end.

(** ** Limits *)

(** A connection, when Redis is configured: its key prefix and whether it answers. *)
Record redis_link : Type := { rl_prefix : option string; rl_up : bool }.
Definition link_key (l : redis_link) (key : string) : string :=
  match rl_prefix l with Some prefix => prefix +:+ ":" +:+ key | None => key end.

Definition EMAIL_LIMIT_PER_HOUR : Z := 5.
Definition DEFAULT_IP_LIMIT_PER_HOUR : Z := 60.
Definition HOUR_SECONDS : Z := 3600.

Definition once_per_window (now : Z) (redis : option redis_link) (key : string) (window_seconds : Z) (s : redis_store)
  : redis_store * bool :=
  match redis with
  | None => (s, true)
  | Some l => if rl_up l then redis_set_nx_ex now (link_key l key) "1" window_seconds s else (s, true)
  end.

Definition under_limit (now : Z) (redis : option redis_link) (key : string) (limit window_seconds : Z) (s : redis_store)
  : redis_store * bool :=
  match redis with
  | None => (s, true)
  | Some l =>
      if rl_up l then
        match incr_with_ttl now (link_key l key) window_seconds s with
        | (s', Ok count) => (s', count <=? limit)
        | (s', Err _) => (s', true)
        end
      else (s, true)
  end.

(** [str::parse::<IpAddr>] and its display: an IPv4 address has four decimal
    octets without leading zeros, and prints as it was; IPv6 text is a
    parameter. *)
Class Ipv6 := { ipv6_parse : string -> option string }.
Definition is_octet (s : string) : bool :=
  all_bytes (fun c => (48 <=? byte_val c) && (byte_val c <=? 57)) s
  && (1 <=? len s) && (len s <=? 3) && negb (starts_with "0" s && (1 <? len s))
  && match parse_digits s 0 with Some n => n <=? 255 | None => false end.
Definition is_ipv4 (s : string) : bool :=
  let octets := split "." s in (length octets =? 4)%nat && forallb is_octet octets.
Definition ip_parse `{Ipv6} (s : string) : option string := if is_ipv4 s then Some s else ipv6_parse s.

Section limits.
Context `{HU : Unicode, HD : Digests, HI : Ipv6}.

(** client_ip: the header is [None] when it is missing or not text. *)
Definition client_ip (x_forwarded_for : option string) : option string :=
  header ← x_forwarded_for; entry ← last (split "," header); ip_parse (trim entry).

Definition email_key (email : string) : string := sha256_hex email.
Definition ip_limit_key (route : string) (tenant_id : Z) (ip : string) : string :=
  "rate_limit:" +:+ route +:+ ":" +:+ print_Z tenant_id +:+ ":ip:" +:+ ip.
Definition email_limit_key (route : string) (tenant_id : Z) (email : string) : string :=
  "rate_limit:" +:+ route +:+ ":" +:+ print_Z tenant_id +:+ ":email:" +:+ email_key (to_lowercase (trim email)).

(** [str::parse::<u64>]: digits, after an optional plus sign. *)
Definition parse_u64 (s : string) : option Z :=
  let digits := default s (strip_prefix "+" s) in
  if bool_decide (digits = "") then None
  else match parse_digits digits 0 with
       | Some n => if n <? 2 ^ 64 then Some n else None
       | None => None
       end.
(** RATE_LIMIT_IP_PER_HOUR *)
Definition ip_limit_per_hour (env : option string) : Z :=
  default DEFAULT_IP_LIMIT_PER_HOUR (limit ← env; parse_u64 limit).

Definition allow_request (now : Z) (redis : option redis_link) (ip_limit : Z) (route : string) (tenant_id : Z)
    (x_forwarded_for email : option string) (s : redis_store) : redis_store * bool :=
  let '(s1, ip_ok) :=
    match client_ip x_forwarded_for with
    | Some ip => under_limit now redis (ip_limit_key route tenant_id ip) ip_limit HOUR_SECONDS s
    | None => (s, true)
    end in
  if negb ip_ok then (s1, false)
  else match email with
       | Some email => under_limit now redis (email_limit_key route tenant_id email) EMAIL_LIMIT_PER_HOUR HOUR_SECONDS s1
       | None => (s1, true)
       end.

(** *** How often a limit lets requests through *)
Lemma app_str_inj p a b : p +:+ a = p +:+ b -> a = b.
Proof.
  induction p as [|c p IH]; [done|]. change (String c (p +:+ a) = String c (p +:+ b) -> a = b).
  intros [= E]. by apply IH.
Qed.

Lemma link_key_inj l a b : link_key l a = link_key l b -> a = b.
Proof. unfold link_key. destruct (rl_prefix l); [|done]. intros E. by apply app_str_inj, app_str_inj in E. Qed.

Lemma limit_keys_differ route t ip email : ip_limit_key route t ip <> email_limit_key route t email.
Proof.
  unfold ip_limit_key, email_limit_key. intros E. do 4 apply app_str_inj in E. discriminate E.
Qed.

(** A counter that is running: [k] events, until [x]. *)
Definition counting (key : string) (k x : Z) (s : redis_store) : Prop :=
  s !! key = Some {| e_value := RInt k; e_expires := Some x |}.

Lemma under_limit_counting now l key limit w k x s :
  rl_up l = true -> counting (link_key l key) k x s -> now < x -> k + 1 < 2 ^ 63 -> 0 < k ->
  snd (under_limit now (Some l) key limit w s) = (k + 1 <=? limit) /\
  counting (link_key l key) (k + 1) x (fst (under_limit now (Some l) key limit w s)).
Proof.
  intros Hup Hc Hnow Hk Hpos. unfold under_limit. rewrite Hup. unfold incr_with_ttl, redis_incr, live_entry.
  rewrite Hc. unfold entry_live. simpl. rewrite (proj2 (Z.ltb_lt _ _) Hnow). simpl.
  rewrite (proj2 (Z.ltb_lt _ _) Hk). replace (k + 1 =? 1) with false by (symmetry; apply Z.eqb_neq; lia).
  simpl. split; [done|]. apply lookup_insert_eq.
Qed.

Lemma under_limit_first now l key limit w s :
  rl_up l = true -> live_entry now (link_key l key) s = None -> 0 < w ->
  snd (under_limit now (Some l) key limit w s) = (1 <=? limit) /\
  counting (link_key l key) 1 (now + w) (fst (under_limit now (Some l) key limit w s)).
Proof.
  intros Hup Hn Hw. unfold under_limit. rewrite Hup. unfold incr_with_ttl, redis_incr. rewrite Hn. simpl.
  split; [done|]. unfold redis_expire, live_entry, counting. rewrite lookup_insert_eq. simpl. by rewrite lookup_insert_eq.
Qed.

Lemma under_limit_other now l key other limit w s :
  link_key l key <> other -> fst (under_limit now (Some l) key limit w s) !! other = s !! other.
Proof.
  intros Hne. unfold under_limit. destruct (rl_up l); [|done]. unfold incr_with_ttl, redis_incr, redis_expire.
  repeat (case_match; simplify_eq; simpl in *); rewrite ?lookup_insert_ne; done.
Qed.

(** A sequence of requests for one email, at their times and with their
    X-Forwarded-For headers: how many go on. *)
Fixpoint allowed_requests (l : redis_link) (ip_limit : Z) (route : string) (tenant_id : Z) (email : string)
    (calls : list (Z * option string)) (s : redis_store) : nat :=
  match calls with
  | [] => 0
  | (now, header) :: calls' =>
      let '(s', r) := allow_request now (Some l) ip_limit route tenant_id header (Some email) s in
      (Nat.b2n r + allowed_requests l ip_limit route tenant_id email calls' s')%nat
  end.

(** The IP check leaves the counter of the email alone. *)
Lemma ip_check_frame now l ip_limit route t header email s :
  fst (match client_ip header with
       | Some ip => under_limit now (Some l) (ip_limit_key route t ip) ip_limit HOUR_SECONDS s
       | None => (s, true)
       end) !! link_key l (email_limit_key route t email) = s !! link_key l (email_limit_key route t email).
Proof.
  destruct (client_ip header) as [ip|]; [|done]. apply under_limit_other.
  intros E%link_key_inj. by apply limit_keys_differ in E.
Qed.

Lemma allowed_counting l ip_limit route t email calls k x s :
  rl_up l = true -> 0 < k -> k + Z.of_nat (length calls) < 2 ^ 63 ->
  counting (link_key l (email_limit_key route t email)) k x s -> Forall (fun c => fst c < x) calls ->
  (Z.of_nat (allowed_requests l ip_limit route t email calls s) <= Z.max 0 (EMAIL_LIMIT_PER_HOUR - k)).
Proof.
  intros Hup. revert k s. induction calls as [|[now header] calls IH]; intros k s Hk Hsz Hc Ht; [simpl; lia|].
  apply Forall_cons in Ht as [Hnow Ht]. cbn [allowed_requests length] in *. unfold allow_request.
  pose proof (ip_check_frame now l ip_limit route t header email s) as Hfr.
  destruct (match client_ip header with Some ip => _ | None => _ end) as [s1 ok1]. simpl in Hfr, Hnow.
  assert (Hc1 : counting (link_key l (email_limit_key route t email)) k x s1) by (unfold counting in *; by rewrite Hfr).
  destruct ok1; cbn [negb].
  - destruct (under_limit_counting now l _ EMAIL_LIMIT_PER_HOUR HOUR_SECONDS k x s1 Hup Hc1 Hnow) as [Hr Hc2]; [lia..|].
    destruct (under_limit _ _ _ _ _ _) as [s2 r]. simpl in Hr, Hc2. subst r.
    specialize (IH (k + 1) s2 ltac:(lia) ltac:(lia) Hc2 Ht).
    destruct (k + 1 <=? EMAIL_LIMIT_PER_HOUR) eqn:E; bool_to_prop; unfold EMAIL_LIMIT_PER_HOUR in *; simpl; lia.
  - apply IH; [done | lia | done..].
Qed.

(** An email gets at most five requests an hour through to an endpoint that
    sends mail, whatever the addresses the requests come from or claim, as long
    as Redis answers: the count per email is kept apart from those per address,
    and its window starts with its first request. *)
Theorem email_limit_holds l ip_limit route t email calls t0 s :
  rl_up l = true -> Z.of_nat (length calls) < 2 ^ 63 - 1 ->
  (forall now, t0 <= now -> live_entry now (link_key l (email_limit_key route t email)) s = None) ->
  Forall (fun c => t0 <= fst c < t0 + HOUR_SECONDS) calls ->
  (allowed_requests l ip_limit route t email calls s <= Z.to_nat EMAIL_LIMIT_PER_HOUR)%nat.
Proof.
  intros Hup. revert s. induction calls as [|[now header] calls IH]; intros s Hsz Hn Ht; [simpl; lia|].
  apply Forall_cons in Ht as [Hnow Ht]. cbn [allowed_requests length] in *. unfold allow_request.
  pose proof (ip_check_frame now l ip_limit route t header email s) as Hfr.
  destruct (match client_ip header with Some ip => _ | None => _ end) as [s1 ok1]. simpl in Hfr, Hnow.
  assert (Hn1 : forall now, t0 <= now -> live_entry now (link_key l (email_limit_key route t email)) s1 = None)
    by (intros; unfold live_entry; rewrite Hfr; by apply Hn).
  destruct ok1; cbn [negb]; [|apply IH; [lia | done..]].
  destruct (under_limit_first now l _ EMAIL_LIMIT_PER_HOUR HOUR_SECONDS s1 Hup (Hn1 now ltac:(lia))) as [Hr Hc];
    [done|]. destruct (under_limit _ _ _ _ _ _) as [s2 r]. simpl in Hr, Hc. subst r.
  pose proof (allowed_counting l ip_limit route t email calls 1 _ s2 Hup ltac:(lia) ltac:(lia) Hc) as Hb.
  assert (Forall (fun c => fst c < now + HOUR_SECONDS) calls).
  { eapply Forall_impl; [exact Ht|]. simpl. intros; lia. }
  specialize (Hb H). unfold EMAIL_LIMIT_PER_HOUR in *. simpl. lia.
Qed.

(** Without Redis, or while it does not answer, every limit lets every
    request through. *)
Theorem limits_fail_open now redis ip_limit route t header email s :
  match redis with Some l => rl_up l = false | None => True end ->
  allow_request now redis ip_limit route t header email s = (s, true).
Proof.
  intros Hr. assert (Hu : forall key limit w, under_limit now redis key limit w s = (s, true)).
  { intros. unfold under_limit. destruct redis as [l|]; [by rewrite Hr | done]. }
  unfold allow_request. destruct (client_ip header); rewrite ?Hu; simpl; destruct email; by rewrite ?Hu.
Qed.
End limits.

(** ** Witnesses *)
#[export] Instance toy_ipv6 : Ipv6 := { ipv6_parse _ := None }.
Definition toy_link : redis_link := {| rl_prefix := Some "keycast"; rl_up := true |}.
Definition seven_calls : list (Z * option string) :=
  map (fun i => (i, Some ("6.6.6.6, 10.0.0." +:+ print_Z i))) [1; 2; 3; 4; 5; 6; 7].

Lemma email_limit_holds_witness :
  allowed_requests toy_link 60 "register" 1 "A@b.c " seven_calls ∅ = 5%nat /\
  (allowed_requests toy_link 60 "register" 1 "A@b.c " seven_calls ∅ <= Z.to_nat EMAIL_LIMIT_PER_HOUR)%nat.
Proof.
  split; [vm_compute; reflexivity|].
  apply (email_limit_holds toy_link 60 "register" 1 "A@b.c " seven_calls 0 ∅).
  - reflexivity.
  - vm_compute. reflexivity.
  - reflexivity.
  - repeat (apply Forall_cons; split; [vm_compute; split; [discriminate | reflexivity]|]). constructor.
Defined.

Lemma limits_fail_open_witness :
  allow_request 5 None 0 "register" 1 (Some "1.2.3.4") (Some "a@b") ∅ = (∅, true).
Proof. apply limits_fail_open. exact I. Defined.
