(* ===== verification/Tenant.v ===== *)
(** * Tenants

    api/src/api/tenant.rs: which tenant a request belongs to, from its Host
    header, through a cache in front of the tenants table; and the guard that
    keeps the host of customer accounts to its own routes.  The environment
    variables are a record.  The cache may drop entries at any time. *)
From S2P Require Import Prelude RustStr External Instances Database AuthTypes.

Record Tenant : Type := {
  tn_id : Z; tn_domain : string; tn_name : string; tn_settings : option string;
  tn_created_at : Z; tn_updated_at : Z;
}.
Record TenantSettings : Type := { ts_relay : option string; ts_email_from : option string }.

Inductive TenantError : Type :=
| InvalidDomain (msg : string)
| TenantDatabaseError (e : sqlx_error)
| ValidationFailed (msg : string).

(** A panic takes the request down. *)
Inductive tenant_failure : Type :=
| TenantErr (e : TenantError)
| TenantPanic (msg : string).

(** serde's reading and writing of the settings. *)
Class TenantSerde := {
  de_TenantSettings : string -> result TenantSettings string;
  ser_TenantSettings : TenantSettings -> string;
}.
Class TenantSerdeLaws `{TenantSerde} : Prop := {
  settings_round_trip s : de_TenantSettings (ser_TenantSettings s) = Ok s;
}.

(** CUSTOMER_TENANT_DOMAIN, ALLOWED_TENANT_DOMAINS and BUNKER_RELAYS *)
Record tenant_env : Type := {
  env_customer_domain : option string; env_allowed_domains : option string; env_bunker_relays : option string;
}.

(** The parts of a request the code reads: the Host header when it is text, the
    authority of the URI, the path. *)
Record request_parts : Type := { rp_host : option string; rp_uri_host : option string; rp_path : string }.

Record tenant_state : Type := { st_tenants : table Tenant; st_tenant_cache : gmap string Tenant }.

Section tenant.
Context `{HU : Unicode, HT : TenantSerde}.
Variable env : tenant_env.

(** ** Settings *)
Definition get_settings (t : Tenant) : result TenantSettings string :=
  match tn_settings t with
  | Some json => de_TenantSettings json
  | None => Ok {| ts_relay := None; ts_email_from := None |}
  end.

(** The first relay of BUNKER_RELAYS; without one the code panics. *)
Definition get_default_relay : result string tenant_failure :=
  let? relays_str := ok_or (env_bunker_relays env) (TenantPanic "BUNKER_RELAYS environment variable is required") in
  ok_or (find_first (fun s => negb (bool_decide (s = ""))) (map trim (split "," relays_str)))
    (TenantPanic "BUNKER_RELAYS must contain at least one relay URL").

Definition relay_url (t : Tenant) : result string tenant_failure :=
  match ok (get_settings t) ≫= ts_relay with Some r => Ok r | None => get_default_relay end.

Definition email_from (t : Tenant) : string :=
  default ("noreply@" +:+ tn_domain t) (ok (get_settings t) ≫= ts_email_from).

Definition customer_tenant_domain : option string :=
  match env_customer_domain env with
  | Some domain => if bool_decide (trim domain = "") then None else Some (trim domain)
  | None => None
  end.

Definition is_customer_tenant (t : Tenant) : bool := bool_decide (customer_tenant_domain = Some (tn_domain t)).

(** ** The host of a request *)
Definition request_domain (p : request_parts) : option string :=
  host ← match rp_host p with Some h => Some h | None => rp_uri_host p end; head (split ":" host).

Definition customer_routes : list string :=
  ["/nostr"; "/auth/magic-link"; "/auth/magic-link/verify"; "/customer/account";
   "/customer/authorizations"; "/customer/authorizations/revoke"].
Definition is_customer_route (path : string) : bool := bool_decide (path ∈ customer_routes).

(** Either the status 404, or the request goes on to its handler. *)
Definition customer_tenant_guard {R} (p : request_parts) (not_found : R) (next : request_parts -> R) : R :=
  match customer_tenant_domain, request_domain p with
  | Some customer_domain, Some domain =>
      let path := default (rp_path p) (strip_prefix "/api" (rp_path p)) in
      if bool_decide (domain = customer_domain) && negb (is_customer_route path) then not_found else next p
  | _, _ => next p
  end.

(** ** Domains *)
Definition domain_is_allowed (domain : string) : bool :=
  match env_allowed_domains env with
  | Some allowed => existsb (fun d => bool_decide (trim d = domain)) (split "," allowed)
  | None => true
  end.

Definition blocked_prefixes : list string := ["127."; "192.168."; "10."; "172."].
Definition blocked_suffixes : list string := [".local"; ".internal"; ".test"].

Definition validate_domain (domain : string) : result unit TenantError :=
  if bool_decide (domain = "") then Err (InvalidDomain "Domain cannot be empty")
  else
    match env_allowed_domains env with
    | Some _ =>
        if negb (domain_is_allowed domain) then
          Err (ValidationFailed ("Domain '" +:+ domain +:+ "' not in allowed list"))
        else Ok tt
    | None =>
        if 253 <? len domain then Err (InvalidDomain "Domain too long")
        else if bool_decide (domain = "localhost") then Ok tt
        else if negb (contains "." domain) then Err (ValidationFailed "Domain must contain at least one dot")
        else if negb (forallb (fun c => is_alphanumeric c || bool_decide (c = ".") || bool_decide (c = "-")) (chars domain))
        then Err (InvalidDomain "Domain contains invalid characters")
        else
          let name := trim_end_char "." domain in
          match find_first (fun pattern => starts_with pattern domain) blocked_prefixes,
                find_first (fun pattern => ends_with pattern name) blocked_suffixes with
          | Some pattern, _ | None, Some pattern =>
              Err (ValidationFailed ("Domain matches blocked pattern: " +:+ pattern))
          | None, None => Ok tt
          end
    end.

(** ** The tenants table *)
Definition get_tenant_by_domain (domain : string) (t : table Tenant) : result Tenant sqlx_error :=
  fetch_one (find_first (fun r => bool_decide (tn_domain r = domain)) (rows t)).
Definition get_tenant_by_id (tenant_id : Z) (t : table Tenant) : result Tenant sqlx_error :=
  fetch_one (find_first (fun r => tn_id r =? tenant_id) (rows t)).

Definition tenant_row (now : Z) (domain name : string) (settings : option string) (i : Z) : Tenant :=
  {| tn_id := i; tn_domain := domain; tn_name := name; tn_settings := settings;
     tn_created_at := now; tn_updated_at := now |}.

(** INSERT INTO tenants: the domain is unique. *)
Definition create_tenant (now : Z) (domain name : string) (settings : option string) (t : table Tenant)
  : table Tenant * result Tenant sqlx_error :=
  if existsb (fun r => bool_decide (tn_domain r = domain)) (rows t) then
    (t, Err (SqlxDatabase (Some "23505") "tenants_domain_key"))
  else let '(t', r) := insert_row (tenant_row now domain name settings) t in (t', Ok r).

Fixpoint insert_by_created (r : Tenant) (l : list Tenant) : list Tenant :=
  match l with
  | [] => [r]
  | q :: l' => if tn_created_at q <? tn_created_at r then r :: l else q :: insert_by_created r l'
  end.
Definition list_tenants (t : table Tenant) : list Tenant := foldl (fun acc r => insert_by_created r acc) [] (rows t).

Definition get_default_settings (domain : string) : result string tenant_failure :=
  let? default_relay := get_default_relay in
  Ok (ser_TenantSettings {| ts_relay := Some default_relay; ts_email_from := Some ("noreply@" +:+ domain) |}).

(** The label before the last, its first letter in upper case. *)
Definition generate_tenant_name (domain : string) : string :=
  let parts := split "." domain in
  if (2 <=? length parts)%nat then
    match chars (default "" (parts !! (length parts - 2)%nat)) with
    | [] => domain
    | f :: cs => char_to_uppercase f +:+ concat_str cs
    end
  else domain.

Definition tn_touch (now : Z) (r : Tenant) : Tenant :=
  {| tn_id := tn_id r; tn_domain := tn_domain r; tn_name := tn_name r; tn_settings := tn_settings r;
     tn_created_at := tn_created_at r; tn_updated_at := now |}.

(** INSERT .. ON CONFLICT (domain) DO UPDATE .. RETURNING *)
Definition get_or_create_tenant (now : Z) (domain : string) (t : table Tenant)
  : table Tenant * result Tenant tenant_failure :=
  match map_err TenantErr (validate_domain domain), get_default_settings domain with
  | Err e, _ => (t, Err e)
  | Ok _, Err e => (t, Err e)
  | Ok _, Ok settings =>
      match find_first (fun r => bool_decide (tn_domain r = domain)) (rows t) with
      | Some r => (with_rows (update_where (fun r => bool_decide (tn_domain r = domain)) (tn_touch now)) t,
                   Ok (tn_touch now r))
      | None => let '(t', r) := insert_row (tenant_row now domain (generate_tenant_name domain) (Some settings)) t in
                (t', Ok r)
      end
  end.

Definition ensure_customer_tenant (now : Z) (t : table Tenant) : table Tenant * result (option Tenant) tenant_failure :=
  match customer_tenant_domain with
  | Some domain => let '(t', r) := get_or_create_tenant now domain t in
                   (t', let? tenant := r in Ok (Some tenant))
  | None => (t, Ok None)
  end.

(** ** The extractor *)
Inductive rejection : Type :=
| BadRequest (msg : string)
| ServerError (msg : string)
| RequestPanic (msg : string).

Definition tenant_rejection (domain : string) (e : tenant_failure) : rejection :=
  match e with
  | TenantErr (InvalidDomain _) | TenantErr (ValidationFailed _) => BadRequest ("Invalid domain: " +:+ domain)
  | TenantErr (TenantDatabaseError _) => ServerError "Failed to provision tenant"
  | TenantPanic msg => RequestPanic msg
  end.

Definition from_request_parts (now : Z) (p : request_parts) (s : tenant_state)
  : tenant_state * result Tenant rejection :=
  match request_domain p with
  | None => (s, Err (BadRequest "Missing Host header"))
  | Some domain =>
      if negb (domain_is_allowed domain) then (s, Err (BadRequest ("Invalid domain: " +:+ domain)))
      else
        match st_tenant_cache s !! domain with
        | Some tenant => (s, Ok tenant)
        | None =>
            match get_or_create_tenant now domain (st_tenants s) with
            | (t, Ok tenant) => ({| st_tenants := t; st_tenant_cache := <[domain := tenant]> (st_tenant_cache s) |}, Ok tenant)
            | (t, Err e) => ({| st_tenants := t; st_tenant_cache := st_tenant_cache s |}, Err (tenant_rejection domain e))
            end
        end
  end.

(** The task of main.rs that loads every tenant into the cache. *)
Definition preload (s : tenant_state) : tenant_state :=
  {| st_tenants := st_tenants s;
     st_tenant_cache := foldl (fun m r => <[tn_domain r := r]> m) (st_tenant_cache s) (rows (st_tenants s)) |}.

(** Requests, administration and evictions. *)
Inductive tenant_step : tenant_state -> tenant_state -> Prop :=
| tenant_request now p s : tenant_step s (fst (from_request_parts now p s))
| tenant_create now domain name settings s :
    tenant_step s {| st_tenants := fst (create_tenant now domain name settings (st_tenants s));
                     st_tenant_cache := st_tenant_cache s |}
| tenant_ensure now s :
    tenant_step s {| st_tenants := fst (ensure_customer_tenant now (st_tenants s)); st_tenant_cache := st_tenant_cache s |}
| tenant_preload s : tenant_step s (preload s)
| tenant_evict domain s :
    tenant_step s {| st_tenants := st_tenants s; st_tenant_cache := delete domain (st_tenant_cache s) |}.

(** *** One tenant per domain *)
Definition tenant_ids (t : table Tenant) : list (Z * string) := map (fun r => (tn_id r, tn_domain r)) (rows t).

(** Ids and domains are unique, and a cached tenant is a row of its domain. *)
Record tenants_wf (s : tenant_state) : Prop := {
  wf_ids : ids_fresh tn_id (st_tenants s);
  wf_domains : NoDup (map tn_domain (rows (st_tenants s)));
  wf_cache : forall domain r, st_tenant_cache s !! domain = Some r ->
    tn_domain r = domain /\ (tn_id r, domain) ∈ tenant_ids (st_tenants s);
}.

Definition table_wf (t : table Tenant) : Prop := ids_fresh tn_id t /\ NoDup (map tn_domain (rows t)).

Lemma elem_ids r t : r ∈ rows t -> (tn_id r, tn_domain r) ∈ tenant_ids t.
Proof. intros Hr. apply list_elem_of_fmap. eauto. Qed.

Lemma fresh_domain domain (l : list Tenant) :
  (forall r, r ∈ l -> bool_decide (tn_domain r = domain) = false) -> domain ∉ map tn_domain l.
Proof.
  rewrite list_elem_of_fmap. intros H (r & -> & Hr). specialize (H r Hr). by apply bool_decide_eq_false in H.
Qed.

Lemma insert_tenant_wf now domain name settings t :
  table_wf t -> domain ∉ map tn_domain (rows t) ->
  let t' := fst (insert_row (tenant_row now domain name settings) t) in
  table_wf t' /\ tenant_ids t ⊆ tenant_ids t' /\ (next_id t, domain) ∈ tenant_ids t'.
Proof.
  intros [Hids Hdom] Hnew. split; [split|split].
  - by apply insert_row_fresh.
  - simpl. rewrite map_app. apply NoDup_app. split; [done|]. split; [|apply NoDup_singleton].
    by intros x Hx ->%list_elem_of_singleton.
  - unfold tenant_ids. simpl. rewrite map_app. set_solver.
  - unfold tenant_ids. simpl. rewrite map_app. simpl. set_solver.
Qed.

Lemma touch_tenant_wf now p t :
  table_wf t -> table_wf (with_rows (update_where p (tn_touch now)) t) /\
  tenant_ids (with_rows (update_where p (tn_touch now)) t) = tenant_ids t.
Proof.
  intros [Hids Hdom]. split; [split; [by apply update_where_fresh|]|].
  - simpl. unfold update_where. rewrite map_map. erewrite map_ext; [exact Hdom|]. intros r. by destruct (p r).
  - unfold tenant_ids, update_where. simpl. rewrite map_map. apply map_ext. intros r. by destruct (p r).
Qed.

(** get_or_create_tenant gives the one row of the domain. *)
Lemma get_or_create_wf now domain t :
  table_wf t ->
  let '(t', r) := get_or_create_tenant now domain t in
  table_wf t' /\ tenant_ids t ⊆ tenant_ids t' /\
  match r with Ok tenant => tn_domain tenant = domain /\ (tn_id tenant, domain) ∈ tenant_ids t' | Err _ => True end.
Proof.
  intros Hwf. unfold get_or_create_tenant.
  destruct (map_err TenantErr (validate_domain domain)); [|done].
  destruct (get_default_settings domain) as [settings|]; [|done].
  destruct (find_first _ _) as [r|] eqn:E.
  - apply find_first_Some in E as [Hr E%bool_decide_eq_true].
    destruct (touch_tenant_wf now (fun r => bool_decide (tn_domain r = domain)) t Hwf) as [Hwf' Hids].
    split; [done|]. rewrite Hids. split; [done|]. simpl. subst domain. split; [done|]. by apply elem_ids.
  - rewrite find_first_None in E. apply fresh_domain in E.
    destruct (insert_tenant_wf now domain (generate_tenant_name domain) (Some settings) t Hwf E) as (? & ? & ?).
    done.
Qed.

Lemma create_tenant_wf now domain name settings t :
  table_wf t -> table_wf (fst (create_tenant now domain name settings t)) /\
                tenant_ids t ⊆ tenant_ids (fst (create_tenant now domain name settings t)).
Proof.
  intros Hwf. unfold create_tenant. destruct (existsb _ _) eqn:E; [done|].
  assert (Hnew : domain ∉ map tn_domain (rows t)).
  { apply fresh_domain. intros r Hr. apply not_true_iff_false. intros Hb.
    apply not_true_iff_false in E. apply E, existsb_elem. eauto. }
  destruct (insert_tenant_wf now domain name settings t Hwf Hnew) as (? & ? & _). done.
Qed.

Lemma ensure_wf now t :
  table_wf t -> table_wf (fst (ensure_customer_tenant now t)) /\ tenant_ids t ⊆ tenant_ids (fst (ensure_customer_tenant now t)).
Proof.
  intros Hwf. unfold ensure_customer_tenant. destruct customer_tenant_domain as [domain|]; [|done].
  pose proof (get_or_create_wf now domain t Hwf) as H. destruct (get_or_create_tenant now domain t) as [t' r].
  by destruct H as (? & ? & _).
Qed.

Lemma tenants_wf_mono t s :
  tenants_wf s -> table_wf t -> tenant_ids (st_tenants s) ⊆ tenant_ids t ->
  tenants_wf {| st_tenants := t; st_tenant_cache := st_tenant_cache s |}.
Proof.
  intros [_ _ Hc] [? ?] Hsub. split; [done..|]. simpl. intros domain r Hl. destruct (Hc domain r Hl). split; [done|]. by apply Hsub.
Qed.

Lemma preload_cache (l : list Tenant) (m : gmap string Tenant) t :
  (forall domain r, m !! domain = Some r -> tn_domain r = domain /\ (tn_id r, domain) ∈ tenant_ids t) ->
  (forall r, r ∈ l -> r ∈ rows t) ->
  forall domain r, foldl (fun m r => <[tn_domain r := r]> m) m l !! domain = Some r ->
    tn_domain r = domain /\ (tn_id r, domain) ∈ tenant_ids t.
Proof.
  revert m. induction l as [|q l IH]; intros m Hm Hl; simpl; [done|]. apply IH; [|intros; apply Hl; by constructor].
  intros domain r. destruct (decide (tn_domain q = domain)) as [<-|Hne].
  - rewrite lookup_insert_eq. intros [= <-]. split; [done|]. apply elem_ids, Hl. constructor.
  - rewrite lookup_insert_ne by done. apply Hm.
Qed.

(** What a request resolves to, and that nothing is forgotten. *)
Lemma from_request_wf now p s :
  tenants_wf s ->
  let '(s', r) := from_request_parts now p s in
  tenants_wf s' /\ tenant_ids (st_tenants s) ⊆ tenant_ids (st_tenants s') /\
  match r with
  | Ok tenant => exists domain, request_domain p = Some domain /\ domain_is_allowed domain = true /\ tn_domain tenant = domain /\
                   (tn_id tenant, domain) ∈ tenant_ids (st_tenants s')
  | Err _ => True
  end.
Proof.
  intros Hwf. unfold from_request_parts. destruct (request_domain p) as [domain|]; [|done].
  destruct (domain_is_allowed domain) eqn:Ea; simpl; [|done].
  destruct (st_tenant_cache s !! domain) as [r|] eqn:Ec.
  - split; [done|]. split; [done|]. exists domain. split; [done|]. split; [done|]. by apply (wf_cache s Hwf).
  - pose proof (get_or_create_wf now domain (st_tenants s)) as H.
    destruct (get_or_create_tenant now domain (st_tenants s)) as [t [r|e]];
      destruct H as (Ht & Hsub & Hr); try (split; [apply Hwf | apply Hwf]).
    + destruct Hr as [Hdom Hin]. split; [|split; [done|by exists domain]].
      destruct (tenants_wf_mono t s Hwf Ht Hsub) as [? ? Hc]. split; [done..|]. simpl.
      intros d q. destruct (decide (d = domain)) as [->|Hne].
      * rewrite lookup_insert_eq. by intros [= <-].
      * rewrite lookup_insert_ne by done. apply Hc.
    + split; [by apply tenants_wf_mono | done].
Qed.

Lemma tenant_step_wf s s' :
  tenant_step s s' -> tenants_wf s -> tenants_wf s' /\ tenant_ids (st_tenants s) ⊆ tenant_ids (st_tenants s').
Proof.
  destruct 1 as [now p s | now domain name settings s | now s | s | domain s]; intros Hwf.
  - pose proof (from_request_wf now p s Hwf) as H. destruct (from_request_parts now p s) as [s' r].
    by destruct H as (? & ? & _).
  - destruct (create_tenant_wf now domain name settings (st_tenants s)) as [? ?]; [split; apply Hwf|].
    split; [by apply tenants_wf_mono | done].
  - destruct (ensure_wf now (st_tenants s)) as [? ?]; [split; apply Hwf|]. split; [by apply tenants_wf_mono | done].
  - split; [|done]. destruct Hwf as [? ? Hc]. split; [done..|]. simpl. by apply preload_cache.
  - split; [|done]. destruct Hwf as [? ? Hc]. split; [done..|]. simpl. intros d r Hl.
    apply lookup_delete_Some in Hl as [_ Hl]. by apply Hc.
Qed.

Lemma tenant_steps_wf s s' :
  steps tenant_step s s' -> tenants_wf s -> tenants_wf s' /\ tenant_ids (st_tenants s) ⊆ tenant_ids (st_tenants s').
Proof.
  induction 1 as [|s1 s2 s3 Hs _ IH]; [done|]. intros Hwf. destruct (tenant_step_wf _ _ Hs Hwf) as [Hwf2 Hsub].
  destruct (IH Hwf2). split; [done|]. by etrans.
Qed.

(** In a table with unique ids and domains, a pair is fixed by either. *)
Lemma tenant_ids_unique t i d i' d' :
  table_wf t -> (i, d) ∈ tenant_ids t -> (i', d') ∈ tenant_ids t -> (i = i' <-> d = d').
Proof.
  intros [[Hids _] Hdom] [k Hk]%list_elem_of_lookup [k' Hk']%list_elem_of_lookup.
  unfold tenant_ids in *. rewrite list_lookup_fmap in Hk, Hk'.
  destruct (rows t !! k) as [r|] eqn:Er, (rows t !! k') as [r'|] eqn:Er'; try done.
  injection Hk as <- <-. injection Hk' as <- <-.
  split; intros E; (assert (k = k') as ->; [|congruence]).
  - apply (NoDup_lookup _ _ _ (tn_id r) Hids); rewrite list_lookup_fmap; [by rewrite Er | by rewrite Er', E].
  - apply (NoDup_lookup _ _ _ (tn_domain r) Hdom); rewrite list_lookup_fmap; [by rewrite Er | by rewrite Er', E].
Qed.

(** [C18] A domain is one tenant: two requests, with whatever requests,
    administration, preloading and evictions in between, belong to the same
    tenant if and only if their hosts name the same domain, whether they are
    answered from the cache or the database, and whether the tenant existed or
    was created. *)
Theorem tenant_per_domain s now1 p1 s1 t1 s2 now2 p2 s3 t2 :
  tenants_wf s -> from_request_parts now1 p1 s = (s1, Ok t1) -> steps tenant_step s1 s2 ->
  from_request_parts now2 p2 s2 = (s3, Ok t2) ->
  (tn_id t1 = tn_id t2 <-> request_domain p1 = request_domain p2).
Proof.
  intros Hwf H1 Hsteps H2.
  pose proof (from_request_wf now1 p1 s Hwf) as F1. rewrite H1 in F1. destruct F1 as (Hwf1 & _ & d1 & -> & _ & _ & Hin1).
  destruct (tenant_steps_wf _ _ Hsteps Hwf1) as [Hwf2 Hsub].
  pose proof (from_request_wf now2 p2 s2 Hwf2) as F2. rewrite H2 in F2. destruct F2 as (Hwf3 & Hsub3 & d2 & -> & _ & _ & Hin2).
  rewrite (tenant_ids_unique (st_tenants s3) (tn_id t1) d1 (tn_id t2) d2); [split; congruence| |by apply Hsub3, Hsub|done].
  split; apply Hwf3.
Qed.

(** The allowlist holds for every request: once ALLOWED_TENANT_DOMAINS is
    set, a host that is not in it gets no tenant, not even one that is cached or
    stored from before. *)
Theorem allowlist_is_enforced now p s s' t allowed :
  env_allowed_domains env = Some allowed -> from_request_parts now p s = (s', Ok t) ->
  exists domain, request_domain p = Some domain /\ domain ∈ map trim (split "," allowed).
Proof.
  intros Henv. unfold from_request_parts. destruct (request_domain p) as [domain|]; [|done].
  destruct (domain_is_allowed domain) eqn:Ea; simpl; [|done]. intros _. exists domain. split; [done|].
  unfold domain_is_allowed in Ea. rewrite Henv in Ea. apply existsb_elem in Ea as (d & Hd & E%bool_decide_eq_true).
  apply list_elem_of_fmap. eauto.
Qed.

(** Customer accounts are only reached through their own routes: a request
    that passes the guard and belongs to the customer tenant has one of the six
    customer paths, with or without the /api prefix; requests of other tenants are
    never stopped by the guard. *)
Theorem customer_tenant_confined now p s s' t :
  tenants_wf s -> from_request_parts now p s = (s', Ok t) ->
  if is_customer_tenant t then
    customer_tenant_guard p None Some = Some p ->
    default (rp_path p) (strip_prefix "/api" (rp_path p)) ∈ customer_routes
  else customer_tenant_guard p None Some = Some p.
Proof.
  intros Hwf H. pose proof (from_request_wf now p s Hwf) as F. rewrite H in F.
  destruct F as (_ & _ & domain & Hd & _ & Ht & _).
  unfold is_customer_tenant, customer_tenant_guard. rewrite Hd, Ht.
  destruct customer_tenant_domain as [customer|]; [|by rewrite bool_decide_false].
  destruct (decide (domain = customer)) as [->|Hne].
  - rewrite !bool_decide_true by done. simpl. unfold is_customer_route. by case_bool_decide.
  - rewrite !bool_decide_false by congruence. done.
Qed.

(** A tenant made for a new domain sends mail and connects to relays as the
    defaults say: from noreply at the domain, and through the first relay of
    BUNKER_RELAYS; what was stored reads back. *)
Theorem provisioned_tenant_defaults `{!TenantSerdeLaws} now domain t t' tenant relay :
  find_first (fun r => bool_decide (tn_domain r = domain)) (rows t) = None ->
  get_default_relay = Ok relay -> get_or_create_tenant now domain t = (t', Ok tenant) ->
  relay_url tenant = Ok relay /\ email_from tenant = "noreply@" +:+ domain.
Proof.
  intros Hnew Hrelay. unfold get_or_create_tenant, get_default_settings. rewrite Hnew, Hrelay. simpl.
  destruct (validate_domain domain); [|done]. simpl. intros [= _ <-].
  unfold relay_url, email_from, get_settings. simpl. by rewrite settings_round_trip.
Qed.
End tenant.

(** ** Witnesses *)

(** Settings as the bits of their code number. *)
Fixpoint bits_of (p : positive) : string :=
  match p with xH => "" | xO q => String "0" (bits_of q) | xI q => String "1" (bits_of q) end.
Fixpoint of_bits (s : string) : positive :=
  match s with
  | EmptyString => xH
  | String c s' => if Ascii.eqb c "0" then xO (of_bits s') else xI (of_bits s')
  end.
Lemma of_bits_of p : of_bits (bits_of p) = p.
Proof. induction p as [p IH|p IH|]; simpl; by rewrite ?IH. Qed.

#[export] Instance toy_tenant_serde : TenantSerde := {
  de_TenantSettings s := match decode (A := option string * option string) (of_bits s) with
    | Some (relay, from) => Ok {| ts_relay := relay; ts_email_from := from |}
    | None => Err "invalid settings" end;
  ser_TenantSettings s := bits_of (encode (ts_relay s, ts_email_from s));
}.
#[export] Instance toy_tenant_serde_laws : TenantSerdeLaws.
Proof. split. intros [relay from]. simpl. by rewrite of_bits_of, decode_encode. Qed.

Definition toy_env : tenant_env := {|
  env_customer_domain := Some "orders.example "; env_allowed_domains := Some "a.example, b.example";
  env_bunker_relays := Some " , wss://relay.example" |}.
Definition request_to (host path : string) : request_parts := {| rp_host := Some host; rp_uri_host := None; rp_path := path |}.
Definition no_tenants : tenant_state := {| st_tenants := empty_table; st_tenant_cache := ∅ |}.

Lemma no_tenants_wf : tenants_wf no_tenants.
Proof.
  split; [split; constructor | constructor |]. intros domain r Hl. discriminate Hl.
Qed.

Lemma tenant_per_domain_witness :
  exists s1 t1 s3 t2, from_request_parts toy_env 1 (request_to "a.example:443" "/") no_tenants = (s1, Ok t1) /\
    from_request_parts toy_env 2 (request_to "a.example" "/x") {| st_tenants := st_tenants s1; st_tenant_cache := delete "a.example" (st_tenant_cache s1) |} = (s3, Ok t2) /\
    (tn_id t1 = tn_id t2 <-> request_domain (request_to "a.example:443" "/") = request_domain (request_to "a.example" "/x")).
Proof.
  destruct (run_ok (from_request_parts toy_env 1 (request_to "a.example:443" "/") no_tenants)) as (s1 & t1 & E1);
    [vm_compute; reflexivity|].
  destruct (run_ok (from_request_parts toy_env 2 (request_to "a.example" "/x")
    {| st_tenants := st_tenants s1; st_tenant_cache := delete "a.example" (st_tenant_cache s1) |})) as (s3 & t2 & E2).
  { pose proof E1 as E. vm_compute in E. injection E as <- _. vm_compute. reflexivity. }
  exists s1, t1, s3, t2. split; [exact E1|]. split; [exact E2|].
  exact (tenant_per_domain toy_env no_tenants 1 _ s1 t1 _ 2 _ s3 t2 no_tenants_wf E1
    (steps_one _ _ _ (tenant_evict toy_env "a.example" s1)) E2).
Defined.

Lemma allowlist_is_enforced_witness :
  exists s1 t1, from_request_parts toy_env 1 (request_to "b.example" "/") no_tenants = (s1, Ok t1) /\
    exists domain, request_domain (request_to "b.example" "/") = Some domain /\
      domain ∈ map trim (split "," "a.example, b.example").
Proof.
  destruct (run_ok (from_request_parts toy_env 1 (request_to "b.example" "/") no_tenants)) as (s1 & t1 & E1);
    [vm_compute; reflexivity|].
  exists s1, t1. split; [exact E1|]. apply (allowlist_is_enforced toy_env 1 _ no_tenants s1 t1); [reflexivity | exact E1].
Defined.

Definition open_env : tenant_env := {|
  env_customer_domain := Some "orders.example "; env_allowed_domains := None;
  env_bunker_relays := Some "wss://relay.example" |}.

Lemma customer_tenant_confined_witness :
  customer_tenant_guard open_env (request_to "orders.example" "/api/auth/login") None Some = None /\
  (customer_tenant_guard open_env (request_to "orders.example:443" "/api/nostr") None Some =
     Some (request_to "orders.example:443" "/api/nostr") -> "/nostr" ∈ customer_routes).
Proof.
  split; [reflexivity|].
  destruct (run_ok (from_request_parts open_env 1 (request_to "orders.example:443" "/api/nostr") no_tenants)) as (s1 & t1 & E1);
    [vm_compute; reflexivity|].
  pose proof (customer_tenant_confined open_env 1 _ no_tenants s1 t1 no_tenants_wf E1) as H.
  replace (is_customer_tenant open_env t1) with true in H; [exact H|].
  vm_compute in E1. injection E1 as _ <-. reflexivity.
Defined.

Lemma provisioned_tenant_defaults_witness :
  exists t' tenant, get_or_create_tenant toy_env 1 "a.example" empty_table = (t', Ok tenant) /\
    relay_url toy_env tenant = Ok "wss://relay.example" /\ email_from tenant = "noreply@a.example".
Proof.
  destruct (run_ok (get_or_create_tenant toy_env 1 "a.example" empty_table)) as (t' & tenant & E);
    [vm_compute; reflexivity|].
  exists t', tenant. split; [exact E|].
  apply (provisioned_tenant_defaults toy_env 1 "a.example" empty_table t' tenant "wss://relay.example");
    [reflexivity | vm_compute; reflexivity | exact E].
Defined.
