(* ===== verification/Nip98.v ===== *)
(** * Who a request comes from

    api/src/nip98.rs, api/src/api/nip98_extractor.rs, api/src/api/extractors.rs
    and the role checks of api/src/api/http/admin.rs: a request is authenticated by a signed
    Nostr event, by a bearer token or by the session cookie, in the tenant of its
    host.  The time is in whole seconds.  base64, and the parsing and verification
    of events, are parameters. *)
From S2P Require Import Prelude RustStr External Instances Database AuthTypes Ucan RateLimit Tenant.

(** base64 to bytes, [Event::from_json] of bytes, [Event::verify] and
    [Tag::as_slice]. *)
Class HttpEvents `{Nostr} := {
  base64_decode : string -> result string string;
  event_from_json : string -> result Event string;
  event_verify : Event -> bool;
  tag_as_slice : Tag -> list string;
}.

(** ** Requests

    A header has a name in lower case and a value, [None] when it is not text. *)
Record uri : Type := { uri_host : option string; uri_path : string; uri_path_and_query : option string }.
Record http_request : Type := {
  hq_method : string; hq_uri : uri; hq_original_uri : option uri; hq_headers : list (string * option string);
}.
Definition header (name : string) (q : http_request) : option (option string) :=
  snd <$> find_first (fun kv => bool_decide (fst kv = name)) (hq_headers q).
Definition header_text (name : string) (q : http_request) : option string := mjoin (header name q).
Definition parts_of (q : http_request) : request_parts :=
  {| rp_host := header_text "host" q; rp_uri_host := uri_host (hq_uri q); rp_path := uri_path (hq_uri q) |}.

(** ** NIP-98 *)
Definition MAX_EVENT_AGE_SECONDS : Z := 60.
Definition HTTP_AUTH_KIND : Z := 27235.

Inductive Nip98Error : Type :=
| InvalidHeaderFormat
| Base64DecodeError (e : string)
| JsonParseError (e : string)
| InvalidKind (k : Z)
| InvalidSignature
| EventExpired
| UrlMismatch (expected actual : string)
| MethodMismatch (expected actual : string)
| MissingTag (tag : string).

Definition nip98_error_str (e : Nip98Error) : string :=
  match e with
  | InvalidHeaderFormat => "Authorization header must start with 'Nostr '"
  | Base64DecodeError e => "Base64 decode error: " +:+ e
  | JsonParseError e => "JSON parse error: " +:+ e
  | InvalidKind k => "Invalid event kind: " +:+ print_Z k +:+ " (expected 27235)"
  | InvalidSignature => "Invalid Schnorr signature"
  | EventExpired => "Event expired (created_at must be within " +:+ print_Z MAX_EVENT_AGE_SECONDS +:+ " seconds)"
  | UrlMismatch expected actual => "URL mismatch: expected '" +:+ expected +:+ "', got '" +:+ actual +:+ "'"
  | MethodMismatch expected actual => "Method mismatch: expected '" +:+ expected +:+ "', got '" +:+ actual +:+ "'"
  | MissingTag tag => "Missing required tag: '" +:+ tag +:+ "'"
  end.

Definition REPLAY_TTL_SECONDS : Z := 120.
Definition REPLAY_KEY_PREFIX : string := "nip98_replay".
Definition SUPPORT_ADMINS_KEY : string := "support_admins".

(** A rejection is a status with a message; a panic ends the request. *)
Inductive AuthRejection : Type :=
| Rejected (status : Z) (message : string)
| AuthPanic (message : string).
Definition unauthorized : AuthRejection := Rejected 401 "unauthorized".
Definition service_unavailable : AuthRejection := Rejected 503 "service temporarily unavailable".

Record UcanAuth : Type := { ua_pubkey : string; ua_admin_role : option string }.

(** SERVER_NSEC, ALLOWED_PUBKEYS, the tenant variables and the Redis client. *)
Record auth_env : Type := {
  ae_server_nsec : option string; ae_allowed_pubkeys : option string;
  ae_tenant : tenant_env; ae_redis : option redis_link;
}.

Section auth.
Context `{HN : Nostr, HE : !Encodings, HV : !HttpEvents, HU : UcanLib, HUni : Unicode, HT : TenantSerde}.

Definition header_event (auth_header : string) : result Event Nip98Error :=
  let? rest := ok_or (strip_prefix "Nostr " auth_header) InvalidHeaderFormat in
  let? json_bytes := map_err Base64DecodeError (base64_decode (trim rest)) in
  let? json_str := map_err JsonParseError (from_utf8 json_bytes) in
  map_err JsonParseError (event_from_json json_str).

(** The first tag of a name, and its value: the empty string without one. *)
Definition tag_named (name : string) (event : Event) : option string :=
  t ← find_first (fun t => bool_decide (head (tag_as_slice t) = Some name)) (ev_tags event);
  Some (default "" (tag_as_slice t !! 1%nat)).

Definition event_fresh (now : Z) (event : Event) : bool :=
  abs_i64 (wrap_i64 (now - wrap_i64 (ev_created_at event))) <=? MAX_EVENT_AGE_SECONDS.

Definition extract_and_validate (now : Z) (auth_header expected_url expected_method : string)
  : result PublicKey Nip98Error :=
  let? event := header_event auth_header in
  if negb (ev_kind event =? HTTP_AUTH_KIND) then Err (InvalidKind (ev_kind event))
  else if negb (event_verify event) then Err InvalidSignature
  else if negb (event_fresh now event) then Err EventExpired
  else
    let? actual_url := ok_or (tag_named "u" event) (MissingTag "u") in
    if negb (bool_decide (actual_url = expected_url)) then Err (UrlMismatch expected_url actual_url)
    else
      let? actual_method := ok_or (tag_named "method" event) (MissingTag "method") in
      if negb (eq_ignore_ascii_case actual_method expected_method)
      then Err (MethodMismatch expected_method actual_method)
      else Ok (ev_pubkey event).

(** ** The service-auth path *)
Definition build_expected_url (q : http_request) : option string :=
  let original_uri := default (hq_uri q) (hq_original_uri q) in
  let path_and_query := default (uri_path original_uri) (uri_path_and_query original_uri) in
  host ← mjoin (match header "x-forwarded-host" q with Some v => Some v | None => header "host" q end);
  let proto := default (if contains ":443" host || negb (contains_char ":" host) then "https" else "http")
                 (header_text "x-forwarded-proto" q) in
  Some (proto +:+ "://" +:+ host +:+ path_and_query).

Definition parse_event_id (auth_header : string) : result string string :=
  let? rest := ok_or (strip_prefix "Nostr " auth_header) "missing Nostr prefix" in
  let? json_bytes := map_err (fun e => "base64: " +:+ e) (base64_decode (trim rest)) in
  let? event := map_err (fun e => "json: " +:+ e) (event_from_json json_bytes) in
  Ok (ev_id event).

Definition replay_key (event_id : string) : string := REPLAY_KEY_PREFIX +:+ ":" +:+ event_id.

(** Refuses when Redis is missing or does not answer. *)
Definition check_replay (now : Z) (redis : option redis_link) (event_id : string) (s : redis_store)
  : redis_store * result unit AuthRejection :=
  match redis with
  | None => (s, Err service_unavailable)
  | Some l =>
      if rl_up l then
        match redis_set_nx_ex now (link_key l (replay_key event_id)) "1" REPLAY_TTL_SECONDS s with
        | (s', true) => (s', Ok tt)
        | (s', false) => (s', Err unauthorized)
        end
      else (s, Err service_unavailable)
  end.

(** ** Roles *)
Definition is_full_admin (env : auth_env) (auth : UcanAuth) : bool :=
  bool_decide (ua_admin_role auth = Some "full")
  || match ae_allowed_pubkeys env with
     | Some allowed_pubkeys =>
         negb (bool_decide (allowed_pubkeys = ""))
         && bool_decide (ua_pubkey auth ∈ map trim (split "," allowed_pubkeys))
     | None => false
     end.

Definition is_support_admin (env : auth_env) (now : Z) (auth : UcanAuth) (s : redis_store) : bool :=
  is_full_admin env auth
  || bool_decide (ua_admin_role auth = Some "support")
  || match ae_redis env with
     | Some l => rl_up l && redis_sismember now (link_key l SUPPORT_ADMINS_KEY) (ua_pubkey auth) s
     | None => false
     end.

Definition admin_role_for (env : auth_env) (now : Z) (auth : UcanAuth) (s : redis_store) : option string :=
  if is_full_admin env auth then Some "full"
  else if is_support_admin env now auth s then Some "support"
  else None.

Definition authenticate_nip98 (env : auth_env) (now : Z) (q : http_request) (auth_header : string)
  : SE redis_store AuthRejection UcanAuth :=
  let! expected_url := se_lift (ok_or (build_expected_url q) unauthorized) in
  let! pubkey := se_lift (map_err (fun _ => unauthorized)
                            (extract_and_validate now auth_header expected_url (hq_method q))) in
  let! event_id := se_lift (map_err (fun _ => unauthorized) (parse_event_id auth_header)) in
  let! _ := check_replay now (ae_redis env) event_id in
  let probe := {| ua_pubkey := pk_to_hex pubkey; ua_admin_role := None |} in
  let! admin_role := se_gets (admin_role_for env now probe) in
  se_ret {| ua_pubkey := pk_to_hex pubkey; ua_admin_role := admin_role |}.

Definition try_authenticate_nip98 (env : auth_env) (now : Z) (q : http_request) (s : redis_store)
  : redis_store * option (result UcanAuth AuthRejection) :=
  match header_text "authorization" q with
  | Some h =>
      if starts_with "Nostr " h then
        let '(s', r) := authenticate_nip98 env now q h s in (s', Some r)
      else (s, None)
  | None => (s, None)
  end.

(** ** The extractor of a handler *)
Definition extract_admin_role (nsec : option string) (ucan : Ucan) : option string :=
  if is_server_signed nsec ucan then fact as_str "admin_role" (ucan_facts ucan) else None.

(** The first cookie of the session's name decides. *)
Definition session_cookie (q : http_request) : option string :=
  cookies ← header_text "cookie" q;
  find_map (fun c => strip_prefix "keycast_session=" (trim c)) (split ";" cookies).

Definition bearer_header (q : http_request) : option string :=
  h ← header_text "authorization" q; if starts_with "Bearer " h then Some h else None.

Definition auth_of_token (env : auth_env) (now : Z) (what auth_str : string) (tenant_id : Z)
  : result UcanAuth AuthRejection :=
  let? t := map_err (fun e => Rejected 401 ("Invalid UCAN " +:+ what +:+ ": " +:+ e))
              (validate_ucan_token now (ae_server_nsec env) auth_str tenant_id) in
  Ok {| ua_pubkey := vt_user_pubkey t; ua_admin_role := extract_admin_role (ae_server_nsec env) (vt_ucan t) |}.

Definition rejection_response (r : rejection) : AuthRejection :=
  match r with
  | BadRequest msg => Rejected 400 msg
  | ServerError msg => Rejected 500 msg
  | RequestPanic msg => AuthPanic msg
  end.

Record auth_state : Type := { au_tenants : tenant_state; au_redis : redis_store }.

Definition ucan_from_request_parts (env : auth_env) (now : Z) (q : http_request) (s : auth_state)
  : auth_state * result UcanAuth AuthRejection :=
  match try_authenticate_nip98 env now q (au_redis s) with
  | (redis, Some r) => ({| au_tenants := au_tenants s; au_redis := redis |}, r)
  | (redis, None) =>
      let '(tenants, r) := from_request_parts (ae_tenant env) now (parts_of q) (au_tenants s) in
      ({| au_tenants := tenants; au_redis := redis |},
       let? tenant := map_err rejection_response r in
       match bearer_header q, session_cookie q with
       | Some auth_str, _ => auth_of_token env now "token" auth_str (tn_id tenant)
       | None, Some value => auth_of_token env now "cookie" ("Bearer " +:+ value) (tn_id tenant)
       | None, None =>
           Err (Rejected 401 "Missing authentication - expected UCAN Bearer token or keycast_session cookie")
       end)
  end.

(** ** What an accepted envelope is *)
Lemma extract_and_validate_ok now auth_header url method pubkey :
  extract_and_validate now auth_header url method = Ok pubkey ->
  exists event, header_event auth_header = Ok event /\ ev_pubkey event = pubkey /\
    ev_kind event = HTTP_AUTH_KIND /\ event_verify event = true /\ event_fresh now event = true /\
    tag_named "u" event = Some url /\
    exists m, tag_named "method" event = Some m /\ eq_ignore_ascii_case m method = true.
Proof.
  unfold extract_and_validate. intros H. apply rbind_ok in H as (event & He & H).
  destruct (ev_kind event =? HTTP_AUTH_KIND) eqn:Hk; [|done]. simpl in H.
  destruct (event_verify event) eqn:Hv; [|done]. simpl in H.
  destruct (event_fresh now event) eqn:Hf; [|done]. simpl in H.
  apply rbind_ok in H as (u & Hu & H). apply ok_or_ok in Hu. case_bool_decide as Eu; [|done]. simpl in H. subst u.
  apply rbind_ok in H as (m & Hm & H). apply ok_or_ok in Hm.
  destruct (eq_ignore_ascii_case m method) eqn:Em; [|done]. injection H as <-.
  bool_to_prop. eauto 15.
Qed.

Lemma header_event_id auth_header event id :
  header_event auth_header = Ok event -> parse_event_id auth_header = Ok id -> id = ev_id event.
Proof.
  unfold header_event, parse_event_id. intros H1 H2.
  apply rbind_ok in H1 as (r & Hr & H1). apply ok_or_ok in Hr. rewrite Hr in H2. simpl in H2.
  apply rbind_ok in H1 as (b & Hb & H1). apply map_err_ok in Hb. rewrite Hb in H2. simpl in H2.
  apply rbind_ok in H1 as (j & Hj & H1). apply map_err_ok in Hj. apply map_err_ok in H1.
  unfold from_utf8 in Hj. destruct (utf8_valid _); [|done]. injection Hj as ->. rewrite H1 in H2. by injection H2.
Qed.

Lemma check_replay_ok now l id s s' :
  check_replay now (Some l) id s = (s', Ok tt) ->
  live_entry now (link_key l (replay_key id)) s = None /\
  s' = redis_setex now (link_key l (replay_key id)) REPLAY_TTL_SECONDS "1" s.
Proof.
  unfold check_replay, redis_set_nx_ex. destruct (rl_up l); [|done].
  destruct (live_entry _ _ _) eqn:E; intros [= <-]; done.
Qed.

(** The parts of an acceptance: the event of the header, its record and the role. *)
Lemma authenticate_nip98_ok env now q auth_header s s' auth :
  authenticate_nip98 env now q auth_header s = (s', Ok auth) ->
  exists event url l, header_event auth_header = Ok event /\ build_expected_url q = Some url /\
    extract_and_validate now auth_header url (hq_method q) = Ok (ev_pubkey event) /\
    event_fresh now event = true /\ ae_redis env = Some l /\ ua_pubkey auth = pk_to_hex (ev_pubkey event) /\
    live_entry now (link_key l (replay_key (ev_id event))) s = None /\
    s' = redis_setex now (link_key l (replay_key (ev_id event))) REPLAY_TTL_SECONDS "1" s /\
    ua_admin_role auth = admin_role_for env now {| ua_pubkey := ua_pubkey auth; ua_admin_role := None |} s'.
Proof.
  unfold authenticate_nip98, se_bind, se_lift, se_gets, se_ret.
  destruct (build_expected_url q) as [url|]; [|done]. cbn [ok_or map_err].
  destruct (extract_and_validate _ _ _ _) as [pubkey|e] eqn:Hv; [|done]. cbn [map_err].
  destruct (parse_event_id auth_header) as [id|e] eqn:Hid; [|done]. cbn [map_err].
  destruct (check_replay now (ae_redis env) id s) as [s1 [[]|e]] eqn:Hr; [|done]. intros [= <- <-].
  destruct (extract_and_validate_ok _ _ _ _ _ Hv) as (event & He & Hp & _ & _ & Hf & _).
  rewrite (header_event_id _ _ _ He Hid) in *. subst pubkey.
  destruct (ae_redis env) as [l|] eqn:El; [|done]. apply check_replay_ok in Hr as [Hn ->].
  exists event, url, l. repeat split; done.
Qed.

(** ** Replays *)

(** Between two requests anything may happen to the store but to the records of
    seen envelopes, which only the check itself writes; time goes on. *)
Inductive replay_step (l : redis_link) (env : auth_env) : Z * redis_store -> Z * redis_store -> Prop :=
| replay_request now s now' q auth_header :
    now <= now' -> replay_step l env (now, s) (now', fst (authenticate_nip98 env now' q auth_header s))
| replay_other now s now' s' :
    now <= now' -> (forall id, s' !! link_key l (replay_key id) = s !! link_key l (replay_key id)) ->
    replay_step l env (now, s) (now', s').

Definition recorded (l : redis_link) (id : string) (expires : Z) (s : redis_store) : Prop :=
  s !! link_key l (replay_key id) = Some {| e_value := RString "1"; e_expires := Some expires |}.

Lemma authenticate_frame l env now q auth_header s id x :
  ae_redis env = Some l -> now < x -> recorded l id x s ->
  recorded l id x (fst (authenticate_nip98 env now q auth_header s)).
Proof.
  intros El Hx Hr. unfold authenticate_nip98, se_bind, se_lift, se_gets, se_ret.
  destruct (build_expected_url q); [|done]. cbn [ok_or map_err].
  destruct (extract_and_validate _ _ _ _); [|done]. cbn [map_err].
  destruct (parse_event_id auth_header) as [id'|]; [|done]. cbn [map_err].
  unfold check_replay. rewrite El. destruct (rl_up l); [|done]. unfold redis_set_nx_ex.
  destruct (live_entry now (link_key l (replay_key id')) s) eqn:E; [done|]. cbn [fst].
  unfold recorded, redis_setex in *. destruct (decide (id' = id)) as [->|Hne].
  - unfold live_entry in E. rewrite Hr in E. unfold entry_live in E. simpl in E.
    destruct (now <? x) eqn:Hlt; [done|]. bool_to_prop. lia.
  - rewrite lookup_insert_ne; [done|]. unfold replay_key. intros Heq%link_key_inj.
    by apply app_str_inj, app_str_inj in Heq.
Qed.

Lemma replay_steps_recorded l env id x a b :
  ae_redis env = Some l -> steps (replay_step l env) a b -> recorded l id x (snd a) ->
  fst b < x -> recorded l id x (snd b).
Proof.
  intros El Hs Hr. revert a b Hs Hr. intros a b Hs Hr.
  refine (steps_invariant _ (fun c => fst c < x -> recorded l id x (snd c)) _ _ _ Hs _); [|done].
  intros c d Hcd Hc Hx. destruct Hcd as [now s now' q h Ht | now s now' s' Ht Hf]; simpl in *.
  - apply authenticate_frame; [done..|]. apply Hc. lia.
  - unfold recorded. rewrite Hf. apply Hc. lia.
Qed.

Lemma wrap_i64_small z : - 2 ^ 63 <= z < 2 ^ 63 -> wrap_i64 z = z.
Proof. intros. unfold wrap_i64. rewrite Z.mod_small; lia. Qed.
Lemma wrap_i64_high z : 2 ^ 63 <= z < 2 ^ 63 + 2 ^ 64 -> wrap_i64 z = z - 2 ^ 64.
Proof.
  intros. unfold wrap_i64. replace (z + 2 ^ 63) with (z - 2 ^ 63 + 1 * 2 ^ 64) by lia.
  rewrite Z.mod_add, Z.mod_small; lia.
Qed.

(** Freshness is the window of sixty seconds on both sides, or the one second
    at which the subtraction and the absolute value both overflow. *)
Lemma event_fresh_window now event :
  60 < now < 2 ^ 62 -> 0 <= ev_created_at event < 2 ^ 64 -> event_fresh now event = true ->
  - 60 <= now - ev_created_at event <= 60 \/ ev_created_at event = now + 2 ^ 63.
Proof.
  intros Hn Hc. unfold event_fresh, abs_i64, MAX_EVENT_AGE_SECONDS. intros H%Z.leb_le.
  assert (ev_created_at event < 2 ^ 63 \/ 2 ^ 63 <= ev_created_at event) as [Hlo|Hhi] by lia.
  - rewrite (wrap_i64_small (ev_created_at event)), (wrap_i64_small (now - _)), wrap_i64_small in H; lia.
  - rewrite (wrap_i64_high (ev_created_at event)) in H by lia.
    assert (now - (ev_created_at event - 2 ^ 64) < 2 ^ 63 \/ 2 ^ 63 <= now - (ev_created_at event - 2 ^ 64))
      as [Hs|Hb] by lia.
    + rewrite (wrap_i64_small (now - _)), wrap_i64_small in H; lia.
    + rewrite (wrap_i64_high (now - _)) in H by lia.
      destruct (decide (ev_created_at event = now + 2 ^ 63)) as [E|E]; [by right|].
      rewrite wrap_i64_small in H; lia.
Qed.

(** An envelope of NIP-98 is accepted once.  When a second request with the
    same envelope is accepted after a first, whatever happened in between, then
    the event was dated sixty seconds ahead of the first request and the second
    comes a hundred and twenty seconds after it: in the second in which the record
    of the first has expired and the event has not. *)
Theorem nip98_accepted_once l env now1 now2 q1 q2 auth_header s1 s1' s2 s2' auth1 auth2 event :
  ae_redis env = Some l -> 60 < now1 -> now2 < 2 ^ 62 ->
  header_event auth_header = Ok event -> 0 <= ev_created_at event < 2 ^ 64 ->
  authenticate_nip98 env now1 q1 auth_header s1 = (s1', Ok auth1) ->
  steps (replay_step l env) (now1, s1') (now2, s2) ->
  authenticate_nip98 env now2 q2 auth_header s2 = (s2', Ok auth2) ->
  ev_created_at event = now1 + 60 /\ now2 = now1 + REPLAY_TTL_SECONDS.
Proof.
  intros El Hn1 Hn2 He Hc H1 Hs H2.
  assert (Ht : now1 <= now2).
  { refine (steps_invariant _ (fun c => now1 <= fst c) _ _ _ Hs _); [|simpl; lia].
    intros c d [? ? ? ? ? ?|? ? ? ? ? ?]; simpl; lia. }
  destruct (authenticate_nip98_ok _ _ _ _ _ _ _ H1) as (e1 & u1 & l1 & He1 & _ & _ & Hf1 & El1 & _ & _ & -> & _).
  destruct (authenticate_nip98_ok _ _ _ _ _ _ _ H2) as (e2 & u2 & l2 & He2 & _ & _ & Hf2 & El2 & _ & Hl2 & _ & _).
  rewrite El in El1, El2. injection El1 as <-. injection El2 as <-.
  rewrite He in He1, He2. injection He1 as <-. injection He2 as <-. unfold REPLAY_TTL_SECONDS in *.
  assert (now1 + 120 <= now2) as Hgap.
  { apply Z.nlt_ge. intros Hlt. apply (replay_steps_recorded _ _ (ev_id event) (now1 + 120) _ _ El) in Hs;
      [|by unfold recorded, redis_setex; cbn [snd]; rewrite lookup_insert_eq|done].
    unfold live_entry in Hl2. rewrite Hs in Hl2. unfold entry_live, null_or_after in Hl2. simpl in Hl2.
    by rewrite (proj2 (Z.ltb_lt _ _) Hlt) in Hl2. }
  apply event_fresh_window in Hf1, Hf2; lia.
Qed.

(** ** The extractor *)
Lemma auth_of_token_ok env now what token tenant_id auth :
  auth_of_token env now what token tenant_id = Ok auth ->
  exists t, validate_ucan_token now (ae_server_nsec env) token tenant_id = Ok t /\ ua_pubkey auth = vt_user_pubkey t /\
    (ua_admin_role auth <> None -> is_server_signed (ae_server_nsec env) (vt_ucan t) = true).
Proof.
  unfold auth_of_token. intros H. apply rbind_ok in H as (t & Ht & H). apply map_err_ok in Ht.
  injection H as <-. exists t. split; [done|]. split; [done|]. simpl. unfold extract_admin_role.
  by destruct (is_server_signed _ _).
Qed.

(** [C28] What an authenticated handler may rely on.  Either the request carries
    an event signed by the key it is authenticated as, made for its URL and
    method within a minute, which no unexpired record had seen; or it carries a
    token that is valid in the tenant of its host, whose audience it is
    authenticated as.  A role taken from a token was put there by the
    server. *)
Theorem authenticated_request_sound env now q s s' auth :
  ucan_from_request_parts env now q s = (s', Ok auth) ->
  (exists auth_header event url, header_text "authorization" q = Some ("Nostr " +:+ auth_header) /\
     header_event ("Nostr " +:+ auth_header) = Ok event /\ ev_kind event = 27235 /\ event_verify event = true /\
     event_fresh now event = true /\ build_expected_url q = Some url /\ tag_named "u" event = Some url /\
     (exists m, tag_named "method" event = Some m /\ eq_ignore_ascii_case m (hq_method q) = true) /\
     ua_pubkey auth = pk_to_hex (ev_pubkey event) /\
     exists l, ae_redis env = Some l /\ live_entry now (link_key l (replay_key (ev_id event))) (au_redis s) = None) \/
  (exists tenant token t, snd (from_request_parts (ae_tenant env) now (parts_of q) (au_tenants s)) = Ok tenant /\
     (header_text "authorization" q = Some token \/ exists v, session_cookie q = Some v /\ token = "Bearer " +:+ v) /\
     validate_ucan_token now (ae_server_nsec env) token (tn_id tenant) = Ok t /\
     ua_pubkey auth = vt_user_pubkey t /\
     (ua_admin_role auth <> None -> is_server_signed (ae_server_nsec env) (vt_ucan t) = true)).
Proof.
  unfold ucan_from_request_parts, try_authenticate_nip98, bearer_header. intros H.
  destruct (header_text "authorization" q) as [h|] eqn:Hh; [destruct (starts_with "Nostr " h) eqn:Hs|].
  - left. apply starts_with_spec in Hs as [rest ->].
    destruct (authenticate_nip98 _ _ _ _ _) as [redis r] eqn:Ha. injection H as <- ->.
    destruct (authenticate_nip98_ok _ _ _ _ _ _ _ Ha) as (e & url & l & He & Hu & Hv & Hf & El & Hpk & Hl & _ & _).
    destruct (extract_and_validate_ok _ _ _ _ _ Hv) as (e' & He' & _ & Hk & Hver & _ & Htag & Hm).
    rewrite He in He'. injection He' as <-. exists rest, e, url. repeat split; eauto.
  - right. destruct (from_request_parts _ _ _ _) as [tenants r]. injection H as <- H.
    apply rbind_ok in H as (tenant & Ht & H). apply map_err_ok in Ht. simpl in H. subst r.
    destruct (starts_with "Bearer " h); [|destruct (session_cookie q) as [v|]; [|done]];
      apply auth_of_token_ok in H as (t & ? & ? & ?); exists tenant; eexists _, t; eauto 10.
  - right. destruct (from_request_parts _ _ _ _) as [tenants r]. injection H as <- H.
    apply rbind_ok in H as (tenant & Ht & H). apply map_err_ok in Ht. simpl in H. subst r.
    destruct (session_cookie q) as [v|]; [|done].
    apply auth_of_token_ok in H as (t & ? & ? & ?); exists tenant; eexists _, t; eauto 10.
Qed.

(** The envelopes fail closed: without an answer from Redis no envelope is
    accepted, and a request that carries one is never authenticated by its cookie
    instead. *)
Theorem nip98_fails_closed env now q s h :
  header_text "authorization" q = Some h -> starts_with "Nostr " h = true ->
  match ae_redis env with Some l => rl_up l = false | None => True end ->
  exists r, ucan_from_request_parts env now q s = (s, Err r) /\ (r = unauthorized \/ r = service_unavailable).
Proof.
  intros Hh Hs Hr. unfold ucan_from_request_parts, try_authenticate_nip98. rewrite Hh, Hs.
  assert (exists r, authenticate_nip98 env now q h (au_redis s) = (au_redis s, Err r) /\
                    (r = unauthorized \/ r = service_unavailable)) as (r & -> & ?); [|destruct s; eauto].
  unfold authenticate_nip98, se_bind, se_lift.
  destruct (build_expected_url q); [|by eauto]. cbn [ok_or map_err].
  destruct (extract_and_validate _ _ _ _); [|by eauto]. cbn [map_err].
  destruct (parse_event_id h); [|by eauto]. cbn [map_err]. unfold check_replay.
  destruct (ae_redis env) as [l|]; [rewrite Hr|]; eauto.
Qed.
End auth.

(** ** Witnesses *)

(** The text of an envelope is base64 of itself: an event of key "Padmin" made
    at a time for a POST to the administration. *)
Definition toy_envelope (created : Z) : @Event toy_nostr := {|
  ev_id := "e1"; ev_pubkey := "Padmin"; ev_created_at := created; ev_kind := 27235;
  ev_tags := [["u"; "https://a.example/api/admin"]; ["method"; "post"]]; ev_content := ""; ev_sig := "sig" |}.
#[export] Instance toy_http_events : HttpEvents := {
  base64_decode s := Ok s;
  event_from_json s := match parse_u64 s with Some t => Ok (toy_envelope t) | None => Err "not an event" end;
  event_verify ev := bool_decide (ev_sig ev = "sig");
  tag_as_slice t := t;
}.

Definition toy_auth_env : auth_env := {|
  ae_server_nsec := Some "server"; ae_allowed_pubkeys := Some "Padmin, Pother"; ae_tenant := toy_env;
  ae_redis := Some toy_link |}.
Definition admin_request (authorization : string) : http_request := {|
  hq_method := "POST"; hq_uri := {| uri_host := None; uri_path := "/admin"; uri_path_and_query := Some "/admin" |};
  hq_original_uri := Some {| uri_host := None; uri_path := "/api/admin"; uri_path_and_query := Some "/api/admin" |};
  hq_headers := [("host", Some "a.example"); ("authorization", Some authorization)] |}.
Definition no_state : auth_state := {| au_tenants := no_tenants; au_redis := ∅ |}.

Lemma nip98_accepted_once_witness :
  exists s1 s2 auth1 auth2,
    authenticate_nip98 toy_auth_env 1000 (admin_request "") "Nostr 1060" ∅ = (s1, Ok auth1) /\
    authenticate_nip98 toy_auth_env 1120 (admin_request "") "Nostr 1060" s1 = (s2, Ok auth2) /\
    ua_admin_role auth1 = Some "full" /\
    ev_created_at (toy_envelope 1060) = 1000 + 60 /\ 1120 = 1000 + REPLAY_TTL_SECONDS.
Proof.
  destruct (run_ok (authenticate_nip98 toy_auth_env 1000 (admin_request "") "Nostr 1060" ∅)) as (s1 & auth1 & E1);
    [vm_compute; reflexivity|].
  destruct (run_ok (authenticate_nip98 toy_auth_env 1120 (admin_request "") "Nostr 1060"
              (fst (authenticate_nip98 toy_auth_env 1000 (admin_request "") "Nostr 1060" ∅)))) as (s2 & auth2 & E2);
    [vm_compute; reflexivity|].
  rewrite E1 in E2. exists s1, s2, auth1, auth2. split; [done|]. split; [done|]. split.
  - assert (snd (authenticate_nip98 toy_auth_env 1000 (admin_request "") "Nostr 1060" ∅) = Ok auth1) as E by by rewrite E1.
    vm_compute in E. by injection E as <-.
  - apply (nip98_accepted_once toy_link toy_auth_env 1000 1120 (admin_request "") (admin_request "") "Nostr 1060" ∅ s1 s1 s2
             auth1 auth2 (toy_envelope 1060)); try done.
    apply steps_one. by constructor.
Defined.

Lemma authenticated_request_sound_witness :
  exists s auth tenant t,
    ucan_from_request_parts toy_auth_env 10 (admin_request "Bearer bunker B") no_state = (s, Ok auth) /\
    validate_ucan_token 10 (Some "server") "Bearer bunker B" (tn_id tenant) = Ok t /\
    ua_pubkey auth = vt_user_pubkey t.
Proof.
  destruct (run_ok (ucan_from_request_parts toy_auth_env 10 (admin_request "Bearer bunker B") no_state)) as (s & auth & E);
    [vm_compute; reflexivity|].
  destruct (authenticated_request_sound _ _ _ _ _ _ E) as [(h & _ & _ & Hh & _)|(tn & token & t & _ & Htok & Ht & Hpk & _)].
  - exfalso. vm_compute in Hh. discriminate.
  - destruct Htok as [Htok|(v & Hv & _)]; [|exfalso; vm_compute in Hv; discriminate].
    assert (token = "Bearer bunker B") as -> by (vm_compute in Htok; by injection Htok as <-).
    exists s, auth, tn, t. done.
Defined.

Lemma nip98_fails_closed_witness :
  exists r, ucan_from_request_parts {| ae_server_nsec := None; ae_allowed_pubkeys := None; ae_tenant := toy_env; ae_redis := None |}
    1000 (admin_request "Nostr 1000") no_state = (no_state, Err r) /\ (r = unauthorized \/ r = service_unavailable).
Proof.
  apply (nip98_fails_closed _ 1000 (admin_request "Nostr 1000") no_state "Nostr 1000"); [reflexivity|reflexivity|exact I].
Defined.
