(* ===== verification/Accounts.v ===== *)
(** * Accounts: registration, sign-in, verification and password reset

    The first half of api/src/api/http/auth.rs.  The state is the token
    endpoint's, the Redis store, the queue of passwords to hash and the mail that
    was sent.  Keys, tokens and salts a handler draws are arguments.  Metrics and
    log lines are not modelled, except those whose arguments can panic: they are
    evaluated, as at the default log level. *)
From S2P Require Import Prelude RustStr External Instances Database Samples Tokens Permissions Policies AuthTypes Ucan HttpRpc OAuthRepo Users OAuth WorkQueue Queues RateLimit Tenant Nip98.

(** ** Errors *)
Inductive AccountError : Type :=
| AcE_TooManyRequests
| AcE_Database (e : sqlx_error)
| AcE_PasswordHash (e : string)
| AcE_InvalidCredentials
| AcE_EmailAlreadyExists
| AcE_EmailNotVerified
| AcE_UserNotFound
| AcE_Encryption (e : string)
| AcE_Internal (e : string)
| AcE_MissingToken
| AcE_InvalidToken
| AcE_TokenExpired
| AcE_EmailSendFailed (e : string)
| AcE_DuplicateKey
| AcE_BadRequest (msg : string)
| AcE_Forbidden (msg : string)
| AcE_RegistrationExpired
| AcE_ServiceUnavailable (message : string) (retry_after : option Z).

(** The status of the response, its message and its Retry-After header. *)
Definition unavailable_message : string := "Service temporarily unavailable. Please try again in a few minutes.".
Definition account_error_response (e : AccountError) : Z * string * option Z :=
  match e with
  | AcE_TooManyRequests => (429, "Too many requests. Please try again later.", None)
  | AcE_Database _ | AcE_PasswordHash _ | AcE_Encryption _ | AcE_Internal _ => (503, unavailable_message, None)
  | AcE_InvalidCredentials => (401, "Invalid email or password. Please check your credentials and try again.", None)
  | AcE_EmailAlreadyExists => (409, "This email is already registered. Please log in instead.", None)
  | AcE_EmailNotVerified => (403, "Please verify your email address before continuing. Check your inbox for the verification link.", None)
  | AcE_UserNotFound => (404, "No account found with this email. Please register first.", None)
  | AcE_MissingToken => (401, "Authentication required. Please provide a valid token.", None)
  | AcE_InvalidToken => (401, "Invalid or expired token. Please log in again.", None)
  | AcE_EmailSendFailed _ => (503, "Unable to send email. Please try again in a few minutes.", None)
  | AcE_DuplicateKey => (409, "This Nostr key is already registered. Please log in instead or use a different key.", None)
  | AcE_TokenExpired => (401, "Verification code or token has expired. Please request a new one.", None)
  | AcE_BadRequest msg => (400, msg, None)
  | AcE_Forbidden msg => (403, msg, None)
  | AcE_RegistrationExpired => (410, "Registration expired. Please register again.", None)
  | AcE_ServiceUnavailable message retry_after => (503, message, retry_after)
  end.

Definition account_error_of_repository (e : RepositoryError) : AccountError :=
  match e with
  | RE_Duplicate => AcE_EmailAlreadyExists
  | RE_NotFound _ => AcE_UserNotFound
  | _ => AcE_Internal (repository_error_str e)
  end.

(** A handler returns an error or panics. *)
Inductive account_abort : Type := Failed (e : AccountError) | AccountPanic.

(** ** Requests and responses *)
Record RegisterRequest : Type := {
  rr_email : string; rr_password : string; rr_nsec : option string; rr_relays : option (list string);
  rr_redirect_uri : option string;
}.
Record AuthResponse : Type := {
  ar_success : bool; ar_pubkey : string; ar_verification_required : option bool; ar_email : option string;
}.
Record LoginRequest : Type := { lr_email : string; lr_password : string }.
Record VerifyEmailResponse : Type := {
  ve_success : bool; ve_message : string; ve_redirect_to : option string; ve_authenticated : option bool;
  ve_status : option string; ve_retry_after : option Z;
}.
Record SimpleResponse : Type := { sr_success : bool; sr_message : string }.
Record ForgotPasswordRequest : Type := { fp_email : string; fp_app_url : option string }.
Record ResetPasswordRequest : Type := { rs_token : string; rs_new_password : string }.

(** serde_json's reading of a login body. *)
Class LoginSerde := { de_LoginRequest : string -> result LoginRequest string }.

(** The mail a handler hands to the email service. *)
Inductive mail : Type :=
| VerificationMail (address token : string)
| PasswordResetMail (address token : string) (app_url : option string)
| MagicLinkMail (address link merchant_name : string)
| DeleteAccountMail (address link merchant_name : string)
| ClaimMail (address link : string) (display_name picture : option string).

Section accounts.
Context `{HN : Nostr, HC : !NostrCrypto, HS : !Serde, HX : !Secrets, HB : Bcrypt, HD : Digests, HE : !Encodings,
          HV : !HttpEvents, HU : UcanLib, HM : !UcanMint, HL : UrlLib, HUni : Unicode, HI : Ipv6, HCh : Channel,
          HLS : LoginSerde}.

(** APP_URL, ALLOWED_ORIGINS, RATE_LIMIT_IP_PER_HOUR, the cookie flag, whether
    the email service starts, and the configuration of the other components. *)
Record account_config : Type := {
  acf_oauth : oauth_config; acf_auth : auth_env; acf_app_url : option string; acf_allowed_origins : option string;
  acf_ip_limit : option string; acf_secure_cookies : bool; acf_email_service : bool;
}.

Record account_state : Type := {
  ac_oauth : oauth_state; ac_redis : redis_store; ac_jobs : chan BcryptJob; ac_mail : list mail;
}.
Definition ac_db (s : account_state) : Db := os_db (ac_oauth s).
Definition set_ac_oauth (o : oauth_state) (s : account_state) : account_state :=
  {| ac_oauth := o; ac_redis := ac_redis s; ac_jobs := ac_jobs s; ac_mail := ac_mail s |}.
Definition set_ac_db (d : Db) (s : account_state) : account_state := set_ac_oauth (set_os_db d (ac_oauth s)) s.
Definition set_ac_redis (r : redis_store) (s : account_state) : account_state :=
  {| ac_oauth := ac_oauth s; ac_redis := r; ac_jobs := ac_jobs s; ac_mail := ac_mail s |}.
Definition set_ac_jobs (c : chan BcryptJob) (s : account_state) : account_state :=
  {| ac_oauth := ac_oauth s; ac_redis := ac_redis s; ac_jobs := c; ac_mail := ac_mail s |}.

Notation AcM A := (SE account_state account_abort A).

Definition failed {A} (e : AccountError) : AcM A := se_fail (Failed e).
Definition lift_account {A} (r : result A AccountError) : AcM A := se_lift (map_err Failed r).
(** A statement of a repository, a read of the database, and a statement whose
    error the handler ignores. *)
Definition on_repo {A} (f : Db -> Db * result A RepositoryError) : AcM A := fun s =>
  let '(d, r) := f (ac_db s) in
  (set_ac_db d s, map_err (fun e => Failed (account_error_of_repository e)) r).
Definition read_db {A} (f : Db -> A) : AcM A := se_gets (fun s => f (ac_db s)).
Definition read_repo {A} (f : Db -> result A RepositoryError) : AcM A := fun s =>
  (s, map_err (fun e => Failed (account_error_of_repository e)) (f (ac_db s))).
Definition try_repo {A} (f : Db -> Db * result A RepositoryError) : AcM bool := fun s =>
  let '(d, r) := f (ac_db s) in (set_ac_db d s, Ok (is_ok r)).

Definition send_mail (cfg : account_config) (m : mail) : AcM unit := se_modify (fun s =>
  if acf_email_service cfg
  then {| ac_oauth := ac_oauth s; ac_redis := ac_redis s; ac_jobs := ac_jobs s; ac_mail := ac_mail s ++ [m] |}
  else s).

Definition limit_rate (now : Z) (cfg : account_config) (q : http_request) (route : string) (tenant_id : Z)
    (email : option string) : AcM unit := fun s =>
  let '(r, allowed) := allow_request now (ae_redis (acf_auth cfg)) (ip_limit_per_hour (acf_ip_limit cfg)) route
                         tenant_id (header_text "x-forwarded-for" q) email (ac_redis s) in
  (set_ac_redis r s, if allowed then Ok tt else Err (Failed AcE_TooManyRequests)).

(** ** Sessions *)
Definition PASSWORD_RESET_EXPIRY_HOURS : Z := 1.
Definition SESSION_COOKIE_MAX_AGE : Z := 86400.

Definition format_session_cookie (token : string) (max_age : Z) (secure : bool) : string :=
  "keycast_session=" +:+ token +:+ "; HttpOnly" +:+ (if secure then "; Secure" else "")
  +:+ "; SameSite=Lax; Path=/; Max-Age=" +:+ print_Z max_age.
Definition session_cookie_for (cfg : account_config) (token : string) : string :=
  format_session_cookie token SESSION_COOKIE_MAX_AGE (acf_secure_cookies cfg).

(** A token the user's own key signs. *)
Definition generate_ucan_token (now : Z) (cfg : account_config) (user_keys : SecretKey) (tenant_id : Z)
    (email redirect_origin : string) (relays : option (list string)) : result string AccountError :=
  map_err AcE_Internal
    (ucan_mint now user_keys (nostr_pubkey_to_did (pk_of user_keys)) (token_expiry_seconds (acf_oauth cfg) mod 2 ^ 64)
       (JObject ([("tenant_id", JInt tenant_id); ("email", JString email); ("redirect_origin", JString redirect_origin)]
          ++ match relays with Some l => [("relays", JArray (map JString l))] | None => [] end))).

Definition extract_user_and_origin_from_token (now : Z) (cfg : account_config) (q : http_request) (tenant_id : Z)
  : result (string * string * option string) AccountError :=
  let nsec := ae_server_nsec (acf_auth cfg) in
  let from_cookie :=
    match session_cookie q with
    | Some token =>
        let? t := map_err (fun _ => AcE_InvalidToken) (validate_ucan_token now nsec ("Bearer " +:+ token) tenant_id) in
        Ok (vt_user_pubkey t, vt_redirect_origin t, vt_bunker_pubkey t)
    | None => Err AcE_MissingToken
    end in
  match header "authorization" q with
  | Some None => Err AcE_InvalidToken
  | Some (Some auth_str) =>
      if starts_with "Bearer " auth_str then
        map_err (fun _ => AcE_InvalidToken) (extract_user_from_ucan now nsec (Some auth_str) tenant_id)
      else from_cookie
  | None => from_cookie
  end.

Definition extract_user_from_token (now : Z) (cfg : account_config) (q : http_request) (tenant_id : Z)
  : result string AccountError :=
  let? u := extract_user_and_origin_from_token now cfg q tenant_id in Ok (fst (fst u)).

Definition extract_origin_from_headers (q : http_request) : result string AccountError :=
  ok_or (header_text "origin" q) (AcE_BadRequest "Origin header required").

Definition get_server_keys (cfg : account_config) : result SecretKey AccountError :=
  let? server_nsec := ok_or (ae_server_nsec (acf_auth cfg)) (AcE_Internal "SERVER_NSEC not configured") in
  map_err (fun e => AcE_Internal ("Invalid SERVER_NSEC: " +:+ e)) (keys_parse server_nsec).

(** The URL of the login endpoint, from the headers or APP_URL. *)
Definition login_expected_url (cfg : account_config) (q : http_request) (path : string) : result string AccountError :=
  let host_value := match header "x-forwarded-host" q, header "host" q with
                    | Some v, _ => Some v
                    | None, Some v => Some v
                    | None, None => header ":authority" q
                    end in
  match mjoin host_value, acf_app_url cfg with
  | Some host, _ =>
      let proto := default (if contains ":443" host || negb (contains_char ":" host) then "https" else "http")
                     (header_text "x-forwarded-proto" q) in
      Ok (proto +:+ "://" +:+ host +:+ path)
  | None, Some app_url => Ok (trim_end_char "/" app_url +:+ path)
  | None, None => Err (AcE_BadRequest "Host header required (or set APP_URL env var)")
  end.

(** The user's key: found in the tenant, decrypted, parsed. *)
Definition user_keys_of (pubkey : string) (tenant_id : Z) : AcM SecretKey :=
  let! found := read_db (fun d => find_encrypted_key_for_tenant d pubkey tenant_id) in
  let! encrypted_secret := lift_account (ok_or found (AcE_Internal "Personal keys not found")) in
  let! decrypted_secret := lift_account (map_err AcE_Encryption (km_decrypt encrypted_secret)) in
  lift_account (map_err (fun e => AcE_Internal ("Invalid secret key bytes: " +:+ e)) (sk_from_slice decrypted_secret)).

(** ** Registration *)
Definition is_redirect_target (uri : string) : bool :=
  starts_with "https://" uri || starts_with "http://localhost" uri.

(** DELETE FROM users and FROM personal_keys after the queue refused the job. *)
Definition undo_registration (pubkey : string) (tenant_id : Z) : AcM unit :=
  let! _ := try_repo (delete_users (user_in pubkey tenant_id)) in
  let! _ := try_repo (fun d => (set_personal_keys (delete_where (fun k => bool_decide (pk_user_pubkey k = pubkey)
                                  && (pk_tenant_id k =? tenant_id)) (db_personal_keys d)) d, Ok tt)) in
  se_ret tt.

Definition queue_error (e : TrySendError) : AccountError :=
  match bcrypt_queue_error e with
  | AtCapacity => AcE_ServiceUnavailable "Server at capacity, please try again" (Some 5)
  | ShuttingDown => AcE_ServiceUnavailable "Server restarting, please try again" (Some 10)
  end.

Definition queue_job (job : BcryptJob) : AcM (result unit TrySendError) := fun s =>
  let '(c, r) := chan_try_send job (ac_jobs s) in (set_ac_jobs c s, Ok r).

Definition register (now : Z) (cfg : account_config) (tenant_id : Z) (q : http_request)
    (verification_token : string) (generated : SecretKey) (req : RegisterRequest) : AcM AuthResponse :=
  let email := to_lowercase (rr_email req) in
  let! _ := limit_rate now cfg q "register" tenant_id (Some email) in
  let verification_expires := now + EMAIL_VERIFICATION_EXPIRY_HOURS * 3600 in
  let! keys := (match rr_nsec req with
                | Some nsec_str => lift_account (map_err (fun e => AcE_Internal ("Invalid nsec or secret key: " +:+ e
                    +:+ ". Please provide a valid nsec (bech32) or hex secret key.")) (keys_parse nsec_str))
                | None => se_ret generated
                end) in
  let public_key := pk_to_hex (pk_of keys) in
  let! known := read_db (user_exists public_key tenant_id) in
  if negb (is_null (rr_nsec req)) && known then failed AcE_DuplicateKey
  else
    let! encrypted_secret := lift_account (map_err AcE_Encryption (km_encrypt (sk_to_bytes keys))) in
    let redirect_uri := uri ← rr_redirect_uri req; if is_redirect_target uri then Some uri else None in
    let! _ := on_repo (register_with_personal_key now public_key tenant_id email None verification_token
                         verification_expires encrypted_secret redirect_uri) in
    let! queued := queue_job {| job_token := verification_token; job_password := rr_password req |} in
    match queued with
    | Err e =>
        let! _ := undo_registration public_key tenant_id in
        failed (queue_error e)
    | Ok _ =>
        let! _ := send_mail cfg (VerificationMail email verification_token) in
        se_ret {| ar_success := true; ar_pubkey := public_key; ar_verification_required := Some true;
                  ar_email := Some email |}
    end.

(** ** Sign-in *)
Definition nip98_login_error (e : Nip98Error) : AccountError :=
  AcE_BadRequest (match e with
  | InvalidHeaderFormat => "Invalid NIP-98 header format"
  | InvalidSignature => "Invalid NIP-98 signature"
  | EventExpired => "NIP-98 event expired (must be within 60 seconds)"
  | _ => "NIP-98 validation failed: " +:+ nip98_error_str e
  end).

(** An administrator signs in with an event; the log line of a refusal, and the
    one of a success, show the first eight bytes of the key. *)
Definition nostr_auth_login (now : Z) (cfg : account_config) (tenant_id : Z) (q : http_request) (auth_header : string)
  : AcM (string * AuthResponse) :=
  let! expected_url := lift_account (login_expected_url cfg q "/api/auth/login") in
  let! pubkey := lift_account (map_err nip98_login_error (extract_and_validate now auth_header expected_url "POST")) in
  let pubkey_hex := pk_to_hex pubkey in
  let probe := {| ua_pubkey := pubkey_hex; ua_admin_role := None |} in
  let! role := se_gets (fun s => admin_role_for (acf_auth cfg) now probe (ac_redis s)) in
  let log_pubkey := se_lift (ok_or (prefix_str pubkey_hex 8) AccountPanic) in
  match role with
  | None => let! _ := log_pubkey in failed (AcE_Forbidden "Pubkey not authorized for admin access")
  | Some admin_role =>
      let! redirect_origin := lift_account (extract_origin_from_headers q) in
      let! server_keys := lift_account (get_server_keys cfg) in
      let! ucan_token := lift_account (map_err AcE_Internal
        (ucan_mint now server_keys (nostr_pubkey_to_did pubkey) (token_expiry_seconds (acf_oauth cfg) mod 2 ^ 64)
           (ucan_facts_of tenant_id "admin" redirect_origin None false (Some admin_role)))) in
      let! _ := log_pubkey in
      se_ret (session_cookie_for cfg ucan_token,
              {| ar_success := true; ar_pubkey := pubkey_hex; ar_verification_required := None; ar_email := None |})
  end.

Definition password_login (now : Z) (cfg : account_config) (tenant_id : Z) (q : http_request) (body : string)
  : AcM (string * AuthResponse) :=
  let! req := lift_account (map_err (fun e => AcE_BadRequest ("Invalid JSON: " +:+ e)) (de_LoginRequest body)) in
  let email := to_lowercase (lr_email req) in
  let! redirect_origin := lift_account (extract_origin_from_headers q) in
  let! user := read_db (find_with_password email tenant_id) in
  match user with
  | None => failed AcE_InvalidCredentials
  | Some (public_key, password_hash, email_verified) =>
      let! valid := lift_account (map_err AcE_PasswordHash (bcrypt_check (lr_password req) password_hash)) in
      if negb valid then failed AcE_InvalidCredentials
      else if negb email_verified then failed AcE_EmailNotVerified
      else
        let! keys := user_keys_of public_key tenant_id in
        let! ucan_token := lift_account (generate_ucan_token now cfg keys tenant_id email redirect_origin None) in
        se_ret (session_cookie_for cfg ucan_token,
                {| ar_success := true; ar_pubkey := public_key; ar_verification_required := None; ar_email := None |})
  end.

Definition login (now : Z) (cfg : account_config) (tenant_id : Z) (q : http_request) (body : string)
  : AcM (string * AuthResponse) :=
  match header_text "authorization" q with
  | Some auth_str =>
      if starts_with "Nostr " auth_str then nostr_auth_login now cfg tenant_id q auth_str
      else password_login now cfg tenant_id q body
  | None => password_login now cfg tenant_id q body
  end.

Definition logout (cfg : account_config) : string * SimpleResponse :=
  (format_session_cookie "" 0 (acf_secure_cookies cfg),
   {| sr_success := true; sr_message := "Logged out successfully" |}).

(** ** Email verification *)
Definition verify_reply (success : bool) (message : string) (redirect_to : option string) (authenticated : option bool)
    (status : option string) (retry_after : option Z) : VerifyEmailResponse := {|
  ve_success := success; ve_message := message; ve_redirect_to := redirect_to; ve_authenticated := authenticated;
  ve_status := status; ve_retry_after := retry_after |}.

Definition headless_retry_error : AccountError :=
  AcE_ServiceUnavailable "Email verified, but app sign-in is still finishing. Please retry shortly." (Some 5).

(** The user of a pending OAuth registration: already there after a retry, or
    created with the stored key, or without one when the application brings it. *)
Definition create_pending_user (now tenant_id : Z) (token email password_hash : string) (data : OAuthCodeData)
  : AcM unit :=
  let! known := read_db (user_exists (cd_user_pubkey data) tenant_id) in
  if known : bool then se_ret tt
  else
    match cd_pending_encrypted_secret data with
    | Some encrypted_secret => fun s =>
        let '(d, r) := atomically
          (let! _ := insert_user_row (us_set_verification (Some token) None (us_set_email_verified true
                       (us_set_password_hash (Some password_hash) (us_set_email (Some email)
                         (new_user now (cd_user_pubkey data) tenant_id))))) in
           insert_key_row (cd_user_pubkey data) encrypted_secret tenant_id) (ac_db s) in
        (set_ac_db d s, map_err (fun e => Failed (AcE_Database (SqlxDatabase None (repository_error_str e)))) r)
    | None => on_repo (create_with_password_verified now (cd_user_pubkey data) tenant_id email password_hash true (Some token))
    end.

Definition poll_key (device_code : string) : string := "oauth_poll:" +:+ device_code.

(** Puts the code where the device polls for it. *)
Definition deliver_code (now : Z) (l : redis_link) (device_code new_code : string) : AcM bool := fun s =>
  if rl_up l then (set_ac_redis (redis_setex now (link_key l (poll_key device_code)) 600 new_code (ac_redis s)) s, Ok true)
  else (s, Ok false).

Definition verify_pending_registration (now : Z) (cfg : account_config) (tenant_id : Z) (token new_code : string)
    (data : OAuthCodeData) : AcM VerifyEmailResponse :=
  let! email := lift_account (ok_or (cd_pending_email data) (AcE_Internal "Missing pending email")) in
  let! password_hash := lift_account (ok_or (cd_pending_password_hash data) (AcE_Internal "Missing pending password hash")) in
  let! _ := create_pending_user now tenant_id token email password_hash data in
  let redis := ae_redis (acf_auth cfg) in
  let! required := (if cd_is_headless data then
                      let! device_code := lift_account (ok_or (cd_device_code data) headless_retry_error) in
                      let! l := lift_account (ok_or redis headless_retry_error) in
                      se_ret (Some (device_code, l))
                    else se_ret None) in
  let! _ := on_repo (oauth_code_store now {|
    sp_tenant_id := tenant_id; sp_code := new_code; sp_user_pubkey := cd_user_pubkey data;
    sp_client_id := cd_client_id data; sp_redirect_uri := cd_redirect_uri data; sp_scope := cd_scope data;
    sp_code_challenge := cd_code_challenge data; sp_code_challenge_method := cd_code_challenge_method data;
    sp_expires_at := now + 600; sp_previous_auth_id := cd_previous_auth_id data; sp_state := cd_state data;
    sp_is_headless := cd_is_headless data |}) in
  let! _ := (match required with
             | Some (device_code, l) =>
                 let! delivered := deliver_code now l device_code new_code in
                 if delivered : bool then se_ret tt
                 else
                   let! _ := on_repo (fun d => (oauth_code_delete tenant_id new_code d, Ok tt)) in
                   failed headless_retry_error
             | None =>
                 match cd_device_code data, redis with
                 | Some device_code, Some l => let! _ := deliver_code now l device_code new_code in se_ret tt
                 | _, _ => se_ret tt
                 end
             end) in
  let! _ := on_repo (fun d => (delete_by_verification_token token tenant_id d, Ok tt)) in
  if cd_is_headless data then
    se_ret (verify_reply true "Email verified! Open the app to continue." None None (Some "headless") None)
  else
    let redirect_url := cd_redirect_uri data +:+ "?code=" +:+ new_code
                        +:+ match cd_state data with Some state => "&state=" +:+ state | None => "" end in
    se_ret (verify_reply true "Email verified! Redirecting to app..." (Some redirect_url) None None None).

(** The redirect of a finished registration back to its application. *)
Definition verified_redirect (uri email : string) : string :=
  uri +:+ (if contains_char "?" uri then "&" else "?") +:+ "verified=1&email=" +:+ urlencode email.

Definition verify_registered (now : Z) (cfg : account_config) (tenant_id : Z) (q : http_request)
    (data : VerificationTokenData) : AcM (option string * VerifyEmailResponse) :=
  if vt_email_verified data then
    se_ret (None, verify_reply true "Your email is already verified. You can log in." None None None None)
  else if match vt_email_verification_expires_at data with Some expires => expires <? now | None => false end then
    se_ret (None, verify_reply false "Verification link has expired. Please request a new one." None None None None)
  else if is_null (vt_password_hash data) then
    if 120 <? now - vt_created_at data then failed AcE_RegistrationExpired
    else se_ret (None, verify_reply false "Processing your registration, please wait..." None None (Some "processing") (Some 1))
  else
    let public_key := vt_pubkey data in
    let! _ := on_repo (repo_verify_email now public_key tenant_id) in
    let! email := read_repo (get_email public_key tenant_id) in
    let! keys := user_keys_of public_key tenant_id in
    let redirect_origin := match extract_origin_from_headers q with
                           | Ok origin => origin
                           | Err _ => default "http://localhost:3000" (acf_app_url cfg)
                           end in
    let! ucan_token := lift_account (generate_ucan_token now cfg keys tenant_id email redirect_origin None) in
    se_ret (Some (session_cookie_for cfg ucan_token),
            verify_reply true "Email verified successfully! You are now logged in."
              ((fun uri => verified_redirect uri email) <$> vt_redirect_uri data) (Some true) None None).

Definition verify_email (now : Z) (cfg : account_config) (tenant_id : Z) (q : http_request) (new_code token : string)
  : AcM (option string * VerifyEmailResponse) :=
  let! pending := read_db (find_by_verification_token now token tenant_id) in
  match pending with
  | Some oauth_data =>
      let! r := verify_pending_registration now cfg tenant_id token new_code oauth_data in se_ret (None, r)
  | None =>
      let! found := read_db (user_find_by_verification_token token tenant_id) in
      let! token_data := lift_account (ok_or found AcE_InvalidToken) in
      verify_registered now cfg tenant_id q token_data
  end.

(** ** Sending the verification mail again: every outcome looks the same. *)
Definition resend_response : SimpleResponse := {|
  sr_success := true;
  sr_message := "If this email is registered, you will receive a verification email shortly." |}.

Definition resend_lookup (now : Z) (cfg : account_config) (tenant_id : Z) (q : http_request) (email : option string)
    (d : Db) : option (string * string * bool * option Z) :=
  match extract_user_from_token now cfg q tenant_id, email with
  | Ok user_pubkey, _ =>
      match get_verification_status user_pubkey tenant_id d with
      | Ok (Some (email, verified, last_sent)) => Some (user_pubkey, email, verified, last_sent)
      | _ => None
      end
  | Err _, Some email =>
      match get_verification_status_by_email email tenant_id d with
      | Some (pubkey, verified, last_sent) => Some (pubkey, email, verified, last_sent)
      | None => None
      end
  | Err _, None => None
  end.

(** [Duration::num_minutes] truncates. *)
Definition num_minutes (seconds : Z) : Z := Z.quot seconds 60.

Definition send_verification_again (now : Z) (cfg : account_config) (tenant_id : Z) (q : http_request)
    (verification_token : string) (email : option string) : AcM SimpleResponse :=
  let! lookup_result := read_db (resend_lookup now cfg tenant_id q (to_lowercase <$> email)) in
  match lookup_result with
  | None => se_ret resend_response
  | Some (pubkey, email, email_verified, last_sent) =>
      if email_verified : bool then se_ret resend_response
      else if match last_sent with Some sent_at => num_minutes (now - sent_at) <? 5 | None => false end
      then se_ret resend_response
      else
        let! stored := try_repo (set_verification_token now pubkey tenant_id verification_token
                                   (now + EMAIL_VERIFICATION_EXPIRY_HOURS * 3600)) in
        if stored : bool then
          let! _ := send_mail cfg (VerificationMail email verification_token) in se_ret resend_response
        else se_ret resend_response
  end.

Definition resend_verification (now : Z) (cfg : account_config) (tenant_id : Z) (q : http_request)
    (verification_token : string) (email : option string) : AcM SimpleResponse :=
  let! _ := limit_rate now cfg q "resend_verification" tenant_id email in
  send_verification_again now cfg tenant_id q verification_token email.

(** ** Password reset *)
Definition normalize_url (s : string) : string := to_lowercase (trim_end_char "/" (trim s)).
Definition app_url_is_allowed (cfg : account_config) (candidate : string) : bool :=
  match acf_allowed_origins cfg with
  | None => false
  | Some allowed =>
      negb (bool_decide (normalize_url candidate = ""))
      && existsb (fun s => negb (bool_decide (normalize_url s = ""))
                           && bool_decide (normalize_url s = normalize_url candidate)) (split "," allowed)
  end.
Definition app_url_override (cfg : account_config) (app_url : option string) : option string :=
  s ← app_url; let candidate := trim_end_char "/" (trim s) in
  if negb (bool_decide (candidate = "")) && app_url_is_allowed cfg candidate then Some candidate else None.

Definition forgot_response : SimpleResponse := {|
  sr_success := true;
  sr_message := "If an account exists with that email, a password reset link has been sent." |}.

Definition forgot_password (now : Z) (cfg : account_config) (tenant_id : Z) (q : http_request) (reset_token : string)
    (req : ForgotPasswordRequest) : AcM SimpleResponse :=
  let email := to_lowercase (fp_email req) in
  let! _ := limit_rate now cfg q "forgot_password" tenant_id (Some email) in
  let! user_pubkey := read_db (find_pubkey_by_email email tenant_id) in
  match user_pubkey with
  | None => se_ret forgot_response
  | Some public_key =>
      let! _ := on_repo (set_password_reset_token now public_key tenant_id reset_token
                           (now + PASSWORD_RESET_EXPIRY_HOURS * 3600)) in
      let! _ := send_mail cfg (PasswordResetMail email reset_token (app_url_override cfg (fp_app_url req))) in
      se_ret forgot_response
  end.

(** The log line slices the token before anything is checked. *)
Definition reset_password (now : Z) (tenant_id : Z) (salt : string) (req : ResetPasswordRequest) : AcM SimpleResponse :=
  let! _ := se_lift (ok_or (prefix_str (rs_token req) 10) AccountPanic) in
  let! found := read_db (find_by_reset_token (rs_token req) tenant_id) in
  let! '(public_key, expires_at) := lift_account (ok_or found AcE_InvalidToken) in
  if match expires_at with Some expires => expires <? now | None => false end then
    se_ret {| sr_success := false; sr_message := "Password reset link has expired. Please request a new one." |}
  else
    let! password_hash := lift_account (map_err AcE_PasswordHash (bcrypt_hash DEFAULT_COST salt (rs_new_password req))) in
    let! _ := on_repo (repo_reset_password now public_key tenant_id password_hash) in
    se_ret {| sr_success := true; sr_message := "Password reset successfully! You can now log in with your new password." |}.
End accounts.
