(* ===== verification/AccountKeys.v ===== *)
(** * Accounts: connections, profile, signing, keys and deletion

    The second half of api/src/api/http/auth.rs: bunker connections and sessions,
    the profile, signing over HTTP, and the operations that ask for the password
    again.  The two listings of core/src/repositories/oauth_authorization.rs that
    serve them are here too; times are printed by the database and kept as
    numbers. *)
From S2P Require Import Prelude RustStr External Instances Database Samples Tokens Permissions Policies AuthTypes Signer Ucan HttpRpc OAuthRepo Users OAuth WorkQueue Queues RateLimit Tenant Nip98 Accounts.

(** hex and bech32, and the name server the profile is synchronised with. *)
Class Bech32 `{Nostr} := {
  hex_encode : list Z -> string;
  sk_to_bech32 : SecretKey -> result string string;
  pk_to_bech32 : PublicKey -> result string string;
}.
Record ClaimResponse : Type := { cr_nip05 : string; cr_profile_url : string }.
Record name_server `{Nostr} : Type := {
  ns_check_availability : string -> result (bool * option string) string;
  ns_claim_username : SecretKey -> string -> result ClaimResponse string;
}.

(** ** Listings of authorizations *)
Fixpoint insert_newest (a : OAuthAuthorization) (l : list OAuthAuthorization) : list OAuthAuthorization :=
  match l with
  | [] => [a]
  | b :: l' => if oa_created_at b <? oa_created_at a then a :: l else b :: insert_newest a l'
  end.
Definition newest_first (l : list OAuthAuthorization) : list OAuthAuthorization := foldl (fun acc a => insert_newest a acc) [] l.

(** JOIN users .. WHERE user_pubkey, tenant_id, revoked_at IS NULL ORDER BY created_at DESC *)
Definition active_of_user (user_pubkey : string) (tenant_id : Z) (d : Db) : list OAuthAuthorization :=
  newest_first (List.filter (fun a => bool_decide (oa_user_pubkey a = user_pubkey) && is_null (oa_revoked_at a)
                                      && user_exists user_pubkey tenant_id d) (rows (db_oauth_authorizations d))).

Record BunkerSession : Type := {
  bs_application_name : string; bs_redirect_origin : string; bs_bunker_pubkey : string;
  bs_client_pubkey : option string; bs_created_at : Z; bs_last_activity : option Z; bs_activity_count : Z;
}.
Definition session_of (a : OAuthAuthorization) : BunkerSession := {|
  bs_application_name := default (oa_redirect_origin a) (oa_client_id a); bs_redirect_origin := oa_redirect_origin a;
  bs_bunker_pubkey := oa_bunker_public_key a; bs_client_pubkey := oa_client_pubkey a; bs_created_at := oa_created_at a;
  bs_last_activity := oa_last_activity a; bs_activity_count := oa_activity_count a |}.
Definition list_active_sessions (user_pubkey : string) (tenant_id : Z) (d : Db) : list BunkerSession :=
  map session_of (active_of_user user_pubkey tenant_id d).

Definition find_latest_bunker_pubkey (user_pubkey : string) (tenant_id : Z) (d : Db) : option string :=
  oa_bunker_public_key <$> head (active_of_user user_pubkey tenant_id d).

(** LEFT JOIN policies: the authorization and its policy. *)
Definition list_with_policy_info (user_pubkey : string) (tenant_id : Z) (d : Db)
  : list (OAuthAuthorization * option Policy) :=
  map (fun a => (a, i ← oa_policy_id a; ok (policy_find d i))) (active_of_user user_pubkey tenant_id d).

(** ** Requests and responses *)
Record CreateBunkerRequest : Type := { cb_app_name : string; cb_origin : option string; cb_policy_slug : option string }.
Record CreateBunkerResponse : Type := {
  br_bunker_url : string; br_origin : option string; br_app_name : string; br_bunker_pubkey : string; br_created_at : Z;
}.
Record AccountStatusResponse : Type := { as_email : string; as_email_verified : bool; as_public_key : string }.
Record PermissionDetail : Type := {
  pd_application_name : string; pd_policy_name : string; pd_policy_id : Z; pd_policy_slug : option string;
  pd_policy_display_name : option string; pd_policy_description : option string;
  pd_permissions : list PermissionDisplay; pd_allowed_event_kinds : list Z; pd_event_kind_names : list string;
  pd_created_at : Z; pd_last_activity : option Z; pd_activity_count : Z; pd_bunker_pubkey : string;
}.
Record ChangeKeyResponse : Type := { ck_success : bool; ck_new_pubkey : string; ck_message : string }.

(** [u64 as i16] *)
Definition as_i16 (n : Z) : Z := (n + 2 ^ 15) mod 2 ^ 16 - 2 ^ 15.

Definition kind_name (kind : Z) : string :=
  match kind with
  | 0 => "Profile (kind 0)"
  | 1 => "Notes (kind 1)"
  | 3 => "Follows (kind 3)"
  | 4 => "Encrypted DM - NIP-04 (kind 4)"
  | 5 => "Deletion (kind 5)"
  | 6 => "Repost (kind 6)"
  | 7 => "Reaction (kind 7)"
  | 16 => "Generic Repost (kind 16)"
  | 44 => "Encrypted DM - NIP-44 (kind 44)"
  | 1059 => "Gift Wrap (kind 1059)"
  | 1984 => "Report (kind 1984)"
  | 9734 => "Zap Request (kind 9734)"
  | 9735 => "Zap Receipt (kind 9735)"
  | 23194 | 23195 => "Wallet Operation (kind 23194-23195)"
  | _ => if (10000 <=? kind) && (kind <? 20000) then "List/Data (kind " +:+ print_Z kind +:+ ")"
         else if 30000 <=? kind then "Long-form (kind " +:+ print_Z kind +:+ ")"
         else "Kind " +:+ print_Z kind
  end.

Definition as_bool (j : json) : option bool := match j with JBool b => Some b | _ => None end.

Section account_keys.
Context `{HN : Nostr, HC : !NostrCrypto, HS : !Serde, HX : !Secrets, HB : Bcrypt, HD : Digests, HE : !Encodings,
          HV : !HttpEvents, HU : UcanLib, HM : !UcanMint, HL : UrlLib, HUni : Unicode, HI : Ipv6, HCh : Channel,
          HLS : LoginSerde, HBe : !Bech32}.

Notation AcM A := (SE account_state account_abort A).

Definition with_user {A} (now : Z) (cfg : account_config) (q : http_request) (tenant_id : Z) (k : string -> AcM A) : AcM A :=
  let! user_pubkey := lift_account (extract_user_from_token now cfg q tenant_id) in k user_pubkey.

Definition send_to_signer (cfg : account_config) (c : AuthorizationCommand) : AcM unit := se_modify (fun s =>
  if cfg_auth_tx (acf_oauth cfg)
  then set_ac_oauth {| os_rpc := os_rpc (ac_oauth s); os_sent := os_sent (ac_oauth s) ++ [c] |} s else s).
Definition change_cache (f : gmap CacheKey HttpRpcHandler -> gmap CacheKey HttpRpcHandler) : AcM unit :=
  se_modify (fun s => set_ac_oauth {| os_rpc := with_cache f (os_rpc (ac_oauth s)); os_sent := os_sent (ac_oauth s) |} s).

(** ** Bunker connections *)
Definition validate_origin (origin : string) : result unit AccountError :=
  let? url := ok_or (url_parse origin) (AcE_BadRequest "Invalid origin URL") in
  let? host := ok_or (url_host_str url) (AcE_BadRequest "Origin must have a host") in
  let is_localhost := bool_decide (host = "localhost") || bool_decide (host = "127.0.0.1") in
  if negb (bool_decide (url_scheme url = "https")) && negb is_localhost then Err (AcE_BadRequest "Origin must be HTTPS")
  else Ok tt.

(** A policy slug that names no policy is the same as none. *)
Definition create_bunker (now : Z) (cfg : account_config) (tenant_id : Z) (q : http_request)
    (secret_pair : option SecretPair) (req : CreateBunkerRequest) : AcM CreateBunkerResponse :=
  with_user now cfg q tenant_id (fun user_pubkey =>
  let! _ := lift_account (match cb_origin req with Some origin => validate_origin origin | None => Ok tt end) in
  let redirect_origin := default "" (cb_origin req) in
  let! found := read_db (fun d => find_encrypted_key_for_tenant d user_pubkey tenant_id) in
  let! encrypted_secret := lift_account (ok_or found (AcE_Internal "Personal keys not found")) in
  let! drawn := lift_account (ok_or secret_pair (AcE_Internal "Secret pool exhausted")) in
  let secret_hash := pair_hash drawn in
  let! policy_id := read_db (fun d => slug ← cb_policy_slug req; policy_find_id_by_slug d slug) in
  let! decrypted := lift_account (map_err (fun e => AcE_Internal ("Failed to decrypt user key: " +:+ e))
                      (km_decrypt encrypted_secret)) in
  let! user_secret_key := lift_account (map_err (fun e => AcE_Internal ("Invalid secret key: " +:+ e))
                            (sk_from_slice decrypted)) in
  let! bunker_keys := se_lift (ok_or (derive_bunker_keys user_secret_key secret_hash) AccountPanic) in
  let bunker_hex := pk_to_hex (pk_of bunker_keys) in
  let! relays := se_lift (ok_or (get_bunker_relays (cfg_bunker_relays (acf_oauth cfg))) AccountPanic) in
  let! _ := on_repo (oauth_authorization_create now {|
    cp_tenant_id := tenant_id; cp_user_pubkey := user_pubkey; cp_redirect_origin := redirect_origin;
    cp_client_id := cb_app_name req; cp_bunker_public_key := bunker_hex; cp_secret_hash := secret_hash;
    cp_relays := json_to_string (JArray (map JString relays)); cp_policy_id := policy_id; cp_client_pubkey := None;
    cp_authorization_handle := None; cp_handle_expires_at := now + days 30 |}) in
  let! _ := send_to_signer cfg (Upsert bunker_hex tenant_id true) in
  let relay_params := join "&" (map (fun r => "relay=" +:+ urlencode r) relays) in
  se_ret {| br_bunker_url := "bunker://" +:+ bunker_hex +:+ "?" +:+ relay_params +:+ "&secret=" +:+ pair_secret drawn;
            br_origin := cb_origin req; br_app_name := cb_app_name req; br_bunker_pubkey := user_pubkey;
            br_created_at := now |}).

(** Never succeeds: the secret is only known when it is created. *)
Definition get_bunker_url (now : Z) (cfg : account_config) (tenant_id : Z) (q : http_request) : AcM string :=
  let! u := lift_account (extract_user_and_origin_from_token now cfg q tenant_id) in
  let! bunker_pubkey := read_db (find_bunker_pubkey_by_redirect_origin (fst (fst u)) (snd (fst u)) tenant_id) in
  match bunker_pubkey with
  | Some _ => failed (AcE_BadRequest "Bunker URLs with secrets are only available at creation time. The connection secret is now hashed for security. Create a new authorization via /user/bunker/create if you need a bunker URL.")
  | None => failed (AcE_Forbidden "No authorization for this origin. Create one via OAuth or /user/bunker/create")
  end.

Definition list_sessions (now : Z) (cfg : account_config) (tenant_id : Z) (q : http_request) : AcM (list BunkerSession) :=
  with_user now cfg q tenant_id (fun user_pubkey => read_db (list_active_sessions user_pubkey tenant_id)).

Definition revoke_session (now : Z) (cfg : account_config) (tenant_id : Z) (q : http_request) (bunker_pubkey : string)
  : AcM SimpleResponse :=
  with_user now cfg q tenant_id (fun user_pubkey =>
  let! mine := read_db (exists_active_for_bunker bunker_pubkey user_pubkey tenant_id) in
  if negb mine then failed AcE_InvalidToken
  else
    let! _ := on_repo (fun d => (revoke_by_bunker_pubkey now bunker_pubkey user_pubkey tenant_id d, Ok tt)) in
    let! _ := change_cache (invalidate_handlers_for_bunker bunker_pubkey) in
    let! _ := send_to_signer cfg (Remove bunker_pubkey) in
    se_ret {| sr_success := true; sr_message := "Session revoked successfully" |}).

Definition disconnect_session (now : Z) (cfg : account_config) (tenant_id : Z) (q : http_request) (bunker_pubkey : string)
  : AcM SimpleResponse :=
  with_user now cfg q tenant_id (fun user_pubkey =>
  let! rows_affected := on_repo (fun d => let '(d', n) := disconnect_client now bunker_pubkey user_pubkey tenant_id d in (d', Ok n)) in
  if (rows_affected =? 0)%nat then failed AcE_InvalidToken
  else se_ret {| sr_success := true; sr_message := "Client disconnected - must reconnect to continue" |}).

(** ** Profile *)
Definition get_profile (now : Z) (cfg : account_config) (tenant_id : Z) (q : http_request) : AcM (option string) :=
  with_user now cfg q tenant_id (fun user_pubkey => read_db (fun d => mjoin (get_username user_pubkey tenant_id d))).

Definition account_status (now : Z) (cfg : account_config) (tenant_id : Z) (q : http_request) : AcM AccountStatusResponse :=
  with_user now cfg q tenant_id (fun user_pubkey =>
  let! user := read_db (get_account_status user_pubkey tenant_id) in
  match user with
  | Some (email, email_verified) =>
      se_ret {| as_email := default "" email; as_email_verified := email_verified; as_public_key := user_pubkey |}
  | None => failed AcE_UserNotFound
  end).

Definition valid_username (username : string) : result unit AccountError :=
  if negb (forallb (fun c => is_alphanumeric c || bool_decide (c = "-")) (chars username)) then
    Err (AcE_Internal "Username can only contain letters, numbers, and hyphens")
  else if starts_with "-" username || ends_with "-" username then
    Err (AcE_Internal "Username cannot start or end with a hyphen")
  else Ok tt.

(** The name server is asked first; when it cannot answer the local check
    decides. *)
Definition check_name_server (names : option name_server) (username : string) : result unit AccountError :=
  match names with
  | Some ns =>
      match ns_check_availability ns username with
      | Ok (false, reason) => Err (AcE_Internal (default "Username is not available on divine.video" reason))
      | _ => Ok tt
      end
  | None => Ok tt
  end.

Definition claim_on_name_server (names : option name_server) (username user_pubkey : string) (tenant_id : Z) (d : Db)
  : option (result ClaimResponse string) :=
  ns ← names; encrypted_secret ← find_encrypted_key_for_tenant d user_pubkey tenant_id;
  decrypted_secret ← ok (km_decrypt encrypted_secret); keys ← ok (sk_from_slice decrypted_secret);
  Some (ns_claim_username ns keys username).

Definition update_profile (now : Z) (cfg : account_config) (tenant_id : Z) (q : http_request)
    (names : option name_server) (username : option string)
  : AcM (SimpleResponse * option (result ClaimResponse string)) :=
  with_user now cfg q tenant_id (fun user_pubkey =>
  let! synced := (match username with
    | None => se_ret None
    | Some username =>
        let! _ := lift_account (valid_username username) in
        let! _ := lift_account (check_name_server names username) in
        let! available := read_db (check_username_available username user_pubkey tenant_id) in
        if negb available then failed (AcE_Internal "Username already taken")
        else
          let! synced := read_db (claim_on_name_server names username user_pubkey tenant_id) in
          let! _ := on_repo (update_username now user_pubkey username tenant_id) in
          se_ret synced
    end) in
  se_ret ({| sr_success := true;
             sr_message := "Username saved. Client should publish kind 0 event to relays via bunker." |}, synced)).

(** ** Permissions *)
Definition allowed_kinds_of (d : Db) (policy_id : Z) : list Z :=
  default [] (config_json ← get_allowed_kinds_config d policy_id; config ← ok (json_from_str config_json);
              kinds ← json_lookup config "allowed_kinds";
              match as_array kinds with
              | Some l => Some (omap (fun v => as_i16 <$> as_u64 v) l)
              | None => None
              end).

Definition permission_detail (d : Db) (row : OAuthAuthorization * option Policy) : PermissionDetail :=
  let '(a, policy) := row in
  let policy_id := default 0 (oa_policy_id a) in
  let event_kinds := if 0 <? policy_id then allowed_kinds_of d policy_id else [] in
  {| pd_application_name := default (oa_redirect_origin a) (oa_client_id a); pd_policy_name := default "No Policy" (pol_name <$> policy);
     pd_policy_id := policy_id; pd_policy_slug := p ← policy; pol_slug p;
     pd_policy_display_name := p ← policy; pol_display_name p; pd_policy_description := p ← policy; pol_description p;
     pd_permissions := (if 0 <? policy_id then
                          match policy_find d policy_id with
                          | Ok p => default [] (ok (permission_displays d p))
                          | Err _ => []
                          end
                        else []);
     pd_allowed_event_kinds := event_kinds; pd_event_kind_names := map kind_name event_kinds;
     pd_created_at := oa_created_at a; pd_last_activity := oa_last_activity a;
     pd_activity_count := oa_activity_count a; pd_bunker_pubkey := oa_bunker_public_key a |}.

Definition list_permissions (now : Z) (cfg : account_config) (tenant_id : Z) (q : http_request) : AcM (list PermissionDetail) :=
  with_user now cfg q tenant_id (fun user_pubkey =>
    read_db (fun d => map (permission_detail d) (list_with_policy_info user_pubkey tenant_id d))).

Definition get_authorization_for_origin (now : Z) (user_pubkey redirect_origin : string) (tenant_id : Z) (d : Db)
  : result (option Z) AccountError :=
  ok_or (find_policy_id_by_origin now user_pubkey redirect_origin tenant_id d)
    (AcE_Forbidden "No authorization for this origin. Create one via OAuth or /user/bunker/create").

(** The permissions of a policy, all of which must allow an operation. *)
Definition check_policy (policy_id : option Z) (allows : BoxedPermission -> bool) (denied : AccountError) (d : Db)
  : result unit AccountError :=
  match policy_id with
  | None => Ok tt
  | Some policy_id =>
      let? permissions := map_err account_error_of_repository (get_permissions d policy_id) in
      let? custom_permissions := map_err (fun e => AcE_Internal ("Failed to convert permissions: " +:+ permission_error_str e))
                                   (collect to_custom_permission permissions) in
      match custom_permissions with
      | [] => Ok tt
      | ps => if forallb allows ps then Ok tt else Err denied
      end
  end.

Definition validate_signing_permissions (now : Z) (tenant_id : Z) (user_pubkey redirect_origin : string)
    (event : UnsignedEvent) (d : Db) : result unit AccountError :=
  let? policy_id := get_authorization_for_origin now user_pubkey redirect_origin tenant_id d in
  check_policy policy_id (fun p => dyn_can_sign p event) AcE_InvalidCredentials d.

Definition validate_encrypt_permissions (now : Z) (tenant_id : Z) (user_pubkey redirect_origin plaintext : string)
    (recipient_pubkey : PublicKey) (d : Db) : result unit AccountError :=
  let? policy_id := get_authorization_for_origin now user_pubkey redirect_origin tenant_id d in
  let? sender_pubkey := map_err (fun e => AcE_Internal ("Invalid user pubkey: " +:+ e)) (pk_from_hex user_pubkey) in
  check_policy policy_id (fun p => dyn_can_encrypt p plaintext sender_pubkey recipient_pubkey)
    (AcE_Forbidden "Encryption not permitted by policy") d.

Definition validate_decrypt_permissions (now : Z) (tenant_id : Z) (user_pubkey redirect_origin ciphertext : string)
    (sender_pubkey : PublicKey) (d : Db) : result unit AccountError :=
  let? policy_id := get_authorization_for_origin now user_pubkey redirect_origin tenant_id d in
  let? recipient_pubkey := map_err (fun e => AcE_Internal ("Invalid user pubkey: " +:+ e)) (pk_from_hex user_pubkey) in
  check_policy policy_id (fun p => dyn_can_decrypt p ciphertext sender_pubkey recipient_pubkey)
    (AcE_Forbidden "Decryption not permitted by policy") d.

(** ** Signing with the session: through a handler of the signer when there is
    one, with the stored key otherwise. *)
Definition event_json (signed_event : Event) : AcM json :=
  lift_account (map_err (fun e => AcE_Internal ("JSON serialization failed: " +:+ e)) (event_to_value signed_event)).
Definition signing_failed {A} (r : result A string) : AcM A :=
  lift_account (map_err (fun e => AcE_Internal ("Signing failed: " +:+ e)) r).

Definition sign_with_handler (now : Z) (h : Nip46Handler) (unsigned_event : UnsignedEvent) : AcM json :=
  let! _ := (fun s => (s, match validate_permissions_for_sign (ac_db s) h unsigned_event with
                          | Ok _ => Ok tt
                          | Err _ => Err (Failed (AcE_Internal "Signing failed"))
                          end)) in
  let! signed_event := signing_failed (sign_unsigned (h_user_keys h) unsigned_event) in
  let! _ := (if h_is_oauth h then se_modify (fun s => set_ac_db (bump_activity now h (ac_db s)) s) else se_ret tt) in
  event_json signed_event.

Definition sign_with_stored_key (user_pubkey : string) (tenant_id : Z) (unsigned_event : UnsignedEvent) : AcM json :=
  let! found := read_db (fun d => find_encrypted_key_for_tenant d user_pubkey tenant_id) in
  let! encrypted_secret := lift_account (ok_or found AcE_UserNotFound) in
  let! decrypted_secret := lift_account (map_err AcE_Encryption (km_decrypt encrypted_secret)) in
  let! keys := lift_account (map_err (fun e => AcE_Internal ("Invalid secret key bytes: " +:+ e)) (sk_from_slice decrypted_secret)) in
  let! signed_event := signing_failed (sign_unsigned keys unsigned_event) in
  event_json signed_event.

Definition sign_event (now : Z) (cfg : account_config) (tenant_id : Z) (q : http_request)
    (signer_handlers : option (gmap string Nip46Handler)) (event : json) : AcM json :=
  let! u := lift_account (extract_user_and_origin_from_token now cfg q tenant_id) in
  let user_pubkey := fst (fst u) in
  let! unsigned_event := lift_account (map_err (fun e => AcE_Internal ("Invalid event format: " +:+ e))
                           (de_UnsignedEvent_value event)) in
  let! _ := (fun s => (s, map_err Failed
              (validate_signing_permissions now tenant_id user_pubkey (snd (fst u)) unsigned_event (ac_db s)))) in
  let! cached := read_db (fun d => handlers ← signer_handlers;
                            bunker_key ← find_latest_bunker_pubkey user_pubkey tenant_id d; handlers !! bunker_key) in
  match cached with
  | Some h => sign_with_handler now h unsigned_event
  | None => sign_with_stored_key user_pubkey tenant_id unsigned_event
  end.

Definition get_pubkey (now : Z) (cfg : account_config) (tenant_id : Z) (q : http_request) : AcM (string * string) :=
  with_user now cfg q tenant_id (fun user_pubkey =>
  let! known := read_db (user_exists user_pubkey tenant_id) in
  if negb known then failed AcE_UserNotFound
  else
    let! pubkey := lift_account (map_err (fun e => AcE_Internal ("Invalid public key: " +:+ e)) (pk_from_hex user_pubkey)) in
    let! npub := lift_account (map_err (fun e => AcE_Internal ("Bech32 conversion failed: " +:+ e)) (pk_to_bech32 pubkey)) in
    se_ret (user_pubkey, npub)).

(** ** Operations that ask for the password *)
Definition check_password (password hash : string) : AcM unit :=
  let! valid := lift_account (map_err (fun _ => AcE_Internal "Password verification failed") (bcrypt_check password hash)) in
  if negb valid then failed AcE_InvalidCredentials else se_ret tt.

Definition credentials_of (user_pubkey : string) (tenant_id : Z) : AcM (string * string) :=
  let! found := read_repo (get_credentials user_pubkey tenant_id) in lift_account (ok_or found AcE_UserNotFound).

Definition verify_password_for_export (now : Z) (cfg : account_config) (tenant_id : Z) (q : http_request)
    (password : string) : AcM bool :=
  with_user now cfg q tenant_id (fun user_pubkey =>
  let! c := credentials_of user_pubkey tenant_id in
  let! _ := check_password password (snd c) in
  se_ret true).

Definition change_password (now : Z) (cfg : account_config) (tenant_id : Z) (q : http_request) (salt : string)
    (current_password new_password : string) : AcM SimpleResponse :=
  with_user now cfg q tenant_id (fun user_pubkey =>
  if len new_password <? 8 then failed (AcE_BadRequest "New password must be at least 8 characters")
  else
    let! c := credentials_of user_pubkey tenant_id in
    let! _ := check_password current_password (snd c) in
    let! new_hash := lift_account (map_err (fun e => AcE_Internal ("Password hashing failed: " +:+ e))
                       (bcrypt_hash DEFAULT_COST salt new_password)) in
    let! _ := on_repo (update_password now user_pubkey tenant_id new_hash) in
    se_ret {| sr_success := true; sr_message := "Password changed successfully" |}).

Definition export_key (now : Z) (cfg : account_config) (tenant_id : Z) (q : http_request) (req : json) : AcM string :=
  with_user now cfg q tenant_id (fun user_pubkey =>
  let! password := lift_account (ok_or (v ← json_lookup req "password"; as_str v) (AcE_BadRequest "Missing password")) in
  let format := default "nsec" (v ← json_lookup req "format"; as_str v) in
  let! result := read_repo (find_with_password_and_verified user_pubkey tenant_id) in
  let! '(_, password_hash, email_verified) := lift_account (ok_or result AcE_UserNotFound) in
  if negb email_verified then failed AcE_EmailNotVerified
  else
    let! _ := check_password password password_hash in
    let! found := read_db (fun d => find_encrypted_key_for_tenant d user_pubkey tenant_id) in
    let! encrypted_key := lift_account (ok_or found AcE_UserNotFound) in
    let! decrypted_secret := lift_account (map_err (fun e => AcE_Internal ("Failed to decrypt key: " +:+ e))
                               (km_decrypt encrypted_key)) in
    let! keys := lift_account (map_err (fun e => AcE_Internal ("Failed to parse key: " +:+ e))
                   (keys_parse (hex_encode decrypted_secret))) in
    if bool_decide (format = "nsec") then
      lift_account (map_err (fun e => AcE_Internal ("Failed to encode nsec: " +:+ e)) (sk_to_bech32 keys))
    else failed (AcE_BadRequest "Invalid format. Must be 'nsec'")).

Definition change_key (now : Z) (cfg : account_config) (tenant_id : Z) (q : http_request) (generated : SecretKey)
    (password : string) (nsec : option string) : AcM (string * ChangeKeyResponse) :=
  with_user now cfg q tenant_id (fun old_pubkey =>
  let! '(email, password_hash) := credentials_of old_pubkey tenant_id in
  let! _ := check_password password password_hash in
  let! new_keys := (match nsec with
                    | Some nsec_str => lift_account (map_err (fun e => AcE_Internal ("Invalid nsec or secret key: " +:+ e))
                                                       (keys_parse nsec_str))
                    | None => se_ret generated
                    end) in
  let new_pubkey := pk_to_hex (pk_of new_keys) in
  let! known := read_db (user_exists new_pubkey tenant_id) in
  if known : bool then failed AcE_DuplicateKey
  else
    let! encrypted_secret := lift_account (map_err AcE_Encryption (km_encrypt (sk_to_bytes new_keys))) in
    let! oauth_count := on_repo (change_key_transaction now old_pubkey new_pubkey tenant_id email password_hash encrypted_secret) in
    let! _ := change_cache (invalidate_handlers_for_user old_pubkey) in
    let! _ := send_to_signer cfg (Remove old_pubkey) in
    let! redirect_origin := lift_account (extract_origin_from_headers q) in
    let! ucan_token := lift_account (generate_ucan_token now cfg new_keys tenant_id email redirect_origin None) in
    let! shown := se_lift (ok_or (slice old_pubkey 0 16) AccountPanic) in
    se_ret (session_cookie_for cfg ucan_token,
            {| ck_success := true; ck_new_pubkey := new_pubkey;
               ck_message := "Private key changed successfully. Deleted " +:+ print_Z (Z.of_nat oauth_count)
                 +:+ " connected app(s). Your old identity (" +:+ shown
                 +:+ ") still exists in teams if you backed up the old key." |})).

(** ** Deletion *)
Definition deletion_header (q : http_request) : result string AccountError :=
  match header "authorization" q with
  | Some value => ok_or value AcE_InvalidToken
  | None => let? cookie_value := ok_or (session_cookie q) AcE_MissingToken in Ok ("Bearer " +:+ cookie_value)
  end.

(** The user's own signature, or a token of the first-party application. *)
Definition may_delete (t : validated_token) : result bool AccountError :=
  let? issuer := map_err (fun _ => AcE_InvalidToken) (did_to_nostr_pubkey (ucan_issuer (vt_ucan t))) in
  Ok (bool_decide (pk_to_hex issuer = vt_user_pubkey t)
      || default false (fact as_bool "first_party" (ucan_facts (vt_ucan t)))).

Definition unload_bunkers (cfg : account_config) (bunkers : list string) : AcM unit :=
  let! _ := change_cache (fun cache => foldl (fun c b => invalidate_handlers_for_bunker b c) cache bunkers) in
  foldr (fun b k => let! _ := send_to_signer cfg (Remove b) in k) (se_ret tt) bunkers.

Definition delete_account (now : Z) (cfg : account_config) (tenant : Tenant) (q : http_request) : AcM SimpleResponse :=
  let tenant_id := tn_id tenant in
  let! auth_header := lift_account (deletion_header q) in
  let! t := lift_account (map_err (fun _ => AcE_InvalidToken)
              (validate_ucan_token now (ae_server_nsec (acf_auth cfg)) auth_header tenant_id)) in
  let! allowed := lift_account (may_delete t) in
  if negb allowed then
    failed (AcE_Forbidden "Account deletion requires the Divine app or web login with your private key")
  else
    let! result := (fun s =>
      let '(d, r) := (if is_customer_tenant (ae_tenant (acf_auth cfg)) tenant
                      then delete_customer_account now (vt_user_pubkey t) tenant_id
                      else repo_delete_account (vt_user_pubkey t) tenant_id) (ac_db s) in
      (set_ac_db d s, map_err (fun e => Failed (AcE_Database (SqlxOther ("encountered unexpected or invalid data: "
                                                              +:+ repository_error_str e)))) r)) in
    let! _ := unload_bunkers cfg (bunker_pubkeys result) in
    se_ret {| sr_success := true; sr_message := "Account permanently deleted" |}.
End account_keys.
