(* ===== verification/AccountsSafety.v ===== *)
(** * Properties of the account endpoints

    Signing in, registering, resetting a password, the operations that ask for
    the password again, connections and deletion. *)
From S2P Require Import Prelude RustStr External Instances Database Samples Tokens Permissions Policies AuthTypes Signer Ucan HttpRpc OAuthRepo Users UsersSafety OAuth OAuthSafety WorkQueue Queues RateLimit Tenant Nip98 Accounts AccountKeys.

Section inversion.
Context `{HN : Nostr, HC : !NostrCrypto, HS : !Serde, HX : !Secrets, HB : Bcrypt, HD : Digests, HE : !Encodings,
          HV : !HttpEvents, HU : UcanLib, HM : !UcanMint, HL : UrlLib, HUni : Unicode, HI : Ipv6, HCh : Channel,
          HLS : LoginSerde, HBe : !Bech32}.

(** ** Inverting handlers *)
Lemma lift_account_ok {A} (r : result A AccountError) s s' a :
  lift_account r s = (s', Ok a) -> s' = s /\ r = Ok a.
Proof. unfold lift_account, se_lift. intros [= <- H]. by apply map_err_ok in H. Qed.

Lemma on_repo_ok {A} (f : Db -> Db * result A RepositoryError) s s' a :
  on_repo f s = (s', Ok a) -> exists d, f (ac_db s) = (d, Ok a) /\ s' = set_ac_db d s.
Proof. unfold on_repo. destruct (f (ac_db s)) as [d r]. intros [= <- H]. apply map_err_ok in H as ->. eauto. Qed.

Lemma read_repo_ok {A} (f : Db -> result A RepositoryError) s s' a :
  read_repo f s = (s', Ok a) -> s' = s /\ f (ac_db s) = Ok a.
Proof. unfold read_repo. intros [= <- H]. by apply map_err_ok in H. Qed.

End inversion.

Ltac ac_inv :=
  repeat match goal with
  | H : se_bind _ _ _ = (_, Ok _) |- _ => apply se_bind_ok in H as (? & ? & ? & ?)
  | H : lift_account _ _ = (_, Ok _) |- _ => apply lift_account_ok in H as [-> H]
  | H : read_repo _ _ = (_, Ok _) |- _ => apply read_repo_ok in H as [-> H]
  | H : on_repo _ _ = (_, Ok _) |- _ => apply on_repo_ok in H as (? & H & ->)
  | H : read_db _ _ = (_, Ok _) |- _ => apply se_gets_ok in H as [-> H]
  | H : se_lift _ _ = (_, Ok _) |- _ => apply se_lift_ok in H as [-> H]
  | H : se_gets _ _ = (_, Ok _) |- _ => apply se_gets_ok in H as [-> H]
  | H : se_ret _ _ = (_, Ok _) |- _ => apply se_ret_ok in H as [-> H]
  | H : failed _ _ = (_, Ok _) |- _ => discriminate H
  | H : map_err _ _ = Ok _ |- _ => apply map_err_ok in H
  | H : ok_or _ _ = Ok _ |- _ => apply ok_or_ok in H
  end.

Section accounts_safety.
Context `{HN : Nostr, HC : !NostrCrypto, HS : !Serde, HX : !Secrets, HB : Bcrypt, HD : Digests, HE : !Encodings,
          HV : !HttpEvents, HU : UcanLib, HM : !UcanMint, HL : UrlLib, HUni : Unicode, HI : Ipv6, HCh : Channel,
          HLS : LoginSerde, HBe : !Bech32}.

Lemma user_keys_of_ok pubkey tenant_id s s' keys :
  user_keys_of pubkey tenant_id s = (s', Ok keys) ->
  s' = s /\ exists enc bytes, find_encrypted_key_for_tenant (ac_db s) pubkey tenant_id = Some enc /\
    km_decrypt enc = Ok bytes /\ sk_from_slice bytes = Ok keys.
Proof. unfold user_keys_of. intros H. ac_inv. subst. split; [done|]. eauto. Qed.

(** ** Signing in *)

(** The account behind an email and password. *)
Definition password_account (d : Db) (tenant_id : Z) (email password : string) (u : user_row) : Prop :=
  u ∈ db_users d /\ us_tenant_id u = tenant_id /\ us_email u = Some (to_lowercase email) /\
  us_email_verified u = true /\
  exists hash, us_password_hash u = Some hash /\ bcrypt_verify password hash = true.

(** [C27] Whom a login signs in, with nothing changed by it.  Either the verified
    account of that email in that tenant whose password it is, with a session for
    the origin of the request signed by the key stored for that account.  Or an
    administrator: the Authorization header carries a verified event of the
    NIP-98 kind, at most a minute away, for POST to the login URL that the headers
    or APP_URL give; the key that signed it has an administrator's role, and the
    session is one the server's key signed for that very key with that role. *)
Theorem login_sound `{HBL : !BcryptLaws} now cfg tenant_id q body s s' cookie resp :
  login now cfg tenant_id q body s = (s', Ok (cookie, resp)) ->
  s' = s /\ exists origin, extract_origin_from_headers q = Ok origin /\
  ((exists req u keys token, de_LoginRequest body = Ok req /\
      password_account (ac_db s) tenant_id (lr_email req) (lr_password req) u /\ ar_pubkey resp = us_pubkey u /\
      user_keys_of (us_pubkey u) tenant_id s = (s, Ok keys) /\
      generate_ucan_token now cfg keys tenant_id (to_lowercase (lr_email req)) origin None = Ok token /\
      cookie = session_cookie_for cfg token) \/
   (exists h url event role server_keys token, header_text "authorization" q = Some ("Nostr " +:+ h) /\
      login_expected_url cfg q "/api/auth/login" = Ok url /\
      header_event ("Nostr " +:+ h) = Ok event /\ ev_kind event = 27235 /\ event_verify event = true /\
      event_fresh now event = true /\ tag_named "u" event = Some url /\
      (exists m, tag_named "method" event = Some m /\ eq_ignore_ascii_case m "POST" = true) /\
      ar_pubkey resp = pk_to_hex (ev_pubkey event) /\
      admin_role_for (acf_auth cfg) now {| ua_pubkey := pk_to_hex (ev_pubkey event); ua_admin_role := None |} (ac_redis s) = Some role /\
      get_server_keys cfg = Ok server_keys /\
      ucan_mint now server_keys (nostr_pubkey_to_did (ev_pubkey event)) (token_expiry_seconds (acf_oauth cfg) mod 2 ^ 64)
        (ucan_facts_of tenant_id "admin" origin None false (Some role)) = Ok token /\
      cookie = session_cookie_for cfg token)).
Proof.
  intros H.
  assert (Hpw : password_login now cfg tenant_id q body s = (s', Ok (cookie, resp)) \/
    exists h, header_text "authorization" q = Some ("Nostr " +:+ h) /\
      nostr_auth_login now cfg tenant_id q ("Nostr " +:+ h) s = (s', Ok (cookie, resp))).
  { unfold login in H. destruct (header_text "authorization" q) as [h|]; [|by left].
    destruct (starts_with "Nostr " h) eqn:Hs; [|by left]. right. apply starts_with_spec in Hs as [r ->]. eauto. }
  clear H. destruct Hpw as [H|(h & Hh & H)].
  - unfold password_login in H. ac_inv. subst.
    match goal with H : match find_with_password ?e ?t ?d with _ => _ end _ = _ |- _ =>
      destruct (find_with_password e t d) as [[[pubkey hash] verified]|] eqn:Hf; [|done] end.
    ac_inv. match goal with H : bcrypt_check _ _ = Ok ?b |- _ => destruct b; [|done]; rename H into Hcheck end.
    match goal with H : (if negb true then _ else _) _ = _ |- _ => simpl in H end.
    destruct verified; [|done]. simpl in *. ac_inv.
    match goal with H : user_keys_of _ _ _ = _ |- _ => rename H into Hk end.
    pose proof (user_keys_of_ok _ _ _ _ _ Hk) as [-> _].
    match goal with H : (_, _) = (_, _) |- _ => injection H as -> -> end.
    split; [done|]. eexists. split; [eassumption|]. left.
    unfold find_with_password in Hf. apply find_map_Some in Hf as (u & Hu & Hf).
    destruct (email_in _ _ u) eqn:He; [|done]. destruct (us_password_hash u) as [h'|] eqn:Eh; [|done].
    simpl in Hf. injection Hf as <- <- Hver. apply email_in_spec in He as [He Ht].
    do 4 eexists. split; [eassumption|]. split; [|split; [reflexivity|split; [eassumption|split; [eassumption|reflexivity]]]].
    repeat split; try done. exists h'. split; [done|]. by apply bcrypt_check_verify.
  - unfold nostr_auth_login in H. ac_inv. subst.
    match goal with H : match ?r with _ => _ end _ = _ |- _ => destruct r as [role|] eqn:Er end; ac_inv.
    match goal with H : (_, _) = (_, _) |- _ => injection H as -> -> end.
    match goal with H : extract_and_validate _ _ _ _ = Ok _ |- _ => apply extract_and_validate_ok in H as (event & He & <- & Hk & Hv & Hf & Hu & Hm) end.
    split; [done|]. eexists. split; [eassumption|]. right. do 6 eexists. repeat (split; [eassumption|]). split; [reflexivity|].
    repeat (split; [eassumption|]). reflexivity.
Qed.

(** ** Registration *)

(** The row of a registration whose password is not hashed yet. *)
Definition registered_row (now : Z) (pubkey : string) (tenant_id : Z) (email token : string)
    (redirect_uri : option string) : user_row :=
  us_set_redirect_uri redirect_uri
    (us_set_verification (Some token) (Some (now + EMAIL_VERIFICATION_EXPIRY_HOURS * 3600))
      (us_set_password_hash None (us_set_email (Some email) (new_user now pubkey tenant_id)))).

Lemma register_with_personal_key_run now pubkey tenant_id email token enc uri d d' r :
  register_with_personal_key now pubkey tenant_id email None token (now + EMAIL_VERIFICATION_EXPIRY_HOURS * 3600) enc uri d
    = (d', r) ->
  let row := registered_row now pubkey tenant_id email token uri in
  (d' = d /\ is_ok r = false) \/
  (r = Ok tt /\ existsb (conflicts row) (db_users d) = false /\
   d' = insert_personal_key pubkey enc tenant_id (set_users (db_users d ++ [row]) d)).
Proof.
  unfold register_with_personal_key, atomically, se_bind, insert_user_row, insert_user. cbv zeta.
  fold (registered_row now pubkey tenant_id email token uri).
  destruct (existsb _ _) eqn:E; [by intros [= <- <-]; left|].
  unfold insert_key_row, personal_keys_create.
  replace (fk_user pubkey _) with true; [intros [= <- <-]; right; done|].
  symmetry. apply fk_user_spec. unfold user_keys. simpl. rewrite map_app. apply elem_of_app. right. constructor.
Qed.

(** The state a registration leaves: unchanged accounts when it fails, one new
    row with its key and its job otherwise. *)
Definition same_accounts (d d' : Db) : Prop :=
  db_users d' = db_users d /\ db_personal_keys d' = db_personal_keys d /\
  db_oauth_authorizations d' = db_oauth_authorizations d /\ db_refresh_tokens d' = db_refresh_tokens d.

Lemma delete_app_fresh {A} (p : A -> bool) l x :
  (forall a, a ∈ l -> p a = false) -> p x = true -> delete_where p (l ++ [x]) = l.
Proof.
  intros Hl Hx. unfold delete_where. rewrite List.filter_app. simpl. rewrite Hx. simpl. rewrite app_nil_r.
  induction l as [|a l IH]; simpl; [done|]. rewrite (Hl a) by constructor. simpl. f_equal. apply IH.
  intros b Hb. apply Hl. by constructor.
Qed.
Lemma delete_none {A} (p : A -> bool) l : (forall a, a ∈ l -> p a = false) -> delete_where p l = l.
Proof.
  intros Hl. unfold delete_where. induction l as [|a l IH]; simpl; [done|]. rewrite (Hl a) by constructor. simpl.
  f_equal. apply IH. intros b Hb. apply Hl. by constructor.
Qed.
Lemma with_rows_same {A} (f : list A -> list A) (t : table A) : f (rows t) = rows t -> with_rows f t = t.
Proof. destruct t. unfold with_rows. simpl. by intros ->. Qed.

(** Deleting the user just added gives the accounts from before. *)
Lemma delete_new_user d pubkey tenant_id enc row :
  integrity d -> existsb (conflicts row) (db_users d) = false -> us_pubkey row = pubkey -> us_tenant_id row = tenant_id ->
  same_accounts d (fst (delete_users (user_in pubkey tenant_id)
                          (insert_personal_key pubkey enc tenant_id (set_users (db_users d ++ [row]) d)))).
Proof.
  intros Hd Hc Hpk Ht.
  assert (Hfresh : pubkey ∉ user_keys d).
  { unfold user_keys. rewrite list_elem_of_fmap. intros (v & Hv & Hin).
    rewrite <- not_true_iff_false, existsb_elem in Hc. apply Hc. exists v. split; [done|].
    apply conflicts_pubkey. congruence. }
  assert (Hu : forall u, u ∈ db_users d -> user_in pubkey tenant_id u = false).
  { intros u Hin. apply not_true_iff_false. intros [E _]%user_in_spec. apply Hfresh.
    unfold user_keys. rewrite <- E. apply list_elem_of_fmap. eauto. }
  assert (Hrow : user_in pubkey tenant_id row = true) by by apply user_in_spec.
  assert (Hno : forall k, k ∈ user_keys d ->
    refers_to_user (map us_pubkey (List.filter (user_in pubkey tenant_id) (db_users d ++ [row]))) k = false).
  { intros k Hk. apply not_true_iff_false. rewrite List.filter_app, (filter_nil _ _ Hu). simpl. rewrite Hrow. simpl.
    intros E%bool_decide_eq_true. apply list_elem_of_singleton in E. congruence. }
  assert (Hrefs : forall {A} (key : A -> string) l, map key l ⊆ user_keys d -> forall a, a ∈ l ->
    refers_to_user (map us_pubkey (List.filter (user_in pubkey tenant_id) (db_users d ++ [row]))) (key a) = false).
  { intros A key l Hl a Ha. apply Hno, Hl, list_elem_of_fmap. eauto. }
  unfold delete_users. cbv zeta. simpl db_users.
  rewrite (existsb_false _ (rows (db_team_users _))) by apply (Hrefs _ _ _ (int_teams d Hd)).
  rewrite (existsb_false _ (rows (db_claim_tokens _))) by apply (Hrefs _ _ _ (int_claims d Hd)).
  cbn [fst]. unfold same_accounts. simpl. repeat split.
  - by apply delete_app_fresh.
  - apply delete_app_fresh; [apply (Hrefs _ _ _ (int_keys d Hd))|].
    rewrite List.filter_app, (filter_nil _ _ Hu). simpl. rewrite Hrow. simpl.
    apply bool_decide_eq_true. rewrite Hpk. by apply list_elem_of_singleton.
  - apply with_rows_same, delete_none, (Hrefs _ _ _ (int_auths d Hd)).
  - apply with_rows_same, delete_none. intros r _. rewrite (filter_nil _ _ (Hrefs _ _ _ (int_auths d Hd))). done.
Qed.

Lemma undo_registration_restores d s pubkey tenant_id enc row :
  integrity d -> existsb (conflicts row) (db_users d) = false -> us_pubkey row = pubkey -> us_tenant_id row = tenant_id ->
  ac_db s = insert_personal_key pubkey enc tenant_id (set_users (db_users d ++ [row]) d) ->
  exists s', undo_registration pubkey tenant_id s = (s', Ok tt) /\ same_accounts d (ac_db s').
Proof.
  intros Hd Hc Hpk Ht Hs. pose proof (delete_new_user d pubkey tenant_id enc row Hd Hc Hpk Ht) as (Hu & Hk & Ha & Hr).
  unfold undo_registration, se_bind, try_repo. rewrite Hs.
  destruct (delete_users _ _) as [d1 r1]. simpl in *.
  eexists. split; [reflexivity|]. unfold ac_db, set_ac_db, os_db. simpl. repeat split; simpl; try done.
  rewrite Hk. apply delete_none. intros k Hin. apply not_true_iff_false.
  intros [E%bool_decide_eq_true _]%andb_true_iff.
  rewrite <- not_true_iff_false, existsb_elem in Hc. apply Hc.
  assert (Hin' : pk_user_pubkey k ∈ user_keys d) by (apply (int_keys d Hd), list_elem_of_fmap; eauto).
  unfold user_keys in Hin'. apply list_elem_of_fmap in Hin' as (v & Hv & Hinv). exists v. split; [done|].
  apply conflicts_pubkey. congruence.
Qed.
Lemma same_accounts_refl d : same_accounts d d.
Proof. done. Qed.

(** Every outcome of a registration: failure with the accounts as they were, or
    one new unverified user with the key, the queued job and the mail. *)
Lemma register_run now cfg tenant_id q token generated req s s' r :
  integrity (ac_db s) -> register now cfg tenant_id q token generated req s = (s', r) ->
  (is_ok r = false /\ same_accounts (ac_db s) (ac_db s')) \/
  exists keys enc uri resp,
    let pubkey := pk_to_hex (pk_of keys) in
    let row := registered_row now pubkey tenant_id (to_lowercase (rr_email req)) token uri in
    r = Ok resp /\ ar_pubkey resp = pubkey /\ km_encrypt (sk_to_bytes keys) = Ok enc /\
    existsb (conflicts row) (db_users (ac_db s)) = false /\
    ac_db s' = insert_personal_key pubkey enc tenant_id (set_users (db_users (ac_db s) ++ [row]) (ac_db s)) /\
    chan_try_send {| job_token := token; job_password := rr_password req |} (ac_jobs s) = (ac_jobs s', Ok tt).
Proof.
  intros Hd. unfold register, limit_rate, read_db, queue_job, on_repo, lift_account, send_mail, se_bind, se_gets, se_modify.
  destruct (allow_request _ _ _ _ _ _ _ _) as [redis [|]]; [|intros [= <- <-]; by left].
  set (keys := match rr_nsec req with Some nsec_str => _ | None => _ end).
  destruct (keys (set_ac_redis redis s)) as [s1 [sk|e]] eqn:Ek; subst keys.
  2: { intros [= <- <-]. left. split; [done|]. destruct (rr_nsec req); [|done].
       unfold se_lift in Ek. by injection Ek as <- _. }
  assert (s1 = set_ac_redis redis s) as ->.
  { destruct (rr_nsec req); [unfold se_lift in Ek; by injection Ek as <- _ | by apply se_ret_ok in Ek as [-> _]]. }
  clear Ek. destruct (negb _ && _); [intros [= <- <-]; by left|].
  unfold se_lift. destruct (km_encrypt _) as [enc|e] eqn:Henc; [|intros [= <- <-]; by left]. cbn [map_err].
  destruct (register_with_personal_key _ _ _ _ _ _ _ _ _ _) as [d1 r1] eqn:Hreg.
  apply register_with_personal_key_run in Hreg as [[-> Hr1]|(-> & Hc & ->)].
  { destruct r1; [done|]. intros [= <- <-]. left. done. }
  cbn [map_err].
  destruct (chan_try_send _ _) as [c [[]|e]] eqn:Hsend.
  - intros [= <- <-]. right. exists sk, enc. eexists _, _.
    split; [reflexivity|]. split; [reflexivity|]. split; [done|]. split; [exact Hc|].
    destruct (acf_email_service cfg); split; done.
  - intros H. left. match type of H with context [undo_registration _ _ ?st] =>
      destruct (undo_registration_restores (ac_db s) st (pk_to_hex (pk_of sk)) tenant_id enc _ Hd Hc eq_refl eq_refl eq_refl)
        as (s2 & Hundo & Hsame) end.
    rewrite Hundo in H. by injection H as <- <-.
Qed.

(** Registration is all or nothing.  When it fails, for whatever reason, the
    users, their keys, authorizations and tokens are as before, also when the row
    was already written and the queue of passwords is full; when it succeeds there
    is exactly one more user, unverified and without a password, whose key is
    stored encrypted and whose password is queued under its verification
    token. *)
Theorem registration_all_or_nothing now cfg tenant_id q token generated req s s' r :
  integrity (ac_db s) -> register now cfg tenant_id q token generated req s = (s', r) ->
  match r with
  | Err _ => same_accounts (ac_db s) (ac_db s')
  | Ok resp => exists u enc, db_users (ac_db s') = db_users (ac_db s) ++ [u] /\ us_pubkey u = ar_pubkey resp /\
      ar_pubkey resp ∉ user_keys (ac_db s) /\
      us_tenant_id u = tenant_id /\ us_email u = Some (to_lowercase (rr_email req)) /\
      us_email_verified u = false /\ us_password_hash u = None /\ us_email_verification_token u = Some token /\
      find_encrypted_key_by_tenant tenant_id (ar_pubkey resp) (ac_db s') = Some enc /\
      chan_try_send {| job_token := token; job_password := rr_password req |} (ac_jobs s) = (ac_jobs s', Ok tt)
  end.
Proof.
  intros Hd Hrun. destruct (register_run _ _ _ _ _ _ _ _ _ _ Hd Hrun) as [[Hr Hsame]|(keys & enc & uri & resp & -> & Hpk & _ & Hc & Hdb & Hsend)].
  { by destruct r. }
  exists (registered_row now (pk_to_hex (pk_of keys)) tenant_id (to_lowercase (rr_email req)) token uri), enc.
  rewrite Hdb, Hpk.
  assert (Hfresh : pk_to_hex (pk_of keys) ∉ user_keys (ac_db s)).
  { intros (v & Hv & Hin)%list_elem_of_fmap. rewrite <- not_true_iff_false, existsb_elem in Hc. apply Hc.
    exists v. split; [done|]. by apply conflicts_pubkey. }
  repeat split; try done. unfold find_encrypted_key_by_tenant. simpl.
  rewrite (find_first_unique _ _ {| pk_user_pubkey := pk_to_hex (pk_of keys); pk_encrypted_secret_key := enc;
                                    pk_tenant_id := tenant_id |}); [done| | |].
  - apply elem_of_app. right. constructor.
  - simpl. by rewrite Z.eqb_refl, bool_decide_true.
  - intros k [Hk|Hk%list_elem_of_singleton]%elem_of_app Hp; [|done].
    apply andb_true_iff in Hp as [_ Hp%bool_decide_eq_true]. destruct Hfresh. rewrite <- Hp.
    apply (int_keys _ Hd), list_elem_of_fmap. eauto.
Qed.

(** ** An account through the operations on it *)
Definition keeps_unique (f : user_row -> user_row) : Prop := forall u,
  us_pubkey (f u) = us_pubkey u /\ us_tenant_id (f u) = us_tenant_id u /\ us_email (f u) = us_email u /\
  us_username (f u) = us_username u /\ us_vine_id (f u) = us_vine_id u.

Lemma keeps_unique_conflicts f u v :
  us_pubkey (f u) = us_pubkey u -> keeps_unique f -> conflicts (f u) v = conflicts u v.
Proof. intros _ Hf. destruct (Hf u) as (E1 & E2 & E3 & E4 & E5). unfold conflicts, same_in_tenant. by rewrite E1, E2, E3, E4, E5. Qed.

Lemma users_distinct_kept now p f l :
  users_distinct l = true -> keeps_unique f ->
  users_distinct (update_where p (fun u => us_touch now (f u)) l) = true.
Proof.
  intros Hd Hf. rewrite <- Hd. apply users_distinct_map.
  assert (Hg : keeps_unique (fun u => us_touch now (f u))) by (intros u; apply (Hf u)).
  intros u v. destruct (p u), (p v); [| | |done];
    rewrite ?(keeps_unique_conflicts (fun u => us_touch now (f u)) u) by (apply Hg || done);
    rewrite ?(conflicts_sym u), ?(keeps_unique_conflicts (fun u => us_touch now (f u)) v) by (apply Hg || done);
    by rewrite ?(conflicts_sym u).
Qed.

Lemma update_users_kept now p f d :
  users_distinct (db_users d) = true -> keeps_unique f ->
  update_users now p f d = (set_users (update_where p (fun u => us_touch now (f u)) (db_users d)) d,
                            Ok (length (List.filter p (db_users d)))).
Proof. intros Hd Hf. unfold update_users. by rewrite users_distinct_kept. Qed.

Lemma existsb_update {A} (q p : A -> bool) g l :
  (forall v, q (g v) = q v) -> existsb q (update_where p g l) = existsb q l.
Proof. intros H. induction l as [|v l IH]; simpl; [done|]. rewrite <- IH. by destruct (p v); rewrite ?H. Qed.

(** A user of a tenant with the stored key. *)
Record account_at (d : Db) (tenant_id : Z) (u : user_row) (keys : SecretKey) : Prop := {
  at_distinct : users_distinct (db_users d) = true;
  at_user : u ∈ db_users d;
  at_tenant : us_tenant_id u = tenant_id;
  at_key : exists enc bytes, find_encrypted_key_for_tenant d (us_pubkey u) tenant_id = Some enc /\
             km_decrypt enc = Ok bytes /\ sk_from_slice bytes = Ok keys;
}.

Lemma same_row d tenant_id u keys v :
  account_at d tenant_id u keys -> v ∈ db_users d -> us_pubkey v = us_pubkey u -> v = u.
Proof. intros [Hd Hu _ _] Hv E. apply (users_distinct_same (db_users d)); [done..|]. by apply conflicts_pubkey. Qed.

Lemma account_find d tenant_id u keys :
  account_at d tenant_id u keys -> find_user (us_pubkey u) tenant_id d = Some u.
Proof.
  intros Ha. apply find_first_unique; [apply Ha | apply user_in_spec; split; [done | apply Ha]|].
  intros v Hv [E _]%user_in_spec. by eapply same_row.
Qed.

Lemma account_keys s tenant_id u keys :
  account_at (ac_db s) tenant_id u keys -> user_keys_of (us_pubkey u) tenant_id s = (s, Ok keys).
Proof.
  intros [_ _ _ (enc & bytes & H1 & H2 & H3)].
  unfold user_keys_of, lift_account, read_db, se_lift, se_gets, se_bind. rewrite H1. cbn [ok_or map_err].
  rewrite H2. cbn [map_err]. by rewrite H3.
Qed.

Lemma account_update now d tenant_id u keys p f :
  account_at d tenant_id u keys -> keeps_unique f -> p u = true ->
  account_at (fst (update_users now p f d)) tenant_id (us_touch now (f u)) keys.
Proof.
  intros [Hd Hu Ht Hk] Hf Hp. rewrite update_users_kept by done. cbn [fst].
  destruct (Hf u) as (E1 & E2 & _). split; simpl.
  - by apply users_distinct_kept.
  - apply update_where_elem. left. eauto.
  - by rewrite E2.
  - rewrite E1. destruct Hk as (enc & bytes & Hk & ?). exists enc, bytes. split; [|done].
    rewrite <- Hk. unfold find_encrypted_key_for_tenant. simpl. apply find_map_ext. intros k.
    rewrite existsb_update; [done|]. intros v. simpl. by destruct (Hf v) as (-> & -> & _).
Qed.

(** A browser's login: no signed event, an origin and the credentials. *)
Definition login_request (q : http_request) (body email password : string) : Prop :=
  (forall h, header_text "authorization" q = Some h -> starts_with "Nostr " h = false) /\
  is_Some (header_text "origin" q) /\ de_LoginRequest body = Ok {| lr_email := email; lr_password := password |}.

(** The ucan crate encodes what it is given. *)
Definition mints (sk : SecretKey) : Prop :=
  forall now aud life facts, is_ok (ucan_mint now sk aud life facts) = true.

Lemma login_succeeds `{HBL : !BcryptLaws} now cfg tenant_id q body email password s u keys :
  account_at (ac_db s) tenant_id u keys -> password_account (ac_db s) tenant_id email password u ->
  login_request q body email password -> mints keys ->
  exists cookie resp, login now cfg tenant_id q body s = (s, Ok (cookie, resp)) /\ ar_pubkey resp = us_pubkey u.
Proof.
  intros Ha (Hu & Ht & He & Hv & hash & Hh & Hver) (Hauth & [origin Ho] & Hbody) Hm.
  assert (E : login now cfg tenant_id q body s = password_login now cfg tenant_id q body s).
  { unfold login. destruct (header_text "authorization" q) as [h|]; [by rewrite Hauth | done]. }
  rewrite E. unfold password_login, lift_account, read_db, se_lift, se_gets, se_bind at 1. rewrite Hbody. cbn [map_err].
  cbn [lr_email lr_password]. unfold extract_origin_from_headers, se_bind at 1. rewrite Ho. cbn [ok_or map_err].
  unfold se_bind at 1.
  rewrite (find_with_password_unique _ _ _ u hash (at_distinct _ _ _ _ Ha) Hu (proj2 (email_in_spec _ _ _) (conj He Ht)) Hh).
  unfold se_bind at 1. rewrite (proj2 (bcrypt_check_verify _ _) Hver). cbn [map_err negb]. rewrite Hv. cbn [negb].
  unfold se_bind at 1. rewrite (account_keys s tenant_id u keys Ha). unfold se_bind, generate_ucan_token, se_ret.
  destruct (is_ok_Ok _ (Hm now (nostr_pubkey_to_did (pk_of keys)) (token_expiry_seconds (acf_oauth cfg) mod 2 ^ 64)
    (JObject ([("tenant_id", JInt tenant_id); ("email", JString (to_lowercase email)); ("redirect_origin", JString origin)] ++ []))))
    as [token ->].
  cbn [map_err]. eauto.
Qed.

Lemma keeps_set_hash h : keeps_unique (us_set_password_hash h).
Proof. by intros u. Qed.
Lemma keeps_set_verified b : keeps_unique (us_set_email_verified b).
Proof. by intros u. Qed.

(** A verification link that is followed in time, once the password is stored. *)
Lemma verify_succeeds now cfg tenant_id q new_code token s u keys expires :
  account_at (ac_db s) tenant_id u keys -> us_email_verification_token u = Some token ->
  (forall v, v ∈ db_users (ac_db s) -> us_email_verification_token v = Some token -> v = u) ->
  find_by_verification_token now token tenant_id (ac_db s) = None ->
  us_email_verified u = false -> us_email_verification_expires_at u = Some expires -> now <= expires ->
  is_Some (us_password_hash u) -> is_Some (us_email u) -> mints keys ->
  exists cookie r, verify_email now cfg tenant_id q new_code token s =
    (set_ac_db (fst (update_users now (user_in (us_pubkey u) tenant_id) (us_set_email_verified true) (ac_db s))) s,
     Ok (Some cookie, r)) /\ ve_success r = true /\ ve_authenticated r = Some true.
Proof.
  intros Ha Htok Huniq Hpend Hv Hexp Hnow [hash Hh] [email He] Hm.
  unfold verify_email, read_db, se_gets, se_bind at 1. rewrite Hpend. unfold se_bind at 1, user_find_by_verification_token.
  rewrite (find_first_unique _ _ u (at_user _ _ _ _ Ha)).
  2: { rewrite Htok, (at_tenant _ _ _ _ Ha), Z.eqb_refl. by rewrite bool_decide_true. }
  2: { intros v Hin [E%bool_decide_eq_true _]%andb_true_iff. by apply Huniq. }
  unfold se_bind at 1, lift_account, se_lift. cbn [ok_or map_err fmap option_fmap option_map].
  unfold verify_registered. cbn [vt_email_verified vt_email_verification_expires_at vt_password_hash vt_pubkey vt_redirect_uri].
  rewrite Hv, Hexp, Hh, (proj2 (Z.ltb_ge _ _) Hnow). cbn [is_null].
  unfold se_bind at 1, on_repo, repo_verify_email, se_bind at 1.
  pose proof (account_update now _ _ _ _ (user_in (us_pubkey u) tenant_id) _ Ha (keeps_set_verified true)
    (proj2 (user_in_spec _ _ _) (conj eq_refl (at_tenant _ _ _ _ Ha)))) as Ha'.
  rewrite (update_users_kept _ _ _ _ (at_distinct _ _ _ _ Ha) (keeps_set_verified true)) in *. cbn [fst] in Ha'. cbn [se_ret map_err fst].
  set (d' := set_users _ (ac_db s)) in *. set (s1 := set_ac_db d' s).
  unfold se_bind at 1, read_repo, get_email. change (ac_db s1) with d'.
  pose proof (account_find _ _ _ _ Ha') as Hf. unfold find_user in Hf.
  change (us_pubkey (us_touch now (us_set_email_verified true u))) with (us_pubkey u) in Hf. rewrite Hf. unfold fetch_one. cbn [ok_or rbind].
  change (us_email (us_touch now (us_set_email_verified true u))) with (us_email u). rewrite He. cbn [ok_or map_err].
  unfold se_bind at 1. pose proof (account_keys s1 tenant_id _ keys Ha') as Hk.
  change (us_pubkey (us_touch now (us_set_email_verified true u))) with (us_pubkey u) in Hk. rewrite Hk.
  unfold se_bind, generate_ucan_token, se_ret.
  match goal with |- context [ucan_mint ?n ?k ?a ?l ?f] => destruct (is_ok_Ok _ (Hm n a l f)) as [t ->] end.
  cbn [map_err]. eexists _, _. split; [reflexivity|]. done.
Qed.

(** A fresh verification token: no user and no pending registration has it. *)
Definition token_unused (token : string) (d : Db) : Prop :=
  Forall (fun u => us_email_verification_token u <> Some token) (db_users d) /\
  Forall (fun r => oc_pending_email_verification_token r <> Some token) (db_oauth_codes d).

Lemma no_pending_code now token tenant_id d :
  Forall (fun r => oc_pending_email_verification_token r <> Some token) (db_oauth_codes d) ->
  find_by_verification_token now token tenant_id d = None.
Proof.
  intros H. unfold find_by_verification_token.
  rewrite (proj2 (find_first_None _ _)); [done|]. intros r Hr. rewrite Forall_forall in H.
  by rewrite bool_decide_false by by apply H.
Qed.

(** The account of a registration, with its token carried by it alone. *)
Lemma registered_account `{HKL : !KeyLaws} now tenant_id email token uri keys enc d :
  integrity d -> Forall (fun u => us_email_verification_token u <> Some token) (db_users d) ->
  let row := registered_row now (pk_to_hex (pk_of keys)) tenant_id email token uri in
  let d' := insert_personal_key (pk_to_hex (pk_of keys)) enc tenant_id (set_users (db_users d ++ [row]) d) in
  existsb (conflicts row) (db_users d) = false -> km_encrypt (sk_to_bytes keys) = Ok enc ->
  account_at d' tenant_id row keys /\
  forall v, v ∈ db_users d' -> us_email_verification_token v = Some token -> v = row.
Proof.
  intros Hd Htok row d' Hc Henc.
  assert (Hin : row ∈ db_users d') by (simpl; apply elem_of_app; right; constructor).
  split; [split|].
  - simpl. by rewrite users_distinct_app, (int_users d Hd), Hc.
  - done.
  - done.
  - exists enc, (sk_to_bytes keys). split; [|split; [by apply km_round_trip | apply sk_bytes_round_trip]].
    apply (find_map_first _ _ {| pk_user_pubkey := pk_to_hex (pk_of keys); pk_encrypted_secret_key := enc;
                                 pk_tenant_id := tenant_id |}).
    + simpl. apply elem_of_app. right. constructor.
    + cbn [pk_user_pubkey]. rewrite bool_decide_true by done.
      replace (existsb _ (db_users d')) with true; [done|]. symmetry. apply existsb_elem.
      exists row. split; [done|]. by apply user_in_spec.
    + intros k b [Hk|Hk%list_elem_of_singleton]%elem_of_app; [|done].
      destruct (bool_decide _) eqn:E; [|done]. apply bool_decide_eq_true in E. intros _. exfalso.
      assert (Hkey : pk_user_pubkey k ∈ user_keys d) by (apply (int_keys d Hd), list_elem_of_fmap; eauto).
      apply list_elem_of_fmap in Hkey as (v & Hv & Hv').
      rewrite <- not_true_iff_false, existsb_elem in Hc. apply Hc. exists v. split; [done|].
      apply conflicts_pubkey. simpl in *. congruence.
  - intros v [Hv|Hv%list_elem_of_singleton]%elem_of_app E; [|done].
    rewrite Forall_forall in Htok. by destruct (Htok v Hv).
Qed.

(** [C29] A registration leads to a login.  When a registration has succeeded, its
    queued password has been hashed and the verification link is followed within
    the day, then the link signs the user in and the email, in any case, with the
    chosen password signs in to the registered key. *)
Theorem register_then_login `{HBL : !BcryptLaws, HKL : !KeyLaws} now1 now2 now3 now4 cfg tenant_id q1 q3 q4 token generated
    req new_code salt hash body email s s1 resp :
  integrity (ac_db s) -> token_unused token (ac_db s) -> (forall sk, mints sk) ->
  register now1 cfg tenant_id q1 token generated req s = (s1, Ok resp) ->
  bcrypt_hash DEFAULT_COST salt (rr_password req) = Ok hash ->
  now3 <= now1 + 86400 -> to_lowercase email = to_lowercase (rr_email req) ->
  login_request q4 body email (rr_password req) ->
  let job := {| job_token := token; job_password := rr_password req |} in
  let s2 := set_ac_db (bcrypt_worker now2 salt job (ac_db s1)) s1 in
  exists s3 cookie verified s4 cookie' session,
    verify_email now3 cfg tenant_id q3 new_code token s2 = (s3, Ok (Some cookie, verified)) /\ ve_success verified = true /\
    login now4 cfg tenant_id q4 body s3 = (s4, Ok (cookie', session)) /\ ar_pubkey session = ar_pubkey resp.
Proof.
  intros Hd [Htok Hcodes] Hm Hreg Hhash Hnow Hemail Hq job s2.
  destruct (register_run _ _ _ _ _ _ _ _ _ _ Hd Hreg) as [[Hr _]|(keys & enc & uri & resp' & Hr & Hpk & Henc & Hc & Hdb & _)];
    [done|]. injection Hr as <-.
  pose proof (registered_account now1 tenant_id _ token uri keys enc (ac_db s) Hd Htok Hc Henc) as [Ha Huniq].
  rewrite <- Hdb in Ha, Huniq. set (row := registered_row _ _ _ _ _ _) in *.
  assert (Hs2 : ac_db s2 = fst (update_users now2 (carries token) (us_set_password_hash (Some hash)) (ac_db s1))).
  { subst s2. change (ac_db (set_ac_db ?d ?s)) with d. unfold bcrypt_worker, job. cbn [job_password job_token]. by rewrite Hhash. }
  pose proof (account_update now2 _ _ _ _ (carries token) _ Ha (keeps_set_hash (Some hash)) ltac:(by apply bool_decide_true)) as Ha2.
  rewrite <- Hs2 in Ha2. set (row2 := us_touch now2 (us_set_password_hash (Some hash) row)) in *.
  assert (Hu2 : forall v, v ∈ db_users (ac_db s2) -> us_email_verification_token v = Some token -> v = row2).
  { rewrite Hs2, (update_users_kept _ _ _ _ (at_distinct _ _ _ _ Ha) (keeps_set_hash (Some hash))).
    cbn [fst]. intros v [(w & Hw & _ & ->)|[Hv Hn]]%update_where_elem E.
    - by rewrite (Huniq w Hw E).
    - unfold carries in Hn. by rewrite bool_decide_true in Hn. }
  destruct (verify_succeeds now3 cfg tenant_id q3 new_code token s2 row2 keys (now1 + 86400)) as (cookie & r & Hv & Hsucc & _);
    [done| done| done| | done| done| done| by eexists| by eexists| done|].
  { apply no_pending_code. rewrite Hs2, (update_users_kept _ _ _ _ (at_distinct _ _ _ _ Ha) (keeps_set_hash (Some hash))).
    cbn [fst]. rewrite Hdb. exact Hcodes. }
  pose proof (account_update now3 _ _ _ _ (user_in (us_pubkey row2) tenant_id) _ Ha2 (keeps_set_verified true)
    (proj2 (user_in_spec _ _ _) (conj eq_refl (at_tenant _ _ _ _ Ha2)))) as Ha3.
  match type of Hv with _ = (?st, _) => set (s3 := st) in * end.
  destruct (login_succeeds now4 cfg tenant_id q4 body email (rr_password req) s3
    (us_touch now3 (us_set_email_verified true row2)) keys) as (cookie' & session & Hl & Hlpk); [done| |done|done|].
  - split; [apply (at_user _ _ _ _ Ha3)|]. rewrite Hemail. repeat split. exists hash. split; [done|]. by eapply bcrypt_hash_verifies.
  - exists s3, cookie, r, s3, cookie', session. rewrite Hlpk, Hpk. repeat split; done.
Qed.

(** ** A registration that is stranded *)
Definition reissue (now : Z) (token : string) (u : user_row) : user_row :=
  us_set_verification_sent now (us_set_verification (Some token) (Some (now + EMAIL_VERIFICATION_EXPIRY_HOURS * 3600)) u).
Lemma keeps_reissue now token : keeps_unique (reissue now token).
Proof. by intros u. Qed.

(** Without a session, an unverified account that was sent no second mail gets a
    new token. *)
Lemma resend_run now cfg tenant_id q token email s u keys :
  account_at (ac_db s) tenant_id u keys -> (forall p, extract_user_from_token now cfg q tenant_id <> Ok p) ->
  us_email u = Some (to_lowercase email) -> us_email_verified u = false -> us_email_verification_sent_at u = None ->
  exists s', send_verification_again now cfg tenant_id q token (Some email) s = (s', Ok resend_response) /\
    ac_db s' = fst (update_users now (user_in (us_pubkey u) tenant_id) (reissue now token) (ac_db s)).
Proof.
  intros Ha Hno He Hv Hsent. unfold send_verification_again, read_db, se_gets, se_bind at 1, resend_lookup.
  destruct (extract_user_from_token _ _ _ _) as [p|]; [by destruct (Hno p)|]. cbn [fmap option_fmap option_map].
  unfold get_verification_status_by_email, find_user_by_email.
  rewrite (find_first_unique _ _ u (at_user _ _ _ _ Ha)).
  2: { apply email_in_spec. split; [done | apply Ha]. }
  2: { intros v Hin Hv'. apply (users_distinct_same _ _ _ (at_distinct _ _ _ _ Ha) Hin (at_user _ _ _ _ Ha)).
       eapply conflicts_email; [done|]. apply email_in_spec. split; [done | apply Ha]. }
  cbn [fmap option_fmap option_map]. rewrite Hv, Hsent. unfold try_repo, set_verification_token, se_bind.
  fold (reissue now token). change (fun u : user_row => us_set_verification_sent now _) with (reissue now token).
  rewrite (update_users_kept _ _ _ _ (at_distinct _ _ _ _ Ha) (keeps_reissue now token)).
  unfold send_mail, se_modify. cbn [se_ret is_ok fst]. eexists. split; [reflexivity|]. by destruct (acf_email_service cfg).
Qed.

(** Asking for the verification mail again before the password is hashed
    strands the registration: the new link replaces the token by which the queued
    job finds its row, so that the job stores nothing, the new link answers that
    the registration expired, and the password does not sign in. *)
Theorem resend_strands_registration `{HKL : !KeyLaws} now1 now2 now3 now4 now5 cfg tenant_id q1 q2 q4 q5 token token' generated req
    new_code salt body email s s1 s2 resp r :
  integrity (ac_db s) -> token_unused token (ac_db s) -> token_unused token' (ac_db s) -> token <> token' ->
  register now1 cfg tenant_id q1 token generated req s = (s1, Ok resp) ->
  (forall p, extract_user_from_token now2 cfg q2 tenant_id <> Ok p) ->
  send_verification_again now2 cfg tenant_id q2 token' (Some (rr_email req)) s1 = (s2, Ok r) ->
  now1 + 120 < now4 <= now2 + 86400 -> to_lowercase email = to_lowercase (rr_email req) ->
  login_request q5 body email (rr_password req) ->
  let job := {| job_token := token; job_password := rr_password req |} in
  let s3 := set_ac_db (bcrypt_worker now3 salt job (ac_db s2)) s2 in
  db_users (ac_db s3) = db_users (ac_db s2) /\
  verify_email now4 cfg tenant_id q4 new_code token' s3 = (s3, Err (Failed AcE_RegistrationExpired)) /\
  login now5 cfg tenant_id q5 body s3 = (s3, Err (Failed AcE_InvalidCredentials)).
Proof.
  intros Hd [Htok _] [Htok' Hcodes] Hne Hreg Hno Hsend Hnow Hemail (Hauth & [origin Ho] & Hbody) job s3.
  destruct (register_run _ _ _ _ _ _ _ _ _ _ Hd Hreg) as [[Hr _]|(keys & enc & uri & resp' & Hr & _ & Henc & Hc & Hdb & _)];
    [done|]. clear Hr.
  pose proof (registered_account now1 tenant_id _ token uri keys enc (ac_db s) Hd Htok Hc Henc) as [Ha _].
  rewrite <- Hdb in Ha. set (row := registered_row _ _ _ _ _ _) in *.
  destruct (resend_run now2 cfg tenant_id q2 token' (rr_email req) s1 row keys Ha Hno eq_refl eq_refl eq_refl) as (s' & E & Hdb2).
  rewrite E in Hsend. injection Hsend as -> <-. clear E.
  pose proof (account_update now2 _ _ _ _ (user_in (us_pubkey row) tenant_id) _ Ha (keeps_reissue now2 token')
    ltac:(by apply user_in_spec)) as Ha2. rewrite <- Hdb2 in Ha2. set (row2 := us_touch now2 (reissue now2 token' row)) in *.
  assert (Hu2 : forall v, v ∈ db_users (ac_db s2) -> v = row2 \/ v ∈ db_users (ac_db s)).
  { rewrite Hdb2, (update_users_kept _ _ _ _ (at_distinct _ _ _ _ Ha) (keeps_reissue now2 token')). cbn [fst].
    intros v [(w & Hw & Hin & ->)|[Hv Hn]]%update_where_elem.
    - left. apply user_in_spec in Hin as [Hin _]. by rewrite (same_row _ _ _ _ w Ha Hw Hin).
    - rewrite Hdb in Hv. apply elem_of_app in Hv as [Hv|Hv%list_elem_of_singleton]; [by right|]. subst v.
      replace (user_in (us_pubkey row) tenant_id _) with true in Hn; [done|]. symmetry. by apply user_in_spec. }
  assert (Hkeep : ac_db s3 = ac_db s2).
  { subst s3. change (ac_db (set_ac_db ?d ?s)) with d. unfold bcrypt_worker. destruct (bcrypt_hash _ _ _); [|done].
    rewrite (update_users_kept _ _ _ _ (at_distinct _ _ _ _ Ha2) (keeps_set_hash _)). cbn [fst].
    rewrite update_where_none; [by destruct (ac_db s2)|]. intros v Hv. unfold carries. apply bool_decide_eq_false.
    rewrite Forall_forall in Htok. destruct (Hu2 v Hv) as [->|Hin]; [|by apply Htok]. simpl. congruence. }
  rewrite <- Hkeep in Ha2, Hu2. split; [by rewrite Hkeep|]. split.
  - unfold verify_email, read_db, se_gets, se_bind at 1. rewrite no_pending_code.
    2: { rewrite Hkeep, Hdb2, (update_users_kept _ _ _ _ (at_distinct _ _ _ _ Ha) (keeps_reissue now2 token')).
         cbn [fst]. rewrite Hdb. exact Hcodes. }
    unfold se_bind at 1, user_find_by_verification_token. rewrite (find_first_unique _ _ row2 (at_user _ _ _ _ Ha2)).
    2: { rewrite (at_tenant _ _ _ _ Ha2), Z.eqb_refl. simpl. by rewrite bool_decide_true. }
    2: { intros v Hin [Et%bool_decide_eq_true _]%andb_true_iff. destruct (Hu2 v Hin) as [->|Hv]; [done|].
         rewrite Forall_forall in Htok'. by destruct (Htok' v Hv). }
    unfold se_bind, lift_account, se_lift. cbn [ok_or map_err fmap option_fmap option_map].
    unfold verify_registered.
    cbn [vt_email_verified vt_email_verification_expires_at vt_password_hash vt_created_at row2 reissue row registered_row
         us_touch us_set_verification_sent us_set_verification us_set_redirect_uri us_set_password_hash us_set_email new_user
         us_email_verified us_email_verification_expires_at us_password_hash us_created_at is_null].
    rewrite (proj2 (Z.ltb_ge _ _)) by (unfold EMAIL_VERIFICATION_EXPIRY_HOURS; lia).
    by rewrite (proj2 (Z.ltb_lt _ _)) by lia.
  - assert (E : login now5 cfg tenant_id q5 body s3 = password_login now5 cfg tenant_id q5 body s3).
    { unfold login. destruct (header_text "authorization" q5) as [h|]; [by rewrite Hauth | done]. }
    rewrite E. unfold password_login, lift_account, read_db, se_lift, se_gets, se_bind. rewrite Hbody. cbn [map_err].
    unfold extract_origin_from_headers. rewrite Ho. cbn [ok_or map_err lr_email].
    unfold find_with_password. rewrite find_map_None; [done|]. intros v Hv. destruct (email_in _ _ v) eqn:Ev; [|done].
    assert (v = row2) as ->; [|done].
    apply (users_distinct_same _ _ _ (at_distinct _ _ _ _ Ha2) Hv (at_user _ _ _ _ Ha2)).
    eapply conflicts_email; [done|]. apply email_in_spec. split; [by rewrite Hemail | apply Ha2].
Qed.
End accounts_safety.

(** ** Witnesses

    Sessions are signed by the user "Pu" for https://app.example; a login body is
    an email and a password separated by a blank. *)
#[export] Instance session_ucan : UcanLib := {
  Ucan := string;
  ucan_parse s := Ok s;
  ucan_check_signature _ := Ok tt;
  ucan_is_expired now _ := 100000 <=? now;
  ucan_facts _ := [JObject [("redirect_origin", JString "https://app.example"); ("tenant_id", JInt 1)]];
  ucan_issuer _ := toy_did "Pu";
  ucan_audience _ := toy_did "Pu";
}.
#[export] Instance session_mint : UcanMint := { ucan_mint _ _ aud _ _ := Ok ("session of " +:+ aud) }.
#[export] Instance plain_url : UrlLib := {
  url_parse s := (fun h => {| url_scheme := "https"; url_host_str := Some h; url_port := None |}) <$> strip_prefix "https://" s;
  urlencode s := s }.
#[export] Instance blank_login : LoginSerde := {
  de_LoginRequest body := match split " " body with
    | [e; p] => Ok {| lr_email := e; lr_password := p |}
    | _ => Err "missing field" end }.

Definition toy_account_config : account_config := {|
  acf_oauth := sample_config; acf_auth := toy_auth_env; acf_app_url := None; acf_allowed_origins := None;
  acf_ip_limit := None; acf_secure_cookies := true; acf_email_service := true |}.
Definition state_of (d : Db) : account_state := {|
  ac_oauth := {| os_rpc := {| rs_db := d; rs_cache := ∅ |}; os_sent := [] |}; ac_redis := ∅;
  ac_jobs := bounded BcryptJob 2; ac_mail := [] |}.
Definition from_app (headers : list (string * string)) : http_request := {|
  hq_method := "POST"; hq_uri := {| uri_host := None; uri_path := "/login"; uri_path_and_query := Some "/login" |};
  hq_original_uri := None;
  hq_headers := ("origin", Some "https://app.example") :: map (fun h => (fst h, Some (snd h))) headers |}.
Definition ann_registers : RegisterRequest := {|
  rr_email := "Ann@b"; rr_password := "secret"; rr_nsec := None; rr_relays := None; rr_redirect_uri := None |}.
Definition verified_db : Db :=
  set_users [us_set_email_verified true (us_set_password_hash (Some "Hpw") (us_set_email (Some "u@b") (new_user 0 "Pu" 1)))]
    (sample_db [sample_oauth None None None] []).

Lemma login_sound_witness :
  exists cookie resp,
    login 10 toy_account_config 1 (from_app []) "U@b pw" (state_of verified_db) = (state_of verified_db, Ok (cookie, resp)) /\
    exists u, password_account verified_db 1 "U@b" "pw" u /\ ar_pubkey resp = us_pubkey u.
Proof.
  destruct (run_ok (login 10 toy_account_config 1 (from_app []) "U@b pw" (state_of verified_db))) as (s' & [cookie resp] & E);
    [vm_compute; reflexivity|].
  destruct (login_sound _ _ _ _ _ _ _ _ _ E) as [-> (o & _ & [(req & u & keys & t & Hreq & Hacc & Hpk & _)|(h & url & event & role & sk & t & Hh & _)])].
  - exists cookie, resp. split; [exact E|]. exists u. injection Hreq as <-. exact (conj Hacc Hpk).
  - exfalso. vm_compute in Hh. discriminate Hh.
Defined.

Lemma registration_all_or_nothing_witness :
  (exists s' resp u, register 10 toy_account_config 1 (from_app []) "tok" "a" ann_registers (state_of account_db) = (s', Ok resp) /\
     db_users (ac_db s') = db_users account_db ++ [u] /\ us_password_hash u = None) /\
  (exists s' e, register 10 toy_account_config 1 (from_app []) "tok" "a" ann_registers
      (set_ac_jobs (bounded BcryptJob 0) (state_of account_db)) = (s', Err e) /\ same_accounts account_db (ac_db s')).
Proof.
  split.
  - destruct (run_ok (register 10 toy_account_config 1 (from_app []) "tok" "a" ann_registers (state_of account_db)))
      as (s' & resp & E); [vm_compute; reflexivity|].
    destruct (registration_all_or_nothing 10 toy_account_config 1 (from_app []) "tok" "a" ann_registers (state_of account_db)
      s' (Ok resp) account_db_integrity E) as (u & enc & Hu & _ & _ & _ & _ & _ & Hh & _).
    exists s', resp, u. exact (conj E (conj Hu Hh)).
  - destruct (register 10 toy_account_config 1 (from_app []) "tok" "a" ann_registers
      (set_ac_jobs (bounded BcryptJob 0) (state_of account_db))) as [s' [resp|e]] eqn:E; [exfalso; vm_compute in E; discriminate E|].
    exists s', e. split; [reflexivity|]. 
    exact (registration_all_or_nothing 10 toy_account_config 1 (from_app []) "tok" "a" ann_registers
      (set_ac_jobs (bounded BcryptJob 0) (state_of account_db)) s' (Err e) account_db_integrity E).
Defined.

Lemma ann_token_unused token : token_unused token account_db.
Proof. split; repeat constructor; vm_compute; discriminate. Qed.

Lemma register_then_login_witness :
  exists s1 resp s3 s4 cookie' session,
    register 10 toy_account_config 1 (from_app []) "tok" "a" ann_registers (state_of account_db) = (s1, Ok resp) /\
    login 40 toy_account_config 1 (from_app []) "ANN@b secret" s3 = (s4, Ok (cookie', session)) /\
    ar_pubkey session = ar_pubkey resp.
Proof.
  destruct (run_ok (register 10 toy_account_config 1 (from_app []) "tok" "a" ann_registers (state_of account_db)))
    as (s1 & resp & E); [vm_compute; reflexivity|].
  destruct (register_then_login 10 20 30 40 toy_account_config 1 (from_app []) (from_app []) (from_app []) "tok" "a"
    ann_registers "code" "salt" "Hsecret" "ANN@b secret" "ANN@b" (state_of account_db) s1 resp)
    as (s3 & c & v & s4 & cookie' & session & _ & _ & Hl & Hpk).
  - exact account_db_integrity.
  - exact (ann_token_unused "tok").
  - by intros sk now aud life facts.
  - exact E.
  - reflexivity.
  - lia.
  - vm_compute. reflexivity.
  - split; [by intros h|]. split; [by eexists | reflexivity].
  - exists s1, resp, s3, s4, cookie', session. exact (conj E (conj Hl Hpk)).
Defined.

Lemma resend_strands_registration_witness :
  exists s1 s2 resp r,
    register 10 toy_account_config 1 (from_app []) "tok" "a" ann_registers (state_of account_db) = (s1, Ok resp) /\
    send_verification_again 20 toy_account_config 1 (from_app []) "tok2" (Some "Ann@b") s1 = (s2, Ok r) /\
    let s3 := set_ac_db (bcrypt_worker 30 "salt" {| job_token := "tok"; job_password := "secret" |} (ac_db s2)) s2 in
    verify_email 500 toy_account_config 1 (from_app []) "code" "tok2" s3 = (s3, Err (Failed AcE_RegistrationExpired)).
Proof.
  destruct (run_ok (register 10 toy_account_config 1 (from_app []) "tok" "a" ann_registers (state_of account_db)))
    as (s1 & resp & E); [vm_compute; reflexivity|].
  destruct (run_ok (send_verification_again 20 toy_account_config 1 (from_app []) "tok2" (Some "Ann@b")
    (fst (register 10 toy_account_config 1 (from_app []) "tok" "a" ann_registers (state_of account_db)))))
    as (s2 & r & E2); [vm_compute; reflexivity|].
  rewrite E in E2. exists s1, s2, resp, r. split; [exact E|]. split; [exact E2|].
  refine (proj1 (proj2 (resend_strands_registration 10 20 30 500 600 toy_account_config 1 (from_app []) (from_app [])
    (from_app []) (from_app []) "tok" "tok2" "a" ann_registers "code" "salt" "Ann@b secret" "Ann@b" (state_of account_db)
    s1 s2 resp r account_db_integrity (ann_token_unused _) (ann_token_unused _) _ E _ E2 _ _ _))).
  - discriminate.
  - intros p. vm_compute. discriminate.
  - lia.
  - reflexivity.
  - split; [by intros h|]. split; [by eexists | reflexivity].
Defined.
