(* ===== verification/AccountKeysSafety.v ===== *)
(** * Properties of passwords, keys, connections and deletion

    Password resets, the operations that ask for the password again, bunker
    connections and the deletion of an account. *)
From S2P Require Import Prelude RustStr External Instances Database Samples Tokens Permissions Policies AuthTypes Signer Ucan HttpRpc OAuthRepo Users UsersSafety OAuth OAuthSafety WorkQueue Queues RateLimit Tenant Nip98 Accounts AccountKeys AccountsSafety.

Section account_keys_safety.
Context `{HN : Nostr, HC : !NostrCrypto, HS : !Serde, HX : !Secrets, HB : Bcrypt, HD : Digests, HE : !Encodings,
          HV : !HttpEvents, HU : UcanLib, HM : !UcanMint, HL : UrlLib, HUni : Unicode, HI : Ipv6, HCh : Channel,
          HLS : LoginSerde, HBe : !Bech32}.


(** ** Password resets *)
Definition after_reset (now : Z) (hash : string) (u : user_row) : user_row :=
  us_touch now (us_set_verification None None (us_set_email_verified true
    (us_set_reset None None (us_set_password_hash (Some hash) u)))).

(** A reset link works once and in time.  When a reset succeeds, its token was
    an account's of the tenant and had not expired; that account then has a hash
    of the new password and a verified email, every other row is unchanged, and
    the same link is refused from then on. *)
Theorem reset_link_works_once `{HBL : !BcryptLaws} now tenant_id salt req s s' resp :
  users_distinct (db_users (ac_db s)) = true ->
  (forall u v, u ∈ db_users (ac_db s) -> v ∈ db_users (ac_db s) -> us_password_reset_token u = Some (rs_token req) ->
     us_password_reset_token v = Some (rs_token req) -> u = v) ->
  reset_password now tenant_id salt req s = (s', Ok resp) -> sr_success resp = true ->
  exists u hash, u ∈ db_users (ac_db s) /\ us_tenant_id u = tenant_id /\
    us_password_reset_token u = Some (rs_token req) /\
    (forall e, us_password_reset_expires_at u = Some e -> now <= e) /\
    bcrypt_verify (rs_new_password req) hash = true /\
    after_reset now hash u ∈ db_users (ac_db s') /\
    (forall v, v ∈ db_users (ac_db s) -> v <> u -> v ∈ db_users (ac_db s')) /\
    forall now' salt' req', rs_token req' = rs_token req ->
      reset_password now' tenant_id salt' req' s' = (s', Err (Failed AcE_InvalidToken)).
Proof.
  intros Hd Huniq H Hsucc. unfold reset_password in H. ac_inv. subst.
  match goal with H : prefix_str _ _ = Some ?x |- _ => rename H into Hslice; rename x into shown end.
  match goal with H : find_by_reset_token _ _ _ = Some ?x |- _ => rename H into Hf; destruct x as [pubkey expires] end.
  unfold find_by_reset_token in Hf. destruct (find_first _ _) as [u|] eqn:Hu; [|done].
  simpl in Hf. injection Hf as <- <-. apply find_first_Some in Hu as [Hu Hp]. bool_to_prop.
  match goal with H : (if ?b then _ else _) _ = _ |- _ => destruct b eqn:Hexp; [apply se_ret_ok in H as [-> ->]; done|] end.
  ac_inv. subst resp. unfold repo_reset_password in *.
  match goal with H : bcrypt_hash _ _ _ = Ok ?x |- _ => rename H into Hhash; rename x into hash end.
  match goal with H : se_bind _ _ _ = _ |- _ => apply se_bind_ok in H as (d1 & n & H & E); apply se_ret_ok in E as [-> _];
    apply update_users_ok in H as [-> _] end.
  exists u, hash. split; [done|]. split; [done|]. split; [done|]. split.
  { intros e He. rewrite He in Hexp. bool_to_prop. lia. }
  split; [by eapply bcrypt_hash_verifies|]. split; [|split].
  - change (ac_db (set_ac_db ?d ?s)) with d. simpl. apply update_where_elem. left. exists u. split; [done|]. split; [|done].
    by apply user_in_spec.
  - intros v Hv Hne. change (ac_db (set_ac_db ?d ?s)) with d. simpl. apply update_where_elem. right. split; [done|].
    apply not_true_iff_false. intros [E _]%user_in_spec. apply Hne.
    apply (users_distinct_same _ _ _ Hd Hv Hu). by apply conflicts_pubkey.
  - intros now' salt' req' E. unfold reset_password, se_lift, se_bind at 1. rewrite E, Hslice. cbn [ok_or].
    unfold se_bind at 1, read_db, se_gets. change (ac_db (set_ac_db ?d ?s)) with d. unfold find_by_reset_token. simpl db_users.
    rewrite find_first_update_none; [done| |].
    + by intros v Hv Hin.
    + intros v Hv Hin. apply not_true_iff_false. intros [Ev%bool_decide_eq_true Et]%andb_true_iff.
      rewrite (Huniq v u Hv Hu Ev) in Hin by done. rewrite <- not_true_iff_false in Hin. apply Hin. by apply user_in_spec.
Qed.

(** ** Operations behind the password *)

(** The password of the account a session belongs to. *)
Definition proves_password (now : Z) (cfg : account_config) (tenant_id : Z) (q : http_request) (d : Db)
    (password : string) (u : user_row) : Prop :=
  extract_user_from_token now cfg q tenant_id = Ok (us_pubkey u) /\ u ∈ db_users d /\ us_tenant_id u = tenant_id /\
  exists hash, us_password_hash u = Some hash /\ bcrypt_verify password hash = true.

Inductive protected_op : Type :=
| VerifyForExport (password : string)
| ExportKey (req : json)
| ChangePassword (salt current_password new_password : string)
| ChangeKey (generated : SecretKey) (password : string) (nsec : option string).

Definition discard {A} (c : SE account_state account_abort A) : SE account_state account_abort unit :=
  let! _ := c in se_ret tt.
Definition run_protected (now : Z) (cfg : account_config) (tenant_id : Z) (q : http_request) (op : protected_op)
  : SE account_state account_abort unit :=
  match op with
  | VerifyForExport password => discard (verify_password_for_export now cfg tenant_id q password)
  | ExportKey req => discard (export_key now cfg tenant_id q req)
  | ChangePassword salt current_password new_password =>
      discard (change_password now cfg tenant_id q salt current_password new_password)
  | ChangeKey generated password nsec => discard (change_key now cfg tenant_id q generated password nsec)
  end.
Definition given_password (op : protected_op) : option string :=
  match op with
  | VerifyForExport password | ChangePassword _ password _ | ChangeKey _ password _ => Some password
  | ExportKey req => v ← json_lookup req "password"; as_str v
  end.

Lemma check_password_ok `{HBL : !BcryptLaws} password hash s s' u :
  check_password password hash s = (s', Ok u) -> s' = s /\ bcrypt_verify password hash = true.
Proof.
  unfold check_password. intros H. ac_inv.
  match goal with H : bcrypt_check _ _ = Ok ?b |- _ => destruct b; [|done]; apply bcrypt_check_verify in H end.
  simpl in *. ac_inv. done.
Qed.

Lemma credentials_row pubkey tenant_id d c :
  get_credentials_with_verified pubkey tenant_id d = Ok (Some c) ->
  exists u, u ∈ db_users d /\ us_pubkey u = pubkey /\ us_tenant_id u = tenant_id /\
    us_email u = Some (fst (fst c)) /\ us_password_hash u = Some (snd (fst c)) /\ us_email_verified u = snd c.
Proof.
  unfold get_credentials_with_verified, find_user. destruct (find_first _ _) as [u|] eqn:Hf; [|done].
  apply find_first_Some in Hf as [Hu [Hp Ht]%user_in_spec]. unfold not_null. intros H. inv_ok. exists u. simpl. done.
Qed.

Lemma credentials_of_ok pubkey tenant_id s s' c :
  credentials_of pubkey tenant_id s = (s', Ok c) ->
  s' = s /\ exists u, u ∈ db_users (ac_db s) /\ us_pubkey u = pubkey /\ us_tenant_id u = tenant_id /\
    us_email u = Some (fst c) /\ us_password_hash u = Some (snd c).
Proof.
  unfold credentials_of. intros H. ac_inv. subst. split; [done|].
  match goal with H : get_credentials _ _ _ = _ |- _ => unfold get_credentials in H; apply rbind_ok in H as (o & Ho & H) end.
  destruct o as [c'|]; [|done]. simpl in *. simplify_eq. apply credentials_row in Ho as (u & ? & ? & ? & ? & ? & _). eauto 10.
Qed.

(** An operation that only reads, refuses, or has the current password. *)
Lemma discard_run {A} (c : SE account_state account_abort A) s s' r :
  discard c s = (s', r) -> exists r', c s = (s', r') /\ is_ok r' = is_ok r.
Proof. unfold discard, se_bind. destruct (c s) as [s1 [a|e]]; intros [= <- <-]; eauto. Qed.
Lemma credentials_of_same pubkey tenant_id s : fst (credentials_of pubkey tenant_id s) = s.
Proof. unfold credentials_of, read_repo, se_bind, lift_account, se_lift. by destruct (map_err _ _). Qed.
Lemma check_password_same password hash s : fst (check_password password hash s) = s.
Proof. unfold check_password, se_bind, lift_account, se_lift. destruct (map_err _ _) as [b|e]; [|done]. by destruct b. Qed.
(** [ask H x]: the first step of [H] reads; [x] is what it read. *)
Local Ltac ask H x :=
  apply se_read_first in H as [H|(x & ?Hx & H)]; [by left| |first [done | apply credentials_of_same | apply check_password_same]].

(** The credentials of a session's account, and the check of its password. *)
Lemma asked_credentials `{HBL : !BcryptLaws} {A} now cfg tenant_id q user password (k : string * string -> unit -> SE account_state account_abort A) s s' r :
  extract_user_from_token now cfg q tenant_id = Ok user ->
  (let! c := credentials_of user tenant_id in let! u := check_password password (snd c) in k c u) s = (s', r) ->
  (is_ok r = false /\ s' = s) \/ exists row c, proves_password now cfg tenant_id q (ac_db s) password row /\ k c tt s = (s', r).
Proof.
  intros Hu H. ask H c. ask H u. apply credentials_of_ok in Hx as (_ & row & ? & <- & ? & ? & ?).
  apply check_password_ok in Hx0 as [_ ?]. right. exists row, c. destruct u. split; [|done].
  split; [done|]. split; [done|]. split; [done|]. eauto.
Qed.

(** [C26] The private key is exported or replaced, and the password changed at its
    endpoint, only for a caller who gives the account's current password next to a
    valid session of that account; exporting also needs a verified email and
    changes nothing, and a new password has at least eight bytes.  Any other
    request is refused and changes nothing, whichever check it fails. *)
Theorem password_asked_again `{HBL : !BcryptLaws} now cfg tenant_id q op s s' r :
  run_protected now cfg tenant_id q op s = (s', r) ->
  (is_ok r = false /\ s' = s) \/
  exists password row, given_password op = Some password /\
    proves_password now cfg tenant_id q (ac_db s) password row /\
    (forall req, op = ExportKey req -> us_email_verified row = true /\ s' = s) /\
    (forall salt c n, op = ChangePassword salt c n -> 8 <= len n).
Proof.
  destruct op as [pw|req|salt cur new|gen pw nsec]; unfold run_protected; intros H; apply discard_run in H as (r' & H & <-).
  - ask H user. apply se_lift_ok in Hx as [_ Hx]. apply map_err_ok in Hx.
    apply (asked_credentials _ _ _ _ _ _ (fun _ _ => se_ret true) _ _ _ Hx) in H as [?|(row & _ & Hp & _)]; [by left|]. right. by exists pw, row.
  - ask H user. apply se_lift_ok in Hx as [_ Hx]. apply map_err_ok in Hx. ask H pw.
    apply se_lift_ok in Hx0 as [_ Hpw]. apply map_err_ok, ok_or_ok in Hpw. ask H found. ask H c.
    injection Hx0 as Hf. apply map_err_ok in Hf. apply se_lift_ok in Hx1 as [_ Hc]. apply map_err_ok, ok_or_ok in Hc as ->.
    apply credentials_row in Hf as (row & ? & <- & ? & ? & ? & Hv). destruct c as [[email hash] verified]. simpl in *.
    destruct verified; [|left; by injection H as <- <-]. simpl in H. ask H u. apply check_password_ok in Hx0 as [_ ?].
    right. exists pw, row. split; [done|]. split; [split; [done|]; split; [done|]; split; [done|]; eauto|]. split; [|done].
    intros _ _. split; [done|].
    repeat match goal with H : se_bind _ _ _ = (_, _) |- _ => apply se_read_first in H as [[_ ?]|(? & _ & H)]; [done| |done] end.
    by destruct (bool_decide _); injection H as <- _.
  - ask H user. apply se_lift_ok in Hx as [_ Hx]. apply map_err_ok in Hx. destruct (len new <? 8) eqn:Hlen; [left; by injection H as <- <-|].
    eapply (asked_credentials _ _ _ _ _ cur) in H as [?|(row & _ & Hp & _)]; [by left| |exact Hx]. right. exists cur, row.
    repeat (split; [done|]). intros ? ? ? [= -> -> ->]. by apply Z.ltb_ge.
  - ask H user. apply se_lift_ok in Hx as [_ Hx]. apply map_err_ok in Hx. ask H c. destruct c as [email hash]. ask H u.
    apply credentials_of_ok in Hx0 as (_ & row & ? & <- & ? & ? & ?). apply check_password_ok in Hx1 as [_ ?]. right. exists pw, row.
    split; [done|]. split; [|done]. split; [done|]. split; [done|]. split; [done|]. eauto.
Qed.

(** A key change without an Origin header happens and is answered with an
    error: the account already has its new key when the handler asks for the
    header, the caller learns neither the new key nor gets a session for it, and
    the signer is told to drop a bunker key named like the old account's key
    instead of the account's bunkers. *)
Theorem change_key_without_origin `{HBL : !BcryptLaws} now cfg tenant_id q generated password s u email hash enc d' n :
  extract_user_from_token now cfg q tenant_id = Ok (us_pubkey u) -> header_text "origin" q = None ->
  find_user (us_pubkey u) tenant_id (ac_db s) = Some u -> us_email u = Some email -> us_password_hash u = Some hash ->
  bcrypt_verify password hash = true ->
  user_exists (pk_to_hex (pk_of generated)) tenant_id (ac_db s) = false -> km_encrypt (sk_to_bytes generated) = Ok enc ->
  change_key_transaction now (us_pubkey u) (pk_to_hex (pk_of generated)) tenant_id email hash enc (ac_db s) = (d', Ok n) ->
  cfg_auth_tx (acf_oauth cfg) = true ->
  exists s', change_key now cfg tenant_id q generated password None s =
      (s', Err (Failed (AcE_BadRequest "Origin header required"))) /\
    ac_db s' = d' /\ os_sent (ac_oauth s') = os_sent (ac_oauth s) ++ [Remove (us_pubkey u)].
Proof.
  intros Hu Ho Hf He Hh Hv Hex Henc Htx Hcfg.
  unfold change_key, with_user, lift_account, se_lift, se_bind at 1. rewrite Hu. cbn [map_err].
  unfold se_bind at 1, credentials_of, read_repo, get_credentials, get_credentials_with_verified, se_bind at 1. rewrite Hf.
  cbn [rbind]. unfold not_null. rewrite He, Hh. cbn [ok_or rbind map_err fmap option_fmap option_map fst lift_account se_lift].
  unfold se_bind at 1, check_password, se_bind at 1. rewrite (proj2 (bcrypt_check_verify _ _) Hv).
  cbn [map_err lift_account se_lift negb se_ret]. unfold se_bind at 1. cbn [se_ret].
  unfold se_bind at 1, read_db, se_gets. rewrite Hex. unfold se_bind at 1. rewrite Henc. cbn [map_err].
  unfold se_bind at 1, on_repo. rewrite Htx. cbn [map_err].
  unfold se_bind at 1, change_cache, se_modify. unfold se_bind at 1, send_to_signer, se_modify. rewrite Hcfg.
  unfold se_bind at 1, extract_origin_from_headers. rewrite Ho. cbn [ok_or map_err].
  eexists. split; [reflexivity|]. done.
Qed.

(** ** Deletion *)
Definition handler_of (bunker : string) (h : HttpRpcHandler) : Prop :=
  exists k, parse_cache_key bunker = Ok k /\ rh_bunker_pubkey h = k.

Lemma invalidate_bunker_gone bunker cache k h :
  invalidate_handlers_for_bunker bunker cache !! k = Some h -> cache !! k = Some h /\ ~ handler_of bunker h.
Proof.
  unfold invalidate_handlers_for_bunker, handler_of. destruct (parse_cache_key bunker) as [bk|].
  - unfold invalidate_handlers. intros [Hk Hp]%map_lookup_filter_Some. split; [done|]. simpl in Hp. bool_to_prop.
    intros (k' & [= <-] & E). done.
  - by rewrite lookup_empty.
Qed.

Lemma invalidate_bunkers_gone bunkers cache k h :
  foldl (fun c b => invalidate_handlers_for_bunker b c) cache bunkers !! k = Some h ->
  cache !! k = Some h /\ Forall (fun b => ~ handler_of b h) bunkers.
Proof.
  revert cache. induction bunkers as [|b l IH]; intros cache; simpl; [done|]. intros [Hk Hl]%IH.
  apply invalidate_bunker_gone in Hk as [Hk Hb]. split; [done|]. by constructor.
Qed.

Lemma unload_bunkers_run cfg bunkers s s' u :
  unload_bunkers cfg bunkers s = (s', Ok u) ->
  ac_db s' = ac_db s /\
  rs_cache (os_rpc (ac_oauth s')) = foldl (fun c b => invalidate_handlers_for_bunker b c) (rs_cache (os_rpc (ac_oauth s))) bunkers /\
  (cfg_auth_tx (acf_oauth cfg) = true -> os_sent (ac_oauth s') = os_sent (ac_oauth s) ++ map Remove bunkers).
Proof.
  unfold unload_bunkers, se_bind at 1, change_cache, se_modify. cbv beta.
  set (s1 := set_ac_oauth _ s). intros H.
  assert (E : ac_db s' = ac_db s1 /\ rs_cache (os_rpc (ac_oauth s')) = rs_cache (os_rpc (ac_oauth s1)) /\
    (cfg_auth_tx (acf_oauth cfg) = true -> os_sent (ac_oauth s') = os_sent (ac_oauth s1) ++ map Remove bunkers)); [|done].
  clearbody s1. revert s1 H. induction bunkers as [|b l IH]; intros s1 H; simpl in *.
  - apply se_ret_ok in H as [-> _]. by rewrite app_nil_r.
  - unfold se_bind at 1, send_to_signer at 1, se_modify in H. destruct (cfg_auth_tx _) eqn:Ec.
    + apply IH in H as (-> & -> & Hs). split; [done|]. split; [done|]. intros _. rewrite Hs by done. simpl. by rewrite <- app_assoc.
    + apply IH in H as (-> & -> & Hs). done.
Qed.

Lemma unload_bunkers_ok cfg bunkers s : exists s', unload_bunkers cfg bunkers s = (s', Ok tt).
Proof.
  unfold unload_bunkers, se_bind at 1, change_cache, se_modify. cbv beta.
  match goal with |- exists s', foldr _ _ _ ?x = _ => generalize x end.
  induction bunkers as [|b l IH]; intros s1; simpl; [by eexists|]. unfold se_bind at 1, send_to_signer at 1, se_modify. apply IH.
Qed.

(** [C6] Only the owner deletes an account, and nothing keeps serving it: a request
    that deletes one came with a valid token of that account, signed by the
    account's own key or given to the first-party application; afterwards no user,
    key or authorization of the account is left, the cache of the HTTP endpoint
    has no handler of any of its bunkers, and the signer was told to drop each of
    them.  A request that fails changes nothing. *)
Theorem account_deletion_authorized now cfg tenant q s s' r :
  integrity (ac_db s) -> is_customer_tenant (ae_tenant (acf_auth cfg)) tenant = false ->
  delete_account now cfg tenant q s = (s', r) ->
  (is_ok r = false /\ s' = s) \/
  exists header t pubkey, deletion_header q = Ok header /\
    validate_ucan_token now (ae_server_nsec (acf_auth cfg)) header (tn_id tenant) = Ok t /\ may_delete t = Ok true /\
    pubkey = vt_user_pubkey t /\ pubkey ∉ user_keys (ac_db s') /\
    Forall (fun k => pk_user_pubkey k <> pubkey) (db_personal_keys (ac_db s')) /\
    Forall (fun a => oa_user_pubkey a <> pubkey) (rows (db_oauth_authorizations (ac_db s'))) /\
    (forall a k h, a ∈ rows (db_oauth_authorizations (ac_db s)) -> oa_user_pubkey a = pubkey ->
       rs_cache (os_rpc (ac_oauth s')) !! k = Some h -> ~ handler_of (oa_bunker_public_key a) h) /\
    (cfg_auth_tx (acf_oauth cfg) = true -> forall a, a ∈ rows (db_oauth_authorizations (ac_db s)) ->
       oa_user_pubkey a = pubkey -> Remove (oa_bunker_public_key a) ∈ os_sent (ac_oauth s')).
Proof.
  intros Hd Hc H. unfold delete_account in H. ask H hdr. ask H t. ask H allowed.
  apply se_lift_ok in Hx as [_ Hx]. apply map_err_ok in Hx. apply se_lift_ok in Hx0 as [_ Hx0]. apply map_err_ok, map_err_ok in Hx0.
  apply se_lift_ok in Hx1 as [_ Hx1]. apply map_err_ok in Hx1. destruct allowed; [|left; by injection H as <- <-].
  simpl in H. rewrite Hc in H. unfold se_bind at 1 in H.
  destruct (repo_delete_account (vt_user_pubkey t) (tn_id tenant) (ac_db s)) as [d [res|e]] eqn:Hrun.
  2: { left. apply atomically_err in Hrun as ->. injection H as <- <-. split; [done | by destruct s as [[[] ?] ? ? ?]]. }
  right. cbn [map_err] in H. unfold se_bind in H. destruct (unload_bunkers_ok cfg (bunker_pubkeys res) (set_ac_db d s)) as [s2 Hul].
  rewrite Hul in H. injection H as <- _. apply unload_bunkers_run in Hul as (Hdb & Hcache & Hsent).
  change (ac_db (set_ac_db ?d ?s)) with d in Hdb. change (ac_oauth (set_ac_db ?d ?s)) with (set_os_db d (ac_oauth s)) in *.
  simpl in Hcache, Hsent.
  pose proof (delete_account_facts _ _ _ _ _ Hd Hrun) as (Hgone & Hk & Ha & Hb). rewrite Hdb.
  do 3 eexists. split; [eassumption|]. split; [eassumption|]. split; [done|]. split; [reflexivity|].
  split; [done|]. split; [done|]. split; [done|]. split.
  - intros a k h Hin E Hlook. rewrite Hcache in Hlook. apply invalidate_bunkers_gone in Hlook as [_ Hf].
    rewrite Forall_forall in Hf. apply Hf. by apply Hb.
  - intros Htx a Hin E. rewrite Hsent by done. apply elem_of_app. right. apply list_elem_of_fmap. eexists. split; [reflexivity|].
    by apply Hb.
Qed.

(** ** Connections *)

(** The authorization a new connection creates. *)
Lemma create_bunker_ok now cfg tenant_id q drawn req s s' resp :
  create_bunker now cfg tenant_id q (Some drawn) req s = (s', Ok resp) ->
  exists user_pubkey bunker_keys relays row,
    extract_user_from_token now cfg q tenant_id = Ok user_pubkey /\
    rows (db_oauth_authorizations (ac_db s')) = rows (db_oauth_authorizations (ac_db s)) ++ [row] /\
    oa_user_pubkey row = user_pubkey /\ oa_redirect_origin row = default "" (cb_origin req) /\
    oa_tenant_id row = tenant_id /\ oa_bunker_public_key row = pk_to_hex (pk_of bunker_keys) /\
    oa_secret_hash row = pair_hash drawn /\ oa_revoked_at row = None /\ oa_expires_at row = None /\
    oa_policy_id row = (slug ← cb_policy_slug req; policy_find_id_by_slug (ac_db s) slug) /\
    br_bunker_url resp = "bunker://" +:+ pk_to_hex (pk_of bunker_keys) +:+ "?" +:+ relays +:+ "&secret=" +:+ pair_secret drawn /\
    br_bunker_pubkey resp = user_pubkey /\
    db_policies (ac_db s') = db_policies (ac_db s) /\ db_users (ac_db s') = db_users (ac_db s).
Proof.
  unfold create_bunker, with_user. intros H. ac_inv. simplify_eq.
  match goal with H : send_to_signer _ _ _ = _ |- _ => unfold send_to_signer, se_modify in H; injection H as <- _ end.
  match goal with H : oauth_authorization_create _ _ _ = _ |- _ => apply create_inserts in H as (_ & _ & ->) end.
  do 4 eexists. split; [eassumption|]. destruct (cfg_auth_tx _); simpl; repeat split; reflexivity.
Qed.

(** A connection asked for with a policy nobody knows gets no policy at all:
    the slug is looked up, and a miss is stored like full access, so that the
    application's origin may from then on sign every event. *)
Theorem unknown_policy_is_full_access now now' cfg tenant_id q drawn req slug s s' resp event :
  create_bunker now cfg tenant_id q (Some drawn) req s = (s', Ok resp) ->
  cb_policy_slug req = Some slug -> policy_find_id_by_slug (ac_db s) slug = None ->
  Forall (fun a => of_origin (br_bunker_pubkey resp) (default "" (cb_origin req)) tenant_id a = false)
    (rows (db_oauth_authorizations (ac_db s))) ->
  validate_signing_permissions now' tenant_id (br_bunker_pubkey resp) (default "" (cb_origin req)) event (ac_db s') = Ok tt.
Proof.
  intros H Hslug Hnone Hfirst.
  apply create_bunker_ok in H as (user & bk & relays & row & _ & Hrows & Hu & Ho & Ht & _ & _ & Hrev & Hexp & Hpol & _ & Hbp & _).
  rewrite Hslug in Hpol. simpl in Hpol. rewrite Hnone in Hpol. rewrite Hbp in *.
  unfold validate_signing_permissions, get_authorization_for_origin, find_policy_id_by_origin. rewrite Hrows.
  rewrite (find_first_unique _ _ row); [simpl; by rewrite Hpol| | |].
  - apply elem_of_app. right. constructor.
  - unfold of_origin, oauth_active. rewrite Hu, Ho, Ht, Hrev, Hexp, Z.eqb_refl. by rewrite !bool_decide_true.
  - intros a [Ha|Ha%list_elem_of_singleton]%elem_of_app Hp; [|done]. apply andb_true_iff in Hp as [Hp _].
    rewrite Forall_forall in Hfirst. rewrite Hfirst in Hp; done.
Qed.

(** ** Signing with the session *)
Lemma check_policy_ok policy_id allows denied d :
  check_policy policy_id allows denied d = Ok tt ->
  match policy_id with
  | None => True
  | Some i => exists perms boxes, get_permissions d i = Ok perms /\ collect to_custom_permission perms = Ok boxes /\
                forall p, p ∈ boxes -> allows p = true
  end.
Proof.
  unfold check_policy. destruct policy_id as [i|]; [|done]. intros H.
  apply rbind_ok in H as (perms & Hp & H). apply map_err_ok in Hp. apply rbind_ok in H as (boxes & Hb & H). apply map_err_ok in Hb.
  exists perms, boxes. split; [done|]. split; [done|]. destruct boxes as [|b l]; [by intros p ?%not_elem_of_nil|].
  destruct (forallb allows (b :: l)) eqn:E; [|done]. by apply forallb_elem.
Qed.

(** The session's signing endpoint signs with the user's own stored key, and
    only for an origin with a live authorization all of whose policy's
    permissions allow the event; signing changes nothing. *)
Theorem session_signs_only_if_allowed now cfg tenant_id q event s s' signed :
  sign_event now cfg tenant_id q None event s = (s', Ok signed) ->
  exists user_pubkey origin bunker ue keys ev a,
    extract_user_and_origin_from_token now cfg q tenant_id = Ok (user_pubkey, origin, bunker) /\
    de_UnsignedEvent_value event = Ok ue /\ a ∈ rows (db_oauth_authorizations (ac_db s)) /\
    of_origin user_pubkey origin tenant_id a = true /\ oauth_active now a = true /\
    match oa_policy_id a with
    | None => True
    | Some i => exists perms boxes, get_permissions (ac_db s) i = Ok perms /\
        collect to_custom_permission perms = Ok boxes /\ forall p, p ∈ boxes -> dyn_can_sign p ue = true
    end /\
    (exists enc bytes, find_encrypted_key_for_tenant (ac_db s) user_pubkey tenant_id = Some enc /\
       km_decrypt enc = Ok bytes /\ sk_from_slice bytes = Ok keys) /\
    sign_unsigned keys ue = Ok ev /\ event_to_value ev = Ok signed /\ s' = s.
Proof.
  unfold sign_event. intros H. ac_inv.
  match goal with H : extract_user_and_origin_from_token _ _ _ _ = Ok ?x |- _ => destruct x as [[user origin] bunker]; simpl in * end.
  match goal with H : (_, map_err Failed _) = (_, Ok _) |- _ => injection H as <- Hval end. apply map_err_ok in Hval.
  match goal with H : match ?o with Some _ => _ | None => _ end _ = _ |- _ => destruct o; [by simplify_eq|] end.
  unfold sign_with_stored_key, signing_failed, event_json in *. ac_inv. subst.
  unfold validate_signing_permissions in Hval. apply rbind_ok in Hval as (pid & Hpid & Hcheck).
  unfold get_authorization_for_origin, find_policy_id_by_origin in Hpid. apply ok_or_ok in Hpid.
  destruct (find_first _ _) as [a|] eqn:Ha; [|done]. injection Hpid as <-.
  apply find_first_Some in Ha as [Ha [Ho Hact]%andb_true_iff].
  match goal with u : () |- _ => destruct u end. apply check_policy_ok in Hcheck.
  exists user, origin, bunker. do 3 eexists. exists a. repeat (split; [eassumption|]).
  split; [eauto|]. split; [eassumption|]. split; [eassumption|reflexivity].
Qed.
End account_keys_safety.

(** ** Witnesses *)
#[export] Instance toy_bech32 : Bech32 := {
  hex_encode := toy_string_of_bytes; sk_to_bech32 sk := Ok ("nsec1" +:+ sk); pk_to_bech32 pk := Ok ("npub1" +:+ pk) }.

Definition with_session : http_request := from_app [("authorization", "Bearer session")].
Definition without_origin : http_request := {|
  hq_method := "POST"; hq_uri := {| uri_host := None; uri_path := "/user"; uri_path_and_query := Some "/user" |};
  hq_original_uri := None; hq_headers := [("authorization", Some "Bearer session")] |}.

Definition resetting_db : Db :=
  set_users (map (us_set_reset (Some "0123456789ab") (Some 3600)) (db_users verified_db)) verified_db.
Definition new_password : ResetPasswordRequest := {| rs_token := "0123456789ab"; rs_new_password := "new" |}.

Lemma reset_link_works_once_witness :
  exists s' resp, reset_password 10 1 "salt" new_password (state_of resetting_db) = (s', Ok resp) /\
    reset_password 20 1 "salt" new_password s' = (s', Err (Failed AcE_InvalidToken)).
Proof.
  destruct (run_ok (reset_password 10 1 "salt" new_password (state_of resetting_db))) as (s' & resp & E); [vm_compute; reflexivity|].
  exists s', resp. split; [exact E|].
  destruct (reset_link_works_once 10 1 "salt" new_password (state_of resetting_db) s' resp) as (u & h & _ & _ & _ & _ & _ & _ & _ & Hx).
  - reflexivity.
  - intros u v ->%list_elem_of_singleton ->%list_elem_of_singleton _ _. reflexivity.
  - exact E.
  - assert (snd (reset_password 10 1 "salt" new_password (state_of resetting_db)) = Ok resp) as Hr by by rewrite E.
    vm_compute in Hr. by injection Hr as <-.
  - by apply Hx.
Defined.

Lemma password_asked_again_witness :
  exists s' u, run_protected 10 toy_account_config 1 with_session (ChangePassword "salt" "pw" "longer than eight") (state_of verified_db)
      = (s', Ok u) /\
    exists password row, given_password (ChangePassword "salt" "pw" "longer than eight") = Some password /\
      proves_password 10 toy_account_config 1 with_session verified_db password row.
Proof.
  destruct (run_ok (run_protected 10 toy_account_config 1 with_session (ChangePassword "salt" "pw" "longer than eight")
    (state_of verified_db))) as (s' & u & E); [vm_compute; reflexivity|].
  exists s', u. split; [exact E|].
  destruct (password_asked_again _ _ _ _ _ _ _ _ E) as [[Hn _]|(password & row & Hg & Hp & _)]; [discriminate Hn|]. exists password, row. exact (conj Hg Hp).
Defined.

Lemma change_key_without_origin_witness :
  exists s', change_key 10 toy_account_config 1 without_origin "n" "pw" None (state_of account_db) =
      (s', Err (Failed (AcE_BadRequest "Origin header required"))) /\
    os_sent (ac_oauth s') = [Remove "Pu"].
Proof.
  destruct (run_ok (change_key_transaction 10 "Pu" "Pn" 1 "u@b" "Hpw" (bytes_of "n") account_db)) as (d' & n & E);
    [vm_compute; reflexivity|].
  destruct (change_key_without_origin 10 toy_account_config 1 without_origin "n" "pw" (state_of account_db)
    (us_set_password_hash (Some "Hpw") (us_set_email (Some "u@b") (new_user 0 "Pu" 1))) "u@b" "Hpw" (bytes_of "n") d' n)
    as (s' & Hs & _ & Hsent).
  1-8: vm_compute; reflexivity.
  - exact E.
  - reflexivity.
  - exists s'. exact (conj Hs Hsent).
Defined.

Definition plain_tenant : Tenant := {|
  tn_id := 1; tn_domain := "a.example"; tn_name := "a"; tn_settings := None; tn_created_at := 0; tn_updated_at := 0 |}.

Lemma account_deletion_authorized_witness :
  exists s' resp, delete_account 10 toy_account_config plain_tenant with_session (state_of account_db) = (s', Ok resp) /\
    "Pu" ∉ user_keys (ac_db s').
Proof.
  destruct (run_ok (delete_account 10 toy_account_config plain_tenant with_session (state_of account_db))) as (s' & resp & E);
    [vm_compute; reflexivity|].
  exists s', resp. split; [exact E|].
  destruct (account_deletion_authorized 10 toy_account_config plain_tenant with_session (state_of account_db) s' (Ok resp)
    account_db_integrity eq_refl E) as [[Hn _]|(h & t & pk & Hh & Ht & _ & Hpk & Hgone & _)]; [discriminate Hn|].
  vm_compute in Hh. injection Hh as <-. vm_compute in Ht. injection Ht as <-. subst pk. exact Hgone.
Defined.

Definition nine : SecretPair := {| pair_secret := "s9"; pair_hash := "Hs9" |}.
Definition bunker_request : CreateBunkerRequest := {|
  cb_app_name := "app"; cb_origin := Some "https://new.example"; cb_policy_slug := Some "no-such-policy" |}.

Lemma unknown_policy_is_full_access_witness :
  exists s' resp event,
    create_bunker 10 toy_account_config 1 with_session (Some nine) bunker_request (state_of verified_db) = (s', Ok resp) /\
    validate_signing_permissions 20 1 (br_bunker_pubkey resp) "https://new.example" event (ac_db s') = Ok tt.
Proof.
  destruct (run_ok (create_bunker 10 toy_account_config 1 with_session (Some nine) bunker_request
    (state_of verified_db))) as (s' & resp & E); [vm_compute; reflexivity|].
  pose (event := {| ue_pubkey := "Pu"; ue_created_at := 0; ue_kind := 4; ue_tags := []; ue_content := "spam" |} : @UnsignedEvent toy_nostr).
  exists s', resp, event. split; [exact E|].
  apply (unknown_policy_is_full_access 10 20 toy_account_config 1 with_session nine bunker_request "no-such-policy"
    (state_of verified_db) s' resp event E); [reflexivity | vm_compute; reflexivity |].
  apply Forall_singleton. unfold of_origin. simpl (oa_redirect_origin _). rewrite (bool_decide_false ("https://app.example" = _)) by discriminate.
  by rewrite andb_false_r.
Defined.

Lemma session_signs_only_if_allowed_witness :
  exists signed, sign_event 10 toy_account_config 1 with_session None (toy_event_json 1 "hello") (state_of verified_db)
    = (state_of verified_db, Ok signed).
Proof.
  destruct (run_ok (sign_event 10 toy_account_config 1 with_session None (toy_event_json 1 "hello") (state_of verified_db)))
    as (s' & signed & E); [vm_compute; reflexivity|].
  destruct (session_signs_only_if_allowed _ _ _ _ _ _ _ _ E) as (u & o & b & ue & k & ev & a & _ & _ & _ & _ & _ & _ & _ & _ & _ & ->).
  exists signed. exact E.
Defined.
