(* ===== verification/TeamRepo.v ===== *)
(** * The repositories of teams

    core/src/repositories/team.rs, stored_key.rs and authorization.rs with the
    types of core/src/types/team.rs, stored_key.rs and user.rs: teams, their
    members, the keys they store, the authorizations on those keys, and the
    views that join them.  The foreign keys and unique indexes of the tables are
    part of the statements; a transaction that fails changes nothing. *)
From S2P Require Import Prelude RustStr External Database Permissions Policies Tokens AuthTypes OAuthRepo Users.

(** ** Rows as the API shows them *)
Record TeamUser : Type := {
  mb_user_pubkey : string; mb_team_id : Z; mb_role : TeamUserRole; mb_email : option string;
  mb_created_at : Z; mb_updated_at : Z; mb_is_support_member : bool;
}.
Record PublicStoredKey : Type := {
  psk_id : Z; psk_team_id : Z; psk_name : string; psk_pubkey : string; psk_created_at : Z; psk_updated_at : Z;
}.
Definition public_key_of (k : StoredKey) : PublicStoredKey := {|
  psk_id := sk_id k; psk_team_id := sk_team_id k; psk_name := sk_name k; psk_pubkey := sk_pubkey k;
  psk_created_at := sk_created_at k; psk_updated_at := sk_updated_at k |}.
Record TeamWithRelations : Type := {
  twr_team : Team; twr_team_users : list TeamUser; twr_stored_keys : list PublicStoredKey;
  twr_policies : list PolicyWithPermissions;
}.
Record AuthorizationWithRelations : Type := {
  awr_authorization : Authorization; awr_policy : Policy; awr_bunker_connection_string : option string;
}.
Record KeyWithRelations : Type := {
  kwr_team : Team; kwr_stored_key : PublicStoredKey; kwr_authorizations : list AuthorizationWithRelations;
}.

Definition role_str (r : TeamUserRole) : string := match r with Admin => "admin" | Member => "member" end.
Definition role_of_str (s : string) : option TeamUserRole :=
  if bool_decide (s = "admin") then Some Admin else if bool_decide (s = "member") then Some Member else None.

Section team_repo.
Context `{Serde}.

(** ** Teams *)
Definition team_in (tenant_id team_id : Z) (t : Team) : bool := (tm_tenant_id t =? tenant_id) && (tm_id t =? team_id).
Definition team_find (tenant_id team_id : Z) (d : Db) : result Team RepositoryError :=
  map_err repository_error_from_sqlx (fetch_one (find_first (team_in tenant_id team_id) (rows (db_teams d)))).

Definition team_create (now tenant_id : Z) (name : string) : DbM Team := fun d =>
  let '(t, team) := insert_row (fun i => {| tm_id := i; tm_name := name; tm_created_at := now; tm_updated_at := now;
                                            tm_tenant_id := tenant_id |}) (db_teams d) in
  (set_teams t d, Ok team).

Definition tm_rename (now : Z) (name : string) (t : Team) : Team := {|
  tm_id := tm_id t; tm_name := name; tm_created_at := tm_created_at t; tm_updated_at := now;
  tm_tenant_id := tm_tenant_id t |}.
Definition team_update (now tenant_id team_id : Z) (name : string) : DbM Team := fun d =>
  (set_teams (with_rows (update_where (team_in tenant_id team_id) (tm_rename now name)) (db_teams d)) d,
   map_err repository_error_from_sqlx
     (fetch_one (head (returning (team_in tenant_id team_id) (tm_rename now name) (rows (db_teams d)))))).

(** ** Members: the email comes from a left join on the key. *)
Definition member_of_row (d : Db) (t : team_user_row) : TeamUser := {|
  mb_user_pubkey := tu_user_pubkey t; mb_team_id := tu_team_id t; mb_role := tu_role t;
  mb_email := find_first (fun u => bool_decide (us_pubkey u = tu_user_pubkey t)) (db_users d) ≫= us_email;
  mb_created_at := tu_created_at t; mb_updated_at := tu_updated_at t; mb_is_support_member := false |}.

(** The role is checked, the pair of team and user is unique, both are foreign
    keys. *)
Definition add_member (now team_id : Z) (pubkey role : string) : DbM TeamUser := fun d =>
  match role_of_str role with
  | None => (d, Err (RE_Integrity "team_users_role_check"))
  | Some r =>
      if existsb (in_team pubkey team_id) (rows (db_team_users d)) then (d, Err RE_Duplicate)
      else if negb (team_exists d team_id) then (d, Err (RE_Integrity "team_users_team_id_fkey"))
      else if negb (existsb (fun u => bool_decide (us_pubkey u = pubkey)) (db_users d)) then
        (d, Err (RE_Integrity "team_users_user_pubkey_fkey"))
      else
        let '(t, row) := insert_row (fun i => {| tu_id := i; tu_team_id := team_id; tu_user_pubkey := pubkey;
                                                 tu_role := r; tu_created_at := now; tu_updated_at := now |})
                           (db_team_users d) in
        (set_team_users t d, Ok (member_of_row d row))
  end.

Definition is_member (team_id : Z) (pubkey : string) (d : Db) : bool :=
  existsb (in_team pubkey team_id) (rows (db_team_users d)).
Definition get_member (team_id : Z) (pubkey : string) (d : Db) : result TeamUser RepositoryError :=
  map_err repository_error_from_sqlx
    (fetch_one (member_of_row d <$> find_first (in_team pubkey team_id) (rows (db_team_users d)))).
Definition remove_member (team_id : Z) (pubkey : string) : DbM unit := fun d =>
  (set_team_users (with_rows (delete_where (in_team pubkey team_id)) (db_team_users d)) d, Ok tt).
Definition is_other_admin (team_id : Z) (pubkey : string) (t : team_user_row) : bool :=
  (tu_team_id t =? team_id) && negb (bool_decide (tu_user_pubkey t = pubkey)) && bool_decide (tu_role t = Admin).
Definition count_other_admins (team_id : Z) (exclude_pubkey : string) (d : Db) : nat :=
  length (List.filter (is_other_admin team_id exclude_pubkey) (rows (db_team_users d))).

(** ** Stored keys *)
Definition team_key (tenant_id team_id : Z) (k : StoredKey) : bool :=
  (sk_tenant_id k =? tenant_id) && (sk_team_id k =? team_id).
Definition key_find (tenant_id key_id : Z) (d : Db) : result StoredKey RepositoryError :=
  map_err repository_error_from_sqlx
    (fetch_one (find_first (fun k => (sk_tenant_id k =? tenant_id) && (sk_id k =? key_id)) (rows (db_stored_keys d)))).
Definition key_find_by_pubkey (tenant_id team_id : Z) (pubkey : string) (d : Db) : result StoredKey RepositoryError :=
  map_err repository_error_from_sqlx
    (fetch_one (find_first (fun k => team_key tenant_id team_id k && bool_decide (sk_pubkey k = pubkey))
                  (rows (db_stored_keys d)))).
Definition key_create (now tenant_id team_id : Z) (name pubkey : string) (encrypted_secret : list Z) : DbM StoredKey :=
  fun d =>
  if negb (team_exists d team_id) then (d, Err (RE_Integrity "stored_keys_team_id_fkey"))
  else
    let '(t, k) := insert_row (fun i => {| sk_id := i; sk_team_id := team_id; sk_name := name; sk_pubkey := pubkey;
                                           sk_secret_key := encrypted_secret; sk_tenant_id := tenant_id;
                                           sk_created_at := now; sk_updated_at := now |}) (db_stored_keys d) in
    (set_stored_keys t d, Ok k).

(** DELETE FROM authorizations, and FROM stored_keys unless an authorization
    still names one of the keys. *)
Definition delete_authorizations (p : Authorization -> bool) : DbM nat := fun d =>
  (set_authorizations (with_rows (delete_where p) (db_authorizations d)) d,
   Ok (length (List.filter p (rows (db_authorizations d))))).
Definition delete_stored_keys (p : StoredKey -> bool) : DbM unit := fun d =>
  let gone := map sk_id (List.filter p (rows (db_stored_keys d))) in
  if existsb (fun a => bool_decide (au_stored_key_id a ∈ gone)) (rows (db_authorizations d)) then
    (d, Err (RE_Integrity "authorizations_stored_key_id_fkey"))
  else (set_stored_keys (with_rows (delete_where p) (db_stored_keys d)) d, Ok tt).

Definition key_delete (tenant_id key_id : Z) : DbM unit := atomically
  (let! _ := delete_authorizations (fun a => (au_tenant_id a =? tenant_id) && (au_stored_key_id a =? key_id)) in
   delete_stored_keys (fun k => (sk_tenant_id k =? tenant_id) && (sk_id k =? key_id))).
Definition delete_by_pubkey (tenant_id team_id : Z) (pubkey : string) : DbM unit :=
  let! key := (fun d => (d, key_find_by_pubkey tenant_id team_id pubkey d)) in
  key_delete tenant_id (sk_id key).
Definition list_by_team (tenant_id team_id : Z) (d : Db) : list StoredKey :=
  List.filter (team_key tenant_id team_id) (rows (db_stored_keys d)).

(** ** Team authorizations *)
Definition repo_authorization_find (tenant_id id : Z) (d : Db) : result Authorization RepositoryError :=
  map_err repository_error_from_sqlx
    (let? r := fetch_one (find_first (fun a => (au_tenant_id a =? tenant_id) && (au_id a =? id))
                            (rows (db_authorizations d))) in decode_authorization r).
Definition find_by_stored_key_with_revoked (tenant_id stored_key_id : Z) (include_revoked : bool) (d : Db)
  : result (list Authorization) RepositoryError :=
  map_err repository_error_from_sqlx
    (collect decode_authorization
       (List.filter (fun a => (au_tenant_id a =? tenant_id) && (au_stored_key_id a =? stored_key_id)
                              && (include_revoked || is_null (au_revoked_at a))) (rows (db_authorizations d)))).
Definition find_by_stored_key (tenant_id stored_key_id : Z) (d : Db) : result (list Authorization) RepositoryError :=
  find_by_stored_key_with_revoked tenant_id stored_key_id false d.
Definition repo_all_ids (tenant_id : Z) (d : Db) : list Z :=
  map au_id (List.filter (fun a => (au_tenant_id a =? tenant_id) && is_null (au_revoked_at a)) (rows (db_authorizations d))).
Definition repo_all_ids_for_all_tenants (d : Db) : list (Z * Z) :=
  map (fun a => (au_tenant_id a, au_id a)) (List.filter (fun a => is_null (au_revoked_at a)) (rows (db_authorizations d))).

Definition au_revoke (now : Z) (reason : option string) (a : Authorization) : Authorization := {|
  au_id := au_id a; au_tenant_id := au_tenant_id a; au_stored_key_id := au_stored_key_id a;
  au_secret_hash := au_secret_hash a; au_bunker_public_key := au_bunker_public_key a; au_relays := au_relays a;
  au_policy_id := au_policy_id a; au_max_uses := au_max_uses a; au_expires_at := au_expires_at a;
  au_connected_client_pubkey := au_connected_client_pubkey a; au_connected_at := au_connected_at a;
  au_label := au_label a; au_created_at := au_created_at a; au_updated_at := now; au_revoked_at := Some now;
  au_revoked_reason := reason |}.
Definition authorization_revoke (now tenant_id id : Z) (reason : option string) : DbM (option string) := fun d =>
  let p a := (au_tenant_id a =? tenant_id) && (au_id a =? id) && is_null (au_revoked_at a) in
  (set_authorizations (with_rows (update_where p (au_revoke now reason)) (db_authorizations d)) d,
   Ok (au_bunker_public_key <$> head (returning p (au_revoke now reason) (rows (db_authorizations d))))).

(** stored_key_id and policy_id are foreign keys; RETURNING decodes the row. *)
Definition authorization_create (now tenant_id stored_key_id policy_id : Z) (secret_hash bunker_public_key : string)
    (relays : json) (max_uses expires_at : option Z) (label : option string) : DbM Authorization := fun d =>
  if negb (existsb (fun p => pol_id p =? policy_id) (rows (db_policies d))) then
    (d, Err (RE_Integrity "authorizations_policy_id_fkey"))
  else if negb (existsb (fun k => sk_id k =? stored_key_id) (rows (db_stored_keys d))) then
    (d, Err (RE_Integrity "authorizations_stored_key_id_fkey"))
  else
    let '(t, a) := insert_row (fun i => {| au_id := i; au_tenant_id := tenant_id; au_stored_key_id := stored_key_id;
        au_secret_hash := secret_hash; au_bunker_public_key := bunker_public_key; au_relays := json_to_string relays;
        au_policy_id := policy_id; au_max_uses := max_uses; au_expires_at := expires_at;
        au_connected_client_pubkey := None; au_connected_at := None; au_label := label; au_created_at := now;
        au_updated_at := now; au_revoked_at := None; au_revoked_reason := None |}) (db_authorizations d) in
    (set_authorizations t d, map_err repository_error_from_sqlx (decode_authorization a)).

Definition authorization_delete (tenant_id id : Z) : DbM bool :=
  let! n := delete_authorizations (fun a => (au_tenant_id a =? tenant_id) && (au_id a =? id)) in
  se_ret (0 <? n)%nat.
Definition delete_for_stored_key (tenant_id id stored_key_id : Z) : DbM bool :=
  let! n := delete_authorizations (fun a => (au_tenant_id a =? tenant_id) && (au_id a =? id)
                                            && (au_stored_key_id a =? stored_key_id)) in
  se_ret (0 <? n)%nat.

(** ** Deleting a team *)
Definition team_policy (team_id : Z) (p : Policy) : bool := bool_decide (pol_team_id p = Some team_id).
(** The permissions linked from the policies that satisfy [p]. *)
Definition linked_permissions (p : Policy -> bool) (d : Db) : list Z :=
  flat_map (fun l => map (fun _ => pp_permission_id l)
                       (List.filter (fun pol => (pol_id pol =? pp_policy_id l) && p pol) (rows (db_policies d))))
    (rows (db_policy_permissions d)).
(** [pol2.team_id != $1] does not hold of a policy without a team. *)
Definition other_team_policy (team_id : Z) (p : Policy) : bool :=
  match pol_team_id p with Some i => negb (i =? team_id) | None => false end.
Definition orphaned_permissions (team_id : Z) (d : Db) : list Z :=
  List.filter (fun i => negb (bool_decide (i ∈ linked_permissions (other_team_policy team_id) d)))
    (linked_permissions (team_policy team_id) d).

Definition delete_links (p : policy_permission_row -> bool) : DbM unit := fun d =>
  (set_policy_permissions (with_rows (delete_where p) (db_policy_permissions d)) d, Ok tt).
Definition delete_permissions (ids : list Z) : DbM unit := fun d =>
  if existsb (fun l => bool_decide (pp_permission_id l ∈ ids)
                       && existsb (fun p => pr_id p =? pp_permission_id l) (rows (db_permissions d)))
       (rows (db_policy_permissions d)) then
    (d, Err (RE_Integrity "policy_permissions_permission_id_fkey"))
  else (set_permissions (with_rows (delete_where (fun p => bool_decide (pr_id p ∈ ids))) (db_permissions d)) d, Ok tt).
Definition delete_policies (team_id : Z) : DbM unit := fun d =>
  let gone := map pol_id (List.filter (team_policy team_id) (rows (db_policies d))) in
  if existsb (fun a => bool_decide (au_policy_id a ∈ gone)) (rows (db_authorizations d)) then
    (d, Err (RE_Integrity "authorizations_policy_id_fkey"))
  else if existsb (fun l => bool_decide (pp_policy_id l ∈ gone)) (rows (db_policy_permissions d)) then
    (d, Err (RE_Integrity "policy_permissions_policy_id_fkey"))
  else (set_policies (with_rows (delete_where (team_policy team_id)) (db_policies d)) d, Ok tt).
Definition delete_members (team_id : Z) : DbM unit := fun d =>
  (set_team_users (with_rows (delete_where (fun t => tu_team_id t =? team_id)) (db_team_users d)) d, Ok tt).
(** Invitations go with the team; keys, policies and members keep it. *)
Definition delete_teams (tenant_id team_id : Z) : DbM unit := fun d =>
  let gone := map tm_id (List.filter (team_in tenant_id team_id) (rows (db_teams d))) in
  if existsb (fun k => bool_decide (sk_team_id k ∈ gone)) (rows (db_stored_keys d)) then
    (d, Err (RE_Integrity "stored_keys_team_id_fkey"))
  else if existsb (fun p => match pol_team_id p with Some i => bool_decide (i ∈ gone) | None => false end)
            (rows (db_policies d)) then
    (d, Err (RE_Integrity "policies_team_id_fkey"))
  else if existsb (fun t => bool_decide (tu_team_id t ∈ gone)) (rows (db_team_users d)) then
    (d, Err (RE_Integrity "team_users_team_id_fkey"))
  else
    let d1 := set_teams (with_rows (delete_where (team_in tenant_id team_id)) (db_teams d)) d in
    (set_team_invitations (with_rows (delete_where (fun i => bool_decide (ti_team_id i ∈ gone))) (db_team_invitations d1)) d1,
     Ok tt).

Definition team_delete (tenant_id team_id : Z) : DbM unit := atomically
  (let! keys := se_gets (fun d => map sk_id (list_by_team tenant_id team_id d)) in
   let! _ := delete_authorizations (fun a => (au_tenant_id a =? tenant_id) && bool_decide (au_stored_key_id a ∈ keys)) in
   let! _ := delete_stored_keys (team_key tenant_id team_id) in
   let! orphaned_perm_ids := se_gets (orphaned_permissions team_id) in
   let! policies := se_gets (fun d => map pol_id (List.filter (team_policy team_id) (rows (db_policies d)))) in
   let! _ := delete_links (fun l => bool_decide (pp_policy_id l ∈ policies)) in
   let! _ := (match orphaned_perm_ids with [] => se_ret tt | ids => delete_permissions ids end) in
   let! _ := delete_policies team_id in
   let! _ := delete_members team_id in
   delete_teams tenant_id team_id).

(** ** Creating a team with its administrator and its "All Access" policy *)
Definition insert_user_if_absent (now tenant_id : Z) (pubkey : string) : DbM unit := fun d =>
  if existsb (fun u => bool_decide (us_pubkey u = pubkey)) (db_users d) then (d, Ok tt)
  else (set_users (db_users d ++ [new_user now pubkey tenant_id]) d, Ok tt).

Definition create_with_admin (now tenant_id : Z) (name admin_pubkey : string) (allowed_kinds_config : json)
  : DbM TeamWithRelations := atomically
  (let! _ := insert_user_if_absent now tenant_id admin_pubkey in
   let! team := team_create now tenant_id name in
   let! team_user := add_member now (tm_id team) admin_pubkey "admin" in
   let! policy := (fun d => let '(d', p) := insert_policy now (Some (tm_id team)) "All Access" d in (d', Ok p)) in
   let! permission := (fun d => create_permission now d "allowed_kinds" allowed_kinds_config) in
   let! _ := (fun d => link_permission d (pol_id policy) (perm_id permission)) in
   se_ret {| twr_team := team; twr_team_users := [team_user]; twr_stored_keys := [];
             twr_policies := [{| pwp_policy := policy; pwp_permissions := [permission] |}] |}).

(** ** Teams with their relations *)
Definition policy_permission_rows (policy_ids : list Z) (d : Db) : list (Z * permission_row) :=
  flat_map (fun p => map (fun l => (pp_policy_id l, p))
                       (List.filter (fun l => (pp_permission_id l =? pr_id p) && bool_decide (pp_policy_id l ∈ policy_ids))
                          (rows (db_policy_permissions d)))) (rows (db_permissions d)).
Definition decode_linked (r : Z * permission_row) : result (Z * Permission) sqlx_error :=
  let? p := permission_from_row (snd r) in Ok (fst r, p).
Definition group_permissions (permission_rows : list (Z * Permission)) (policy : Policy) : PolicyWithPermissions :=
  {| pwp_policy := policy; pwp_permissions := map snd (List.filter (fun r => fst r =? pol_id policy) permission_rows) |}.

Definition of_teams (team_ids : list Z) (p : Policy) : bool :=
  match pol_team_id p with Some i => bool_decide (i ∈ team_ids) | None => false end.
Definition get_policies_with_permissions_batch (team_ids : list Z) (d : Db) : result (list PolicyWithPermissions) sqlx_error :=
  match team_ids with
  | [] => Ok []
  | _ =>
      match List.filter (of_teams team_ids) (rows (db_policies d)) with
      | [] => Ok []
      | policies =>
          let? permission_rows := collect decode_linked (policy_permission_rows (map pol_id policies) d) in
          Ok (map (group_permissions permission_rows) policies)
      end
  end.

(** TeamRepository::find_with_relations and its reading of the policies. *)
Definition team_policies (team_id : Z) (d : Db) : result (list PolicyWithPermissions) RepositoryError :=
  match List.filter (team_policy team_id) (rows (db_policies d)) with
  | [] => Ok []
  | policies =>
      let? permission_rows := map_err repository_error_from_sqlx
                                (collect decode_linked (policy_permission_rows (map pol_id policies) d)) in
      Ok (map (group_permissions permission_rows) policies)
  end.
Definition team_members (team_id : Z) (d : Db) : list TeamUser :=
  map (member_of_row d) (List.filter (fun t => tu_team_id t =? team_id) (rows (db_team_users d))).
Definition find_with_relations (tenant_id team_id : Z) (d : Db) : result TeamWithRelations RepositoryError :=
  let? team := team_find tenant_id team_id d in
  let? policies := team_policies team_id d in
  Ok {| twr_team := team; twr_team_users := team_members team_id d;
        twr_stored_keys := map public_key_of (list_by_team tenant_id team_id d); twr_policies := policies |}.

(** Team::find_with_relations of the types, on the batch. *)
Definition Team_find_with_relations (tenant_id team_id : Z) (d : Db) : result TeamWithRelations sqlx_error :=
  let? team := fetch_one (find_first (team_in tenant_id team_id) (rows (db_teams d))) in
  let? policies := get_policies_with_permissions_batch [team_id] d in
  Ok {| twr_team := team; twr_team_users := team_members team_id d;
        twr_stored_keys := map public_key_of (list_by_team tenant_id team_id d); twr_policies := policies |}.

(** User::teams: one query per table for all teams, grouped afterwards. *)
Inductive UserError : Type := UE_Database (e : sqlx_error) | UE_Relations | UE_NotFound.

Definition teams_of (tenant_id : Z) (pubkey : string) (d : Db) : list Team :=
  List.filter (fun t => (tm_tenant_id t =? tenant_id)
                        && existsb (fun m => in_team pubkey (tm_id t) m) (rows (db_team_users d))) (rows (db_teams d)).
Definition user_teams (tenant_id : Z) (pubkey : string) (d : Db) : result (list TeamWithRelations) UserError :=
  match teams_of tenant_id pubkey d with
  | [] => Ok []
  | teams =>
      let team_ids := map tm_id teams in
      let all_team_users := map (member_of_row d)
        (List.filter (fun t => bool_decide (tu_team_id t ∈ team_ids)) (rows (db_team_users d))) in
      let all_stored_keys :=
        List.filter (fun k => (sk_tenant_id k =? tenant_id) && bool_decide (sk_team_id k ∈ team_ids)) (rows (db_stored_keys d)) in
      let? all_policies_with_permissions :=
        map_err (fun _ => UE_Relations) (get_policies_with_permissions_batch team_ids d) in
      Ok (map (fun team => {|
        twr_team := team;
        twr_team_users := List.filter (fun tu => mb_team_id tu =? tm_id team) all_team_users;
        twr_stored_keys := map public_key_of (List.filter (fun k => sk_team_id k =? tm_id team) all_stored_keys);
        twr_policies := List.filter (fun p => bool_decide (pol_team_id (pwp_policy p) = Some (tm_id team)))
                          all_policies_with_permissions |}) teams)
  end.
End team_repo.
