(* ===== verification/TeamViews.v ===== *)
(** * The views of teams agree

    A team with its relations is read in three ways: per team by the repository,
    per team by the types, and for all teams of a user at once, with one query
    per table whose rows are grouped afterwards.  They show the same. *)
From S2P Require Import Prelude RustStr External Instances Database Samples Permissions Policies Tokens AuthTypes OAuthRepo Users TeamRepo.

(** ** Collecting *)
Lemma collect_total {A B E} (f : A -> result B E) l :
  (forall a, a ∈ l -> is_ok (f a) = true) -> exists bs, collect f l = Ok bs.
Proof.
  induction l as [|a l IH]; intros Hl; simpl; [eauto|].
  destruct (is_ok_Ok _ (Hl a (list_elem_of_here _ _))) as [b ->].
  destruct IH as [bs ->]; [intros; apply Hl; by constructor|]. simpl. eauto.
Qed.

Lemma Forall2_filter {A B} (R : A -> B -> Prop) (p : A -> bool) (q : B -> bool) l k :
  (forall a b, R a b -> p a = q b) -> Forall2 R l k -> Forall2 R (List.filter p l) (List.filter q k).
Proof.
  intros Hpq. induction 1 as [|a b l k Hab HF IH]; simpl; [constructor|].
  rewrite (Hpq a b Hab). destruct (q b); [by constructor | done].
Qed.

Lemma collect_filter {A B E} (f : A -> result B E) (p : A -> bool) (q : B -> bool) l bs :
  (forall a b, f a = Ok b -> p a = q b) -> collect f l = Ok bs -> collect f (List.filter p l) = Ok (List.filter q bs).
Proof. intros Hpq Hc. apply collect_ok. apply Forall2_filter; [done|]. by apply collect_ok. Qed.

Lemma collect_elem {A B E} (f : A -> result B E) l bs a : collect f l = Ok bs -> a ∈ l -> exists b, f a = Ok b.
Proof.
  intros Hc%collect_ok Ha. apply list_elem_of_lookup in Ha as [i Hi].
  destruct (Forall2_lookup_l _ _ _ _ _ Hc Hi) as (b & _ & Hb). eauto.
Qed.

Lemma filter_filter_and {A} (p q : A -> bool) l :
  (forall a, a ∈ l -> q a = true -> p a = true) -> List.filter q (List.filter p l) = List.filter q l.
Proof.
  induction l as [|a l IH]; intros Hl; simpl; [done|].
  assert (IH' : List.filter q (List.filter p l) = List.filter q l) by (apply IH; intros; apply Hl; [by constructor | done]).
  destruct (p a) eqn:Hp; simpl; [by rewrite IH'|].
  destruct (q a) eqn:Hq; [|done]. rewrite (Hl a (list_elem_of_here _ _) Hq) in Hp. done.
Qed.

Lemma filter_map {A B} (f : A -> B) (q : B -> bool) l : List.filter q (map f l) = map f (List.filter (fun a => q (f a)) l).
Proof. induction l as [|a l IH]; simpl; [done|]. destruct (q (f a)); simpl; by rewrite IH. Qed.


Section team_views.
Context `{Serde}.

(** ** Policies with their permissions *)
Definition policy_with (d : Db) (p : Policy) : result PolicyWithPermissions sqlx_error :=
  let? perms := collect permission_from_row (permission_rows_of d (pol_id p)) in
  Ok {| pwp_policy := p; pwp_permissions := perms |}.

(** The rows of one policy among those of many. *)
Lemma linked_rows ids d pid : pid ∈ ids ->
  map snd (List.filter (fun r => fst r =? pid) (policy_permission_rows ids d)) = permission_rows_of d pid.
Proof.
  intros Hpid. unfold policy_permission_rows, permission_rows_of, join_rows.
  induction (rows (db_permissions d)) as [|p P IH]; simpl; [done|].
  rewrite List.filter_app, map_app, IH. f_equal. clear IH.
  induction (rows (db_policy_permissions d)) as [|l L IHL]; simpl; [done|].
  unfold links at 1. destruct (pp_permission_id l =? pr_id p); simpl; [|exact IHL].
  destruct (pp_policy_id l =? pid) eqn:E.
  - apply Z.eqb_eq in E as E'. rewrite bool_decide_true by (by rewrite E'). simpl. rewrite E. simpl. by rewrite IHL.
  - destruct (bool_decide _); simpl; rewrite ?E; exact IHL.
Qed.

Lemma linked_rows_elem ids d r :
  r ∈ policy_permission_rows ids d -> fst r ∈ ids /\ snd r ∈ permission_rows_of d (fst r).
Proof.
  intros Hr. assert (Hin : fst r ∈ ids).
  { unfold policy_permission_rows in Hr. apply list_elem_of_In, in_flat_map in Hr as (p & _ & Hr).
    apply in_map_iff in Hr as (l & <- & Hl). apply List.filter_In in Hl as [_ Hl]. bool_to_prop. done. }
  split; [done|]. rewrite <- (linked_rows ids d (fst r) Hin). apply list_elem_of_fmap. exists r. split; [done|].
  apply list_elem_of_In, List.filter_In. split; [by apply list_elem_of_In | by apply Z.eqb_refl].
Qed.

Lemma grouped ids d Y p :
  collect decode_linked (policy_permission_rows ids d) = Ok Y -> pol_id p ∈ ids -> policy_with d p = Ok (group_permissions Y p).
Proof.
  intros HY Hp. unfold policy_with, group_permissions.
  enough (collect permission_from_row (permission_rows_of d (pol_id p))
          = Ok (map snd (List.filter (fun r => fst r =? pol_id p) Y))) as -> by done.
  apply collect_ok. rewrite <- (linked_rows ids d (pol_id p) Hp).
  apply Forall2_fmap_2. eapply Forall2_impl.
  - apply (Forall2_filter (fun a b => decode_linked a = Ok b) _ (fun r => fst r =? pol_id p)); [|by apply collect_ok].
    intros a b Hab. unfold decode_linked in Hab. apply rbind_ok in Hab as (x & _ & Hx). by injection Hx as <-.
  - intros a b Hab. unfold decode_linked in Hab. apply rbind_ok in Hab as (x & Hx & E). by injection E as <-.
Qed.

(** Grouping one query's rows reads what a query per policy reads. *)
Lemma group_spec d policies L :
  (let? Y := collect decode_linked (policy_permission_rows (map pol_id policies) d) in Ok (map (group_permissions Y) policies))
    = Ok L <-> collect (policy_with d) policies = Ok L.
Proof.
  split.
  - intros HL. apply rbind_ok in HL as (Y & HY & HL). injection HL as <-. apply collect_ok, Forall2_same_length_lookup_2.
    { by rewrite length_map. }
    intros i p b Hp Hb. rewrite list_lookup_fmap, Hp in Hb. injection Hb as <-.
    apply (grouped _ _ _ _ HY). apply list_elem_of_fmap. exists p. split; [done|]. by eapply list_elem_of_lookup_2.
  - intros HL.
    destruct (collect_total decode_linked (policy_permission_rows (map pol_id policies) d)) as [Y HY].
    { intros r [Hr Hrow]%linked_rows_elem. apply list_elem_of_fmap in Hr as (p & Hid & Hp).
      destruct (collect_elem _ _ _ _ HL Hp) as [b Hb]. unfold policy_with in Hb. apply rbind_ok in Hb as (perms & Hperms & _).
      rewrite <- Hid in Hperms. destruct (collect_elem _ _ _ _ Hperms Hrow) as [x Hx]. unfold decode_linked. by rewrite Hx. }
    rewrite HY. simpl. f_equal. apply collect_ok in HL.
    assert (HG : forall p, p ∈ policies -> policy_with d p = Ok (group_permissions Y p)).
    { intros p Hp. apply (grouped _ _ _ _ HY). by apply list_elem_of_fmap_2. }
    clear HY. induction HL as [|p b l bs Hpb HF IH]; simpl; [done|].
    rewrite IH by (intros; apply HG; by constructor). f_equal.
    rewrite (HG p) in Hpb by constructor. by injection Hpb.
Qed.

Lemma batch_spec team_ids d L :
  get_policies_with_permissions_batch team_ids d = Ok L <->
  collect (policy_with d) (List.filter (of_teams team_ids) (rows (db_policies d))) = Ok L.
Proof.
  unfold get_policies_with_permissions_batch. destruct team_ids as [|t ts].
  - rewrite filter_nil; [done|]. intros p _. unfold of_teams. destruct (pol_team_id p); [|done]. by apply bool_decide_eq_false, not_elem_of_nil.
  - destruct (List.filter _ _) as [|p ps] eqn:E; [done|]. rewrite <- E. apply group_spec.
Qed.

Lemma team_policies_spec team_id d L :
  team_policies team_id d = Ok L <-> collect (policy_with d) (List.filter (team_policy team_id) (rows (db_policies d))) = Ok L.
Proof.
  unfold team_policies. destruct (List.filter _ _) as [|p ps] eqn:E; [split; by intros [= <-]|].
  rewrite <- group_spec. destruct (collect decode_linked _); simpl; [split; by intros [= <-] | split; discriminate].
Qed.

(** ** One team *)
Lemma of_one_team team_id p : of_teams [team_id] p = team_policy team_id p.
Proof.
  unfold of_teams, team_policy. destruct (pol_team_id p) as [i|].
  - destruct (decide (i = team_id)) as [->|Hne].
    + rewrite !bool_decide_true; [done | done | set_solver].
    + rewrite !bool_decide_false; [done | congruence | set_solver].
  - by rewrite bool_decide_false.
Qed.

Lemma one_team_views tenant_id team_id d t :
  find_with_relations tenant_id team_id d = Ok t <-> Team_find_with_relations tenant_id team_id d = Ok t.
Proof.
  unfold find_with_relations, Team_find_with_relations, team_find.
  destruct (fetch_one _) as [team|e]; cbn [rbind map_err]; [|split; discriminate].
  assert (Hp : forall L, team_policies team_id d = Ok L <-> get_policies_with_permissions_batch [team_id] d = Ok L).
  { intros L. rewrite team_policies_spec, batch_spec.
    by rewrite (List.filter_ext (of_teams [team_id]) (team_policy team_id) (of_one_team team_id)). }
  split; intros HL; apply rbind_ok in HL as (L & HL & E); apply Hp in HL; rewrite HL; cbn [rbind]; by injection E as <-.
Qed.

(** ** All teams of a user *)
Definition view_of (tenant_id : Z) (d : Db) (policies : list PolicyWithPermissions) (team : Team) : TeamWithRelations := {|
  twr_team := team; twr_team_users := team_members (tm_id team) d;
  twr_stored_keys := map public_key_of (list_by_team tenant_id (tm_id team) d); twr_policies := policies |}.

Lemma user_teams_spec tenant_id pubkey d :
  let teams := teams_of tenant_id pubkey d in
  user_teams tenant_id pubkey d =
  let? L := map_err (fun _ => UE_Relations) (get_policies_with_permissions_batch (map tm_id teams) d) in
  Ok (map (fun team => view_of tenant_id d
             (List.filter (fun p => bool_decide (pol_team_id (pwp_policy p) = Some (tm_id team))) L) team) teams).
Proof.
  intros teams. unfold user_teams. fold teams. destruct teams as [|t0 ts] eqn:E; [done|]. rewrite <- E.
  destruct (get_policies_with_permissions_batch _ d) as [L|e]; simpl; [|done]. f_equal. apply map_ext_in.
  intros team Hin%list_elem_of_In. apply (list_elem_of_fmap_2 tm_id) in Hin. unfold view_of. f_equal.
  - rewrite filter_map. unfold team_members. f_equal. apply (filter_filter_and _ (fun t => tu_team_id t =? tm_id team)).
    intros m _ Hm%Z.eqb_eq. apply bool_decide_eq_true. by rewrite Hm.
  - f_equal. unfold list_by_team.
    induction (rows (db_stored_keys d)) as [|k K IH]; simpl; [done|]. unfold team_key at 1.
    destruct (sk_tenant_id k =? tenant_id); simpl; [|exact IH].
    destruct (sk_team_id k =? tm_id team) eqn:Ek.
    + apply Z.eqb_eq in Ek as Ek'. rewrite bool_decide_true by (by rewrite Ek'). simpl. rewrite Ek. by f_equal.
    + destruct (bool_decide _); simpl; rewrite ?Ek; exact IH.
Qed.

(** The teams of a user, read with one query per table and grouped, are what
    reading each of the teams on its own shows, and the repository and the types
    read a single team alike: when one way succeeds so do the others, with the
    same teams, members, keys, policies and permissions in the same order. *)
Theorem team_views_agree tenant_id pubkey d :
  NoDup (map tm_id (rows (db_teams d))) ->
  (forall l, user_teams tenant_id pubkey d = Ok l <->
     collect (fun team => find_with_relations tenant_id (tm_id team) d) (teams_of tenant_id pubkey d) = Ok l) /\
  (forall team_id t, find_with_relations tenant_id team_id d = Ok t <-> Team_find_with_relations tenant_id team_id d = Ok t).
Proof.
  intros Hnd. split; [|intros; apply one_team_views]. intros l. rewrite user_teams_spec.
  set (teams := teams_of tenant_id pubkey d).
  assert (Hfind : forall team, team ∈ teams -> find_with_relations tenant_id (tm_id team) d =
    let? L := team_policies (tm_id team) d in Ok (view_of tenant_id d L team)).
  { intros team [Hin Hp]%list_elem_of_In%List.filter_In. apply andb_true_iff in Hp as [Ht _].
    unfold find_with_relations, team_find. rewrite (find_first_unique _ _ team); [done| by apply list_elem_of_In | |].
    - unfold team_in. by rewrite Ht, Z.eqb_refl.
    - intros b Hb [_ Hid%Z.eqb_eq]%andb_true_iff. symmetry in Hid.
      apply (NoDup_map_inj tm_id _ b team Hnd Hb); [by apply list_elem_of_In | done]. }
  assert (Hteam : forall L team, team ∈ teams ->
    collect (policy_with d) (List.filter (of_teams (map tm_id teams)) (rows (db_policies d))) = Ok L ->
    team_policies (tm_id team) d = Ok (List.filter (fun p => bool_decide (pol_team_id (pwp_policy p) = Some (tm_id team))) L)).
  { intros L team Hin HL. apply team_policies_spec.
    rewrite <- (filter_filter_and (of_teams (map tm_id teams)) (team_policy (tm_id team))).
    - apply collect_filter; [|done]. intros p b Hb. unfold policy_with in Hb. apply rbind_ok in Hb as (x & _ & Hx). by injection Hx as <-.
    - intros p _ Hp%bool_decide_eq_true. unfold of_teams. rewrite Hp. apply bool_decide_eq_true. by apply list_elem_of_fmap_2. }
  split.
  - intros Hl. apply rbind_ok in Hl as (L & HL & Hl). apply map_err_ok in HL. apply batch_spec in HL. injection Hl as <-.
    apply collect_ok, Forall2_same_length_lookup_2; [by rewrite length_map|]. intros i team b Hi Hb.
    rewrite list_lookup_fmap, Hi in Hb. injection Hb as <-. apply list_elem_of_lookup_2 in Hi.
    by rewrite (Hfind team Hi), (Hteam L team Hi HL).
  - intros Hl.
    destruct (collect_total (policy_with d) (List.filter (of_teams (map tm_id teams)) (rows (db_policies d)))) as [L HL].
    { intros p [Hp Hof]%list_elem_of_In%List.filter_In. unfold of_teams in Hof. destruct (pol_team_id p) as [i|] eqn:Ei; [|done].
      apply bool_decide_eq_true in Hof. apply list_elem_of_fmap in Hof as (team & -> & Hin).
      destruct (collect_elem _ _ _ _ Hl Hin) as [b Hb]. rewrite (Hfind team Hin) in Hb. apply rbind_ok in Hb as (Lt & HLt & _).
      apply team_policies_spec in HLt. destruct (collect_elem _ _ _ p HLt) as [x ->]; [|done].
      apply list_elem_of_In, List.filter_In. split; [done|]. by apply bool_decide_eq_true. }
    rewrite (proj2 (batch_spec _ _ _) HL). simpl. f_equal. apply collect_ok in Hl.
    assert (Heach : forall team, team ∈ teams -> find_with_relations tenant_id (tm_id team) d = Ok (view_of tenant_id d
      (List.filter (fun p => bool_decide (pol_team_id (pwp_policy p) = Some (tm_id team))) L) team)).
    { intros team Hin. by rewrite (Hfind team Hin), (Hteam L team Hin HL). }
    clearbody teams. clear -Hl Heach. induction Hl as [|t b ts bs Htb HF IH]; simpl; [done|].
    rewrite IH by (intros; apply Heach; by constructor). rewrite Heach in Htb by constructor. by injection Htb as <-.
Qed.
End team_views.

(** ** Witnesses *)

(** Team 1 of tenant 1: "Pu" administers it, "Pv" is a member, it has the stored
    key 5 and the policy 1. *)
Definition sample_team_db : Db :=
  set_team_users {| rows := [{| tu_id := 1; tu_team_id := 1; tu_user_pubkey := "Pu"; tu_role := Admin; tu_created_at := 0; tu_updated_at := 0 |};
                             {| tu_id := 2; tu_team_id := 1; tu_user_pubkey := "Pv"; tu_role := Member; tu_created_at := 0; tu_updated_at := 0 |}];
                    next_id := 3 |}
    (set_teams {| rows := [{| tm_id := 1; tm_name := "team"; tm_created_at := 0; tm_updated_at := 0; tm_tenant_id := 1 |}]; next_id := 2 |}
      (set_users [us_set_email (Some "u@b") (new_user 0 "Pu" 1); us_set_email (Some "v@b") (new_user 0 "Pv" 1)]
        (sample_db [] [sample_team None]))).

Lemma team_views_agree_witness :
  exists l, user_teams 1 "Pu" sample_team_db = Ok l /\ length l = 1%nat /\
    collect (fun team => find_with_relations 1 (tm_id team) sample_team_db) (teams_of 1 "Pu" sample_team_db) = Ok l.
Proof.
  destruct (is_ok_Ok (user_teams 1 "Pu" sample_team_db)) as [l Hl]; [vm_compute; reflexivity|].
  exists l. split; [exact Hl|]. split.
  - vm_compute in Hl. injection Hl as <-. reflexivity.
  - apply (proj1 (team_views_agree 1 "Pu" sample_team_db ltac:(apply NoDup_singleton)) l), Hl.
Defined.
