(* ===== verification/Teams.v ===== *)
(** * Teams: the endpoints

    api/src/api/http/teams.rs with the error type of api/src/api/error.rs and the
    requests of api/src/api/types.rs.  The state is the database, the Redis store
    and the invitations that were mailed.  The token of an invitation, the secret
    of a connection and the profile the relays know of a team are arguments. *)
From S2P Require Import Prelude RustStr External Instances Database Samples Permissions Policies Tokens AuthTypes Ucan HttpRpc OAuthRepo Users OAuth WorkQueue Queues RateLimit Tenant Nip98 TeamRepo.

(** ** Errors *)
Inductive ApiError : Type :=
| Api_Database (e : sqlx_error)
| Api_Auth (msg : string)
| Api_BadRequest (msg : string)
| Api_Forbidden (msg : string)
| Api_NotFound (msg : string)
| Api_Conflict (msg : string)
| Api_TooManyRequests
| Api_Internal (msg : string)
| Api_User (e : UserError)
| Api_Team (e : string).

Definition api_error_of_repository (e : RepositoryError) : ApiError :=
  match e with
  | RE_NotFound msg => Api_NotFound msg
  | RE_Duplicate => Api_BadRequest "Already exists"
  | RE_Integrity msg => Api_BadRequest msg
  | RE_Database msg => Api_Internal msg
  end.

Definition went_wrong : string := "Something went wrong. Please try again.".
Definition api_error_response (e : ApiError) : Z * string :=
  match e with
  | Api_Database _ | Api_Internal _ | Api_User _ | Api_Team _ => (500, went_wrong)
  | Api_Auth msg => (401, msg)
  | Api_BadRequest msg => (400, msg)
  | Api_Forbidden msg => (403, msg)
  | Api_NotFound msg => (404, msg)
  | Api_Conflict msg => (409, msg)
  | Api_TooManyRequests => (429, "Too many requests. Please try again later.")
  end.

(** A handler returns an error or panics. *)
Inductive api_abort : Type := ApiFailed (e : ApiError) | ApiPanic.

(** ** Requests and responses *)
Record UpdateTeamRequest : Type := { ut_id : Z; ut_name : string }.
Record AddTeammateRequest : Type := { at_user_pubkey : string; at_role : TeamUserRole }.
Record AddKeyRequest : Type := { ak_name : string; ak_secret_key : string }.
Record CreatePolicyRequest : Type := { cpr_name : string; cpr_permissions : list (string * json) }.
Record AddAuthorizationRequest : Type := {
  aa_policy_id : Z; aa_relays : list string; aa_max_uses : option Z; aa_expires_at : option Z; aa_label : option string;
}.
Record AuthorizationCreatedResponse : Type := { acr_authorization : Authorization; acr_bunker_url : string }.
Record InviteRequest : Type := { iv_email : string; iv_role : TeamUserRole }.
Record InvitationListItem : Type := {
  il_id : Z; il_email : string; il_role : string; il_invited_by : string; il_created_at : Z; il_expires_at : Z;
  il_accepted_at : option Z; il_revoked_at : option Z;
}.
Inductive InviteResponse : Type := Added (member : TeamUser) | Invited (invitation : InvitationListItem).
Record InvitationPreview : Type := {
  ip_team_name : string; ip_team_key_pubkey : option string; ip_role : string; ip_invited_by_display_name : string;
  ip_invited_by_email : option string; ip_expires_at : Z; ip_email : string;
}.
Record AcceptInvitationResponse : Type := { air_team_id : Z; air_role : string }.

(** What the relays know of a key: its display name and picture. *)
Record ProfileMetadata : Type := { pm_display_name : option string; pm_picture : option string }.
Record invite_mail : Type := {
  im_email : string; im_team_name : string; im_picture : option string; im_inviter : string; im_role : string;
  im_expires_at : Z; im_url : string;
}.

(** ALLOWED_PUBKEYS and Redis come with the authentication. *)
Record team_config : Type := {
  tc_auth : auth_env; tc_ip_limit : option string; tc_bunker_relays : option string;
  tc_invite_base_url : option string; tc_base_url : option string; tc_app_url : option string;
  tc_email_service : bool;
}.
Record team_state : Type := { te_db : Db; te_redis : redis_store; te_mail : list invite_mail }.
Definition set_te_db (d : Db) (s : team_state) : team_state :=
  {| te_db := d; te_redis := te_redis s; te_mail := te_mail s |}.

Notation TeM A := (SE team_state api_abort A).
Definition api_fail {A} (e : ApiError) : TeM A := se_fail (ApiFailed e).
Definition lift_api {A} (r : result A ApiError) : TeM A := se_lift (map_err ApiFailed r).
(** A statement whose error becomes the one [f] gives. *)
Definition repo_with {A} (f : RepositoryError -> ApiError) (c : DbM A) : TeM A := fun s =>
  let '(d, r) := c (te_db s) in (set_te_db d s, map_err (fun e => ApiFailed (f e)) r).
Definition repo {A} (c : DbM A) : TeM A := repo_with api_error_of_repository c.
Definition query {A} (f : Db -> A) : TeM A := se_gets (fun s => f (te_db s)).
Definition query_with {A} (f : RepositoryError -> ApiError) (g : Db -> result A RepositoryError) : TeM A :=
  repo_with f (fun d => (d, g d)).

Section teams.
Context `{HN : Nostr, HS : !Serde, HX : !Secrets, HL : UrlLib, HUni : Unicode, HI : Ipv6}.

(** ** Who may act *)
Definition is_full_admin_by_pubkey (env : auth_env) (pubkey_hex : string) : bool :=
  match ae_allowed_pubkeys env with
  | Some allowed_pubkeys =>
      negb (bool_decide (allowed_pubkeys = "")) && bool_decide (pubkey_hex ∈ map trim (split "," allowed_pubkeys))
  | None => false
  end.

Definition verify_admin (cfg : team_config) (pubkey_hex : string) (team_id : Z) : TeM unit := fun s =>
  if is_full_admin_by_pubkey (tc_auth cfg) pubkey_hex then (s, Ok tt)
  else match pk_from_hex pubkey_hex with
       | Err _ => (s, Err (ApiFailed (Api_BadRequest "Invalid pubkey")))
       | Ok pubkey =>
           if is_team_admin (pk_to_hex pubkey) team_id (te_db s) then (s, Ok tt)
           else (s, Err (ApiFailed (Api_Forbidden "You are not authorized to access this team")))
       end.

Definition fetch_support_admin_set (env : auth_env) (now : Z) (r : redis_store) : option (gset string) :=
  l ← ae_redis env; if rl_up l then Some (redis_smembers now (link_key l SUPPORT_ADMINS_KEY) r) else None.

Definition mark_support_member (support_set : gset string) (tu : TeamUser) : TeamUser := {|
  mb_user_pubkey := mb_user_pubkey tu; mb_team_id := mb_team_id tu; mb_role := mb_role tu; mb_email := mb_email tu;
  mb_created_at := mb_created_at tu; mb_updated_at := mb_updated_at tu;
  mb_is_support_member := bool_decide (mb_user_pubkey tu ∈ support_set) || mb_is_support_member tu |}.
Definition mark_support_members (team_users : list TeamUser) (support_set : gset string) : list TeamUser :=
  map (mark_support_member support_set) team_users.
Definition mark_team (cfg : team_config) (now : Z) (s : team_state) (t : TeamWithRelations) : TeamWithRelations :=
  match fetch_support_admin_set (tc_auth cfg) now (te_redis s) with
  | Some set => {| twr_team := twr_team t; twr_team_users := mark_support_members (twr_team_users t) set;
                   twr_stored_keys := twr_stored_keys t; twr_policies := twr_policies t |}
  | None => t
  end.

Definition hex_key (pubkey : string) : TeM PublicKey := lift_api (map_err Api_BadRequest (pk_from_hex pubkey)).
Definition own_key (pubkey : string) : TeM PublicKey :=
  lift_api (map_err (fun _ => Api_BadRequest "Invalid pubkey") (pk_from_hex pubkey)).

(** ** Teams *)
Definition list_teams (now : Z) (cfg : team_config) (tenant_id : Z) (auth : UcanAuth) : TeM (list TeamWithRelations) :=
  let! user_pubkey := own_key (ua_pubkey auth) in
  let! user := query_with (fun _ => Api_NotFound "User not found") (user_find_by_pubkey tenant_id (pk_to_hex user_pubkey)) in
  fun s => (s, map_err (fun e => ApiFailed (Api_User e))
                 (let? teams := user_teams tenant_id (u_pubkey user) (te_db s) in Ok (map (mark_team cfg now s) teams))).

Definition default_kinds_config : json := JObject [("allowed_kinds", JNull)].
Definition create_team (now : Z) (cfg : team_config) (tenant_id : Z) (auth : UcanAuth) (name : string)
  : TeM TeamWithRelations :=
  let! user_pubkey := own_key (ua_pubkey auth) in
  let! memberships := query (count_team_memberships tenant_id (pk_to_hex user_pubkey)) in
  let can_create_first_team := (memberships =? 0)%nat in
  let is_full := is_full_admin (tc_auth cfg) auth in
  let! support := se_gets (fun s => is_support_admin (tc_auth cfg) now auth (te_redis s)) in
  let is_support := negb is_full && support in
  if negb is_full && negb is_support && negb can_create_first_team then
    api_fail (Api_Forbidden "Team creation is restricted to authorized users. Contact admin for access.")
  else
    let! team := repo (create_with_admin now tenant_id name (ua_pubkey auth) default_kinds_config) in
    let! _ := (if is_support then
                 let! _ := se_lift (ok_or (slice (ua_pubkey auth) 0 (Z.min 8 (len (ua_pubkey auth)))) ApiPanic) in se_ret tt
               else se_ret tt) in
    se_ret team.

Definition get_team (now : Z) (cfg : team_config) (tenant_id : Z) (auth : UcanAuth) (team_id : Z) : TeM TeamWithRelations :=
  let! _ := verify_admin cfg (ua_pubkey auth) team_id in
  let! team := query_with (fun _ => Api_NotFound "Team not found") (find_with_relations tenant_id team_id) in
  se_gets (fun s => mark_team cfg now s team).

Definition update_team (now : Z) (cfg : team_config) (tenant_id : Z) (auth : UcanAuth) (request : UpdateTeamRequest) : TeM Team :=
  let! _ := verify_admin cfg (ua_pubkey auth) (ut_id request) in
  repo_with (fun _ => Api_NotFound "Team not found") (team_update now tenant_id (ut_id request) (ut_name request)).

Definition delete_team (cfg : team_config) (tenant_id : Z) (auth : UcanAuth) (team_id : Z) : TeM unit :=
  let! _ := verify_admin cfg (ua_pubkey auth) team_id in
  repo_with (fun e => Api_Internal ("Failed to delete team: " +:+ repository_error_str e)) (team_delete tenant_id team_id).

(** ** Members *)
Definition add_user (now : Z) (cfg : team_config) (tenant_id : Z) (auth : UcanAuth) (team_id : Z) (request : AddTeammateRequest)
  : TeM TeamUser :=
  let! _ := verify_admin cfg (ua_pubkey auth) team_id in
  let! new_user_pubkey := hex_key (at_user_pubkey request) in
  let! present := query (is_member team_id (pk_to_hex new_user_pubkey)) in
  if present : bool then api_fail (Api_BadRequest "User already a member of this team")
  else
    let! _ := repo (find_or_create now tenant_id (pk_to_hex new_user_pubkey)) in
    let! team_user := repo (add_member now team_id (pk_to_hex new_user_pubkey) (role_str (at_role request))) in
    se_gets (fun s => match fetch_support_admin_set (tc_auth cfg) now (te_redis s) with
                      | Some set => mark_support_member set team_user
                      | None => team_user
                      end).

(** The count of the other administrators and the removal are two statements; here
    no other request comes between them. *)
Definition remove_user (cfg : team_config) (auth : UcanAuth) (team_id : Z) (user_pubkey : string) : TeM unit :=
  let! _ := verify_admin cfg (ua_pubkey auth) team_id in
  let! removed := hex_key user_pubkey in
  let! remaining_admin_count := query (count_other_admins team_id (pk_to_hex removed)) in
  if bool_decide (ua_pubkey auth = pk_to_hex removed) && (remaining_admin_count =? 0)%nat then
    api_fail (Api_Forbidden "Cannot delete the last admin from the team.")
  else repo (remove_member team_id (pk_to_hex removed)).

(** ** Keys *)
Definition add_key (now : Z) (cfg : team_config) (tenant_id : Z) (auth : UcanAuth) (team_id : Z) (request : AddKeyRequest)
  : TeM PublicStoredKey :=
  let! _ := verify_admin cfg (ua_pubkey auth) team_id in
  let! keys := lift_api (map_err Api_BadRequest (keys_parse (ak_secret_key request))) in
  let! encrypted_secret := lift_api (map_err Api_BadRequest (km_encrypt (sk_to_bytes keys))) in
  let! key := repo_with (fun e => Api_Internal (repository_error_str e))
                (key_create now tenant_id team_id (ak_name request) (pk_to_hex (pk_of keys)) encrypted_secret) in
  se_ret (public_key_of key).

Definition remove_key (cfg : team_config) (tenant_id : Z) (auth : UcanAuth) (team_id : Z) (pubkey : string) : TeM unit :=
  let! _ := verify_admin cfg (ua_pubkey auth) team_id in
  let! key := hex_key pubkey in
  repo_with (fun _ => Api_NotFound "Key not found") (delete_by_pubkey tenant_id team_id (pk_to_hex key)).

Definition with_policy (d : Db) (auth : Authorization) : result AuthorizationWithRelations RepositoryError :=
  let? policy := policy_find d (au_policy_id auth) in
  Ok {| awr_authorization := auth; awr_policy := policy; awr_bunker_connection_string := None |}.

Definition get_key (cfg : team_config) (tenant_id : Z) (auth : UcanAuth) (team_id : Z) (pubkey : string) : TeM KeyWithRelations :=
  let! _ := verify_admin cfg (ua_pubkey auth) team_id in
  let! key := hex_key pubkey in
  let! team := query_with (fun _ => Api_NotFound "Team not found") (team_find tenant_id team_id) in
  let! stored_key := query_with (fun _ => Api_NotFound "Stored key not found")
                       (key_find_by_pubkey tenant_id team_id (pk_to_hex key)) in
  let! authorizations := query_with (fun e => Api_Internal (repository_error_str e))
                           (find_by_stored_key tenant_id (sk_id stored_key)) in
  let! complete_authorizations := query_with (fun _ => Api_NotFound "Policy not found")
                                    (fun d => collect (with_policy d) authorizations) in
  se_ret {| kwr_team := team; kwr_stored_key := public_key_of stored_key; kwr_authorizations := complete_authorizations |}.

(** ** Authorizations and policies *)
Definition add_authorization (now : Z) (cfg : team_config) (tenant_id : Z) (auth : UcanAuth) (team_id : Z) (pubkey : string)
    (secret_pair : option SecretPair) (request : AddAuthorizationRequest) : TeM AuthorizationCreatedResponse :=
  let! _ := verify_admin cfg (ua_pubkey auth) team_id in
  let! key := hex_key pubkey in
  let! stored_key := query_with (fun _ => Api_NotFound "Stored key not found")
                       (key_find_by_pubkey tenant_id team_id (pk_to_hex key)) in
  let! known := query (fun d => policy_exists_for_team d team_id (aa_policy_id request)) in
  if negb known then api_fail (Api_NotFound "Policy not found")
  else
    let! drawn := lift_api (ok_or secret_pair (Api_Internal "Secret pool exhausted")) in
    let! decrypted := lift_api (map_err (fun e => Api_Internal ("Failed to decrypt stored key: " +:+ e))
                        (km_decrypt (sk_secret_key stored_key))) in
    let! stored_key_secret := lift_api (map_err (fun e => Api_Internal ("Invalid stored key: " +:+ e))
                                (sk_from_slice decrypted)) in
    let! bunker_keys := se_lift (ok_or (derive_bunker_keys stored_key_secret (pair_hash drawn)) ApiPanic) in
    let bunker_hex := pk_to_hex (pk_of bunker_keys) in
    let! authorization := repo_with (fun e => Api_Internal (repository_error_str e))
      (authorization_create now tenant_id (sk_id stored_key) (aa_policy_id request) (pair_hash drawn) bunker_hex
         (JArray (map JString (aa_relays request))) (aa_max_uses request) (aa_expires_at request) (aa_label request)) in
    let! bunker_url := se_lift (ok_or (generate_bunker_url urlencode (tc_bunker_relays cfg) bunker_hex (pair_secret drawn))
                                  ApiPanic) in
    se_ret {| acr_authorization := authorization; acr_bunker_url := bunker_url |}.

Definition delete_authorization (cfg : team_config) (tenant_id : Z) (auth : UcanAuth) (team_id : Z) (pubkey : string) (auth_id : Z)
  : TeM unit :=
  let! _ := verify_admin cfg (ua_pubkey auth) team_id in
  let! key := hex_key pubkey in
  let! stored_key := query_with (fun _ => Api_NotFound "Stored key not found")
                       (key_find_by_pubkey tenant_id team_id (pk_to_hex key)) in
  let! deleted := repo_with (fun e => Api_Internal (repository_error_str e))
                    (delete_for_stored_key tenant_id auth_id (sk_id stored_key)) in
  if negb deleted then api_fail (Api_NotFound "Authorization not found") else se_ret tt.

Definition add_policy (now : Z) (cfg : team_config) (auth : UcanAuth) (team_id : Z) (request : CreatePolicyRequest)
  : TeM PolicyWithPermissions :=
  let! _ := verify_admin cfg (ua_pubkey auth) team_id in
  let permission_configs := List.filter (fun p => bool_decide (fst p ∈ AVAILABLE_PERMISSIONS)) (cpr_permissions request) in
  repo (fun d => create_with_permissions now d team_id (cpr_name request) permission_configs).

(** ** Invitations *)

(** The name others see: a display name, a user name, or the start of the key. *)
Definition non_empty (o : option string) : option string := s ← o; if bool_decide (s = "") then None else Some s.
Definition shown_name (pubkey : string) (tenant_id : Z) (d : Db) : option string :=
  u ← find_user pubkey tenant_id d;
  match non_empty (us_display_name u) with Some n => Some n | None => non_empty (us_username u) end.
Definition resolve_display_name (pubkey : string) (tenant_id : Z) (d : Db) : result string api_abort :=
  match shown_name pubkey tenant_id d with
  | Some n => Ok n
  | None => let? start := ok_or (slice pubkey 0 8) ApiPanic in Ok (start +:+ "…")
  end.
Definition display_name (pubkey : string) (tenant_id : Z) : TeM string := fun s => (s, resolve_display_name pubkey tenant_id (te_db s)).

Definition list_item (inviter_name : string) (i : TeamInvitation) : InvitationListItem := {|
  il_id := ti_id i; il_email := ti_email i; il_role := ti_role i; il_invited_by := inviter_name;
  il_created_at := ti_created_at i; il_expires_at := ti_expires_at i; il_accepted_at := ti_accepted_at i;
  il_revoked_at := ti_revoked_at i |}.

(** team_invitations.team_id is a foreign key. *)
Definition create_invitation (now team_id tenant_id : Z) (email role token invited_by : string) : DbM TeamInvitation := fun d =>
  match invitation_create now team_id tenant_id email role token invited_by (db_team_invitations d) with
  | (_, Err e) => (d, Err e)
  | (t, Ok i) => if negb (team_exists d team_id) then (d, Err (RE_Integrity "team_invitations_team_id_fkey"))
                 else (set_team_invitations t d, Ok i)
  end.

(** ORDER BY id LIMIT 1 *)
Definition first_key_of (tenant_id team_id : Z) (d : Db) : option string :=
  sk_pubkey <$> foldr (fun k acc => match acc with
                                    | Some best => if sk_id k <=? sk_id best then Some k else acc
                                    | None => Some k
                                    end) None (list_by_team tenant_id team_id d).

Definition or_else {A} (a b : option A) : option A := match a with Some _ => a | None => b end.
Definition invite_base_url (cfg : team_config) : string :=
  default "http://localhost:5173" (or_else (tc_invite_base_url cfg) (or_else (tc_base_url cfg) (tc_app_url cfg))).

Definition send_invite (cfg : team_config) (m : invite_mail) : TeM unit := se_modify (fun s =>
  if tc_email_service cfg then {| te_db := te_db s; te_redis := te_redis s; te_mail := te_mail s ++ [m] |} else s).

Definition limit_invites (now : Z) (cfg : team_config) (tenant_id : Z) (q : http_request) (email : string) : TeM unit := fun s =>
  let '(r, allowed) := allow_request now (ae_redis (tc_auth cfg)) (ip_limit_per_hour (tc_ip_limit cfg)) "team_invite"
                         tenant_id (header_text "x-forwarded-for" q) (Some email) (te_redis s) in
  ({| te_db := te_db s; te_redis := r; te_mail := te_mail s |},
   if allowed then Ok tt else Err (ApiFailed Api_TooManyRequests)).

(** The caller's email, read as a String that must not be null. *)
Definition caller_email (pubkey : string) (tenant_id : Z) (d : Db) : result (option string) RepositoryError :=
  match find_user pubkey tenant_id d with
  | None => Ok None
  | Some u => let? e := not_null (us_email u) in Ok (Some e)
  end.

(** The mail to somebody who has no account yet. *)
Definition mail_invitation (cfg : team_config) (tenant_id : Z) (auth : UcanAuth) (team_id : Z) (profile : option ProfileMetadata)
    (inviter_name : string) (i : TeamInvitation) : TeM unit :=
  let! real := query (shown_name (ua_pubkey auth) tenant_id) in
  let! own_email := query (fun d => match get_email (ua_pubkey auth) tenant_id d with Ok e => Some e | Err _ => None end) in
  let! team := query_with api_error_of_repository (team_find tenant_id team_id) in
  let! team_key_pubkey := query (first_key_of tenant_id team_id) in
  let! profile := (match team_key_pubkey with
                   | Some _ => let! _ := se_lift (ok_or (get_bunker_relays (tc_bunker_relays cfg)) ApiPanic) in se_ret profile
                   | None => se_ret None
                   end) in
  send_invite cfg {|
    im_email := ti_email i; im_team_name := default (tm_name team) (profile ≫= pm_display_name);
    im_picture := profile ≫= pm_picture; im_inviter := default inviter_name (or_else real own_email);
    im_role := ti_role i; im_expires_at := ti_expires_at i;
    im_url := invite_base_url cfg +:+ "/accept-invite?token=" +:+ ti_token i |}.

Definition invite_user (now : Z) (cfg : team_config) (tenant_id : Z) (q : http_request) (auth : UcanAuth) (team_id : Z)
    (token : string) (profile : option ProfileMetadata) (request : InviteRequest) : TeM InviteResponse :=
  let! _ := verify_admin cfg (ua_pubkey auth) team_id in
  let email := to_lowercase (trim (iv_email request)) in
  let! _ := limit_invites now cfg tenant_id q email in
  if negb (contains_char "@" email) || (len email <? 5) then api_fail (Api_BadRequest "Invalid email address")
  else
    let! own := query_with (fun e => Api_Internal ("Failed to look up caller email: " +:+ repository_error_str e))
                  (caller_email (ua_pubkey auth) tenant_id) in
    if bool_decide (to_lowercase <$> own = Some email) then api_fail (Api_BadRequest "Cannot invite yourself")
    else
      let! existing_pubkey := query (find_pubkey_by_email email tenant_id) in
      match existing_pubkey with
      | Some pubkey =>
          let! present := query (is_member team_id pubkey) in
          if present : bool then api_fail (Api_Conflict "Already a team member")
          else
            let! pk := lift_api (map_err (fun _ => Api_Internal "Invalid stored pubkey") (pk_from_hex pubkey)) in
            let! _ := repo (find_or_create now tenant_id (pk_to_hex pk)) in
            let! team_user := repo (add_member now team_id pubkey (role_str (iv_role request))) in
            se_ret (Added team_user)
      | None =>
          let! pending := query (fun d => invitation_find_pending_by_email now team_id email (db_team_invitations d)) in
          if negb (is_null pending) then api_fail (Api_Conflict "Invitation already pending for this email")
          else
            let! invitation := repo (create_invitation now team_id tenant_id email (role_str (iv_role request)) token
                                       (ua_pubkey auth)) in
            let! inviter_name := display_name (ua_pubkey auth) tenant_id in
            let! _ := mail_invitation cfg tenant_id auth team_id profile inviter_name invitation in
            se_ret (Invited (list_item inviter_name invitation))
      end.

Definition list_invitations (cfg : team_config) (tenant_id : Z) (auth : UcanAuth) (team_id : Z) : TeM (list InvitationListItem) :=
  let! _ := verify_admin cfg (ua_pubkey auth) team_id in
  fun s => (s, collect (fun i => let? name := resolve_display_name (ti_invited_by i) tenant_id (te_db s) in Ok (list_item name i))
                 (invitation_list_by_team team_id tenant_id (db_team_invitations (te_db s)))).

Definition revoke_invitation (now : Z) (cfg : team_config) (tenant_id : Z) (auth : UcanAuth) (team_id invitation_id : Z) : TeM unit :=
  let! _ := verify_admin cfg (ua_pubkey auth) team_id in
  repo (fun d => let '(t, r) := invitation_revoke now invitation_id team_id tenant_id (db_team_invitations d) in
                 (set_team_invitations t d, r)).

(** A valid invitation of the tenant. *)
Definition valid_invitation (now tenant_id : Z) (token : string) : TeM TeamInvitation :=
  let! found := query (fun d => invitation_find_valid_by_token now token (db_team_invitations d)) in
  let! invitation := lift_api (ok_or found (Api_NotFound "Invitation not found or expired")) in
  if negb (ti_tenant_id invitation =? tenant_id) then api_fail (Api_NotFound "Invitation not found or expired")
  else se_ret invitation.

Definition preview_invitation (now tenant_id : Z) (token : string) : TeM InvitationPreview :=
  let! invitation := valid_invitation now tenant_id token in
  let! team := query_with api_error_of_repository (team_find tenant_id (ti_team_id invitation)) in
  let! team_key_pubkey := query (first_key_of tenant_id (ti_team_id invitation)) in
  let! inviter_name := display_name (ti_invited_by invitation) tenant_id in
  let! invited_by_email := query (fun d => match get_email (ti_invited_by invitation) tenant_id d with
                                           | Ok e => Some e | Err _ => None end) in
  se_ret {| ip_team_name := tm_name team; ip_team_key_pubkey := team_key_pubkey; ip_role := ti_role invitation;
            ip_invited_by_display_name := inviter_name; ip_invited_by_email := invited_by_email;
            ip_expires_at := ti_expires_at invitation; ip_email := ti_email invitation |}.

(** The clock may move on between the lookup and the acceptance. *)
Definition accept_invitation (now now' : Z) (tenant_id : Z) (auth : UcanAuth) (token : string) : TeM AcceptInvitationResponse :=
  let! invitation := valid_invitation now tenant_id token in
  let! user_email := query_with (fun _ => Api_BadRequest "Could not retrieve your email address")
                       (get_email (ua_pubkey auth) tenant_id) in
  if negb (bool_decide (to_lowercase user_email = to_lowercase (ti_email invitation))) then
    api_fail (Api_Forbidden "This invitation was sent to a different email address")
  else
    let! present := query (is_member (ti_team_id invitation) (ua_pubkey auth)) in
    if present : bool then api_fail (Api_Conflict "You are already a member of this team")
    else
      let! _ := repo (add_member now (ti_team_id invitation) (ua_pubkey auth) (ti_role invitation)) in
      let! _ := repo_with (fun e => Api_Internal ("Failed to mark invitation as accepted: " +:+ repository_error_str e))
                  (fun d => let '(t, r) := invitation_accept now' token (ua_pubkey auth) (db_team_invitations d) in
                            (set_team_invitations t d, r)) in
      se_ret {| air_team_id := ti_team_id invitation; air_role := ti_role invitation |}.

(** ** The public list of policies: api/src/api/http/policies.rs *)
Record PolicyResponse : Type := {
  po_slug : string; po_display_name : string; po_description : string; po_permissions : list PermissionDisplay;
}.
Record ErrorResponse : Type := { er_error : string; er_message : string }.

Definition policy_response (d : Db) (policy : Policy) : PolicyResponse := {|
  po_slug := default (print_Z (pol_id policy)) (pol_slug policy);
  po_display_name := default (pol_name policy) (pol_display_name policy);
  po_description := default "" (pol_description policy);
  po_permissions := match permission_displays d policy with Ok p => p | Err _ => [] end |}.
Definition list_policies (d : Db) : list PolicyResponse := map (policy_response d) (policy_list_public d).
Definition get_policy (slug : string) (d : Db) : result PolicyResponse (Z * ErrorResponse) :=
  match policy_find_by_slug d slug with
  | Ok policy => Ok (policy_response d policy)
  | Err (RE_NotFound _) => Err (404, {| er_error := "not_found"; er_message := "Policy '" +:+ slug
      +:+ "' not found. Use GET /api/policies for available options." |})
  | Err e => Err (500, {| er_error := "database_error"; er_message := repository_error_str e |})
  end.
End teams.
