(* ===== verification/TeamsSafety.v ===== *)
(** * Properties of teams

    Who may change a team and what a change leaves alone, that a team keeps an
    administrator, what a new team can do, and who joins by an invitation. *)
From S2P Require Import Prelude RustStr External Instances Database Samples Permissions Policies Tokens AuthTypes Ucan HttpRpc OAuthRepo Users OAuth WorkQueue Queues RateLimit Tenant Nip98 TeamRepo TeamViews Teams.

(** ** Statements and the rows they leave alone *)
Lemma filter_delete_frame {A} (p q : A -> bool) l :
  (forall a, a ∈ l -> p a = true -> q a = false) -> List.filter q (delete_where p l) = List.filter q l.
Proof.
  unfold delete_where. induction l as [|a l IH]; intros Hl; simpl; [done|].
  assert (IH' := IH (fun x Hx => Hl x (list_elem_of_further _ _ _ Hx))).
  destruct (p a) eqn:Hp; simpl.
  - by rewrite (Hl a (list_elem_of_here _ _) Hp).
  - destruct (q a); by rewrite IH'.
Qed.

Lemma filter_update_frame {A} (p q : A -> bool) f l :
  (forall a, a ∈ l -> p a = true -> q a = false /\ q (f a) = false) -> List.filter q (update_where p f l) = List.filter q l.
Proof.
  unfold update_where. induction l as [|a l IH]; intros Hl; simpl; [done|].
  rewrite IH by (intros; apply Hl; [by constructor | done]).
  destruct (p a) eqn:Hp; [|done]. by destruct (Hl a (list_elem_of_here _ _) Hp) as [-> ->].
Qed.

Lemma filter_snoc_frame {A} (q : A -> bool) l a : q a = false -> List.filter q (l ++ [a]) = List.filter q l.
Proof. intros Ha. rewrite List.filter_app. simpl. by rewrite Ha, app_nil_r. Qed.

(** What belongs to the owner of policies, a team or the server itself: the
    policies, their links and the permissions linked from them. *)
Definition owned (owner : option Z) (p : Policy) : bool := bool_decide (pol_team_id p = owner).
Definition policies_of (owner : option Z) (d : Db) : list Policy := List.filter (owned owner) (rows (db_policies d)).
Definition links_of (owner : option Z) (d : Db) : list policy_permission_row :=
  List.filter (fun l => bool_decide (pp_policy_id l ∈ map pol_id (policies_of owner d))) (rows (db_policy_permissions d)).
Definition permissions_of (owner : option Z) (d : Db) : list permission_row :=
  List.filter (fun p => bool_decide (pr_id p ∈ map pp_permission_id (links_of owner d))) (rows (db_permissions d)).
Record policy_rows : Type := {
  of_policies : list Policy; of_links : list policy_permission_row; of_permissions : list permission_row;
}.
Definition policy_rows_of (owner : option Z) (d : Db) : policy_rows := {|
  of_policies := policies_of owner d; of_links := links_of owner d; of_permissions := permissions_of owner d |}.

(** What belongs to a team: its row, members, keys, invitations, the authorizations
    on its keys, and its policies with their links and permissions. *)
Definition keys_of_team (t : Z) (d : Db) : list StoredKey := List.filter (fun k => sk_team_id k =? t) (rows (db_stored_keys d)).
Definition on_keys (keys : list StoredKey) (a : Authorization) : bool := bool_decide (au_stored_key_id a ∈ map sk_id keys).
Record team_rows : Type := {
  of_team : list Team; of_members : list team_user_row; of_keys : list StoredKey; of_invitations : list TeamInvitation;
  of_authorizations : list Authorization; of_policy_rows : policy_rows;
}.
Definition rows_of_team (t : Z) (d : Db) : team_rows := {|
  of_team := List.filter (fun m => tm_id m =? t) (rows (db_teams d));
  of_members := List.filter (fun m => tu_team_id m =? t) (rows (db_team_users d));
  of_keys := keys_of_team t d;
  of_invitations := List.filter (fun i => ti_team_id i =? t) (rows (db_team_invitations d));
  of_authorizations := List.filter (on_keys (keys_of_team t d)) (rows (db_authorizations d));
  of_policy_rows := policy_rows_of (Some t) d |}.

(** The ids of keys, policies and permissions are distinct and below their
    sequences, and the tokens of invitations are distinct. *)
Definition invitation_tokens (d : Db) : list string := map ti_token (rows (db_team_invitations d)).
Definition team_wf (d : Db) : Prop :=
  ids_fresh sk_id (db_stored_keys d) /\ policies_wf d /\ NoDup (invitation_tokens d).

(** Only the rows of one team change. *)
Definition only_team (team : Z) (d d' : Db) : Prop :=
  team_wf d ->
  team_wf d' /\ (forall t, t <> team -> rows_of_team t d' = rows_of_team t d) /\ policy_rows_of None d' = policy_rows_of None d.
#[export] Instance only_team_preorder team : PreOrder (only_team team).
Proof.
  split.
  - intros d Hd. done.
  - intros d1 d2 d3 H12 H23 Hd. destruct (H12 Hd) as (Hd2 & E12 & P12). destruct (H23 Hd2) as (Hd3 & E23 & P23).
    split; [done|]. split; [intros t Ht; by rewrite E23, E12 | by rewrite P23, P12].
Qed.

(** Members are only added. *)
Definition members_grow (d d' : Db) : Prop := exists l, rows (db_team_users d') = rows (db_team_users d) ++ l.
#[export] Instance members_grow_preorder : PreOrder members_grow.
Proof.
  split.
  - intros d. exists []. by rewrite app_nil_r.
  - intros d1 d2 d3 [l1 H1] [l2 H2]. exists (l1 ++ l2). by rewrite H2, H1, app_assoc.
Qed.
Lemma members_same d d' : db_team_users d' = db_team_users d -> members_grow d d'.
Proof. intros E. exists []. by rewrite E, app_nil_r. Qed.

(** What a handler does to the database, step by step. *)
Section within.
Context (R : Db -> Db -> Prop) `{HR : !PreOrder R}.

Definition within {A} (s : team_state) (c : TeM A) : Prop := forall s' r, c s = (s', r) -> R (te_db s) (te_db s').

Lemma within_bind {A B} s (c : TeM A) (k : A -> TeM B) :
  within s c -> (forall s1 a, c s = (s1, Ok a) -> within s1 (k a)) -> within s (se_bind c k).
Proof.
  intros Hc Hk s' r. unfold se_bind. destruct (c s) as [s1 [a|e]] eqn:E.
  - intros Hrun. etrans; [by eapply Hc|]. by eapply Hk.
  - intros [= <- <-]. by eapply Hc.
Qed.
Lemma within_same {A} s (c : TeM A) : te_db (fst (c s)) = te_db s -> within s c.
Proof. intros E s' r Hrun. rewrite Hrun in E. simpl in E. rewrite E. reflexivity. Qed.
Lemma within_repo {A} f (c : DbM A) s : R (te_db s) (fst (c (te_db s))) -> within s (repo_with f c).
Proof. unfold repo_with. intros Hc s' r. destruct (c (te_db s)) as [d x]. by intros [= <- <-]. Qed.
Lemma within_if {A} s (b : bool) (c k : TeM A) : within s c -> within s k -> within s (if b then c else k).
Proof. by destruct b. Qed.
End within.

Section teams_safety.
Context `{HN : Nostr, HS : !Serde, HX : !Secrets, HL : UrlLib, HUni : Unicode, HI : Ipv6}.

Lemma query_with_ok {A} f (g : Db -> result A RepositoryError) s s' a :
  query_with f g s = (s', Ok a) -> s' = s /\ g (te_db s) = Ok a.
Proof.
  unfold query_with, repo_with. intros [= <- Ha]. apply map_err_ok in Ha. split; [by destruct s | done].
Qed.
Lemma verify_admin_same cfg pubkey team s : fst (verify_admin cfg pubkey team s) = s.
Proof.
  unfold verify_admin. destruct (is_full_admin_by_pubkey _ _); [done|]. destruct (pk_from_hex pubkey); [|done].
  by destruct (is_team_admin _ _ _).
Qed.

(** ** Operations on a team *)
Inductive team_op : Type :=
| UpdateTeam (request : UpdateTeamRequest)
| DeleteTeam (team : Z)
| AddUser (team : Z) (request : AddTeammateRequest)
| RemoveUser (team : Z) (user_pubkey : string)
| AddKey (team : Z) (request : AddKeyRequest)
| RemoveKey (team : Z) (pubkey : string)
| AddAuthorization (team : Z) (pubkey : string) (drawn : option SecretPair) (request : AddAuthorizationRequest)
| DeleteAuthorization (team : Z) (pubkey : string) (auth_id : Z)
| AddPolicy (team : Z) (request : CreatePolicyRequest)
| InviteUser (team : Z) (q : http_request) (token : string) (profile : option ProfileMetadata) (request : InviteRequest)
| RevokeInvitation (team invitation_id : Z)
| AcceptInvitation (accepted_at : Z) (token : string)
| CreateTeam (name : string).

(** The team an operation is about: the one it names, the one of the invitation,
    or the one that is to come. *)
Definition op_team (op : team_op) (d : Db) : option Z :=
  match op with
  | UpdateTeam request => Some (ut_id request)
  | DeleteTeam t | AddUser t _ | RemoveUser t _ | AddKey t _ | RemoveKey t _ | AddAuthorization t _ _ _
  | DeleteAuthorization t _ _ | AddPolicy t _ | InviteUser t _ _ _ _ | RevokeInvitation t _ => Some t
  | AcceptInvitation _ token => ti_team_id <$> invitation_find_by_token token (db_team_invitations d)
  | CreateTeam _ => Some (next_id (db_teams d))
  end.

Definition forget {A} (c : TeM A) : TeM unit := let! _ := c in se_ret tt.
Definition run_team_op (now : Z) (cfg : team_config) (tenant_id : Z) (auth : UcanAuth) (op : team_op) : TeM unit :=
  match op with
  | UpdateTeam request => forget (update_team now cfg tenant_id auth request)
  | DeleteTeam t => delete_team cfg tenant_id auth t
  | AddUser t request => forget (add_user now cfg tenant_id auth t request)
  | RemoveUser t user_pubkey => remove_user cfg auth t user_pubkey
  | AddKey t request => forget (add_key now cfg tenant_id auth t request)
  | RemoveKey t pubkey => remove_key cfg tenant_id auth t pubkey
  | AddAuthorization t pubkey drawn request => forget (add_authorization now cfg tenant_id auth t pubkey drawn request)
  | DeleteAuthorization t pubkey auth_id => delete_authorization cfg tenant_id auth t pubkey auth_id
  | AddPolicy t request => forget (add_policy now cfg auth t request)
  | InviteUser t q token profile request => forget (invite_user now cfg tenant_id q auth t token profile request)
  | RevokeInvitation t invitation_id => revoke_invitation now cfg tenant_id auth t invitation_id
  | AcceptInvitation accepted_at token => forget (accept_invitation now accepted_at tenant_id auth token)
  | CreateTeam name => forget (create_team now cfg tenant_id auth name)
  end.

(** An administrator of the team, or a full administrator. *)
Definition may_change (cfg : team_config) (auth : UcanAuth) (team : Z) (d : Db) : Prop :=
  is_full_admin_by_pubkey (tc_auth cfg) (ua_pubkey auth) = true \/
  exists pk, pk_from_hex (ua_pubkey auth) = Ok pk /\ is_team_admin (pk_to_hex pk) team d = true.

Lemma verify_admin_ok cfg auth team s s' u :
  verify_admin cfg (ua_pubkey auth) team s = (s', Ok u) -> s' = s /\ may_change cfg auth team (te_db s).
Proof.
  unfold verify_admin, may_change. destruct (is_full_admin_by_pubkey _ _) eqn:Ef; [intros [= <-]; auto|].
  destruct (pk_from_hex (ua_pubkey auth)) as [pk|e] eqn:Ep; [|done].
  destruct (is_team_admin _ _ _) eqn:Ea; [|done]. intros [= <-]. eauto.
Qed.

Lemma after_verify {A} cfg auth team (k : unit -> TeM A) s s' r :
  se_bind (verify_admin cfg (ua_pubkey auth) team) k s = (s', r) -> may_change cfg auth team (te_db s) \/ s' = s.
Proof.
  unfold se_bind. destruct (verify_admin _ _ _ s) as [s1 [u|e]] eqn:E.
  - apply verify_admin_ok in E as [-> H]. auto.
  - pose proof (verify_admin_same cfg (ua_pubkey auth) team s) as Hs. rewrite E in Hs. intros [= <- _]. by right.
Qed.

(** Who may ask for an operation: to join, the one whose email a pending invitation
    of the tenant names; for a new team, an administrator or somebody who is in no
    team; for the rest, the administrators. *)
Definition entitled (now : Z) (cfg : team_config) (tenant_id : Z) (auth : UcanAuth) (op : team_op) (s : team_state) : Prop :=
  match op with
  | AcceptInvitation _ token => exists i email, i ∈ rows (db_team_invitations (te_db s)) /\ ti_token i = token /\
      is_pending now i = true /\ ti_tenant_id i = tenant_id /\
      get_email (ua_pubkey auth) tenant_id (te_db s) = Ok email /\ to_lowercase email = to_lowercase (ti_email i)
  | CreateTeam _ => exists pk, pk_from_hex (ua_pubkey auth) = Ok pk /\
      (is_full_admin (tc_auth cfg) auth = true \/ is_support_admin (tc_auth cfg) now auth (te_redis s) = true \/
       count_team_memberships tenant_id (pk_to_hex pk) (te_db s) = 0%nat)
  | _ => exists team, op_team op (te_db s) = Some team /\ may_change cfg auth team (te_db s)
  end.

Lemma valid_invitation_same now tenant_id token s : fst (valid_invitation now tenant_id token s) = s.
Proof.
  unfold valid_invitation, query, se_bind, se_gets, lift_api, se_lift. destruct (invitation_find_valid_by_token _ _ _); [|done].
  simpl. by destruct (negb _).
Qed.
Lemma valid_invitation_ok now tenant_id token s s' i :
  valid_invitation now tenant_id token s = (s', Ok i) ->
  s' = s /\ i ∈ rows (db_team_invitations (te_db s)) /\ ti_token i = token /\ is_pending now i = true /\ ti_tenant_id i = tenant_id.
Proof.
  intros H. pose proof (valid_invitation_same now tenant_id token s) as Hs. rewrite H in Hs. simpl in Hs. subst s'. split; [done|].
  unfold valid_invitation in H. apply se_bind_ok in H as (s1 & o & Ho & H). apply se_gets_ok in Ho as [-> ->].
  apply se_bind_ok in H as (s1 & j & Hj & H). apply se_lift_ok in Hj as [-> Hj]. apply map_err_ok, ok_or_ok, find_first_Some in Hj as [Hj Hp].
  destruct (negb _) eqn:E; [done|]. apply se_ret_ok in H as [_ ->]. apply negb_false_iff, Z.eqb_eq in E. bool_to_prop. done.
Qed.

Lemma accept_needs now now' tenant_id auth token s s' r :
  accept_invitation now now' tenant_id auth token s = (s', r) ->
  s' = s \/ exists i email, valid_invitation now tenant_id token s = (s, Ok i) /\
    get_email (ua_pubkey auth) tenant_id (te_db s) = Ok email /\ to_lowercase email = to_lowercase (ti_email i).
Proof.
  intros H. apply se_read_first in H as [[_ ?]|(i & Hi & H)]; [by left| |apply valid_invitation_same].
  apply se_read_first in H as [[_ ?]|(email & He & H)]; [by left| |by destruct s]. apply query_with_ok in He as [_ He].
  destruct (negb _) eqn:E; [left; by injection H as <- _|]. apply negb_false_iff, bool_decide_eq_true in E. right. eauto.
Qed.

Lemma op_needs_right now cfg tenant_id auth op s s' r :
  run_team_op now cfg tenant_id auth op s = (s', r) -> entitled now cfg tenant_id auth op s \/ s' = s.
Proof.
  assert (Hf : forall A (c : TeM A) x, forget c s = (s', x) -> exists y, c s = (s', y)).
  { intros A c x. unfold forget, se_bind. destruct (c s) as [s1 [a|e]]; intros [= <- <-]; eauto. }
  destruct op; simpl; intros Hrun; try (apply Hf in Hrun as [y Hrun]);
    try (apply after_verify in Hrun as [Hm| ->]; [left; eauto | by right]).
  - apply accept_needs in Hrun as [->|(i & email & Hi & He & El)]; [by right|]. left.
    apply valid_invitation_ok in Hi as (_ & ? & ? & ? & ?). eauto 10.
  - unfold create_team in Hrun. apply se_read_first in Hrun as [[_ ->]|(pk & Hpk & Hrun)]; [by right| |done].
    apply se_lift_ok in Hpk as [_ Hpk]. apply map_err_ok, map_err_ok in Hpk.
    unfold se_bind at 1 2, query, se_gets in Hrun. destruct (negb _ && _ && _) eqn:Eg; [right; by injection Hrun as <- _|].
    left. exists pk. split; [done|]. destruct (is_full_admin _ _); [by left|]. destruct (is_support_admin _ _ _ _); [right; by left|].
    right; right. simpl in Eg. apply negb_false_iff, Nat.eqb_eq in Eg. done.
Qed.
(** ** Statements that stay within a team *)
Lemma delete_where_fresh {A} (key : A -> Z) p t : ids_fresh key t -> ids_fresh key (with_rows (delete_where p) t).
Proof.
  intros [Hnd Hlt]. unfold ids_fresh, with_rows, delete_where. simpl. split.
  - clear Hlt. induction (rows t) as [|r l IH]; simpl in *; [constructor|]. apply NoDup_cons in Hnd as [Hr Hnd].
    destruct (p r); simpl; [by apply IH|]. apply NoDup_cons. split; [|by apply IH].
    intros Hin. apply Hr. apply list_elem_of_fmap in Hin as (x & -> & Hx). apply list_elem_of_fmap_2.
    apply list_elem_of_In, List.filter_In in Hx as [Hx _]. by apply list_elem_of_In.
  - rewrite Forall_forall in *. intros r Hr. apply Hlt. apply list_elem_of_In, List.filter_In in Hr as [Hr _]. by apply list_elem_of_In.
Qed.

(** A change of the other tables, with the keys and the policies as they were. *)
Lemma only_team_intro team d d' :
  db_stored_keys d' = db_stored_keys d -> db_policies d' = db_policies d -> db_permissions d' = db_permissions d ->
  db_policy_permissions d' = db_policy_permissions d ->
  (NoDup (invitation_tokens d) -> NoDup (invitation_tokens d')) ->
  (forall t, t <> team ->
     List.filter (fun m => tm_id m =? t) (rows (db_teams d')) = List.filter (fun m => tm_id m =? t) (rows (db_teams d)) /\
     List.filter (fun m => tu_team_id m =? t) (rows (db_team_users d')) = List.filter (fun m => tu_team_id m =? t) (rows (db_team_users d)) /\
     List.filter (fun i => ti_team_id i =? t) (rows (db_team_invitations d')) = List.filter (fun i => ti_team_id i =? t) (rows (db_team_invitations d)) /\
     List.filter (on_keys (keys_of_team t d)) (rows (db_authorizations d')) = List.filter (on_keys (keys_of_team t d)) (rows (db_authorizations d))) ->
  only_team team d d'.
Proof.
  intros Hk Hp Hpr Hl Htok Hrows (Hfresh & Hwf & Hnd).
  assert (Hpol : forall o, policy_rows_of o d' = policy_rows_of o d).
  { intros o. unfold policy_rows_of, permissions_of, links_of, policies_of. by rewrite Hp, Hpr, Hl. }
  split; [unfold team_wf, policies_wf; rewrite Hk, Hp, Hpr, Hl; auto|]. split; [|done]. intros t Ht.
  unfold rows_of_team, keys_of_team. rewrite Hk, Hpol. destruct (Hrows t Ht) as (-> & -> & -> & Ha). unfold keys_of_team in Ha. by rewrite Ha.
Qed.

(** A change of the policies and permissions. *)
Lemma only_policies_intro team d d' :
  db_stored_keys d' = db_stored_keys d -> db_teams d' = db_teams d -> db_team_users d' = db_team_users d ->
  db_team_invitations d' = db_team_invitations d -> db_authorizations d' = db_authorizations d ->
  (policies_wf d -> policies_wf d' /\ forall o, o <> Some team -> policy_rows_of o d' = policy_rows_of o d) ->
  only_team team d d'.
Proof.
  intros Hk Ht Hu Hi Ha Hpol (Hfresh & Hwf & Hnd). destruct (Hpol Hwf) as [Hwf' E].
  split; [unfold team_wf, invitation_tokens; by rewrite Hk, Hi|]. split; [|by apply E]. intros t Hne.
  unfold rows_of_team, keys_of_team. rewrite Hk, Ht, Hu, Hi, Ha, E; [done | congruence].
Qed.

(** Tables of which the owner's part stays: the policies, then the links of them,
    then the permissions those name. *)
Lemma policy_rows_same o d d' :
  policies_of o d' = policies_of o d ->
  List.filter (fun l => bool_decide (pp_policy_id l ∈ map pol_id (policies_of o d))) (rows (db_policy_permissions d')) = links_of o d ->
  List.filter (fun p => bool_decide (pr_id p ∈ map pp_permission_id (links_of o d))) (rows (db_permissions d')) = permissions_of o d ->
  policy_rows_of o d' = policy_rows_of o d.
Proof.
  intros Hp Hl Hpr. assert (El : links_of o d' = links_of o d) by (unfold links_of at 1; by rewrite Hp, Hl).
  unfold policy_rows_of. rewrite Hp, El. unfold permissions_of at 1. by rewrite El, Hpr.
Qed.

Lemma owner_policy o d p : p ∈ policies_of o d <-> p ∈ rows (db_policies d) /\ pol_team_id p = o.
Proof. unfold policies_of. by rewrite list_elem_of_In, List.filter_In, <- list_elem_of_In, <- (bool_decide_eq_true (pol_team_id p = o)). Qed.
Lemma owner_link o d l : l ∈ links_of o d <-> l ∈ rows (db_policy_permissions d) /\ pp_policy_id l ∈ map pol_id (policies_of o d).
Proof. unfold links_of. by rewrite list_elem_of_In, List.filter_In, <- list_elem_of_In, bool_decide_eq_true. Qed.

(** A policy of one owner is no policy of another. *)
Lemma other_policy o d p :
  policies_wf d -> p ∈ rows (db_policies d) -> pol_team_id p <> o -> pol_id p ∉ map pol_id (policies_of o d).
Proof.
  intros (_ & [Hnd _] & _) Hp Ho Hin. apply list_elem_of_fmap in Hin as (q & E & Hq). apply owner_policy in Hq as [Hq Hqo].
  assert (p = q) as <- by by apply (NoDup_map_inj pol_id _ p q Hnd). done.
Qed.

(** Keys of different teams have different ids. *)
Lemma other_keys team t d k : ids_fresh sk_id (db_stored_keys d) -> t <> team -> k ∈ rows (db_stored_keys d) -> sk_team_id k = team ->
  sk_id k ∉ map sk_id (keys_of_team t d).
Proof.
  intros [Hnd _] Ht Hk Hteam Hin. apply list_elem_of_fmap in Hin as (k' & E & Hk').
  apply list_elem_of_In, List.filter_In in Hk' as [Hk' Ht'%Z.eqb_eq]. apply list_elem_of_In in Hk'.
  assert (k = k') as <- by by apply (NoDup_map_inj sk_id _ k k' Hnd). congruence.
Qed.

Section db_steps.
Context (R : Db -> Db -> Prop) `{HR : !PreOrder R}.
Lemma step_bind {A B} d (c : DbM A) (k : A -> DbM B) :
  R d (fst (c d)) -> (forall d1 a, c d = (d1, Ok a) -> R d1 (fst (k a d1))) -> R d (fst (se_bind c k d)).
Proof.
  intros Hc Hk. unfold se_bind. destruct (c d) as [d1 [a|e]] eqn:E; [|done]. etrans; [exact Hc|]. by apply Hk.
Qed.
Lemma step_atomically {A} d (c : DbM A) : R d (fst (c d)) -> R d (fst (atomically c d)).
Proof. intros Hc. unfold atomically. destruct (c d) as [d' [a|e]]; [done | reflexivity]. Qed.
End db_steps.

Lemma step_users team l d : only_team team d (set_users l d).
Proof. intros Hd. done. Qed.

Lemma step_find_or_create team now tenant_id pubkey d : only_team team d (fst (find_or_create now tenant_id pubkey d)).
Proof. unfold find_or_create. destruct (find_first _ _); apply step_users. Qed.

Lemma step_team_update team now tenant_id name d : only_team team d (fst (team_update now tenant_id team name d)).
Proof.
  apply only_team_intro; [done..|]. intros t Ht. split; [|done]. apply filter_update_frame.
  intros m _ [_ E%Z.eqb_eq]%andb_true_iff. simpl. rewrite E. split; by apply Z.eqb_neq.
Qed.

Lemma step_add_member team now pubkey role d : only_team team d (fst (add_member now team pubkey role d)).
Proof.
  unfold add_member. destruct (role_of_str role) as [ro|]; [|reflexivity]. destruct (existsb _ _); [reflexivity|].
  destruct (negb _); [reflexivity|]. destruct (negb _); [reflexivity|]. apply only_team_intro; [done..|]. intros t Ht.
  split; [done|]. split; [|done]. apply filter_snoc_frame. by apply Z.eqb_neq.
Qed.

Lemma step_remove_member team pubkey d : only_team team d (fst (remove_member team pubkey d)).
Proof.
  apply only_team_intro; [done..|]. intros t Ht. split; [done|]. split; [|done]. apply filter_delete_frame.
  intros m _ [_ E%Z.eqb_eq]%andb_true_iff. rewrite E. by apply Z.eqb_neq.
Qed.

Lemma step_key_create team now tenant_id name pubkey secret d : only_team team d (fst (key_create now tenant_id team name pubkey secret d)).
Proof.
  unfold key_create. destruct (negb _); [reflexivity|]. intros (Hfresh & Hd). split; [|split; [|done]].
  - split; [|done]. by apply (insert_row_fresh sk_id (fun i => {| sk_id := i; sk_team_id := team; sk_name := name; sk_pubkey := pubkey;
        sk_secret_key := secret; sk_tenant_id := tenant_id; sk_created_at := now; sk_updated_at := now |})).
  - intros t Ht. unfold rows_of_team, keys_of_team. simpl.
    rewrite filter_snoc_frame; [done|]. by apply Z.eqb_neq.
Qed.

(** Authorizations on the keys of the team. *)
Lemma step_delete_authorizations team p d :
  (forall a, p a = true -> a ∈ rows (db_authorizations d) -> exists k, k ∈ rows (db_stored_keys d) /\ sk_id k = au_stored_key_id a /\ sk_team_id k = team) ->
  only_team team d (fst (delete_authorizations p d)).
Proof.
  intros Hp Hd. refine (only_team_intro team d _ _ _ _ _ _ _ Hd); [done..|]. intros t Ht. repeat (split; [done|]).
  apply filter_delete_frame. intros a Ha Hpa. destruct (Hp a Hpa Ha) as (k & Hk & E & Hteam).
  apply bool_decide_eq_false. rewrite <- E. by eapply other_keys; [apply Hd|..].
Qed.

Lemma step_delete_stored_keys team p d :
  (forall k, p k = true -> k ∈ rows (db_stored_keys d) -> sk_team_id k = team) ->
  only_team team d (fst (delete_stored_keys p d)).
Proof.
  intros Hp. unfold delete_stored_keys. destruct (existsb _ _); [reflexivity|]. intros (Hfresh & Hd). simpl.
  split; [split; [by apply delete_where_fresh | done]|]. split; [|done].
  intros t Ht. unfold rows_of_team, keys_of_team. simpl.
  rewrite (filter_delete_frame p (fun k => sk_team_id k =? t)); [done|].
  intros k Hk Hpk. rewrite (Hp k Hpk Hk). by apply Z.eqb_neq.
Qed.

Lemma step_authorization_create team now tenant_id key_id policy_id hash bunker relays uses expires label d :
  (exists k, k ∈ rows (db_stored_keys d) /\ sk_id k = key_id /\ sk_team_id k = team) ->
  only_team team d (fst (authorization_create now tenant_id key_id policy_id hash bunker relays uses expires label d)).
Proof.
  intros (k & Hk & E & Hteam). unfold authorization_create. destruct (negb _); [reflexivity|]. destruct (negb _); [reflexivity|].
  intros Hd. refine (only_team_intro team d _ _ _ _ _ _ _ Hd); [done..|]. intros t Ht. repeat (split; [done|]).
  apply filter_snoc_frame. apply bool_decide_eq_false. simpl. rewrite <- E. by eapply other_keys; [apply Hd|..].
Qed.

(** The key a lookup found, and the rows with its id. *)
Lemma found_key tenant_id team pubkey d k :
  key_find_by_pubkey tenant_id team pubkey d = Ok k ->
  k ∈ rows (db_stored_keys d) /\ sk_team_id k = team /\ sk_tenant_id k = tenant_id /\ sk_pubkey k = pubkey.
Proof.
  unfold key_find_by_pubkey, fetch_one. intros H. apply map_err_ok, ok_or_ok, find_first_Some in H as [Hk Hp].
  unfold team_key in Hp. bool_to_prop. done.
Qed.

Lemma step_key_delete team tenant_id k d :
  k ∈ rows (db_stored_keys d) -> sk_team_id k = team -> only_team team d (fst (key_delete tenant_id (sk_id k) d)).
Proof.
  intros Hk Hteam Hd. assert (Hid : forall k', k' ∈ rows (db_stored_keys d) -> sk_id k' = sk_id k -> k' = k).
  { intros k' Hk' E. by apply (NoDup_map_inj sk_id _ k' k (proj1 (proj1 Hd))). }
  revert Hd. apply (step_atomically (only_team team)). apply step_bind; [apply _| |].
  - apply step_delete_authorizations. intros a [_ E%Z.eqb_eq]%andb_true_iff _. exists k. by rewrite E.
  - intros d1 n [= <- _]. apply step_delete_stored_keys. intros k' [_ E%Z.eqb_eq]%andb_true_iff Hk'. by rewrite (Hid k' Hk' E).
Qed.

(** A new permission: no link names its id yet. *)
Lemma step_insert_permission team now identifier config d : only_team team d (fst (insert_permission now identifier config d)).
Proof.
  apply only_policies_intro; [done..|]. intros (Hpr & Hp & Hl). split.
  - split; [by apply (insert_row_fresh pr_id (fun i => {| pr_id := i; pr_identifier := identifier; pr_config := json_to_string config;
      pr_created_at := now; pr_updated_at := now |}))|]. split; [done|]. simpl. eapply Forall_impl; [exact Hl|]. simpl. intros; lia.
  - intros o _. apply policy_rows_same; [done..|]. apply filter_snoc_frame, bool_decide_eq_false. simpl.
    intros Hin. apply list_elem_of_fmap in Hin as (l & E & Hlink). apply owner_link in Hlink as [Hlink _].
    rewrite Forall_forall in Hl. specialize (Hl l Hlink). lia.
Qed.

(** A new policy of the team: no link names its id yet. *)
Lemma step_insert_policy team now name d : only_team team d (fst (insert_policy now (Some team) name d)).
Proof.
  apply only_policies_intro; [done..|]. intros (Hpr & Hp & Hl). split.
  - split; [done|]. split; [by apply (insert_row_fresh pol_id (fun i => {| pol_id := i; pol_name := name; pol_team_id := Some team;
      pol_created_at := now; pol_updated_at := now; pol_slug := None; pol_display_name := None; pol_description := None |}))|].
    simpl. eapply Forall_impl; [exact Hl|]. simpl. intros; lia.
  - intros o Ho. apply policy_rows_same; [|done..]. apply filter_snoc_frame, bool_decide_eq_false. simpl. congruence.
Qed.

(** A new link of a policy of the team. *)
Lemma step_link_permission team p permission_id d :
  p ∈ rows (db_policies d) -> pol_team_id p = Some team -> only_team team d (fst (link_permission d (pol_id p) permission_id)).
Proof.
  intros Hp Ht. unfold link_permission. destruct (negb _); [reflexivity|]. destruct (negb _) eqn:Epr; [reflexivity|].
  apply negb_false_iff, existsb_elem in Epr as (q & Hq & Eq%Z.eqb_eq).
  destruct (existsb _ _); [reflexivity|]. apply only_policies_intro; [done..|]. intros Hwf. split.
  - destruct Hwf as (Hpr & Hpol & Hl). split; [done|]. split; [done|]. simpl. apply Forall_app. split; [done|].
    destruct Hpr as [_ Hpr]. destruct Hpol as [_ Hpol]. rewrite Forall_forall in Hpr. rewrite Forall_forall in Hpol. specialize (Hpr q Hq). specialize (Hpol p Hp).
    constructor; [simpl; lia | constructor].
  - intros o Ho. apply policy_rows_same; [done| |done]. apply filter_snoc_frame, bool_decide_eq_false. simpl.
    apply other_policy; [done..|]. congruence.
Qed.

Lemma step_create_permissions team now configs d : only_team team d (fst (create_permissions now d configs)).
Proof.
  revert d. induction configs as [|[i c] l IH]; intros d; [reflexivity|]. cbn [create_permissions]. unfold create_permission.
  pose proof (step_insert_permission team now i c d) as Hd. destruct (insert_permission now i c d) as [d1 row]. simpl in Hd.
  destruct (map_err _ _); [|exact Hd]. specialize (IH d1). destruct (create_permissions now d1 l) as [d2 ps]. simpl in *. by etrans.
Qed.
Lemma link_keeps_policies d pid permission_id : db_policies (fst (link_permission d pid permission_id)) = db_policies d.
Proof. unfold link_permission. destruct (negb _); [done|]. destruct (negb _); [done|]. by destruct (existsb _ _). Qed.
Lemma step_link_permissions team p ps d :
  p ∈ rows (db_policies d) -> pol_team_id p = Some team -> only_team team d (fst (link_permissions d (pol_id p) ps)).
Proof.
  intros Hp Ht. revert d Hp. induction ps as [|q l IH]; intros d Hp; [reflexivity|]. simpl.
  pose proof (step_link_permission team p (perm_id q) d Hp Ht) as Hd. pose proof (link_keeps_policies d (pol_id p) (perm_id q)) as Hk.
  destruct (link_permission _ _ _) as [d1 [u|e]]; simpl in *; [|exact Hd]. etrans; [exact Hd|]. apply IH. by rewrite Hk.
Qed.
Lemma step_create_with_permissions team now name configs d : only_team team d (fst (create_with_permissions now d team name configs)).
Proof.
  unfold create_with_permissions. pose proof (step_create_permissions team now configs d) as H1.
  destruct (create_permissions now d configs) as [d1 [ps|e]]; [|reflexivity]. simpl in H1. destruct (negb _); [reflexivity|].
  pose proof (step_insert_policy team now name d1) as H2. unfold insert_policy, insert_row in *. simpl in H2.
  match goal with |- context [link_permissions ?x (pol_id ?p) ?l] => pose proof (step_link_permissions team p l x
    ltac:(simpl; apply elem_of_app; right; constructor) eq_refl) as H3; destruct (link_permissions x (pol_id p) l) as [d3 [u|e]] end;
    [|reflexivity]. simpl in *. etrans; [exact H1|]. by etrans.
Qed.

Lemma step_create_invitation team now tenant_id email role token by_whom d :
  only_team team d (fst (create_invitation now team tenant_id email role token by_whom d)).
Proof.
  unfold create_invitation, invitation_create. destruct (negb _); [reflexivity|]. destruct (existsb _ _) eqn:Etok; [reflexivity|].
  apply not_true_iff_false in Etok. rewrite existsb_elem in Etok. destruct (existsb _ _); [reflexivity|]. cbn [insert_row]. destruct (negb _); [reflexivity|].
  apply only_team_intro; [done..| |].
  - intros Hnd. unfold invitation_tokens. simpl. rewrite map_app. apply NoDup_app. split; [done|]. split; [|apply NoDup_singleton].
    intros x Hx ->%list_elem_of_singleton. apply list_elem_of_fmap in Hx as (i & E & Hi). apply Etok.
    exists i. split; [done|]. by apply bool_decide_eq_true.
  - intros t Ht. do 2 (split; [done|]). split; [|done]. apply filter_snoc_frame. by apply Z.eqb_neq.
Qed.

(** An UPDATE of invitations of the team that keeps team and token. *)
Lemma step_update_invitations team p f d :
  (forall i, i ∈ rows (db_team_invitations d) -> p i = true -> ti_team_id i = team) ->
  (forall i, ti_team_id (f i) = ti_team_id i /\ ti_token (f i) = ti_token i) ->
  only_team team d (set_team_invitations (with_rows (update_where p f) (db_team_invitations d)) d).
Proof.
  intros Hp Hf. apply only_team_intro; [done..| |].
  - unfold invitation_tokens, update_where. simpl. rewrite map_map. intros Hnd. erewrite map_ext; [exact Hnd|].
    intros i. simpl. destruct (p i); [apply Hf | done].
  - intros t Ht. do 2 (split; [done|]). split; [|done]. apply filter_update_frame. intros i Hi Hpi.
    rewrite (proj1 (Hf i)), (Hp i Hi Hpi). split; by apply Z.eqb_neq.
Qed.
Lemma step_revoke_invitation team now tenant_id id d :
  only_team team d (set_team_invitations (fst (invitation_revoke now id team tenant_id (db_team_invitations d))) d).
Proof. apply step_update_invitations; [|done]. intros i _ Hi. unfold invitation_revocable in Hi. by bool_to_prop. Qed.
Lemma step_accept_invitation now token by_whom i d :
  i ∈ rows (db_team_invitations d) -> ti_token i = token ->
  only_team (ti_team_id i) d (set_team_invitations (fst (invitation_accept now token by_whom (db_team_invitations d))) d).
Proof.
  intros Hi Ht Hd. refine (step_update_invitations _ _ _ _ _ _ Hd); [|done]. intros j Hj Ej. unfold invitation_acceptable in Ej. bool_to_prop.
  assert (j = i) as ->; [|done]. apply (NoDup_map_inj ti_token (rows (db_team_invitations d)) j i); [apply Hd|done|done|congruence].
Qed.

(** ** Deleting a team *)
Lemma step_delete_links team d :
  only_team team d (fst (delete_links (fun l => bool_decide (pp_policy_id l ∈ map pol_id (List.filter (team_policy team) (rows (db_policies d))))) d)).
Proof.
  apply only_policies_intro; [done..|]. intros Hwf. split.
  - destruct Hwf as (Hpr & Hp & Hl). split; [done|]. split; [done|]. simpl. rewrite Forall_forall in *. intros l Hin.
    apply Hl. by apply delete_where_elem in Hin as [Hin _].
  - intros o Ho. apply policy_rows_same; [done| |done]. apply filter_delete_frame. intros l _ Hin%bool_decide_eq_true.
    apply list_elem_of_fmap in Hin as (p & -> & Hp). apply (owner_policy (Some team)) in Hp as [Hp Hteam].
    apply bool_decide_eq_false, other_policy; [done..|]. congruence.
Qed.

(** The foreign key of the links keeps the permissions of others. *)
Lemma step_delete_permissions team ids d : only_team team d (fst (delete_permissions ids d)).
Proof.
  unfold delete_permissions. destruct (existsb _ _) eqn:E; [reflexivity|]. apply only_policies_intro; [done..|]. intros (Hpr & Hp & Hl). split.
  - split; [by apply delete_where_fresh|]. done.
  - intros o _. apply policy_rows_same; [done..|]. apply filter_delete_frame. intros p Hin Hid. apply bool_decide_eq_false. intros Hlinked.
    apply list_elem_of_fmap in Hlinked as (l & El & Hlink). apply owner_link in Hlink as [Hlink _].
    apply not_true_iff_false in E. apply E, existsb_elem. exists l. split; [done|]. rewrite <- El, Hid. simpl.
    apply existsb_elem. exists p. split; [done | apply Z.eqb_refl].
Qed.

Lemma step_delete_policies team d : only_team team d (fst (delete_policies team d)).
Proof.
  unfold delete_policies. destruct (existsb _ _); [reflexivity|]. destruct (existsb _ _); [reflexivity|].
  apply only_policies_intro; [done..|]. intros (Hpr & Hp & Hl). split.
  - split; [done|]. split; [by apply delete_where_fresh | done].
  - intros o Ho. apply policy_rows_same; [|done..]. apply filter_delete_frame. intros p _ Hin%bool_decide_eq_true.
    apply bool_decide_eq_false. congruence.
Qed.
Lemma step_delete_members team d : only_team team d (fst (delete_members team d)).
Proof.
  apply only_team_intro; [done..|]. intros t Ht. split; [done|]. split; [|done]. apply filter_delete_frame.
  intros m _ E%Z.eqb_eq. rewrite E. by apply Z.eqb_neq.
Qed.
Lemma step_delete_teams team tenant_id d : only_team team d (fst (delete_teams tenant_id team d)).
Proof.
  unfold delete_teams. destruct (existsb _ _); [reflexivity|]. destruct (existsb _ _); [reflexivity|]. destruct (existsb _ _); [reflexivity|].
  apply only_team_intro; [done..| |].
  { unfold invitation_tokens. simpl. apply NoDup_map_filter. }
  intros t Ht. split.
  - apply filter_delete_frame. intros m _ [_ E%Z.eqb_eq]%andb_true_iff. rewrite E. by apply Z.eqb_neq.
  - split; [done|]. split; [|done]. apply filter_delete_frame. intros i _ Hi%bool_decide_eq_true.
    apply list_elem_of_fmap in Hi as (m & Em & Hm). apply list_elem_of_In, List.filter_In in Hm as [_ Hm].
    apply andb_true_iff in Hm as [_ E%Z.eqb_eq]. apply Z.eqb_neq. congruence.
Qed.

Lemma step_team_delete team tenant_id d : only_team team d (fst (team_delete tenant_id team d)).
Proof.
  apply (step_atomically (only_team team)). apply step_bind; [apply _|reflexivity|]. intros d1 keys [= <- <-].
  apply step_bind; [apply _| |].
  { apply step_delete_authorizations. intros a [_ Hk%bool_decide_eq_true]%andb_true_iff _.
    apply list_elem_of_fmap in Hk as (k & E & Hk). apply list_elem_of_In, List.filter_In in Hk as [Hk Ht].
    apply andb_true_iff in Ht as [_ Ht%Z.eqb_eq]. exists k. split; [by apply list_elem_of_In | done]. }
  intros d1 n _. apply step_bind; [apply _| |].
  { apply step_delete_stored_keys. by intros k [_ Ht%Z.eqb_eq]%andb_true_iff _. }
  intros d2 u _. apply step_bind; [apply _|reflexivity|]. intros d3 orphaned [= <- <-].
  apply step_bind; [apply _|reflexivity|]. intros d4 policies [= <- <-].
  apply step_bind; [apply _|apply step_delete_links|]. intros d5 u1 _.
  apply step_bind; [apply _| |].
  { destruct (orphaned_permissions _ _); [reflexivity | apply step_delete_permissions]. }
  intros d6 u2 _. apply step_bind; [apply _|apply step_delete_policies|]. intros d7 u3 _.
  apply step_bind; [apply _|apply step_delete_members|]. intros d8 u4 _. apply step_delete_teams.
Qed.

Lemma step_create_with_admin now tenant_id name pubkey config d :
  only_team (next_id (db_teams d)) d (fst (create_with_admin now tenant_id name pubkey config d)).
Proof.
  remember (next_id (db_teams d)) as team eqn:Et. apply (step_atomically (only_team team)).
  assert (Hu : exists l, insert_user_if_absent now tenant_id pubkey d = (set_users l d, Ok tt)).
  { unfold insert_user_if_absent. destruct (existsb _ _); [exists (db_users d); by destruct d | by eexists]. }
  destruct Hu as [l Hu]. apply step_bind; [apply _|rewrite Hu; apply step_users|]. rewrite Hu. intros d1 u [= <- _]. simpl.
  apply step_bind; [apply _| |].
  { apply only_team_intro; [done..|]. intros t Ht. split; [|done]. apply filter_snoc_frame. apply Z.eqb_neq. simpl. congruence. }
  intros d1 t [= <- <-]. simpl. rewrite <- Et. apply step_bind; [apply _|apply step_add_member|]. intros d2 m _.
  apply step_bind; [apply _|apply step_insert_policy|]. intros d3 p [= <- <-].
  apply step_bind; [apply _|apply step_insert_permission|]. intros d4 q Hq.
  apply step_bind; [apply _| |reflexivity]. unfold create_permission, insert_permission, insert_row in Hq. injection Hq as <- _.
  match goal with |- context [link_permission ?x (pol_id ?p) ?i] => apply (step_link_permission _ p i x) end; [|done].
  simpl. apply elem_of_app. right. constructor.
Qed.

(** ** The handlers *)
Lemma forget_within R `{!PreOrder R} {A} s (c : TeM A) : within R s c -> within R s (forget c).
Proof. intros Hc. apply within_bind; [done | done |]. intros s1 a _. by apply within_same. Qed.

Lemma verified_within R `{!PreOrder R} {A} cfg auth team s (k : unit -> TeM A) :
  (forall u, within R s (k u)) -> within R s (se_bind (verify_admin cfg (ua_pubkey auth) team) k).
Proof.
  intros Hk. apply within_bind; [done| |].
  - apply within_same; [done|]. by rewrite verify_admin_same.
  - intros s1 u E. pose proof (verify_admin_same cfg (ua_pubkey auth) team s) as Hs. rewrite E in Hs. simpl in Hs. by subst.
Qed.

(** A step that only reads: what follows starts from the same state. *)
Lemma read_within R `{!PreOrder R} {A B} s (c : TeM A) (k : A -> TeM B) :
  fst (c s) = s -> (forall a, c s = (s, Ok a) -> within R s (k a)) -> within R s (se_bind c k).
Proof.
  intros Hc Hk. apply within_bind; [done| |].
  - apply within_same; [done|]. by rewrite Hc.
  - intros s1 a E. rewrite E in Hc. simpl in Hc. subst s1. by apply Hk.
Qed.
Lemma query_with_same {A} f (g : Db -> result A RepositoryError) s : fst (query_with f g s) = s.
Proof. unfold query_with, repo_with. by destruct s. Qed.

Local Ltac walk :=
  repeat match goal with
  | |- within _ _ (forget _) => apply forget_within; [apply _|]
  | |- within _ _ (se_bind (verify_admin _ _ _) _) => apply verified_within; [apply _|]; intros ?
  | |- within _ _ (se_bind (query_with _ _) _) => apply read_within; [apply _|apply query_with_same|]; intros ? ?
  | |- within _ _ (se_bind (query _) _) => apply read_within; [apply _|done|]; intros ? ?
  | |- within _ _ (se_bind (se_gets _) _) => apply read_within; [apply _|done|]; intros ? ?
  | |- within _ _ (se_bind (valid_invitation _ _ _) _) => apply read_within; [apply _|apply valid_invitation_same|]; intros ? ?
  | |- within _ _ (se_bind (hex_key _) _) => apply read_within; [apply _|done|]; intros ? ?
  | |- within _ _ (se_bind (lift_api _) _) => apply read_within; [apply _|done|]; intros ? ?
  | |- within _ _ (se_bind (se_lift _) _) => apply read_within; [apply _|done|]; intros ? ?
  | |- within _ _ (se_bind (display_name _ _) _) => apply read_within; [apply _|done|]; intros ? ?
  | |- within _ _ (se_bind _ _) => apply within_bind; [apply _| |intros ? ? _]
  | |- within _ _ (if _ then _ else _) => apply within_if
  | |- within _ _ (match ?o with Some _ => _ | None => _ end) => destruct o
  | |- within _ _ (se_ret _) => apply within_same; [apply _|reflexivity]
  | |- within _ _ (se_gets _) => apply within_same; [apply _|reflexivity]
  | |- within _ _ (api_fail _) => apply within_same; [apply _|reflexivity]
  | |- within _ _ (repo _) => apply within_repo
  | |- within _ _ (repo_with _ _) => apply within_repo
  end.

Lemma within_read R `{!PreOrder R} {A} s (c : TeM A) : fst (c s) = s -> within R s c.
Proof. intros E. apply within_same; [done|]. by rewrite E. Qed.

Lemma limit_invites_db now cfg tenant_id q email s : te_db (fst (limit_invites now cfg tenant_id q email s)) = te_db s.
Proof. unfold limit_invites. by destruct (allow_request _ _ _ _ _ _ _ _). Qed.
Lemma send_invite_db cfg m s : te_db (fst (send_invite cfg m s)) = te_db s.
Proof. unfold send_invite, se_modify. simpl. by destruct (tc_email_service cfg). Qed.

Lemma mail_invitation_within R `{!PreOrder R} cfg tenant_id auth team profile name i s :
  within R s (mail_invitation cfg tenant_id auth team profile name i).
Proof.
  unfold mail_invitation. walk; try (by apply within_same; [apply _|]); try (apply within_same; [apply _|]; apply send_invite_db).
Qed.

Create HintDb team_steps.
#[local] Hint Resolve step_team_update step_team_delete step_find_or_create step_add_member step_remove_member step_key_create
  step_create_with_permissions step_create_invitation step_create_with_admin : team_steps.

Lemma found_by_token token i d :
  NoDup (invitation_tokens d) -> i ∈ rows (db_team_invitations d) -> ti_token i = token ->
  invitation_find_by_token token (db_team_invitations d) = Some i.
Proof.
  intros Hnd Hi Ht. apply find_first_unique; [done | by apply bool_decide_eq_true |]. intros j Hj Ej%bool_decide_eq_true.
  apply (NoDup_map_inj ti_token (rows (db_team_invitations d)) j i); [done..|congruence].
Qed.

Lemma add_member_invitations now team pubkey role d : db_team_invitations (fst (add_member now team pubkey role d)) = db_team_invitations d.
Proof. unfold add_member. destruct (role_of_str role); [|done]. destruct (existsb _ _); [done|]. destruct (negb _); [done|]. by destruct (negb _). Qed.

Lemma accept_only_team now now' tenant_id auth token i s :
  valid_invitation now tenant_id token s = (s, Ok i) ->
  within (only_team (ti_team_id i)) s (accept_invitation now now' tenant_id auth token).
Proof.
  intros Hi. unfold accept_invitation. apply read_within; [apply _|apply valid_invitation_same|]. rewrite Hi. intros ? [= <-].
  apply valid_invitation_ok in Hi as (_ & Hi & Ht & _).
  apply read_within; [apply _|apply query_with_same|]; intros email _. apply within_if; [walk|].
  apply read_within; [apply _|done|]; intros present _. apply within_if; [walk|].
  apply within_bind; [apply _|apply within_repo; auto with team_steps|]. intros s1 m Hm.
  apply within_bind; [apply _| |intros; by apply within_same; [apply _|]]. apply within_repo.
  unfold repo, repo_with in Hm. pose proof (add_member_invitations now (ti_team_id i) (ua_pubkey auth) (ti_role i) (te_db s)) as E.
  destruct (add_member _ _ _ _ _) as [d1 x]. simpl in E. injection Hm as <- _. simpl.
  apply step_accept_invitation; [by rewrite E | done].
Qed.

Lemma named_only_team now cfg tenant_id auth op s team :
  (forall t token, op <> AcceptInvitation t token) -> op_team op (te_db s) = Some team ->
  within (only_team team) s (run_team_op now cfg tenant_id auth op).
Proof.
  intros Hop. destruct op as [| | | | | | | | | | |t token|]; [..|by destruct (Hop t token)|]; simpl; intros [= <-]; unfold update_team, delete_team, add_user, remove_user, add_key, remove_key, add_authorization,
    delete_authorization, add_policy, invite_user, revoke_invitation, create_team, own_key; walk; auto with team_steps.
  - unfold delete_by_pubkey. apply step_bind; [apply _|reflexivity|]. intros d k [= <- Hk]. apply found_key in Hk as (Hk & Ht & _). by apply step_key_delete.
  - apply step_authorization_create. match goal with H : query_with _ (key_find_by_pubkey _ _ _) _ = _ |- _ =>
      apply query_with_ok in H as [_ Hk]; apply found_key in Hk as (Hk & Ht & _) end. eauto.
  - match goal with H : query_with _ (key_find_by_pubkey _ _ _) _ = _ |- _ =>
      apply query_with_ok in H as [_ Hk]; apply found_key in Hk as (Hk & Ht & _) end.
    unfold delete_for_stored_key. apply step_bind; [apply _| |reflexivity]. apply step_delete_authorizations.
    intros x [_ E%Z.eqb_eq]%andb_true_iff _. eauto.
  - apply within_same; [apply _|]. apply limit_invites_db.
  - apply mail_invitation_within, _.
  - apply step_revoke_invitation.
Qed.

(** Each operation stays within its team. *)
Definition op_confined (op : team_op) (d d' : Db) : Prop :=
  team_wf d ->
  team_wf d' /\ (forall t, op_team op d <> Some t -> rows_of_team t d' = rows_of_team t d) /\ policy_rows_of None d' = policy_rows_of None d.
Lemma op_stays_confined now cfg tenant_id auth op s s' r :
  run_team_op now cfg tenant_id auth op s = (s', r) -> op_confined op (te_db s) (te_db s').
Proof.
  intros Hrun Hwf. assert (Hnamed : forall team, op_team op (te_db s) = Some team -> only_team team (te_db s) (te_db s') ->
    team_wf (te_db s') /\ (forall t, op_team op (te_db s) <> Some t -> rows_of_team t (te_db s') = rows_of_team t (te_db s)) /\
    policy_rows_of None (te_db s') = policy_rows_of None (te_db s)).
  { intros team E Ht. destruct (Ht Hwf) as (? & Hrows & ?). split; [done|]. split; [|done]. intros t Hne. apply Hrows. congruence. }
  assert (Hcase : (exists t token, op = AcceptInvitation t token) \/ forall t token, op <> AcceptInvitation t token)
    by (destruct op; eauto; right; congruence).
  destruct Hcase as [(t & token & ->)|Hop].
  - simpl in Hrun. unfold forget, se_bind in Hrun. destruct (accept_invitation _ _ _ _ _ s) as [s1 y] eqn:E.
    assert (s1 = s') as <- by (by destruct y; injection Hrun as <- _). destruct (accept_needs _ _ _ _ _ _ _ _ E) as [->|(i & _ & Hi & _)]; [done|].
    apply (Hnamed (ti_team_id i)); [|by apply (accept_only_team _ _ _ _ _ _ _ Hi _ _ E)].
    apply valid_invitation_ok in Hi as (_ & Hi & Htok & _). simpl. by rewrite (found_by_token token i (te_db s)) by (done || apply Hwf).
  - destruct (op_team op (te_db s)) as [team|] eqn:E; [|by destruct op as [| | | | | | | | | | |t token|]; [..|destruct (Hop t token)|]].
    apply (Hnamed team eq_refl). by eapply named_only_team.
Qed.

(** [C25] Changes to a team are confined.  A request of the teams API either leaves
    everything as it was or came from somebody entitled to it: to join, the user
    whose email a pending invitation of the tenant names; to create a team, an
    administrator or somebody in no team; for anything else, an administrator of
    the team or a full administrator.  And whether it succeeds or fails on the way,
    it touches no row of another team (the team itself, its members, keys,
    invitations, the authorizations on its keys, its policies, their links and
    permissions) and none of the policies without a team. *)
Theorem team_changes_confined now cfg tenant_id auth op s s' r :
  team_wf (te_db s) -> run_team_op now cfg tenant_id auth op s = (s', r) ->
  (entitled now cfg tenant_id auth op s \/ s' = s) /\
  (forall team, op_team op (te_db s) <> Some team -> rows_of_team team (te_db s') = rows_of_team team (te_db s)) /\
  policy_rows_of None (te_db s') = policy_rows_of None (te_db s).
Proof.
  intros Hd Hrun. split; [by eapply op_needs_right|]. by apply (op_stays_confined now cfg tenant_id auth op s s' r Hrun).
Qed.

(** ** Every team keeps an administrator *)
Definition has_admin (team : Z) (d : Db) : Prop := exists m, m ∈ rows (db_team_users d) /\ tu_team_id m = team /\ tu_role m = Admin.

Lemma has_admin_rows team d d' : rows_of_team team d' = rows_of_team team d -> has_admin team d -> has_admin team d'.
Proof.
  intros E (m & Hm & Ht & Hr). assert (Hin : m ∈ of_members (rows_of_team team d')).
  { rewrite E. apply list_elem_of_In, List.filter_In. split; [by apply list_elem_of_In | by apply Z.eqb_eq]. }
  apply list_elem_of_In, List.filter_In in Hin as [Hin _]. exists m. split; [by apply list_elem_of_In | done].
Qed.
Lemma has_admin_grow team d d' : members_grow d d' -> has_admin team d -> has_admin team d'.
Proof. intros [l Hl] (m & Hm & Ht & Hr). exists m. rewrite Hl. split; [apply elem_of_app; by left | done]. Qed.

(** The key an authentication gives is written as the key's own text. *)
Definition canonical (auth : UcanAuth) : Prop := forall pk, pk_from_hex (ua_pubkey auth) = Ok pk -> pk_to_hex pk = ua_pubkey auth.

Lemma remove_keeps_admin cfg auth team user s s' r :
  is_full_admin_by_pubkey (tc_auth cfg) (ua_pubkey auth) = false -> canonical auth ->
  remove_user cfg auth team user s = (s', r) -> has_admin team (te_db s) -> has_admin team (te_db s').
Proof.
  intros Hfull Hcan Hrun Hadm. unfold remove_user in Hrun.
  unfold se_bind at 1 in Hrun. destruct (verify_admin _ _ _ s) as [s1 [u|e]] eqn:Ev.
  2: { pose proof (verify_admin_same cfg (ua_pubkey auth) team s) as Hs. rewrite Ev in Hs. simpl in Hs. injection Hrun as <- _. by subst. }
  apply verify_admin_ok in Ev as [-> [Hf|(pk & Hpk & Hadmin)]]; [congruence|].
  unfold se_bind at 1, hex_key, lift_api, se_lift in Hrun. destruct (pk_from_hex user) as [gone|e]; [|by injection Hrun as <- _].
  cbn [map_err] in Hrun. unfold se_bind, query, se_gets in Hrun.
  destruct (bool_decide _ && _) eqn:E; [by injection Hrun as <- _|].
  unfold repo, repo_with, remove_member in Hrun. injection Hrun as <- _. unfold has_admin. simpl.
  assert (Hkeep : forall m, m ∈ rows (db_team_users (te_db s)) -> tu_user_pubkey m <> pk_to_hex gone ->
    m ∈ delete_where (in_team (pk_to_hex gone) team) (rows (db_team_users (te_db s)))).
  { intros m Hm Hne. apply delete_where_elem. split; [done|]. unfold in_team. by rewrite bool_decide_false. }
  apply andb_false_iff in E as [Eself%bool_decide_eq_false|Hothers%Nat.eqb_neq].
  - rewrite (Hcan pk Hpk) in Hadmin. unfold is_team_admin in Hadmin. apply existsb_elem in Hadmin as (m & Hm & Hp).
    unfold in_team in Hp. bool_to_prop. exists m. split; [|done]. apply Hkeep; congruence.
  - unfold count_other_admins in Hothers. destruct (List.filter (is_other_admin _ _) _) as [|m l] eqn:Hl; [done|].
    assert (Hm : m ∈ m :: l) by constructor. rewrite <- Hl in Hm. apply list_elem_of_In, List.filter_In in Hm as [Hm Hp].
    unfold is_other_admin in Hp. bool_to_prop. exists m. split; [|done]. apply Hkeep; [by apply list_elem_of_In | done].
Qed.
Lemma grow_add_member team now pubkey role d : members_grow d (fst (add_member now team pubkey role d)).
Proof.
  unfold add_member. destruct (role_of_str role) as [ro|]; [|reflexivity]. destruct (existsb _ _); [reflexivity|].
  destruct (negb _); [reflexivity|]. destruct (negb _); [reflexivity|]. by eexists.
Qed.
Lemma grow_find_or_create now tenant_id pubkey d : members_grow d (fst (find_or_create now tenant_id pubkey d)).
Proof. unfold find_or_create. destruct (find_first _ _); by apply members_same. Qed.
Lemma grow_key_create team now tenant_id name pubkey secret d : members_grow d (fst (key_create now tenant_id team name pubkey secret d)).
Proof. unfold key_create. destruct (negb _); by apply members_same. Qed.
Lemma grow_delete_stored_keys p d : members_grow d (fst (delete_stored_keys p d)).
Proof. unfold delete_stored_keys. destruct (existsb _ _); by apply members_same. Qed.
Lemma grow_delete_by_pubkey tenant_id team pubkey d : members_grow d (fst (delete_by_pubkey tenant_id team pubkey d)).
Proof.
  unfold delete_by_pubkey. apply step_bind; [apply _|reflexivity|]. intros d1 k _. apply (step_atomically members_grow).
  apply step_bind; [apply _|by apply members_same|]. intros d2 n _. apply grow_delete_stored_keys.
Qed.
Lemma grow_authorization_create now tenant_id key_id policy_id hash bunker relays uses expires label d :
  members_grow d (fst (authorization_create now tenant_id key_id policy_id hash bunker relays uses expires label d)).
Proof. unfold authorization_create. destruct (negb _); [reflexivity|]. destruct (negb _); by apply members_same. Qed.
Lemma grow_insert_permissions now configs d : members_grow d (fst (create_permissions now d configs)).
Proof.
  revert d. induction configs as [|[i c] l IH]; intros d; [reflexivity|]. cbn [create_permissions]. unfold create_permission, insert_permission, insert_row.
  destruct (map_err _ _); [|by apply members_same]. match goal with |- context [create_permissions now ?x l] =>
    specialize (IH x); destruct (create_permissions now x l) as [d2 ps] end. etrans; [|exact IH]. by apply members_same.
Qed.
Lemma grow_link_permission d pid permission_id : members_grow d (fst (link_permission d pid permission_id)).
Proof. unfold link_permission. destruct (negb _); [reflexivity|]. destruct (negb _); [reflexivity|]. destruct (existsb _ _); by apply members_same. Qed.
Lemma grow_link_permissions pid ps d : members_grow d (fst (link_permissions d pid ps)).
Proof.
  revert d. induction ps as [|q l IH]; intros d; [reflexivity|]. cbn [link_permissions].
  pose proof (grow_link_permission d pid (perm_id q)) as Hd. destruct (link_permission _ _ _) as [d1 [u|e]]; [|exact Hd]. by etrans; [exact Hd|].
Qed.
Lemma grow_create_with_permissions team now name configs d : members_grow d (fst (create_with_permissions now d team name configs)).
Proof.
  unfold create_with_permissions. pose proof (grow_insert_permissions now configs d) as H1.
  destruct (create_permissions now d configs) as [d1 [ps|e]]; [|reflexivity]. destruct (negb _); [reflexivity|]. unfold insert_policy, insert_row.
  match goal with |- context [link_permissions ?x ?i ?l] => pose proof (grow_link_permissions i l x) as H2;
    destruct (link_permissions x i l) as [d3 [u|e]] end; [|reflexivity]. etrans; [exact H1|]. etrans; [|exact H2]. by apply members_same.
Qed.
Lemma grow_create_with_admin now tenant_id name pubkey config d : members_grow d (fst (create_with_admin now tenant_id name pubkey config d)).
Proof.
  apply (step_atomically members_grow). apply step_bind; [apply _| |].
  { unfold insert_user_if_absent. destruct (existsb _ _); by apply members_same. }
  intros d1 u _. apply step_bind; [apply _|by apply members_same|]. intros d2 t _.
  apply step_bind; [apply _|apply grow_add_member|]. intros d3 m _. apply step_bind; [apply _|by apply members_same|]. intros d4 p _.
  apply step_bind; [apply _|by apply members_same|]. intros d5 q _. apply step_bind; [apply _|apply grow_link_permission|reflexivity].
Qed.
Lemma grow_create_invitation team now tenant_id email role token by_whom d :
  members_grow d (fst (create_invitation now team tenant_id email role token by_whom d)).
Proof.
  unfold create_invitation. destruct (invitation_create _ _ _ _ _ _ _ _) as [t [i|e]]; [|reflexivity].
  destruct (negb _); by apply members_same.
Qed.
#[local] Hint Resolve grow_add_member grow_find_or_create grow_key_create grow_delete_by_pubkey grow_authorization_create
  grow_create_with_permissions grow_create_invitation grow_create_with_admin : team_steps.

(** Only removing a member and deleting the team take members away. *)
Lemma op_members_grow now cfg tenant_id auth op s :
  match op with RemoveUser _ _ | DeleteTeam _ => True | _ => within members_grow s (run_team_op now cfg tenant_id auth op) end.
Proof.
  destruct op; try exact I; simpl; unfold update_team, add_user, add_key, remove_key, add_authorization,
    delete_authorization, add_policy, invite_user, revoke_invitation, accept_invitation, create_team, own_key; walk;
    auto with team_steps; try (by apply members_same).
  - apply within_same; [apply _|]. apply limit_invites_db.
  - apply mail_invitation_within, _.
Qed.

Lemma op_keeps_admin now cfg tenant_id auth op team s s' r :
  team_wf (te_db s) -> is_full_admin_by_pubkey (tc_auth cfg) (ua_pubkey auth) = false -> canonical auth ->
  op <> DeleteTeam team -> run_team_op now cfg tenant_id auth op s = (s', r) -> has_admin team (te_db s) -> has_admin team (te_db s').
Proof.
  intros Hd Hfull Hcan Hop Hrun Hadm. pose proof (op_members_grow now cfg tenant_id auth op s) as Hg.
  pose proof (op_stays_confined now cfg tenant_id auth op s s' r Hrun Hd) as (_ & Hrows & _).
  destruct op as [|t| |t user| | | | | | | | |]; try (by eapply has_admin_grow; [eapply Hg|]).
  - eapply has_admin_rows; [|exact Hadm]. apply Hrows. simpl. congruence.
  - destruct (decide (t = team)) as [->|Hne]; [by eapply remove_keeps_admin|].
    eapply has_admin_rows; [|exact Hadm]. apply Hrows. simpl. congruence.
Qed.

(** Requests on teams, one after the other. *)
Definition team_request : Type := Z * Z * UcanAuth * team_op.
Definition run_request (cfg : team_config) (s : team_state) (q : team_request) : team_state :=
  let '(now, tenant_id, auth, op) := q in fst (run_team_op now cfg tenant_id auth op s).
Definition by_team_member (cfg : team_config) (q : team_request) : Prop :=
  let '(_, _, auth, _) := q in is_full_admin_by_pubkey (tc_auth cfg) (ua_pubkey auth) = false /\ canonical auth.

(** A team keeps an administrator through requests of the teams API handled one
    after the other: whatever users who are not full administrators ask for, in
    whatever order, as long as nobody deletes the team.  Two things are outside:
    the count and the removal of [remove_user] are separate statements, so that two
    administrators who leave at the same time both find the other; and deleting an
    account removes its memberships without counting. *)
Theorem team_keeps_admin cfg team qs s :
  team_wf (te_db s) -> Forall (by_team_member cfg) qs ->
  Forall (fun q => snd q <> DeleteTeam team) qs -> has_admin team (te_db s) ->
  has_admin team (te_db (foldl (run_request cfg) s qs)).
Proof.
  intros Hd Hby. revert s Hd. induction Hby as [|[[[now tenant_id] auth] op] qs [Hfull Hcan] _ IH]; intros s Hd Hdel Hadm; simpl; [done|].
  apply Forall_cons in Hdel as [Hop Hdel]. simpl in Hop.
  destruct (run_team_op now cfg tenant_id auth op s) as [s' r] eqn:E. simpl. apply IH; [|done|].
  - by apply (op_stays_confined now cfg tenant_id auth op s s' r E).
  - by eapply op_keeps_admin.
Qed.
(** ** Invitations *)
Lemma repo_with_ok {A} f (c : DbM A) s s' a :
  repo_with f c s = (s', Ok a) -> exists d, c (te_db s) = (d, Ok a) /\ s' = set_te_db d s.
Proof. unfold repo_with. destruct (c (te_db s)) as [d r]. intros [= <- Hr]. apply map_err_ok in Hr as ->. eauto. Qed.

Lemma add_member_ok now team pubkey role d d' m :
  add_member now team pubkey role d = (d', Ok m) ->
  exists r row, role_of_str role = Some r /\ tu_team_id row = team /\ tu_user_pubkey row = pubkey /\ tu_role row = r /\
    rows (db_team_users d') = rows (db_team_users d) ++ [row] /\ db_team_invitations d' = db_team_invitations d /\
    existsb (in_team pubkey team) (rows (db_team_users d)) = false.
Proof.
  unfold add_member. destruct (role_of_str role) as [r|]; [|done]. destruct (existsb (in_team _ _) _) eqn:E; [done|].
  destruct (negb _); [done|]. destruct (negb _); [done|]. intros [= <- <-]. exists r.
  exists {| tu_id := next_id (db_team_users d); tu_team_id := team; tu_user_pubkey := pubkey; tu_role := r; tu_created_at := now; tu_updated_at := now |}.
  done.
Qed.

(** Who joins by an invitation: a user of the invitation's tenant whose email
    is the invited one, who was not in the team, with the role of the invitation
    and no other change to the memberships; the invitation was pending, and from
    then on nobody can accept it again. *)
Theorem accepted_invitation_sound now now' tenant_id auth token s s' resp :
  accept_invitation now now' tenant_id auth token s = (s', Ok resp) ->
  exists i role row, i ∈ rows (db_team_invitations (te_db s)) /\ ti_token i = token /\ is_pending now i = true /\
    ti_tenant_id i = tenant_id /\ role_of_str (ti_role i) = Some role /\
    (exists email, get_email (ua_pubkey auth) tenant_id (te_db s) = Ok email /\ to_lowercase email = to_lowercase (ti_email i)) /\
    existsb (in_team (ua_pubkey auth) (ti_team_id i)) (rows (db_team_users (te_db s))) = false /\
    rows (db_team_users (te_db s')) = rows (db_team_users (te_db s)) ++ [row] /\
    tu_team_id row = ti_team_id i /\ tu_user_pubkey row = ua_pubkey auth /\ tu_role row = role /\
    forall later later' tenant_id' auth', now' <= later ->
      exists s'', accept_invitation later later' tenant_id' auth' token s' = (s'', Err (ApiFailed (Api_NotFound "Invitation not found or expired"))).
Proof.
  unfold accept_invitation at 1. intros H. apply se_bind_ok in H as (s1 & i & Hi & H).
  apply valid_invitation_ok in Hi as (-> & Hin & Htok & Hpend & Hten). apply se_bind_ok in H as (s1 & email & He & H).
  apply query_with_ok in He as [-> He]. destruct (negb _) eqn:Eemail; [done|]. apply negb_false_iff, bool_decide_eq_true in Eemail.
  apply se_bind_ok in H as (s1 & present & Hp & H). apply se_gets_ok in Hp as [-> Hp]. destruct present; [done|].
  apply se_bind_ok in H as (s1 & m & Hm & H). apply repo_with_ok in Hm as (d1 & Hm & ->).
  apply add_member_ok in Hm as (r & row & Hr & Ht & Hu & Hrole & Hrows & Hinv & Hnot).
  apply se_bind_ok in H as (s2 & x & Ha & H). apply repo_with_ok in Ha as (d2 & Ha & ->). apply se_ret_ok in H as [-> _].
  simpl in Ha. injection Ha as <- _.
  exists i, r, row. repeat (split; [done|]). split; [eauto|]. repeat (split; [done|]).
  intros later later' tenant' auth' Hlater. unfold accept_invitation, valid_invitation. simpl.
  unfold se_bind at 1 2, query at 1, se_gets. simpl.
  unfold invitation_find_valid_by_token. simpl. rewrite (proj2 (find_first_None _ _)); [eexists; unfold se_bind, lift_api, se_lift; cbn [ok_or map_err]; reflexivity|].
  intros j [(j' & Hj & Hacc & ->)|[Hj Hacc]]%update_where_elem.
  - unfold is_pending, ti_open. simpl. by rewrite andb_false_r.
  - unfold invitation_acceptable in Hacc. destruct (bool_decide (ti_token j = token)); [|done]. simpl in *.
    unfold is_pending in *. destruct (ti_open j); simpl in *; [|done]. apply Z.ltb_ge in Hacc. apply Z.ltb_ge. lia.
Qed.
(** ** New teams *)

(** The rows a new team adds. *)
Lemma create_with_admin_ok now tenant_id name pubkey config d d' t :
  create_with_admin now tenant_id name pubkey config d = (d', Ok t) ->
  let team := {| tm_id := next_id (db_teams d); tm_name := name; tm_created_at := now; tm_updated_at := now; tm_tenant_id := tenant_id |} in
  let row := {| pr_id := next_id (db_permissions d); pr_identifier := "allowed_kinds"; pr_config := json_to_string config;
                pr_created_at := now; pr_updated_at := now |} in
  exists policy perm m link, twr_team t = team /\ twr_policies t = [{| pwp_policy := policy; pwp_permissions := [perm] |}] /\
    rows (db_teams d') = rows (db_teams d) ++ [team] /\
    rows (db_team_users d') = rows (db_team_users d) ++ [m] /\ tu_team_id m = tm_id team /\ tu_user_pubkey m = pubkey /\ tu_role m = Admin /\
    rows (db_policies d') = rows (db_policies d) ++ [policy] /\ pol_id policy = next_id (db_policies d) /\
    pol_team_id policy = Some (tm_id team) /\
    rows (db_permissions d') = rows (db_permissions d) ++ [row] /\ permission_from_row row = Ok perm /\
    rows (db_policy_permissions d') = rows (db_policy_permissions d) ++ [link] /\
    pp_policy_id link = pol_id policy /\ pp_permission_id link = pr_id row.
Proof.
  intros H team row. unfold create_with_admin, atomically in H.
  match type of H with (match ?c with _ => _ end = _) => destruct c as [d1 [t1|e]] eqn:Hc; [|done] end. injection H as -> ->.
  apply se_bind_ok in Hc as (d1 & u1 & Hu & Hc).
  assert (Hd1 : exists l, d1 = set_users l d).
  { unfold insert_user_if_absent in Hu. destruct (existsb _ _); injection Hu as <- _; [exists (db_users d); by destruct d | by eexists]. }
  destruct Hd1 as [l ->]. clear Hu. apply se_bind_ok in Hc as (d2 & tm & Ht & Hc). unfold team_create, insert_row in Ht.
  injection Ht as <- <-. fold team in Hc. apply se_bind_ok in Hc as (d3 & m & Hm & Hc).
  unfold add_member in Hm. change (role_of_str "admin") with (Some Admin) in Hm. cbv iota in Hm.
  destruct (existsb (in_team _ _) _); [done|]. destruct (negb _); [done|]. destruct (negb _); [done|]. injection Hm as <- <-.
  apply se_bind_ok in Hc as (d4 & policy & Hp & Hc). unfold insert_policy, insert_row in Hp. injection Hp as <- <-.
  apply se_bind_ok in Hc as (d5 & perm & Hp & Hc). unfold create_permission, insert_permission, insert_row in Hp. injection Hp as <- Hperm.
  apply map_err_ok in Hperm. apply se_bind_ok in Hc as (d6 & u6 & Hl & Hc). apply se_ret_ok in Hc as [-> ->].
  assert (Hid : perm_id perm = next_id (db_permissions d)).
  { unfold permission_from_row in Hperm. apply rbind_ok in Hperm as (j & _ & Hj). by injection Hj as <-. }
  unfold link_permission in Hl. destruct (negb _); [done|]. destruct (negb _); [done|]. destruct (existsb _ _); [done|].
  injection Hl as <- _. rewrite Hid. simpl.
  eexists _, perm, _, _. repeat (split; [reflexivity|]). split; [exact Hperm|]. repeat (split; [reflexivity|]). done.
Qed.

(** A new team works.  It is created for an administrator, or for a user who
    is in no team yet; its creator administers it, it is found under an id no team
    had, and it has a policy whose one permission loads and allows every event;
    the permissions of all other policies are what they were. *)
Theorem created_team_works now cfg tenant_id auth name s s' t :
  policies_wf (te_db s) -> ids_fresh tm_id (db_teams (te_db s)) -> canonical auth ->
  de_AllowedKindsConfig default_kinds_config = Ok None -> config_round_trips ("", default_kinds_config) ->
  create_team now cfg tenant_id auth name s = (s', Ok t) ->
  (is_full_admin (tc_auth cfg) auth = true \/ is_support_admin (tc_auth cfg) now auth (te_redis s) = true \/
   count_team_memberships tenant_id (ua_pubkey auth) (te_db s) = 0%nat) /\
  tm_id (twr_team t) ∉ map tm_id (rows (db_teams (te_db s))) /\
  team_find tenant_id (tm_id (twr_team t)) (te_db s') = Ok (twr_team t) /\
  is_team_admin (ua_pubkey auth) (tm_id (twr_team t)) (te_db s') = true /\
  exists policy perm box, twr_policies t = [{| pwp_policy := policy; pwp_permissions := [perm] |}] /\
    policy_exists_for_team (te_db s') (tm_id (twr_team t)) (pol_id policy) = true /\
    get_permissions (te_db s') (pol_id policy) = Ok [perm] /\
    to_custom_permission perm = Ok box /\ (forall e, dyn_can_sign box e = true) /\
    forall other, other <> pol_id policy -> get_permissions (te_db s') other = get_permissions (te_db s) other.
Proof.
  intros Hwf [Hnd Hlt] Hcan Hde Hrt Hrun. unfold create_team in Hrun.
  apply se_bind_ok in Hrun as (s1 & pk & Hpk & Hrun). apply se_lift_ok in Hpk as [-> Hpk]. apply map_err_ok, map_err_ok in Hpk.
  apply se_bind_ok in Hrun as (s1 & n & Hn & Hrun). apply se_gets_ok in Hn as [-> Hn]. rewrite (Hcan pk Hpk) in Hn.
  apply se_bind_ok in Hrun as (s1 & support & Hsup & Hrun). apply se_gets_ok in Hsup as [-> Hsup].
  destruct (negb _ && _ && _) eqn:Eg; [done|].
  apply se_bind_ok in Hrun as (s1 & t1 & Hc & Hrun). apply repo_with_ok in Hc as (d' & Hc & ->).
  apply se_bind_ok in Hrun as (s2 & u & Hlog & Hrun). apply se_ret_ok in Hrun as [-> ->].
  assert (s2 = set_te_db d' s) as ->.
  { destruct (negb _ && support); [|by apply se_ret_ok in Hlog as [-> _]].
    apply se_bind_ok in Hlog as (x & y & Hx & Hy). apply se_lift_ok in Hx as [-> _]. by apply se_ret_ok in Hy as [-> _]. }
  apply create_with_admin_ok in Hc as (policy & perm & m & link & -> & Hpol & Hteams & Hmem & Hmt & Hmu & Hmr & Hpols & Hpid & Hpt
    & Hperms & Hperm & Hlinks & Hl1 & Hl2). simpl te_db.
  split.
  { destruct (is_full_admin _ _); [by left|]. destruct support; [right; left; congruence|]. right; right. subst n. simpl in Eg.
    apply negb_false_iff, Nat.eqb_eq in Eg. done. }
  split.
  { intros Hin. apply list_elem_of_fmap in Hin as (x & E & Hx). rewrite Forall_forall in Hlt. specialize (Hlt x Hx). simpl in E. lia. }
  split.
  { unfold team_find. rewrite Hteams, (find_first_unique _ _ {| tm_id := next_id (db_teams (te_db s)); tm_name := name;
      tm_created_at := now; tm_updated_at := now; tm_tenant_id := tenant_id |}); [done| apply elem_of_app; right; constructor | |].
    - unfold team_in. simpl. by rewrite !Z.eqb_refl.
    - intros x [Hx|Hx%list_elem_of_singleton]%elem_of_app [_ E%Z.eqb_eq]%andb_true_iff; [|done].
      rewrite Forall_forall in Hlt. specialize (Hlt x Hx). simpl in E. lia. }
  split.
  { unfold is_team_admin. apply existsb_elem. exists m. rewrite Hmem. split; [apply elem_of_app; right; constructor|].
    unfold in_team. rewrite Hmu, Hmt, Hmr, Z.eqb_refl. by rewrite !bool_decide_true. }
  pose proof Hperm as Hrow. unfold permission_from_row in Hperm. simpl in Hperm.
  unfold config_round_trips in Hrt. simpl in Hrt. rewrite Hrt in Hperm. cbn [map_err rbind] in Hperm. injection Hperm as <-.
  destruct (join_rows_grow (te_db s) [{| pr_id := next_id (db_permissions (te_db s)); pr_identifier := "allowed_kinds";
      pr_config := json_to_string default_kinds_config; pr_created_at := now; pr_updated_at := now |}] [link]
      (next_id (db_policies (te_db s))) Hwf) as [Hmine Hothers].
  - intros p ->%list_elem_of_singleton. done.
  - apply NoDup_singleton.
  - done.
  - constructor; [|constructor]. split; [by rewrite Hl1 | done].
  - exists policy. eexists. exists (Box {| allowed_kinds := None |}). split; [exact Hpol|]. split.
    { unfold policy_exists_for_team. apply existsb_elem. exists policy. rewrite Hpols. split; [apply elem_of_app; right; constructor|].
      rewrite Hpt. by rewrite bool_decide_true, Z.eqb_refl. }
    split.
    { unfold get_permissions, permission_rows_of. rewrite Hperms, Hlinks, Hpid, Hmine. simpl in Hrow |- *.
      rewrite Hrow. done. }
    split; [unfold to_custom_permission, AllowedKinds_from_permission; simpl; by rewrite Hde|]. split; [done|].
    intros other Hne. unfold get_permissions, permission_rows_of at 1. rewrite Hperms, Hlinks, Hothers by congruence. done.
Qed.
End teams_safety.

(** ** Witnesses *)
#[export] Instance team_url : UrlLib := { url_parse _ := None; urlencode s := s }.
Definition toy_team_config : team_config := {|
  tc_auth := toy_auth_env; tc_ip_limit := None; tc_bunker_relays := Some "wss://r"; tc_invite_base_url := None;
  tc_base_url := None; tc_app_url := Some "https://app.example"; tc_email_service := true |}.
Definition team_state_of (d : Db) : team_state := {| te_db := d; te_redis := ∅; te_mail := [] |}.
Definition signed_in (pubkey : string) : UcanAuth := {| ua_pubkey := pubkey; ua_admin_role := None |}.

Lemma toy_canonical auth : canonical auth.
Proof. intros pk. simpl. by case_bool_decide; intros [= <-]. Qed.

(** Two teams: the sample, with a linked permission, and a second one that has a
    policy with a link to the same permission and one of its own. *)
Definition policy_of (i team : Z) : Policy := {|
  pol_id := i; pol_name := "p"; pol_team_id := Some team; pol_created_at := 0; pol_updated_at := 0; pol_slug := None;
  pol_display_name := None; pol_description := None |}.
Definition permission_of (i : Z) : permission_row := {|
  pr_id := i; pr_identifier := "allowed_kinds"; pr_config := ""; pr_created_at := 0; pr_updated_at := 0 |}.
Definition link_of (i policy permission : Z) : policy_permission_row := {| pp_id := i; pp_policy_id := policy; pp_permission_id := permission |}.
Definition two_teams_db : Db :=
  set_teams {| rows := rows (db_teams sample_team_db) ++ [{| tm_id := 2; tm_name := "other"; tm_created_at := 0; tm_updated_at := 0; tm_tenant_id := 1 |}];
               next_id := 3 |}
    (set_policies {| rows := [policy_of 1 1; policy_of 2 2]; next_id := 3 |}
      (set_permissions {| rows := [permission_of 1; permission_of 2; permission_of 3]; next_id := 4 |}
        (set_policy_permissions {| rows := [link_of 1 1 1; link_of 2 1 2; link_of 3 2 2; link_of 4 2 3]; next_id := 5 |} sample_team_db))).
Lemma two_teams_wf : team_wf two_teams_db.
Proof.
  split; [split; [apply NoDup_singleton | repeat constructor]|]. split; [|constructor].
  split; [split; [apply (bool_decide_eq_true_1 (NoDup (map pr_id (rows (db_permissions two_teams_db))))); reflexivity | repeat constructor]|].
  split; [split; [apply (bool_decide_eq_true_1 (NoDup (map pol_id (rows (db_policies two_teams_db))))); reflexivity | repeat constructor]|].
  repeat constructor.
Qed.

Lemma team_changes_confined_witness :
  exists s', run_team_op 10 toy_team_config 1 (signed_in "Pu") (DeleteTeam 1) (team_state_of two_teams_db) = (s', Ok tt) /\
    map pr_id (rows (db_permissions (te_db s'))) = [2; 3] /\ rows_of_team 2 (te_db s') = rows_of_team 2 two_teams_db.
Proof.
  destruct (run_team_op 10 toy_team_config 1 (signed_in "Pu") (DeleteTeam 1) (team_state_of two_teams_db)) as [s' r] eqn:E.
  exists s'. pose proof E as Hr. vm_compute in Hr. split; [|split].
  - f_equal. by injection Hr as _ <-.
  - injection Hr as <- _. vm_compute. reflexivity.
  - exact (proj1 (proj2 (team_changes_confined 10 toy_team_config 1 (signed_in "Pu") (DeleteTeam 1) (team_state_of two_teams_db) s' r
      two_teams_wf E)) 2 ltac:(discriminate)).
Defined.

Lemma team_db_keys_fresh : ids_fresh sk_id (db_stored_keys sample_team_db).
Proof. split; [apply NoDup_singleton | repeat constructor]. Qed.
Lemma team_db_wf : team_wf sample_team_db.
Proof. split; [exact team_db_keys_fresh|]. split; [|constructor]. repeat split; repeat constructor; set_solver. Qed.

Definition team_requests : list team_request :=
  [(1, 1, signed_in "Pu", AddUser 1 {| at_user_pubkey := "Pw"; at_role := Admin |}); (2, 1, signed_in "Pu", RemoveUser 1 "Pu");
   (3, 1, signed_in "Pw", RemoveUser 1 "Pw"); (4, 1, signed_in "Pv", RemoveUser 1 "Pw")].

Lemma team_keeps_admin_witness :
  has_admin 1 (te_db (foldl (run_request toy_team_config) (team_state_of sample_team_db) team_requests)) /\
  map tu_user_pubkey (rows (db_team_users (te_db (foldl (run_request toy_team_config) (team_state_of sample_team_db) team_requests)))) = ["Pv"; "Pw"].
Proof.
  split; [|vm_compute; reflexivity]. apply (team_keeps_admin toy_team_config 1 team_requests (team_state_of sample_team_db)).
  - exact team_db_wf.
  - repeat (apply Forall_cons; split; [split; [vm_compute; reflexivity | apply toy_canonical]|]). constructor.
  - repeat (apply Forall_cons; split; [discriminate|]). constructor.
  - eexists. split; [constructor|]. done.
Defined.

(** The sole administrator deletes the account: the team stays, without one. *)
Example account_deletion_leaves_no_admin :
  exists d' r, repo_delete_account "Pu" 1 sample_team_db = (d', Ok r) /\ rows (db_teams d') = rows (db_teams sample_team_db) /\
    map (fun m => (tu_user_pubkey m, tu_role m)) (rows (db_team_users d')) = [("Pv", Member)].
Proof. eexists _, _. split; [vm_compute; reflexivity | split; reflexivity]. Qed.

Definition invited_db : Db :=
  set_users (db_users sample_team_db ++ [us_set_email (Some "w@b") (new_user 0 "Pw" 1)])
    (set_team_invitations (fst (invitation_create 0 1 1 "W@b" "member" "tok" "Pu" empty_table)) sample_team_db).

Lemma accepted_invitation_sound_witness :
  exists s' resp s'', accept_invitation 10 11 1 (signed_in "Pw") "tok" (team_state_of invited_db) = (s', Ok resp) /\
    accept_invitation 20 20 1 (signed_in "Pv") "tok" s' = (s'', Err (ApiFailed (Api_NotFound "Invitation not found or expired"))).
Proof.
  destruct (run_ok (accept_invitation 10 11 1 (signed_in "Pw") "tok" (team_state_of invited_db))) as (s' & resp & E);
    [vm_compute; reflexivity|].
  destruct (accepted_invitation_sound 10 11 1 (signed_in "Pw") "tok" (team_state_of invited_db) s' resp E)
    as (i & role & row & _ & _ & _ & _ & _ & _ & _ & _ & _ & _ & _ & Hlater).
  destruct (Hlater 20 20 1 (signed_in "Pv") ltac:(lia)) as [s'' Hs]. exists s', resp, s''. exact (conj E Hs).
Defined.

Lemma created_team_works_witness :
  exists s' t, create_team 10 toy_team_config 1 (signed_in "Pw") "new" (team_state_of sample_team_db) = (s', Ok t) /\
    is_team_admin "Pw" (tm_id (twr_team t)) (te_db s') = true.
Proof.
  destruct (run_ok (create_team 10 toy_team_config 1 (signed_in "Pw") "new" (team_state_of sample_team_db))) as (s' & t & E);
    [vm_compute; reflexivity|].
  exists s', t. split; [exact E|].
  refine (proj1 (proj2 (proj2 (proj2 (created_team_works 10 toy_team_config 1 (signed_in "Pw") "new" (team_state_of sample_team_db) s' t
    _ _ (toy_canonical _) eq_refl eq_refl E))))).
  - split; [split; constructor|]. split; [split; [apply NoDup_singleton | repeat constructor]|]. constructor.
  - split; [apply NoDup_singleton | repeat constructor].
Defined.
