(* ===== verification/TeamSigning.v ===== *)
(** * Team authorizations and the signer

    An authorization that the team endpoints create is served by the signer: what
    its bunker URL gives the client, whom the signer signs for, and that a deleted
    authorization is refused. *)
From S2P Require Import Prelude RustStr External Instances Database Samples Permissions Policies Tokens AuthTypes Ucan HttpRpc OAuthRepo Users OAuth WorkQueue Queues RateLimit Tenant Nip98 TeamRepo TeamViews Teams TeamsSafety Signer SignerSafety.

Section team_signing.
Context `{HN : Nostr, HC : !NostrCrypto, HS : !Serde, HX : !Secrets, HL : UrlLib, HUni : Unicode, HI : Ipv6}.

(** The row [add_authorization] stores and the keys behind it. *)
Record created_authorization (d : Db) (tenant_id team : Z) (drawn : SecretPair) (request : AddAuthorizationRequest)
    (ca_key : StoredKey) (secret bunker : SecretKey) (a : Authorization) : Prop := {
  ca_key_stored : ca_key ∈ rows (db_stored_keys d);
  ca_key_team : sk_team_id ca_key = team;
  ca_key_tenant : sk_tenant_id ca_key = tenant_id;
  ca_secret : exists bytes, km_decrypt (sk_secret_key ca_key) = Ok bytes /\ sk_from_slice bytes = Ok secret;
  ca_bunker : derive_bunker_keys secret (pair_hash drawn) = Some bunker;
  ca_row_key : au_stored_key_id a = sk_id ca_key;
  ca_row_tenant : au_tenant_id a = tenant_id;
  ca_row_id : au_id a = next_id (db_authorizations d);
  ca_row_bunker : au_bunker_public_key a = pk_to_hex (pk_of bunker);
  ca_row_hash : au_secret_hash a = pair_hash drawn;
  ca_row_policy : au_policy_id a = aa_policy_id request;
  ca_row_expires : au_expires_at a = aa_expires_at request;
  ca_row_client : au_connected_client_pubkey a = None;
}.

Lemma add_authorization_ok now cfg tenant_id auth team pubkey drawn request s s' resp :
  add_authorization now cfg tenant_id auth team pubkey (Some drawn) request s = (s', Ok resp) ->
  exists k secret bunker, created_authorization (te_db s) tenant_id team drawn request k secret bunker (acr_authorization resp) /\
    te_db s' = set_authorizations {| rows := rows (db_authorizations (te_db s)) ++ [acr_authorization resp];
                                     next_id := next_id (db_authorizations (te_db s)) + 1 |} (te_db s) /\
    generate_bunker_url urlencode (tc_bunker_relays cfg) (pk_to_hex (pk_of bunker)) (pair_secret drawn) = Some (acr_bunker_url resp).
Proof.
  unfold add_authorization. intros H.
  apply se_bind_ok in H as (s1 & u & Hv & H). apply verify_admin_ok in Hv as [-> _].
  apply se_bind_ok in H as (s1 & pk & Hpk & H). apply se_lift_ok in Hpk as [-> _].
  apply se_bind_ok in H as (s1 & k & Hk & H). apply query_with_ok in Hk as [-> Hk]. apply found_key in Hk as (Hk & Hteam & Hten & _).
  apply se_bind_ok in H as (s1 & known & Hkn & H). apply se_gets_ok in Hkn as [-> _]. destruct (negb known); [done|].
  apply se_bind_ok in H as (s1 & dr & Hdr & H). apply se_lift_ok in Hdr as [-> Hdr]. injection Hdr as <-.
  apply se_bind_ok in H as (s1 & bytes & Hb & H). apply se_lift_ok in Hb as [-> Hb]. apply map_err_ok, map_err_ok in Hb.
  apply se_bind_ok in H as (s1 & secret & Hs & H). apply se_lift_ok in Hs as [-> Hs]. apply map_err_ok, map_err_ok in Hs.
  apply se_bind_ok in H as (s1 & bunker & Hbk & H). apply se_lift_ok in Hbk as [-> Hbk]. apply ok_or_ok in Hbk.
  apply se_bind_ok in H as (s1 & a & Ha & H). apply repo_with_ok in Ha as (d' & Ha & ->).
  apply se_bind_ok in H as (s1 & url & Hurl & H). apply se_lift_ok in Hurl as [-> Hurl]. apply ok_or_ok in Hurl.
  apply se_ret_ok in H as [-> ->]. cbn [acr_authorization acr_bunker_url].
  unfold authorization_create in Ha. destruct (negb _); [done|]. destruct (negb _); [done|].
  unfold insert_row in Ha. injection Ha as <- Ha. apply map_err_ok in Ha.
  unfold decode_authorization in Ha. apply rbind_ok in Ha as (x & _ & Ha). injection Ha as <-.
  exists k, secret, bunker. split; [split; simpl; eauto | done].
Qed.

Section served.
(** A signer that sees the database after an authorization was created, has
    nothing cached for its key, and knows the key from no other authorization. *)
Context (d : Db) (tenant_id team : Z) (drawn : SecretPair) (request : AddAuthorizationRequest) (k : StoredKey)
        (secret bunker : SecretKey) (a : Authorization) (now : Z) (g : signer).
Hypothesis (Hca : created_authorization d tenant_id team drawn request k secret bunker a).
Hypothesis (Hdb : sg_db g = set_authorizations {| rows := rows (db_authorizations d) ++ [a];
                                                  next_id := next_id (db_authorizations d) + 1 |} d).
Hypothesis (Hkeys : ids_fresh sk_id (db_stored_keys d)) (Hauths : ids_fresh au_id (db_authorizations d)).
Hypothesis (Hoauth : Forall (fun o => oa_bunker_public_key o <> au_bunker_public_key a) (rows (db_oauth_authorizations d))).
Hypothesis (Hteam : Forall (fun o => au_bunker_public_key o <> au_bunker_public_key a) (rows (db_authorizations d))).
Hypothesis (Hexp : forall e, aa_expires_at request = Some e -> now < e).
Hypothesis (Hcache : sg_handlers g !! au_bunker_public_key a = None).

Definition team_handler : Nip46Handler :=
  mk_handler (bunker, secret) (pair_hash drawn) (au_id a) tenant_id false (Active, None).

Lemma team_handler_loads :
  get_handler now (au_bunker_public_key a) g = (set_handlers <[au_bunker_public_key a := team_handler]> g, Ok (Some team_handler)).
Proof.
  destruct Hca as [Hk Hkt Hkn (bytes & Hb & Hs) Hbk Hrk Hrt Hri Hrb Hrh Hrp Hre Hrc].
  unfold get_handler, se_bind at 1, se_gets. rewrite Hcache. unfold se_bind at 1. cbv beta.
  assert (load_on_demand now (sg_db g) (au_bunker_public_key a) = Ok (Some team_handler)) as ->; [|done].
  unfold load_on_demand. rewrite Hdb. cbn [db_oauth_authorizations set_authorizations].
  rewrite (proj2 (find_first_None _ _)).
  2: { intros o Ho. apply bool_decide_eq_false. rewrite Forall_forall in Hoauth. by apply Hoauth. }
  cbn [db_authorizations rows]. rewrite (find_first_unique _ _ a).
  - unfold decode_int. rewrite decide_True by done. cbn [map_err rbind].
    unfold stored_key_secret. cbn [db_stored_keys]. rewrite (find_first_unique _ _ k Hk).
    + cbn [fmap option_fmap option_map fetch_one ok_or map_err rbind]. unfold unlock_keys. rewrite Hb. cbn [map_err rbind].
      rewrite Hs, Hrh. cbn [map_err rbind]. rewrite Hbk. cbn [ok_or rbind]. rewrite Hre, Hrt.
      unfold team_handler, status_from_expiry. destruct (aa_expires_at request) as [e|]; [|done].
      rewrite (proj2 (Z.leb_gt _ _)); [done|]. by apply Hexp.
    + by rewrite Hrk, Hrt, Hkn, !Z.eqb_refl.
    + intros k' Hk' Hp. bool_to_prop. apply (NoDup_map_inj sk_id _ k' k (proj1 Hkeys) Hk' Hk). congruence.
  - apply elem_of_app. right. constructor.
  - by apply bool_decide_eq_true.
  - intros o [Ho|Ho%list_elem_of_singleton]%elem_of_app Hp%bool_decide_eq_true; [|done].
    rewrite Forall_forall in Hteam. by destruct (Hteam o Ho).
Qed.

(** The authorization of the handler, in any later state of its row. *)
Lemma handler_row (f : Authorization -> Authorization) p :
  (forall o, au_id (f o) = au_id o) ->
  find_first (fun o => (au_id o =? au_id a) && p o) (map f (rows (db_authorizations d) ++ [a])) = if p (f a) then Some (f a) else None.
Proof.
  intros Hf. destruct Hca as [_ _ _ _ _ _ _ Hri _ _ _ _ _]. destruct Hauths as [_ Hlt]. rewrite Forall_forall in Hlt.
  destruct (p (f a)) eqn:Hp.
  - apply find_first_unique.
    + apply list_elem_of_fmap. exists a. split; [done|]. apply elem_of_app. right. constructor.
    + by rewrite Hf, Z.eqb_refl, Hp.
    + intros o (o' & -> & Ho')%list_elem_of_fmap [E%Z.eqb_eq _]%andb_true_iff. rewrite Hf in E.
      apply elem_of_app in Ho' as [Ho'|Ho'%list_elem_of_singleton]; [|by subst]. specialize (Hlt o' Ho'). lia.
  - apply find_first_None. intros o (o' & -> & Ho')%list_elem_of_fmap. rewrite Hf.
    apply elem_of_app in Ho' as [Ho'|Ho'%list_elem_of_singleton]; [|by subst; rewrite Hp, andb_false_r].
    specialize (Hlt o' Ho'). rewrite (proj2 (Z.eqb_neq _ _)); [done|]. lia.
Qed.

Lemma client_before : existing_client now (sg_db g) team_handler = None.
Proof.
  unfold existing_client. rewrite Hdb. cbn [team_handler mk_handler h_is_oauth h_authorization_id h_tenant_id db_authorizations set_authorizations rows fst snd].
  pose proof (handler_row id (fun o => (au_tenant_id o =? tenant_id) && team_unexpired now o) (fun _ => eq_refl)) as Hr.
  rewrite map_id in Hr. rewrite (find_first_ext _ (fun o => (au_id o =? au_id a) && ((au_tenant_id o =? tenant_id) && team_unexpired now o))).
  2: { intros o _. by rewrite andb_assoc. }
  rewrite Hr. destruct (_ && _); [|done]. simpl. by rewrite (ca_row_client _ _ _ _ _ _ _ _ _ Hca).
Qed.

Lemma connect_runs client :
  bcrypt_verify (pair_secret drawn) (pair_hash drawn) = true ->
  process_connect now team_handler client (pair_secret drawn) (set_handlers <[au_bunker_public_key a := team_handler]> g) =
    (set_db (connect_team_client now client (au_id a)) (set_handlers <[au_bunker_public_key a := team_handler]> g), Ok "ack").
Proof.
  intros Hsec. unfold process_connect. cbn [team_handler mk_handler h_secret_hash]. rewrite Hsec. cbn [negb].
  unfold se_bind, se_gets. cbn [set_handlers sg_db]. fold team_handler. rewrite client_before. done.
Qed.

Lemma client_after client :
  existing_client now (connect_team_client now client (au_id a) (sg_db g)) team_handler = Some client.
Proof.
  destruct Hca as [_ _ _ _ _ _ Hrt Hri _ _ _ Hre _].
  unfold existing_client. rewrite Hdb. unfold connect_team_client.
  cbn [team_handler mk_handler h_is_oauth h_authorization_id h_tenant_id db_authorizations set_authorizations with_rows rows fst snd].
  unfold update_where.
  rewrite (find_first_ext _ (fun o => (au_id o =? au_id a) && ((au_tenant_id o =? tenant_id) && team_unexpired now o))).
  2: { intros o _. by rewrite andb_assoc. }
  rewrite handler_row.
  - cbv beta. rewrite Z.eqb_refl. cbn [au_tenant_id au_expires_at team_unexpired]. rewrite Hrt, Z.eqb_refl. unfold team_unexpired. cbn [au_expires_at].
    rewrite Hre. destruct (aa_expires_at request) as [e|] eqn:Ee; [|done]. simpl. by rewrite (proj2 (Z.ltb_lt _ _) (Hexp e eq_refl)).
  - intros o. by destruct (au_id o =? au_id a).
Qed.
End served.

(** A bunker URL works: the signer loads, for the key of the URL a new team
    authorization came with, an active handler that signs with the team's stored
    key; the first client that presents the secret is connected, and the secret is
    refused to every other client afterwards. *)
Theorem team_bunker_url_connects now now2 cfg tenant_id auth team pubkey drawn request s s' resp g client other :
  add_authorization now cfg tenant_id auth team pubkey (Some drawn) request s = (s', Ok resp) ->
  let bunker_pubkey := au_bunker_public_key (acr_authorization resp) in
  sg_db g = te_db s' -> sg_handlers g !! bunker_pubkey = None ->
  ids_fresh sk_id (db_stored_keys (te_db s)) -> ids_fresh au_id (db_authorizations (te_db s)) ->
  Forall (fun o => oa_bunker_public_key o <> bunker_pubkey) (rows (db_oauth_authorizations (te_db s))) ->
  Forall (fun o => au_bunker_public_key o <> bunker_pubkey) (rows (db_authorizations (te_db s))) ->
  (forall e, aa_expires_at request = Some e -> now2 < e) ->
  bcrypt_verify (pair_secret drawn) (pair_hash drawn) = true -> other <> client ->
  exists h g1 g2 k bytes, get_handler now2 bunker_pubkey g = (g1, Ok (Some h)) /\ h_status h = Active /\
    bunker_pubkey = pk_to_hex (pk_of (h_bunker_keys h)) /\
    k ∈ rows (db_stored_keys (te_db s)) /\ sk_team_id k = team /\ sk_tenant_id k = tenant_id /\
    km_decrypt (sk_secret_key k) = Ok bytes /\ sk_from_slice bytes = Ok (h_user_keys h) /\
    process_connect now2 h client (pair_secret drawn) g1 = (g2, Ok "ack") /\
    process_connect now2 h other (pair_secret drawn) g2 = (g2, Err (SE_PermissionDenied "Secret already used by another client")).
Proof.
  intros Hadd bp Hg Hcache Hkeys Hauths Hoa Hta Hexp Hsec Hne.
  apply add_authorization_ok in Hadd as (k & secret & bunker & Hca & Hdb & _). rewrite <- Hg in Hdb.
  pose proof Hca as [Hk Hkt Hkn (bytes & Hb & Hs) _ _ _ _ Hrb _ _ _ _].
  exists (team_handler tenant_id drawn secret bunker (acr_authorization resp)). eexists _, _, k, bytes.
  split; [by eapply team_handler_loads|]. split; [done|]. split; [done|]. repeat (split; [done|]).
  split; [by eapply connect_runs|].
  unfold process_connect. change (h_secret_hash (team_handler _ _ _ _ _)) with (pair_hash drawn). rewrite Hsec. cbn [negb].
  unfold se_bind, se_gets. cbn [set_handlers set_db sg_db].
  rewrite (client_after _ _ _ _ _ _ _ _ _ now2 g Hca Hdb Hauths Hexp client).
  unfold connect_decision. by rewrite bool_decide_false by congruence.
Qed.

(** [C19] A team's key signs for anybody.  The signer asks for a connected client
    only when the authorization came from OAuth: a sign_event request to a new
    team authorization, from any sender, without a secret and with no client ever
    connected, is answered with the event signed by the team's stored key whenever
    the policy allows the event. *)
Theorem team_key_signs_for_anyone `{!Cluster, !Relay} now now2 cfg tenant_id auth team pubkey drawn request s s' resp g
    event text use_nip44 req ue ps signed :
  add_authorization now cfg tenant_id auth team pubkey (Some drawn) request s = (s', Ok resp) ->
  let bunker_pubkey := au_bunker_public_key (acr_authorization resp) in
  sg_db g = te_db s' -> sg_handlers g !! bunker_pubkey = None ->
  ids_fresh sk_id (db_stored_keys (te_db s)) -> ids_fresh au_id (db_authorizations (te_db s)) ->
  Forall (fun o => oa_bunker_public_key o <> bunker_pubkey) (rows (db_oauth_authorizations (te_db s))) ->
  Forall (fun o => au_bunker_public_key o <> bunker_pubkey) (rows (db_authorizations (te_db s))) ->
  (forall e, aa_expires_at request = Some e -> now2 < e) ->
  bunker_of_event event = Some bunker_pubkey -> should_handle bunker_pubkey = true ->
  exists h g1, get_handler now2 bunker_pubkey g = (g1, Ok (Some h)) /\ existing_client now2 (sg_db g1) h = None /\
    (decrypt_request h event = Ok (text, use_nip44) -> json_from_str text = Ok req ->
     as_str (json_get req "method") = Some "sign_event" -> request_event h req = Ok ue ->
     load_permissions (sg_db g) h = Ok ps -> (forall p, p ∈ ps -> dyn_can_sign p ue = true) ->
     builder_sign (h_user_keys h) (ue_kind ue) (ue_content ue) (ue_tags ue) (ue_created_at ue) = Ok signed ->
     handle_nip46_request now2 event g =
       send_response now2 h event use_nip44 true (response_of (json_get req "id") "result" (event_to_json signed)) g1).
Proof.
  intros Hadd bp Hg Hcache Hkeys Hauths Hoa Hta Hexp Hev Hshould.
  apply add_authorization_ok in Hadd as (k & secret & bunker & Hca & Hdb & _). rewrite <- Hg in Hdb.
  pose proof (team_handler_loads _ _ _ _ _ _ _ _ _ now2 g Hca Hdb Hkeys Hoa Hta Hexp Hcache) as Hload.
  exists (team_handler tenant_id drawn secret bunker (acr_authorization resp)). eexists. split; [exact Hload|].
  split; [cbn [set_handlers sg_db]; by eapply client_before|].
  intros Hdec Hjson Hmethod Hreq Hps Hall Hsign.
  unfold handle_nip46_request, se_bind at 1, se_lift. rewrite Hev. cbn [ok_or]. rewrite Hshould. cbn [negb].
  unfold se_bind at 1. fold bp. unfold bp in *. rewrite Hload. unfold process_request, se_bind at 1, se_lift. rewrite Hdec.
  unfold se_bind at 1. rewrite Hjson. cbn [map_err]. unfold se_bind at 1. rewrite Hmethod. cbn [ok_or].
  change (tombstone_error_message (team_handler _ _ _ _ _)) with (None : option string). cbv iota.
  unfold process_active. change (h_is_oauth (team_handler _ _ _ _ _)) with false. cbn [andb].
  unfold se_bind at 1, dispatch. rewrite bool_decide_true by done. unfold handle_sign_event, se_bind at 1, se_lift. rewrite Hreq.
  unfold se_bind at 1, se_gets. unfold se_bind at 1. cbn [set_handlers sg_db]. unfold validate_permissions_for_sign. rewrite Hps. cbn [rbind].
  rewrite (proj2 (check_all_ok _ _) Hall). unfold se_bind at 1. rewrite Hsign. cbn [map_err].
  unfold se_bind, spawn_update_activity. change (h_is_oauth (team_handler _ _ _ _ _)) with false. done.
Qed.

(** ** Deleted authorizations *)
Lemma delete_authorization_ok cfg tenant_id auth team pubkey auth_id s s' u :
  delete_authorization cfg tenant_id auth team pubkey auth_id s = (s', Ok u) ->
  exists k, te_db s' = set_authorizations (with_rows (delete_where (fun a => (au_tenant_id a =? tenant_id) && (au_id a =? auth_id)
                         && (au_stored_key_id a =? sk_id k))) (db_authorizations (te_db s))) (te_db s) /\
    exists a, a ∈ rows (db_authorizations (te_db s)) /\ au_tenant_id a = tenant_id /\ au_id a = auth_id /\ au_stored_key_id a = sk_id k.
Proof.
  unfold delete_authorization. intros H.
  apply se_bind_ok in H as (s1 & u1 & Hv & H). apply verify_admin_ok in Hv as [-> _].
  apply se_bind_ok in H as (s1 & pk & Hpk & H). apply se_lift_ok in Hpk as [-> _].
  apply se_bind_ok in H as (s1 & k & Hk & H). apply query_with_ok in Hk as [-> _].
  apply se_bind_ok in H as (s1 & b & Hd & H). apply repo_with_ok in Hd as (d' & Hd & ->).
  destruct b; [|done]. cbn [negb] in H. apply se_ret_ok in H as [-> _].
  unfold delete_for_stored_key in Hd. apply se_bind_ok in Hd as (d1 & n & Hn & Hd). apply se_ret_ok in Hd as [-> Hpos].
  unfold delete_authorizations in Hn. injection Hn as <- <-. exists k. split; [done|].
  destruct (List.filter _ _) as [|a l] eqn:Hl; [done|]. assert (Ha : a ∈ a :: l) by constructor. rewrite <- Hl in Ha.
  apply list_elem_of_In, List.filter_In in Ha as [Ha Hp]. bool_to_prop. exists a. split; [by apply list_elem_of_In | done].
Qed.

(** A deleted team authorization is refused at once, also by a handler the
    signer has cached: with the database as it is after the deletion the handler
    signs, encrypts and decrypts nothing. *)
Theorem deleted_team_authorization_refused cfg tenant_id auth team pubkey auth_id s s' u h :
  NoDup (map au_id (rows (db_authorizations (te_db s)))) ->
  delete_authorization cfg tenant_id auth team pubkey auth_id s = (s', Ok u) ->
  h_is_oauth h = false -> h_tenant_id h = tenant_id -> h_authorization_id h = auth_id ->
  (forall ue, is_ok (validate_permissions_for_sign (te_db s') h ue) = false) /\
  (forall text pk, is_ok (validate_permissions_for_encrypt (te_db s') h text pk) = false) /\
  (forall text pk, is_ok (validate_permissions_for_decrypt (te_db s') h text pk) = false) /\
  forall now request g, sg_db g = te_db s' -> is_ok (snd (handle_sign_event now h request g)) = false.
Proof.
  intros Hnd Hdel Ho Ht Hi. apply delete_authorization_ok in Hdel as (k & Hdb & a & Ha & Hat & Hai & Hak).
  assert (Hload : load_permissions (te_db s') h = Err (SE_Authorization (AE_Database RowNotFound))).
  { unfold load_permissions. rewrite Ho, Ht, Hi. unfold authorization_find. rewrite Hdb. cbn [set_authorizations db_authorizations with_rows rows].
    rewrite find_first_delete_none; [done|]. intros b Hb Hp. bool_to_prop.
    assert (b = a) as -> by (apply (NoDup_map_inj au_id _ b a Hnd Hb Ha); congruence).
    subst; by rewrite Hak, !Z.eqb_refl. }
  unfold validate_permissions_for_sign, validate_permissions_for_encrypt, validate_permissions_for_decrypt. rewrite Hload.
  repeat (split; [done|]). intros now request g Hg. unfold handle_sign_event, se_bind at 1, se_lift.
  destruct (request_event h request) as [ue|e]; [|done]. unfold se_bind, se_gets, validate_permissions_for_sign. by rewrite Hg, Hload.
Qed.
End team_signing.

(** ** Witnesses *)
#[local] Existing Instance toy_cluster.
#[local] Existing Instance toy_relay.

Definition new_pair : SecretPair := {| pair_secret := "s7"; pair_hash := "Hs7" |}.
Definition new_authorization : AddAuthorizationRequest := {|
  aa_policy_id := 1; aa_relays := []; aa_max_uses := Some 1; aa_expires_at := Some 1000; aa_label := None |}.
Definition signer_on (d : Db) : signer := {| sg_db := d; sg_handlers := ∅; sg_sent := [] |}.
Definition authorize : team_state * result AuthorizationCreatedResponse api_abort :=
  add_authorization 10 toy_team_config 1 (signed_in "Pu") 1 "Pk" (Some new_pair) new_authorization (team_state_of sample_team_db).

Lemma team_auths_fresh : ids_fresh au_id (db_authorizations sample_team_db).
Proof. split; [apply NoDup_singleton | repeat constructor]. Qed.

Lemma team_bunker_url_connects_witness :
  exists s' resp h g1 g2, authorize = (s', Ok resp) /\
    get_handler 20 (au_bunker_public_key (acr_authorization resp)) (signer_on (te_db s')) = (g1, Ok (Some h)) /\
    process_connect 20 h "Pclient" "s7" g1 = (g2, Ok "ack").
Proof.
  destruct (run_ok authorize) as (s' & resp & E); [vm_compute; reflexivity|].
  assert (Hr : snd authorize = Ok resp) by by rewrite E.
  destruct (team_bunker_url_connects 10 20 toy_team_config 1 (signed_in "Pu") 1 "Pk" new_pair new_authorization
    (team_state_of sample_team_db) s' resp (signer_on (te_db s')) "Pclient" "Pother" E) as (h & g1 & g2 & k & bytes & Hh & _ & _ & _ & _ & _ & _ & _ & Hc & _).
  - reflexivity.
  - reflexivity.
  - exact team_db_keys_fresh.
  - exact team_auths_fresh.
  - constructor.
  - apply Forall_singleton. vm_compute in Hr. injection Hr as <-. discriminate.
  - intros e [= <-]. reflexivity.
  - reflexivity.
  - discriminate.
  - exists s', resp, h, g1, g2. exact (conj E (conj Hh Hc)).
Defined.

Definition stranger_asks (bunker : string) : @Event toy_nostr := sample_request "Pstranger" bunker "sign_event|E1:hello".

Lemma team_key_signs_for_anyone_witness :
  exists s' resp h g1, authorize = (s', Ok resp) /\
    let bunker := au_bunker_public_key (acr_authorization resp) in
    get_handler 20 bunker (signer_on (te_db s')) = (g1, Ok (Some h)) /\ existing_client 20 (sg_db g1) h = None /\
    pk_of (h_user_keys h) = "Pk" /\
    is_ok (snd (handle_nip46_request 20 (stranger_asks bunker) (signer_on (te_db s')))) = true /\
    exists signed, ev_pubkey signed = "Pk" /\ handle_nip46_request 20 (stranger_asks bunker) (signer_on (te_db s')) =
      send_response 20 h (stranger_asks bunker) true true (response_of (JString "7") "result" (event_to_json signed)) g1.
Proof.
  destruct (run_ok authorize) as (s' & resp & E); [vm_compute; reflexivity|].
  assert (Hs : fst authorize = s') by by rewrite E. assert (Hr : snd authorize = Ok resp) by by rewrite E.
  pose (ue := {| ue_pubkey := "Pk"; ue_created_at := 100; ue_kind := 1; ue_tags := []; ue_content := "hello" |} : @UnsignedEvent toy_nostr).
  pose (signed := {| ev_id := "id"; ev_pubkey := "Pk"; ev_created_at := 100; ev_kind := 1; ev_tags := []; ev_content := "hello";
                     ev_sig := "sig" |} : @Event toy_nostr).
  destruct (team_key_signs_for_anyone 10 20 toy_team_config 1 (signed_in "Pu") 1 "Pk" new_pair new_authorization
    (team_state_of sample_team_db) s' resp (signer_on (te_db s')) (stranger_asks (au_bunker_public_key (acr_authorization resp)))
    "sign_event|E1:hello" true (JObject [("id", JString "7"); ("method", JString "sign_event"); ("params", JArray [JString "E1:hello"])])
    ue [] signed E) as (h & g1 & Hh & Hc & Hsign).
  - reflexivity.
  - reflexivity.
  - exact team_db_keys_fresh.
  - exact team_auths_fresh.
  - constructor.
  - apply Forall_singleton. vm_compute in Hr. injection Hr as <-. discriminate.
  - intros e [= <-]. reflexivity.
  - vm_compute in Hr. injection Hr as <-. reflexivity.
  - vm_compute in Hr. injection Hr as <-. reflexivity.
  - assert (Hk : h = {| h_bunker_keys := "kkeycast-bunker-nip46-v1-Hs7"; h_user_keys := "k"; h_secret_hash := "Hs7"; h_authorization_id := 10;
                        h_tenant_id := 1; h_is_oauth := false; h_status := Active; h_tombstone_at := None |}).
    { vm_compute in Hr. injection Hr as <-. subst s'. vm_compute in Hh. by injection Hh as _ <-. }
    exists s', resp, h, g1. split; [exact E|]. split; [exact Hh|]. split; [exact Hc|]. split; [by rewrite Hk|]. split.
    + vm_compute in Hr. injection Hr as <-. subst s'. vm_compute. reflexivity.
    + exists signed. split; [reflexivity|]. apply Hsign; [reflexivity|reflexivity|reflexivity|by rewrite Hk| | |by rewrite Hk].
      * rewrite Hk, <- Hs. vm_compute. reflexivity.
      * by intros p ?%not_elem_of_nil.
Defined.

Lemma deleted_team_authorization_refused_witness :
  exists s' u h, delete_authorization toy_team_config 1 (signed_in "Pu") 1 "Pk" 2 (team_state_of sample_team_db) = (s', Ok u) /\
    load_on_demand 10 sample_team_db team_bunker = Ok (Some h) /\
    forall ue, is_ok (validate_permissions_for_sign (te_db s') h ue) = false.
Proof.
  destruct (run_ok (delete_authorization toy_team_config 1 (signed_in "Pu") 1 "Pk" 2 (team_state_of sample_team_db))) as (s' & u & E);
    [vm_compute; reflexivity|].
  destruct (load_on_demand 10 sample_team_db team_bunker) as [[h|]|e] eqn:Hh; [|exfalso; vm_compute in Hh; discriminate Hh..].
  exists s', u, h. split; [exact E|]. split; [reflexivity|].
  apply (deleted_team_authorization_refused toy_team_config 1 (signed_in "Pu") 1 "Pk" 2 (team_state_of sample_team_db) s' u h);
    [apply NoDup_singleton | exact E | vm_compute in Hh; injection Hh as <-; reflexivity..].
Defined.
