(* ===== verification/CustomerRepo.v ===== *)
(** * Merchants' apps and deletion notices

    core/src/repositories/customer_app_origin.rs, deletion_notice.rs, the listing
    of a customer's apps in oauth_authorization.rs, and api/src/customer_deletion.rs,
    which tells Synvya Server of each deleted customer until it acknowledges.
    The collation of text, the formatting of times and the HTTP client are
    parameters; the clock of a delivery pass gives the time of each of its
    requests and of each of its statements. *)
From S2P Require Import Prelude RustStr External Instances Database Tokens AuthTypes OAuthRepo Users Nip98.

(** ** Merchants' origins *)
Record CustomerAppOrigin : Type := {
  cao_origin : string; cao_merchant_name : string; cao_merchant_pubkey : string; cao_created_at : Z;
}.
Definition origin_view (r : customer_app_origin) : CustomerAppOrigin := {|
  cao_origin := co_origin r; cao_merchant_name := co_merchant_name r; cao_merchant_pubkey := co_merchant_pubkey r;
  cao_created_at := co_created_at r |}.

Definition origin_is (tenant_id : Z) (origin : string) (r : customer_app_origin) : bool :=
  (co_tenant_id r =? tenant_id) && bool_decide (co_origin r = origin).
Definition co_set_merchant (merchant_name merchant_pubkey : string) (r : customer_app_origin) : customer_app_origin := {|
  co_id := co_id r; co_tenant_id := co_tenant_id r; co_origin := co_origin r; co_merchant_name := merchant_name;
  co_merchant_pubkey := merchant_pubkey; co_created_at := co_created_at r |}.

(** The conflicting row is updated; the sequence has moved in either case. *)
Definition origin_add (now tenant_id : Z) (origin merchant_name merchant_pubkey : string) : DbM CustomerAppOrigin := fun d =>
  let t := db_customer_app_origins d in
  match find_first (origin_is tenant_id origin) (rows t) with
  | Some r =>
      (set_customer_app_origins {|
         rows := update_where (origin_is tenant_id origin) (co_set_merchant merchant_name merchant_pubkey) (rows t);
         next_id := next_id t + 1 |} d,
       Ok (origin_view (co_set_merchant merchant_name merchant_pubkey r)))
  | None =>
      let '(t', r) := insert_row (fun i => {| co_id := i; co_tenant_id := tenant_id; co_origin := origin;
        co_merchant_name := merchant_name; co_merchant_pubkey := merchant_pubkey; co_created_at := now |}) t in
      (set_customer_app_origins t' d, Ok (origin_view r))
  end.

Definition origin_remove (tenant_id : Z) (origin : string) : DbM bool := fun d =>
  let t := db_customer_app_origins d in
  (set_customer_app_origins (with_rows (delete_where (origin_is tenant_id origin)) t) d,
   Ok (0 <? length (List.filter (origin_is tenant_id origin) (rows t)))%nat).

Definition find_merchant_name (tenant_id : Z) (origin : string) (d : Db) : option string :=
  co_merchant_name <$> find_first (origin_is tenant_id origin) (rows (db_customer_app_origins d)).
Definition find_merchant_pubkey (tenant_id : Z) (origin : string) (d : Db) : option string :=
  co_merchant_pubkey <$> find_first (origin_is tenant_id origin) (rows (db_customer_app_origins d)).

(** ORDER BY a text column, by an insertion sort. *)
Class Collation := { collates : string -> string -> bool }.
Section collation.
Context `{HO : Collation}.
Fixpoint insert_by_text {A} (column : A -> string) (x : A) (l : list A) : list A :=
  match l with
  | [] => [x]
  | y :: l' => if collates (column x) (column y) then x :: l else y :: insert_by_text column x l'
  end.
Definition origin_list (tenant_id : Z) (d : Db) : list CustomerAppOrigin :=
  foldr (insert_by_text cao_origin) []
    (map origin_view (List.filter (fun r => co_tenant_id r =? tenant_id) (rows (db_customer_app_origins d)))).
End collation.

(** ** The apps of a customer *)

(** ORDER BY a time, oldest first. *)
Fixpoint insert_oldest {A} (column : A -> Z) (x : A) (l : list A) : list A :=
  match l with
  | [] => [x]
  | y :: l' => if column x <=? column y then x :: l else y :: insert_oldest column x l'
  end.
Definition order_oldest {A} (column : A -> Z) (l : list A) : list A := foldr (insert_oldest column) [] l.

Notation app_row := (string * option string * Z)%type.
(** LEFT JOIN: a row without a partner is kept, with NULL for its columns. *)
Definition app_rows (now : Z) (user_pubkey : string) (tenant_id : Z) (d : Db) : list app_row :=
  flat_map (fun a =>
    match List.filter (origin_is (oa_tenant_id a) (oa_redirect_origin a)) (rows (db_customer_app_origins d)) with
    | [] => [(oa_redirect_origin a, None, oa_created_at a)]
    | l => map (fun o => (oa_redirect_origin a, Some (co_merchant_name o), oa_created_at a)) l
    end)
  (List.filter (fun a => bool_decide (oa_user_pubkey a = user_pubkey) && (oa_tenant_id a =? tenant_id)
                         && is_null (oa_revoked_at a) && null_or_after (oa_expires_at a) now)
     (rows (db_oauth_authorizations d))).

(** GROUP BY with MIN. *)
Fixpoint add_to_group (row : app_row) (groups : list app_row) : list app_row :=
  match groups with
  | [] => [row]
  | g :: gs =>
      if bool_decide (fst g = fst row) then (fst g, Z.min (snd g) (snd row)) :: gs else g :: add_to_group row gs
  end.
Definition list_customer_apps (now : Z) (user_pubkey : string) (tenant_id : Z) (d : Db) : list app_row :=
  order_oldest snd (foldl (fun groups row => add_to_group row groups) [] (app_rows now user_pubkey tenant_id d)).

(** ** Deletion notices *)
Definition MAX_RETRY_DELAY_MINUTES : Z := 60.

Definition find_due (now : Z) (limit : nat) (d : Db) : list deletion_notice :=
  take limit (order_oldest dn_deleted_at
    (List.filter (fun n => dn_next_attempt_at n <=? now) (rows (db_deletion_notices d)))).

Definition notice_is (id : Z) (n : deletion_notice) : bool := dn_id n =? id.
Definition acknowledge (id : Z) : DbM unit := fun d =>
  (set_deletion_notices (with_rows (delete_where (notice_is id)) (db_deletion_notices d)) d, Ok tt).

(** [2_i64.saturating_pow(attempts.clamp(0, 16) as u32).min(..)]: no power of
    two up to the sixteenth saturates. *)
Definition retry_delay (attempts : Z) : Z :=
  Z.min (2 ^ Z.min (Z.max attempts 0) 16) MAX_RETRY_DELAY_MINUTES.
Definition dn_retry (next : Z) (n : deletion_notice) : deletion_notice := {|
  dn_id := dn_id n; dn_tenant_id := dn_tenant_id n; dn_pubkey := dn_pubkey n; dn_deleted_at := dn_deleted_at n;
  dn_attempts := dn_attempts n + 1; dn_next_attempt_at := next |}.
(** attempts is a 32-bit column. *)
Definition schedule_retry (now : Z) (notice : deletion_notice) : DbM unit := fun d =>
  let t := db_deletion_notices d in
  if existsb (fun n => notice_is (dn_id notice) n && (2 ^ 31 - 1 <=? dn_attempts n)) (rows t) then
    (d, Err (RE_Database "integer out of range"))
  else
    (set_deletion_notices (with_rows (update_where (notice_is (dn_id notice))
       (dn_retry (now + retry_delay (dn_attempts notice) * 60))) t) d, Ok tt).

(** ** Delivery *)
Definition DELIVERY_BATCH_SIZE : nat := 50.

Class NoticeClient := {
  (** [DateTime::to_rfc3339] and base64 *)
  to_rfc3339 : Z -> string;
  base64_encode : string -> string;
  (** a POST at a time to a URL with an Authorization header and a body: the status *)
  http_post : Z -> string -> string -> string -> result Z string;
}.

Section delivery.
Context `{HN : Nostr, HC : !NostrCrypto, HS : !Serde, HD : Digests, HNC : NoticeClient}.

Definition nip98_header (now : Z) (server_keys : SecretKey) (url body : string) : result string string :=
  let? u := tag_parse ["u"; url] in
  let? method := tag_parse ["method"; "POST"] in
  let? payload := tag_parse ["payload"; sha256_hex body] in
  let? event := builder_sign server_keys HTTP_AUTH_KIND "" [u; method; payload] now in
  Ok ("Nostr " +:+ base64_encode (event_to_json event)).

Definition notice_body (notice : deletion_notice) : string :=
  json_to_string (JObject [("pubkey", JString (dn_pubkey notice)); ("deleted_at", JString (to_rfc3339 (dn_deleted_at notice)))]).

Definition is_success (status : Z) : bool := (200 <=? status) && (status <? 300).

Definition send_notice (now : Z) (server_keys : SecretKey) (url : string) (notice : deletion_notice) : result unit string :=
  let body := notice_body notice in
  let? header := nip98_header now server_keys url body in
  let? status := http_post now url header body in
  if is_success status then Ok tt else Err ("Server answered " +:+ print_Z status).

(** The loop over a batch: the [i]th request is made at [fst (clock i)], and its
    outcome stored at [snd (clock i)]. *)
Fixpoint deliver (clock : nat -> Z * Z) (server_keys : SecretKey) (url : string) (i : nat) (acknowledged : nat)
    (notices : list deletion_notice) : DbM nat :=
  match notices with
  | [] => se_ret acknowledged
  | notice :: rest =>
      match send_notice (fst (clock i)) server_keys url notice with
      | Ok _ =>
          let! _ := acknowledge (dn_id notice) in
          deliver clock server_keys url (S i) (S acknowledged) rest
      | Err _ =>
          let! _ := schedule_retry (snd (clock i)) notice in
          deliver clock server_keys url (S i) acknowledged rest
      end
  end.

Definition deliver_due_notices (now : Z) (clock : nat -> Z * Z) (server_keys : SecretKey) (url : string) : DbM nat :=
  let! due := se_gets (find_due now DELIVERY_BATCH_SIZE) in
  deliver clock server_keys url 0 0 due.

(** One tick of the background task: nothing until the URL is configured. *)
Definition delivery_tick (now : Z) (clock : nat -> Z * Z) (server_keys : SecretKey) (env_url : option string) (d : Db) : Db :=
  match env_url with
  | Some url => if bool_decide (trim url = "") then d else fst (deliver_due_notices now clock server_keys url d)
  | None => d
  end.
End delivery.
