(* ===== verification/CustomerNotices.v ===== *)
(** * Deletion notices are delivered

    The background task of api/src/customer_deletion.rs: a notice stays until the
    server acknowledges it, and once the server answers, every notice is
    delivered within an hour and as many passes as it takes at fifty each. *)
From S2P Require Import Prelude RustStr External Instances Database Samples Tokens AuthTypes OAuthRepo Users Nip98 CustomerRepo.

(** What a retry keeps of a notice: all that is sent, and its identity. *)
Definition same_notice (a b : deletion_notice) : Prop :=
  dn_id a = dn_id b /\ dn_tenant_id a = dn_tenant_id b /\ dn_pubkey a = dn_pubkey b /\ dn_deleted_at a = dn_deleted_at b.
#[export] Instance same_notice_equiv : Equivalence same_notice.
Proof. unfold same_notice. split; [intros a | intros a b | intros a b c]; intuition congruence. Qed.

Notation notices d := (rows (db_deletion_notices d)).

(** A batch read from the table still describes the rows it names. *)
Definition describes (batch l : list deletion_notice) : Prop :=
  forall b n, b ∈ batch -> n ∈ l -> dn_id b = dn_id n -> same_notice b n.

Lemma insert_oldest_perm {A} (column : A -> Z) x l : insert_oldest column x l ≡ₚ x :: l.
Proof.
  induction l as [|y l IH]; simpl; [done|]. case_if; [done|]. rewrite IH. constructor.
Qed.
Lemma order_oldest_perm {A} (column : A -> Z) l : order_oldest column l ≡ₚ l.
Proof. induction l as [|x l IH]; simpl; [done|]. by rewrite insert_oldest_perm, IH. Qed.

Lemma describes_self l : NoDup (map dn_id l) -> describes l l.
Proof. intros Hnd b n Hb Hn E. by rewrite (NoDup_map_inj dn_id l b n Hnd Hb Hn E). Qed.

Lemma describes_mono batch batch' l l' :
  describes batch l -> batch' ⊆ batch -> (forall n, n ∈ l' -> exists m, m ∈ l /\ same_notice m n) -> describes batch' l'.
Proof.
  intros H Hb Hl b n Hbb Hn E. destruct (Hl n Hn) as (m & Hm & Hs). rewrite <- Hs. apply H; [set_solver|done|].
  destruct Hs as [Hs _]. congruence.
Qed.

Lemma filter_all {A} (p : A -> bool) l : (forall a, a ∈ l -> p a = true) -> List.filter p l = l.
Proof.
  induction l as [|a l IH]; intros H; simpl; [done|]. rewrite (H a) by constructor.
  f_equal. apply IH. intros b Hb. apply H. by constructor.
Qed.

Section delivery.
Context `{HN : Nostr, HC : !NostrCrypto, HS : !Serde, HD : Digests, HNC : NoticeClient}.

Lemma send_same now keys url a b : same_notice a b -> send_notice now keys url a = send_notice now keys url b.
Proof. intros (_ & _ & Hp & Hd). unfold send_notice, notice_body. by rewrite Hp, Hd. Qed.

Lemma delay_at_most attempts : 1 <= retry_delay attempts <= 60.
Proof.
  unfold retry_delay, MAX_RETRY_DELAY_MINUTES. pose proof (Z.pow_le_mono_r 2 0 (Z.min (Z.max attempts 0) 16)). lia.
Qed.

(** What one statement of a pass does to a notice: it stays, maybe put off, or
    the server accepted it at one of the times [At] at which the pass sends. *)
Definition kept_or_sent (At : Z -> Prop) (T : Z) (keys : SecretKey) (url : string) (d d' : Db) : Prop :=
  (forall n, n ∈ notices d ->
     (exists n', n' ∈ notices d' /\ same_notice n n') \/ (exists t, At t /\ send_notice t keys url n = Ok tt)) /\
  (forall n, n ∈ notices d' -> exists m, m ∈ notices d /\ same_notice m n) /\
  (length (notices d') <= length (notices d))%nat /\
  (NoDup (map dn_id (notices d)) -> NoDup (map dn_id (notices d'))) /\
  (Forall (fun n => dn_next_attempt_at n <= T + 3600) (notices d) ->
   Forall (fun n => dn_next_attempt_at n <= T + 3600) (notices d')).

Lemma kept_refl At T keys url d : kept_or_sent At T keys url d d.
Proof. split_and!; [intros n Hn; left; by exists n | intros n Hn; by exists n | done..]. Qed.

Lemma kept_trans At T keys url d1 d2 d3 :
  kept_or_sent At T keys url d1 d2 -> kept_or_sent At T keys url d2 d3 -> kept_or_sent At T keys url d1 d3.
Proof.
  intros (A1 & B1 & C1 & D1 & E1) (A2 & B2 & C2 & D2 & E2). split_and!; eauto; [| |lia].
  - intros n Hn. destruct (A1 n Hn) as [(m & Hm & Hs)|]; [|by right].
    destruct (A2 m Hm) as [(k & Hk & Hs')|(t & Hat & Ht)].
    + left. exists k. split; [done|]. by rewrite Hs.
    + right. exists t. split; [done|]. by rewrite (send_same _ _ _ _ _ Hs).
  - intros n Hn. destruct (B2 n Hn) as (m & Hm & Hs). destruct (B1 m Hm) as (k & Hk & Hs').
    exists k. split; [done|]. by rewrite Hs'.
Qed.

Lemma kept_more (At At' : Z -> Prop) T keys url d d' :
  (forall t, At t -> At' t) -> kept_or_sent At T keys url d d' -> kept_or_sent At' T keys url d d'.
Proof.
  intros Hat (A & B). split; [|done]. intros n Hn. destruct (A n Hn) as [|(t & Ht & Hs)]; [by left|]. right. eauto.
Qed.

Lemma acknowledge_kept (At : Z -> Prop) T keys url b d d' r t :
  At t -> acknowledge (dn_id b) d = (d', r) -> describes [b] (notices d) -> send_notice t keys url b = Ok tt ->
  kept_or_sent At T keys url d d'.
Proof.
  intros Hat [= <- <-] Hd Hs. simpl. split_and!.
  - intros n Hn. destruct (notice_is (dn_id b) n) eqn:E.
    + right. exists t. split; [done|]. unfold notice_is in E. bool_to_prop. rewrite <- Hs. symmetry. apply send_same, Hd; [set_solver|done|lia].
    + left. exists n. split; [|done]. apply delete_where_elem. split; [done|]. by rewrite E.
  - intros n Hn. apply delete_where_elem in Hn as [Hn _]. by exists n.
  - apply filter_length_le.
  - apply NoDup_map_filter.
  - intros HF. apply Forall_forall. intros n Hn. apply delete_where_elem in Hn as [Hn _]. by rewrite Forall_forall in HF; apply HF.
Qed.

Lemma retry_kept At T keys url now b d d' r :
  schedule_retry now b d = (d', r) -> now <= T -> kept_or_sent At T keys url d d'.
Proof.
  unfold schedule_retry. case_if; intros [= <- <-] Hnow; [apply kept_refl|]. unfold kept_or_sent; simpl.
  set (f := dn_retry _). assert (Hid : map dn_id (update_where (notice_is (dn_id b)) f (notices d)) = map dn_id (notices d)).
  { unfold update_where. rewrite map_map. apply map_ext. intros n. by destruct (notice_is _ _). }
  assert (Hback : forall n, n ∈ update_where (notice_is (dn_id b)) f (notices d) -> exists m, m ∈ notices d /\ same_notice m n).
  { intros n [(m & Hm & _ & ->)|[Hn _]]%update_where_elem; [by exists m | by exists n]. }
  split_and!; [| exact Hback | rewrite <- (length_map dn_id (update_where _ _ _)), Hid, length_map; lia | by rewrite Hid |].
  - intros n Hn. left. destruct (notice_is (dn_id b) n) eqn:En; [exists (f n) | exists n]; (split; [|done]);
      apply update_where_elem; eauto.
  - intros HF. apply Forall_forall. rewrite Forall_forall in HF.
    intros n [(m & Hm & _ & ->)|[Hn _]]%update_where_elem; [|by apply HF]. simpl. pose proof (delay_at_most (dn_attempts b)). lia.
Qed.

Lemma deliver_kept (At : Z -> Prop) T keys url clock batch : forall i acked d,
  (forall k, At (fst (clock k))) -> (forall k, snd (clock k) <= T) -> describes batch (notices d) ->
  kept_or_sent At T keys url d (fst (deliver clock keys url i acked batch d)).
Proof.
  induction batch as [|b batch IH]; intros i acked d Hat Hc Hd; simpl; [apply kept_refl|].
  assert (Hone : describes [b] (notices d)) by (intros ?????; apply Hd; set_solver).
  assert (Hrest : forall d', kept_or_sent At T keys url d d' -> describes batch (notices d')).
  { intros d' (_ & Hb & _). eapply describes_mono; [exact Hd|set_solver|exact Hb]. }
  destruct (send_notice _ keys url b) as [[]|e] eqn:Es; unfold se_bind.
  - destruct (acknowledge (dn_id b) d) as [d1 r] eqn:E. pose proof E as E'. injection E' as _ <-.
    pose proof (acknowledge_kept At T _ _ _ _ _ _ _ (Hat i) E Hone Es) as Hk.
    eapply kept_trans; [exact Hk|]. apply IH; auto.
  - destruct (schedule_retry (snd (clock i)) b d) as [d1 [[]|e']] eqn:E; pose proof (retry_kept At T keys url _ _ _ _ _ E (Hc i)) as Hk;
      [|exact Hk]. eapply kept_trans; [exact Hk|]. apply IH; auto.
Qed.

Lemma find_due_elem now limit d n : n ∈ find_due now limit d -> n ∈ notices d.
Proof.
  unfold find_due. intros Hn. apply elem_of_take in Hn as (i & Hn & _). apply list_elem_of_lookup_2 in Hn.
  rewrite order_oldest_perm in Hn. apply list_elem_of_In, filter_In in Hn as [Hn _]. by apply list_elem_of_In.
Qed.

Lemma tick_kept T keys url now clock d :
  NoDup (map dn_id (notices d)) -> (forall k, snd (clock k) <= T) ->
  kept_or_sent (fun t => exists k, t = fst (clock k)) T keys url d (delivery_tick now clock keys (Some url) d).
Proof.
  intros Hnd Hc. unfold delivery_tick. case_if; [apply kept_refl|]. unfold deliver_due_notices, se_gets, se_bind. simpl.
  apply deliver_kept; [by eexists|done|]. eapply describes_mono; [apply describes_self, Hnd| |intros n Hn; by exists n].
  intros n. apply find_due_elem.
Qed.

(** *** When the server answers *)
Lemma deliver_all keys url clock batch : forall i acked d,
  (forall k b, b ∈ batch -> send_notice (fst (clock k)) keys url b = Ok tt) ->
  notices (fst (deliver clock keys url i acked batch d))
  = List.filter (fun n => negb (bool_decide (dn_id n ∈ map dn_id batch))) (notices d).
Proof.
  induction batch as [|b batch IH]; intros i acked d Hs; simpl.
  - symmetry. by apply filter_all.
  - rewrite (Hs i b) by set_solver. unfold acknowledge, se_bind. rewrite IH by (intros; apply Hs; set_solver). simpl.
    unfold delete_where, notice_is. induction (notices d) as [|n l IHl]; simpl; [done|].
    destruct (Z.eqb_spec (dn_id n) (dn_id b)) as [E|E]; simpl.
    + rewrite (bool_decide_eq_true_2 (dn_id n ∈ dn_id b :: _)) by set_solver. exact IHl.
    + rewrite (bool_decide_ext (dn_id n ∈ dn_id b :: map dn_id batch) (dn_id n ∈ map dn_id batch)) by set_solver.
      by rewrite IHl.
Qed.

Lemma filter_batch batch rest l :
  NoDup (map dn_id l) -> l ≡ₚ batch ++ rest ->
  List.filter (fun n => negb (bool_decide (dn_id n ∈ map dn_id batch))) l ≡ₚ rest.
Proof.
  intros Hnd Hp. assert (Hf : forall p (a b : list deletion_notice), a ≡ₚ b -> List.filter p a ≡ₚ List.filter p b).
  { intros p a b H. induction H; simpl; repeat case_if; eauto using Permutation; by econstructor. }
  rewrite (Hf _ _ _ Hp). assert (Hnd2 : NoDup (map dn_id batch ++ map dn_id rest)).
  { rewrite <- map_app. by rewrite <- Hp. }
  apply NoDup_app in Hnd2 as (_ & Hdis & _). rewrite List.filter_app.
  rewrite (filter_nil _ batch), app_nil_l; [|intros n Hn; rewrite bool_decide_eq_true_2; [done|by apply list_elem_of_fmap_2]].
  apply reflexive_eq. clear Hp. induction rest as [|n rest IH]; simpl; [done|].
  rewrite bool_decide_eq_false_2; simpl; [|intros Hin; apply (Hdis _ Hin); set_solver].
  f_equal. apply IH. set_solver.
Qed.

(** A pass in which the server accepts what it is sent: the first fifty of the
    due notices are gone. *)
Lemma tick_all keys url now clock d :
  NoDup (map dn_id (notices d)) -> trim url <> "" -> Forall (fun n => dn_next_attempt_at n <= now) (notices d) ->
  (forall k n, n ∈ notices d -> send_notice (fst (clock k)) keys url n = Ok tt) ->
  notices (delivery_tick now clock keys (Some url) d) ≡ₚ drop DELIVERY_BATCH_SIZE (order_oldest dn_deleted_at (notices d)).
Proof.
  intros Hnd Hu Hdue Hs. unfold delivery_tick. rewrite bool_decide_eq_false_2 by done.
  unfold deliver_due_notices, se_gets, se_bind.
  rewrite deliver_all by (intros k b Hb; apply Hs; eapply find_due_elem, Hb).
  apply filter_batch; [done|]. unfold find_due.
  rewrite (filter_all (fun n => dn_next_attempt_at n <=? now)).
  - rewrite take_drop. symmetry. apply order_oldest_perm.
  - intros n Hn. rewrite Forall_forall in Hdue. specialize (Hdue n Hn). lia.
Qed.
End delivery.

(** The ticks of the background task: each at a time and with its clock. *)
Definition ticks `{Nostr, !NostrCrypto, !Serde, Digests, NoticeClient} (keys : SecretKey) (url : string)
    (passes : list (Z * (nat -> Z * Z))) (d : Db) : Db :=
  foldl (fun d p => delivery_tick (fst p) (snd p) keys (Some url) d) d passes.

Section delivered.
Context `{HN : Nostr, HC : !NostrCrypto, HS : !Serde, HD : Digests, HNC : NoticeClient}.

(** The times at which the passes send. *)
Definition sends_at (passes : list (Z * (nat -> Z * Z))) (t : Z) : Prop := exists p k, p ∈ passes /\ t = fst (snd p k).

Lemma ticks_kept T keys url passes : forall d,
  NoDup (map dn_id (notices d)) -> Forall (fun p => forall k, snd (snd p k) <= T) passes ->
  kept_or_sent (sends_at passes) T keys url d (ticks keys url passes d).
Proof.
  induction passes as [|p passes IH]; intros d Hnd Hc; simpl; [apply kept_refl|].
  apply Forall_cons in Hc as [Hc Hcs]. pose proof (tick_kept T keys url (fst p) (snd p) d Hnd Hc) as Hk.
  eapply kept_trans; [eapply kept_more; [|exact Hk]|eapply kept_more; [|apply IH; [|done]]].
  - intros t [k ->]. exists p, k. split; [by left | done].
  - intros t (q & k & Hq & ->). exists q, k. split; [by right | done].
  - destruct Hk as (_ & _ & _ & H & _). auto.
Qed.

Lemma ticks_all keys url from passes : forall d,
  NoDup (map dn_id (notices d)) -> trim url <> "" -> Forall (fun n => dn_next_attempt_at n <= from) (notices d) ->
  (forall t n, from <= t -> n ∈ notices d -> send_notice t keys url n = Ok tt) ->
  Forall (fun p => from <= fst p /\ forall k, from <= fst (snd p k)) passes ->
  (length (notices d) <= DELIVERY_BATCH_SIZE * length passes)%nat ->
  notices (ticks keys url passes d) = [].
Proof.
  induction passes as [|p passes IH]; intros d Hnd Hu Hdue Hs Hp Hlen; simpl.
  - destruct (notices d); [done|]. rewrite Nat.mul_0_r in Hlen. simpl in Hlen. lia.
  - apply Forall_cons in Hp as [[Hnow Hclock] Hp].
    set (old := order_oldest dn_deleted_at (notices d)). assert (Hold : old ≡ₚ notices d) by apply order_oldest_perm.
    pose proof (tick_all keys url (fst p) (snd p) d Hnd Hu) as Hall. fold old in Hall.
    ospecialize (Hall _ _).
    { eapply Forall_impl; [exact Hdue|]. simpl. lia. }
    { intros k n. by apply Hs. }
    set (d' := delivery_tick _ _ _ _ _) in *.
    assert (Hsub : notices d' ⊆ notices d).
    { intros n Hn. rewrite Hall in Hn. rewrite <- Hold, <- (take_drop DELIVERY_BATCH_SIZE old). set_solver. }
    apply (IH d'); [|done| | |done|].
    + rewrite Hall. rewrite <- Hold, <- (take_drop DELIVERY_BATCH_SIZE old), map_app in Hnd.
      by apply NoDup_app in Hnd as (_ & _ & ?).
    + rewrite Forall_forall in *. auto.
    + auto.
    + rewrite Hall, length_drop, Hold. rewrite length_cons, Nat.mul_succ_r in Hlen. lia.
Qed.

(** [C24] No deletion notice is lost, and all are delivered.  Whatever the server
    answers in the passes until a time T, each notice is still in the table, with
    the key and the time it was written with, unless the server accepted it in one
    of these passes, at the time it was sent; and once the server accepts what it is
    sent from an hour after T, the table is empty after as many passes as it takes
    at fifty notices each. *)
Theorem deletion_notices_delivered T keys url earlier later d :
  NoDup (map dn_id (notices d)) ->
  Forall (fun n => dn_next_attempt_at n <= T + 3600) (notices d) ->
  trim url <> "" ->
  Forall (fun p => forall k, fst (snd p k) <= T /\ snd (snd p k) <= T) earlier ->
  Forall (fun p => T + 3600 <= fst p /\ forall k, T + 3600 <= fst (snd p k)) later ->
  (forall t n, T + 3600 <= t -> n ∈ notices d -> send_notice t keys url n = Ok tt) ->
  (length (notices d) <= DELIVERY_BATCH_SIZE * length later)%nat ->
  (forall n, n ∈ notices d ->
     (exists n', n' ∈ notices (ticks keys url earlier d) /\ same_notice n n') \/
     (exists t, sends_at earlier t /\ t <= T /\ send_notice t keys url n = Ok tt)) /\
  notices (ticks keys url later (ticks keys url earlier d)) = [].
Proof.
  intros Hnd Hdue Hu He Hl Hs Hlen.
  destruct (ticks_kept T keys url earlier d Hnd) as (Hk & Hback & Hle & Hnd' & Hdue').
  { eapply Forall_impl; [exact He|]. intros p Hp k. apply Hp. }
  split.
  - intros n Hn. destruct (Hk n Hn) as [|(t & Hat & Ht)]; [by left|]. right. exists t. split; [done|]. split; [|done].
    destruct Hat as (p & k & Hp & ->). rewrite Forall_forall in He. by apply He.
  - apply (ticks_all keys url (T + 3600)); auto; [|lia].
    intros t n Ht Hn. destruct (Hback n Hn) as (m & Hm & Hsame). rewrite <- (send_same _ _ _ _ _ Hsame). auto.
Qed.
End delivered.

(** A server that is down until 5000, and three notices, one of them new. *)
Module NoticeSample.
#[local] Instance late_server : NoticeClient := {
  to_rfc3339 t := print_Z t; base64_encode s := s;
  http_post t _ _ _ := if t <? 5000 then Err "connection refused" else Ok 200;
}.
Definition notice (id attempts next : Z) : deletion_notice := {|
  dn_id := id; dn_tenant_id := 2; dn_pubkey := "customer"; dn_deleted_at := id * 10; dn_attempts := attempts;
  dn_next_attempt_at := next |}.
Definition db : Db := set_deletion_notices {| rows := [notice 1 3 400; notice 2 0 20; notice 3 9 1200]; next_id := 4 |} empty_db.
Definition every_minute (n : nat) : list (Z * (nat -> Z * Z)) := map (fun i => (1000 + 60 * Z.of_nat i, fun _ => (1000 + 60 * Z.of_nat i, 1010 + 60 * Z.of_nat i))) (seq 0 n).

Lemma deletion_notices_delivered_witness :
  map dn_attempts (notices (ticks "server" "https://synvya.example" (every_minute 3) db)) = [4; 2; 9] /\
  notices (ticks "server" "https://synvya.example" [(5000, fun _ => (5000, 5001))]
             (ticks "server" "https://synvya.example" (every_minute 3) db)) = [].
Proof.
  split; [vm_compute; reflexivity|].
  apply (deletion_notices_delivered (HN := toy_nostr) 1400 "server" "https://synvya.example" (every_minute 3) [(5000, fun _ => (5000, 5001))] db).
  - apply (bool_decide_unpack _). vm_compute. exact I.
  - repeat constructor; simpl; lia.
  - vm_compute. discriminate.
  - repeat constructor; simpl; lia.
  - repeat constructor; simpl; lia.
  - intros t n Ht Hn. unfold send_notice, nip98_header. simpl. rewrite (proj2 (Z.ltb_ge t 5000)) by lia. reflexivity.
  - vm_compute. lia.
Defined.
End NoticeSample.
