(* ===== verification/Customers.v ===== *)
(** * Customer accounts

    api/src/api/http/magic_link.rs: the customers of a merchant have no password.
    They sign in with a link sent by email, which also lets the merchant's app act
    for them within the commerce policy of that merchant; an account is deleted
    with a link of its own.  The task a request spawns is the handler's second
    result and runs on its own.  The url crate's editing of URLs, the reading of
    hexadecimal keys and the Debug text of errors are parameters; tokens and keys
    that are drawn are arguments, and so is whether the mail was accepted. *)
From S2P Require Import Prelude RustStr External Instances Database Samples Tokens Permissions Policies AuthTypes Ucan HttpRpc OAuthRepo Users OAuth WorkQueue Queues RateLimit Tenant Nip98 Accounts AccountKeys CustomerRepo.

(** ** Parameters *)
Class UrlPages := {
  page : Type;
  page_parse : string -> option page;
  page_scheme : page -> string;
  page_username : page -> string;
  page_password : page -> option string;
  (** a tuple origin by its serialization; an opaque one, which equals no other,
      is [None] *)
  page_origin : page -> option string;
  (** [set_fragment(None)], [query_pairs_mut().append_pair(..)], [to_string] *)
  page_without_fragment : page -> page;
  page_append_pair : string -> string -> page -> page;
  page_str : page -> string;
}.
Class KeyHex `{Nostr} := { sk_from_hex : string -> result SecretKey string }.
Class OAuthDebug := { oauth_debug : OAuthError -> string }.

(** [origin().ascii_serialization()] *)
Definition origin_ascii `{UrlPages} (p : page) : string := default "null" (page_origin p).

(** ** Constants *)
Definition MAGIC_LINK_EXPIRY_MINUTES : Z := 15.
Definition EMAIL_WINDOW_SECONDS : Z := 60.
Definition EMAIL_HOURLY_LIMIT : Z := 5.
Definition IP_HOURLY_LIMIT : Z := 20.
Definition MAX_EMAIL_LENGTH : Z := 255.
Definition COMMERCE_SCOPE : string := "policy:commerce_envelope".
Definition DELETE_SESSION_SECONDS : Z := 600.
Definition INVALID_LINK : string := "invalid_or_expired_link".

(** ** Requests and responses *)
Record MagicLinkRequest : Type := { mq_email : option string; mq_app_url : string; mq_purpose : option string }.
Record VerifyMagicLinkRequest : Type := {
  vq_token : string; vq_client_id : option string; vq_redirect_uri : option string; vq_scope : option string;
  vq_merchant_pubkey : option string; vq_local_key : option string;
}.
Record VerifyMagicLinkResponse : Type := {
  vr_success : bool; vr_session_token : string; vr_expires_in : Z; vr_bunker_url : option string;
}.
Record CustomerApp : Type := { app_origin : string; app_merchant_name : option string; app_granted_at : Z }.

(** A handler of this file answers 404 on the host of another tenant. *)
Inductive customer_reply (A : Type) : Type := NoSuchRoute | Answer (a : A).
Arguments NoSuchRoute {A}.
Arguments Answer {A} a.

(** [char::is_control]: C0, DEL and C1 *)
Definition is_control (ch : string) : bool :=
  match bytes_of ch with
  | [b] => (b <? 32) || (b =? 127)
  | [a; b] => (a =? 194) && (128 <=? b) && (b <? 160)
  | _ => false
  end.

Section customers.
Context `{HN : Nostr, HC : !NostrCrypto, HS : !Serde, HX : !Secrets, HB : Bcrypt, HD : Digests, HE : !Encodings,
          HV : !HttpEvents, HU : UcanLib, HM : !UcanMint, HL : UrlLib, HUni : Unicode, HI : Ipv6, HCh : Channel,
          HLS : LoginSerde, HBe : !Bech32, HPg : UrlPages, HK : !KeyHex, HDb : OAuthDebug}.

Notation AcM A := (SE account_state account_abort A).

Definition normalize_email (email : string) : option string :=
  let email := to_lowercase (trim email) in
  match split_once "@" email with
  | None => None
  | Some (local, domain) =>
      let well_formed :=
        (len email <=? MAX_EMAIL_LENGTH)
        && negb (bool_decide (local = ""))
        && negb (contains_char "@" domain)
        && contains_char "." domain
        && negb (starts_with "." domain)
        && negb (ends_with "." domain)
        && negb (existsb (fun c => is_whitespace c || is_control c) (chars email)) in
      if well_formed then Some email else None
  end.

Definition allowed_app_url (tenant_id : Z) (app_url : string) (d : Db) : option (page * string) :=
  url ← page_parse (trim app_url);
  if negb (bool_decide (page_scheme url = "http") || bool_decide (page_scheme url = "https"))
     || negb (bool_decide (page_username url = "")) || negb (is_null (page_password url))
  then None
  else (fun merchant_name => (url, merchant_name)) <$> find_merchant_name tenant_id (origin_ascii url) d.

Definition magic_link (app_url : page) (token : string) : string :=
  page_str (page_append_pair "token" token (page_without_fragment app_url)).

(** ** Sending a link *)
Record LinkRequest : Type := {
  lk_tenant_id : Z; lk_email : string; lk_app_url : page; lk_merchant_name : string; lk_purpose : string;
  lk_request_ip : option string;
}.

Definition limit_on_redis (f : redis_store -> redis_store * bool) : AcM bool := fun s =>
  let '(r, allowed) := f (ac_redis s) in (set_ac_redis r s, Ok allowed).

Definition store_link (now : Z) (token : string) (request : LinkRequest) : AcM bool :=
  try_repo (fun d =>
    let '(t, r) := magic_create now (lk_tenant_id request) (lk_email request) token (lk_purpose request)
                     (page_str (lk_app_url request)) (now + MAGIC_LINK_EXPIRY_MINUTES * 60) (lk_request_ip request)
                     (db_magic_link_tokens d) in
    (set_magic_link_tokens t d, r)).

Definition ip_key (request : LinkRequest) (ip : string) : string :=
  "magic_link:ip:" +:+ print_Z (lk_tenant_id request) +:+ ":" +:+ ip.
Definition window_key (request : LinkRequest) : string :=
  "magic_link:email:" +:+ print_Z (lk_tenant_id request) +:+ ":" +:+ lk_purpose request +:+ ":"
  +:+ email_key (lk_email request).

Definition limit_ip (now : Z) (redis : option redis_link) (request : LinkRequest) : AcM bool :=
  match lk_request_ip request with
  | Some ip => limit_on_redis (under_limit now redis (ip_key request ip) IP_HOURLY_LIMIT HOUR_SECONDS)
  | None => se_ret true
  end.

(** One task, run to its end: in the server the count and the INSERT are separate
    statements, between which another task may run. *)
Definition send_link (now : Z) (redis : option redis_link) (accepted : bool) (token : string) (request : LinkRequest)
  : AcM bool :=
  let! under := limit_ip now redis request in
  if negb under then se_ret false
  else
    let! count := read_db (fun d => magic_count_recent (lk_tenant_id request) (lk_email request) (now - 3600)
                                      (db_magic_link_tokens d)) in
    if EMAIL_HOURLY_LIMIT <=? Z.of_nat count then se_ret false
    else
      let! first := limit_on_redis (once_per_window now redis (window_key request) EMAIL_WINDOW_SECONDS) in
      if negb first then se_ret false
      else
        let! stored := store_link now token request in
        if negb stored then se_ret false
        else
          let link := magic_link (lk_app_url request) token in
          let mail := if bool_decide (lk_purpose request = PURPOSE_DELETE_ACCOUNT)
                      then DeleteAccountMail (lk_email request) link (lk_merchant_name request)
                      else MagicLinkMail (lk_email request) link (lk_merchant_name request) in
          if accepted then
            let! _ := se_modify (fun s => {| ac_oauth := ac_oauth s; ac_redis := ac_redis s; ac_jobs := ac_jobs s;
                                             ac_mail := ac_mail s ++ [mail] |}) in
            se_ret true
          else se_ret false.

(** The spawned task: nothing without the email service. *)
Definition link_task (now : Z) (cfg : account_config) (accepted : bool) (token : string) (request : LinkRequest)
  : AcM unit :=
  if acf_email_service cfg then
    let! _ := send_link now (ae_redis (acf_auth cfg)) accepted token request in se_ret tt
  else se_ret tt.

(** ** Who is signed in *)
Definition signed_in_customer (now : Z) (cfg : account_config) (q : http_request) (tenant_id : Z)
  : result string AccountError :=
  let? auth_header := ok_or (header_text "authorization" q) AcE_MissingToken in
  let? t := map_err (fun _ => AcE_InvalidToken)
              (validate_ucan_token now (ae_server_nsec (acf_auth cfg)) auth_header tenant_id) in
  Ok (vt_user_pubkey t).

Definition signed_in_customer_email (now : Z) (cfg : account_config) (q : http_request) (tenant_id : Z)
  : AcM string :=
  let! pubkey := lift_account (signed_in_customer now cfg q tenant_id) in
  let! email := read_db (get_email pubkey tenant_id) in
  lift_account (map_err (fun _ => AcE_InvalidToken) email).

(** ** POST /auth/magic-link: the answer, and the task that is spawned. *)
Definition request_magic_link (now : Z) (cfg : account_config) (tenant : Tenant) (q : http_request)
    (req : MagicLinkRequest) : AcM (customer_reply LinkRequest) :=
  if negb (is_customer_tenant (ae_tenant (acf_auth cfg)) tenant) then se_ret NoSuchRoute
  else
    let tenant_id := tn_id tenant in
    let purpose := default PURPOSE_SIGN_IN (mq_purpose req) in
    let! found :=
      (if bool_decide (purpose = PURPOSE_SIGN_IN) then se_ret (e ← mq_email req; normalize_email e)
       else if bool_decide (purpose = PURPOSE_DELETE_ACCOUNT) then
         let! email := signed_in_customer_email now cfg q tenant_id in se_ret (Some email)
       else failed (AcE_BadRequest "Invalid purpose")) in
    let! email := lift_account (ok_or found (AcE_BadRequest "Invalid email address")) in
    let! allowed := read_db (allowed_app_url tenant_id (mq_app_url req)) in
    let! '(app_url, merchant_name) := lift_account (ok_or allowed (AcE_BadRequest "app_url is not allowed")) in
    se_ret (Answer {| lk_tenant_id := tenant_id; lk_email := email; lk_app_url := app_url;
                      lk_merchant_name := merchant_name; lk_purpose := purpose;
                      lk_request_ip := client_ip (header_text "x-forwarded-for" q) |}).

(** ** What an app asks for *)
Record CommerceGrant : Type := {
  cg_client_id : string; cg_redirect_uri : string; cg_merchant_pubkey : option PublicKey;
}.

Definition bad_request {A} (msg : string) : result A AccountError := Err (AcE_BadRequest msg).

Definition parse_commerce_grant (req : VerifyMagicLinkRequest) : result (option CommerceGrant) AccountError :=
  match vq_client_id req, vq_redirect_uri req, vq_scope req, vq_merchant_pubkey req with
  | None, None, None, None => Ok None
  | Some client_id, Some redirect_uri, Some scope, _ =>
      if bool_decide (trim client_id = "") then bad_request "Invalid client_id"
      else if negb (bool_decide (scope = COMMERCE_SCOPE)) then bad_request "Invalid scope"
      else
        let? merchant_pubkey :=
          match vq_merchant_pubkey req with
          | None => Ok None
          | Some m => let? pk := map_err (fun _ => AcE_BadRequest "Invalid merchant_pubkey") (pk_from_hex m) in Ok (Some pk)
          end in
        Ok (Some {| cg_client_id := client_id; cg_redirect_uri := redirect_uri; cg_merchant_pubkey := merchant_pubkey |})
  | _, _, _, _ => bad_request "client_id, redirect_uri and scope must be sent together"
  end.

Definition same_origin (a b : string) : bool :=
  match page_parse a, page_parse b with
  | Some a, Some b =>
      match page_origin a, page_origin b with Some o, Some o' => bool_decide (o = o') | _, _ => false end
  | _, _ => false
  end.

Definition merchant_for_grant (tenant_id : Z) (link_app_url : string) (grant : CommerceGrant) (d : Db)
  : result string AccountError :=
  if negb (same_origin (cg_redirect_uri grant) link_app_url) then bad_request "redirect_uri does not match the link"
  else
    let? url := ok_or (page_parse link_app_url) (AcE_BadRequest INVALID_LINK) in
    let? merchant := ok_or (find_merchant_pubkey tenant_id (origin_ascii url) d) (AcE_BadRequest "This app is not allowed") in
    match cg_merchant_pubkey grant with
    | Some requested =>
        if negb (bool_decide (pk_to_hex requested = merchant)) then bad_request "merchant_pubkey does not match this app"
        else Ok merchant
    | None => Ok merchant
    end.

(** ** The account of a link *)
Definition find_or_create_customer (now tenant_id : Z) (email : string) (local_key : option SecretKey)
    (generated : SecretKey) : AcM string :=
  let! found := read_db (find_pubkey_by_email email tenant_id) in
  match found with
  | Some pubkey => se_ret pubkey
  | None =>
      let keys := default generated local_key in
      let! encrypted_secret := lift_account (map_err (fun e => AcE_Internal ("Failed to encrypt key: " +:+ e))
                                               (km_encrypt (sk_to_bytes keys))) in
      fun s =>
        let '(d, r) := find_or_create_passwordless now (pk_to_hex (pk_of keys)) tenant_id email encrypted_secret (ac_db s) in
        (set_ac_db d s, map_err (fun e => Failed (match e with
                                                  | RE_Duplicate => AcE_BadRequest "Invalid local_key"
                                                  | other => account_error_of_repository other
                                                  end)) r)
  end.

Definition customer_key (pubkey_hex : string) : AcM PublicKey :=
  lift_account (map_err (fun e => AcE_Internal ("Invalid pubkey: " +:+ e)) (pk_from_hex pubkey_hex)).

Definition generate_server_signed_ucan_with_lifetime (now : Z) (cfg : oauth_config) (user_pubkey : PublicKey) (tenant_id : Z)
    (email redirect_origin : string) (bunker_pubkey : option string) (is_first_party : bool)
    (admin_role : option string) (lifetime_seconds : Z) : result string string :=
  ucan_mint now (cfg_server_keys cfg) (nostr_pubkey_to_did user_pubkey) lifetime_seconds
    (ucan_facts_of tenant_id email redirect_origin bunker_pubkey is_first_party admin_role).

Definition delete_session (now : Z) (cfg : account_config) (tenant_id : Z) (email app_url : string)
  : AcM VerifyMagicLinkResponse :=
  let! found := read_db (find_pubkey_by_email email tenant_id) in
  let! pubkey_hex := lift_account (ok_or found (AcE_BadRequest INVALID_LINK)) in
  let! pubkey := customer_key pubkey_hex in
  let! session_token := lift_account (map_err AcE_Internal
    (generate_server_signed_ucan_with_lifetime now (acf_oauth cfg) pubkey tenant_id email app_url None true None
       DELETE_SESSION_SECONDS)) in
  se_ret {| vr_success := true; vr_session_token := session_token; vr_expires_in := DELETE_SESSION_SECONDS;
            vr_bunker_url := None |}.

(** A call of the token endpoint's code: its errors become internal ones. *)
Definition on_oauth {A} (c : SE oauth_state oauth_abort A) : AcM A := fun s =>
  let '(o, r) := c (ac_oauth s) in
  (set_ac_oauth o s,
   map_err (fun e => match e with
                     | Returned e => Failed (AcE_Internal ("Failed to authorize app: " +:+ oauth_debug e))
                     | Panicked => AccountPanic
                     end) r).

(** What a verification draws: the key of a new account and what the
    authorization needs. *)
Record verify_draw : Type := { vd_key : SecretKey; vd_oauth : draw }.

Definition grant_authorization (now : Z) (cfg : account_config) (dr : draw) (tenant_id : Z) (pubkey_hex email : string)
    (grant : CommerceGrant) (merchant : string) : AcM (string * string) :=
  let! policy_id := on_repo (fun d => find_or_create_commerce_envelope now d merchant) in
  let! created := on_oauth (create_oauth_authorization now (acf_oauth cfg) dr {|
    ca_tenant_id := tenant_id; ca_user_pubkey := pubkey_hex; ca_email := email; ca_client_id := cg_client_id grant;
    ca_scope := COMMERCE_SCOPE; ca_redirect_uri := cg_redirect_uri grant; ca_nsec_from_verifier := None;
    ca_previous_auth_id := None; ca_is_headless := false; ca_policy_id := Some policy_id |}) in
  let! session_token := lift_account (ok_or (tr_access_token created) (AcE_Internal "Missing access token")) in
  se_ret (session_token, tr_bunker_url created).

Definition consume_link (now : Z) (token : string) (tenant_id : Z) : AcM (option ConsumedMagicLink) := fun s =>
  let '(t, r) := magic_consume now token tenant_id (db_magic_link_tokens (ac_db s)) in
  (set_ac_db (set_magic_link_tokens t (ac_db s)) s, Ok r).

(** What follows a consumed sign-in link. *)
Definition sign_in_with_link (now : Z) (cfg : account_config) (dr : verify_draw) (tenant_id : Z)
    (local_key : option SecretKey) (grant : option CommerceGrant) (link : ConsumedMagicLink)
  : AcM VerifyMagicLinkResponse :=
  let! granted :=
    (match grant with
     | Some grant =>
         let! merchant := read_db (merchant_for_grant tenant_id (cml_app_origin link) grant) in
         let! merchant := lift_account merchant in
         se_ret (Some (grant, merchant))
     | None => se_ret None
     end) in
  let! pubkey_hex := find_or_create_customer now tenant_id (cml_email link) local_key (vd_key dr) in
  let! '(session_token, bunker_url) :=
    (match granted with
     | Some (grant, merchant) =>
         let! '(session_token, bunker_url) :=
           grant_authorization now cfg (vd_oauth dr) tenant_id pubkey_hex (cml_email link) grant merchant in
         se_ret (session_token, Some bunker_url)
     | None =>
         let! pubkey := customer_key pubkey_hex in
         let! session_token := lift_account (map_err AcE_Internal
           (generate_server_signed_ucan now (acf_oauth cfg) pubkey tenant_id (cml_email link) (cml_app_origin link)
              None false None)) in
         se_ret (session_token, None)
     end) in
  se_ret {| vr_success := true; vr_session_token := session_token;
            vr_expires_in := token_expiry_seconds (acf_oauth cfg); vr_bunker_url := bunker_url |}.

(** ** POST /auth/magic-link/verify *)
Definition parse_local_key (local_key : option string) : result (option SecretKey) AccountError :=
  match local_key with
  | None => Ok None
  | Some key => let? sk := map_err (fun _ => AcE_BadRequest "Invalid local_key") (sk_from_hex key) in Ok (Some sk)
  end.

Definition verify_magic_link (now : Z) (cfg : account_config) (dr : verify_draw) (tenant : Tenant)
    (req : VerifyMagicLinkRequest) : AcM (customer_reply VerifyMagicLinkResponse) :=
  if negb (is_customer_tenant (ae_tenant (acf_auth cfg)) tenant) then se_ret NoSuchRoute
  else
    let tenant_id := tn_id tenant in
    let! local_key := lift_account (parse_local_key (vq_local_key req)) in
    let! grant := lift_account (parse_commerce_grant req) in
    let! consumed := consume_link now (vq_token req) tenant_id in
    let! link := lift_account (ok_or consumed (AcE_BadRequest INVALID_LINK)) in
    let! response :=
      (if bool_decide (cml_purpose link = PURPOSE_DELETE_ACCOUNT)
       then delete_session now cfg tenant_id (cml_email link) (cml_app_origin link)
       else sign_in_with_link now cfg dr tenant_id local_key grant link) in
    se_ret (Answer response).

(** ** DELETE /customer/account *)
Definition delete_customer_account_endpoint (now : Z) (cfg : account_config) (tenant : Tenant) (q : http_request)
  : AcM (customer_reply SimpleResponse) :=
  if negb (is_customer_tenant (ae_tenant (acf_auth cfg)) tenant) then se_ret NoSuchRoute
  else let! r := delete_account now cfg tenant q in se_ret (Answer r).

(** ** The apps that act for a customer *)
Definition customer_apps (now : Z) (cfg : account_config) (tenant : Tenant) (q : http_request)
  : AcM (customer_reply (list CustomerApp)) :=
  if negb (is_customer_tenant (ae_tenant (acf_auth cfg)) tenant) then se_ret NoSuchRoute
  else
    let! pubkey := lift_account (signed_in_customer now cfg q (tn_id tenant)) in
    let! apps := read_db (list_customer_apps now pubkey (tn_id tenant)) in
    se_ret (Answer (map (fun '(origin, merchant_name, granted_at) =>
      {| app_origin := origin; app_merchant_name := merchant_name; app_granted_at := granted_at |}) apps)).

Definition stop_authorization (now : Z) (cfg : account_config) (authorization_id : Z) (bunker_pubkey : string) : AcM unit :=
  let! _ := on_repo (fun d => (set_refresh_tokens
              (fst (refresh_revoke_for_authorization now authorization_id (db_refresh_tokens d))) d, Ok tt)) in
  let! _ := change_cache (invalidate_handlers_for_bunker bunker_pubkey) in
  send_to_signer cfg (Remove bunker_pubkey).

Definition revoke_customer_app (now : Z) (cfg : account_config) (tenant : Tenant) (q : http_request) (origin : string)
  : AcM (customer_reply unit) :=
  if negb (is_customer_tenant (ae_tenant (acf_auth cfg)) tenant) then se_ret NoSuchRoute
  else
    let tenant_id := tn_id tenant in
    let! pubkey := lift_account (signed_in_customer now cfg q tenant_id) in
    let! revoked := on_repo (fun d => let '(d', l) := revoke_by_origin now pubkey origin tenant_id d in (d', Ok l)) in
    match revoked with
    | [] => se_ret NoSuchRoute
    | _ =>
        let! _ := foldr (fun '(authorization_id, bunker_pubkey) k =>
                    let! _ := stop_authorization now cfg authorization_id bunker_pubkey in k) (se_ret tt) revoked in
        se_ret (Answer tt)
    end.
End customers.
