(* ===== verification/CustomerLimits.v ===== *)
(** * Sign-in links are limited

    How many rows of links the table holds for one address, whatever happens to
    Redis, when the requests are handled one after the other.  The limit counts rows
    and not mails: deleting a customer account removes the rows of its address, and
    the count starts again ([deletion_resets_limit]). *)
From S2P Require Import Prelude RustStr External Instances Database Samples Tokens Permissions Policies AuthTypes Ucan HttpRpc OAuthRepo Users OAuth WorkQueue Queues RateLimit Tenant Nip98 Accounts AccountKeys OAuthSafety AccountsSafety AccountKeysSafety CustomerRepo Customers.

(** ** What the limit counts *)
Notation stamp := (Z * string * Z)%type.
Definition link_stamp (r : magic_link_row) : stamp := (ml_tenant_id r, ml_email r, ml_created_at r).
Definition stamps (d : Db) : list stamp := map link_stamp (rows (db_magic_link_tokens d)).
(** The rows of an address in the hour that ends at a time. *)
Definition in_hour (tenant_id : Z) (email : string) (t : Z) (x : stamp) : bool :=
  let '(ten, e, created) := x in
  (ten =? tenant_id) && bool_decide (e = email) && (t - 3600 <=? created) && (created <=? t).
Definition links_in_hour (tenant_id : Z) (email : string) (t : Z) (d : Db) : nat :=
  length (List.filter (in_hour tenant_id email t) (stamps d)).

(** No links but the ones there were. *)
Definition no_new_links (d d' : Db) : Prop := sublist (stamps d') (stamps d).
#[export] Instance no_new_links_preorder : PreOrder no_new_links.
Proof. split; [intros d | intros d1 d2 d3]; unfold no_new_links; [done|]. intros H1 H2. by etrans. Qed.

Lemma sublist_filter {A} (p : A -> bool) (l k : list A) : sublist l k -> (length (List.filter p l) <= length (List.filter p k))%nat.
Proof. induction 1; simpl; repeat case_if; simpl; lia. Qed.

Lemma same_links d d' : db_magic_link_tokens d' = db_magic_link_tokens d -> no_new_links d d'.
Proof. unfold no_new_links, stamps. by intros ->. Qed.
Lemma filter_sublist {A} (p : A -> bool) l : sublist (List.filter p l) l.
Proof. induction l as [|a l IH]; simpl; [done|]. case_if; by constructor. Qed.
Lemma sublist_map {A B} (f : A -> B) l k : sublist l k -> sublist (map f l) (map f k).
Proof. induction 1; simpl; by constructor. Qed.
Lemma deleted_links p d t :
  db_magic_link_tokens d = with_rows (delete_where p) t -> forall d0, db_magic_link_tokens d0 = t -> no_new_links d0 d.
Proof. intros E d0 E0. unfold no_new_links, stamps. rewrite E, E0. apply sublist_map, filter_sublist. Qed.

Section limits.
Context `{HN : Nostr, HC : !NostrCrypto, HS : !Serde, HX : !Secrets, HB : Bcrypt, HD : Digests, HE : !Encodings,
          HV : !HttpEvents, HU : UcanLib, HM : !UcanMint, HL : UrlLib, HUni : Unicode, HI : Ipv6, HCh : Channel,
          HLS : LoginSerde, HBe : !Bech32, HPg : UrlPages, HK : !KeyHex, HDb : OAuthDebug}.

Notation okeeps := (keeps os_db no_new_links).
Notation akeeps := (keeps ac_db no_new_links).

Lemma on_db_links {A} s (f : Db -> Db * result A RepositoryError) :
  no_new_links (os_db s) (fst (f (os_db s))) -> okeeps s (on_db f).
Proof. unfold keeps, on_db. intros H. destruct (f (os_db s)). exact H. Qed.

Lemma create_links now cfg dr p s : okeeps s (create_oauth_authorization now cfg dr p).
Proof.
  unfold create_oauth_authorization, keys_for_authorization, replace_previous, exec_db, send_command. keep;
    try (unfold keeps; by apply same_links); try (by apply keeping_same; [apply _|]; simpl; destruct (cfg_auth_tx cfg)).
  - apply on_db_links, same_links. unfold personal_keys_create. by case_if.
  - apply on_db_links, same_links. unfold oauth_authorization_create. by repeat case_if.
  - apply on_db_links, same_links. unfold refresh_tokens_create, refresh_create. by case_if.
Qed.

Lemma on_repo_links {A} s (f : Db -> Db * result A RepositoryError) :
  no_new_links (ac_db s) (fst (f (ac_db s))) -> akeeps s (on_repo f).
Proof. unfold keeps, on_repo. intros H. destruct (f (ac_db s)). exact H. Qed.

Lemma on_oauth_links {A} s (c : SE oauth_state oauth_abort A) : okeeps (ac_oauth s) c -> akeeps s (on_oauth c).
Proof. unfold keeps, on_oauth. intros H. destruct (c (ac_oauth s)). exact H. Qed.

Lemma commerce_links now d merchant : no_new_links d (fst (find_or_create_commerce_envelope now d merchant)).
Proof.
  apply same_links. unfold find_or_create_commerce_envelope, link_permission. simpl.
  destruct (min_policy_id _); [done|]. by repeat case_if.
Qed.

Lemma passwordless_links now pubkey ten email enc d : no_new_links d (fst (find_or_create_passwordless now pubkey ten email enc d)).
Proof.
  apply same_links. unfold find_or_create_passwordless, atomically, se_bind, se_gets, insert_user_row, insert_user, insert_key_row, personal_keys_create.
  destruct (find_user_by_email _ _ _); simpl; [done|]. by repeat case_if.
Qed.

(** A statement whose error the handler translates itself. *)
Lemma customer_row_links {A} s (f : Db -> Db * result A RepositoryError) (g : RepositoryError -> account_abort) :
  (forall d, no_new_links d (fst (f d))) -> akeeps s (fun s => let '(d, r) := f (ac_db s) in (set_ac_db d s, map_err g r)).
Proof. unfold keeps. intros H. specialize (H (ac_db s)). destruct (f (ac_db s)). exact H. Qed.

Lemma consume_links now token ten s : akeeps s (consume_link now token ten).
Proof.
  unfold keeps, consume_link, no_new_links, stamps, magic_consume. simpl. unfold update_where. rewrite map_map.
  erewrite map_ext; [done|]. intros r. by destruct (magic_live _ _ _ _).
Qed.

Lemma verify_links now cfg dr tenant req s : akeeps s (verify_magic_link now cfg dr tenant req).
Proof.
  unfold verify_magic_link, sign_in_with_link, delete_session, find_or_create_customer, grant_authorization, customer_key, read_db, lift_account. keep.
  all: try (apply keeping_same; [apply _ | done]).
  - apply consume_links.
  - apply customer_row_links. intros d. apply passwordless_links.
  - apply on_repo_links, commerce_links.
  - apply on_oauth_links, create_links.
Qed.

Notation dkeeps := (keeps (fun d : Db => d) no_new_links).
Lemma atomic_links {A} d (c : DbM A) : dkeeps d c -> dkeeps d (atomically c).
Proof. unfold keeps, atomically. destruct (c d) as [d' [a|e]]; [done|]. intros _. simpl. reflexivity. Qed.

Lemma delete_in_links pubkey ten d : dkeeps d (delete_account_in pubkey ten).
Proof.
  unfold delete_account_in. keep. all: try (unfold keeps; by apply same_links).
  unfold keeps. apply same_links. unfold delete_users. by repeat case_if.
Qed.

Lemma send_links cfg c s : akeeps s (send_to_signer cfg c).
Proof. apply keeping_same; [apply _|]. unfold send_to_signer, se_modify. simpl. by destruct (cfg_auth_tx _). Qed.
Lemma removes_links cfg l s : akeeps s (foldr (fun b k => let! _ := send_to_signer cfg (Remove b) in k) (se_ret tt) l).
Proof. revert s. induction l as [|b l IH]; intros s; simpl; keep; [apply send_links|apply IH]. Qed.

Lemma delete_endpoint_links now cfg tenant q s : akeeps s (delete_customer_account_endpoint now cfg tenant q).
Proof.
  unfold delete_customer_account_endpoint, delete_account, unload_bunkers, lift_account, change_cache, failed. keep.
  - apply customer_row_links. intros d. case_if.
    + apply atomic_links. keep; try (unfold keeps; by apply same_links); [|apply delete_in_links].
      unfold keeps, no_new_links, stamps. simpl. apply sublist_map, filter_sublist.
    + apply atomic_links, delete_in_links.
  - unfold keeps. by apply same_links.
  - apply removes_links.
Qed.
(** ** The operations on customer accounts, one after the other

    In the server the count of the rows and the INSERT of a link are separate
    statements of a spawned task; without Redis two tasks can both count before
    either inserts.  Here each request runs to its end. *)
Inductive link_step : account_state -> account_state -> Prop :=
| LinkSent now redis accepted token request s s' r :
    send_link now redis accepted token request s = (s', r) -> link_step s s'
| LinkVerified now cfg dr tenant req s s' r :
    verify_magic_link now cfg dr tenant req s = (s', r) -> link_step s s'
| CustomerDeleted now cfg tenant q s s' r :
    delete_customer_account_endpoint now cfg tenant q s = (s', r) -> link_step s s'
| LinksPurged now s :
    link_step s (set_ac_db (set_magic_link_tokens (fst (magic_purge_expired now (db_magic_link_tokens (ac_db s)))) (ac_db s)) s).

Definition hourly_limit_holds (d : Db) : Prop :=
  forall tenant_id email t, (links_in_hour tenant_id email t d <= 5)%nat.

Lemma no_new_links_limit d d' : no_new_links d d' -> hourly_limit_holds d -> hourly_limit_holds d'.
Proof. intros Hs H ten email t. etransitivity; [by apply sublist_filter|]. apply H. Qed.

Lemma filter_map_length {A B} (f : A -> B) (p : B -> bool) l :
  length (List.filter p (map f l)) = length (List.filter (fun a => p (f a)) l).
Proof. induction l as [|a l IH]; simpl; [done|]. case_if; simpl; lia. Qed.

Lemma filter_mono {A} (p q : A -> bool) l :
  (forall a, p a = true -> q a = true) -> (length (List.filter p l) <= length (List.filter q l))%nat.
Proof.
  intros H. induction l as [|a l IH]; simpl; [done|]. specialize (H a).
  destruct (p a), (q a); simpl; first [lia | by discriminate H].
Qed.

Lemma recent_in_hour ten email now t d :
  now <= t -> (links_in_hour ten email t d <= magic_count_recent ten email (now - 3600) (db_magic_link_tokens d))%nat.
Proof.
  intros Ht. unfold links_in_hour, stamps, magic_count_recent. rewrite filter_map_length.
  apply filter_mono. intros r. unfold link_stamp, in_hour. rewrite !andb_true_iff. intros [[[-> ->] H1] H2].
  split; [done|]. lia.
Qed.

Lemma new_link_limit ten email now d d' :
  stamps d' = stamps d ++ [(ten, email, now)] ->
  (magic_count_recent ten email (now - 3600) (db_magic_link_tokens d) < 5)%nat ->
  hourly_limit_holds d -> hourly_limit_holds d'.
Proof.
  intros Es Hc H ten' email' t. unfold links_in_hour. rewrite Es, List.filter_app, length_app. simpl.
  specialize (H ten' email' t). unfold links_in_hour in H. case_if; simpl; [|lia].
  bool_to_prop. subst. pose proof (recent_in_hour ten' email' now t d ltac:(lia)) as Hr. unfold links_in_hour in Hr. lia.
Qed.

Lemma send_link_stamps now redis accepted token request s :
  let s' := fst (send_link now redis accepted token request s) in
  stamps (ac_db s') = stamps (ac_db s) \/
  stamps (ac_db s') = stamps (ac_db s) ++ [(lk_tenant_id request, lk_email request, now)] /\
  (magic_count_recent (lk_tenant_id request) (lk_email request) (now - 3600) (db_magic_link_tokens (ac_db s)) < 5)%nat.
Proof.
  assert (Hlim : forall f x y r, limit_on_redis f x = (y, r) -> ac_db y = ac_db x).
  { intros f x y b. unfold limit_on_redis. destruct (f (ac_redis x)). by intros [= <- _]. }
  cbn zeta. unfold send_link, se_bind. destruct (limit_ip now redis request s) as [s1 r] eqn:E1.
  assert (D1 : ac_db s1 = ac_db s).
  { unfold limit_ip in E1. destruct (lk_request_ip request); [by apply Hlim in E1 | by injection E1 as <-]. }
  destruct r as [under|e]; [|left; simpl; by rewrite D1].
  rewrite <- D1. destruct under; [|by left]. simpl. unfold EMAIL_HOURLY_LIMIT.
  destruct (Z.leb_spec 5 (Z.of_nat (magic_count_recent (lk_tenant_id request) (lk_email request) (now - 3600) (db_magic_link_tokens (ac_db s1))))); [by left|].
  destruct (limit_on_redis _ s1) as [s2 r] eqn:E2. apply Hlim in E2. rewrite <- E2 in *.
  destruct r as [first|e]; [|by left]. destruct first; [|by left]. simpl.
  unfold store_link, try_repo, magic_create. simpl. repeat case_if; simpl; try by left.
  all: right; split; [|lia]; unfold stamps; simpl; by rewrite map_app.
Qed.
Lemma link_step_limit s s' : link_step s s' -> hourly_limit_holds (ac_db s) -> hourly_limit_holds (ac_db s').
Proof.
  destruct 1 as [now redis acc tok req s s' r E | now cfg dr ten req s s' r E | now cfg ten q s s' r E | now s].
  - destruct (send_link_stamps now redis acc tok req s) as [Hs | [Hs Hc]]; rewrite E in Hs; simpl in Hs.
    + apply no_new_links_limit. unfold no_new_links. by rewrite Hs.
    + by apply (new_link_limit _ _ now _ _ Hs Hc).
  - apply no_new_links_limit. pose proof (verify_links now cfg dr ten req s) as H. unfold keeps in H. by rewrite E in H.
  - apply no_new_links_limit. pose proof (delete_endpoint_links now cfg ten q s) as H. unfold keeps in H. by rewrite E in H.
  - apply no_new_links_limit. unfold no_new_links, stamps. simpl. apply sublist_map, filter_sublist.
Qed.

(** The table never holds more than five links of an address of a tenant created
    within an hour, whatever the requests, their times and their addresses, and
    also while Redis is down, as long as the requests are handled one after the
    other. *)
Theorem sign_in_links_limited s s' tenant_id email t :
  hourly_limit_holds (ac_db s) -> steps link_step s s' -> (links_in_hour tenant_id email t (ac_db s') <= 5)%nat.
Proof.
  intros H0 Hs. assert (hourly_limit_holds (ac_db s')) as H; [|apply H].
  refine (steps_invariant _ (fun s => hourly_limit_holds (ac_db s)) _ s s' Hs H0). intros s1 s2 H1 Hst.
  by apply (link_step_limit s1 s2).
Qed.

(** Deleting the customer account of an address forgets its links: the count that
    limits them starts again at none. *)
Theorem deletion_resets_limit now pubkey ten d d' r u email since :
  find_user pubkey ten d = Some u -> us_email u = Some email -> delete_customer_account now pubkey ten d = (d', Ok r) ->
  magic_count_recent ten email since (db_magic_link_tokens d') = 0%nat.
Proof.
  intros Hu He Hdel. unfold delete_customer_account, atomically in Hdel.
  match type of Hdel with (match ?c with _ => _ end = _) => destruct c as [d1 [x|e]] eqn:Hc; [|done] end. injection Hdel as -> ->.
  apply se_bind_ok in Hc as (d1 & [] & [= <-] & Hc). apply se_bind_ok in Hc as (d2 & o & Ho & Hc). apply se_gets_ok in Ho as [-> ->].
  apply se_bind_ok in Hc as (d2 & [] & [= <-] & Hc). pose proof (delete_in_links pubkey ten (set_magic_link_tokens (with_rows (delete_where
    (fun r => (ml_tenant_id r =? ten) && bool_decide (Some (ml_email r) = (u ← find_user pubkey ten d; us_email u)))) (db_magic_link_tokens d))
    (set_deletion_notices (fst (insert_row (fun i => {| dn_id := i; dn_tenant_id := ten; dn_pubkey := pubkey; dn_deleted_at := now;
      dn_attempts := 0; dn_next_attempt_at := now |}) (db_deletion_notices d))) d))) as Hlinks.
  unfold keeps in Hlinks. simpl in Hlinks, Hc. unfold find_user in *. simpl in Hc. rewrite Hc in Hlinks. simpl in Hlinks. rewrite Hu in Hlinks.
  simpl in Hlinks. rewrite He in Hlinks. apply Nat.le_0_r. unfold magic_count_recent, no_new_links, stamps in *. simpl in Hlinks.
  apply (sublist_filter (fun x : stamp => let '(t, e, c) := x in (t =? ten) && bool_decide (e = email) && (since <=? c))) in Hlinks.
  rewrite !filter_map_length in Hlinks. etransitivity; [exact Hlinks|]. rewrite filter_nil; [done|].
  intros m Hm. apply delete_where_elem in Hm as [_ Hm]. unfold link_stamp. destruct (ml_tenant_id m =? ten); [|done]. simpl in *.
  apply bool_decide_eq_false in Hm. rewrite bool_decide_false by congruence. done.
Qed.
End limits.

(** ** Witness

    A page is its URL; its origin is what precedes the path. *)
#[export] Instance toy_pages : UrlPages := {
  page := string;
  page_parse s := if starts_with "https://" s then Some s else None;
  page_scheme _ := "https"; page_username _ := ""; page_password _ := None;
  page_origin s := (fun rest => "https://" +:+ match split_once "/" rest with Some (h, _) => h | None => rest end) <$> strip_prefix "https://" s;
  page_without_fragment s := match split_once "#" s with Some (h, _) => h | None => s end;
  page_append_pair k v s := s +:+ "?" +:+ k +:+ "=" +:+ v;
  page_str s := s;
}.
#[export] Instance toy_key_hex : KeyHex := { sk_from_hex s := Ok s }.
#[export] Instance toy_oauth_debug : OAuthDebug := { oauth_debug _ := "OAuthError" }.

Definition ann_link : LinkRequest := {|
  lk_tenant_id := 1; lk_email := "ann@b.c"; lk_app_url := "https://orders.example/track" : page;
  lk_merchant_name := "Shop"; lk_purpose := PURPOSE_SIGN_IN; lk_request_ip := None |}.
(** Requests at given times, without Redis. *)
Definition ann_asks (times : list Z) (s : account_state) : account_state :=
  foldl (fun s now => fst (send_link now None true ("token" +:+ print_Z now) ann_link s)) s times.

Lemma ann_asks_steps times s : steps link_step s (ann_asks times s).
Proof.
  revert s. induction times as [|now times IH]; intros s; simpl; [constructor|]. eapply steps_app; [|apply IH]. apply steps_one.
  destruct (send_link _ _ _ _ _ s) as [s' r] eqn:E. by eapply LinkSent.
Qed.

Definition seven_asked : account_state := ann_asks [0; 600; 1200; 1800; 2400; 3000; 3600] (state_of empty_db).
Lemma sign_in_links_limited_witness :
  links_in_hour 1 "ann@b.c" 3600 (ac_db seven_asked) = 5%nat /\
  (links_in_hour 1 "ann@b.c" 3600 (ac_db seven_asked) <= 5)%nat.
Proof.
  split; [vm_compute; reflexivity|].
  apply (sign_in_links_limited (state_of empty_db)); [|apply ann_asks_steps].
  intros ten email t. vm_compute. lia.
Defined.
