(* ===== verification/CustomersSafety.v ===== *)
(** * Properties of customer accounts

    What an app gets when a customer signs in with a link, which sessions can
    delete an account, and what revoking an app stops. *)
From S2P Require Import Prelude RustStr External Instances Database Samples Tokens Permissions Policies AuthTypes Ucan HttpRpc OAuthRepo Users OAuth WorkQueue Queues RateLimit Tenant Nip98 Accounts AccountKeys OAuthSafety AccountsSafety AccountKeysSafety CustomerRepo Customers CustomerLimits.

(** serde reads back the configuration of a commerce permission. *)
Class CommerceLaws `{Serde} : Prop := {
  commerce_round_trip merchant : json_from_str (json_to_string (commerce_config merchant)) = Ok (commerce_config merchant);
  commerce_reads merchant : de_CommerceEnvelopeConfig (commerce_config merchant) = Ok merchant;
}.

Section customers_safety.
Context `{HN : Nostr, HC : !NostrCrypto, HS : !Serde, HX : !Secrets, HB : Bcrypt, HD : Digests, HE : !Encodings,
          HV : !HttpEvents, HU : UcanLib, HM : !UcanMint, HL : UrlLib, HUni : Unicode, HI : Ipv6, HCh : Channel,
          HLS : LoginSerde, HBe : !Bech32, HPg : UrlPages, HK : !KeyHex, HDb : OAuthDebug}.

(** ** The commerce policies *)

(** A permission that is the commerce permission of a merchant. *)
Definition commerce_of (merchant : string) (p : Permission) : Prop :=
  perm_identifier p = "commerce_envelope" /\ perm_config p = commerce_config merchant.
(** Every policy found for a merchant holds exactly that permission. *)
Definition commerce_policies (d : Db) : Prop :=
  forall merchant p, p ∈ rows (db_policies d) -> is_commerce_policy merchant p = true ->
    exists q, get_permissions d (pol_id p) = Ok [q] /\ commerce_of merchant q.

Lemma min_policy_in l pid : min_policy_id l = Some pid -> exists p, p ∈ l /\ pol_id p = pid.
Proof.
  revert pid. induction l as [|p l IH]; simpl; [done|]. intros pid [= <-].
  destruct (min_policy_id l) as [i|]; [|exists p; split; [by constructor|done]].
  destruct (IH i eq_refl) as (q & Hq & <-). destruct (Z.min_spec (pol_id p) (pol_id q)) as [[_ ->]|[_ ->]];
    [exists p | exists q]; (split; [by constructor|done]).
Qed.

Lemma commerce_name_inj m m' : commerce_policy_name m = commerce_policy_name m' -> m = m'.
Proof. unfold commerce_policy_name. intros E. by injection E. Qed.

Lemma commerce_policy_for `{!CommerceLaws} now d merchant d' pid :
  policies_wf d -> commerce_policies d -> find_or_create_commerce_envelope now d merchant = (d', Ok pid) ->
  (exists q, get_permissions d' pid = Ok [q] /\ commerce_of merchant q) /\ commerce_policies d'.
Proof.
  intros Hwf Hc Hcall. destruct (min_policy_id (List.filter (is_commerce_policy merchant) (rows (db_policies d)))) as [i|] eqn:E.
  - assert (find_or_create_commerce_envelope now d merchant = (d, Ok i)) as H'.
    { unfold find_or_create_commerce_envelope. fold (is_commerce_policy merchant). by rewrite E. }
    rewrite H' in Hcall. injection Hcall as <- <-. split; [|done]. apply min_policy_in in E as (p & Hp & <-).
    apply list_elem_of_In, filter_In in Hp as [Hp Hm]. by apply Hc; [apply list_elem_of_In|].
  - apply min_policy_id_none in E.
    destruct (commerce_envelope_loads now d merchant Hwf (commerce_round_trip merchant) E)
      as (d1 & q & H' & Hpol & Hq & Hid & Hcfg & Hother).
    rewrite H' in Hcall. injection Hcall as <- <-. split; [by exists q|].
    intros m p Hp Hm. rewrite Hpol in Hp. apply elem_of_app in Hp as [Hp | ->%list_elem_of_singleton].
    + rewrite Hother; [by apply Hc|]. destruct Hwf as (_ & [_ Hlt] & _). rewrite Forall_forall in Hlt.
      specialize (Hlt p Hp). lia.
    + exists q. split; [done|]. unfold is_commerce_policy in Hm. bool_to_prop. simpl in *.
      match goal with E : commerce_policy_name _ = _ |- _ => apply commerce_name_inj in E as <- end. done.
Qed.

(** The tables a new policy leaves alone. *)
Lemma commerce_frame now d merchant :
  exists t1 t2 t3, fst (find_or_create_commerce_envelope now d merchant)
    = set_policy_permissions t3 (set_permissions t2 (set_policies t1 d)).
Proof.
  unfold find_or_create_commerce_envelope, link_permission. simpl.
  assert (Hd : d = set_policy_permissions (db_policy_permissions d) (set_permissions (db_permissions d) (set_policies (db_policies d) d)))
    by by destruct d.
  destruct (min_policy_id _); [do 3 eexists; exact Hd|]. repeat case_if; simpl; do 3 eexists; first [reflexivity | exact Hd].
Qed.

(** What the HTTP handler and the signer load for such a policy. *)
Lemma commerce_loaded `{!CommerceLaws} d pid q merchant key :
  get_permissions d pid = Ok [q] -> commerce_of merchant q -> pk_from_hex merchant = Ok key ->
  exists b, load_policy_permissions d (Some pid) = Ok [b] /\ CommerceEnvelope_from_permission q = Ok b.
Proof.
  intros Hg [Hid Hcfg] Hk. assert (Hb : exists b, CommerceEnvelope_from_permission q = Ok b).
  { unfold CommerceEnvelope_from_permission. rewrite Hcfg, commerce_reads. simpl. rewrite Hk. simpl. eauto. }
  destruct Hb as [b Hb]. exists b. split; [|done]. unfold load_policy_permissions. rewrite Hg. simpl.
  unfold to_custom_permission. rewrite Hid. simpl. by rewrite Hb.
Qed.

(** ** Inverting a verification *)
Definition link_of (r : magic_link_row) : ConsumedMagicLink :=
  {| cml_email := ml_email r; cml_purpose := ml_purpose r; cml_app_origin := ml_app_origin r |}.
Definition with_links (t : table magic_link_row) (s : account_state) : account_state :=
  set_ac_db (set_magic_link_tokens t (ac_db s)) s.
(** A link that works: of the tenant, unused and not expired. *)
Definition live_link (now tenant_id : Z) (token : string) (r : magic_link_row) (d : Db) : Prop :=
  r ∈ rows (db_magic_link_tokens d) /\ ml_token_hash r = hash_magic_link_token token /\ ml_tenant_id r = tenant_id /\
  ml_consumed_at r = None /\ now < ml_expires_at r.

Lemma verify_ok now cfg dr tenant req s s' resp :
  verify_magic_link now cfg dr tenant req s = (s', Ok (Answer resp)) ->
  exists local grant row t,
    parse_local_key (vq_local_key req) = Ok local /\ parse_commerce_grant req = Ok grant /\
    live_link now (tn_id tenant) (vq_token req) row (ac_db s) /\
    (if bool_decide (ml_purpose row = PURPOSE_DELETE_ACCOUNT)
     then delete_session now cfg (tn_id tenant) (ml_email row) (ml_app_origin row)
     else sign_in_with_link now cfg dr (tn_id tenant) local grant (link_of row)) (with_links t s) = (s', Ok resp).
Proof.
  unfold verify_magic_link. case_if; [by intros [=]|]. intros H.
  apply se_bind_ok in H as (? & local & Hl & H). unfold lift_account in Hl. apply se_lift_ok in Hl as [-> Hl].
  apply map_err_ok in Hl. apply se_bind_ok in H as (? & grant & Hg & H). apply se_lift_ok in Hg as [-> Hg].
  apply map_err_ok in Hg. apply se_bind_ok in H as (s1 & consumed & Hc & H).
  apply se_bind_ok in H as (? & link & Hlink & H). apply se_lift_ok in Hlink as [-> Hlink].
  apply map_err_ok, ok_or_ok in Hlink as ->. injection Hc as <- Hc.
  apply fmap_Some in Hc as (r' & Hr & ->). unfold returning in Hr.
  destruct (List.filter _ _) as [|row l] eqn:Ef; [done|]. injection Hr as <-.
  assert (Hrow : row ∈ row :: l) by constructor. rewrite <- Ef, list_elem_of_In, List.filter_In in Hrow.
  destruct Hrow as [Hin Hlive]. unfold magic_live in Hlive. bool_to_prop.
  apply se_bind_ok in H as (? & r & Hrun & H). apply se_ret_ok in H as [-> [= <-]].
  exists local, grant, row, (fst (magic_consume now (vq_token req) (tn_id tenant) (db_magic_link_tokens (ac_db s)))).
  split; [done|]. split; [done|]. split; [|exact Hrun].
  split_and!; [by apply list_elem_of_In|done|lia|by destruct (ml_consumed_at row)|lia].
Qed.

(** The customer of a link: found by its address afterwards, and nothing but
    accounts and keys changed. *)
Lemma customer_ok now ten email local generated s s' pubkey :
  find_or_create_customer now ten email local generated s = (s', Ok pubkey) ->
  find_pubkey_by_email email ten (ac_db s') = Some pubkey /\
  exists users keys, ac_db s' = set_personal_keys keys (set_users users (ac_db s)).
Proof.
  unfold find_or_create_customer, read_db. intros H. apply se_bind_ok in H as (? & found & Hf & H).
  apply se_gets_ok in Hf as [-> ->]. destruct (find_pubkey_by_email email ten (ac_db s)) as [pk|] eqn:E.
  - apply se_ret_ok in H as [-> ->]. split; [done|]. exists (db_users (ac_db s)), (db_personal_keys (ac_db s)). by destruct (ac_db s).
  - apply se_bind_ok in H as (? & enc & He & H). apply se_lift_ok in He as [-> _]. revert H.
    unfold find_or_create_passwordless, atomically, se_bind, se_gets, insert_user_row, insert_user, insert_key_row, personal_keys_create.
    assert (find_user_by_email email ten (ac_db s) = None) as ->.
    { unfold find_pubkey_by_email in E. by apply fmap_None in E. }
    case_if; [by intros [=]|]. simpl. case_if; [by intros [=]|]. intros [= <- <-]. simpl. split; [|by do 2 eexists].
    unfold find_pubkey_by_email in *. apply fmap_None in E. apply fmap_Some.
    exists (us_set_email_verified true (us_set_email (Some email) (new_user now (pk_to_hex (pk_of (default generated local))) ten))).
    split; [|done].
    apply find_first_unique; [apply elem_of_app; right; by apply list_elem_of_singleton | |].
    + simpl. by rewrite bool_decide_true, Z.eqb_refl by done.
    + intros x [Hx | ->%list_elem_of_singleton]%elem_of_app Hp; [|done]. exfalso.
      pose proof (proj1 (find_first_None _ _) E x Hx) as Hn. simpl in Hn. by rewrite Hp in Hn.
Qed.

Lemma on_oauth_ok {A} (c : SE oauth_state oauth_abort A) s s' a :
  on_oauth c s = (s', Ok a) -> exists o, c (ac_oauth s) = (o, Ok a) /\ s' = set_ac_oauth o s.
Proof. unfold on_oauth. destruct (c (ac_oauth s)) as [o r]. intros [= <- Hr]. apply map_err_ok in Hr as ->. eauto. Qed.
Lemma repo_ok {A} (f : Db -> Db * result A RepositoryError) s s' a :
  on_repo f s = (s', Ok a) -> exists d, f (ac_db s) = (d, Ok a) /\ s' = set_ac_db d s.
Proof. unfold on_repo. destruct (f (ac_db s)) as [d r]. intros [= <- Hr]. apply map_err_ok in Hr as ->. eauto. Qed.

(** What a grant creates: one authorization, of the policy found for the
    merchant. *)
Lemma grant_ok now cfg dr ten pubkey email grant merchant s s' token url :
  grant_authorization now cfg dr ten pubkey email grant merchant s = (s', Ok (token, url)) ->
  exists d1 pid a origin,
    find_or_create_commerce_envelope now (ac_db s) merchant = (d1, Ok pid) /\
    extract_origin (cg_redirect_uri grant) = Ok origin /\
    rows (db_oauth_authorizations (ac_db s')) = rows (db_oauth_authorizations d1) ++ [a] /\
    oa_user_pubkey a = pubkey /\ oa_tenant_id a = ten /\ oa_redirect_origin a = origin /\
    oa_policy_id a = Some pid /\ oa_revoked_at a = None /\
    (forall p, get_permissions (ac_db s') p = get_permissions d1 p) /\
    db_policies (ac_db s') = db_policies d1 /\ db_users (ac_db s') = db_users d1.
Proof.
  unfold grant_authorization. intros H. apply se_bind_ok in H as (s1 & pid & Hp & H).
  apply repo_ok in Hp as (d1 & Hp & ->). apply se_bind_ok in H as (s2 & created & Hc & H).
  apply on_oauth_ok in Hc as (o & Hc & ->). unfold lift_account in H. se_inv. subst.
  apply create_ok in Hc as (s1 & enc & origin & secret & hash & bk & tok & pid' & d2 & id & d3 & rt & Hkeys
    & Ho & _ & _ & _ & Hpid & Hcr & Hr & Hdb & _). simpl in *. subst pid'.
  apply keys_frame in Hkeys as (l & Hs1 & _). apply create_inserts in Hcr as (-> & _ & ->).
  apply refresh_inserts in Hr as (_ & -> & _). simpl in Hdb.
  exists d1, pid. eexists. exists origin. split; [done|]. split; [done|]. unfold ac_db. simpl. rewrite Hdb, Hs1. simpl.
  split; [reflexivity|]. by repeat split.
Qed.

Lemma merchant_ok ten origin grant d merchant :
  merchant_for_grant ten origin grant d = Ok merchant ->
  exists pg, page_parse origin = Some pg /\ find_merchant_pubkey ten (origin_ascii pg) d = Some merchant /\
    same_origin (cg_redirect_uri grant) origin = true.
Proof.
  unfold merchant_for_grant. destruct (same_origin _ _) eqn:E; simpl; [|done]. intros H.
  apply rbind_ok in H as (pg & Hp & H). apply ok_or_ok in Hp. apply rbind_ok in H as (m & Hm & H). apply ok_or_ok in Hm.
  assert (m = merchant) as ->; [|by exists pg]. destruct (cg_merchant_pubkey grant); [|by injection H].
  destruct (negb _); [done|]. by injection H.
Qed.

(** The steps of a sign-in that grants an authorization. *)
Lemma sign_in_grants now cfg dr ten local grant link s s' resp url :
  sign_in_with_link now cfg dr ten local grant link s = (s', Ok resp) -> vr_bunker_url resp = Some url ->
  exists g merchant s1 pubkey,
    grant = Some g /\ merchant_for_grant ten (cml_app_origin link) g (ac_db s) = Ok merchant /\
    find_or_create_customer now ten (cml_email link) local (vd_key dr) s = (s1, Ok pubkey) /\
    grant_authorization now cfg (vd_oauth dr) ten pubkey (cml_email link) g merchant s1
      = (s', Ok (vr_session_token resp, url)).
Proof.
  unfold sign_in_with_link, read_db, lift_account. intros H Hu. apply se_bind_ok in H as (s0 & granted & Hg & H).
  apply se_bind_ok in H as (s1 & pubkey & Hp & H). apply se_bind_ok in H as (s2 & [token bunker] & Ht & H).
  apply se_ret_ok in H as [-> ->]. simpl in Hu. subst bunker. destruct grant as [g|].
  - apply se_bind_ok in Hg as (? & m & Hm & Hg). apply se_gets_ok in Hm as [-> ->].
    apply se_bind_ok in Hg as (? & merchant & Hm & Hg). apply se_lift_ok in Hm as [-> Hm]. apply map_err_ok in Hm.
    apply se_ret_ok in Hg as [-> ->]. apply se_bind_ok in Ht as (s3 & [token' url'] & Ht & Hr).
    apply se_ret_ok in Hr as [-> [= -> ->]]. exists g, merchant, s1, pubkey. done.
  - apply se_ret_ok in Hg as [-> ->]. se_inv. congruence.
Qed.

Definition merchants_valid (tenant_id : Z) (d : Db) : Prop :=
  forall origin m, find_merchant_pubkey tenant_id origin d = Some m -> is_ok (pk_from_hex m) = true.

(** The permission does not restrict decryption. *)
Lemma commerce_decrypts p b text sender recipient :
  CommerceEnvelope_from_permission p = Ok b -> dyn_can_decrypt b text sender recipient = true.
Proof. unfold CommerceEnvelope_from_permission. intros Hp. inv_ok. done. Qed.

(** [C21] What an app gets from a customer's sign-in link.  The link was live and
    of this tenant; the merchant is the one approved for the origin of the page
    the link was requested for, whoever the app says it is; exactly one
    authorization is created, for the customer with the link's address, and its
    policy holds one permission: it signs exactly seals and encrypts exactly
    orders that name that merchant, to the merchant or to the customer; it
    decrypts anything sent to the customer, whoever the sender is. *)
Theorem customer_grant_confined `{!CommerceLaws} now cfg dr tenant req s s' resp url :
  policies_wf (ac_db s) -> commerce_policies (ac_db s) -> merchants_valid (tn_id tenant) (ac_db s) ->
  verify_magic_link now cfg dr tenant req s = (s', Ok (Answer resp)) -> vr_bunker_url resp = Some url ->
  exists row pg merchant key a pid b,
    live_link now (tn_id tenant) (vq_token req) row (ac_db s) /\
    page_parse (ml_app_origin row) = Some pg /\
    find_merchant_pubkey (tn_id tenant) (origin_ascii pg) (ac_db s) = Some merchant /\ pk_from_hex merchant = Ok key /\
    rows (db_oauth_authorizations (ac_db s')) = rows (db_oauth_authorizations (ac_db s)) ++ [a] /\
    oa_tenant_id a = tn_id tenant /\
    find_pubkey_by_email (ml_email row) (tn_id tenant) (ac_db s') = Some (oa_user_pubkey a) /\
    oa_policy_id a = Some pid /\ load_policy_permissions (ac_db s') (Some pid) = Ok [b] /\
    (forall e, dyn_can_sign b e = true <-> ue_kind e = 13) /\
    (forall text sender recipient, dyn_can_encrypt b text sender recipient = true <->
       (recipient = key \/ recipient = sender) /\
       exists e, de_UnsignedEvent_str text = Ok e /\ ue_kind e = 1327 /\ key ∈ tags_public_keys (ue_tags e)) /\
    (forall text sender recipient, dyn_can_decrypt b text sender recipient = true) /\
    commerce_policies (ac_db s').
Proof.
  intros Hwf Hcp Hmv Hv Hu. apply verify_ok in Hv as (local & grant & row & t & _ & _ & Hlive & Hv).
  case_bool_decide as Hpur.
  { unfold delete_session, read_db, customer_key, lift_account in Hv. se_inv. subst. done. }
  destruct (sign_in_grants _ _ _ _ _ _ _ _ _ _ _ Hv Hu) as (g & merchant & s1 & pubkey & -> & Hm & Hc & Hg).
  apply merchant_ok in Hm as (pg & Hpg & Hm & _). simpl in *. apply customer_ok in Hc as (Hfind & users & keys & Hs1).
  apply grant_ok in Hg as (d1 & pid & a & origin & Hpol & _ & Hrows & Hau & Hat & _ & Hap & _ & Hperm & Hpols & Husers).
  rewrite Hs1 in Hpol. destruct (commerce_frame now (ac_db s1) merchant) as (t1 & t2 & t3 & Hfr).
  rewrite Hs1, Hpol in Hfr. simpl in Hfr.
  assert (Hwf1 : policies_wf (set_personal_keys keys (set_users users (ac_db (with_links t s))))) by exact Hwf.
  apply commerce_policy_for in Hpol as [(q & Hq & Hqm) Hcp']; [|exact Hwf1|exact Hcp].
  destruct (is_ok_Ok _ (Hmv _ _ Hm)) as [key Hkey]. rewrite <- (Hperm pid) in Hq.
  destruct (commerce_loaded _ _ _ _ _ Hq Hqm Hkey) as (b & Hload & Hb).
  destruct (commerce_confines q b Hb) as (hex & key' & Hde & Hkey' & Hsign & Henc).
  destruct Hqm as [_ Hcfg]. rewrite Hcfg, commerce_reads in Hde. injection Hde as <-. rewrite Hkey in Hkey'. injection Hkey' as <-.
  exists row, pg, merchant, key, a, pid, b. rewrite Hfr in Hrows, Husers. simpl in Hrows, Husers.
  split_and!; try done.
  - rewrite Hs1 in Hfind. unfold find_pubkey_by_email in *. rewrite Husers, Hau. exact Hfind.
  - intros ciphertext sender recipient. by eapply commerce_decrypts.
  - intros m p Hp Hmp. rewrite Hpols in Hp. rewrite Hperm. by apply Hcp'.
Qed.

(** ** Sessions and deletion *)

(** The facts of a token the server signs read back. *)
Lemma server_facts ten email origin bunker first :
  - 2 ^ 63 <= ten < 2 ^ 63 ->
  let facts := [ucan_facts_of ten email origin bunker first None] in
  fact as_str "redirect_origin" facts = Some origin /\ fact as_str "bunker_pubkey" facts = bunker /\
  fact as_i64 "tenant_id" facts = Some ten /\ default false (fact as_bool "first_party" facts) = first.
Proof.
  intros Hten. split; [reflexivity|]. split; [by destruct bunker, first|]. split; [|by destruct bunker, first].
  unfold fact, find_map, ucan_facts_of, json_lookup. simpl.
  rewrite (proj2 (Z.leb_le _ _)), (proj2 (Z.ltb_lt _ _)) by lia. done.
Qed.

(** A token the server signs for a user and a lifetime validates as that user
    until it has passed. *)
Lemma minted_validates `{!EncodingLaws, !MintLaws} now now' sk nsec pk ten email origin bunker first life token :
  ucan_mint now sk (nostr_pubkey_to_did pk) life (ucan_facts_of ten email origin bunker first None) = Ok token ->
  keys_parse nsec = Ok sk -> - 2 ^ 63 <= ten < 2 ^ 63 -> now' <= now + life ->
  exists t, validate_ucan_token now' (Some nsec) ("Bearer " +:+ token) ten = Ok t /\ vt_user_pubkey t = pk_to_hex pk.
Proof.
  intros Hmint Hnsec Hten Hn.
  pose proof (server_facts ten email origin bunker first Hten) as (Fo & _ & Ft & _).
  destruct (server_token_validates now now' _ nsec _ ten origin _ _ _ Hmint Fo Ft Hnsec Hn) as (u & _ & _ & Hv).
  by eexists.
Qed.

(** Whether such a token may delete: only as a first-party session, unless the
    user is the server. *)
Lemma minted_may_delete `{!EncodingLaws, !MintLaws} now now' sk nsec pk ten ten' email origin bunker first life token t :
  ucan_mint now sk (nostr_pubkey_to_did pk) life (ucan_facts_of ten email origin bunker first None) = Ok token ->
  - 2 ^ 63 <= ten < 2 ^ 63 -> pk_to_hex pk <> pk_to_hex (pk_of sk) ->
  validate_ucan_token now' nsec ("Bearer " +:+ token) ten' = Ok t -> may_delete t = Ok first.
Proof.
  intros Hmint Hten Hne Hv. apply mint_parses in Hmint as (u & Hparse & _ & Hfacts & Hiss & Haud & _).
  apply validate_inv in Hv as (token' & user & issuer & Htok & Hp & _ & _ & _ & Hu & Hvu & Hi & _).
  apply (inj (String.app "Bearer ")) in Htok as <-. rewrite Hparse in Hp. injection Hp as Hp.
  rewrite <- Hp, Haud, did_to_did in Hu. injection Hu as <-.
  unfold may_delete. rewrite <- Hp, Hiss, did_to_did. simpl. rewrite Hvu, bool_decide_false by congruence. simpl.
  rewrite Hfacts. by rewrite (proj2 (proj2 (proj2 (server_facts ten email origin bunker first Hten)))).
Qed.

(** The token of a grant, as it was minted, and the users it leaves. *)
Lemma grant_token now cfg dr ten pubkey email grant merchant s s' token url :
  grant_authorization now cfg dr ten pubkey email grant merchant s = (s', Ok (token, url)) ->
  db_users (ac_db s') = db_users (ac_db s) /\
  exists pk origin bunker life, pk_from_hex pubkey = Ok pk /\
    ucan_mint now (cfg_server_keys (acf_oauth cfg)) (nostr_pubkey_to_did pk) life
      (ucan_facts_of ten email origin bunker false None) = Ok token.
Proof.
  intros H. split.
  { apply grant_ok in H as (d1 & pid & a & origin & Hpol & _ & _ & _ & _ & _ & _ & _ & _ & _ & Hu).
    destruct (commerce_frame now (ac_db s) merchant) as (t1 & t2 & t3 & Hfr). rewrite Hpol in Hfr. simpl in Hfr.
    by rewrite Hu, Hfr. }
  unfold grant_authorization in H. apply se_bind_ok in H as (s1 & pid & _ & H).
  apply se_bind_ok in H as (s2 & created & Hc & H). apply on_oauth_ok in Hc as (o & Hc & ->).
  apply create_ok in Hc as (? & enc & origin & secret & hash & bk & tok & pid' & d2 & id & d3 & rt & _
    & _ & _ & _ & Htok & _ & _ & _ & _ & Hcr & _). unfold lift_account in H. se_inv. subst.
  unfold access_token_for in Htok. simpl in Htok. apply rbind_ok in Htok as (pk & Hpk & Htok).
  apply map_err_ok in Hpk, Htok. unfold generate_server_signed_ucan in Htok.
  repeat match goal with H : map_err _ _ = Ok _ |- _ => apply map_err_ok, ok_or_ok in H end. simplify_eq.
  eauto 10.
Qed.

(** The token of a response, as it was minted. *)
Lemma session_minted now cfg dr tenant req s s' resp :
  verify_magic_link now cfg dr tenant req s = (s', Ok (Answer resp)) ->
  exists row pubkey pk origin bunker life,
    live_link now (tn_id tenant) (vq_token req) row (ac_db s) /\
    find_pubkey_by_email (ml_email row) (tn_id tenant) (ac_db s') = Some pubkey /\ pk_from_hex pubkey = Ok pk /\
    let deletes := bool_decide (ml_purpose row = PURPOSE_DELETE_ACCOUNT) in
    ucan_mint now (cfg_server_keys (acf_oauth cfg)) (nostr_pubkey_to_did pk) life
      (ucan_facts_of (tn_id tenant) (ml_email row) origin bunker deletes None) = Ok (vr_session_token resp) /\
    (deletes = true -> s' = with_links (db_magic_link_tokens (ac_db s')) s /\ life = DELETE_SESSION_SECONDS).
Proof.
  intros H. apply verify_ok in H as (local & grant & row & t & _ & _ & Hlive & H). case_bool_decide as Hpur.
  - unfold delete_session, read_db, customer_key, lift_account, generate_server_signed_ucan_with_lifetime in H. se_inv. subst. simpl.
    repeat match goal with H : map_err _ _ = Ok _ |- _ => apply map_err_ok in H end.
    repeat match goal with H : ok_or _ _ = Ok _ |- _ => apply ok_or_ok in H end.
    eexists row, _, _, _, _, _. rewrite bool_decide_true by done. repeat (split; [eassumption|]). done.
  - unfold sign_in_with_link in H. apply se_bind_ok in H as (s0 & granted & Hg & H).
    assert (ac_db s0 = ac_db (with_links t s)) as Hs0.
    { destruct grant; unfold read_db, lift_account in Hg; se_inv; by subst. }
    apply se_bind_ok in H as (s1 & pubkey & Hp & H). apply customer_ok in Hp as (Hfind & _).
    apply se_bind_ok in H as (s2 & [token bunker] & Ht & H). apply se_ret_ok in H as [-> ->]. simpl in *.
    assert (Hm : db_users (ac_db s2) = db_users (ac_db s1) /\
      exists pk origin bunker life, pk_from_hex pubkey = Ok pk /\
        ucan_mint now (cfg_server_keys (acf_oauth cfg)) (nostr_pubkey_to_did pk) life
          (ucan_facts_of (tn_id tenant) (ml_email row) origin bunker false None) = Ok token).
    { destruct granted as [[g merchant]|].
      - apply se_bind_ok in Ht as (? & [token' url] & Ht & Hr). apply se_ret_ok in Hr as [-> [= -> _]].
        by apply grant_token in Ht.
      - unfold customer_key, lift_account, generate_server_signed_ucan in Ht. se_inv. simplify_eq.
        repeat match goal with H : map_err _ _ = Ok _ |- _ => apply map_err_ok in H end. split; [done|]. eauto 10. }
    destruct Hm as (Hus & pk & origin & bk & life & Hpk & Hmint).
    exists row, pubkey, pk, origin, bk, life. rewrite bool_decide_false by done. split; [done|].
    split; [|by repeat split]. unfold find_pubkey_by_email in *. by rewrite Hus.
Qed.

(** The server's key is not a customer's. *)
Definition server_is_no_customer (cfg : account_config) (tenant_id : Z) (d : Db) : Prop :=
  forall email pubkey pk, find_pubkey_by_email email tenant_id d = Some pubkey -> pk_from_hex pubkey = Ok pk ->
    pk_to_hex pk <> pk_to_hex (pk_of (cfg_server_keys (acf_oauth cfg))).

Definition bearer (token : string) (q : http_request) : Prop :=
  header "authorization" q = Some (Some ("Bearer " +:+ token)).

(** A session that may not delete changes nothing when it tries. *)
Lemma refused_deletion now cfg tenant q token s :
  bearer token q ->
  (forall t, validate_ucan_token now (ae_server_nsec (acf_auth cfg)) ("Bearer " +:+ token) (tn_id tenant) = Ok t ->
     may_delete t = Ok false) ->
  exists e, delete_account now cfg tenant q s = (s, Err e).
Proof.
  intros Hb Hm. unfold delete_account, deletion_header. rewrite Hb. unfold lift_account, se_bind, se_lift. simpl.
  destruct (validate_ucan_token _ _ _ _) as [t|e] eqn:E; simpl; [|eauto]. rewrite (Hm t eq_refl). simpl. unfold failed, se_fail. eauto.
Qed.

Lemma unload_bunkers_runs cfg l s : exists s', unload_bunkers cfg l s = (s', Ok tt) /\ ac_db s' = ac_db s.
Proof.
  unfold unload_bunkers, change_cache, se_modify. unfold se_bind at 1.
  match goal with |- context [foldr _ _ _ ?x] => change (ac_db s) with (ac_db x); generalize x end.
  clear s. intros s. revert s. induction l as [|b l IH]; intros s; simpl; [by exists s|].
  unfold se_bind at 1, send_to_signer at 1, se_modify.
  match goal with |- context [foldr _ _ _ ?x] => destruct (IH x) as (s' & -> & Hs') end. exists s'. split; [done|].
  rewrite Hs'. by destruct (cfg_auth_tx _).
Qed.

(** An account is deleted with a deletion link only.  The session a
    customer gets from a sign-in link, with or without a grant to an app, cannot
    delete the account, whenever it is used and whatever the state; the session
    from a deletion link deletes the account of the link's address, for ten
    minutes, and nothing later. *)
Theorem only_deletion_link_deletes `{!EncodingLaws, !MintLaws} now now' cfg nsec dr tenant req q s s' resp s2 :
  verify_magic_link now cfg dr tenant req s = (s', Ok (Answer resp)) ->
  ae_server_nsec (acf_auth cfg) = Some nsec -> keys_parse nsec = Ok (cfg_server_keys (acf_oauth cfg)) ->
  - 2 ^ 63 <= tn_id tenant < 2 ^ 63 -> server_is_no_customer cfg (tn_id tenant) (ac_db s') ->
  is_customer_tenant (ae_tenant (acf_auth cfg)) tenant = true -> bearer (vr_session_token resp) q ->
  exists row pubkey pk,
    live_link now (tn_id tenant) (vq_token req) row (ac_db s) /\
    find_pubkey_by_email (ml_email row) (tn_id tenant) (ac_db s') = Some pubkey /\ pk_from_hex pubkey = Ok pk /\
    if bool_decide (ml_purpose row = PURPOSE_DELETE_ACCOUNT) && (now' <=? now + DELETE_SESSION_SECONDS)
    then forall d' r, delete_customer_account now' (pk_to_hex pk) (tn_id tenant) (ac_db s2) = (d', Ok r) ->
      exists s3, delete_account now' cfg tenant q s2 = (s3, Ok {| sr_success := true; sr_message := "Account permanently deleted" |})
                 /\ ac_db s3 = d'
    else exists e, delete_account now' cfg tenant q s2 = (s2, Err e).
Proof.
  intros Hv Henv Hnsec Hten Hserver Hcust Hb.
  destruct (session_minted _ _ _ _ _ _ _ _ Hv) as (row & pubkey & pk & origin & bunker & life & Hlive & Hfind & Hpk & Hmint & Hdel).
  exists row, pubkey, pk. split; [done|]. split; [done|]. split; [done|]. cbn zeta in *.
  specialize (Hserver _ _ _ Hfind Hpk).
  assert (Hmay : forall t, validate_ucan_token now' (ae_server_nsec (acf_auth cfg)) ("Bearer " +:+ vr_session_token resp) (tn_id tenant) = Ok t ->
    may_delete t = Ok (bool_decide (ml_purpose row = PURPOSE_DELETE_ACCOUNT))).
  { intros t. by apply (minted_may_delete _ _ _ _ _ _ _ _ _ _ _ _ _ _ Hmint). }
  destruct (bool_decide (ml_purpose row = PURPOSE_DELETE_ACCOUNT)) eqn:Ep; simpl; [|by apply (refused_deletion _ _ _ _ _ _ Hb)].
  destruct (Hdel eq_refl) as [_ ->]. case_if.
  - destruct (minted_validates now now' _ nsec _ _ _ _ _ _ _ _ Hmint Hnsec Hten ltac:(lia)) as (t & Hval & Hu).
    intros d' r Hd. unfold delete_account, deletion_header. rewrite Hb. unfold lift_account, se_bind, se_lift. simpl.
    rewrite Henv, Hval in *. simpl. rewrite (Hmay t eq_refl). simpl. rewrite Hcust, Hu, Hd. simpl.
    destruct (unload_bunkers_runs cfg (bunker_pubkeys r) (set_ac_db d' s2)) as (s3 & -> & Hs3). exists s3. split; [done|]. by rewrite Hs3.
  - apply (refused_deletion _ _ _ _ _ _ Hb). intros t Ht. exfalso. apply mint_parses in Hmint as (u & Hparse & _ & _ & _ & _ & Hlife).
    apply validate_inv in Ht as (token' & ? & ? & Htok & Hp & _ & Hexp & _). apply (inj (String.app "Bearer ")) in Htok as <-.
    rewrite Hparse in Hp. injection Hp as Hp. rewrite <- Hp, Hlife in Hexp. lia.
Qed.

(** ** Revoking an app *)
Definition stopped (now : Z) (cfg : account_config) (l : list (Z * string)) (s s' : account_state) : Prop :=
  db_oauth_authorizations (ac_db s') = db_oauth_authorizations (ac_db s) /\
  db_refresh_tokens (ac_db s') = foldl (fun t i => fst (refresh_revoke_for_authorization now i t)) (db_refresh_tokens (ac_db s)) (map fst l) /\
  rs_cache (os_rpc (ac_oauth s')) = foldl (fun c b => invalidate_handlers_for_bunker b c) (rs_cache (os_rpc (ac_oauth s))) (map snd l) /\
  (cfg_auth_tx (acf_oauth cfg) = true -> os_sent (ac_oauth s') = os_sent (ac_oauth s) ++ map (fun x => Remove (snd x)) l).

Lemma stop_run now cfg i b s :
  exists s', stop_authorization now cfg i b s = (s', Ok tt) /\ stopped now cfg [(i, b)] s s'.
Proof.
  unfold stop_authorization, on_repo, change_cache, send_to_signer, se_bind, se_modify. simpl. eexists. split; [reflexivity|].
  unfold stopped. destruct (cfg_auth_tx _); simpl; by repeat split.
Qed.

Lemma stop_all now cfg l : forall s,
  exists s', foldr (fun '(i, b) k => let! _ := stop_authorization now cfg i b in k) (se_ret tt) l s = (s', Ok tt) /\
    stopped now cfg l s s'.
Proof.
  induction l as [|[i b] l IH]; intros s; simpl.
  - exists s. split; [done|]. unfold stopped. simpl. by rewrite app_nil_r.
  - destruct (stop_run now cfg i b s) as (s1 & E1 & A1 & B1 & C1 & D1). destruct (IH s1) as (s2 & E2 & A2 & B2 & C2 & D2).
    exists s2. unfold se_bind. rewrite E1. split; [done|]. unfold stopped. simpl in *.
    rewrite A2, B2, C2, A1, B1, C1. split_and!; [done..|]. intros Htx. rewrite D2, D1 by done. by rewrite <- app_assoc.
Qed.

Lemma refresh_revoked now ids : forall t,
  (forall r i, r ∈ rows (foldl (fun t i => fst (refresh_revoke_for_authorization now i t)) t ids) ->
     i ∈ ids -> rt_authorization_id r = i -> rt_consumed_at r <> None) /\
  (forall r, r ∈ rows (foldl (fun t i => fst (refresh_revoke_for_authorization now i t)) t ids) -> rt_consumed_at r = None -> r ∈ rows t).
Proof.
  induction ids as [|i ids IH]; intros t; simpl; [split; [by intros ? ? _ ?%not_elem_of_nil|done]|].
  destruct (IH (fst (refresh_revoke_for_authorization now i t))) as [H1 H2].
  assert (Hback : forall r, r ∈ rows (fst (refresh_revoke_for_authorization now i t)) -> rt_consumed_at r = None ->
    r ∈ rows t /\ rt_authorization_id r <> i).
  { simpl. intros r [(x & Hx & _ & ->)|[Hr Hp]]%update_where_elem Hn; [done|]. split; [done|].
    unfold refresh_of_authorization in Hp. rewrite Hn, andb_true_r in Hp. lia. }
  split.
  - intros r j Hr [->|Hj]%elem_of_cons Ha; [|by apply (H1 r j)]. intros Hn.
    by destruct (Hback r (H2 r Hr Hn) Hn).
  - intros r Hr Hn. by apply (Hback r (H2 r Hr Hn) Hn).
Qed.

Lemma invalidate_keeps bunkers : forall cache k h,
  cache !! k = Some h -> Forall (fun b => is_ok (parse_cache_key b) = true /\ ~ handler_of b h) bunkers ->
  foldl (fun c b => invalidate_handlers_for_bunker b c) cache bunkers !! k = Some h.
Proof.
  induction bunkers as [|b l IH]; intros cache k h Hk HF; simpl; [done|]. apply Forall_cons in HF as [[Hp Hb] HF].
  apply IH; [|done]. unfold invalidate_handlers_for_bunker, handler_of in *. destruct (parse_cache_key b) as [bk|]; [|done].
  apply map_lookup_filter_Some. split; [done|]. simpl. apply bool_decide_eq_false_2.
  intros E. apply Hb. eauto.
Qed.

(** Nothing matches, nothing is updated. *)
Lemma update_oauth_none p f d : returning p f (rows (db_oauth_authorizations d)) = [] -> update_oauth p f d = d.
Proof.
  unfold returning, update_oauth. intros E%map_eq_nil. unfold with_rows. rewrite update_where_none; [by destruct d as [? ? ? ? []]|].
  intros a Ha. destruct (p a) eqn:Hp; [|done]. assert (Hin : a ∈ List.filter p (rows (db_oauth_authorizations d))).
  { apply list_elem_of_In, filter_In. split; [by apply list_elem_of_In | done]. }
  rewrite E in Hin. by apply not_elem_of_nil in Hin.
Qed.

(** [C23] Revoking an app stops it, and only it.  A request that does not succeed
    changes nothing.  One that succeeds is from the signed-in customer; afterwards
    every authorization of that customer for the app's origin is revoked, the
    refresh tokens of the ones that were live are spent, the HTTP endpoint has no
    handler of them and the signer was told to drop them; every other authorization
    is as it was, and so is every other handler, as long as the bunker keys of the
    app are well formed. *)
Theorem revoked_app_stops now cfg tenant q origin s s' r :
  revoke_customer_app now cfg tenant q origin s = (s', r) ->
  (r <> Ok (Answer tt) /\ s' = s) \/
  r = Ok (Answer tt) /\ exists user, signed_in_customer now cfg q (tn_id tenant) = Ok user /\
    let mine a := of_origin user origin (tn_id tenant) a in
    (forall a, a ∈ rows (db_oauth_authorizations (ac_db s')) -> mine a = true -> oa_revoked_at a <> None) /\
    (forall a, a ∈ rows (db_oauth_authorizations (ac_db s)) -> mine a = false -> a ∈ rows (db_oauth_authorizations (ac_db s'))) /\
    (forall a, a ∈ rows (db_oauth_authorizations (ac_db s)) -> mine a = true -> oa_revoked_at a = None ->
       (forall r, r ∈ rows (db_refresh_tokens (ac_db s')) -> rt_authorization_id r = oa_id a -> rt_consumed_at r <> None) /\
       (forall k h, rs_cache (os_rpc (ac_oauth s')) !! k = Some h -> ~ handler_of (oa_bunker_public_key a) h) /\
       (cfg_auth_tx (acf_oauth cfg) = true -> Remove (oa_bunker_public_key a) ∈ os_sent (ac_oauth s'))) /\
    (forall k h, rs_cache (os_rpc (ac_oauth s)) !! k = Some h ->
       (forall a, a ∈ rows (db_oauth_authorizations (ac_db s)) -> mine a = true ->
          is_ok (parse_cache_key (oa_bunker_public_key a)) = true /\ ~ handler_of (oa_bunker_public_key a) h) ->
       rs_cache (os_rpc (ac_oauth s')) !! k = Some h).
Proof.
  unfold revoke_customer_app. case_if; [intros [= <- <-]; by left|]. intros H.
  apply se_read_first in H as [[Hn ->]|(user & Hu & H)]; [left; by destruct r| |done]. apply se_lift_ok in Hu as [_ Hu]. apply map_err_ok in Hu.
  unfold se_bind at 1, on_repo, revoke_by_origin in H. cbv beta zeta iota in H. cbn [map_err] in H.
  set (mine a := of_origin user origin (tn_id tenant) a). set (p a := mine a && is_null (oa_revoked_at a)).
  change (fun a => of_origin user origin (tn_id tenant) a && is_null (oa_revoked_at a)) with p in H.
  match type of H with context [map ?f (returning p ?g ?l)] => remember (map f (returning p g l)) as revoked eqn:Hr end. symmetry in Hr.
  destruct (stop_all now cfg revoked (set_ac_db (update_oauth p (oa_revoke now true) (ac_db s)) s)) as (s2 & Est & Hrun).
  assert (Hcase : revoked = [] /\ r = Ok NoSuchRoute /\ s' = set_ac_db (update_oauth p (oa_revoke now true) (ac_db s)) s \/
    r = Ok (Answer tt) /\ s' = s2).
  { destruct revoked as [|x l]; [left; by injection H as <- <-|]. right. unfold se_bind at 1 in H. rewrite Est in H. by injection H as <- <-. }
  destruct Hcase as [(Hnil & -> & ->)|[-> ->]].
  { left. split; [done|]. rewrite update_oauth_none; [|rewrite Hnil in Hr; by apply map_eq_nil in Hr]. by destruct s as [[[] ?] ? ? ?]. }
  right. split; [done|]. exists user. split; [done|]. cbn zeta.
  destruct Hrun as (Hauth & Hrt & Hcache & Hsent).
  change (ac_oauth (set_ac_db ?d ?s)) with (set_os_db d (ac_oauth s)) in *. change (ac_db (set_ac_db ?d ?s)) with d in *. simpl in *.
  assert (Hin : forall a, a ∈ rows (db_oauth_authorizations (ac_db s)) -> mine a = true -> oa_revoked_at a = None ->
    (oa_id a, oa_bunker_public_key a) ∈ revoked).
  { intros a Ha Hm Hn. rewrite <- Hr. unfold returning. rewrite map_map. apply list_elem_of_fmap. exists a. split; [done|].
    apply list_elem_of_In, filter_In. split; [by apply list_elem_of_In|]. unfold p. by rewrite Hm, Hn. }
  assert (Hout : forall b, b ∈ map snd revoked -> exists a, a ∈ rows (db_oauth_authorizations (ac_db s)) /\ mine a = true /\
    oa_bunker_public_key a = b).
  { intros b Hb. rewrite <- Hr, map_map in Hb. unfold returning in Hb. rewrite map_map in Hb.
    apply list_elem_of_fmap in Hb as (a & -> & Ha). apply list_elem_of_In, filter_In in Ha as [Ha Hp].
    unfold p in Hp. apply andb_true_iff in Hp as [Hp _]. exists a. split; [by apply list_elem_of_In|done]. }
  rewrite Hauth. split_and!.
  - intros a [(x & Hx & _ & ->)|[Ha Hp]]%update_where_elem Hm; [done|]. unfold p, mine in Hp. rewrite Hm in Hp.
    simpl in Hp. by destruct (oa_revoked_at a).
  - intros a Ha Hm. apply update_where_elem. right. split; [done|]. unfold p, mine. by rewrite Hm.
  - intros a Ha Hm Hn. specialize (Hin a Ha Hm Hn). rewrite Hrt, Hcache. split_and!.
    + intros r Hr' Hid. apply (proj1 (refresh_revoked now _ _) r (oa_id a) Hr'); [|done].
      by apply (list_elem_of_fmap_2 fst) in Hin.
    + intros k h Hk. apply invalidate_bunkers_gone in Hk as [_ HF]. rewrite Forall_forall in HF. apply HF.
      by apply (list_elem_of_fmap_2 snd) in Hin.
    + intros Htx. rewrite (Hsent Htx). apply elem_of_app. right. by apply (list_elem_of_fmap_2 (fun x => Remove (snd x))) in Hin.
  - intros k h Hk Hother. rewrite Hcache. apply invalidate_keeps; [done|]. apply Forall_forall. intros b Hb.
    destruct (Hout b Hb) as (a & Ha & Hm & <-). by apply Hother.
Qed.
End customers_safety.

(** ** Witnesses

    Tokens are their fields joined by bars; a first-party one ends at 610, the
    others at 1000. *)
Module CustomerSample.
Record token : Type := { tk_facts : json; tk_expires : Z; tk_audience : string; tk_issuer : string }.
Definition read_token (s : string) : result token string :=
  match split "|" s with
  | ["plain"; e; o; _; aud; iss] =>
      Ok {| tk_facts := ucan_facts_of 1 e o None false None; tk_expires := 1000; tk_audience := aud; tk_issuer := iss |}
  | ["first"; e; o; _; aud; iss] =>
      Ok {| tk_facts := ucan_facts_of 1 e o None true None; tk_expires := 610; tk_audience := aud; tk_issuer := iss |}
  | ["bunker"; e; o; b; aud; iss] =>
      Ok {| tk_facts := ucan_facts_of 1 e o (Some b) false None; tk_expires := 1000; tk_audience := aud; tk_issuer := iss |}
  | _ => Err "not a token"
  end.
(** A token is written when it reads back. *)
Definition write_token (fields : list string) (t expires at_time : Z) (keys expected : list string) : result string string :=
  if (t =? 1) && (at_time =? expires) && bool_decide (keys = expected) && bool_decide (split "|" (join "|" fields) = fields)
  then Ok (join "|" fields) else Err "unsupported".
Definition base_keys : list string := ["tenant_id"; "email"; "redirect_origin"].

#[local] Instance bar_ucan : UcanLib := {
  Ucan := token; ucan_parse := read_token; ucan_check_signature _ := Ok tt;
  ucan_is_expired now u := tk_expires u <? now; ucan_facts u := [tk_facts u]; ucan_issuer := tk_issuer;
  ucan_audience := tk_audience;
}.
#[local] Instance bar_mint : UcanMint := {
  ucan_mint now sk aud life facts :=
    let iss := nostr_pubkey_to_did (pk_of sk) in
    match facts with
    | JObject [(k1, JInt t); (k2, JString e); (k3, JString o)] =>
        write_token ["plain"; e; o; ""; aud; iss] t 1000 (now + life) [k1; k2; k3] base_keys
    | JObject [(k1, JInt t); (k2, JString e); (k3, JString o); (k4, JBool true)] =>
        write_token ["first"; e; o; ""; aud; iss] t 610 (now + life) [k1; k2; k3; k4] (base_keys ++ ["first_party"])
    | JObject [(k1, JInt t); (k2, JString e); (k3, JString o); (k4, JString b)] =>
        write_token ["bunker"; e; o; b; aud; iss] t 1000 (now + life) [k1; k2; k3; k4] (base_keys ++ ["bunker_pubkey"])
    | _ => Err "unsupported"
    end;
}.
Lemma write_token_ok fields t expires at_time keys expected token :
  write_token fields t expires at_time keys expected = Ok token ->
  t = 1 /\ at_time = expires /\ keys = expected /\ split "|" token = fields.
Proof. unfold write_token. destruct (_ && _) eqn:E; [|done]. intros [= <-]. bool_to_prop. done. Qed.
#[local] Instance bar_mint_laws : MintLaws.
Proof.
  split.
  - intros now sk aud life facts tok. simpl. destruct facts as [| | | | | |m]; try discriminate.
    destruct m as [|[k1 [| |t| | | |]] m]; try discriminate. destruct m as [|[k2 [| | | |e| |]] m]; try discriminate.
    destruct m as [|[k3 [| | | |o| |]] m]; try discriminate.
    destruct m as [|[k4 [|[]| | |b| |]] [|? m]]; try discriminate;
      intros (-> & E & Hk & Hs)%write_token_ok; unfold base_keys in Hk; simplify_eq; unfold read_token; setoid_rewrite Hs;
      (eexists; split; [reflexivity|]; repeat (split; [reflexivity|]); intros now'; simpl; by rewrite E).
  - intros sk. reflexivity.
  - intros sk. eexists. split; [reflexivity|]. rewrite length_take, length_app, length_replicate. lia.
Qed.
#[export] Instance toy_commerce_laws : CommerceLaws.
Proof. split; reflexivity. Qed.

Definition customers : Tenant := {|
  tn_id := 1; tn_domain := "customers.example"; tn_name := "Customers"; tn_settings := None; tn_created_at := 0; tn_updated_at := 0 |}.
Definition customer_config : account_config := {|
  acf_oauth := sample_config;
  acf_auth := {| ae_server_nsec := Some "server"; ae_allowed_pubkeys := None;
                 ae_tenant := {| env_customer_domain := Some "customers.example"; env_allowed_domains := None;
                                 env_bunker_relays := Some "wss://r" |}; ae_redis := None |};
  acf_app_url := None; acf_allowed_origins := None; acf_ip_limit := None; acf_secure_cookies := true;
  acf_email_service := true |}.
Definition link (id : Z) (token purpose : string) : magic_link_row := {|
  ml_id := id; ml_tenant_id := 1; ml_email := "ann@b.c"; ml_token_hash := hash_magic_link_token token; ml_purpose := purpose;
  ml_app_origin := "https://shop.example/orders"; ml_expires_at := 900; ml_consumed_at := None; ml_request_ip := None;
  ml_created_at := 0 |}.
Definition shop_db : Db :=
  set_customer_app_origins {| rows := [{| co_id := 1; co_tenant_id := 1; co_origin := "https://shop.example";
      co_merchant_name := "Shop"; co_merchant_pubkey := "shop"; co_created_at := 0 |}]; next_id := 2 |}
    (set_magic_link_tokens {| rows := [link 1 "in" PURPOSE_SIGN_IN; link 2 "out" PURPOSE_DELETE_ACCOUNT]; next_id := 3 |}
      empty_db).
Definition ann_verifies (token : string) : VerifyMagicLinkRequest := {|
  vq_token := token; vq_client_id := Some "orders"; vq_redirect_uri := Some "https://shop.example/cb";
  vq_scope := Some COMMERCE_SCOPE; vq_merchant_pubkey := None; vq_local_key := None |}.
Definition ann_draw : verify_draw := {| vd_key := "ann" : SecretKey; vd_oauth := sample_draw "9" |}.

Lemma shop_policies_wf : policies_wf shop_db.
Proof. split; [|split]; [by repeat constructor..|by constructor]. Qed.
Lemma shop_commerce_policies : commerce_policies shop_db.
Proof. intros m p []%not_elem_of_nil. Qed.
Lemma shop_merchants : merchants_valid 1 shop_db.
Proof. intros o m Hm. unfold find_merchant_pubkey in Hm. simpl in Hm. destruct (origin_is _ _ _); [by injection Hm as <- | done]. Qed.

Lemma customer_grant_confined_witness :
  exists s' resp url a pid b,
    verify_magic_link 10 customer_config ann_draw customers (ann_verifies "in") (state_of shop_db) = (s', Ok (Answer resp)) /\
    vr_bunker_url resp = Some url /\ a ∈ rows (db_oauth_authorizations (ac_db s')) /\ oa_policy_id a = Some pid /\
    load_policy_permissions (ac_db s') (Some pid) = Ok [b] /\ (forall e, dyn_can_sign b e = true <-> ue_kind e = 13).
Proof.
  assert (exists s' resp url, verify_magic_link 10 customer_config ann_draw customers (ann_verifies "in") (state_of shop_db)
    = (s', Ok (Answer resp)) /\ vr_bunker_url resp = Some url) as (s' & resp & url & E & Hu).
  { eexists _, _, _. split; vm_compute; reflexivity. }
  destruct (customer_grant_confined 10 customer_config ann_draw customers (ann_verifies "in") (state_of shop_db) s' resp url
    shop_policies_wf shop_commerce_policies shop_merchants E Hu)
    as (row & pg & m & key & a & pid & b & _ & _ & _ & _ & Hrows & _ & _ & Hp & Hl & Hs & _).
  exists s', resp, url, a, pid, b. split; [exact E|]. split; [exact Hu|]. split; [|exact (conj Hp (conj Hl Hs))].
  rewrite Hrows. apply elem_of_app. right. by apply list_elem_of_singleton.
Defined.

Definition with_token (token : string) : http_request := from_app [("authorization", "Bearer " +:+ token)].

Lemma ann_is_not_server d : map us_pubkey (db_users d) = ["Pann"] -> server_is_no_customer customer_config 1 d.
Proof.
  intros Hd email pubkey pk Hf Hpk. unfold find_pubkey_by_email in Hf. apply fmap_Some in Hf as (u & Hf & ->).
  apply find_first_Some in Hf as [Hu _]. apply (list_elem_of_fmap_2 us_pubkey) in Hu.
  change (us_pubkey u ∈ map us_pubkey (db_users d)) in Hu. rewrite Hd in Hu.
  apply list_elem_of_singleton in Hu. rewrite Hu in Hpk. by injection Hpk as <-.
Qed.

Lemma only_deletion_link_deletes_witness :
  exists s' resp, verify_magic_link 10 customer_config ann_draw customers (ann_verifies "in") (state_of shop_db) = (s', Ok (Answer resp)) /\
    exists e, delete_account 20 customer_config customers (with_token (vr_session_token resp)) s' = (s', Err e).
Proof.
  assert (exists s' resp, verify_magic_link 10 customer_config ann_draw customers (ann_verifies "in") (state_of shop_db)
    = (s', Ok (Answer resp))) as (s' & resp & E) by (eexists _, _; vm_compute; reflexivity).
  exists s', resp. split; [exact E|].
  destruct (only_deletion_link_deletes 10 20 customer_config "server" ann_draw customers (ann_verifies "in")
    (with_token (vr_session_token resp)) (state_of shop_db) s' resp s' E) as (row & pubkey & pk & Hlive & Hfind & Hpk & H).
  - reflexivity.
  - reflexivity.
  - simpl. lia.
  - apply ann_is_not_server.
    assert (Hs : fst (verify_magic_link 10 customer_config ann_draw customers (ann_verifies "in") (state_of shop_db)) = s') by by rewrite E.
    rewrite <- Hs. vm_compute. reflexivity.
  - reflexivity.
  - reflexivity.
  - destruct Hlive as (Hin & Hh & _). change (row ∈ [link 1 "in" PURPOSE_SIGN_IN; link 2 "out" PURPOSE_DELETE_ACCOUNT]) in Hin.
    apply elem_of_cons in Hin as [-> | ->%list_elem_of_singleton]; [exact H | discriminate Hh].
Defined.

Definition sample_state : account_state := set_ac_db (set_oauth_authorizations {| rows := [sample_oauth None None None]; next_id := 2 |} (sample_db [] [])) (state_of empty_db).
Definition pu_token : string := match ucan_mint 10 ("server" : SecretKey) (nostr_pubkey_to_did ("Pu" : PublicKey)) 990 (ucan_facts_of 1 "u@b" "https://app.example" None false None) with Ok t => t | Err _ => "" end.

Lemma revoked_app_stops_witness :
  exists s', revoke_customer_app 20 customer_config customers (with_token pu_token) "https://app.example" sample_state = (s', Ok (Answer tt)) /\
    Remove user_bunker ∈ os_sent (ac_oauth s').
Proof.
  assert (exists s', revoke_customer_app 20 customer_config customers (with_token pu_token) "https://app.example" sample_state
    = (s', Ok (Answer tt))) as (s' & E) by (eexists; vm_compute; reflexivity).
  exists s'. split; [exact E|].
  destruct (revoked_app_stops 20 customer_config customers (with_token pu_token) "https://app.example" sample_state s' (Ok (Answer tt)) E)
    as [[Hn _]|[_ (user & Hu & _ & _ & H & _)]]; [by destruct Hn|].
  assert (user = "Pu") as -> by (vm_compute in Hu; by injection Hu as <-).
  apply (H (sample_oauth None None None)); [by constructor | reflexivity | reflexivity | reflexivity].
Defined.
End CustomerSample.
