(* ===== verification/Claims.v ===== *)
(** * Claiming a preloaded account

    api/src/api/http/claim.rs: an account that was created without an email is
    taken over by the holder of a claim link, who chooses an email and a password.
    A page is modelled by the values that are written into its template, after
    they are escaped. *)
From S2P Require Import Prelude RustStr External Instances Database Samples Tokens Permissions Policies AuthTypes Ucan HttpRpc OAuthRepo Users UsersSafety OAuth WorkQueue Queues RateLimit Tenant Nip98 Accounts Authorize AccountKeys AccountsSafety.

(** ** Escaping *)

(** [str::replace] of a character. *)
Fixpoint replace (c : ascii) (by_ : string) (s : string) : string :=
  match s with
  | EmptyString => ""
  | String a s' => if bool_decide (a = c) then by_ +:+ replace c by_ s' else String a (replace c by_ s')
  end.

Definition quote : ascii := "034".
Definition html_escape (s : string) : string :=
  replace "'" "&#39;" (replace quote "&quot;" (replace ">" "&gt;" (replace "<" "&lt;" (replace "&" "&amp;" s)))).

(** ** Errors *)
Inductive ClaimError : Type :=
| CE_InvalidToken
| CE_UserNotFound
| CE_PasswordMismatch
| CE_WeakPassword
| CE_InvalidEmail
| CE_EmailExists
| CE_Internal (msg : string).

(** Status, title and message of the page. *)
Definition claim_error_page (e : ClaimError) : Z * string * string :=
  let '(title, message) :=
    match e with
    | CE_InvalidToken => ("Invalid or Expired Link",
        "This claim link is invalid or has already been used. Please contact support for a new link.")
    | CE_UserNotFound => ("Account Not Found",
        "The account associated with this link could not be found. Please contact support.")
    | CE_PasswordMismatch => ("Passwords Don't Match",
        "The passwords you entered don't match. Please go back and try again.")
    | CE_WeakPassword => ("Password Too Short",
        "Your password must be at least 8 characters. Please go back and try again.")
    | CE_InvalidEmail => ("Invalid Email", "Please enter a valid email address.")
    | CE_EmailExists => ("Email Already Registered",
        "This email address is already associated with another account. Please use a different email or contact support.")
    | CE_Internal _ => ("Something Went Wrong",
        "An unexpected error occurred. Please try again or contact support.")
    end in
  (400, title, message).

Inductive claim_abort : Type := ClaimFailed (e : ClaimError) | ClaimPanic.

(** ** Requests and pages *)
Record ClaimQuery : Type := { cq_token : string; cq_email : option string }.
Record ClaimForm : Type := {
  cf_token : string; cf_email : string; cf_password : string; cf_password_confirmation : string;
}.
Record claim_page : Type := { cpg_display_name : string; cpg_username : string; cpg_token : string; cpg_email : string }.
Record claimed_page : Type := { cdp_display_name : string; cdp_admin_base_url : string }.

(** [display_name.unwrap_or_else(|| username.clone().unwrap_or_default())] *)
Definition shown_name (username display_name : option string) : string := default (default "" username) display_name.

Definition claim_get (now tenant_id : Z) (params : ClaimQuery) (d : Db) : result claim_page ClaimError :=
  let? claim_token := ok_or (claim_find_valid now (cq_token params) (db_claim_tokens d)) CE_InvalidToken in
  let? '(username, display_name) := ok_or (get_claim_info (ct_user_pubkey claim_token) tenant_id d) CE_UserNotFound in
  Ok {| cpg_display_name := html_escape (shown_name username display_name);
        cpg_username := html_escape (default "" username);
        cpg_token := html_escape (cq_token params);
        cpg_email := html_escape (default "" (cq_email params)) |}.

Section claims.
Context `{HN : Nostr, HC : !NostrCrypto, HS : !Serde, HX : !Secrets, HB : Bcrypt, HD : Digests, HE : !Encodings,
          HV : !HttpEvents, HU : UcanLib, HM : !UcanMint, HL : UrlLib, HUni : Unicode, HI : Ipv6, HCh : Channel}.

Notation CM A := (SE account_state claim_abort A).

Definition claim_fail {A} (e : ClaimError) : CM A := se_fail (ClaimFailed e).
Definition claim_lift {A} (r : result A ClaimError) : CM A := se_lift (map_err ClaimFailed r).
Definition claim_read {A} (f : Db -> A) : CM A := se_gets (fun s => f (ac_db s)).
Definition claim_repo {A} (f : Db -> Db * result A RepositoryError) : CM A := fun s =>
  let '(d, r) := f (ac_db s) in
  (set_ac_db d s, map_err (fun e => ClaimFailed (CE_Internal ("Database error: " +:+ repository_error_str e))) r).

Definition claim_server_keys (cfg : account_config) : result SecretKey ClaimError :=
  let? server_nsec := ok_or (ae_server_nsec (acf_auth cfg)) (CE_Internal "SERVER_NSEC not configured") in
  map_err (fun e => CE_Internal ("Invalid SERVER_NSEC: " +:+ e)) (keys_parse server_nsec).

Definition with_server_keys (keys : SecretKey) (cfg : oauth_config) : oauth_config := {|
  cfg_server_keys := keys; cfg_bunker_relays := cfg_bunker_relays cfg; cfg_token_expiry := cfg_token_expiry cfg;
  cfg_auth_tx := cfg_auth_tx cfg |}.

Definition mark_claimed (now : Z) (token : string) (d : Db) : Db * result (option ClaimToken) RepositoryError :=
  let '(t, r) := claim_mark_used now token (db_claim_tokens d) in (set_claim_tokens t d, Ok r).

(** The checks of the form. *)
Definition check_form (email : string) (form : ClaimForm) : result unit ClaimError :=
  if negb (bool_decide (cf_password form = cf_password_confirmation form)) then Err CE_PasswordMismatch
  else if len (cf_password form) <? 8 then Err CE_WeakPassword
  else if negb (contains_char "@" email) || negb (contains_char "." email) then Err CE_InvalidEmail
  else Ok tt.

(** The session of seven days after the claim. *)
Definition claim_session (now : Z) (cfg : account_config) (tenant_id : Z) (email pubkey : string) : result string ClaimError :=
  let? user_pubkey := map_err (fun e => CE_Internal ("Invalid pubkey: " +:+ e)) (pk_from_hex pubkey) in
  let? server_keys := claim_server_keys cfg in
  let? token := map_err (fun e => CE_Internal ("Failed to generate session: " +:+ e))
                  (generate_server_signed_ucan now (with_server_keys server_keys (acf_oauth cfg)) user_pubkey tenant_id
                     email "claim" None false None) in
  Ok (format_session_cookie token (60 * 60 * 24 * 7) (acf_secure_cookies cfg)).

(** [salt] is bcrypt's, [admin_base_url] the variable ADMIN_BASE_URL; the log
    line shows the first eight bytes of the key. *)
Definition claim_post (now : Z) (cfg : account_config) (tenant_id : Z) (salt : string) (admin_base_url : option string)
    (form : ClaimForm) : CM (string * claimed_page) :=
  let email := to_lowercase (cf_email form) in
  let! found := claim_read (fun d => claim_find_valid now (cf_token form) (db_claim_tokens d)) in
  let! claim_token := claim_lift (ok_or found CE_InvalidToken) in
  let pubkey := ct_user_pubkey claim_token in
  let! _ := claim_lift (check_form email form) in
  let! taken := claim_read (email_exists email tenant_id) in
  if taken : bool then claim_fail CE_EmailExists
  else
    let! password_hash := claim_lift (map_err (fun e => CE_Internal ("Password hashing failed: " +:+ e))
                                        (bcrypt_hash DEFAULT_COST salt (cf_password form))) in
    let! _ := claim_repo (claim_account now pubkey tenant_id email password_hash) in
    let! _ := claim_repo (mark_claimed now (cf_token form)) in
    let! _ := se_lift (ok_or (prefix_str pubkey 8) ClaimPanic) in
    let! cookie_value := claim_lift (claim_session now cfg tenant_id email pubkey) in
    let! info := claim_read (get_claim_info pubkey tenant_id) in
    let '(username, display_name) := default (None, None) info in
    se_ret (cookie_value,
            {| cdp_display_name := html_escape (shown_name username display_name);
               cdp_admin_base_url := html_escape (default "https://admin.synvya.com" admin_base_url) |}).
End claims.

(** ** Escaping is one pass over the text *)
Definition escape_char (c : ascii) : string :=
  if bool_decide (c = "&"%char) then "&amp;" else if bool_decide (c = "<"%char) then "&lt;"
  else if bool_decide (c = ">"%char) then "&gt;" else if bool_decide (c = quote) then "&quot;"
  else if bool_decide (c = "'"%char) then "&#39;" else String c "".
Fixpoint escape_chars (s : string) : string :=
  match s with EmptyString => "" | String c s' => escape_char c +:+ escape_chars s' end.

Lemma replace_app c by_ s t : replace c by_ (s +:+ t) = replace c by_ s +:+ replace c by_ t.
Proof.
  induction s as [|a s IH]; [done|]. simpl. rewrite IH. destruct (bool_decide _); [|done]. by rewrite app_assoc_str.
Qed.

Lemma html_escape_app s t : html_escape (s +:+ t) = html_escape s +:+ html_escape t.
Proof. unfold html_escape. by rewrite !replace_app. Qed.

Lemma html_escape_char c : html_escape (String c "") = escape_char c.
Proof.
  unfold html_escape, escape_char.
  repeat (case_bool_decide; [subst; reflexivity|]).
  simpl. by repeat (rewrite bool_decide_false by done; simpl).
Qed.

Lemma html_escape_eq s : html_escape s = escape_chars s.
Proof.
  induction s as [|c s IH]; [done|]. change (String c s) with (String c "" +:+ s).
  by rewrite html_escape_app, html_escape_char, IH.
Qed.

(** No escape of a character begins the escape of another. *)
Lemma escape_char_prefix a b x y : escape_char a +:+ x = escape_char b +:+ y -> a = b /\ x = y.
Proof.
  unfold escape_char. repeat case_bool_decide; subst; intros E; try discriminate E;
    unfold quote in *; vm_compute in E; (split; [congruence | by injection E]).
Qed.

Lemma escape_char_safe a c :
  c ∈ ["<"%char; ">"%char; quote; "'"%char] -> contains_char c (escape_char a) = false.
Proof.
  intros Hc. unfold escape_char.
  repeat (case_bool_decide; [subst; repeat (apply elem_of_cons in Hc as [->|Hc]; [reflexivity|]); by apply not_elem_of_nil in Hc|]).
  apply not_true_iff_false. unfold contains_char. rewrite contains_spec. intros (p & r & E).
  assert (c = a) as ->. { destruct p as [|? [|? ?]]; cbv in E; congruence. }
  repeat (apply elem_of_cons in Hc as [->|Hc]; [done|]). by apply not_elem_of_nil in Hc.
Qed.

(** What the claim pages write into their templates is safe and faithful: an
    escaped text has no angle bracket and no quote, so it cannot leave the text or
    the quoted attribute it stands in; different texts stay different; and the five
    replacements in sequence are one pass that escapes each character on its own. *)
Theorem html_escape_safe s :
  html_escape s = escape_chars s /\
  (forall c, c ∈ ["<"%char; ">"%char; quote; "'"%char] -> contains_char c (html_escape s) = false) /\
  (forall t, html_escape s = html_escape t -> s = t).
Proof.
  split; [apply html_escape_eq|]. rewrite html_escape_eq. split.
  - intros c Hc. induction s as [|a s IH]; [done|]. simpl. by rewrite contains_char_app, escape_char_safe, IH.
  - intros t. rewrite html_escape_eq. revert t. induction s as [|a s IH]; intros [|b t]; [done| | |]; simpl; intros E.
    + exfalso. unfold escape_char in E. by repeat case_bool_decide.
    + exfalso. unfold escape_char in E. by repeat case_bool_decide.
    + apply escape_char_prefix in E as [-> E]. by rewrite (IH t E).
Qed.

(** ** Claiming *)

(** Changing the only row that matches keeps the rows distinct when the changed
    row conflicts with no other. *)
Lemma users_distinct_one p g l :
  users_distinct l = true ->
  (forall u v, u ∈ l -> v ∈ l -> p u = true -> p v = true -> conflicts u v = true) ->
  (forall u v, u ∈ l -> v ∈ l -> p u = true -> p v = false -> conflicts (g u) v = false) ->
  users_distinct (update_where p g l) = true.
Proof.
  induction l as [|w l IH]; [done|]. simpl. intros [Hn Hd]%andb_true_iff Hone Hnew.
  apply negb_true_iff in Hn. rewrite <- not_true_iff_false, existsb_elem in Hn.
  rewrite IH; [|done| |]; [| intros ????; apply Hone; by constructor | intros ????; apply Hnew; by constructor].
  rewrite andb_true_r. apply negb_true_iff. rewrite <- not_true_iff_false, existsb_elem.
  intros (v & Hv & Hc). apply Hn. apply update_where_elem in Hv as [(v' & Hv' & Hp & ->)|[Hv' Hp]].
  - exists v'. split; [done|]. destruct (p w) eqn:Ew; [apply Hone; [by left|by right|done|done]|].
    rewrite conflicts_sym, Hnew in Hc; [done|by right|by left|done|done].
  - exists v. split; [done|]. destruct (p w) eqn:Ew; [|done]. rewrite Hnew in Hc; [done|by left|by right|done|done].
Qed.

Definition unclaimed (pubkey : string) (tenant_id : Z) (u : user_row) : bool :=
  user_in pubkey tenant_id u && is_null (us_email u).
Definition claimed (now : Z) (email hash : string) (u : user_row) : user_row :=
  us_touch now (us_set_email_verified true (us_set_password_hash (Some hash) (us_set_email (Some email) u))).
Definition claimed_users (now : Z) (pubkey : string) (tenant_id : Z) (email hash : string) (d : Db) : Db :=
  set_users (update_where (unclaimed pubkey tenant_id) (claimed now email hash) (db_users d)) d.

Lemma claimed_conflicts now email hash tenant_id d u v :
  users_distinct (db_users d) = true -> u ∈ db_users d -> v ∈ db_users d -> us_tenant_id u = tenant_id ->
  email_exists email tenant_id d = false -> u <> v -> conflicts (claimed now email hash u) v = false.
Proof.
  intros Hd Hu Hv Ht Hfree Hne. destruct (conflicts u v) eqn:Hc; [by destruct Hne; apply (users_distinct_same _ _ _ Hd Hu Hv)|].
  unfold conflicts, same_in_tenant in *. cbn [claimed us_touch us_set_email_verified us_set_password_hash us_set_email
    us_pubkey us_tenant_id us_email us_username us_vine_id] in *.
  repeat match goal with H : (_ || _) = false |- _ => apply orb_false_iff in H as [H ?] end.
  repeat (apply orb_false_iff; split); try done.
  unfold email_exists in Hfree. rewrite <- not_true_iff_false, existsb_elem in Hfree.
  apply not_true_iff_false. intros Hm. apply Hfree. exists v. split; [done|]. apply email_in_spec.
  apply andb_true_iff in Hm as [[Hm%Z.eqb_eq _]%andb_true_iff Hm'%bool_decide_eq_true]. split; congruence.
Qed.

Lemma claim_account_run now tenant_id email hash d u :
  users_distinct (db_users d) = true -> u ∈ db_users d -> us_tenant_id u = tenant_id -> us_email u = None ->
  email_exists email tenant_id d = false ->
  users_distinct (db_users (claimed_users now (us_pubkey u) tenant_id email hash d)) = true /\
  claim_account now (us_pubkey u) tenant_id email hash d = (claimed_users now (us_pubkey u) tenant_id email hash d, Ok tt).
Proof.
  intros Hd Hu Ht He Hfree.
  assert (Hsel : unclaimed (us_pubkey u) tenant_id u = true).
  { unfold unclaimed. rewrite He, andb_true_r. by apply user_in_spec. }
  assert (Hd' : users_distinct (db_users (claimed_users now (us_pubkey u) tenant_id email hash d)) = true).
  { apply users_distinct_one; [done| |].
    - intros v w _ _ [[Ev _]%user_in_spec _]%andb_true_iff [[Ew _]%user_in_spec _]%andb_true_iff.
      apply conflicts_pubkey. congruence.
    - intros v w Hv Hw Hpv Hpw. apply (claimed_conflicts now email hash tenant_id d); try done.
      + by apply andb_true_iff in Hpv as [[_ ?]%user_in_spec _].
      + intros ->. congruence. }
  split; [done|]. unfold claim_account, update_users, se_bind. unfold claimed_users in Hd'. simpl in Hd'.
  change (fun u0 => us_touch now _) with (claimed now email hash). change (fun u0 => user_in _ _ u0 && _) with (unclaimed (us_pubkey u) tenant_id).
  rewrite Hd'.
  destruct (length _ =? 0)%nat eqn:El; [|done]. apply Nat.eqb_eq, length_zero_iff_nil in El.
  exfalso. assert (Hin : u ∈ []); [|by apply not_elem_of_nil in Hin].
  rewrite <- El. apply list_elem_of_In, filter_In. split; [by apply list_elem_of_In | done].
Qed.

Section claims_safety.
Context `{HN : Nostr, HC : !NostrCrypto, HS : !Serde, HX : !Secrets, HB : Bcrypt, HD : Digests, HE : !Encodings,
          HV : !HttpEvents, HU : UcanLib, HM : !UcanMint, HL : UrlLib, HUni : Unicode, HI : Ipv6, HCh : Channel,
          HLS : LoginSerde}.

(** A token that was marked is never valid again. *)
Lemma marked_invalid now now' token d :
  claim_find_valid now' token (db_claim_tokens (fst (mark_claimed now token d))) = None.
Proof.
  unfold mark_claimed, claim_mark_used. simpl. apply find_first_None.
  intros c [(b & _ & _ & ->)|[_ Hn]]%update_where_elem; unfold claim_valid; simpl.
  - by rewrite !andb_false_r.
  - unfold claim_unused in Hn. destruct (bool_decide (ct_token c = token)); simpl in *; [|done]. by rewrite Hn, andb_false_r.
Qed.

(** The row of the account after the claim, and that it is found by its new
    credentials. *)
Lemma claimed_account_at now token tenant_id email hash d u keys :
  account_at d tenant_id u keys -> us_email u = None -> email_exists email tenant_id d = false ->
  let d' := fst (mark_claimed now token (claimed_users now (us_pubkey u) tenant_id email hash d)) in
  account_at d' tenant_id (claimed now email hash u) keys.
Proof.
  intros [Hd Hu Ht Hk] He Hfree d'.
  destruct (claim_account_run now tenant_id email hash d u Hd Hu Ht He Hfree) as [Hd' _].
  assert (Hrow : claimed now email hash u ∈ db_users d').
  { apply update_where_elem. left. exists u. split_and!; [done| |done]. unfold unclaimed. rewrite He, andb_true_r. by apply user_in_spec. }
  split; [done|done|done|]. destruct Hk as (enc & bytes & Hf & ?). exists enc, bytes. split; [|done].
  rewrite <- Hf. unfold find_encrypted_key_for_tenant. simpl. apply find_map_ext. intros k.
  rewrite existsb_update; [done|]. by intros v.
Qed.

(** [C30] A claim link hands over the account it was made for, once.  The holder of a
    link that has neither expired nor been used, for an account without an email,
    who fills the form in properly with an email that is free, gets a session; from
    then on that email, in any case, and the chosen password sign in to the claimed
    key, and the link is refused for good, whatever the form says. *)
Theorem claimed_account_signs_in `{HBL : !BcryptLaws} now now' cfg tenant_id salt base form ct u keys server hash q body email s :
  account_at (ac_db s) tenant_id u keys -> us_email u = None ->
  claim_find_valid now (cf_token form) (db_claim_tokens (ac_db s)) = Some ct -> ct_user_pubkey ct = us_pubkey u ->
  check_form (to_lowercase (cf_email form)) form = Ok tt ->
  email_exists (to_lowercase (cf_email form)) tenant_id (ac_db s) = false ->
  bcrypt_hash DEFAULT_COST salt (cf_password form) = Ok hash ->
  is_Some (prefix_str (us_pubkey u) 8) -> is_ok (pk_from_hex (us_pubkey u)) = true ->
  claim_server_keys cfg = Ok server -> mints server -> mints keys ->
  to_lowercase email = to_lowercase (cf_email form) -> login_request q body email (cf_password form) ->
  exists s' cookie page,
    claim_post now cfg tenant_id salt base form s = (s', Ok (cookie, page)) /\
    (exists cookie' session, login now' cfg tenant_id q body s' = (s', Ok (cookie', session)) /\
       ar_pubkey session = us_pubkey u) /\
    (forall later salt' base' form', cf_token form' = cf_token form ->
       claim_post later cfg tenant_id salt' base' form' s' = (s', Err (ClaimFailed CE_InvalidToken))).
Proof.
  intros Ha He Hct Hpk Hform Hfree Hhash [shown Hslice] [pk Hpkhex]%is_ok_Ok Hserver Hms Hmk Hemail Hq.
  destruct (claim_account_run now tenant_id _ hash _ u (at_distinct _ _ _ _ Ha) (at_user _ _ _ _ Ha) (at_tenant _ _ _ _ Ha) He Hfree)
    as [_ Hrun].
  pose proof (claimed_account_at now (cf_token form) tenant_id _ hash _ u keys Ha He Hfree) as Ha'.
  set (d1 := claimed_users _ _ _ _ _ _) in *. set (d' := fst (mark_claimed now (cf_token form) d1)) in *.
  assert (Hpost : exists cookie page, claim_post now cfg tenant_id salt base form s = (set_ac_db d' s, Ok (cookie, page))).
  { unfold claim_post, claim_read, claim_lift, claim_repo, se_gets, se_lift, se_bind at 1 2 3 4 5. rewrite Hct. cbn [ok_or map_err].
    rewrite Hpk, Hform. cbn [map_err]. rewrite Hfree, Hhash. cbn [map_err]. unfold se_bind at 1. rewrite Hrun. cbn [map_err].
    unfold se_bind, claim_session. change (mark_claimed now (cf_token form) (ac_db (set_ac_db d1 s)))
      with (d', @Ok (option ClaimToken) RepositoryError (snd (claim_mark_used now (cf_token form) (db_claim_tokens d1)))).
    cbn [map_err]. rewrite Hslice. cbn [ok_or]. rewrite Hpkhex. cbn [map_err rbind]. rewrite Hserver. cbn [rbind].
    unfold generate_server_signed_ucan. cbn [with_server_keys cfg_server_keys].
    match goal with |- context [ucan_mint ?n server ?a ?l ?f] => destruct (is_ok_Ok _ (Hms n a l f)) as [t ->] end.
    cbn [map_err rbind]. destruct (default (None, None) _) as [username display_name]. eauto. }
  destruct Hpost as (cookie & page & Hpost). exists (set_ac_db d' s), cookie, page. split; [done|]. split.
  - apply (login_succeeds now' cfg tenant_id q body email (cf_password form) (set_ac_db d' s)
      (claimed now (to_lowercase (cf_email form)) hash u) keys); [done| |done|done].
    split; [apply (at_user _ _ _ _ Ha')|]. split; [apply (at_tenant _ _ _ _ Ha)|]. rewrite Hemail. repeat split.
    exists hash. split; [done|]. by eapply bcrypt_hash_verifies.
  - intros later salt' base' form' Htok. unfold claim_post, claim_read, claim_lift, se_gets, se_lift, se_bind at 1 2.
    change (ac_db (set_ac_db d' s)) with d'. unfold d'. by rewrite Htok, marked_invalid.
Qed.
End claims_safety.

(** ** Witness: a preloaded account with its key and a claim link *)
Definition preloaded_db : Db :=
  set_claim_tokens (fst (claim_create 0 "link" "Pclaimant" (Some "Padmin") 1 empty_table))
    (set_personal_keys [{| pk_user_pubkey := "Pclaimant"; pk_encrypted_secret_key := bytes_of "claimant"; pk_tenant_id := 1 |}]
       (set_users [us_set_username (Some "ann") (new_user 0 "Pclaimant" 1);
                   us_set_email (Some "u@b.c") (new_user 0 "Pu" 1)] empty_db)).
Definition ann_claims : ClaimForm := {|
  cf_token := "link"; cf_email := "Ann@b.c"; cf_password := "longsecret"; cf_password_confirmation := "longsecret" |}.

Lemma claimed_account_signs_in_witness :
  exists s' cookie page,
    claim_post 10 toy_account_config 1 "salt" None ann_claims (state_of preloaded_db) = (s', Ok (cookie, page)) /\
    (exists cookie' session, login 20 toy_account_config 1 (from_app []) "ANN@b.c longsecret" s' = (s', Ok (cookie', session)) /\
       ar_pubkey session = "Pclaimant").
Proof.
  destruct (claimed_account_signs_in 10 20 toy_account_config 1 "salt" None ann_claims
    {| ct_id := 1; ct_token := "link"; ct_user_pubkey := "Pclaimant"; ct_expires_at := days CLAIM_TOKEN_EXPIRY_DAYS;
       ct_used_at := None; ct_created_at := 0; ct_created_by_pubkey := Some "Padmin"; ct_tenant_id := 1 |}
    (us_set_username (Some "ann") (new_user 0 "Pclaimant" 1)) "claimant" "server" "Hlongsecret" (from_app [])
    "ANN@b.c longsecret" "ANN@b.c" (state_of preloaded_db)) as (s' & cookie & page & Hc & Hl & _).
  - split; [vm_compute; reflexivity | left | reflexivity|]. exists (bytes_of "claimant"), (bytes_of "claimant").
    split; [vm_compute; reflexivity|]. split; vm_compute; reflexivity.
  - reflexivity.
  - vm_compute. reflexivity.
  - reflexivity.
  - vm_compute. reflexivity.
  - vm_compute. reflexivity.
  - reflexivity.
  - vm_compute. eexists. reflexivity.
  - vm_compute. reflexivity.
  - vm_compute. reflexivity.
  - by intros now aud life facts.
  - by intros now aud life facts.
  - vm_compute. reflexivity.
  - split; [by intros h|]. split; [by eexists | reflexivity].
  - exists s', cookie, page. exact (conj Hc Hl).
Defined.
