(* ===== verification/Headless.v ===== *)
(** * Native applications

    api/src/api/http/headless.rs, registration, login and authorization without a
    browser, and the polling endpoint of api/src/api/http/oauth.rs.  Keys, codes
    and tokens that are drawn are arguments; bcrypt's join errors do not occur. *)
From S2P Require Import Prelude RustStr External Instances Database Samples Tokens Permissions Policies AuthTypes Ucan HttpRpc OAuthRepo Users OAuth OAuthSafety WorkQueue Queues RateLimit Tenant Nip98 Accounts AccountKeys AccountsSafety CustomerRepo Customers Authorize.

(** ** Errors *)
Inductive HeadlessError : Type :=
| HE_TooManyRequests
| HE_Unauthorized
| HE_EmailNotVerified
| HE_InvalidRequest (msg : string)
| HE_Conflict (msg : string)
| HE_Internal (msg : string)
| HE_ServiceUnavailable (message : string) (retry_after : option Z).

(** Status, message, code and Retry-After. *)
Definition headless_response (e : HeadlessError) : Z * string * string * option Z :=
  match e with
  | HE_TooManyRequests => (429, "Too many requests. Please try again later.", "TOO_MANY_REQUESTS", None)
  | HE_Unauthorized => (401, "Invalid email or password", "INVALID_CREDENTIALS", None)
  | HE_EmailNotVerified => (403, "Please verify your email address before signing in", "EMAIL_NOT_VERIFIED", None)
  | HE_InvalidRequest msg => (400, msg, "INVALID_REQUEST", None)
  | HE_Conflict msg => (409, msg, "CONFLICT", None)
  | HE_Internal _ => (500, "Internal server error", "INTERNAL_ERROR", None)
  | HE_ServiceUnavailable message retry_after => (503, message, "SERVICE_UNAVAILABLE", retry_after)
  end.

Definition headless_of_repository (e : RepositoryError) : HeadlessError :=
  match e with
  | RE_Duplicate => HE_Conflict "Resource already exists"
  | RE_NotFound msg => HE_InvalidRequest msg
  | _ => HE_Internal (repository_error_str e)
  end.

(** ** Requests and responses *)
Record HeadlessRegisterRequest : Type := {
  hr_email : string; hr_password : string; hr_client_id : string; hr_redirect_uri : string; hr_nsec : option string;
  hr_scope : option string; hr_code_challenge : option string; hr_code_challenge_method : option string;
  hr_state : option string;
}.
Record HeadlessRegisterResponse : Type := {
  hrr_success : bool; hrr_pubkey : string; hrr_verification_required : bool; hrr_device_code : string;
  hrr_email : string;
}.
Record HeadlessLoginRequest : Type := {
  hl_email : string; hl_password : string; hl_client_id : string; hl_redirect_uri : string; hl_scope : option string;
  hl_code_challenge : option string; hl_code_challenge_method : option string; hl_state : option string;
}.
Record HeadlessLoginResponse : Type := {
  hlr_success : bool; hlr_code : string; hlr_pubkey : string; hlr_state : option string;
}.
Record HeadlessAuthorizeRequest : Type := {
  hz_client_id : string; hz_redirect_uri : string; hz_scope : option string; hz_code_challenge : option string;
  hz_code_challenge_method : option string; hz_state : option string;
}.
Record HeadlessAuthorizeResponse : Type := { hzr_success : bool; hzr_code : string; hzr_state : option string }.

Section headless.
Context `{HN : Nostr, HC : !NostrCrypto, HS : !Serde, HX : !Secrets, HB : Bcrypt, HD : Digests, HE : !Encodings,
          HV : !HttpEvents, HU : UcanLib, HM : !UcanMint, HL : UrlLib, HUni : Unicode, HI : Ipv6, HCh : Channel,
          HLS : LoginSerde, HOD : OAuthDebug}.

Notation HM_ A := (SE account_state HeadlessError A).

Definition headless_read {A} (f : Db -> A) : HM_ A := se_gets (fun s => f (ac_db s)).
Definition headless_repo {A} (f : Db -> Db * result A RepositoryError) : HM_ A := fun s =>
  let '(d, r) := f (ac_db s) in (set_ac_db d s, map_err headless_of_repository r).

(** The Debug text of an error of the OAuth endpoint; its functions that are
    called here do not panic. *)
Definition debug_text (e : oauth_abort) : string := match e with Returned e => oauth_debug e | Panicked => "" end.

Definition check_redirect (redirect_uri : string) : HM_ string :=
  se_lift (map_err (fun e => HE_InvalidRequest ("Invalid redirect_uri: " +:+ debug_text e)) (extract_origin redirect_uri)).

(** A scope that names a policy must name one that exists. *)
Definition check_scope (scope : string) : HM_ unit :=
  if starts_with "policy:" scope then
    let! policy_slug := se_lift (map_err (fun e => HE_InvalidRequest (debug_text e)) (parse_policy_scope scope)) in
    let! found := headless_read (fun d => policy_find_by_slug d policy_slug) in
    match found with
    | Ok _ => se_ret tt
    | Err _ => se_fail (HE_InvalidRequest ("Unknown policy '" +:+ policy_slug +:+ "'"))
    end
  else se_ret tt.

(** What a registration draws. *)
Record register_draw : Type := {
  rd_key : SecretKey; rd_device_code : string; rd_verification_token : string; rd_salt : string;
  rd_placeholder_code : string;
}.

Definition headless_limit (now : Z) (cfg : account_config) (q : http_request) (tenant_id : Z) (email : string) : HM_ unit :=
  fun s =>
  let '(r, allowed) := allow_request now (ae_redis (acf_auth cfg)) (ip_limit_per_hour (acf_ip_limit cfg))
                         "headless_register" tenant_id (header_text "x-forwarded-for" q) (Some email) (ac_redis s) in
  (set_ac_redis r s, if allowed then Ok tt else Err HE_TooManyRequests).

Definition headless_mail (cfg : account_config) (m : mail) : HM_ unit := se_modify (fun s =>
  if acf_email_service cfg
  then {| ac_oauth := ac_oauth s; ac_redis := ac_redis s; ac_jobs := ac_jobs s; ac_mail := ac_mail s ++ [m] |}
  else s).

Definition headless_register (now : Z) (cfg : account_config) (tenant_id : Z) (q : http_request) (dr : register_draw)
    (req : HeadlessRegisterRequest) : HM_ HeadlessRegisterResponse :=
  let email := to_lowercase (hr_email req) in
  let! _ := headless_limit now cfg q tenant_id email in
  let! _ := check_redirect (hr_redirect_uri req) in
  let scope := default "policy:full" (hr_scope req) in
  let! _ := check_scope scope in
  let! keys := (match hr_nsec req with
                | Some nsec_str => se_lift (map_err (fun e => HE_InvalidRequest ("Invalid nsec or secret key: " +:+ e
                    +:+ ". Please provide a valid nsec (bech32) or hex secret key.")) (keys_parse nsec_str))
                | None => se_ret (rd_key dr)
                end) in
  let public_key := pk_to_hex (pk_of keys) in
  let! known := headless_read (user_exists public_key tenant_id) in
  if negb (is_null (hr_nsec req)) && known then
    se_fail (HE_Conflict "This Nostr key is already registered. Please log in instead or use a different key.")
  else
    let! taken := headless_read (find_pubkey_by_email email tenant_id) in
    if negb (is_null taken) then se_fail (HE_Conflict "This email is already registered. Please log in instead.")
    else
      let! encrypted_secret := se_lift (map_err (fun e => HE_Internal ("Encryption error: " +:+ e))
                                          (km_encrypt (sk_to_bytes keys))) in
      let! password_hash := se_lift (map_err (fun e => HE_Internal ("Password hash error: " +:+ e))
                                       (bcrypt_hash DEFAULT_COST (rd_salt dr) (hr_password req))) in
      let! _ := headless_repo (store_with_pending_registration now {|
        rp_tenant_id := tenant_id; rp_code := rd_placeholder_code dr; rp_user_pubkey := public_key;
        rp_client_id := hr_client_id req; rp_redirect_uri := hr_redirect_uri req; rp_scope := scope;
        rp_code_challenge := hr_code_challenge req; rp_code_challenge_method := hr_code_challenge_method req;
        rp_expires_at := now + EMAIL_VERIFICATION_EXPIRY_HOURS * 3600; rp_pending_email := email;
        rp_pending_password_hash := password_hash; rp_pending_email_verification_token := rd_verification_token dr;
        rp_pending_encrypted_secret := Some encrypted_secret; rp_state := hr_state req;
        rp_device_code := Some (rd_device_code dr); rp_is_headless := true |}) in
      let! _ := headless_mail cfg (VerificationMail email (rd_verification_token dr)) in
      se_ret {| hrr_success := true; hrr_pubkey := public_key; hrr_verification_required := true;
                hrr_device_code := rd_device_code dr; hrr_email := email |}.

(** The code of a signed-in user, for ten minutes. *)
Definition store_headless_code (now tenant_id : Z) (code user_pubkey client_id redirect_uri scope : string)
    (code_challenge code_challenge_method state : option string) : HM_ unit :=
  headless_repo (oauth_code_store now {| sp_tenant_id := tenant_id; sp_code := code; sp_user_pubkey := user_pubkey;
    sp_client_id := client_id; sp_redirect_uri := redirect_uri; sp_scope := scope;
    sp_code_challenge := code_challenge; sp_code_challenge_method := code_challenge_method;
    sp_expires_at := now + 10 * 60; sp_previous_auth_id := None; sp_state := state; sp_is_headless := true |}).

Definition headless_login (now tenant_id : Z) (code : string) (req : HeadlessLoginRequest) : HM_ HeadlessLoginResponse :=
  let email := to_lowercase (hl_email req) in
  let! _ := check_redirect (hl_redirect_uri req) in
  let! user := headless_read (find_with_password email tenant_id) in
  match user with
  | None => se_fail HE_Unauthorized
  | Some (public_key, password_hash, email_verified) =>
      let! valid := se_lift (map_err (fun _ => HE_Internal "Password verification failed")
                               (bcrypt_check (hl_password req) password_hash)) in
      if negb valid then se_fail HE_Unauthorized
      else if negb email_verified then se_fail HE_EmailNotVerified
      else
        let! _ := store_headless_code now tenant_id code public_key (hl_client_id req) (hl_redirect_uri req)
                    (default "policy:full" (hl_scope req)) (hl_code_challenge req) (hl_code_challenge_method req)
                    (hl_state req) in
        se_ret {| hlr_success := true; hlr_code := code; hlr_pubkey := public_key; hlr_state := hl_state req |}
  end.

Definition headless_authorize (now : Z) (cfg : account_config) (tenant_id : Z) (q : http_request) (code : string)
    (req : HeadlessAuthorizeRequest) : HM_ HeadlessAuthorizeResponse :=
  let! user_pubkey := se_lift (map_err (fun _ => HE_Unauthorized) (extract_user_from_token now cfg q tenant_id)) in
  let! _ := check_redirect (hz_redirect_uri req) in
  let! _ := store_headless_code now tenant_id code user_pubkey (hz_client_id req) (hz_redirect_uri req)
              (default "policy:full" (hz_scope req)) (hz_code_challenge req) (hz_code_challenge_method req)
              (hz_state req) in
  se_ret {| hzr_success := true; hzr_code := code; hzr_state := hz_state req |}.

(** ** Polling for the code of a verified registration *)
Inductive poll_response : Type := PollCode (code : string) | PollPending.

Definition valid_device_code (device_code : string) : bool :=
  (len device_code <=? 128)
  && all_bytes (fun c => is_ascii_alphanumeric c || bool_decide (c = "-"%char) || bool_decide (c = "_"%char)) device_code.

Definition poll (now : Z) (redis : option redis_link) (device_code : string) : SE account_state oauth_abort poll_response :=
  if negb (valid_device_code device_code) then se_lift (invalid "Invalid device_code parameter")
  else match redis with
  | None => se_fail (Returned (OE_ServerError "Service temporarily unavailable"))
  | Some l => fun s =>
      if rl_up l then
        match redis_get now (link_key l (poll_key device_code)) (ac_redis s) with
        | Some code => (set_ac_redis (redis_del (link_key l (poll_key device_code)) (ac_redis s)) s, Ok (PollCode code))
        | None => (s, Ok PollPending)
        end
      else (s, Err (Returned (OE_ServerError "Service temporarily unavailable")))
  end.
End headless.
