(* ===== verification/HeadlessSafety.v ===== *)
(** * Properties of the endpoints for native applications

    A registration leads, over the verification link and the poll, to a code and
    a login; and any session obtains a code for any policy. *)
From S2P Require Import Prelude RustStr External Instances Database Samples Tokens Permissions Policies AuthTypes Ucan HttpRpc OAuthRepo Users UsersSafety OAuth OAuthSafety WorkQueue Queues RateLimit Tenant Nip98 Accounts AccountKeys AccountsSafety CustomerRepo Customers Authorize Headless.

Section headless_safety.
Context `{HN : Nostr, HC : !NostrCrypto, HS : !Serde, HX : !Secrets, HB : Bcrypt, HD : Digests, HE : !Encodings,
          HV : !HttpEvents, HU : UcanLib, HM : !UcanMint, HL : UrlLib, HUni : Unicode, HI : Ipv6, HCh : Channel,
          HLS : LoginSerde, HOD : OAuthDebug}.

Lemma headless_repo_ok {A} (f : Db -> Db * result A RepositoryError) s s' a :
  headless_repo f s = (s', Ok a) -> exists d, f (ac_db s) = (d, Ok a) /\ s' = set_ac_db d s.
Proof. unfold headless_repo. destruct (f (ac_db s)) as [d r]. intros [= <- H]. apply map_err_ok in H as ->. eauto. Qed.

Lemma insert_code_ok row d d' x :
  insert_code row d = (d', Ok x) ->
  d' = set_oauth_codes (db_oauth_codes d ++ [row]) d /\ Forall (fun r => oc_code r <> oc_code row) (db_oauth_codes d).
Proof.
  unfold insert_code. destruct (existsb _ _) eqn:E; [done|]. intros [= <- _]. split; [done|].
  apply Forall_forall. intros r Hr Hc. rewrite <- not_true_iff_false, existsb_elem in E. apply E. exists r.
  split; [done|]. by apply bool_decide_true.
Qed.

Lemma insert_code_fresh row d :
  Forall (fun r => oc_code r <> oc_code row) (db_oauth_codes d) ->
  insert_code row d = (set_oauth_codes (db_oauth_codes d ++ [row]) d, Ok tt).
Proof.
  intros Hf. unfold insert_code. replace (existsb _ _) with false; [done|]. symmetry. apply existsb_false.
  intros r Hr. rewrite Forall_forall in Hf. apply bool_decide_false. by apply Hf.
Qed.

(** The code a registration leaves behind. *)
Definition pending_code (now tenant_id : Z) (dr : register_draw) (req : HeadlessRegisterRequest) (pubkey hash : string)
    (enc : list Z) : oauth_code_row := {|
  oc_tenant_id := tenant_id; oc_code := rd_placeholder_code dr; oc_user_pubkey := pubkey;
  oc_client_id := hr_client_id req; oc_redirect_uri := hr_redirect_uri req;
  oc_scope := default "policy:full" (hr_scope req);
  oc_code_challenge := hr_code_challenge req; oc_code_challenge_method := hr_code_challenge_method req;
  oc_expires_at := now + 86400; oc_created_at := now; oc_previous_auth_id := None;
  oc_state := hr_state req; oc_is_headless := true; oc_pending_email := Some (to_lowercase (hr_email req));
  oc_pending_password_hash := Some hash; oc_pending_email_verification_token := Some (rd_verification_token dr);
  oc_pending_encrypted_secret := Some enc; oc_device_code := Some (rd_device_code dr) |}.

Lemma headless_register_ok now cfg tenant_id q dr req s s1 resp :
  headless_register now cfg tenant_id q dr req s = (s1, Ok resp) ->
  exists keys enc hash,
    hrr_pubkey resp = pk_to_hex (pk_of keys) /\ hrr_device_code resp = rd_device_code dr /\
    km_encrypt (sk_to_bytes keys) = Ok enc /\ bcrypt_hash DEFAULT_COST (rd_salt dr) (hr_password req) = Ok hash /\
    find_pubkey_by_email (to_lowercase (hr_email req)) tenant_id (ac_db s) = None /\
    Forall (fun r => oc_code r <> rd_placeholder_code dr) (db_oauth_codes (ac_db s)) /\
    ac_db s1 = set_oauth_codes (db_oauth_codes (ac_db s) ++ [pending_code now tenant_id dr req (hrr_pubkey resp) hash enc]) (ac_db s).
Proof.
  unfold headless_register. intros H.
  apply se_bind_ok in H as (sa & [] & Hlim & H).
  assert (Ea : ac_db sa = ac_db s).
  { unfold headless_limit in Hlim. destruct (allow_request _ _ _ _ _ _ _ _) as [r []]; [|done]. by injection Hlim as <-. }
  apply se_bind_ok in H as (sb & o & [-> _]%se_lift_ok & H).
  apply se_bind_ok in H as (sc & [] & Hscope & H).
  assert (sc = sa) as ->.
  { unfold check_scope in Hscope. destruct (starts_with _ _); [|by injection Hscope as <-].
    apply se_bind_ok in Hscope as (? & slug & [-> _]%se_lift_ok & Hscope).
    apply se_bind_ok in Hscope as (? & found & [-> _]%se_gets_ok & Hscope). destruct found; [|done]. by injection Hscope as <-. }
  apply se_bind_ok in H as (sd & keys & Hkeys & H).
  assert (sd = sa) as ->. { destruct (hr_nsec req); [by apply se_lift_ok in Hkeys as [-> _] | by injection Hkeys as <-]. }
  apply se_bind_ok in H as (? & known & [-> _]%se_gets_ok & H). destruct (negb _ && known); [done|].
  apply se_bind_ok in H as (? & taken & [-> Htaken]%se_gets_ok & H). destruct taken; [done|]. cbn [is_null negb] in H.
  apply se_bind_ok in H as (? & enc & [-> Henc%map_err_ok]%se_lift_ok & H).
  apply se_bind_ok in H as (? & hash & [-> Hhash%map_err_ok]%se_lift_ok & H).
  apply se_bind_ok in H as (? & [] & (d & [-> Hfresh]%insert_code_ok & ->)%headless_repo_ok & H).
  apply se_bind_ok in H as (? & [] & Hm & H). injection Hm as <-. injection H as <- <-.
  exists keys, enc, hash. rewrite Ea in *. split_and!; try done.
  destruct (acf_email_service cfg); unfold pending_code; simpl; by rewrite ?Ea.
Qed.

(** The user the verification link creates, and the code it stores. *)
Definition verified_row (now tenant_id : Z) (dr : register_draw) (req : HeadlessRegisterRequest) (pubkey hash : string)
  : user_row :=
  us_set_verification (Some (rd_verification_token dr)) None (us_set_email_verified true (us_set_password_hash (Some hash)
    (us_set_email (Some (to_lowercase (hr_email req))) (new_user now pubkey tenant_id)))).
Definition verified_code (now tenant_id : Z) (dr : register_draw) (req : HeadlessRegisterRequest) (pubkey new_code : string)
  : StoreOAuthCodeParams := {|
  sp_tenant_id := tenant_id; sp_code := new_code; sp_user_pubkey := pubkey; sp_client_id := hr_client_id req;
  sp_redirect_uri := hr_redirect_uri req; sp_scope := default "policy:full" (hr_scope req);
  sp_code_challenge := hr_code_challenge req; sp_code_challenge_method := hr_code_challenge_method req;
  sp_expires_at := now + 600; sp_previous_auth_id := None; sp_state := hr_state req; sp_is_headless := true |}.

Lemma verified_row_fresh now tenant_id dr req pubkey hash d :
  pubkey ∉ user_keys d -> find_pubkey_by_email (to_lowercase (hr_email req)) tenant_id d = None ->
  existsb (conflicts (verified_row now tenant_id dr req pubkey hash)) (db_users d) = false.
Proof.
  intros Hk He. apply existsb_false. intros v Hv. unfold conflicts, same_in_tenant. simpl. rewrite !andb_false_r, !orb_false_r.
  apply orb_false_iff. split.
  - apply bool_decide_false. intros ->. apply Hk, list_elem_of_fmap. eauto.
  - apply not_true_iff_false. intros [[Ht%Z.eqb_eq _]%andb_true_iff Hm%bool_decide_eq_true]%andb_true_iff.
    unfold find_pubkey_by_email in He. apply fmap_None in He. rewrite find_first_None in He. specialize (He v Hv).
    by rewrite <- Hm, <- Ht, Z.eqb_refl, bool_decide_true in He.
Qed.

(** Creating the user of a pending registration, with the stored key. *)
Lemma create_pending_runs now tenant_id dr req pubkey hash enc s data :
  cd_user_pubkey data = pubkey -> cd_pending_encrypted_secret data = Some enc ->
  pubkey ∉ user_keys (ac_db s) -> find_pubkey_by_email (to_lowercase (hr_email req)) tenant_id (ac_db s) = None ->
  create_pending_user now tenant_id (rd_verification_token dr) (to_lowercase (hr_email req)) hash data s =
    (set_ac_db (insert_personal_key pubkey enc tenant_id
       (set_users (db_users (ac_db s) ++ [verified_row now tenant_id dr req pubkey hash]) (ac_db s))) s, Ok tt).
Proof.
  intros Hpk Hsec Hk He. unfold create_pending_user, read_db, se_gets, se_bind at 1. rewrite Hpk, Hsec.
  replace (user_exists pubkey tenant_id (ac_db s)) with false.
  2: { symmetry. apply existsb_false. intros v Hv. apply not_true_iff_false. intros [E _]%user_in_spec.
       apply Hk, list_elem_of_fmap. exists v. by rewrite E. }
  unfold atomically, se_bind, insert_user_row, insert_user.
  change (us_set_verification _ _ _) with (verified_row now tenant_id dr req pubkey hash).
  rewrite verified_row_fresh by done. unfold insert_key_row, personal_keys_create.
  replace (fk_user pubkey _) with true; [done|].
  symmetry. apply fk_user_spec. unfold user_keys. simpl. rewrite map_app. apply elem_of_app. right. constructor.
Qed.

(** Following the verification link of a native application. *)
Lemma headless_verify_runs now now2 cfg tenant_id q2 dr req pubkey hash enc l new_code d s :
  ac_db s = set_oauth_codes (db_oauth_codes d ++ [pending_code now tenant_id dr req pubkey hash enc]) d ->
  pubkey ∉ user_keys d -> find_pubkey_by_email (to_lowercase (hr_email req)) tenant_id d = None ->
  Forall (fun r => oc_pending_email_verification_token r <> Some (rd_verification_token dr)) (db_oauth_codes d) ->
  Forall (fun r => oc_code r <> new_code) (db_oauth_codes d) -> new_code <> rd_placeholder_code dr ->
  ae_redis (acf_auth cfg) = Some l -> rl_up l = true -> now2 < now + 86400 ->
  exists s2 r d2,
    verify_email now2 cfg tenant_id q2 new_code (rd_verification_token dr) s = (s2, Ok (None, r)) /\ ve_success r = true /\
    oauth_code_store now2 (verified_code now2 tenant_id dr req pubkey new_code)
      (insert_personal_key pubkey enc tenant_id (set_users (db_users d ++ [verified_row now2 tenant_id dr req pubkey hash]) d))
      = (d2, Ok tt) /\
    ac_db s2 = d2 /\
    ac_redis s2 = redis_setex now2 (link_key l (poll_key (rd_device_code dr))) 600 new_code (ac_redis s).
Proof.
  intros Hdb Hk He Htok Hcode Hne Hredis Hup Hnow.
  set (row := pending_code now tenant_id dr req pubkey hash enc) in *.
  assert (Hfind : find_by_verification_token now2 (rd_verification_token dr) tenant_id (ac_db s) = Some (code_data row)).
  { unfold find_by_verification_token. rewrite Hdb. rewrite (find_first_unique _ _ row); [done| | |].
    - apply elem_of_app. right. by apply list_elem_of_singleton.
    - simpl. rewrite bool_decide_true, Z.eqb_refl by done. by apply Z.ltb_lt.
    - intros b [Hb | ->%list_elem_of_singleton]%elem_of_app Hm; [|done]. exfalso. rewrite Forall_forall in Htok.
      apply (Htok b Hb). by apply andb_true_iff in Hm as [[Hm%bool_decide_eq_true _]%andb_true_iff _]. }
  unfold verify_email, read_db, se_gets, se_bind at 1. rewrite Hfind. unfold se_bind at 1, verify_pending_registration.
  unfold lift_account, se_lift. unfold se_bind at 1. cbn [row pending_code code_data cd_pending_email oc_pending_email ok_or map_err].
  unfold se_bind at 1. cbn [row pending_code code_data cd_pending_password_hash oc_pending_password_hash ok_or map_err].
  unfold se_bind at 1. erewrite (create_pending_runs now2 tenant_id dr req pubkey hash enc s (code_data row)) by (try done; by rewrite Hdb).
  unfold se_bind at 1. cbn [cd_is_headless code_data row pending_code oc_is_headless].
  unfold se_bind at 1. cbn [cd_device_code code_data row pending_code oc_device_code ok_or map_err].
  rewrite Hredis. unfold se_bind at 1. cbn [ok_or map_err]. unfold se_ret at 1.
  unfold se_bind at 1, on_repo at 1. change (ac_db (set_ac_db ?x ?y)) with x.
  match goal with |- context [oauth_code_store now2 ?p ?x] => change p with (verified_code now2 tenant_id dr req pubkey new_code); set (dx := x) end.
  unfold oauth_code_store at 1. rewrite insert_code_fresh.
  2: { subst dx. rewrite Hdb. simpl. apply Forall_app. split; [done|]. constructor; [|done]. simpl. congruence. }
  cbn [map_err]. unfold se_bind at 1 2, deliver_code. rewrite Hup. unfold se_ret at 1.
  unfold se_bind at 1, on_repo, delete_by_verification_token. cbn [map_err]. unfold se_ret.
  eexists _, _, _. split; [reflexivity|]. split; [reflexivity|]. split.
  { unfold oauth_code_store. apply insert_code_fresh. simpl. done. }
  split; [|reflexivity]. change (ac_db (set_ac_db ?x ?y)) with x. subst dx. rewrite Hdb. simpl.
  assert (Hdel : delete_where (fun r => bool_decide (oc_pending_email_verification_token r = Some (rd_verification_token dr))
                   && (oc_tenant_id r =? tenant_id)) (db_oauth_codes d) = db_oauth_codes d).
  { apply delete_none. intros a Ha. rewrite Forall_forall in Htok. by rewrite bool_decide_false by by apply Htok. }
  unfold delete_where in *. rewrite !List.filter_app, Hdel. simpl. rewrite bool_decide_true, Z.eqb_refl by done. simpl.
  by rewrite app_nil_r.
Qed.

(** A login with the password of a verified account stores a code for it. *)
Lemma headless_login_runs `{HBL : !BcryptLaws} now tenant_id code req origin u hash s :
  users_distinct (db_users (ac_db s)) = true -> u ∈ db_users (ac_db s) ->
  us_email u = Some (to_lowercase (hl_email req)) -> us_tenant_id u = tenant_id -> us_email_verified u = true ->
  us_password_hash u = Some hash -> bcrypt_verify (hl_password req) hash = true ->
  extract_origin (hl_redirect_uri req) = Ok origin ->
  Forall (fun r => oc_code r <> code) (db_oauth_codes (ac_db s)) ->
  exists s', headless_login now tenant_id code req s = (s', Ok {| hlr_success := true; hlr_code := code;
    hlr_pubkey := us_pubkey u; hlr_state := hl_state req |}).
Proof.
  intros Hd Hu He Ht Hv Hh Hver Ho Hcode. unfold headless_login, check_redirect, headless_read, se_lift, se_gets, se_bind at 1 2.
  rewrite Ho. cbn [map_err].
  rewrite (find_with_password_unique _ _ _ u hash Hd Hu (proj2 (email_in_spec _ _ _) (conj He Ht)) Hh).
  unfold se_bind at 1. rewrite (proj2 (bcrypt_check_verify _ _) Hver). cbn [map_err negb]. rewrite Hv. cbn [negb].
  unfold se_bind, store_headless_code, headless_repo, oauth_code_store. rewrite insert_code_fresh by done. cbn [map_err].
  unfold se_ret. eauto.
Qed.

(** A native application's registration completes.  After a registration that
    succeeded, following the verification link within the day creates the account
    and leaves a code where the device polls for it: the poll returns that code
    within ten minutes, and only once; the code passes the token endpoint's checks
    and stands for the registered key; and the email, in any case, and the password
    log in to that key. *)
Theorem headless_registration_completes `{HBL : !BcryptLaws} now now2 now3 now4 cfg tenant_id q q2 dr req l new_code v
    code' req' origin s s1 resp :
  integrity (ac_db s) -> headless_register now cfg tenant_id q dr req s = (s1, Ok resp) ->
  hrr_pubkey resp ∉ user_keys (ac_db s) ->
  Forall (fun r => oc_pending_email_verification_token r <> Some (rd_verification_token dr)) (db_oauth_codes (ac_db s)) ->
  Forall (fun r => oc_code r <> new_code) (db_oauth_codes (ac_db s)) -> new_code <> rd_placeholder_code dr ->
  ae_redis (acf_auth cfg) = Some l -> rl_up l = true -> valid_device_code (rd_device_code dr) = true ->
  now2 < now + 86400 -> now3 < now2 + 600 ->
  (forall ch, hr_code_challenge req = Some ch -> validate_pkce v ch (default "plain" (hr_code_challenge_method req)) = Ok tt) ->
  to_lowercase (hl_email req') = to_lowercase (hr_email req) -> hl_password req' = hr_password req ->
  extract_origin (hl_redirect_uri req') = Ok origin ->
  Forall (fun r => oc_code r <> code') (db_oauth_codes (ac_db s)) -> code' <> new_code ->
  exists s2 r s3 s4 data lr,
    verify_email now2 cfg tenant_id q2 new_code (rd_verification_token dr) s1 = (s2, Ok (None, r)) /\ ve_success r = true /\
    poll now3 (Some l) (hrr_device_code resp) s2 = (s3, Ok (PollCode new_code)) /\
    (forall later, poll later (Some l) (hrr_device_code resp) s3 = (s3, Ok PollPending)) /\
    code_grant_check now3 tenant_id {| rq_grant_type := None; rq_code := Some new_code; rq_client_id := hr_client_id req;
      rq_redirect_uri := Some (hr_redirect_uri req); rq_code_verifier := Some v; rq_refresh_token := None |} (ac_db s3)
      = Ok (new_code, data) /\ cd_user_pubkey data = hrr_pubkey resp /\
    headless_login now4 tenant_id code' req' s3 = (s4, Ok lr) /\ hlr_pubkey lr = hrr_pubkey resp.
Proof.
  intros Hint (keys & enc & hash & Hpk & Hdev & Henc & Hhash & Hfree & Hph & Hdb)%headless_register_ok Hk Htok Hcode Hne
    Hredis Hup Hvalid Hn2 Hn3 Hpkce Hemail Hpw Ho Hcode' Hne'.
  set (pubkey := hrr_pubkey resp) in *.
  destruct (headless_verify_runs now now2 cfg tenant_id q2 dr req pubkey hash enc l new_code (ac_db s) s1 Hdb Hk Hfree Htok
    Hcode Hne Hredis Hup Hn2) as (s2 & r & d2 & Hv & Hok & Hstore & Hdb2 & Hred).
  destruct (stored_code_exchangeable now2 now3 _ _ _ v (hr_client_id req) Hstore Hn3 Hpkce) as (data & Hchk & Hdata & _).
  set (key := link_key l (poll_key (rd_device_code dr))) in *.
  set (s3 := set_ac_redis (redis_del key (ac_redis s2)) s2).
  destruct (headless_login_runs now4 tenant_id code' req' origin (verified_row now2 tenant_id dr req pubkey hash) hash s3)
    as [s4 Hl]; try done.
  1-5: apply insert_code_ok in Hstore as [-> _]; change (ac_db s3) with (ac_db s2); rewrite ?Hdb2; simpl.
  - by rewrite users_distinct_app, (int_users _ Hint), verified_row_fresh.
  - apply elem_of_app. right. by apply list_elem_of_singleton.
  - by rewrite Hemail.
  - rewrite Hpw. by eapply bcrypt_hash_verifies.
  - apply Forall_app. split; [done|]. by constructor.
  - exists s2, r, s3, s4, data. eexists. split; [exact Hv|]. split; [done|]. rewrite Hdev. unfold poll. rewrite Hvalid, Hup.
    cbn [negb]. split_and!.
    + fold key. unfold redis_get, live_entry. rewrite Hred. unfold redis_setex. rewrite lookup_insert_eq. unfold entry_live. simpl.
      rewrite (proj2 (Z.ltb_lt now3 (now2 + 600)) Hn3). unfold s3. by rewrite Hred.
    + intros later. fold key. unfold redis_get, live_entry, s3, redis_del. simpl. by rewrite lookup_delete_eq.
    + change (ac_db s3) with (ac_db s2). by rewrite Hdb2.
    + done.
    + exact Hl.
    + done.
Qed.

(** Any session reaches any policy.  The code for another application is given
    to whoever presents a token of the user that is still valid, also an access
    token of an application that was approved for a narrow policy: the handler looks
    at the user of the token alone.  The authorization created with that code is the
    user's and has the policy the request names, full access when it names none. *)
Theorem any_session_reaches_any_policy now now' cfg dr tenant_id q code req user s s' resp treq o tresp :
  extract_user_from_token now cfg q tenant_id = Ok user ->
  headless_authorize now cfg tenant_id q code req s = (s', Ok resp) -> rq_code treq = Some (hzr_code resp) ->
  handle_authorization_code_grant now' (acf_oauth cfg) dr tenant_id treq (ac_oauth s') = (o, Ok tresp) ->
  exists a pid,
    resolve_policy_from_scope (ac_db s) (default "policy:full" (hz_scope req)) = Ok pid /\
    a ∈ rows (db_oauth_authorizations (os_db o)) /\ oa_id a = next_id (db_oauth_authorizations (ac_db s)) /\
    oa_user_pubkey a = user /\ oa_tenant_id a = tenant_id /\ oa_policy_id a = Some pid.
Proof.
  intros Hu H Hcode Hg. unfold headless_authorize in H. rewrite Hu in H.
  apply se_bind_ok in H as (? & u & [-> Hx]%se_lift_ok & H). injection Hx as <-.
  apply se_bind_ok in H as (? & o' & [-> _]%se_lift_ok & H).
  apply se_bind_ok in H as (? & [] & (d & Hs & ->)%headless_repo_ok & H). injection H as <- <-.
  exact (stored_code_grants now now' _ (acf_oauth cfg) dr treq (ac_oauth s) (ac_oauth (set_ac_db d s)) o tresp Hs Hcode Hg).
Qed.
End headless_safety.

(** ** Witnesses *)
#[export] Instance named_errors : OAuthDebug := { oauth_debug _ := "OAuthError" }.
Definition global_policy (id : Z) (slug : string) : Policy := {|
  pol_id := id; pol_name := slug; pol_team_id := None; pol_created_at := 0; pol_updated_at := 0; pol_slug := Some slug;
  pol_display_name := None; pol_description := None |}.
Definition with_global_policies (d : Db) : Db :=
  set_policies {| rows := [global_policy 3 "social"; global_policy 4 "full"]; next_id := 5 |} d.

Definition app_draw : register_draw := {|
  rd_key := "a"; rd_device_code := "device-1"; rd_verification_token := "tok"; rd_salt := "salt";
  rd_placeholder_code := "unused" |}.
Definition app_registers : HeadlessRegisterRequest := {|
  hr_email := "Ann@b"; hr_password := "secret"; hr_client_id := "app"; hr_redirect_uri := "https://app.example";
  hr_nsec := None; hr_scope := None; hr_code_challenge := None; hr_code_challenge_method := None; hr_state := None |}.
Definition app_logs_in : HeadlessLoginRequest := {|
  hl_email := "ANN@b"; hl_password := "secret"; hl_client_id := "app"; hl_redirect_uri := "https://app.example";
  hl_scope := None; hl_code_challenge := None; hl_code_challenge_method := None; hl_state := None |}.
Definition headless_db : Db := with_global_policies account_db.

Lemma headless_registration_completes_witness :
  exists s1 resp s2 r s3 s4 lr,
    headless_register 10 toy_account_config 1 (from_app []) app_draw app_registers (state_of headless_db) = (s1, Ok resp) /\
    verify_email 20 toy_account_config 1 (from_app []) "c0de" "tok" s1 = (s2, Ok (None, r)) /\
    poll 30 (Some toy_link) "device-1" s2 = (s3, Ok (PollCode "c0de")) /\
    headless_login 40 1 "c1" app_logs_in s3 = (s4, Ok lr) /\ hlr_pubkey lr = hrr_pubkey resp.
Proof.
  destruct (run_ok (headless_register 10 toy_account_config 1 (from_app []) app_draw app_registers (state_of headless_db)))
    as (s1 & resp & E); [vm_compute; reflexivity|].
  destruct (headless_registration_completes 10 20 30 40 toy_account_config 1 (from_app []) (from_app []) app_draw app_registers
    toy_link "c0de" "v" "c1" app_logs_in "https://app.example" (state_of headless_db) s1 resp)
    as (s2 & r & s3 & s4 & data & lr & Hv & _ & Hp & _ & _ & _ & Hl & Hpk).
  - split; vm_compute; [reflexivity| set_solver..].
  - exact E.
  - vm_compute in E. injection E as _ <-. vm_compute. set_solver.
  - constructor.
  - constructor.
  - discriminate.
  - reflexivity.
  - reflexivity.
  - vm_compute. reflexivity.
  - lia.
  - lia.
  - discriminate.
  - vm_compute. reflexivity.
  - reflexivity.
  - vm_compute. reflexivity.
  - constructor.
  - discriminate.
  - exists s1, resp, s2, r, s3, s4, lr.
    assert (Hd : hrr_device_code resp = "device-1") by (vm_compute in E; by injection E as _ <-).
    rewrite Hd in Hp. exact (conj E (conj Hv (conj Hp (conj Hl Hpk)))).
Defined.

(** The access token of an application that was approved for the policy
    "social": it names that authorization's bunker. *)
#[local] Instance limited_ucan : UcanLib := {
  Ucan := string;
  ucan_parse s := Ok s;
  ucan_check_signature _ := Ok tt;
  ucan_is_expired now _ := 100000 <=? now;
  ucan_facts _ := [ucan_facts_of 1 "u@b" "https://app.example" (Some user_bunker) false None];
  ucan_issuer _ := nostr_pubkey_to_did ("Pserver" : PublicKey);
  ucan_audience _ := nostr_pubkey_to_did ("Pu" : PublicKey);
}.
Definition social_authorization : OAuthAuthorization := {|
  oa_id := 1; oa_user_pubkey := "Pu"; oa_redirect_origin := "https://app.example";
  oa_client_id := Some "app"; oa_bunker_public_key := user_bunker; oa_secret_hash := "Hs";
  oa_relays := "[]"; oa_policy_id := Some 3; oa_tenant_id := 1; oa_client_pubkey := None;
  oa_connected_client_pubkey := None; oa_connected_at := None; oa_created_at := 0;
  oa_updated_at := 0; oa_revoked_at := None; oa_expires_at := None;
  oa_handle_expires_at := 1000; oa_authorization_handle := Some "handle";
  oa_last_activity := None; oa_activity_count := 0 |}.
Definition social_db : Db :=
  with_global_policies (set_users [us_set_email (Some "u@b") (new_user 0 "Pu" 1)] (sample_db [social_authorization] [])).
Definition app_asks : HeadlessAuthorizeRequest := {|
  hz_client_id := "app"; hz_redirect_uri := "https://app.example"; hz_scope := None; hz_code_challenge := None;
  hz_code_challenge_method := None; hz_state := None |}.
Definition app_exchanges : TokenRequest := {|
  rq_grant_type := None; rq_code := Some "c0de"; rq_client_id := "app"; rq_redirect_uri := Some "https://app.example";
  rq_code_verifier := None; rq_refresh_token := None |}.

Lemma any_session_reaches_any_policy_witness :
  exists s' resp o tresp a,
    headless_authorize 10 toy_account_config 1 (from_app [("authorization", "Bearer limited")]) "c0de" app_asks
      (state_of social_db) = (s', Ok resp) /\
    handle_authorization_code_grant 20 sample_config (sample_draw "1") 1 app_exchanges (ac_oauth s') = (o, Ok tresp) /\
    a ∈ rows (db_oauth_authorizations (os_db o)) /\ oa_user_pubkey a = "Pu" /\ oa_policy_id a = Some 4.
Proof.
  destruct (run_ok (headless_authorize 10 toy_account_config 1 (from_app [("authorization", "Bearer limited")]) "c0de" app_asks
    (state_of social_db))) as (s' & resp & E); [vm_compute; reflexivity|].
  destruct (run_ok (handle_authorization_code_grant 20 sample_config (sample_draw "1") 1 app_exchanges
    (ac_oauth (fst (headless_authorize 10 toy_account_config 1 (from_app [("authorization", "Bearer limited")]) "c0de" app_asks
    (state_of social_db)))))) as (o & tresp & E2); [vm_compute; reflexivity|].
  rewrite E in E2. cbn [fst] in E2.
  destruct (any_session_reaches_any_policy 10 20 toy_account_config (sample_draw "1") 1
    (from_app [("authorization", "Bearer limited")]) "c0de" app_asks "Pu" (state_of social_db) s' resp app_exchanges o tresp)
    as (a & pid & Hp & Ha & _ & Hu & _ & Hpid).
  - vm_compute. reflexivity.
  - exact E.
  - vm_compute in E. by injection E as _ <-.
  - exact E2.
  - vm_compute in Hp. injection Hp as <-. exists s', resp, o, tresp, a. exact (conj E (conj E2 (conj Ha (conj Hu Hpid)))).
Defined.
