(* ===== verification/OAuthPages.v ===== *)
(** * The pages of the OAuth server

    api/src/api/http/oauth.rs: GET /oauth/authorize with its automatic approvals,
    the popup's login and registration, the session status, and the nostr-login
    connection.  A page is modelled by which one it is and the values written into
    it; what is drawn at random is an argument. *)
From S2P Require Import Prelude RustStr External Instances Database Samples Tokens Permissions Policies AuthTypes Ucan HttpRpc OAuthRepo Users OAuth OAuthSafety WorkQueue Queues RateLimit Tenant Nip98 Accounts AccountKeys Authorize.

(** urlencoding::decode. *)
Class UrlDecode := { url_decode : string -> result string string }.

(** ** Requests *)
Record AuthorizeRequest : Type := {
  az_client_id : string; az_redirect_uri : string; az_scope : option string; az_state : option string;
  az_code_challenge : option string; az_code_challenge_method : option string; az_prompt : option string;
  az_byok_pubkey : option string; az_default_register : option bool; az_authorization_handle : option string;
  az_screen : option string;
}.
Record AuthStatusResponse : Type := {
  as_authenticated : bool; as_pubkey : option string; as_email : option string; as_email_verified : option bool;
}.
Record OAuthLoginRequest : Type := {
  ol_email : string; ol_password : string; ol_client_id : string; ol_redirect_uri : string; ol_scope : option string;
  ol_code_challenge : option string; ol_code_challenge_method : option string;
}.
Record OAuthRegisterRequest : Type := {
  or_email : string; or_password : string; or_client_id : string; or_redirect_uri : string; or_scope : option string;
  or_code_challenge : option string; or_code_challenge_method : option string; or_pubkey : option string;
  or_nsec : option string; or_relays : option (list string); or_state : option string;
}.
Record NostrConnectParams : Type := {
  nc_relay : string; nc_secret : string; nc_perms : option string; nc_name : option string; nc_url : option string;
  nc_image : option string;
}.
Record ConnectApprovalForm : Type := {
  cn_client_pubkey : string; cn_relay : string; cn_secret : string; cn_perms : option string; cn_approved : bool;
}.

(** ** Pages *)
Record approval_values : Type := {
  av_client_id : string; av_icon : string; av_identity : string; av_npub : string; av_redirect_uri : string;
  av_scope : string; av_code_challenge : string; av_code_challenge_method : string; av_state : string;
  av_pubkey : string; av_email : string; av_policy_info : string;
}.
Record login_values : Type := {
  lv_client_id : string; lv_icon : string; lv_forgot_password_url : string; lv_redirect_uri : string;
  lv_scope : string; lv_code_challenge : string; lv_code_challenge_method : string;
}.
Inductive authorize_page : Type :=
| ChooseAccountPage (client_id identity_label : string)
| ApprovalPage (v : approval_values)
| LoginPage (v : login_values).

(** A redirect with the code, or a page with the cookie that is cleared. *)
Inductive authorize_response : Type :=
| CodeRedirect (location : string)
| ShowPage (page : authorize_page) (set_cookie : option string).

(** APP_URL, or VITE_DOMAIN without it. *)
Definition forgot_password_url_for_auth_host (app_url vite_domain : option string) : string :=
  let auth_url := default (default "" vite_domain) app_url in
  if contains "auth.staging.synvya.com" auth_url then "https://account.staging.synvya.com/login"
  else if contains "auth.synvya.com" auth_url then "https://account.synvya.com/login"
  else "/forgot-password".

(** [chars().next().unwrap_or('A').to_uppercase()] *)
Definition icon_letter `{Unicode} (client_id : string) : string := char_to_uppercase (default "A" (head (chars client_id))).

(** [format!("{}?code={}&state={}", ..)] *)
Definition code_redirect (redirect_uri code : string) (state : option string) : string :=
  redirect_uri +:+ "?code=" +:+ code +:+ match state with Some st => "&state=" +:+ st | None => "" end.

(** ** nostrconnect:// URIs *)
Record connect_fields : Type := {
  cfd_relay : string; cfd_secret : string; cfd_perms : option string; cfd_name : option string;
  cfd_url : option string; cfd_image : option string;
}.
Definition no_fields : connect_fields := {|
  cfd_relay := ""; cfd_secret := ""; cfd_perms := None; cfd_name := None; cfd_url := None; cfd_image := None |}.

(** The match on the key of a parameter. *)
Definition set_field (key v : string) (f : connect_fields) : connect_fields :=
  let '{| cfd_relay := relay; cfd_secret := secret; cfd_perms := perms; cfd_name := name; cfd_url := url; cfd_image := image |} := f in
  if bool_decide (key = "relay") then
    {| cfd_relay := v; cfd_secret := secret; cfd_perms := perms; cfd_name := name; cfd_url := url; cfd_image := image |}
  else if bool_decide (key = "secret") then
    {| cfd_relay := relay; cfd_secret := v; cfd_perms := perms; cfd_name := name; cfd_url := url; cfd_image := image |}
  else if bool_decide (key = "perms") then
    {| cfd_relay := relay; cfd_secret := secret; cfd_perms := Some v; cfd_name := name; cfd_url := url; cfd_image := image |}
  else if bool_decide (key = "name") then
    {| cfd_relay := relay; cfd_secret := secret; cfd_perms := perms; cfd_name := Some v; cfd_url := url; cfd_image := image |}
  else if bool_decide (key = "url") then
    {| cfd_relay := relay; cfd_secret := secret; cfd_perms := perms; cfd_name := name; cfd_url := Some v; cfd_image := image |}
  else if bool_decide (key = "image") then
    {| cfd_relay := relay; cfd_secret := secret; cfd_perms := perms; cfd_name := name; cfd_url := url; cfd_image := Some v |}
  else f.

(** The loop over the parameters. *)
Fixpoint read_fields `{UrlDecode} (params : list string) (f : connect_fields) : result connect_fields oauth_abort :=
  match params with
  | [] => Ok f
  | param :: rest =>
      match split_once "=" param with
      | Some (key, value) =>
          let? decoded_value := map_err (fun e => Returned (OE_InvalidRequest ("Invalid URL encoding: " +:+ e))) (url_decode value) in
          read_fields rest (set_field key decoded_value f)
      | None => read_fields rest f
      end
  end.

Definition parse_nostrconnect_uri `{UrlDecode} (uri : string) : result (string * NostrConnectParams) oauth_abort :=
  let? uri := ok_or (strip_prefix "nostrconnect://" uri) (Returned (OE_InvalidRequest "Invalid nostrconnect URI")) in
  match split "?" uri with
  | [client_pubkey; query] =>
      if negb (len client_pubkey =? 64) || negb (all_bytes is_ascii_hexdigit client_pubkey) then
        invalid "Invalid client public key format"
      else
        let? f := read_fields (split "&" query) no_fields in
        if bool_decide (cfd_relay f = "") || bool_decide (cfd_secret f = "") then
          invalid "Missing required params: relay and secret"
        else if negb (starts_with "wss://" (cfd_relay f)) && negb (starts_with "ws://" (cfd_relay f)) then
          invalid "Invalid relay URL"
        else Ok (client_pubkey, {| nc_relay := cfd_relay f; nc_secret := cfd_secret f; nc_perms := cfd_perms f;
                                   nc_name := cfd_name f; nc_url := cfd_url f; nc_image := cfd_image f |})
  | _ => invalid "Missing query params"
  end.

(** The page that asks for the connection, with the values as they are. *)
Record connect_page : Type := {
  cp_app_name : string; cp_app_icon : string; cp_permissions_raw : string; cp_relay : string;
  cp_page_client_pubkey : string; cp_secret : string; cp_perms : string;
}.
(** The log line slices the key, which has 64 bytes by then. *)
Definition connect_get `{UrlDecode, Unicode} (nostrconnect_uri : string) : result connect_page oauth_abort :=
  let? '(client_pubkey, params) := parse_nostrconnect_uri nostrconnect_uri in
  let? _ := ok_or (prefix_str client_pubkey 8) Panicked in
  let app_name := default "Unknown App" (nc_name params) in
  Ok {| cp_app_name := app_name; cp_app_icon := icon_letter app_name;
        cp_permissions_raw := default "sign_event" (nc_perms params); cp_relay := nc_relay params;
        cp_page_client_pubkey := client_pubkey; cp_secret := nc_secret params;
        cp_perms := default "" (nc_perms params) |}.

Section pages.
Context `{HN : Nostr, HC : !NostrCrypto, HS : !Serde, HX : !Secrets, HB : Bcrypt, HD : Digests, HE : !Encodings,
          HV : !HttpEvents, HU : UcanLib, HM : !UcanMint, HL : UrlLib, HUni : Unicode, HI : Ipv6, HCh : Channel,
          HLS : LoginSerde, HBe : !Bech32}.

Notation OM A := (SE oauth_state oauth_abort A).

(** ** Sessions *)

(** The user of the session cookie. *)
Definition cookie_user (now : Z) (nsec : option string) (tenant_id : Z) (cookie_header : option string) : option string :=
  match extract_ucan_from_cookie cookie_header with
  | Some token => vt_user_pubkey <$> ok (validate_ucan_token now nsec ("Bearer " +:+ token) tenant_id)
  | None => None
  end.

Definition auth_status (now : Z) (nsec : option string) (tenant_id : Z) (cookie_header : option string) (d : Db)
  : AuthStatusResponse :=
  match cookie_user now nsec tenant_id cookie_header with
  | Some user_pubkey =>
      match get_account_status user_pubkey tenant_id d with
      | Some (email, email_verified) =>
          {| as_authenticated := true; as_pubkey := Some user_pubkey; as_email := email;
             as_email_verified := Some email_verified |}
      | None => {| as_authenticated := true; as_pubkey := Some user_pubkey; as_email := None; as_email_verified := None |}
      end
  | None => {| as_authenticated := false; as_pubkey := None; as_email := None; as_email_verified := None |}
  end.

(** ** GET /oauth/authorize *)

(** The user the page is for, whether the cookie is cleared, and the email. *)
Definition page_user (now : Z) (nsec : option string) (tenant_id : Z) (cookie_header : option string)
    (params : AuthorizeRequest) (d : Db) : option string * bool * option string :=
  match cookie_user now nsec tenant_id cookie_header with
  | Some pubkey =>
      if bool_decide (az_prompt params = Some "login") then (None, true, None)
      else if negb (is_null (az_byok_pubkey params)) then (None, true, None)
      else match get_account_status pubkey tenant_id d with
           | None => (None, true, None)
           | Some (email, _) => (Some pubkey, false, email)
           end
  | None => (None, false, None)
  end.

(** Approving without asking: the code is stored and sent to the application. *)
Definition auto_approve (now tenant_id : Z) (code pubkey : string) (previous_auth_id : option Z)
    (params : AuthorizeRequest) : OM authorize_response :=
  let! _ := store_oauth_code now tenant_id code pubkey (az_client_id params) (az_redirect_uri params)
              (default "sign_event" (az_scope params)) (az_code_challenge params) (az_code_challenge_method params)
              (now + 10 * 60) previous_auth_id (az_state params) in
  se_ret (CodeRedirect (code_redirect (az_redirect_uri params) code (az_state params))).

(** The policy shown for a scope. *)
Definition display_json (p : PermissionDisplay) : json :=
  JObject [("icon", JString (pd_icon p)); ("title", JString (pd_title p)); ("description", JString (pd_description p))].
Definition policy_info_json (scope_str : string) (d : Db) : string :=
  let policy_slug := match parse_policy_scope scope_str with Ok slug => slug | Err _ => "social" end in
  json_to_string
    match policy_find_by_slug d policy_slug with
    | Ok policy =>
        JObject [("slug", JString (pi_slug (to_info policy))); ("display_name", JString (pi_display_name (to_info policy)));
                 ("description", JString (pi_description (to_info policy)));
                 ("permissions", JArray (map display_json (match permission_displays d policy with Ok l => l | Err _ => [] end)))]
    | Err _ =>
        JObject [("slug", JString policy_slug); ("display_name", JString "App Access");
                 ("description", JString "Grant access to this application"); ("permissions", JArray [])]
    end.

Definition npub_of (pubkey : string) : string :=
  match pk_from_hex pubkey with
  | Ok pk => match pk_to_bech32 pk with Ok npub => npub | Err _ => pubkey end
  | Err _ => pubkey
  end.

(** Which page is shown. *)
Definition page_for (app_url vite_domain : option string) (user_pubkey user_email : option string)
    (has_existing_authorization : bool) (params : AuthorizeRequest) (d : Db) : authorize_page :=
  let scope_str := default "policy:full" (az_scope params) in
  match user_pubkey with
  | Some pubkey =>
      let npub := npub_of pubkey in
      if negb (bool_decide (az_screen params = Some "consent")) && negb has_existing_authorization then
        ChooseAccountPage (az_client_id params) (default npub user_email)
      else
        ApprovalPage {| av_client_id := az_client_id params; av_icon := icon_letter (az_client_id params);
          av_identity := default npub user_email; av_npub := npub; av_redirect_uri := az_redirect_uri params;
          av_scope := scope_str; av_code_challenge := default "" (az_code_challenge params);
          av_code_challenge_method := default "" (az_code_challenge_method params);
          av_state := default "" (az_state params); av_pubkey := pubkey; av_email := default "" user_email;
          av_policy_info := policy_info_json scope_str d |}
  | None =>
      LoginPage {| lv_client_id := az_client_id params; lv_icon := icon_letter (az_client_id params);
        lv_forgot_password_url := forgot_password_url_for_auth_host app_url vite_domain;
        lv_redirect_uri := az_redirect_uri params; lv_scope := scope_str;
        lv_code_challenge := default "" (az_code_challenge params);
        lv_code_challenge_method := default "" (az_code_challenge_method params) |}
  end.

(** [clients] is the table registered_clients; [code] is what the approval that
    happens draws. *)
Definition authorize_get (now : Z) (cfg : account_config) (vite_domain : option string) (clients : list registered_client_row)
    (code : string) (tenant_id : Z) (cookie_header : option string) (params : AuthorizeRequest) : OM authorize_response :=
  let! valid := se_lift (ok_or (validate_redirect_uri (az_client_id params) (az_redirect_uri params) tenant_id clients) Panicked) in
  let! _ := se_lift (map_err (fun e => Returned (OE_InvalidRequest
                       ("redirect_uri is not allowed for this client: " +:+ repository_error_str e))) valid) in
  let! '(user_pubkey, clear_cookie, user_email) :=
    se_gets (fun s => page_user now (ae_server_nsec (acf_auth cfg)) tenant_id cookie_header params (os_db s)) in
  let force_consent := bool_decide (az_prompt params = Some "consent") in
  let show_page (has_existing_authorization : bool) : OM authorize_response :=
    let! page := se_gets (fun s => page_for (acf_app_url cfg) vite_domain user_pubkey user_email has_existing_authorization
                                     params (os_db s)) in
    se_ret (ShowPage page (if clear_cookie : bool then Some (format_session_cookie "" 0 (acf_secure_cookies cfg)) else None)) in
  match user_pubkey with
  | None => show_page false
  | Some pubkey =>
      let! previous_auth_id := se_gets (fun s => handle ← az_authorization_handle params;
                                                 find_id_by_handle now handle pubkey (os_db s)) in
      if negb (is_null previous_auth_id) && negb force_consent then
        auto_approve now tenant_id code pubkey previous_auth_id params
      else
        let! redirect_origin := se_lift (extract_origin (az_redirect_uri params)) in
        let! active := se_gets (fun s => has_active_for_origin pubkey redirect_origin tenant_id (os_db s)) in
        if active && negb force_consent then auto_approve now tenant_id code pubkey None params
        else show_page (active || negb (is_null previous_auth_id))
  end.

(** ** POST /oauth/login *)
Definition oauth_fail {A} (e : OAuthError) : OM A := se_fail (Returned e).

Definition oauth_login (now : Z) (cfg : account_config) (tenant_id : Z) (req : OAuthLoginRequest) : OM (string * string) :=
  let email := to_lowercase (ol_email req) in
  let! user := se_gets (fun s => find_with_password email tenant_id (os_db s)) in
  let! '(public_key, password_hash, email_verified) := se_lift (ok_or user (Returned OE_Unauthorized)) in
  let! valid := se_lift (map_err (fun _ => Returned (OE_InvalidRequest "Password verification failed"))
                           (bcrypt_check (ol_password req) password_hash)) in
  if negb valid then oauth_fail OE_Unauthorized
  else if negb email_verified then
    oauth_fail (OE_InvalidRequest "Please verify your email address before signing in. Check your inbox for the verification link.")
  else
    let! found := se_gets (fun s => find_encrypted_key_for_tenant (os_db s) public_key tenant_id) in
    let! encrypted_secret := se_lift (ok_or found (Returned (OE_InvalidRequest
      "Account setup incomplete. Please complete the OAuth flow to finalize your account."))) in
    let! decrypted_secret := se_lift (map_err (fun e => Returned (OE_Encryption e)) (km_decrypt encrypted_secret)) in
    let! keys := se_lift (map_err (fun e => Returned (OE_InvalidRequest ("Invalid secret key bytes: " +:+ e)))
                            (sk_from_slice decrypted_secret)) in
    let! redirect_origin := se_lift (extract_origin (ol_redirect_uri req)) in
    let! ucan_token := se_lift (map_err (fun e => Returned (OE_InvalidRequest ("UCAN generation failed: "
                                  +:+ match e with AcE_Internal m => m | _ => "" end)))
                         (generate_ucan_token now cfg keys tenant_id email redirect_origin None)) in
    se_ret (format_session_cookie ucan_token 86400 (acf_secure_cookies cfg), public_key).

(** ** POST /oauth/connect: approving a nostr-login connection *)
Inductive connect_response : Type := ConnectDenied | ConnectDone.

Definition connect_post (now : Z) (cfg : account_config) (tenant_id : Z) (q : http_request) (salt handle : string)
    (form : ConnectApprovalForm) : OM connect_response :=
  let! _ := se_lift (ok_or (prefix_str (cn_client_pubkey form) 8) Panicked) in
  if negb (cn_approved form) then se_ret ConnectDenied
  else
    let! user_pubkey := se_lift (map_err (fun _ => Returned OE_Unauthorized) (extract_user_from_token now cfg q tenant_id)) in
    let! found := se_gets (fun s => find_encrypted_key_by_tenant tenant_id user_pubkey (os_db s)) in
    let! encrypted_user_key := se_lift (ok_or found (Returned OE_Unauthorized)) in
    let! secret_hash := se_lift (map_err (fun e => Returned (OE_ServerError ("Failed to hash secret: " +:+ e)))
                                   (bcrypt_hash 10 salt (cn_secret form))) in
    let! bunker_keys := se_lift (bunker_keys_of encrypted_user_key secret_hash) in
    let bunker_hex := pk_to_hex (pk_of bunker_keys) in
    let! short := se_lift (ok_or (prefix_str (cn_client_pubkey form) 12) Panicked) in
    let! _ := on_db (oauth_authorization_create now {|
      cp_tenant_id := tenant_id; cp_user_pubkey := user_pubkey;
      cp_redirect_origin := "nostrconnect://" +:+ cn_client_pubkey form; cp_client_id := "nostr-login-" +:+ short;
      cp_bunker_public_key := bunker_hex; cp_secret_hash := secret_hash;
      cp_relays := json_to_string (JArray [JString (cn_relay form)]); cp_policy_id := None;
      cp_client_pubkey := Some (cn_client_pubkey form); cp_authorization_handle := Some handle;
      cp_handle_expires_at := now + days 30 |}) in
    let! _ := send_command (acf_oauth cfg) (Upsert bunker_hex tenant_id true) in
    se_ret ConnectDone.

(** ** POST /oauth/register *)
Record oauth_register_draw : Type := {
  ord_key : SecretKey; ord_salt : string; ord_verification_token : string; ord_code : string; ord_device_code : string;
}.
Record OAuthRegisterResponse : Type := {
  orr_verification_required : bool; orr_email : string; orr_pubkey : string; orr_device_code : string;
}.

(** The key of a registration: the one typed in, the public key of one that
    follows with the verifier, or a new one. *)
Definition registration_key (drawn : SecretKey) (req : OAuthRegisterRequest)
  : result (PublicKey * option SecretKey) oauth_abort :=
  match or_nsec req, or_pubkey req with
  | Some nsec_str, _ =>
      let? keys := map_err (fun e => Returned (OE_InvalidRequest ("Invalid nsec: " +:+ e))) (keys_parse nsec_str) in
      Ok (pk_of keys, Some keys)
  | None, Some pubkey_hex =>
      let? pubkey := map_err (fun e => Returned (OE_InvalidRequest ("Invalid pubkey: " +:+ e))) (pk_from_hex pubkey_hex) in
      Ok (pubkey, None)
  | None, None => Ok (pk_of drawn, Some drawn)
  end.

Definition on_accounts {A} (c : OM A) : SE account_state oauth_abort A := fun s =>
  let '(o, r) := c (ac_oauth s) in (set_ac_oauth o s, r).
Definition oauth_limit (now : Z) (cfg : account_config) (q : http_request) (tenant_id : Z) (email : string)
  : SE account_state oauth_abort unit := fun s =>
  let '(r, allowed) := allow_request now (ae_redis (acf_auth cfg)) (ip_limit_per_hour (acf_ip_limit cfg))
                         "oauth_register" tenant_id (header_text "x-forwarded-for" q) (Some email) (ac_redis s) in
  (set_ac_redis r s, if allowed then Ok tt else Err (Returned OE_TooManyRequests)).

(** The registration kept with the code until the email is verified. *)
Definition pending_registration (now tenant_id : Z) (dr : oauth_register_draw) (req : OAuthRegisterRequest)
    (pubkey email password_hash : string) (pending_encrypted_secret : option (list Z)) : StoreOAuthCodeWithRegistrationParams := {|
  rp_tenant_id := tenant_id; rp_code := ord_code dr; rp_user_pubkey := pubkey; rp_client_id := or_client_id req;
  rp_redirect_uri := or_redirect_uri req; rp_scope := default "sign_event" (or_scope req);
  rp_code_challenge := or_code_challenge req; rp_code_challenge_method := or_code_challenge_method req;
  rp_expires_at := now + 24 * 3600; rp_pending_email := email; rp_pending_password_hash := password_hash;
  rp_pending_email_verification_token := ord_verification_token dr;
  rp_pending_encrypted_secret := pending_encrypted_secret; rp_state := or_state req;
  rp_device_code := Some (ord_device_code dr); rp_is_headless := false |}.

(** The second check of the email repeats the first one. *)
Definition oauth_register (now : Z) (cfg : account_config) (tenant_id : Z) (q : http_request) (dr : oauth_register_draw)
    (req : OAuthRegisterRequest) : SE account_state oauth_abort OAuthRegisterResponse :=
  let email := to_lowercase (or_email req) in
  let! _ := oauth_limit now cfg q tenant_id email in
  let! taken := se_gets (fun s => find_pubkey_by_email email tenant_id (ac_db s)) in
  if negb (is_null taken) then se_fail (Returned (OE_InvalidRequest "Email already registered"))
  else
    let! password_hash := se_lift (map_err (fun _ => Returned (OE_InvalidRequest "Password hashing failed"))
                                     (bcrypt_hash DEFAULT_COST (ord_salt dr) (or_password req))) in
    let! '(public_key, generated_keys) := se_lift (registration_key (ord_key dr) req) in
    let pubkey := pk_to_hex public_key in
    let! known := se_gets (fun s => user_exists pubkey tenant_id (ac_db s)) in
    if known : bool then
      se_fail (Returned (OE_InvalidRequest "This Nostr key is already registered. Please sign in instead."))
    else
      let! pending_encrypted_secret :=
        (match generated_keys with
         | Some keys => let! e := se_lift (map_err (fun e => Returned (OE_Encryption e)) (km_encrypt (sk_to_bytes keys))) in
                        se_ret (Some e)
         | None => se_ret None
         end) in
      let! _ := on_accounts (on_db (store_with_pending_registration now
                  (pending_registration now tenant_id dr req pubkey email password_hash pending_encrypted_secret))) in
      let! _ := se_modify (fun s =>
        if acf_email_service cfg
        then {| ac_oauth := ac_oauth s; ac_redis := ac_redis s; ac_jobs := ac_jobs s;
                ac_mail := ac_mail s ++ [VerificationMail email (ord_verification_token dr)] |}
        else s) in
      se_ret {| orr_verification_required := true; orr_email := email; orr_pubkey := pubkey;
                orr_device_code := ord_device_code dr |}.
End pages.
