(* ===== verification/OAuthPagesSafety.v ===== *)
(** * Properties of the OAuth pages

    When a code is given out without asking and for which policy, what a
    nostr-login connection grants, and that nostrconnect URIs are read back. *)
From S2P Require Import Prelude RustStr External Instances Database Samples Tokens Permissions Policies AuthTypes Signer Ucan HttpRpc OAuthRepo Users UsersSafety OAuth OAuthSafety WorkQueue Queues RateLimit Tenant Nip98 Accounts AccountKeys AccountsSafety AccountKeysSafety Authorize OAuthPages.

(** ** Reading a nostrconnect URI *)

(** Decoding undoes encoding, and encoded text has none of the delimiters. *)
Class UrlDecodeLaws `{UrlLib, UrlDecode} : Prop := {
  url_decode_encode s : url_decode (urlencode s) = Ok s;
  urlencode_plain s c : c ∈ ["&"%char; "="%char; "?"%char] -> contains_char c (urlencode s) = false;
}.

Lemma contains_char_cons c a s : contains_char c (String a s) = bool_decide (a = c) || contains_char c s.
Proof.
  change (String a s) with (String a "" +:+ s). rewrite contains_char_app. f_equal. apply eq_true_iff_eq.
  unfold contains_char. rewrite contains_spec, bool_decide_eq_true. split.
  - intros (p & r & E). destruct p as [|? [|? ?]]; cbv in E; congruence.
  - intros ->. exists "", "". done.
Qed.

Lemma split_plain c s : contains_char c s = false -> split c s = [s].
Proof.
  induction s as [|a s IH]; [done|]. rewrite contains_char_cons. intros [Ha Hs]%orb_false_iff. simpl.
  apply bool_decide_eq_false in Ha. by rewrite bool_decide_false, (IH Hs).
Qed.
Lemma split_app c a b : contains_char c a = false -> split c (a +:+ String c b) = a :: split c b.
Proof.
  induction a as [|x a IH]; simpl.
  - intros _. by rewrite bool_decide_true.
  - rewrite contains_char_cons. intros [Hx Ha]%orb_false_iff. apply bool_decide_eq_false in Hx.
    by rewrite bool_decide_false, (IH Ha).
Qed.
Lemma split_join c l : l <> [] -> Forall (fun s => contains_char c s = false) l -> split c (join (String c "") l) = l.
Proof.
  induction l as [|s l IH]; [done|]. intros _ [Hs Hl]%Forall_cons. destruct l as [|t l]; [by apply split_plain|].
  change (join _ (s :: t :: l)) with (s +:+ String c "" +:+ join (String c "") (t :: l)).
  change (String c "" +:+ ?x) with (String c x). rewrite split_app by done. by rewrite IH.
Qed.

Section nostrconnect.
Context `{HL : UrlLib, HUD : UrlDecode}.

(** The URI of a client: the parameters in the order the record lists them. *)
Definition parameter (key v : string) : string := key +:+ "=" +:+ urlencode v.
Definition parameters (p : NostrConnectParams) : list string :=
  [parameter "relay" (nc_relay p); parameter "secret" (nc_secret p)]
  ++ match nc_perms p with Some v => [parameter "perms" v] | None => [] end
  ++ match nc_name p with Some v => [parameter "name" v] | None => [] end
  ++ match nc_url p with Some v => [parameter "url" v] | None => [] end
  ++ match nc_image p with Some v => [parameter "image" v] | None => [] end.
Definition nostrconnect_uri (client_pubkey : string) (p : NostrConnectParams) : string :=
  "nostrconnect://" +:+ client_pubkey +:+ "?" +:+ join "&" (parameters p).

Lemma read_parameter `{HLaws : !UrlDecodeLaws} key v rest f :
  contains_char "=" key = false -> read_fields (parameter key v :: rest) f = read_fields rest (set_field key v f).
Proof.
  intros Hk. cbn [read_fields]. unfold parameter.
  change (key +:+ "=" +:+ urlencode v) with (key +:+ String "=" (urlencode v)). rewrite split_once_app by done.
  by rewrite url_decode_encode.
Qed.

Lemma read_parameters `{HLaws : !UrlDecodeLaws} p :
  read_fields (parameters p) no_fields = Ok {| cfd_relay := nc_relay p; cfd_secret := nc_secret p; cfd_perms := nc_perms p;
    cfd_name := nc_name p; cfd_url := nc_url p; cfd_image := nc_image p |}.
Proof.
  destruct p as [relay secret [perms|] [name|] [url|] [image|]]; unfold parameters; simpl app;
    repeat (rewrite read_parameter by reflexivity); reflexivity.
Qed.

Lemma parameter_plain `{HLaws : !UrlDecodeLaws} c key v :
  c ∈ ["&"%char; "?"%char] -> contains_char c key = false -> contains_char c (parameter key v) = false.
Proof.
  intros Hc Hk. unfold parameter. rewrite !contains_char_app, Hk, urlencode_plain by set_solver. rewrite orb_false_r. simpl.
  apply elem_of_cons in Hc as [->|[->|[]%not_elem_of_nil]%elem_of_cons]; reflexivity.
Qed.

Lemma parameters_plain `{HLaws : !UrlDecodeLaws} c p :
  c ∈ ["&"%char; "?"%char] -> Forall (fun s => contains_char c s = false) (parameters p).
Proof.
  intros Hc. assert (Hp : forall key v, key ∈ ["relay"; "secret"; "perms"; "name"; "url"; "image"] ->
    contains_char c (parameter key v) = false).
  { intros key v Hkey. apply parameter_plain; [done|].
    apply elem_of_cons in Hc as [->|[->|[]%not_elem_of_nil]%elem_of_cons];
      repeat (apply elem_of_cons in Hkey as [->|Hkey]; [reflexivity|]); by apply not_elem_of_nil in Hkey. }
  unfold parameters. destruct p as [relay secret [perms|] [name|] [url|] [image|]]; simpl;
    repeat (constructor; [apply Hp; set_solver|]); constructor.
Qed.

Lemma join_plain c sep l :
  contains_char c sep = false -> Forall (fun s => contains_char c s = false) l -> contains_char c (join sep l) = false.
Proof.
  intros Hsep. induction 1 as [|s l Hs Hl IH]; [done|]. destruct l as [|t l]; [done|].
  change (join sep (s :: t :: l)) with (s +:+ sep +:+ join sep (t :: l)). by rewrite !contains_char_app, Hs, Hsep, IH.
Qed.

Lemma hexdigits_plain s : all_bytes is_ascii_hexdigit s = true -> contains_char "?" s = false.
Proof.
  intros H. apply not_true_iff_false. unfold contains_char. rewrite contains_spec. intros (a & b & ->).
  unfold all_bytes in H. induction a as [|x a IH]; [done|]. simpl in H. apply andb_true_iff in H as [_ H]. by apply IH.
Qed.

(** [C32] A nostrconnect URI is read back.  The URI a client builds from its key, a
    relay, a secret and any of the optional parameters, each percent-encoded, parses
    to exactly that key and those parameters. *)
Theorem nostrconnect_round_trip `{HLaws : !UrlDecodeLaws} client_pubkey p :
  len client_pubkey = 64 -> all_bytes is_ascii_hexdigit client_pubkey = true -> nc_secret p <> "" ->
  starts_with "wss://" (nc_relay p) || starts_with "ws://" (nc_relay p) = true ->
  parse_nostrconnect_uri (nostrconnect_uri client_pubkey p) = Ok (client_pubkey, p).
Proof.
  intros Hlen Hhex Hsec Hrelay. unfold parse_nostrconnect_uri, nostrconnect_uri.
  rewrite (proj2 (strip_prefix_Some "nostrconnect://" _ (client_pubkey +:+ "?" +:+ join "&" (parameters p))) eq_refl).
  cbn [ok_or rbind]. change ("?" +:+ ?x) with (String "?" x).
  rewrite split_app by by apply hexdigits_plain.
  rewrite split_plain by (apply join_plain; [done | apply parameters_plain; set_solver]).
  rewrite Hlen, Hhex. cbn [negb orb Z.eqb]. change (64 =? 64) with true. cbn [negb orb].
  rewrite split_join by (done || (apply parameters_plain; set_solver)). rewrite read_parameters. cbn [rbind cfd_relay cfd_secret].
  rewrite (bool_decide_false (nc_relay p = "")) by (intros E; rewrite E in Hrelay; discriminate).
  rewrite bool_decide_false by done. cbn [orb].
  rewrite <- negb_orb, Hrelay. by destruct p.
Qed.
End nostrconnect.

Section pages_safety.
Context `{HN : Nostr, HC : !NostrCrypto, HS : !Serde, HX : !Secrets, HB : Bcrypt, HD : Digests, HE : !Encodings,
          HV : !HttpEvents, HU : UcanLib, HM : !UcanMint, HL : UrlLib, HUni : Unicode, HI : Ipv6, HCh : Channel,
          HLS : LoginSerde, HBe : !Bech32}.

(** ** Approval without asking *)

(** The code an automatic approval stores. *)
Definition approved_code (now tenant_id : Z) (code pubkey : string) (previous : option Z) (params : AuthorizeRequest)
  : StoreOAuthCodeParams := {|
  sp_tenant_id := tenant_id; sp_code := code; sp_user_pubkey := pubkey; sp_client_id := az_client_id params;
  sp_redirect_uri := az_redirect_uri params; sp_scope := default "sign_event" (az_scope params);
  sp_code_challenge := az_code_challenge params; sp_code_challenge_method := az_code_challenge_method params;
  sp_expires_at := now + 10 * 60; sp_previous_auth_id := previous; sp_state := az_state params; sp_is_headless := false |}.

(** The user an approval is for: the session's, known to the tenant, and not
    asked to sign in again. *)
Definition session_user (now : Z) (cfg : account_config) (tenant_id : Z) (cookie : option string) (params : AuthorizeRequest)
    (d : Db) (pubkey : string) : Prop :=
  (exists token t, extract_ucan_from_cookie cookie = Some token /\
     validate_ucan_token now (ae_server_nsec (acf_auth cfg)) ("Bearer " +:+ token) tenant_id = Ok t /\ vt_user_pubkey t = pubkey) /\
  (exists u, u ∈ db_users d /\ us_pubkey u = pubkey /\ us_tenant_id u = tenant_id) /\
  az_prompt params <> Some "login" /\ az_byok_pubkey params = None.

Lemma page_user_session now cfg tenant_id cookie params d pubkey clear email :
  page_user now (ae_server_nsec (acf_auth cfg)) tenant_id cookie params d = (Some pubkey, clear, email) ->
  session_user now cfg tenant_id cookie params d pubkey.
Proof.
  unfold page_user, cookie_user. destruct (extract_ucan_from_cookie cookie) as [token|] eqn:Ec; [|done].
  destruct (validate_ucan_token _ _ _ _) as [t|] eqn:Et; [|done]. cbn [ok fmap option_fmap option_map].
  case_bool_decide as Hp; [done|]. destruct (az_byok_pubkey params) eqn:Eb; [done|]. cbn [is_null negb].
  destruct (get_account_status _ _ _) as [[e v]|] eqn:Ea; [|done]. intros [= <- _ _].
  unfold get_account_status in Ea. apply fmap_Some in Ea as (u & Hu & _). apply find_first_Some in Hu as [Hin [Hk Ht]%user_in_spec].
  split; [by exists token, t|]. split; [by exists u|]. done.
Qed.

(** How a code came to be given out by GET /oauth/authorize. *)
Lemma authorize_get_code now cfg vite clients code tenant_id cookie params s s' location :
  authorize_get now cfg vite clients code tenant_id cookie params s = (s', Ok (CodeRedirect location)) ->
  exists pubkey previous,
    validate_redirect_uri (az_client_id params) (az_redirect_uri params) tenant_id clients = Some (Ok tt) /\
    session_user now cfg tenant_id cookie params (os_db s) pubkey /\ az_prompt params <> Some "consent" /\
    ((exists handle, az_authorization_handle params = Some handle /\ previous = find_id_by_handle now handle pubkey (os_db s) /\
        is_Some previous) \/
     (previous = None /\ exists origin, extract_origin (az_redirect_uri params) = Ok origin /\
        has_active_for_origin pubkey origin tenant_id (os_db s) = true)) /\
    oauth_code_store now (approved_code now tenant_id code pubkey previous params) (os_db s) = (os_db s', Ok tt) /\
    location = code_redirect (az_redirect_uri params) code (az_state params).
Proof.
  unfold authorize_get. intros H.
  apply se_bind_ok in H as (? & valid & [-> Hvalid%ok_or_ok]%se_lift_ok & H).
  apply se_bind_ok in H as (? & [] & [-> Hv%map_err_ok]%se_lift_ok & H). subst valid.
  apply se_bind_ok in H as (? & [[user clear] email] & [-> Hu]%se_gets_ok & H). symmetry in Hu.
  destruct user as [pubkey|]; [|by apply se_bind_ok in H as (? & ? & _ & [= _ <-])]. apply page_user_session in Hu.
  apply se_bind_ok in H as (? & previous & [-> Hprev]%se_gets_ok & H). exists pubkey.
  assert (Happ : forall prev st, auto_approve now tenant_id code pubkey prev params s = (st, Ok (CodeRedirect location)) ->
    oauth_code_store now (approved_code now tenant_id code pubkey prev params) (os_db s) = (os_db st, Ok tt) /\
    location = code_redirect (az_redirect_uri params) code (az_state params)).
  { intros prev st Ha. apply se_bind_ok in Ha as (? & [] & (d & Hs & ->)%on_db_ok & Ha). injection Ha as <- <-. done. }
  destruct (negb (is_null previous) && negb _) eqn:Eh.
  - apply andb_true_iff in Eh as [Hn Hc%negb_true_iff%bool_decide_eq_false]. exists previous.
    apply Happ in H as [Hs Hl]. split_and!; try done. left.
    destruct (az_authorization_handle params) as [handle|] eqn:Ehd; [|by rewrite Hprev in Hn].
    exists handle. split_and!; [done|done|]. destruct previous; [by eexists|done].
  - apply se_bind_ok in H as (? & origin & [-> Ho]%se_lift_ok & H).
    apply se_bind_ok in H as (? & active & [-> Hact]%se_gets_ok & H).
    destruct (active && negb _) eqn:Ea; [|by apply se_bind_ok in H as (? & ? & _ & [= _ <-])].
    apply andb_true_iff in Ea as [-> Hc%negb_true_iff%bool_decide_eq_false]. exists None.
    apply Happ in H as [Hs Hl]. split_and!; try done. right. split; [done|]. by exists origin.
Qed.

(** [C12] GET /oauth/authorize gives out a code without asking only to a session of
    an existing user, for a redirect URI the client may use, when the request asks
    for neither a login nor consent, and when the user has an authorization already:
    the one of the presented handle, or an active one of the redirect URI's origin.
    The code is the user's, for that redirect URI, and is sent there. *)
Theorem silent_approval_sound now cfg vite clients code tenant_id cookie params s s' location :
  authorize_get now cfg vite clients code tenant_id cookie params s = (s', Ok (CodeRedirect location)) ->
  exists pubkey row,
    validate_redirect_uri (az_client_id params) (az_redirect_uri params) tenant_id clients = Some (Ok tt) /\
    session_user now cfg tenant_id cookie params (os_db s) pubkey /\ az_prompt params <> Some "consent" /\
    (exists a, a ∈ rows (db_oauth_authorizations (os_db s)) /\ oa_user_pubkey a = pubkey /\ oa_revoked_at a = None /\
       (oa_authorization_handle a = az_authorization_handle params /\ is_Some (az_authorization_handle params) \/
        extract_origin (az_redirect_uri params) = Ok (oa_redirect_origin a) /\ oa_tenant_id a = tenant_id)) /\
    db_oauth_codes (os_db s') = db_oauth_codes (os_db s) ++ [row] /\ oc_code row = code /\ oc_user_pubkey row = pubkey /\
    oc_tenant_id row = tenant_id /\ oc_redirect_uri row = az_redirect_uri params /\
    location = code_redirect (az_redirect_uri params) code (az_state params).
Proof.
  intros (pubkey & previous & Hv & Hu & Hc & Hwhy & Hs & Hl)%authorize_get_code.
  unfold oauth_code_store, insert_code in Hs. destruct (existsb _ _); [done|].
  match type of Hs with (set_oauth_codes (_ ++ [?r]) _, _) = _ => exists pubkey, r end. injection Hs as <-.
  split_and!; try done. destruct Hwhy as [(handle & Eh & -> & [id Hid])|(-> & origin & Ho & Hact)].
  - unfold find_id_by_handle in Hid. apply fmap_Some in Hid as (a & Ha & _). apply find_first_Some in Ha as [Hin Ha].
    unfold oauth_usable, oauth_active in Ha. apply andb_true_iff in Ha as [[Hh Hp]%andb_true_iff [[Hr _]%andb_true_iff _]%andb_true_iff].
    apply bool_decide_eq_true in Hh, Hp. exists a. rewrite Eh. destruct (oa_revoked_at a) eqn:Er; [done|]. naive_solver.
  - unfold has_active_for_origin in Hact. apply existsb_elem in Hact as (a & Hin & [Ha Hr]%andb_true_iff). exists a.
    unfold of_origin in Ha. apply andb_true_iff in Ha as [[Hp%bool_decide_eq_true Hor%bool_decide_eq_true]%andb_true_iff Ht%Z.eqb_eq].
    destruct (oa_revoked_at a) eqn:Er; [done|]. subst. naive_solver.
Qed.

(** Silent approval upgrades the policy.  A user with an unrevoked
    authorization for an origin, of whatever policy and even expired, is not asked
    when a page of that origin requests any other scope: the code is given out and
    its exchange creates an authorization with the policy that scope names. *)
Theorem silent_approval_reaches_any_policy now now' cfg vite clients code tenant_id cookie params pubkey clear email origin a scope
    dr treq s :
  validate_redirect_uri (az_client_id params) (az_redirect_uri params) tenant_id clients = Some (Ok tt) ->
  page_user now (ae_server_nsec (acf_auth cfg)) tenant_id cookie params (os_db s) = (Some pubkey, clear, email) ->
  az_prompt params = None -> az_authorization_handle params = None -> az_scope params = Some scope ->
  extract_origin (az_redirect_uri params) = Ok origin ->
  a ∈ rows (db_oauth_authorizations (os_db s)) -> oa_user_pubkey a = pubkey -> oa_redirect_origin a = origin ->
  oa_tenant_id a = tenant_id -> oa_revoked_at a = None ->
  Forall (fun r => oc_code r <> code) (db_oauth_codes (os_db s)) -> rq_code treq = Some code ->
  exists s' location, authorize_get now cfg vite clients code tenant_id cookie params s = (s', Ok (CodeRedirect location)) /\
    (forall o tresp, handle_authorization_code_grant now' (acf_oauth cfg) dr tenant_id treq s' = (o, Ok tresp) ->
       exists b pid, resolve_policy_from_scope (os_db s) scope = Ok pid /\ b ∈ rows (db_oauth_authorizations (os_db o)) /\
         oa_id b = next_id (db_oauth_authorizations (os_db s)) /\ oa_user_pubkey b = pubkey /\ oa_policy_id b = Some pid).
Proof.
  intros Hv Hu Hp Hh Hsc Ho Ha Hk Hor Ht Hr Hcode Hrq.
  assert (Hact : has_active_for_origin pubkey origin tenant_id (os_db s) = true).
  { apply existsb_elem. exists a. split; [done|]. unfold of_origin. rewrite Hk, Hor, Ht, Hr, Z.eqb_refl. by rewrite !bool_decide_true. }
  assert (Hrun : exists s', authorize_get now cfg vite clients code tenant_id cookie params s =
    (s', Ok (CodeRedirect (code_redirect (az_redirect_uri params) code (az_state params)))) /\
    oauth_code_store now (approved_code now tenant_id code pubkey None params) (os_db s) = (os_db s', Ok tt)).
  { unfold authorize_get, se_lift, se_gets, se_bind at 1 2 3. rewrite Hv. cbn [ok_or map_err]. rewrite Hu. unfold se_bind at 1.
    rewrite Hh, Hp. cbn [is_null negb andb mbind option_bind]. unfold se_bind at 1 2. rewrite Ho, Hact. cbn [andb negb].
    rewrite (bool_decide_false (None = Some "consent")) by done. cbn [negb].
    unfold auto_approve, store_oauth_code, se_bind, on_db. fold (approved_code now tenant_id code pubkey None params).
    assert (Hs : oauth_code_store now (approved_code now tenant_id code pubkey None params) (os_db s) =
      (fst (oauth_code_store now (approved_code now tenant_id code pubkey None params) (os_db s)), Ok tt)).
    { unfold oauth_code_store, insert_code. replace (existsb _ _) with false; [done|]. symmetry. apply existsb_false.
      intros r Hin. rewrite Forall_forall in Hcode. apply bool_decide_false. by apply Hcode. }
    rewrite Hs. cbn [map_err]. eexists. split; [reflexivity|]. done. }
  destruct Hrun as (s' & Hrun & Hs). exists s'. eexists. split; [exact Hrun|]. intros o tresp Hg.
  edestruct (stored_code_grants now now' _ (acf_oauth cfg) dr treq s s' o tresp Hs Hrq Hg) as (b & pid & Hpid & Hb & Hid & Hbu & _ & Hbp).
  exists b, pid. cbn [approved_code sp_scope sp_user_pubkey] in *. by rewrite Hsc in Hpid.
Qed.

(** A code without a scope is worthless.  When the request names no scope,
    GET /oauth/authorize stores the code with the scope sign_event, which the token
    endpoint refuses: whatever the exchange presents, it never succeeds. *)
Theorem unscoped_code_never_exchanged now now' cfg vite clients code tenant_id cookie params dr treq s s' location :
  authorize_get now cfg vite clients code tenant_id cookie params s = (s', Ok (CodeRedirect location)) ->
  az_scope params = None -> rq_code treq = Some code ->
  is_ok (snd (handle_authorization_code_grant now' (acf_oauth cfg) dr tenant_id treq s')) = false.
Proof.
  intros (pubkey & previous & _ & _ & _ & _ & Hs & _)%authorize_get_code Hsc Hrq.
  destruct (handle_authorization_code_grant _ _ _ _ _ _) as [o [tresp|e]] eqn:Hg; [|done].
  edestruct (stored_code_grants now now' _ (acf_oauth cfg) dr treq s s' o tresp Hs Hrq Hg) as (b & pid & Hpid & _).
  cbn [approved_code sp_scope] in Hpid. by rewrite Hsc in Hpid.
Qed.

(** ** nostr-login *)
Lemma connect_post_ok now cfg tenant_id q salt handle form s s' :
  connect_post now cfg tenant_id q salt handle form s = (s', Ok ConnectDone) ->
  cn_approved form = true /\
  exists user short bunker_hex hash a d, extract_user_from_token now cfg q tenant_id = Ok user /\
    prefix_str (cn_client_pubkey form) 12 = Some short /\ bcrypt_hash 10 salt (cn_secret form) = Ok hash /\
    a = oauth_row now {| cp_tenant_id := tenant_id; cp_user_pubkey := user;
      cp_redirect_origin := "nostrconnect://" +:+ cn_client_pubkey form; cp_client_id := "nostr-login-" +:+ short;
      cp_bunker_public_key := bunker_hex; cp_secret_hash := hash; cp_relays := json_to_string (JArray [JString (cn_relay form)]);
      cp_policy_id := None; cp_client_pubkey := Some (cn_client_pubkey form); cp_authorization_handle := Some handle;
      cp_handle_expires_at := now + days 30 |} (next_id (db_oauth_authorizations (os_db s))) /\
    d = set_oauth_authorizations {| rows := rows (db_oauth_authorizations (os_db s)) ++ [a];
                                    next_id := next_id (db_oauth_authorizations (os_db s)) + 1 |} (os_db s) /\
    os_db s' = d.
Proof.
  unfold connect_post. intros H.
  apply se_bind_ok in H as (? & shown & [-> _]%se_lift_ok & H). destruct (cn_approved form); [|done]. cbn [negb] in H. split; [done|].
  apply se_bind_ok in H as (? & user & [-> Hu%map_err_ok]%se_lift_ok & H).
  apply se_bind_ok in H as (? & found & [-> _]%se_gets_ok & H).
  apply se_bind_ok in H as (? & enc & [-> _]%se_lift_ok & H).
  apply se_bind_ok in H as (? & hash & [-> Hh%map_err_ok]%se_lift_ok & H).
  apply se_bind_ok in H as (? & bk & [-> _]%se_lift_ok & H).
  apply se_bind_ok in H as (? & short & [-> Hsh%ok_or_ok]%se_lift_ok & H).
  apply se_bind_ok in H as (? & id & (d & Hc & ->)%on_db_ok & H). apply create_inserts in Hc as (-> & _ & ->).
  apply se_bind_ok in H as (s1 & [] & Hsend & H). injection H as <-.
  exists user, short, (pk_to_hex (pk_of bk)), hash. eexists _, _. split_and!; try done.
  unfold send_command in Hsend. injection Hsend as <-. by destruct (cfg_auth_tx _).
Qed.

(** A nostr-login connection ignores the permissions that were shown.  Whatever
    the form's perms say, an approved connection creates an authorization without a
    policy, and the signer's handler of it signs every event and encrypts and
    decrypts every text. *)
Theorem connect_grants_everything now cfg tenant_id q salt handle form s s' :
  connect_post now cfg tenant_id q salt handle form s = (s', Ok ConnectDone) ->
  ids_fresh oa_id (db_oauth_authorizations (os_db s)) ->
  is_ok (decode_relays (json_to_string (JArray [JString (cn_relay form)]))) = true ->
  exists a, a ∈ rows (db_oauth_authorizations (os_db s')) /\ oa_policy_id a = None /\
    extract_user_from_token now cfg q tenant_id = Ok (oa_user_pubkey a) /\
    oa_client_pubkey a = Some (cn_client_pubkey form) /\
    forall h, h_is_oauth h = true -> h_tenant_id h = tenant_id -> h_authorization_id h = oa_id a ->
      (forall e, validate_permissions_for_sign (os_db s') h e = Ok tt) /\
      (forall t k, validate_permissions_for_encrypt (os_db s') h t k = Ok tt) /\
      (forall t k, validate_permissions_for_decrypt (os_db s') h t k = Ok tt).
Proof.
  intros (_ & user & short & bunker_hex & hash & a & d & Hu & _ & _ & Ha & Hd & Hdb)%connect_post_ok [_ Hlt] [relays Hrel]%is_ok_Ok.
  exists a. subst d. rewrite Hdb. split; [apply elem_of_app; right; by apply list_elem_of_singleton|].
  split_and!; [by rewrite Ha | by rewrite Ha | by rewrite Ha|]. intros h Ho Ht Hid.
  assert (Hload : load_permissions (os_db s') h = Ok []).
  { unfold load_permissions. rewrite Ho. unfold oauth_find. rewrite Hdb. cbn [db_oauth_authorizations set_oauth_authorizations rows].
    rewrite (find_first_unique _ _ a).
    - unfold fetch_one, decode_oauth. cbn [ok_or rbind]. replace (oa_relays a) with (json_to_string (JArray [JString (cn_relay form)])) by by rewrite Ha.
      rewrite Hrel. cbn [rbind map_err]. unfold oauth_permissions. by rewrite Ha.
    - apply elem_of_app. right. by apply list_elem_of_singleton.
    - rewrite Ht, Hid, Ha. simpl. by rewrite !Z.eqb_refl.
    - intros b [Hb | ->%list_elem_of_singleton]%elem_of_app [_ Hm%Z.eqb_eq]%andb_true_iff; [|done]. exfalso.
      rewrite Forall_forall in Hlt. specialize (Hlt b Hb). rewrite Hid, Ha in Hm. simpl in Hm. lia. }
  rewrite Hdb in Hload.
  unfold validate_permissions_for_sign, validate_permissions_for_encrypt, validate_permissions_for_decrypt. by rewrite Hload.
Qed.
End pages_safety.

(** ** Witnesses

    Percent encoding of the delimiters only. *)
Definition encode_char (c : ascii) : string :=
  if bool_decide (c = "%"%char) then "%p" else if bool_decide (c = "&"%char) then "%a"
  else if bool_decide (c = "="%char) then "%e" else if bool_decide (c = "?"%char) then "%q" else String c "".
Fixpoint encode_chars (s : string) : string :=
  match s with EmptyString => "" | String c s' => encode_char c +:+ encode_chars s' end.
Definition decode_char (c : ascii) : ascii :=
  if bool_decide (c = "p"%char) then "%" else if bool_decide (c = "a"%char) then "&"
  else if bool_decide (c = "e"%char) then "=" else "?".
Fixpoint decode_chars (s : string) : string :=
  match s with
  | EmptyString => ""
  | String c s' =>
      if bool_decide (c = "%"%char) then
        match s' with EmptyString => "" | String x s'' => String (decode_char x) (decode_chars s'') end
      else String c (decode_chars s')
  end.

#[local] Instance percent_url : UrlLib := {
  url_parse s := (fun h => {| url_scheme := "https"; url_host_str := Some h; url_port := None |}) <$> strip_prefix "https://" s;
  urlencode := encode_chars }.
#[local] Instance percent_decode : UrlDecode := { url_decode s := Ok (decode_chars s) }.
#[local] Instance percent_laws : UrlDecodeLaws.
Proof.
  split.
  - intros s. simpl. f_equal. induction s as [|c s IH]; [done|]. simpl. unfold encode_char.
    repeat (case_bool_decide; [subst;
      match goal with |- _ = String ?x _ => change (String x (decode_chars (encode_chars s)) = String x s) end; by rewrite IH|]).
    change (String c "" +:+ ?x) with (String c x). cbn [decode_chars]. by rewrite bool_decide_false, IH.
  - intros s c Hc. simpl. induction s as [|a s IH]; [done|]. simpl. rewrite contains_char_app, IH, orb_false_r. unfold encode_char.
    repeat (apply elem_of_cons in Hc as [->|Hc]); try (by apply not_elem_of_nil in Hc);
      repeat (case_bool_decide; [reflexivity|]); rewrite contains_char_cons, bool_decide_false by done; reflexivity.
Qed.

Definition client_key : string := "0123456789abcdef0123456789abcdef0123456789abcdef0123456789abcdef".
Definition client_params : NostrConnectParams := {|
  nc_relay := "wss://r.example/?a=b"; nc_secret := "s&c=r"; nc_perms := Some "sign_event"; nc_name := None;
  nc_url := Some "https://app"; nc_image := None |}.

Lemma nostrconnect_round_trip_witness :
  parse_nostrconnect_uri (nostrconnect_uri client_key client_params) = Ok (client_key, client_params).
Proof. apply nostrconnect_round_trip; [vm_compute; reflexivity | vm_compute; reflexivity | discriminate | vm_compute; reflexivity]. Defined.

(** A user with an authorization for the policy "social" and a session. *)
Definition page_db : Db :=
  set_policies {| rows := map (fun p => {| pol_id := fst p; pol_name := snd p; pol_team_id := None; pol_created_at := 0;
                    pol_updated_at := 0; pol_slug := Some (snd p); pol_display_name := None; pol_description := None |})
                    [(3, "social"); (4, "full")]; next_id := 5 |}
    (set_users [us_set_email (Some "u@b") (new_user 0 "Pu" 1)] (sample_db [sample_oauth None None None] [])).
Definition page_state : oauth_state := ac_oauth (state_of page_db).
Definition page_request (scope : option string) : AuthorizeRequest := {|
  az_client_id := "app"; az_redirect_uri := "https://app.example"; az_scope := scope; az_state := Some "st";
  az_code_challenge := None; az_code_challenge_method := None; az_prompt := None; az_byok_pubkey := None;
  az_default_register := None; az_authorization_handle := None; az_screen := None |}.
Definition session_header : option string := Some "keycast_session=tok".
Definition page_exchange : TokenRequest := {|
  rq_grant_type := None; rq_code := Some "c0de"; rq_client_id := "app"; rq_redirect_uri := Some "https://app.example";
  rq_code_verifier := None; rq_refresh_token := None |}.

Lemma silent_approval_sound_witness :
  exists s' location pubkey,
    authorize_get 10 toy_account_config None [] "c0de" 1 session_header (page_request None) page_state = (s', Ok (CodeRedirect location)) /\
    session_user 10 toy_account_config 1 session_header (page_request None) page_db pubkey.
Proof.
  destruct (run_ok (authorize_get 10 toy_account_config None [] "c0de" 1 session_header (page_request None) page_state))
    as (s' & r & E); [vm_compute; reflexivity|].
  assert (Hr : exists location, r = CodeRedirect location) by (vm_compute in E; injection E as _ <-; eexists; reflexivity).
  destruct Hr as [location ->].
  destruct (silent_approval_sound 10 toy_account_config None [] "c0de" 1 session_header (page_request None) page_state s' location E)
    as (pubkey & row & _ & Hu & _).
  exists s', location, pubkey. exact (conj E Hu).
Defined.

Lemma silent_approval_reaches_any_policy_witness :
  exists s' location o tresp b,
    authorize_get 10 toy_account_config None [] "c0de" 1 session_header (page_request (Some "policy:full")) page_state
      = (s', Ok (CodeRedirect location)) /\
    handle_authorization_code_grant 20 sample_config (sample_draw "1") 1 page_exchange s' = (o, Ok tresp) /\
    b ∈ rows (db_oauth_authorizations (os_db o)) /\ oa_policy_id b = Some 4.
Proof.
  destruct (silent_approval_reaches_any_policy 10 20 toy_account_config None [] "c0de" 1 session_header (page_request (Some "policy:full"))
    "Pu" false (Some "u@b") "https://app.example" (sample_oauth None None None) "policy:full" (sample_draw "1") page_exchange page_state)
    as (s' & location & E & H).
  1-6: vm_compute; reflexivity.
  - left.
  - reflexivity.
  - reflexivity.
  - reflexivity.
  - reflexivity.
  - constructor.
  - reflexivity.
  - destruct (run_ok (handle_authorization_code_grant 20 sample_config (sample_draw "1") 1 page_exchange
      (fst (authorize_get 10 toy_account_config None [] "c0de" 1 session_header (page_request (Some "policy:full")) page_state))))
      as (o & tresp & E2); [vm_compute; reflexivity|].
    rewrite E in E2. cbn [fst] in E2. destruct (H o tresp E2) as (b & pid & Hpid & Hb & _ & _ & Hbp).
    vm_compute in Hpid. injection Hpid as <-. exists s', location, o, tresp, b. exact (conj E (conj E2 (conj Hb Hbp))).
Defined.

Lemma unscoped_code_never_exchanged_witness :
  exists s' location,
    authorize_get 10 toy_account_config None [] "c0de" 1 session_header (page_request None) page_state = (s', Ok (CodeRedirect location)) /\
    is_ok (snd (handle_authorization_code_grant 20 sample_config (sample_draw "1") 1 page_exchange s')) = false.
Proof.
  destruct (run_ok (authorize_get 10 toy_account_config None [] "c0de" 1 session_header (page_request None) page_state))
    as (s' & r & E); [vm_compute; reflexivity|].
  assert (Hr : exists location, r = CodeRedirect location) by (vm_compute in E; injection E as _ <-; eexists; reflexivity).
  destruct Hr as [location ->]. exists s', location. split; [exact E|].
  apply (unscoped_code_never_exchanged 10 20 toy_account_config None [] "c0de" 1 session_header (page_request None) (sample_draw "1")
    page_exchange page_state s' location E); reflexivity.
Defined.

Definition connect_form : ConnectApprovalForm := {|
  cn_client_pubkey := client_key; cn_relay := "wss://r"; cn_secret := "s"; cn_perms := Some "get_public_key"; cn_approved := true |}.

Lemma connect_grants_everything_witness :
  exists s' a,
    connect_post 10 toy_account_config 1 (from_app [("authorization", "Bearer tok")]) "salt" "handle2" connect_form page_state
      = (s', Ok ConnectDone) /\ a ∈ rows (db_oauth_authorizations (os_db s')) /\ oa_policy_id a = None.
Proof.
  destruct (run_ok (connect_post 10 toy_account_config 1 (from_app [("authorization", "Bearer tok")]) "salt" "handle2" connect_form page_state))
    as (s' & r & E); [vm_compute; reflexivity|].
  assert (r = ConnectDone) as -> by (vm_compute in E; by injection E as _ <-).
  destruct (connect_grants_everything 10 toy_account_config 1 (from_app [("authorization", "Bearer tok")]) "salt" "handle2" connect_form page_state s' E)
    as (a & Ha & Hp & _).
  - split; [apply NoDup_singleton | constructor; [vm_compute; reflexivity | constructor]].
  - vm_compute. reflexivity.
  - exists s', a. exact (conj E (conj Ha Hp)).
Defined.
