(* ===== verification/AdminRepo.v ===== *)
(** * The searches of the administration

    find_users_for_admin of core/src/repositories/user.rs, search_by_name of
    team.rs and find_active_support_for_caller of authorization.rs, with the
    pattern matching of SQL they use.  LOWER and the order of texts follow the
    locale of the database and are parameters; a query without ORDER BY gives the
    rows in the order of the table. *)
From S2P Require Import Prelude RustStr External Instances Database Tokens Permissions Policies AuthTypes OAuthRepo Users TeamRepo CustomerRepo.

(** ** LIKE

    Over the bytes of a text in UTF-8: a percent sign is any text, an underscore
    one character, a backslash takes the next character literally.  A pattern that
    ends in a backslash is an error of the database; every pattern of the program
    ends in a percent sign. *)
Fixpoint next_char (s : string) : string :=
  match s with String c s' => if is_continuation c then next_char s' else s | EmptyString => "" end.
Definition backslash : ascii := "092".
Fixpoint like (p : string) : string -> bool :=
  match p with
  | EmptyString => fun s => bool_decide (s = "")
  | String c p' =>
      if bool_decide (c = "%"%char) then
        fix any s := like p' s || match s with String _ s' => any s' | EmptyString => false end
      else if bool_decide (c = "_"%char) then
        fun s => match s with String _ s' => like p' (next_char s') | EmptyString => false end
      else if bool_decide (c = backslash) then
        match p' with
        | String d p'' => fun s => match s with String a s' => bool_decide (a = d) && like p'' s' | EmptyString => false end
        | EmptyString => fun _ => false
        end
      else fun s => match s with String a s' => bool_decide (a = c) && like p' s' | EmptyString => false end
  end.

Class SqlText := { sql_lower : string -> string }.
Definition ilike `{SqlText} (p s : string) : bool := like (sql_lower p) (sql_lower s).

(** A text whose characters stand for themselves in a pattern. *)
Definition plain_char (c : ascii) : bool :=
  negb (bool_decide (c = "%"%char)) && negb (bool_decide (c = "_"%char)) && negb (bool_decide (c = backslash)).
Definition plain (s : string) : bool := all_bytes plain_char s.

(** ** Support access *)
Definition support_prefix (caller_pubkey_hex : string) : string := "support:" +:+ caller_pubkey_hex.
(** [label LIKE $3 || '%']: NULL matches nothing. *)
Definition labelled (label_prefix : string) (a : Authorization) : bool :=
  match au_label a with Some label => like (label_prefix +:+ "%") label | None => false end.
Definition of_team_key (team_id : Z) (d : Db) (a : Authorization) : bool :=
  existsb (fun k => (sk_id k =? au_stored_key_id a) && (sk_team_id k =? team_id)) (rows (db_stored_keys d)).
Definition active_support (tenant_id team_id : Z) (caller_pubkey_hex : string) (d : Db) (a : Authorization) : bool :=
  (au_tenant_id a =? tenant_id) && of_team_key team_id d a && is_null (au_revoked_at a)
  && labelled (support_prefix caller_pubkey_hex) a.
Definition find_active_support_for_caller (tenant_id team_id : Z) (caller_pubkey_hex : string) (d : Db) : list (Z * string) :=
  map (fun a => (au_id a, au_bunker_public_key a))
    (List.filter (active_support tenant_id team_id caller_pubkey_hex d) (rows (db_authorizations d))).

(** ** Users *)
Record AdminUserDetails : Type := {
  aud_pubkey : string; aud_email : option string; aud_email_verified : bool; aud_username : option string;
  aud_display_name : option string; aud_vine_id : option string; aud_has_personal_key : bool;
  aud_created_at : Z; aud_updated_at : Z;
}.
(** REGEXP_REPLACE(s, '[._\-]', '', 'g') *)
Fixpoint strip_separators (s : string) : string :=
  match s with
  | EmptyString => ""
  | String c s' => if bool_decide (c ∈ ["."%char; "_"%char; "-"%char]) then strip_separators s' else String c (strip_separators s')
  end.

Section searches.
Context `{HN : Nostr, HE : !Encodings, HUni : Unicode, HSq : SqlText, HO : Collation}.

Definition name_key (s : string) : string := sql_lower (strip_separators s).
Definition by_column (column : user_row -> option string) (p : string -> bool) (tenant_id : Z) (d : Db) : list string :=
  map us_pubkey (take 20 (List.filter (fun u => match column u with Some v => p v | None => false end
                                                && (us_tenant_id u =? tenant_id)) (db_users d))).
Definition by_vine_id (query : string) (tenant_id : Z) (d : Db) : list string :=
  by_column us_vine_id (fun v => bool_decide (sql_lower v = sql_lower query)) tenant_id d.
Definition vine_or_key (query : string) (tenant_id : Z) (d : Db) : list string :=
  match by_vine_id query tenant_id d with [] => [query] | l => l end.
Definition prefix_pattern (query : string) : string :=
  to_lowercase (concat_str (List.filter is_alphanumeric (chars query))) +:+ "%".

(** The keys a query stands for; [None] for an npub that is none. *)
Definition keys_for_query (query : string) (tenant_id : Z) (d : Db) : option (list string) :=
  if contains_char "@" query then
    Some (match find_user_by_email (to_lowercase query) tenant_id d with Some u => [us_pubkey u] | None => [] end)
  else if starts_with "npub" query then
    match pk_parse query with Ok pk => Some [pk_to_hex pk] | Err _ => None end
  else
    Some (match by_column us_username (fun v => bool_decide (name_key v = name_key query)) tenant_id d with
          | [] =>
              if 3 <=? len query then
                match by_column us_username (fun v => like (prefix_pattern query) (name_key v)) tenant_id d with
                | [] => vine_or_key query tenant_id d
                | l => l
                end
              else vine_or_key query tenant_id d
          | l => l
          end).

Definition details_of (u : user_row) (has_personal_key : bool) : AdminUserDetails := {|
  aud_pubkey := us_pubkey u; aud_email := us_email u; aud_email_verified := us_email_verified u;
  aud_username := us_username u; aud_display_name := us_display_name u; aud_vine_id := us_vine_id u;
  aud_has_personal_key := has_personal_key; aud_created_at := us_created_at u; aud_updated_at := us_updated_at u |}.
(** LEFT JOIN personal_keys *)
Definition with_keys (d : Db) (u : user_row) : list AdminUserDetails :=
  match List.filter (fun k => bool_decide (pk_user_pubkey k = us_pubkey u) && (pk_tenant_id k =? us_tenant_id u))
          (db_personal_keys d) with
  | [] => [details_of u false]
  | l => map (fun _ => details_of u true) l
  end.
Definition find_users_for_admin (query : string) (tenant_id : Z) (d : Db) : list AdminUserDetails :=
  match keys_for_query query tenant_id d with
  | None | Some [] => []
  | Some pubkeys =>
      flat_map (with_keys d)
        (List.filter (fun u => bool_decide (us_pubkey u ∈ pubkeys) && (us_tenant_id u =? tenant_id)) (db_users d))
  end.
Definition find_user_for_admin (query : string) (tenant_id : Z) (d : Db) : option AdminUserDetails :=
  head (find_users_for_admin query tenant_id d).

(** ** Teams *)
Record RestaurantKeySummary : Type := { rks_name : string; rks_pubkey : string }.
Record TeamSearchResult : Type := {
  tsr_id : Z; tsr_name : string; tsr_created_at : Z; tsr_admin_emails : list string; tsr_has_stored_key : bool;
  tsr_restaurant_keys : list RestaurantKeySummary;
}.
(** ARRAY_AGG(DISTINCT u.email) of the administrators, in the order of the sort. *)
Definition admin_emails (tenant_id team_id : Z) (d : Db) : list string :=
  foldr (insert_by_text id) [] (remove_dups
    (flat_map (fun t => match find_user (tu_user_pubkey t) tenant_id d ≫= us_email with
                        | Some email => if bool_decide (tu_role t = Admin) then [email] else []
                        | None => []
                        end) (List.filter (fun t => tu_team_id t =? team_id) (rows (db_team_users d))))).
Definition found_team (tenant_id : Z) (query : string) (d : Db) (t : Team) : bool :=
  (tm_tenant_id t =? tenant_id)
  && (ilike ("%" +:+ query +:+ "%") (tm_name t)
      || existsb (fun k => team_key tenant_id (tm_id t) k && bool_decide (sk_pubkey k = query)) (rows (db_stored_keys d))).
Definition search_result (tenant_id : Z) (d : Db) (t : Team) : TeamSearchResult := {|
  tsr_id := tm_id t; tsr_name := tm_name t; tsr_created_at := tm_created_at t;
  tsr_admin_emails := admin_emails tenant_id (tm_id t) d;
  tsr_has_stored_key := existsb (team_key tenant_id (tm_id t)) (rows (db_stored_keys d));
  tsr_restaurant_keys := map (fun k => {| rks_name := sk_name k; rks_pubkey := sk_pubkey k |})
                           (list_by_team tenant_id (tm_id t) d) |}.
Definition search_by_name (tenant_id : Z) (query : string) (limit : nat) (d : Db) : list TeamSearchResult :=
  take limit (foldr (insert_by_text tsr_name) []
    (map (search_result tenant_id d) (List.filter (found_team tenant_id query d) (rows (db_teams d))))).
End searches.

(** ** What a pattern matches *)
Lemma plain_char_spec c : plain_char c = true -> c <> "%"%char /\ c <> "_"%char /\ c <> backslash.
Proof. unfold plain_char. intros [[H1 H2]%andb_true_iff H3]%andb_true_iff. bool_to_prop. done. Qed.

Lemma plain_cons c s : plain (String c s) = true -> plain_char c = true /\ plain s = true.
Proof. unfold plain, all_bytes. simpl. apply andb_true_iff. Qed.

Lemma like_any p s : like (String "%" p) s = true <-> exists a b, s = a +:+ b /\ like p b = true.
Proof.
  change (like (String "%" p) s) with
    ((fix any s := like p s || match s with String _ s' => any s' | EmptyString => false end) s).
  induction s as [|c s IH].
  - rewrite orb_false_r. split; [intros H; by exists "", "" | intros ([|] & b & E & H); [by rewrite E | done]].
  - rewrite orb_true_iff, IH. split.
    + intros [H|(a & b & -> & H)]; [by exists "", (String c s) | by exists (String c a), b].
    + intros ([|c' a] & b & E & H); [left; by rewrite E|]. injection E as -> ->. right. by exists a, b.
Qed.

Lemma like_everything s : like "%" s = true.
Proof. apply like_any. exists s, "". split; [by rewrite app_empty_r | done]. Qed.

Lemma like_plain p q s : plain p = true -> like (p +:+ q) s = true <-> exists rest, s = p +:+ rest /\ like q rest = true.
Proof.
  revert s. induction p as [|c p IH]; intros s Hp; [split; [by exists s | intros (r & -> & H); exact H]|].
  apply plain_cons in Hp as [(H1 & H2 & H3)%plain_char_spec Hp]. simpl. rewrite !bool_decide_false by done.
  destruct s as [|a s]; [split; [done | by intros (r & E & _)]|].
  rewrite andb_true_iff, bool_decide_eq_true, (IH s Hp). split.
  - intros [-> (r & -> & H)]. by exists r.
  - intros (r & E & H). injection E as -> ->. eauto.
Qed.

(** A plain prefix with a percent sign is [starts_with], between two percent signs
    it is [contains]. *)
Lemma like_prefix p s : plain p = true -> like (p +:+ "%") s = starts_with p s.
Proof.
  intros Hp. apply eq_bool_prop_intro. rewrite !Is_true_true, like_plain, starts_with_spec by done.
  split; intros (r & H); [by exists r; destruct H | exists r; split; [done | apply like_everything]].
Qed.

Lemma like_contains p s : plain p = true -> like ("%" +:+ p +:+ "%") s = contains p s.
Proof.
  intros Hp. apply eq_bool_prop_intro. rewrite !Is_true_true. change ("%" +:+ p +:+ "%") with (String "%" (p +:+ "%")).
  rewrite like_any, contains_spec. split.
  - intros (a & b & -> & H). rewrite (like_prefix _ _ Hp), starts_with_spec in H. destruct H as [r ->]. eauto.
  - intros (a & b & ->). exists a, (p +:+ b). split; [done|]. rewrite (like_prefix _ _ Hp), starts_with_spec. eauto.
Qed.
