(* ===== verification/Admin.v ===== *)
(** * Administration

    api/src/api/http/admin.rs: tokens for administrators and preloaded accounts,
    claim links, the lookups of the support tools, access of support agents to
    teams, the support agents themselves, deletion of users and the origins of the
    customers' apps.  The state is that of the accounts.  Keys, secrets and tokens
    a handler draws are arguments, and so are the email service, the profiles the
    relays know and the name server.  Times in responses are numbers of seconds;
    log lines count where their arguments can panic. *)
From S2P Require Import Prelude RustStr External Instances Database Samples Tokens Permissions Policies AuthTypes Signer Ucan HttpRpc OAuthRepo Users OAuth WorkQueue Queues RateLimit Tenant Nip98 Accounts AccountKeys TeamRepo Teams CustomerRepo Customers AdminRepo.

(** ** Parameters *)
Class KeyText `{Nostr} := { pk_from_bech32 : string -> result PublicKey string }.
Class UrlParts `{UrlPages} := {
  page_host_str : page -> option string;
  page_path : page -> string;
  page_query : page -> option string;
  page_fragment : page -> option string;
}.

(** ** Constants *)
Definition ADMIN_TOKEN_EXPIRY_DAYS : Z := 30.
Definition PRELOAD_TOKEN_EXPIRY_DAYS : Z := 30.
Definition DEFAULT_SUPPORT_AUTH_EXPIRY_HOURS : Z := 24.
Definition MAX_SUPPORT_AUTH_EXPIRY_HOURS : Z := 24 * 7.
Definition BATCH_CLAIM_LIMIT : Z := 100.
Definition TEAM_LOOKUP_LIMIT : nat := 25.
Definition TEAM_LOOKUP_MIN_QUERY_LEN : Z := 2.

(** ** Requests and responses *)
Record AdminStatusResponse : Type := { ads_is_admin : bool; ads_role : option string }.
Record AdminTokenResponse : Type := { adt_token : string; adt_expires_at : Z }.
Record PreloadUserRequest : Type := { pu_vine_id : string; pu_username : string; pu_display_name : option string }.
Record PreloadUserResponse : Type := { pur_pubkey : string; pur_token : string }.
Record CreateClaimTokenResponse : Type := { cct_claim_url : string; cct_expires_at : Z }.
Record GetClaimTokenResponse : Type := {
  gct_has_token : bool; gct_claim_url : option string; gct_expires_at : option Z;
}.
Record BatchCreateClaimTokensRequest : Type := { bq_vine_ids : list string; bq_delivery_email : option string }.
Record BatchClaimTokenEntry : Type := { bt_vine_id : string; bt_claim_url : string; bt_expires_at : Z }.
Record BatchSkippedEntry : Type := { bk_vine_id : string; bk_reason : string }.
Record BatchCreateClaimTokensResponse : Type := {
  bc_tokens : list BatchClaimTokenEntry; bc_skipped : list BatchSkippedEntry; bc_errors : list string;
}.
Record UserLookupDetails : Type := {
  uld_user : AdminUserDetails; uld_active_sessions : nat; uld_last_active : option Z;
}.
Record UserLookupResponse : Type := { ulr_results : list UserLookupDetails; ulr_total : nat }.
Record TeamLookupResponse : Type := { tlr_results : list TeamSearchResult; tlr_total : nat }.
Record TeamNamesResponse : Type := { tnr_teams : list (Z * string); tnr_total : nat }.
Record TeamMember : Type := {
  tme_user_pubkey : string; tme_name : option string; tme_email : option string; tme_role : string; tme_joined_at : Z;
}.
Record TeamMembersResponse : Type := {
  tmr_team_id : Z; tmr_team_name : string; tmr_members : list TeamMember; tmr_total : nat;
}.
Record AdminAuthorization : Type := {
  aau_id : Z; aau_label : option string; aau_bunker_public_key : string; aau_relays : list string;
  aau_connected_client_pubkey : option string; aau_connected_at : option Z; aau_expires_at : option Z;
  aau_revoked_at : option Z; aau_revoked_reason : option string; aau_created_at : Z; aau_updated_at : Z;
}.
Record AdminRestaurantKey : Type := {
  ark_id : Z; ark_name : string; ark_pubkey : string; ark_created_at : Z; ark_authorizations : list AdminAuthorization;
}.
Record AdminTeamDetails : Type := {
  atd_id : Z; atd_name : string; atd_role : string; atd_joined_at : Z; atd_restaurant_keys : list AdminRestaurantKey;
}.
Record GrantSupportAccessRequest : Type := {
  gs_policy_id : option Z; gs_label : option string; gs_expires_in_hours : option Z;
}.
Record GrantSupportAccessResponse : Type := {
  gsr_team_id : Z; gsr_stored_key_pubkey : string; gsr_authorization : Authorization; gsr_bunker_url : string;
}.
Record ReleaseSupportAccessResponse : Type := {
  rsr_team_id : Z; rsr_revoked_authorizations : nat; rsr_removed_membership : bool;
}.
Record SupportAdminEntry : Type := { sae_pubkey : string; sae_email : option string }.
Record AddSupportAdminResponse : Type := { asr_pubkey : string; asr_added : bool }.
Record AddCustomerOriginRequest : Type := {
  acq_origin : string; acq_merchant_name : string; acq_merchant_pubkey : string;
}.

Section admin.
Context `{HN : Nostr, HC : !NostrCrypto, HS : !Serde, HX : !Secrets, HE : !Encodings, HV : !HttpEvents, HU : UcanLib,
          HM : !UcanMint, HL : UrlLib, HUni : Unicode, HCh : Channel, HSq : SqlText, HO : Collation, HK : !KeyText,
          HP : UrlPages, HQ : !UrlParts}.

Notation AdM A := (SE account_state api_abort A).

Definition admin_fail {A} (e : ApiError) : AdM A := se_fail (ApiFailed e).
Definition admin_lift {A} (r : result A ApiError) : AdM A := se_lift (map_err ApiFailed r).
Definition admin_read {A} (f : Db -> A) : AdM A := se_gets (fun s => f (ac_db s)).
(** A statement whose error becomes the one [f] gives. *)
Definition admin_repo {A} (f : RepositoryError -> ApiError) (c : DbM A) : AdM A := fun s =>
  let '(d, r) := c (ac_db s) in (set_ac_db d s, map_err (fun e => ApiFailed (f e)) r).
Definition internal (what : string) (e : RepositoryError) : ApiError := Api_Internal (what +:+ repository_error_str e).

(** [&key[..8]] and [&key[..8.min(key.len())]] of a log line *)
Definition log_key (key : string) : AdM unit :=
  let! _ := se_lift (ok_or (prefix_str key 8) ApiPanic) in se_ret tt.
Definition log_key_min (key : string) : AdM unit :=
  let! _ := se_lift (ok_or (prefix_str key (Z.min 8 (len key))) ApiPanic) in se_ret tt.

(** ** Who may act *)
Definition full_admins {A} (cfg : account_config) (auth : UcanAuth) (refused allowed : AdM A) : AdM A :=
  if is_full_admin (acf_auth cfg) auth then allowed else refused.
Definition support_admins {A} (cfg : account_config) (now : Z) (auth : UcanAuth) (refused allowed : AdM A) : AdM A :=
  let! ok := se_gets (fun s => is_support_admin (acf_auth cfg) now auth (ac_redis s)) in
  if ok : bool then allowed else refused.
Definition forbidden {A} (message : string) : AdM A := admin_fail (Api_Forbidden message).
Definition logged_forbidden {A} (auth : UcanAuth) : AdM A :=
  let! _ := log_key (ua_pubkey auth) in forbidden "Admin access required".

Definition admin_server_keys (cfg : account_config) : result SecretKey ApiError :=
  let? server_nsec := ok_or (ae_server_nsec (acf_auth cfg)) (Api_Internal "SERVER_NSEC not configured") in
  map_err (fun e => Api_Internal ("Invalid SERVER_NSEC: " +:+ e)) (keys_parse server_nsec).

Definition get_admin_status (now : Z) (cfg : account_config) (auth : UcanAuth) : AdM AdminStatusResponse :=
  se_gets (fun s => let role := admin_role_for (acf_auth cfg) now auth (ac_redis s) in
                    {| ads_is_admin := negb (is_null role); ads_role := role |}).

(** ** Tokens *)
Definition generate_admin_ucan (now : Z) (admin_pubkey : PublicKey) (tenant_id : Z) (server_keys : SecretKey)
  : result string ApiError :=
  map_err Api_Internal (ucan_mint now server_keys (nostr_pubkey_to_did admin_pubkey) (ADMIN_TOKEN_EXPIRY_DAYS * 24 * 3600)
    (JObject [("tenant_id", JInt tenant_id); ("redirect_origin", JString "admin"); ("admin", JBool true);
              ("admin_role", JString "full")])).

Definition get_admin_token (now : Z) (cfg : account_config) (tenant_id : Z) (auth : UcanAuth) : AdM AdminTokenResponse :=
  full_admins cfg auth (logged_forbidden auth)
  (let! server_keys := admin_lift (admin_server_keys cfg) in
   let! user_pubkey := admin_lift (map_err (fun e => Api_BadRequest ("Invalid pubkey: " +:+ e)) (pk_from_hex (ua_pubkey auth))) in
   let! token := admin_lift (generate_admin_ucan now user_pubkey tenant_id server_keys) in
   let! _ := log_key (ua_pubkey auth) in
   se_ret {| adt_token := token; adt_expires_at := now + days ADMIN_TOKEN_EXPIRY_DAYS |}).

(** No bunker key: the mode of preloaded accounts. *)
Definition generate_preload_ucan (now : Z) (user_pubkey : PublicKey) (tenant_id : Z) (server_keys : SecretKey)
    (admin_pubkey_hex : string) : result string ApiError :=
  map_err Api_Internal (ucan_mint now server_keys (nostr_pubkey_to_did user_pubkey) (PRELOAD_TOKEN_EXPIRY_DAYS * 24 * 3600)
    (JObject [("tenant_id", JInt tenant_id); ("redirect_origin", JString "preload"); ("issued_by_admin", JString admin_pubkey_hex)])).

(** [keys] is the generated key.  The name server is told of the new name, and
    what it answers is logged. *)
Definition preload_user (now : Z) (cfg : account_config) (tenant_id : Z) (auth : UcanAuth) (keys : SecretKey)
    (req : PreloadUserRequest) : AdM PreloadUserResponse :=
  full_admins cfg auth (logged_forbidden auth)
  (let! server_keys := admin_lift (admin_server_keys cfg) in
   let! existing := admin_read (find_pubkey_by_vine_id (pu_vine_id req) tenant_id) in
   match existing with
   | Some existing_pubkey =>
       let! existing_user_pubkey := admin_lift (map_err (fun e => Api_Internal ("Invalid stored pubkey: " +:+ e))
                                                  (pk_from_hex existing_pubkey)) in
       let! token := admin_lift (generate_preload_ucan now existing_user_pubkey tenant_id server_keys (ua_pubkey auth)) in
       let! _ := log_key existing_pubkey in
       se_ret {| pur_pubkey := existing_pubkey; pur_token := token |}
   | None =>
       let! same_name := admin_read (find_pubkey_by_username (pu_username req) tenant_id) in
       if negb (is_null same_name) then
         admin_fail (Api_Conflict ("User with username " +:+ pu_username req +:+ " already exists"))
       else
         let pubkey_hex := pk_to_hex (pk_of keys) in
         let! encrypted_secret := admin_lift (map_err (fun e => Api_Internal ("Failed to encrypt secret: " +:+ e))
                                                (km_encrypt (sk_to_bytes keys))) in
         let! _ := admin_repo api_error_of_repository
                     (create_preloaded_user now pubkey_hex tenant_id (pu_vine_id req) (pu_username req)
                        (pu_display_name req) encrypted_secret) in
         let! token := admin_lift (generate_preload_ucan now (pk_of keys) tenant_id server_keys (ua_pubkey auth)) in
         let! _ := log_key pubkey_hex in
         se_ret {| pur_pubkey := pubkey_hex; pur_token := token |}
   end).

Definition get_user_token (now : Z) (cfg : account_config) (tenant_id : Z) (auth : UcanAuth) (pubkey : string) : AdM string :=
  full_admins cfg auth (logged_forbidden auth)
  (let! user_pubkey := admin_lift (map_err (fun e => Api_BadRequest ("Invalid pubkey: " +:+ e)) (pk_from_hex pubkey)) in
   let! unclaimed := admin_read (fun d => is_unclaimed d pubkey tenant_id) in
   match unclaimed with
   | None =>
       let! shown := se_lift (ok_or (prefix_str pubkey 8) ApiPanic) in
       admin_fail (Api_NotFound ("User with pubkey " +:+ shown +:+ " not found"))
   | Some false => forbidden "Cannot generate token for claimed user"
   | Some true =>
       let! server_keys := admin_lift (admin_server_keys cfg) in
       let! token := admin_lift (generate_preload_ucan now user_pubkey tenant_id server_keys (ua_pubkey auth)) in
       let! _ := log_key pubkey in
       let! _ := log_key (ua_pubkey auth) in
       se_ret token
   end).

(** ** Claim links *)
Definition admin_app_url (cfg : account_config) : string := default "http://localhost:3000" (acf_app_url cfg).
Definition claim_url_for (cfg : account_config) (token : string) : string := admin_app_url cfg +:+ "/api/claim?token=" +:+ token.

Definition get_claim_token (now : Z) (cfg : account_config) (tenant_id : Z) (auth : UcanAuth) (pubkey : string)
  : AdM GetClaimTokenResponse :=
  support_admins cfg now auth (forbidden "Admin access required")
  (admin_read (fun d =>
     match claim_find_valid_by_user_pubkey now pubkey tenant_id (db_claim_tokens d) with
     | Some ct => {| gct_has_token := true; gct_claim_url := Some (claim_url_for cfg (ct_token ct));
                     gct_expires_at := Some (ct_expires_at ct) |}
     | None => {| gct_has_token := false; gct_claim_url := None; gct_expires_at := None |}
     end)).

Definition create_claim (now : Z) (token user_pubkey : string) (created_by : string) (tenant_id : Z) : DbM ClaimToken := fun d =>
  let '(t, r) := claim_create now token user_pubkey (Some created_by) tenant_id (db_claim_tokens d) in (set_claim_tokens t d, r).

Definition create_claim_token (now : Z) (cfg : account_config) (tenant_id : Z) (auth : UcanAuth) (token vine_id : string)
  : AdM CreateClaimTokenResponse :=
  support_admins cfg now auth (logged_forbidden auth)
  (let! found := admin_read (find_pubkey_by_vine_id vine_id tenant_id) in
   let! user_pubkey := admin_lift (ok_or found (Api_NotFound ("User with vine_id " +:+ vine_id +:+ " not found"))) in
   let! unclaimed := admin_read (fun d => is_unclaimed d user_pubkey tenant_id) in
   if negb (bool_decide (unclaimed = Some true)) then admin_fail (Api_Conflict "User has already claimed their account")
   else
     let! claim_token := admin_repo api_error_of_repository (create_claim now token user_pubkey (ua_pubkey auth) tenant_id) in
     let! _ := log_key (ua_pubkey auth) in
     se_ret {| cct_claim_url := claim_url_for cfg token; cct_expires_at := ct_expires_at claim_token |}).

(** [filter(|id| seen.insert(id.clone()))] *)
Fixpoint first_occurrences (seen : list string) (ids : list string) : list string :=
  match ids with
  | [] => []
  | id :: rest => if bool_decide (id ∈ seen) then first_occurrences seen rest else id :: first_occurrences (id :: seen) rest
  end.

Definition batch_token (e : BatchClaimTokenEntry) (r : BatchCreateClaimTokensResponse) : BatchCreateClaimTokensResponse :=
  {| bc_tokens := bc_tokens r ++ [e]; bc_skipped := bc_skipped r; bc_errors := bc_errors r |}.
Definition batch_skip (vine_id reason : string) (r : BatchCreateClaimTokensResponse) : BatchCreateClaimTokensResponse :=
  {| bc_tokens := bc_tokens r; bc_skipped := bc_skipped r ++ [{| bk_vine_id := vine_id; bk_reason := reason |}];
     bc_errors := bc_errors r |}.
Definition batch_error (message : string) (r : BatchCreateClaimTokensResponse) : BatchCreateClaimTokensResponse :=
  {| bc_tokens := bc_tokens r; bc_skipped := bc_skipped r; bc_errors := bc_errors r ++ [message] |}.

(** The email service: [None] when it does not start; it accepts a mail or not. *)
Notation claim_mailer := (option (string -> string -> result unit string)).
Definition record_mail (m : mail) (s : account_state) : account_state :=
  {| ac_oauth := ac_oauth s; ac_redis := ac_redis s; ac_jobs := ac_jobs s; ac_mail := ac_mail s ++ [m] |}.

(** The mail of one link: the errors it adds.  The relays of the profile are read
    from BUNKER_RELAYS, which panics without one. *)
Definition deliver_claim (cfg : account_config) (email_service : claim_mailer) (profile : string -> option ProfileMetadata)
    (delivery_email : option string) (vine_id user_pubkey claim_url : string) : AdM (list string) :=
  match delivery_email, email_service with
  | Some email, Some send =>
      let! _ := se_lift (ok_or (get_bunker_relays (cfg_bunker_relays (acf_oauth cfg))) ApiPanic) in
      match send email claim_url with
      | Ok _ => let! _ := se_modify (record_mail (ClaimMail email claim_url (profile user_pubkey ≫= pm_display_name)
                                                   (profile user_pubkey ≫= pm_picture))) in se_ret []
      | Err e => se_ret ["vine_id " +:+ vine_id +:+ ": email delivery failed: " +:+ e]
      end
  | Some _, None => se_ret ["vine_id " +:+ vine_id +:+ ": email service unavailable"]
  | None, _ => se_ret []
  end.

(** One turn of the loop; [token_for] gives the token drawn for an id. *)
Definition batch_one (now : Z) (cfg : account_config) (tenant_id : Z) (auth : UcanAuth) (token_for : string -> string)
    (email_service : claim_mailer) (profile : string -> option ProfileMetadata) (delivery_email : option string)
    (vine_id : string) (out : BatchCreateClaimTokensResponse) : AdM BatchCreateClaimTokensResponse :=
  let! found := admin_read (find_pubkey_by_vine_id vine_id tenant_id) in
  match found with
  | None => se_ret (batch_skip vine_id "user not found" out)
  | Some user_pubkey =>
      let! unclaimed := admin_read (fun d => is_unclaimed d user_pubkey tenant_id) in
      if negb (bool_decide (unclaimed = Some true)) then se_ret (batch_skip vine_id "already claimed" out)
      else
        let! valid := admin_read (fun d => claim_find_valid_by_user_pubkey now user_pubkey tenant_id (db_claim_tokens d)) in
        match valid with
        | Some _ => se_ret (batch_skip vine_id "valid claim token already exists" out)
        | None =>
            let token := token_for vine_id in
            let! created := (fun s => let '(d, r) := create_claim now token user_pubkey (ua_pubkey auth) tenant_id (ac_db s) in
                                      (set_ac_db d s, Ok r)) in
            match created with
            | Err e => se_ret (batch_error ("vine_id " +:+ vine_id +:+ ": failed to create token: " +:+ repository_error_str e) out)
            | Ok claim_token =>
                let claim_url := claim_url_for cfg token +:+
                  match delivery_email with Some email => "&email=" +:+ urlencode email | None => "" end in
                let! errors := deliver_claim cfg email_service profile delivery_email vine_id user_pubkey claim_url in
                se_ret (batch_token {| bt_vine_id := vine_id; bt_claim_url := claim_url; bt_expires_at := ct_expires_at claim_token |}
                          (foldr batch_error out errors))
            end
        end
  end.

Fixpoint batch_loop (one : string -> BatchCreateClaimTokensResponse -> AdM BatchCreateClaimTokensResponse) (vine_ids : list string)
    (out : BatchCreateClaimTokensResponse) : AdM BatchCreateClaimTokensResponse :=
  match vine_ids with
  | [] => se_ret out
  | vine_id :: rest => let! out' := one vine_id out in batch_loop one rest out'
  end.

Definition batch_create_claim_tokens (now : Z) (cfg : account_config) (tenant_id : Z) (auth : UcanAuth)
    (token_for : string -> string) (email_service : claim_mailer) (profile : string -> option ProfileMetadata)
    (req : BatchCreateClaimTokensRequest) : AdM BatchCreateClaimTokensResponse :=
  support_admins cfg now auth (logged_forbidden auth)
  (if match bq_delivery_email req with Some email => negb (contains_char "@" email) || (len email <? 3) | None => false end then
     admin_fail (Api_BadRequest "Invalid delivery_email format")
   else
     let vine_ids := first_occurrences [] (bq_vine_ids req) in
     if bool_decide (vine_ids = []) then admin_fail (Api_BadRequest "vine_ids must not be empty")
     else if BATCH_CLAIM_LIMIT <? Z.of_nat (length vine_ids) then
       admin_fail (Api_BadRequest ("vine_ids exceeds maximum batch size of " +:+ print_Z BATCH_CLAIM_LIMIT))
     else
       let! out := batch_loop (batch_one now cfg tenant_id auth token_for email_service profile (bq_delivery_email req))
                     vine_ids {| bc_tokens := []; bc_skipped := []; bc_errors := [] |} in
       let! _ := log_key (ua_pubkey auth) in
       se_ret out).

Definition get_claim_token_stats (now : Z) (cfg : account_config) (tenant_id : Z) (auth : UcanAuth) : AdM ClaimTokenStats :=
  support_admins cfg now auth (forbidden "Admin access required")
  (admin_read (fun d => claim_get_stats now tenant_id (db_claim_tokens d))).
End admin.
