(* ===== verification/AdminTeams.v ===== *)
(** * Administration: lookups, support access, agents and deletion

    The second half of api/src/api/http/admin.rs. *)
From S2P Require Import Prelude RustStr External Instances Database Samples Tokens Permissions Policies AuthTypes Signer Ucan HttpRpc OAuthRepo Users OAuth WorkQueue Queues RateLimit Tenant Nip98 Accounts AccountKeys TeamRepo Teams CustomerRepo Customers AdminRepo Admin.

Section admin_teams.
Context `{HN : Nostr, HC : !NostrCrypto, HS : !Serde, HX : !Secrets, HE : !Encodings, HV : !HttpEvents, HU : UcanLib,
          HM : !UcanMint, HL : UrlLib, HUni : Unicode, HCh : Channel, HSq : SqlText, HO : Collation, HK : !KeyText,
          HP : UrlPages, HQ : !UrlParts}.

Notation AdM A := (SE account_state api_abort A).

(** ** Lookups *)
Definition hex64 (s : string) : bool := (len s =? 64) && all_bytes is_ascii_hexdigit s.

Definition latest (l : list Z) : option Z :=
  foldr (fun t acc => match acc with Some u => Some (Z.max t u) | None => Some t end) None l.
Definition lookup_details (tenant_id : Z) (d : Db) (details : AdminUserDetails) : UserLookupDetails :=
  let sessions := list_active_sessions (aud_pubkey details) tenant_id d in
  {| uld_user := details; uld_active_sessions := length sessions; uld_last_active := latest (omap bs_last_activity sessions) |}.

(** [lookup_by_name] is the name server's, when there is one. *)
Definition get_user_lookup (now : Z) (cfg : account_config) (tenant_id : Z) (auth : UcanAuth)
    (lookup_by_name : option (string -> result (option string) string)) (query : string) : AdM UserLookupResponse :=
  support_admins cfg now auth (forbidden "Admin access required")
  (let q := trim query in
   if bool_decide (q = "") then admin_fail (Api_BadRequest "Query parameter 'q' is required")
   else
     let! users := admin_read (find_users_for_admin q tenant_id) in
     let! users :=
       (if bool_decide (length users = 0%nat) && negb (contains_char "@" q) && negb (starts_with "npub" q)
           && negb (len q =? 64) then
          match lookup_by_name with
          | Some lookup =>
              match lookup q with
              | Ok (Some hex_pubkey) => admin_read (find_users_for_admin hex_pubkey tenant_id)
              | _ => se_ret users
              end
          | None => se_ret users
          end
        else se_ret users) in
     admin_read (fun d => {| ulr_results := map (lookup_details tenant_id d) users; ulr_total := length users |})).

Definition get_team_lookup (now : Z) (cfg : account_config) (tenant_id : Z) (auth : UcanAuth) (query : string)
  : AdM TeamLookupResponse :=
  support_admins cfg now auth (forbidden "Support admin access required")
  (let q := trim query in
   if len q <? TEAM_LOOKUP_MIN_QUERY_LEN then
     admin_fail (Api_BadRequest ("Query 'q' must be at least " +:+ print_Z TEAM_LOOKUP_MIN_QUERY_LEN +:+ " characters"))
   else
     let! results := admin_read (search_by_name tenant_id q TEAM_LOOKUP_LIMIT) in
     se_ret {| tlr_results := results; tlr_total := length results |}).

Definition get_team_names (now : Z) (cfg : account_config) (tenant_id : Z) (auth : UcanAuth) : AdM TeamNamesResponse :=
  support_admins cfg now auth (forbidden "Support admin access required")
  (let! teams := admin_read (fun d => foldr (insert_by_text snd) []
       (map (fun t => (tm_id t, tm_name t)) (List.filter (fun t => tm_tenant_id t =? tenant_id) (rows (db_teams d))))) in
   se_ret {| tnr_teams := teams; tnr_total := length teams |}).

(** CASE role WHEN 'admin' THEN 0 ELSE 1 END, created_at: the sort is stable. *)
Definition role_rank (t : team_user_row) : Z := match tu_role t with Admin => 0 | Member => 1 end.
(** COALESCE(display_name, username) *)
Definition coalesced_name (u : user_row) : option string :=
  match us_display_name u with Some n => Some n | None => us_username u end.
Definition member_row (tenant_id : Z) (d : Db) (t : team_user_row) : TeamMember :=
  let user := find_user (tu_user_pubkey t) tenant_id d in
  {| tme_user_pubkey := tu_user_pubkey t; tme_name := user ≫= coalesced_name; tme_email := user ≫= us_email;
     tme_role := role_str (tu_role t); tme_joined_at := tu_created_at t |}.
Definition get_team_members (now : Z) (cfg : account_config) (tenant_id : Z) (auth : UcanAuth) (team_id : Z)
  : AdM TeamMembersResponse :=
  support_admins cfg now auth (forbidden "Support admin access required")
  (let! team := admin_read (fun d => find_first (team_in tenant_id team_id) (rows (db_teams d))) in
   match team with
   | None => admin_fail (Api_NotFound "Team not found")
   | Some t =>
       let! members := admin_read (fun d => map (member_row tenant_id d)
         (order_oldest role_rank (order_oldest tu_created_at
            (List.filter (fun m => tu_team_id m =? tm_id t) (rows (db_team_users d)))))) in
       se_ret {| tmr_team_id := tm_id t; tmr_team_name := tm_name t; tmr_members := members; tmr_total := length members |}
   end).

Definition admin_authorization (a : Authorization) : AdminAuthorization := {|
  aau_id := au_id a; aau_label := au_label a; aau_bunker_public_key := au_bunker_public_key a;
  aau_relays := default [] (ok (decode_relays (au_relays a))); aau_connected_client_pubkey := au_connected_client_pubkey a;
  aau_connected_at := au_connected_at a; aau_expires_at := au_expires_at a; aau_revoked_at := au_revoked_at a;
  aau_revoked_reason := au_revoked_reason a; aau_created_at := au_created_at a; aau_updated_at := au_updated_at a |}.
Definition admin_restaurant_key (tenant_id : Z) (d : Db) (k : StoredKey) : AdminRestaurantKey := {|
  ark_id := sk_id k; ark_name := sk_name k; ark_pubkey := sk_pubkey k; ark_created_at := sk_created_at k;
  ark_authorizations := map admin_authorization (order_oldest au_created_at
    (List.filter (fun a => (au_stored_key_id a =? sk_id k) && (au_tenant_id a =? tenant_id)) (rows (db_authorizations d)))) |}.
Definition admin_team (tenant_id : Z) (d : Db) (r : Team * team_user_row) : AdminTeamDetails := {|
  atd_id := tm_id (fst r); atd_name := tm_name (fst r); atd_role := role_str (tu_role (snd r));
  atd_joined_at := tu_created_at (snd r);
  atd_restaurant_keys := map (admin_restaurant_key tenant_id d)
    (order_oldest sk_created_at (list_by_team tenant_id (tm_id (fst r)) d)) |}.
(** teams INNER JOIN team_users *)
Definition memberships (pubkey : string) (tenant_id : Z) (d : Db) : list (Team * team_user_row) :=
  flat_map (fun t => map (pair t) (List.filter (in_team pubkey (tm_id t)) (rows (db_team_users d))))
    (List.filter (fun t => tm_tenant_id t =? tenant_id) (rows (db_teams d))).

Definition get_user_teams (now : Z) (cfg : account_config) (tenant_id : Z) (auth : UcanAuth) (query : string)
  : AdM (list AdminTeamDetails) :=
  support_admins cfg now auth (forbidden "Admin access required")
  (let pubkey := to_lowercase (trim query) in
   if negb (hex64 pubkey) then admin_fail (Api_BadRequest "pubkey must be a 64-char hex string")
   else admin_read (fun d => map (admin_team tenant_id d) (order_oldest (fun r => tu_created_at (snd r)) (memberships pubkey tenant_id d)))).

(** ** Revoking *)
Definition drop_handlers (bunker_pubkey : string) : AdM unit := se_modify (fun s =>
  set_ac_oauth {| os_rpc := with_cache (invalidate_handlers_for_bunker bunker_pubkey) (os_rpc (ac_oauth s));
                  os_sent := os_sent (ac_oauth s) |} s).
Definition notify_signer (cfg : account_config) (c : AuthorizationCommand) : AdM unit := se_modify (fun s =>
  if cfg_auth_tx (acf_oauth cfg)
  then set_ac_oauth {| os_rpc := os_rpc (ac_oauth s); os_sent := os_sent (ac_oauth s) ++ [c] |} s else s).

(** [as_deref().map(str::trim).filter(|s| !s.is_empty())] *)
Definition trimmed (o : option string) : option string :=
  s ← o; if bool_decide (trim s = "") then None else Some (trim s).

Definition revoke_authorization (now : Z) (cfg : account_config) (tenant_id : Z) (auth : UcanAuth) (authorization_id : Z)
    (reason : option string) : AdM Z :=
  support_admins cfg now auth (forbidden "Admin access required")
  (let! bunker_pubkey := admin_repo (internal "Failed to revoke authorization: ")
                           (authorization_revoke now tenant_id authorization_id (trimmed reason)) in
   match bunker_pubkey with
   | None => admin_fail (Api_NotFound "Authorization not found or already revoked")
   | Some bunker_pubkey =>
       let! _ := drop_handlers bunker_pubkey in
       let! _ := notify_signer cfg (Remove bunker_pubkey) in
       let! _ := log_key_min (ua_pubkey auth) in
       se_ret authorization_id
   end).

(** ** Support access *)
Definition support_hours (expires_in_hours : option Z) : Z :=
  Z.max 1 (Z.min MAX_SUPPORT_AUTH_EXPIRY_HOURS (default DEFAULT_SUPPORT_AUTH_EXPIRY_HOURS expires_in_hours)).
Definition support_label (caller : string) (label : option string) : string :=
  match trimmed label with
  | Some suffix => support_prefix caller +:+ " (" +:+ suffix +:+ ")"
  | None => support_prefix caller
  end.
Definition support_policy (team_id : Z) (policy_id : option Z) (d : Db) : result Z ApiError :=
  match policy_id with
  | Some id => if policy_exists_for_team d team_id id then Ok id else Err (Api_NotFound "Policy not found for this team")
  | None => let? p := ok_or (head (policy_list_by_team d team_id)) (Api_Internal "Team has no policies") in Ok (pol_id p)
  end.

Definition grant_team_support_access (now : Z) (cfg : account_config) (tenant_id : Z) (auth : UcanAuth) (team_id : Z)
    (secret_pair : option SecretPair) (req : GrantSupportAccessRequest) : AdM GrantSupportAccessResponse :=
  support_admins cfg now auth (forbidden "Support admin access required")
  (let caller := ua_pubkey auth in
   let! _ := admin_repo (fun _ => Api_NotFound "Team not found") (fun d => (d, team_find tenant_id team_id d)) in
   let! stored_keys := admin_read (list_by_team tenant_id team_id) in
   let! stored_key := admin_lift (ok_or (head stored_keys) (Api_BadRequest
     "team has no stored key — the agent who created it must finish provisioning first")) in
   let! policy := admin_read (support_policy team_id (gs_policy_id req)) in
   let! policy_id := admin_lift policy in
   let! present := admin_read (is_member team_id caller) in
   let! _ := (if present : bool then se_ret tt
              else let! _ := admin_repo (internal "Failed to add support member: ") (add_member now team_id caller "member") in
                   se_ret tt) in
   let! drawn := admin_lift (ok_or secret_pair (Api_Internal "Secret pool exhausted")) in
   let! decrypted := admin_lift (map_err (fun e => Api_Internal ("Failed to decrypt stored key: " +:+ e))
                       (km_decrypt (sk_secret_key stored_key))) in
   let! stored_key_secret := admin_lift (map_err (fun e => Api_Internal ("Invalid stored key: " +:+ e)) (sk_from_slice decrypted)) in
   let! bunker_keys := se_lift (ok_or (derive_bunker_keys stored_key_secret (pair_hash drawn)) ApiPanic) in
   let bunker_hex := pk_to_hex (pk_of bunker_keys) in
   let! authorization := admin_repo (internal "Failed to create authorization: ")
     (authorization_create now tenant_id (sk_id stored_key) policy_id (pair_hash drawn) bunker_hex (JArray []) None
        (Some (now + support_hours (gs_expires_in_hours req) * 3600)) (Some (support_label caller (gs_label req)))) in
   let! bunker_url := se_lift (ok_or (generate_bunker_url urlencode (cfg_bunker_relays (acf_oauth cfg)) bunker_hex
                                        (pair_secret drawn)) ApiPanic) in
   let! _ := notify_signer cfg (Upsert bunker_hex tenant_id false) in
   let! _ := log_key_min caller in
   se_ret {| gsr_team_id := team_id; gsr_stored_key_pubkey := sk_pubkey stored_key; gsr_authorization := authorization;
             gsr_bunker_url := bunker_url |}).

(** The loop over the active authorizations counts those it revoked. *)
Fixpoint revoke_support (now : Z) (cfg : account_config) (tenant_id : Z) (active : list (Z * string)) (revoked_count : nat) : AdM nat :=
  match active with
  | [] => se_ret revoked_count
  | (auth_id, bunker_pubkey) :: rest =>
      let! revoked := admin_repo (internal "Failed to revoke authorization: ")
                        (authorization_revoke now tenant_id auth_id (Some "support_session_end")) in
      match revoked with
      | None => revoke_support now cfg tenant_id rest revoked_count
      | Some _ =>
          let! _ := drop_handlers bunker_pubkey in
          let! _ := notify_signer cfg (Remove bunker_pubkey) in
          revoke_support now cfg tenant_id rest (S revoked_count)
      end
  end.

Definition release_team_support_access (now : Z) (cfg : account_config) (tenant_id : Z) (auth : UcanAuth) (team_id : Z)
  : AdM ReleaseSupportAccessResponse :=
  support_admins cfg now auth (forbidden "Support admin access required")
  (let caller := ua_pubkey auth in
   let! _ := admin_repo (fun _ => Api_NotFound "Team not found") (fun d => (d, team_find tenant_id team_id d)) in
   let! active := admin_read (find_active_support_for_caller tenant_id team_id caller) in
   let! revoked_count := revoke_support now cfg tenant_id active 0 in
   let! member := admin_read (get_member team_id caller) in
   let! removed := (match member with
                    | Ok m => if bool_decide (mb_role m = Member) then
                                let! _ := admin_repo (internal "Failed to remove member: ") (remove_member team_id caller) in
                                se_ret true
                              else se_ret false
                    | Err _ => se_ret false
                    end) in
   let! _ := log_key_min caller in
   se_ret {| rsr_team_id := team_id; rsr_revoked_authorizations := revoked_count; rsr_removed_membership := removed |}).

(** ** Support agents *)
Definition redis_of (cfg : account_config) : AdM redis_link :=
  admin_lift (ok_or (ae_redis (acf_auth cfg)) (Api_Internal "Redis not available")).
Definition redis_call {A} (l : redis_link) (f : redis_store -> redis_store * A) : AdM A := fun s =>
  if rl_up l then let '(r, a) := f (ac_redis s) in (set_ac_redis r s, Ok a)
  else (s, Err (ApiFailed (Api_Internal "Redis error"))).

Definition support_entry (tenant_id : Z) (d : Db) (pubkey : string) : SupportAdminEntry :=
  {| sae_pubkey := pubkey; sae_email := find_user pubkey tenant_id d ≫= us_email |}.
Definition list_support_admins (now : Z) (cfg : account_config) (tenant_id : Z) (auth : UcanAuth) : AdM (list SupportAdminEntry) :=
  full_admins cfg auth (forbidden "Full admin access required")
  (let! l := redis_of cfg in
   let! pubkeys := redis_call l (fun r => (r, elements (redis_smembers now (link_key l SUPPORT_ADMINS_KEY) r))) in
   admin_read (fun d => map (support_entry tenant_id d) pubkeys)).

Definition resolve_identifier (identifier : string) (tenant_id : Z) (d : Db) : result string ApiError :=
  if starts_with "npub1" identifier then
    let? pubkey := map_err (fun e => Api_BadRequest ("Invalid npub: " +:+ e)) (pk_from_bech32 identifier) in
    Ok (pk_to_hex pubkey)
  else if hex64 identifier then
    let? _ := map_err (fun e => Api_BadRequest ("Invalid hex pubkey: " +:+ e)) (pk_from_hex identifier) in
    Ok identifier
  else if contains_char "@" identifier then
    ok_or (find_pubkey_by_email identifier tenant_id d) (Api_NotFound ("No user found with email: " +:+ identifier))
  else Err (Api_BadRequest "Identifier must be an npub, 64-char hex pubkey, or email address").

Definition add_support_admin (now : Z) (cfg : account_config) (tenant_id : Z) (auth : UcanAuth) (req_identifier : string)
  : AdM AddSupportAdminResponse :=
  full_admins cfg auth (forbidden "Full admin access required")
  (let identifier := trim req_identifier in
   if bool_decide (identifier = "") then admin_fail (Api_BadRequest "Identifier is required")
   else
     let! resolved := admin_read (resolve_identifier identifier tenant_id) in
     let! pubkey_hex := admin_lift resolved in
     let! l := redis_of cfg in
     let! added := redis_call l (redis_sadd now (link_key l SUPPORT_ADMINS_KEY) pubkey_hex) in
     let! _ := log_key pubkey_hex in
     let! _ := log_key (ua_pubkey auth) in
     se_ret {| asr_pubkey := pubkey_hex; asr_added := 0 <? added |}).

Definition remove_support_admin (now : Z) (cfg : account_config) (auth : UcanAuth) (pubkey : string) : AdM bool :=
  full_admins cfg auth (forbidden "Full admin access required")
  (let! l := redis_of cfg in
   let! removed := redis_call l (redis_srem now (link_key l SUPPORT_ADMINS_KEY) pubkey) in
   let! _ := log_key_min pubkey in
   let! _ := log_key (ua_pubkey auth) in
   se_ret (0 <? removed)).

(** ** Deletion of a user *)
Definition delete_user (cfg : account_config) (tenant_id : Z) (auth : UcanAuth) (path_pubkey : string) : AdM nat :=
  full_admins cfg auth (forbidden "Full admin access required")
  (let pubkey := to_lowercase (trim path_pubkey) in
   if negb (hex64 pubkey) then admin_fail (Api_BadRequest "pubkey must be a 64-char hex string")
   else
     let! team_count := admin_read (fun d => length (memberships pubkey tenant_id d)) in
     if (0 <? team_count)%nat then admin_fail (Api_Conflict "User still belongs to a team; delete the restaurant first")
     else
       let! result := admin_repo (fun e => match e with RE_NotFound _ => Api_NotFound "User not found"
                                           | other => internal "Failed to delete user: " other end)
                        (repo_delete_account pubkey tenant_id) in
       let! _ := foldr (fun b k => let! _ := drop_handlers b in k) (se_ret tt) (bunker_pubkeys result) in
       let! _ := foldr (fun b k => let! _ := notify_signer cfg (Remove b) in k) (se_ret tt) (bunker_pubkeys result) in
       let! _ := log_key pubkey in
       let! _ := log_key (ua_pubkey auth) in
       se_ret (teams_removed result)).

(** ** The origins of the customers' apps: [tenants] is the table of tenants. *)
Definition customer_tenant_id (cfg : account_config) (tenants : table Tenant) : result Z ApiError :=
  let? domain := ok_or (customer_tenant_domain (ae_tenant (acf_auth cfg))) (Api_BadRequest "CUSTOMER_TENANT_DOMAIN is not set") in
  let? tenant := map_err Api_Database (get_tenant_by_domain domain tenants) in
  Ok (tn_id tenant).

Definition normalize_app_origin (origin : string) : result string ApiError :=
  let? url := ok_or (page_parse (trim origin)) (Api_BadRequest "Invalid origin") in
  let is_local := bool_decide (page_host_str url = Some "localhost") || bool_decide (page_host_str url = Some "127.0.0.1") in
  let allowed_scheme := bool_decide (page_scheme url = "https") || (bool_decide (page_scheme url = "http") && is_local) in
  let is_only_an_origin := bool_decide (page_path url = "/") && is_null (page_query url) && is_null (page_fragment url)
                           && bool_decide (page_username url = "") && is_null (page_password url) in
  if allowed_scheme && is_only_an_origin then Ok (origin_ascii url)
  else Err (Api_BadRequest "Invalid origin: use https://orders.example.com").

Definition normalize_merchant_pubkey (pubkey : string) : result string ApiError :=
  match pk_from_hex (trim pubkey) with
  | Ok pk => Ok (pk_to_hex pk)
  | Err _ => match pk_from_bech32 (trim pubkey) with
             | Ok pk => Ok (pk_to_hex pk)
             | Err _ => Err (Api_BadRequest "Invalid merchant_pubkey: use hex or npub")
             end
  end.

Definition list_customer_origins (cfg : account_config) (tenants : table Tenant) (auth : UcanAuth) : AdM (list CustomerAppOrigin) :=
  full_admins cfg auth (forbidden "Admin access required")
  (let! tenant_id := admin_lift (customer_tenant_id cfg tenants) in
   admin_read (origin_list tenant_id)).

Definition add_customer_origin (now : Z) (cfg : account_config) (tenants : table Tenant) (auth : UcanAuth)
    (req : AddCustomerOriginRequest) : AdM CustomerAppOrigin :=
  full_admins cfg auth (forbidden "Admin access required")
  (let! origin := admin_lift (normalize_app_origin (acq_origin req)) in
   let merchant_name := trim (acq_merchant_name req) in
   if bool_decide (merchant_name = "") then admin_fail (Api_BadRequest "merchant_name is required")
   else
     let! merchant_pubkey := admin_lift (normalize_merchant_pubkey (acq_merchant_pubkey req)) in
     let! tenant_id := admin_lift (customer_tenant_id cfg tenants) in
     admin_repo api_error_of_repository (origin_add now tenant_id origin merchant_name merchant_pubkey)).

Definition remove_customer_origin (cfg : account_config) (tenants : table Tenant) (auth : UcanAuth) (req_origin : string) : AdM bool :=
  full_admins cfg auth (forbidden "Admin access required")
  (let! origin := admin_lift (normalize_app_origin req_origin) in
   let! tenant_id := admin_lift (customer_tenant_id cfg tenants) in
   admin_repo api_error_of_repository (origin_remove tenant_id origin)).
End admin_teams.
