(* ===== verification/AdminSafety.v ===== *)
(** * What administrators and support agents can do

    The endpoints of the support tools change nothing but claim links, the
    membership of the caller and authorizations that carry the caller's name; the
    access an agent takes to a team is given back whole; the links of a batch are
    one for each account. *)
From S2P Require Import Prelude RustStr External Instances Database Samples Tokens Permissions Policies AuthTypes Signer Ucan HttpRpc OAuthRepo Users OAuth OAuthSafety WorkQueue Queues RateLimit Tenant Nip98 Accounts AccountKeys AccountsSafety AccountKeysSafety TeamRepo Teams CustomerRepo Customers CustomerLimits AdminRepo Admin AdminTeams.

(** ** What the support tools may change *)
Definition support_untouched (d : Db) :=
  (db_users d, db_personal_keys d, db_stored_keys d, db_teams d, db_policies d, db_policy_permissions d, db_permissions d,
   (db_oauth_authorizations d, db_oauth_codes d, db_refresh_tokens d, db_magic_link_tokens d, db_team_invitations d,
    db_deletion_notices d, db_customer_app_origins d)).

Definition kept_or_revoked (now : Z) (a a' : Authorization) : Prop :=
  a' = a \/ au_revoked_at a = None /\ exists reason, a' = au_revoke now reason a.

(** An authorization a support agent may issue: it carries the agent's name, ends
    within a week, and is on a key and under a policy of one team of the tenant. *)
Definition support_authorization (now tenant_id : Z) (caller : string) (d : Db) (a : Authorization) : Prop :=
  au_tenant_id a = tenant_id /\
  (exists label, au_label a = Some label /\ starts_with (support_prefix caller) label = true) /\
  (exists e, au_expires_at a = Some e /\ now + 3600 <= e <= now + days 7) /\
  exists k t p, k ∈ rows (db_stored_keys d) /\ sk_id k = au_stored_key_id a /\ sk_tenant_id k = tenant_id /\
    t ∈ rows (db_teams d) /\ tm_id t = sk_team_id k /\ tm_tenant_id t = tenant_id /\
    p ∈ rows (db_policies d) /\ pol_id p = au_policy_id a /\ pol_team_id p = Some (tm_id t).

Definition own_membership (caller : string) (m : team_user_row) : bool :=
  bool_decide (tu_user_pubkey m = caller) && bool_decide (tu_role m = Member).
Definition support_claim (now tenant_id : Z) (caller : string) (d : Db) (c : ClaimToken) : Prop :=
  ct_created_by_pubkey c = Some caller /\ ct_tenant_id c = tenant_id /\ ct_used_at c = None /\
  ct_expires_at c = now + days 7 /\ is_unclaimed d (ct_user_pubkey c) tenant_id = Some true.

Section admin_safety.
Context `{HN : Nostr, HC : !NostrCrypto, HS : !Serde, HX : !Secrets, HE : !Encodings, HV : !HttpEvents, HU : UcanLib,
          HM : !UcanMint, HL : UrlLib, HUni : Unicode, HCh : Channel, HSq : SqlText, HO : Collation, HK : !KeyText,
          HP : UrlPages, HQ : !UrlParts}.

Record confined (now tenant_id : Z) (caller : string) (s s' : account_state) : Prop := {
  cn_redis : ac_redis s' = ac_redis s;
  cn_jobs : ac_jobs s' = ac_jobs s;
  cn_cache : rs_cache (os_rpc (ac_oauth s')) ⊆ rs_cache (os_rpc (ac_oauth s));
  cn_untouched : support_untouched (ac_db s') = support_untouched (ac_db s);
  cn_members : List.filter (fun m => negb (own_membership caller m)) (rows (db_team_users (ac_db s'))) =
               List.filter (fun m => negb (own_membership caller m)) (rows (db_team_users (ac_db s)));
  cn_authorizations : exists kept issued, rows (db_authorizations (ac_db s')) = kept ++ issued /\
    Forall2 (kept_or_revoked now) (rows (db_authorizations (ac_db s))) kept /\
    Forall (support_authorization now tenant_id caller (ac_db s)) issued;
  cn_claims : exists issued, rows (db_claim_tokens (ac_db s')) = rows (db_claim_tokens (ac_db s)) ++ issued /\
    Forall (support_claim now tenant_id caller (ac_db s)) issued;
}.

Lemma admin_kept_refl now l : Forall2 (kept_or_revoked now) l l.
Proof. induction l; constructor; [by left | done]. Qed.

Lemma kept_or_revoked_trans now a b c : kept_or_revoked now a b -> kept_or_revoked now b c -> kept_or_revoked now a c.
Proof.
  intros [->|[Ha [r ->]]] Hbc; [done|]. destruct Hbc as [->|[Hb _]]; [|discriminate Hb]. right. eauto.
Qed.

Lemma support_authorization_frame now ten caller d d' a :
  support_untouched d' = support_untouched d -> support_authorization now ten caller d a -> support_authorization now ten caller d' a.
Proof. intros [= E1 E2 E3 E4 E5 E6 E7 _]. unfold support_authorization. by rewrite E3, E4, E5. Qed.
Lemma support_claim_frame now ten caller d d' c :
  support_untouched d' = support_untouched d -> support_claim now ten caller d c -> support_claim now ten caller d' c.
Proof. intros [= E1 _]. unfold support_claim, is_unclaimed. by rewrite E1. Qed.
Lemma support_authorization_revoked now ten caller d a a' :
  kept_or_revoked now a a' -> support_authorization now ten caller d a -> support_authorization now ten caller d a'.
Proof. by intros [->|[_ [r ->]]]. Qed.

#[local] Instance confined_preorder now ten caller : PreOrder (confined now ten caller).
Proof.
  split.
  - intros s. split; try done.
    + exists (rows (db_authorizations (ac_db s))), []. by rewrite app_nil_r; split_and!; [|apply admin_kept_refl|].
    + exists []. by rewrite app_nil_r.
  - intros s1 s2 s3 [R1 J1 C1 U1 M1 (k1 & i1 & E1 & K1 & A1) (c1 & D1 & G1)] [R2 J2 C2 U2 M2 (k2 & i2 & E2 & K2 & A2) (c2 & D2 & G2)].
    split; try congruence; [by etrans | | ].
    + rewrite E1 in K2. apply Forall2_app_inv_l in K2 as (k2a & k2b & Ka & Kb & ->).
      exists k2a, (k2b ++ i2). rewrite E2, <- app_assoc. split; [done|]. split.
      * clear - K1 Ka. revert k2a Ka. induction K1 as [|a b l l' Hab Hl IH]; intros k2a Ka; inversion Ka; subst; constructor.
        -- by eapply kept_or_revoked_trans. -- by apply IH.
      * apply Forall_app. split.
        -- clear - A1 Kb. induction Kb as [|a b l l' Hab Hl IH]; [constructor|]. inversion A1; subst.
           constructor; [by eapply support_authorization_revoked | by apply IH].
        -- eapply Forall_impl; [exact A2|]. intros a. by apply support_authorization_frame.
    + exists (c1 ++ c2). rewrite D2, D1, app_assoc. split; [done|]. apply Forall_app. split; [done|].
      eapply Forall_impl; [exact G2|]. intros c. by apply support_claim_frame.
Qed.

Notation AdM A := (SE account_state api_abort A).

(** ** The operations of the support tools *)
Inductive support_op : Type :=
| GetClaimToken (pubkey : string)
| CreateClaimToken (token vine_id : string)
| BatchClaimTokens (token_for : string -> string) (email_service : option (string -> string -> result unit string))
    (profile : string -> option ProfileMetadata) (req : BatchCreateClaimTokensRequest)
| ClaimTokenStatistics
| UserLookup (names : option (string -> result (option string) string)) (query : string)
| TeamLookup (query : string)
| TeamNames
| TeamMembers (team_id : Z)
| UserTeams (query : string)
| RevokeAuthorization (authorization_id : Z) (reason : option string)
| GrantSupport (team_id : Z) (secret_pair : option SecretPair) (req : GrantSupportAccessRequest)
| ReleaseSupport (team_id : Z).

Definition ignore {A} (c : AdM A) : AdM unit := let! _ := c in se_ret tt.
Definition run_support (now : Z) (cfg : account_config) (tenant_id : Z) (auth : UcanAuth) (op : support_op) : AdM unit :=
  match op with
  | GetClaimToken pubkey => ignore (get_claim_token now cfg tenant_id auth pubkey)
  | CreateClaimToken token vine_id => ignore (create_claim_token now cfg tenant_id auth token vine_id)
  | BatchClaimTokens token_for email_service profile req =>
      ignore (batch_create_claim_tokens now cfg tenant_id auth token_for email_service profile req)
  | ClaimTokenStatistics => ignore (get_claim_token_stats now cfg tenant_id auth)
  | UserLookup names query => ignore (get_user_lookup now cfg tenant_id auth names query)
  | TeamLookup query => ignore (get_team_lookup now cfg tenant_id auth query)
  | TeamNames => ignore (get_team_names now cfg tenant_id auth)
  | TeamMembers team_id => ignore (get_team_members now cfg tenant_id auth team_id)
  | UserTeams query => ignore (get_user_teams now cfg tenant_id auth query)
  | RevokeAuthorization id reason => ignore (revoke_authorization now cfg tenant_id auth id reason)
  | GrantSupport team_id secret_pair req => ignore (grant_team_support_access now cfg tenant_id auth team_id secret_pair req)
  | ReleaseSupport team_id => ignore (release_team_support_access now cfg tenant_id auth team_id)
  end.

Section confinement.
Context (now : Z) (cfg : account_config) (ten : Z) (auth : UcanAuth).
Let caller := ua_pubkey auth.
Notation ckeeps := (keeps (fun s : @account_state HN HCh => s) (confined now ten caller)).

Lemma log_key_keeps key s : ckeeps s (log_key key).
Proof. unfold log_key. keep. Qed.
Lemma log_key_min_keeps key s : ckeeps s (log_key_min key).
Proof. unfold log_key_min. keep. Qed.
(** Changes of the database that keep two of its three open parts. *)
Lemma same_authorizations (d d' : Db) :
  db_authorizations d' = db_authorizations d ->
  exists kept issued, rows (db_authorizations d') = kept ++ issued /\
    Forall2 (kept_or_revoked now) (rows (db_authorizations d)) kept /\ Forall (support_authorization now ten caller d) issued.
Proof. intros ->. exists (rows (db_authorizations d)), []. by rewrite app_nil_r; split_and!; [|apply admin_kept_refl|]. Qed.
Lemma same_claims (d d' : Db) :
  db_claim_tokens d' = db_claim_tokens d ->
  exists issued, rows (db_claim_tokens d') = rows (db_claim_tokens d) ++ issued /\ Forall (support_claim now ten caller d) issued.
Proof. intros ->. exists []. by rewrite app_nil_r. Qed.

Lemma drop_handlers_keeps b s : ckeeps s (drop_handlers b).
Proof.
  split; try done; [|by apply same_authorizations | by apply same_claims]. cbn.
  unfold invalidate_handlers_for_bunker, invalidate_handlers. destruct (parse_cache_key b); [apply map_filter_subseteq | apply map_empty_subseteq].
Qed.
Lemma notify_signer_keeps c s : ckeeps s (notify_signer cfg c).
Proof.
  unfold keeps, notify_signer, se_modify. cbn. destruct (cfg_auth_tx _); [|reflexivity].
  split; try done; [by apply same_authorizations | by apply same_claims].
Qed.

(** A statement keeps the state as its change of the database does. *)
Lemma admin_repo_keeps {A} f (c : DbM A) s :
  confined now ten caller s (set_ac_db (fst (c (ac_db s))) s) -> ckeeps s (admin_repo f c).
Proof. unfold keeps, admin_repo. intros H. destruct (c (ac_db s)) as [d r]. exact H. Qed.
Lemma admin_read_keeps {A} (f : Db -> A) s : ckeeps s (admin_read f).
Proof. unfold admin_read. keep. Qed.
Lemma admin_lift_keeps {A} (r : result A ApiError) s : ckeeps s (admin_lift r).
Proof. unfold admin_lift. keep. Qed.
Lemma admin_fail_keeps {A} e s : ckeeps s (@admin_fail _ _ A e).
Proof. unfold admin_fail. keep. Qed.
Lemma support_admins_keeps {A} (refused allowed : AdM A) s : ckeeps s refused -> ckeeps s allowed -> ckeeps s (support_admins cfg now auth refused allowed).
Proof. intros H1 H2. unfold support_admins, keeps, se_bind, se_gets. by destruct (is_support_admin _ _ _ _). Qed.
Lemma forbidden_keeps {A} m s : ckeeps s (@forbidden _ _ A m).
Proof. apply admin_fail_keeps. Qed.
Lemma logged_forbidden_keeps {A} s : ckeeps s (@logged_forbidden _ _ A auth).
Proof. unfold logged_forbidden. keep; [apply log_key_keeps | apply forbidden_keeps]. Qed.

Lemma revoke_kept p reason l :
  (forall a, p a = true -> au_revoked_at a = None) -> Forall2 (kept_or_revoked now) l (update_where p (au_revoke now reason) l).
Proof.
  intros Hp. induction l as [|a l IH]; simpl; [constructor|]. destruct (p a) eqn:E; constructor; try done; [right|by left].
  split; [by apply Hp | eauto].
Qed.
Lemma authorization_revoke_keeps f id reason s : ckeeps s (admin_repo f (authorization_revoke now ten id reason)).
Proof.
  apply admin_repo_keeps. split; try done; [|by apply same_claims]. cbn.
  eexists _, []. rewrite app_nil_r. split; [done|]. split; [|done]. apply revoke_kept.
  intros a Ha. bool_to_prop. by destruct (au_revoked_at a).
Qed.
Lemma create_claim_confined token user s :
  is_unclaimed (ac_db s) user ten = Some true -> confined now ten caller s (set_ac_db (fst (create_claim now token user caller ten (ac_db s))) s).
Proof.
  intros Hu. unfold create_claim, claim_create. case_if; [cbn; split; try done; [by apply same_authorizations | by apply same_claims]|].
  cbn. split; try done; [by apply same_authorizations|]. cbn. eexists [_]. split; [reflexivity|]. by constructor.
Qed.

Lemma deliver_claim_keeps service profile email vine user url s :
  ckeeps s (deliver_claim cfg service profile email vine user url).
Proof.
  unfold deliver_claim. destruct email as [email|], service as [send|]; keep.
  unfold record_mail. split; try done; [by apply same_authorizations | by apply same_claims].
Qed.

Lemma admin_read_run {A} (f : Db -> A) a s s1 : admin_read f s = (s1, Ok a) -> s1 = s /\ a = f (ac_db s).
Proof. by intros [= <- <-]. Qed.

Lemma batch_one_keeps token_for service profile email vine out s :
  ckeeps s (batch_one now cfg ten auth token_for service profile email vine out).
Proof.
  unfold batch_one. apply keeping_bind; [apply _|apply admin_read_keeps|]. intros found s1 _.
  destruct found as [user|]; [|keep]. apply keeping_bind; [apply _|apply admin_read_keeps|].
  intros unclaimed s2 [-> ->]%admin_read_run. case_bool_decide as Hu; simpl; [|keep].
  apply keeping_bind; [apply _|apply admin_read_keeps|]. intros valid s3 [-> _]%admin_read_run.
  destruct valid; [keep|]. apply keeping_bind; [apply _| |].
  - pose proof (create_claim_confined (token_for vine) user s1 Hu) as H. unfold keeps.
    by destruct (create_claim _ _ _ _ _ _) as [d r].
  - intros [c|e] s4 _; [|keep]. apply keeping_bind; [apply _|apply deliver_claim_keeps|intros; keep].
Qed.

Lemma batch_loop_keeps one ids out s : (forall id out s, ckeeps s (one id out)) -> ckeeps s (batch_loop one ids out).
Proof.
  intros H. revert out s. induction ids as [|id ids IH]; intros out s; simpl; [keep|].
  apply keeping_bind; [apply _|apply H|intros; apply IH].
Qed.

Lemma ignore_keeps {A} (c : AdM A) s : ckeeps s c -> ckeeps s (ignore c).
Proof. intros H. unfold ignore. apply keeping_bind; [apply _|done|intros; keep]. Qed.

Lemma revoke_support_keeps active n s : ckeeps s (revoke_support now cfg ten active n).
Proof.
  revert n s. induction active as [|[id b] active IH]; intros n s; simpl; [keep|].
  apply keeping_bind; [apply _|apply authorization_revoke_keeps|]. intros [x|] s1 _; [|apply IH].
  apply keeping_bind; [apply _|apply drop_handlers_keeps|intros]. apply keeping_bind; [apply _|apply notify_signer_keeps|intros; apply IH].
Qed.

(** The table of members has one row for a team and a user. *)
Definition members_unique (d : Db) : Prop :=
  forall t u, t ∈ rows (db_team_users d) -> u ∈ rows (db_team_users d) ->
    tu_team_id t = tu_team_id u -> tu_user_pubkey t = tu_user_pubkey u -> t = u.

Lemma delete_own_members p l :
  (forall t, t ∈ l -> p t = true -> own_membership caller t = true) ->
  List.filter (fun m => negb (own_membership caller m)) (delete_where p l) = List.filter (fun m => negb (own_membership caller m)) l.
Proof.
  induction l as [|t l IH]; intros H; [done|]. unfold delete_where in *. simpl.
  destruct (p t) eqn:E; simpl; [rewrite (H t) by (by left || done); simpl|]; rewrite IH; try done; intros; apply H; by try constructor.
Qed.

Lemma in_team_spec pubkey team t : in_team pubkey team t = true <-> tu_user_pubkey t = pubkey /\ tu_team_id t = team.
Proof. unfold in_team. rewrite andb_true_iff, bool_decide_eq_true, Z.eqb_eq. tauto. Qed.

Lemma remove_own_keeps f team s m :
  members_unique (ac_db s) -> get_member team caller (ac_db s) = Ok m -> mb_role m = Member ->
  ckeeps s (admin_repo f (remove_member team caller)).
Proof.
  intros Hu Hm Hr. apply admin_repo_keeps. split; try done; [|by apply same_authorizations | by apply same_claims]. cbn.
  apply delete_own_members. intros t Ht [Hp Htm]%in_team_spec.
  unfold get_member in Hm. apply map_err_ok in Hm. unfold fetch_one in Hm. apply ok_or_ok in Hm.
  apply fmap_Some in Hm as (r & [Hr1 [Hr2 Hr3]%in_team_spec]%find_first_Some & ->).
  assert (r = t) as -> by (apply Hu; try done; congruence).
  unfold own_membership. rewrite !bool_decide_true; done.
Qed.

Lemma revoke_support_members active n s : keeps (fun s : @account_state HN HCh => db_team_users (ac_db s)) eq s (revoke_support now cfg ten active n).
Proof.
  revert n s. induction active as [|[id b] active IH]; intros n s; simpl; [done|].
  apply keeping_bind; [apply _|done|]. intros [x|] s1 _; [|apply IH].
  apply keeping_bind; [apply _|done|intros]. apply keeping_bind; [apply _| |intros; apply IH].
  unfold keeps, notify_signer, se_modify. simpl. by destruct (cfg_auth_tx _).
Qed.
Lemma support_label_prefix label : starts_with (support_prefix caller) (support_label caller label) = true.
Proof.
  apply starts_with_spec. unfold support_label. destruct (trimmed label) as [x|]; [|exists ""; by rewrite app_empty_r].
  by eexists.
Qed.
Lemma support_hours_bounds h : 1 <= support_hours h <= 168.
Proof. unfold support_hours, MAX_SUPPORT_AUTH_EXPIRY_HOURS. lia. Qed.

Lemma grant_create_keeps f k t p hash bunker hours label s :
  k ∈ rows (db_stored_keys (ac_db s)) -> sk_tenant_id k = ten -> t ∈ rows (db_teams (ac_db s)) -> tm_id t = sk_team_id k ->
  tm_tenant_id t = ten -> p ∈ rows (db_policies (ac_db s)) -> pol_team_id p = Some (tm_id t) ->
  ckeeps s (admin_repo f (authorization_create now ten (sk_id k) (pol_id p) hash bunker (JArray []) None
    (Some (now + support_hours hours * 3600)) (Some (support_label caller label)))).
Proof.
  intros Hk Hkt Ht Htk Htt Hp Hpt. apply admin_repo_keeps. unfold authorization_create.
  repeat (case_if; [cbn; split; try done; [by apply same_authorizations | by apply same_claims]|]).
  cbn. split; try done; [|by apply same_claims]. cbn. eexists _, [_]. split; [reflexivity|]. split; [apply admin_kept_refl|].
  constructor; [|done]. split; [done|]. split; [by eexists; split; [|apply support_label_prefix]|]. split.
  - eexists. split; [done|]. pose proof (support_hours_bounds hours). unfold days. lia.
  - by exists k, t, p.
Qed.

Lemma support_policy_elem team id d i :
  support_policy team id d = Ok i -> exists p, p ∈ rows (db_policies d) /\ pol_id p = i /\ pol_team_id p = Some team.
Proof.
  unfold support_policy. destruct id as [x|].
  - destruct (policy_exists_for_team d team x) eqn:E; [|done]. intros [= <-].
    unfold policy_exists_for_team in E. apply existsb_elem in E as (p & Hp & E). bool_to_prop. eauto.
  - intros (p & Hp & [= <-])%rbind_ok. apply ok_or_ok in Hp. unfold policy_list_by_team in Hp.
    assert (p ∈ List.filter (fun p => bool_decide (pol_team_id p = Some team)) (rows (db_policies d))) as Hin.
    { destruct (List.filter _ _); [done|]. injection Hp as ->. by left. }
    apply list_elem_of_In, filter_In in Hin as [Hin E]. bool_to_prop. exists p. split_and!; [by apply list_elem_of_In|done|done].
Qed.

Lemma admin_keeps_untouched {A} s (c : AdM A) s1 a : ckeeps s c -> c s = (s1, Ok a) -> support_untouched (ac_db s1) = support_untouched (ac_db s).
Proof. unfold keeps. intros H E. rewrite E in H. apply H. Qed.

Lemma support_member_keeps team s :
  ckeeps s (if is_member team caller (ac_db s) then se_ret tt
    else let! _ := admin_repo (internal "Failed to add support member: ") (add_member now team caller "member") in se_ret tt).
Proof.
  apply keeping_if; [keep|]. keep. apply admin_repo_keeps. unfold add_member.
  destruct (role_of_str "member") as [r|] eqn:Er; [|done]. injection Er as <-.
  repeat (case_if; [cbn; split; try done; [by apply same_authorizations | by apply same_claims]|]).
  cbn. split; try done; [|by apply same_authorizations | by apply same_claims]. cbn.
  rewrite List.filter_app. simpl. unfold own_membership at 2. rewrite !bool_decide_true by done. simpl. by rewrite app_nil_r.
Qed.

Lemma grant_keeps team secret_pair req s : ckeeps s (grant_team_support_access now cfg ten auth team secret_pair req).
Proof.
  unfold grant_team_support_access. apply support_admins_keeps; [apply forbidden_keeps|]. cbn zeta.
  apply keeping_bind; [apply _|by apply keeping_same; [apply _|]; destruct s as [[[]] ???]|].
  intros t s1 Ht. unfold admin_repo in Ht. injection Ht as <- Ht. apply map_err_ok in Ht. unfold team_find in Ht.
  apply map_err_ok, ok_or_ok, find_first_Some in Ht as [Ht Hteam]. unfold team_in in Hteam. bool_to_prop.
  replace (set_ac_db (ac_db s) s) with s by by destruct s as [[[]] ???].
  apply keeping_bind; [apply _|apply admin_read_keeps|]. intros keys s1 [-> ->]%admin_read_run.
  apply keeping_bind; [apply _|apply admin_lift_keeps|]. intros k s1 [-> Hk%map_err_ok%ok_or_ok]%se_lift_ok.
  assert (k ∈ list_by_team ten team (ac_db s)) as Hin by (destruct (list_by_team _ _ _); [done|]; injection Hk as ->; by left).
  unfold list_by_team in Hin. apply list_elem_of_In, filter_In in Hin as [Hin Hkt]. apply list_elem_of_In in Hin.
  unfold team_key in Hkt. bool_to_prop.
  apply keeping_bind; [apply _|apply admin_read_keeps|]. intros pol s1 [-> ->]%admin_read_run.
  apply keeping_bind; [apply _|apply admin_lift_keeps|]. intros pid s1 [-> Hpol%map_err_ok]%se_lift_ok.
  apply support_policy_elem in Hpol as (p & Hp & <- & Hpt).
  apply keeping_bind; [apply _|apply admin_read_keeps|]. intros present s1 [-> ->]%admin_read_run.
  pose proof (support_member_keeps team s) as Hm.
  apply keeping_bind; [apply _|exact Hm|]. intros u s1 Hs1. apply (admin_keeps_untouched _ _ _ _ Hm) in Hs1.
  injection Hs1 as E1 E2 E3 E4 E5 E6 E7 _.
  do 4 (apply keeping_bind; [apply _|first [apply admin_lift_keeps|keep]|]; intros ? ? [-> _]%se_lift_ok).
  apply keeping_bind; [apply _| |].
  - apply grant_create_keeps with (t := t); rewrite ?E3, ?E4, ?E5; try done; congruence.
  - intros issued s2 _. apply keeping_bind; [apply _|keep|intros ? ? [-> _]%se_lift_ok].
    apply keeping_bind; [apply _|apply notify_signer_keeps|intros]. apply keeping_bind; [apply _|apply log_key_min_keeps|intros; keep].
Qed.
Lemma release_keeps team s : members_unique (ac_db s) -> ckeeps s (release_team_support_access now cfg ten auth team).
Proof.
  intros Hu. unfold release_team_support_access. apply support_admins_keeps; [apply forbidden_keeps|]. cbn zeta.
  apply keeping_bind; [apply _|by apply keeping_same; [apply _|]; destruct s as [[[]] ???]|]. intros t s1 Ht.
  unfold admin_repo in Ht. injection Ht as <- _. replace (set_ac_db (ac_db s) s) with s by by destruct s as [[[]] ???].
  apply keeping_bind; [apply _|apply admin_read_keeps|]. intros active s1 [-> ->]%admin_read_run.
  apply keeping_bind; [apply _|apply revoke_support_keeps|]. intros n s1 Hrun.
  pose proof (revoke_support_members (find_active_support_for_caller ten team (ua_pubkey auth) (ac_db s)) 0 s) as Hm.
  unfold keeps in Hm. rewrite Hrun in Hm. simpl in Hm.
  apply keeping_bind; [apply _|apply admin_read_keeps|]. intros m s2 [-> ->]%admin_read_run.
  apply keeping_bind; [apply _| |intros; apply keeping_bind; [apply _|apply log_key_min_keeps|intros; keep]].
  destruct (get_member team (ua_pubkey auth) (ac_db s1)) as [m|e] eqn:E; [|keep]. case_bool_decide as Hr; [|keep].
  apply keeping_bind; [apply _| |intros; keep].
  apply (remove_own_keeps _ _ _ m); [|done|done]. unfold members_unique. by rewrite <- Hm.
Qed.

Lemma support_read_keeps {A} (refused allowed : AdM A) s :
  ckeeps s refused -> ckeeps s allowed -> ckeeps s (ignore (support_admins cfg now auth refused allowed)).
Proof. intros. by apply ignore_keeps, support_admins_keeps. Qed.

Lemma run_support_keeps op s : members_unique (ac_db s) -> ckeeps s (run_support now cfg ten auth op).
Proof.
  intros Hu. destruct op as [pubkey|token vine|tf svc prof req| |names q|q| |team|q|id reason|team pair req|team]; simpl;
    [..|apply ignore_keeps, grant_keeps|by apply ignore_keeps, release_keeps];
    (apply support_read_keeps; [apply forbidden_keeps || apply logged_forbidden_keeps|]).
  - apply admin_read_keeps.
  - apply keeping_bind; [apply _|apply admin_read_keeps|]. intros found s1 [-> ->]%admin_read_run.
    apply keeping_bind; [apply _|apply admin_lift_keeps|]. intros user s1 [-> _]%se_lift_ok.
    apply keeping_bind; [apply _|apply admin_read_keeps|]. intros un s1 [-> ->]%admin_read_run.
    case_bool_decide as Hun; simpl; [|apply admin_fail_keeps].
    apply keeping_bind; [apply _|by apply admin_repo_keeps, create_claim_confined|].
    intros c s1 _. apply keeping_bind; [apply _|apply log_key_keeps|intros; keep].
  - apply keeping_if; [apply admin_fail_keeps|]. cbn zeta. do 2 (apply keeping_if; [apply admin_fail_keeps|]).
    apply keeping_bind; [apply _|apply batch_loop_keeps; intros; apply batch_one_keeps|intros out s1 _].
    apply keeping_bind; [apply _|apply log_key_keeps|intros; keep].
  - apply admin_read_keeps.
  - cbn zeta. apply keeping_if; [apply admin_fail_keeps|]. keep; apply admin_read_keeps.
  - cbn zeta. apply keeping_if; [apply admin_fail_keeps|]. keep; apply admin_read_keeps.
  - keep; apply admin_read_keeps.
  - keep; try apply admin_read_keeps. apply admin_fail_keeps.
  - cbn zeta. apply keeping_if; [apply admin_fail_keeps|apply admin_read_keeps].
  - apply keeping_bind; [apply _|apply authorization_revoke_keeps|]. intros [b|] s1 _; [|apply admin_fail_keeps].
    apply keeping_bind; [apply _|apply drop_handlers_keeps|intros]. apply keeping_bind; [apply _|apply notify_signer_keeps|intros].
    apply keeping_bind; [apply _|apply log_key_min_keeps|intros; keep].
Qed.

Lemma run_support_refused op s :
  is_support_admin (acf_auth cfg) now auth (ac_redis s) = false ->
  fst (run_support now cfg ten auth op s) = s /\
  (snd (run_support now cfg ten auth op s) = Err ApiPanic \/
   exists message, snd (run_support now cfg ten auth op s) = Err (ApiFailed (Api_Forbidden message))).
Proof.
  intros Hs.
  assert (Hforbid : forall A (allowed : AdM A) message, ignore (support_admins cfg now auth (forbidden message) allowed) s =
    (s, Err (ApiFailed (Api_Forbidden message)))).
  { intros A allowed message. unfold ignore, support_admins, se_bind, se_gets. by rewrite Hs. }
  assert (Hlog : forall A (allowed : AdM A), ignore (support_admins cfg now auth (logged_forbidden auth) allowed) s =
    (s, Err (match prefix_str (ua_pubkey auth) 8 with Some _ => ApiFailed (Api_Forbidden "Admin access required") | None => ApiPanic end))).
  { intros A allowed. unfold ignore, support_admins, logged_forbidden, log_key, se_bind, se_gets, se_lift. rewrite Hs.
    by destruct (prefix_str (ua_pubkey auth) 8). }
  destruct op; simpl run_support;
    unfold get_claim_token, create_claim_token, batch_create_claim_tokens, get_claim_token_stats, get_user_lookup, get_team_lookup,
      get_team_names, get_team_members, get_user_teams, revoke_authorization, grant_team_support_access, release_team_support_access;
    rewrite ?Hforbid, ?Hlog; simpl; (split; [done|]); try (right; by eexists);
    destruct (prefix_str (ua_pubkey auth) 8); [right; by eexists | by left | right; by eexists | by left].
Qed.
End confinement.

End admin_safety.

(** ** Witnesses

    The agent "agentkey" and the team 1 of tenant 1 with the stored key "Pk". *)
#[export] Instance ascii_sql : SqlText := { sql_lower := to_ascii_lowercase }.
#[export] Instance byte_order : Collation := { collates := String.leb }.
#[export] Instance toy_key_text : KeyText := { pk_from_bech32 s := ok_or (strip_prefix "npub1" s) "no npub" }.
#[export] Instance toy_url_parts : UrlParts := {
  page_host_str s := strip_prefix "https://" s; page_path _ := "/"; page_query _ := None; page_fragment _ := None }.

Definition agent : UcanAuth := {| ua_pubkey := "agentkey"; ua_admin_role := Some "support" |}.
Definition restaurant_db : Db :=
  set_teams {| rows := [{| tm_id := 1; tm_name := "Luigi's Pizza"; tm_created_at := 0; tm_updated_at := 0; tm_tenant_id := 1 |}]; next_id := 2 |}
    (set_users [new_user 0 "agentkey" 1; us_set_profile (Some "vine7") (Some "Ann") (us_set_username (Some "ann") (new_user 0 "Pu" 1))]
       (sample_db [] [sample_team None])).
Definition whole_access : GrantSupportAccessRequest := {| gs_policy_id := None; gs_label := Some "menu"; gs_expires_in_hours := Some 1000 |}.
Definition support_secret : SecretPair := {| pair_secret := "s9"; pair_hash := "Hs9" |}.

Lemma restaurant_members_unique : members_unique (ac_db (state_of restaurant_db)).
Proof. intros t u Ht. by apply not_elem_of_nil in Ht. Qed.

