(* ===== verification/SupportAccess.v ===== *)
(** * Support access is given back

    A support agent who takes access to a team gets a membership and an
    authorization that carries the agent's name; releasing it always succeeds,
    removes the membership, and revokes every authorization of that name and no
    other. *)
From S2P Require Import Prelude RustStr External Instances Database Samples Tokens Permissions Policies AuthTypes Signer Ucan HttpRpc OAuthRepo Users OAuth OAuthSafety WorkQueue Queues RateLimit Tenant Nip98 Accounts AccountKeys AccountsSafety AccountKeysSafety TeamRepo Teams TeamsSafety CustomerRepo Customers CustomerLimits AdminRepo Admin AdminTeams AdminSafety.

Section support_access.
Context `{HN : Nostr, HC : !NostrCrypto, HS : !Serde, HX : !Secrets, HE : !Encodings, HV : !HttpEvents, HU : UcanLib,
          HM : !UcanMint, HL : UrlLib, HUni : Unicode, HCh : Channel, HSq : SqlText, HO : Collation, HK : !KeyText,
          HP : UrlPages, HQ : !UrlParts}.

Notation AdM A := (SE account_state api_abort A).
Notation cache_of s := (rs_cache (os_rpc (ac_oauth s))).

Lemma admin_repo_ok {A} f (c : DbM A) s s' a :
  admin_repo f c s = (s', Ok a) -> exists d, c (ac_db s) = (d, Ok a) /\ s' = set_ac_db d s.
Proof. unfold admin_repo. destruct (c (ac_db s)) as [d r]. intros [= <- Hr%map_err_ok]. subst. eauto. Qed.
Lemma admin_query_ok {A} f (g : Db -> result A RepositoryError) s s' a :
  admin_repo f (fun d => (d, g d)) s = (s', Ok a) -> s' = s /\ g (ac_db s) = Ok a.
Proof. intros (d & [= <- Ha] & ->)%admin_repo_ok. split; [by destruct s as [[[]] ???] | done]. Qed.

(** ** The loop of the release *)
Definition unrevoked (ten id : Z) (a : Authorization) : bool := (au_tenant_id a =? ten) && (au_id a =? id) && is_null (au_revoked_at a).
Definition revoke_id (now ten id : Z) (l : list Authorization) : list Authorization :=
  update_where (unrevoked ten id) (au_revoke now (Some "support_session_end")) l.
Definition no_handler (b : string) (s : account_state) : Prop :=
  forall key h bk, cache_of s !! key = Some h -> parse_cache_key b = Ok bk -> rh_bunker_pubkey h <> bk.

Section release.
Context (now : Z) (cfg : account_config) (ten : Z).

Definition release_one (s : account_state) (x : Z * string) : account_state :=
  let s1 := set_ac_db (set_authorizations (with_rows (revoke_id now ten (fst x)) (db_authorizations (ac_db s))) (ac_db s)) s in
  fst (notify_signer cfg (Remove (snd x)) (fst (drop_handlers (snd x) s1))).

Lemma release_one_db s x :
  ac_db (release_one s x) = set_authorizations (with_rows (revoke_id now ten (fst x)) (db_authorizations (ac_db s))) (ac_db s).
Proof. unfold release_one, notify_signer, se_modify. cbn. by destruct (cfg_auth_tx _). Qed.
Lemma release_one_redis s x : ac_redis (release_one s x) = ac_redis s.
Proof. unfold release_one, notify_signer, se_modify. cbn. by destruct (cfg_auth_tx _). Qed.
Lemma release_one_cache s x : cache_of (release_one s x) = invalidate_handlers_for_bunker (snd x) (cache_of s).
Proof. unfold release_one, notify_signer, se_modify. cbn. by destruct (cfg_auth_tx _). Qed.

Lemma invalidate_drops (b : string) (c : gmap CacheKey HttpRpcHandler) key h bk :
  invalidate_handlers_for_bunker b c !! key = Some h -> parse_cache_key b = Ok bk -> rh_bunker_pubkey h <> bk.
Proof.
  unfold invalidate_handlers_for_bunker, invalidate_handlers. intros H E. rewrite E in H.
  apply map_lookup_filter_Some in H as [_ H]. simpl in H. by apply bool_decide_eq_false in H.
Qed.
Lemma support_invalidate_keeps (b : string) (c : gmap CacheKey HttpRpcHandler) key h : invalidate_handlers_for_bunker b c !! key = Some h -> c !! key = Some h.
Proof.
  unfold invalidate_handlers_for_bunker, invalidate_handlers. destruct (parse_cache_key b); [|by rewrite lookup_empty].
  by intros [? _]%map_lookup_filter_Some.
Qed.

Definition open_row (id : Z) (d : Db) : Prop := exists a, a ∈ rows (db_authorizations d) /\ unrevoked ten id a = true.

Lemma revoke_keeps_open x id d :
  x <> id -> open_row id d -> open_row id (set_authorizations (with_rows (revoke_id now ten x) (db_authorizations d)) d).
Proof.
  intros Hne (a & Ha & Hun). exists a. split; [|done]. cbn. apply update_where_elem. right. split; [done|].
  unfold unrevoked in *. bool_to_prop. rewrite (proj2 (Z.eqb_neq (au_id a) x)), andb_false_r; [done|congruence].
Qed.

(** Every row of the loop is still open when its turn comes, so each counts. *)
Lemma revoke_support_run active n s :
  NoDup (map fst active) -> (forall id, id ∈ map fst active -> open_row id (ac_db s)) ->
  revoke_support now cfg ten active n s = (foldl release_one s active, Ok (n + length active)%nat).
Proof.
  revert n s. induction active as [|[id b] active IH]; intros n s Hnd Hopen; simpl; [by rewrite Nat.add_0_r|].
  inversion Hnd as [|? ? Hni Hnd']; subst.
  unfold se_bind at 1. unfold admin_repo, authorization_revoke. cbn [map_err].
  destruct (Hopen id) as (a & Ha & Hun); [by left|].
  assert (exists x, head (returning (unrevoked ten id) (au_revoke now (Some "support_session_end")) (rows (db_authorizations (ac_db s)))) = Some x) as [x Hx].
  { unfold returning. destruct (List.filter _ _) as [|y l] eqn:E; [|simpl; eauto].
    apply list_elem_of_In in Ha. assert (In a []) by (rewrite <- E; apply filter_In; done). done. }
  unfold unrevoked in Hx. rewrite Hx. simpl.
  specialize (IH (S n) (release_one s (id, b)) Hnd'). rewrite <- plus_n_Sm. change (S (n + length active)) with (S n + length active)%nat.
  rewrite <- IH; [done|]. intros i Hi. rewrite release_one_db. apply revoke_keeps_open; [intros <-; by apply Hni in Hi|].
  apply Hopen. by right.
Qed.

Lemma released_db active s :
  NoDup (map fst active) -> exists t, ac_db (foldl release_one s active) = set_authorizations t (ac_db s) /\
    (forall a, a ∈ rows t -> au_revoked_at a = None -> a ∈ rows (db_authorizations (ac_db s)) /\ (au_tenant_id a = ten -> au_id a ∉ map fst active)) /\
    (forall a, a ∈ rows (db_authorizations (ac_db s)) -> au_id a ∉ map fst active -> a ∈ rows t) /\
    (forall a, a ∈ rows (db_authorizations (ac_db s)) -> au_tenant_id a = ten -> au_revoked_at a = None -> au_id a ∈ map fst active ->
       au_revoke now (Some "support_session_end") a ∈ rows t).
Proof.
  revert s. induction active as [|[id b] active IH]; intros s Hnd; simpl.
  - exists (db_authorizations (ac_db s)). split; [by destruct (ac_db s)|]. split; [|split]; try done.
    + intros a Ha _. split; [done|]. intros _ H. by apply not_elem_of_nil in H.
    + intros a _ _ _ H. by apply not_elem_of_nil in H.
  - inversion Hnd as [|? ? Hni' Hnd']; subst.
    destruct (IH (release_one s (id, b)) Hnd') as (t & E & H1 & H2 & H3). exists t. rewrite release_one_db in *. cbn in *.
    split; [done|]. split; [|split].
    + intros a Ha Hr. destruct (H1 a Ha Hr) as [Hin Hni]. apply update_where_elem in Hin as [(a' & _ & _ & ->)|[Hin Hun]]; [done|].
      split; [done|]. intros Ht [Hid|Hid]%elem_of_cons; [|by apply Hni].
      unfold unrevoked in Hun. by rewrite Ht, Hid, Hr, !Z.eqb_refl in Hun.
    + intros a Ha [Hne Hni]%not_elem_of_cons. apply H2; [|done]. apply update_where_elem. right. split; [done|].
      unfold unrevoked. by rewrite (proj2 (Z.eqb_neq _ _) Hne), andb_false_r.
    + intros a Ha Ht Hr [Hid|Hin]%elem_of_cons.
      * apply H2; [|cbn; by rewrite Hid]. apply update_where_elem. left. exists a. split; [done|].
        unfold unrevoked. by rewrite Ht, Hid, Hr, !Z.eqb_refl.
      * apply H3; try done. apply update_where_elem. right. split; [done|]. unfold unrevoked.
        rewrite (proj2 (Z.eqb_neq (au_id a) id)), andb_false_r; [done|]. intros Hid. by rewrite Hid in Hin.
Qed.

Lemma released_cache active s id b : (id, b) ∈ active -> no_handler b (foldl release_one s active).
Proof.
  revert s. induction active as [|y active IH]; intros s; simpl; [by intros ?%not_elem_of_nil|].
  intros [<-|H]%elem_of_cons; [|by apply IH].
  assert (Hstart : no_handler b (release_one s (id, b))).
  { intros key h bk. rewrite release_one_cache. apply invalidate_drops. }
  clear IH. revert Hstart. generalize (release_one s (id, b)). induction active as [|y active IH]; intros s1 Hs1; [done|].
  simpl. apply IH. intros key h bk. rewrite release_one_cache. intros ?%support_invalidate_keeps. by eapply Hs1.
Qed.
Lemma released_redis active s : ac_redis (foldl release_one s active) = ac_redis s.
Proof. revert s. induction active as [|y active IH]; intros s; simpl; [done|]. by rewrite IH, release_one_redis. Qed.
End release.

(** ** The rows the release is about *)
Lemma active_support_rows ten team caller d :
  NoDup (map au_id (rows (db_authorizations d))) ->
  NoDup (map fst (find_active_support_for_caller ten team caller d)) /\
  (forall a, a ∈ rows (db_authorizations d) -> active_support ten team caller d a = true ->
     (au_id a, au_bunker_public_key a) ∈ find_active_support_for_caller ten team caller d) /\
  (forall a, a ∈ rows (db_authorizations d) -> au_id a ∈ map fst (find_active_support_for_caller ten team caller d) ->
     active_support ten team caller d a = true).
Proof.
  intros Hnd. unfold find_active_support_for_caller. rewrite map_map. simpl. split; [|split].
  - clear -Hnd. induction (rows (db_authorizations d)) as [|a l IH]; simpl in *; [constructor|].
    inversion Hnd as [|? ? Hni Hnd']; subst. destruct (active_support _ _ _ _ a); [|by apply IH]. simpl. constructor; [|by apply IH].
    intros (b & Hb & [Hin _]%list_elem_of_In%filter_In)%list_elem_of_fmap. apply Hni, list_elem_of_fmap.
    exists b. split; [done | by apply list_elem_of_In].
  - intros a Ha Hact. apply list_elem_of_fmap. exists a. split; [done|]. apply list_elem_of_In, filter_In.
    split; [by apply list_elem_of_In | done].
  - intros a Ha (b & Hid & [Hin Hact]%list_elem_of_In%filter_In)%list_elem_of_fmap. apply list_elem_of_In in Hin.
    assert (a = b) as ->; [|done]. clear -Hnd Ha Hin Hid.
    induction (rows (db_authorizations d)) as [|x l IH]; [by apply not_elem_of_nil in Ha|].
    simpl in Hnd. inversion Hnd as [|? ? Hni Hnd']; subst.
    apply elem_of_cons in Ha as [->|Ha], Hin as [->|Hin]; try done; [| |by apply IH].
    + destruct Hni. apply list_elem_of_fmap. by exists b.
    + destruct Hni. apply list_elem_of_fmap. by exists a.
Qed.
(** ** What a grant leaves *)
Record granted (ten team : Z) (caller : string) (label : option string) (s s1 : account_state) (a : Authorization)
    (k : StoredKey) (u : team_user_row) : Prop := {
  gr_db : ac_db s1 = set_authorizations {| rows := rows (db_authorizations (ac_db s)) ++ [a]; next_id := next_id (db_authorizations (ac_db s)) + 1 |}
            (set_team_users {| rows := rows (db_team_users (ac_db s)) ++ [u]; next_id := next_id (db_team_users (ac_db s)) + 1 |} (ac_db s));
  gr_redis : ac_redis s1 = ac_redis s;
  gr_team : exists t, team_find ten team (ac_db s) = Ok t;
  gr_member : tu_user_pubkey u = caller /\ tu_team_id u = team /\ tu_role u = Member;
  gr_key : k ∈ rows (db_stored_keys (ac_db s)) /\ sk_team_id k = team /\ sk_id k = au_stored_key_id a;
  gr_row : au_id a = next_id (db_authorizations (ac_db s)) /\ au_tenant_id a = ten /\ au_revoked_at a = None /\
           au_label a = Some (support_label caller label);
  gr_log : is_Some (prefix_str caller (Z.min 8 (len caller)));
}.

Lemma support_add_member_ok now team caller d d' m :
  add_member now team caller "member" d = (d', Ok m) ->
  exists u, d' = set_team_users {| rows := rows (db_team_users d) ++ [u]; next_id := next_id (db_team_users d) + 1 |} d /\
    tu_user_pubkey u = caller /\ tu_team_id u = team /\ tu_role u = Member.
Proof.
  unfold add_member. destruct (role_of_str "member") as [r|] eqn:Er; [|done]. injection Er as <-.
  repeat (case_if; [done|]). cbn. intros [= <- _]. by eexists.
Qed.
Lemma authorization_create_ok now ten k p hash bunker relays uses expires label d d' a :
  authorization_create now ten k p hash bunker relays uses expires label d = (d', Ok a) ->
  d' = set_authorizations {| rows := rows (db_authorizations d) ++ [a]; next_id := next_id (db_authorizations d) + 1 |} d /\
  au_id a = next_id (db_authorizations d) /\ au_tenant_id a = ten /\ au_revoked_at a = None /\ au_label a = label /\ au_stored_key_id a = k.
Proof.
  unfold authorization_create. repeat (case_if; [done|]). unfold insert_row. intros [= <- Ha].
  apply map_err_ok in Ha. unfold decode_authorization in Ha. apply rbind_ok in Ha as (x & _ & Ha). by injection Ha as <-.
Qed.
Lemma log_key_min_ok key s s' u : log_key_min key s = (s', Ok u) -> s' = s /\ is_Some (prefix_str key (Z.min 8 (len key))).
Proof. unfold log_key_min, se_bind, se_lift. destruct (prefix_str _ _) eqn:E; [|done]. intros [= <- <-]. eauto. Qed.

Lemma support_grant_ok now cfg ten auth team secret_pair req s s1 resp :
  is_member team (ua_pubkey auth) (ac_db s) = false ->
  grant_team_support_access now cfg ten auth team secret_pair req s = (s1, Ok resp) ->
  exists k u, granted ten team (ua_pubkey auth) (gs_label req) s s1 (gsr_authorization resp) k u.
Proof.
  intros Hnm. unfold grant_team_support_access, support_admins. intros H.
  apply se_bind_ok in H as (s0 & ok & [-> ->]%se_gets_ok & H). destruct (is_support_admin _ _ _ _); [|done].
  apply se_bind_ok in H as (s0 & t & [-> Ht]%admin_query_ok & H).
  apply se_bind_ok in H as (s0 & keys & [-> ->]%admin_read_run & H).
  apply se_bind_ok in H as (s0 & k & [-> Hk%map_err_ok%ok_or_ok]%se_lift_ok & H).
  assert (k ∈ list_by_team ten team (ac_db s)) as Hin by (destruct (list_by_team _ _ _); [done|]; injection Hk as ->; by left).
  unfold list_by_team in Hin. apply list_elem_of_In, filter_In in Hin as [Hin Hkt]. apply list_elem_of_In in Hin.
  unfold team_key in Hkt. bool_to_prop.
  apply se_bind_ok in H as (s0 & pol & [-> ->]%admin_read_run & H).
  apply se_bind_ok in H as (s0 & pid & [-> _]%se_lift_ok & H).
  apply se_bind_ok in H as (s0 & present & [-> ->]%admin_read_run & H). rewrite Hnm in H.
  apply se_bind_ok in H as (s0 & ? & Hm & H). apply se_bind_ok in Hm as (s0' & m & (d1 & Hm & ->)%admin_repo_ok & [-> _]%se_ret_ok).
  apply support_add_member_ok in Hm as (u & -> & Hu).
  do 4 apply se_bind_ok in H as (s0 & ? & [-> _]%se_lift_ok & H).
  apply se_bind_ok in H as (s0 & a & (d2 & Ha & ->)%admin_repo_ok & H).
  apply authorization_create_ok in Ha as (-> & Hid & Hten & Hrev & Hlab & Hsk).
  apply se_bind_ok in H as (s0 & url & [-> _]%se_lift_ok & H).
  apply se_bind_ok in H as (s0 & v & Hn & H). apply se_bind_ok in H as (s2 & w & [-> Hlog]%log_key_min_ok & [-> ->]%se_ret_ok).
  unfold notify_signer, se_modify in Hn. injection Hn as <- _. exists k, u.
  split; try done; try (cbn; by destruct (cfg_auth_tx _)). by exists t.
Qed.
(** ** The release after a grant *)
Section given_back.
Context (now' : Z) (cfg : account_config) (ten : Z) (auth : UcanAuth) (team : Z) (label : option string)
        (s s1 : account_state) (a : Authorization) (k : StoredKey) (u : team_user_row).
Let caller := ua_pubkey auth.
Hypothesis (Hg : granted ten team caller label s s1 a k u).
Hypothesis (Hplain : plain caller = true).
Hypothesis (Hfresh : ids_fresh au_id (db_authorizations (ac_db s))).
Hypothesis (Hnm : is_member team caller (ac_db s) = false).
Let active := find_active_support_for_caller ten team caller (ac_db s1).
Let sr := foldl (release_one now' cfg ten) s1 active.

Lemma granted_ids : NoDup (map au_id (rows (db_authorizations (ac_db s1)))).
Proof.
  pose proof (insert_row_fresh au_id (fun _ => a) (db_authorizations (ac_db s))) as H. rewrite (gr_db _ _ _ _ _ _ _ _ _ Hg). cbn.
  destruct (gr_row _ _ _ _ _ _ _ _ _ Hg) as (Hid & _). destruct Hfresh as [Hnd Hlt]. rewrite map_app. apply NoDup_app.
  split; [done|]. split; [|apply NoDup_singleton].
  intros x (r & -> & Hr)%list_elem_of_fmap Hx%list_elem_of_singleton. rewrite Forall_forall in Hlt. specialize (Hlt r Hr). lia.
Qed.

Lemma granted_active : active_support ten team caller (ac_db s1) a = true.
Proof.
  destruct (gr_row _ _ _ _ _ _ _ _ _ Hg) as (_ & Ht & Hr & Hl). destruct (gr_key _ _ _ _ _ _ _ _ _ Hg) as (Hk & Hkt & Hki).
  unfold active_support, labelled, of_team_key. rewrite Ht, Z.eqb_refl, Hr, Hl, (gr_db _ _ _ _ _ _ _ _ _ Hg).
  rewrite like_prefix by (unfold plain, all_bytes, support_prefix in *; simpl; exact Hplain).
  unfold caller. rewrite (support_label_prefix auth). cbn [is_null andb]. rewrite !andb_true_r. apply existsb_elem. exists k. split; [done|]. by rewrite Hki, Hkt, !Z.eqb_refl.
Qed.

Lemma released_state :
  exists t, ac_db sr = set_authorizations t (ac_db s1) /\ find_active_support_for_caller ten team caller (ac_db sr) = [] /\
    au_revoke now' (Some "support_session_end") a ∈ rows t /\
    (forall b, b ∈ rows (db_authorizations (ac_db s)) ->
       (if active_support ten team caller (ac_db s1) b then au_revoke now' (Some "support_session_end") b else b) ∈ rows t).
Proof.
  destruct (active_support_rows ten team caller (ac_db s1) granted_ids) as (Hnd & Hall & Honly).
  destruct (released_db now' cfg ten active s1 Hnd) as (t & E & H1 & H2 & H3). exists t. split; [exact E|].
  destruct (gr_row _ _ _ _ _ _ _ _ _ Hg) as (_ & Ht & Hr & _).
  assert (Ha : a ∈ rows (db_authorizations (ac_db s1))).
  { rewrite (gr_db _ _ _ _ _ _ _ _ _ Hg). cbn. apply elem_of_app. right. by constructor. }
  split; [|split].
  - unfold find_active_support_for_caller. rewrite (filter_nil _ _); [done|]. intros b Hb. unfold sr in *. rewrite E in *. cbn in Hb.
    apply not_true_iff_false. intros Hact.
    assert (Hact1 : active_support ten team caller (ac_db s1) b = true) by exact Hact.
    unfold active_support in Hact1. bool_to_prop. destruct (au_revoked_at b) eqn:Hrb; [done|].
    destruct (H1 b Hb Hrb) as [Hin Hni]. apply Hni; [done|]. apply list_elem_of_fmap.
    exists (au_id b, au_bunker_public_key b). split; [done|]. by apply Hall.
  - apply H3; try done. apply list_elem_of_fmap. exists (au_id a, au_bunker_public_key a). split; [done|]. apply Hall; [done|apply granted_active].
  - intros b Hb. assert (b ∈ rows (db_authorizations (ac_db s1))) as Hb1.
    { rewrite (gr_db _ _ _ _ _ _ _ _ _ Hg). cbn. apply elem_of_app. by left. }
    destruct (active_support ten team caller (ac_db s1) b) eqn:Hact.
    + apply H3; [done|unfold active_support in Hact; by bool_to_prop| |].
      * unfold active_support in Hact. bool_to_prop. by destruct (au_revoked_at b).
      * apply list_elem_of_fmap. exists (au_id b, au_bunker_public_key b). split; [done|]. by apply Hall.
    + apply H2; [done|]. intros Hin. apply Honly in Hin; [congruence | done].
Qed.

Lemma released_members d' :
  db_team_users d' = db_team_users (ac_db s1) ->
  get_member team caller d' = Ok (member_of_row d' u) /\
  rows (db_team_users (fst (remove_member team caller d'))) = rows (db_team_users (ac_db s)).
Proof.
  intros E. rewrite (gr_db _ _ _ _ _ _ _ _ _ Hg) in E. cbn in E. destruct (gr_member _ _ _ _ _ _ _ _ _ Hg) as (Hu & Hut & _).
  assert (Hnone : forall m, m ∈ rows (db_team_users (ac_db s)) -> in_team caller team m = false).
  { intros m Hm. apply not_true_iff_false. intros Hin. apply not_true_iff_false in Hnm. apply Hnm. apply existsb_elem. eauto. }
  assert (Hyes : in_team caller team u = true) by by apply in_team_spec.
  unfold get_member, remove_member. cbn. rewrite E. cbn. split.
  - rewrite (find_first_unique _ _ u); [done | apply elem_of_app; right; by constructor | done |].
    intros m [Hm|Hm%list_elem_of_singleton]%elem_of_app Hin; [|done]. by rewrite Hnone in Hin.
  - unfold delete_where. rewrite List.filter_app. simpl. rewrite Hyes. simpl. rewrite app_nil_r.
    apply forallb_filter_id, forallb_elem. intros m Hm. by rewrite Hnone.
Qed.
(** The release runs to its end. *)
Lemma release_after_grant :
  is_support_admin (acf_auth cfg) now' auth (ac_redis s) = true ->
  release_team_support_access now' cfg ten auth team s1 =
  (set_ac_db (fst (remove_member team caller (ac_db sr))) sr,
   Ok {| rsr_team_id := team; rsr_revoked_authorizations := length active; rsr_removed_membership := true |}).
Proof.
  intros Hadm. unfold release_team_support_access, support_admins. destruct (gr_team _ _ _ _ _ _ _ _ _ Hg) as (t & Ht).
  unfold se_bind at 1. unfold se_gets at 1. rewrite (gr_redis _ _ _ _ _ _ _ _ _ Hg), Hadm. cbn zeta. fold caller.
  assert (Ht1 : team_find ten team (ac_db s1) = Ok t) by by rewrite (gr_db _ _ _ _ _ _ _ _ _ Hg).
  unfold se_bind at 1, admin_repo at 1. rewrite Ht1. cbn [map_err].
  replace (set_ac_db (ac_db s1) s1) with s1 by by destruct s1 as [[[]] ???].
  unfold se_bind at 1, admin_read at 1, se_gets at 1. fold active.
  destruct (active_support_rows ten team caller (ac_db s1) granted_ids) as (Hnd & _ & _).
  unfold se_bind at 1. rewrite revoke_support_run; [|exact Hnd|].
  2: { intros id Hid. apply list_elem_of_fmap in Hid as ([i b] & -> & Hin). unfold active, find_active_support_for_caller in Hin.
       apply list_elem_of_fmap in Hin as (r & [= -> ->] & [Hin Hact]%list_elem_of_In%filter_In).
       exists r. split; [by apply list_elem_of_In|]. unfold active_support in Hact. unfold unrevoked. bool_to_prop.
       apply andb_true_iff. split; [apply andb_true_iff; split; by apply Z.eqb_eq | done]. }
  fold sr. destruct released_state as (t' & E & _). destruct (released_members (ac_db sr)) as [Hget _]; [by rewrite E|].
  unfold se_bind at 1, admin_read at 1, se_gets at 1. rewrite Hget.
  destruct (gr_member _ _ _ _ _ _ _ _ _ Hg) as (_ & _ & Hrole). cbn [member_of_row mb_role]. rewrite Hrole, bool_decide_true by done.
  unfold se_bind at 1 2, admin_repo, remove_member, se_ret at 1. cbn [map_err].
  unfold se_bind at 1, log_key_min, se_bind at 1, se_lift. destruct (gr_log _ _ _ _ _ _ _ _ _ Hg) as [x Hx].
  fold caller. by rewrite Hx.
Qed.
End given_back.

(** [C22] Support access is given back.  After an agent who was no member of a team
    has been granted access to it, the release succeeds: the members of the team
    are those from before, the authorization that was issued is revoked, no handler
    of its bunker is left in the cache and the agent has no live support
    authorization on the team's keys.  Of the authorizations from before, the live
    ones on the team's keys that carry the agent's support label are revoked with
    it, and all others are as they were. *)
Theorem support_access_given_back now now' cfg ten auth team secret_pair req s s1 resp :
  plain (ua_pubkey auth) = true -> ids_fresh au_id (db_authorizations (ac_db s)) ->
  is_member team (ua_pubkey auth) (ac_db s) = false ->
  is_support_admin (acf_auth cfg) now' auth (ac_redis s) = true ->
  grant_team_support_access now cfg ten auth team secret_pair req s = (s1, Ok resp) ->
  exists s2 out, release_team_support_access now' cfg ten auth team s1 = (s2, Ok out) /\
    rsr_removed_membership out = true /\ rows (db_team_users (ac_db s2)) = rows (db_team_users (ac_db s)) /\
    (exists a, a ∈ rows (db_authorizations (ac_db s2)) /\ au_id a = au_id (gsr_authorization resp) /\ au_revoked_at a = Some now') /\
    no_handler (au_bunker_public_key (gsr_authorization resp)) s2 /\
    find_active_support_for_caller ten team (ua_pubkey auth) (ac_db s2) = [] /\
    (forall a, a ∈ rows (db_authorizations (ac_db s)) ->
       (if active_support ten team (ua_pubkey auth) (ac_db s) a
        then au_revoke now' (Some "support_session_end") a else a) ∈ rows (db_authorizations (ac_db s2))).
Proof.
  intros Hplain Hfresh Hnm Hadm Hgrant. destruct (support_grant_ok _ _ _ _ _ _ _ _ _ _ Hnm Hgrant) as (k & u & Hg).
  destruct (released_state now' cfg ten auth team (gs_label req) s s1 _ k u Hg Hplain Hfresh) as (t & E & Hnone & Hrev & Hrest).
  destruct (released_members ten auth team (gs_label req) s s1 _ k u Hg Hnm (ac_db (foldl (release_one now' cfg ten) s1
    (find_active_support_for_caller ten team (ua_pubkey auth) (ac_db s1))))) as [_ Hmem]; [by rewrite E|].
  eexists _, _. split; [by apply (release_after_grant now' cfg ten auth team (gs_label req) s s1 _ k u Hg Hplain Hfresh Hnm)|].
  split; [done|]. split; [exact Hmem|]. split.
  { exists (au_revoke now' (Some "support_session_end") (gsr_authorization resp)). split; [|done]. cbn. by rewrite E. }
  split; [|split].
  - intros key h bk. apply (released_cache now' cfg ten _ s1 (au_id (gsr_authorization resp))).
    apply active_support_rows.
    + by apply (granted_ids ten auth team (gs_label req) s s1 _ k u Hg Hfresh).
    + rewrite (gr_db _ _ _ _ _ _ _ _ _ Hg). cbn. apply elem_of_app. right. by constructor.
    + by apply (granted_active ten auth team (gs_label req) s s1 _ k u Hg Hplain).
  - exact Hnone.
  - intros a Ha. cbn. rewrite E. cbn. specialize (Hrest a Ha). unfold active_support, of_team_key in *.
    rewrite (gr_db _ _ _ _ _ _ _ _ _ Hg) in Hrest. exact Hrest.
Qed.
End support_access.

(** ** Witness *)
Lemma support_access_given_back_witness :
  exists s1 resp s2 out,
    grant_team_support_access 10 toy_account_config 1 agent 1 (Some support_secret) whole_access (state_of restaurant_db) = (s1, Ok resp) /\
    release_team_support_access 20 toy_account_config 1 agent 1 s1 = (s2, Ok out) /\ rsr_removed_membership out = true /\
    (exists a, a ∈ rows (db_authorizations (ac_db s2)) /\ au_id a = au_id (gsr_authorization resp) /\ au_revoked_at a = Some 20).
Proof.
  destruct (run_ok (grant_team_support_access 10 toy_account_config 1 agent 1 (Some support_secret) whole_access (state_of restaurant_db)))
    as (s1 & resp & E); [vm_compute; reflexivity|].
  destruct (support_access_given_back 10 20 toy_account_config 1 agent 1 (Some support_secret) whole_access (state_of restaurant_db) s1 resp)
    as (s2 & out & Hrel & Hrem & _ & Ha & _).
  - reflexivity.
  - split; [vm_compute; repeat constructor; by intros ?%not_elem_of_nil | repeat constructor].
  - reflexivity.
  - reflexivity.
  - exact E.
  - exists s1, resp, s2, out. exact (conj E (conj Hrel (conj Hrem Ha))).
Defined.
