(* ===== verification/Preloads.v ===== *)
(** * Preloaded accounts and their links

    What the tokens of preloaded accounts open, and the links a batch hands out. *)
From S2P Require Import Prelude RustStr External Instances Database Samples Tokens Permissions Policies AuthTypes Signer Ucan HttpRpc HttpRpcSafety OAuthRepo Users OAuth OAuthSafety WorkQueue Queues RateLimit Tenant Nip98 Accounts AccountKeys AccountsSafety AccountKeysSafety TeamRepo Teams CustomerRepo Customers CustomerLimits AdminRepo Admin AdminTeams AdminSafety SupportAccess.

Section preloads.
Context `{HN : Nostr, HC : !NostrCrypto, HS : !Serde, HX : !Secrets, HE : !Encodings, HV : !HttpEvents, HU : UcanLib,
          HM : !UcanMint, HL : UrlLib, HUni : Unicode, HCh : Channel, HSq : SqlText, HO : Collation, HK : !KeyText,
          HP : UrlPages, HQ : !UrlParts}.

Notation AdM A := (SE account_state api_abort A).

(** ** Tokens *)

(** The facts of a preloaded account's token: no bunker key among them. *)
Lemma preload_facts ten admin :
  - 2 ^ 63 <= ten < 2 ^ 63 ->
  let facts := [JObject [("tenant_id", JInt ten); ("redirect_origin", JString "preload"); ("issued_by_admin", JString admin)]] in
  fact as_str "redirect_origin" facts = Some "preload" /\ fact as_str "bunker_pubkey" facts = None /\ fact as_i64 "tenant_id" facts = Some ten.
Proof.
  intros Hten. split; [reflexivity|]. split; [reflexivity|]. unfold fact, find_map, json_lookup. simpl.
  rewrite (proj2 (Z.leb_le _ _)), (proj2 (Z.ltb_lt _ _)) by lia. done.
Qed.

Lemma log_key_ok key s s' u : log_key key s = (s', Ok u) -> s' = s.
Proof. unfold log_key, se_bind, se_lift. by destruct (prefix_str key 8) as [x|]; intros [= <- _]. Qed.

(** An id that is known gets a token for its account, and nothing is stored. *)
Lemma preload_known now cfg ten auth keys req pubkey s s' resp :
  find_pubkey_by_vine_id (pu_vine_id req) ten (ac_db s) = Some pubkey ->
  preload_user now cfg ten auth keys req s = (s', Ok resp) ->
  s' = s /\ pur_pubkey resp = pubkey /\ is_full_admin (acf_auth cfg) auth = true /\
  exists nsec server_keys pk, ae_server_nsec (acf_auth cfg) = Some nsec /\ keys_parse nsec = Ok server_keys /\
    pk_from_hex pubkey = Ok pk /\ generate_preload_ucan now pk ten server_keys (ua_pubkey auth) = Ok (pur_token resp).
Proof.
  intros Hf. unfold preload_user, full_admins. destruct (is_full_admin _ _); [|unfold logged_forbidden, log_key, se_bind, se_lift; by destruct (prefix_str _ _)].
  intros H. apply se_bind_ok in H as (s0 & sk & [-> Hsk%map_err_ok]%se_lift_ok & H).
  apply se_bind_ok in H as (s0 & ex & [-> ->]%admin_read_run & H). rewrite Hf in H.
  apply se_bind_ok in H as (s0 & pk & [-> Hpk%map_err_ok%map_err_ok]%se_lift_ok & H).
  apply se_bind_ok in H as (s0 & tok & [-> Htok%map_err_ok]%se_lift_ok & H).
  apply se_bind_ok in H as (s0 & u & ->%log_key_ok & [-> ->]%se_ret_ok).
  unfold admin_server_keys in Hsk. apply rbind_ok in Hsk as (nsec & Hn%ok_or_ok & Hsk%map_err_ok).
  split; [done|]. split; [done|]. split; [done|]. by exists nsec, sk, pk.
Qed.

(** The token of a claimed account.  Asking again for a preloaded account whose
    owner has claimed it is answered with a token: get_user_token refuses such an
    account, and the RPC endpoint refuses the token, but for thirty days every
    endpoint of the account that takes a session accepts it as the owner's. *)
Theorem preload_serves_claimed_account `{HEL : !EncodingLaws, HML : !MintLaws} now now' cfg ten auth keys req usk s s' resp q :
  - 2 ^ 63 <= ten < 2 ^ 63 -> now' <= now + 2592000 ->
  find_pubkey_by_vine_id (pu_vine_id req) ten (ac_db s) = Some (pk_to_hex (pk_of usk)) ->
  is_unclaimed (ac_db s) (pk_to_hex (pk_of usk)) ten = Some false ->
  preload_user now cfg ten auth keys req s = (s', Ok resp) ->
  header "authorization" q = Some (Some ("Bearer " +:+ pur_token resp)) ->
  s' = s /\
  get_user_token now cfg ten auth (pk_to_hex (pk_of usk)) s = (s, Err (ApiFailed (Api_Forbidden "Cannot generate token for claimed user"))) /\
  authenticate now' (ae_server_nsec (acf_auth cfg)) (ac_db s) ("Bearer " +:+ pur_token resp) ten = Err (Rpc_Auth AuthE_InvalidToken) /\
  extract_user_from_token now' cfg q ten = Ok (pk_to_hex (pk_of usk)) /\
  (forall A (k : string -> SE account_state account_abort A), with_user now' cfg q ten k s = k (pk_to_hex (pk_of usk)) s).
Proof.
  intros Hten Hn Hf Hun Hrun Hq. destruct (preload_known _ _ _ _ _ _ _ _ _ _ Hf Hrun) as (-> & _ & Hadm & nsec & sk & pk & En & Hsk & Hpk & Htok).
  rewrite pk_hex_round_trip in Hpk. injection Hpk as <-. apply map_err_ok in Htok.
  destruct (preload_facts ten (ua_pubkey auth) Hten) as (Fo & Fb & Ft).
  destruct (server_token_validates now now' sk nsec (pk_of usk) ten "preload" _ _ _ Htok Fo Ft Hsk) as (u & Hfacts & Hiss & Hv);
    [unfold PRELOAD_TOKEN_EXPIRY_DAYS; lia|].
  assert (Hx : extract_user_from_token now' cfg q ten = Ok (pk_to_hex (pk_of usk))).
  { unfold extract_user_from_token, extract_user_and_origin_from_token. rewrite Hq, En.
    rewrite (proj2 (starts_with_spec _ _)) by by eexists. unfold extract_user_from_ucan. simpl. by rewrite Hv. }
  split; [done|]. split; [|split; [|split; [done|]]].
  - unfold get_user_token, full_admins. rewrite Hadm. unfold se_bind at 1, admin_lift, se_lift. rewrite pk_hex_round_trip. simpl.
    unfold se_bind, admin_read, se_gets. by rewrite Hun.
  - unfold authenticate. rewrite En, Hv. simpl.
    assert (is_server_signed (Some nsec) u = true) as ->.
    { unfold is_server_signed, server_pubkey. rewrite Hiss, did_to_did. simpl. rewrite Hsk. by apply bool_decide_true. }
    unfold load_preloaded_user_handler. by rewrite Hun.
  - intros A k. unfold with_user, se_bind, lift_account, se_lift. by rewrite Hx.
Qed.
(** ** The links of a batch *)
Definition opens (now ten : Z) (pubkey : string) (c : ClaimToken) : bool :=
  bool_decide (ct_user_pubkey c = pubkey) && (ct_tenant_id c =? ten) && claim_valid now c.
Definition links (now ten : Z) (pubkey : string) (d : Db) : list ClaimToken :=
  List.filter (opens now ten pubkey) (rows (db_claim_tokens d)).
Definition token_free (token : string) (d : Db) : Prop := forall c, c ∈ rows (db_claim_tokens d) -> ct_token c <> token.

Lemma insert_newest_not_nil {A} (created : A -> Z) x l : Tokens.insert_newest created x l <> [].
Proof. destruct l as [|y l]; simpl; [done|]. by case_if. Qed.
Lemma order_newest_nil {A} (created : A -> Z) l : head (order_newest created l) = None <-> l = [].
Proof.
  unfold order_newest. split; [|by intros ->]. destruct l as [|x l]; [done|]. intros H. exfalso.
  assert (forall m acc, acc <> [] -> foldl (fun acc x => Tokens.insert_newest created x acc) acc m <> []) as Hne.
  { induction m as [|y m IH]; intros acc Hacc; [done|]. simpl. apply IH, insert_newest_not_nil. }
  simpl in H. destruct (foldl _ _ l) eqn:E; [|done]. by apply (Hne l (Tokens.insert_newest created x []) (insert_newest_not_nil _ _ _)).
Qed.
Lemma find_valid_links now pubkey ten d :
  claim_find_valid_by_user_pubkey now pubkey ten (db_claim_tokens d) = None <-> links now ten pubkey d = [].
Proof. apply order_newest_nil. Qed.

Section batch.
Context (now : Z) (cfg : account_config) (ten : Z) (auth : UcanAuth) (token_for : string -> string)
        (service : option (string -> string -> result unit string)) (profile : string -> option ProfileMetadata)
        (email : option string).
Notation one := (batch_one now cfg ten auth token_for service profile email).

(** What one turn does to the links and to the answer. *)
Record turn (id : string) (s s' : account_state) (out out' : BatchCreateClaimTokensResponse) (new : list ClaimToken) : Prop := {
  tn_users : db_users (ac_db s') = db_users (ac_db s);
  tn_rows : rows (db_claim_tokens (ac_db s')) = rows (db_claim_tokens (ac_db s)) ++ new;
  tn_new : new = [] \/ exists c, new = [c] /\ ct_token c = token_for id /\ find_pubkey_by_vine_id id ten (ac_db s) = Some (ct_user_pubkey c) /\
    is_unclaimed (ac_db s) (ct_user_pubkey c) ten = Some true /\ ct_tenant_id c = ten /\ claim_valid now c = true /\
    links now ten (ct_user_pubkey c) (ac_db s) = [];
  tn_link : forall user, token_free (token_for id) (ac_db s) -> find_pubkey_by_vine_id id ten (ac_db s) = Some user ->
    is_unclaimed (ac_db s) user ten = Some true -> links now ten user (ac_db s') <> [];
  tn_out : exists l, map bt_vine_id (bc_tokens out') = map bt_vine_id (bc_tokens out) ++ l /\ l = map (fun _ => id) new;
}.

Lemma turn_nothing id s out out' :
  bc_tokens out' = bc_tokens out ->
  (forall user, token_free (token_for id) (ac_db s) -> find_pubkey_by_vine_id id ten (ac_db s) = Some user ->
     is_unclaimed (ac_db s) user ten = Some true -> links now ten user (ac_db s) <> []) ->
  turn id s s out out' [].
Proof. intros E H. split; [done|by rewrite app_nil_r|by left|done|]. exists []. by rewrite E, app_nil_r. Qed.

Lemma deliver_claim_same id user url s s' errs :
  deliver_claim cfg service profile email id user url s = (s', Ok errs) -> ac_db s' = ac_db s.
Proof.
  unfold deliver_claim. destruct email as [e|], service as [send|]; try by intros [= <- _].
  unfold se_bind, se_lift, se_modify. destruct (get_bunker_relays _); [|done]. simpl. destruct (send e url); by intros [= <- _].
Qed.
Lemma batch_errors_tokens errs out : bc_tokens (foldr batch_error out errs) = bc_tokens out.
Proof. by induction errs as [|e errs IH]. Qed.

Lemma batch_one_turn id out s s' out' : one id out s = (s', Ok out') -> exists new, turn id s s' out out' new.
Proof.
  unfold batch_one. intros H. apply se_bind_ok in H as (s0 & found & [-> ->]%admin_read_run & H).
  destruct (find_pubkey_by_vine_id id ten (ac_db s)) as [user|] eqn:Hf.
  2: { apply se_ret_ok in H as [-> ->]. exists []. apply turn_nothing; [done|]. by rewrite Hf. }
  apply se_bind_ok in H as (s0 & un & [-> ->]%admin_read_run & H). case_bool_decide as Hu; simpl in H.
  2: { apply se_ret_ok in H as [-> ->]. exists []. apply turn_nothing; [done|]. rewrite Hf. intros u _ [= <-] E. by destruct Hu. }
  apply se_bind_ok in H as (s0 & valid & [-> Hvalid]%admin_read_run & H). destruct valid as [v|].
  { apply se_ret_ok in H as [-> ->]. exists []. apply turn_nothing; [done|]. rewrite Hf. intros u _ [= <-] _ Hn.
    apply find_valid_links in Hn. congruence. }
  symmetry in Hvalid. apply find_valid_links in Hvalid. apply se_bind_ok in H as (s0 & created & Hc & H).
  unfold create_claim, claim_create in Hc. destruct (existsb _ _) eqn:Hdup.
  { injection Hc as <- <-. apply se_ret_ok in H as [-> ->]. exists []. replace (set_ac_db _ s) with s by by destruct s as [[[[] ?]] ???].
    apply turn_nothing; [done|]. intros u Hfree. exfalso. apply existsb_elem in Hdup as (c & Hc & Et). apply (Hfree c Hc). by bool_to_prop. }
  unfold insert_row in Hc. injection Hc as <- <-. apply se_bind_ok in H as (s1 & errs & Hd%deliver_claim_same & [-> ->]%se_ret_ok).
  assert (Hval : claim_valid now {| ct_id := next_id (db_claim_tokens (ac_db s)); ct_token := token_for id; ct_user_pubkey := user;
    ct_expires_at := now + days CLAIM_TOKEN_EXPIRY_DAYS; ct_used_at := None; ct_created_at := now;
    ct_created_by_pubkey := Some (ua_pubkey auth); ct_tenant_id := ten |} = true).
  { unfold claim_valid, days, CLAIM_TOKEN_EXPIRY_DAYS. simpl. rewrite andb_true_r. apply Z.ltb_lt. lia. }
  eexists [_]. split; rewrite ?Hd; cbn.
  - done.
  - reflexivity.
  - right. eexists. split; [reflexivity|]. cbn. by rewrite Hf.
  - rewrite Hf. intros u _ [= <-] _. unfold links. cbn. rewrite List.filter_app. simpl. unfold opens at 2. cbn.
    rewrite bool_decide_true, Z.eqb_refl by done. cbn [andb]. rewrite Hval. by destruct (List.filter _ _).
  - exists [id]. unfold batch_token. cbn. by rewrite batch_errors_tokens, map_app.
Qed.
Lemma turn_links id s s' out out' new pubkey :
  turn id s s' out out' new ->
  (links now ten pubkey (ac_db s) <> [] -> links now ten pubkey (ac_db s') <> []) /\
  (length (links now ten pubkey (ac_db s)) <= 1 -> length (links now ten pubkey (ac_db s')) <= 1)%nat.
Proof.
  intros [_ Hrows Hnew _ _]. unfold links in *. rewrite Hrows, List.filter_app. split.
  { intros H. by destruct (List.filter _ (rows (db_claim_tokens (ac_db s)))). }
  destruct Hnew as [->|(c & -> & _ & _ & _ & _ & _ & Hnone)]; [by rewrite app_nil_r|]. simpl.
  unfold opens at 3. destruct (decide (ct_user_pubkey c = pubkey)) as [<-|Hne].
  - rewrite Hnone. by case_if.
  - rewrite bool_decide_false by done. simpl. by rewrite app_nil_r.
Qed.

Lemma turn_free id s s' out out' new token :
  turn id s s' out out' new -> token <> token_for id -> token_free token (ac_db s) -> token_free token (ac_db s').
Proof.
  intros [_ Hrows Hnew _ _] Hne Hfree c. rewrite Hrows. intros [Hc|Hc]%elem_of_app; [by apply Hfree|].
  destruct Hnew as [->|(c' & -> & Ht & _)]; [by apply not_elem_of_nil in Hc|]. apply list_elem_of_singleton in Hc as ->. congruence.
Qed.

Lemma batch_loop_links ids out s s' out' :
  NoDup ids -> batch_loop one ids out s = (s', Ok out') ->
  (forall pubkey, links now ten pubkey (ac_db s) <> [] -> links now ten pubkey (ac_db s') <> []) /\
  (forall pubkey, length (links now ten pubkey (ac_db s)) <= 1 -> length (links now ten pubkey (ac_db s')) <= 1)%nat /\
  (exists l, map bt_vine_id (bc_tokens out') = map bt_vine_id (bc_tokens out) ++ l /\ sublist l ids) /\
  ((forall id, id ∈ ids -> token_free (token_for id) (ac_db s)) ->
   (forall a b, a ∈ ids -> b ∈ ids -> token_for a = token_for b -> a = b) ->
   forall id user, id ∈ ids -> find_pubkey_by_vine_id id ten (ac_db s) = Some user ->
     is_unclaimed (ac_db s) user ten = Some true -> links now ten user (ac_db s') <> []).
Proof.
  revert out s. induction ids as [|id ids IH]; intros out s Hnd; simpl.
  { intros [-> ->]%se_ret_ok. split; [done|]. split; [done|]. split; [exists []; by rewrite app_nil_r|].
    intros _ _ id user Hid. by apply not_elem_of_nil in Hid. }
  intros (s1 & out1 & [new Hturn]%batch_one_turn & Hloop)%se_bind_ok. inversion Hnd as [|? ? Hni Hnd']; subst.
  destruct (IH out1 s1 Hnd' Hloop) as (Hmono & Hone & (l & El & Hl) & Hall).
  split; [intros pubkey H; by apply Hmono, (turn_links _ _ _ _ _ _ _ Hturn)|].
  split; [intros pubkey H; by apply Hone, (turn_links _ _ _ _ _ _ _ Hturn)|]. split.
  { destruct (tn_out _ _ _ _ _ _ Hturn) as (l1 & E1 & ->). exists (map (fun _ => id) new ++ l). rewrite El, E1, app_assoc.
    split; [done|]. destruct (tn_new _ _ _ _ _ _ Hturn) as [->|(c & -> & _)]; simpl; by constructor. }
  intros Hfree Hinj id' user [->|Hin]%elem_of_cons Hf Hu.
  - apply Hmono, (tn_link _ _ _ _ _ _ Hturn); [|done|done]. apply Hfree. by left.
  - apply (Hall) with (id := id'); try done.
    + intros x Hx. apply (turn_free _ _ _ _ _ _ _ Hturn); [|apply Hfree; by right].
      intros E. apply Hinj in E; [by subst|by right|by left].
    + intros a b Ha Hb. apply Hinj; by right.
    + unfold find_pubkey_by_vine_id. by rewrite (tn_users _ _ _ _ _ _ Hturn).
    + unfold is_unclaimed. by rewrite (tn_users _ _ _ _ _ _ Hturn).
Qed.
End batch.

Lemma first_occurrences_spec seen ids :
  NoDup (first_occurrences seen ids) /\ (forall id, id ∈ first_occurrences seen ids <-> id ∈ ids /\ id ∉ seen).
Proof.
  revert seen. induction ids as [|id ids IH]; intros seen; simpl.
  { split; [constructor|]. intros x. split; [by intros ?%not_elem_of_nil | by intros [?%not_elem_of_nil _]]. }
  case_bool_decide as Hs.
  - destruct (IH seen) as [Hnd Hin]. split; [done|]. intros x. rewrite Hin, elem_of_cons. split; [tauto|].
    intros [[->|Hx] Hn]; [by destruct Hn | done].
  - destruct (IH (id :: seen)) as [Hnd Hin]. split.
    + constructor; [|done]. intros [_ Hn]%Hin. apply Hn. by left.
    + intros x. rewrite elem_of_cons, Hin, not_elem_of_cons, elem_of_cons. split; [intros [->|(? & ? & ?)]; tauto|].
      intros [[->|Hx] Hn]; [by left|]. destruct (decide (x = id)) as [->|Hne]; [by left | tauto].
Qed.

(** The links of a batch.  A batch that is answered leaves no account with a
    second link it did not have; the answer names each id at most once and at most
    a hundred of them; and when the tokens drawn are new and distinct, every
    unclaimed account that was asked for has a link that opens it. *)
Theorem batch_one_link_each now cfg ten auth token_for service profile req s s' out :
  batch_create_claim_tokens now cfg ten auth token_for service profile req s = (s', Ok out) ->
  (forall pubkey, length (links now ten pubkey (ac_db s)) <= 1 -> length (links now ten pubkey (ac_db s')) <= 1)%nat /\
  NoDup (map bt_vine_id (bc_tokens out)) /\ (length (bc_tokens out) <= 100)%nat /\
  ((forall id, id ∈ bq_vine_ids req -> token_free (token_for id) (ac_db s)) ->
   (forall a b, a ∈ bq_vine_ids req -> b ∈ bq_vine_ids req -> token_for a = token_for b -> a = b) ->
   forall id user, id ∈ bq_vine_ids req -> find_pubkey_by_vine_id id ten (ac_db s) = Some user ->
     is_unclaimed (ac_db s) user ten = Some true -> links now ten user (ac_db s') <> []).
Proof.
  unfold batch_create_claim_tokens, support_admins. intros (s0 & adm & [-> ->]%se_gets_ok & H)%se_bind_ok.
  destruct (is_support_admin _ _ _ _);
    [|unfold logged_forbidden, log_key, se_bind, se_lift in H; by destruct (prefix_str _ _)].
  destruct (match bq_delivery_email req with Some _ => _ | None => _ end); [done|]. cbn zeta in H.
  destruct (first_occurrences_spec [] (bq_vine_ids req)) as [Hnd Hin].
  case_bool_decide; [done|]. destruct (BATCH_CLAIM_LIMIT <? _) eqn:Hlim; [done|].
  apply se_bind_ok in H as (s1 & out1 & Hloop & H). apply se_bind_ok in H as (s2 & u & ->%log_key_ok & [-> ->]%se_ret_ok).
  destruct (batch_loop_links _ _ _ _ _ _ _ _ _ _ _ _ _ Hnd Hloop) as (_ & Hone & (l & El & Hl) & Hall). simpl in El.
  split; [done|]. rewrite El. split; [by eapply sublist_NoDup|]. split.
  - rewrite <- (length_map bt_vine_id), El. apply sublist_length in Hl. unfold BATCH_CLAIM_LIMIT in Hlim. bool_to_prop. lia.
  - intros Hfree Hinj id user Hid. apply Hall.
    + intros x Hx. apply Hfree. by apply Hin in Hx as [? _].
    + intros a b Ha Hb. apply Hinj; [by apply Hin in Ha as [? _]|by apply Hin in Hb as [? _]].
    + apply Hin. split; [done|]. by intros ?%not_elem_of_nil.
Qed.
End preloads.

(** ** Witnesses

    The ucan crate of the first witness builds one token: the preloaded account
    "Pann-of-vine" of tenant 1, signed by the server at time 10 for thirty days. *)
Definition preload_fact : json :=
  JObject [("tenant_id", JInt 1); ("redirect_origin", JString "preload"); ("issued_by_admin", JString "P-administrator")].
#[local] Instance one_ucan : UcanLib := {
  Ucan := unit; ucan_parse s := if bool_decide (s = "preload token") then Ok tt else Err "no token";
  ucan_check_signature _ := Ok tt; ucan_is_expired now _ := 2592010 <? now; ucan_facts _ := [preload_fact];
  ucan_issuer _ := nostr_pubkey_to_did (pk_of "server"); ucan_audience _ := nostr_pubkey_to_did (pk_of "ann-of-vine");
}.
#[local] Instance one_mint : UcanMint := {
  ucan_mint now sk aud life facts :=
    match facts with
    | JObject [(k1, JInt t); (k2, JString o); (k3, JString a)] =>
        if bool_decide (k1 = "tenant_id") && bool_decide (k2 = "redirect_origin") && bool_decide (k3 = "issued_by_admin") && (t =? 1)
           && bool_decide (o = "preload") && bool_decide (a = "P-administrator") && bool_decide (sk = "server")
           && bool_decide (aud = nostr_pubkey_to_did (pk_of "ann-of-vine")) && (now + life =? 2592010)
        then Ok "preload token" else Err "unsupported"
    | _ => Err "unsupported"
    end;
}.
#[local] Instance one_mint_laws : MintLaws.
Proof.
  split.
  - intros now sk aud life facts token. simpl. destruct facts as [| | | | | |m]; try discriminate.
    destruct m as [|[k1 [| |t| | | |]] m]; try discriminate. destruct m as [|[k2 [| | | |o| |]] m]; try discriminate.
    destruct m as [|[k3 [| | | |a| |]] [|? m]]; try discriminate.
    destruct (_ && _) eqn:E; [|discriminate]. intros [= <-]. bool_to_prop. subst.
    exists tt. repeat (split; [reflexivity|]). intros now'. match goal with H : now + life = _ |- _ => by rewrite H end.
  - intros sk. reflexivity.
  - intros sk. eexists. split; [reflexivity|]. rewrite length_take, length_app, length_replicate. lia.
Qed.

Definition administrator : UcanAuth := {| ua_pubkey := "P-administrator"; ua_admin_role := Some "full" |}.
Definition ann_of_vine : user_row :=
  us_set_profile (Some "vine7") (Some "Ann") (us_set_username (Some "ann") (new_user 0 "Pann-of-vine" 1)).
Definition vine_db (u : user_row) : Db := set_users [u] (sample_db [] []).
Definition vine_request : PreloadUserRequest := {| pu_vine_id := "vine7"; pu_username := "ann"; pu_display_name := None |}.
Definition with_preload_token : http_request := from_app [("authorization", "Bearer preload token")].

Lemma preload_serves_claimed_account_witness :
  exists resp,
    preload_user 10 toy_account_config 1 administrator "spare" vine_request (state_of (vine_db (us_set_email (Some "ann@b") ann_of_vine)))
      = (state_of (vine_db (us_set_email (Some "ann@b") ann_of_vine)), Ok resp) /\
    extract_user_from_token 1000 toy_account_config with_preload_token 1 = Ok "Pann-of-vine".
Proof.
  destruct (run_ok (preload_user 10 toy_account_config 1 administrator "spare" vine_request
    (state_of (vine_db (us_set_email (Some "ann@b") ann_of_vine))))) as (s' & resp & E); [vm_compute; reflexivity|].
  assert (pur_token resp = "preload token") as Etok by (vm_compute in E; by injection E as <- <-).
  destruct (preload_serves_claimed_account 10 1000 toy_account_config 1 administrator "spare" vine_request "ann-of-vine"
    (state_of (vine_db (us_set_email (Some "ann@b") ann_of_vine))) s' resp with_preload_token) as (-> & _ & _ & Hx & _).
  - lia.
  - lia.
  - reflexivity.
  - reflexivity.
  - exact E.
  - rewrite Etok. reflexivity.
  - exists resp. exact (conj E Hx).
Defined.

Definition vine_batch : BatchCreateClaimTokensRequest := {| bq_vine_ids := ["vine7"; "vine8"; "vine7"]; bq_delivery_email := None |}.
Lemma batch_one_link_each_witness :
  exists s' out,
    batch_create_claim_tokens 10 toy_account_config 1 administrator (String.app "token of ") None (fun _ => None) vine_batch
      (state_of (vine_db ann_of_vine)) = (s', Ok out) /\
    NoDup (map bt_vine_id (bc_tokens out)) /\ links 10 1 "Pann-of-vine" (ac_db s') <> [].
Proof.
  destruct (run_ok (batch_create_claim_tokens 10 toy_account_config 1 administrator (String.app "token of ") None (fun _ => None) vine_batch
    (state_of (vine_db ann_of_vine)))) as (s' & out & E); [vm_compute; reflexivity|].
  destruct (batch_one_link_each 10 toy_account_config 1 administrator (String.app "token of ") None (fun _ => None) vine_batch
    (state_of (vine_db ann_of_vine)) s' out E) as (_ & Hnd & _ & Hlink).
  exists s', out. split; [exact E|]. split; [exact Hnd|]. apply (Hlink) with (id := "vine7").
  - intros id _ c Hc. by apply not_elem_of_nil in Hc.
  - intros a b _ _ Hab. by injection Hab.
  - by left.
  - reflexivity.
  - reflexivity.
Defined.
