(* ===== verification/Atproto.v ===== *)
(** * ATProto identities

    core/src/repositories/atproto_oauth_session.rs, api/src/api/http/atproto.rs
    and api/src/atproto_provisioning.rs: the sessions of the ATProto OAuth server
    and the link of an account to an ATProto identity.  The service that provisions
    identities is a parameter.  The sessions are a table of their own beside the
    database; deleting a user deletes that user's sessions through a foreign key,
    which is not part of this model. *)
From S2P Require Import Prelude RustStr External Instances Database Samples Tokens Permissions Policies AuthTypes Signer Ucan HttpRpc OAuthRepo Users OAuth WorkQueue Queues RateLimit Tenant Nip98 Accounts AccountKeys Customers Admin.

(** ** Sessions *)
Record AtprotoOAuthSession : Type := {
  ax_id : Z; ax_tenant_id : Z; ax_client_id : string; ax_redirect_uri : string; ax_scope : string;
  ax_state : option string; ax_code_challenge : option string; ax_code_challenge_method : option string;
  ax_request_uri : string; ax_par_expires_at : Z; ax_user_pubkey : option string; ax_atproto_did : option string;
  ax_approved_at : option Z; ax_authorization_code : option string; ax_authorization_code_expires_at : option Z;
  ax_access_token_jti : option string; ax_access_token_expires_at : option Z; ax_refresh_token_hash : option string;
  ax_refresh_token_expires_at : option Z; ax_refresh_token_revoked_at : option Z; ax_revoked_at : option Z;
  ax_dpop_jkt : option string; ax_dpop_nonce : option string; ax_client_auth_method : string;
  ax_client_auth_alg : option string; ax_client_auth_kid : option string; ax_client_auth_jkt : option string;
  ax_created_at : Z; ax_updated_at : Z;
}.
Record CreateAtprotoOAuthSessionParams : Type := {
  pa_tenant_id : Z; pa_client_id : string; pa_redirect_uri : string; pa_scope : string; pa_state : option string;
  pa_code_challenge : option string; pa_code_challenge_method : option string; pa_request_uri : string;
  pa_par_expires_at : Z; pa_dpop_jkt : option string; pa_dpop_nonce : option string; pa_client_auth_method : string;
  pa_client_auth_alg : option string; pa_client_auth_kid : option string; pa_client_auth_jkt : option string;
}.
Record IssueAtprotoTokensParams : Type := {
  it_authorization_code : string; it_authorization_code_expires_at : Z; it_access_token_jti : string;
  it_access_token_expires_at : Z; it_refresh_token_hash : string; it_refresh_token_expires_at : Z;
  it_dpop_jkt : option string; it_dpop_nonce : option string;
}.
Definition new_session (now : Z) (p : CreateAtprotoOAuthSessionParams) (i : Z) : AtprotoOAuthSession := {|
  ax_id := i; ax_tenant_id := pa_tenant_id p; ax_client_id := pa_client_id p; ax_redirect_uri := pa_redirect_uri p;
  ax_scope := pa_scope p; ax_state := pa_state p; ax_code_challenge := pa_code_challenge p;
  ax_code_challenge_method := pa_code_challenge_method p; ax_request_uri := pa_request_uri p;
  ax_par_expires_at := pa_par_expires_at p; ax_user_pubkey := None; ax_atproto_did := None; ax_approved_at := None;
  ax_authorization_code := None; ax_authorization_code_expires_at := None; ax_access_token_jti := None;
  ax_access_token_expires_at := None; ax_refresh_token_hash := None; ax_refresh_token_expires_at := None;
  ax_refresh_token_revoked_at := None; ax_revoked_at := None; ax_dpop_jkt := pa_dpop_jkt p;
  ax_dpop_nonce := pa_dpop_nonce p; ax_client_auth_method := pa_client_auth_method p;
  ax_client_auth_alg := pa_client_auth_alg p; ax_client_auth_kid := pa_client_auth_kid p;
  ax_client_auth_jkt := pa_client_auth_jkt p; ax_created_at := now; ax_updated_at := now |}.
Definition ax_approve (now : Z) (user_pubkey atproto_did : string) (r : AtprotoOAuthSession) : AtprotoOAuthSession := {|
  ax_id := ax_id r; ax_tenant_id := ax_tenant_id r; ax_client_id := ax_client_id r;
  ax_redirect_uri := ax_redirect_uri r; ax_scope := ax_scope r; ax_state := ax_state r;
  ax_code_challenge := ax_code_challenge r; ax_code_challenge_method := ax_code_challenge_method r;
  ax_request_uri := ax_request_uri r; ax_par_expires_at := ax_par_expires_at r; ax_user_pubkey := Some user_pubkey;
  ax_atproto_did := Some atproto_did; ax_approved_at := Some now; ax_authorization_code := ax_authorization_code r;
  ax_authorization_code_expires_at := ax_authorization_code_expires_at r;
  ax_access_token_jti := ax_access_token_jti r; ax_access_token_expires_at := ax_access_token_expires_at r;
  ax_refresh_token_hash := ax_refresh_token_hash r; ax_refresh_token_expires_at := ax_refresh_token_expires_at r;
  ax_refresh_token_revoked_at := ax_refresh_token_revoked_at r; ax_revoked_at := ax_revoked_at r;
  ax_dpop_jkt := ax_dpop_jkt r; ax_dpop_nonce := ax_dpop_nonce r; ax_client_auth_method := ax_client_auth_method r;
  ax_client_auth_alg := ax_client_auth_alg r; ax_client_auth_kid := ax_client_auth_kid r;
  ax_client_auth_jkt := ax_client_auth_jkt r; ax_created_at := ax_created_at r; ax_updated_at := now |}.
Definition ax_set_code (now : Z) (code : option string) (expires_at : option Z) (r : AtprotoOAuthSession) : AtprotoOAuthSession := {|
  ax_id := ax_id r; ax_tenant_id := ax_tenant_id r; ax_client_id := ax_client_id r;
  ax_redirect_uri := ax_redirect_uri r; ax_scope := ax_scope r; ax_state := ax_state r;
  ax_code_challenge := ax_code_challenge r; ax_code_challenge_method := ax_code_challenge_method r;
  ax_request_uri := ax_request_uri r; ax_par_expires_at := ax_par_expires_at r; ax_user_pubkey := ax_user_pubkey r;
  ax_atproto_did := ax_atproto_did r; ax_approved_at := ax_approved_at r; ax_authorization_code := code;
  ax_authorization_code_expires_at := expires_at; ax_access_token_jti := ax_access_token_jti r;
  ax_access_token_expires_at := ax_access_token_expires_at r; ax_refresh_token_hash := ax_refresh_token_hash r;
  ax_refresh_token_expires_at := ax_refresh_token_expires_at r;
  ax_refresh_token_revoked_at := ax_refresh_token_revoked_at r; ax_revoked_at := ax_revoked_at r;
  ax_dpop_jkt := ax_dpop_jkt r; ax_dpop_nonce := ax_dpop_nonce r; ax_client_auth_method := ax_client_auth_method r;
  ax_client_auth_alg := ax_client_auth_alg r; ax_client_auth_kid := ax_client_auth_kid r;
  ax_client_auth_jkt := ax_client_auth_jkt r; ax_created_at := ax_created_at r; ax_updated_at := now |}.
Definition ax_set_tokens (now : Z) (p : IssueAtprotoTokensParams) (r : AtprotoOAuthSession) : AtprotoOAuthSession := {|
  ax_id := ax_id r; ax_tenant_id := ax_tenant_id r; ax_client_id := ax_client_id r;
  ax_redirect_uri := ax_redirect_uri r; ax_scope := ax_scope r; ax_state := ax_state r;
  ax_code_challenge := ax_code_challenge r; ax_code_challenge_method := ax_code_challenge_method r;
  ax_request_uri := ax_request_uri r; ax_par_expires_at := ax_par_expires_at r; ax_user_pubkey := ax_user_pubkey r;
  ax_atproto_did := ax_atproto_did r; ax_approved_at := ax_approved_at r;
  ax_authorization_code := ax_authorization_code r;
  ax_authorization_code_expires_at := ax_authorization_code_expires_at r;
  ax_access_token_jti := Some (it_access_token_jti p);
  ax_access_token_expires_at := Some (it_access_token_expires_at p);
  ax_refresh_token_hash := Some (it_refresh_token_hash p);
  ax_refresh_token_expires_at := Some (it_refresh_token_expires_at p);
  ax_refresh_token_revoked_at := ax_refresh_token_revoked_at r; ax_revoked_at := ax_revoked_at r;
  ax_dpop_jkt := it_dpop_jkt p; ax_dpop_nonce := it_dpop_nonce p; ax_client_auth_method := ax_client_auth_method r;
  ax_client_auth_alg := ax_client_auth_alg r; ax_client_auth_kid := ax_client_auth_kid r;
  ax_client_auth_jkt := ax_client_auth_jkt r; ax_created_at := ax_created_at r; ax_updated_at := now |}.
Definition ax_set_nonce (now : Z) (dpop_nonce : string) (r : AtprotoOAuthSession) : AtprotoOAuthSession := {|
  ax_id := ax_id r; ax_tenant_id := ax_tenant_id r; ax_client_id := ax_client_id r;
  ax_redirect_uri := ax_redirect_uri r; ax_scope := ax_scope r; ax_state := ax_state r;
  ax_code_challenge := ax_code_challenge r; ax_code_challenge_method := ax_code_challenge_method r;
  ax_request_uri := ax_request_uri r; ax_par_expires_at := ax_par_expires_at r; ax_user_pubkey := ax_user_pubkey r;
  ax_atproto_did := ax_atproto_did r; ax_approved_at := ax_approved_at r;
  ax_authorization_code := ax_authorization_code r;
  ax_authorization_code_expires_at := ax_authorization_code_expires_at r;
  ax_access_token_jti := ax_access_token_jti r; ax_access_token_expires_at := ax_access_token_expires_at r;
  ax_refresh_token_hash := ax_refresh_token_hash r; ax_refresh_token_expires_at := ax_refresh_token_expires_at r;
  ax_refresh_token_revoked_at := ax_refresh_token_revoked_at r; ax_revoked_at := ax_revoked_at r;
  ax_dpop_jkt := ax_dpop_jkt r; ax_dpop_nonce := Some dpop_nonce; ax_client_auth_method := ax_client_auth_method r;
  ax_client_auth_alg := ax_client_auth_alg r; ax_client_auth_kid := ax_client_auth_kid r;
  ax_client_auth_jkt := ax_client_auth_jkt r; ax_created_at := ax_created_at r; ax_updated_at := now |}.
Definition ax_set_revoked (now : Z) (refresh_token_revoked_at revoked_at : option Z) (r : AtprotoOAuthSession) : AtprotoOAuthSession := {|
  ax_id := ax_id r; ax_tenant_id := ax_tenant_id r; ax_client_id := ax_client_id r;
  ax_redirect_uri := ax_redirect_uri r; ax_scope := ax_scope r; ax_state := ax_state r;
  ax_code_challenge := ax_code_challenge r; ax_code_challenge_method := ax_code_challenge_method r;
  ax_request_uri := ax_request_uri r; ax_par_expires_at := ax_par_expires_at r; ax_user_pubkey := ax_user_pubkey r;
  ax_atproto_did := ax_atproto_did r; ax_approved_at := ax_approved_at r;
  ax_authorization_code := ax_authorization_code r;
  ax_authorization_code_expires_at := ax_authorization_code_expires_at r;
  ax_access_token_jti := ax_access_token_jti r; ax_access_token_expires_at := ax_access_token_expires_at r;
  ax_refresh_token_hash := ax_refresh_token_hash r; ax_refresh_token_expires_at := ax_refresh_token_expires_at r;
  ax_refresh_token_revoked_at := refresh_token_revoked_at; ax_revoked_at := revoked_at; ax_dpop_jkt := ax_dpop_jkt r;
  ax_dpop_nonce := ax_dpop_nonce r; ax_client_auth_method := ax_client_auth_method r;
  ax_client_auth_alg := ax_client_auth_alg r; ax_client_auth_kid := ax_client_auth_kid r;
  ax_client_auth_jkt := ax_client_auth_jkt r; ax_created_at := ax_created_at r; ax_updated_at := now |}.

(** request_uri, authorization_code, access_token_jti and refresh_token_hash are
    unique; NULL is no value. *)
Definition same_value (a b : option string) : bool :=
  match a, b with Some x, Some y => bool_decide (x = y) | _, _ => false end.
Definition sessions_conflict (a b : AtprotoOAuthSession) : bool :=
  bool_decide (ax_request_uri a = ax_request_uri b) || same_value (ax_authorization_code a) (ax_authorization_code b)
  || same_value (ax_access_token_jti a) (ax_access_token_jti b) || same_value (ax_refresh_token_hash a) (ax_refresh_token_hash b).
Fixpoint sessions_distinct (l : list AtprotoOAuthSession) : bool :=
  match l with [] => true | a :: l' => negb (existsb (sessions_conflict a) l') && sessions_distinct l' end.

Notation sessions := (table AtprotoOAuthSession).
(** UPDATE .. RETURNING, undone by a violated constraint. *)
Definition update_sessions (p : AtprotoOAuthSession -> bool) (f : AtprotoOAuthSession -> AtprotoOAuthSession) (t : sessions)
  : sessions * result (option AtprotoOAuthSession) RepositoryError :=
  let l := update_where p f (rows t) in
  if sessions_distinct l then ({| rows := l; next_id := next_id t |}, Ok (head (returning p f (rows t)))) else (t, Err RE_Duplicate).

Definition create_par (now : Z) (p : CreateAtprotoOAuthSessionParams) (t : sessions)
  : sessions * result AtprotoOAuthSession RepositoryError :=
  let '(t', r) := insert_row (new_session now p) t in
  if sessions_distinct (rows t') then (t', Ok r) else (t, Err RE_Duplicate).

Definition by_request_uri (request_uri : string) (r : AtprotoOAuthSession) : bool :=
  bool_decide (ax_request_uri r = request_uri) && is_null (ax_revoked_at r).
Definition find_by_request_uri (request_uri : string) (t : sessions) : option AtprotoOAuthSession :=
  find_first (by_request_uri request_uri) (rows t).

(** user_pubkey is a foreign key. *)
Definition approve_request (now : Z) (request_uri user_pubkey atproto_did : string) (d : Db) (t : sessions)
  : sessions * result (option AtprotoOAuthSession) RepositoryError :=
  if existsb (by_request_uri request_uri) (rows t) && negb (fk_user user_pubkey d) then
    (t, Err (RE_Integrity "atproto_oauth_sessions_user_pubkey_fkey"))
  else update_sessions (by_request_uri request_uri) (ax_approve now user_pubkey atproto_did) t.

Definition store_token_artifacts (now : Z) (request_uri : string) (p : IssueAtprotoTokensParams) : sessions ->
    sessions * result (option AtprotoOAuthSession) RepositoryError :=
  update_sessions (by_request_uri request_uri)
    (fun r => ax_set_tokens now p (ax_set_code now (Some (it_authorization_code p)) (Some (it_authorization_code_expires_at p)) r)).

(** [expires_at > NOW()]: NULL is not. *)
Definition after (now : Z) (o : option Z) : bool := match o with Some e => now <? e | None => false end.
Definition by_code (now : Z) (code : string) (r : AtprotoOAuthSession) : bool :=
  bool_decide (ax_authorization_code r = Some code) && is_null (ax_revoked_at r) && after now (ax_authorization_code_expires_at r).
Definition find_by_authorization_code (now : Z) (code : string) (t : sessions) : option AtprotoOAuthSession :=
  find_first (by_code now code) (rows t).
Definition store_authorization_code (now : Z) (request_uri code : string) (expires_at : Z) : sessions ->
    sessions * result (option AtprotoOAuthSession) RepositoryError :=
  update_sessions (by_request_uri request_uri) (ax_set_code now (Some code) (Some expires_at)).
Definition consume_authorization_code (now : Z) (code : string) : sessions ->
    sessions * result (option AtprotoOAuthSession) RepositoryError :=
  update_sessions (by_code now code) (ax_set_code now None None).

Definition session_refresh_live (now : Z) (hash : string) (r : AtprotoOAuthSession) : bool :=
  bool_decide (ax_refresh_token_hash r = Some hash) && is_null (ax_revoked_at r) && is_null (ax_refresh_token_revoked_at r)
  && after now (ax_refresh_token_expires_at r).
Definition find_by_refresh_token_hash (now : Z) (hash : string) (t : sessions) : option AtprotoOAuthSession :=
  find_first (session_refresh_live now hash) (rows t).
Definition rotate_refresh_token (now : Z) (request_uri previous_refresh_token_hash : string) (p : IssueAtprotoTokensParams) : sessions ->
    sessions * result (option AtprotoOAuthSession) RepositoryError :=
  update_sessions (fun r => bool_decide (ax_request_uri r = request_uri) && session_refresh_live now previous_refresh_token_hash r)
    (ax_set_tokens now p).
Definition update_dpop_nonce (now : Z) (request_uri dpop_nonce : string) : sessions ->
    sessions * result (option AtprotoOAuthSession) RepositoryError :=
  update_sessions (by_request_uri request_uri) (ax_set_nonce now dpop_nonce).

(** COALESCE(revoked_at, NOW()) *)
Definition coalesce_now (now : Z) (o : option Z) : option Z := match o with Some t => Some t | None => Some now end.
Definition revoke_refresh_session (now : Z) (refresh_token_hash : string) : sessions ->
    sessions * result (option AtprotoOAuthSession) RepositoryError :=
  update_sessions (fun r => bool_decide (ax_refresh_token_hash r = Some refresh_token_hash) && is_null (ax_refresh_token_revoked_at r))
    (fun r => ax_set_revoked now (Some now) (coalesce_now now (ax_revoked_at r)) r).
(** The refresh token, if there is one, and the session. *)
Definition ax_revoke (now : Z) (r : AtprotoOAuthSession) : AtprotoOAuthSession :=
  ax_set_revoked now (if is_null (ax_refresh_token_hash r) then ax_refresh_token_revoked_at r
                      else coalesce_now now (ax_refresh_token_revoked_at r))
    (coalesce_now now (ax_revoked_at r)) r.
Definition revoke_all (now : Z) (p : AtprotoOAuthSession -> bool) (t : sessions) : sessions * nat :=
  ({| rows := update_where p (ax_revoke now) (rows t); next_id := next_id t |}, length (List.filter p (rows t))).
Definition revoke_refresh_sessions_for_user (now tenant_id : Z) (user_pubkey : string) : sessions -> sessions * nat :=
  revoke_all now (fun r => (ax_tenant_id r =? tenant_id) && bool_decide (ax_user_pubkey r = Some user_pubkey) && is_null (ax_revoked_at r)).
Definition revoke_sessions_for_pubkey (now : Z) (user_pubkey : string) : sessions -> sessions * nat :=
  revoke_all now (fun r => bool_decide (ax_user_pubkey r = Some user_pubkey) && is_null (ax_revoked_at r)).
Definition revoke_session_of_request (now : Z) (request_uri : string) : sessions -> sessions * result (option AtprotoOAuthSession) RepositoryError :=
  update_sessions (fun r => bool_decide (ax_request_uri r = request_uri)) (ax_revoke now).

(** ** Provisioning

    The request to the control plane: URL, body and bearer token; [None] for a
    request that fails on the way, with its error text. *)
Record provisioning_request : Type := {
  pq_url : string; pq_body : option (string * string); pq_bearer : option string;
}.
Class Provisioning := { control_plane : provisioning_request -> result (Z * string) string }.

Inductive AtprotoProvisioningError : Type := PE_Request (e : string) | PE_UnexpectedStatus (status : Z) (body : string).

(** The Display of a status: its number and its reason. *)
Class StatusText := { status_text : Z -> string }.
Definition provisioning_error_str `{StatusText} (e : AtprotoProvisioningError) : string :=
  match e with
  | PE_Request e => "request failed: " +:+ e
  | PE_UnexpectedStatus status body => "provisioning service returned " +:+ status_text status +:+ ": " +:+ body
  end.

(** DIVINE_SKY_ATPROTO_CONTROL_PLANE_URL, DIVINE_HANDLE_DOMAIN, KEYCAST_ATPROTO_TOKEN *)
Record provisioning_env : Type := {
  pv_control_plane_url : option string; pv_handle_domain : option string; pv_token : option string;
}.
Definition control_plane_base_url (env : provisioning_env) : string := default "http://127.0.0.1:3201" (pv_control_plane_url env).
Definition handle_domain (env : provisioning_env) : string := default "divine.video" (pv_handle_domain env).
(** A token that is not blank. *)
Definition service_token (env : provisioning_env) : option string :=
  t ← pv_token env; if bool_decide (trim t = "") then None else Some (trim t).

Definition success_status (status : Z) : bool := (200 <=? status) && (status <? 300).
Definition provisioning_reply (r : result (Z * string) string) : result unit AtprotoProvisioningError :=
  let? '(status, body) := map_err PE_Request r in
  if success_status status then Ok tt else Err (PE_UnexpectedStatus status body).
Definition request_enable `{Provisioning} (env : provisioning_env) (nostr_pubkey username : string) : result unit AtprotoProvisioningError :=
  provisioning_reply (control_plane {|
    pq_url := trim_end_char "/" (control_plane_base_url env) +:+ "/api/account-links/opt-in";
    pq_body := Some (nostr_pubkey, to_ascii_lowercase (trim username) +:+ "." +:+ handle_domain env);
    pq_bearer := service_token env |}).
Definition request_disable `{Provisioning, UrlLib} (env : provisioning_env) (nostr_pubkey : string) : result unit AtprotoProvisioningError :=
  provisioning_reply (control_plane {|
    pq_url := trim_end_char "/" (control_plane_base_url env) +:+ "/api/account-links/" +:+ urlencode nostr_pubkey +:+ "/disable";
    pq_body := None; pq_bearer := service_token env |}).

(** ** The link of an account *)
Record AtprotoStatusResponse : Type := {
  sp_enabled : bool; sp_state : option string; sp_did : option string; sp_error : option string; sp_username : option string;
}.
Record InternalAtprotoSyncRequest : Type := {
  isr_nostr_pubkey : string; isr_enabled : bool; isr_state : option string; isr_did : option string; isr_error : option string;
}.
Inductive AtprotoControlError : Type :=
| CtE_UserNotFound
| CtE_UsernameNotClaimed
| CtE_UsernameMismatch
| CtE_ProvisioningTrigger (e : string)
| CtE_Repository (e : RepositoryError).
Definition map_control_error (e : AtprotoControlError) : AccountError :=
  match e with
  | CtE_UserNotFound => AcE_UserNotFound
  | CtE_UsernameNotClaimed => AcE_BadRequest "Username must be claimed before enabling ATProto"
  | CtE_UsernameMismatch => AcE_BadRequest "Requested username does not match the claimed username"
  | CtE_ProvisioningTrigger err => AcE_Internal err
  | CtE_Repository err => AcE_Internal (repository_error_str err)
  end.
Definition map_state_to_response (username : option string) (state : UserAtprotoState) : AtprotoStatusResponse := {|
  sp_enabled := as_enabled state; sp_state := as_state state; sp_did := as_did state; sp_error := as_error state;
  sp_username := username |}.
Definition validate_atproto_state (state : option string) : result unit AccountError :=
  match state with
  | None => Ok tt
  | Some st => if bool_decide (st ∈ ["pending"; "ready"; "failed"; "disabled"]) then Ok tt
               else Err (AcE_BadRequest "ATProto state must be one of pending, ready, failed, disabled, or null")
  end.

(** The database, the tenants, the sessions, and the two replay caches of the
    process. *)
Record atproto_state : Type := {
  ap_db : Db; ap_tenants : table Tenant; ap_sessions : sessions; ap_dpop_seen : gmap string Z; ap_assertions_seen : gmap string Z;
}.
Definition set_ap_db (d : Db) (s : atproto_state) : atproto_state := {|
  ap_db := d; ap_tenants := ap_tenants s; ap_sessions := ap_sessions s; ap_dpop_seen := ap_dpop_seen s;
  ap_assertions_seen := ap_assertions_seen s |}.
Definition set_ap_tenants (t : table Tenant) (s : atproto_state) : atproto_state := {|
  ap_db := ap_db s; ap_tenants := t; ap_sessions := ap_sessions s; ap_dpop_seen := ap_dpop_seen s;
  ap_assertions_seen := ap_assertions_seen s |}.
Definition set_ap_sessions (t : sessions) (s : atproto_state) : atproto_state := {|
  ap_db := ap_db s; ap_tenants := ap_tenants s; ap_sessions := t; ap_dpop_seen := ap_dpop_seen s;
  ap_assertions_seen := ap_assertions_seen s |}.
Definition set_ap_dpop (m : gmap string Z) (s : atproto_state) : atproto_state := {|
  ap_db := ap_db s; ap_tenants := ap_tenants s; ap_sessions := ap_sessions s; ap_dpop_seen := m;
  ap_assertions_seen := ap_assertions_seen s |}.
Definition set_ap_assertions (m : gmap string Z) (s : atproto_state) : atproto_state := {|
  ap_db := ap_db s; ap_tenants := ap_tenants s; ap_sessions := ap_sessions s; ap_dpop_seen := ap_dpop_seen s;
  ap_assertions_seen := m |}.

Notation CtM A := (SE atproto_state AtprotoControlError A).
Definition ct_repo {A} (c : DbM A) : CtM A := fun s =>
  let '(d, r) := c (ap_db s) in (set_ap_db d s, map_err CtE_Repository r).
Definition ct_some {A} (f : Db -> option A) (e : AtprotoControlError) : CtM A := fun s => (s, ok_or (f (ap_db s)) e).

Definition enable_user_atproto (now tenant_id : Z) (user_pubkey requested_username : string) : CtM AtprotoStatusResponse :=
  let! username := ct_some (get_username user_pubkey tenant_id) CtE_UserNotFound in
  let! claimed_username := se_lift (ok_or username CtE_UsernameNotClaimed) in
  if negb (bool_decide (claimed_username = requested_username)) then se_fail CtE_UsernameMismatch
  else
    let! _ := ct_repo (set_atproto_state now user_pubkey tenant_id true (Some "pending") None None) in
    let! state := ct_some (get_atproto_state user_pubkey tenant_id) CtE_UserNotFound in
    se_ret (map_state_to_response (Some claimed_username) state).

Definition enable_user_atproto_with_trigger `{StatusText} (now tenant_id : Z) (user_pubkey requested_username : string)
    (trigger : string -> string -> result unit AtprotoProvisioningError) : CtM AtprotoStatusResponse :=
  let! response := enable_user_atproto now tenant_id user_pubkey requested_username in
  let! username := se_lift (ok_or (sp_username response) CtE_UsernameNotClaimed) in
  match trigger user_pubkey username with
  | Ok _ => se_ret response
  | Err error =>
      let error_message := provisioning_error_str error in
      let! _ := ct_repo (set_atproto_state now user_pubkey tenant_id true (Some "failed") None (Some error_message)) in
      se_fail (CtE_ProvisioningTrigger error_message)
  end.

Definition get_user_atproto_status (tenant_id : Z) (user_pubkey : string) : CtM AtprotoStatusResponse :=
  let! username := ct_some (get_username user_pubkey tenant_id) CtE_UserNotFound in
  let! state := ct_some (get_atproto_state user_pubkey tenant_id) CtE_UserNotFound in
  se_ret (map_state_to_response username state).

Definition sync_user_atproto_state_by_pubkey (now : Z) (user_pubkey : string) (enabled : bool) (state did error : option string)
  : CtM AtprotoStatusResponse :=
  let! _ := ct_repo (set_atproto_state_by_pubkey now user_pubkey enabled state did error) in
  let! username := ct_some (get_username_by_pubkey user_pubkey) CtE_UserNotFound in
  let! state := ct_some (get_atproto_state_by_pubkey user_pubkey) CtE_UserNotFound in
  se_ret (map_state_to_response username state).

Definition disable_user_atproto (now tenant_id : Z) (user_pubkey : string) : CtM AtprotoStatusResponse :=
  let! username := ct_some (get_username user_pubkey tenant_id) CtE_UserNotFound in
  let! _ := ct_repo (set_atproto_state now user_pubkey tenant_id false (Some "disabled") None None) in
  let! state := ct_some (get_atproto_state user_pubkey tenant_id) CtE_UserNotFound in
  se_ret (map_state_to_response username state).

Definition revoke_user_sessions (now : Z) (user_pubkey : string) (s : atproto_state) : atproto_state :=
  set_ap_sessions (fst (revoke_sessions_for_pubkey now user_pubkey (ap_sessions s))) s.
Definition disable_user_atproto_and_revoke_sessions (now tenant_id : Z) (user_pubkey : string) : CtM AtprotoStatusResponse :=
  let! response := disable_user_atproto now tenant_id user_pubkey in
  let! _ := se_modify (revoke_user_sessions now user_pubkey) in
  se_ret response.

Definition disable_user_atproto_with_trigger `{StatusText} (now tenant_id : Z) (user_pubkey : string)
    (trigger : string -> result unit AtprotoProvisioningError) : CtM AtprotoStatusResponse :=
  let! _ := ct_some (get_username user_pubkey tenant_id) CtE_UserNotFound in
  let! _ := se_lift (map_err (fun e => CtE_ProvisioningTrigger (provisioning_error_str e)) (trigger user_pubkey)) in
  disable_user_atproto_and_revoke_sessions now tenant_id user_pubkey.

(** ** Endpoints *)
Section atproto.
Context `{HN : Nostr, HC : !NostrCrypto, HS : !Serde, HX : !Secrets, HE : !Encodings, HV : !HttpEvents, HU : UcanLib,
          HM : !UcanMint, HL : UrlLib, HUni : Unicode, HPr : Provisioning, HSt : StatusText}.

Notation ApM A := (SE atproto_state account_abort A).
Definition control {A} (c : CtM A) : ApM A := fun s =>
  let '(s', r) := c s in (s', map_err (fun e => Failed (map_control_error e)) r).
Definition ap_lift {A} (r : result A AccountError) : ApM A := se_lift (map_err Failed r).
Definition ap_fail {A} (e : AccountError) : ApM A := se_fail (Failed e).

(** The trimmed token must not be blank; the header must be exactly it. *)
Definition authorize_internal_sync (env : provisioning_env) (q : http_request) : result unit AccountError :=
  let? expected := ok_or (service_token env) (AcE_Internal "KEYCAST_ATPROTO_TOKEN must be configured") in
  let? actual := ok_or (header_text "authorization" q) AcE_MissingToken in
  if bool_decide (actual = "Bearer " +:+ expected) then Ok tt else Err AcE_InvalidToken.

Definition enable_atproto (now : Z) (cfg : account_config) (env : provisioning_env) (tenant_id : Z) (q : http_request) (username : string)
  : ApM AtprotoStatusResponse :=
  let! user_pubkey := ap_lift (extract_user_from_token now cfg q tenant_id) in
  control (enable_user_atproto_with_trigger now tenant_id user_pubkey username (request_enable env)).
Definition atproto_status (now : Z) (cfg : account_config) (tenant_id : Z) (q : http_request) : ApM AtprotoStatusResponse :=
  let! user_pubkey := ap_lift (extract_user_from_token now cfg q tenant_id) in
  control (get_user_atproto_status tenant_id user_pubkey).
Definition internal_sync_atproto (now : Z) (env : provisioning_env) (q : http_request) (request : InternalAtprotoSyncRequest)
  : ApM AtprotoStatusResponse :=
  let! _ := ap_lift (authorize_internal_sync env q) in
  let! _ := ap_lift (validate_atproto_state (isr_state request)) in
  let! response := control (sync_user_atproto_state_by_pubkey now (isr_nostr_pubkey request) (isr_enabled request) (isr_state request)
                              (isr_did request) (isr_error request)) in
  let! _ := (if negb (isr_enabled request) || bool_decide (isr_state request = Some "disabled")
             then se_modify (revoke_user_sessions now (isr_nostr_pubkey request)) else se_ret tt) in
  se_ret response.
Definition disable_atproto (now : Z) (cfg : account_config) (env : provisioning_env) (tenant_id : Z) (q : http_request)
  : ApM AtprotoStatusResponse :=
  let! user_pubkey := ap_lift (extract_user_from_token now cfg q tenant_id) in
  control (disable_user_atproto_with_trigger now tenant_id user_pubkey (request_disable env)).
End atproto.
