(* ===== verification/AtprotoProofs.v ===== *)
(** * Proofs of ATProto clients

    api/src/api/http/atproto_oauth_metadata.rs and the first half of
    api/src/api/http/atproto_oauth.rs: the metadata of the authorization server,
    DPoP proofs, client metadata documents and client assertions.  Base64url,
    P-256, serde's readers and the fetching of documents are parameters; the two
    replay caches are maps of the state of the process. *)
From S2P Require Import Prelude RustStr External Instances Database Samples Tokens Permissions Policies AuthTypes Signer Ucan HttpRpc OAuthRepo Users OAuth WorkQueue Queues RateLimit Tenant Nip98 Accounts AccountKeys Customers Admin Atproto.

(** ** Constants *)
Definition PAR_EXPIRY_MINUTES : Z := 10.
Definition AUTH_CODE_EXPIRY_MINUTES : Z := 5.
Definition ACCESS_TOKEN_EXPIRY_MINUTES : Z := 15.
Definition ATPROTO_REFRESH_TOKEN_EXPIRY_DAYS : Z := 30.
Definition DPOP_MAX_IAT_SKEW_SECONDS : Z := 300.
Definition CLIENT_ASSERTION_MAX_EXP_SKEW_SECONDS : Z := 300.
Definition CLIENT_ASSERTION_TYPE_JWT_BEARER : string := "urn:ietf:params:oauth:client-assertion-type:jwt-bearer".
Definition PAR_PATH_SUFFIX : string := "/atproto/oauth/par".
Definition TOKEN_PATH_SUFFIX : string := "/atproto/oauth/token".

(** ** Data *)
Record ParRequest : Type := {
  pr_client_id : string; pr_redirect_uri : string; pr_scope : string; pr_state : option string;
  pr_code_challenge : option string; pr_code_challenge_method : option string;
  pr_client_assertion_type : option string; pr_client_assertion : option string;
}.
Record DpopProofJwk : Type := { dj_kty : string; dj_crv : string; dj_x : string; dj_y : string }.
Record DpopProofHeader : Type := { dh_alg : string; dh_typ : option string; dh_jwk : DpopProofJwk }.
Record DpopProofClaims : Type := {
  dc_htm : string; dc_htu : string; dc_iat : Z; dc_jti : string; dc_nonce : option string; dc_ath : option string;
}.
Record ClientJwk : Type := {
  cj_kty : string; cj_crv : option string; cj_x : option string; cj_y : option string; cj_kid : option string;
  cj_alg : option string; cj_key_use : option string;
}.
(** [ClientJwks] is its list of keys. *)
Record ClientMetadata : Type := {
  cm_client_id : string; cm_redirect_uris : list string; cm_token_endpoint_auth_method : string;
  cm_token_endpoint_auth_signing_alg : option string; cm_dpop_bound_access_tokens : option bool;
  cm_jwks : option (list ClientJwk); cm_jwks_uri : option string;
}.
Definition default_client_auth_method : string := "none".
Record ClientAssertionHeader : Type := { ah_alg : string; ah_kid : option string }.
Record ClientAssertionClaims : Type := {
  ca_iss : string; ca_sub : string; ca_aud : json; ca_exp : Z; ca_iat : Z; ca_jti : string;
}.
Inductive ClientAuthBinding : Type :=
| BindingNone
| PrivateKeyJwt (alg : string) (kid : option string) (jkt : string).
#[export] Instance ClientAuthBinding_eq_dec : EqDecision ClientAuthBinding.
Proof. solve_decision. Defined.

(** ** Parameters *)
Class Jose := {
  (** [URL_SAFE_NO_PAD.decode] *)
  b64url_decode : string -> option (list Z);
  (** [VerifyingKey::from_sec1_bytes], [Signature::try_from], [verify] *)
  P256Key : Type;
  P256Signature : Type;
  p256_from_sec1 : list Z -> option P256Key;
  p256_signature : list Z -> option P256Signature;
  p256_verify : P256Key -> list Z -> P256Signature -> bool;
  (** serde_json's [from_slice] *)
  de_DpopProofHeader : list Z -> option DpopProofHeader;
  de_DpopProofClaims : list Z -> option DpopProofClaims;
  de_ClientAssertionHeader : list Z -> option ClientAssertionHeader;
  de_ClientAssertionClaims : list Z -> option ClientAssertionClaims;
  (** [from_value]; the method a document without one gets is an argument *)
  de_ClientMetadata : string -> json -> result ClientMetadata string;
  de_ClientJwks : json -> result (list ClientJwk) string;
}.
(** A client with a timeout of three seconds; a GET at a time: the error of the
    request, or a status and the body read as JSON.  The text of the url crate's
    error for a text that is no URL. *)
Class Web `{UrlPages} := {
  web_client : result unit string;
  web_get : Z -> page -> result (Z * result json string) string;
  url_error : string -> string;
}.

(** APP_URL, VITE_DOMAIN, ATPROTO_OAUTH_JWT_PRIVATE_KEY_HEX, ATPROTO_OAUTH_PDS_DID
    and PDS_SERVICE_DID *)
Record atproto_env : Type := {
  av_app_url : option string; av_vite_domain : option string; av_jwt_key : option string; av_pds_did : option string;
  av_pds_service_did : option string;
}.

(** ** Metadata of the server *)
Definition first_set {A} (a b : option A) : option A := match a with Some x => Some x | None => b end.
Definition url_origin (url : Url) : option string :=
  host ← url_host_str url;
  let scheme := url_scheme url in
  let origin := scheme +:+ "://" +:+ host in
  Some match url_port url with
       | Some port =>
           if (bool_decide (scheme = "https") && (port =? 443)) || (bool_decide (scheme = "http") && (port =? 80))
           then origin else origin +:+ ":" +:+ print_Z port
       | None => origin
       end.
Definition authorization_server_origin `{UrlLib} (env : atproto_env) : string :=
  default "http://localhost:3000" (raw ← first_set (av_app_url env) (av_vite_domain env); url ← url_parse raw; url_origin url).

Fixpoint trim_start_char (c : ascii) (s : string) : string :=
  match s with String a s' => if bool_decide (a = c) then trim_start_char c s' else s | EmptyString => s end.
Definition endpoint (origin path : string) : string := trim_end_char "/" origin +:+ "/" +:+ trim_start_char "/" path.

Record AuthorizationServerMetadata : Type := {
  am_issuer : string; am_authorization_endpoint : string; am_token_endpoint : string;
  am_pushed_authorization_request_endpoint : string; am_response_types_supported : list string;
  am_grant_types_supported : list string; am_scopes_supported : list string;
  am_token_endpoint_auth_methods_supported : list string;
  am_token_endpoint_auth_signing_alg_values_supported : list string; am_code_challenge_methods_supported : list string;
  am_dpop_signing_alg_values_supported : list string; am_client_id_metadata_document_supported : bool;
  am_authorization_response_iss_parameter_supported : bool; am_require_pushed_authorization_requests : bool;
}.
Definition authorization_server_metadata `{UrlLib} (env : atproto_env) : AuthorizationServerMetadata :=
  let origin := authorization_server_origin env in {|
  am_issuer := origin;
  am_authorization_endpoint := endpoint origin "/api/atproto/oauth/authorize";
  am_token_endpoint := endpoint origin "/api/atproto/oauth/token";
  am_pushed_authorization_request_endpoint := endpoint origin "/api/atproto/oauth/par";
  am_response_types_supported := ["code"];
  am_grant_types_supported := ["authorization_code"; "refresh_token"];
  am_scopes_supported := ["atproto"];
  am_token_endpoint_auth_methods_supported := ["none"; "private_key_jwt"];
  am_token_endpoint_auth_signing_alg_values_supported := ["ES256"];
  am_code_challenge_methods_supported := ["S256"];
  am_dpop_signing_alg_values_supported := ["ES256"];
  am_client_id_metadata_document_supported := true;
  am_authorization_response_iss_parameter_supported := true;
  am_require_pushed_authorization_requests := true |}.

Notation ApM A := (SE atproto_state account_abort A).
Notation bad msg := (AcE_BadRequest msg).
(** [if cond { return Err(..) }] *)
Definition deny (b : bool) (msg : string) : result unit AccountError := if b then Err (bad msg) else Ok tt.

Section proofs.
Context `{HJ : Jose, HD : Digests, HP : UrlPages, HUP : !UrlParts, HW : !Web, HL : UrlLib, HN : Nostr, HS : !Serde, HSt : StatusText}.
Variable env : atproto_env.

(** ** DPoP *)
Definition quoted (s : string) : string := String (ascii_of_nat 34) (s +:+ String (ascii_of_nat 34) "").
Definition canonical_jwk (crv kty x y : string) : string :=
  "{" +:+ quoted "crv" +:+ ":" +:+ quoted crv +:+ "," +:+ quoted "kty" +:+ ":" +:+ quoted kty +:+ ","
  +:+ quoted "x" +:+ ":" +:+ quoted x +:+ "," +:+ quoted "y" +:+ ":" +:+ quoted y +:+ "}".
Definition dpop_jwk_thumbprint (jwk : DpopProofJwk) : string :=
  sha256_b64url (canonical_jwk (dj_crv jwk) (dj_kty jwk) (dj_x jwk) (dj_y jwk)).

Definition dpop_htu_matches_expected (htu expected_path_suffix : string) : bool :=
  match page_parse htu with
  | Some url => ends_with expected_path_suffix (page_path url)
  | None => ends_with expected_path_suffix htu
  end.

(** The segments of a compact JWT decoded, and the text under its signature. *)
Definition jwt_parts (compact header claims signature : string) (jwt : string)
  : result (list Z * list Z * list Z * string) AccountError :=
  match split "." jwt with
  | [h; c; s] =>
      let? hb := ok_or (b64url_decode h) (bad header) in
      let? cb := ok_or (b64url_decode c) (bad claims) in
      let? sb := ok_or (b64url_decode s) (bad signature) in
      Ok (hb, cb, sb, h +:+ "." +:+ c)
  | _ => Err (bad compact)
  end.

(** The point of two coordinates of 32 bytes, in its uncompressed form. *)
Definition p256_point (x_error y_error length_error key_error : string) (x y : string) : result P256Key AccountError :=
  let? jwk_x := ok_or (b64url_decode x) (bad x_error) in
  let? jwk_y := ok_or (b64url_decode y) (bad y_error) in
  let? _ := deny (negb ((length jwk_x =? 32)%nat && (length jwk_y =? 32)%nat)) length_error in
  ok_or (p256_from_sec1 (4 :: jwk_x ++ jwk_y)) (bad key_error).

Definition read_dpop_proof (q : http_request) : result (DpopProofHeader * DpopProofClaims * list Z * string) AccountError :=
  let? proof := ok_or (header_text "dpop" q) (bad "Missing DPoP proof") in
  let? '(hb, cb, sb, signing_input) :=
    jwt_parts "DPoP proof must be a compact JWT" "DPoP proof has invalid JWT header encoding"
      "DPoP proof has invalid JWT payload encoding" "DPoP proof has invalid JWT signature encoding" proof in
  let? header := ok_or (de_DpopProofHeader hb) (bad "DPoP proof header is invalid JSON") in
  let? claims := ok_or (de_DpopProofClaims cb) (bad "DPoP proof payload is invalid JSON") in
  Ok (header, claims, sb, signing_input).

Definition check_dpop_signature (header : DpopProofHeader) (signature_bytes : list Z) (signing_input : string)
  : result unit AccountError :=
  let jwk := dh_jwk header in
  let? _ := deny (negb (bool_decide (dh_alg header = "ES256"))) "DPoP proof must use ES256" in
  let? _ := deny (negb (bool_decide (dh_typ header = Some "dpop+jwt"))) "DPoP proof typ must be dpop+jwt" in
  let? _ := deny (negb (bool_decide (dj_kty jwk = "EC")) || negb (bool_decide (dj_crv jwk = "P-256")))
              "DPoP proof must carry an EC P-256 JWK" in
  let? verifying_key := p256_point "Invalid DPoP JWK x coordinate" "Invalid DPoP JWK y coordinate"
                          "DPoP JWK coordinates must be 32 bytes" "DPoP JWK does not encode a valid P-256 key" (dj_x jwk) (dj_y jwk) in
  let? signature := ok_or (p256_signature signature_bytes) (bad "DPoP proof signature is not valid ES256 format") in
  deny (negb (p256_verify verifying_key (bytes_of signing_input) signature)) "DPoP proof signature validation failed".

Definition check_dpop_claims (now : Z) (expected_method expected_path_suffix : string) (expected_nonce expected_ath : option string)
    (claims : DpopProofClaims) : result unit AccountError :=
  let? _ := deny (negb (eq_ignore_ascii_case (dc_htm claims) expected_method)) "DPoP proof htm does not match request" in
  let? _ := deny (negb (dpop_htu_matches_expected (dc_htu claims) expected_path_suffix)) "DPoP proof htu does not match endpoint" in
  let? _ := deny ((dc_iat claims <? now - DPOP_MAX_IAT_SKEW_SECONDS) || (now + DPOP_MAX_IAT_SKEW_SECONDS <? dc_iat claims))
              "DPoP proof iat is outside the allowed window" in
  let? _ := deny (bool_decide (trim (dc_jti claims) = "")) "DPoP proof must include a non-empty jti" in
  let? _ := match expected_nonce with
            | Some expected => deny (negb (bool_decide (dc_nonce claims = Some expected))) "DPoP proof nonce is missing or invalid"
            | None => Ok tt
            end in
  match expected_ath with
  | Some ath => deny (negb (bool_decide (dc_ath claims = Some ath))) "DPoP proof ath does not match access token"
  | None => Ok tt
  end.

(** A jti is refused for five minutes after its last acceptance. *)
Definition dpop_replay (now : Z) (replay_key : string) : ApM unit := fun s =>
  if match ap_dpop_seen s !! replay_key with Some previous => now - previous <? DPOP_MAX_IAT_SKEW_SECONDS | None => false end
  then (s, Err (Failed (bad "DPoP proof jti has already been used")))
  else (set_ap_dpop (<[replay_key := now]> (ap_dpop_seen s)) s, Ok tt).

Definition validate_dpop_proof (now : Z) (q : http_request) (expected_method expected_path_suffix : string)
    (expected_nonce expected_ath : option string) : ApM string :=
  let! '(header, claims, signature_bytes, signing_input) := ap_lift (read_dpop_proof q) in
  let! _ := ap_lift (check_dpop_signature header signature_bytes signing_input) in
  let! _ := ap_lift (check_dpop_claims now expected_method expected_path_suffix expected_nonce expected_ath claims) in
  let jkt := dpop_jwk_thumbprint (dh_jwk header) in
  let! _ := dpop_replay now (jkt +:+ ":" +:+ dc_jti claims) in
  se_ret jkt.

(** ** Client metadata *)
Definition is_loopback_host (host : string) : bool :=
  eq_ignore_ascii_case host "localhost" || bool_decide (host ∈ ["127.0.0.1"; "::1"; "[::1]"]).
Definition ensure_secure_or_loopback_url (url : page) (label : string) : result unit AccountError :=
  if bool_decide (page_scheme url = "https") then Ok tt
  else if bool_decide (page_scheme url = "http") && is_loopback_host (default "" (page_host_str url)) then Ok tt
  else Err (bad (label +:+ " must use HTTPS outside local development")).

Definition metadata_document_url (client_id : string) (require_document : bool) : result (option page) AccountError :=
  let refused := if require_document then Err (bad "Confidential clients must use an HTTP(S) client_id metadata URL") else Ok None in
  match page_parse client_id with
  | None => refused
  | Some url =>
      if negb (bool_decide (page_scheme url ∈ ["https"; "http"])) then refused
      else if negb require_document && bool_decide (page_path url = "/") && is_null (page_query url) && is_null (page_fragment url)
      then Ok None
      else Ok (Some url)
  end.

Definition fetch_json (now : Z) (url : page) (label : string) : result json AccountError :=
  let? _ := ensure_secure_or_loopback_url url label in
  let? _ := map_err (fun e => AcE_Internal ("Failed to build HTTP client: " +:+ e)) web_client in
  let? '(status, body) := map_err (fun e => bad ("Failed to fetch " +:+ label +:+ ": " +:+ e)) (web_get now url) in
  let? _ := deny (negb (success_status status)) (label +:+ " returned " +:+ status_text status) in
  map_err (fun e => bad ("Invalid " +:+ label +:+ " JSON: " +:+ e)) body.

Definition fetch_client_metadata (now : Z) (client_id : string) (require_document : bool)
  : result (option ClientMetadata) AccountError :=
  let? found := metadata_document_url client_id require_document in
  match found with
  | None => Ok None
  | Some url =>
      let? raw := fetch_json now url "client metadata document" in
      let? metadata := map_err (fun e => bad ("Invalid client metadata document: " +:+ e))
                         (de_ClientMetadata default_client_auth_method raw) in
      let? _ := deny (negb (bool_decide (cm_client_id metadata = client_id))) "Client metadata client_id mismatch" in
      Ok (Some metadata)
  end.

Definition validate_metadata_redirect (metadata : ClientMetadata) (redirect_uri : string) : result unit AccountError :=
  deny (negb (bool_decide (redirect_uri ∈ cm_redirect_uris metadata))) "redirect_uri is not registered in client metadata".

Definition load_client_signing_keys (now : Z) (metadata : ClientMetadata) : result (list ClientJwk) AccountError :=
  match cm_jwks metadata, cm_jwks_uri metadata with
  | Some _, Some _ => Err (bad "Client metadata must provide either jwks or jwks_uri, not both")
  | Some [], None => Err (bad "Client metadata jwks must contain at least one key")
  | Some keys, None => Ok keys
  | None, Some jwks_uri =>
      let? url := ok_or (page_parse jwks_uri) (bad ("Invalid jwks_uri: " +:+ url_error jwks_uri)) in
      let? raw := fetch_json now url "client jwks_uri" in
      let? keys := map_err (fun e => bad ("Invalid JWKS payload: " +:+ e)) (de_ClientJwks raw) in
      let? _ := deny (bool_decide (length keys = 0%nat)) "Client metadata jwks_uri must resolve to at least one key" in
      Ok keys
  | None, None => Err (bad "private_key_jwt clients must provide jwks or jwks_uri")
  end.

(** ** Client assertions *)
Definition expected_client_assertion_audiences : list string := [authorization_server_origin env].

Definition compact_jwt_parts (jwt : string) : result (list Z * list Z * list Z * string) AccountError :=
  jwt_parts "client_assertion must be a compact JWT" "Invalid client_assertion header" "Invalid client_assertion payload"
    "Invalid client_assertion signature" jwt.

Definition other_than (o : option string) (v : string) : bool :=
  match o with Some x => negb (bool_decide (x = v)) | None => false end.
Definition client_jwk_verifying_key (jwk : ClientJwk) : result P256Key AccountError :=
  let? _ := deny (negb (bool_decide (cj_kty jwk = "EC")) || negb (bool_decide (cj_crv jwk = Some "P-256")))
              "private_key_jwt requires EC P-256 keys" in
  let? _ := deny (other_than (cj_key_use jwk) "sig") "private_key_jwt key use must be sig" in
  let? _ := deny (other_than (cj_alg jwk) "ES256") "private_key_jwt key alg must be ES256" in
  let? x := ok_or (cj_x jwk) (bad "JWK missing x coordinate") in
  let? y := ok_or (cj_y jwk) (bad "JWK missing y coordinate") in
  p256_point "Invalid JWK x coordinate" "Invalid JWK y coordinate" "JWK coordinates must be 32 bytes" "Invalid JWK public key" x y.
Definition client_jwk_thumbprint (jwk : ClientJwk) : result string AccountError :=
  let? x := ok_or (cj_x jwk) (bad "JWK missing x coordinate") in
  let? y := ok_or (cj_y jwk) (bad "JWK missing y coordinate") in
  Ok (sha256_b64url (canonical_jwk "P-256" "EC" x y)).

Definition aud_matches_expected (aud : json) (expected : list string) : bool :=
  match aud with
  | JString value => bool_decide (value ∈ expected)
  | JArray values => existsb (fun v => match as_str v with Some claim => bool_decide (claim ∈ expected) | None => false end) values
  | _ => false
  end.

Definition validate_private_key_jwt_metadata (metadata : ClientMetadata) : result unit AccountError :=
  let? _ := deny (negb (bool_decide (cm_token_endpoint_auth_signing_alg metadata = Some "ES256")))
              "private_key_jwt clients must publish token_endpoint_auth_signing_alg=ES256" in
  deny (negb (bool_decide (cm_dpop_bound_access_tokens metadata = Some true)))
    "private_key_jwt clients must publish dpop_bound_access_tokens=true".

Definition assertion_field (value : option string) (name : string) : result string AccountError :=
  ok_or value (bad ("Missing " +:+ name)).
Definition unexpected_client_assertion (client_assertion_type client_assertion : option string) : result unit AccountError :=
  deny (negb (is_null client_assertion_type) || negb (is_null client_assertion)) "client_assertion is not allowed for public clients".

(** What an assertion says, before its signature is looked at. *)
Definition check_assertion_claims (now : Z) (client_id : string) (expected_audiences : list string) (claims : ClientAssertionClaims)
  : result unit AccountError :=
  let? _ := deny (negb (bool_decide (ca_iss claims = client_id)) || negb (bool_decide (ca_sub claims = client_id)))
              "client_assertion must set iss and sub to client_id" in
  let? _ := deny (negb (aud_matches_expected (ca_aud claims) expected_audiences))
              ("client_assertion aud does not match authorization server issuer (got " +:+ json_to_string (ca_aud claims)
               +:+ ", expected one of " +:+ join ", " expected_audiences +:+ ")") in
  let? _ := deny (ca_exp claims <=? now) "client_assertion is expired" in
  let? _ := deny (now + CLIENT_ASSERTION_MAX_EXP_SKEW_SECONDS <? ca_exp claims) "client_assertion exp is too far in the future" in
  let? _ := deny ((ca_iat claims <? now - CLIENT_ASSERTION_MAX_EXP_SKEW_SECONDS) || (now + DPOP_MAX_IAT_SKEW_SECONDS <? ca_iat claims))
              "client_assertion iat is outside the allowed window" in
  deny (bool_decide (trim (ca_jti claims) = "")) "client_assertion must include a non-empty jti".

(** A key that passes the checks and verifies the signature; the loop passes over
    the others. *)
Definition key_verifies (signing_input : string) (signature : P256Signature) (key : ClientJwk) : bool :=
  match client_jwk_verifying_key key with
  | Ok verifying_key => p256_verify verifying_key (bytes_of signing_input) signature
  | Err _ => false
  end.
Definition key_candidates (kid : option string) (signing_keys : list ClientJwk) : list ClientJwk :=
  match kid with
  | Some kid => List.filter (fun key => bool_decide (cj_kid key = Some kid)) signing_keys
  | None => signing_keys
  end.

(** The assertion read and its key found. *)
Definition check_assertion (now : Z) (client_id : string) (client_assertion_type client_assertion : option string)
    (expected_audiences : list string) (signing_keys : list ClientJwk) (expected_jkt : option string)
  : result (ClientAssertionHeader * ClientAssertionClaims * string) AccountError :=
  let? assertion_type := assertion_field client_assertion_type "client_assertion_type" in
  let? _ := deny (negb (bool_decide (assertion_type = CLIENT_ASSERTION_TYPE_JWT_BEARER))) "Unsupported client_assertion_type" in
  let? assertion := assertion_field client_assertion "client_assertion" in
  let? '(hb, cb, sb, signing_input) := compact_jwt_parts assertion in
  let? header := ok_or (de_ClientAssertionHeader hb) (bad "client_assertion header is invalid JSON") in
  let? _ := deny (negb (bool_decide (ah_alg header = "ES256"))) "client_assertion must use ES256" in
  let? claims := ok_or (de_ClientAssertionClaims cb) (bad "client_assertion payload is invalid JSON") in
  let? _ := check_assertion_claims now client_id expected_audiences claims in
  let? signature := ok_or (p256_signature sb) (bad "client_assertion signature has invalid format") in
  let candidates := key_candidates (ah_kid header) signing_keys in
  let? _ := deny (bool_decide (length candidates = 0%nat)) "No matching client signing key found" in
  let? key := ok_or (find_first (key_verifies signing_input signature) candidates)
                (bad "client_assertion signature validation failed") in
  let? key_jkt := client_jwk_thumbprint key in
  let? _ := deny (match expected_jkt with Some expected => negb (bool_decide (key_jkt = expected)) | None => false end)
              "client_assertion key does not match PAR binding" in
  Ok (header, claims, key_jkt).

(** A jti is refused until the assertion it came in has expired. *)
Definition assertion_replay (now : Z) (replay_key : string) (exp : Z) : ApM unit := fun s =>
  if match ap_assertions_seen s !! replay_key with Some previous_exp => now <=? previous_exp | None => false end
  then (s, Err (Failed (bad "client_assertion jti has already been used")))
  else (set_ap_assertions (<[replay_key := exp]> (ap_assertions_seen s)) s, Ok tt).

Definition verify_client_assertion (now : Z) (client_id : string) (client_assertion_type client_assertion : option string)
    (expected_audiences : list string) (signing_keys : list ClientJwk) (expected_jkt : option string) : ApM ClientAuthBinding :=
  let! '(header, claims, key_jkt) :=
    ap_lift (check_assertion now client_id client_assertion_type client_assertion expected_audiences signing_keys expected_jkt) in
  let! _ := assertion_replay now (client_id +:+ ":" +:+ ca_jti claims) (ca_exp claims) in
  se_ret (PrivateKeyJwt (ah_alg header) (ah_kid header) key_jkt).

(** ** The client behind a request *)
Definition validate_par_client_binding (now : Z) (request : ParRequest) : ApM ClientAuthBinding :=
  let no_assertion := unexpected_client_assertion (pr_client_assertion_type request) (pr_client_assertion request) in
  let require_metadata := negb (is_null (pr_client_assertion_type request)) || negb (is_null (pr_client_assertion request)) in
  let! metadata := ap_lift (fetch_client_metadata now (pr_client_id request) require_metadata) in
  match metadata with
  | None => let! _ := ap_lift no_assertion in se_ret BindingNone
  | Some metadata =>
      let! _ := ap_lift (validate_metadata_redirect metadata (pr_redirect_uri request)) in
      if bool_decide (cm_token_endpoint_auth_method metadata = "none") then
        let! _ := ap_lift no_assertion in se_ret BindingNone
      else if bool_decide (cm_token_endpoint_auth_method metadata = "private_key_jwt") then
        let! _ := ap_lift (validate_private_key_jwt_metadata metadata) in
        let! keys := ap_lift (load_client_signing_keys now metadata) in
        verify_client_assertion now (pr_client_id request) (pr_client_assertion_type request) (pr_client_assertion request)
          expected_client_assertion_audiences keys None
      else ap_fail (bad "Unsupported token_endpoint_auth_method in client metadata")
  end.

Definition enforce_session_client_binding (now : Z) (session : AtprotoOAuthSession)
    (client_assertion_type client_assertion : option string) : ApM unit :=
  if bool_decide (ax_client_auth_method session = "none") then
    ap_lift (unexpected_client_assertion client_assertion_type client_assertion)
  else if bool_decide (ax_client_auth_method session = "private_key_jwt") then
    let! found := ap_lift (fetch_client_metadata now (ax_client_id session) true) in
    let! metadata := ap_lift (ok_or found (bad "Confidential client metadata document must be reachable")) in
    let! _ := ap_lift (validate_metadata_redirect metadata (ax_redirect_uri session)) in
    let! _ := ap_lift (deny (negb (bool_decide (cm_token_endpoint_auth_method metadata = "private_key_jwt")))
                         "Client metadata auth method changed after PAR") in
    let! _ := ap_lift (validate_private_key_jwt_metadata metadata) in
    let! keys := ap_lift (load_client_signing_keys now metadata) in
    let! binding := verify_client_assertion now (ax_client_id session) client_assertion_type client_assertion
                      expected_client_assertion_audiences keys (ax_client_auth_jkt session) in
    let! alg := ap_lift (ok_or (ax_client_auth_alg session) (bad "Confidential session missing bound client auth alg")) in
    let! jkt := ap_lift (ok_or (ax_client_auth_jkt session) (bad "Confidential session missing bound client auth key")) in
    ap_lift (deny (negb (bool_decide (binding = PrivateKeyJwt alg (ax_client_auth_kid session) jkt)))
               "client_assertion key does not match PAR binding")
  else ap_fail (bad "Unsupported session client auth binding").
End proofs.
