(* ===== verification/AtprotoOAuth.v ===== *)
(** * The ATProto OAuth server

    The second half of api/src/api/http/atproto_oauth.rs: pushed authorization
    requests, the approval of a request by a signed-in user, and the exchange of
    codes and refresh tokens for access tokens bound to a DPoP key.  The values of
    the random generator are arguments; jwt-simple's ES256K signing is a
    parameter. *)
From S2P Require Import Prelude RustStr External Instances Database Samples Tokens Permissions Policies AuthTypes Signer Ucan HttpRpc OAuthRepo Users OAuth WorkQueue Queues RateLimit Tenant Nip98 Accounts AccountKeys Customers Admin Atproto AtprotoProofs.

(** ** Data *)
Record ParResponse : Type := { pp_request_uri : string; pp_expires_in : Z }.
Record AtprotoTokenRequest : Type := {
  aq_grant_type : string; aq_code : option string; aq_client_id : option string; aq_redirect_uri : option string;
  aq_code_verifier : option string; aq_refresh_token : option string; aq_client_assertion_type : option string;
  aq_client_assertion : option string;
}.
Record AtprotoTokenResponse : Type := {
  ap_access_token : string; ap_token_type : string; ap_expires_in : Z; ap_refresh_token : string; ap_scope : string; ap_sub : string;
}.
(** [Claims<AtprotoCustomClaims>]; the confirmation is the thumbprint of a key. *)
Record access_claims : Type := {
  cl_issued_at : Z; cl_expires_at : Z; cl_subject : string; cl_audience : string; cl_issuer : string; cl_jwt_id : string;
  cl_scope : string; cl_lxm : option string; cl_cnf_jkt : option string;
}.
Class AccessTokens := {
  Es256kKey : Type;
  es256k_key : list Z -> result Es256kKey string;
  es256k_sign : Es256kKey -> access_claims -> result string string;
}.
(** The three values drawn for an exchange. *)
Record token_draw : Type := { td_jti : string; td_refresh_token : string; td_nonce : string }.

Inductive authorize_reply : Type := LoginRedirect (location : string) | CodeRedirect (location : string).

(** [HeaderValue::from_str]: no control characters but the tab. *)
Definition header_byte (c : ascii) : bool := ((32 <=? byte_val c) && negb (byte_val c =? 127)) || (byte_val c =? 9).
Definition response_with_dpop_nonce {A} (payload : A) (nonce : string) : result (string * A) AccountError :=
  if all_bytes header_byte nonce then Ok (nonce, payload)
  else Err (AcE_Internal "Invalid DPoP nonce header: failed to parse header value").

Section server.
Context `{HN : Nostr, HC : !NostrCrypto, HS : !Serde, HX : !Secrets, HD : Digests, HE : !Encodings, HV : !HttpEvents, HU : UcanLib,
          HM : !UcanMint, HL : UrlLib, HUni : Unicode, HT : TenantSerde, HSt : StatusText, HP : UrlPages, HUP : !UrlParts,
          HW : !Web, HJ : Jose, HA : AccessTokens}.
Variables (env : atproto_env) (tenants : tenant_env).

Definition pkce_challenge (verifier : string) : string := sha256_b64url verifier.
Definition redirect_to_login (request_uri : string) : string :=
  "/login?redirect=" +:+ urlencode ("/api/atproto/oauth/authorize?request_uri=" +:+ urlencode request_uri).

(** ** Access tokens *)
Definition atproto_jwt_key : result Es256kKey AccountError :=
  let? key_hex := ok_or (av_jwt_key env) (AcE_Internal "ATPROTO_OAUTH_JWT_PRIVATE_KEY_HEX not configured") in
  let? key_bytes := map_err (fun e => AcE_Internal ("Invalid ATPROTO_OAUTH_JWT_PRIVATE_KEY_HEX: " +:+ e)) (hex_decode key_hex) in
  map_err (fun e => AcE_Internal ("Invalid ATPROTO OAuth signing key: " +:+ e)) (es256k_key key_bytes).
Definition atproto_pds_did : result string AccountError :=
  ok_or (first_set (av_pds_did env) (av_pds_service_did env))
    (AcE_Internal "ATPROTO_OAUTH_PDS_DID or PDS_SERVICE_DID must be configured").
Definition claims_of (now : Z) (subject_did audience token_id dpop_jkt : string) : access_claims := {|
  cl_issued_at := now; cl_expires_at := now + ACCESS_TOKEN_EXPIRY_MINUTES * 60; cl_subject := subject_did; cl_audience := audience;
  cl_issuer := authorization_server_origin env; cl_jwt_id := token_id; cl_scope := "com.atproto.access"; cl_lxm := None;
  cl_cnf_jkt := Some dpop_jkt |}.
Definition create_access_token (now : Z) (subject_did token_id dpop_jkt : string) : result string AccountError :=
  let? key := atproto_jwt_key in
  let? audience := atproto_pds_did in
  map_err (fun e => AcE_Internal ("Failed to sign ATPROTO access token: " +:+ e))
    (es256k_sign key (claims_of now subject_did audience token_id dpop_jkt)).

(** ** The state *)
Definition on_sessions {A} (f : sessions -> sessions * result A RepositoryError) : ApM A := fun s =>
  let '(t, r) := f (ap_sessions s) in
  (set_ap_sessions t s, map_err (fun e => Failed (account_error_of_repository e)) r).
Definition read_sessions {A} (f : sessions -> A) : ApM A := se_gets (fun s => f (ap_sessions s)).

Definition ready_atproto_identity (tenant_id : Z) (user_pubkey : string) (d : Db) : option string :=
  u ← find_user user_pubkey tenant_id d;
  if us_atproto_enabled u && bool_decide (us_atproto_state u = Some "ready") then us_atproto_did u else None.

Definition atproto_request_domain (q : http_request) : result string AccountError :=
  let from_host := host ← header_text "host" q; domain ← head (split ":" host);
                   if bool_decide (domain = "") then None else Some domain in
  match from_host with
  | Some domain => Ok domain
  | None => ok_or (url_parse (authorization_server_origin env) ≫= url_host_str) (AcE_Internal "Failed to determine request tenant")
  end.

Definition tenant_account_error (e : tenant_failure) : account_abort :=
  match e with
  | TenantErr (TenantDatabaseError e) => Failed (AcE_Database e)
  | TenantErr (InvalidDomain message) | TenantErr (ValidationFailed message) => Failed (bad message)
  | TenantPanic _ => AccountPanic
  end.
Definition request_tenant_id (now : Z) (q : http_request) : ApM Z :=
  let! domain := ap_lift (atproto_request_domain q) in
  fun s => let '(t, r) := get_or_create_tenant tenants now domain (ap_tenants s) in
           (set_ap_tenants t s, let? tenant := map_err tenant_account_error r in Ok (tn_id tenant)).

(** ** Pushed authorization requests *)
Definition binding_method (b : ClientAuthBinding) : string :=
  match b with BindingNone => "none" | PrivateKeyJwt _ _ _ => "private_key_jwt" end.
Definition par_params (now tenant_id : Z) (request : ParRequest) (request_uri dpop_jkt nonce : string) (b : ClientAuthBinding)
  : CreateAtprotoOAuthSessionParams := {|
  pa_tenant_id := tenant_id; pa_client_id := pr_client_id request; pa_redirect_uri := pr_redirect_uri request;
  pa_scope := pr_scope request; pa_state := pr_state request; pa_code_challenge := pr_code_challenge request;
  pa_code_challenge_method := pr_code_challenge_method request; pa_request_uri := request_uri;
  pa_par_expires_at := now + PAR_EXPIRY_MINUTES * 60; pa_dpop_jkt := Some dpop_jkt; pa_dpop_nonce := Some nonce;
  pa_client_auth_method := binding_method b;
  pa_client_auth_alg := match b with BindingNone => None | PrivateKeyJwt alg _ _ => Some alg end;
  pa_client_auth_kid := match b with BindingNone => None | PrivateKeyJwt _ kid _ => kid end;
  pa_client_auth_jkt := match b with BindingNone => None | PrivateKeyJwt _ _ jkt => Some jkt end |}.

Definition par (now : Z) (drawn_uri drawn_nonce : string) (q : http_request) (request : ParRequest) : ApM (string * ParResponse) :=
  let! _ := ap_lift (deny (negb (bool_decide (trim (pr_scope request) = "atproto")))
                       "ATProto PAR requests must request the atproto scope") in
  let! dpop_jkt := validate_dpop_proof now q "POST" PAR_PATH_SUFFIX None None in
  let! client_binding := validate_par_client_binding env now request in
  let request_uri := "urn:ietf:params:oauth:request_uri:" +:+ drawn_uri in
  let! tenant_id := request_tenant_id now q in
  let! _ := on_sessions (create_par now (par_params now tenant_id request request_uri dpop_jkt drawn_nonce client_binding)) in
  ap_lift (response_with_dpop_nonce {| pp_request_uri := request_uri; pp_expires_in := PAR_EXPIRY_MINUTES * 60 |} drawn_nonce).

(** ** Approval *)
Definition code_location (session : AtprotoOAuthSession) (code : string) : result string AccountError :=
  let? redirect_url := ok_or (page_parse (ax_redirect_uri session))
                         (bad ("Invalid redirect_uri: " +:+ url_error (ax_redirect_uri session))) in
  let with_code := page_append_pair "code" code redirect_url in
  let with_state := match ax_state session with Some state => page_append_pair "state" state with_code | None => with_code end in
  Ok (page_str (page_append_pair "iss" (authorization_server_origin env) with_state)).

(** The approval of a request by the user of the session, and its code. *)
Definition approve (now : Z) (request_uri user_pubkey user_did code : string) : ApM unit :=
  let unknown := Failed (bad "Unknown or revoked request_uri") in
  let! approved := (fun s => on_sessions (approve_request now request_uri user_pubkey user_did (ap_db s)) s) in
  let! _ := se_lift (ok_or approved unknown) in
  let! stored := on_sessions (store_authorization_code now request_uri code (now + AUTH_CODE_EXPIRY_MINUTES * 60)) in
  let! _ := se_lift (ok_or stored unknown) in
  se_ret tt.

Definition atproto_authorize (now : Z) (cfg : account_config) (code : string) (q : http_request) (request_uri : string) : ApM authorize_reply :=
  let! found := read_sessions (find_by_request_uri request_uri) in
  let! session := ap_lift (ok_or found (bad "Unknown request_uri")) in
  let! _ := ap_lift (deny (ax_par_expires_at session <=? now) "Expired request_uri") in
  match extract_user_from_token now cfg q (ax_tenant_id session) with
  | Err AcE_MissingToken | Err AcE_InvalidToken => se_ret (LoginRedirect (redirect_to_login request_uri))
  | Err error => ap_fail error
  | Ok user_pubkey =>
      let! ready := se_gets (fun s => ready_atproto_identity (ax_tenant_id session) user_pubkey (ap_db s)) in
      let! user_did := ap_lift (ok_or ready
                         (AcE_Forbidden "ATProto account link must be ready before approving external app login")) in
      let! _ := approve now request_uri user_pubkey user_did code in
      let! location := ap_lift (code_location session code) in
      se_ret (CodeRedirect location)
  end.

(** ** Tokens *)
Definition issue_params (now : Z) (code : string) (code_expires_at : Z) (dr : token_draw) (proof_jkt : string) : IssueAtprotoTokensParams := {|
  it_authorization_code := code; it_authorization_code_expires_at := code_expires_at; it_access_token_jti := td_jti dr;
  it_access_token_expires_at := now + ACCESS_TOKEN_EXPIRY_MINUTES * 60;
  it_refresh_token_hash := hash_refresh_token (td_refresh_token dr);
  it_refresh_token_expires_at := now + ATPROTO_REFRESH_TOKEN_EXPIRY_DAYS * 86400; it_dpop_jkt := Some proof_jkt;
  it_dpop_nonce := Some (td_nonce dr) |}.
Definition token_response (access_token subject_did : string) (dr : token_draw) : result (string * AtprotoTokenResponse) AccountError :=
  response_with_dpop_nonce {|
    ap_access_token := access_token; ap_token_type := "DPoP"; ap_expires_in := ACCESS_TOKEN_EXPIRY_MINUTES * 60;
    ap_refresh_token := td_refresh_token dr; ap_scope := "atproto"; ap_sub := subject_did |} (td_nonce dr).

(** The client of the session; when that fails the session is revoked, whose own
    outcome is ignored. *)
Definition bound_or_revoked (now : Z) (session : AtprotoOAuthSession) (request : AtprotoTokenRequest)
    (revoke : sessions -> sessions * result (option AtprotoOAuthSession) RepositoryError) : ApM unit := fun s =>
  match enforce_session_client_binding env now session (aq_client_assertion_type request) (aq_client_assertion request) s with
  | (s', Ok _) => (s', Ok tt)
  | (s', Err AccountPanic) => (s', Err AccountPanic)
  | (s', Err (Failed e)) => (set_ap_sessions (fst (revoke (ap_sessions s'))) s', Err (Failed e))
  end.
(** The proof of possession of the key of the session, with its nonce. *)
Definition session_proof (now : Z) (q : http_request) (session : AtprotoOAuthSession) (no_nonce no_key : string) : ApM string :=
  let! session_nonce := ap_lift (ok_or (ax_dpop_nonce session) (bad no_nonce)) in
  let! proof_jkt := validate_dpop_proof now q "POST" TOKEN_PATH_SUFFIX (Some session_nonce) None in
  let! expected_jkt := ap_lift (ok_or (ax_dpop_jkt session) (bad no_key)) in
  let! _ := ap_lift (deny (negb (bool_decide (proof_jkt = expected_jkt))) "DPoP proof key does not match the session binding") in
  se_ret proof_jkt.

Definition code_grant (now : Z) (dr : token_draw) (q : http_request) (request : AtprotoTokenRequest) : ApM (string * AtprotoTokenResponse) :=
  let! code := ap_lift (ok_or (aq_code request) (bad "Missing authorization code")) in
  let! client_id := ap_lift (ok_or (aq_client_id request) (bad "Missing client_id")) in
  let! redirect_uri := ap_lift (ok_or (aq_redirect_uri request) (bad "Missing redirect_uri")) in
  let! code_verifier := ap_lift (ok_or (aq_code_verifier request) (bad "Missing code_verifier")) in
  let! found := read_sessions (find_by_authorization_code now code) in
  let! session := ap_lift (ok_or found (bad "Unknown or expired authorization code")) in
  let! _ := ap_lift (deny (negb (bool_decide (ax_client_id session = client_id)) || negb (bool_decide (ax_redirect_uri session = redirect_uri)))
                       "Authorization code client binding mismatch") in
  let! _ := bound_or_revoked now session request (revoke_session_of_request now (ax_request_uri session)) in
  let! _ := ap_lift (deny (negb (bool_decide (ax_code_challenge_method session = Some "S256"))) "ATProto OAuth requires S256 PKCE") in
  let! _ := ap_lift (deny (negb (bool_decide (ax_code_challenge session = Some (pkce_challenge code_verifier)))) "Invalid PKCE verifier") in
  let! proof_jkt := session_proof now q session "Missing DPoP nonce for authorization code" "Authorization code session is not DPoP-bound" in
  let! consumed := on_sessions (consume_authorization_code now code) in
  let! _ := ap_lift (ok_or consumed (bad "Unknown or expired authorization code")) in
  let! subject_did := ap_lift (ok_or (ax_atproto_did session) (bad "Authorization code is not bound to a ready ATProto DID")) in
  let! access_token := ap_lift (create_access_token now subject_did (td_jti dr) proof_jkt) in
  let! _ := on_sessions (store_token_artifacts now (ax_request_uri session) (issue_params now code now dr proof_jkt)) in
  ap_lift (token_response access_token subject_did dr).

Definition refresh_grant (now : Z) (dr : token_draw) (q : http_request) (request : AtprotoTokenRequest) : ApM (string * AtprotoTokenResponse) :=
  let! refresh_token := ap_lift (ok_or (aq_refresh_token request) (bad "Missing refresh_token")) in
  let! client_id := ap_lift (ok_or (aq_client_id request) (bad "Missing client_id")) in
  let refresh_token_hash := hash_refresh_token refresh_token in
  let! found := read_sessions (find_by_refresh_token_hash now refresh_token_hash) in
  let! session := ap_lift (ok_or found (bad "Invalid or expired refresh token")) in
  let! _ := ap_lift (deny (negb (bool_decide (ax_client_id session = client_id))) "Refresh token client binding mismatch") in
  let! _ := bound_or_revoked now session request (revoke_refresh_session now refresh_token_hash) in
  let! proof_jkt := session_proof now q session "Missing DPoP nonce for refresh token" "Refresh token session is not DPoP-bound" in
  let! subject_did := ap_lift (ok_or (ax_atproto_did session) (bad "Refresh token is not bound to a ready ATProto DID")) in
  let! access_token := ap_lift (create_access_token now subject_did (td_jti dr) proof_jkt) in
  let! rotated := on_sessions (rotate_refresh_token now (ax_request_uri session) refresh_token_hash
                    (issue_params now (default "" (ax_authorization_code session))
                       (default now (ax_authorization_code_expires_at session)) dr proof_jkt)) in
  let! _ := ap_lift (ok_or rotated (bad "Invalid or expired refresh token")) in
  ap_lift (token_response access_token subject_did dr).

Definition atproto_token (now : Z) (dr : token_draw) (q : http_request) (request : AtprotoTokenRequest) : ApM (string * AtprotoTokenResponse) :=
  if bool_decide (aq_grant_type request = "authorization_code") then code_grant now dr q request
  else if bool_decide (aq_grant_type request = "refresh_token") then refresh_grant now dr q request
  else ap_fail (bad "Only authorization_code and refresh_token are supported for ATProto token exchange").
End server.
