(* ===== verification/AtprotoSafety.v ===== *)
(** * The ATProto OAuth server over time

    What every request leaves of the sessions and of the replay caches, and what
    follows: the exchange of a code is sound and happens once, a client assertion
    is accepted once, a revoked session stays dead; how long a DPoP proof can be
    replayed, and what a second approval of a request does to the tokens of the
    first. *)
From S2P Require Import Prelude RustStr External Instances Database Samples Tokens Permissions Policies AuthTypes Signer Ucan HttpRpc OAuthRepo Users OAuth WorkQueue Queues RateLimit Tenant Nip98 Accounts AccountKeys Customers Admin AccountsSafety CustomerLimits AdminSafety Atproto AtprotoProofs AtprotoOAuth.

(** ** Lists of sessions *)
Lemma sessions_conflict_sym a b : sessions_conflict a b = sessions_conflict b a.
Proof.
  assert (Hsym : forall x y : string, bool_decide (x = y) = bool_decide (y = x)).
  { intros x y. apply bool_decide_ext. split; intros; by symmetry. }
  assert (Hsv : forall x y, same_value x y = same_value y x).
  { intros [x|] [y|]; [apply Hsym|reflexivity..]. }
  unfold sessions_conflict. rewrite (Hsym (ax_request_uri a)), (Hsv (ax_authorization_code a)), (Hsv (ax_access_token_jti a)),
    (Hsv (ax_refresh_token_hash a)). reflexivity.
Qed.

(** Two sessions of a table without conflicts that conflict are one. *)
Lemma sessions_distinct_eq l a b :
  sessions_distinct l = true -> a ∈ l -> b ∈ l -> sessions_conflict a b = true -> a = b.
Proof.
  induction l as [|c l IH]; simpl; [by intros _ ?%elem_of_nil|].
  intros [Hc Hl]%andb_true_iff Ha Hb Hab. apply negb_true_iff in Hc.
  assert (Hno : forall x, x ∈ l -> sessions_conflict c x = false).
  { intros x Hx. destruct (sessions_conflict c x) eqn:E; [|done].
    rewrite <- Hc. symmetry. apply existsb_exists. exists x. split; [by apply list_elem_of_In|done]. }
  apply elem_of_cons in Ha as [->|Ha]; apply elem_of_cons in Hb as [->|Hb]; auto.
  - by rewrite Hno in Hab.
  - rewrite sessions_conflict_sym in Hab. by rewrite Hno in Hab.
Qed.

Definition same_keys (a b : AtprotoOAuthSession) : Prop :=
  ax_request_uri a = ax_request_uri b /\ ax_authorization_code a = ax_authorization_code b /\
  ax_access_token_jti a = ax_access_token_jti b /\ ax_refresh_token_hash a = ax_refresh_token_hash b.
Lemma sessions_conflict_same a a' b b' : same_keys a a' -> same_keys b b' -> sessions_conflict a b = sessions_conflict a' b'.
Proof. intros (E1 & E2 & E3 & E4) (F1 & F2 & F3 & F4). unfold sessions_conflict. by rewrite E1, E2, E3, E4, F1, F2, F3, F4. Qed.
Lemma sessions_distinct_update p f l : (forall r, same_keys (f r) r) -> sessions_distinct (update_where p f l) = sessions_distinct l.
Proof.
  intros Hf. assert (Hk : forall r, same_keys (if p r then f r else r) r) by (intros r; by destruct (p r)).
  unfold update_where. induction l as [|a l IH]; simpl; [done|]. rewrite IH. f_equal. f_equal. clear IH.
  induction l as [|b l IH]; simpl; [done|]. rewrite IH. rewrite (sessions_conflict_same _ a _ b) by apply Hk. reflexivity.
Qed.

Lemma conflict_by_code a b c : ax_authorization_code a = Some c -> ax_authorization_code b = Some c -> sessions_conflict a b = true.
Proof. intros Ha Hb. unfold sessions_conflict. rewrite Ha, Hb. simpl. rewrite (bool_decide_true (c = c)) by done. by rewrite ?orb_true_r. Qed.
Lemma conflict_by_hash a b c : ax_refresh_token_hash a = Some c -> ax_refresh_token_hash b = Some c -> sessions_conflict a b = true.
Proof. intros Ha Hb. unfold sessions_conflict. rewrite Ha, Hb. simpl. rewrite (bool_decide_true (c = c)) by done. by rewrite ?orb_true_r. Qed.

(** ** What a request leaves *)
(** Revoked sessions keep what they were found by and stay revoked. *)
Definition dead_as (r r' : AtprotoOAuthSession) : Prop :=
  ax_authorization_code r' = ax_authorization_code r /\ ax_refresh_token_hash r' = ax_refresh_token_hash r /\
  is_Some (ax_revoked_at r').
Definition sessions_evolve (t t' : sessions) : Prop :=
  (sessions_distinct (rows t) = true -> sessions_distinct (rows t') = true) /\
  forall r, r ∈ rows t -> is_Some (ax_revoked_at r) -> exists r', r' ∈ rows t' /\ dead_as r r'.
Definition cache_grows (m m' : gmap string Z) : Prop := forall k v, m !! k = Some v -> exists v', m' !! k = Some v' /\ v <= v'.
Definition ap_evolves (s s' : atproto_state) : Prop :=
  sessions_evolve (ap_sessions s) (ap_sessions s') /\ cache_grows (ap_dpop_seen s) (ap_dpop_seen s') /\
  cache_grows (ap_assertions_seen s) (ap_assertions_seen s').

#[export] Instance sessions_evolve_preorder : PreOrder sessions_evolve.
Proof.
  split.
  - intros t. split; [done|]. intros r Hr Hd. by exists r.
  - intros t1 t2 t3 [H1 D1] [H2 D2]. split; [auto|]. intros r Hr Hd.
    destruct (D1 r Hr Hd) as (r' & Hr' & E1 & E2 & Hd'). destruct (D2 r' Hr' Hd') as (r'' & Hr'' & E3 & E4 & Hd'').
    exists r''. split; [done|]. repeat split; congruence || done.
Qed.
#[export] Instance cache_grows_preorder : PreOrder cache_grows.
Proof.
  split.
  - intros m k v H. exists v. split; [done|lia].
  - intros m1 m2 m3 H1 H2 k v H. destruct (H1 k v H) as (v' & H' & ?). destruct (H2 k v' H') as (v'' & H'' & ?).
    exists v''. split; [done|lia].
Qed.
#[export] Instance ap_evolves_preorder : PreOrder ap_evolves.
Proof.
  split.
  - intros s. repeat split; reflexivity || (intros; eauto); by eexists.
  - intros s1 s2 s3 (A1 & B1 & C1) (A2 & B2 & C2). split; [by transitivity (ap_sessions s2)|].
    split; [by transitivity (ap_dpop_seen s2) | by transitivity (ap_assertions_seen s2)].
Qed.
Lemma cache_insert (m : gmap string Z) k v : (forall v0, m !! k = Some v0 -> v0 <= v) -> cache_grows m (<[k := v]> m).
Proof.
  intros H k' v0 H0. destruct (decide (k = k')) as [<-|Hk].
  - exists v. rewrite lookup_insert_eq. auto.
  - exists v0. rewrite lookup_insert_ne by done. split; [done|lia].
Qed.

Lemma evolves_update p f t :
  (forall r, p r = true -> is_Some (ax_revoked_at r) -> dead_as r (f r)) -> sessions_evolve t (fst (update_sessions p f t)).
Proof.
  intros Hf. unfold update_sessions. destruct (sessions_distinct (update_where p f (rows t))) eqn:E; simpl; [|reflexivity].
  split; [done|]. intros r Hr Hd. destruct (p r) eqn:Hp; [exists (f r)|exists r]; (split; [|by auto || done]).
  - apply update_where_elem. left. by exists r.
  - apply update_where_elem. by right.
Qed.
Lemma evolves_live p f t : (forall r, p r = true -> ax_revoked_at r = None) -> sessions_evolve t (fst (update_sessions p f t)).
Proof. intros H. apply evolves_update. intros r Hp [x Hd]. rewrite (H r Hp) in Hd. done. Qed.
Lemma by_request_uri_live uri r : by_request_uri uri r = true -> ax_revoked_at r = None.
Proof. unfold by_request_uri. intros [_ H]%andb_true_iff. by destruct (ax_revoked_at r). Qed.
Lemma by_code_live now code r : by_code now code r = true -> ax_revoked_at r = None.
Proof. unfold by_code. intros [[_ H]%andb_true_iff _]%andb_true_iff. by destruct (ax_revoked_at r). Qed.
Lemma session_refresh_live_live now hash r : session_refresh_live now hash r = true -> ax_revoked_at r = None.
Proof. unfold session_refresh_live. intros [[[_ H]%andb_true_iff _]%andb_true_iff _]%andb_true_iff. by destruct (ax_revoked_at r). Qed.
Lemma coalesce_now_some now o : is_Some (coalesce_now now o).
Proof. destruct o; by eexists. Qed.
Lemma evolves_revoke_all now p t : sessions_evolve t (fst (revoke_all now p t)).
Proof.
  unfold revoke_all. split; simpl.
  - intros H. rewrite sessions_distinct_update; [done|]. by intros r.
  - intros r Hr Hd. destruct (p r) eqn:Hp; [exists (ax_revoke now r)|exists r].
    + split; [apply update_where_elem; left; by exists r|]. repeat split. apply coalesce_now_some.
    + split; [apply update_where_elem; by right|]. done.
Qed.
Lemma evolves_insert now p t : sessions_evolve t (fst (create_par now p t)).
Proof.
  unfold create_par, insert_row. simpl. destruct (sessions_distinct (rows t ++ [_])) eqn:E; simpl; [|reflexivity].
  split; [done|]. intros r Hr Hd. exists r. split; [apply elem_of_app; by left|done].
Qed.

Section safety.
Context `{HN : Nostr, HC : !NostrCrypto, HS : !Serde, HX : !Secrets, HD : Digests, HE : !Encodings, HV : !HttpEvents, HU : UcanLib,
          HM : !UcanMint, HL : UrlLib, HUni : Unicode, HT : TenantSerde, HSt : StatusText, HP : UrlPages, HUP : !UrlParts,
          HW : !Web, HJ : Jose, HA : AccessTokens, HPr : Provisioning}.
Variables (env : atproto_env) (tenants : tenant_env) (cfg : account_config) (penv : provisioning_env).

Notation evolving := (keeps (fun s : atproto_state => s) ap_evolves).

Lemma evolving_sessions {A} (f : sessions -> sessions * result A RepositoryError) s :
  sessions_evolve (ap_sessions s) (fst (f (ap_sessions s))) -> evolving s (on_sessions f).
Proof.
  intros H. unfold keeps, on_sessions. destruct (f (ap_sessions s)) as [t r]. simpl in *.
  split; [done|]. split; reflexivity.
Qed.
Lemma evolving_same {A} s (c : ApM A) :
  ap_sessions (fst (c s)) = ap_sessions s -> ap_dpop_seen (fst (c s)) = ap_dpop_seen s ->
  ap_assertions_seen (fst (c s)) = ap_assertions_seen s -> evolving s c.
Proof. intros E1 E2 E3. unfold keeps. split; [|split]; rewrite ?E1, ?E2, ?E3; reflexivity. Qed.

Lemma evolving_dpop now k s : evolving s (dpop_replay now k).
Proof.
  unfold keeps, dpop_replay. destruct (ap_dpop_seen s !! k) as [v|] eqn:E;
    [destruct (Z.ltb_spec (now - v) DPOP_MAX_IAT_SKEW_SECONDS) as [Hv|Hv]|]; simpl; [reflexivity| |]; (split; [reflexivity|split; [|reflexivity]]);
    apply cache_insert; intros v0 H0; rewrite E in H0; [|done]. injection H0 as ->. unfold DPOP_MAX_IAT_SKEW_SECONDS in Hv. lia.
Qed.
Lemma evolving_assertion now k exp s : now < exp -> evolving s (assertion_replay now k exp).
Proof.
  intros Hexp. unfold keeps, assertion_replay. destruct (ap_assertions_seen s !! k) as [v|] eqn:E;
    [destruct (Z.leb_spec now v) as [Hv|Hv]|]; simpl; [reflexivity| |]; (split; [reflexivity|split; [reflexivity|]]);
    apply cache_insert; intros v0 H0; rewrite E in H0; [|done]. injection H0 as ->. lia.
Qed.
Lemma deny_ok b msg u : deny b msg = Ok u <-> b = false.
Proof. unfold deny. destruct u, b; split; congruence. Qed.
Lemma ap_lift_ok {A} (r : result A AccountError) s s' a : ap_lift r s = (s', Ok a) -> s' = s /\ r = Ok a.
Proof. unfold ap_lift, se_lift. intros [= <- H]. by apply map_err_ok in H. Qed.
Lemma check_assertion_claims_ok now client_id auds claims u :
  check_assertion_claims now client_id auds claims = Ok u ->
  ca_iss claims = client_id /\ ca_sub claims = client_id /\ aud_matches_expected (ca_aud claims) auds = true /\
  now < ca_exp claims <= now + CLIENT_ASSERTION_MAX_EXP_SKEW_SECONDS.
Proof.
  unfold check_assertion_claims. intros H. inv_ok. repeat match goal with H : deny _ _ = Ok _ |- _ => apply deny_ok in H end.
  bool_to_prop. repeat split; done || lia.
Qed.

(** The claims of an assertion and of a proof depend on their text alone. *)
Definition assertion_claims (a : string) : option ClientAssertionClaims :=
  match compact_jwt_parts a with Ok (_, cb, _, _) => de_ClientAssertionClaims cb | Err _ => None end.
Lemma check_assertion_ok now client_id ty a auds keys jkt header claims key_jkt :
  check_assertion now client_id ty a auds keys jkt = Ok (header, claims, key_jkt) ->
  (exists assertion, a = Some assertion /\ assertion_claims assertion = Some claims) /\
  ca_iss claims = client_id /\ ca_sub claims = client_id /\ aud_matches_expected (ca_aud claims) auds = true /\ now < ca_exp claims.
Proof.
  unfold check_assertion, assertion_claims, assertion_field. intros H. inv_ok.
  destruct x2 as [[[hb cb] sb] input]. inv_ok. repeat match goal with H : check_assertion_claims _ _ _ _ = Ok _ |- _ => apply check_assertion_claims_ok in H end.
  destruct_and?. split; [|done]. eexists. split; [reflexivity|].
  by match goal with H : compact_jwt_parts _ = Ok _ |- _ => rewrite H end.
Qed.

Lemma evolving_verify now client_id ty a auds keys jkt s : evolving s (verify_client_assertion now client_id ty a auds keys jkt).
Proof.
  unfold verify_client_assertion. apply keeping_bind; [apply _|by apply keeping_same; [apply _|]|].
  intros [[header claims] key_jkt] s1 [-> H]%ap_lift_ok. apply check_assertion_ok in H as (_ & _ & _ & _ & Hexp).
  apply keeping_bind; [apply _|by apply evolving_assertion|]. intros ? ? _. by apply keeping_same; [apply _|].
Qed.

Ltac evolve :=
  repeat first
  [ progress keep
  | match goal with
    | |- keeps _ _ _ (ap_lift _) => apply keeping_same; [apply _|done]
    | |- keeps _ _ _ (ap_fail _) => apply keeping_same; [apply _|done]
    | |- keeps _ _ _ (read_sessions _) => apply keeping_same; [apply _|done]
    | |- keeps _ _ _ (verify_client_assertion _ _ _ _ _ _ _) => apply evolving_verify
    | |- keeps _ _ _ (dpop_replay _ _) => apply evolving_dpop
    end ].

Lemma evolving_proof now q m path nonce ath s : evolving s (validate_dpop_proof now q m path nonce ath).
Proof. unfold validate_dpop_proof. evolve. Qed.
Lemma evolving_par_binding now request s : evolving s (validate_par_client_binding env now request).
Proof. unfold validate_par_client_binding. evolve. Qed.
Lemma evolving_session_binding now session ty a s : evolving s (enforce_session_client_binding env now session ty a).
Proof. unfold enforce_session_client_binding. evolve. Qed.
Lemma evolving_tenant now q s : evolving s (request_tenant_id env tenants now q).
Proof.
  unfold request_tenant_id. evolve. apply evolving_same; by destruct (get_or_create_tenant tenants now _ (ap_tenants _)).
Qed.
Lemma evolving_par now drawn_uri nonce q request s : evolving s (par env tenants now drawn_uri nonce q request).
Proof.
  unfold par. evolve; auto using evolving_proof, evolving_par_binding, evolving_tenant. apply evolving_sessions, evolves_insert.
Qed.

Lemma evolving_approve now uri user did code s : evolving s (approve now uri user did code).
Proof.
  unfold approve. evolve.
  - unfold keeps. apply (evolving_sessions (approve_request now uri user did (ap_db s))). unfold approve_request.
    case_if; [reflexivity|]. apply evolves_live, by_request_uri_live.
  - apply evolving_sessions, evolves_live, by_request_uri_live.
Qed.
Lemma evolving_authorize now code q uri s : evolving s (atproto_authorize env now cfg code q uri).
Proof. unfold atproto_authorize. evolve; auto using evolving_approve. Qed.

Lemma evolving_bound now session request revoke s :
  (forall t, sessions_evolve t (fst (revoke t))) -> evolving s (bound_or_revoked env now session request revoke).
Proof.
  intros Hr. unfold keeps, bound_or_revoked.
  pose proof (evolving_session_binding now session (aq_client_assertion_type request) (aq_client_assertion request) s) as H.
  unfold keeps in H. destruct (enforce_session_client_binding _ _ _ _ _ _) as [s' [?|[e|]]]; simpl in *; [done| |done].
  transitivity s'; [done|]. split; [apply Hr|]. split; reflexivity.
Qed.
Lemma evolving_session_proof now q session e1 e2 s : evolving s (session_proof now q session e1 e2).
Proof. unfold session_proof. evolve; auto using evolving_proof. Qed.
Lemma evolves_revoke_request now uri t : sessions_evolve t (fst (revoke_session_of_request now uri t)).
Proof. apply evolves_update. intros r _ Hd. repeat split. apply coalesce_now_some. Qed.
Lemma evolves_revoke_refresh now hash t : sessions_evolve t (fst (revoke_refresh_session now hash t)).
Proof. apply evolves_update. intros r _ Hd. repeat split. apply coalesce_now_some. Qed.
Lemma evolving_code_grant now dr q request s : evolving s (code_grant env now dr q request).
Proof.
  unfold code_grant. evolve; auto using evolving_bound, evolves_revoke_request, evolving_session_proof.
  - apply evolving_sessions, evolves_live, by_code_live.
  - apply evolving_sessions, evolves_live, by_request_uri_live.
Qed.
Lemma evolving_refresh_grant now dr q request s : evolving s (refresh_grant env now dr q request).
Proof.
  unfold refresh_grant. evolve; auto using evolving_bound, evolves_revoke_refresh, evolving_session_proof.
  apply evolving_sessions, evolves_live. intros r [_ H]%andb_true_iff. by apply session_refresh_live_live in H.
Qed.
Lemma evolving_token now dr q request s : evolving s (atproto_token env now dr q request).
Proof. unfold atproto_token. evolve; auto using evolving_code_grant, evolving_refresh_grant. Qed.

Lemma evolving_control {A} (c : SE atproto_state AtprotoControlError A) s : evolving s c -> evolving s (control c).
Proof. unfold keeps, control. by destruct (c s). Qed.
Lemma evolving_ct_repo {A} (c : DbM A) s : evolving s (ct_repo c).
Proof. unfold keeps, ct_repo. destruct (c (ap_db s)). simpl. split; [reflexivity|split; reflexivity]. Qed.
Lemma evolving_ct_some {A} (f : Db -> option A) e s : evolving s (ct_some f e).
Proof. by apply keeping_same; [apply _|]. Qed.
Lemma evolving_revoke_user {E} now pk s : keeps (fun s => s) ap_evolves s (@se_modify _ E (revoke_user_sessions now pk)).
Proof. unfold keeps. simpl. split; [apply evolves_revoke_all|split; reflexivity]. Qed.
Lemma evolving_enable now tenant_id q username s : evolving s (enable_atproto now cfg penv tenant_id q username).
Proof.
  unfold enable_atproto, enable_user_atproto_with_trigger, enable_user_atproto. evolve. apply evolving_control.
  evolve; auto using evolving_ct_repo, evolving_ct_some.
Qed.
Lemma evolving_sync now q request s : evolving s (internal_sync_atproto now penv q request).
Proof.
  unfold internal_sync_atproto, sync_user_atproto_state_by_pubkey. evolve; auto using evolving_revoke_user. apply evolving_control.
  evolve; auto using evolving_ct_repo, evolving_ct_some.
Qed.
Lemma evolving_disable now tenant_id q s : evolving s (disable_atproto now cfg penv tenant_id q).
Proof.
  unfold disable_atproto, disable_user_atproto_with_trigger, disable_user_atproto_and_revoke_sessions, disable_user_atproto.
  evolve. apply evolving_control. evolve; auto using evolving_ct_repo, evolving_ct_some, evolving_revoke_user.
Qed.

(** ** Requests in any order, at any times, with any outcome *)
Inductive ap_step : atproto_state -> atproto_state -> Prop :=
| StepPar now drawn_uri nonce q request s : ap_step s (fst (par env tenants now drawn_uri nonce q request s))
| StepAuthorize now code q uri s : ap_step s (fst (atproto_authorize env now cfg code q uri s))
| StepToken now dr q request s : ap_step s (fst (atproto_token env now dr q request s))
| StepEnable now tenant_id q username s : ap_step s (fst (enable_atproto now cfg penv tenant_id q username s))
| StepSync now q request s : ap_step s (fst (internal_sync_atproto now penv q request s))
| StepDisable now tenant_id q s : ap_step s (fst (disable_atproto now cfg penv tenant_id q s)).

Lemma steps_evolve s s' : steps ap_step s s' -> ap_evolves s s'.
Proof.
  induction 1 as [|s1 s2 s3 H _ IH]; [reflexivity|]. transitivity s2; [|done]. clear IH.
  destruct H; [apply evolving_par|apply evolving_authorize|apply evolving_token|apply evolving_enable|apply evolving_sync|apply evolving_disable].
Qed.

(** ** Client assertions *)
Lemma assertion_remembered now client_id ty a auds keys jkt s s' b :
  verify_client_assertion now client_id ty (Some a) auds keys jkt s = (s', Ok b) ->
  exists claims, assertion_claims a = Some claims /\ now < ca_exp claims /\
    ap_assertions_seen s' !! (client_id +:+ ":" +:+ ca_jti claims) = Some (ca_exp claims) /\
    (forall e, ap_assertions_seen s !! (client_id +:+ ":" +:+ ca_jti claims) = Some e -> e < now).
Proof.
  unfold verify_client_assertion. intros H. apply se_bind_ok in H as (s1 & [[header claims] key_jkt] & [-> H1]%ap_lift_ok & H).
  apply check_assertion_ok in H1 as ((? & [= <-] & Hc) & _ & _ & _ & Hexp).
  apply se_bind_ok in H as (s2 & [] & H2 & [-> _]%se_ret_ok). exists claims. split; [done|]. split; [done|].
  unfold assertion_replay in H2. destruct (ap_assertions_seen s !! _) as [e|] eqn:E.
  - destruct (Z.leb_spec now e); [done|]. injection H2 as <-. simpl. rewrite lookup_insert_eq. split; [done|]. by intros ? [= <-].
  - injection H2 as <-. simpl. rewrite lookup_insert_eq. done.
Qed.

(** [C16] A client assertion is accepted once: after one was accepted, whatever
    requests follow, at whatever times, the same text is refused for the same
    client, with any keys and audiences; so it does not authenticate a client
    twice. *)
Theorem client_assertion_accepted_once now1 client_id ty1 a auds1 keys1 jkt1 s0 s1 b s2 :
  verify_client_assertion now1 client_id ty1 (Some a) auds1 keys1 jkt1 s0 = (s1, Ok b) -> steps ap_step s1 s2 ->
  forall now2 ty2 auds2 keys2 jkt2, is_ok (snd (verify_client_assertion now2 client_id ty2 (Some a) auds2 keys2 jkt2 s2)) = false.
Proof.
  intros H (_ & _ & Hg)%steps_evolve now2 ty2 auds2 keys2 jkt2.
  apply assertion_remembered in H as (claims & Hc & _ & Hseen & _). apply Hg in Hseen as (v & Hv & Hle).
  destruct (verify_client_assertion now2 client_id ty2 (Some a) auds2 keys2 jkt2 s2) as [s3 [b2|]] eqn:E; [|done].
  apply assertion_remembered in E as (claims2 & Hc2 & Hexp & _ & Hold). rewrite Hc in Hc2. injection Hc2 as <-.
  apply Hold in Hv. lia.
Qed.

(** ** DPoP proofs *)
Definition dpop_claims (q : http_request) : option DpopProofClaims :=
  match read_dpop_proof q with Ok (_, claims, _, _) => Some claims | Err _ => None end.
Lemma read_dpop_proof_text q q' : header_text "dpop" q = header_text "dpop" q' -> read_dpop_proof q = read_dpop_proof q'.
Proof. unfold read_dpop_proof. by intros ->. Qed.
Lemma check_dpop_claims_ok now m path nonce ath claims u :
  check_dpop_claims now m path nonce ath claims = Ok u ->
  eq_ignore_ascii_case (dc_htm claims) m = true /\ dpop_htu_matches_expected (dc_htu claims) path = true /\
  now - DPOP_MAX_IAT_SKEW_SECONDS <= dc_iat claims <= now + DPOP_MAX_IAT_SKEW_SECONDS /\
  (forall n, nonce = Some n -> dc_nonce claims = Some n).
Proof.
  unfold check_dpop_claims. intros H. inv_ok. repeat match goal with H : deny _ _ = Ok _ |- _ => apply deny_ok in H end.
  bool_to_prop. split; [done|]. split; [done|]. split; [lia|]. intros n ->. by repeat (match goal with H : deny _ _ = Ok _ |- _ => apply deny_ok in H end; bool_to_prop).
Qed.
(** The signature of a proof by the key its header carries. *)
Definition dpop_signed (header : DpopProofHeader) (signature_bytes : list Z) (signing_input : string) : Prop :=
  exists key signature, p256_point "" "" "" "" (dj_x (dh_jwk header)) (dj_y (dh_jwk header)) = Ok key /\
    p256_signature signature_bytes = Some signature /\ p256_verify key (bytes_of signing_input) signature = true.
Lemma p256_point_msg a b c d x y key : p256_point a b c d x y = Ok key -> p256_point "" "" "" "" x y = Ok key.
Proof. unfold p256_point. intros H. inv_ok. rewrite H, H0. simpl. apply deny_ok in H1. rewrite H1. simpl. by rewrite H2. Qed.

Lemma dpop_proof_ok now q m path nonce ath s s' jkt :
  validate_dpop_proof now q m path nonce ath s = (s', Ok jkt) ->
  exists header claims sb input, read_dpop_proof q = Ok (header, claims, sb, input) /\ dpop_signed header sb input /\
    check_dpop_claims now m path nonce ath claims = Ok tt /\ jkt = dpop_jwk_thumbprint (dh_jwk header) /\
    ap_dpop_seen s' !! (jkt +:+ ":" +:+ dc_jti claims) = Some now /\
    (forall v, ap_dpop_seen s !! (jkt +:+ ":" +:+ dc_jti claims) = Some v -> v + DPOP_MAX_IAT_SKEW_SECONDS <= now) /\
    s' = set_ap_dpop (ap_dpop_seen s') s.
Proof.
  unfold validate_dpop_proof. intros H. apply se_bind_ok in H as (s1 & [[[header claims] sb] input] & [-> H1]%ap_lift_ok & H).
  apply se_bind_ok in H as (s2 & [] & [-> H2]%ap_lift_ok & H). apply se_bind_ok in H as (s3 & [] & [-> H3]%ap_lift_ok & H).
  apply se_bind_ok in H as (s4 & [] & H4 & [-> ->]%se_ret_ok). exists header, claims, sb, input. split; [done|]. split.
  { unfold check_dpop_signature in H2. inv_ok. clear H1. repeat match goal with H : p256_point _ _ _ _ _ _ = _ |- _ => apply p256_point_msg in H end.
    match goal with H : deny (negb (p256_verify _ _ _)) _ = _ |- _ => apply deny_ok, negb_false_iff in H end. by eexists _, _. }
  split; [done|]. split; [done|]. unfold dpop_replay in H4.
  destruct (ap_dpop_seen s !! _) as [v|] eqn:E.
  - destruct (Z.ltb_spec (now - v) DPOP_MAX_IAT_SKEW_SECONDS); [done|]. injection H4 as <-. simpl. rewrite lookup_insert_eq.
    split; [done|]. split; [|done]. intros ? [= <-]. lia.
  - injection H4 as <-. simpl. by rewrite lookup_insert_eq.
Qed.

(** [C33] A DPoP proof accepted again was dated at or after its first use: the
    second acceptance comes at least five minutes after the first, whatever
    requests came between, and within five minutes of the date in the proof.  A
    proof whose date lies before its first use is never accepted again. *)
Theorem dpop_replay_window now1 q1 m1 p1 n1 a1 s0 s1 jkt1 s2 now2 q2 m2 p2 n2 a2 s3 jkt2 :
  validate_dpop_proof now1 q1 m1 p1 n1 a1 s0 = (s1, Ok jkt1) -> steps ap_step s1 s2 ->
  header_text "dpop" q2 = header_text "dpop" q1 -> validate_dpop_proof now2 q2 m2 p2 n2 a2 s2 = (s3, Ok jkt2) ->
  exists claims, dpop_claims q1 = Some claims /\ now1 <= dc_iat claims /\
    now1 + DPOP_MAX_IAT_SKEW_SECONDS <= now2 <= dc_iat claims + DPOP_MAX_IAT_SKEW_SECONDS.
Proof.
  intros H1 (_ & Hg & _)%steps_evolve Hq H2.
  apply dpop_proof_ok in H1 as (header & claims & sb & input & Hr & _ & _ & -> & Hseen & _).
  apply dpop_proof_ok in H2 as (header2 & claims2 & sb2 & input2 & Hr2 & _ & Hc2 & -> & _ & Hold & _).
  rewrite (read_dpop_proof_text _ _ Hq), Hr in Hr2. injection Hr2 as <- <- _ _.
  apply Hg in Hseen as (v & Hv & Hle). apply Hold in Hv. apply check_dpop_claims_ok in Hc2 as (_ & _ & Hiat & _).
  exists claims. unfold dpop_claims. rewrite Hr. split; [done|]. lia.
Qed.

(** ** Exchanges *)
Lemma keeping_sessions_proof now q m path nonce ath s : keeps ap_sessions eq s (validate_dpop_proof now q m path nonce ath).
Proof.
  unfold validate_dpop_proof. keep; try (by apply keeping_same; [apply _|]).
  unfold keeps, dpop_replay. by case_if.
Qed.
Lemma keeping_sessions_verify now client_id ty a auds keys jkt s :
  keeps ap_sessions eq s (verify_client_assertion now client_id ty a auds keys jkt).
Proof.
  unfold verify_client_assertion. keep; try (by apply keeping_same; [apply _|]).
  unfold keeps, assertion_replay. by case_if.
Qed.
Lemma bound_sessions now session request revoke s s' u :
  bound_or_revoked env now session request revoke s = (s', Ok u) -> ap_sessions s' = ap_sessions s.
Proof.
  unfold bound_or_revoked.
  assert (H : keeps ap_sessions eq s (enforce_session_client_binding env now session (aq_client_assertion_type request) (aq_client_assertion request))).
  { unfold enforce_session_client_binding. keep; auto using keeping_sessions_verify; by apply keeping_same; [apply _|]. }
  unfold keeps in H. destruct (enforce_session_client_binding _ _ _ _ _ _) as [s1 [?|[e|]]]; [|done..].
  by intros [= <- _].
Qed.

(** A proof of possession of the key and with the nonce of a session. *)
Definition possession (q : http_request) (session : AtprotoOAuthSession) (jkt : string) : Prop :=
  exists header claims sb input, read_dpop_proof q = Ok (header, claims, sb, input) /\ dpop_signed header sb input /\
    jkt = dpop_jwk_thumbprint (dh_jwk header) /\ ax_dpop_jkt session = Some jkt /\
    is_Some (ax_dpop_nonce session) /\ dc_nonce claims = ax_dpop_nonce session.
Lemma session_proof_ok now q session e1 e2 s s' jkt :
  session_proof now q session e1 e2 s = (s', Ok jkt) -> ap_sessions s' = ap_sessions s /\ possession q session jkt.
Proof.
  unfold session_proof. intros H. apply se_bind_ok in H as (s1 & nonce & [-> Hn]%ap_lift_ok & H).
  apply se_bind_ok in H as (s2 & proof_jkt & Hp & H). apply se_bind_ok in H as (s3 & expected & [-> He]%ap_lift_ok & H).
  apply se_bind_ok in H as (s4 & [] & [-> Hd]%ap_lift_ok & [-> ->]%se_ret_ok). apply ok_or_ok in Hn, He.
  apply deny_ok in Hd. bool_to_prop. subst expected.
  pose proof (keeping_sessions_proof now q "POST" TOKEN_PATH_SUFFIX (Some nonce) None s) as Hk. unfold keeps in Hk. rewrite Hp in Hk.
  split; [by rewrite Hk|]. apply dpop_proof_ok in Hp as (header & claims & sb & input & Hr & Hs & Hc & Hj & _).
  exists header, claims, sb, input. apply check_dpop_claims_ok in Hc as (_ & _ & _ & Hnn).
  split; [done|]. split; [done|]. split; [done|]. split; [done|]. rewrite Hn. split; [by eexists|]. by apply Hnn.
Qed.

Lemma on_sessions_ok {A} (f : sessions -> sessions * result A RepositoryError) s s' a :
  on_sessions f s = (s', Ok a) -> f (ap_sessions s) = (ap_sessions s', Ok a) /\ ap_db s' = ap_db s.
Proof. unfold on_sessions. destruct (f (ap_sessions s)) as [t r]. intros [= <- H]. apply map_err_ok in H. by subst. Qed.
Lemma update_sessions_ok p f t t' o :
  update_sessions p f t = (t', Ok o) -> rows t' = update_where p f (rows t) /\ sessions_distinct (rows t') = true.
Proof. unfold update_sessions. destruct (sessions_distinct (update_where p f (rows t))) eqn:E; [|done]. by intros [= <- _]. Qed.
Lemma update_sessions_in p f t t' o r : update_sessions p f t = (t', Ok o) -> r ∈ rows t -> p r = true -> f r ∈ rows t'.
Proof. intros [-> _]%update_sessions_ok Hr Hp. apply update_where_elem. left. by exists r. Qed.

(** What a successful exchange of a code went through. *)
Lemma atproto_code_grant_ok now dr q request s s' n resp :
  code_grant env now dr q request s = (s', Ok (n, resp)) ->
  exists session code verifier jkt t1 o1 o2,
    aq_code request = Some code /\ find_by_authorization_code now code (ap_sessions s) = Some session /\
    aq_client_id request = Some (ax_client_id session) /\ aq_redirect_uri request = Some (ax_redirect_uri session) /\
    aq_code_verifier request = Some verifier /\ ax_code_challenge session = Some (pkce_challenge verifier) /\
    ax_code_challenge_method session = Some "S256" /\ possession q session jkt /\ ax_atproto_did session = Some (ap_sub resp) /\
    create_access_token env now (ap_sub resp) (td_jti dr) jkt = Ok (ap_access_token resp) /\
    ap_refresh_token resp = td_refresh_token dr /\
    consume_authorization_code now code (ap_sessions s) = (t1, Ok o1) /\
    store_token_artifacts now (ax_request_uri session) (issue_params now code now dr jkt) t1 = (ap_sessions s', Ok o2).
Proof.
  unfold code_grant. intros H. apply se_bind_ok in H as (? & code & [-> H1]%ap_lift_ok & H).
  apply se_bind_ok in H as (? & client_id & [-> H2]%ap_lift_ok & H). apply se_bind_ok in H as (? & redirect_uri & [-> H3]%ap_lift_ok & H).
  apply se_bind_ok in H as (? & verifier & [-> H4]%ap_lift_ok & H). apply se_bind_ok in H as (? & found & [-> ->]%se_gets_ok & H).
  apply se_bind_ok in H as (? & session & [-> H5]%ap_lift_ok & H). apply se_bind_ok in H as (? & [] & [-> H6]%ap_lift_ok & H).
  apply se_bind_ok in H as (s1 & [] & H7 & H). apply se_bind_ok in H as (? & [] & [-> H8]%ap_lift_ok & H).
  apply se_bind_ok in H as (? & [] & [-> H9]%ap_lift_ok & H). apply se_bind_ok in H as (s2 & jkt & H10 & H).
  apply se_bind_ok in H as (s3 & o1 & H11 & H). apply se_bind_ok in H as (? & r1 & [-> H12]%ap_lift_ok & H).
  apply se_bind_ok in H as (? & did & [-> H13]%ap_lift_ok & H). apply se_bind_ok in H as (? & access_token & [-> H14]%ap_lift_ok & H).
  apply se_bind_ok in H as (s4 & o2 & H15 & [-> H]%ap_lift_ok).
  apply ok_or_ok in H1, H2, H3, H4, H5, H13. apply deny_ok in H6, H8, H9. bool_to_prop.
  apply bound_sessions in H7. apply session_proof_ok in H10 as [E10 Hp]. apply on_sessions_ok in H11 as [H11 _]. apply on_sessions_ok in H15 as [H15 _].
  unfold token_response, response_with_dpop_nonce in H. case_if; [|done]. injection H as <- <-. simpl.
  exists session, code, verifier, jkt, (ap_sessions s3), o1, o2. rewrite E10, H7 in H11.
  subst. split_and!; done.
Qed.

Lemma by_code_iff now code r :
  by_code now code r = true <->
  ax_authorization_code r = Some code /\ ax_revoked_at r = None /\ exists e, ax_authorization_code_expires_at r = Some e /\ now < e.
Proof.
  unfold by_code, after. destruct (ax_revoked_at r), (ax_authorization_code_expires_at r) as [e|]; simpl;
    rewrite ?andb_false_r, ?andb_true_r; split; try done; try (by intros (_ & ? & _)); try (by intros (_ & _ & ? & ? & _)).
  - intros [H1 H2]%andb_true_iff. bool_to_prop. split; [done|]. split; [done|]. by exists e.
  - intros (H1 & _ & e' & [= <-] & H2). apply andb_true_iff. split; [by apply bool_decide_eq_true|by apply Z.ltb_lt].
Qed.

(** No session answers to the code after it was exchanged. *)
Lemma code_spent now code uri dr jkt t t1 o1 t2 o2 now' r :
  consume_authorization_code now code t = (t1, Ok o1) ->
  store_token_artifacts now uri (issue_params now code now dr jkt) t1 = (t2, Ok o2) -> now <= now' -> r ∈ rows t2 ->
  by_code now' code r = false.
Proof.
  intros [E1 _]%update_sessions_ok [E2 _]%update_sessions_ok Hnow Hr. destruct (by_code now' code r) eqn:Hb; [|done].
  apply by_code_iff in Hb as (Hc & Hrev & e & He & Hlt). rewrite E2 in Hr.
  apply update_where_elem in Hr as [(r1 & _ & _ & ->)|[Hr _]]; simpl in *; [injection He as <-; lia|].
  rewrite E1 in Hr. apply update_where_elem in Hr as [(r0 & _ & _ & ->)|[Hr Hn]]; [done|].
  assert (Ht : by_code now code r = true); [|by rewrite Ht in Hn]. apply by_code_iff. split; [done|]. split; [done|]. exists e. split; [done|lia].
Qed.

(** [C10] A code is exchanged only for its live session: by the client and with
    the redirect URI of the session, the verifier of its S256 challenge, and a
    signed DPoP proof of the key the request was pushed with, over the nonce of
    the session.  The access token is for the identity that approved the request
    and bound to that key.  Afterwards the code is refused, at any time. *)
Theorem atproto_code_grant_sound now dr q request s s' n resp :
  code_grant env now dr q request s = (s', Ok (n, resp)) ->
  exists session code verifier jkt, session ∈ rows (ap_sessions s) /\ aq_code request = Some code /\
    ax_authorization_code session = Some code /\ ax_revoked_at session = None /\
    aq_client_id request = Some (ax_client_id session) /\ aq_redirect_uri request = Some (ax_redirect_uri session) /\
    aq_code_verifier request = Some verifier /\ ax_code_challenge_method session = Some "S256" /\
    ax_code_challenge session = Some (pkce_challenge verifier) /\ possession q session jkt /\
    ax_atproto_did session = Some (ap_sub resp) /\
    create_access_token env now (ap_sub resp) (td_jti dr) jkt = Ok (ap_access_token resp) /\
    forall now' dr' q' request', now <= now' -> aq_code request' = Some code ->
      is_ok (snd (code_grant env now' dr' q' request' s')) = false.
Proof.
  intros H. apply atproto_code_grant_ok in H as (session & code & verifier & jkt & t1 & o1 & o2 & Hcode & Hfound & Hcl & Hre & Hve & Hch & Hm & Hp & Hdid & Hat & _ & Hc & Hst).
  exists session, code, verifier, jkt. apply find_first_Some in Hfound as [Hin Hb]. apply by_code_iff in Hb as (Hac & Hrev & _).
  split_and!; try done. intros now' dr' q' request' Hnow Hreq.
  destruct (code_grant env now' dr' q' request' s') as [s2 [[n2 resp2]|]] eqn:E; [|done].
  apply atproto_code_grant_ok in E as (session2 & code2 & v2 & jkt2 & u1 & p1 & p2 & Hcode2 & Hfound2 & _).
  rewrite Hreq in Hcode2. injection Hcode2 as <-. apply find_first_Some in Hfound2 as [Hin2 Hb2].
  by rewrite (code_spent _ _ _ _ _ _ _ _ _ _ _ _ Hc Hst Hnow Hin2) in Hb2.
Qed.

(** What a successful exchange of a refresh token went through. *)
Lemma refresh_grant_ok now dr q request s s' n resp :
  refresh_grant env now dr q request s = (s', Ok (n, resp)) ->
  exists session tok jkt, aq_refresh_token request = Some tok /\
    session ∈ rows (ap_sessions s) /\ session_refresh_live now (hash_refresh_token tok) session = true /\
    aq_client_id request = Some (ax_client_id session) /\ possession q session jkt /\
    ax_atproto_did session = Some (ap_sub resp) /\ create_access_token env now (ap_sub resp) (td_jti dr) jkt = Ok (ap_access_token resp).
Proof.
  unfold refresh_grant. intros H. apply se_bind_ok in H as (? & tok & [-> H1]%ap_lift_ok & H).
  apply se_bind_ok in H as (? & client_id & [-> H2]%ap_lift_ok & H). apply se_bind_ok in H as (? & found & [-> ->]%se_gets_ok & H).
  apply se_bind_ok in H as (? & session & [-> H5]%ap_lift_ok & H). apply se_bind_ok in H as (? & [] & [-> H6]%ap_lift_ok & H).
  apply se_bind_ok in H as (s1 & [] & H7 & H). apply se_bind_ok in H as (s2 & jkt & H10 & H).
  apply se_bind_ok in H as (? & did & [-> H13]%ap_lift_ok & H). apply se_bind_ok in H as (? & access_token & [-> H14]%ap_lift_ok & H).
  apply se_bind_ok in H as (s4 & o2 & H15 & H). apply se_bind_ok in H as (? & r & [-> H16]%ap_lift_ok & [-> H]%ap_lift_ok).
  apply ok_or_ok in H1, H2, H5, H13. apply deny_ok in H6. bool_to_prop. apply session_proof_ok in H10 as [_ Hp].
  unfold token_response, response_with_dpop_nonce in H. case_if; [|done]. injection H as <- <-. simpl.
  apply find_first_Some in H5 as [Hin Hl]. exists session, tok, jkt. subst. split_and!; done.
Qed.
Lemma session_refresh_live_hash now hash r : session_refresh_live now hash r = true -> ax_refresh_token_hash r = Some hash.
Proof. unfold session_refresh_live. intros H. bool_to_prop. done. Qed.

(** A revoked session answers to neither its code nor its refresh token. *)
Lemma dead_session_refused r s :
  sessions_distinct (rows (ap_sessions s)) = true -> r ∈ rows (ap_sessions s) -> is_Some (ax_revoked_at r) ->
  (forall tok now dr q request, ax_refresh_token_hash r = Some (hash_refresh_token tok) -> aq_refresh_token request = Some tok ->
     is_ok (snd (refresh_grant env now dr q request s)) = false) /\
  (forall code now dr q request, ax_authorization_code r = Some code -> aq_code request = Some code ->
     is_ok (snd (code_grant env now dr q request s)) = false).
Proof.
  intros Hd Hr [x Hrev]. split.
  - intros tok now dr q request Hh Hq. destruct (refresh_grant env now dr q request s) as [s' [[n resp]|]] eqn:E; [|done].
    apply refresh_grant_ok in E as (session & tok' & jkt & Hq' & Hin & Hl & _). rewrite Hq in Hq'. injection Hq' as <-.
    pose proof (session_refresh_live_hash _ _ _ Hl) as Hh'. apply session_refresh_live_live in Hl.
    rewrite (sessions_distinct_eq _ _ _ Hd Hr Hin (conflict_by_hash _ _ _ Hh Hh')) in Hrev. by rewrite Hl in Hrev.
  - intros code now dr q request Hh Hq. destruct (code_grant env now dr q request s) as [s' [[n resp]|]] eqn:E; [|done].
    apply atproto_code_grant_ok in E as (session & code' & ? & ? & ? & ? & ? & Hq' & Hf & _). rewrite Hq in Hq'. injection Hq' as <-.
    apply find_first_Some in Hf as [Hin Hb]. apply by_code_iff in Hb as (Hh' & Hl & _).
    rewrite (sessions_distinct_eq _ _ _ Hd Hr Hin (conflict_by_code _ _ _ Hh Hh')) in Hrev. by rewrite Hl in Hrev.
Qed.

(** ** Disabling *)
Lemma ct_some_ok {A} (f : Db -> option A) e s s' a : ct_some f e s = (s', Ok a) -> s' = s /\ f (ap_db s) = Some a.
Proof. unfold ct_some. intros [= <- H]. by apply ok_or_ok in H. Qed.
Lemma ct_repo_ok {A} (c : DbM A) s s' a : ct_repo c s = (s', Ok a) -> c (ap_db s) = (ap_db s', Ok a) /\ s' = set_ap_db (ap_db s') s.
Proof. unfold ct_repo. destruct (c (ap_db s)) as [d r]. intros [= <- H]. apply map_err_ok in H. by subst. Qed.
Lemma control_ok {A} (c : SE atproto_state AtprotoControlError A) s s' a : control c s = (s', Ok a) -> c s = (s', Ok a).
Proof. unfold control. destruct (c s) as [t r]. intros [= <- H]. apply map_err_ok in H. by subst. Qed.

(** A user whose link was switched off has no identity to approve with. *)
Lemma unset_not_ready now pk tenant_id state did error d d' u :
  set_atproto_state now pk tenant_id false state did error d = (d', Ok u) -> ready_atproto_identity tenant_id pk d' = None.
Proof.
  unfold set_atproto_state, update_users. intros H. apply se_bind_ok in H as (d1 & n & H1 & H2).
  destruct (users_distinct _); [|done]. injection H1 as <- <-. destruct (_ =? 0)%nat; [done|]. injection H2 as <- _.
  unfold ready_atproto_identity, find_user. simpl. destruct (find_first _ _) as [v|] eqn:Ef; [|done]. simpl.
  apply find_first_Some in Ef as [Hv Hp]. apply update_where_elem in Hv as [(v0 & _ & _ & ->)|[_ Hn]]; [done|]. by rewrite Hp in Hn.
Qed.
Lemma disable_ok now tenant_id q s s' resp :
  disable_atproto now cfg penv tenant_id q s = (s', Ok resp) ->
  exists pk, extract_user_from_token now cfg q tenant_id = Ok pk /\
    ap_sessions s' = fst (revoke_sessions_for_pubkey now pk (ap_sessions s)) /\ ready_atproto_identity tenant_id pk (ap_db s') = None.
Proof.
  unfold disable_atproto, disable_user_atproto_with_trigger, disable_user_atproto_and_revoke_sessions, disable_user_atproto.
  intros H. apply se_bind_ok in H as (? & pk & [-> Hx]%ap_lift_ok & H%control_ok). exists pk. split; [done|].
  apply se_bind_ok in H as (? & u1 & [-> _]%ct_some_ok & H). apply se_bind_ok in H as (? & [] & [-> _]%se_lift_ok & H).
  apply se_bind_ok in H as (s1 & r1 & H1 & H). apply se_bind_ok in H as (s2 & [] & H2 & [-> _]%se_ret_ok).
  injection H2 as <-. apply se_bind_ok in H1 as (? & u2 & [-> _]%ct_some_ok & H1). apply se_bind_ok in H1 as (s3 & [] & [H3 E3]%ct_repo_ok & H1).
  apply se_bind_ok in H1 as (? & st & [-> _]%ct_some_ok & [-> _]%se_ret_ok). simpl. rewrite E3. split; [done|]. simpl.
  by apply unset_not_ready in H3.
Qed.
Lemma user_sessions_dead now pk t r :
  r ∈ rows t -> ax_user_pubkey r = Some pk -> exists r', r' ∈ rows (fst (revoke_sessions_for_pubkey now pk t)) /\ dead_as r r'.
Proof.
  intros Hr Hpk. unfold revoke_sessions_for_pubkey, revoke_all. simpl. destruct (ax_revoked_at r) as [x|] eqn:E.
  - exists r. split; [|by split_and!; [..|eexists]]. apply update_where_elem. right. split; [done|]. rewrite E. simpl. apply andb_false_r.
  - exists (ax_revoke now r). split; [|split_and!; [done..|apply coalesce_now_some]]. apply update_where_elem. left. exists r.
    split; [done|]. split; [|done]. rewrite E, Hpk. simpl. by rewrite bool_decide_true.
Qed.

(** [C11] Switching the link of an account off is final for the sessions it
    approved: whatever requests follow, at any times, neither the code nor the
    refresh token of such a session gets an access token; and the account has no
    ready identity to approve a request with. *)
Theorem disabled_link_gets_no_tokens now tenant_id q s s1 resp s2 pk r :
  sessions_distinct (rows (ap_sessions s)) = true -> extract_user_from_token now cfg q tenant_id = Ok pk ->
  disable_atproto now cfg penv tenant_id q s = (s1, Ok resp) -> r ∈ rows (ap_sessions s) -> ax_user_pubkey r = Some pk ->
  steps ap_step s1 s2 ->
  ready_atproto_identity tenant_id pk (ap_db s1) = None /\
  (forall tok now' dr q' request, ax_refresh_token_hash r = Some (hash_refresh_token tok) -> aq_refresh_token request = Some tok ->
     is_ok (snd (refresh_grant env now' dr q' request s2)) = false) /\
  (forall code now' dr q' request, ax_authorization_code r = Some code -> aq_code request = Some code ->
     is_ok (snd (code_grant env now' dr q' request s2)) = false).
Proof.
  intros Hd Hx H Hr Hpk Hs. pose proof (evolving_disable now tenant_id q s) as Hev. unfold keeps in Hev. rewrite H in Hev.
  apply disable_ok in H as (pk' & Hx' & E & Hready). rewrite Hx in Hx'. injection Hx' as <-. split; [done|].
  destruct (user_sessions_dead now pk _ _ Hr Hpk) as (r1 & Hr1 & E1 & E2 & Hd1). rewrite <- E in Hr1.
  destruct Hev as ((Hev & _) & _). apply steps_evolve in Hs as ((Hs & Hdead) & _).
  destruct (Hdead r1 Hr1 Hd1) as (r2 & Hr2 & E3 & E4 & Hd2). rewrite <- E1, <- E2, <- E3, <- E4.
  apply dead_session_refused; auto.
Qed.

(** ** A second approval *)
Lemma find_unique_uri t uri r r' :
  sessions_distinct (rows t) = true -> find_by_request_uri uri t = Some r -> r' ∈ rows t -> ax_request_uri r' = uri -> r = r'.
Proof.
  intros Hd [Hin Hb]%find_first_Some Hr' Hu. unfold by_request_uri in Hb. bool_to_prop. apply (sessions_distinct_eq _ _ _ Hd Hin Hr').
  unfold sessions_conflict. rewrite bool_decide_true by congruence. done.
Qed.
Lemma approve_ok now uri user did code s s' u r :
  approve now uri user did code s = (s', Ok u) -> r ∈ rows (ap_sessions s) -> by_request_uri uri r = true ->
  exists r', r' ∈ rows (ap_sessions s') /\ ax_refresh_token_hash r' = ax_refresh_token_hash r /\ ax_atproto_did r' = Some did.
Proof.
  unfold approve. intros H Hr Hu. apply se_bind_ok in H as (s1 & o1 & [H1 _]%on_sessions_ok & H).
  apply se_bind_ok in H as (? & r1 & [-> _]%se_lift_ok & H). apply se_bind_ok in H as (s2 & o2 & [H2 _]%on_sessions_ok & H).
  apply se_bind_ok in H as (? & r2 & [-> _]%se_lift_ok & [-> _]%se_ret_ok).
  unfold approve_request in H1. destruct (_ && _); [done|].
  apply (update_sessions_in _ _ _ _ _ _ H1 Hr) in Hu as Hr1. apply (update_sessions_in _ _ _ _ _ _ H2) in Hr1; [|done].
  eexists. split; [exact Hr1|]. done.
Qed.

(** The tokens of a client follow a later approval of its request: when the
    request URI of an exchanged code is opened again, before it expires, by
    another signed-in user, the refresh token that came with the first code gets
    an access token for that user's identity, without the second code. *)
Theorem refresh_follows_reapproval now1 dr1 q1 req1 s0 s1 n1 resp1 code session now2 code2 q2 s2 loc now3 dr3 q3 req3 s3 n3 resp3 :
  sessions_distinct (rows (ap_sessions s0)) = true ->
  code_grant env now1 dr1 q1 req1 s0 = (s1, Ok (n1, resp1)) -> aq_code req1 = Some code ->
  find_by_authorization_code now1 code (ap_sessions s0) = Some session ->
  atproto_authorize env now2 cfg code2 q2 (ax_request_uri session) s1 = (s2, Ok (CodeRedirect loc)) ->
  aq_refresh_token req3 = Some (ap_refresh_token resp1) -> refresh_grant env now3 dr3 q3 req3 s2 = (s3, Ok (n3, resp3)) ->
  ax_atproto_did session = Some (ap_sub resp1) /\
  exists user, extract_user_from_token now2 cfg q2 (ax_tenant_id session) = Ok user /\
    ready_atproto_identity (ax_tenant_id session) user (ap_db s1) = Some (ap_sub resp3).
Proof.
  intros Hd H1 Hc1 Hf1 H2 Hq3 H3. pose proof (evolving_code_grant now1 dr1 q1 req1 s0) as Hev1. unfold keeps in Hev1. rewrite H1 in Hev1.
  pose proof (evolving_authorize now2 code2 q2 (ax_request_uri session) s1) as Hev2. unfold keeps in Hev2. rewrite H2 in Hev2.
  destruct Hev1 as ((Hd1 & _) & _), Hev2 as ((Hd2 & _) & _). specialize (Hd1 Hd). specialize (Hd2 Hd1). simpl in Hd1, Hd2.
  apply atproto_code_grant_ok in H1 as (session' & code' & verifier & jkt & t1 & o1 & o2 & Hc & Hf & _ & _ & _ & _ & _ & _ & Hdid & _ & Hrt & Hco & Hst).
  rewrite Hc1 in Hc. injection Hc as <-. rewrite Hf1 in Hf. injection Hf as <-. split; [done|].
  apply find_first_Some in Hf1 as [Hin Hb]. pose proof Hb as (_ & Hrev & _)%by_code_iff.
  apply (update_sessions_in _ _ _ _ _ _ Hco Hin) in Hb as Hin1.
  assert (Hp : by_request_uri (ax_request_uri session) (ax_set_code now1 None None session) = true).
  { unfold by_request_uri. simpl. rewrite Hrev, bool_decide_true by done. done. }
  apply (update_sessions_in _ _ _ _ _ _ Hst Hin1) in Hp as Hin2. clear Hp.
  unfold atproto_authorize in H2. apply se_bind_ok in H2 as (? & found & [-> ->]%se_gets_ok & H2).
  apply se_bind_ok in H2 as (? & session2 & [-> Hf2]%ap_lift_ok & H2). apply se_bind_ok in H2 as (? & [] & [-> _]%ap_lift_ok & H2).
  apply ok_or_ok in Hf2. pose proof Hf2 as [_ Hb2]%find_first_Some. pose proof (find_unique_uri _ _ _ _ Hd1 Hf2 Hin2 eq_refl) as ->. simpl in H2.
  destruct (extract_user_from_token now2 cfg q2 (ax_tenant_id session)) as [user|[]] eqn:Hx; try done.
  exists user. split; [done|]. apply se_bind_ok in H2 as (? & ready & [-> ->]%se_gets_ok & H2).
  apply se_bind_ok in H2 as (? & did & [-> Hready%ok_or_ok]%ap_lift_ok & H2). rewrite Hready.
  apply se_bind_ok in H2 as (s4 & [] & Ha & H2). apply se_bind_ok in H2 as (? & loc' & [-> _]%ap_lift_ok & [-> _]%se_ret_ok).
  destruct (approve_ok _ _ _ _ _ _ _ _ _ Ha Hin2 Hb2) as (r & Hr & Hh & Hrd). simpl in Hh.
  apply refresh_grant_ok in H3 as (session3 & tok & jkt3 & Hq & Hin3 & Hl3 & _ & _ & Hsub & _). rewrite Hq3, Hrt in Hq. injection Hq as <-.
  apply session_refresh_live_hash in Hl3. rewrite (sessions_distinct_eq _ _ _ Hd2 Hr Hin3 (conflict_by_hash _ _ _ Hh Hl3)) in Hrd. congruence.
Qed.
End safety.

(** ** Witnesses

    Users "Pu" and "Pv" of the tenant of id.example, both with ready identities;
    a session token names its user.  A JWT is three texts, its signature "sig";
    what a text says is looked up in a table, and every proof is by one key. *)
#[local] Instance named_ucan : UcanLib := {
  Ucan := string; ucan_parse s := Ok s; ucan_check_signature _ := Ok tt; ucan_is_expired now _ := 100000 <=? now;
  ucan_facts _ := [JObject [("redirect_origin", JString "https://app.example"); ("tenant_id", JInt 1)]];
  ucan_issuer := toy_did; ucan_audience := toy_did;
}.
Definition coordinate (c : ascii) : string := String.string_of_list_ascii (replicate 32 c).
Definition proof_of (iat : Z) (path jti : string) (nonce : option string) : DpopProofClaims :=
  {| dc_htm := "post"; dc_htu := path; dc_iat := iat; dc_jti := jti; dc_nonce := nonce; dc_ath := None |}.
Definition toy_proofs : list (string * DpopProofClaims) :=
  [("pushed", proof_of 310 "/api/atproto/oauth/par" "j1" None);
   ("exchange", proof_of 30 "/api/atproto/oauth/token" "j2" (Some "n1"));
   ("refresh", proof_of 60 "/api/atproto/oauth/token" "j3" (Some "n2"))].
#[local] Instance toy_jose : Jose := {
  b64url_decode s := Some (bytes_of s);
  P256Key := list Z; P256Signature := list Z; p256_from_sec1 b := Some b; p256_signature b := Some b;
  p256_verify _ _ signature := bool_decide (signature = bytes_of "sig");
  de_DpopProofHeader _ := Some {| dh_alg := "ES256"; dh_typ := Some "dpop+jwt";
    dh_jwk := {| dj_kty := "EC"; dj_crv := "P-256"; dj_x := coordinate "x"; dj_y := coordinate "y" |} |};
  de_DpopProofClaims b := snd <$> find_first (fun kv => bool_decide (bytes_of (fst kv) = b)) toy_proofs;
  de_ClientAssertionHeader _ := Some {| ah_alg := "ES256"; ah_kid := None |};
  de_ClientAssertionClaims _ := Some {| ca_iss := "client"; ca_sub := "client"; ca_aud := JString "https://id.example"; ca_exp := 200;
    ca_iat := 5; ca_jti := "a1" |};
  de_ClientMetadata _ _ := Err "no document"; de_ClientJwks _ := Err "no keys";
}.
#[local] Instance offline : Web := { web_client := Ok tt; web_get _ _ := Err "offline"; url_error _ := "relative URL without a base" }.
#[local] Instance toy_access_tokens : AccessTokens := {
  Es256kKey := list Z; es256k_key b := Ok b; es256k_sign _ c := Ok ("access token of " +:+ cl_subject c) }.
#[local] Instance plain_status : StatusText := { status_text := print_Z }.
#[local] Instance willing_plane : Provisioning := { control_plane _ := Ok (200, "") }.

Definition toy_atproto_env : atproto_env := {|
  av_app_url := Some "https://id.example"; av_vite_domain := None; av_jwt_key := Some "00"; av_pds_did := Some "did:web:pds";
  av_pds_service_did := None |}.
Definition toy_tenants : tenant_env := {| env_customer_domain := None; env_allowed_domains := None; env_bunker_relays := Some "wss://relay" |}.
Definition no_control_plane : provisioning_env := {| pv_control_plane_url := None; pv_handle_domain := None; pv_token := None |}.
Definition linked (pk did : string) : user_row :=
  us_set_atproto true (Some "ready") (Some did) None 0 (us_set_username (Some pk) (new_user 0 pk 1)).
Definition linked_state : atproto_state := {|
  ap_db := set_users [linked "Pu" "did:plc:u"; linked "Pv" "did:plc:v"] (sample_db [] []);
  ap_tenants := {| rows := [tenant_row 0 "id.example" "Id" None 1]; next_id := 2 |}; ap_sessions := empty_table;
  ap_dpop_seen := ∅; ap_assertions_seen := ∅ |}.
Definition with_proof (claims : string) : http_request := from_app [("host", "id.example"); ("dpop", "key." +:+ claims +:+ ".sig")].
Definition signed_in (pk : string) : http_request := from_app [("authorization", "Bearer " +:+ pk)].
Definition pushed_request : ParRequest := {|
  pr_client_id := "client"; pr_redirect_uri := "https://app.example/cb"; pr_scope := "atproto"; pr_state := None;
  pr_code_challenge := Some (pkce_challenge "verifier"); pr_code_challenge_method := Some "S256"; pr_client_assertion_type := None;
  pr_client_assertion := None |}.
Definition request_for (grant : string) (code refresh : option string) : AtprotoTokenRequest := {|
  aq_grant_type := grant; aq_code := code; aq_client_id := Some "client"; aq_redirect_uri := Some "https://app.example/cb";
  aq_code_verifier := Some "verifier"; aq_refresh_token := refresh; aq_client_assertion_type := None; aq_client_assertion := None |}.
Definition first_draw : token_draw := {| td_jti := "t1"; td_refresh_token := "r1"; td_nonce := "n2" |}.
Definition second_draw : token_draw := {| td_jti := "t2"; td_refresh_token := "r2"; td_nonce := "n3" |}.
Definition pushed_uri : string := "urn:ietf:params:oauth:request_uri:one".
(** Pushed at 10, approved by "Pu" at 20 and exchanged at 30; approved again by
    "Pv" at 40. *)
Definition pushed_state : atproto_state := fst (par toy_atproto_env toy_tenants 10 "one" "n1" (with_proof "pushed") pushed_request linked_state).
Definition approved_state : atproto_state := fst (atproto_authorize toy_atproto_env 20 toy_account_config "c1" (signed_in "Pu") pushed_uri pushed_state).
Definition exchange_request : AtprotoTokenRequest := request_for "authorization_code" (Some "c1") None.
Definition exchanged := code_grant toy_atproto_env 30 first_draw (with_proof "exchange") exchange_request approved_state.
Definition reapproved := atproto_authorize toy_atproto_env 40 toy_account_config "c2" (signed_in "Pv") pushed_uri (fst exchanged).
Definition refreshed :=
  refresh_grant toy_atproto_env 60 second_draw (with_proof "refresh") (request_for "refresh_token" None (Some "r1")) (fst reapproved).

Lemma atproto_code_grant_sound_witness :
  exists s' n resp, exchanged = (s', Ok (n, resp)) /\
    is_ok (snd (code_grant toy_atproto_env 31 first_draw (with_proof "exchange") exchange_request s')) = false.
Proof.
  destruct (run_ok exchanged) as (s' & [n resp] & E); [vm_compute; reflexivity|]. exists s', n, resp. split; [exact E|].
  destruct (atproto_code_grant_sound toy_atproto_env _ _ _ _ _ _ _ _ E) as (session & code & v & jkt & _ & Hc & _ & _ & _ & _ & _ & _ & _ & _ & _ & _ & H).
  apply H; [lia|exact Hc].
Defined.

Definition toy_client_key : ClientJwk := {|
  cj_kty := "EC"; cj_crv := Some "P-256"; cj_x := Some (coordinate "x"); cj_y := Some (coordinate "y"); cj_kid := None; cj_alg := None;
  cj_key_use := None |}.
Definition jwt_bearer : option string := Some CLIENT_ASSERTION_TYPE_JWT_BEARER.
Lemma client_assertion_accepted_once_witness :
  exists s' b, verify_client_assertion 10 "client" jwt_bearer (Some "h.c.sig") ["https://id.example"] [toy_client_key] None linked_state = (s', Ok b) /\
    is_ok (snd (verify_client_assertion 20 "client" jwt_bearer (Some "h.c.sig") ["https://id.example"] [toy_client_key] None s')) = false.
Proof.
  destruct (run_ok (verify_client_assertion 10 "client" jwt_bearer (Some "h.c.sig") ["https://id.example"] [toy_client_key] None linked_state))
    as (s' & b & E); [vm_compute; reflexivity|]. exists s', b. split; [exact E|].
  exact (client_assertion_accepted_once toy_atproto_env toy_tenants toy_account_config no_control_plane
    _ _ _ _ _ _ _ _ _ _ _ E (steps_refl _ _) 20 jwt_bearer ["https://id.example"] [toy_client_key] None).
Defined.

(** The proof of the pushed request is dated 310: used at 10, it is accepted
    again at 310. *)
Definition use_pushed (now : Z) : atproto_state -> atproto_state * result string account_abort :=
  validate_dpop_proof now (with_proof "pushed") "POST" PAR_PATH_SUFFIX None None.
Lemma dpop_replay_window_witness :
  exists s1 jkt1 s2 jkt2, use_pushed 10 linked_state = (s1, Ok jkt1) /\ use_pushed 310 s1 = (s2, Ok jkt2) /\
    exists claims, dpop_claims (with_proof "pushed") = Some claims /\ 10 <= dc_iat claims.
Proof.
  destruct (run_ok (use_pushed 10 linked_state)) as (s1 & jkt1 & E1); [vm_compute; reflexivity|].
  destruct (run_ok (use_pushed 310 (fst (use_pushed 10 linked_state)))) as (s2 & jkt2 & E2); [vm_compute; reflexivity|].
  rewrite E1 in E2. exists s1, jkt1, s2, jkt2. split; [exact E1|]. split; [exact E2|].
  destruct (dpop_replay_window toy_atproto_env toy_tenants toy_account_config no_control_plane
    _ _ _ _ _ _ _ _ _ _ _ _ _ _ _ _ _ _ E1 (steps_refl _ _) eq_refl E2) as (claims & Hc & H1 & _).
  exists claims. exact (conj Hc H1).
Defined.

Lemma disabled_link_gets_no_tokens_witness :
  exists s1 resp, disable_atproto 50 toy_account_config no_control_plane 1 (signed_in "Pu") (fst exchanged) = (s1, Ok resp) /\
    is_ok (snd (refresh_grant toy_atproto_env 60 second_draw (with_proof "refresh") (request_for "refresh_token" None (Some "r1")) s1)) = false.
Proof.
  destruct (run_ok (disable_atproto 50 toy_account_config no_control_plane 1 (signed_in "Pu") (fst exchanged))) as (s1 & resp & E);
    [vm_compute; reflexivity|]. exists s1, resp. split; [exact E|].
  destruct (rows (ap_sessions (fst exchanged))) as [|r l] eqn:Er; [vm_compute in Er; discriminate Er|].
  destruct (disabled_link_gets_no_tokens toy_atproto_env toy_tenants toy_account_config no_control_plane 50 1 (signed_in "Pu")
    (fst exchanged) s1 resp s1 "Pu" r) as (_ & H & _).
  - vm_compute. reflexivity.
  - vm_compute. reflexivity.
  - exact E.
  - rewrite Er. apply elem_of_cons. left. reflexivity.
  - vm_compute in Er. injection Er as <- _. reflexivity.
  - apply steps_refl.
  - apply (H "r1"); [vm_compute in Er; injection Er as <- _; reflexivity|reflexivity].
Defined.

Lemma refresh_follows_reapproval_witness :
  exists s1 n1 resp1 s2 loc s3 n3 resp3, exchanged = (s1, Ok (n1, resp1)) /\ reapproved = (s2, Ok (CodeRedirect loc)) /\
    refreshed = (s3, Ok (n3, resp3)) /\ ap_sub resp1 = "did:plc:u" /\
    exists user, extract_user_from_token 40 toy_account_config (signed_in "Pv") 1 = Ok user /\
      ready_atproto_identity 1 user (ap_db s1) = Some (ap_sub resp3).
Proof.
  destruct (run_ok exchanged) as (s1 & [n1 resp1] & E1); [vm_compute; reflexivity|].
  destruct (run_ok reapproved) as (s2 & reply & E2); [vm_compute; reflexivity|].
  destruct (run_ok refreshed) as (s3 & [n3 resp3] & E3); [vm_compute; reflexivity|].
  destruct (find_by_authorization_code 30 "c1" (ap_sessions approved_state)) as [session|] eqn:Ef; [|vm_compute in Ef; discriminate Ef].
  assert (Hu : ax_request_uri session = pushed_uri /\ ax_tenant_id session = 1) by (vm_compute in Ef; injection Ef as <-; split; reflexivity).
  destruct Hu as [Hu Ht]. assert (Hr : ap_refresh_token resp1 = "r1" /\ ap_sub resp1 = "did:plc:u")
    by (vm_compute in E1; injection E1 as _ _ <-; split; reflexivity).
  destruct reply as [loc|loc]; [vm_compute in E2; discriminate E2|].
  exists s1, n1, resp1, s2, loc, s3, n3, resp3. split; [exact E1|]. split; [exact E2|]. split; [exact E3|]. split; [apply Hr|].
  unfold reapproved in E2. unfold refreshed, reapproved in E3. rewrite E1 in E2, E3. simpl fst in E2, E3. rewrite E2 in E3. simpl fst in E3.
  rewrite <- Hu in E2. rewrite <- Ht.
  refine (proj2 (refresh_follows_reapproval toy_atproto_env toy_account_config 30 first_draw (with_proof "exchange") exchange_request
    approved_state s1 n1 resp1 "c1" session 40 "c2" (signed_in "Pv") s2 loc 60 second_draw (with_proof "refresh")
    (request_for "refresh_token" None (Some "r1")) s3 n3 resp3 _ E1 eq_refl Ef E2 _ E3)).
  - vm_compute. reflexivity.
  - simpl. f_equal. symmetry. apply Hr.
Defined.
