(* ===== verification/KeyManagers.v ===== *)
(** * Key managers

    core/src/encryption/: what encrypts the stored keys.  The trait KeyManager is a
    class; its implementations encrypt with a master key from a file, with Google
    Cloud KMS or with AWS KMS, and one keeps decrypted keys in memory for a bounded
    time in front of another.  AES-GCM, the two services, base64 and the digest are
    parameters.  What a call takes from outside (a nonce, the moments of the
    attempts, the time) is an argument of the call. *)
From S2P Require Import Prelude RustStr External Instances.

Inductive KeyManagerError : Type :=
| KM_LoadKey (e : string)
| KM_Encrypt (e : string)
| KM_Decrypt (e : string)
| KM_GenerateMasterKey (e : string)
| KM_ConfigurationError (e : string)
| KM_EncryptionError (e : string)
| KM_DecryptionError (e : string).
Definition key_manager_error_str (e : KeyManagerError) : string :=
  match e with
  | KM_LoadKey _ => "Failed to load key"
  | KM_Encrypt _ => "Failed to encrypt"
  | KM_Decrypt _ => "Failed to decrypt"
  | KM_GenerateMasterKey _ => "Failed to generate master key"
  | KM_ConfigurationError e => "Configuration error: " +:+ e
  | KM_EncryptionError e => "Encryption error: " +:+ e
  | KM_DecryptionError e => "Decryption error: " +:+ e
  end.

Notation bytes := (list Z).
Notation km_result M := (M * result bytes KeyManagerError)%type.
(** A manager of type [M] whose calls take a [D] from outside. *)
Class KeyManager (M D : Type) := {
  encrypt : D -> bytes -> M -> km_result M;
  decrypt : D -> bytes -> M -> km_result M;
}.
(** What a manager promises: [means c p] when [c] is a ciphertext of [p]; a
    ciphertext has one plaintext, an encryption gives one of its plaintext, and a
    decryption gives its plaintext. *)
Class KeyManagerLaws (M D : Type) `{KeyManager M D} (means : bytes -> bytes -> Prop) (valid : M -> Prop) : Prop := {
  means_one c p p' : means c p -> means c p' -> p = p';
  encrypt_valid d p m m' r : valid m -> encrypt d p m = (m', r) -> valid m' /\ forall c, r = Ok c -> means c p;
  decrypt_valid d c m m' r : valid m -> decrypt d c m = (m', r) -> valid m' /\ forall p, r = Ok p -> means c p;
}.

(** ** A master key in a file *)
Class Aead := {
  (** AES-256-GCM with a key and a nonce; the error of encryption is its text *)
  aes_encrypt : bytes -> bytes -> bytes -> result bytes string;
  aes_decrypt : bytes -> bytes -> bytes -> result bytes string;
  base64_decode : string -> result bytes string;
}.
Class AeadLaws `{Aead} : Prop := {
  aes_round_trip key nonce p c : aes_encrypt key nonce p = Ok c -> aes_decrypt key nonce c = Ok p;
}.
Record FileKeyManager : Type := { fk_cipher : bytes }.

Section file.
Context `{HA : Aead}.
(** The content of the file, or the error of reading it. *)
Definition load_key (file : result string string) : result bytes KeyManagerError :=
  let? key_str := map_err KM_LoadKey file in
  let? key_bytes := map_err KM_LoadKey (base64_decode (trim key_str)) in
  if (length key_bytes =? 32)%nat then Ok key_bytes else Err (KM_LoadKey "Invalid key length").
Definition file_new (file : result string string) : result FileKeyManager KeyManagerError :=
  let? key := load_key file in Ok {| fk_cipher := key |}.

(** A nonce is twelve bytes. *)
Record nonce12 : Type := { nonce_bytes : bytes; nonce_length : length nonce_bytes = 12%nat }.
Definition file_encrypt (nonce : nonce12) (plaintext_bytes : bytes) (m : FileKeyManager) : result bytes KeyManagerError :=
  let? ciphertext := map_err KM_Encrypt (aes_encrypt (fk_cipher m) (nonce_bytes nonce) plaintext_bytes) in
  Ok (nonce_bytes nonce ++ ciphertext).
Definition file_decrypt (ciphertext_bytes : bytes) (m : FileKeyManager) : result bytes KeyManagerError :=
  if (length ciphertext_bytes <? 12)%nat then Err (KM_Decrypt "Ciphertext too short")
  else map_err KM_Decrypt (aes_decrypt (fk_cipher m) (take 12 ciphertext_bytes) (drop 12 ciphertext_bytes)).
#[export] Instance file_key_manager : KeyManager FileKeyManager nonce12 := {
  encrypt nonce p m := (m, file_encrypt nonce p m);
  decrypt _ c m := (m, file_decrypt c m);
}.
End file.

(** ** Services *)
Definition MAX_KMS_RETRIES : nat := 3.
Definition KMS_BASE_DELAY_MS : Z := 100.

(** The attempts of a call, the first numbered 1, as long as the number is below
    the maximum: the answer or the number and the error of the last, and the
    delays slept between. *)
Fixpoint kms_attempts {A} (retries attempt : nat) (call : nat -> result A string) : result A (nat * string) * list Z :=
  match call attempt with
  | Ok response => (Ok response, [])
  | Err e =>
      match retries with
      | O => (Err (attempt, e), [])
      | S retries' =>
          let '(r, delays) := kms_attempts retries' (S attempt) call in
          (r, KMS_BASE_DELAY_MS * 2 ^ (Z.of_nat attempt - 1) :: delays)
      end
  end.
Definition kms_call {A} (call : nat -> result A string) : result A (nat * string) :=
  fst (kms_attempts (MAX_KMS_RETRIES - 1) 1 call).
Definition kms_failure (what : string) (e : nat * string) : string :=
  what +:+ " failed after " +:+ print_Z (Z.of_nat (fst e)) +:+ " attempts: " +:+ snd e.

(** The services at a moment; a reply of AWS may lack its content. *)
Class Kms := {
  gcp_encrypt : string -> Z -> bytes -> result bytes string;
  gcp_decrypt : string -> Z -> bytes -> result bytes string;
  aws_encrypt : string -> Z -> bytes -> result (option bytes) string;
  aws_decrypt : string -> Z -> bytes -> result (option bytes) string;
  (** the client of GCP: its authentication and its creation *)
  gcp_auth : result unit string;
  gcp_client : result unit string;
}.
(** A service decrypts, when it answers, what it encrypted. *)
Class KmsLaws `{Kms} : Prop := {
  gcp_consistent name t t' p p' c : gcp_encrypt name t p = Ok c -> gcp_decrypt name t' c = Ok p' -> p' = p;
  gcp_one name t t' c p p' : gcp_decrypt name t c = Ok p -> gcp_decrypt name t' c = Ok p' -> p' = p;
  gcp_fresh name t t' p p' c : gcp_encrypt name t p = Ok c -> gcp_encrypt name t' p' = Ok c -> p' = p;
}.
(** GCP_PROJECT_ID, GCP_KMS_LOCATION, GCP_KMS_KEY_RING, GCP_KMS_KEY_NAME, AWS_KMS_KEY_ID *)
Record kms_env : Type := {
  kv_project : option string; kv_location : option string; kv_key_ring : option string; kv_key_name : option string;
  kv_aws_key_id : option string;
}.
Record GcpKeyManager : Type := { gk_key_name : string }.
Record AwsKeyManager : Type := { ak_key_id : string }.

Section services.
Context `{HK : Kms}.
Definition gcp_from_config (project_id location key_ring key_name : string) : result GcpKeyManager KeyManagerError :=
  let? _ := map_err (fun e => KM_ConfigurationError ("GCP auth failed: " +:+ e)) gcp_auth in
  let? _ := map_err (fun e => KM_ConfigurationError ("GCP client creation failed: " +:+ e)) gcp_client in
  Ok {| gk_key_name := "projects/" +:+ project_id +:+ "/locations/" +:+ location +:+ "/keyRings/" +:+ key_ring
                       +:+ "/cryptoKeys/" +:+ key_name |}.
Definition gcp_new (env : kms_env) : result GcpKeyManager KeyManagerError :=
  let? project_id := ok_or (kv_project env) (KM_ConfigurationError "GCP_PROJECT_ID not set") in
  gcp_from_config project_id (default "global" (kv_location env)) (default "keycast-keys" (kv_key_ring env))
    (default "master-key" (kv_key_name env)).
Definition aws_new (env : kms_env) : result AwsKeyManager KeyManagerError :=
  let? key_id := ok_or (kv_aws_key_id env) (KM_ConfigurationError "AWS_KMS_KEY_ID not set") in
  Ok {| ak_key_id := key_id |}.

(** The moment of each attempt. *)
Notation moments := (nat -> Z).
#[export] Instance gcp_key_manager : KeyManager GcpKeyManager moments := {
  encrypt d p m :=
    (m, map_err (fun e => KM_EncryptionError (kms_failure "KMS encryption" e)) (kms_call (fun i => gcp_encrypt (gk_key_name m) (d i) p)));
  decrypt d c m :=
    (m, map_err (fun e => KM_DecryptionError (kms_failure "KMS decryption" e)) (kms_call (fun i => gcp_decrypt (gk_key_name m) (d i) c)));
}.
#[export] Instance aws_key_manager : KeyManager AwsKeyManager moments := {
  encrypt d p m :=
    (m, let? response := map_err (fun e => KM_EncryptionError (kms_failure "AWS KMS encryption" e))
                           (kms_call (fun i => aws_encrypt (ak_key_id m) (d i) p)) in
        ok_or response (KM_EncryptionError "No ciphertext in response"));
  decrypt d c m :=
    (m, let? response := map_err (fun e => KM_DecryptionError (kms_failure "AWS KMS decryption" e))
                           (kms_call (fun i => aws_decrypt (ak_key_id m) (d i) c)) in
        ok_or response (KM_DecryptionError "No plaintext in response"));
}.
End services.

(** ** The cache *)
Definition DEFAULT_TTL : Z := 15 * 60.
Definition DEFAULT_CAPACITY : Z := 100000.
(** SHA-256 of bytes; the Debug text of an error. *)
Class CacheText := { sha256_bytes : bytes -> bytes; key_manager_error_debug : KeyManagerError -> string }.

(** An entry is a plaintext and the time it was put in; the cache may drop any of
    them at any time, and does not give out one older than [ttl]. *)
Record CachingKeyManager (M : Type) : Type := { ck_inner : M; ck_ttl : Z; ck_cache : gmap bytes (bytes * Z) }.
Arguments ck_inner {M} _. Arguments ck_ttl {M} _. Arguments ck_cache {M} _.

Section caching.
Context {M D : Type} `{HM : KeyManager M D, HT : CacheText}.
Definition with_limits (inner : M) (ttl : Z) : CachingKeyManager M := {| ck_inner := inner; ck_ttl := ttl; ck_cache := ∅ |}.
Definition caching_new (inner : M) : CachingKeyManager M := with_limits inner DEFAULT_TTL.
Definition cache_key (ciphertext_bytes : bytes) : bytes := sha256_bytes ciphertext_bytes.
Definition cache_get (now : Z) (k : bytes) (m : CachingKeyManager M) : option bytes :=
  '(p, inserted) ← ck_cache m !! k; if now <? inserted + ck_ttl m then Some p else None.
Definition cache_put (now : Z) (k p : bytes) (inner : M) (m : CachingKeyManager M) : CachingKeyManager M :=
  {| ck_inner := inner; ck_ttl := ck_ttl m; ck_cache := <[k := (p, now)]> (ck_cache m) |}.
Definition set_inner (inner : M) (m : CachingKeyManager M) : CachingKeyManager M :=
  {| ck_inner := inner; ck_ttl := ck_ttl m; ck_cache := ck_cache m |}.
Definition caching_encrypt (now : Z) (d : D) (plaintext_bytes : bytes) (m : CachingKeyManager M) : km_result (CachingKeyManager M) :=
  match encrypt d plaintext_bytes (ck_inner m) with
  | (inner, Ok ciphertext) => (cache_put now (cache_key ciphertext) plaintext_bytes inner m, Ok ciphertext)
  | (inner, Err e) => (set_inner inner m, Err e)
  end.
(** A failure is not kept. *)
Definition caching_decrypt (now : Z) (d : D) (ciphertext_bytes : bytes) (m : CachingKeyManager M) : km_result (CachingKeyManager M) :=
  match cache_get now (cache_key ciphertext_bytes) m with
  | Some p => (m, Ok p)
  | None =>
      match decrypt d ciphertext_bytes (ck_inner m) with
      | (inner, Ok p) => (cache_put now (cache_key ciphertext_bytes) p inner m, Ok p)
      | (inner, Err e) => (set_inner inner m, Err (KM_Decrypt (key_manager_error_debug e)))
      end
  end.
#[export] Instance caching_key_manager : KeyManager (CachingKeyManager M) (Z * D) := {
  encrypt d := caching_encrypt (fst d) (snd d);
  decrypt d := caching_decrypt (fst d) (snd d);
}.
(** The cache drops an entry. *)
Definition evict (k : bytes) (m : CachingKeyManager M) : CachingKeyManager M :=
  {| ck_inner := ck_inner m; ck_ttl := ck_ttl m; ck_cache := delete k (ck_cache m) |}.
End caching.

(** ** Attempts *)
(** The first success of three attempts, or the error of the third. *)
Lemma kms_call_spec {A} (call : nat -> result A string) :
  kms_call call = match call 1%nat, call 2%nat, call 3%nat with
                  | Ok r, _, _ | Err _, Ok r, _ | Err _, Err _, Ok r => Ok r
                  | Err _, Err _, Err e => Err (3%nat, e)
                  end.
Proof. unfold kms_call. simpl. destruct (call 1%nat), (call 2%nat), (call 3%nat); reflexivity. Qed.
Lemma kms_call_ok {A} (call : nat -> result A string) r : kms_call call = Ok r -> exists i, call i = Ok r.
Proof. rewrite kms_call_spec. destruct (call 1%nat) eqn:E1, (call 2%nat) eqn:E2, (call 3%nat) eqn:E3; intros [= <-]; eauto. Qed.

(** ** The managers keep the promise *)
Section laws.
Context `{HA : Aead, HAL : !AeadLaws, HK : Kms, HKL : !KmsLaws, HT : CacheText}.

Lemma file_round_trip nonce p m c : file_encrypt nonce p m = Ok c -> file_decrypt c m = Ok p.
Proof.
  unfold file_encrypt, file_decrypt. intros H. inv_ok. destruct nonce as [n Hn]. simpl in *.
  rewrite length_app, Hn. simpl. rewrite take_app_length', drop_app_length' by done.
  by rewrite (aes_round_trip _ _ _ _ H).
Qed.
#[export] Instance file_laws key :
  KeyManagerLaws FileKeyManager nonce12 (fun c p => file_decrypt c key = Ok p) (fun m => m = key).
Proof.
  split.
  - intros c p p' H H'. rewrite H in H'. by injection H' as ->.
  - intros d p m m' r -> [= <- <-]. split; [done|]. intros c. apply file_round_trip.
  - intros d c m m' r -> [= <- <-]. split; [done|]. by intros p.
Qed.

(** A ciphertext of a service: one it made, or one it decrypts. *)
Definition gcp_means (name : string) (c p : bytes) : Prop :=
  exists t, gcp_encrypt name t p = Ok c \/ gcp_decrypt name t c = Ok p.
#[export] Instance gcp_laws name : KeyManagerLaws GcpKeyManager (nat -> Z) (gcp_means name) (fun m => gk_key_name m = name).
Proof.
  split.
  - intros c p p' (t & H) (t' & H').
    destruct H as [H|H], H' as [H'|H']; symmetry; eauto using gcp_fresh, gcp_consistent, gcp_one. symmetry. eauto using gcp_consistent.
  - intros d p m m' r <- [= <- <-]. split; [done|]. intros c. rewrite map_err_ok. intros (i & H)%kms_call_ok. exists (d i). by left.
  - intros d c m m' r <- [= <- <-]. split; [done|]. intros p. rewrite map_err_ok. intros (i & H)%kms_call_ok. exists (d i). by right.
Qed.

(** No two ciphertexts have one digest. *)
Definition collision_free : Prop := forall c c', sha256_bytes c = sha256_bytes c' -> c = c'.

Section cached.
Context {M D : Type} `{HM : KeyManager M D} {means : bytes -> bytes -> Prop} {valid : M -> Prop}
        {HL : KeyManagerLaws M D means valid} (Hcf : collision_free).

Definition cache_valid (m : CachingKeyManager M) : Prop :=
  valid (ck_inner m) /\ forall k p t, ck_cache m !! k = Some (p, t) -> exists c, sha256_bytes c = k /\ means c p.
Lemma put_valid now c p inner m : cache_valid m -> valid inner -> means c p -> cache_valid (cache_put now (cache_key c) p inner m).
Proof.
  intros [_ Hc] Hi Hp. split; [done|]. intros k p' t H. simpl in H. destruct (decide (cache_key c = k)) as [<-|Hk].
  - rewrite lookup_insert_eq in H. injection H as <- _. by exists c.
  - rewrite lookup_insert_ne in H by done. by apply Hc in H.
Qed.
(** The cache keeps the promise of the manager behind it. *)
#[export] Instance caching_laws : KeyManagerLaws (CachingKeyManager M) (Z * D) means cache_valid.
Proof.
  split.
  - apply means_one.
  - intros [now d] p m m' r Hm. simpl. unfold caching_encrypt. destruct (encrypt d p (ck_inner m)) as [inner [c|e]] eqn:E;
      destruct (encrypt_valid _ _ _ _ _ (proj1 Hm) E) as [Hi Hr]; intros [= <- <-]; (split; [|by intros c' [= <-]; apply Hr]).
    + by apply put_valid; [| |apply Hr].
    + split; [done|apply Hm].
  - intros [now d] c m m' r Hm. simpl. unfold caching_decrypt. destruct (cache_get now (cache_key c) m) as [p|] eqn:Eg.
    + intros [= <- <-]. split; [done|]. intros p' [= <-]. unfold cache_get in Eg.
      destruct (ck_cache m !! cache_key c) as [[p0 t]|] eqn:Ec; [|done]. simpl in Eg. destruct (_ <? _); [|done]. injection Eg as <-.
      apply Hm in Ec as (c' & Hk & Hp). by rewrite <- (Hcf _ _ Hk).
    + destruct (decrypt d c (ck_inner m)) as [inner [p|e]] eqn:E;
        destruct (decrypt_valid _ _ _ _ _ (proj1 Hm) E) as [Hi Hr]; intros [= <- <-].
      * split; [by apply put_valid; [| |apply Hr]|]. intros p' [= <-]. by apply Hr.
      * split; [split; [done|apply Hm]|done].
Qed.

(** ** Any use of a cached manager *)
Inductive km_step : CachingKeyManager M -> CachingKeyManager M -> Prop :=
| StepEncrypt d p m : km_step m (fst (encrypt d p m))
| StepDecrypt d c m : km_step m (fst (decrypt d c m))
| StepEvict k m : km_step m (evict k m).
Lemma evict_valid k m : cache_valid m -> cache_valid (evict k m).
Proof. intros [Hi Hc]. split; [done|]. intros k' p t H. simpl in H. apply lookup_delete_Some in H as [_ H]. by apply Hc in H. Qed.
Lemma steps_valid m m' : steps km_step m m' -> cache_valid m -> cache_valid m'.
Proof.
  apply steps_invariant. intros m1 m2 [d p m3|d c m3|k m3] Hm; [| |by apply evict_valid].
  - destruct (encrypt d p m3) as [m4 r] eqn:E. exact (proj1 (encrypt_valid _ _ _ _ _ Hm E)).
  - destruct (decrypt d c m3) as [m4 r] eqn:E. exact (proj1 (decrypt_valid _ _ _ _ _ Hm E)).
Qed.
Lemma new_valid inner : valid inner -> cache_valid (caching_new inner).
Proof. intros H. split; [done|]. by intros k p t E. Qed.

(** A cached manager whose inner manager answers no more. *)
Definition withdrawn (inner : M) : Prop :=
  forall d b, (exists e, encrypt d b inner = (inner, Err e)) /\ exists e, decrypt d b inner = (inner, Err e).
Definition cached_before (T : Z) (m : CachingKeyManager M) : Prop :=
  withdrawn (ck_inner m) /\ forall k p t, ck_cache m !! k = Some (p, t) -> t <= T.
Lemma withdrawn_step T m m' : km_step m m' -> cached_before T m -> cached_before T m' /\ ck_ttl m' = ck_ttl m.
Proof.
  intros [[now d] p m1|[now d] c m1|k m1] [Hw Hc]; simpl.
  - unfold caching_encrypt. destruct (Hw d p) as [(e & ->) _]. done.
  - unfold caching_decrypt. destruct (cache_get now (cache_key c) m1); [done|]. destruct (Hw d c) as [_ (e & ->)]. done.
  - split; [|done]. split; [done|]. intros k' p t H. simpl in H. apply lookup_delete_Some in H as [_ H]. by apply Hc in H.
Qed.
Lemma withdrawn_steps T m m' : steps km_step m m' -> cached_before T m -> cached_before T m' /\ ck_ttl m' = ck_ttl m.
Proof.
  induction 1 as [|m1 m2 m3 H _ IH]; intros Hm; [done|]. apply (withdrawn_step T) in H as [H E]; [|done].
  destruct (IH H) as [? ->]. done.
Qed.
(** A decrypted key is not served for longer than the time to live after the
    service behind the cache stopped answering: when everything cached was put in
    by the time T, then after any use of the manager every decryption at T plus the
    time to live or later fails. *)
Theorem withdrawn_keys_expire T m m' d c :
  cached_before T m -> steps km_step m m' -> T + ck_ttl m <= fst d -> is_ok (snd (decrypt d c m')) = false.
Proof.
  intros Hm Hs Hd. apply (withdrawn_steps T) in Hs as [[Hw Hc] Ettl]; [|done]. destruct d as [now d]. simpl in *.
  unfold caching_decrypt, cache_get. destruct (ck_cache m' !! cache_key c) as [[p t]|] eqn:E; simpl.
  - apply Hc in E. destruct (Z.ltb_spec now (t + ck_ttl m')); [lia|]. by destruct (Hw d c) as [_ (e & ->)].
  - by destruct (Hw d c) as [_ (e & ->)].
Qed.
End cached.

(** [C13] A stored key comes back: whatever was done before with the cached manager
    of the master key, and whatever is done after (other keys encrypted and
    decrypted at any times, entries dropped by the cache), decrypting what an
    encryption returned gives the key that was encrypted. *)
Theorem stored_keys_come_back file key m m1 m2 d d' p c :
  collision_free -> file_new file = Ok key -> steps km_step (caching_new key) m ->
  encrypt d p m = (m1, Ok c) -> steps km_step m1 m2 -> snd (decrypt d' c m2) = Ok p.
Proof.
  intros Hcf _ H0 He H1.
  assert (Hv : cache_valid (means := fun c p => file_decrypt c key = Ok p) (valid := fun m => m = key) m).
  { apply (steps_valid Hcf _ _ H0). by apply new_valid. }
  pose proof (caching_laws Hcf (HL := file_laws key)) as HC.
  destruct (encrypt_valid _ _ _ _ _ Hv He) as [Hv1 Hp]. specialize (Hp c eq_refl). apply (steps_valid Hcf _ _ H1) in Hv1.
  destruct (decrypt d' c m2) as [m3 r] eqn:E. destruct r as [p'|e].
  - destruct (decrypt_valid _ _ _ _ _ Hv1 E) as [_ Hp']. simpl. f_equal. exact (means_one _ _ _ (Hp' _ eq_refl) Hp).
  - exfalso. destruct d' as [now n]. simpl in E. unfold caching_decrypt in E. destruct (cache_get now (cache_key c) m2); [done|].
    destruct Hv1 as [Ei _]. simpl in E. rewrite Ei, Hp in E. done.
Qed.
End laws.

(** ** Witnesses

    A cipher that turns its text around, a digest that is its text, and a service
    that answers nothing. *)
#[local] Instance mirror : Aead := {
  aes_encrypt _ _ p := Ok (rev p); aes_decrypt _ _ c := Ok (rev c); base64_decode _ := Ok (replicate 32 7) }.
#[local] Instance mirror_laws : AeadLaws.
Proof. split. intros key nonce p c [= <-]. simpl. by rewrite rev_involutive. Qed.
#[local] Instance plain_cache : CacheText := { sha256_bytes b := b; key_manager_error_debug := key_manager_error_str }.
Definition zero_nonce : nonce12 := {| nonce_bytes := replicate 12 0; nonce_length := eq_refl |}.
Definition toy_master : FileKeyManager := {| fk_cipher := replicate 32 7 |}.
Lemma stored_keys_come_back_witness :
  exists m1 c, encrypt (10, zero_nonce) [1; 2; 3] (caching_new toy_master) = (m1, Ok c) /\
    snd (decrypt (5000, zero_nonce) c (evict (cache_key c) m1)) = Ok [1; 2; 3].
Proof.
  destruct (run_ok (encrypt (10, zero_nonce) [1; 2; 3] (caching_new toy_master))) as (m1 & c & E); [vm_compute; reflexivity|].
  exists m1, c. split; [exact E|].
  refine (stored_keys_come_back (Ok "key") toy_master (caching_new toy_master) m1 (evict (cache_key c) m1) (10, zero_nonce) (5000, zero_nonce)
    [1; 2; 3] c _ eq_refl (steps_refl _ _) E (steps_one _ _ _ (StepEvict _ _))).
  intros a b H. exact H.
Defined.

#[local] Instance silent : KeyManager unit unit := {
  encrypt _ _ m := (m, Err (KM_EncryptionError "no answer")); decrypt _ _ m := (m, Err (KM_DecryptionError "no answer")) }.
Definition remembered : CachingKeyManager unit := {| ck_inner := tt; ck_ttl := DEFAULT_TTL; ck_cache := {[ [9] := ([1], 5) ]} |}.
Lemma withdrawn_keys_expire_witness :
  snd (decrypt (904, tt) [9] remembered) = Ok [1] /\ is_ok (snd (decrypt (905, tt) [9] remembered)) = false.
Proof.
  split; [vm_compute; reflexivity|]. refine (withdrawn_keys_expire 5 remembered remembered (905, tt) [9] _ (steps_refl _ _) _).
  - split; [intros d b; split; eexists; reflexivity|]. intros k p t H. cbn [remembered ck_cache] in H. apply lookup_singleton_Some in H as [_ [= <- <-]]. lia.
  - vm_compute. discriminate.
Defined.
