(* ===== verification/Server.v ===== *)
(** * The server process

    keycast/src/main.rs, apart from the routes and the life of the process: the
    checks of the environment, the choice of the key managers, which browser origins
    may send credentials, the configuration written into the page, the caching
    headers, and the panic hook, which ends the process when any handler panics. *)
From S2P Require Import Prelude RustStr External Instances Database Samples Tokens Permissions Policies AuthTypes Ucan HttpRpc OAuthRepo Users OAuth WorkQueue Queues RateLimit Tenant Nip98 Accounts AccountsSafety Claims KeyManagers.

(** ** Searching *)
(** [find], [rfind] and [split_once] of a text: what precedes its first or last
    occurrence, and the rest. *)
Fixpoint find_at (p s : string) : option (string * string) :=
  if starts_with p s then Some ("", s)
  else match s with
       | EmptyString => None
       | String c s' => '(a, b) ← find_at p s'; Some (String c a, b)
       end.
Fixpoint rfind_at (p s : string) : option (string * string) :=
  match s with
  | EmptyString => if starts_with p s then Some ("", s) else None
  | String c s' =>
      match rfind_at p s' with
      | Some (a, b) => Some (String c a, b)
      | None => if starts_with p s then Some ("", s) else None
      end
  end.
Definition split_once_str (p s : string) : option (string * string) :=
  '(a, b) ← find_at p s; rest ← strip_prefix p b; Some (a, rest).

(** ** The page *)
(** APP_URL, ALLOWED_PUBKEYS and SHOW_TEAMS_FUNCTIONALITY *)
Record page_env : Type := { pe_app_url : option string; pe_allowed_pubkeys : option string; pe_show_teams : option string }.
Section page.
Context `{HN : Nostr, HS : !Serde}.
(** The members of a serde_json object are in the order of their names. *)
Definition env_members (env : page_env) : list (string * json) :=
  let member name v := match v with Some s => [(name, JString s)] | None => [] end in
  member "ALLOWED_PUBKEYS" (pe_allowed_pubkeys env) ++ member "SHOW_TEAMS_FUNCTIONALITY" (pe_show_teams env)
  ++ member "VITE_DOMAIN" (pe_app_url env).
Definition injection_script (env : page_env) : string :=
  "<script>window.__ENV__=" +:+ json_to_string (JObject (env_members env)) +:+ ";</script>".
Definition line_feed : string := String "010" "".
Definition inject_runtime_env (env : page_env) (html : string) : string :=
  match env_members env with
  | [] => html
  | _ =>
      match rfind_at "</head>" html, find_at "<body>" html with
      | Some (before, rest), _ | None, Some (before, rest) => before +:+ injection_script env +:+ line_feed +:+ rest
      | None, None => injection_script env +:+ line_feed +:+ html
      end
  end.
End page.

(** ** Origins *)
Definition parse_origin (origin : string) : option (string * string) :=
  '(scheme, rest) ← split_once_str "://" origin; host ← head (split "/" rest); Some (scheme, host).
(** [strip_suffix] *)
Fixpoint strip_suffix (p s : string) : option string :=
  if bool_decide (s = p) then Some ""
  else match s with EmptyString => None | String c s' => String c <$> strip_suffix p s' end.
Definition origin_matches_allowed_pattern (origin allowed : string) : bool :=
  if negb (contains_char "*" allowed) then bool_decide (origin = allowed)
  else
    match parse_origin origin, parse_origin allowed with
    | Some (origin_scheme, origin_host), Some (allowed_scheme, allowed_host) =>
        bool_decide (origin_scheme = allowed_scheme)
        && match strip_prefix "*." allowed_host with
           | Some host_suffix =>
               (len host_suffix <? len origin_host) && ends_with host_suffix origin_host
               && match strip_suffix host_suffix origin_host with Some prefix => ends_with "." prefix | None => false end
           | None => false
           end
    | _, _ => false
    end.
Definition origin_is_allowed (origin allowed_origins : string) (allow_localhost : bool) : bool :=
  (allow_localhost && (starts_with "http://localhost:" origin || bool_decide (origin = "http://localhost")))
  || existsb (fun value => origin_matches_allowed_pattern origin (trim value)) (split "," allowed_origins).

(** ** Caching headers *)
Definition cache_control (path : string) (set_by_route : option string) : string :=
  match set_by_route with
  | Some value => value
  | None =>
      if starts_with "/_app/" path then "public, max-age=31536000, immutable"
      else if starts_with "/api/" path || starts_with "/health" path then "no-store"
      else if bool_decide (path = "/index.html") || bool_decide (path = "/") then "public, max-age=0, must-revalidate"
      else if starts_with "/.well-known/" path || bool_decide (path = "/site.webmanifest") then "public, max-age=86400"
      else if starts_with "/dist/" path || starts_with "/examples/" path then "public, max-age=3600"
      else if ends_with ".png" path || ends_with ".ico" path || ends_with ".svg" path then "public, max-age=2592000"
      else "public, max-age=0, must-revalidate"
  end.

(** ** The environment *)
Record server_env : Type := {
  sv_database_url : option string; sv_allowed_origins : option string; sv_server_nsec : option string; sv_redis_url : option string;
  sv_kms_provider : option string; sv_use_gcp_kms : option string; sv_master_key_path : option string; sv_kms : kms_env;
}.
Definition kms_provider (env : server_env) : string :=
  default (if bool_decide (default "" (sv_use_gcp_kms env) = "true") then "gcp" else "file") (sv_kms_provider env).
Definition missing (o : option string) (msg : string) : list string := match o with Some _ => [] | None => [msg] end.
Definition environment_errors (env : server_env) : list string :=
  missing (sv_database_url env) "DATABASE_URL must be set (PostgreSQL connection string)"
  ++ missing (sv_allowed_origins env) "ALLOWED_ORIGINS must be set (comma-separated CORS origins)"
  ++ missing (sv_server_nsec env) "SERVER_NSEC must be set (server's Nostr secret key for signing UCANs)"
  ++ missing (sv_redis_url env) "REDIS_URL must be set (Redis/Memorystore URL for cluster coordination)"
  ++ (if bool_decide (kms_provider env = "file") then missing (sv_master_key_path env) "MASTER_KEY_PATH must be set when KMS_PROVIDER=file"
      else if bool_decide (kms_provider env = "gcp") then missing (kv_project (sv_kms env)) "GCP_PROJECT_ID must be set when KMS_PROVIDER=gcp"
      else if bool_decide (kms_provider env = "aws") then missing (kv_aws_key_id (sv_kms env)) "AWS_KMS_KEY_ID must be set when KMS_PROVIDER=aws"
      else ["KMS_PROVIDER must be 'file', 'gcp', or 'aws'"]).
Definition validate_environment (env : server_env) : result unit string :=
  match environment_errors env with
  | [] => Ok tt
  | errors => Err ("Missing required environment variables:" +:+ line_feed +:+ "  - " +:+ join (line_feed +:+ "  - ") errors
                   +:+ line_feed +:+ line_feed +:+ "See .env.example for configuration guide.")
  end.

(** ** The key managers *)
Inductive any_manager : Type :=
| AnyGcp (m : CachingKeyManager GcpKeyManager)
| AnyAws (m : CachingKeyManager AwsKeyManager)
| AnyFile (m : CachingKeyManager FileKeyManager).
(** Whether the program was built with the "aws" feature is an argument. *)
Definition choose_manager `{Aead, Kms} (aws : bool) (env : server_env) (master_key : result string string)
  : result any_manager KeyManagerError :=
  if bool_decide (kms_provider env = "gcp") then let? m := gcp_new (sv_kms env) in Ok (AnyGcp (caching_new m))
  else if bool_decide (kms_provider env = "aws") && aws then let? m := aws_new (sv_kms env) in Ok (AnyAws (caching_new m))
  else let? m := file_new master_key in Ok (AnyFile (caching_new m)).

(** ** Panics *)
Inductive process (S : Type) : Type := Running (s : S) | Exited (code : Z).
Arguments Running {S} s. Arguments Exited {S} code.
(** A request to a running server: the hook prints the message and exits when the
    handler panics; otherwise the server answers and goes on. *)
Definition serve {S A E} (panics : E -> bool) (handler : SE S E A) (p : process S) : process S * option (result A E) :=
  match p with
  | Exited code => (Exited code, None)
  | Running s =>
      match handler s with
      | (s', Err e) => if panics e then (Exited 1, None) else (Running s', Some (Err e))
      | (s', Ok a) => (Running s', Some (Ok a))
      end
  end.
Definition account_panics (e : account_abort) : bool := match e with AccountPanic => true | Failed _ => false end.

(** ** Which origins are allowed *)
Lemma strip_suffix_spec p s a : strip_suffix p s = Some a <-> s = a +:+ p.
Proof.
  revert a. induction s as [|c s IH]; intros a; simpl.
  - case_bool_decide as E; split; intros H.
    + by injection H as <-.
    + destruct a; [done|]. discriminate H.
    + done.
    + destruct a; simpl in H; [by subst|discriminate H].
  - case_bool_decide as E; split; intros H.
    + injection H as <-. done.
    + rewrite <- E in H. destruct a as [|b a]; [done|]. exfalso. apply (f_equal String.length) in H.
      simpl in H. rewrite app_length_str in H. simpl in H. lia.
    + apply fmap_Some in H as (a' & H & ->). apply IH in H as ->. done.
    + destruct a as [|b a]; simpl in H; [by subst|]. injection H as -> ->. apply fmap_Some. exists a. split; [by apply IH|done].
Qed.
(** A pattern with a star allows the origins of its scheme whose host is a name and
    a dot before the suffix. *)
Definition wildcard_allows (pattern origin : string) : Prop :=
  contains_char "*" pattern = true /\
  exists scheme suffix sub, parse_origin pattern = Some (scheme, "*." +:+ suffix) /\
    parse_origin origin = Some (scheme, sub +:+ "." +:+ suffix).
Lemma pattern_spec origin pattern :
  origin_matches_allowed_pattern origin pattern = true <->
  (contains_char "*" pattern = false /\ origin = pattern) \/ wildcard_allows pattern origin.
Proof.
  unfold origin_matches_allowed_pattern, wildcard_allows. destruct (contains_char "*" pattern); cbn [negb].
  2: { rewrite bool_decide_eq_true. naive_solver. }
  split.
  - intros H. right. split; [done|]. destruct (parse_origin origin) as [[os oh]|]; [|done].
    destruct (parse_origin pattern) as [[ps ph]|]; [|done]. apply andb_true_iff in H as [->%bool_decide_eq_true H].
    destruct (strip_prefix "*." ph) as [suffix|] eqn:E; [|done]. apply strip_prefix_Some in E as ->.
    apply andb_true_iff in H as [_ H]. destruct (strip_suffix suffix oh) as [prefix|] eqn:E; [|done].
    apply strip_suffix_spec in E as ->. apply ends_with_spec in H as (sub & ->). exists ps, suffix, sub. by rewrite app_assoc_str.
  - intros [[[=] _]|(_ & scheme & suffix & sub & -> & ->)].
    assert (strip_prefix "*." ("*." +:+ suffix) = Some suffix) as -> by by apply strip_prefix_Some. rewrite bool_decide_true by done.
    replace (sub +:+ "." +:+ suffix) with ((sub +:+ ".") +:+ suffix) by apply app_assoc_str.
    rewrite (proj2 (ends_with_spec suffix _)) by (by exists (sub +:+ ".")). assert (strip_suffix suffix ((sub +:+ ".") +:+ suffix) = Some (sub +:+ ".")) as -> by by apply strip_suffix_spec.
    rewrite (proj2 (ends_with_spec "." (sub +:+ "."))) by (by exists sub). rewrite !andb_true_r, andb_true_l. apply Z.ltb_lt. unfold len.
    rewrite !app_length_str. simpl. lia.
Qed.

(** [C36] The origins that may send credentials are exactly the entries of
    ALLOWED_ORIGINS, the subdomains of its wildcard entries with the same scheme,
    and localhost over http where the environment allows it; so a host that merely
    ends like an allowed one is refused. *)
Theorem cors_origin_spec origin allowed_origins allow_localhost :
  origin_is_allowed origin allowed_origins allow_localhost = true <->
  (allow_localhost = true /\ (origin = "http://localhost" \/ starts_with "http://localhost:" origin = true)) \/
  exists entry, entry ∈ split "," allowed_origins /\
    ((contains_char "*" (trim entry) = false /\ origin = trim entry) \/ wildcard_allows (trim entry) origin).
Proof.
  unfold origin_is_allowed. rewrite orb_true_iff, andb_true_iff, orb_true_iff, bool_decide_eq_true, existsb_exists.
  setoid_rewrite <- list_elem_of_In. setoid_rewrite pattern_spec. naive_solver.
Qed.

(** ** The configuration in the page *)
Lemma find_at_split p s a b : find_at p s = Some (a, b) -> s = a +:+ b /\ starts_with p b = true.
Proof.
  revert a. induction s as [|c s IH]; intros a; simpl.
  - destruct (starts_with p "") eqn:E; [by intros [= <- <-]|done].
  - destruct (starts_with p (String c s)) eqn:E; [by intros [= <- <-]|].
    destruct (find_at p s) as [[a' b']|]; [|done]. intros [= <- <-]. destruct (IH a' eq_refl) as [-> ?]. done.
Qed.
Lemma rfind_at_split p s a b : rfind_at p s = Some (a, b) -> s = a +:+ b /\ starts_with p b = true.
Proof.
  revert a. induction s as [|c s IH]; intros a; simpl.
  - destruct (starts_with p "") eqn:E; [by intros [= <- <-]|done].
  - destruct (rfind_at p s) as [[a' b']|].
    + intros [= <- <-]. destruct (IH a' eq_refl) as [-> ?]. done.
    + destruct (starts_with p (String c s)) eqn:E; [by intros [= <- <-]|done].
Qed.
(** The page is kept: the script and a line feed go in at one place. *)
Lemma injection_keeps_page `{Nostr, !Serde} env html :
  inject_runtime_env env html = html \/
  exists a b, html = a +:+ b /\ inject_runtime_env env html = a +:+ injection_script env +:+ line_feed +:+ b.
Proof.
  unfold inject_runtime_env. destruct (env_members env); [by left|]. right.
  destruct (rfind_at "</head>" html) as [[a b]|] eqn:E1; [|destruct (find_at "<body>" html) as [[a b]|] eqn:E2].
  - apply rfind_at_split in E1 as [-> _]. by exists a, b.
  - apply find_at_split in E2 as [-> _]. by exists a, b.
  - by exists "", html.
Qed.

(** ** The key managers *)
(** A provider that validation accepts is not always the one that is used. *)
Lemma aws_without_feature `{Aead, Kms} env master_key :
  sv_kms_provider env = Some "aws" ->
  choose_manager false env master_key = (let? m := file_new master_key in Ok (AnyFile (caching_new m))).
Proof. intros Hp. unfold choose_manager, kms_provider. by rewrite Hp. Qed.

Section panics.
Context `{HN : Nostr, HC : !NostrCrypto, HS : !Serde, HX : !Secrets, HB : Bcrypt, HD : Digests, HE : !Encodings,
          HV : !HttpEvents, HU : UcanLib, HM : !UcanMint, HL : UrlLib, HUni : Unicode, HI : Ipv6, HCh : Channel,
          HLS : LoginSerde}.

Lemma prefix_str_None s n : prefix_str s n = None <-> len s < n \/ is_char_boundary s n = false.
Proof.
  unfold prefix_str. rewrite <- Z.leb_gt. destruct (n <=? len s), (is_char_boundary s n); simpl; split; try (by eauto); by intros [?|?].
Qed.
Lemma reset_panics now tenant_id salt req s :
  snd (reset_password now tenant_id salt req s) = Err AccountPanic <-> prefix_str (rs_token req) 10 = None.
Proof.
  unfold reset_password. destruct (prefix_str (rs_token req) 10) as [t|]; [|done]. split; [|done].
  unfold read_db, lift_account, on_repo, se_bind, se_gets, se_lift, se_ret. cbn [ok_or].
  destruct (find_by_reset_token _ _ _) as [[pk ex]|]; simpl; [|done].
  destruct (match ex with Some x => x <? now | None => false end); [done|].
  destruct (bcrypt_hash _ _ _); simpl; [|done]. by destruct (repo_reset_password _ _ _ _ _) as [d [u|e]].
Qed.

(** [C35] One request without credentials ends the server: a password reset whose
    token has fewer than ten bytes, or has a character that lies across its tenth
    and eleventh byte, exits the process, and no later request is answered; any
    other token leaves it running. *)
Theorem short_reset_token_ends_server now tenant_id salt req s :
  (len (rs_token req) < 10 \/ is_char_boundary (rs_token req) 10 = false ->
   serve account_panics (reset_password now tenant_id salt req) (Running s) = (Exited 1, None) /\
   forall A (handler : SE account_state account_abort A), serve account_panics handler (Exited 1) = (Exited 1, None)) /\
  (10 <= len (rs_token req) /\ is_char_boundary (rs_token req) 10 = true ->
   exists s' r, serve account_panics (reset_password now tenant_id salt req) (Running s) = (Running s', Some r)).
Proof.
  pose proof (reset_panics now tenant_id salt req s) as Hp. rewrite prefix_str_None in Hp. unfold serve.
  destruct (reset_password now tenant_id salt req s) as [s' [r|e]]; split; intros H.
  - discriminate (proj2 Hp H).
  - by exists s', (Ok r).
  - by injection (proj2 Hp H) as ->.
  - destruct e as [e|]; [by exists s', (Err (Failed e))|]. destruct H as [H Hb], (proj1 Hp eq_refl) as [H'|H']; [lia | congruence].
Qed.
End panics.

(** ** Witnesses *)
Lemma short_reset_token_ends_server_witness :
  serve account_panics (reset_password 10 1 "salt" {| rs_token := "x"; rs_new_password := "p" |}) (Running (state_of verified_db)) = (Exited 1, None).
Proof. refine (proj1 (proj1 (short_reset_token_ends_server 10 1 "salt" {| rs_token := "x"; rs_new_password := "p" |} (state_of verified_db)) _)). left. vm_compute. reflexivity. Defined.
