(* ===== verification/Scopes.v ===== *)
(** * OAuth scopes

    core/src/oauth_scopes.rs: the named scopes, the reading of a scope string and
    the event kinds it covers.  The table is public in the library; the server
    grants policies and does not consult it. *)
From S2P Require Import Prelude RustStr.

Inductive ScopeCategory : Type := Social | Messaging | Financial | Data | Dangerous.
Inductive RiskLevel : Type := Safe | Moderate | Sensitive | High | Critical.
#[export] Instance ScopeCategory_eq_dec : EqDecision ScopeCategory.
Proof. solve_decision. Defined.
Record Scope : Type := {
  sc_name : string; sc_description : string; sc_event_kinds : list Z; sc_category : ScopeCategory; sc_risk_level : RiskLevel;
}.
Definition scope (name description : string) (event_kinds : list Z) (category : ScopeCategory) (risk_level : RiskLevel) : Scope := {|
  sc_name := name; sc_description := description; sc_event_kinds := event_kinds; sc_category := category; sc_risk_level := risk_level |}.

Definition ALL_SCOPES : list Scope :=
  [scope "sign:profile" "Update your profile (name, bio, picture)" ([0]) Social Moderate;
   scope "sign:notes" "Post notes and replies" ([1]) Social Moderate;
   scope "sign:follows" "Manage your follow list" ([3]) Social Moderate;
   scope "sign:reactions" "Like and react to posts" ([7; 9735]) Social Safe;
   scope "sign:reposts" "Repost and quote notes" ([6; 16]) Social Moderate;
   scope "sign:all-social" "All basic social actions (post, react, follow)" ([0; 1; 3; 6; 7; 16; 9735]) Social Moderate;
   scope "sign:dms" "Send encrypted direct messages" ([4; 44]) Messaging Sensitive;
   scope "decrypt:dms" "Read your encrypted direct messages" ([4; 44]) Messaging Sensitive;
   scope "sign:gift-wraps" "Send gift-wrapped messages (advanced privacy)" ([1059]) Messaging Sensitive;
   scope "sign:zaps" "Send zaps (Lightning payments) ⚠️ Involves money!" ([9734]) Financial High;
   scope "sign:wallet" "Wallet operations ⚠️ Direct wallet access!" ([23194; 23195]) Financial Critical;
   scope "sign:lists" "Manage lists (mutes, pins, bookmarks, etc.)" ([10000; 10001; 10002; 10003; 10004; 10005; 10006; 10007; 10015; 10030]) Data Moderate;
   scope "sign:long-form" "Create long-form content (articles, blogs)" ([30023; 30024; 30030; 30040; 30041; 30078; 30311; 30315; 30402; 30403]) Data Moderate;
   scope "sign:deletions" "Delete your events ⚠️ Permanent!" ([5]) Dangerous Critical;
   scope "sign:reports" "File reports and complaints" ([1984]) Dangerous High;
   scope "sign:all" "Sign ALL event types ⚠️ Maximum permissions!" (seqZ 0 40001) Dangerous Critical].

Definition get_scope_definition (name : string) : option Scope := find_first (fun s => bool_decide (sc_name s = name)) ALL_SCOPES.
Definition parse_scope_string (scope_str : string) : result (list Scope) string :=
  collect (fun name => ok_or (get_scope_definition name) ("Unknown scope: " +:+ name)) (split_whitespace scope_str).
(** A set of kinds, then sorted. *)
Definition scopes_to_event_kinds (scopes : list Scope) : list Z :=
  merge_sort Z.le (elements (list_to_set (concat (map sc_event_kinds scopes)) : gset Z)).
Definition of_category (c : ScopeCategory) (l : list Scope) : list Scope := List.filter (fun s => bool_decide (sc_category s = c)) l.
Definition get_scopes_by_category : list (ScopeCategory * list Scope) :=
  map (fun c => (c, of_category c ALL_SCOPES)) [Social; Messaging; Financial; Data; Dangerous].

(** ** What a scope string covers *)
Lemma by_category_permutation l :
  concat (map (fun c => of_category c l) [Social; Messaging; Financial; Data; Dangerous]) ≡ₚ l.
Proof.
  induction l as [|s l IH]; [done|]. transitivity (s :: concat (map (fun c => of_category c l) [Social; Messaging; Financial; Data; Dangerous]));
    [|by rewrite IH]. clear IH. unfold of_category. simpl. rewrite !app_nil_r.
  destruct (sc_category s); simpl; solve_Permutation.
Qed.

Lemma sorted_kinds scopes : Sorted Z.lt (scopes_to_event_kinds scopes).
Proof.
  unfold scopes_to_event_kinds. set (l := elements _).
  assert (Hnd : NoDup (merge_sort Z.le l)) by (rewrite merge_sort_Permutation; apply NoDup_elements).
  assert (Hs : StronglySorted Z.le (merge_sort Z.le l)) by apply (StronglySorted_merge_sort Z.le).
  apply StronglySorted_Sorted. revert Hnd. induction Hs as [|x m Hm IH Hx]; intros Hnd; constructor.
  - apply IH. by apply NoDup_cons in Hnd as [_ ?].
  - apply NoDup_cons in Hnd as [Hn _]. apply Forall_forall. intros y Hy. rewrite Forall_forall in Hx.
    specialize (Hx y Hy). assert (x <> y) by (intros ->; done). lia.
Qed.
Lemma kinds_spec scopes k : k ∈ scopes_to_event_kinds scopes <-> exists s, s ∈ scopes /\ k ∈ sc_event_kinds s.
Proof.
  unfold scopes_to_event_kinds. rewrite merge_sort_Permutation, elem_of_elements, elem_of_list_to_set, list_elem_of_In, in_concat.
  setoid_rewrite in_map_iff. setoid_rewrite <- list_elem_of_In. split.
  - intros (l & (s & <- & Hs) & Hk). by exists s.
  - intros (s & Hs & Hk). exists (sc_event_kinds s). split; [by exists s|done].
Qed.

(** A scope string covers the kinds of the scopes it names and no others, each
    once and in order; when it is refused, a word of it names no scope. *)
Theorem scope_string_kinds scope_str :
  match parse_scope_string scope_str with
  | Ok scopes => Sorted Z.lt (scopes_to_event_kinds scopes) /\
      forall k, k ∈ scopes_to_event_kinds scopes <->
        exists name s, name ∈ split_whitespace scope_str /\ get_scope_definition name = Some s /\ k ∈ sc_event_kinds s
  | Err e => exists name, name ∈ split_whitespace scope_str /\ get_scope_definition name = None /\ e = "Unknown scope: " +:+ name
  end.
Proof.
  unfold parse_scope_string. set (f := fun name => _). destruct (collect f (split_whitespace scope_str)) as [scopes|e] eqn:E.
  - split; [apply sorted_kinds|]. intros k. rewrite kinds_spec. apply collect_ok in E. split.
    + intros (s & Hs & Hk). apply list_elem_of_lookup in Hs as [i Hi]. destruct (Forall2_lookup_r _ _ _ _ _ E Hi) as (name & Hn & Hf).
      apply ok_or_ok in Hf. exists name, s. split; [by eapply list_elem_of_lookup_2|done].
    + intros (name & s & Hn & Hd & Hk). apply list_elem_of_lookup in Hn as [i Hi]. destruct (Forall2_lookup_l _ _ _ _ _ E Hi) as (s' & Hs & Hf).
      apply ok_or_ok in Hf. rewrite Hd in Hf. injection Hf as <-. exists s. split; [by eapply list_elem_of_lookup_2|done].
  - apply collect_err in E as (name & Hn & Hf). exists name. split; [done|]. unfold f in Hf.
    destruct (get_scope_definition name); [done|]. by injection Hf as <-.
Qed.

(** The scope for all kinds stops at 40000, below the largest kind of a 16-bit
    integer. *)
Lemma sign_all_stops k : (exists s, get_scope_definition "sign:all" = Some s /\ k ∈ sc_event_kinds s) <-> 0 <= k <= 40000.
Proof.
  assert (Hd : exists s, get_scope_definition "sign:all" = Some s /\ sc_event_kinds s = seqZ 0 40001) by (eexists; split; reflexivity).
  destruct Hd as (s & Hs & Hk). rewrite Hs. split.
  - intros (s' & [= <-] & H). rewrite Hk in H. apply elem_of_seqZ in H. lia.
  - intros H. exists s. split; [done|]. rewrite Hk. apply elem_of_seqZ. lia.
Qed.
