(* ===== verification/Names.v ===== *)
(** * The name server and profiles

    api/src/divine_names.rs, the client of the name server, and
    api/src/nostr_profile.rs, which reads the name and picture of a key from
    relays.  HTTP, the relays and serde's readers are parameters. *)
From S2P Require Import Prelude RustStr External Instances Nip98 OAuth AccountKeys Teams.

Definition DEFAULT_NAME_SERVER_URL : string := "https://names.divine.video".
Record Nip05Info : Type := { np_main_domain : string; np_underscore_subdomain : string; np_host_style : string }.
Record NameClaimResponse : Type := {
  nc_ok : bool; nc_name : option string; nc_pubkey : option string; nc_error : option string; nc_profile_url : option string;
  nc_nip05 : option Nip05Info;
}.
Record AvailabilityResponse : Type := {
  av_ok : bool; av_available : bool; av_name : option string; av_canonical : option string; av_reason : option string;
  av_status : option string; av_error : option string;
}.
Record PubkeyLookupResponse : Type := {
  pl_ok : bool; pl_found : bool; pl_name : option string; pl_canonical : option string; pl_pubkey : option string;
  pl_profile_url : option string; pl_nip05 : option Nip05Info; pl_error : option string;
}.
Inductive DivineNameError : Type :=
| DN_SigningError (e : string)
| DN_RequestError (e : string)
| DN_ClaimError (e : string)
| DN_ResponseError (e : string).
Definition divine_name_error_str (e : DivineNameError) : string :=
  match e with
  | DN_SigningError e => "NIP-98 signing failed: " +:+ e
  | DN_RequestError e => "HTTP request failed: " +:+ e
  | DN_ClaimError e => "Username claim failed: " +:+ e
  | DN_ResponseError e => "Invalid response: " +:+ e
  end.

Record Kind0Content : Type := { k0_name : option string; k0_display_name : option string; k0_picture : option string }.

(** A status with its text. *)
Class NamesClient `{Nostr} := {
  tag_custom : string -> list string -> Tag;
  event_json : Event -> result string string;
  standard_base64 : string -> string;
  names_status_text : Z -> string;
  (** a GET, and a POST with an Authorization header and a JSON body *)
  names_get : string -> result (Z * string) string;
  names_post : string -> string -> string -> result (Z * string) string;
  de_ClaimResponse : string -> result NameClaimResponse string;
  de_AvailabilityResponse : string -> result AvailabilityResponse string;
  de_PubkeyLookupResponse : string -> result PubkeyLookupResponse string;
  de_Kind0Content : string -> option Kind0Content;
  (** the metadata events of a key on relays, or the error of fetching them *)
  fetch_metadata : list string -> PublicKey -> result (list Event) string;
}.
(** DIVINE_NAME_SERVER_URL and ENABLE_DIVINE_NAMES *)
Record names_env : Type := { nv_url : option string; nv_enable : option string }.

Section names.
Context `{HN : Nostr, HC : !NostrCrypto, HS : !Serde, HD : Digests, HNC : !NamesClient, HL : UrlLib}.
Variable env : names_env.

(** ** The name server *)
Definition names_is_enabled : bool :=
  negb (is_null (nv_url env)) || match nv_enable env with Some v => bool_decide (v ∈ ["true"; "1"]) | None => false end.
Definition name_server_base : string := trim_end_char "/" (default DEFAULT_NAME_SERVER_URL (nv_url env)).
Definition create_nip98_event (now : Z) (keys : SecretKey) (url method body : string) : result Event DivineNameError :=
  map_err DN_SigningError
    (builder_sign keys HTTP_AUTH_KIND "" [tag_custom "u" [url]; tag_custom "method" [method]; tag_custom "payload" [sha256_hex body]] now).
(** A body that does not parse. *)
Definition unparsed {A} (what : string) (status : Z) (text : string) (r : result A string) : result A DivineNameError :=
  map_err (fun e => DN_ResponseError ("Failed to parse " +:+ what +:+ ": " +:+ e +:+ ". Status: " +:+ names_status_text status
                                      +:+ ", Body: " +:+ text)) r.
Definition claim_username (now : Z) (keys : SecretKey) (username : string) (relays : option (list string))
  : result NameClaimResponse DivineNameError :=
  let url := name_server_base +:+ "/api/username/claim" in
  let body_json := json_to_string (JObject (("name", JString username) ::
                     match relays with Some l => [("relays", JArray (map JString l))] | None => [] end)) in
  let? auth_event := create_nip98_event now keys url "POST" body_json in
  let? auth_json := map_err DN_SigningError (event_json auth_event) in
  let? '(status, response_text) := map_err DN_RequestError (names_post url ("Nostr " +:+ standard_base64 auth_json) body_json) in
  let? claim_response := unparsed "response" status response_text (de_ClaimResponse response_text) in
  if nc_ok claim_response then Ok claim_response else Err (DN_ClaimError (default "Unknown error" (nc_error claim_response))).
Definition check_availability (username : string) : result (bool * option string) DivineNameError :=
  let? '(status, response_text) := map_err DN_RequestError (names_get (name_server_base +:+ "/api/username/check/" +:+ username)) in
  let? check_response := unparsed "availability response" status response_text (de_AvailabilityResponse response_text) in
  if av_ok check_response then Ok (av_available check_response, av_reason check_response)
  else Err (DN_ResponseError (default "Unknown error" (av_error check_response))).
Definition lookup_by_name (username : string) : result (option string) DivineNameError :=
  let? '(status, response_text) := map_err DN_RequestError
                                     (names_get (name_server_base +:+ "/.well-known/nostr.json?name=" +:+ urlencode username)) in
  let? parsed := unparsed "nostr.json" status response_text (json_from_str response_text) in
  Ok (names ← json_lookup parsed "names"; v ← json_lookup names username; as_str v).
Definition lookup_by_pubkey (pubkey : string) : result (option PubkeyLookupResponse) DivineNameError :=
  let? '(status, response_text) := map_err DN_RequestError (names_get (name_server_base +:+ "/api/username/by-pubkey/" +:+ pubkey)) in
  let? lookup_response := unparsed "lookup response" status response_text (de_PubkeyLookupResponse response_text) in
  if pl_ok lookup_response then Ok (if pl_found lookup_response then Some lookup_response else None)
  else Err (DN_ResponseError (default "Unknown error" (pl_error lookup_response))).

(** ** Profiles *)
Definition non_blank (s : string) : option string := if bool_decide (trim s = "") then None else Some (trim s).
Definition parse_kind0 (content : string) : option ProfileMetadata :=
  parsed ← de_Kind0Content content;
  let display_name := match k0_display_name parsed ≫= non_blank with Some n => Some n | None => k0_name parsed ≫= non_blank end in
  let picture := k0_picture parsed ≫= non_blank in
  match display_name, picture with
  | None, None => None
  | _, _ => Some {| pm_display_name := display_name; pm_picture := picture |}
  end.
Definition fetch_profile_metadata (pubkey_hex : string) (relays : list string) : option ProfileMetadata :=
  match relays with
  | [] => None
  | _ => match pk_from_hex pubkey_hex with
         | Err _ => None
         | Ok public_key =>
             match fetch_metadata relays public_key with
             | Ok (ev :: _) => parse_kind0 (ev_content ev)
             | _ => None
             end
         end
  end.

(** ** What the callers rely on *)
(** A profile shows a name or a picture, and neither is blank. *)
Lemma profile_shows pubkey_hex relays m :
  fetch_profile_metadata pubkey_hex relays = Some m ->
  (is_Some (pm_display_name m) \/ is_Some (pm_picture m)) /\
  (forall n, pm_display_name m = Some n -> n <> "") /\ forall p, pm_picture m = Some p -> p <> "".
Proof.
  assert (Hne : forall s t, non_blank s = Some t -> t <> "").
  { intros s t. unfold non_blank. case_bool_decide as E; [done|]. by intros [= <-]. }
  unfold fetch_profile_metadata. destruct relays; [done|]. destruct (pk_from_hex pubkey_hex); [|done].
  destruct (fetch_metadata _ _) as [[|ev evs]|]; [done| |done]. unfold parse_kind0.
  destruct (de_Kind0Content (ev_content ev)) as [k|]; [|done]. simpl.
  set (dn := match _ ≫= _ with Some n => Some n | None => _ end). set (pic := k0_picture k ≫= non_blank).
  assert (Hdn : forall n, dn = Some n -> n <> "").
  { subst dn. intros n. destruct (k0_display_name k) as [d|]; simpl; [destruct (non_blank d) eqn:E|].
    - intros [= <-]. by apply Hne in E.
    - destruct (k0_name k) as [x|]; [|done]. simpl. apply Hne.
    - destruct (k0_name k) as [x|]; [|done]. simpl. apply Hne. }
  assert (Hpic : forall p, pic = Some p -> p <> "") by (subst pic; intros p; destruct (k0_picture k); [apply Hne|done]).
  clearbody dn pic. destruct dn, pic; [..|done]; intros [= <-]; simpl; (split; [eauto|done]).
Qed.
End names.
