(* ===== verification/Emails.v ===== *)
(** * Emails

    api/src/email_service.rs: the texts of the emails, the senders for development,
    SendGrid and SES behind one interface, and the choice between them.  The two
    services and the formatting of dates are parameters; logging is left out.  A
    template is a list of pieces, its HTML written line by line with a backquote
    for every double quote. *)
From S2P Require Import Prelude RustStr External Instances Database Samples Tokens Permissions Policies AuthTypes Ucan HttpRpc OAuthRepo Users OAuth WorkQueue Queues RateLimit Tenant Nip98 Accounts AccountKeys Claims.

(** ** Parameters *)
(** [DateTime::format] with "%b %-d, %Y" *)
Class DateText := { format_date : Z -> string }.
(** The letters of a month, digits, a comma and blanks. *)
Class DateTextLaws `{DateText} : Prop := {
  format_date_plain t c : c ∈ ["<"%char; ">"%char; quote] -> contains_char c (format_date t) = false }.

(** ** Templates *)
(** Text of the template, a value to be escaped, and one that goes in as it is. *)
Inductive piece : Type :=
| Lit (s : string)
| Esc (v : string)
| Plain (v : string).
Definition new_line : string := String "010" "".
Fixpoint double_quotes (s : string) : string :=
  match s with EmptyString => "" | String c s' => String (if bool_decide (c = "`"%char) then quote else c) (double_quotes s') end.
Definition html (lines : list string) : string := join new_line (map double_quotes lines).

(** A character at a time. *)
Definition mail_html_escape : string -> string := escape_chars.
Definition render_piece (p : piece) : string :=
  match p with Lit s => s | Esc v => mail_html_escape v | Plain v => v end.
Fixpoint render (l : list piece) : string :=
  match l with [] => "" | p :: l' => render_piece p +:+ render l' end.

Definition safe_http_url (raw : string) : option string :=
  if starts_with "https://" (trim raw) || starts_with "http://" (trim raw) then Some (mail_html_escape (trim raw)) else None.
Definition title_case_role `{Unicode} (role : string) : string :=
  match chars role with [] => "" | first :: rest => char_to_uppercase first +:+ concat_str rest end.

Definition basic_email (heading intro cta_label cta_url footer_note : string) : list piece :=
  [Lit (html ["<!doctype html>";
      "<html>";
      "<body style=`margin:0; padding:0; background:#f5f5f5; font-family:-apple-system,BlinkMacSystemFont,'Segoe UI',Roboto,sans-serif; color:#111;`>";
      "  <div style=`max-width:520px; margin:0 auto; padding:32px 20px;`>";
      "    <div style=`text-align:center; margin-bottom:24px;`>";
      "      <span style=`color:#00B488; font-size:20px; font-weight:600; letter-spacing:0.2px;`>Synvya</span>";
      "    </div>";
      "    <h2 style=`text-align:center; margin:0 0 16px; font-size:20px; font-weight:600;`>"]);
   Esc heading;
   Lit (html ["</h2>";
      "    <p style=`text-align:center; color:#444; font-size:15px; line-height:1.5; margin:0 12px 28px;`>"]);
   Esc intro;
   Lit (html ["</p>";
      "    <div style=`margin:0 0 28px; text-align:center;`>";
      "      <a href=`"]);
   Esc cta_url;
   Lit (html ["` style=`display:inline-block; background:#00B488; color:#fff; padding:14px 36px; text-decoration:none; border-radius:8px; font-weight:600; font-size:15px;`>"]);
   Esc cta_label;
   Lit (html ["</a>";
      "    </div>";
      "    <p style=`color:#666; font-size:13px; text-align:center; line-height:1.5; margin:0 8px;`>";
      "      Or copy and paste this link into your browser:<br>";
      "      <a href=`"]);
   Esc cta_url;
   Lit (html ["` style=`color:#00B488; word-break:break-all;`>"]);
   Esc cta_url;
   Lit (html ["</a>";
      "    </p>";
      "    <p style=`color:#999; font-size:12px; text-align:center; margin-top:28px;`>"]);
   Esc footer_note;
   Lit (html ["</p>";
      "  </div>";
      "</body>";
      "</html>";
      ""])].
Definition basic_email_html (heading intro cta_label cta_url footer_note : string) : string :=
  render (basic_email heading intro cta_label cta_url footer_note).
Definition verification_email_html (verification_url : string) : string :=
  basic_email_html "Verify your Synvya email"
    "Thanks for signing up! Confirm your email address to finish creating your account."
    "Verify Email Address" verification_url
    "If you didn't sign up for Synvya, you can safely ignore this email.".
Definition paragraphs (l : list string) : string := join (new_line +:+ new_line) l.
Definition verification_email_text (verification_url : string) : string :=
  paragraphs ["Thanks for signing up! Please verify your email address by clicking this link:"; verification_url;
    "If you didn't sign up for Synvya, you can safely ignore this email."].
Definition password_reset_html (reset_url : string) : string :=
  basic_email_html "Reset your Synvya password"
    "We received a request to reset your password. Click the button below to set a new one."
    "Reset Password" reset_url
    "This link will expire in 1 hour. If you didn't request a password reset, you can safely ignore this email.".
Definition password_reset_text (reset_url : string) : string :=
  paragraphs ["We received a request to reset your password. Click this link to set a new password:"; reset_url;
    "This link will expire in 1 hour. If you didn't request a password reset, you can safely ignore this email."].

(** The picture, when it is a URL of the web, and a name that is not empty. *)
Definition avatar_html (picture : option string) : list piece :=
  match picture ≫= safe_http_url with
  | Some url => [Lit (html ["<img src=`"]);
   Plain url;
   Lit (html ["` alt=`` width=`72` height=`72` style=`width:72px; height:72px; border-radius:50%; object-fit:cover; display:block; margin:0 auto 16px;` />"])]
  | None => []
  end.
Definition name_html (name : string) : list piece :=
  if bool_decide (name = "") then [] else
  [Lit (html ["<div style=`font-size:18px; font-weight:600; margin-bottom:12px;`>"]);
   Esc name;
   Lit (html ["</div>"])].
Definition claim_email (claim_url recipient_email : string) (account_display_name account_picture : option string) : list piece :=
  match account_display_name, account_picture with
  | None, None =>
      basic_email "Your Synvya account is ready"
        "Your Synvya account is ready. Click the button below to claim it and set up your login."
        "Claim Your Account" claim_url
        "This link will expire in 7 days. If you didn't request this, you can safely ignore this email."
  | _, _ =>
  [Lit (html ["<!doctype html>";
      "<html>";
      "<body style=`margin:0; padding:0; background:#f5f5f5; font-family:-apple-system,BlinkMacSystemFont,'Segoe UI',Roboto,sans-serif; color:#111;`>";
      "  <div style=`max-width:520px; margin:0 auto; padding:32px 20px;`>";
      "    <div style=`text-align:center; margin-bottom:24px;`>";
      "      <span style=`color:#00B488; font-size:20px; font-weight:600; letter-spacing:0.2px;`>Synvya</span>";
      "    </div>";
      "    <h2 style=`text-align:center; margin:0 0 20px; font-size:20px; font-weight:600;`>Your Synvya account is ready</h2>";
      "    <div style=`background:#fff; border-radius:12px; padding:28px 24px; text-align:center; border:1px solid #ececec;`>";
      "      "])] ++
  avatar_html account_picture ++
  name_html (default "" account_display_name) ++
  [Lit (html ["<div style=`color:#444; font-size:14px;`>Claim your login for <strong>"]);
   Esc recipient_email;
   Lit (html ["</strong>.</div>";
      "    </div>";
      "    <div style=`margin:28px 0; text-align:center;`>";
      "      <a href=`"]);
   Esc claim_url;
   Lit (html ["` style=`display:inline-block; background:#00B488; color:#fff; padding:14px 36px; text-decoration:none; border-radius:8px; font-weight:600; font-size:15px;`>Claim Your Account</a>";
      "    </div>";
      "    <p style=`color:#666; font-size:13px; text-align:center; line-height:1.5; margin:0 8px;`>";
      "      Or copy and paste this link into your browser:<br>";
      "      <a href=`"]);
   Esc claim_url;
   Lit (html ["` style=`color:#00B488; word-break:break-all;`>"]);
   Esc claim_url;
   Lit (html ["</a>";
      "    </p>";
      "    <p style=`color:#999; font-size:12px; text-align:center; margin-top:28px;`>";
      "      This link will expire in 7 days. If you didn't request this, you can safely ignore this email.";
      "    </p>";
      "  </div>";
      "</body>";
      "</html>";
      ""])]
  end.
Definition claim_email_html (claim_url recipient_email : string) (account_display_name account_picture : option string) : string :=
  render (claim_email claim_url recipient_email account_display_name account_picture).
Definition claim_email_text (claim_url : string) : string :=
  paragraphs ["Your Synvya account is ready. Click this link to claim it:"; claim_url;
    "This link will expire in 7 days. If you didn't request this, you can safely ignore this email."].

Definition label_td : string := "padding:6px 12px 6px 0; color:#888; font-size:12px; font-weight:600; text-transform:uppercase; letter-spacing:0.5px; white-space:nowrap; vertical-align:top; width:72px;".
Definition value_td : string := "padding:6px 0; color:#111; font-size:14px; word-break:break-all; vertical-align:top;".
Definition team_invite `{Unicode, DateText} (team_display_name : string) (team_picture : option string) (inviter_label recipient_email role : string)
    (expires_at : Z) (invite_url : string) : list piece :=
  [Lit (html ["<!doctype html>";
      "<html>";
      "<body style=`margin:0; padding:0; background:#f5f5f5; font-family:-apple-system,BlinkMacSystemFont,'Segoe UI',Roboto,sans-serif; color:#111;`>";
      "  <div style=`max-width:520px; margin:0 auto; padding:32px 20px;`>";
      "    <div style=`text-align:center; margin-bottom:24px;`>";
      "      <span style=`color:#00B488; font-size:20px; font-weight:600; letter-spacing:0.2px;`>Synvya</span>";
      "    </div>";
      "    <h2 style=`text-align:center; margin:0 0 20px; font-size:20px; font-weight:600;`>Team Invitation</h2>";
      "    <div style=`background:#fff; border-radius:12px; padding:28px 24px; border:1px solid #ececec;`>";
      "      <div style=`text-align:center;`>";
      "        "])] ++
  avatar_html team_picture ++
  [Lit (html ["<div style=`font-size:18px; font-weight:600; margin-bottom:20px;`>"]);
   Esc team_display_name;
   Lit (html ["</div>";
      "      </div>";
      "      <table role=`presentation` cellpadding=`0` cellspacing=`0` border=`0` style=`width:100%; border-collapse:collapse;`>";
      "        <tr>";
      "          <td style=`"]);
   Lit label_td;
   Lit (html ["`>From</td>";
      "          <td style=`"]);
   Lit value_td;
   Lit (html ["`>"]);
   Esc inviter_label;
   Lit (html ["</td>";
      "        </tr>";
      "        <tr>";
      "          <td style=`"]);
   Lit label_td;
   Lit (html ["`>To</td>";
      "          <td style=`"]);
   Lit value_td;
   Lit (html ["`>"]);
   Esc recipient_email;
   Lit (html ["</td>";
      "        </tr>";
      "        <tr>";
      "          <td style=`"]);
   Lit label_td;
   Lit (html ["`>Role</td>";
      "          <td style=`"]);
   Lit value_td;
   Lit (html ["`>"]);
   Esc (title_case_role role);
   Lit (html ["</td>";
      "        </tr>";
      "        <tr>";
      "          <td style=`"]);
   Lit label_td;
   Lit (html ["`>Expires</td>";
      "          <td style=`"]);
   Lit value_td;
   Lit (html ["`>"]);
   Plain (format_date expires_at);
   Lit (html ["</td>";
      "        </tr>";
      "      </table>";
      "    </div>";
      "    <div style=`margin:28px 0; text-align:center;`>";
      "      <a href=`"]);
   Esc invite_url;
   Lit (html ["` style=`display:inline-block; background:#00B488; color:#fff; padding:14px 36px; text-decoration:none; border-radius:8px; font-weight:600; font-size:15px;`>Accept Invitation</a>";
      "    </div>";
      "    <p style=`color:#666; font-size:13px; text-align:center; line-height:1.5; margin:0 8px;`>";
      "      Or copy and paste this link into your browser:<br>";
      "      <a href=`"]);
   Esc invite_url;
   Lit (html ["` style=`color:#00B488; word-break:break-all;`>"]);
   Esc invite_url;
   Lit (html ["</a>";
      "    </p>";
      "    <p style=`color:#999; font-size:12px; text-align:center; margin-top:28px;`>";
      "      This invitation expires in 7 days. If you didn't expect this email, you can safely ignore it.";
      "    </p>";
      "  </div>";
      "</body>";
      "</html>";
      ""])].
Definition team_invite_html `{Unicode, DateText} (team_display_name : string) (team_picture : option string)
    (inviter_label recipient_email role : string) (expires_at : Z) (invite_url : string) : string :=
  render (team_invite team_display_name team_picture inviter_label recipient_email role expires_at invite_url).
Definition text_lines (l : list string) : string := concat_str (map (fun s => s +:+ new_line) l).
Definition team_invite_text `{Unicode, DateText} (team_display_name inviter_label recipient_email role : string) (expires_at : Z)
    (invite_url : string) : string :=
  text_lines ["Team Invitation — " +:+ team_display_name; ""; "From:    " +:+ inviter_label; "To:      " +:+ recipient_email;
    "Role:    " +:+ title_case_role role; "Expires: " +:+ format_date expires_at; ""; "Accept the invitation:"; invite_url; "";
    "This invitation expires in 7 days. If you didn't expect this email, you can safely ignore it."].

Definition delete_account_subject (merchant_name : string) : string := "Delete your " +:+ merchant_name +:+ " account".
Definition delete_account_mail (link merchant_name : string) : list piece :=
  [Lit (html ["<!DOCTYPE html>";
      "<html>";
      "<body style=`font-family: -apple-system, BlinkMacSystemFont, 'Segoe UI', Roboto, sans-serif; color: #1a1a1a; max-width: 480px; margin: 0 auto; padding: 24px;`>";
      "  <h1 style=`font-size: 20px;`>Delete your "]);
   Esc merchant_name;
   Lit (html [" account</h1>";
      "  <p>This removes your account and cancels your subscriptions. It cannot be undone.</p>";
      "  <p><a href=`"]);
   Esc link;
   Lit (html ["` style=`display: inline-block; background: #1a1a1a; color: #ffffff; text-decoration: none; padding: 12px 24px; border-radius: 6px;`>Delete my account</a></p>";
      "  <p style=`color: #666666; font-size: 14px;`>This link works once and expires in 15 minutes.</p>";
      "  <p style=`color: #666666; font-size: 14px;`>If you did not ask for it, you can ignore this email and nothing will change.</p>";
      "</body>";
      "</html>"])].
Definition delete_account_html (link merchant_name : string) : string := render (delete_account_mail link merchant_name).
Definition delete_account_text (link merchant_name : string) : string :=
  text_lines ["Delete your " +:+ merchant_name +:+ " account"; "";
    "This removes your account and cancels your subscriptions. It cannot be undone."; ""; link; "";
    "This link works once and expires in 15 minutes."; ""; "If you did not ask for it, you can ignore this email and nothing will change."].
Definition magic_link_subject (merchant_name : string) : string := "Sign in to " +:+ merchant_name.
Definition magic_link_mail (link merchant_name : string) : list piece :=
  [Lit (html ["<!DOCTYPE html>";
      "<html>";
      "<body style=`font-family: -apple-system, BlinkMacSystemFont, 'Segoe UI', Roboto, sans-serif; color: #1a1a1a; max-width: 480px; margin: 0 auto; padding: 24px;`>";
      "  <h1 style=`font-size: 20px;`>Sign in to "]);
   Esc merchant_name;
   Lit (html ["</h1>";
      "  <p><a href=`"]);
   Esc link;
   Lit (html ["` style=`display: inline-block; background: #1a1a1a; color: #ffffff; text-decoration: none; padding: 12px 24px; border-radius: 6px;`>Sign in</a></p>";
      "  <p style=`color: #666666; font-size: 14px;`>This link works once and expires in 15 minutes.</p>";
      "  <p style=`color: #666666; font-size: 14px;`>If you did not ask for it, you can ignore this email.</p>";
      "</body>";
      "</html>"])].
Definition magic_link_html (link merchant_name : string) : string := render (magic_link_mail link merchant_name).
Definition magic_link_text (link merchant_name : string) : string :=
  text_lines ["Sign in to " +:+ merchant_name; ""; link; ""; "This link works once and expires in 15 minutes."; "";
    "If you did not ask for it, you can ignore this email."].

(** ** Senders *)
Record CapturedEmail : Type := {
  ce_to : string; ce_subject : string; ce_verification_url : option string; ce_reset_url : option string;
}.
Notation sent T := (T * result unit string)%type.
(** The trait; a sender may keep a record of what it sent. *)
Class EmailSender (T : Type) := {
  send_verification_email : T -> string -> string -> sent T;
  send_password_reset_email : T -> string -> string -> option string -> sent T;
  send_claim_email : T -> string -> string -> option string -> option string -> sent T;
  send_team_invite_email : T -> string -> string -> option string -> string -> string -> Z -> string -> sent T;
  send_magic_link_email : T -> string -> string -> string -> sent T;
  send_delete_account_email : T -> string -> string -> string -> sent T;
  get_captured_emails : T -> list CapturedEmail;
  clear_captured_emails : T -> T;
}.

(** BASE_URL, APP_URL, PASSWORD_RESET_BASE_URL, FROM_EMAIL, FROM_NAME, AWS_REGION,
    whether DISABLE_EMAILS is set, EMAIL_PROVIDER and SENDGRID_API_KEY *)
Record mail_env : Type := {
  me_base_url : option string; me_app_url : option string; me_reset_base_url : option string; me_from_email : option string;
  me_from_name : option string; me_disabled : bool; me_provider : option string; me_sendgrid_key : option string;
}.
(** A POST to SendGrid with an API key: a status and the body as far as it can be
    read.  A message to SES: the debug text of its error. *)
Class MailServices := {
  sendgrid_post : string -> json -> result (Z * result string string) string;
  ses_send : string -> string -> string -> string -> string -> result unit string;
  (** the Display of a status *)
  http_status_text : Z -> string;
}.

Definition base_url_of (env : mail_env) : string :=
  default "http://localhost:5173" (match me_base_url env with Some u => Some u | None => me_app_url env end).
Definition password_reset_base_url (env : mail_env) (d : string) : string := default d (me_reset_base_url env).
Definition verification_url (base_url verification_token : string) : string := base_url +:+ "/verify-email?token=" +:+ verification_token.
Definition reset_url (configured : string) (base_url_override : option string) (reset_token : string) : string :=
  default configured (trim_end_char "/" <$> base_url_override) +:+ "/reset-password?token=" +:+ reset_token.
Definition invite_subject (team_display_name : string) : string := "You've been invited to join " +:+ team_display_name +:+ " on Synvya".

Section senders.
Context `{HUni : Unicode, HDT : DateText, HMS : MailServices}.
Variable env : mail_env.

(** *** Development *)
Record DevEmailSender : Type := { dv_base_url : string; dv_password_reset_base_url : string; dv_captured : list CapturedEmail }.
Definition dev_new : DevEmailSender := {|
  dv_base_url := base_url_of env; dv_password_reset_base_url := password_reset_base_url env (base_url_of env); dv_captured := [] |}.
Definition capture (e : CapturedEmail) (s : DevEmailSender) : sent DevEmailSender :=
  ({| dv_base_url := dv_base_url s; dv_password_reset_base_url := dv_password_reset_base_url s; dv_captured := dv_captured s ++ [e] |}, Ok tt).
#[export] Instance dev_sender : EmailSender DevEmailSender := {
  send_verification_email s to_email verification_token :=
    capture {| ce_to := to_email; ce_subject := "Verify your Synvya email address";
               ce_verification_url := Some (verification_url (dv_base_url s) verification_token); ce_reset_url := None |} s;
  send_password_reset_email s to_email reset_token base_url_override :=
    capture {| ce_to := to_email; ce_subject := "Reset your Synvya password"; ce_verification_url := None;
               ce_reset_url := Some (reset_url (dv_password_reset_base_url s) base_url_override reset_token) |} s;
  send_claim_email s to_email claim_url account_display_name account_picture :=
    capture {| ce_to := to_email; ce_subject := "Your Synvya account is ready to claim"; ce_verification_url := Some claim_url;
               ce_reset_url := None |} s;
  send_team_invite_email s to_email team_display_name team_picture inviter_label role expires_at invite_url :=
    capture {| ce_to := to_email; ce_subject := invite_subject team_display_name; ce_verification_url := Some invite_url;
               ce_reset_url := None |} s;
  send_magic_link_email s to_email link merchant_name :=
    capture {| ce_to := to_email; ce_subject := magic_link_subject merchant_name; ce_verification_url := Some link; ce_reset_url := None |} s;
  send_delete_account_email s to_email link merchant_name :=
    capture {| ce_to := to_email; ce_subject := delete_account_subject merchant_name; ce_verification_url := Some link;
               ce_reset_url := None |} s;
  get_captured_emails := dv_captured;
  clear_captured_emails s :=
    {| dv_base_url := dv_base_url s; dv_password_reset_base_url := dv_password_reset_base_url s; dv_captured := [] |};
}.

(** *** SendGrid *)
Record SendGridEmailSender : Type := {
  gr_api_key : string; gr_from_email : string; gr_from_name : string; gr_base_url : string; gr_password_reset_base_url : string;
}.
Definition sendgrid_new (api_key : string) : SendGridEmailSender := {|
  gr_api_key := api_key; gr_from_email := default "noreply@divine.video" (me_from_email env);
  gr_from_name := default "Synvya" (me_from_name env); gr_base_url := base_url_of env;
  gr_password_reset_base_url := password_reset_base_url env (base_url_of env) |}.
Definition sendgrid_email (s : SendGridEmailSender) (to_email subject html_content text_content : string) : json :=
  let content content_type value := JObject [("type", JString content_type); ("value", JString value)] in
  let enable := JObject [("enable", JBool false)] in
  JObject [("personalizations", JArray [JObject [("to", JArray [JObject [("email", JString to_email)]])]]);
           ("from", JObject [("email", JString (gr_from_email s)); ("name", JString (gr_from_name s))]);
           ("subject", JString subject);
           ("content", JArray [content "text/plain" text_content; content "text/html" html_content]);
           ("tracking_settings", JObject [("click_tracking", enable); ("open_tracking", enable)])].
Definition sendgrid_send_email (s : SendGridEmailSender) (to_email subject html_content text_content : string) : result unit string :=
  if me_disabled env then Ok tt
  else
    let? '(status, body) := map_err (fun e => "Failed to send email: " +:+ e)
                              (sendgrid_post (gr_api_key s) (sendgrid_email s to_email subject html_content text_content)) in
    if (200 <=? status) && (status <? 300) then Ok tt
    else Err ("Failed to send email: " +:+ http_status_text status +:+ " - " +:+ default "Could not read response body" (ok body)).
#[export] Instance sendgrid_sender : EmailSender SendGridEmailSender := {
  send_verification_email s to_email verification_token :=
    let url := verification_url (gr_base_url s) verification_token in
    (s, sendgrid_send_email s to_email "Verify your Synvya email address" (verification_email_html url) (verification_email_text url));
  send_password_reset_email s to_email reset_token base_url_override :=
    let url := reset_url (gr_password_reset_base_url s) base_url_override reset_token in
    (s, sendgrid_send_email s to_email "Reset your Synvya password" (password_reset_html url) (password_reset_text url));
  send_claim_email s to_email claim_url account_display_name account_picture :=
    (s, sendgrid_send_email s to_email "Your Synvya account is ready to claim"
          (claim_email_html claim_url to_email account_display_name account_picture) (claim_email_text claim_url));
  send_team_invite_email s to_email team_display_name team_picture inviter_label role expires_at invite_url :=
    (s, sendgrid_send_email s to_email (invite_subject team_display_name)
          (team_invite_html team_display_name team_picture inviter_label to_email role expires_at invite_url)
          (team_invite_text team_display_name inviter_label to_email role expires_at invite_url));
  send_magic_link_email s to_email link merchant_name :=
    (s, sendgrid_send_email s to_email (magic_link_subject merchant_name) (magic_link_html link merchant_name)
          (magic_link_text link merchant_name));
  send_delete_account_email s to_email link merchant_name :=
    (s, sendgrid_send_email s to_email (delete_account_subject merchant_name) (delete_account_html link merchant_name)
          (delete_account_text link merchant_name));
  get_captured_emails _ := [];
  clear_captured_emails s := s;
}.

(** *** SES *)
Record SesEmailSender : Type := {
  se_from_email : string; se_from_name : string; se_base_url : string; se_password_reset_base_url : string;
}.
Definition ses_new : SesEmailSender := {|
  se_from_email := default "noreply@divine.video" (me_from_email env); se_from_name := default "Synvya" (me_from_name env);
  se_base_url := base_url_of env; se_password_reset_base_url := password_reset_base_url env (base_url_of env) |}.
(** The parts of the message have their data, so that building them does not fail. *)
Definition ses_send_email (s : SesEmailSender) (to subject html text : string) : result unit string :=
  if me_disabled env then Ok tt
  else map_err (fun e => "SES send failed: " +:+ e) (ses_send (se_from_name s +:+ " <" +:+ se_from_email s +:+ ">") to subject html text).
#[export] Instance ses_sender : EmailSender SesEmailSender := {
  send_verification_email s to_email verification_token :=
    let url := verification_url (se_base_url s) verification_token in
    (s, ses_send_email s to_email "Verify your Synvya email address" (verification_email_html url) (verification_email_text url));
  send_password_reset_email s to_email reset_token base_url_override :=
    let url := reset_url (se_password_reset_base_url s) base_url_override reset_token in
    (s, ses_send_email s to_email "Reset your Synvya password" (password_reset_html url) (password_reset_text url));
  send_claim_email s to_email claim_url account_display_name account_picture :=
    (s, ses_send_email s to_email "Your Synvya account is ready to claim"
          (claim_email_html claim_url to_email account_display_name account_picture) (claim_email_text claim_url));
  send_team_invite_email s to_email team_display_name team_picture inviter_label role expires_at invite_url :=
    (s, ses_send_email s to_email (invite_subject team_display_name)
          (team_invite_html team_display_name team_picture inviter_label to_email role expires_at invite_url)
          (team_invite_text team_display_name inviter_label to_email role expires_at invite_url));
  send_magic_link_email s to_email link merchant_name :=
    (s, ses_send_email s to_email (magic_link_subject merchant_name) (magic_link_html link merchant_name)
          (magic_link_text link merchant_name));
  send_delete_account_email s to_email link merchant_name :=
    (s, ses_send_email s to_email (delete_account_subject merchant_name) (delete_account_html link merchant_name)
          (delete_account_text link merchant_name));
  get_captured_emails _ := [];
  clear_captured_emails s := s;
}.

(** *** The sender of the service *)
Inductive any_sender : Type :=
| AnyDev (s : DevEmailSender)
| AnySendGrid (s : SendGridEmailSender)
| AnySes (s : SesEmailSender).
Definition send_through (s : any_sender) (f : forall T, EmailSender T -> T -> sent T) : sent any_sender :=
  match s with
  | AnyDev d => let '(d', r) := f _ dev_sender d in (AnyDev d', r)
  | AnySendGrid g => let '(g', r) := f _ sendgrid_sender g in (AnySendGrid g', r)
  | AnySes e => let '(e', r) := f _ ses_sender e in (AnySes e', r)
  end.
#[export] Instance email_service : EmailSender any_sender := {
  send_verification_email s to_email token := send_through s (fun _ _ x => send_verification_email x to_email token);
  send_password_reset_email s to_email token override := send_through s (fun _ _ x => send_password_reset_email x to_email token override);
  send_claim_email s to_email url name picture := send_through s (fun _ _ x => send_claim_email x to_email url name picture);
  send_team_invite_email s to_email team picture inviter role expires url :=
    send_through s (fun _ _ x => send_team_invite_email x to_email team picture inviter role expires url);
  send_magic_link_email s to_email link merchant := send_through s (fun _ _ x => send_magic_link_email x to_email link merchant);
  send_delete_account_email s to_email link merchant := send_through s (fun _ _ x => send_delete_account_email x to_email link merchant);
  get_captured_emails s := match s with AnyDev d => get_captured_emails d | AnySendGrid g => get_captured_emails g | AnySes e => get_captured_emails e end;
  clear_captured_emails s :=
    match s with
    | AnyDev d => AnyDev (clear_captured_emails d)
    | AnySendGrid g => AnySendGrid (clear_captured_emails g)
    | AnySes e => AnySes (clear_captured_emails e)
    end;
}.

(** Whether the program was built with the "aws" feature is an argument; [None] is
    a panic. *)
Definition create_email_sender (aws : bool) : option any_sender :=
  let provider := default (match me_sendgrid_key env with Some k => if bool_decide (k = "") then "dev" else "sendgrid" | None => "dev" end)
                    (me_provider env) in
  if bool_decide (provider = "sendgrid") then (fun k => AnySendGrid (sendgrid_new k)) <$> me_sendgrid_key env
  else if bool_decide (provider = "ses") then (if aws then Some (AnySes ses_new) else None)
  else Some (AnyDev dev_new).

(** The mail of an account handler, sent. *)
Definition deliver_mail {T} `{EmailSender T} (s : T) (m : mail) : sent T :=
  match m with
  | VerificationMail address token => send_verification_email s address token
  | PasswordResetMail address token app_url => send_password_reset_email s address token app_url
  | MagicLinkMail address link merchant_name => send_magic_link_email s address link merchant_name
  | DeleteAccountMail address link merchant_name => send_delete_account_email s address link merchant_name
  | ClaimMail address link display_name picture => send_claim_email s address link display_name picture
  end.
End senders.
