(* ===== verification/EmailsSafety.v ===== *)
(** * What values can do to an email

    The markup of an email is read off by a scanner with three states: text, inside
    a tag, inside a quoted attribute.  No value changes it.  And where the link of a
    password reset leads. *)
From S2P Require Import Prelude RustStr External Instances Database Samples Tokens Permissions Policies AuthTypes Ucan HttpRpc OAuthRepo Users OAuth WorkQueue Queues RateLimit Tenant Nip98 Accounts AccountKeys AccountsSafety Authorize Claims Emails.

(** ** The scanner *)
Inductive html_state : Type := InText | InTag | InQuotes.
Definition html_step (st : html_state) (c : ascii) : html_state * string :=
  match st with
  | InText => if bool_decide (c = "<"%char) then (InTag, String c "") else (InText, "")
  | InTag => (if bool_decide (c = ">"%char) then InText else if bool_decide (c = quote) then InQuotes else InTag, String c "")
  | InQuotes => if bool_decide (c = quote) then (InTag, String c "") else (InQuotes, "")
  end.
Fixpoint html_scan (st : html_state) (s : string) : html_state * string :=
  match s with
  | EmptyString => (st, "")
  | String c s' => let '(st1, o1) := html_step st c in let '(st2, o2) := html_scan st1 s' in (st2, o1 +:+ o2)
  end.
(** The tags of a page and its attributes without their values. *)
Definition markup (s : string) : string := snd (html_scan InText s).

Lemma html_scan_app st a b :
  html_scan st (a +:+ b) = let '(st1, o1) := html_scan st a in let '(st2, o2) := html_scan st1 b in (st2, o1 +:+ o2).
Proof.
  revert st. induction a as [|c a IH]; intros st; simpl.
  { change ("" +:+ b) with b. destruct (html_scan st b). reflexivity. }
  destruct (html_step st c) as [st1 o1]. rewrite IH. destruct (html_scan st1 a) as [st2 o2], (html_scan st2 b) as [st3 o3].
  by rewrite app_assoc_str.
Qed.

(** A value without angle brackets and double quotes leaves the scanner where it
    is, outside of a tag. *)
Definition plain_value (v : string) : Prop := forall c, c ∈ ["<"%char; ">"%char; quote] -> contains_char c v = false.
Lemma plain_value_cons c v : plain_value (String c v) -> c <> "<"%char /\ c <> quote /\ plain_value v.
Proof.
  intros H. assert (Hc : forall x, x ∈ ["<"%char; ">"%char; quote] -> c <> x /\ contains_char x v = false).
  { intros x Hx. specialize (H x Hx). change (String c v) with (String c "" +:+ v) in H. rewrite contains_char_app in H.
    apply orb_false_iff in H as [H1 H2]. split; [|done]. intros ->. unfold contains_char in H1. simpl in H1.
    unfold starts_with in H1. simpl in H1. by rewrite bool_decide_true in H1. }
  split; [apply Hc; set_solver|]. split; [apply Hc; set_solver|]. intros x Hx. by apply Hc.
Qed.
Lemma html_scan_plain st v : st <> InTag -> plain_value v -> html_scan st v = (st, "").
Proof.
  intros Hst. induction v as [|c v IH]; intros Hv; [done|]. apply plain_value_cons in Hv as (H1 & H2 & Hv).
  simpl. destruct st; simpl; [|done|]; rewrite bool_decide_false by done; by rewrite (IH Hv).
Qed.
Lemma escaped_plain v : plain_value (mail_html_escape v).
Proof.
  intros c Hc. unfold mail_html_escape. induction v as [|a v IH]; [done|]. simpl.
  rewrite contains_char_app, escape_char_safe, IH; [done|]. set_solver.
Qed.

Lemma safe_url_plain raw url : safe_http_url raw = Some url -> plain_value url.
Proof. unfold safe_http_url. case_if; [|done]. intros [= <-]. apply escaped_plain. Qed.

(** ** Templates *)
Definition blank_piece (p : piece) : piece := match p with Lit s => Lit s | Esc _ | Plain _ => Esc "" end.
Definition blank : list piece -> list piece := map blank_piece.
(** No value stands inside a tag. *)
Fixpoint confined_values (st : html_state) (l : list piece) : bool :=
  match l with
  | [] => true
  | Lit s :: l' => confined_values (fst (html_scan st s)) l'
  | _ :: l' => match st with InTag => false | _ => confined_values st l' end
  end.
Definition plain_piece (p : piece) : Prop := match p with Plain v => plain_value v | _ => True end.

Lemma confined_markup st l :
  confined_values st l = true -> Forall plain_piece l -> html_scan st (render l) = html_scan st (render (blank l)).
Proof.
  intros Hc Hl. revert st Hc. induction Hl as [|p l Hp _ IH]; intros st Hc; [done|].
  assert (Hv : forall v, plain_value v -> st <> InTag -> confined_values st l = true ->
    html_scan st (v +:+ render l) = html_scan st (render (blank l))).
  { intros v Hpv Hst Hcl. rewrite html_scan_app, html_scan_plain by done. rewrite (IH st Hcl). by destruct (html_scan st _). }
  destruct p as [s|v|v]; simpl in Hc |- *.
  - rewrite !html_scan_app. destruct (html_scan st s) as [st1 o1]. simpl in Hc. by rewrite (IH st1 Hc).
  - destruct st; [|done|]; apply Hv; auto using escaped_plain.
  - destruct st; [|done|]; apply Hv; auto.
Qed.
(** Two fillings of one template have the same markup. *)
Lemma same_markup l l' :
  blank l = blank l' -> confined_values InText l = true -> confined_values InText l' = true ->
  Forall plain_piece l -> Forall plain_piece l' -> markup (render l) = markup (render l').
Proof. intros E Hc Hc' Hl Hl'. unfold markup. by rewrite (confined_markup _ _ Hc Hl), (confined_markup _ _ Hc' Hl'), E. Qed.

Ltac plain_pieces :=
  repeat (constructor; [first [exact I|apply escaped_plain|by eapply safe_url_plain; eauto]|]); constructor.
Ltac same_template := apply same_markup; [reflexivity|vm_compute; reflexivity|vm_compute; reflexivity|plain_pieces..].

Section markup.
Context `{HUni : Unicode, HDT : DateText, HDL : !DateTextLaws}.

(** What an email shows of a name and of a picture: whether there is one. *)
Definition blank_name (name : option string) : option string := (fun n => if bool_decide (n = "") then "" else "x") <$> name.
Definition blank_picture (picture : option string) : option string :=
  (fun p => match safe_http_url p with Some _ => "https://" | None => "" end) <$> picture.
Lemma avatar_blank picture : avatar_html (blank_picture picture) = match avatar_html picture with [] => [] | _ => avatar_html (Some "https://") end.
Proof.
  destruct picture as [p|]; [|reflexivity]. unfold blank_picture, avatar_html at 1 2. cbn [fmap option_fmap option_map mbind option_bind].
  destruct (safe_http_url p); vm_compute; reflexivity.
Qed.
Lemma name_blank name : name_html (default "" (blank_name name)) = match name_html (default "" name) with [] => [] | _ => name_html "x" end.
Proof.
  destruct name as [n|]; [|reflexivity]. unfold blank_name, name_html at 1 2. cbn [fmap option_fmap option_map default from_option]. unfold id.
  destruct (bool_decide (n = "")); reflexivity.
Qed.

Lemma claim_markup url to_email name picture :
  markup (claim_email_html url to_email name picture) = markup (claim_email_html "" "" (blank_name name) (blank_picture picture)).
Proof.
  unfold claim_email_html, claim_email. destruct name as [n|], picture as [p|]; [..|same_template].
  all: cbn [blank_name blank_picture fmap option_fmap option_map]. all: rewrite ?avatar_blank, ?name_blank.
  all: unfold avatar_html, name_html, blank_name, blank_picture; cbn [mbind option_bind fmap option_fmap option_map default];
    try destruct (safe_http_url p) eqn:?; repeat case_bool_decide; try done; same_template.
Qed.
Lemma invite_markup team picture inviter to_email role expires url :
  markup (team_invite_html team picture inviter to_email role expires url) =
  markup (team_invite_html "" (blank_picture picture) "" "" "" 0 "").
Proof.
  assert (Hd : forall t, plain_value (format_date t)) by (intros t c; apply format_date_plain).
  unfold team_invite_html, team_invite. rewrite avatar_blank. unfold avatar_html.
  assert (Hu : forall u, picture ≫= safe_http_url = Some u -> plain_value u) by (destruct picture; [apply safe_url_plain|done]).
  assert (Hw : forall u, Some "https://" ≫= safe_http_url = Some u -> plain_value u) by (intros u; apply (safe_url_plain "https://")).
  destruct (picture ≫= safe_http_url) as [u|]; (apply same_markup; [reflexivity|vm_compute; reflexivity|vm_compute; reflexivity|..]);
    repeat (constructor; [first [exact I|apply Hd|by apply Hu|by apply Hw]|]); constructor.
Qed.

(** [C31] No value gets markup into an email: the tags and attributes of every
    email are those of the same email with empty values, whatever the heading,
    names, addresses, role and links are; only whether there is a name and a
    picture with a URL of the web shows. *)
Theorem mail_markup_fixed :
  (forall heading intro label url footer,
     markup (basic_email_html heading intro label url footer) = markup (basic_email_html "" "" "" "" "")) /\
  (forall link merchant, markup (magic_link_html link merchant) = markup (magic_link_html "" "")) /\
  (forall link merchant, markup (delete_account_html link merchant) = markup (delete_account_html "" "")) /\
  (forall url to_email name picture,
     markup (claim_email_html url to_email name picture) = markup (claim_email_html "" "" (blank_name name) (blank_picture picture))) /\
  (forall team picture inviter to_email role expires url,
     markup (team_invite_html team picture inviter to_email role expires url) =
     markup (team_invite_html "" (blank_picture picture) "" "" "" 0 "")).
Proof.
  split_and!; [intros; same_template|intros; same_template|intros; same_template|exact claim_markup|exact invite_markup].
Qed.
End markup.

(** ** Where a reset link leads *)
Lemma trim_end_char_idem c s : trim_end_char c (trim_end_char c s) = trim_end_char c s.
Proof.
  induction s as [|d s IH]; simpl; [done|]. destruct (trim_end_char c s) as [|e t] eqn:E.
  - destruct (Ascii.eqb d c) eqn:Ed; simpl; [done|]. by rewrite Ed.
  - simpl in IH |- *. rewrite IH. done.
Qed.

Section reset.
Context `{HN : Nostr, HC : !NostrCrypto, HS : !Serde, HX : !Secrets, HB : Bcrypt, HD : Digests, HE : !Encodings,
          HV : !HttpEvents, HU : UcanLib, HM : !UcanMint, HL : UrlLib, HUni : Unicode, HI : Ipv6, HCh : Channel,
          HLS : LoginSerde}.

(** An entry of ALLOWED_ORIGINS, up to case, blanks and trailing slashes. *)
Definition allowed_base (cfg : account_config) (base : string) : Prop :=
  exists allowed entry, acf_allowed_origins cfg = Some allowed /\ entry ∈ split "," allowed /\ normalize_url base = normalize_url entry.

Lemma override_allowed cfg app_url base : app_url_override cfg app_url = Some base -> trim_end_char "/" base = base /\ allowed_base cfg base.
Proof.
  unfold app_url_override. destruct app_url as [u|]; [|done]. simpl. case_if; [|done]. intros [= <-].
  split; [apply trim_end_char_idem|]. apply andb_true_iff in E as [_ E]. unfold app_url_is_allowed in E.
  destruct (acf_allowed_origins cfg) as [allowed|] eqn:Ea; [|done]. apply andb_true_iff in E as [_ E].
  apply existsb_exists in E as (entry & Hin & He). apply andb_true_iff in He as [_ He]. apply bool_decide_eq_true in He.
  exists allowed, entry. split; [done|]. split; [by apply list_elem_of_In|]. by symmetry.
Qed.

(** A reset link leads to the configured page or to an allowed application:
    the only mail a request for a reset adds goes to the address of the request,
    carries the token of the reset, and its link is the configured base or one that
    ALLOWED_ORIGINS lists, then the path and the token. *)
Theorem reset_link_confined now cfg tenant_id q tok req s s' resp :
  forgot_password now cfg tenant_id q tok req s = (s', Ok resp) ->
  ac_mail s' = ac_mail s \/
  exists app_url, ac_mail s' = ac_mail s ++ [PasswordResetMail (to_lowercase (fp_email req)) tok app_url] /\
    forall configured, exists base, reset_url configured app_url tok = base +:+ "/reset-password?token=" +:+ tok /\
      (base = configured \/ allowed_base cfg base).
Proof.
  unfold forgot_password. intros H. apply se_bind_ok in H as (s1 & [] & H1 & H). assert (E1 : ac_mail s1 = ac_mail s).
  { unfold limit_rate in H1. destruct (allow_request _ _ _ _ _ _ _ _) as [r []]; [|done]. by injection H1 as <-. }
  apply se_bind_ok in H as (s2 & found & [-> ->]%se_gets_ok & H). destruct (find_pubkey_by_email _ _ _) as [pk|].
  2: { apply se_ret_ok in H as [-> _]. by left. }
  apply se_bind_ok in H as (s3 & [] & (d & _ & ->)%on_repo_ok & H). apply se_bind_ok in H as (s4 & [] & H4 & [-> _]%se_ret_ok).
  unfold send_mail, se_modify in H4. injection H4 as <-. destruct (acf_email_service cfg); [right|by left].
  exists (app_url_override cfg (fp_app_url req)). simpl. rewrite E1. split; [done|]. intros configured. unfold reset_url.
  destruct (app_url_override cfg (fp_app_url req)) as [base|] eqn:Eo; simpl; [|by exists configured; split; [done|left]].
  apply override_allowed in Eo as [-> Ha]. exists base. split; [done|]. by right.
Qed.
End reset.

(** ** Witnesses *)
#[local] Instance one_date : DateText := { format_date _ := "Apr 28, 2026" }.
#[local] Instance one_date_laws : DateTextLaws.
Proof. split. intros t c Hc. repeat (apply elem_of_cons in Hc as [->|Hc]; [reflexivity|]). by apply not_elem_of_nil in Hc. Qed.
Lemma mail_markup_fixed_witness :
  markup (magic_link_html "https://luigi.example/?t=1" "<script>alert(1)</script>") = markup (magic_link_html "" "") /\
  contains "<h1" (markup (magic_link_html "" "")) = true.
Proof. split; [exact (proj1 (proj2 mail_markup_fixed) _ _)|vm_compute; reflexivity]. Defined.

Definition forgot : ForgotPasswordRequest := {| fp_email := "U@b"; fp_app_url := Some "https://App.example/" |}.
Definition lenient_config : account_config := {|
  acf_oauth := acf_oauth toy_account_config; acf_auth := acf_auth toy_account_config; acf_app_url := None;
  acf_allowed_origins := Some "https://id.example,https://app.example"; acf_ip_limit := None; acf_secure_cookies := true;
  acf_email_service := true |}.
Lemma reset_link_confined_witness :
  exists s' resp, forgot_password 10 lenient_config 1 (from_app []) "tok" forgot (state_of verified_db) = (s', Ok resp) /\
    ac_mail s' = [PasswordResetMail "u@b" "tok" (Some "https://App.example")] /\
    (exists app_url base, reset_url "https://login.example" app_url "tok" = base +:+ "/reset-password?token=tok" /\
       (base = "https://login.example" \/ allowed_base lenient_config base)).
Proof.
  destruct (run_ok (forgot_password 10 lenient_config 1 (from_app []) "tok" forgot (state_of verified_db))) as (s' & resp & E);
    [vm_compute; reflexivity|]. exists s', resp. split; [exact E|].
  assert (Hm : ac_mail s' = [PasswordResetMail "u@b" "tok" (Some "https://App.example")]) by (vm_compute in E; injection E as <- _; reflexivity).
  split; [exact Hm|]. destruct (reset_link_confined _ _ _ _ _ _ _ _ _ E) as [Es|(app_url & _ & H)].
  - rewrite Hm in Es. discriminate Es.
  - destruct (H "https://login.example") as (base & Hb). exists app_url, base. exact Hb.
Defined.
