(* ===== verification/Membership.v ===== *)
(** * Membership of a cluster

    cluster-hashring/src/coordinator.rs, the instances of a cluster together: each
    starts in the steps of start_with_config, its two tasks follow the messages on
    the channel and the answers of Redis, and it leaves or crashes (a start that
    fails is a crash), after which it is no instance of the cluster any more.  A
    step is one command to Redis, one message, or one load or store of the ring:
    the listener and the sync each load the ring, change a copy and store it, and
    on two threads they overlap.  A connection may be lost, with the messages
    that were not read yet.  serde's reading and writing of messages is a
    parameter. *)
From S2P Require Import Prelude RustStr External Instances HashRing.

Record PubSubMessage : Type := { pm_event : string; pm_instance_id : string }.
Class PubSubJson := {
  pubsub_to_string : PubSubMessage -> string;
  pubsub_from_str : string -> result PubSubMessage string;
}.
Class PubSubJsonLaws `{PubSubJson} : Prop := {
  pubsub_round_trip m : pubsub_from_str (pubsub_to_string m) = Ok m;
}.

(** Registered, the instances read, subscribed, the join published and the tasks
    spawned, the heartbeat task begun; leaving, with the tasks stopped and the
    leave published. *)
Inductive phase : Type := Registered | HasRead | Subscribed | Spawned | Running | Leaving.
#[export] Instance phase_eq_dec : EqDecision phase.
Proof. solve_decision. Defined.

Section cluster.
Context `{HA : AnchorHash, HI : !HashSetIter, HP : PubSubJson}.

(** An instance: its coordinator; whether its subscription is connected, and the
    messages that wait there; the message the listener has in hand and the ring
    it loaded for it; Redis's answer to a sync, and the answer the sync has in
    hand with the ring it loaded. *)
Record member : Type := {
  mb_phase : phase; mb_coord : coordinator; mb_connected : bool; mb_inbox : list string;
  mb_listener : option (PubSubMessage * HashRing); mb_answer : option (list string);
  mb_syncing : option (list string * HashRing);
}.
Record cluster : Type := { cl_redis : gmap string Z; cl_members : gmap string member }.

Definition with_phase (p : phase) (m : member) : member :=
  {| mb_phase := p; mb_coord := mb_coord m; mb_connected := mb_connected m; mb_inbox := mb_inbox m;
     mb_listener := mb_listener m; mb_answer := mb_answer m; mb_syncing := mb_syncing m |}.
Definition with_coord (c : coordinator) (m : member) : member :=
  {| mb_phase := mb_phase m; mb_coord := c; mb_connected := mb_connected m; mb_inbox := mb_inbox m;
     mb_listener := mb_listener m; mb_answer := mb_answer m; mb_syncing := mb_syncing m |}.
Definition with_link (connected : bool) (inbox : list string) (m : member) : member :=
  {| mb_phase := mb_phase m; mb_coord := mb_coord m; mb_connected := connected; mb_inbox := inbox;
     mb_listener := mb_listener m; mb_answer := mb_answer m; mb_syncing := mb_syncing m |}.
Definition with_listener (l : option (PubSubMessage * HashRing)) (m : member) : member :=
  {| mb_phase := mb_phase m; mb_coord := mb_coord m; mb_connected := mb_connected m; mb_inbox := mb_inbox m;
     mb_listener := l; mb_answer := mb_answer m; mb_syncing := mb_syncing m |}.
Definition with_sync (a : option (list string)) (l : option (list string * HashRing)) (m : member) : member :=
  {| mb_phase := mb_phase m; mb_coord := mb_coord m; mb_connected := mb_connected m; mb_inbox := mb_inbox m;
     mb_listener := mb_listener m; mb_answer := a; mb_syncing := l |}.
Definition new_member (id : string) : member := {|
  mb_phase := Registered; mb_coord := {| co_ring := ring_new id; co_previous := ∅; co_failures := 0; co_events := [] |};
  mb_connected := false; mb_inbox := []; mb_listener := None; mb_answer := None; mb_syncing := None |}.

(** PUBLISH reaches the subscriptions that are connected. *)
Definition deliver (payload : string) (m : member) : member :=
  if mb_connected m then with_link true (mb_inbox m ++ [payload]) m else m.
Definition publish_event (event instance_id : string) (members : gmap string member) : gmap string member :=
  deliver (pubsub_to_string {| pm_event := event; pm_instance_id := instance_id |}) <$> members.

Inductive action : Type :=
| Register (now : Z) (id : string)
| ReadInstances (now : Z) (id : string)
| Subscribe (id : string)
| PublishJoin (id : string)
| BeginTask (id : string)
| ListenLoad (id : string)
| ListenStore (id : string)
| LoseConnection (id : string)
| Reconnect (id : string)
| Heartbeat (now : Z) (ok : bool) (roll : Z) (id : string)
| AskInstances (now : Z) (id : string)
| SyncLoad (id : string)
| SyncStore (id : string)
| PublishLeave (ok : bool) (id : string)
| Deregister (id : string)
| Crash (id : string).
Definition actor (a : action) : string :=
  match a with
  | Register _ id | ReadInstances _ id | Subscribe id | PublishJoin id | BeginTask id | ListenLoad id | ListenStore id
  | LoseConnection id | Reconnect id | Heartbeat _ _ _ id | AskInstances _ id | SyncLoad id | SyncStore id
  | PublishLeave _ id | Deregister id | Crash id => id
  end.

Definition listening (p : phase) : bool := match p with Spawned | Running => true | _ => false end.

(** The action of an instance in one of the phases [ok] *)
Definition act (ok : phase -> bool) (id : string) (c : cluster) (f : member -> cluster) : option cluster :=
  m ← cl_members c !! id; if ok (mb_phase m) then Some (f m) else None.
Definition put (id : string) (m : member) (c : cluster) : cluster :=
  {| cl_redis := cl_redis c; cl_members := <[id := m]> (cl_members c) |}.
Definition is_phase (p q : phase) : bool := bool_decide (q = p).

(** *** Starting *)
Definition register_instance (now : Z) (id : string) (c : cluster) : option cluster :=
  match cl_members c !! id with
  | Some _ => None
  | None => Some {| cl_redis := registry_register now id (cl_redis c); cl_members := <[id := new_member id]> (cl_members c) |}
  end.
Definition read_instances (now : Z) (id : string) (c : cluster) : option cluster := act (is_phase Registered) id c (fun m =>
  put id (with_phase HasRead (with_coord (set_ring (rebuild (get_active_instances now (cl_redis c)) (co_ring (mb_coord m))) (mb_coord m)) m)) c).
Definition subscribe (id : string) (c : cluster) : option cluster := act (is_phase HasRead) id c (fun m =>
  put id (with_phase Subscribed (with_link true [] m)) c).
Definition publish_join (id : string) (c : cluster) : option cluster := act (is_phase Subscribed) id c (fun m =>
  {| cl_redis := cl_redis c; cl_members := publish_event "join" id (<[id := with_phase Spawned m]> (cl_members c)) |}).

(** *** The heartbeat task *)
Definition begin_task (id : string) (c : cluster) : option cluster := act (is_phase Spawned) id c (fun m =>
  put id (with_phase Running (with_coord (set_previous (current_instances (co_ring (mb_coord m))) (mb_coord m)) m)) c).
Definition send_heartbeat (now : Z) (ok : bool) (roll : Z) (id : string) (c : cluster) : option cluster := act (is_phase Running) id c (fun m =>
  let '(redis, co, _) := heartbeat_tick now ok roll (mb_coord m) (cl_redis c) in
  {| cl_redis := redis; cl_members := <[id := with_coord co m]> (cl_members c) |}).
(** The task asks for the instances when it has finished the sync before. *)
Definition ask_instances (now : Z) (id : string) (c : cluster) : option cluster := act (is_phase Running) id c (fun m =>
  match mb_syncing m with
  | None => put id (with_sync (Some (get_active_instances now (cl_redis c))) None m) c
  | Some _ => c
  end).
Definition sync_load (id : string) (c : cluster) : option cluster := act (is_phase Running) id c (fun m =>
  match mb_answer m with
  | Some instances =>
      let co := sync_events instances (mb_coord m) in
      put id (with_sync None
        (if decide (list_to_set instances = co_previous co) then None else Some (instances, co_ring co))
        (with_coord co m)) c
  | None => c
  end).
Definition store_sync (id : string) (c : cluster) : option cluster := act (is_phase Running) id c (fun m =>
  match mb_syncing m with
  | Some (instances, loaded) => put id (with_sync (mb_answer m) None (with_coord (sync_store instances loaded (mb_coord m)) m)) c
  | None => c
  end).

(** *** The listener *)

(** A message that does not parse, the instance's own and one of another kind are
    skipped; for the others the ring is loaded. *)
Definition listener_load (payload : string) (r : HashRing) : option (PubSubMessage * HashRing) :=
  match pubsub_from_str payload with
  | Ok msg => if bool_decide (pm_instance_id msg = my_instance_id r) then None
              else if bool_decide (pm_event msg ∈ ["join"; "leave"]) then Some (msg, r) else None
  | Err _ => None
  end.
Definition listen_load (id : string) (c : cluster) : option cluster := act listening id c (fun m =>
  match mb_listener m, mb_inbox m with
  | None, payload :: rest =>
      put id (with_listener (listener_load payload (co_ring (mb_coord m))) (with_link (mb_connected m) rest m)) c
  | _, _ => c
  end).
Definition listen_store (id : string) (c : cluster) : option cluster := act listening id c (fun m =>
  match mb_listener m with
  | Some (msg, loaded) =>
      put id (with_listener None (with_coord (pubsub_store (pm_event msg) (pm_instance_id msg) loaded (mb_coord m)) m)) c
  | None => c
  end).
Definition lose_connection (id : string) (c : cluster) : option cluster := act listening id c (fun m => put id (with_link false [] m) c).
Definition reconnect (id : string) (c : cluster) : option cluster := act listening id c (fun m => put id (with_link true (mb_inbox m) m) c).

(** *** Leaving *)

(** The tasks have ended; a leave message that cannot be published is only
    logged. *)
Definition publish_leave (ok : bool) (id : string) (c : cluster) : option cluster := act (is_phase Running) id c (fun m =>
  if is_null (mb_listener m) && is_null (mb_syncing m) then
    let members := <[id := with_phase Leaving m]> (cl_members c) in
    {| cl_redis := cl_redis c; cl_members := if ok then publish_event "leave" id members else members |}
  else c).
Definition leave_registry (id : string) (c : cluster) : option cluster := act (is_phase Leaving) id c (fun _ =>
  {| cl_redis := registry_deregister id (cl_redis c); cl_members := delete id (cl_members c) |}).
Definition crash (id : string) (c : cluster) : option cluster := act (fun _ => true) id c (fun _ =>
  {| cl_redis := cl_redis c; cl_members := delete id (cl_members c) |}).

Definition exec (a : action) : cluster -> option cluster :=
  match a with
  | Register now id => register_instance now id
  | ReadInstances now id => read_instances now id
  | Subscribe id => subscribe id
  | PublishJoin id => publish_join id
  | BeginTask id => begin_task id
  | ListenLoad id => listen_load id
  | ListenStore id => listen_store id
  | LoseConnection id => lose_connection id
  | Reconnect id => reconnect id
  | Heartbeat now ok roll id => send_heartbeat now ok roll id
  | AskInstances now id => ask_instances now id
  | SyncLoad id => sync_load id
  | SyncStore id => store_sync id
  | PublishLeave ok id => publish_leave ok id
  | Deregister id => leave_registry id
  | Crash id => crash id
  end.
Definition cluster_step (c c' : cluster) : Prop := exists a, exec a c = Some c'.
Definition no_cluster : cluster := {| cl_redis := ∅; cl_members := ∅ |}.
Fixpoint run_actions (l : list action) (c : cluster) : option cluster :=
  match l with [] => Some c | a :: l' => c' ← exec a c; run_actions l' c' end.
Lemma run_actions_steps l c c' : run_actions l c = Some c' -> steps cluster_step c c'.
Proof.
  revert c. induction l as [|a l IH]; intros c; simpl; [intros [= <-]; apply steps_refl|].
  intros (c1 & H1 & H2)%bind_Some. eapply steps_cons; [by exists a|by apply IH].
Qed.

(** ** What every state of a cluster satisfies

    The ring of an instance is its own and the one its members determine, and so
    is every copy that a task works on. *)
Definition own_ring (id : string) (r : HashRing) : Prop := ring_wf r /\ my_instance_id r = id.
Record member_ok (id : string) (m : member) : Prop := {
  mo_ring : own_ring id (co_ring (mb_coord m));
  mo_listener msg r : mb_listener m = Some (msg, r) -> own_ring id r;
  mo_syncing l r : mb_syncing m = Some (l, r) -> own_ring id r;
}.
Definition cluster_ok (c : cluster) : Prop := forall id m, cl_members c !! id = Some m -> member_ok id m.

Lemma act_Some ok id c f c' :
  act ok id c f = Some c' -> exists m, cl_members c !! id = Some m /\ ok (mb_phase m) = true /\ c' = f m.
Proof.
  unfold act. intros (m & Hm & He)%bind_Some. destruct (ok (mb_phase m)) eqn:E; [|done]. injection He as <-. by exists m.
Qed.

Lemma deliver_member_ok p id m : member_ok id m -> member_ok id (deliver p m).
Proof. unfold deliver. destruct (mb_connected m); [|done]. intros [H1 H2 H3]. by constructor. Qed.

Lemma insert_ok redis id m c :
  cluster_ok c -> member_ok id m -> cluster_ok {| cl_redis := redis; cl_members := <[id := m]> (cl_members c) |}.
Proof. intros Hc Hm b mb. simpl. rewrite lookup_insert_Some. intros [[-> <-] | [_ Hl]]; [done | by apply Hc]. Qed.
Lemma delete_ok redis id c : cluster_ok c -> cluster_ok {| cl_redis := redis; cl_members := delete id (cl_members c) |}.
Proof. intros Hc b mb. simpl. rewrite lookup_delete_Some. intros [_ Hl]. by apply Hc. Qed.
Lemma publish_ok event from redis members :
  cluster_ok {| cl_redis := redis; cl_members := members |} ->
  cluster_ok {| cl_redis := redis; cl_members := publish_event event from members |}.
Proof.
  intros Hc b mb. simpl. unfold publish_event. rewrite lookup_fmap. intros (m & Hm & ->)%fmap_Some_1.
  by apply deliver_member_ok, Hc.
Qed.

Lemma rebuild_own id l r : own_ring id r -> own_ring id (rebuild l r).
Proof. intros [Hw Hi]. destruct (rebuild_spec l r Hw) as (? & ? & _). split; congruence. Qed.
Lemma listener_load_own id payload r msg loaded :
  own_ring id r -> listener_load payload r = Some (msg, loaded) -> own_ring id loaded.
Proof. unfold listener_load. repeat case_match; intros ? [= <- <-]. done. Qed.
Lemma pubsub_store_own id event from loaded c :
  own_ring id (co_ring c) -> own_ring id loaded -> own_ring id (co_ring (pubsub_store event from loaded c)).
Proof.
  intros Hr [Hw Hi]. unfold pubsub_store. repeat case_match; try done; simpl.
  - destruct (add_instance_spec from loaded Hw) as (? & ? & _). split; congruence.
  - destruct (remove_instance_spec from loaded Hw) as (? & ? & _). split; congruence.
Qed.
Lemma heartbeat_frame now ok roll c redis redis' c' delay :
  heartbeat_tick now ok roll c redis = (redis', c', delay) ->
  co_ring c' = co_ring c /\ co_previous c' = co_previous c.
Proof. unfold heartbeat_tick. by destruct (negb ok); intros [= <- <- <-]. Qed.

Lemma step_ok c c' : cluster_step c c' -> cluster_ok c -> cluster_ok c'.
Proof.
  intros [a Ha] Hc. destruct a as [now id|now id|id|id|id|id|id|id|id|now ok roll id|now id|id|id|ok id|id|id];
    simpl in Ha; try (apply act_Some in Ha as (m & Hm & Hph & ->); pose proof (Hc id m Hm) as [H1 H2 H3]).
  - unfold register_instance in Ha. destruct (cl_members c !! id); [done|]. injection Ha as <-.
    apply insert_ok; [done|]. constructor; simpl; [|done|done]. split; [apply ring_new_wf | done].
  - apply insert_ok; [done|]. constructor; simpl; [by apply rebuild_own|done|done].
  - by apply insert_ok.
  - apply publish_ok. by apply insert_ok.
  - by apply insert_ok.
  - destruct (mb_listener m) eqn:El; [done|]. destruct (mb_inbox m); [done|]. apply insert_ok; [done|].
    constructor; simpl; [done| |done]. intros msg r. by apply listener_load_own.
  - destruct (mb_listener m) as [[msg loaded]|] eqn:El; [|done]. apply insert_ok; [done|].
    constructor; simpl; [|done|done]. apply pubsub_store_own; [done | by eapply H2].
  - by apply insert_ok.
  - by apply insert_ok.
  - destruct (heartbeat_tick _ _ _ _ _) as [[redis co] delay] eqn:Et. apply heartbeat_frame in Et as [Er _].
    apply insert_ok; [done|]. constructor; simpl; [by rewrite Er|done|done].
  - destruct (mb_syncing m); [done|]. by apply insert_ok.
  - destruct (mb_answer m) as [instances|]; [|done]. apply insert_ok; [done|].
    destruct (sync_events_ring instances (mb_coord m)) as [Er Ep]. constructor; simpl; [by rewrite Er|done|].
    intros l r. case_decide; [done|]. intros [= <- <-]. by rewrite Er.
  - destruct (mb_syncing m) as [[instances loaded]|] eqn:Es; [|done]. apply insert_ok; [done|].
    constructor; simpl; [|done|done]. apply rebuild_own. by eapply H3.
  - destruct (is_null _ && _); [|done].
    assert (Hi : cluster_ok {| cl_redis := cl_redis c; cl_members := <[id := with_phase Leaving m]> (cl_members c) |})
      by by apply insert_ok.
    destruct ok; [by apply publish_ok | done].
  - by apply delete_ok.
  - by apply delete_ok.
Qed.
Lemma reachable_ok c : steps cluster_step no_cluster c -> cluster_ok c.
Proof. intros Hs. apply (steps_invariant cluster_step cluster_ok step_ok _ _ Hs). intros id m. simpl. by rewrite lookup_empty. Qed.

(** Instances of a running cluster whose rings name just them agree on the owner
    of a key. *)
Lemma rings_agree `{!AnchorHashLaws} c (S : gset string) key :
  cluster_ok c -> S <> ∅ -> Z.of_nat (size S) <= u16_MAX ->
  (forall id, id ∈ S -> exists m, cl_members c !! id = Some m /\ current_instances (co_ring (mb_coord m)) = S) ->
  exists owner, owner ∈ S /\
    forall id m, id ∈ S -> cl_members c !! id = Some m ->
      ring_should_handle (co_ring (mb_coord m)) key = bool_decide (id = owner).
Proof.
  intros Hok Hne Hsz Hall.
  set (ring_of := fun id => match cl_members c !! id with Some m => co_ring (mb_coord m) | None => ring_new id end).
  destruct (unique_owner S ring_of key Hne Hsz) as (owner & Ho & Hown).
  - intros id Hid. destruct (Hall id Hid) as (m & Hm & Hs). unfold ring_of. rewrite Hm.
    destruct (mo_ring _ _ (Hok id m Hm)) as [Hw Hi]. done.
  - exists owner. split; [done|]. intros id m Hid Hm. specialize (Hown id Hid). unfold ring_of in Hown. by rewrite Hm in Hown.
Qed.

(** ** How rings come to agree *)

(** What an action does to the other instances: at most a message more. *)
Lemma exec_others a c c' id m :
  exec a c = Some c' -> id <> actor a -> cl_members c !! id = Some m ->
  cl_members c' !! id = Some m \/ exists p, cl_members c' !! id = Some (deliver p m).
Proof.
  intros Ha Hne Hm. destruct a as [now i|now i|i|i|i|i|i|i|i|now ok roll i|now i|i|i|ok i|i|i];
    simpl in Ha, Hne; try (apply act_Some in Ha as (mi & Hmi & Hph & ->));
    repeat case_match; simplify_eq/=; try (by left); try (left; by rewrite lookup_insert_ne by done);
    try (left; by rewrite lookup_delete_ne by done).
  - unfold register_instance in Ha. destruct (cl_members c !! i); [done|]. injection Ha as <-. simpl.
    left. by rewrite lookup_insert_ne by done.
  - right. unfold publish_event. rewrite lookup_fmap, lookup_insert_ne by done. rewrite Hm. by eexists.
  - right. unfold publish_event. rewrite lookup_fmap, lookup_insert_ne by done. rewrite Hm. by eexists.
Qed.

(** On the way to the members [S]: the sync has the answer [S], which is news;
    it has loaded the ring; or the ring names [S].  The listener has no message in
    hand. *)
Definition settling (S : gset string) (m : member) : Prop :=
  mb_phase m = Running /\ mb_listener m = None /\
  match mb_answer m, mb_syncing m with
  | Some l, None => list_to_set l = S /\ co_previous (mb_coord m) <> S
  | None, Some (l, _) => list_to_set l = S
  | None, None => current_instances (co_ring (mb_coord m)) = S
  | Some _, Some _ => False
  end.
(** The actions that take an instance of [S] off that way. *)
Definition disturbs (S : gset string) (a : action) : Prop :=
  match a with ListenLoad id | AskInstances _ id | PublishLeave _ id | Crash id => id ∈ S | _ => False end.

Lemma deliver_settling S p m : settling S m -> settling S (deliver p m).
Proof. unfold deliver. by destruct (mb_connected m). Qed.

Lemma exec_settling S a c c' m :
  cluster_ok c -> exec a c = Some c' -> ~ disturbs S a -> actor a ∈ S -> cl_members c !! actor a = Some m -> settling S m ->
  exists m', cl_members c' !! actor a = Some m' /\ settling S m'.
Proof.
  intros Hok Ha Hd Hin Hm (Hr & Hl & Hst).
  destruct a as [now i|now i|i|i|i|i|i|i|i|now ok roll i|now i|i|i|ok i|i|i]; simpl in Ha, Hd, Hin, Hm; try done;
    try (apply act_Some in Ha as (mi & Hmi & Hph & ->); rewrite Hm in Hmi; injection Hmi as <-;
         try (apply bool_decide_eq_true in Hph; by rewrite Hr in Hph)).
  - unfold register_instance in Ha. by rewrite Hm in Ha.
  - rewrite Hl. by exists m.
  - eexists. simpl. rewrite lookup_insert_eq. split; [done|]. by repeat split.
  - eexists. simpl. rewrite lookup_insert_eq. split; [done|]. by repeat split.
  - destruct (heartbeat_tick _ _ _ _ _) as [[redis co] delay] eqn:Et. apply heartbeat_frame in Et as [Er Ep].
    eexists. simpl. rewrite lookup_insert_eq. split; [done|]. split; [done|]. split; [done|]. simpl. by rewrite Er, Ep.
  - destruct (mb_answer m) as [l|] eqn:Ea; [|by exists m; unfold settling; rewrite Ea].
    destruct (mb_syncing m) as [|]; [done|]. destruct Hst as [Hs Hp].
    destruct (sync_events_ring l (mb_coord m)) as [_ Ep].
    eexists. simpl. rewrite lookup_insert_eq. split; [done|]. split; [done|]. split; [done|]. simpl.
    rewrite decide_False by (rewrite Ep, Hs; congruence). done.
  - destruct (mb_syncing m) as [[l r]|] eqn:Es; [|by exists m; unfold settling; rewrite Es].
    destruct (mb_answer m) as [|] eqn:Ea; [done|]. destruct (mo_syncing _ _ (Hok i m Hm) l r Es) as [Hw _].
    eexists. simpl. rewrite lookup_insert_eq. split; [done|]. split; [done|]. split; [done|]. simpl.
    destruct (rebuild_spec l r Hw) as (_ & _ & ->). done.
Qed.

Lemma run_settling S l c c' :
  cluster_ok c -> run_actions l c = Some c' -> Forall (fun a => ~ disturbs S a) l ->
  (forall id, id ∈ S -> exists m, cl_members c !! id = Some m /\ settling S m) ->
  cluster_ok c' /\ forall id, id ∈ S -> exists m, cl_members c' !! id = Some m /\ settling S m.
Proof.
  revert c. induction l as [|a l IH]; intros c Hok; simpl; [by intros [= <-]|].
  intros (c1 & Ha & Hl)%bind_Some [Hd Hds]%Forall_cons Hall.
  apply (IH c1); [by eapply step_ok; [eexists|] | done | done|].
  intros id Hid. destruct (Hall id Hid) as (m & Hm & Hs). destruct (decide (id = actor a)) as [->|Hne].
  - by eapply exec_settling.
  - destruct (exec_others a c c1 id m Ha Hne Hm) as [H1 | (p & H1)]; [by exists m|].
    exists (deliver p m). split; [done | by apply deliver_settling].
Qed.

(** [C39] How a cluster comes to agree: after any run, with departures, crashes,
    lost messages and overlapping updates, let Redis have answered a sync of each of
    the instances [S] with just [S], which is news to it, while its listener has no
    message in hand.  Then whatever the instances do, once each has finished its sync
    and none of [S] has taken up a message or another answer in between, exactly one
    of them answers for every key. *)
Theorem synced_instances_agree `{!AnchorHashLaws} c l c' (S : gset string) key :
  steps cluster_step no_cluster c -> S <> ∅ -> Z.of_nat (size S) <= u16_MAX ->
  (forall id, id ∈ S -> exists m, cl_members c !! id = Some m /\ mb_phase m = Running /\ mb_listener m = None /\
     mb_syncing m = None /\ (list_to_set <$> mb_answer m) = Some S /\ co_previous (mb_coord m) <> S) ->
  run_actions l c = Some c' -> Forall (fun a => ~ disturbs S a) l ->
  (forall id m, id ∈ S -> cl_members c' !! id = Some m -> mb_answer m = None /\ mb_syncing m = None) ->
  exists owner, owner ∈ S /\
    forall id m, id ∈ S -> cl_members c' !! id = Some m ->
      ring_should_handle (co_ring (mb_coord m)) key = bool_decide (id = owner).
Proof.
  intros Hs Hne Hsz Hstart Hrun Hquiet Hdone.
  destruct (run_settling S l c c' (reachable_ok c Hs) Hrun Hquiet) as [Hok Hall].
  { intros id Hid. destruct (Hstart id Hid) as (m & Hm & Hr & Hl & Hy & Ha & Hp). exists m. split; [done|].
    split; [done|]. split; [done|]. rewrite Hy. destruct (mb_answer m); [|done]. by injection Ha. }
  apply rings_agree; [done | done | done|]. intros id Hid. destruct (Hall id Hid) as (m & Hm & _ & _ & Hst).
  exists m. split; [done|]. destruct (Hdone id m Hid Hm) as [Ha Hy]. by rewrite Ha, Hy in Hst.
Qed.

(** ** The two tasks at once

    A sync that runs between the load and the store of the listener is undone by
    the store, and the syncs after it see no change of membership: an instance
    that the sync had found stays out of the ring. *)
Theorem overlapping_updates_lose_member instances c leaver b n :
  ring_wf (co_ring c) -> b ∈ instances -> list_to_set instances <> co_previous c -> b ∉ current_instances (co_ring c) ->
  let c' := pubsub_store "leave" leaver (co_ring c) (sync_tick instances c) in
  b ∈ current_instances (co_ring (sync_tick instances c)) /\
  b ∉ current_instances (co_ring (Nat.iter n (sync_tick instances) c')).
Proof.
  intros Hw Hb Hd Hn c'. destruct (sync_tick_spec instances c Hw) as (_ & Hp & Hr). split; [rewrite Hr, decide_False by done; by apply elem_of_list_to_set|].
  destruct (remove_instance_spec leaver (co_ring c) Hw) as (Hw' & _ & Hs).
  assert (Hc : ring_wf (co_ring c') /\ co_previous c' = list_to_set instances /\ b ∉ current_instances (co_ring c')).
  { split; [done|]. split; [done|]. unfold c'. simpl. rewrite Hs. by intros [? _]%elem_of_difference. }
  clearbody c'. clear Hp. assert (Hi : ring_wf (co_ring (Nat.iter n (sync_tick instances) c')) /\ co_previous (Nat.iter n (sync_tick instances) c') = list_to_set instances
    /\ b ∉ current_instances (co_ring (Nat.iter n (sync_tick instances) c'))); [|apply Hi].
  induction n as [|n IH]; [done|]. simpl. set (x := Nat.iter n (sync_tick instances) c') in *. destruct IH as (Hx & Hpx & Hbx).
  destruct (sync_tick_spec instances x Hx) as (H1 & H2 & H3). split; [done|]. split; [done|]. rewrite H3, Hpx. by rewrite decide_True.
Qed.
End cluster.

(** ** Examples

    Messages with a comma before each character of the event and a full stop
    after the last. *)
Fixpoint toy_message (event id : string) : string :=
  match event with EmptyString => String "." id | String c e => String "," (String c (toy_message e id)) end.
Fixpoint toy_read (s : string) : result PubSubMessage string :=
  match s with
  | String "." id => Ok {| pm_event := ""; pm_instance_id := id |}
  | String "," (String c s') => let? m := toy_read s' in Ok {| pm_event := String c (pm_event m); pm_instance_id := pm_instance_id m |}
  | _ => Err "no message"
  end.
#[export] Instance toy_pubsub : PubSubJson := {
  pubsub_to_string m := toy_message (pm_event m) (pm_instance_id m);
  pubsub_from_str := toy_read;
}.
#[export] Instance toy_pubsub_laws : PubSubJsonLaws.
Proof. split. intros [e id]. simpl. induction e as [|c e IH]; [done|]. simpl. by rewrite IH. Qed.

(** [a] and [b] start while [x], which is there before them, crashes; both lose
    their connections; when the heartbeat of [x] is old they ask Redis. *)
Definition toy_starts (now : Z) (id : string) : list action :=
  [Register now id; ReadInstances (now + 1) id; Subscribe id; PublishJoin id; BeginTask id; LoseConnection id].
Definition toy_actions : list action :=
  toy_starts 1000 "x" ++ toy_starts 2000 "a" ++ toy_starts 3000 "b" ++
  [Crash "x"; Reconnect "a"; Heartbeat 32000 true 50 "a"; Heartbeat 32001 true 50 "b";
   AskInstances 33000 "a"; AskInstances 33001 "b"].
Definition toy_syncs : list action := [SyncLoad "a"; SyncLoad "b"; Heartbeat 34000 true 50 "a"; SyncStore "b"; SyncStore "a"].
Definition toy_cluster (l : list action) : cluster := default no_cluster (run_actions l no_cluster).
Lemma toy_reachable l : is_null (run_actions l no_cluster) = false -> steps cluster_step no_cluster (toy_cluster l).
Proof. intros H. apply (run_actions_steps l). unfold toy_cluster. by destruct (run_actions l no_cluster). Qed.

Definition toy_pair_members : gset string := {["a"; "b"]}.
Lemma toy_members_elem id : id ∈ toy_pair_members -> id = "a" \/ id = "b".
Proof. unfold toy_pair_members. set_solver. Qed.

Lemma synced_instances_agree_witness :
  exists owner, owner ∈ toy_pair_members /\
    forall id m, id ∈ toy_pair_members -> cl_members (toy_cluster (toy_actions ++ toy_syncs)) !! id = Some m ->
      ring_should_handle (co_ring (mb_coord m)) "key" = bool_decide (id = owner).
Proof.
  apply (synced_instances_agree (toy_cluster toy_actions) toy_syncs (toy_cluster (toy_actions ++ toy_syncs)) toy_pair_members "key").
  - apply toy_reachable. vm_compute. reflexivity.
  - vm_compute. discriminate.
  - vm_compute. discriminate.
  - intros id [-> | ->]%toy_members_elem.
    + destruct (cl_members (toy_cluster toy_actions) !! "a") as [m|] eqn:E; [|vm_compute in E; discriminate E].
      exists m. split; [reflexivity|]. vm_compute in E. injection E as <-. repeat split. vm_compute. discriminate.
    + destruct (cl_members (toy_cluster toy_actions) !! "b") as [m|] eqn:E; [|vm_compute in E; discriminate E].
      exists m. split; [reflexivity|]. vm_compute in E. injection E as <-. repeat split. vm_compute. discriminate.
  - vm_compute. reflexivity.
  - repeat constructor; intros [].
  - intros id m [-> | ->]%toy_members_elem Hm; vm_compute in Hm; injection Hm as <-; by split.
Defined.

Lemma overlapping_updates_lose_member_witness :
  "b" ∉ current_instances (co_ring (Nat.iter 3 (sync_tick ["a"; "b"])
    (pubsub_store "leave" "c" (co_ring toy_coordinator) (sync_tick ["a"; "b"] toy_coordinator)))).
Proof.
  apply (overlapping_updates_lose_member ["a"; "b"] toy_coordinator "c" "b" 3).
  - apply toy_coordinator_wf.
  - right. left.
  - intros H. apply (f_equal (fun s => bool_decide ("b" ∈ s))) in H. vm_compute in H. discriminate H.
  - refine (bool_decide_eq_true_1 ("b" ∉ current_instances (co_ring toy_coordinator)) _). vm_compute. reflexivity.
Defined.
