(* ===== verification/KeyMaterial.v ===== *)
(** * Keys of tokens

    api/src/ucan_auth/key_material.rs: what the ucan crate signs and checks tokens
    with.  The trait KeyMaterial is a class; one implementation has the secret key,
    the other only the public key that a DID names.  SHA-256 and BIP-340 are
    parameters. *)
From S2P Require Import Prelude RustStr External Instances Ucan.

(** secp256k1 and sha2 *)
Class Schnorr `{Nostr} := {
  XOnlyPublicKey : Type;
  xonly_from_slice : list Z -> result XOnlyPublicKey string;
  xonly_serialize : XOnlyPublicKey -> list Z;
  Signature : Type;
  signature_from_slice : list Z -> result Signature string;
  signature_serialize : Signature -> list Z;
  (** [secp256k1::SecretKey::from_slice] and the key pair *)
  Keypair : Type;
  keypair_from_slice : list Z -> result Keypair string;
  sha256_digest : list Z -> list Z;
  (** [Message::from_digest_slice], which takes 32 bytes *)
  message_from_digest : list Z -> result (list Z) string;
  sign_schnorr_no_aux_rand : list Z -> Keypair -> Signature;
  verify_schnorr : Signature -> list Z -> XOnlyPublicKey -> result unit string;
}.
(** A digest is a message, keys and signatures are read back from their bytes,
    and the signature of a key pair is one of its public key. *)
Class SchnorrLaws `{Schnorr, !Encodings} : Prop := {
  digest_is_message l : exists m, message_from_digest (sha256_digest l) = Ok m;
  secret_is_key sk : exists kp, keypair_from_slice (sk_to_bytes sk) = Ok kp;
  public_is_xonly sk : exists x, xonly_from_slice (pk_to_bytes (pk_of sk)) = Ok x /\ xonly_serialize x = pk_to_bytes (pk_of sk);
  signature_round_trip sig : signature_from_slice (signature_serialize sig) = Ok sig;
  schnorr_correct sk kp x m :
    keypair_from_slice (sk_to_bytes sk) = Ok kp -> xonly_from_slice (pk_to_bytes (pk_of sk)) = Ok x ->
    verify_schnorr (sign_schnorr_no_aux_rand m kp) m x = Ok tt;
}.

Class KeyMaterial (K : Type) := {
  get_jwt_algorithm_name : K -> string;
  get_did : K -> result string string;
  km_sign : K -> list Z -> result (list Z) string;
  km_verify : K -> list Z -> list Z -> result unit string;
}.

Section materials.
Context `{HN : Nostr, HE : !Encodings, HS : !Schnorr}.

Definition verify_with (payload signature : list Z) (key : result XOnlyPublicKey string) : result unit string :=
  let? message := message_from_digest (sha256_digest payload) in
  let? sig := map_err (fun e => "Invalid Schnorr signature: " +:+ e) (signature_from_slice signature) in
  let? xonly_pubkey := key in
  map_err (fun e => "Schnorr signature verification failed: " +:+ e) (verify_schnorr sig message xonly_pubkey).

Record NostrKeyMaterial : Type := { nk_keys : SecretKey }.
Definition from_keys (keys : SecretKey) : NostrKeyMaterial := {| nk_keys := keys |}.
Definition from_secret_key (sk : SecretKey) : NostrKeyMaterial := {| nk_keys := sk |}.
Definition nostr_sign (k : NostrKeyMaterial) (payload : list Z) : result (list Z) string :=
  let? message := message_from_digest (sha256_digest payload) in
  let? keypair := keypair_from_slice (sk_to_bytes (nk_keys k)) in
  Ok (signature_serialize (sign_schnorr_no_aux_rand message keypair)).
Definition nostr_verify (k : NostrKeyMaterial) (payload signature : list Z) : result unit string :=
  verify_with payload signature
    (map_err (fun e => "Invalid x-only public key: " +:+ e) (xonly_from_slice (pk_to_bytes (pk_of (nk_keys k))))).
#[export] Instance nostr_key_material : KeyMaterial NostrKeyMaterial := {
  get_jwt_algorithm_name _ := "SchnorrSecp256k1";
  get_did k := Ok (nostr_pubkey_to_did (pk_of (nk_keys k)));
  km_sign := nostr_sign;
  km_verify := nostr_verify;
}.

Record NostrVerifyKeyMaterial : Type := { nv_xonly_pubkey : XOnlyPublicKey }.
Definition verify_from_bytes (bytes : list Z) : result NostrVerifyKeyMaterial string :=
  let? x := map_err (fun e => "Invalid public key bytes: " +:+ e) (xonly_from_slice bytes) in Ok {| nv_xonly_pubkey := x |}.
#[export] Instance nostr_verify_key_material : KeyMaterial NostrVerifyKeyMaterial := {
  get_jwt_algorithm_name _ := "SchnorrSecp256k1";
  get_did k :=
    let? pk := map_err (fun e => "Failed to convert to nostr PublicKey: " +:+ e) (pk_from_slice (xonly_serialize (nv_xonly_pubkey k))) in
    Ok (nostr_pubkey_to_did pk);
  km_sign _ _ := Err "NostrVerifyKeyMaterial cannot sign - no private key available";
  km_verify k payload signature := verify_with payload signature (Ok (nv_xonly_pubkey k));
}.

Lemma verify_signed `{!SchnorrLaws} sk payload sig x :
  km_sign (from_keys sk) payload = Ok sig -> xonly_from_slice (pk_to_bytes (pk_of sk)) = Ok x -> verify_with payload sig (Ok x) = Ok tt.
Proof.
  intros Hsig Hx. simpl in Hsig. unfold nostr_sign in Hsig. apply rbind_ok in Hsig as (m & Hm & (kp & Hk & [= <-])%rbind_ok).
  unfold verify_with. rewrite Hm. simpl. rewrite signature_round_trip. simpl. by rewrite (schnorr_correct sk kp x).
Qed.

(** What a key signs is accepted by the key itself and by the material made
    from the bytes of its DID, which names the same DID and signs nothing. *)
Theorem signed_token_verifies `{!SchnorrLaws, !EncodingLaws} sk payload :
  exists sig did v, km_sign (from_keys sk) payload = Ok sig /\ km_verify (from_keys sk) payload sig = Ok tt /\
    get_did (from_keys sk) = Ok did /\ did_to_nostr_pubkey did = Ok (pk_of sk) /\
    verify_from_bytes (pk_to_bytes (pk_of sk)) = Ok v /\ get_did v = Ok did /\ km_verify v payload sig = Ok tt /\
    is_ok (km_sign v payload) = false.
Proof.
  destruct (digest_is_message payload) as [m Hm], (secret_is_key sk) as [kp Hk], (public_is_xonly sk) as (x & Hx & Hb).
  assert (Hs : km_sign (from_keys sk) payload = Ok (signature_serialize (sign_schnorr_no_aux_rand m kp))).
  { simpl. unfold nostr_sign. rewrite Hm. simpl. by rewrite Hk. }
  eexists _, _, {| nv_xonly_pubkey := x |}. split; [exact Hs|]. repeat split.
  - simpl. unfold nostr_verify. simpl. rewrite Hx. by eapply verify_signed.
  - apply did_to_did.
  - unfold verify_from_bytes. by rewrite Hx.
  - simpl. by rewrite Hb, pk_bytes_round_trip.
  - simpl. by eapply verify_signed.
Qed.
End materials.
