(* ===== verification/PgConnect.v ===== *)
(** * The connection to the database

    core/src/database.rs: the size of the pool, and the attempts to connect at
    startup, which wait longer after each failure.  The parsing of the URL and the
    answers of the server are arguments; what is printed is left out, except what
    can panic. *)
From S2P Require Import Prelude RustStr External Instances RateLimit.

Definition DEFAULT_MAX_CONNECTIONS_PER_INSTANCE : Z := 10.
Definition ACQUIRE_TIMEOUT_SECS : Z := 60.
Definition MAX_CONNECTION_ATTEMPTS : nat := 5.

Inductive DatabaseError : Type :=
| DE_NotInitialized
| DE_FsError (e : string)
| DE_SqlxError (e : string).
(** How [Database::new] ends: with a pool, an error, or a panic. *)
Inductive database_result (P : Type) : Type :=
| Initialized (pool : P)
| NotInitialized (e : DatabaseError)
| DatabasePanic (msg : string).
Arguments Initialized {P} pool.
Arguments NotInitialized {P} e.
Arguments DatabasePanic {P} msg.

Record pool_options : Type := { po_acquire_timeout : Z; po_max_connections : Z; po_statement_cache : Z }.
Definition parse_u32 (s : string) : option Z := n ← parse_u64 s; if n <? 2 ^ 32 then Some n else None.
Definition options_of (sqlx_statement_cache sqlx_pool_size : option string) : pool_options := {|
  po_acquire_timeout := ACQUIRE_TIMEOUT_SECS;
  po_max_connections := default DEFAULT_MAX_CONNECTIONS_PER_INSTANCE (sqlx_pool_size ≫= parse_u32);
  po_statement_cache := default 0 (sqlx_statement_cache ≫= parse_u64) |}.

(** The attempts from number [attempt] on, with [left] more after it, and the
    delays between them in milliseconds.  The last failure is explained when it
    is a timeout of the pool, with a division by the size of the pool. *)
Fixpoint connect_attempts {P} (left attempt : nat) (max_connections : Z) (connect : nat -> result P string)
  : database_result P * list Z :=
  match connect attempt with
  | Ok pool => (Initialized pool, [])
  | Err e =>
      match left with
      | S left' =>
          let '(r, delays) := connect_attempts left' (S attempt) max_connections connect in
          (r, 500 * Z.shiftl 1 (Z.of_nat attempt) :: delays)
      | O =>
          (if contains "PoolTimedOut" e && (max_connections =? 0) then DatabasePanic "attempt to divide by zero"
           else NotInitialized (DE_SqlxError e), [])
      end
  end.

(** [parse]: whether the text of DATABASE_URL is a URL of a server. *)
Definition database_new {P} (parse : string -> bool) (database_url sqlx_statement_cache sqlx_pool_size : option string)
    (connect : pool_options -> nat -> result P string) : database_result P * list Z :=
  match database_url with
  | None => (DatabasePanic "DATABASE_URL must be set for PostgreSQL", [])
  | Some url =>
      let options := options_of sqlx_statement_cache sqlx_pool_size in
      if negb (parse url) then (DatabasePanic "Invalid DATABASE_URL", [])
      else connect_attempts (MAX_CONNECTION_ATTEMPTS - 1) 1 (po_max_connections options) (connect options)
  end.

Lemma connect_attempts_spec {P} left attempt max_connections (connect : nat -> result P string) :
  match fst (connect_attempts left attempt max_connections connect) with
  | Initialized pool => exists k, (k <= left)%nat /\ connect (attempt + k)%nat = Ok pool /\
      forall j, (j < k)%nat -> is_ok (connect (attempt + j)%nat) = false
  | NotInitialized e => (forall j, (j <= left)%nat -> is_ok (connect (attempt + j)%nat) = false) /\
      exists text, connect (attempt + left)%nat = Err text /\ e = DE_SqlxError text
  | DatabasePanic _ => (forall j, (j <= left)%nat -> is_ok (connect (attempt + j)%nat) = false) /\ max_connections = 0
  end.
Proof.
  revert attempt. induction left as [|left IH]; intros attempt; simpl; destruct (connect attempt) as [pool|e] eqn:E; simpl.
  - exists O. rewrite Nat.add_0_r. repeat split; [lia|done|lia].
  - assert (Hj : forall j, (j <= 0)%nat -> is_ok (connect (attempt + j)%nat) = false).
    { intros j Hj. replace (attempt + j)%nat with attempt by lia. by rewrite E. }
    destruct (contains "PoolTimedOut" e && (max_connections =? 0)) eqn:Ep.
    + bool_to_prop. by split.
    + split; [done|]. exists e. by rewrite Nat.add_0_r.
  - exists O. rewrite Nat.add_0_r. repeat split; [lia|done|lia].
  - specialize (IH (S attempt)). destruct (connect_attempts left (S attempt) max_connections connect) as [r delays]. simpl in *.
    assert (Hall : (forall j, (j <= left)%nat -> is_ok (connect (S (attempt + j))) = false) ->
                   forall j, (j <= S left)%nat -> is_ok (connect (attempt + j)%nat) = false).
    { intros H [|j] Hj; [by rewrite Nat.add_0_r, E|]. rewrite Nat.add_succ_r. apply H. lia. }
    destruct r as [pool|e'|msg]; simpl in *.
    + destruct IH as (k & Hk & Hc & Hj). exists (S k). rewrite Nat.add_succ_r. repeat split; [lia|done|].
      intros [|j] Hlt; [by rewrite Nat.add_0_r, E|]. rewrite Nat.add_succ_r. apply Hj. lia.
    + destruct IH as [Hj (text & Ht & ->)]. split; [by apply Hall|]. exists text. by rewrite Nat.add_succ_r.
    + destruct IH as [Hj ->]. split; [by apply Hall|done].
Qed.

Lemma connect_delays {P} left attempt max_connections (connect : nat -> result P string) :
  foldr Z.add 0 (snd (connect_attempts left attempt max_connections connect)) <= 500 * (2 ^ Z.of_nat (attempt + left) - 2 ^ Z.of_nat attempt).
Proof.
  revert attempt. induction left as [|left IH]; intros attempt; simpl; destruct (connect attempt); simpl.
  - rewrite Nat.add_0_r. lia.
  - rewrite Nat.add_0_r. lia.
  - assert (2 ^ Z.of_nat attempt <= 2 ^ Z.of_nat (attempt + S left)) by (apply Z.pow_le_mono_r; lia). lia.
  - specialize (IH (S attempt)). destruct (connect_attempts left (S attempt) max_connections connect) as [r delays]. simpl snd in *.
    simpl foldr. rewrite Z.shiftl_1_l. replace (S attempt + left)%nat with (attempt + S left)%nat in IH by lia.
    rewrite (Nat2Z.inj_succ attempt), Z.pow_succ_r in IH by lia. lia.
Qed.

(** The first of five attempts that the server answers gives the pool, after at
    most fifteen seconds of waiting; the error is the one of the fifth, and a panic
    means a URL that is missing or malformed, or a pool of size zero. *)
Theorem database_connects {P} parse url cache size (connect : pool_options -> nat -> result P string) :
  let '(r, delays) := database_new parse url cache size connect in
  foldr Z.add 0 delays <= 15000 /\
  match r with
  | Initialized pool => exists n, (1 <= n <= 5)%nat /\ connect (options_of cache size) n = Ok pool /\
      forall k, (1 <= k < n)%nat -> is_ok (connect (options_of cache size) k) = false
  | NotInitialized e => (forall k, (1 <= k <= 5)%nat -> is_ok (connect (options_of cache size) k) = false) /\
      exists text, connect (options_of cache size) 5%nat = Err text /\ e = DE_SqlxError text
  | DatabasePanic _ => match url with Some u => parse u = false \/ po_max_connections (options_of cache size) = 0 | None => True end
  end.
Proof.
  unfold database_new. destruct url as [u|]; [|by split; [simpl; lia|]]. destruct (parse u) eqn:Ep; simpl negb; cbv iota; [|split; [simpl; lia|by left]].
  pose proof (connect_attempts_spec (MAX_CONNECTION_ATTEMPTS - 1) 1 (po_max_connections (options_of cache size)) (connect (options_of cache size))) as H.
  assert (Hd : foldr Z.add 0 (snd (connect_attempts (MAX_CONNECTION_ATTEMPTS - 1) 1 (po_max_connections (options_of cache size)) (connect (options_of cache size)))) <= 15000).
  { etransitivity; [apply connect_delays|]. done. }
  destruct (connect_attempts _ _ _ _) as [r delays]. simpl in H, Hd. split; [done|]. destruct r as [pool|e|msg].
  - destruct H as (k & Hk & Hc & Hj). exists (S k). split; [lia|]. split; [done|]. intros j Hlt. destruct j as [|j]; [lia|]. apply Hj. lia.
  - destruct H as [Hj He]. split; [|done]. intros [|k] Hk; [lia|]. apply Hj. lia.
  - right. apply H.
Qed.
