(* ===== verification/Metrics.v ===== *)
(** * Metrics

    core/src/metrics.rs, the counters of the process, and GET /metrics
    (api/src/api/http/metrics.rs), which gives them as text.  The fields of the
    struct are the constructors of [metric]; every operation is one atomic
    operation on one field, so that a run of the process is a sequence of them. *)
From S2P Require Import Prelude RustStr External Instances RateLimit.

Inductive metric : Type :=
| cache_hits
| cache_misses
| cache_size
| nip46_requests_total
| nip46_requests_rejected_hashring
| nip46_requests_handler_not_found
| nip46_requests_processed
| nip46_requests_queue_dropped
| nip46_tombstone_responses
| http_rpc_requests_total
| http_rpc_cache_hits
| http_rpc_cache_misses
| http_rpc_cache_size
| http_rpc_success
| http_rpc_auth_errors
| registrations_total
| logins_total
| login_failures_total
| account_deletions_total
| oauth_authorizations_created
| oauth_authorizations_revoked.
#[export] Instance metric_eq_dec : EqDecision metric.
Proof. solve_decision. Defined.
Notation Metrics := (metric -> Z).
Definition metrics_new : Metrics := fun _ => 0.

(** [fetch_add] wraps around. *)
Definition fetch_add (c : metric) (n : Z) (m : Metrics) : Metrics := fun c' => if decide (c' = c) then (m c + n) mod 2 ^ 64 else m c'.
Definition store (c : metric) (n : Z) (m : Metrics) : Metrics := fun c' => if decide (c' = c) then n else m c'.

Definition inc_cache_hit : Metrics -> Metrics := fetch_add cache_hits 1.
Definition inc_cache_miss : Metrics -> Metrics := fetch_add cache_misses 1.
Definition set_cache_size (size : Z) : Metrics -> Metrics := store cache_size size.
Definition inc_nip46_request : Metrics -> Metrics := fetch_add nip46_requests_total 1.
Definition inc_nip46_rejected_hashring : Metrics -> Metrics := fetch_add nip46_requests_rejected_hashring 1.
Definition inc_nip46_handler_not_found : Metrics -> Metrics := fetch_add nip46_requests_handler_not_found 1.
Definition inc_nip46_processed : Metrics -> Metrics := fetch_add nip46_requests_processed 1.
Definition inc_queue_dropped : Metrics -> Metrics := fetch_add nip46_requests_queue_dropped 1.
Definition inc_nip46_tombstone_response : Metrics -> Metrics := fetch_add nip46_tombstone_responses 1.
Definition inc_http_rpc_request : Metrics -> Metrics := fetch_add http_rpc_requests_total 1.
Definition inc_http_rpc_cache_hit : Metrics -> Metrics := fetch_add http_rpc_cache_hits 1.
Definition inc_http_rpc_cache_miss : Metrics -> Metrics := fetch_add http_rpc_cache_misses 1.
Definition set_http_rpc_cache_size (size : Z) : Metrics -> Metrics := store http_rpc_cache_size size.
Definition inc_http_rpc_success : Metrics -> Metrics := fetch_add http_rpc_success 1.
Definition inc_http_rpc_auth_error : Metrics -> Metrics := fetch_add http_rpc_auth_errors 1.
Definition inc_registration : Metrics -> Metrics := fetch_add registrations_total 1.
Definition inc_login : Metrics -> Metrics := fetch_add logins_total 1.
Definition inc_login_failure : Metrics -> Metrics := fetch_add login_failures_total 1.
Definition inc_account_deleted : Metrics -> Metrics := fetch_add account_deletions_total 1.
Definition inc_oauth_created : Metrics -> Metrics := fetch_add oauth_authorizations_created 1.
Definition inc_oauth_revoked : Metrics -> Metrics := fetch_add oauth_authorizations_revoked 1.

(** ** The text *)
Inductive metric_kind : Type := Counter | Gauge.
#[export] Instance metric_kind_eq_dec : EqDecision metric_kind.
Proof. solve_decision. Defined.
Record metric_entry : Type := { me_metric : metric; me_name : string; me_help : string; me_kind : metric_kind }.
Definition entry (c : metric) (name help : string) (k : metric_kind) : metric_entry :=
  {| me_metric := c; me_name := name; me_help := help; me_kind := k |}.
Definition metric_table : list metric_entry := [
  entry cache_hits "keycast_cache_hits_total" "Authorization handler cache hits (handler found in memory)" Counter;
  entry cache_misses "keycast_cache_misses_total" "Authorization handler cache misses (loaded from DB)" Counter;
  entry cache_size "keycast_cache_size" "Current number of handlers in LRU cache" Gauge;
  entry nip46_requests_total "keycast_nip46_requests_total" "Total NIP-46 signing requests received via relay" Counter;
  entry nip46_requests_rejected_hashring "keycast_nip46_rejected_hashring_total" "NIP-46 requests rejected (assigned to different instance)" Counter;
  entry nip46_requests_handler_not_found "keycast_nip46_handler_not_found_total" "NIP-46 requests where authorization was not found" Counter;
  entry nip46_requests_processed "keycast_nip46_processed_total" "NIP-46 requests successfully processed" Counter;
  entry nip46_requests_queue_dropped "keycast_nip46_queue_dropped_total" "NIP-46 requests dropped due to queue full (backpressure)" Counter;
  entry nip46_tombstone_responses "keycast_nip46_tombstone_responses_total" "NIP-46 error responses sent for revoked/expired authorizations" Counter;
  entry http_rpc_requests_total "keycast_http_rpc_requests_total" "Total HTTP RPC requests to /api/nostr" Counter;
  entry http_rpc_cache_hits "keycast_http_rpc_cache_hits_total" "HTTP RPC handler cache hits" Counter;
  entry http_rpc_cache_misses "keycast_http_rpc_cache_misses_total" "HTTP RPC handler cache misses" Counter;
  entry http_rpc_cache_size "keycast_http_rpc_cache_size" "Current HTTP RPC handler cache size" Gauge;
  entry http_rpc_success "keycast_http_rpc_success_total" "HTTP RPC requests successfully processed" Counter;
  entry http_rpc_auth_errors "keycast_http_rpc_auth_errors_total" "HTTP RPC authorization errors" Counter;
  entry registrations_total "keycast_registrations_total" "Total successful user registrations" Counter;
  entry logins_total "keycast_logins_total" "Total successful logins" Counter;
  entry login_failures_total "keycast_login_failures_total" "Total failed login attempts" Counter;
  entry account_deletions_total "keycast_account_deletions_total" "Total account deletions" Counter;
  entry oauth_authorizations_created "keycast_oauth_authorizations_created_total" "Total OAuth authorizations created" Counter;
  entry oauth_authorizations_revoked "keycast_oauth_authorizations_revoked_total" "Total OAuth authorizations revoked" Counter].

Definition nl : ascii := "010".
Definition line (s : string) : string := s +:+ String nl "".
Definition kind_str (k : metric_kind) : string := match k with Counter => "counter" | Gauge => "gauge" end.
Definition entry_text (m : Metrics) (e : metric_entry) : string :=
  line ("# HELP " +:+ me_name e +:+ " " +:+ me_help e) +:+ line ("# TYPE " +:+ me_name e +:+ " " +:+ kind_str (me_kind e))
  +:+ line (me_name e +:+ " " +:+ print_Z (m (me_metric e))).
(** An empty line between the entries. *)
Fixpoint entries_text (m : Metrics) (l : list metric_entry) : string :=
  match l with
  | [] => ""
  | [e] => entry_text m e
  | e :: l' => entry_text m e +:+ line "" +:+ entries_text m l'
  end.
Definition to_prometheus (m : Metrics) : string := entries_text m metric_table.
(** The status, the content type and the body. *)
Definition metrics_response (m : Metrics) : Z * string * string := (200, "text/plain; version=0.0.4; charset=utf-8", to_prometheus m).

(** ** Reading the text

    A scraper reads the lines that are neither empty nor comments as a name and a
    number. *)
Definition read_line (l : string) : list (string * option Z) :=
  if bool_decide (l = "") || starts_with "#" l then []
  else match split_once " " l with Some (name, v) => [(name, parse_u64 v)] | None => [(l, None)] end.
Definition scrape (text : string) : list (string * option Z) := flat_map read_line (split nl text).

Lemma parse_print_pos fuel n acc :
  0 <= n < 10 ^ Z.of_nat fuel -> parse_digits (print_pos fuel n acc) 0 = parse_digits acc n.
Proof.
  revert n acc. induction fuel as [|fuel IH]; intros n acc Hn; simpl; [by replace n with 0 by (simpl in Hn; lia)|].
  pose proof (Z.mod_pos_bound n 10 ltac:(lia)). assert (Hd : byte_val (digit (n mod 10)) = 48 + n mod 10).
  { unfold byte_val, digit. rewrite N_ascii_embedding by lia. lia. }
  assert (Hp : forall a, parse_digits (String (digit (n mod 10)) acc) a = parse_digits acc (10 * a + n mod 10)).
  { intros a. simpl. rewrite Hd. replace ((48 <=? 48 + n mod 10) && (48 + n mod 10 <=? 57)) with true by lia.
    f_equal. lia. }
  destruct (Z.eqb_spec (n / 10) 0).
  - rewrite Hp. f_equal. rewrite (Z.div_mod n 10) at 2 by lia. lia.
  - rewrite IH, Hp; [|rewrite Nat2Z.inj_succ, Z.pow_succ_r in Hn by lia; split; [apply Z.div_pos; lia|apply Z.div_lt_upper_bound; lia]].
    f_equal. rewrite (Z.div_mod n 10) at 3 by lia. lia.
Qed.
Lemma parse_digits_bytes s a n c : parse_digits s a = Some n -> ~ 48 <= byte_val c <= 57 -> contains_char c s = false.
Proof.
  intros H Hc. destruct (contains_char c s) eqn:E; [|done]. exfalso. apply contains_spec in E as (x & y & ->). revert a H.
  induction x as [|b x IH]; intros a; simpl.
  - destruct ((48 <=? byte_val c) && (byte_val c <=? 57)) eqn:E; [|done]. lia.
  - destruct ((48 <=? byte_val b) && (byte_val b <=? 57)); [|done]. apply IH.
Qed.
Lemma print_pos_nonempty fuel n acc : (0 < String.length acc)%nat \/ (0 < fuel)%nat -> print_pos fuel n acc <> "".
Proof.
  revert n acc. induction fuel as [|fuel IH]; intros n acc [H|H]; simpl; [by destruct acc; [simpl in H; lia|]|lia|..];
    (destruct (n / 10 =? 0); [done|apply IH; left; simpl; lia]).
Qed.
(** A machine word is read back as it was printed. *)
Lemma print_word n : 0 <= n < 2 ^ 64 -> parse_digits (print_Z n) 0 = Some n /\ print_Z n <> "".
Proof.
  intros Hn. unfold print_Z. destruct (Z.ltb_spec n 0); [lia|]. split.
  - rewrite parse_print_pos; [done|]. split; [lia|]. transitivity (2 ^ 64); [lia|]. reflexivity.
  - apply print_pos_nonempty. right. lia.
Qed.
Lemma parse_u64_print n : 0 <= n < 2 ^ 64 -> parse_u64 (print_Z n) = Some n.
Proof.
  intros Hn. destruct (print_word n Hn) as [Hp He]. unfold parse_u64. destruct (strip_prefix "+" (print_Z n)) as [r|] eqn:E; simpl.
  - exfalso. apply strip_prefix_Some in E. assert (Hc : contains_char "+" (print_Z n) = false) by (eapply parse_digits_bytes; [exact Hp|vm_compute; intros [H _]; by apply H]).
    apply not_true_iff_false in Hc. apply Hc, contains_spec. by exists "", r.
  - rewrite bool_decide_false by done. rewrite Hp. by destruct (Z.ltb_spec n (2 ^ 64)); [|lia].
Qed.

(** A line is read before the rest of the text. *)
Lemma split_line c a b : contains_char c a = false -> split c (a +:+ String c b) = a :: split c b.
Proof.
  induction a as [|x a IH]; simpl; intros H.
  - by rewrite bool_decide_true.
  - unfold contains_char in H. simpl in H. apply orb_false_iff in H as [Hx Ha]. rewrite IH by done. rewrite bool_decide_false; [done|].
    intros ->. unfold starts_with in Hx. simpl in Hx. by rewrite bool_decide_true in Hx.
Qed.
Lemma scrape_line s rest : contains_char nl s = false -> scrape (line s +:+ rest) = read_line s ++ scrape rest.
Proof. intros H. unfold scrape, line. rewrite app_assoc_str. change (String nl "" +:+ rest) with (String nl rest). by rewrite split_line. Qed.

Definition entry_ok (e : metric_entry) : bool :=
  negb (contains_char nl (me_name e)) && negb (contains_char nl (me_help e)) && negb (contains_char " " (me_name e))
  && negb (starts_with "#" (me_name e)) && negb (bool_decide (me_name e = "")).

Lemma read_comment s : read_line ("# " +:+ s) = [].
Proof. done. Qed.
Lemma read_sample name n :
  contains_char " " name = false -> starts_with "#" name = false -> name <> "" -> 0 <= n < 2 ^ 64 ->
  read_line (name +:+ " " +:+ print_Z n) = [(name, Some n)].
Proof.
  intros Hs Hc He Hn. unfold read_line. rewrite bool_decide_false by (by destruct name).
  replace (starts_with "#" (name +:+ " " +:+ print_Z n)) with (starts_with "#" name)
    by (destruct name as [|a name]; [done|]; unfold starts_with; simpl; by destruct (bool_decide _)).
  rewrite Hc. simpl. change (" " +:+ print_Z n) with (String " " (print_Z n)). by rewrite split_once_app, parse_u64_print.
Qed.

Lemma scrape_entry m e rest :
  entry_ok e = true -> 0 <= m (me_metric e) < 2 ^ 64 ->
  scrape (entry_text m e +:+ rest) = (me_name e, Some (m (me_metric e))) :: scrape rest.
Proof.
  unfold entry_ok. intros H Hm. bool_to_prop. unfold entry_text. rewrite !app_assoc_str.
  assert (Hp : contains_char nl (print_Z (m (me_metric e))) = false).
  { eapply parse_digits_bytes; [apply print_word, Hm|]. vm_compute. intros [H' _]. by apply H'. }
  assert (Hk : contains_char nl (kind_str (me_kind e)) = false) by (by destruct (me_kind e)).
  rewrite !scrape_line by (repeat (rewrite contains_char_app; apply orb_false_iff; split); done).
  rewrite read_sample by done. done.
Qed.
Lemma scrape_entries m l :
  forallb entry_ok l = true -> (forall c, 0 <= m c < 2 ^ 64) ->
  scrape (entries_text m l) = map (fun e => (me_name e, Some (m (me_metric e)))) l.
Proof.
  intros Hl Hm. induction l as [|e l IH]; [done|]. simpl in Hl. apply andb_true_iff in Hl as [He Hl]. destruct l as [|e' l].
  - simpl. rewrite <- (app_empty_r (entry_text m e)). by rewrite scrape_entry.
  - change (entries_text m (e :: e' :: l)) with (entry_text m e +:+ line "" +:+ entries_text m (e' :: l)).
    rewrite scrape_entry, scrape_line by done. simpl. f_equal. by apply IH.
Qed.

(** ** Counting *)
Inductive metric_op : Type :=
| Inc (c : metric)
| SetTo (c : metric) (n : Z).
Definition run_op (m : Metrics) (o : metric_op) : Metrics :=
  match o with Inc c => fetch_add c 1 m | SetTo c n => store c n m end.
(** The number of increments, or of those after the last store. *)
Definition op_value (c : metric) (v : Z) (o : metric_op) : Z :=
  match o with Inc c' => if decide (c' = c) then v + 1 else v | SetTo c' n => if decide (c' = c) then n else v end.
Definition recorded (ops : list metric_op) (c : metric) : Z := foldl (op_value c) 0 ops.
Definition word_op (o : metric_op) : Prop := match o with Inc _ => True | SetTo _ n => 0 <= n < 2 ^ 64 end.

Lemma run_ops_value ops m v c :
  Forall word_op ops -> m c = v mod 2 ^ 64 -> foldl run_op m ops c = foldl (op_value c) v ops mod 2 ^ 64.
Proof.
  revert m v. induction ops as [|o ops IH]; intros m v Hw Hm; simpl; [done|]. apply Forall_cons in Hw as [Ho Hw]. apply IH; [done|].
  destruct o as [c'|c' n]; simpl; unfold fetch_add, store.
  - destruct (decide (c = c')) as [->|Hne]; [|by rewrite decide_False by done]. rewrite decide_True, Hm by done. by rewrite Zplus_mod_idemp_l.
  - destruct (decide (c = c')) as [->|Hne]; [|by rewrite decide_False by done]. rewrite decide_True by done. by rewrite Z.mod_small.
Qed.

(** What GET /metrics shows after any sequence of operations, in whatever order
    the threads performed them, is read back as the number of increments of each
    counter since the start, modulo 2^64, and the last value of each gauge. *)
Theorem scrape_counts ops :
  Forall word_op ops ->
  scrape (snd (metrics_response (foldl run_op metrics_new ops))) =
  map (fun e => (me_name e, Some (recorded ops (me_metric e) mod 2 ^ 64))) metric_table.
Proof.
  intros Hw. unfold metrics_response, to_prometheus, snd. rewrite scrape_entries.
  - apply map_ext. intros e. by rewrite (run_ops_value ops metrics_new 0).
  - vm_compute. reflexivity.
  - intros c. rewrite (run_ops_value ops metrics_new 0) by done. by apply Z.mod_pos_bound.
Qed.
Lemma scrape_counts_witness :
  nth_error (scrape (snd (metrics_response (foldl run_op metrics_new [Inc logins_total; SetTo cache_size 12; Inc logins_total])))) 16 =
  Some ("keycast_logins_total", Some 2).
Proof.
  rewrite (scrape_counts [Inc logins_total; SetTo cache_size 12; Inc logins_total]); [reflexivity|].
  repeat constructor; lia.
Defined.

(** The order of increments does not matter. *)
Lemma recorded_permutation ops ops' c :
  (forall c' n, SetTo c' n ∉ ops) -> ops ≡ₚ ops' -> recorded ops c = recorded ops' c.
Proof.
  intros Hs Hp. unfold recorded. generalize 0. induction Hp as [|o l l' _ IH|o o' l|l1 l2 l3 H1 IH1 _ IH2]; intros v; simpl.
  - done.
  - apply IH. intros c' n H. apply (Hs c' n). by right.
  - f_equal. destruct o as [a|a n]; [|exfalso; apply (Hs a n); right; left]. destruct o' as [b|b n]; [|exfalso; apply (Hs b n); left].
    simpl. repeat case_decide; lia.
  - rewrite IH1 by done. apply IH2. intros c' n H. apply (Hs c' n). by rewrite H1.
Qed.
