(* ===== verification/Routes.v ===== *)
(** * Routes

    api/src/api/http/routes.rs, the table of the API: methods, paths and handlers,
    with the layers around them (which origins may read an answer, and the guard of
    the customer tenant); the two policies for origins of keycast/src/main.rs; and
    the discovery document.  axum's router is a parameter: it is built by the
    operations of the source, its endpoints are those that were added, and it
    dispatches a request to an endpoint that matches it.  Handlers are named.
    Paths are those below /api, where the router is nested. *)
From S2P Require Import Prelude RustStr External Instances Database Tokens OAuthRepo Users Tenant Server.

Inductive method : Type := GET | POST | PUT | DELETE.
#[export] Instance method_eq_dec : EqDecision method.
Proof. solve_decision. Defined.
Inductive cors_policy : Type := AuthCors | PublicCors.
#[export] Instance cors_policy_eq_dec : EqDecision cors_policy.
Proof. solve_decision. Defined.
Inductive route_layer : Type := Cors (c : cors_policy) | TenantGuard.
#[export] Instance route_layer_eq_dec : EqDecision route_layer.
Proof. solve_decision. Defined.
(** The outermost layer comes first. *)
Record endpoint : Type := { ep_method : method; ep_path : string; ep_handler : string; ep_layers : list route_layer }.
#[export] Instance endpoint_eq_dec : EqDecision endpoint.
Proof. solve_decision. Defined.
Definition add_layer (l : route_layer) (e : endpoint) : endpoint :=
  {| ep_method := ep_method e; ep_path := ep_path e; ep_handler := ep_handler e; ep_layers := l :: ep_layers e |}.

(** ** Patterns of paths

    A segment that starts with a colon is any text that is not empty, one that
    starts with an asterisk any rest that is not empty. *)
Definition is_wild (p : string) : bool := starts_with "*" p.
Definition is_param (p : string) : bool := starts_with ":" p.
Definition segment_match (p s : string) : bool := if is_param p then negb (bool_decide (s = "")) else bool_decide (s = p).
Fixpoint segments_match (ps ss : list string) : bool :=
  match ps, ss with
  | [], [] => true
  | p :: ps', s :: ss' => if is_wild p then negb (bool_decide (join "/" ss = "")) else segment_match p s && segments_match ps' ss'
  | _, _ => false
  end.
Definition path_match (pattern path : string) : bool := segments_match (split "/" pattern) (split "/" path).
Definition serves (e : endpoint) (m : method) (path : string) : bool := bool_decide (ep_method e = m) && path_match (ep_path e) path.

(** ** axum *)
Class Axum := {
  Router : Type;
  router_new : Router;
  route : string -> list (method * string) -> Router -> Router;
  layer : route_layer -> Router -> Router;
  merge : Router -> Router -> Router;
  fallback : string -> Router -> Router;
  endpoints : Router -> list endpoint;
  dispatch : Router -> method -> string -> option endpoint;
}.
(** A layer goes around the routes that are there; a path that one pattern
    matches reaches the endpoint of its method. *)
Class AxumLaws `{Axum} : Prop := {
  endpoints_new : endpoints router_new = [];
  endpoints_route p hs r : endpoints (route p hs r) =
    endpoints r ++ map (fun '(m, h) => {| ep_method := m; ep_path := p; ep_handler := h; ep_layers := [] |}) hs;
  endpoints_layer l r : endpoints (layer l r) = map (add_layer l) (endpoints r);
  endpoints_merge a r : endpoints (merge a r) = endpoints r ++ endpoints a;
  endpoints_fallback h r : endpoints (fallback h r) = endpoints r;
  dispatch_serves r m path e : dispatch r m path = Some e -> e ∈ endpoints r /\ serves e m path = true;
  dispatch_finds r m path e :
    e ∈ endpoints r -> serves e m path = true ->
    (forall e', e' ∈ endpoints r -> path_match (ep_path e') path = true -> ep_path e' = ep_path e) -> is_Some (dispatch r m path);
}.
Notation "r |> f" := (f r) (at level 50, left associativity, only parsing) : keycast_scope.

Section routes.
Context `{HA : Axum}.

Definition first_party_routes : Router :=
  router_new
  |> route "/auth/register" [(POST, "auth::register")]
  |> route "/auth/login" [(POST, "auth::login")]
  |> route "/oauth/login" [(POST, "oauth::oauth_login")]
  |> route "/oauth/register" [(POST, "oauth::oauth_register")]
  |> layer (Cors AuthCors).
Definition logout_route : Router :=
  router_new
  |> route "/auth/logout" [(POST, "auth::logout")]
  |> layer (Cors AuthCors).
Definition verify_email_route : Router :=
  router_new
  |> route "/auth/verify-email" [(POST, "auth::verify_email")].
Definition email_routes : Router :=
  router_new
  |> route "/auth/forgot-password" [(POST, "auth::forgot_password")]
  |> route "/auth/reset-password" [(POST, "auth::reset_password")]
  |> route "/auth/resend-verification" [(POST, "auth::resend_verification")].
Definition magic_link_routes : Router :=
  router_new
  |> route "/auth/magic-link" [(POST, "magic_link::request_magic_link")]
  |> route "/auth/magic-link/verify" [(POST, "magic_link::verify_magic_link")]
  |> route "/customer/account" [(DELETE, "magic_link::delete_customer_account")]
  |> route "/customer/authorizations" [(GET, "magic_link::list_customer_apps")]
  |> route "/customer/authorizations/revoke" [(POST, "magic_link::revoke_customer_app")]
  |> layer (Cors PublicCors).
Definition oauth_routes : Router :=
  router_new
  |> route "/oauth/auth-status" [(GET, "oauth::auth_status")]
  |> route "/oauth/authorize" [(GET, "oauth::authorize_get")]
  |> route "/oauth/authorize" [(POST, "oauth::authorize_post")]
  |> route "/oauth/token" [(POST, "oauth::token")]
  |> route "/oauth/poll" [(GET, "oauth::poll")]
  |> route "/oauth/connect" [(POST, "oauth::connect_post")]
  |> layer (Cors PublicCors).
Definition atproto_oauth_routes : Router :=
  router_new
  |> route "/atproto/oauth/par" [(POST, "atproto_oauth::par")]
  |> route "/atproto/oauth/authorize" [(GET, "atproto_oauth::authorize")]
  |> route "/atproto/oauth/token" [(POST, "atproto_oauth::token")]
  |> layer (Cors PublicCors).
Definition connect_routes : Router :=
  router_new
  |> route "/connect/*nostrconnect" [(GET, "oauth::connect_get")].
Definition signing_routes : Router :=
  router_new
  |> route "/user/sign" [(POST, "auth::sign_event")].
Definition nostr_rpc_routes : Router :=
  router_new
  |> route "/nostr" [(POST, "nostr_rpc::nostr_rpc")].
Definition user_routes : Router :=
  router_new
  |> route "/user/bunker" [(GET, "auth::get_bunker_url")]
  |> route "/user/pubkey" [(GET, "auth::get_pubkey")]
  |> route "/user/account" [(GET, "auth::get_account_status")]
  |> route "/user/profile" [(GET, "auth::get_profile")]
  |> route "/user/atproto/status" [(GET, "atproto::atproto_status")]
  |> route "/user/sessions" [(GET, "auth::list_sessions")]
  |> route "/user/permissions" [(GET, "auth::list_permissions")]
  |> route "/user/sessions/disconnect" [(POST, "auth::disconnect_client")]
  |> route "/user/atproto/enable" [(POST, "atproto::enable_atproto")]
  |> route "/user/atproto/disable" [(POST, "atproto::disable_atproto")]
  |> route "/user/verify-password" [(POST, "auth::verify_password_for_export")]
  |> route "/user/change-password" [(POST, "auth::change_password")]
  |> layer (Cors AuthCors).
Definition internal_service_routes : Router :=
  router_new
  |> route "/internal/atproto/state" [(POST, "atproto::internal_sync_atproto")].
Definition profile_update_routes : Router :=
  router_new
  |> route "/user/profile" [(POST, "auth::update_profile")]
  |> layer (Cors AuthCors).
Definition bunker_routes : Router :=
  router_new
  |> route "/user/bunker/create" [(POST, "auth::create_bunker")]
  |> route "/user/sessions/revoke" [(POST, "auth::revoke_session")]
  |> layer (Cors AuthCors).
Definition account_delete_route : Router :=
  router_new
  |> route "/user/account" [(DELETE, "auth::delete_account")].
Definition key_export_routes : Router :=
  router_new
  |> route "/user/export-key" [(POST, "auth::export_key")]
  |> layer (Cors AuthCors).
Definition change_key_route : Router :=
  router_new
  |> route "/user/change-key" [(POST, "auth::change_key")]
  |> layer (Cors AuthCors).
Definition discovery_route : Router :=
  router_new
  |> route "/.well-known/nostr.json" [(GET, "nostr_discovery_public")].
Definition policy_routes : Router :=
  router_new
  |> route "/policies" [(GET, "policies::list_policies")]
  |> route "/policies/:slug" [(GET, "policies::get_policy")].
Definition headless_routes : Router :=
  router_new
  |> route "/headless/register" [(POST, "headless::headless_register")]
  |> route "/headless/login" [(POST, "headless::headless_login")]
  |> route "/headless/authorize" [(POST, "headless::headless_authorize")].
Definition admin_routes : Router :=
  router_new
  |> route "/admin/status" [(GET, "admin::get_admin_status")]
  |> route "/admin/token" [(GET, "admin::get_admin_token")]
  |> route "/admin/preload-user" [(POST, "admin::preload_user")]
  |> route "/admin/user-token" [(POST, "admin::get_user_token")]
  |> route "/admin/claim-tokens" [(GET, "admin::get_claim_token"); (POST, "admin::create_claim_token")]
  |> route "/admin/claim-tokens/batch" [(POST, "admin::batch_create_claim_tokens")]
  |> route "/admin/claim-tokens/stats" [(GET, "admin::get_claim_token_stats")]
  |> route "/admin/user-lookup" [(GET, "admin::get_user_lookup")]
  |> route "/admin/user-teams" [(GET, "admin::get_user_teams")]
  |> route "/admin/team-lookup" [(GET, "admin::get_team_lookup")]
  |> route "/admin/team-names" [(GET, "admin::get_team_names")]
  |> route "/admin/teams/:id/members" [(GET, "admin::get_team_members")]
  |> route "/admin/authorizations/:id/revoke" [(POST, "admin::revoke_authorization")]
  |> route "/admin/teams/:id/support-access" [(POST, "admin::grant_team_support_access"); (DELETE, "admin::release_team_support_access")]
  |> route "/admin/support-admins" [(GET, "admin::list_support_admins"); (POST, "admin::add_support_admin")]
  |> route "/admin/support-admins/:pubkey" [(DELETE, "admin::remove_support_admin")]
  |> route "/admin/users/:pubkey" [(DELETE, "admin::delete_user")]
  |> route "/admin/customer-origins" [(GET, "admin::list_customer_origins"); (POST, "admin::add_customer_origin"); (DELETE, "admin::remove_customer_origin")]
  |> layer (Cors AuthCors).
Definition claim_routes : Router :=
  router_new
  |> route "/claim" [(GET, "claim::claim_get"); (POST, "claim::claim_post")].
Definition metrics_route : Router :=
  router_new
  |> route "/metrics" [(GET, "metrics::metrics")].
Definition docs_route : Router :=
  router_new
  |> route "/docs/openapi.json" [(GET, "openapi_spec")].
Definition team_routes : Router :=
  router_new
  |> route "/teams" [(GET, "teams::list_teams")]
  |> route "/teams" [(POST, "teams::create_team")]
  |> route "/teams/:id" [(GET, "teams::get_team")]
  |> route "/teams/:id" [(PUT, "teams::update_team")]
  |> route "/teams/:id" [(DELETE, "teams::delete_team")]
  |> route "/teams/:id/users" [(POST, "teams::add_user")]
  |> route "/teams/:id/users/:user_public_key" [(DELETE, "teams::remove_user")]
  |> route "/teams/:id/keys" [(POST, "teams::add_key")]
  |> route "/teams/:id/keys/:pubkey" [(GET, "teams::get_key")]
  |> route "/teams/:id/keys/:pubkey" [(DELETE, "teams::remove_key")]
  |> route "/teams/:id/keys/:pubkey/authorizations" [(POST, "teams::add_authorization")]
  |> route "/teams/:id/keys/:pubkey/authorizations/:auth_id" [(DELETE, "teams::delete_authorization")]
  |> route "/teams/:id/policies" [(POST, "teams::add_policy")]
  |> route "/teams/:id/invite" [(POST, "teams::invite_user")]
  |> route "/teams/:id/invitations" [(GET, "teams::list_invitations")]
  |> route "/teams/:id/invitations/:invitation_id" [(DELETE, "teams::revoke_invitation")].
Definition invitation_preview_route : Router :=
  router_new
  |> route "/invitations/preview" [(GET, "teams::preview_invitation")].
Definition invitation_accept_route : Router :=
  router_new
  |> route "/invitations/accept" [(POST, "teams::accept_invitation")].
Definition api_routes : Router :=
  router_new
  |> merge first_party_routes
  |> merge user_routes
  |> merge internal_service_routes
  |> merge profile_update_routes
  |> merge bunker_routes
  |> merge key_export_routes
  |> merge change_key_route
  |> merge logout_route
  |> merge (account_delete_route |> layer (Cors AuthCors))
  |> merge (verify_email_route |> layer (Cors PublicCors))
  |> merge (email_routes |> layer (Cors PublicCors))
  |> merge magic_link_routes
  |> merge oauth_routes
  |> merge atproto_oauth_routes
  |> merge (connect_routes |> layer (Cors PublicCors))
  |> merge (signing_routes |> layer (Cors PublicCors))
  |> merge (nostr_rpc_routes |> layer (Cors PublicCors))
  |> merge (team_routes |> layer (Cors AuthCors))
  |> merge (invitation_preview_route |> layer (Cors AuthCors))
  |> merge (invitation_accept_route |> layer (Cors AuthCors))
  |> merge (discovery_route |> layer (Cors PublicCors))
  |> merge (policy_routes |> layer (Cors PublicCors))
  |> merge (headless_routes |> layer (Cors PublicCors))
  |> merge admin_routes
  |> merge (claim_routes |> layer (Cors PublicCors))
  |> merge (metrics_route |> layer (Cors PublicCors))
  |> merge (docs_route |> layer (Cors PublicCors))
  |> fallback "api_not_found"
  |> layer TenantGuard.
End routes.

(** ** The table

    Routers as lists of endpoints; the first that serves a request gets it. *)
#[export] Instance list_axum : Axum := {
  Router := list endpoint;
  router_new := [];
  route p hs r := r ++ map (fun '(m, h) => {| ep_method := m; ep_path := p; ep_handler := h; ep_layers := [] |}) hs;
  layer l r := map (add_layer l) r;
  merge a r := r ++ a;
  fallback _ r := r;
  endpoints r := r;
  dispatch r m path := find_first (fun e => serves e m path) r;
}.
#[export] Instance list_axum_laws : AxumLaws.
Proof.
  split; try done; simpl.
  - intros r m path e H. by apply find_first_Some in H.
  - intros r m path e He Hs _. by apply (find_first_is_Some _ _ e).
Qed.
Definition api_table : list endpoint := api_routes (HA := list_axum).

Section dispatch.
Context `{HA : Axum, HL : !AxumLaws}.

Lemma endpoints_api : endpoints api_routes = api_table.
Proof.
  unfold api_routes, first_party_routes, logout_route, verify_email_route, email_routes, magic_link_routes, oauth_routes, atproto_oauth_routes,
    connect_routes, signing_routes, nostr_rpc_routes, user_routes, internal_service_routes, profile_update_routes, bunker_routes,
    account_delete_route, key_export_routes, change_key_route, discovery_route, policy_routes, headless_routes, admin_routes,
    claim_routes, metrics_route, docs_route, team_routes, invitation_preview_route, invitation_accept_route.
  repeat (rewrite ?endpoints_layer, ?endpoints_fallback, ?endpoints_merge, ?endpoints_route, ?endpoints_new). reflexivity.
Qed.

(** ** No two patterns match one path *)
Fixpoint separate (ps qs : list string) : bool :=
  match ps, qs with
  | [], [] => false
  | [], _ :: _ | _ :: _, [] => true
  | p :: ps', q :: qs' =>
      if is_wild p || is_wild q then false
      else (negb (is_param p) && negb (is_param q) && negb (bool_decide (p = q))) || separate ps' qs'
  end.
Lemma separate_sound ps qs ss : separate ps qs = true -> segments_match ps ss = true -> segments_match qs ss = false.
Proof.
  revert qs ss. induction ps as [|p ps IH]; intros [|q qs] [|s ss]; simpl; try done.
  destruct (is_wild p), (is_wild q); simpl; try done. intros [Hd|Hr]%orb_true_iff [Hp Hps]%andb_true_iff.
  - bool_to_prop. unfold segment_match in *. rewrite H1 in *. destruct (is_param p); [done|]. bool_to_prop. subst.
    by rewrite bool_decide_false.
  - rewrite (IH qs ss Hr Hps). by rewrite andb_false_r.
Qed.
(** Two endpoints with one pattern, or patterns that never match one path. *)
Definition apart (e e' : endpoint) : bool :=
  bool_decide (ep_path e = ep_path e') || separate (split "/" (ep_path e)) (split "/" (ep_path e')).
Definition unambiguous (l : list endpoint) : bool :=
  forallb (fun e => forallb (fun e' => apart e e' && (negb (bool_decide (ep_method e = ep_method e' /\ ep_path e = ep_path e')) || bool_decide (e = e'))) l) l.
Lemma api_unambiguous : unambiguous api_table = true.
Proof. vm_compute. reflexivity. Qed.
Lemma unambiguous_spec l e e' path :
  unambiguous l = true -> e ∈ l -> e' ∈ l -> path_match (ep_path e) path = true -> path_match (ep_path e') path = true ->
  ep_path e = ep_path e' /\ (ep_method e = ep_method e' -> e = e').
Proof.
  intros H He He' Hm Hm'. unfold unambiguous in H. rewrite forallb_elem in H. specialize (H e He). rewrite forallb_elem in H. specialize (H e' He').
  apply andb_true_iff in H as [Ha Hu]. assert (Hp : ep_path e = ep_path e').
  { unfold apart in Ha. apply orb_true_iff in Ha as [Ha|Ha]; [by apply bool_decide_eq_true in Ha|].
    unfold path_match in *. by rewrite (separate_sound _ _ _ Ha Hm) in Hm'. }
  split; [done|]. intros Hmt. apply orb_true_iff in Hu as [Hu|Hu]; [|by apply bool_decide_eq_true in Hu].
  rewrite bool_decide_true in Hu by done. done.
Qed.

(** A request reaches the handler of an endpoint exactly when the method and the
    path are that endpoint's: the order in which routes are added, and how the
    router ranks patterns, do not matter. *)
Theorem dispatch_exact m path e :
  dispatch api_routes m path = Some e <-> e ∈ api_table /\ serves e m path = true.
Proof.
  assert (Hone : forall e1 e2, e1 ∈ api_table -> e2 ∈ api_table -> serves e1 m path = true -> serves e2 m path = true -> e1 = e2).
  { intros e1 e2 H1 H2 [Hm1 Hp1]%andb_true_iff [Hm2 Hp2]%andb_true_iff. bool_to_prop.
    destruct (unambiguous_spec _ _ _ path api_unambiguous H1 H2 Hp1 Hp2) as [_ Hu]. apply Hu. congruence. }
  split.
  - intros H. apply dispatch_serves in H. by rewrite endpoints_api in H.
  - intros [He Hs]. destruct (dispatch_finds api_routes m path e) as [e' He']; [by rewrite endpoints_api|done| |].
    + intros e' Hin Hp. rewrite endpoints_api in Hin. apply andb_true_iff in Hs as [_ Hpe].
      by destruct (unambiguous_spec _ _ _ path api_unambiguous Hin He Hp Hpe).
    + rewrite He'. f_equal. apply dispatch_serves in He' as [Hin Hs']. rewrite endpoints_api in Hin. by apply Hone.
Qed.

(** ** The guard of the customer tenant *)
Definition guarded (env : tenant_env) (p : request_parts) (e : endpoint) : option endpoint :=
  if bool_decide (TenantGuard ∈ ep_layers e) then customer_tenant_guard env p None (fun _ => Some e) else Some e.
(** The endpoint whose handler a request reaches. *)
Definition reach (env : tenant_env) (m : method) (p : request_parts) : option endpoint :=
  e ← dispatch api_routes m (rp_path p); guarded env p e.

Definition customer_table : list endpoint := filter (fun e => ep_path e ∈ customer_routes) api_table.
Definition customer_handlers : list (method * string) :=
  [(POST, "magic_link::request_magic_link"); (POST, "magic_link::verify_magic_link"); (DELETE, "magic_link::delete_customer_account");
   (GET, "magic_link::list_customer_apps"); (POST, "magic_link::revoke_customer_app"); (POST, "nostr_rpc::nostr_rpc")].

Lemma api_guarded e : e ∈ api_table -> TenantGuard ∈ ep_layers e.
Proof.
  intros He. assert (H : forallb (fun e => bool_decide (TenantGuard ∈ ep_layers e)) api_table = true) by (vm_compute; reflexivity).
  rewrite forallb_elem in H. by eapply bool_decide_eq_true_1, H.
Qed.
(** The second segment of every pattern is text that does not start with "api". *)
Definition below_api (e : endpoint) : bool :=
  match split "/" (ep_path e) with
  | "" :: p :: _ => negb (is_wild p) && negb (is_param p) && negb (starts_with "api" p)
  | _ => false
  end.
Lemma split_prefix c a rest : contains_char c a = false -> exists x l, split c (a +:+ rest) = (a +:+ x) :: l.
Proof.
  induction a as [|b a IH]; simpl; intros H.
  - destruct (split c rest) as [|x l] eqn:E; [by apply split_nonempty in E|by exists x, l].
  - unfold contains_char in H. simpl in H. unfold starts_with in H. simpl in H. apply orb_false_iff in H as [Hb Ha].
    destruct (IH Ha) as (x & l & ->). exists x, l. rewrite bool_decide_false; [done|]. intros ->. by rewrite bool_decide_true in Hb.
Qed.
Lemma api_not_nested e rest : e ∈ api_table -> path_match (ep_path e) ("/api" +:+ rest) = false.
Proof.
  intros He. assert (H : forallb below_api api_table = true) by (vm_compute; reflexivity).
  rewrite forallb_elem in H. specialize (H e He). unfold below_api in H. unfold path_match.
  destruct (split "/" (ep_path e)) as [|p0 [|p ps]]; [done|by destruct p0|]. destruct p0; [|done]. bool_to_prop.
  destruct (split_prefix "/" "api" rest) as (s' & ss & Es); [reflexivity|].
  assert (Ea : split "/" ("/api" +:+ rest) = "" :: split "/" ("api" +:+ rest)) by reflexivity. rewrite Ea, Es. simpl.
  unfold is_wild, is_param in *. rewrite H. unfold segment_match, is_param. rewrite H1. apply andb_false_iff. left.
  apply bool_decide_eq_false. intros <-. apply not_true_iff_false in H0. apply H0. apply starts_with_spec. by exists s'.
Qed.
Lemma customer_path_endpoint path e : path ∈ customer_routes -> e ∈ api_table -> path_match (ep_path e) path = true -> ep_path e = path.
Proof.
  intros Hp He Hm. assert (H : forallb (fun path => forallb (fun e => negb (path_match (ep_path e) path) || bool_decide (ep_path e = path)) api_table)
    customer_routes = true) by (vm_compute; reflexivity).
  rewrite forallb_elem in H. specialize (H path Hp).
  rewrite forallb_elem in H. specialize (H e He). rewrite Hm in H. by apply bool_decide_eq_true in H.
Qed.
(** A pattern without parameters matches only itself. *)
Lemma static_match ps ss : forallb (fun p => negb (is_wild p) && negb (is_param p)) ps = true -> segments_match ps ss = true -> ss = ps.
Proof.
  revert ss. induction ps as [|p ps IH]; intros [|s ss]; simpl; try done. intros [Hp Hps]%andb_true_iff. bool_to_prop.
  rewrite H. intros [Hs Hr]%andb_true_iff. unfold segment_match in Hs. rewrite H0 in Hs. apply bool_decide_eq_true in Hs as ->. f_equal. by apply IH.
Qed.
Lemma customer_path_only path pattern : pattern ∈ customer_routes -> path_match pattern path = true -> path = pattern.
Proof.
  intros Hp Hm. assert (H : forallb (fun pat => forallb (fun p => negb (is_wild p) && negb (is_param p)) (split "/" pat)) customer_routes = true) by (vm_compute; reflexivity).
  rewrite forallb_elem in H. apply static_match in Hm; [|by apply H].
  rewrite <- (join_split "/" path), <- (join_split "/" pattern). by rewrite Hm.
Qed.

(** [C20] On the host of the customer tenant exactly the six customer handlers are
    reached, each at its own path. *)
Theorem customer_host_reaches env m p domain e :
  customer_tenant_domain env = Some domain -> request_domain p = Some domain ->
  (reach env m p = Some e <-> e ∈ customer_table /\ serves e m (rp_path p) = true) /\
  map (fun e => (ep_method e, ep_handler e)) customer_table = customer_handlers.
Proof.
  intros Hd Hr. split; [|vm_compute; reflexivity]. unfold reach. rewrite bind_Some.
  assert (Hg : forall e, e ∈ api_table -> guarded env p e =
    (if is_customer_route (default (rp_path p) (strip_prefix "/api" (rp_path p))) then Some e else None)).
  { intros e' He'. unfold guarded. rewrite bool_decide_true by (by apply api_guarded). unfold customer_tenant_guard. rewrite Hd, Hr.
    rewrite bool_decide_true by done. simpl. by destruct (is_customer_route _). }
  unfold customer_table. rewrite list_elem_of_filter. split.
  - intros (e' & [He' Hs]%dispatch_exact & H). rewrite Hg in H by done. destruct (is_customer_route _) eqn:Ec; [|done]. injection H as ->.
    apply andb_true_iff in Hs as Hs'. destruct Hs' as [_ Hpm]. destruct (strip_prefix "/api" (rp_path p)) as [rest|] eqn:Ep.
    + apply strip_prefix_Some in Ep. rewrite Ep, api_not_nested in Hpm by done. done.
    + simpl in Ec. unfold is_customer_route in Ec. apply bool_decide_eq_true in Ec. split; [|done]. split; [|done].
      by rewrite (customer_path_endpoint _ _ Ec He' Hpm).
  - intros [[Hc He] Hs]. exists e. split; [by apply dispatch_exact|]. rewrite Hg by done.
    apply andb_true_iff in Hs as [_ Hpm]. apply customer_path_only in Hpm; [|done]. rewrite Hpm. unfold is_customer_route.
    assert (H : forallb (fun path => bool_decide (strip_prefix "/api" path = None)) customer_routes = true) by (vm_compute; reflexivity).
    rewrite forallb_elem in H. specialize (H (ep_path e) Hc). apply bool_decide_eq_true in H.
    rewrite H. simpl. by rewrite bool_decide_true.
Qed.
End dispatch.

(** ** Origins

    The two policies of keycast/src/main.rs; [None] allows any origin, method.  The
    value of a header is its text, or [None] when it is not text. *)
Notation header_value := (option string).
Record CorsLayer : Type := {
  cl_allow_origin : option (header_value -> bool); cl_allow_methods : option (list string); cl_allow_headers : list string;
  cl_allow_credentials : bool; cl_max_age : Z;
}.
Definition auth_cors (allowed_origins : string) (allow_localhost : bool) : CorsLayer := {|
  cl_allow_origin := Some (fun origin => origin_is_allowed (default "" origin) allowed_origins allow_localhost);
  cl_allow_methods := Some ["POST"; "GET"; "OPTIONS"; "PUT"; "DELETE"]; cl_allow_headers := ["content-type"; "authorization"];
  cl_allow_credentials := true; cl_max_age := 86400 |}.
Definition public_cors : CorsLayer := {|
  cl_allow_origin := None; cl_allow_methods := None; cl_allow_headers := ["content-type"; "authorization"];
  cl_allow_credentials := false; cl_max_age := 86400 |}.

(** tower_http::cors: the headers Access-Control-Allow-Origin and
    Access-Control-Allow-Credentials a layer puts on the answer to a request with
    that Origin.  A layer for any origin answers with a star, one with a predicate
    repeats the origin when the predicate holds. *)
Class TowerCors := {
  allow_origin_header : CorsLayer -> header_value -> option header_value;
  allow_credentials_header : CorsLayer -> header_value -> bool;
}.
Class TowerCorsLaws `{TowerCors} : Prop := {
  any_origin l o : cl_allow_origin l = None -> allow_origin_header l o = Some (Some "*");
  predicate_origin l p o : cl_allow_origin l = Some p -> allow_origin_header l o = if p o then Some o else None;
  credentials_flag l o : allow_credentials_header l o = cl_allow_credentials l;
}.

Section origins.
Context `{HTw : TowerCors, HTC : !TowerCorsLaws}.
Variables (allowed_origins : string) (allow_localhost : bool).

Definition cors_of (c : cors_policy) : CorsLayer :=
  match c with AuthCors => auth_cors allowed_origins allow_localhost | PublicCors => public_cors end.
(** The two headers of an endpoint's answer, which its layers add in turn. *)
Definition add_cors (origin : header_value) (l : route_layer) (headers : option header_value * bool) : option header_value * bool :=
  match l with
  | TenantGuard => headers
  | Cors c => (allow_origin_header (cors_of c) origin, allow_credentials_header (cors_of c) origin)
  end.
Definition cors_headers (e : endpoint) (origin : header_value) : option header_value * bool :=
  foldr (add_cors origin) (None, false) (ep_layers e).

(** The endpoints any origin may call, without the user's cookies. *)
Definition public_paths : list string :=
  ["/auth/verify-email"; "/auth/forgot-password"; "/auth/reset-password"; "/auth/resend-verification"; "/auth/magic-link";
   "/auth/magic-link/verify"; "/customer/account"; "/customer/authorizations"; "/customer/authorizations/revoke";
   "/oauth/auth-status"; "/oauth/authorize"; "/oauth/token"; "/oauth/poll"; "/oauth/connect"; "/atproto/oauth/par";
   "/atproto/oauth/authorize"; "/atproto/oauth/token"; "/connect/*nostrconnect"; "/user/sign"; "/nostr";
   "/.well-known/nostr.json"; "/policies"; "/policies/:slug"; "/headless/register"; "/headless/login"; "/headless/authorize";
   "/claim"; "/metrics"; "/docs/openapi.json"].
Definition layers_ok (e : endpoint) : bool :=
  bool_decide (ep_layers e =
    if bool_decide (ep_path e = "/internal/atproto/state") then [TenantGuard]
    else if bool_decide (ep_path e ∈ public_paths) then [TenantGuard; Cors PublicCors]
    else [TenantGuard; Cors AuthCors]).
Lemma api_layers e : e ∈ api_table -> layers_ok e = true.
Proof. intros He. assert (H : forallb layers_ok api_table = true) by (vm_compute; reflexivity). rewrite forallb_elem in H. by apply H. Qed.

End origins.

(** ** Discovery

    GET /.well-known/nostr.json.  A header is absent, present, or present and not
    text. *)
Section discovery.
Context `{HN : Nostr, HS : !Serde, HU : Unicode, HT : TenantSerde}.
Record discovery_request : Type := {
  dr_name : option string; dr_forwarded_host : option (option string); dr_host : option (option string);
  dr_forwarded_proto : option (option string);
}.
Definition proto_of (q : discovery_request) (host : string) : string :=
  match dr_forwarded_proto q with
  | Some (Some proto) => proto
  | _ => if contains ":443" host || negb (contains ":" host) then "https" else "http"
  end.
Definition api_base_url (app_url vite_domain : option string) (q : discovery_request) : string :=
  match (match dr_forwarded_host q with Some h => Some h | None => dr_host q end) with
  | Some (Some host) => proto_of q host +:+ "://" +:+ host
  | _ => default "http://localhost:3000" (match app_url with Some u => Some u | None => vite_domain end)
  end.
(** The status, the content type, the allowed origin and the body. *)
Definition json_response (body : json) : Z * string * string * string := (200, "application/json", "*", json_to_string body).
Definition names_json (name pubkey : string) : json := JObject [("names", JObject [(name, JString pubkey)])].
Definition nip46_json (relay base : string) : json :=
  JObject [("nip46", JObject [("nostrconnect_url", JString (trim_end_char "/" base +:+ "/api/connect/<nostrconnect>")); ("relay", JString relay)])].
Definition nostr_discovery_public (env : tenant_env) (app_url vite_domain : option string) (tenant : Tenant) (q : discovery_request) (d : Db)
  : result (Z * string * string * string) tenant_failure :=
  match (name ← dr_name q; pubkey ← find_pubkey_by_username name (tn_id tenant) d; Some (name, pubkey)) with
  | Some (name, pubkey) => Ok (json_response (names_json name pubkey))
  | None =>
      let? relay := relay_url env tenant in
      Ok (json_response (nip46_json relay (api_base_url app_url vite_domain q)))
  end.

(** The document names a key only for a user of the tenant with that name. *)
Lemma discovery_names_tenant env app_url vite_domain tenant q d r :
  nostr_discovery_public env app_url vite_domain tenant q d = Ok r ->
  (exists name u, dr_name q = Some name /\ u ∈ db_users d /\ us_username u = Some name /\ us_tenant_id u = tn_id tenant /\
     r = json_response (names_json name (us_pubkey u))) \/
  exists relay, relay_url env tenant = Ok relay /\ r = json_response (nip46_json relay (api_base_url app_url vite_domain q)).
Proof.
  unfold nostr_discovery_public. destruct (name ← dr_name q; _) as [[name pubkey]|] eqn:E.
  - intros [= <-]. left. apply bind_Some in E as (n & Hn & (pk & Hpk & [= <- <-])%bind_Some). unfold find_pubkey_by_username in Hpk.
    apply fmap_Some_1 in Hpk as (u & Hu & ->). apply find_first_Some in Hu as [Hin Hp]. bool_to_prop. by exists n, u.
  - intros H. right. apply rbind_ok in H as (relay & Hr & [= <-]). by exists relay.
Qed.
End discovery.

(** ** Examples *)
Definition customer_env : tenant_env :=
  {| env_customer_domain := Some "orders.example"; env_allowed_domains := None; env_bunker_relays := Some "wss://relay.example" |}.
Definition nostr_request : request_parts := {| rp_host := Some "orders.example:443"; rp_uri_host := None; rp_path := "/nostr" |}.
Definition nostr_endpoint : endpoint :=
  {| ep_method := POST; ep_path := "/nostr"; ep_handler := "nostr_rpc::nostr_rpc"; ep_layers := [TenantGuard; Cors PublicCors] |}.
Lemma customer_host_reaches_witness : reach customer_env POST nostr_request = Some nostr_endpoint.
Proof.
  apply (customer_host_reaches customer_env POST nostr_request "orders.example" nostr_endpoint); [reflexivity|reflexivity|]. split.
  - refine (bool_decide_eq_true_1 (nostr_endpoint ∈ customer_table) _). vm_compute. reflexivity.
  - reflexivity.
Defined.

Definition profile_endpoint : endpoint :=
  {| ep_method := GET; ep_path := "/user/profile"; ep_handler := "auth::get_profile"; ep_layers := [TenantGuard; Cors AuthCors] |}.
#[export] Instance plain_cors : TowerCors := {
  allow_origin_header l o := match cl_allow_origin l with None => Some (Some "*") | Some p => if p o then Some o else None end;
  allow_credentials_header l _ := cl_allow_credentials l }.
#[export] Instance plain_cors_laws : TowerCorsLaws.
Proof. split; simpl; [by intros l o -> | by intros l p o -> | done]. Qed.
