(* ===== verification/Pages.v ===== *)
(** * The pages of the server, as text

    The HTML that api/src/api/http/oauth.rs and api/src/api/http/claim.rs write:
    choosing an account, approving an application, signing in, approving a
    nostr-login connection with its two answers, claiming an account, the page after
    it and the page of an error.  The values are the ones of the records of
    [OAuthPages] and [Claims]; the pages of oauth.rs take them as they are, those of
    claim.rs get them escaped by the handler.  A page is a list of pieces, line by
    line, with a tilde for every double quote. *)
From S2P Require Import Prelude RustStr External Instances OAuthPages Claims Emails.

Fixpoint tilde_quotes (s : string) : string :=
  match s with EmptyString => "" | String c s' => String (if bool_decide (c = "~"%char) then quote else c) (tilde_quotes s') end.
Definition page_text (lines : list string) : string := join new_line (map tilde_quotes lines).

(** ** Choosing an account *)
Definition choose_account_page (client_id identity_label : string) : list piece :=
  [Lit (page_text ["";
      "<!DOCTYPE html>";
      "<html>";
      "<head>";
      "    <meta charset=~UTF-8~>";
      "    <meta name=~viewport~ content=~width=device-width, initial-scale=1.0, maximum-scale=1.0, user-scalable=no~>";
      "    <title>Choose Account</title>";
      "    <link rel=~preconnect~ href=~https://fonts.googleapis.com~>";
      "    <link rel=~preconnect~ href=~https://fonts.gstatic.com~ crossorigin>";
      "    <link href=~https://fonts.googleapis.com/css2?family=Bricolage+Grotesque:wght@600;700&family=Inter:wght@400;500;600;700&display=swap~ rel=~stylesheet~>";
      "    <style>";
      "        :root {";
      "            --divine-green: #27C58B;";
      "            --divine-green-dark: #1AA575;";
      "            --bg: #F9F7F6;";
      "            --surface: hsl(0 0% 100%);";
      "            --border: hsl(214.3 31.8% 91.4%);";
      "            --text: hsl(222.2 84% 4.9%);";
      "            --text-secondary: hsl(215.4 16.3% 46.9%);";
      "            --muted: hsl(210 40% 96.1%);";
      "        }";
      "        * {";
      "            box-sizing: border-box;";
      "            margin: 0;";
      "            padding: 0;";
      "        }";
      "        body {";
      "            font-family: 'Inter', -apple-system, BlinkMacSystemFont, 'Segoe UI', sans-serif;";
      "            background: var(--bg);";
      "            color: var(--text);";
      "            min-height: 100vh;";
      "            display: flex;";
      "            align-items: center;";
      "            justify-content: center;";
      "            padding: 1rem;";
      "        }";
      "        .container {";
      "            width: 100%;";
      "            max-width: 420px;";
      "        }";
      "        .header {";
      "            text-align: center;";
      "            margin-bottom: 1.5rem;";
      "        }";
      "        .header h1 {";
      "            font-family: 'Bricolage Grotesque', system-ui, sans-serif;";
      "            font-size: 1.75rem;";
      "            margin-bottom: 0.5rem;";
      "        }";
      "        .header p {";
      "            color: var(--text-secondary);";
      "            line-height: 1.5;";
      "        }";
      "        .card {";
      "            background: var(--surface);";
      "            border: 1px solid var(--border);";
      "            border-radius: 16px;";
      "            padding: 1.5rem;";
      "            box-shadow: 0 18px 60px rgba(11, 18, 32, 0.08);";
      "        }";
      "        .account {";
      "            border: 1px solid var(--border);";
      "            border-radius: 14px;";
      "            padding: 1rem;";
      "            margin-bottom: 1rem;";
      "        }";
      "        .account-label {";
      "            font-size: 0.8rem;";
      "            color: var(--text-secondary);";
      "            margin-bottom: 0.35rem;";
      "        }";
      "        .account-value {";
      "            font-size: 1rem;";
      "            font-weight: 600;";
      "            word-break: break-word;";
      "        }";
      "        .app-context {";
      "            color: var(--text-secondary);";
      "            font-size: 0.9rem;";
      "            line-height: 1.5;";
      "            margin-bottom: 1rem;";
      "        }";
      "        .actions {";
      "            display: flex;";
      "            flex-direction: column;";
      "            gap: 0.75rem;";
      "        }";
      "        button {";
      "            width: 100%;";
      "            border: none;";
      "            border-radius: 9999px;";
      "            padding: 0.9rem 1.1rem;";
      "            font-size: 0.95rem;";
      "            font-weight: 600;";
      "            cursor: pointer;";
      "        }";
      "        .continue {";
      "            background: var(--divine-green);";
      "            color: white;";
      "        }";
      "        .switch {";
      "            background: var(--muted);";
      "            color: var(--text);";
      "            border: 1px solid var(--border);";
      "        }";
      "    </style>";
      "</head>";
      "<body>";
      "    <div class=~container~>";
      "        <div class=~header~>";
      "            <h1>Choose an account</h1>";
      "            <p>"]);
   Plain client_id;
   Lit (page_text [" wants to connect to your Keycast account. Confirm which account you want to use before reviewing access.</p>";
      "        </div>";
      "        <div class=~card~>";
      "            <div class=~account~>";
      "                <div class=~account-label~>Signed in as</div>";
      "                <div class=~account-value~>"]);
   Plain identity_label;
   Lit (page_text ["</div>";
      "            </div>";
      "            <p class=~app-context~>You’re already signed in on this browser, but this app hasn’t been authorized yet.</p>";
      "            <div class=~actions~>";
      "                <button type=~button~ class=~continue~ onclick=~continueAsCurrentAccount()~>Continue as</button>";
      "                <button type=~button~ class=~switch~ onclick=~useDifferentAccount()~>Use a different account</button>";
      "            </div>";
      "        </div>";
      "    </div>";
      "    <script>";
      "        function continueAsCurrentAccount() {";
      "            const url = new URL(window.location.href);";
      "            url.searchParams.set('screen', 'consent');";
      "            window.location.href = url.toString();";
      "        }";
      "";
      "        async function useDifferentAccount() {";
      "            await fetch('/api/auth/logout', {";
      "                method: 'POST',";
      "                credentials: 'include',";
      "            });";
      "";
      "            const url = new URL(window.location.href);";
      "            url.searchParams.delete('screen');";
      "            window.location.href = url.toString();";
      "        }";
      "    </script>";
      "</body>";
      "</html>";
      "        "])].
(** ** Approving an application *)
Definition approval_style_1 (v : approval_values) : list piece :=
  [Lit (page_text ["";
      "<!DOCTYPE html>";
      "<html>";
      "<head>";
      "    <meta charset=~UTF-8~>";
      "    <meta name=~viewport~ content=~width=device-width, initial-scale=1.0, maximum-scale=1.0, user-scalable=no~>";
      "    <title>Authorize "]);
   Plain (av_client_id v);
   Lit (page_text ["</title>";
      "    <link rel=~preconnect~ href=~https://fonts.googleapis.com~>";
      "    <link rel=~preconnect~ href=~https://fonts.gstatic.com~ crossorigin>";
      "    <link href=~https://fonts.googleapis.com/css2?family=Bricolage+Grotesque:wght@600;700;800&family=Inter:wght@400;500;600;700&display=swap~ rel=~stylesheet~>";
      "    <style>";
      "        :root {";
      "            --divine-green: #27C58B;";
      "            --divine-green-dark: #1AA575;";
      "            --bg: #F9F7F6;";
      "            --surface: hsl(0 0% 100%);";
      "            --border: hsl(214.3 31.8% 91.4%);";
      "            --text: hsl(222.2 84% 4.9%);";
      "            --text-secondary: hsl(215.4 16.3% 46.9%);";
      "            --muted: hsl(210 40% 96.1%);";
      "        }";
      "        @media (prefers-color-scheme: dark) {";
      "            :root {";
      "                --bg: #072218;";
      "                --surface: #0F2E23;";
      "                --border: #1C4033;";
      "                --text: hsl(210 40% 98%);";
      "                --text-secondary: hsl(215 20.2% 65.1%);";
      "                --muted: #0F2E23;";
      "            }";
      "        }";
      "        * {";
      "            box-sizing: border-box;";
      "            margin: 0;";
      "            padding: 0;";
      "        }";
      "        body {";
      "            font-family: 'Inter', -apple-system, BlinkMacSystemFont, 'Segoe UI', Roboto, sans-serif;";
      "            background: var(--bg);";
      "            color: var(--text);";
      "            min-height: 100vh;";
      "            display: flex;";
      "            align-items: center;";
      "            justify-content: center;";
      "            padding: 1rem;";
      "        }";
      "        .container {";
      "            width: 100%;";
      "            max-width: 420px;";
      "        }";
      "        .header {";
      "            text-align: center;";
      "            margin-bottom: 2rem;";
      "        }";
      "        .logo {";
      "            display: inline-flex;";
      "            flex-direction: column;";
      "            align-items: center;";
      "            gap: 2px;";
      "            margin-bottom: 1rem;";
      "        }";
      "        .logo img {";
      "            height: 28px;";
      "        }";
      "        .logo .logo-sub {";
      "            font-family: 'Inter', system-ui, sans-serif;";
      "            font-weight: 500;";
      "            font-size: 11px;";
      "            letter-spacing: 3px;";
      "            text-transform: uppercase;";
      "            color: var(--divine-green);";
      "            opacity: 0.6;";
      "        }";
      "        .header h1 {";
      "            font-family: 'Bricolage Grotesque', system-ui, sans-serif;";
      "            font-size: 1.5rem;";
      "            font-weight: 600;";
      "            color: var(--text);";
      "            margin-bottom: 0.25rem;";
      "        }";
      "        .header p {";
      "            color: var(--text-secondary);";
      "            font-size: 0.9rem;";
      "        }";
      "        .user-identity {";
      "            display: flex;";
      "            align-items: center;";
      "            justify-content: center;";
      "            gap: 0.5rem;";
      "            margin-top: 0.5rem;";
      "        }";
      "        .user-avatar {";
      "            width: 24px;";
      "            height: 24px;";
      "            border-radius: 50%;";
      "            object-fit: cover;";
      "        }";
      "        .card {";
      "            background: var(--surface);";
      "            border: 1px solid var(--border);";
      "            border-radius: 16px;";
      "            padding: 1.5rem;";
      "        }";
      "        .app_header {";
      "            display: flex;";
      "            align-items: center;";
      "            gap: 1rem;";
      "            padding-bottom: 1rem;";
      "            border-bottom: 1px solid var(--border);";
      "            margin-bottom: 1rem;";
      "        }";
      "        .app_icon {";
      "            width: 48px;";
      "            height: 48px;";
      "            background: var(--divine-green);";
      "            border-radius: 12px;";
      "            display: flex;";
      "            align-items: center;";
      "            justify-content: center;";
      "            font-size: 1.25rem;";
      "            color: white;";
      "            flex-shrink: 0;";
      "        }";
      "        .app_info h2 {";
      "            font-size: 0.8rem;";
      "            font-weight: 500;";
      "            color: var(--text-secondary);";
      "            margin-bottom: 0.125rem;";
      "        }";
      "        .app_domain {";
      "            font-size: 1rem;";
      "            font-weight: 600;";
      "            color: var(--text);";
      "        }";
      "        .session_notice {";
      "            display: flex;";
      "            align-items: center;";
      "            justify-content: space-between;";
      "            gap: 1rem;";
      "            padding: 0.9rem 1rem;";
      "            margin-bottom: 1rem;";
      "            border: 1px solid var(--border);";
      "            border-radius: 12px;";
      "            background: color-mix(in srgb, var(--divine-green) 8%, var(--surface));";
      "        }";
      ""])].
Definition approval_style_2 : list piece :=
  [Lit (page_text ["        .session_label {";
      "            display: block;";
      "            font-size: 0.75rem;";
      "            font-weight: 600;";
      "            letter-spacing: 0.04em;";
      "            text-transform: uppercase;";
      "            color: var(--text-secondary);";
      "            margin-bottom: 0.2rem;";
      "        }";
      "        .session_identity {";
      "            font-size: 0.95rem;";
      "            font-weight: 600;";
      "            color: var(--text);";
      "            word-break: break-word;";
      "        }";
      "        .switch_account {";
      "            flex: 0 0 auto;";
      "            background: transparent;";
      "            border: 1px solid var(--border);";
      "            color: var(--text);";
      "            padding: 0.7rem 0.95rem;";
      "        }";
      "        .switch_account:hover {";
      "            background: var(--muted);";
      "        }";
      "        .permissions_list {";
      "            margin-bottom: 1rem;";
      "        }";
      "        .permission_item {";
      "            display: flex;";
      "            align-items: center;";
      "            gap: 0.75rem;";
      "            padding: 0.75rem 0;";
      "        }";
      "        .permission_icon {";
      "            width: 36px;";
      "            height: 36px;";
      "            background: color-mix(in srgb, var(--divine-green) 15%, transparent);";
      "            border-radius: 8px;";
      "            display: flex;";
      "            align-items: center;";
      "            justify-content: center;";
      "            font-size: 1rem;";
      "            flex-shrink: 0;";
      "        }";
      "        .permission_content {";
      "            flex: 1;";
      "        }";
      "        .permission_content h3 {";
      "            font-size: 0.9rem;";
      "            font-weight: 500;";
      "            color: var(--text);";
      "            margin-bottom: 0.125rem;";
      "        }";
      "        .permission_content p {";
      "            font-size: 0.8rem;";
      "            color: var(--text-secondary);";
      "            line-height: 1.4;";
      "        }";
      "        .disclaimer {";
      "            font-size: 0.75rem;";
      "            color: var(--text-secondary);";
      "            margin-bottom: 1.5rem;";
      "            line-height: 1.5;";
      "            text-align: center;";
      "        }";
      "        .disclaimer a {";
      "            color: var(--divine-green);";
      "            text-decoration: none;";
      "        }";
      "        .disclaimer a:hover {";
      "            text-decoration: underline;";
      "        }";
      "        .buttons {";
      "            display: flex;";
      "            gap: 0.75rem;";
      "        }";
      "        button {";
      "            flex: 1;";
      "            padding: 0.875rem 1.25rem;";
      "            border-radius: 9999px;";
      "            font-size: 0.9rem;";
      "            font-weight: 600;";
      "            cursor: pointer;";
      "            transition: all 0.2s;";
      "            border: none;";
      "        }";
      "        .btn_deny {";
      "            background: var(--muted);";
      "            color: var(--text);";
      "            border: 1px solid var(--border);";
      "        }";
      "        .btn_deny:hover {";
      "            background: var(--border);";
      "        }";
      "        .btn_approve {";
      "            background: var(--divine-green);";
      "            color: #fff;";
      "        }";
      "        .btn_approve:hover {";
      "            background: var(--divine-green-dark);";
      "        }";
      "        #npub_fallback {";
      "            display: none;";
      "        }";
      "        .nostr-link {";
      "            color: var(--divine-green);";
      "            text-decoration: none;";
      "        }";
      "        .nostr-link:hover {";
      "            text-decoration: underline;";
      "        }";
      "        /* Mobile: reduce padding for more working area */";
      "        @media (max-width: 480px) {";
      "            body {";
      "                padding: 0.5rem;";
      "            }";
      "            .header {";
      "                margin-bottom: 1rem;";
      "            }";
      "            .card {";
      "                padding: 1rem;";
      "                border-radius: 0.75rem;";
      "            }";
      "            .app_header {";
      "                padding-bottom: 0.75rem;";
      "                margin-bottom: 0.75rem;";
      "            }";
      "            .logo {";
      "                margin-bottom: 0.75rem;";
      "            }";
      "        }";
      "    </style>";
      ""])].
Definition approval_body (v : approval_values) : list piece :=
  [Lit (page_text ["</head>";
      "<body>";
      "    <div class=~container~>";
      "        <div class=~header~>";
      "            <div class=~logo~>";
      "                <img src=~/synvya-logo.svg~ alt=~Synvya~ />";
      "                <span class=~logo-sub~>Login</span>";
      "            </div>";
      "            <h1>Authorize App</h1>";
      "            <p>Grant access to <span class=~user-identity~><img id=~user_avatar~ class=~user-avatar~ /><span id=~display_name~>your account</span></span></p>";
      "        </div>";
      "";
      "        <div class=~card~>";
      "            <div class=~app_header~>";
      "                <div class=~app_icon~>";
      "                    <span id=~app_icon_letter~>"]);
   Plain (av_icon v);
   Lit (page_text ["</span>";
      "                </div>";
      "                <div class=~app_info~>";
      "                    <div class=~app_domain~ id=~app_domain~></div>";
      "                    <h2 id=~app_name~>"]);
   Plain (av_client_id v);
   Lit (page_text ["</h2>";
      "                </div>";
      "            </div>";
      "";
      "            <div class=~session_notice~>";
      "                <div class=~session_copy~>";
      "                    <span class=~session_label~>Signed in as</span>";
      "                    <div class=~session_identity~>"]);
   Plain (av_identity v);
   Lit (page_text ["</div>";
      "                </div>";
      "                <button type=~button~ class=~switch_account~ onclick=~useDifferentAccount()~>Use a different account</button>";
      "            </div>";
      "";
      "            <div class=~permissions_list~ id=~permissions_list~>";
      "                <!-- Permissions will be populated by JavaScript -->";
      "            </div>";
      "";
      "            <p class=~disclaimer~>";
      "                By authorizing, you agree to Synvya's <a href=~https://divine.video/terms~ target=~_blank~>terms</a> and <a href=~https://divine.video/privacy~ target=~_blank~>privacy policy</a>.";
      "            </p>";
      "";
      "            <div class=~buttons~>";
      "                <button class=~btn_deny~ onclick=~deny()~>Deny</button>";
      "                <button class=~btn_approve~ onclick=~approve()~>Authorize</button>";
      "            </div>";
      "        </div>";
      "    </div>";
      "";
      "    <div id=~npub_fallback~>"]);
   Plain (av_npub v);
   Lit (page_text ["</div>";
      "";
      ""])].
Definition approval_script_1 (v : approval_values) : list piece :=
  [Lit (page_text ["    <script>";
      "        const clientId = '"]);
   Plain (av_client_id v);
   Lit (page_text ["';";
      "        const redirectUri = '"]);
   Plain (av_redirect_uri v);
   Lit (page_text ["';";
      "        const scope = '"]);
   Plain (av_scope v);
   Lit (page_text ["';";
      "        const codeChallenge = '"]);
   Plain (av_code_challenge v);
   Lit (page_text ["';";
      "        const codeChallengeMethod = '"]);
   Plain (av_code_challenge_method v);
   Lit (page_text ["';";
      "        const oauthState = '"]);
   Plain (av_state v);
   Lit (page_text ["';";
      "        const userPubkey = '"]);
   Plain (av_pubkey v);
   Lit (page_text ["';";
      "        const userEmail = '"]);
   Plain (av_email v);
   Lit (page_text ["';";
      "        const policyInfo = "]);
   Plain (av_policy_info v);
   Lit (page_text [";";
      "";
      "        // Build permissions list from policy info";
      "        function buildPermissionsList() {";
      "            const container = document.getElementById('permissions_list');";
      "";
      "            // If we have policy permissions from the server, use them";
      "            if (policyInfo.permissions && policyInfo.permissions.length > 0) {";
      "                policyInfo.permissions.forEach(perm => {";
      "                    const item = document.createElement('div');";
      "                    item.className = 'permission_item';";
      "                    item.innerHTML = `";
      "                        <div class=~permission_icon~>${perm.icon}</div>";
      "                        <div class=~permission_content~>";
      "                            <h3>${perm.title}</h3>";
      "                            <p>${perm.description}</p>";
      "                        </div>";
      "                    `;";
      "                    container.appendChild(item);";
      "                });";
      "            } else {";
      "                // Fallback for policy not found - show generic permission";
      "                const item = document.createElement('div');";
      "                item.className = 'permission_item';";
      "                item.innerHTML = `";
      "                    <div class=~permission_icon~>🔐</div>";
      "                    <div class=~permission_content~>";
      "                        <h3>App Access</h3>";
      "                        <p>Grant this application access to your account</p>";
      "                    </div>";
      "                `;";
      "                container.appendChild(item);";
      "            }";
      "        }";
      "";
      "        // Extract first letter for app icon";
      "        function setAppIcon() {";
      "            const name = clientId.replace(/[-_]/g, ' ');";
      "            const firstLetter = name.charAt(0).toUpperCase();";
      "            document.getElementById('app_icon_letter').textContent = firstLetter;";
      "        }";
      "";
      "        // Extract and display domain from redirect URI";
      "        function setAppDomain() {";
      "            try {";
      "                const url = new URL(redirectUri);";
      "                document.getElementById('app_domain').textContent = url.host;";
      "            } catch (e) {";
      "                // Invalid URL, hide domain";
      "                document.getElementById('app_domain').style.display = 'none';";
      "            }";
      "        }";
      "";
      "        function mediaNostrBandUrl(hexPubkey) {";
      "            const last4 = hexPubkey.slice(-4);";
      "            return 'https://media.nostr.band/thumbs/' + last4 + '/' + hexPubkey + '-picture-64';";
      "        }";
      "";
      "        function setIdentity(name, pictureUrl) {";
      "            if (name) {";
      "                document.getElementById('display_name').textContent = name;";
      "            }";
      "            const avatar = document.getElementById('user_avatar');";
      "            if (pictureUrl) {";
      "                avatar.src = pictureUrl;";
      "                avatar.onerror = function() {";
      "                    // Try media.nostr.band as second attempt, then robohash";
      "                    if (!this.dataset.triedMediaBand) {";
      "                        this.dataset.triedMediaBand = '1';";
      "                        this.src = mediaNostrBandUrl(userPubkey);";
      "                    } else {";
      "                        this.onerror = null;";
      "                        this.src = 'https://robohash.org/' + userPubkey + '?set=set4&size=48x48';";
      "                    }";
      "                };";
      "            }";
      "        }";
      "";
      "        function getCachedProfile() {";
      "            try {";
      "                const raw = localStorage.getItem('nostr_profile_' + userPubkey);";
      "                if (!raw) return null;";
      "                const cached = JSON.parse(raw);";
      "                const age = Date.now() - cached.fetched_at;";
      "                cached._stale = age > 24 * 60 * 60 * 1000;";
      "                return cached;";
      "            } catch (e) {}";
      "            return null;";
      "        }";
      "";
      "        function cacheProfile(profile) {";
      "            try {";
      "                localStorage.setItem('nostr_profile_' + userPubkey, JSON.stringify({";
      "                    name: profile.name || null,";
      "                    display_name: profile.display_name || null,";
      "                    picture: profile.picture || null,";
      "                    fetched_at: Date.now()";
      "                }));";
      "            } catch (e) {}";
      "        }";
      "";
      "        async function fetchProfile() {";
      "            const last4 = userPubkey.slice(-4);";
      "            const url = 'https://media.nostr.band/thumbs/' + last4 + '/' + userPubkey + '.json';";
      "            try {";
      "                const res = await fetch(url, { signal: AbortSignal.timeout(5000) });";
      "                if (!res.ok) return null;";
      "                return await res.json();";
      "            } catch (e) {";
      "                console.warn('Could not load profile:', e);";
      "            }";
      "            return null;";
      "        }";
      "";
      "        async function loadProfile() {";
      "            console.log('Authorizing as:', document.getElementById('npub_fallback').textContent);";
      "";
      "            // 1. Show cached profile immediately (even if stale)";
      "            const cached = getCachedProfile();";
      "            if (cached) {";
      "                const name = cached.display_name || cached.name;";
      "                setIdentity(name || userEmail || 'your account', cached.picture);";
      "                if (!cached._stale) return; // Fresh cache, no relay fetch needed";
      "            } else {";
      "                // No cache: show email + media.nostr.band avatar while fetching";
      "                setIdentity(userEmail || 'your account', mediaNostrBandUrl(userPubkey));";
      "            }";
      "";
      ""])].
Definition approval_script_2 : list piece :=
  [Lit (page_text ["            // 2. Background fetch (stale cache or no cache)";
      "            const profile = await fetchProfile();";
      "            if (profile) {";
      "                cacheProfile(profile);";
      "                const displayName = profile.display_name || profile.name;";
      "                if (displayName || profile.picture) {";
      "                    setIdentity(displayName || userEmail || 'your account', profile.picture);";
      "                }";
      "            } else if (!cached) {";
      "                // No relay result and no cache: store empty to avoid hammering relays";
      "                cacheProfile({});";
      "            }";
      "        }";
      "";
      "        // Initialize on page load";
      "        window.addEventListener('load', () => {";
      "            buildPermissionsList();";
      "            setAppIcon();";
      "            setAppDomain();";
      "            loadProfile();";
      "        });";
      "";
      "        async function approve() {";
      "            try {";
      "                const response = await fetch('/api/oauth/authorize', {";
      "                    method: 'POST',";
      "                    headers: {";
      "                        'Content-Type': 'application/json',";
      "                    },";
      "                    credentials: 'include',";
      "                    body: JSON.stringify({";
      "                        client_id: clientId,";
      "                        redirect_uri: redirectUri,";
      "                        scope: scope,";
      "                        approved: true,";
      "                        code_challenge: codeChallenge || undefined,";
      "                        code_challenge_method: codeChallengeMethod || undefined";
      "                    })";
      "                });";
      "";
      "                const data = await response.json();";
      "                if (data.code) {";
      "                    let url = `${redirectUri}?code=${data.code}`;";
      "                    if (oauthState) url += `&state=${encodeURIComponent(oauthState)}`;";
      "                    window.location.href = url;";
      "                } else {";
      "                    alert('Error: ' + (data.error || 'Unknown error'));";
      "                }";
      "            } catch (e) {";
      "                alert('Request failed: ' + e.message);";
      "            }";
      "        }";
      "";
      "        async function useDifferentAccount() {";
      "            await fetch('/api/auth/logout', {";
      "                method: 'POST',";
      "                credentials: 'include',";
      "            });";
      "";
      "            const url = new URL(window.location.href);";
      "            url.searchParams.delete('screen');";
      "            window.location.href = url.toString();";
      "        }";
      "";
      "        function deny() {";
      "            let url = `${redirectUri}?error=access_denied`;";
      "            if (oauthState) url += `&state=${encodeURIComponent(oauthState)}`;";
      "            window.location.href = url;";
      "        }";
      "    </script>";
      "</body>";
      "</html>";
      "        "])].
Definition approval_page (v : approval_values) : list piece :=
  approval_style_1 v ++ approval_style_2 ++ approval_body v ++ approval_script_1 v ++ approval_script_2.
(** ** Signing in *)
Definition login_style_1 : list piece :=
  [Lit (page_text ["";
      "<!DOCTYPE html>";
      "<html>";
      "<head>";
      "    <meta charset=~UTF-8~>";
      "    <meta name=~viewport~ content=~width=device-width, initial-scale=1.0, maximum-scale=1.0, user-scalable=no~>";
      "    <title>Sign in - Synvya Login</title>";
      "    <link rel=~preconnect~ href=~https://fonts.googleapis.com~>";
      "    <link rel=~preconnect~ href=~https://fonts.gstatic.com~ crossorigin>";
      "    <link href=~https://fonts.googleapis.com/css2?family=Inter:wght@400;500;600;700&family=Bricolage+Grotesque:wght@600;700&display=swap~ rel=~stylesheet~>";
      "    <style>";
      "        :root {";
      "            --divine-green: #27C58B;";
      "            --divine-green-dark: #1AA575;";
      "            --divine-green-light: #D0FBCB;";
      "            --divine-purple: #8B5CF6;";
      "            --bg: #F9F7F6;";
      "            --surface: hsl(0 0% 100%);";
      "            --border: hsl(214.3 31.8% 91.4%);";
      "            --text: hsl(222.2 84% 4.9%);";
      "            --text-secondary: hsl(215.4 16.3% 46.9%);";
      "            --muted: hsl(210 40% 96.1%);";
      "            --error: #EF4444;";
      "            --shadow-sm: 0 2px 8px rgba(39, 197, 139, 0.08);";
      "            --shadow-md: 0 4px 16px rgba(39, 197, 139, 0.12);";
      "        }";
      "        @media (prefers-color-scheme: dark) {";
      "            :root {";
      "                --bg: #072218;";
      "                --surface: #0F2E23;";
      "                --border: #1C4033;";
      "                --text: hsl(210 40% 98%);";
      "                --text-secondary: hsl(215 20.2% 65.1%);";
      "                --muted: #0F2E23;";
      "            }";
      "        }";
      "        * {";
      "            box-sizing: border-box;";
      "            margin: 0;";
      "            padding: 0;";
      "        }";
      "        body {";
      "            font-family: 'Inter', -apple-system, BlinkMacSystemFont, 'Segoe UI', Roboto, sans-serif;";
      "            background: var(--bg);";
      "            color: var(--text);";
      "            min-height: 100vh;";
      "            display: flex;";
      "            align-items: center;";
      "            justify-content: center;";
      "            padding: 1rem;";
      "            -webkit-font-smoothing: antialiased;";
      "        }";
      "        .container {";
      "            width: 100%;";
      "            max-width: 420px;";
      "        }";
      "        .header {";
      "            text-align: center;";
      "            margin-bottom: 2rem;";
      "        }";
      "        .logo {";
      "            display: flex;";
      "            flex-direction: column;";
      "            align-items: center;";
      "            justify-content: center;";
      "            gap: 2px;";
      "            margin-bottom: 1.5rem;";
      "        }";
      "        .logo img {";
      "            height: 28px;";
      "        }";
      "        .logo .logo-sub {";
      "            font-family: 'Inter', system-ui, sans-serif;";
      "            font-weight: 500;";
      "            font-size: 11px;";
      "            letter-spacing: 3px;";
      "            text-transform: uppercase;";
      "            color: var(--divine-green);";
      "            opacity: 0.6;";
      "        }";
      "        .header h1 {";
      "            font-family: 'Bricolage Grotesque', system-ui, sans-serif;";
      "            font-size: 1.75rem;";
      "            font-weight: 700;";
      "            color: var(--text);";
      "            margin-bottom: 0.5rem;";
      "            letter-spacing: -0.02em;";
      "        }";
      "        .header p {";
      "            color: var(--text-secondary);";
      "            font-size: 0.95rem;";
      "        }";
      "        .card {";
      "            background: var(--surface);";
      "            border: 1px solid var(--border);";
      "            border-radius: 1rem;";
      "            padding: 1.5rem;";
      "            box-shadow: var(--shadow-sm);";
      "        }";
      "        .app_header {";
      "            display: flex;";
      "            align-items: center;";
      "            gap: 0.875rem;";
      "            padding-bottom: 1.25rem;";
      "            border-bottom: 1px solid var(--border);";
      "            margin-bottom: 1.25rem;";
      "        }";
      "        .app_icon {";
      "            width: 44px;";
      "            height: 44px;";
      "            background: var(--divine-green);";
      "            border-radius: 12px;";
      "            display: flex;";
      "            align-items: center;";
      "            justify-content: center;";
      "            font-size: 1.25rem;";
      "            font-weight: 600;";
      "            color: white;";
      "            flex-shrink: 0;";
      "        }";
      "        .app_info h2 {";
      "            font-size: 0.8rem;";
      "            font-weight: 500;";
      "            color: var(--text-secondary);";
      "            margin-bottom: 0.125rem;";
      "        }";
      "        .app_domain {";
      "            font-size: 1rem;";
      "            font-weight: 600;";
      "            color: var(--text);";
      "        }";
      "        .form_group {";
      "            margin-bottom: 1rem;";
      "        }";
      "        label {";
      "            display: block;";
      "            margin-bottom: 0.375rem;";
      "            font-size: 0.875rem;";
      "            color: var(--text-secondary);";
      "            font-weight: 500;";
      "        }";
      ""])].
Definition login_style_2 : list piece :=
  [Lit (page_text ["        input {";
      "            width: 100%;";
      "            padding: 0.75rem 1rem;";
      "            border: 1px solid var(--border);";
      "            border-radius: 0.5rem;";
      "            background: var(--muted);";
      "            color: var(--text);";
      "            font-size: 1rem;";
      "            transition: border-color 0.2s, box-shadow 0.2s;";
      "        }";
      "        input:focus {";
      "            outline: none;";
      "            border-color: var(--divine-green);";
      "            box-shadow: 0 0 0 2px rgba(39, 197, 139, 0.2);";
      "        }";
      "        input::placeholder {";
      "            color: var(--text-secondary);";
      "            opacity: 0.6;";
      "        }";
      "        .btn_primary {";
      "            width: 100%;";
      "            padding: 0.75rem 1.5rem;";
      "            border-radius: 9999px;";
      "            font-size: 1rem;";
      "            font-weight: 600;";
      "            cursor: pointer;";
      "            transition: all 0.2s;";
      "            border: none;";
      "            background: var(--divine-green);";
      "            color: white;";
      "            margin-top: 0.5rem;";
      "        }";
      "        .btn_primary:hover {";
      "            background: var(--divine-green-dark);";
      "            box-shadow: var(--shadow-sm);";
      "        }";
      "        .btn_primary:disabled {";
      "            opacity: 0.5;";
      "            cursor: not-allowed;";
      "        }";
      "        .form_view {";
      "            display: none;";
      "        }";
      "        .form_view.active {";
      "            display: block;";
      "            animation: fadeIn 0.3s ease;";
      "        }";
      "        @keyframes fadeIn {";
      "            from { opacity: 0; transform: translateY(5px); }";
      "            to { opacity: 1; transform: translateY(0); }";
      "        }";
      "        .toggle_link {";
      "            text-align: center;";
      "            margin-top: 1rem;";
      "            font-size: 0.875rem;";
      "            color: var(--text-secondary);";
      "        }";
      "        .toggle_link a {";
      "            color: var(--divine-green);";
      "            text-decoration: none;";
      "            cursor: pointer;";
      "            font-weight: 500;";
      "        }";
      "        .toggle_link a:hover {";
      "            text-decoration: underline;";
      "        }";
      "        .error {";
      "            background: rgba(239, 68, 68, 0.1);";
      "            border: 1px solid var(--error);";
      "            color: var(--error);";
      "            padding: 0.75rem 1rem;";
      "            border-radius: 0.5rem;";
      "            margin-bottom: 1rem;";
      "            display: none;";
      "            font-size: 0.875rem;";
      "            text-align: center;";
      "        }";
      "        .verification_notice {";
      "            text-align: center;";
      "            padding: 2rem 1rem;";
      "        }";
      "        .verification_icon {";
      "            color: var(--divine-green);";
      "            margin-bottom: 1rem;";
      "        }";
      "        .verification_notice h2 {";
      "            font-size: 1.25rem;";
      "            font-weight: 600;";
      "            color: var(--text);";
      "            margin-bottom: 0.5rem;";
      "        }";
      "        .verification_notice p {";
      "            color: var(--text-secondary);";
      "            font-size: 0.9rem;";
      "            line-height: 1.5;";
      "            margin-bottom: 0.5rem;";
      "        }";
      "        .verification_notice strong {";
      "            color: var(--text);";
      "        }";
      "        .verification_subtext {";
      "            font-size: 0.8rem !important;";
      "            color: var(--text-secondary);";
      "        }";
      "        .advanced_section {";
      "            margin: 1rem 0;";
      "        }";
      "        .advanced_toggle {";
      "            display: inline-flex;";
      "            align-items: center;";
      "            gap: 0.5rem;";
      "            color: var(--divine-green);";
      "            font-size: 0.875rem;";
      "            cursor: pointer;";
      "            text-decoration: none;";
      "            user-select: none;";
      "        }";
      "        .advanced_toggle:hover {";
      "            text-decoration: underline;";
      "        }";
      "        .advanced_icon {";
      "            display: inline-block;";
      "            transition: transform 0.2s;";
      "            font-size: 0.65rem;";
      "        }";
      "        .advanced_icon.expanded {";
      "            transform: rotate(90deg);";
      "        }";
      "        .advanced_content {";
      "            display: none;";
      "            margin-top: 0.75rem;";
      "            padding: 1rem;";
      "            background: var(--muted);";
      "            border-radius: 0.75rem;";
      "            border: 1px solid var(--border);";
      "        }";
      "        .advanced_content.show {";
      "            display: block;";
      "            animation: fadeIn 0.3s ease;";
      "        }";
      "        .help_text {";
      "            color: var(--text-secondary);";
      "            font-size: 0.75rem;";
      "            margin-top: 0.375rem;";
      "            line-height: 1.4;";
      "        }";
      ""])].
Definition login_style_3 : list piece :=
  [Lit (page_text ["        /* Mobile: reduce padding for more working area */";
      "        @media (max-width: 480px) {";
      "            body {";
      "                padding: 0.5rem;";
      "            }";
      "            .header {";
      "                margin-bottom: 1rem;";
      "            }";
      "            .header h1 {";
      "                font-size: 1.5rem;";
      "            }";
      "            .card {";
      "                padding: 1rem;";
      "                border-radius: 0.75rem;";
      "            }";
      "            .app_header {";
      "                padding-bottom: 0.875rem;";
      "                margin-bottom: 0.875rem;";
      "            }";
      "            .logo {";
      "                margin-bottom: 1rem;";
      "            }";
      "        }";
      "    </style>";
      ""])].
Definition login_body (v : login_values) : list piece :=
  [Lit (page_text ["</head>";
      "<body>";
      "    <div class=~container~>";
      "        <div class=~header~>";
      "            <div class=~logo~>";
      "                <img src=~/synvya-logo.svg~ alt=~Synvya~ />";
      "                <span class=~logo-sub~>Login</span>";
      "            </div>";
      "            <h1>Sign in</h1>";
      "            <p>to continue to <strong id=~app_name_display~>"]);
   Plain (lv_client_id v);
   Lit (page_text ["</strong></p>";
      "        </div>";
      "";
      "        <div class=~card~>";
      "            <div class=~app_header~>";
      "                <div class=~app_icon~>";
      "                    <span id=~app_icon_letter~>"]);
   Plain (lv_icon v);
   Lit (page_text ["</span>";
      "                </div>";
      "                <div class=~app_info~>";
      "                    <div class=~app_domain~ id=~app_domain~></div>";
      "                    <h2 id=~app_name~>"]);
   Plain (lv_client_id v);
   Lit (page_text ["</h2>";
      "                </div>";
      "            </div>";
      "";
      "            <div id=~error~ class=~error~></div>";
      "";
      "            <div id=~verification_notice~ class=~verification_notice~ style=~display: none;~>";
      "                <div class=~verification_icon~>";
      "                    <svg xmlns=~http://www.w3.org/2000/svg~ width=~48~ height=~48~ fill=~currentColor~ viewBox=~0 0 256 256~>";
      "                        <path d=~M224,48H32a8,8,0,0,0-8,8V192a16,16,0,0,0,16,16H216a16,16,0,0,0,16-16V56A8,8,0,0,0,224,48ZM203.43,64,128,133.15,52.57,64ZM216,192H40V74.19l82.59,75.71a8,8,0,0,0,10.82,0L216,74.19V192Z~></path>";
      "                    </svg>";
      "                </div>";
      "                <h2>Check your email</h2>";
      "                <p>We've sent a verification link to <strong id=~verification_email~></strong></p>";
      "                <p class=~verification_subtext~>Click the link in the email to verify your account and complete sign up. After verification, you'll be redirected back to the app.</p>";
      "            </div>";
      "";
      "            <div id=~login_view~ class=~form_view~>";
      "                <form onsubmit=~handleLogin(event)~>";
      "                    <div class=~form_group~>";
      "                        <label for=~login_email~>Email</label>";
      "                        <input type=~email~ id=~login_email~ placeholder=~Enter your email~ autocomplete=~username~ required>";
      "                    </div>";
      "                    <div class=~form_group~>";
      "                        <label for=~login_password~>Password</label>";
      "                        <input type=~password~ id=~login_password~ placeholder=~Enter your password~ autocomplete=~current-password~ required>";
      "                    </div>";
      "                    <button type=~submit~ class=~btn_primary~>Sign in</button>";
      "                </form>";
      "                <div class=~toggle_link~>";
      "                    <a href=~"]);
   Plain (lv_forgot_password_url v);
   Lit (page_text ["~>Forgot password?</a>";
      "                </div>";
      "                <div class=~toggle_link~>";
      "                    Don't have an account? <a onclick=~showForm('register')~>Create one</a>";
      "                </div>";
      "            </div>";
      "";
      "            <div id=~register_view~ class=~form_view~>";
      "                <form onsubmit=~handleRegister(event)~>";
      "                    <div class=~form_group~>";
      "                        <label for=~register_email~>Email</label>";
      "                        <input type=~email~ id=~register_email~ placeholder=~Enter your email~ autocomplete=~username~ required>";
      "                    </div>";
      "                    <div class=~form_group~>";
      "                        <label for=~register_password~>Password</label>";
      "                        <input type=~password~ id=~register_password~ placeholder=~Create a password~ autocomplete=~new-password~ required minlength=~8~>";
      "                    </div>";
      "                    <div class=~form_group~>";
      "                        <label for=~register_password-confirm~>Confirm Password</label>";
      "                        <input type=~password~ id=~register_password-confirm~ placeholder=~Confirm your password~ autocomplete=~new-password~ required minlength=~8~>";
      "                    </div>";
      "                    <div class=~advanced_section~ id=~advanced_section~>";
      "                        <a class=~advanced_toggle~ onclick=~toggleAdvanced()~>";
      "                            <span class=~advanced_icon~ id=~advanced_icon~>▶</span>";
      "                            Import existing Nostr key";
      "                        </a>";
      "                        <div id=~advanced_content~ class=~advanced_content~>";
      "                            <div class=~form_group~ style=~margin-bottom: 0;~>";
      "                                <label for=~register_nsec~>Nostr Secret Key</label>";
      "                                <input type=~password~ id=~register_nsec~ placeholder=~nsec1... or hex format~ autocomplete=~off~>";
      "                                <p class=~help_text~>";
      "                                    Optional: Import your existing Nostr identity. Leave empty to create a new one.";
      "                                </p>";
      "                            </div>";
      "                        </div>";
      "                    </div>";
      "                    <button type=~submit~ class=~btn_primary~>Create account</button>";
      "                </form>";
      "                <div class=~toggle_link~>";
      "                    Already have an account? <a onclick=~showForm('login')~>Sign in</a>";
      "                </div>";
      "            </div>";
      "        </div>";
      "    </div>";
      "";
      ""])].
Definition login_script_1 (v : login_values) : list piece :=
  [Lit (page_text ["    <script>";
      "        const clientId = '"]);
   Plain (lv_client_id v);
   Lit (page_text ["';";
      "        const redirectUri = '"]);
   Plain (lv_redirect_uri v);
   Lit (page_text ["';";
      "        const scope = '"]);
   Plain (lv_scope v);
   Lit (page_text ["';";
      "        const codeChallenge = '"]);
   Plain (lv_code_challenge v);
   Lit (page_text ["';";
      "        const codeChallengeMethod = '"]);
   Plain (lv_code_challenge_method v);
   Lit (page_text ["';";
      "        const defaultRegister = new URLSearchParams(window.location.search).get('default_register') === 'true';";
      "        const byokPubkey = new URLSearchParams(window.location.search).get('byok_pubkey');";
      "        const state = new URLSearchParams(window.location.search).get('state');";
      "";
      "        // Set app icon letter";
      "        document.getElementById('app_icon_letter').textContent = clientId.charAt(0).toUpperCase();";
      "";
      "        // Set app domain from redirect URI";
      "        try {";
      "            const url = new URL(redirectUri);";
      "            document.getElementById('app_domain').textContent = url.host;";
      "        } catch (e) {";
      "            document.getElementById('app_domain').style.display = 'none';";
      "        }";
      "";
      "        function showForm(form) {";
      "            document.querySelectorAll('.form_view').forEach(v => v.classList.remove('active'));";
      "";
      "            const headerTitle = document.querySelector('.header h1');";
      "            if (form === 'login') {";
      "                document.getElementById('login_view').classList.add('active');";
      "                if (headerTitle) headerTitle.textContent = 'Sign in';";
      "                document.title = 'Sign in - Synvya Login';";
      "            } else {";
      "                document.getElementById('register_view').classList.add('active');";
      "                if (headerTitle) headerTitle.textContent = 'Create account';";
      "                document.title = 'Create account - Synvya Login';";
      "            }";
      "";
      "            hideError();";
      "        }";
      "";
      "        // Initialize form: show register if BYOK or explicitly requested";
      "        if (defaultRegister || byokPubkey) {";
      "            showForm('register');";
      "        } else {";
      "            showForm('login');";
      "        }";
      "";
      "        // Hide advanced nsec input if byok_pubkey is present (nsec will come via code_verifier)";
      "        if (byokPubkey) {";
      "            const advancedSection = document.getElementById('advanced_section');";
      "            if (advancedSection) {";
      "                advancedSection.style.display = 'none';";
      "            }";
      "        }";
      "";
      "        function showError(message) {";
      "            const errorEl = document.getElementById('error');";
      "            errorEl.textContent = message;";
      "            errorEl.style.display = 'block';";
      "        }";
      "";
      "        function hideError() {";
      "            document.getElementById('error').style.display = 'none';";
      "        }";
      "";
      "        function showVerificationNotice(email, deviceCode) {";
      "            // Hide forms and show verification notice";
      "            document.getElementById('login_view').classList.remove('active');";
      "            document.getElementById('register_view').classList.remove('active');";
      "            hideError();";
      "";
      "            const notice = document.getElementById('verification_notice');";
      "            const emailSpan = document.getElementById('verification_email');";
      "            if (emailSpan) emailSpan.textContent = email;";
      "            notice.style.display = 'block';";
      "";
      "            // Store device_code for polling (RFC 8628: secret, never in URL)";
      "            // See: https://datatracker.ietf.org/doc/html/rfc8628";
      "            if (deviceCode) {";
      "                sessionStorage.setItem('keycast_device_code', deviceCode);";
      "            }";
      "";
      "            // Start polling for verification completion (multi-device support)";
      "            startVerificationPolling();";
      "        }";
      "";
      "        function startVerificationPolling() {";
      "            // RFC 8628: Use device_code (secret, from response body) not state (public, in URL)";
      "            const deviceCode = sessionStorage.getItem('keycast_device_code');";
      "";
      "            if (!deviceCode) {";
      "                console.log('No device_code, polling disabled');";
      "                return;";
      "            }";
      "";
      "            console.log('Starting verification polling');";
      "";
      "            const pollInterval = setInterval(async () => {";
      "                try {";
      "                    const response = await fetch(`/api/oauth/poll?device_code=${encodeURIComponent(deviceCode)}`);";
      "";
      "                    if (response.status === 200) {";
      "                        clearInterval(pollInterval);";
      "                        sessionStorage.removeItem('keycast_device_code');";
      "                        const data = await response.json();";
      "";
      "                        // Redirect to app with code (state is for CSRF, include if available)";
      "                        const urlParams = new URLSearchParams(window.location.search);";
      "                        const state = urlParams.get('state');";
      "                        let url = `${redirectUri}?code=${encodeURIComponent(data.code)}`;";
      "                        if (state) url += `&state=${encodeURIComponent(state)}`;";
      "";
      "                        // Chrome on Android doesn't trigger App Links for window.location.href";
      "                        // Use intent:// URL format to force Chrome to check for App Links";
      "                        // See: https://developer.chrome.com/docs/android/intents";
      "                        const isAndroid = /Android/i.test(navigator.userAgent);";
      "                        if (isAndroid && url.startsWith('https://')) {";
      "                            try {";
      "                                const parsed = new URL(url);";
      "                                // Intent URL tells Chrome to try App Links first, fall back to browser";
      "                                const intentUrl = `intent://${parsed.host}${parsed.pathname}${parsed.search}#Intent;scheme=https;action=android.intent.action.VIEW;category=android.intent.category.BROWSABLE;end`;";
      "                                window.location.href = intentUrl;";
      "                            } catch (e) {";
      "                                window.location.href = url;";
      "                            }";
      "                        } else {";
      "                            window.location.href = url;";
      "                        }";
      "                    } else if (response.status !== 202) {";
      "                        console.error('Poll error:', response.status);";
      "                        // Don't clear interval on 500 - keep trying";
      "                    }";
      "                } catch (err) {";
      "                    console.error('Poll failed:', err);";
      "                }";
      "            }, 2000); // Poll every 2 seconds";
      "";
      "            // Stop after 30 minutes";
      "            setTimeout(() => {";
      "                clearInterval(pollInterval);";
      "                sessionStorage.removeItem('keycast_device_code');";
      "                console.log('Polling timed out');";
      "            }, 30 * 60 * 1000);";
      "        }";
      "";
      ""])].
Definition login_script_2 : list piece :=
  [Lit (page_text ["        function toggleAdvanced() {";
      "            const content = document.getElementById('advanced_content');";
      "            const icon = document.getElementById('advanced_icon');";
      "            content.classList.toggle('show');";
      "            icon.classList.toggle('expanded');";
      "        }";
      "";
      "        async function handleLogin(e) {";
      "            e.preventDefault();";
      "            hideError();";
      "";
      "            const email = document.getElementById('login_email').value;";
      "            const password = document.getElementById('login_password').value;";
      "";
      "            try {";
      "                const response = await fetch('/api/oauth/login', {";
      "                    method: 'POST',";
      "                    headers: { 'Content-Type': 'application/json' },";
      "                    credentials: 'include',";
      "                    body: JSON.stringify({";
      "                        email,";
      "                        password,";
      "                        client_id: clientId,";
      "                        redirect_uri: redirectUri,";
      "                        scope: scope,";
      "                        code_challenge: codeChallenge || undefined,";
      "                        code_challenge_method: codeChallengeMethod || undefined,";
      "                        state: state || undefined";
      "                    })";
      "                });";
      "";
      "                if (!response.ok) {";
      "                    const data = await response.json().catch(() => ({}));";
      "                    // Check if email not verified";
      "                    if (data.code === 'EMAIL_NOT_VERIFIED' || data.verification_required) {";
      "                        // No device_code for login flow - user needs to check email";
      "                        showVerificationNotice(data.email || email, null);";
      "                        return;";
      "                    }";
      "                    showError(data.error || 'Login failed');";
      "                    return;";
      "                }";
      "";
      "                // Cookie is set, reload to show approval screen";
      "                const url = new URL(window.location.href);";
      "                url.searchParams.delete('prompt');";
      "                url.searchParams.delete('byok_pubkey');";
      "                url.searchParams.delete('default_register');";
      "                window.location.href = url.toString();";
      "            } catch (e) {";
      "                showError('Request failed: ' + e.message);";
      "            }";
      "        }";
      "";
      "        async function handleRegister(e) {";
      "            e.preventDefault();";
      "            hideError();";
      "";
      "            const email = document.getElementById('register_email').value;";
      "            const password = document.getElementById('register_password').value;";
      "            const passwordConfirm = document.getElementById('register_password-confirm').value;";
      "            const nsecInput = document.getElementById('register_nsec').value.trim();";
      "";
      "            if (password !== passwordConfirm) {";
      "                showError('Passwords do not match');";
      "                return;";
      "            }";
      "";
      "            let finalNsec = nsecInput || null;";
      "            let finalPubkey = byokPubkey || null;";
      "";
      "            try {";
      "                const response = await fetch('/api/oauth/register', {";
      "                    method: 'POST',";
      "                    headers: { 'Content-Type': 'application/json' },";
      "                    credentials: 'include',";
      "                    body: JSON.stringify({";
      "                        email,";
      "                        password,";
      "                        nsec: finalNsec || undefined,";
      "                        pubkey: finalPubkey || undefined,";
      "                        client_id: clientId,";
      "                        redirect_uri: redirectUri,";
      "                        scope: scope,";
      "                        code_challenge: codeChallenge || undefined,";
      "                        code_challenge_method: codeChallengeMethod || undefined,";
      "                        state: state || undefined";
      "                    })";
      "                });";
      "";
      "                const data = await response.json().catch(() => ({}));";
      "";
      "                if (!response.ok) {";
      "                    showError(data.error || 'Registration failed');";
      "                    return;";
      "                }";
      "";
      "                // Check if email verification is required";
      "                if (data.verification_required) {";
      "                    showVerificationNotice(data.email || email, data.device_code);";
      "                    return;";
      "                }";
      "";
      "                if (data.code) {";
      "                    // Include state in redirect if available";
      "                    const state = new URLSearchParams(window.location.search).get('state');";
      "                    if (state) {";
      "                        window.location.href = `${redirectUri}?code=${data.code}&state=${encodeURIComponent(state)}`;";
      "                    } else {";
      "                        window.location.href = `${redirectUri}?code=${data.code}`;";
      "                    }";
      "                } else {";
      "                    showError('Registration succeeded but no authorization code received');";
      "                }";
      "            } catch (e) {";
      "                showError('Request failed: ' + e.message);";
      "            }";
      "        }";
      "    </script>";
      "</body>";
      "</html>";
      "        "])].
Definition login_page (v : login_values) : list piece :=
  login_style_1 ++ login_style_2 ++ login_style_3 ++ login_body v ++ login_script_1 v ++ login_script_2.
(** ** nostr-login *)
Definition connect_style_1 : list piece :=
  [Lit (page_text ["";
      "<!DOCTYPE html>";
      "<html>";
      "<head>";
      "    <meta charset=~UTF-8~>";
      "    <meta name=~viewport~ content=~width=device-width, initial-scale=1.0, maximum-scale=1.0, user-scalable=no~>";
      "    <title>Authorize Connection - Synvya Login</title>";
      "    <link rel=~preconnect~ href=~https://fonts.googleapis.com~>";
      "    <link rel=~preconnect~ href=~https://fonts.gstatic.com~ crossorigin>";
      "    <link href=~https://fonts.googleapis.com/css2?family=Inter:wght@400;500;600;700&family=Bricolage+Grotesque:wght@600;700&display=swap~ rel=~stylesheet~>";
      "    <style>";
      "        :root {";
      "            --divine-green: #27C58B;";
      "            --divine-green-dark: #1AA575;";
      "            --bg: #072218;";
      "            --surface: #0F2E23;";
      "            --border: #1C4033;";
      "            --text: hsl(210 40% 98%);";
      "            --text-secondary: hsl(215 20.2% 65.1%);";
      "            --muted: #0F2E23;";
      "        }";
      "        @media (prefers-color-scheme: light) {";
      "            :root {";
      "                --bg: #F9F7F6;";
      "                --surface: hsl(0 0% 100%);";
      "                --border: hsl(214.3 31.8% 91.4%);";
      "                --text: hsl(222.2 84% 4.9%);";
      "                --text-secondary: hsl(215.4 16.3% 46.9%);";
      "                --muted: hsl(210 40% 96.1%);";
      "            }";
      "        }";
      "        * {";
      "            box-sizing: border-box;";
      "            margin: 0;";
      "            padding: 0;";
      "        }";
      "        body {";
      "            font-family: 'Inter', -apple-system, BlinkMacSystemFont, 'Segoe UI', Roboto, sans-serif;";
      "            background: var(--bg);";
      "            color: var(--text);";
      "            display: flex;";
      "            flex-direction: column;";
      "            justify-content: center;";
      "            align-items: center;";
      "            min-height: 100vh;";
      "            padding: 1rem;";
      "            -webkit-font-smoothing: antialiased;";
      "        }";
      "        .container {";
      "            width: 100%;";
      "            max-width: 420px;";
      "        }";
      "        .header {";
      "            text-align: center;";
      "            margin-bottom: 1.5rem;";
      "        }";
      "        .logo {";
      "            display: flex;";
      "            flex-direction: column;";
      "            align-items: center;";
      "            justify-content: center;";
      "            gap: 2px;";
      "            margin-bottom: 1.25rem;";
      "        }";
      "        .logo img {";
      "            height: 28px;";
      "        }";
      "        .logo .logo-sub {";
      "            font-family: 'Inter', system-ui, sans-serif;";
      "            font-weight: 500;";
      "            font-size: 11px;";
      "            letter-spacing: 3px;";
      "            text-transform: uppercase;";
      "            color: var(--divine-green);";
      "            opacity: 0.6;";
      "        }";
      "        h1 {";
      "            font-family: 'Bricolage Grotesque', system-ui, sans-serif;";
      "            font-size: 1.5rem;";
      "            font-weight: 700;";
      "            color: var(--text);";
      "            margin-bottom: 0.5rem;";
      "        }";
      "        .subtitle {";
      "            color: var(--text-secondary);";
      "            font-size: 0.95rem;";
      "        }";
      "        .card {";
      "            background: var(--surface);";
      "            border: 1px solid var(--border);";
      "            border-radius: 1rem;";
      "            padding: 1.5rem;";
      "            margin-bottom: 1rem;";
      "        }";
      "        .app_header {";
      "            display: flex;";
      "            align-items: center;";
      "            gap: 0.875rem;";
      "            padding-bottom: 1rem;";
      "            border-bottom: 1px solid var(--border);";
      "            margin-bottom: 1rem;";
      "        }";
      "        .app_icon {";
      "            width: 44px;";
      "            height: 44px;";
      "            background: var(--divine-green);";
      "            border-radius: 12px;";
      "            display: flex;";
      "            align-items: center;";
      "            justify-content: center;";
      "            font-size: 1.25rem;";
      "            font-weight: 600;";
      "            color: white;";
      "        }";
      "        .app_info h2 {";
      "            font-size: 0.8rem;";
      "            font-weight: 500;";
      "            color: var(--text-secondary);";
      "            margin-bottom: 0.125rem;";
      "        }";
      "        .app_domain {";
      "            font-size: 1rem;";
      "            font-weight: 600;";
      "            color: var(--text);";
      "        }";
      "        .permissions_list {";
      "            margin-bottom: 1rem;";
      "        }";
      "        .permission_item {";
      "            display: flex;";
      "            align-items: center;";
      "            gap: 0.75rem;";
      "            padding: 0.75rem 0;";
      "            border-bottom: 1px solid var(--border);";
      "        }";
      "        .permission_item:last-child {";
      "            border-bottom: none;";
      "        }";
      "        .permission_icon {";
      "            font-size: 1.25rem;";
      "            width: 32px;";
      "            text-align: center;";
      "        }";
      ""])].
Definition connect_style_2 : list piece :=
  [Lit (page_text ["        .permission_content h3 {";
      "            font-size: 0.9rem;";
      "            font-weight: 500;";
      "            color: var(--text);";
      "            margin-bottom: 0.125rem;";
      "        }";
      "        .permission_content p {";
      "            font-size: 0.8rem;";
      "            color: var(--text-secondary);";
      "            text-align: left;";
      "        }";
      "        .buttons {";
      "            display: flex;";
      "            gap: 0.75rem;";
      "            margin-top: 1rem;";
      "        }";
      "        button {";
      "            flex: 1;";
      "            padding: 0.75rem 1.5rem;";
      "            font-size: 1rem;";
      "            border: none;";
      "            border-radius: 9999px;";
      "            cursor: pointer;";
      "            font-weight: 600;";
      "            transition: all 0.2s;";
      "        }";
      "        .approve {";
      "            background: var(--divine-green);";
      "            color: #fff;";
      "        }";
      "        .approve:hover {";
      "            background: var(--divine-green-dark);";
      "        }";
      "        .deny {";
      "            background: transparent;";
      "            color: var(--text-secondary);";
      "            border: 1px solid var(--border);";
      "        }";
      "        .deny:hover {";
      "            background: var(--muted);";
      "            color: var(--text);";
      "        }";
      "        .warning {";
      "            background: rgba(245, 158, 11, 0.1);";
      "            border: 1px solid rgba(245, 158, 11, 0.3);";
      "            padding: 1rem;";
      "            margin-bottom: 1rem;";
      "            font-size: 0.875rem;";
      "            color: #f59e0b;";
      "            border-radius: 0.75rem;";
      "            line-height: 1.5;";
      "        }";
      "        /* Mobile: reduce padding for more working area */";
      "        @media (max-width: 480px) {";
      "            body {";
      "                padding: 0.5rem;";
      "            }";
      "            .header {";
      "                margin-bottom: 1rem;";
      "            }";
      "            h1 {";
      "                font-size: 1.25rem;";
      "            }";
      "            .card {";
      "                padding: 1rem;";
      "                border-radius: 0.75rem;";
      "            }";
      "            .app_header {";
      "                padding-bottom: 0.75rem;";
      "                margin-bottom: 0.75rem;";
      "            }";
      "            .logo {";
      "                margin-bottom: 0.75rem;";
      "            }";
      "            .warning {";
      "                padding: 0.75rem;";
      "                font-size: 0.8rem;";
      "            }";
      "        }";
      "    </style>";
      ""])].
Definition connect_body (p : connect_page) : list piece :=
  [Lit (page_text ["</head>";
      "<body>";
      "    <div class=~container~>";
      "        <div class=~header~>";
      "            <div class=~logo~>";
      "                <img src=~/synvya-logo.svg~ alt=~Synvya~ />";
      "                <span class=~logo-sub~>Login</span>";
      "            </div>";
      "            <h1>Authorize Connection</h1>";
      "            <p class=~subtitle~>An app wants to connect to your account</p>";
      "        </div>";
      "";
      "        <div class=~card~>";
      "            <div class=~app_header~>";
      "                <div class=~app_icon~ id=~app_icon~>"]);
   Plain (cp_app_icon p);
   Lit (page_text ["</div>";
      "                <div class=~app_info~>";
      "                    <div class=~app_domain~>"]);
   Plain (cp_relay p);
   Lit (page_text ["</div>";
      "                    <h2>"]);
   Plain (cp_app_name p);
   Lit (page_text ["</h2>";
      "                </div>";
      "            </div>";
      "";
      "            <div class=~permissions_list~ id=~permissions_list~>";
      "                <!-- Populated by JavaScript -->";
      "            </div>";
      "        </div>";
      "";
      "        <div class=~warning~>";
      "            This will allow the app to sign events on your behalf using your Synvya-managed keys.";
      "        </div>";
      "";
      "        <form method=~POST~ action=~/api/oauth/connect~>";
      "            <input type=~hidden~ name=~client_pubkey~ value=~"]);
   Plain (cp_page_client_pubkey p);
   Lit (page_text ["~>";
      "            <input type=~hidden~ name=~relay~ value=~"]);
   Plain (cp_relay p);
   Lit (page_text ["~>";
      "            <input type=~hidden~ name=~secret~ value=~"]);
   Plain (cp_secret p);
   Lit (page_text ["~>";
      "            <input type=~hidden~ name=~perms~ value=~"]);
   Plain (cp_perms p);
   Lit (page_text ["~>";
      "            <div class=~buttons~>";
      "                <button type=~submit~ name=~approved~ value=~false~ class=~deny~>Deny</button>";
      "                <button type=~submit~ name=~approved~ value=~true~ class=~approve~>Authorize</button>";
      "            </div>";
      "        </form>";
      "    </div>";
      "";
      ""])].
Definition connect_script (p : connect_page) : list piece :=
  [Lit (page_text ["    <script>";
      "        const permissions = '"]);
   Plain (cp_permissions_raw p);
   Lit (page_text ["';";
      "        const permissionMeta = {";
      "            'sign_event': {";
      "                icon: '✍️',";
      "                title: 'Act on your behalf',";
      "                description: 'Post and interact as you on Nostr'";
      "            },";
      "            'encrypt': {";
      "                icon: '🔒',";
      "                title: 'Send private messages',";
      "                description: 'Encrypt messages to other users'";
      "            },";
      "            'decrypt': {";
      "                icon: '🔓',";
      "                title: 'Read private messages',";
      "                description: 'Decrypt messages sent to you'";
      "            },";
      "            'nip04_encrypt': {";
      "                icon: '🔐',";
      "                title: 'Send DMs (legacy)',";
      "                description: 'Encrypt direct messages'";
      "            },";
      "            'nip04_decrypt': {";
      "                icon: '🔑',";
      "                title: 'Read DMs (legacy)',";
      "                description: 'Decrypt direct messages'";
      "            },";
      "            'nip44_encrypt': {";
      "                icon: '🛡️',";
      "                title: 'Send private messages',";
      "                description: 'Encrypt messages securely'";
      "            },";
      "            'nip44_decrypt': {";
      "                icon: '🔏',";
      "                title: 'Read private messages',";
      "                description: 'Decrypt messages sent to you'";
      "            }";
      "        };";
      "";
      "        function buildPermissionsList() {";
      "            const scopes = permissions.split(/[\s,]+/).filter(s => s);";
      "            const container = document.getElementById('permissions_list');";
      "";
      "            scopes.forEach(s => {";
      "                const meta = permissionMeta[s] || {";
      "                    icon: '📋',";
      "                    title: s.replace(/_/g, ' ').replace(/\b\w/g, l => l.toUpperCase()),";
      "                    description: 'Permission: ' + s";
      "                };";
      "";
      "                const item = document.createElement('div');";
      "                item.className = 'permission_item';";
      "                item.innerHTML = `";
      "                    <div class=~permission_icon~>${meta.icon}</div>";
      "                    <div class=~permission_content~>";
      "                        <h3>${meta.title}</h3>";
      "                        <p>${meta.description}</p>";
      "                    </div>";
      "                `;";
      "                container.appendChild(item);";
      "            });";
      "        }";
      "";
      "        buildPermissionsList();";
      "    </script>";
      "</body>";
      "</html>";
      "    "])].
Definition connect_form_page (p : connect_page) : list piece :=
  connect_style_1 ++ connect_style_2 ++ connect_body p ++ connect_script p.
Definition connect_denied_page : list piece :=
  [Lit (page_text ["";
      "<html>";
      "<head>";
      "    <title>Authorization Denied</title>";
      "    <style>";
      "        body {";
      "            font-family: sans-serif;";
      "            text-align: center;";
      "            padding: 50px;";
      "            background: #1a1a1a;";
      "            color: #e0e0e0;";
      "        }";
      "        h1 { color: #f44336; }";
      "    </style>";
      "    <script>";
      "        setTimeout(() => window.close(), 2000);";
      "    </script>";
      "</head>";
      "<body>";
      "    <h1>✗ Authorization Denied</h1>";
      "    <p>You can close this window.</p>";
      "</body>";
      "</html>";
      "        "])].
Definition connect_done_page : list piece :=
  [Lit (page_text ["";
      "<html>";
      "<head>";
      "    <title>Success</title>";
      "    <style>";
      "        body {";
      "            font-family: -apple-system, BlinkMacSystemFont, 'Segoe UI', Roboto, Oxygen, Ubuntu, sans-serif;";
      "            text-align: center;";
      "            padding: 50px;";
      "            background: #1a1a1a;";
      "            color: #e0e0e0;";
      "        }";
      "        h1 {";
      "            color: #4CAF50;";
      "            font-size: 32px;";
      "        }";
      "        p {";
      "            font-size: 18px;";
      "            color: #888;";
      "        }";
      "        .checkmark {";
      "            font-size: 64px;";
      "            margin-bottom: 20px;";
      "        }";
      "    </style>";
      "    <script>";
      "        setTimeout(() => window.close(), 3000);";
      "    </script>";
      "</head>";
      "<body>";
      "    <div class=~checkmark~>✓</div>";
      "    <h1>Authorization Successful</h1>";
      "    <p>You can close this window.</p>";
      "    <p style=~font-size: 14px; margin-top: 20px;~>(Closing automatically in 3 seconds...)</p>";
      "</body>";
      "</html>";
      "    "])].
(** ** Claiming an account *)
Definition claim_form_style : list piece :=
  [Lit (page_text ["<!DOCTYPE html>";
      "<html lang=~en~>";
      "<head>";
      "    <meta charset=~UTF-8~>";
      "    <meta name=~viewport~ content=~width=device-width, initial-scale=1.0~>";
      "    <title>Claim Your Account</title>";
      "    <style>";
      "        * { box-sizing: border-box; }";
      "        body {";
      "            font-family: 'Inter', system-ui, -apple-system, sans-serif;";
      "            background: #072218;";
      "            min-height: 100vh;";
      "            margin: 0;";
      "            display: flex;";
      "            align-items: center;";
      "            justify-content: center;";
      "            padding: 20px;";
      "        }";
      "        .container {";
      "            background: #0F2E23;";
      "            border: 1px solid #1C4033;";
      "            border-radius: 12px;";
      "            padding: 40px;";
      "            max-width: 400px;";
      "            width: 100%;";
      "            box-shadow: 0 8px 32px rgba(39, 197, 139, 0.08);";
      "        }";
      "        .logo {";
      "            width: 140px;";
      "            height: auto;";
      "            display: block;";
      "            margin: 0 auto 24px;";
      "        }";
      "        h1 {";
      "            margin: 0 0 8px 0;";
      "            color: #F9F7F6;";
      "            font-size: 22px;";
      "            font-weight: 600;";
      "        }";
      "        .welcome {";
      "            color: #BEB3A7;";
      "            font-size: 14px;";
      "            margin: 0 0 28px 0;";
      "            line-height: 1.5;";
      "        }";
      "        .user-info {";
      "            background: #072218;";
      "            border: 1px solid #1C4033;";
      "            border-radius: 8px;";
      "            padding: 14px 16px;";
      "            margin-bottom: 24px;";
      "        }";
      "        .user-info .name {";
      "            font-weight: 600;";
      "            color: #F9F7F6;";
      "            font-size: 16px;";
      "        }";
      "        .user-info .username {";
      "            color: #9CA3AF;";
      "            font-size: 13px;";
      "            margin-top: 2px;";
      "        }";
      "        label {";
      "            display: block;";
      "            margin-bottom: 6px;";
      "            color: #BEB3A7;";
      "            font-size: 13px;";
      "            font-weight: 500;";
      "        }";
      "        input {";
      "            width: 100%;";
      "            padding: 11px 14px;";
      "            background: #072218;";
      "            border: 1px solid #1C4033;";
      "            border-radius: 8px;";
      "            font-size: 15px;";
      "            color: #F9F7F6;";
      "            margin-bottom: 18px;";
      "            transition: border-color 0.2s;";
      "        }";
      "        input::placeholder {";
      "            color: #9CA3AF;";
      "        }";
      "        input:focus {";
      "            outline: none;";
      "            border-color: #27C58B;";
      "            box-shadow: 0 0 0 3px rgba(39, 197, 139, 0.1);";
      "        }";
      "        button {";
      "            width: 100%;";
      "            padding: 12px;";
      "            background: #27C58B;";
      "            color: #072218;";
      "            border: none;";
      "            border-radius: 8px;";
      "            font-size: 15px;";
      "            font-weight: 600;";
      "            cursor: pointer;";
      "            transition: background 0.2s;";
      "            margin-top: 4px;";
      "        }";
      "        button:hover {";
      "            background: #1AA575;";
      "        }";
      "        .error {";
      "            background: rgba(239, 68, 68, 0.1);";
      "            border: 1px solid rgba(239, 68, 68, 0.25);";
      "            color: #EF4444;";
      "            padding: 10px 14px;";
      "            border-radius: 8px;";
      "            margin-bottom: 18px;";
      "            display: none;";
      "            font-size: 14px;";
      "        }";
      "        .requirements {";
      "            font-size: 12px;";
      "            color: #9CA3AF;";
      "            margin-top: -14px;";
      "            margin-bottom: 18px;";
      "        }";
      "    </style>";
      ""])].
Definition claim_form_body (p : claim_page) : list piece :=
  [Lit (page_text ["</head>";
      "<body>";
      "    <div class=~container~>";
      "        <svg class=~logo~ viewBox=~0 0 240 100~ xmlns=~http://www.w3.org/2000/svg~ aria-label=~Synvya~>";
      "            <g fill=~#1DB054~>";
      "                <rect x=~20~ y=~60~ width=~45~ height=~6~ rx=~3~ />";
      "                <path d=~M25 58 C25 35 60 35 60 58 Z~ />";
      "                <circle cx=~42.5~ cy=~36~ r=~3~ />";
      "                <path d=~M68 48 L78 58 L68 68 V62 H58 V54 H68 V48 Z~ />";
      "            </g>";
      "            <text x=~90~ y=~62~ font-family=~Arial, sans-serif~ font-size=~42~ fill=~#1DB054~ font-weight=~400~>Synvya</text>";
      "        </svg>";
      "";
      "        <h1>Claim Your Account</h1>";
      "        <p class=~welcome~>Set up your login credentials to access your account.</p>";
      "";
      "        <div class=~user-info~>";
      "            <div class=~name~>"]);
   Plain (cpg_display_name p);
   Lit (page_text ["</div>";
      "            <div class=~username~>@"]);
   Plain (cpg_username p);
   Lit (page_text ["</div>";
      "        </div>";
      "";
      "        <div class=~error~ id=~error~></div>";
      "";
      "        <form method=~POST~ action=~/api/claim~ onsubmit=~return validateForm()~>";
      "            <input type=~hidden~ name=~token~ value=~"]);
   Plain (cpg_token p);
   Lit (page_text ["~>";
      "";
      "            <label for=~email~>Email</label>";
      "            <input type=~email~ id=~email~ name=~email~ required placeholder=~your@email.com~ value=~"]);
   Plain (cpg_email p);
   Lit (page_text ["~>";
      "";
      "            <label for=~password~>Password</label>";
      "            <input type=~password~ id=~password~ name=~password~ required placeholder=~••••••••~ minlength=~8~>";
      "            <p class=~requirements~>At least 8 characters</p>";
      "";
      "            <label for=~password_confirmation~>Confirm Password</label>";
      "            <input type=~password~ id=~password_confirmation~ name=~password_confirmation~ required placeholder=~••••••••~>";
      "";
      "            <button type=~submit~>Claim Account</button>";
      "        </form>";
      "    </div>";
      "";
      ""])].
Definition claim_form_script : list piece :=
  [Lit (page_text ["    <script>";
      "        function validateForm() {";
      "            const password = document.getElementById('password').value;";
      "            const confirmation = document.getElementById('password_confirmation').value;";
      "            const error = document.getElementById('error');";
      "";
      "            if (password.length < 8) {";
      "                error.textContent = 'Password must be at least 8 characters';";
      "                error.style.display = 'block';";
      "                return false;";
      "            }";
      "";
      "            if (password !== confirmation) {";
      "                error.textContent = 'Passwords do not match';";
      "                error.style.display = 'block';";
      "                return false;";
      "            }";
      "";
      "            return true;";
      "        }";
      "    </script>";
      "</body>";
      "</html>"])].
Definition claim_form_page (p : claim_page) : list piece :=
  claim_form_style ++ claim_form_body p ++ claim_form_script.
Definition claim_success_page (p : claimed_page) : list piece :=
  [Lit (page_text ["<!DOCTYPE html>";
      "<html lang=~en~>";
      "<head>";
      "    <meta charset=~UTF-8~>";
      "    <meta name=~viewport~ content=~width=device-width, initial-scale=1.0~>";
      "    <title>Account Claimed!</title>";
      "    <style>";
      "        * { box-sizing: border-box; }";
      "        body {";
      "            font-family: 'Inter', system-ui, -apple-system, sans-serif;";
      "            background: #072218;";
      "            min-height: 100vh;";
      "            margin: 0;";
      "            display: flex;";
      "            align-items: center;";
      "            justify-content: center;";
      "            padding: 20px;";
      "        }";
      "        .container {";
      "            background: #0F2E23;";
      "            border: 1px solid #1C4033;";
      "            border-radius: 12px;";
      "            padding: 40px;";
      "            max-width: 440px;";
      "            width: 100%;";
      "            text-align: center;";
      "            box-shadow: 0 8px 32px rgba(39, 197, 139, 0.08);";
      "        }";
      "        .logo {";
      "            width: 140px;";
      "            height: auto;";
      "            display: block;";
      "            margin: 0 auto 28px;";
      "        }";
      "        .checkmark {";
      "            width: 56px;";
      "            height: 56px;";
      "            background: rgba(39, 197, 139, 0.15);";
      "            border-radius: 50%;";
      "            display: flex;";
      "            align-items: center;";
      "            justify-content: center;";
      "            margin: 0 auto 20px;";
      "            font-size: 28px;";
      "        }";
      "        h1 {";
      "            margin: 0 0 8px 0;";
      "            color: #F9F7F6;";
      "            font-size: 22px;";
      "            font-weight: 600;";
      "        }";
      "        .subtitle {";
      "            color: #BEB3A7;";
      "            font-size: 14px;";
      "            margin: 0 0 28px 0;";
      "            line-height: 1.5;";
      "        }";
      "        .divider {";
      "            border-top: 1px solid #1C4033;";
      "            margin: 0 0 20px 0;";
      "        }";
      "        .web-link {";
      "            display: inline-flex;";
      "            align-items: center;";
      "            gap: 8px;";
      "            padding: 12px 24px;";
      "            background: #27C58B;";
      "            color: #072218;";
      "            text-decoration: none;";
      "            border-radius: 8px;";
      "            font-weight: 600;";
      "            font-size: 14px;";
      "            transition: background 0.2s;";
      "        }";
      "        .web-link:hover {";
      "            background: #1AA575;";
      "        }";
      "        .instruction {";
      "            color: #BEB3A7;";
      "            font-size: 14px;";
      "            line-height: 1.5;";
      "            margin: 0 0 24px 0;";
      "        }";
      "        .note {";
      "            color: #9CA3AF;";
      "            font-size: 12px;";
      "            margin-top: 20px;";
      "            line-height: 1.4;";
      "        }";
      "        .note a {";
      "            color: #27C58B;";
      "            text-decoration: none;";
      "        }";
      "        .note a:hover {";
      "            text-decoration: underline;";
      "        }";
      "    </style>";
      "</head>";
      "<body>";
      "    <div class=~container~>";
      "        <svg class=~logo~ viewBox=~0 0 240 100~ xmlns=~http://www.w3.org/2000/svg~ aria-label=~Synvya~>";
      "            <g fill=~#1DB054~>";
      "                <rect x=~20~ y=~60~ width=~45~ height=~6~ rx=~3~ />";
      "                <path d=~M25 58 C25 35 60 35 60 58 Z~ />";
      "                <circle cx=~42.5~ cy=~36~ r=~3~ />";
      "                <path d=~M68 48 L78 58 L68 68 V62 H58 V54 H68 V48 Z~ />";
      "            </g>";
      "            <text x=~90~ y=~62~ font-family=~Arial, sans-serif~ font-size=~42~ fill=~#1DB054~ font-weight=~400~>Synvya</text>";
      "        </svg>";
      "";
      "        <div class=~checkmark~>&#10003;</div>";
      "        <h1>Account Claimed!</h1>";
      "        <p class=~subtitle~>Welcome, "]);
   Plain (cdp_display_name p);
   Lit (page_text [". Your credentials have been set.</p>";
      "";
      "        <div class=~divider~></div>";
      "";
      "        <p class=~instruction~>Use the email and password you just set to sign in to Synvya Admin.</p>";
      "";
      "        <a class=~web-link~ href=~"]);
   Plain (cdp_admin_base_url p);
   Lit (page_text ["~>";
      "            Open Synvya Admin";
      "        </a>";
      "        <p class=~note~>Need help? Contact <a href=~mailto:support@synvya.com~>support@synvya.com</a></p>";
      "    </div>";
      "</body>";
      "</html>"])].
Definition claim_failure_page (title message : string) : list piece :=
  [Lit (page_text ["<!DOCTYPE html>";
      "<html lang=~en~>";
      "<head>";
      "    <meta charset=~UTF-8~>";
      "    <meta name=~viewport~ content=~width=device-width, initial-scale=1.0~>";
      "    <title>"]);
   Plain title;
   Lit (page_text ["</title>";
      "    <style>";
      "        * { box-sizing: border-box; }";
      "        body {";
      "            font-family: 'Inter', system-ui, -apple-system, sans-serif;";
      "            background: #072218;";
      "            min-height: 100vh;";
      "            margin: 0;";
      "            display: flex;";
      "            align-items: center;";
      "            justify-content: center;";
      "            padding: 20px;";
      "        }";
      "        .container {";
      "            background: #0F2E23;";
      "            border: 1px solid #1C4033;";
      "            border-radius: 12px;";
      "            padding: 40px;";
      "            max-width: 400px;";
      "            text-align: center;";
      "            box-shadow: 0 8px 32px rgba(39, 197, 139, 0.08);";
      "        }";
      "        h1 {";
      "            color: #EF4444;";
      "            margin: 0 0 12px 0;";
      "            font-size: 20px;";
      "            font-weight: 600;";
      "        }";
      "        p {";
      "            color: #BEB3A7;";
      "            line-height: 1.6;";
      "            font-size: 14px;";
      "            margin: 0;";
      "        }";
      "        a {";
      "            display: inline-block;";
      "            margin-top: 24px;";
      "            color: #27C58B;";
      "            text-decoration: none;";
      "            font-size: 14px;";
      "            font-weight: 500;";
      "            transition: color 0.2s;";
      "        }";
      "        a:hover {";
      "            color: #1AA575;";
      "        }";
      "    </style>";
      "</head>";
      "<body>";
      "    <div class=~container~>";
      "        <h1>"]);
   Plain title;
   Lit (page_text ["</h1>";
      "        <p>"]);
   Plain message;
   Lit (page_text ["</p>";
      "        <a href=~javascript:history.back()~>Go Back</a>";
      "    </div>";
      "</body>";
      "</html>"])].

(** ** Responses *)
Definition authorize_page_html (page : authorize_page) : string :=
  render match page with
         | ChooseAccountPage client_id identity_label => choose_account_page client_id identity_label
         | ApprovalPage v => approval_page v
         | LoginPage v => login_page v
         end.
Definition connect_page_html (p : connect_page) : string := render (connect_form_page p).
Definition connect_response_html (r : connect_response) : string :=
  render match r with ConnectDenied => connect_denied_page | ConnectDone => connect_done_page end.
Definition claim_form_html (p : claim_page) : string := render (claim_form_page p).
Definition claim_success_html (p : claimed_page) : string := render (claim_success_page p).
(** The status and the page. *)
Definition claim_error_html (e : ClaimError) : Z * string :=
  let '(status, title, message) := claim_error_page e in (status, render (claim_failure_page title message)).
