(* ===== verification/PagesSafety.v ===== *)
(** * What values can do to a page

    The pages of the account claim have the same tags whatever the values are,
    because every value is escaped; the pages of OAuth take on the tags of the values
    they show.  The scanner is that of the emails. *)
From S2P Require Import Prelude RustStr External Instances Database Samples Tokens Permissions Policies AuthTypes Signer Ucan HttpRpc OAuthRepo Users OAuth OAuthSafety WorkQueue Queues RateLimit Tenant Nip98 Accounts AccountKeys AccountsSafety AccountKeysSafety Authorize OAuthPages OAuthPagesSafety Claims Emails EmailsSafety Pages.

(** ** The account claim *)
Definition blank_form : claim_page := {| cpg_display_name := ""; cpg_username := ""; cpg_token := ""; cpg_email := "" |}.
Definition blank_success : claimed_page := {| cdp_display_name := ""; cdp_admin_base_url := "" |}.

Lemma html_escape_plain v : plain_value (html_escape v).
Proof. rewrite html_escape_eq. apply escaped_plain. Qed.
Lemma claim_form_markup p :
  plain_value (cpg_display_name p) -> plain_value (cpg_username p) -> plain_value (cpg_token p) -> plain_value (cpg_email p) ->
  markup (claim_form_html p) = markup (claim_form_html blank_form).
Proof.
  intros H1 H2 H3 H4. apply same_markup; [reflexivity|vm_compute; reflexivity|vm_compute; reflexivity|..];
    repeat (constructor; [first [exact I|done|by intros c _]|]); constructor.
Qed.
Lemma claim_success_markup p :
  plain_value (cdp_display_name p) -> plain_value (cdp_admin_base_url p) ->
  markup (claim_success_html p) = markup (claim_success_html blank_success).
Proof.
  intros H1 H2. apply same_markup; [reflexivity|vm_compute; reflexivity|vm_compute; reflexivity|..];
    repeat (constructor; [first [exact I|done|by intros c _]|]); constructor.
Qed.

Section claims.
Context `{HN : Nostr, HC : !NostrCrypto, HS : !Serde, HX : !Secrets, HB : Bcrypt, HD : Digests, HE : !Encodings,
          HV : !HttpEvents, HU : UcanLib, HM : !UcanMint, HL : UrlLib, HUni : Unicode, HI : Ipv6, HCh : Channel}.

Lemma claim_post_page now cfg tenant_id salt base form s s' cookie p :
  claim_post now cfg tenant_id salt base form s = (s', Ok (cookie, p)) ->
  exists name url, p = {| cdp_display_name := html_escape name; cdp_admin_base_url := html_escape url |}.
Proof.
  unfold claim_post. intros H.
  do 4 (apply se_bind_ok in H as (? & ? & _ & H)). case_match; [by unfold claim_fail, se_fail in H|].
  repeat (apply se_bind_ok in H as (? & ? & _ & H); repeat case_match). all: unfold se_ret in H; simplify_eq; eauto.
Qed.

(** No value gets markup into a page of the account claim: the names of the user,
    the token and the address of the link and the address of the administration are
    escaped, and the pages of the errors differ in fixed texts only. *)
Theorem claim_pages_markup_fixed :
  (forall now tenant_id params d p, claim_get now tenant_id params d = Ok p ->
     markup (claim_form_html p) = markup (claim_form_html blank_form)) /\
  (forall now cfg tenant_id salt base form s s' cookie p, claim_post now cfg tenant_id salt base form s = (s', Ok (cookie, p)) ->
     markup (claim_success_html p) = markup (claim_success_html blank_success)) /\
  (forall e, markup (snd (claim_error_html e)) = markup (snd (claim_error_html CE_InvalidToken))).
Proof.
  split_and!.
  - intros now tenant_id params d p H. unfold claim_get in H. apply rbind_ok in H as (ct & _ & H).
    apply rbind_ok in H as ([username display_name] & _ & [= <-]). apply claim_form_markup; apply html_escape_plain.
  - intros now cfg tenant_id salt base form s s' cookie p (name & url & ->)%claim_post_page.
    apply claim_success_markup; apply html_escape_plain.
  - intros []; vm_compute; reflexivity.
Qed.
End claims.

(** ** OAuth *)
(** What precedes the first value of a page. *)
Fixpoint opening (l : list piece) : string :=
  match l with Lit s :: l' => s +:+ opening l' | _ => "" end.
Fixpoint first_value (l : list piece) : option string :=
  match l with Lit _ :: l' => first_value l' | p :: _ => Some (render_piece p) | [] => None end.

Lemma opening_render l v : first_value l = Some v -> exists rest, render l = opening l +:+ v +:+ rest.
Proof.
  induction l as [|[s|w|w] l IH]; simpl; [done| |intros [= <-]; by exists (render l)..].
  intros (rest & ->)%IH. exists rest. by rewrite app_assoc_str.
Qed.
Lemma first_value_markup l v :
  first_value l = Some v -> fst (html_scan InText (opening l)) = InText ->
  exists rest, markup (render l) = markup (opening l) +:+ markup v +:+ rest.
Proof.
  intros (rest & ->)%opening_render Ho. unfold markup. rewrite html_scan_app.
  destruct (html_scan InText (opening l)) as [st o]. simpl in Ho. subst st. rewrite html_scan_app.
  destruct (html_scan InText v) as [st1 o1], (html_scan st1 rest) as [st2 o2]. simpl. by exists o2.
Qed.
Lemma login_page_markup v :
  exists rest, markup (authorize_page_html (LoginPage v)) = markup (opening (login_page v)) +:+ markup (lv_client_id v) +:+ rest.
Proof. apply (first_value_markup (login_page v)); [reflexivity|vm_compute; reflexivity]. Qed.

Section oauth.
Context `{HN : Nostr, HC : !NostrCrypto, HS : !Serde, HX : !Secrets, HB : Bcrypt, HD : Digests, HE : !Encodings,
          HV : !HttpEvents, HU : UcanLib, HM : !UcanMint, HL : UrlLib, HUni : Unicode, HI : Ipv6, HCh : Channel,
          HLS : LoginSerde, HBe : !Bech32}.
(** Whoever opens a link to /oauth/authorize without a session gets a page with
    the tags of the link's client_id as its own, after the same opening for every
    link; an identifier that no client registered passes the check of the link. *)
Theorem link_writes_login_page now cfg vite_domain clients code tenant_id cookie params s :
  get_allowed_redirect_uris (az_client_id params) tenant_id clients = None ->
  cookie_user now (ae_server_nsec (acf_auth cfg)) tenant_id cookie = None ->
  exists v rest, authorize_get now cfg vite_domain clients code tenant_id cookie params s = (s, Ok (ShowPage (LoginPage v) None)) /\
    markup (authorize_page_html (LoginPage v)) =
      markup (opening (login_page v)) +:+ markup (az_client_id params) +:+ rest.
Proof.
  intros Hc Hu. assert (Hp : page_user now (ae_server_nsec (acf_auth cfg)) tenant_id cookie params (os_db s) = (None, false, None))
    by (unfold page_user; by rewrite Hu).
  unfold authorize_get, validate_redirect_uri, se_lift, se_gets, se_bind at 1 2 3. rewrite Hc. cbn [ok_or map_err]. rewrite Hp.
  cbv beta iota. unfold se_bind, page_for, se_ret. cbv beta iota.
  match goal with |- context [LoginPage ?w] => exists w; destruct (login_page_markup w) as [rest E]; exists rest end.
  by split.
Qed.
End oauth.

(** ** Examples *)
Definition script_request : AuthorizeRequest := {|
  az_client_id := "<script>alert(1)</script>"; az_redirect_uri := "https://app.example"; az_scope := None; az_state := None;
  az_code_challenge := None; az_code_challenge_method := None; az_prompt := None; az_byok_pubkey := None;
  az_default_register := None; az_authorization_handle := None; az_screen := None |}.
Lemma link_writes_login_page_witness :
  markup (az_client_id script_request) = "<script></script>" /\
  exists v rest, authorize_get 10 toy_account_config None [] "c0de" 1 None script_request page_state = (page_state, Ok (ShowPage (LoginPage v) None)) /\
    markup (authorize_page_html (LoginPage v)) = markup (opening (login_page v)) +:+ "<script></script>" +:+ rest.
Proof.
  split; [vm_compute; reflexivity|].
  destruct (link_writes_login_page 10 toy_account_config None [] "c0de" 1 None script_request page_state) as (v & rest & E & H);
    [vm_compute; reflexivity|vm_compute; reflexivity|].
  exists v, rest. split; [exact E|]. exact H.
Defined.

Definition script_claim : ClaimQuery := {| cq_token := "link"; cq_email := Some "<script>alert(1)</script>" |}.
Lemma claim_pages_markup_fixed_witness :
  exists p, claim_get 10 1 script_claim preloaded_db = Ok p /\ markup (claim_form_html p) = markup (claim_form_html blank_form).
Proof.
  destruct (claim_get 10 1 script_claim preloaded_db) as [p|e] eqn:E; [|vm_compute in E; discriminate E].
  exists p. split; [reflexivity|]. exact (proj1 claim_pages_markup_fixed 10 1 script_claim preloaded_db p E).
Defined.
