(* ===== verification/Lifecycle.v ===== *)
(** * The life of the server process

    keycast/src/main.rs from start to end: the modes of the program, the stages of
    a start in their order, the relays of the signer
    (signer/src/signer_daemon.rs), the pages outside the API, and the shutdown on a
    signal, with what they leave in the cluster.  The file server of tower-http, the
    answers of other services and the time they take are arguments. *)
From S2P Require Import Prelude RustStr External Instances Database AuthTypes RateLimit HashRing KeyManagers Server PgConnect Membership.

(** ** The mode *)
Inductive run_mode : Type := RunMigrations | RunServer (worker_threads : Z).
Definition mode_of (args : list string) (tokio_worker_threads : option string) (num_cpus : Z) : run_mode :=
  if bool_decide ("--migrate" ∈ args) then RunMigrations
  else RunServer (default num_cpus (tokio_worker_threads ≫= parse_u64)).
(** The steps of a migration, each with its answer. *)
Definition run_migrations (database_url : option string) (runtime connect migrate : result unit string) : result unit string :=
  let? _ := ok_or database_url "DATABASE_URL must be set for migrations" in
  let? _ := runtime in
  let? _ := connect in
  migrate.

(** ** Relays *)
Definition DEFAULT_HANDLER_CACHE_SIZE : Z := 1000000.
Definition handler_cache_size (env : option string) : Z := default DEFAULT_HANDLER_CACHE_SIZE (env ≫= parse_u64).
Inductive relay_outcome : Type := RelayAdded | RelayRefused (e : string) | RelayTimeout.
(** The signer's own copy of the reading of BUNKER_RELAYS. *)
Definition signer_bunker_relays : option string -> option (list string) := get_bunker_relays.
(** connect_to_relays: the relays that were added; [None] is the panic of a
    configuration without relays. *)
Definition connect_to_relays (bunker_relays : option string) (add : string -> relay_outcome) : option (list string) :=
  relays ← signer_bunker_relays bunker_relays;
  Some (List.filter (fun r => match add r with RelayAdded => true | _ => false end) relays).

(** ** Starting *)
Inductive start_result : Type :=
| ExitedWith (code : Z) (msg : string)
| StartFailed (msg : string)
| StartPanicked (msg : string)
| Serving.
(** What the stages get from outside: whether the URL of the database parses and
    the answers of its server, the start of the coordinator with whether it
    registered before it failed, the connection of the API, the file of the master
    key, the relays with the answer to the subscription, and the two sockets. *)
Record start_world : Type := {
  sw_parse : string -> bool; sw_connect : pool_options -> nat -> result unit string;
  sw_statement_cache : option string; sw_pool_size : option string;
  sw_coordinator : result unit string * bool; sw_redis : result unit string; sw_master_key : result string string;
  sw_bunker_relays : option string; sw_add_relay : string -> relay_outcome;
  sw_subscribe : result unit string; sw_bind_dual : result unit string; sw_bind_ipv4 : result unit string;
}.
(** PORT, RELAY_WORKER_COUNT and NODE_ENV *)
Definition api_port (env : option string) : Z := default 3000 (n ← parse_u64 (default "3000" env); if n <=? u16_MAX then Some n else None).
Definition relay_workers (env : option string) (num_cpus : Z) : Z := default (Z.max num_cpus 4 * 2) (env ≫= parse_u64).
Definition secure_cookies (node_env : option string) : bool :=
  bool_decide (default "" node_env = "production") || bool_decide (default "" node_env = "staging").
(** The task of the API server binds both families, or IPv4 alone. *)
Definition bind_listener (w : start_world) : option string :=
  if is_ok (sw_bind_dual w) then None else if is_ok (sw_bind_ipv4 w) then None else Some "Failed to bind API server".
(** The task of the signer up to its loop; a failure to subscribe is unwrapped. *)
Definition signer_task (w : start_world) : option string :=
  match connect_to_relays (sw_bunker_relays w) (sw_add_relay w) with
  | None => Some "BUNKER_RELAYS"
  | Some _ => match sw_subscribe w with Ok _ => None | Err e => Some ("Failed to subscribe: " +:+ e) end
  end.

Section start.
Context `{HN : Nostr, HA : Aead, HK : Kms}.

Definition secret_managers (aws : bool) (env : server_env) (w : start_world) : result (any_manager * any_manager) KeyManagerError :=
  let? signer := choose_manager aws env (sw_master_key w) in
  let? api := choose_manager aws env (sw_master_key w) in
  Ok (signer, api).
(** What follows the registration.  The two tasks run side by side, and the
    first that panics ends the process. *)
Definition start_services (aws : bool) (env : server_env) (w : start_world) : start_result :=
  match sw_redis w with
  | Err e => StartFailed e
  | Ok _ =>
      match secret_managers aws env w with
      | Err e => StartFailed (key_manager_error_str e)
      | Ok _ =>
          match keys_parse (default "" (sv_server_nsec env)) with
          | Err e => StartFailed ("Invalid SERVER_NSEC: " +:+ e +:+ ". Must be valid hex (64 chars) or nsec bech32.")
          | Ok _ =>
              match bind_listener w, signer_task w with
              | Some msg, _ | None, Some msg => StartPanicked msg
              | None, None => Serving
              end
          end
      end
  end.
(** The outcome, and whether the instance is registered in Redis. *)
Definition async_main (aws : bool) (env : server_env) (w : start_world) : start_result * bool :=
  match validate_environment env with
  | Err e => (ExitedWith 1 e, false)
  | Ok _ =>
      match fst (database_new (sw_parse w) (sv_database_url env) (sw_statement_cache w) (sw_pool_size w) (sw_connect w)) with
      | DatabasePanic msg => (StartPanicked msg, false)
      | NotInitialized _ => (StartFailed "database", false)
      | Initialized _ =>
          match sw_coordinator w with
          | (Err e, registered) => (StartFailed e, registered)
          | (Ok _, _) => (start_services aws env w, true)
          end
      end
  end.

Lemma relays_configured bunker_relays :
  is_Some (get_bunker_relays bunker_relays) <->
  exists relays, bunker_relays = Some relays /\ exists r, r ∈ map trim (split "," relays) /\ r <> "".
Proof.
  unfold get_bunker_relays. destruct bunker_relays as [relays|]; [|by split; [intros [? ?]|intros (? & ? & _)]].
  set (keep := fun s => negb (bool_decide (s = ""))). split.
  - destruct (List.filter keep (map trim (split "," relays))) as [|r l] eqn:E; [by intros [? ?]|]. intros _. exists relays. split; [done|].
    exists r. assert (Hr : In r (List.filter keep (map trim (split "," relays)))) by (rewrite E; by left).
    apply filter_In in Hr as [Hr Hk]. split; [by apply list_elem_of_In|]. unfold keep in Hk. by bool_to_prop.
  - intros (? & [= <-] & r & Hr & Hne). destruct (List.filter keep (map trim (split "," relays))) as [|r' l] eqn:E; [|done].
    exfalso. assert (H : In r []); [|done]. rewrite <- E. apply filter_In. split; [by apply list_elem_of_In|]. unfold keep. by rewrite bool_decide_false.
Qed.

Lemma signer_task_runs w :
  signer_task w = None <->
  is_ok (sw_subscribe w) = true /\
  exists relays, sw_bunker_relays w = Some relays /\ exists r, r ∈ map trim (split "," relays) /\ r <> "".
Proof.
  rewrite <- relays_configured. unfold signer_task, connect_to_relays, signer_bunker_relays. destruct (get_bunker_relays (sw_bunker_relays w)); simpl.
  - destruct (sw_subscribe w); simpl; naive_solver.
  - split; [done|]. by intros [_ [? ?]].
Qed.

(** A start that validation lets pass, with a database and a cluster, serves
    exactly when the connection, the keys, SERVER_NSEC, a socket, the subscription
    and BUNKER_RELAYS are in order; when one is not it ends, and is registered all
    the same. *)
Theorem start_serves aws env w pool :
  validate_environment env = Ok tt ->
  fst (database_new (sw_parse w) (sv_database_url env) (sw_statement_cache w) (sw_pool_size w) (sw_connect w)) = Initialized pool ->
  is_ok (fst (sw_coordinator w)) = true ->
  snd (async_main aws env w) = true /\
  (fst (async_main aws env w) = Serving <->
     is_ok (sw_redis w) = true /\ is_ok (choose_manager aws env (sw_master_key w)) = true /\
     is_ok (keys_parse (default "" (sv_server_nsec env))) = true /\
     is_ok (sw_bind_dual w) || is_ok (sw_bind_ipv4 w) = true /\ is_ok (sw_subscribe w) = true /\
     exists relays, sw_bunker_relays w = Some relays /\ exists r, r ∈ map trim (split "," relays) /\ r <> "").
Proof.
  intros Hv Hd Hc. unfold async_main. rewrite Hv, Hd. destruct (sw_coordinator w) as [[[]|e] reg]; [|done]. split; [done|].
  simpl. unfold start_services, secret_managers. destruct (sw_redis w); [|by split; [|intros [? _]]]. simpl.
  destruct (choose_manager aws env (sw_master_key w)); simpl; [|by split; [|intros (_ & ? & _)]].
  destruct (keys_parse _); simpl; [|by split; [|intros (_ & _ & ? & _)]]. rewrite <- signer_task_runs. unfold bind_listener.
  destruct (sw_bind_dual w), (sw_bind_ipv4 w), (signer_task w); simpl; naive_solver.
Qed.
End start.

(** ** Pages outside the API

    The files of the web build: the text of index.html when it can be read, and
    what the file server finds for a path. *)
Record web_files : Type := { wf_index : option string; wf_file : string -> option string }.
Inductive web_response : Type :=
| AppPage (content : string)
| StaticFile (content : string)
| JsonFile (content : string)
| RedirectTo (url : string)
| ApiRequest (path : string)
| Discovery
| ExampleFile (content : option string)
| HealthOk
| NotFoundPage.
Definition parse_bool (s : string) : option bool :=
  if bool_decide (s = "true") then Some true else if bool_decide (s = "false") then Some false else None.
Definition flag (env : option string) : bool := default false (parse_bool (default "false" env)).

Section pages.
Context `{HN : Nostr, HS : !Serde}.
Definition inject_handler (env : page_env) (files : web_files) : web_response :=
  match wf_index files with Some content => AppPage (inject_runtime_env env content) | None => NotFoundPage end.
Definition redirect_handler (redirect_url : option string) : web_response :=
  match redirect_url with Some url => RedirectTo url | None => NotFoundPage end.
Definition frontend (disable_web_ui : bool) (redirect_url : option string) (env : page_env) (files : web_files) (path : string) : web_response :=
  if disable_web_ui then
    if bool_decide (path = "/") || bool_decide (path = "/index.html") then redirect_handler redirect_url
    else if bool_decide (path = "/verify-email") then inject_handler env files
    else match wf_file files path with Some content => StaticFile content | None => redirect_handler redirect_url end
  else
    if bool_decide (path = "/") || bool_decide (path = "/index.html") then inject_handler env files
    else match wf_file files path with Some content => StaticFile content | None => inject_handler env files end.
(** apple_app_site_association and assetlinks_json *)
Definition association_file (content : option string) : web_response :=
  match content with Some c => JsonFile c | None => NotFoundPage end.
Definition health_paths : list string := ["/health"; "/healthz/startup"; "/healthz/ready"].
Definition discovery_paths : list string := ["/.well-known/nostr.json"; "/.well-known/oauth-authorization-server"].
(** The rest of a path below a nested router or service. *)
Definition nested (prefix path : string) : option string :=
  rest ← strip_prefix prefix path; if bool_decide (rest = "") || starts_with "/" rest then Some rest else None.
(** The directory of the examples, and that of the client library when it
    exists, with ENABLE_EXAMPLES. *)
Record example_files : Type := { ef_examples : string -> option string; ef_dist : option (string -> option string) }.
Definition examples_get (enable_examples : bool) (ex : example_files) (path : string) : option web_response :=
  if enable_examples then
    match nested "/examples" path, nested "/dist" path, ef_dist ex with
    | Some rest, _, _ => Some (ExampleFile (ef_examples ex rest))
    | None, Some rest, Some dist => Some (ExampleFile (dist rest))
    | _, _, _ => None
    end
  else None.
(** A GET of the program's root router; [association] are the files of the two
    app stores. *)
Definition root_get (disable_web_ui enable_examples : bool) (redirect_url : option string) (env : page_env) (files : web_files)
    (ex : example_files) (association : string -> option string) (path : string) : web_response :=
  if bool_decide (path ∈ health_paths) then HealthOk
  else if bool_decide (path ∈ discovery_paths) then Discovery
  else if bool_decide (path = "/.well-known/apple-app-site-association") || bool_decide (path = "/.well-known/assetlinks.json")
  then association_file (association path)
  else
    match nested "/api" path with
    | Some rest => ApiRequest rest
    | None => default (frontend disable_web_ui redirect_url env files path) (examples_get enable_examples ex path)
    end.

(** With DISABLE_WEB_UI the application page is served for the verification of an
    email only; any other path is a file the file server finds, the redirect or
    an error. *)
Theorem disabled_ui_hidden enable_examples redirect_url env files ex association path content :
  root_get true enable_examples redirect_url env files ex association path = AppPage content -> path = "/verify-email".
Proof.
  unfold root_get, frontend, association_file, redirect_handler, examples_get.
  repeat (case_bool_decide; simpl); try done; repeat (case_match; simpl in *; simplify_eq); done.
Qed.
End pages.

(** ** Shutdown *)
Inductive shutdown_step : Type :=
| NotifyApi
| CloseTracker
| ShutdownSignerClient
| WaitForApi (limit_ms : Z)
| WaitForTasks (limit_ms : Z)
| ClosePool.
Definition graceful_shutdown : list shutdown_step :=
  [NotifyApi; CloseTracker; ShutdownSignerClient; WaitForApi 15000; WaitForTasks 10000; ClosePool].
(** The time a step takes when what it waits for takes [t] milliseconds, or
    never ends. *)
Definition step_time (s : shutdown_step) (t : option Z) : option Z :=
  match s with
  | NotifyApi | CloseTracker => Some 0
  | WaitForApi limit | WaitForTasks limit => Some (match t with Some t => Z.min t limit | None => limit end)
  | ShutdownSignerClient | ClosePool => t
  end.
Fixpoint time_of (l : list shutdown_step) (t : shutdown_step -> option Z) : option Z :=
  match l with
  | [] => Some 0
  | s :: l' => a ← step_time s (t s); b ← time_of l' t; Some (a + b)
  end.
(** The waits are bounded by twenty-five seconds; the disconnection from the
    relays before them and the end of the pool after them are not. *)
Lemma shutdown_time t client pool :
  t ShutdownSignerClient = Some client -> t ClosePool = Some pool ->
  exists total, time_of graceful_shutdown t = Some total /\ total <= client + 25000 + pool.
Proof.
  intros Hc Hp. simpl. rewrite Hc, Hp. simpl. eexists. split; [done|].
  destruct (t (WaitForApi 15000)), (t (WaitForTasks 10000)); lia.
Qed.

Section shutdown.
Context `{HA : AnchorHash, HI : !HashSetIter, HP : PubSubJson}.
(** None of the steps calls the coordinator, so that the cluster sees the end
    of the process as it sees a crash. *)
Definition shutdown_cluster (id : string) (c : cluster) : option cluster := exec (Crash id) c.

(** After a graceful shutdown the keys of the instance are handled by nobody: the
    others, whose rings named them all, keep it in their rings, and for thirty
    seconds after its last heartbeat Redis answers their syncs with it. *)
Theorem shutdown_orphans_keys `{!AnchorHashLaws} c c' (S : gset string) id m key :
  steps cluster_step no_cluster c -> Z.of_nat (size S) <= u16_MAX ->
  (forall i, i ∈ S -> exists mi, cl_members c !! i = Some mi /\ current_instances (co_ring (mb_coord mi)) = S) ->
  id ∈ S -> cl_members c !! id = Some m -> ring_should_handle (co_ring (mb_coord m)) key = true ->
  shutdown_cluster id c = Some c' ->
  cl_members c' !! id = None /\
  (forall other m', other ∈ S -> cl_members c' !! other = Some m' ->
     id ∈ current_instances (co_ring (mb_coord m')) /\ ring_should_handle (co_ring (mb_coord m')) key = false) /\
  (forall now t, cl_redis c !! id = Some t -> now <= t + 30000 -> id ∈ get_active_instances now (cl_redis c')).
Proof.
  intros Hs Hsz Hall Hin Hm Hown He. unfold shutdown_cluster in He. simpl in He. unfold crash in He.
  apply act_Some in He as (m0 & Hm0 & _ & ->). simpl. split; [apply lookup_delete_eq|]. split.
  - destruct (rings_agree c S key (reachable_ok c Hs)) as (owner & _ & Ho); [set_solver|done|done|].
    rewrite (Ho id m Hin Hm) in Hown. apply bool_decide_eq_true in Hown as <-.
    intros other m' Hother [Hne Hm']%lookup_delete_Some. destruct (Hall other Hother) as (mi & Hmi & Hr).
    rewrite Hm' in Hmi. injection Hmi as <-. split; [by rewrite Hr|]. rewrite (Ho other m' Hother Hm').
    apply bool_decide_eq_false. congruence.
  - intros now t Ht Hn. apply get_active_elem. exists t. split; [done|]. unfold cutoff, STALE_THRESHOLD_SECS. lia.
Qed.
End shutdown.

(** ** Examples *)
Definition toy_running : cluster := toy_cluster (toy_actions ++ toy_syncs).
Definition toy_owner : string :=
  if match cl_members toy_running !! "a" with Some m => ring_should_handle (co_ring (mb_coord m)) "key" | None => false end then "a" else "b".
Lemma toy_rings i :
  i ∈ toy_pair_members -> exists mi, cl_members toy_running !! i = Some mi /\ current_instances (co_ring (mb_coord mi)) = toy_pair_members.
Proof.
  intros [-> | ->]%toy_members_elem.
  - destruct (cl_members toy_running !! "a") as [m|] eqn:E; [|vm_compute in E; discriminate E].
    exists m. split; [done|]. vm_compute in E. injection E as <-. vm_compute. reflexivity.
  - destruct (cl_members toy_running !! "b") as [m|] eqn:E; [|vm_compute in E; discriminate E].
    exists m. split; [done|]. vm_compute in E. injection E as <-. vm_compute. reflexivity.
Qed.
Lemma shutdown_orphans_keys_witness :
  exists m c', cl_members toy_running !! toy_owner = Some m /\ shutdown_cluster toy_owner toy_running = Some c' /\
    ring_should_handle (co_ring (mb_coord m)) "key" = true /\
    forall other m', other ∈ toy_pair_members -> cl_members c' !! other = Some m' ->
      toy_owner ∈ current_instances (co_ring (mb_coord m')) /\ ring_should_handle (co_ring (mb_coord m')) "key" = false.
Proof.
  destruct (cl_members toy_running !! toy_owner) as [m|] eqn:Em; [|vm_compute in Em; discriminate Em].
  destruct (shutdown_cluster toy_owner toy_running) as [c'|] eqn:Ec; [|vm_compute in Ec; discriminate Ec].
  assert (Ho : ring_should_handle (co_ring (mb_coord m)) "key" = true).
  { assert (H : (fun m => ring_should_handle (co_ring (mb_coord m)) "key") <$> (cl_members toy_running !! toy_owner) = Some true)
      by (vm_compute; reflexivity). rewrite Em in H. by injection H. }
  exists m, c'. split; [exact eq_refl|]. split; [exact eq_refl|]. split; [exact Ho|].
  refine (proj1 (proj2 (shutdown_orphans_keys toy_running c' toy_pair_members toy_owner m "key" _ _ toy_rings _ Em Ho Ec))).
  - apply toy_reachable. vm_compute. reflexivity.
  - vm_compute. discriminate.
  - refine (bool_decide_eq_true_1 (toy_owner ∈ toy_pair_members) _). vm_compute. reflexivity.
Defined.
