(* ===== verification/TenantQuery.v ===== *)
(** * Queries scoped to a tenant

    core/src/tenant_query.rs, helpers that the rest of the program does not use: the
    filter that is added to the text of a query, and the two ways to run it, with
    what each of them binds.  A statement is its text and its parameters in order;
    the database runs it when there is a parameter for every placeholder. *)
From S2P Require Import Prelude RustStr External Instances.

Record TenantId : Type := mkTenantId { as_i64 : Z }.
Inductive query_param : Type := TextParam (s : string) | IntParam (n : Z).
Definition statement : Type := string * list query_param.
Record TenantSelect : Type := { tq_tenant_id : TenantId; tq_sql : string; tq_bindings : list query_param }.

Section query.
Context `{HU : Unicode}.
Definition inject_tenant_filter_sql (sql : string) : string :=
  let sql_upper := to_uppercase sql in
  if contains "WHERE" sql_upper then sql +:+ " AND tenant_id = ?"
  else if contains "FROM" sql_upper then sql +:+ " WHERE tenant_id = ?"
  else sql +:+ " WHERE tenant_id = ?".
Definition tenant_select_new (tenant_id : TenantId) (sql : string) : TenantSelect :=
  {| tq_tenant_id := tenant_id; tq_sql := sql; tq_bindings := [] |}.
Definition tenant_select_bind (value : query_param) (q : TenantSelect) : TenantSelect :=
  {| tq_tenant_id := tq_tenant_id q; tq_sql := tq_sql q; tq_bindings := tq_bindings q ++ [value] |}.
(** [fetch_one] and [fetch_all]: the loop over the bindings does nothing. *)
Definition tenant_select_statement (q : TenantSelect) : statement :=
  (inject_tenant_filter_sql (tq_sql q), [IntParam (as_i64 (tq_tenant_id q))]).
(** The macro. *)
Definition tenant_query (tenant_id : TenantId) (sql : string) (bind : list query_param) : statement :=
  (sql +:+ " " +:+ (if contains "WHERE" (to_uppercase sql) then "AND" else "WHERE") +:+ " tenant_id = ?",
   bind ++ [IntParam (as_i64 tenant_id)]).

(** ** Placeholders *)
Fixpoint placeholders (s : string) : nat :=
  match s with EmptyString => O | String c s' => ((if bool_decide (c = "?"%char) then 1 else 0) + placeholders s')%nat end.
Definition complete (st : statement) : Prop := placeholders (fst st) = length (snd st).
Lemma placeholders_app a b : placeholders (a +:+ b) = (placeholders a + placeholders b)%nat.
Proof.
  induction a as [|c a IH]; [done|]. simpl. change (String c a +:+ b) with (String c (a +:+ b)). simpl. rewrite IH. lia.
Qed.
Lemma inject_one_rule sql :
  inject_tenant_filter_sql sql = sql +:+ " " +:+ (if contains "WHERE" (to_uppercase sql) then "AND" else "WHERE") +:+ " tenant_id = ?".
Proof. unfold inject_tenant_filter_sql. by destruct (contains "WHERE" (to_uppercase sql)), (contains "FROM" (to_uppercase sql)). Qed.
Lemma inject_placeholders sql : placeholders (inject_tenant_filter_sql sql) = S (placeholders sql).
Proof. rewrite inject_one_rule, !placeholders_app. destruct (contains "WHERE" (to_uppercase sql)); simpl; lia. Qed.

(** The macro and the builder write the same text.  A query of the macro has a
    parameter for every placeholder exactly when the caller gives one for each of
    their own; a query of the builder only when the caller's text has none, however
    many were bound, because the bindings are dropped. *)
Theorem scoped_statements tenant_id sql params :
  let q := foldl (flip tenant_select_bind) (tenant_select_new tenant_id sql) params in
  fst (tenant_query tenant_id sql params) = fst (tenant_select_statement q) /\
  tq_bindings q = params /\
  (complete (tenant_query tenant_id sql params) <-> placeholders sql = length params) /\
  (complete (tenant_select_statement q) <-> placeholders sql = O).
Proof.
  assert (Hq : forall q0, let q := foldl (flip tenant_select_bind) q0 params in
    tq_sql q = tq_sql q0 /\ tq_tenant_id q = tq_tenant_id q0 /\ tq_bindings q = tq_bindings q0 ++ params).
  { induction params as [|p l IH]; intros q0; simpl; [by rewrite app_nil_r|]. destruct (IH (tenant_select_bind p q0)) as (-> & -> & ->).
    simpl. by rewrite <- app_assoc. }
  destruct (Hq (tenant_select_new tenant_id sql)) as (H1 & H2 & H3). simpl in *.
  unfold complete, tenant_select_statement. rewrite H1, H3. simpl. rewrite <- inject_one_rule, inject_placeholders, length_app. simpl.
  split; [done|]. split; [done|]. lia.
Qed.
End query.
