(* ===== verification/LoadTest.v ===== *)
(** * The load test tool

    tools/loadtest/src/: the choice of the user of a request, the loop of the
    workers, the counters of the results, what the client makes of an answer, the
    reading of the server's metrics, and the registration of a user with the OAuth
    flow.  The server is an argument: what it answers to a request.  The histogram of
    the latencies is an argument too; the printed report is left out. *)
From S2P Require Import Prelude RustStr External Instances OAuthRepo OAuth RateLimit Accounts Server Metrics.

(** ** Users *)
Inductive TestScenario : Type := WarmCache | ColdStart | Mixed.
Inductive RpcMethod : Type := SignEvent | GetPublicKey | Nip44Encrypt | Register.
Inductive SetupMode : Type := ModeDb | ModeHttp.
Definition setup_mode (mode : option SetupMode) (url : string) (database_url : option string) : SetupMode :=
  match mode with
  | Some m => m
  | None => if (contains "localhost" url || contains "127.0.0.1" url) && negb (is_null database_url) then ModeDb else ModeHttp
  end.
Definition hot_count (users : Z) : Z := if users =? 0 then 1 else Z.max (users / 10) 1.
Definition select_user_index (users : Z) (scenario : TestScenario) (request_num hot : Z) : Z :=
  match scenario with
  | WarmCache => 0
  | ColdStart => request_num mod users
  | Mixed =>
      if users <=? hot then request_num mod users
      else if negb (request_num mod 5 =? 0) then request_num mod hot
      else hot + request_num mod (users - hot)
  end.

(** ** Workers *)
(** The wait of a worker at the start, in milliseconds. *)
Definition worker_delay (ramp_up_ms concurrency worker_id : Z) : Z :=
  if 1 <? concurrency then ramp_up_ms * worker_id / (concurrency - 1) else 0.
(** The checks at the head of the loop; times in microseconds. *)
Definition goes_on (elapsed duration max_requests counter : Z) : bool :=
  negb (duration <? elapsed) && negb ((0 <? max_requests) && (max_requests <=? counter)).
(** The workers: at the head of the loop, past its checks, or at the end; and the
    numbers of the requests that were sent. *)
Record load_state : Type := { ls_counter : Z; ls_idle : Z; ls_ready : Z; ls_sent : list Z }.
Definition load_start (concurrency : Z) : load_state := {| ls_counter := 0; ls_idle := concurrency; ls_ready := 0; ls_sent := [] |}.
Inductive load_step (duration max_requests : Z) : load_state -> load_state -> Prop :=
| worker_passes elapsed s : 0 < ls_idle s -> goes_on elapsed duration max_requests (ls_counter s) = true ->
    load_step duration max_requests s
      {| ls_counter := ls_counter s; ls_idle := ls_idle s - 1; ls_ready := ls_ready s + 1; ls_sent := ls_sent s |}
| worker_sends s : 0 < ls_ready s ->
    load_step duration max_requests s
      {| ls_counter := ls_counter s + 1; ls_idle := ls_idle s + 1; ls_ready := ls_ready s - 1; ls_sent := ls_sent s ++ [ls_counter s] |}
| worker_ends elapsed s : 0 < ls_idle s -> goes_on elapsed duration max_requests (ls_counter s) = false ->
    load_step duration max_requests s
      {| ls_counter := ls_counter s; ls_idle := ls_idle s - 1; ls_ready := ls_ready s; ls_sent := ls_sent s |}.

(** ** Results *)
Record RequestResult : Type := { rr_duration : Z; rr_success : bool; rr_status : option Z; rr_error : option string }.
Section load_metrics.
Variables (Histogram : Type) (hist_record : Z -> Histogram -> Histogram).
Record LoadMetrics : Type := {
  lm_latency : Histogram; lm_total : Z; lm_success : Z; lm_error : Z; lm_auth : Z; lm_server : Z; lm_client : Z; lm_network : Z;
  lm_hits : Z; lm_misses : Z;
}.
Definition wrapping_inc (n : Z) : Z := (n + 1) mod 2 ^ 64.
Definition bump (b : bool) (n : Z) : Z := if b then wrapping_inc n else n.
(** Which counter of errors, 4 for none. *)
Definition error_class (status : option Z) : Z :=
  match status with
  | None => 3
  | Some s => if (s =? 401) || (s =? 403) then 0 else if 500 <=? s then 1 else if 400 <=? s then 2 else 4
  end.
(** [free]: whether nobody holds the lock of the histogram. *)
Definition record_request (free : bool) (r : RequestResult) (m : LoadMetrics) : LoadMetrics :=
  let micros := rr_duration r in
  let failed class := negb (rr_success r) && (error_class (rr_status r) =? class) in
  {| lm_latency := if free then hist_record micros (lm_latency m) else lm_latency m;
     lm_total := wrapping_inc (lm_total m);
     lm_success := bump (rr_success r) (lm_success m);
     lm_error := bump (negb (rr_success r)) (lm_error m);
     lm_auth := bump (failed 0) (lm_auth m); lm_server := bump (failed 1) (lm_server m);
     lm_client := bump (failed 2) (lm_client m); lm_network := bump (failed 3) (lm_network m);
     lm_hits := bump (rr_success r && (micros <? 15000)) (lm_hits m);
     lm_misses := bump (rr_success r && negb (micros <? 15000)) (lm_misses m) |}.
End load_metrics.

(** ** The client

    An answer: its status, its cookies (each when it is text), its body as JSON or
    the error of reading it, and its text when it can be read. *)
Inductive reply (B : Type) : Type :=
| Reply (status : Z) (set_cookie : list (option string)) (body : result B string) (text : option string)
| SendFailed (e : string).
Arguments Reply {B} status set_cookie body text.
Arguments SendFailed {B} e.
Definition is_success (status : Z) : bool := (200 <=? status) && (status <=? 299).
(** [RpcClient::call]; the body is the member error of the answer. *)
Definition call_result (duration : Z) (r : reply (option string)) : RequestResult :=
  match r with
  | Reply status _ body text =>
      if is_success status then
        match body with
        | Ok error => {| rr_duration := duration; rr_success := is_null error; rr_status := Some status; rr_error := error |}
        | Err e => {| rr_duration := duration; rr_success := false; rr_status := Some status; rr_error := Some ("Failed to parse response: " +:+ e) |}
        end
      else {| rr_duration := duration; rr_success := false; rr_status := Some status; rr_error := Some (default "Unknown error" text) |}
  | SendFailed e => {| rr_duration := duration; rr_success := false; rr_status := None; rr_error := Some e |}
  end.

(** [str::lines]: the pieces, without the carriage return before a line feed and
    without an empty piece at the end. *)
Definition strip_cr (s : string) : string := default s (strip_suffix (String "013" "") s).
Definition text_lines (text : string) : list string :=
  let l := split nl text in map strip_cr (removelast l) ++ match last l with None | Some "" => [] | Some s => [s] end.
Definition read_metric (m : gmap string Z) (l : string) : gmap string Z :=
  if starts_with "#" l || bool_decide (l = "") then m
  else match split_whitespace l with
       | name :: v :: _ => match parse_u64 v with Some n => <[name := n]> m | None => m end
       | _ => m
       end.
Definition parse_prometheus_metrics (text : string) : gmap string Z := foldl read_metric ∅ (text_lines text).
Record ServerMetrics : Type := {
  sm_requests_total : Z; sm_cache_hits : Z; sm_cache_misses : Z; sm_cache_size : Z; sm_success : Z; sm_auth_errors : Z }.
Definition server_metrics_parse (text : string) : ServerMetrics :=
  let parsed := parse_prometheus_metrics text in
  {| sm_requests_total := default 0 (parsed !! "keycast_http_rpc_requests_total");
     sm_cache_hits := default 0 (parsed !! "keycast_http_rpc_cache_hits_total");
     sm_cache_misses := default 0 (parsed !! "keycast_http_rpc_cache_misses_total");
     sm_cache_size := default 0 (parsed !! "keycast_http_rpc_cache_size");
     sm_success := default 0 (parsed !! "keycast_http_rpc_success_total");
     sm_auth_errors := default 0 (parsed !! "keycast_http_rpc_auth_errors_total") |}.
(** Hits and misses of the test: what was counted between two readings. *)
Definition saturating_sub (a b : Z) : Z := Z.max 0 (a - b).
Definition cache_traffic (before after : ServerMetrics) : Z * Z :=
  (saturating_sub (sm_cache_hits after) (sm_cache_hits before), saturating_sub (sm_cache_misses after) (sm_cache_misses before)).

(** ** Registration *)
Record LoadApprove : Type := {
  la_approved : bool; la_client_id : string; la_redirect_uri : string; la_scope : string; la_code_challenge : string;
  la_code_challenge_method : string }.
Record LoadToken : Type := {
  lt_grant_type : string; lt_code : string; lt_client_id : string; lt_redirect_uri : string; lt_code_verifier : string }.
Record RegistrationResult : Type := { rg_success : bool; rg_pubkey : option string; rg_ucan_token : option string; rg_error : option string }.
Definition registration_failed (pubkey : option string) (e : string) : RegistrationResult :=
  {| rg_success := false; rg_pubkey := pubkey; rg_ucan_token := None; rg_error := Some e |}.
Definition extract_session_cookie (set_cookie : list (option string)) : option string :=
  find_map (fun cookie => s ← cookie; rest ← strip_prefix "keycast_session=" s; head (split ";" rest)) set_cookie.

Section registration.
Context `{HD : Digests}.
(** [verifier] is the encoding of 32 bytes drawn at random. *)
Definition generate_pkce (verifier : string) : string * string := (verifier, sha256_b64url verifier).
Definition approve_request (base_url challenge : string) : LoadApprove := {|
  la_approved := true; la_client_id := "loadtest"; la_redirect_uri := base_url +:+ "/callback"; la_scope := "policy:social";
  la_code_challenge := challenge; la_code_challenge_method := "S256" |}.
Definition token_request (base_url code verifier : string) : LoadToken := {|
  lt_grant_type := "authorization_code"; lt_code := code; lt_client_id := "loadtest"; lt_redirect_uri := base_url +:+ "/callback";
  lt_code_verifier := verifier |}.
(** [approve] answers POST /api/oauth/authorize with the cookie, [token] POST
    /api/oauth/token. *)
Definition complete_oauth_flow (base_url verifier session_token : string)
    (approve : string -> LoadApprove -> reply string) (token : LoadToken -> reply (option string)) : result string string :=
  let '(code_verifier, code_challenge) := generate_pkce verifier in
  match approve ("keycast_session=" +:+ session_token) (approve_request base_url code_challenge) with
  | SendFailed e => Err e
  | Reply status _ body text =>
      if negb (is_success status) then Err ("OAuth authorize failed: " +:+ default "" text)
      else
        let? code := body in
        match token (token_request base_url code code_verifier) with
        | SendFailed e => Err e
        | Reply status' _ body' text' =>
            if negb (is_success status') then Err ("OAuth token exchange failed: " +:+ default "" text')
            else let? access_token := body' in ok_or access_token "No access_token in response"
        end
  end.
(** [answer] is the server's to POST /api/auth/register, its body the key. *)
Definition register_user (base_url verifier : string) (answer : reply string)
    (approve : string -> LoadApprove -> reply string) (token : LoadToken -> reply (option string)) : RegistrationResult :=
  match answer with
  | SendFailed e => registration_failed None e
  | Reply status set_cookie body text =>
      if is_success status then
        match body with
        | Err e => registration_failed None ("Failed to parse response: " +:+ e)
        | Ok pubkey =>
            match extract_session_cookie set_cookie with
            | None => registration_failed (Some pubkey) "No session token in response"
            | Some session_token =>
                match complete_oauth_flow base_url verifier session_token approve token with
                | Ok access_token => {| rg_success := true; rg_pubkey := Some pubkey; rg_ucan_token := Some access_token; rg_error := None |}
                | Err e => registration_failed (Some pubkey) ("OAuth flow failed: " +:+ e)
                end
            end
        end
      else registration_failed None (default "Unknown error" text)
  end.
Definition register_timed (duration : Z) (r : RegistrationResult) : RequestResult := {|
  rr_duration := duration; rr_success := rg_success r; rr_status := Some (if rg_success r then 201 else 500); rr_error := rg_error r |}.
End registration.

(** ** Requests and setup *)
Record TestUser : Type := { tu_pubkey : string; tu_email : string; tu_ucan_token : string }.
(** The method and parameters of a request; [recipient] is a fresh key.  [None] is
    the branch that registrations never take. *)
Definition request_body (now : Z) (recipient : string) (user : TestUser) (method : RpcMethod) : option (string * list json) :=
  match method with
  | GetPublicKey => Some ("get_public_key", [])
  | SignEvent => Some ("sign_event",
      [JObject [("content", JString ("Load test " +:+ print_Z now)); ("created_at", JInt now); ("kind", JInt 1);
                ("pubkey", JString (tu_pubkey user)); ("tags", JArray [])]])
  | Nip44Encrypt => Some ("nip44_encrypt", [JString recipient; JString "test message for load testing"])
  | Register => None
  end.
(** The users of the registrations that succeeded, in the order of their numbers. *)
Definition setup_user (run_id : Z) (i : Z) (r : RegistrationResult) : option TestUser :=
  if rg_success r then Some {| tu_pubkey := default "" (rg_pubkey r);
    tu_email := "lt" +:+ print_Z run_id +:+ "-" +:+ print_Z i +:+ "@test.local"; tu_ucan_token := default "" (rg_ucan_token r) |}
  else None.
Definition setup_http_mode (run_id : Z) (results : list RegistrationResult) : result (list TestUser) string :=
  match omap (fun x => x) (imap (fun i r => setup_user run_id (Z.of_nat i) r) results) with
  | [] => Err "Failed to create any users"
  | users => Ok users
  end.

(** ** The choice of users *)
Lemma select_in_range users scenario k :
  0 < users -> 0 <= k -> 0 <= select_user_index users scenario k (hot_count users) < users.
Proof.
  intros Hu Hk. unfold hot_count. destruct (Z.eqb_spec users 0); [lia|]. set (hot := Z.max (users / 10) 1).
  assert (Hh : 1 <= hot) by lia. unfold select_user_index. destruct scenario; [lia|apply Z.mod_pos_bound; lia|].
  destruct (Z.leb_spec users hot); [apply Z.mod_pos_bound; lia|]. destruct (k mod 5 =? 0).
  - simpl. pose proof (Z.mod_pos_bound k (users - hot)). lia.
  - simpl. pose proof (Z.mod_pos_bound k hot). lia.
Qed.
Lemma mod_divide k n d : 0 < d -> 0 < n -> (d | n) -> (k mod n) mod d = k mod d.
Proof. intros Hd Hn [q ->]. rewrite Z.mul_comm, Z.rem_mul_r by lia. rewrite Z.mul_comm, Z.mod_add by lia. by rewrite Z.mod_mod by lia. Qed.

(** Every fifth request of the mixed scenario goes to a cold user, the others to
    hot ones.  When five divides the number of hot users, every fifth of them is
    never used; when it divides the number of cold users, only every fifth of them
    is: with the default of a hundred users, seventy-four get no request. *)
Theorem mixed_users users k :
  let hot := hot_count users in
  let i := select_user_index users Mixed k hot in
  hot < users -> 0 <= k ->
  (hot <= i <-> k mod 5 = 0) /\
  ((5 | hot) -> i < hot -> i mod 5 <> 0) /\
  ((5 | users - hot) -> hot <= i -> (i - hot) mod 5 = 0).
Proof.
  intros hot i Hlt Hk. assert (Hh : 1 <= hot) by (unfold hot, hot_count; destruct (users =? 0); lia).
  unfold i, select_user_index. destruct (Z.leb_spec users hot); [lia|].
  pose proof (Z.mod_pos_bound k hot ltac:(lia)). pose proof (Z.mod_pos_bound k (users - hot) ltac:(lia)).
  destruct (Z.eqb_spec (k mod 5) 0) as [E|E]; simpl.
  - split_and!; [by split; [|lia]|lia|]. intros Hd _. rewrite Z.add_simpl_l, mod_divide by (done || lia). done.
  - split_and!; [by split; [lia|]| |lia]. intros Hd _. by rewrite mod_divide by (done || lia).
Qed.

Lemma mixed_users_witness : (select_user_index 100 Mixed 35 (hot_count 100) - 10) mod 5 = 0.
Proof.
  apply (mixed_users 100 35); [reflexivity|discriminate|exists 18; reflexivity|vm_compute; discriminate].
Defined.

(** ** The workers *)
Record load_inv (max_requests concurrency : Z) (s : load_state) : Prop := {
  li_idle : 0 <= ls_idle s; li_ready : 0 <= ls_ready s; li_workers : ls_idle s + ls_ready s <= concurrency;
  li_bound : 0 < max_requests -> ls_counter s + ls_ready s <= max_requests - 1 + concurrency;
  li_sent : ls_sent s = map Z.of_nat (seq 0 (Z.to_nat (ls_counter s))); li_counter : 0 <= ls_counter s;
}.
Lemma load_steps_inv duration max_requests concurrency s :
  0 <= concurrency -> steps (load_step duration max_requests) (load_start concurrency) s -> load_inv max_requests concurrency s.
Proof.
  intros Hc Hs. refine (steps_invariant _ (load_inv max_requests concurrency) _ _ _ Hs _).
  - intros s0 s' Hst [Hi0 Hr0 Hw Hb Hsent Hcnt]. destruct Hst as [elapsed s0 Hi Hg|s0 Hr|elapsed s0 Hi Hg]; split; simpl; try lia; try done.
    + intros Hm. unfold goes_on in Hg. lia.
    + rewrite Hsent. replace (Z.to_nat (ls_counter s0 + 1)) with (S (Z.to_nat (ls_counter s0))) by lia.
      rewrite seq_S, map_app. simpl. by rewrite Z2Nat.id.
  - split; simpl; try lia. done.
Qed.

Section runs.
Variables (duration max_requests : Z).
Hypothesis duration_nonneg : 0 <= duration.
Notation run := (steps (load_step duration max_requests)).
Lemma goes_on_below c : c < max_requests -> goes_on 0 duration max_requests c = true.
Proof. intros Hc. unfold goes_on. lia. Qed.
Lemma sends n s : Z.of_nat n <= ls_ready s ->
  exists s', run s s' /\ ls_counter s' = ls_counter s + Z.of_nat n /\ ls_idle s' = ls_idle s + Z.of_nat n /\ ls_ready s' = ls_ready s - Z.of_nat n.
Proof.
  revert s. induction n as [|n IH]; intros s Hn; [exists s; split; [constructor|lia]|].
  pose proof (worker_sends duration max_requests s ltac:(lia)) as Hst.
  match type of Hst with load_step _ _ _ ?t => destruct (IH t) as (s' & Hr & H1 & H2 & H3); [simpl; lia|] end.
  exists s'. split; [by eapply steps_app; [apply steps_one, Hst|exact Hr]|]. simpl in *. lia.
Qed.
Lemma passes n s : Z.of_nat n <= ls_idle s -> ls_counter s < max_requests ->
  exists s', run s s' /\ ls_counter s' = ls_counter s /\ ls_idle s' = ls_idle s - Z.of_nat n /\ ls_ready s' = ls_ready s + Z.of_nat n.
Proof.
  revert s. induction n as [|n IH]; intros s Hn Hc; [exists s; split; [constructor|lia]|].
  pose proof (worker_passes duration max_requests 0 s ltac:(lia) (goes_on_below _ Hc)) as Hst.
  match type of Hst with load_step _ _ _ ?t => destruct (IH t) as (s' & Hr & H1 & H2 & H3); [simpl; lia|simpl; lia|] end.
  exists s'. split; [by eapply steps_app; [apply steps_one, Hst|exact Hr]|]. simpl in *. lia.
Qed.
Lemma rounds n s : 0 < ls_idle s -> 0 <= ls_ready s -> ls_counter s + Z.of_nat n <= max_requests ->
  exists s', run s s' /\ ls_counter s' = ls_counter s + Z.of_nat n /\ ls_idle s' = ls_idle s /\ ls_ready s' = ls_ready s.
Proof.
  revert s. induction n as [|n IH]; intros s Hi Hr0 Hc; [exists s; split; [constructor|lia]|].
  destruct (passes 1 s) as (s1 & Hr1 & ? & ? & ?); [lia..|]. destruct (sends 1 s1) as (s2 & Hr2 & ? & ? & ?); [lia|].
  destruct (IH s2) as (s3 & Hr3 & ? & ? & ?); [lia..|]. exists s3. split; [|lia]. by eapply steps_app; [eapply steps_app|].
Qed.
End runs.

(** The requests of a run are numbered one after the other, each once.  A limit
    of requests is passed by at most one less than the workers, because a worker
    checks the counter before it takes its number, and there are runs that pass it
    by that much. *)
Theorem request_limit duration max_requests concurrency :
  0 <= duration -> 0 < max_requests -> 0 < concurrency ->
  (forall s, steps (load_step duration max_requests) (load_start concurrency) s ->
     ls_sent s = map Z.of_nat (seq 0 (Z.to_nat (ls_counter s))) /\ ls_counter s <= max_requests + concurrency - 1) /\
  exists s, steps (load_step duration max_requests) (load_start concurrency) s /\ ls_counter s = max_requests + concurrency - 1.
Proof.
  intros Hd Hm Hc. split.
  - intros s Hs. destruct (load_steps_inv duration max_requests concurrency s ltac:(lia) Hs) as [? ? ? Hb Hsent ?].
    split; [done|]. specialize (Hb Hm). lia.
  - destruct (rounds duration max_requests Hd (Z.to_nat (max_requests - 1)) (load_start concurrency)) as (s1 & R1 & ? & ? & ?); [simpl; lia..|].
    simpl in *. destruct (passes duration max_requests Hd (Z.to_nat concurrency) s1) as (s2 & R2 & ? & ? & ?); [lia..|].
    destruct (sends duration max_requests (Z.to_nat concurrency) s2) as (s3 & R3 & ? & ? & ?); [lia|].
    exists s3. split; [by eapply steps_app; [eapply steps_app|]|]. lia.
Qed.
Lemma request_limit_witness :
  exists s, steps (load_step 60000000 100) (load_start 10) s /\ ls_counter s = 109.
Proof. refine (proj2 (request_limit 60000000 100 10 _ _ _)); lia. Defined.
(** A duration of zero, described as no limit of time, ends every worker. *)
Lemma zero_duration elapsed max_requests counter : 0 < elapsed -> goes_on elapsed 0 max_requests counter = false.
Proof. intros He. unfold goes_on. lia. Qed.
Lemma ramp_up_range ramp_up concurrency w :
  0 <= ramp_up -> 0 <= w < concurrency -> 0 <= worker_delay ramp_up concurrency w <= ramp_up.
Proof.
  intros Hr Hw. unfold worker_delay. destruct (Z.ltb_spec 1 concurrency); [|lia]. split; [apply Z.div_pos; nia|].
  apply Z.div_le_upper_bound; nia.
Qed.

(** ** The counters *)
Section counters.
Variables (Histogram : Type) (hist_record : Z -> Histogram -> Histogram).
Notation record := (record_request Histogram hist_record).
Definition no_requests (h : Histogram) : LoadMetrics Histogram := {|
  lm_latency := h; lm_total := 0; lm_success := 0; lm_error := 0; lm_auth := 0; lm_server := 0; lm_client := 0; lm_network := 0;
  lm_hits := 0; lm_misses := 0 |}.
(** The number of results with a property, as a machine word. *)
Definition counted (p : RequestResult -> bool) (l : list (bool * RequestResult)) : Z :=
  Z.of_nat (length (List.filter (fun x => p (snd x)) l)) mod 2 ^ 64.
Definition recorded_requests (h : Histogram) (l : list (bool * RequestResult)) : LoadMetrics Histogram :=
  foldl (fun m x => record (fst x) (snd x) m) (no_requests h) l.

Lemma counted_snoc p l x : counted p (l ++ [x]) = bump (p (snd x)) (counted p l).
Proof.
  unfold counted, bump, wrapping_inc. rewrite List.filter_app, length_app. simpl. destruct (p (snd x)); simpl.
  - rewrite Zplus_mod_idemp_l. f_equal. lia.
  - f_equal. lia.
Qed.
(** Each counter has the number of the results it is about: all of them, the
    successes and the failures, the successes below and above fifteen milliseconds,
    and the failures by status, of which one class is refused authentication,
    errors of the server, other errors of the client, and no answer. *)
Theorem load_counters h l :
  let m := recorded_requests h l in
  let failed class r := negb (rr_success r) && (error_class (rr_status r) =? class) in
  lm_total _ m = counted (fun _ => true) l /\ lm_success _ m = counted rr_success l /\
  lm_error _ m = counted (fun r => negb (rr_success r)) l /\
  lm_auth _ m = counted (failed 0) l /\ lm_server _ m = counted (failed 1) l /\
  lm_client _ m = counted (failed 2) l /\ lm_network _ m = counted (failed 3) l /\
  lm_hits _ m = counted (fun r => rr_success r && (rr_duration r <? 15000)) l /\
  lm_misses _ m = counted (fun r => rr_success r && negb (rr_duration r <? 15000)) l.
Proof.
  induction l as [|x l IH] using rev_ind; [done|]. unfold recorded_requests in *. rewrite foldl_app. simpl.
  rewrite !counted_snoc. destruct IH as (-> & -> & -> & -> & -> & -> & -> & -> & ->). done.
Qed.
End counters.

(** ** The flow *)
(** The requests of the flow fit each other: the verifier of the second passes
    the server's check against the challenge of the first, and both name the same
    client and redirect URI. *)
Lemma flow_passes_pkce `{HD : Digests} base_url verifier code :
  let approve := approve_request base_url (snd (generate_pkce verifier)) in
  let token := token_request base_url code (fst (generate_pkce verifier)) in
  validate_pkce (lt_code_verifier token) (la_code_challenge approve) (la_code_challenge_method approve) = Ok tt /\
  lt_redirect_uri token = la_redirect_uri approve /\ lt_client_id token = la_client_id approve.
Proof. simpl. unfold validate_pkce. simpl. by rewrite bool_decide_true by done. Qed.
(** The session of the server's cookie is the one the client sends back. *)
Lemma session_cookie_back token max_age secure more :
  contains_char ";" token = false -> extract_session_cookie (Some (format_session_cookie token max_age secure) :: more) = Some token.
Proof.
  intros Ht. unfold extract_session_cookie, format_session_cookie. cbn [find_map mbind option_bind].
  rewrite (proj2 (strip_prefix_Some "keycast_session=" _ _) eq_refl). cbn [mbind option_bind].
  match goal with |- context [token +:+ ?x] => change x with (String ";" (" HttpOnly" +:+ (if secure then "; Secure" else "")
    +:+ "; SameSite=Lax; Path=/; Max-Age=" +:+ print_Z max_age)) end.
  by rewrite split_line.
Qed.

(** ** Reading the metrics *)
(** Visible ASCII characters *)
Fixpoint graphic (s : string) : bool :=
  match s with EmptyString => true | String c s' => (33 <=? byte_val c) && (byte_val c <=? 126) && graphic s' end.
Definition singles (s : string) : list string := map (fun c => String c "") (String.list_ascii_of_string s).
Lemma graphic_chars a rest :
  graphic a = true -> fst (chars_aux rest) = "" -> chars_aux (a +:+ rest) = ("", singles a ++ snd (chars_aux rest)).
Proof.
  intros Ha Hr. induction a as [|c a IH]; simpl in *.
  { change ("" +:+ rest) with rest. destruct (chars_aux rest). simpl in *. by subst. }
  apply andb_true_iff in Ha as [Hc Ha].
  change (String c a +:+ rest) with (String c (a +:+ rest)). simpl. rewrite IH by done. unfold is_continuation.
  by replace ((128 <=? byte_val c) && (byte_val c <? 192)) with false by lia.
Qed.
Lemma graphic_not_space c : (33 <=? byte_val c) && (byte_val c <=? 126) = true -> is_whitespace (String c "") = false.
Proof. destruct c as [[] [] [] [] [] [] [] []]; vm_compute; done. Qed.
Lemma graphic_word a cs : graphic a = true -> words_aux (singles a ++ cs) = (a +:+ fst (words_aux cs), snd (words_aux cs)).
Proof.
  intros Ha. induction a as [|c a IH]; simpl in *.
  { change ("" +:+ fst (words_aux cs)) with (fst (words_aux cs)). by destruct (words_aux cs). }
  apply andb_true_iff in Ha as [Hc Ha]. unfold singles in IH. rewrite IH by done.
  by rewrite graphic_not_space.
Qed.
Lemma two_words a b :
  graphic a = true -> graphic b = true -> a <> "" -> b <> "" -> split_whitespace (a +:+ " " +:+ b) = [a; b].
Proof.
  intros Ha Hb Hna Hnb. unfold split_whitespace, chars.
  pose proof (graphic_chars b "" Hb eq_refl) as Eb. rewrite app_empty_r in Eb. simpl in Eb. rewrite app_nil_r in Eb.
  assert (Es : chars_aux (" " +:+ b) = ("", " " :: singles b)) by (change (" " +:+ b) with (String " " b); simpl; by rewrite Eb).
  assert (Ea : fst (chars_aux (" " +:+ b)) = "") by (by rewrite Es).
  rewrite (graphic_chars a _ Ha Ea), Es. cbn [fst snd]. rewrite graphic_word by done.
  pose proof (graphic_word b [] Hb) as Ew. rewrite app_nil_r in Ew. simpl in Ew. rewrite app_empty_r in Ew.
  assert (Ew' : words_aux (" " :: singles b) = ("", [b])) by (cbn [words_aux]; rewrite Ew; cbn; by rewrite bool_decide_false).
  rewrite Ew'. cbn [fst snd]. rewrite app_empty_r. by rewrite bool_decide_false.
Qed.
Lemma graphic_no_char c s : graphic s = true -> ~ 33 <= byte_val c <= 126 -> contains_char c s = false.
Proof.
  intros Hs Hc. destruct (contains_char c s) eqn:E; [|done]. exfalso. apply contains_spec in E as (x & y & ->).
  induction x as [|b x IH]; simpl in Hs; apply andb_true_iff in Hs as [Hb Hs]; [lia|by apply IH].
Qed.
Lemma digits_graphic s a n : parse_digits s a = Some n -> graphic s = true.
Proof.
  revert a. induction s as [|c s IH]; intros a; simpl; [done|].
  destruct ((48 <=? byte_val c) && (byte_val c <=? 57)) eqn:E; [|done]. intros H%IH. rewrite H. lia.
Qed.

Lemma strip_cr_none s : contains_char "013" s = false -> strip_cr s = s.
Proof.
  intros H. unfold strip_cr. destruct (strip_suffix _ s) as [a|] eqn:E; [|done]. apply strip_suffix_spec in E as ->.
  rewrite contains_char_app in H. apply orb_false_iff in H as [_ H]. done.
Qed.
Lemma text_lines_cons s rest :
  contains_char nl s = false -> contains_char "013" s = false -> text_lines (line s +:+ rest) = s :: text_lines rest.
Proof.
  intros Hn Hc. unfold text_lines, line. rewrite app_assoc_str. change (String nl "" +:+ rest) with (String nl rest).
  rewrite split_line by done. destruct (split nl rest) as [|r l] eqn:E; [by apply split_nonempty in E|].
  change (last (s :: r :: l)) with (last (r :: l)). change (removelast (s :: r :: l)) with (s :: removelast (r :: l)).
  simpl. by rewrite strip_cr_none.
Qed.

Definition readable_entry (e : metric_entry) : bool :=
  graphic (me_name e) && negb (starts_with "#" (me_name e)) && negb (bool_decide (me_name e = ""))
  && negb (contains_char nl (me_help e)) && negb (contains_char "013" (me_help e)).
Lemma read_sample_line acc name n :
  graphic name = true -> starts_with "#" name = false -> name <> "" -> 0 <= n < 2 ^ 64 ->
  read_metric acc (name +:+ " " +:+ print_Z n) = <[name := n]> acc.
Proof.
  intros Hg Hs Hne Hn. destruct (print_word n Hn) as [Hd He]. unfold read_metric.
  rewrite two_words by (done || by eapply digits_graphic). rewrite parse_u64_print by done.
  destruct name as [|c name]; [done|]. unfold starts_with in *. simpl in *. by destruct (bool_decide ("#"%char = c)).
Qed.
Lemma read_entry m e rest acc :
  readable_entry e = true -> 0 <= m (me_metric e) < 2 ^ 64 ->
  foldl read_metric acc (text_lines (entry_text m e +:+ rest)) =
  foldl read_metric (<[me_name e := m (me_metric e)]> acc) (text_lines rest).
Proof.
  unfold readable_entry. intros H Hm. bool_to_prop. destruct (print_word _ Hm) as [Hd Hne]. pose proof (digits_graphic _ _ _ Hd) as Hg.
  assert (Hk : forall c, c ∈ [nl; "013"%char] -> contains_char c (kind_str (me_kind e)) = false) by (intros c Hc; destruct (me_kind e);
    repeat (apply elem_of_cons in Hc as [->|Hc]; [reflexivity|]); by apply elem_of_nil in Hc).
  assert (Hv : forall c s, c ∈ [nl; "013"%char] -> graphic s = true -> contains_char c s = false).
  { intros c s Hc Hs. apply graphic_no_char; [done|].
    repeat (apply elem_of_cons in Hc as [->|Hc]; [vm_compute; intros [H' _]; by apply H'|]). by apply elem_of_nil in Hc. }
  unfold entry_text. rewrite !app_assoc_str.
  rewrite !text_lines_cons by (repeat (rewrite contains_char_app; apply orb_false_iff; split); first [done|apply Hk; set_solver|apply Hv; [set_solver|done]]).
  cbn [foldl]. rewrite read_sample_line by done. done.
Qed.
Lemma read_entries m l acc :
  forallb readable_entry l = true -> (forall c, 0 <= m c < 2 ^ 64) ->
  foldl read_metric acc (text_lines (entries_text m l)) = foldl (fun a e => <[me_name e := m (me_metric e)]> a) acc l.
Proof.
  intros Hl Hm. revert acc. induction l as [|e l IH]; intros acc; [done|]. simpl in Hl. apply andb_true_iff in Hl as [He Hl].
  destruct l as [|e' l].
  - simpl. rewrite <- (app_empty_r (entry_text m e)). by rewrite read_entry.
  - change (entries_text m (e :: e' :: l)) with (entry_text m e +:+ line "" +:+ entries_text m (e' :: l)).
    rewrite read_entry, text_lines_cons by done. cbn [foldl]. by apply IH.
Qed.

(** The tool reads from the text of GET /metrics what the server counted since its
    start: the increments of the counters of the HTTP endpoint and the last size of
    its cache. *)
Theorem tool_reads_server_metrics ops :
  Forall word_op ops ->
  server_metrics_parse (snd (metrics_response (foldl run_op metrics_new ops))) = {|
    sm_requests_total := recorded ops http_rpc_requests_total mod 2 ^ 64;
    sm_cache_hits := recorded ops http_rpc_cache_hits mod 2 ^ 64;
    sm_cache_misses := recorded ops http_rpc_cache_misses mod 2 ^ 64;
    sm_cache_size := recorded ops http_rpc_cache_size mod 2 ^ 64;
    sm_success := recorded ops http_rpc_success mod 2 ^ 64;
    sm_auth_errors := recorded ops http_rpc_auth_errors mod 2 ^ 64 |}.
Proof.
  intros Hw. assert (Hv : forall c, foldl run_op metrics_new ops c = recorded ops c mod 2 ^ 64)
    by (intros c; by rewrite (run_ops_value ops metrics_new 0)).
  unfold server_metrics_parse, parse_prometheus_metrics, metrics_response, to_prometheus, snd.
  rewrite read_entries; [|vm_compute; reflexivity|intros c; rewrite Hv; by apply Z.mod_pos_bound].
  rewrite <- !Hv. generalize (foldl run_op metrics_new ops). intros m. vm_compute. reflexivity.
Qed.
Lemma tool_reads_server_metrics_witness :
  sm_cache_hits (server_metrics_parse (snd (metrics_response (foldl run_op metrics_new
    [Inc http_rpc_cache_hits; SetTo cache_size 12; Inc http_rpc_cache_hits])))) = 2.
Proof.
  rewrite (tool_reads_server_metrics [Inc http_rpc_cache_hits; SetTo cache_size 12; Inc http_rpc_cache_hits]); [reflexivity|].
  repeat constructor; lia.
Defined.
